(* ===== verification/_CoqProject ===== *)
-Q . S2P
Prelude.v
StRes.v
IeTlv.v
IeRsn.v
IeMisc.v
Crypto.v
Kdf.v
Handshake.v
EapolFrame.v
Eapol.v
EapolSpec.v
EapolAuth.v
EapolRun.v
Mpdu.v
Ecc.v
Sae.v
SaeSpec.v
SaePwe.v
SaeRun.v
SaeTest.v
Owe.v
OweSpec.v
OweTest.v
Ft.v
FtSpec.v
FtRun.v
FtTest.v
Eap.v
EapSpec.v
Mschap.v
EapMethods.v
EapRun.v
EapLogin.v
EapTest.v
Erp.v
ErpSpec.v
ErpCache.v
Fils.v
FilsSpec.v
FilsRun.v
FilsTest.v
Wsc.v
WscMsg.v
WscSafe.v
WscSpec.v
WscRun.v
WscFrames.v
WscPin.v
P2p.v
P2pMsg.v
P2pSafe.v
P2pSpec.v
P2pFields.v
P2pRun.v
P2pFrames.v
P2pFaults.v
