(* ===== verification/Prelude.v ===== *)
(** * iwd: a verification development

    iwd is the wireless daemon for Linux.  This library models, in the C code's own structure,
    the part of it that parses what comes over the air and that runs the authentication
    protocols, and proves what this code promises.  File names below are relative to src/.

    ** The parts of the program and how they interact

    A received management frame is checked by [mpdu_validate] (src/mpdu.c) and its elements are
    walked with the iterator of src/ie.c.  The authentication protocols SAE (src/sae.c) and OWE
    (src/owe.c) run on these frames: netdev.c creates the state machine, feeds it the frames and
    frees it, and their result is a PMK in the handshake state (src/handshake.c).  In an 802.1X
    network the PMK comes from an EAP conversation instead, which src/eapol.c carries, src/eap.c
    runs and the methods (src/eap-*.c) fill in.  From the PMK the 4-way handshake (src/eapol.c)
    derives the PTK with src/crypto.c, checks and builds EAPoL-Key frames, and hands the temporal
    and group keys to netdev.c through the installers of the handshake; the fast BSS transition
    (src/ft.c) derives them from the keys of an earlier association while it moves to another AP.
    FILS (src/fils.c) skips the 4-way handshake: the keys of an earlier EAP conversation are in
    the cache of src/erp.c, and the re-authentication messages travel in the frames of 802.11.
    Wi-Fi Simple Configuration hands a network's credentials to a new device: src/wscutil.c
    encodes and decodes its messages, which EAP and management frames carry.  Wi-Fi Direct finds
    and joins peers with the messages of src/p2putil.c, some of which carry attributes of WSC.
    The cryptographic primitives and the elliptic curves are those of ell.

    ** The files

    - Prelude.v (this file): results of C functions ([Ok], [Err], [Fault] for undefined
      behaviour, [Diverge] for fuel that ran out), integers at their width, byte buffers as
      pointers to the rest of their object ([rd], [rdn], [put] fault outside of it), record
      updates, the [safe] judgement and the tactics and hint database [iwd].
    - StRes.v: the state and error monad [sr] and its judgements [wp] (returns normally with a
      postcondition), [wpf] (the same, or a fault for a stated reason) and [wpl] (postcondition
      of the runs that return).
    - IeTlv.v, IeRsn.v, IeMisc.v: src/ie.c.  The iterator, the builder and the vendor payloads;
      the RSN, WPA and OSEN elements; mobility domain, FTE, neighbor report, roaming consortium
      and Hotspot 2.0 elements.  The grammar [elements_of] is the specification of the iterator.
    - Crypto.v, Kdf.v: src/crypto.c over the class [Ell] of ell's checksums and ciphers with the
      laws [EllLaws]; also ell/cert-crypto.c's PBKDF2.
    - Handshake.v: src/handshake.c, one record [handshake_state] and one definition per function.
    - EapolFrame.v, Eapol.v: src/eapolutil.c and src/eapol.c.  The layout of the frames and the
      state machine; the global state [st] holds the machine, the handshake and the log of
      effects, and a freed machine cannot be used.  EapolSpec.v: the abstract supplicant and the
      refinement; EapolAuth.v: the authenticator; EapolRun.v: complete runs and witnesses.
    - Mpdu.v: src/mpdu.c.
    - Ecc.v: the interface [Ecc] of ell/ecc.c with the laws of a cyclic group [EccLaws], and the
      encodings.  Sae.v: src/sae.c.  SaeSpec.v: the exchange of two stations; SaePwe.v: the
      search for the password element; SaeRun.v: sessions and their invariant; SaeTest.v: a
      curve of 17 points on which the theorems are instantiated.
    - Owe.v, OweSpec.v, OweTest.v: src/owe.c and ell/ecdh.c, with the heap objects of the session
      as [Null], [Live] or [Dangling] pointers.
    - Ft.v: src/ft.c.  FtSpec.v: what the keys installed at the end of a transition depend on;
      FtRun.v: the four messages of a transition; FtTest.v: a concrete one.
    - Eap.v: src/eap.c, over the callbacks of the methods; a freed object cannot be used.
      EapSpec.v: the contract between the framework, its methods and its owner as the classes
      [EapMethodsOk] and [EapOwner], and what they guarantee; Mschap.v: src/mschaputil.c, the
      UTF-8 of ell, and the MPPE keys; EapMethods.v: src/eap-md5.c, src/eap-gtc.c and
      src/eap-mschapv2.c; EapRun.v: the methods and src/eapol.c's callback keep the contract,
      so that conversations with them are safe;
      EapLogin.v: conversations with a server; EapTest.v: concrete ones.
    - Erp.v: src/erp.c, the cache as a heap of counted entries with the allocated entries of its
      queue (ell/queue.c), by their addresses, and the messages of RFC 6696.
      ErpSpec.v: the exchange with a server; ErpCache.v: the holders of entries.  Fils.v:
      src/fils.c.  FilsSpec.v: what an accepted association response proves; FilsRun.v: the keys
      after the authentication response; FilsTest.v: a concrete exchange.
    - Wsc.v: the attributes of src/wscutil.c, their iterators, decoders, table-driven parser and
      builder; WscMsg.v: the messages with their parsers and builders; WscPin.v: keys, PINs,
      device types and UUIDs (ell/uuid.c), with their theorems.  WscSafe.v: safety of the
      parsers; WscSpec.v: the encoding of attributes, which the builder writes and the parser
      reads; WscRun.v and WscFrames.v: the round trips of all messages.
    - P2p.v: the attributes of src/p2putil.c, their iterators, decoders with the memory they leave
      behind, parser and builder; P2pMsg.v: the messages with the functions that parse, free and
      build them, and random strings.  P2pSafe.v: safety of the parsers; P2pSpec.v: the encoding
      of attributes; P2pFields.v: what each kind of attribute is built from and read to; P2pRun.v
      and P2pFrames.v: the round trips of the messages in elements and in action frames;
      P2pFaults.v: the messages that go wrong.

    ** What the theorems show

    - EAPoL supplicant: every call of a frame handler is a step of an abstract machine
      ([eapol_supplicant_refines]); with it, a key is installed at most once per SNonce, replay
      counters strictly grow, and group keys in use are not reinstalled.
    - EAPoL authenticator: the PTK is installed only after an authentic message 4/4; its messages
      are accepted by the supplicant of the model and the other way round; retransmission ends.
    - SAE: two parties with the same password derive the same PMK and accept each other; a PMK
      is handed over only after a valid confirm; the constant-time search equals the plain one;
      no frame makes a session fault, with the exceptions that are stated, among them the NULL
      that ell returns for a derived value it does not take as a scalar.
    - OWE: every association response is handled without a fault and gives a PMK only in the one
      case RFC 8110 describes, then with the secret both sides share; retries are bounded.
    - FT: keys are installed only after a response with the MIC of the new PTK over its elements
      and nonces; the messages of an AP that has the keys are accepted, and the requests are the
      ones the standard asks for.
    - EAP: whatever packets and timeouts come, a peer does not fault, answers each request at
      most once and with its identifier, and reports at most one failure, as its last action;
      MSCHAPv2 reports success and hands over keys only on a valid authenticator response, and a
      server with the same password hash is accepted and derives the same keys; checked settings
      load into a well-formed peer; the NT hash and the DES keys are those of RFC 2759.
    - ERP and FILS: a server with the EMSK is accepted and both sides have the rMSK of RFC 6696;
      an AP with that rMSK shares PMK, ICK, KEK and TK of 802.11ai with the station; keys are
      installed only after its key confirmation, and the group keys are those it delivered; an
      entry of the cache that is held is not freed, and the search through the cache returns but
      for the entries that are named.
    - WSC: on any bytes every parser returns a structure or an error; every message, beacon,
      probe, credential and encrypted setting that is built is parsed into what it was built
      from; a generated PIN is valid, and its check digit shows the change of any digit.
    - P2P: on any bytes the parsers return a structure or an error, without a read out of bounds
      and without freeing a queue twice, but for the attributes that are named, and for these
      it is shown what goes wrong; the messages that are built are parsed into what they were
      built from, but for those that are shown to be refused.  Memory that is not freed is not
      tracked.
    - Elements and frames: parsers read only their input and return; the iterator visits exactly
      the elements of the grammar; builders and parsers are inverse to each other.
    - Cryptography: key wrap, SIV and the frame encryption are inverted by their counterparts;
      KDF, PRF, HKDF, PRF+ and PBKDF2 equal the recurrences of their standards.
    - Errors: the theorems named after a defect (double free, use after free, over-read,
      overflow) prove that the code reaches it, and from where.

    ** Bounds and fuel

    Loops over elements take [tlv_fuel], one more than the length of the buffer, because every
    element has at least two bytes; the theorems prove that it suffices.  The loops over WSC
    and P2P attributes take the length of the message, every attribute having three bytes or more, and
    the doubling of a builder's room takes the number of bytes to be written.  The search through
    the cache of src/erp.c takes the length of its queue.  The loops of HKDF, PRF+
    and PBKDF2 take one more than the number of bytes, each round producing at least one.  The
    password element search makes the 30 rounds of the code and the key pair generation its 20
    tries, so no fuel is involved.  The search for a random quadratic residue has no bound in
    the code: [residue_fuel] is part of the environment, and the theorems that need it assume
    that a residue comes up within it.
    The loop of [p2p_build_group_info] has none either: [p2p_group_info_endless] holds for every
    fuel, and the round trips are those of messages without clients.

    ** What is not modelled

    - ell's implementations of checksums and ciphers (they are computed by the kernel) and the
      multi-precision arithmetic of its curves: they are the classes [Ell] and [Ecc].
    - netdev.c, wiphy.c, station.c, ap.c, p2p.c and the other D-Bus and netlink code: their calls
      into the modelled components are the transitions of the reachability relations.
    - Pre-authentication and the watch lists of src/eapol.c, and the parts of src/ie.c on data
      rates, HT and VHT capabilities.
    - The EAP methods on TLS, SIM, AKA, PWD and WSC, scanning, storage, the client,
      the monitor and the tools. *)

From stdpp Require Import base numbers list option.
From Stdlib Require Import ZArith Lia.

Open Scope Z_scope.

(** ** C results

    [Ok v] is a normal return, [Err e] a [return -e], [Fault] undefined
    behaviour (a read or a write outside of an object, a NULL dereference) and
    [Diverge] the exhaustion of the fuel of a loop.  A function is shown safe by
    showing that it returns neither of the last two. *)

Inductive errno : Type :=
  | ENOENT | EINVAL | EBADMSG | ERANGE | EMSGSIZE | EPROTOTYPE | ENOTSUP
  | EAGAIN | ENOPROTOOPT | EEXIST | EALREADY | EIO.

#[export] Instance errno_eq_dec : EqDecision errno.
Proof. solve_decision. Defined.

Inductive res (A : Type) : Type :=
  | Ok (a : A)
  | Err (e : errno)
  | Fault
  | Diverge.
Arguments Ok {A} a.
Arguments Err {A} e.
Arguments Fault {A}.
Arguments Diverge {A}.

#[export] Instance res_ret : MRet res := @Ok.
#[export] Instance res_bind : MBind res := fun A B f m =>
  match m with
  | Ok a => f a
  | Err e => Err e
  | Fault => Fault
  | Diverge => Diverge
  end.
#[export] Instance res_fmap : FMap res := fun A B f m =>
  match m with
  | Ok a => Ok (f a)
  | Err e => Err e
  | Fault => Fault
  | Diverge => Diverge
  end.

(** The function returned to its caller. *)
Definition returns {A} (m : res A) : Prop :=
  match m with Ok _ | Err _ => True | Fault | Diverge => False end.

(** The value of a normal return, and a postcondition on it. *)
Definition res_post {A} (P : A → Prop) (m : res A) : Prop :=
  match m with Ok a => P a | _ => True end.

Definition is_ok {A} (m : res A) : bool :=
  match m with Ok _ => true | _ => false end.

Lemma bind_ok {A B} (a : A) (f : A → res B) : (Ok a ≫= f) = f a.
Proof. done. Qed.

Lemma bind_err {A B} e (f : A → res B) : (Err e ≫= f) = Err e.
Proof. done. Qed.

Lemma bind_fault {A B} (f : A → res B) : (Fault ≫= f) = Fault.
Proof. done. Qed.

Lemma bind_Ok_inv {A B} (m : res A) (f : A → res B) b :
  (m ≫= f) = Ok b → ∃ a, m = Ok a ∧ f a = Ok b.
Proof. destruct m; simpl; naive_solver. Qed.

Lemma bind_assoc {A B C} (m : res A) (f : A → res B) (g : B → res C) :
  ((m ≫= f) ≫= g) = (m ≫= λ a, f a ≫= g).
Proof. by destruct m. Qed.

Lemma returns_bind {A B} (m : res A) (f : A → res B) :
  returns m → (∀ a, m = Ok a → returns (f a)) → returns (m ≫= f).
Proof. destruct m; simpl; naive_solver. Qed.

Create HintDb iwd.
Create Rewrite HintDb iwd.
#[export] Hint Rewrite @bind_ok @bind_err @bind_fault : iwd.
#[export] Hint Resolve returns_bind : iwd.

(** ** Integers at their width *)

Definition u8 (z : Z) : Z := z mod 2 ^ 8.
Definition u16 (z : Z) : Z := z mod 2 ^ 16.
Definition u32 (z : Z) : Z := z mod 2 ^ 32.
Definition u64 (z : Z) : Z := z mod 2 ^ 64.

Lemma u8_small z : 0 ≤ z < 256 → u8 z = z.
Proof. intros; apply Z.mod_small; lia. Qed.

Lemma u16_small z : 0 ≤ z < 65536 → u16 z = z.
Proof. intros; apply Z.mod_small; lia. Qed.

Lemma u32_small z : 0 ≤ z < 2 ^ 32 → u32 z = z.
Proof. intros; apply Z.mod_small; lia. Qed.

Lemma u64_small z : 0 ≤ z < 2 ^ 64 → u64 z = z.
Proof. intros; apply Z.mod_small; lia. Qed.

Lemma u8_range z : 0 ≤ u8 z < 256.
Proof. apply (Z.mod_pos_bound z 256). lia. Qed.

Lemma u16_range z : 0 ≤ u16 z < 65536.
Proof. apply (Z.mod_pos_bound z 65536). lia. Qed.

Lemma u64_range z : 0 ≤ u64 z < 2 ^ 64.
Proof. apply Z.mod_pos_bound. lia. Qed.

#[export] Hint Rewrite u8_small u16_small u32_small u64_small using lia : iwd.

(** ** Bytes and read-only memory

    A read-only pointer is the list of the bytes from its address to the end of
    the object it points into: [p + n] is [padd p n], and reading past the end of
    the list is undefined behaviour. *)

Abbreviation ptr := (list Z).

Definition byte_ok (b : Z) : Prop := 0 ≤ b < 256.
Abbreviation bytes_ok := (Forall byte_ok).

#[export] Instance byte_ok_dec b : Decision (byte_ok b).
Proof. unfold byte_ok. apply _. Defined.

Definition zlen {A} (l : list A) : Z := Z.of_nat (length l).
Definition padd {A} (p : list A) (n : Z) : list A := drop (Z.to_nat n) p.
Definition ptake {A} (p : list A) (n : Z) : list A := take (Z.to_nat n) p.

Declare Scope iwd_scope.
Delimit Scope iwd_scope with iwd.
Infix "+!" := padd (at level 50, left associativity) : iwd_scope.
Open Scope iwd_scope.

(** One byte: [p[i]]. *)
Definition rd (p : ptr) (i : Z) : res Z :=
  if i <? 0 then Fault
  else match p !! Z.to_nat i with Some b => Ok b | None => Fault end.

(** The [n] bytes at [p] (the source of a [memcpy]). *)
Definition rdn (p : ptr) (n : Z) : res (list Z) :=
  if (0 <=? n) && (n <=? zlen p) then Ok (ptake p n) else Fault.

(** [memcmp(p, q, n) == 0] against the [n] bytes [q]. *)
Definition memeq (p : ptr) (q : list Z) : res bool :=
  b ← rdn p (zlen q); Ok (bool_decide (b = q)).

Definition le16_of (a b : Z) : Z := a + b * 256.
Definition be16_of (a b : Z) : Z := a * 256 + b.

(** [l_get_le16] and [l_get_be16]. *)
Definition l_get_le16 (p : ptr) : res Z :=
  a ← rd p 0; b ← rd p 1; Ok (le16_of a b).
Definition l_get_be16 (p : ptr) : res Z :=
  a ← rd p 0; b ← rd p 1; Ok (be16_of a b).

Definition le16_bytes (v : Z) : list Z := [u8 v; u8 (v / 256)].
Definition be16_bytes (v : Z) : list Z := [u8 (v / 256); u8 v].

(** A pointer that must not be NULL. *)
Definition nonnull {A} (p : option A) : res A := match p with Some a => Ok a | None => Fault end.

(** ** Record updates

    [r <| f := v |>] is [r] with the field [f] set to [v].  A record type declares its
    eta-expansion as an instance of [Eta]; the setter of a field is derived from it. *)
Class Eta (R : Type) : Type := eta : R → R.
Class SetterOf {R T : Type} (proj : R → T) : Type := set_field : T → R → R.
Arguments set_field {R T} proj {_} v r.

Ltac derive_setter :=
  match goal with
  | |- @SetterOf ?R ?T ?proj =>
      intros v r;
      let t := constr:(eta r) in
      let t := eval unfold eta in t in
      let t := eval hnf in t in
      let t := eval pattern (proj r) in t in
      match t with ?f _ => let b := eval cbv beta in (f v) in exact b end
  end.

Notation "r <| f := v |>" := (set_field f v r) (at level 1, f at level 0, left associativity,
  format "r  <| f  :=  v |>") : iwd_scope.

(** ** Lists measured in [Z] *)

Section zlist.
Context {A : Type}.
Implicit Types (l k : list A) (n m : Z).

Lemma zlen_nonneg l : 0 ≤ zlen l.
Proof. unfold zlen; lia. Qed.

Lemma zlen_nil : zlen (@nil A) = 0.
Proof. done. Qed.

Lemma zlen_cons x l : zlen (x :: l) = 1 + zlen l.
Proof. unfold zlen; simpl; lia. Qed.

Lemma zlen_app l k : zlen (l ++ k) = zlen l + zlen k.
Proof. unfold zlen; rewrite length_app; lia. Qed.

Lemma zlen_replicate n x : 0 ≤ n → zlen (replicate (Z.to_nat n) x : list A) = n.
Proof. intros; unfold zlen; rewrite length_replicate; lia. Qed.

Lemma zlen_0_inv l : zlen l = 0 → l = [].
Proof. destruct l; unfold zlen; simpl; [done | lia]. Qed.

Lemma zlen_padd l n : 0 ≤ n ≤ zlen l → zlen (l +! n) = zlen l - n.
Proof. unfold zlen, padd; rewrite length_drop; lia. Qed.

Lemma zlen_ptake l n : 0 ≤ n ≤ zlen l → zlen (ptake l n) = n.
Proof. unfold zlen, ptake; rewrite length_take; lia. Qed.

Lemma zlen_padd_max l n : 0 ≤ n → zlen (l +! n) = Z.max 0 (zlen l - n).
Proof. unfold zlen, padd; rewrite length_drop; lia. Qed.

Lemma zlen_ptake_min l n : 0 ≤ n → zlen (ptake l n) = Z.min n (zlen l).
Proof. unfold zlen, ptake; rewrite length_take; lia. Qed.

Lemma padd_0 l : l +! 0 = l.
Proof. done. Qed.

Lemma padd_padd l n m : 0 ≤ n → 0 ≤ m → l +! n +! m = l +! (n + m).
Proof. intros; unfold padd; rewrite drop_drop; f_equal; lia. Qed.

Lemma padd_app l k n : n = zlen l → (l ++ k) +! n = k.
Proof. intros ->; unfold padd, zlen; by rewrite Nat2Z.id, drop_app_length. Qed.

Lemma padd_app_le l k n : n ≤ zlen l → (l ++ k) +! n = (l +! n) ++ k.
Proof. intros. unfold padd, zlen in *. by rewrite drop_app_le by lia. Qed.

Lemma padd_app_ge l k n : zlen l ≤ n → (l ++ k) +! n = k +! (n - zlen l).
Proof.
  intros; unfold padd, zlen in *; rewrite drop_app_ge by lia. f_equal; lia.
Qed.

Lemma padd_all l n : zlen l ≤ n → l +! n = [].
Proof. intros; unfold padd, zlen in *; apply drop_ge; lia. Qed.

Lemma ptake_app l k n : n = zlen l → ptake (l ++ k) n = l.
Proof. intros ->; unfold ptake, zlen; by rewrite Nat2Z.id, take_app_length. Qed.

Lemma ptake_app_ge l k n : zlen l ≤ n → ptake (l ++ k) n = l ++ ptake k (n - zlen l).
Proof. intros. unfold ptake, zlen in *. rewrite take_app_ge by lia. do 2 f_equal. lia. Qed.

Lemma ptake_all l n : zlen l ≤ n → ptake l n = l.
Proof. intros; unfold ptake, zlen in *; apply take_ge; lia. Qed.

Lemma ptake_padd_id l n : ptake l n ++ (l +! n) = l.
Proof. apply take_drop. Qed.

Lemma ptake_app_split l n m :
  0 ≤ n → 0 ≤ m → ptake l (n + m) = ptake l n ++ ptake (l +! n) m.
Proof.
  intros; unfold ptake, padd. rewrite Z2Nat.inj_add by lia.
  by rewrite take_take_drop.
Qed.

Lemma ptake_Forall (P : A → Prop) l n : Forall P l → Forall P (ptake l n).
Proof. apply Forall_take. Qed.

Lemma padd_Forall (P : A → Prop) l n : Forall P l → Forall P (l +! n).
Proof. apply Forall_drop. Qed.

End zlist.

#[export] Hint Rewrite @zlen_nil @zlen_cons @zlen_app @padd_0 : iwd.
#[export] Hint Resolve zlen_nonneg ptake_Forall padd_Forall Forall_app_2 : iwd.

(** Lengths are not negative. *)
Ltac znn :=
  repeat match goal with
  | |- context [zlen ?l] =>
      assert_fails (idtac; match goal with H : 0 ≤ zlen l |- _ => idtac end);
      pose proof (zlen_nonneg l)
  | H : context [zlen ?l] |- _ =>
      assert_fails (idtac; match goal with H : 0 ≤ zlen l |- _ => idtac end);
      pose proof (zlen_nonneg l)
  end.

#[export] Hint Rewrite @zlen_padd_max @zlen_ptake_min using (znn; lia) : iwd.

(** [lia] after computing the lengths of explicit lists. *)
Ltac zlia := autorewrite with iwd in *; znn; try done; lia.

(** ** Reads *)

Lemma rd_inv p i b : rd p i = Ok b → 0 ≤ i < zlen p ∧ p !! Z.to_nat i = Some b.
Proof.
  unfold rd, zlen; intros H; case_match eqn:E; [done |].
  destruct (p !! Z.to_nat i) as [x|] eqn:L; simplify_eq.
  apply Z.ltb_ge in E. pose proof (lookup_lt_Some _ _ _ L). split; [lia | done].
Qed.

Lemma rd_in p i : 0 ≤ i < zlen p → ∃ b, rd p i = Ok b ∧ p !! Z.to_nat i = Some b.
Proof.
  unfold rd, zlen; intros H. destruct (Z.ltb_spec i 0); [lia |].
  destruct (lookup_lt_is_Some_2 p (Z.to_nat i)) as [b Hb]; [lia |].
  exists b. by rewrite Hb.
Qed.

Lemma rd_byte_ok p i b : bytes_ok p → rd p i = Ok b → byte_ok b.
Proof. intros Hp [_ Hb]%rd_inv. by eapply Forall_lookup_1. Qed.

Lemma rd_returns p i : 0 ≤ i < zlen p → returns (rd p i).
Proof. intros H. by destruct (rd_in p i H) as (b & -> & _). Qed.

Lemma rd_cons_0 b p : rd (b :: p) 0 = Ok b.
Proof. done. Qed.

Lemma rd_padd p n i : 0 ≤ n → 0 ≤ i → rd (p +! n) i = rd p (n + i).
Proof.
  intros; unfold rd, padd. destruct (Z.ltb_spec i 0), (Z.ltb_spec (n + i) 0); try lia.
  rewrite lookup_drop. by replace (Z.to_nat n + Z.to_nat i)%nat with (Z.to_nat (n + i)) by lia.
Qed.

Lemma rd_app_r l k i : zlen l ≤ i → rd (l ++ k) i = rd k (i - zlen l).
Proof.
  unfold zlen, rd; intros. destruct (Z.ltb_spec i 0), (Z.ltb_spec (i - Z.of_nat (length l)) 0); try lia.
  rewrite lookup_app_r by lia. by replace (Z.to_nat i - length l)%nat
    with (Z.to_nat (i - Z.of_nat (length l))) by lia.
Qed.

Lemma rd_app_l l k i : 0 ≤ i < zlen l → rd (l ++ k) i = rd l i.
Proof.
  unfold zlen, rd; intros. destruct (Z.ltb_spec i 0); [lia |].
  by rewrite lookup_app_l by lia.
Qed.

Lemma rdn_ok p n : 0 ≤ n ≤ zlen p → rdn p n = Ok (ptake p n).
Proof.
  intros; unfold rdn. destruct (Z.leb_spec 0 n), (Z.leb_spec n (zlen p)); done || lia.
Qed.

Lemma rdn_inv p n l : rdn p n = Ok l → 0 ≤ n ≤ zlen p ∧ l = ptake p n.
Proof.
  unfold rdn. destruct (Z.leb_spec 0 n), (Z.leb_spec n (zlen p)); simpl; naive_solver.
Qed.

Lemma rdn_app p l n : n = zlen p → rdn (p ++ l) n = Ok p.
Proof.
  intros ->. rewrite rdn_ok, ptake_app; [done.. |].
  rewrite zlen_app. pose proof (zlen_nonneg p); pose proof (zlen_nonneg l); lia.
Qed.

Lemma memeq_ok p q : zlen q ≤ zlen p → memeq p q = Ok (bool_decide (ptake p (zlen q) = q)).
Proof.
  intros. unfold memeq. rewrite rdn_ok by (pose proof (zlen_nonneg q); lia). done.
Qed.

Lemma memeq_app q p : memeq (q ++ p) q = Ok true.
Proof. unfold memeq. rewrite rdn_app by done. simpl. by rewrite bool_decide_true. Qed.

Lemma memeq_app_ne q q' p : zlen q' = zlen q → q' ≠ q → memeq (q' ++ p) q = Ok false.
Proof. intros. unfold memeq. rewrite rdn_app by done. simpl. by rewrite bool_decide_false. Qed.

Lemma l_get_le16_in p : 2 ≤ zlen p → ∃ v, l_get_le16 p = Ok v.
Proof.
  intros; unfold l_get_le16. destruct (rd_in p 0) as (a & -> & _); [lia |].
  destruct (rd_in p 1) as (b & -> & _); [lia |]. eauto.
Qed.

Lemma l_get_le16_range p v : bytes_ok p → l_get_le16 p = Ok v → 0 ≤ v < 65536 ∧ 2 ≤ zlen p.
Proof.
  intros Hp H. unfold l_get_le16 in H.
  apply bind_Ok_inv in H as (a & Ha & H). apply bind_Ok_inv in H as (b & Hb & H).
  simplify_eq/=. pose proof (rd_byte_ok _ _ _ Hp Ha); pose proof (rd_byte_ok _ _ _ Hp Hb).
  destruct (rd_inv _ _ _ Hb). unfold le16_of, byte_ok in *. lia.
Qed.

Lemma l_get_le16_bytes v p : 0 ≤ v < 65536 → l_get_le16 (le16_bytes v ++ p) = Ok v.
Proof.
  intros. unfold l_get_le16, le16_bytes; simpl. f_equal. unfold le16_of.
  rewrite (u8_small (v / 256)) by (split; [apply Z.div_pos | apply Z.div_lt_upper_bound]; lia).
  unfold u8. change (2 ^ 8) with 256. pose proof (Z_div_mod_eq_full v 256). lia.
Qed.

Lemma l_get_be16_bytes v p : 0 ≤ v < 65536 → l_get_be16 (be16_bytes v ++ p) = Ok v.
Proof.
  intros. unfold l_get_be16, be16_bytes; simpl. f_equal. unfold be16_of.
  rewrite (u8_small (v / 256)) by (split; [apply Z.div_pos | apply Z.div_lt_upper_bound]; lia).
  unfold u8. change (2 ^ 8) with 256. pose proof (Z_div_mod_eq_full v 256). lia.
Qed.

Lemma le16_bytes_ok v : bytes_ok (le16_bytes v).
Proof. unfold le16_bytes. repeat constructor; apply u8_range. Qed.

#[export] Hint Resolve le16_bytes_ok : iwd.

(** ** Writable memory

    A writable object is the list of its bytes.  [put buf pos l] is
    [memcpy(buf + pos, l, length l)]; a write that leaves the object is undefined
    behaviour. *)

Definition put (buf : list Z) (pos : Z) (l : list Z) : res (list Z) :=
  if (0 <=? pos) && (pos + zlen l <=? zlen buf)
  then Ok (ptake buf pos ++ l ++ (buf +! (pos + zlen l)))
  else Fault.

(** [buf[pos] = v] for an [unsigned char] buffer. *)
Definition put1 (buf : list Z) (pos v : Z) : res (list Z) := put buf pos [u8 v].

Lemma put_ok buf pos l :
  0 ≤ pos → pos + zlen l ≤ zlen buf →
  put buf pos l = Ok (ptake buf pos ++ l ++ (buf +! (pos + zlen l))).
Proof.
  intros. unfold put. destruct (Z.leb_spec 0 pos); [| lia].
  by destruct (Z.leb_spec (pos + zlen l) (zlen buf)); [| lia].
Qed.

(** Overwriting the middle of a buffer seen as three parts. *)
Lemma put_mid pre mid post l pos :
  pos = zlen pre → zlen mid = zlen l →
  put (pre ++ mid ++ post) pos l = Ok (pre ++ l ++ post).
Proof.
  intros -> Hm. pose proof (zlen_nonneg pre). pose proof (zlen_nonneg post).
  rewrite put_ok by (rewrite ?zlen_app; lia).
  rewrite ptake_app by done. rewrite padd_app_ge by (pose proof (zlen_nonneg l); lia).
  by rewrite padd_app by lia.
Qed.

Lemma put_head mid post l : zlen mid = zlen l → put (mid ++ post) 0 l = Ok (l ++ post).
Proof. intros. by apply (put_mid [] mid post l 0). Qed.

Lemma put_length buf pos l buf' : put buf pos l = Ok buf' → zlen buf' = zlen buf.
Proof.
  unfold put. destruct (Z.leb_spec 0 pos), (Z.leb_spec (pos + zlen l) (zlen buf)); simpl;
    intros; simplify_eq.
  pose proof (zlen_nonneg l). rewrite !zlen_app, zlen_ptake, zlen_padd by lia. lia.
Qed.

(** Appending at the end of the written part of a buffer. *)
Lemma put_next pre rest l pos :
  pos = zlen pre → zlen l ≤ zlen rest →
  put (pre ++ rest) pos l = Ok ((pre ++ l) ++ (rest +! zlen l)).
Proof.
  intros -> Hl. pose proof (zlen_nonneg l).
  rewrite <- (ptake_padd_id rest (zlen l)) at 1.
  rewrite put_mid by (rewrite ?zlen_ptake; lia). by rewrite app_assoc.
Qed.

(** The first write at the start of a buffer. *)
Lemma put_first buf l : zlen l ≤ zlen buf → put buf 0 l = Ok (l ++ (buf +! zlen l)).
Proof. intros. by apply (put_next [] buf l 0). Qed.

Lemma put_bytes_ok buf pos l buf' :
  bytes_ok buf → bytes_ok l → put buf pos l = Ok buf' → bytes_ok buf'.
Proof.
  unfold put. intros Hb Hl. case_match; intros; simplify_eq. auto with iwd.
Qed.

(** ** ell's bit helpers (ell/useful.h) *)

Definition test_bit (p : ptr) (bit : Z) : res bool :=
  b ← rd p (bit / 8); Ok (negb (Z.land b (Z.shiftl 1 (bit mod 8)) =? 0)).

Definition bit_field (oct start n_bits : Z) : Z :=
  let mask := u8 (Z.shiftl 1 n_bits - 1) in
  u8 (Z.land (Z.shiftr oct start) mask).

Definition align_len (len boundary : Z) : Z :=
  Z.land (len + boundary - 1) (Z.lnot (boundary - 1)).

Definition minsize (a b : Z) : Z := if a <=? b then a else b.

Lemma land_bit_testbit b n : 0 ≤ n → negb (Z.land b (Z.shiftl 1 n) =? 0) = Z.testbit b n.
Proof.
  intros Hn. rewrite Z.shiftl_1_l. destruct (Z.testbit b n) eqn:E.
  - apply negb_true_iff, Z.eqb_neq. intros H.
    apply (f_equal (λ z, Z.testbit z n)) in H.
    by rewrite Z.land_spec, E, Z.pow2_bits_true, Z.bits_0 in H by done.
  - apply negb_false_iff, Z.eqb_eq, Z.bits_inj'. intros m Hm.
    rewrite Z.land_spec, Z.bits_0, Z.pow2_bits_eqb by done.
    destruct (Z.eqb_spec n m) as [->|]; [by rewrite E | apply andb_false_r].
Qed.

Lemma test_bit_ok p bit b :
  0 ≤ bit → rd p (bit / 8) = Ok b → test_bit p bit = Ok (Z.testbit b (bit mod 8)).
Proof.
  intros Hb Hr. unfold test_bit. rewrite Hr. simpl. rewrite land_bit_testbit; [done |].
  apply Z.mod_pos_bound; lia.
Qed.

Lemma bit_field_spec oct start n :
  0 ≤ n ≤ 8 → bit_field oct start n = Z.shiftr oct start mod 2 ^ n.
Proof.
  intros Hn. unfold bit_field.
  assert (0 < 2 ^ n ≤ 256) as Hp.
  { split; [apply Z.pow_pos_nonneg; lia | apply (Z.pow_le_mono_r 2 n 8); lia]. }
  rewrite Z.shiftl_1_l, (u8_small (2 ^ n - 1)) by lia.
  replace (2 ^ n - 1) with (Z.ones n) by (rewrite Z.ones_equiv; lia).
  rewrite Z.land_ones by lia. apply u8_small.
  pose proof (Z.mod_pos_bound (Z.shiftr oct start) (2 ^ n)). lia.
Qed.

Lemma bit_field_range oct start n : 0 ≤ n ≤ 8 → 0 ≤ bit_field oct start n < 2 ^ n.
Proof.
  intros. rewrite bit_field_spec by done. apply Z.mod_pos_bound, Z.pow_pos_nonneg; lia.
Qed.

(** ** Tactics *)

(** A closed decidable proposition, by evaluation. *)
Ltac by_eval := apply (bool_decide_unpack _); vm_compute; exact I.

(** Case on the boolean comparisons of a goal or of the hypotheses, turning each
    into the fact it decides. *)
Ltac case_b :=
  match goal with
  | |- context [?a =? ?b] => destruct (Z.eqb_spec a b)
  | |- context [?a <? ?b] => destruct (Z.ltb_spec a b)
  | |- context [?a <=? ?b] => destruct (Z.leb_spec a b)
  | H : context [?a =? ?b] |- _ => destruct (Z.eqb_spec a b)
  | H : context [?a <? ?b] |- _ => destruct (Z.ltb_spec a b)
  | H : context [?a <=? ?b] |- _ => destruct (Z.leb_spec a b)
  end.

(** Split a successful sequence of calls into its steps. *)
Ltac inv_bind H :=
  let a := fresh "r" in
  let Ha := fresh "Hr" in
  apply bind_Ok_inv in H as (a & Ha & H).

(** Show that a sequence of reads returns. *)
Ltac ret_rd :=
  match goal with
  | |- returns (rd _ _ ≫= _) =>
      apply returns_bind; [apply rd_returns | intros ? ?]
  end.

(** Evaluate the reads at constant offsets of a list whose head is explicit. *)
Ltac rd_eval :=
  repeat match goal with
  | |- context [rd (?a :: ?l) ?i] =>
      let x := constr:(rd (a :: l) i) in
      let y := eval cbv [rd lookup list_lookup Z.to_nat Pos.to_nat Pos.iter_op Nat.add
                         Init.Nat.add Z.ltb Z.compare Pos.compare Pos.compare_cont] in x in
      lazymatch y with Ok _ => change x with y end
  end; rewrite ?bind_ok.

(** Consecutive writes that fill a buffer from its start. *)
Ltac put_seq :=
  unfold put1;
  rewrite put_first by zlia; rewrite ?bind_ok;
  repeat (rewrite put_next by zlia; rewrite ?bind_ok).

(** Fresh memory of [l_malloc]: its contents are unspecified, [fresh] gives them. *)
Definition l_malloc (fresh : nat → Z) (n : Z) : list Z := fresh <$> seq 0 (Z.to_nat n).

Lemma l_malloc_length fresh n : 0 ≤ n → zlen (l_malloc fresh n) = n.
Proof. intros. unfold l_malloc, zlen. rewrite length_fmap, length_seq. lia. Qed.

Lemma l_malloc_lookup fresh n i : 0 ≤ i < n → l_malloc fresh n !! Z.to_nat i = Some (fresh (Z.to_nat i)).
Proof.
  intros. unfold l_malloc. rewrite list_lookup_fmap, lookup_seq_lt by lia. done.
Qed.

(** What a write leaves alone, and what it stores. *)
Lemma put_lookup_ne buf pos l buf' i :
  put buf pos l = Ok buf' → 0 ≤ i → i < pos ∨ pos + zlen l ≤ i →
  buf' !! Z.to_nat i = buf !! Z.to_nat i.
Proof.
  unfold put. destruct (Z.leb_spec 0 pos), (Z.leb_spec (pos + zlen l) (zlen buf)); simpl;
    intros E Hi Hne; simplify_eq. unfold ptake, padd, zlen in *.
  destruct Hne as [Hlt|Hge].
  - rewrite lookup_app_l by (rewrite length_take; lia). apply lookup_take_lt; lia.
  - rewrite lookup_app_r by (rewrite length_take; lia).
    rewrite lookup_app_r by (rewrite length_take; lia). rewrite lookup_drop, length_take.
    f_equal. lia.
Qed.

Lemma put_lookup_eq buf pos l buf' i :
  put buf pos l = Ok buf' → pos ≤ i < pos + zlen l →
  buf' !! Z.to_nat i = l !! Z.to_nat (i - pos).
Proof.
  unfold put. destruct (Z.leb_spec 0 pos), (Z.leb_spec (pos + zlen l) (zlen buf)); simpl;
    intros E Hi; simplify_eq. unfold ptake, padd, zlen in *.
  rewrite lookup_app_r by (rewrite length_take; lia).
  rewrite lookup_app_l by (rewrite length_take; lia). rewrite length_take. f_equal. lia.
Qed.

Lemma put_returns buf pos l : 0 ≤ pos → pos + zlen l ≤ zlen buf → ∃ buf', put buf pos l = Ok buf'.
Proof. intros. rewrite put_ok by done. eauto. Qed.

(** ** Safety with a postcondition

    [safe P m]: [m] neither faults nor diverges, and a value it returns is in [P]. *)
Definition safe {A} (P : A → Prop) (m : res A) : Prop :=
  match m with Ok a => P a | Err _ => True | Fault | Diverge => False end.

Lemma safe_returns {A} (P : A → Prop) m : safe P m → returns m.
Proof. by destruct m. Qed.

Lemma safe_mono {A} (P Q : A → Prop) m : safe P m → (∀ a, P a → Q a) → safe Q m.
Proof. destruct m; simpl; auto. Qed.

Lemma safe_bind {A B} (P : A → Prop) (Q : B → Prop) (m : res A) (f : A → res B) :
  safe P m → (∀ a, P a → safe Q (f a)) → safe Q (m ≫= f).
Proof. destruct m; simpl; auto. Qed.

Lemma safe_Ok {A} (P : A → Prop) a : P a → safe P (Ok a).
Proof. done. Qed.

Lemma safe_Err {A} (P : A → Prop) e : safe P (Err e).
Proof. done. Qed.

Lemma safe_ok_inv {A} (P : A → Prop) m a : safe P m → m = Ok a → P a.
Proof. by intros H ->. Qed.

Lemma safe_rd p i : bytes_ok p → 0 ≤ i < zlen p → safe byte_ok (rd p i).
Proof.
  intros Hp Hi. destruct (rd_in p i Hi) as (b & Hb & _). rewrite Hb. simpl.
  by eapply rd_byte_ok.
Qed.

Lemma safe_rdn p n : bytes_ok p → 0 ≤ n ≤ zlen p → safe (λ l, bytes_ok l ∧ zlen l = n) (rdn p n).
Proof. intros. rewrite rdn_ok by done. simpl. split; [auto with iwd | by apply zlen_ptake]. Qed.

Lemma safe_memeq p q : zlen q ≤ zlen p → safe (λ _, True) (memeq p q).
Proof. intros. by rewrite memeq_ok. Qed.

Lemma safe_le16 p : bytes_ok p → 2 ≤ zlen p → safe (λ v, 0 ≤ v < 65536) (l_get_le16 p).
Proof.
  intros Hp Hl. destruct (l_get_le16_in p Hl) as [v Hv]. rewrite Hv. simpl.
  by destruct (l_get_le16_range p v Hp Hv).
Qed.

Lemma safe_test_bit p bit : 0 ≤ bit → bit / 8 < zlen p → safe (λ _, True) (test_bit p bit).
Proof.
  intros Hb Hl. destruct (rd_in p (bit / 8)) as (b & Hr & _).
  - split; [apply Z.div_pos; lia | done].
  - by erewrite test_bit_ok.
Qed.

Create HintDb safe.
#[export] Hint Resolve safe_Ok safe_Err safe_rd safe_rdn safe_memeq safe_le16 safe_test_bit : safe.

(** Step over the next call of a sequence. *)
Ltac safe_step :=
  match goal with
  | |- safe _ (rd _ _ ≫= _) => eapply safe_bind; [apply safe_rd; [auto with iwd | zlia] | let H := fresh "Hv" in intros ? H; cbv beta in H]
  | |- safe _ (rdn _ _ ≫= _) => eapply safe_bind; [apply safe_rdn; [auto with iwd | zlia] | intros ? [? ?]]
  | |- safe _ (memeq _ _ ≫= _) => eapply safe_bind; [apply safe_memeq; zlia | intros ? _]
  | |- safe _ (l_get_le16 _ ≫= _) =>
      eapply safe_bind; [apply safe_le16; [auto with iwd | zlia] | let H := fresh "Hv" in intros ? H; cbv beta in H]
  | |- safe _ (test_bit _ ?b ≫= _) =>
      let i := eval cbv in (b / 8) in
      eapply safe_bind; [apply safe_test_bit; [lia | change (b / 8) with i; zlia] | intros ? _]
  | |- safe _ (Err _) => exact I
  end.

(** A property of the members of an explicit list, by evaluation of the list. *)
Lemma Forall_elem {A} (P : A → Prop) l x : Forall P l → x ∈ l → P x.
Proof. intros Hl Hx. rewrite Forall_forall in Hl. by apply Hl, list_elem_of_In. Qed.

(** ** Bit masks as sets *)

Definition subset_mask (a m : Z) : Prop := Z.land a m = a.

#[export] Instance subset_mask_dec a m : Decision (subset_mask a m).
Proof. unfold subset_mask. apply _. Defined.

Lemma subset_mask_lor a b m : subset_mask a m → subset_mask b m → subset_mask (Z.lor a b) m.
Proof. unfold subset_mask. intros Ha Hb. by rewrite Z.land_lor_distr_l, Ha, Hb. Qed.

Lemma subset_mask_0 m : subset_mask 0 m.
Proof. unfold subset_mask. apply Z.land_0_l. Qed.

#[export] Hint Resolve subset_mask_lor subset_mask_0 : iwd.
