(* ===== verification/StRes.v ===== *)
(** * Stateful code that can fail

    [sr S A]: a function that runs in a state [S] and returns an [A], an error, or does not
    return normally ([Fault], [Diverge]).  Used for the components whose state is one
    structure (src/sae.c, src/owe.c). *)

From stdpp Require Import base numbers list option.
From Stdlib Require Import ZArith Lia.
From S2P Require Import Prelude.

Definition sr (S A : Type) : Type := S → res (A * S).

#[export] Instance sr_ret {S} : MRet (sr S) := λ A a s, Ok (a, s).
#[export] Instance sr_bind {S} : MBind (sr S) := λ A B f m s,
  match m s with
  | Ok (a, s') => f a s'
  | Err e => Err e
  | Fault => Fault
  | Diverge => Diverge
  end.

Section ops.
Context {S : Type}.

Definition get : sr S S := λ s, Ok (s, s).
Definition modify (f : S → S) : sr S unit := λ s, Ok (tt, f s).
Definition run {A} (m : res A) : sr S A := λ s,
  match m with Ok a => Ok (a, s) | Err e => Err e | Fault => Fault | Diverge => Diverge end.
Definition pass : sr S unit := mret tt.

(** The outcome of a computation: it returns normally and what it returns is in [Q]. *)
Definition wp {A} (m : sr S A) (Q : A → S → Prop) (s : S) : Prop :=
  match m s with Ok (a, s') => Q a s' | _ => False end.

(** The same for a computation that may also fault, but only if [N]. *)
Definition wpf {A} (N : Prop) (m : sr S A) (Q : A → S → Prop) (s : S) : Prop :=
  match m s with Ok (a, s') => Q a s' | Fault => N | _ => False end.

(** The same for the runs that return, whatever else may happen. *)
Definition wpl {A} (m : sr S A) (Q : A → S → Prop) (s : S) : Prop :=
  match m s with Ok (a, s') => Q a s' | _ => True end.

Lemma wp_bind {A B} (m : sr S A) (f : A → sr S B) Q s :
  wp m (λ a, wp (f a) Q) s → wp (m ≫= f) Q s.
Proof. unfold wp, mbind, sr_bind. by destruct (m s) as [[a s']| | |]. Qed.

Lemma wpl_bind {A B} (m : sr S A) (f : A → sr S B) Q s :
  wpl m (λ a, wpl (f a) Q) s → wpl (m ≫= f) Q s.
Proof. unfold wpl, mbind, sr_bind. by destruct (m s) as [[a s']| | |]. Qed.

Lemma wp_mono {A} (m : sr S A) (P Q : A → S → Prop) s :
  wp m P s → (∀ a s', P a s' → Q a s') → wp m Q s.
Proof. unfold wp. destruct (m s) as [[a s']| | |]; auto. Qed.

Lemma wpl_mono {A} (m : sr S A) (P Q : A → S → Prop) s :
  wpl m P s → (∀ a s', P a s' → Q a s') → wpl m Q s.
Proof. unfold wpl. destruct (m s) as [[a s']| | |]; auto. Qed.

Lemma wp_ok {A} (m : sr S A) (Q : A → S → Prop) s a s' : m s = Ok (a, s') → Q a s' → wp m Q s.
Proof. unfold wp. by intros ->. Qed.

Lemma wp_inv {A} (m : sr S A) (Q : A → S → Prop) s :
  wp m Q s → ∃ a s', m s = Ok (a, s') ∧ Q a s'.
Proof. unfold wp. destruct (m s) as [[a s']| | |]; try done. eauto. Qed.

Lemma wp_eq {A} (m : sr S A) s a s' : wp m (λ b t, b = a ∧ t = s') s → m s = Ok (a, s').
Proof. unfold wp. destruct (m s) as [[b t]| | |]; try done. by intros [-> ->]. Qed.

(** A run that returns, and what is known of the runs that do. *)
Lemma wp_wpl {A} (m : sr S A) (Q R : A → S → Prop) s :
  wp m (λ _ _, True) s → wpl m Q s → (∀ a t, Q a t → R a t) → wp m R s.
Proof. unfold wp, wpl. destruct (m s) as [[a s']| | |]; try done. auto. Qed.

Lemma wpl_ret {A} (a : A) (Q : A → S → Prop) s : Q a s → wpl (mret a) Q s.
Proof. done. Qed.
Lemma wpl_pass (Q : unit → S → Prop) s : Q tt s → wpl pass Q s.
Proof. done. Qed.
Lemma wpl_get (Q : S → S → Prop) s : Q s s → wpl get Q s.
Proof. done. Qed.
Lemma wpl_modify f (Q : unit → S → Prop) s : Q tt (f s) → wpl (modify f) Q s.
Proof. done. Qed.
Lemma wpl_run {A} (m : res A) (Q : A → S → Prop) s : (∀ a, m = Ok a → Q a s) → wpl (run m) Q s.
Proof. unfold wpl, run. destruct m; auto. Qed.

Lemma wp_ret {A} (a : A) (Q : A → S → Prop) s : Q a s → wp (mret a) Q s.
Proof. done. Qed.
Lemma wp_pass (Q : unit → S → Prop) s : Q tt s → wp pass Q s.
Proof. done. Qed.
Lemma wp_get (Q : S → S → Prop) s : Q s s → wp get Q s.
Proof. done. Qed.
Lemma wp_modify f (Q : unit → S → Prop) s : Q tt (f s) → wp (modify f) Q s.
Proof. done. Qed.
Lemma wp_run {A} (m : res A) (Q : A → S → Prop) s a : m = Ok a → Q a s → wp (run m) Q s.
Proof. unfold wp, run. by intros ->. Qed.

Lemma wpf_bind {A B} N (m : sr S A) (f : A → sr S B) Q s :
  wpf N m (λ a, wpf N (f a) Q) s → wpf N (m ≫= f) Q s.
Proof. unfold wpf, mbind, sr_bind. by destruct (m s) as [[a s']| | |]. Qed.
Lemma wpf_wp {A} N (m : sr S A) Q s : wp m Q s → wpf N m Q s.
Proof. unfold wp, wpf. by destruct (m s) as [[a s']| | |]. Qed.
Lemma wpf_mono {A} N (m : sr S A) (P Q : A → S → Prop) s :
  wpf N m P s → (∀ a s', P a s' → Q a s') → wpf N m Q s.
Proof. unfold wpf. destruct (m s) as [[a s']| | |]; auto. Qed.
Lemma wpf_wpl {A} N (m : sr S A) (Q R : A → S → Prop) s :
  wpf N m (λ _ _, True) s → wpl m Q s → (∀ a t, Q a t → R a t) → wpf N m R s.
Proof. unfold wpf, wpl. destruct (m s) as [[a s']| | |]; try done. auto. Qed.
Lemma wpf_ret {A} N (a : A) (Q : A → S → Prop) s : Q a s → wpf N (mret a) Q s.
Proof. done. Qed.
Lemma wpf_get N (Q : S → S → Prop) s : Q s s → wpf N get Q s.
Proof. done. Qed.
Lemma wpf_modify N f (Q : unit → S → Prop) s : Q tt (f s) → wpf N (modify f) Q s.
Proof. done. Qed.
Lemma wpf_run {A} N (m : res A) (Q : A → S → Prop) s a : m = Ok a → Q a s → wpf N (run m) Q s.
Proof. unfold wpf, run. by intros ->. Qed.

Lemma sr_bind_ok {A B} (m : sr S A) (f : A → sr S B) s a s' : m s = Ok (a, s') → (m ≫= f) s = f a s'.
Proof. intros Hm. unfold mbind, sr_bind. by rewrite Hm. Qed.
Lemma sr_bind_fault {A B} (m : sr S A) (f : A → sr S B) s : m s = Fault → (m ≫= f) s = Fault.
Proof. intros Hm. unfold mbind, sr_bind. by rewrite Hm. Qed.
Lemma run_bind_ok {A B} (m : res A) (f : A → sr S B) s a : m = Ok a → (run m ≫= f) s = f a s.
Proof. by intros ->. Qed.
End ops.

(** One instruction of a [wpl], [wp] or [wpf] goal. *)
Ltac sr_step :=
  lazymatch goal with
  | |- wpl (_ ≫= _) _ _ => apply wpl_bind
  | |- wpl (mret _) _ _ => apply wpl_ret
  | |- wpl pass _ _ => apply wpl_pass
  | |- wpl get _ _ => apply wpl_get
  | |- wpl (modify _) _ _ => apply wpl_modify
  | |- wpl (run _) _ _ => apply wpl_run; let H := fresh "Hr" in intros ? H
  | |- wpl (if ?b then _ else _) _ _ => let H := fresh "Hb" in destruct b eqn:H
  | |- wpl (match ?x with _ => _ end) _ _ => let H := fresh "Hx" in destruct x eqn:H
  | |- wp (_ ≫= _) _ _ => apply wp_bind
  | |- wp (mret _) _ _ => apply wp_ret
  | |- wp pass _ _ => apply wp_pass
  | |- wp get _ _ => apply wp_get
  | |- wp (modify _) _ _ => apply wp_modify
  | |- wp (if ?b then _ else _) _ _ => let H := fresh "Hb" in destruct b eqn:H
  | |- wp (match ?x with _ => _ end) _ _ => let H := fresh "Hx" in destruct x eqn:H
  | |- wpf _ (_ ≫= _) _ _ => apply wpf_bind
  | |- wpf _ (mret _) _ _ => apply wpf_ret
  | |- wpf _ get _ _ => apply wpf_get
  | |- wpf _ (modify _) _ _ => apply wpf_modify
  | |- wpf _ (if ?b then _ else _) _ _ => let H := fresh "Hb" in destruct b eqn:H
  | |- wpf _ (match ?x with _ => _ end) _ _ => let H := fresh "Hx" in destruct x eqn:H
  end.

(** All the instructions of a [wp] or [wpf] goal that need no choice. *)
Ltac sr_seq :=
  repeat lazymatch goal with
  | |- wp (_ ≫= _) _ _ => apply wp_bind
  | |- wp (mret _) _ _ => apply wp_ret
  | |- wp pass _ _ => apply wp_pass
  | |- wp get _ _ => apply wp_get
  | |- wp (modify _) _ _ => apply wp_modify
  | |- wpf _ (_ ≫= _) _ _ => apply wpf_bind
  | |- wpf _ (mret _) _ _ => apply wpf_ret
  | |- wpf _ get _ _ => apply wpf_get
  | |- wpf _ (modify _) _ _ => apply wpf_modify
  end.

(** The integers returned: 0, [-EBADMSG], [-EAGAIN] or a status code. *)
Definition BADMSG : Z := -74.
Definition AGAIN : Z := -11.
