(* ===== verification/IeTlv.v ===== *)
(** * Information element iteration and construction (src/ie.c, src/ie.h)

    The tag/length/value iterator [ie_tlv_iter], the builder [ie_tlv_builder] and
    the vendor element concatenation and encapsulation of src/ie.c.

    The specification is the grammar [elements_of]: a byte string is cut, from the
    left, into as many encoded elements as possible. *)

From stdpp Require Import base numbers list option.
From Stdlib Require Import ZArith Lia.
From S2P Require Import Prelude.

Open Scope Z_scope.

Definition IE_TYPE_RSN : Z := 48.
Definition IE_TYPE_VENDOR_SPECIFIC : Z := 221.
Definition IE_TYPE_EXTENSION : Z := 255.

Definition ieee_oui : list Z := [0x00; 0x0f; 0xac].
Definition microsoft_oui : list Z := [0x00; 0x50; 0xf2].
Definition wifi_alliance_oui : list Z := [0x50; 0x6f; 0x9a].

(** ** The iterator *)

Record ie_tlv_iter : Type := mk_iter {
  it_max : Z;
  it_pos : Z;
  it_tlv : ptr;
  it_tag : Z;
  it_len : Z;
  it_data : ptr;
}.

(** [tag], [len] and [data] are not set by the function: they hold whatever the
    stack held, and every caller reads them only after a successful
    [ie_tlv_iter_next]. *)
Definition ie_tlv_iter_init (tlv : ptr) (len : Z) : ie_tlv_iter :=
  mk_iter len 0 tlv 0 0 [].

Definition ie_tlv_iter_recurse (iter : ie_tlv_iter) : ie_tlv_iter :=
  mk_iter (it_len iter) 0 (it_data iter) 0 0 [].

(** [None] is a [false] return, which leaves the iterator as it was. *)
Definition ie_tlv_iter_next (iter : ie_tlv_iter) : res (option ie_tlv_iter) :=
  let pos := it_pos iter in
  let max := it_max iter in
  let tlv := it_tlv iter in
  let accept tag len off :=
    if max <? off + len then Ok None
    else Ok (Some (mk_iter max (off + len) tlv tag len (tlv +! off))) in
  if max <=? u32 (pos + 1) then Ok None
  else
    tag ← rd tlv pos;
    len ← rd tlv (pos + 1);
    if tag =? IE_TYPE_EXTENSION then
      if (max <=? u32 (pos + 2)) || (len <? 1) then Ok None
      else ext ← rd tlv (pos + 2); accept (256 + ext) (len - 1) (pos + 3)
    else accept tag len (pos + 2).

(** [ie_tlv_iter_get_data(&iter) - 2]: the header of an element with a tag of one byte *)
Definition iter_header (it : ie_tlv_iter) : ptr := it_tlv it +! (it_pos it - it_len it - 2).

(** [while (ie_tlv_iter_next(&iter)) body], where the body may leave the loop. *)
Inductive ctl (T : Type) : Type := Next (s : T) | Stop (s : T).
Arguments Next {T} s.
Arguments Stop {T} s.

Fixpoint tlv_while {T} (fuel : nat) (body : ie_tlv_iter → T → res (ctl T))
    (iter : ie_tlv_iter) (s : T) : res T :=
  match fuel with
  | O => Diverge
  | S fuel' =>
      r ← ie_tlv_iter_next iter;
      match r with
      | None => Ok s
      | Some iter' =>
          c ← body iter' s;
          match c with
          | Next s' => tlv_while fuel' body iter' s'
          | Stop s' => Ok s'
          end
      end
  end.

(** Every successful step consumes at least two bytes, so this is enough. *)
Definition tlv_fuel (len : Z) : nat := S (Z.to_nat len).

Definition tlv_loop {T} (body : ie_tlv_iter → T → res (ctl T)) (tlv : ptr) (len : Z)
    (s : T) : res T :=
  tlv_while (tlv_fuel len) body (ie_tlv_iter_init tlv len) s.

(** ** The grammar of elements *)

Definition elem : Type := Z * list Z.

Definition tlv_encode (e : elem) : list Z :=
  let '(tag, data) := e in
  if tag <? 256 then tag :: zlen data :: data
  else IE_TYPE_EXTENSION :: zlen data + 1 :: tag - 256 :: data.

Definition tlv_encode_all (es : list elem) : list Z := concat (tlv_encode <$> es).

(** What one element can carry: 255 bytes, or 254 for an extended element. *)
Definition elem_ok (e : elem) : Prop :=
  let '(tag, data) := e in
  bytes_ok data ∧
  ((0 ≤ tag < 255 ∧ zlen data ≤ 255) ∨ (256 ≤ tag < 512 ∧ zlen data ≤ 254)).

#[export] Instance elem_ok_dec e : Decision (elem_ok e).
Proof. destruct e; unfold elem_ok. apply _. Defined.

Definition no_elem (bs : list Z) : Prop :=
  ∀ e rest, elem_ok e → bs ≠ tlv_encode e ++ rest.

Inductive elements_of : list Z → list elem → list Z → Prop :=
  | elements_stop bs : no_elem bs → elements_of bs [] bs
  | elements_step e bs es rest :
      elem_ok e → elements_of bs es rest → elements_of (tlv_encode e ++ bs) (e :: es) rest.

(** The iterator as it stands after an element has been read at [pos]. *)
Definition visited (max pos : Z) (tlv : ptr) (e : elem) (after : ptr) : ie_tlv_iter :=
  mk_iter max (pos + zlen (tlv_encode e)) tlv e.1 (zlen e.2) (e.2 ++ after).

Lemma tlv_encode_length e :
  zlen (tlv_encode e) = (if e.1 <? 256 then 2 else 3) + zlen e.2.
Proof. destruct e as [t d]; simpl. case_match; rewrite !zlen_cons; lia. Qed.

Lemma tlv_encode_bytes_ok e : elem_ok e → bytes_ok (tlv_encode e).
Proof.
  destruct e as [t d]; intros [Hd Ht]; simpl. pose proof (zlen_nonneg d).
  unfold IE_TYPE_EXTENSION. case_b; repeat constructor; auto; lia.
Qed.

(** One step of the iterator over an encoded element. *)
Lemma next_encode max pos tlv e after tag len data :
  elem_ok e → 0 ≤ pos → max < 2 ^ 32 - 1 →
  tlv +! pos = tlv_encode e ++ after →
  pos + zlen (tlv_encode e) ≤ max →
  ie_tlv_iter_next (mk_iter max pos tlv tag len data) = Ok (Some (visited max pos tlv e after)).
Proof.
  intros He Hp Hmax Hbs Hfit. destruct e as [t d].
  destruct He as [Hd Ht]. pose proof (zlen_nonneg d) as Hz.
  assert (Hrd : ∀ i, 0 ≤ i → rd tlv (pos + i) = rd (tlv_encode (t, d) ++ after) i).
  { intros i Hi. rewrite <- Hbs, rd_padd by lia. done. }
  rewrite tlv_encode_length in Hfit; simpl in Hfit.
  unfold ie_tlv_iter_next; cbn [it_max it_pos it_tlv].
  unfold visited; rewrite tlv_encode_length; cbn [fst snd].
  rewrite !u32_small by (case_b; lia).
  rewrite <- (Z.add_0_r pos) at 2. rewrite !Hrd by lia. unfold tlv_encode.
  assert (Hoff : ∀ n, 0 ≤ n → tlv +! (pos + n) = (tlv_encode (t, d) ++ after) +! n).
  { intros n Hn. rewrite <- Hbs, padd_padd; done || lia. }
  destruct (Z.ltb_spec t 256) as [Hlt|Hge]; cbn [app].
  - destruct (Z.leb_spec max (pos + 1)); [lia |]. rewrite rd_cons_0, bind_ok.
    change (rd (t :: zlen d :: d ++ after) 1) with (Ok (zlen d)). rewrite bind_ok.
    destruct (Z.eqb_spec t IE_TYPE_EXTENSION) as [->|]; [unfold IE_TYPE_EXTENSION in Ht; lia |].
    destruct (Z.ltb_spec max (pos + 2 + zlen d)); [lia |].
    rewrite Hoff by lia. unfold tlv_encode. destruct (Z.ltb_spec t 256); [| lia].
    do 3 f_equal; lia.
  - destruct (Z.leb_spec max (pos + 1)); [lia |]. rewrite rd_cons_0, bind_ok.
    change (rd (IE_TYPE_EXTENSION :: zlen d + 1 :: t - 256 :: d ++ after) 1)
      with (Ok (zlen d + 1)).
    change (rd (IE_TYPE_EXTENSION :: zlen d + 1 :: t - 256 :: d ++ after) 2)
      with (Ok (t - 256)).
    rewrite !bind_ok. destruct (Z.eqb_spec IE_TYPE_EXTENSION IE_TYPE_EXTENSION); [| done].
    destruct (Z.leb_spec max (pos + 2)); [lia |].
    destruct (Z.ltb_spec (zlen d + 1) 1); [lia |]. cbn [orb].
    destruct (Z.ltb_spec max (pos + 3 + (zlen d + 1 - 1))); [lia |].
    rewrite Hoff by lia. unfold tlv_encode. destruct (Z.ltb_spec t 256); [lia |].
    do 3 f_equal; lia.
Qed.

(** The four ways in which no element starts at [bs]: too short for a header, a body
    longer than what is left, and the same two for extended elements. *)
Definition stops (bs : list Z) : Prop :=
  zlen bs < 2 ∨
  (∃ a b l, bs = a :: b :: l ∧ a ≠ IE_TYPE_EXTENSION ∧ zlen l < b) ∨
  (∃ b, bs = [IE_TYPE_EXTENSION; b]) ∨
  (∃ b x l, bs = IE_TYPE_EXTENSION :: b :: x :: l ∧ (b < 1 ∨ zlen l < b - 1)).

Lemma stops_no_elem bs : stops bs → no_elem bs.
Proof.
  intros H [t d] rest [Hd Ht] ->. pose proof (zlen_nonneg d). pose proof (zlen_nonneg rest).
  unfold tlv_encode, IE_TYPE_EXTENSION in *.
  destruct (Z.ltb_spec t 256), H as [H|[(a & b & l & H & ? & ?)|[(b & H)|(b & x & l & H & ?)]]];
    cbn in H; rewrite ?zlen_app, ?zlen_cons in *; simplify_eq;
    unfold stops, IE_TYPE_EXTENSION in *; rewrite ?zlen_app in *; lia.
Qed.

Lemma elem_or_stops bs :
  bytes_ok bs → stops bs ∨ ∃ e bs', elem_ok e ∧ bs = tlv_encode e ++ bs'.
Proof.
  intros Hok. destruct bs as [|a [|b l]]; [left; by left.. |].
  inversion_clear Hok as [|?? Ha Hok1]; inversion_clear Hok1 as [|?? Hb Hl].
  unfold byte_ok in Ha, Hb. destruct (Z.eq_dec a IE_TYPE_EXTENSION) as [->|Hne].
  - destruct l as [|x l]; [left; do 2 right; left; by exists b |].
    inversion_clear Hl as [|?? Hx Hl'].
    destruct (decide (b < 1 ∨ zlen l < b - 1)); [left; do 3 right; by exists b, x, l |].
    right. exists (256 + x, ptake l (b - 1)), (l +! (b - 1)). unfold byte_ok in Hx.
    unfold elem_ok, tlv_encode. rewrite zlen_ptake by lia.
    split; [split; [auto with iwd | lia] |]. case_b; [lia |]. cbn [app].
    rewrite ptake_padd_id. by replace (b - 1 + 1) with b by lia;
      replace (256 + x - 256) with x by lia.
  - destruct (decide (zlen l < b)); [left; right; left; by exists a, b, l |].
    right. exists (a, ptake l b), (l +! b). unfold IE_TYPE_EXTENSION in Hne.
    unfold elem_ok, tlv_encode. rewrite zlen_ptake by lia.
    split; [split; [auto with iwd | lia] |]. case_b; [| lia]. cbn [app].
    by rewrite ptake_padd_id.
Qed.

Lemma next_stop max pos tlv bs tail tag len data :
  stops bs → 0 ≤ pos → max = pos + zlen bs → max < 2 ^ 32 - 1 → tlv +! pos = bs ++ tail →
  ie_tlv_iter_next (mk_iter max pos tlv tag len data) = Ok None.
Proof.
  intros Hs Hp -> Hlt Htlv. pose proof (zlen_nonneg bs).
  assert (Hrd : ∀ i, 0 ≤ i → rd tlv (pos + i) = rd (bs ++ tail) i).
  { intros i Hi. by rewrite <- Htlv, rd_padd by lia. }
  unfold ie_tlv_iter_next; cbn [it_max it_pos it_tlv].
  rewrite (u32_small (pos + 1)) by lia. destruct (Z.leb_spec (pos + zlen bs) (pos + 1)); [done |].
  rewrite (u32_small (pos + 2)) by lia.
  rewrite <- (Z.add_0_r pos) at 1. rewrite !Hrd by lia.
  destruct Hs as [?|[(a & b & l & -> & Ha & Hl)|[(b & ->)|(b & x & l & -> & Hl)]]]; [lia |..];
    rewrite !zlen_cons in *; cbn [app]; rd_eval; cbn [orb].
  - destruct (Z.eqb_spec a IE_TYPE_EXTENSION); [done |]. case_b; [done | lia].
  - rewrite Z.eqb_refl, zlen_nil. destruct (Z.leb_spec (pos + (1 + (1 + 0))) (pos + 2)); [done | lia].
  - rewrite Z.eqb_refl. repeat (case_b; cbn; try done); lia.
Qed.

(** The iterator's step is decided by the bytes up to [max]: it stops exactly when no
    element starts there, and never reads beyond them. *)
Lemma next_spec max pos tlv bs tail tag len data :
  bytes_ok bs → 0 ≤ pos → max = pos + zlen bs → max < 2 ^ 32 - 1 →
  tlv +! pos = bs ++ tail →
  (ie_tlv_iter_next (mk_iter max pos tlv tag len data) = Ok None ∧ no_elem bs) ∨
  (∃ e bs', elem_ok e ∧ bs = tlv_encode e ++ bs' ∧
     ie_tlv_iter_next (mk_iter max pos tlv tag len data) =
       Ok (Some (visited max pos tlv e (bs' ++ tail)))).
Proof.
  intros Hok Hp Hmax Hlt Htlv.
  destruct (elem_or_stops bs Hok) as [Hs|(e & bs' & He & ->)].
  - left. split; [by eapply next_stop | by apply stops_no_elem].
  - right. exists e, bs'. split; [done |]. split; [done |].
    apply next_encode; [done..| by rewrite Htlv, app_assoc |].
    rewrite zlen_app in Hmax. pose proof (zlen_nonneg bs'). lia.
Qed.

(** ** The loop over the elements *)

Lemma tlv_encode_inj e e' bs bs' :
  elem_ok e → elem_ok e' → tlv_encode e ++ bs = tlv_encode e' ++ bs' → e = e' ∧ bs = bs'.
Proof.
  destruct e as [t d], e' as [t' d']; intros [_ Ht] [_ Ht'] E.
  unfold tlv_encode, IE_TYPE_EXTENSION in E.
  assert (zlen d = zlen d' → d ++ bs = d' ++ bs' → d = d' ∧ bs = bs') as Happ.
  { unfold zlen; intros. apply app_inj_1; [lia | done]. }
  destruct (Z.ltb_spec t 256), (Z.ltb_spec t' 256); cbn in E; injection E; intros;
    try lia; (destruct Happ as [-> ->]; [lia | done |]); split; f_equal; lia.
Qed.

Lemma elements_unique bs es rest es' rest' :
  elements_of bs es rest → elements_of bs es' rest' → es = es' ∧ rest = rest'.
Proof.
  intros H; revert es' rest'. induction H as [bs Hn|e bs es rest He H IH]; intros es' rest' H'.
  - inversion H' as [|e' bs' es2 rest2 He' H2]; subst; [done | by destruct (Hn e' bs')].
  - inversion H' as [bs0 Hn|e' bs' es2 rest2 He' H2 Heq]; subst; [by destruct (Hn e bs) |].
    apply tlv_encode_inj in Heq as [-> ->]; [| done..].
    by destruct (IH _ _ H2) as [-> ->].
Qed.

Lemma elements_total bs : bytes_ok bs → ∃ es rest, elements_of bs es rest.
Proof.
  remember (length bs) as n eqn:Hn. revert bs Hn.
  induction n as [n IH] using lt_wf_ind; intros bs -> Hok.
  destruct (elem_or_stops bs Hok) as [Hs|(e & bs' & He & ->)].
  - exists [], bs. constructor. by apply stops_no_elem.
  - destruct (IH (length bs')) with (bs := bs') as (es & rest & H); [| done | |].
    + pose proof (tlv_encode_length e) as Hl. pose proof (zlen_nonneg e.2).
      unfold zlen in *. rewrite length_app. case_match; lia.
    + by apply Forall_app in Hok as [_ ?].
    + exists (e :: es), rest. by constructor.
Qed.

Lemma elements_of_encode es rest :
  Forall elem_ok es → no_elem rest → elements_of (tlv_encode_all es ++ rest) es rest.
Proof.
  intros Hes Hn. unfold tlv_encode_all. induction Hes as [|e es He Hes IH]; csimpl.
  - by constructor.
  - rewrite <- app_assoc. by constructor.
Qed.

Lemma elements_concat bs es rest : elements_of bs es rest → bs = tlv_encode_all es ++ rest.
Proof.
  unfold tlv_encode_all. induction 1 as [|e bs es rest He H IH]; csimpl; [done |].
  by rewrite <- app_assoc, <- IH.
Qed.

(** The iterators a loop over the elements [es] goes through. *)
Fixpoint visits (max pos : Z) (tlv : ptr) (es : list elem) (after : ptr) : list ie_tlv_iter :=
  match es with
  | [] => []
  | e :: es' =>
      visited max pos tlv e (tlv_encode_all es' ++ after)
        :: visits max (pos + zlen (tlv_encode e)) tlv es' after
  end.

(** A loop body run over a list of iterators. *)
Fixpoint ctl_fold {T} (body : ie_tlv_iter → T → res (ctl T)) (its : list ie_tlv_iter)
    (s : T) : res T :=
  match its with
  | [] => Ok s
  | it :: its' =>
      c ← body it s;
      match c with Next s' => ctl_fold body its' s' | Stop s' => Ok s' end
  end.

Lemma tlv_while_visits {T} (body : ie_tlv_iter → T → res (ctl T)) bs es rest :
  elements_of bs es rest →
  ∀ fuel max pos tlv tail tag len data s,
  bytes_ok bs → 0 ≤ pos → max = pos + zlen bs → max < 2 ^ 32 - 1 →
  tlv +! pos = bs ++ tail → (Z.to_nat (zlen bs) < fuel)%nat →
  tlv_while fuel body (mk_iter max pos tlv tag len data) s =
    ctl_fold body (visits max pos tlv es (rest ++ tail)) s.
Proof.
  induction 1 as [bs Hn|e bs es rest He Hes IH];
    intros fuel max pos tlv tail tag len data s Hok Hp Hmax Hlt Htlv Hfuel;
    (destruct fuel as [|fuel]; [lia |]); cbn [tlv_while visits ctl_fold].
  - destruct (next_spec max pos tlv bs tail tag len data) as [[-> _]|(e & bs' & He & E & _)];
      [done.. | by destruct (Hn e bs')].
  - pose proof (zlen_nonneg bs). pose proof (tlv_encode_length e). pose proof (zlen_nonneg e.2).
    rewrite zlen_app in *. apply Forall_app in Hok as [_ Hok].
    rewrite (next_encode max pos tlv e (bs ++ tail)); [| done.. | by rewrite Htlv, app_assoc | lia].
    rewrite bind_ok. rewrite app_assoc, <- (elements_concat _ _ _ Hes).
    destruct (body _ s) as [c|c| |]; [| done..]. rewrite !bind_ok.
    destruct c as [s'|s']; [| done]. unfold visited at 1.
    apply IH; [done | case_match; lia | lia.. | | case_match; lia].
    rewrite <- padd_padd by (case_match; lia). by rewrite Htlv, <- app_assoc, padd_app.
Qed.

(** A loop over the elements of [bs] terminates, reads nothing beyond [bs], and runs
    its body on the iterators of the elements of [bs]. *)
Lemma tlv_loop_visits {T} (body : ie_tlv_iter → T → res (ctl T)) bs es rest tail s :
  elements_of bs es rest → bytes_ok bs → zlen bs < 2 ^ 32 - 1 →
  tlv_loop body (bs ++ tail) (zlen bs) s =
    ctl_fold body (visits (zlen bs) 0 (bs ++ tail) es (rest ++ tail)) s.
Proof.
  intros. unfold tlv_loop, ie_tlv_iter_init, tlv_fuel.
  eapply tlv_while_visits; [done..| lia | done | done | done | lia].
Qed.

(** A body that only looks at the tag and the payload of the element it visits
    computes a fold over the elements. *)
Definition reads_element {T} (body : ie_tlv_iter → T → res (ctl T))
    (step : elem → T → res (ctl T)) : Prop :=
  ∀ it s d after, it_data it = d ++ after → it_len it = zlen d →
    body it s = step (it_tag it, d) s.

Fixpoint elem_fold {T} (step : elem → T → res (ctl T)) (es : list elem) (s : T) : res T :=
  match es with
  | [] => Ok s
  | e :: es' =>
      c ← step e s;
      match c with Next s' => elem_fold step es' s' | Stop s' => Ok s' end
  end.

Lemma ctl_fold_elements {T} (body : ie_tlv_iter → T → res (ctl T)) step max pos tlv es after s :
  reads_element body step →
  ctl_fold body (visits max pos tlv es after) s = elem_fold step es s.
Proof.
  intros Hb. revert pos s. induction es as [|e es IH]; intros pos s; [done |].
  cbn [visits ctl_fold elem_fold].
  rewrite (Hb _ s e.2 (tlv_encode_all es ++ after)) by done.
  cbn. rewrite <- (surjective_pairing e). destruct (step e s) as [[s'|s']|e'| |]; cbn; auto.
Qed.

Lemma tlv_loop_elements {T} (body : ie_tlv_iter → T → res (ctl T)) step bs es rest tail s :
  reads_element body step →
  elements_of bs es rest → bytes_ok bs → zlen bs < 2 ^ 32 - 1 →
  tlv_loop body (bs ++ tail) (zlen bs) s = elem_fold step es s.
Proof.
  intros. erewrite tlv_loop_visits by done. by apply ctl_fold_elements.
Qed.

(** All the elements of a buffer, in order. *)
Definition tlv_collect (tlv : ptr) (len : Z) : res (list elem) :=
  tlv_loop (λ it acc, d ← rdn (it_data it) (it_len it);
                      Ok (Next (acc ++ [(it_tag it, d)]))) tlv len [].

Lemma tlv_collect_elements bs es rest tail :
  elements_of bs es rest → bytes_ok bs → zlen bs < 2 ^ 32 - 1 →
  tlv_collect (bs ++ tail) (zlen bs) = Ok es.
Proof.
  intros. unfold tlv_collect.
  erewrite (tlv_loop_elements _ (λ e acc, Ok (Next (acc ++ [e])))); [| | done..].
  - assert (∀ acc, elem_fold (λ e acc, Ok (Next (acc ++ [e]))) es acc = Ok (acc ++ es)) as Hacc.
    { clear. induction es as [|e es IH]; intros acc; cbn.
      - by rewrite app_nil_r.
      - by rewrite IH, <- app_assoc. }
    apply Hacc.
  - intros it s d after Hd Hl. rewrite Hd, Hl, rdn_app by done. done.
Qed.

(** ** Vendor elements *)

(** The filter both passes of [ie_tlv_vendor_ie_concat] apply. *)
Definition vendor_ie_match (oui : list Z) (type : Z) (it : ie_tlv_iter) : res bool :=
  if negb (it_tag it =? IE_TYPE_VENDOR_SPECIFIC) then Ok false
  else if it_len it <? 4 then Ok false
  else
    same ← memeq (it_data it) oui;
    if negb same then Ok false
    else t ← rd (it_data it) 3; Ok (t =? type).

(** First pass: the length of the concatenation, and whether any element matched. *)
Definition vendor_ie_count (oui : list Z) (type : Z) (it : ie_tlv_iter) (s : Z * bool)
    : res (ctl (Z * bool)) :=
  m ← vendor_ie_match oui type it;
  if negb m then Ok (Next s)
  else Ok (Next (u32 (s.1 + (it_len it - 4)), true)).

(** Second pass: copy the bodies one after the other. *)
Definition vendor_ie_copy (oui : list Z) (type : Z) (it : ie_tlv_iter) (s : list Z * Z)
    : res (ctl (list Z * Z)) :=
  m ← vendor_ie_match oui type it;
  if negb m then Ok (Next s)
  else
    d ← rdn (it_data it +! 4) (it_len it - 4);
    ret ← put s.1 s.2 d;
    Ok (Next (ret, u32 (s.2 + (it_len it - 4)))).

(** The returned buffer ([None] for NULL) and the value stored in [*out_len]. *)
Definition ie_tlv_vendor_ie_concat (fresh : nat → Z) (oui : list Z) (type : Z) (ies : ptr)
    (len : Z) (empty_ok : bool) : res (option (list Z) * (errno + Z)) :=
  '(concat_len, ie_found) ← tlv_loop (vendor_ie_count oui type) ies len (0, false);
  if concat_len =? 0 then
    Ok (None, if ie_found && empty_ok then inr 0 else inl ENOENT)
  else
    '(ret, n) ← tlv_loop (vendor_ie_copy oui type) ies len (l_malloc fresh concat_len, 0);
    Ok (Some ret, inr n).

Definition ie_tlv_extract_wsc_payload fresh ies len :=
  ie_tlv_vendor_ie_concat fresh microsoft_oui 0x04 ies len false.
Definition ie_tlv_extract_p2p_payload fresh ies len :=
  ie_tlv_vendor_ie_concat fresh wifi_alliance_oui 0x09 ies len true.
Definition ie_tlv_extract_wfd_payload fresh ies len :=
  ie_tlv_vendor_ie_concat fresh wifi_alliance_oui 0x0a ies len true.

(** The writes of one iteration of the loop of [ie_tlv_vendor_ie_encapsulate]. *)
Definition vendor_encapsulate_fragment (oui : list Z) (type : Z) (ret data : list Z)
    (ie_len offset : Z) : res (list Z) :=
  ret ← put1 ret offset IE_TYPE_VENDOR_SPECIFIC;
  ret ← put1 ret (offset + 1) (ie_len + 4);
  ret ← put ret (offset + 2) oui;
  ret ← put1 ret (offset + 5) type;
  d ← rdn data ie_len;
  put ret (offset + 6) d.

(** [while (overhead) ...]: the offset advances over the header of each element but
    not over its data, as in the source. *)
Fixpoint vendor_encapsulate_loop (fuel : nat) (oui : list Z) (type : Z) (ret data : list Z)
    (len overhead offset : Z) : res (list Z) :=
  if overhead =? 0 then Ok ret
  else match fuel with
  | O => Diverge
  | S fuel' =>
      let ie_len := if len <=? 251 then len else 251 in
      ret ← vendor_encapsulate_fragment oui type ret data ie_len offset;
      vendor_encapsulate_loop fuel' oui type ret (data +! ie_len) (len - ie_len)
        (overhead - 6) (offset + 6)
  end.

(** The returned buffer; [*out_len] is its length. *)
Definition ie_tlv_vendor_ie_encapsulate (fresh : nat → Z) (oui : list Z) (type : Z)
    (data : ptr) (len : Z) (build_empty : bool) : res (list Z) :=
  let overhead := (len + 250) / 251 * 6 in
  let overhead := if (len =? 0) && build_empty then 6 else overhead in
  vendor_encapsulate_loop (Z.to_nat overhead) oui type (l_malloc fresh (len + overhead))
    data len overhead 0.

Definition ie_tlv_encapsulate_wsc_payload fresh data len :=
  ie_tlv_vendor_ie_encapsulate fresh microsoft_oui 0x04 data len false.
Definition ie_tlv_encapsulate_p2p_payload fresh data len :=
  ie_tlv_vendor_ie_encapsulate fresh wifi_alliance_oui 0x09 data len true.

(** A vendor element with a given OUI and type, and the concatenation of the bodies
    of the matching ones. *)
Definition vendor_elem (oui : list Z) (type : Z) (e : elem) : Prop :=
  e.1 = IE_TYPE_VENDOR_SPECIFIC ∧ 4 ≤ zlen e.2 ∧ ptake e.2 3 = oui ∧ e.2 !! 3%nat = Some type.

#[export] Instance vendor_elem_dec oui type e : Decision (vendor_elem oui type e).
Proof. unfold vendor_elem. apply _. Defined.

Definition vendor_concat (oui : list Z) (type : Z) (es : list elem) : list Z :=
  concat ((λ e : elem, e.2 +! 4) <$> filter (vendor_elem oui type) es).

Lemma ptake_app_le {A} (l k : list A) n : 0 ≤ n ≤ zlen l → ptake (l ++ k) n = ptake l n.
Proof. unfold ptake, zlen; intros. apply take_app_le. lia. Qed.

Lemma vendor_ie_match_elem oui type it d after :
  zlen oui = 3 → it_data it = d ++ after → it_len it = zlen d →
  vendor_ie_match oui type it = Ok (bool_decide (vendor_elem oui type (it_tag it, d))).
Proof.
  intros Ho Hd Hl. unfold vendor_ie_match, vendor_elem. rewrite Hd, Hl; cbn [fst snd].
  destruct (Z.eqb_spec (it_tag it) IE_TYPE_VENDOR_SPECIFIC); cbn [negb];
    [| by rewrite bool_decide_false by tauto].
  destruct (Z.ltb_spec (zlen d) 4); [rewrite bool_decide_false by lia; done |].
  pose proof (zlen_nonneg after).
  rewrite memeq_ok by (rewrite zlen_app; lia). rewrite Ho, ptake_app_le by lia.
  rewrite bind_ok. case_bool_decide; cbn [negb]; [| by rewrite bool_decide_false by tauto].
  rewrite rd_app_l by lia. destruct (rd_in d 3) as (t & -> & Ht); [lia |].
  rewrite bind_ok. f_equal. change (Z.to_nat 3) with 3%nat in Ht.
  destruct (Z.eqb_spec t type) as [->|Hne]; symmetry.
  - apply bool_decide_eq_true_2. by split_and!.
  - apply bool_decide_eq_false_2. intros (_ & _ & _ & E). cbn in E. congruence.
Qed.

Lemma vendor_concat_cons oui type e es :
  vendor_concat oui type (e :: es) =
    (if decide (vendor_elem oui type e) then e.2 +! 4 else []) ++ vendor_concat oui type es.
Proof. unfold vendor_concat. rewrite filter_cons. by case_decide. Qed.

Lemma vendor_concat_length oui type es :
  zlen (vendor_concat oui type es) ≤ zlen (tlv_encode_all es).
Proof.
  unfold tlv_encode_all. induction es as [|e es IH]; [done |].
  rewrite vendor_concat_cons; csimpl. rewrite !zlen_app, tlv_encode_length.
  pose proof (zlen_nonneg e.2). case_decide as Hd.
  - destruct Hd as (_ & ? & _). rewrite zlen_padd by lia. case_match; lia.
  - rewrite zlen_nil. case_match; lia.
Qed.

(** The two passes as folds over the elements. *)
Definition count_step oui type (e : elem) (s : Z * bool) : res (ctl (Z * bool)) :=
  Ok (Next (if decide (vendor_elem oui type e) then (u32 (s.1 + (zlen e.2 - 4)), true) else s)).

Definition copy_step oui type (e : elem) (s : list Z * Z) : res (ctl (list Z * Z)) :=
  if decide (vendor_elem oui type e)
  then ret ← put s.1 s.2 (e.2 +! 4); Ok (Next (ret, u32 (s.2 + (zlen e.2 - 4))))
  else Ok (Next s).

Lemma vendor_ie_count_reads oui type :
  zlen oui = 3 → reads_element (vendor_ie_count oui type) (count_step oui type).
Proof.
  intros Ho it s d after Hd Hl. unfold vendor_ie_count, count_step.
  erewrite vendor_ie_match_elem by done. rewrite bind_ok, Hl. cbn [fst snd].
  case_bool_decide; case_decide; done.
Qed.

Lemma vendor_ie_copy_reads oui type :
  zlen oui = 3 → reads_element (vendor_ie_copy oui type) (copy_step oui type).
Proof.
  intros Ho it s d after Hd Hl. unfold vendor_ie_copy, copy_step.
  erewrite vendor_ie_match_elem by done. rewrite bind_ok, Hl, Hd. cbn [fst snd].
  case_bool_decide as Hb; case_decide as Hv; try done. cbn [negb].
  destruct Hv as (_ & H4 & _). cbn [fst snd] in H4. pose proof (zlen_nonneg after).
  replace ((d ++ after) +! 4) with ((d +! 4) ++ after).
  - rewrite rdn_app by (rewrite zlen_padd; lia). done.
  - unfold padd. rewrite drop_app_le; [done |]. unfold zlen in H4. lia.
Qed.

Lemma count_fold oui type es n f :
  0 ≤ n → n + zlen (tlv_encode_all es) < 2 ^ 32 →
  elem_fold (count_step oui type) es (n, f) =
    Ok (n + zlen (vendor_concat oui type es),
        f || bool_decide (Exists (vendor_elem oui type) es)).
Proof.
  unfold tlv_encode_all. revert n f. induction es as [|e es IH]; intros n f Hn Hlt.
  - cbn [elem_fold]. rewrite bool_decide_false by (by inversion 1).
    change (zlen (vendor_concat oui type [])) with 0. by rewrite orb_false_r, Z.add_0_r.
  - csimpl in Hlt. rewrite zlen_app, tlv_encode_length in Hlt.
    rewrite vendor_concat_cons, zlen_app. cbn [elem_fold]. unfold count_step at 2.
    rewrite bind_ok. cbn [fst snd]. pose proof (zlen_nonneg e.2).
    pose proof (zlen_nonneg (concat (tlv_encode <$> es))). case_decide as Hd.
    + destruct (Hd) as (_ & H4 & _). rewrite u32_small by (case_match; lia).
      rewrite IH by (case_match; lia). rewrite zlen_padd by lia.
      rewrite (bool_decide_true (Exists _ (e :: es))) by (by constructor).
      rewrite orb_true_r. cbn [orb]. do 2 f_equal; lia.
    + rewrite IH by (case_match; lia). rewrite zlen_nil, Z.add_0_l. do 2 f_equal.
      f_equal. apply bool_decide_ext. rewrite Exists_cons. tauto.
Qed.

Lemma copy_fold oui type es done buf :
  zlen done + zlen (tlv_encode_all es) < 2 ^ 32 →
  zlen buf = zlen (vendor_concat oui type es) →
  elem_fold (copy_step oui type) es (done ++ buf, zlen done) =
    Ok (done ++ vendor_concat oui type es, zlen (done ++ vendor_concat oui type es)).
Proof.
  unfold tlv_encode_all. revert done buf. induction es as [|e es IH]; intros done buf Hlt Hb.
  - cbn. by rewrite (zlen_0_inv buf Hb), app_nil_r.
  - csimpl in Hlt. rewrite zlen_app, tlv_encode_length in Hlt.
    rewrite vendor_concat_cons in *. rewrite zlen_app in Hb. cbn [elem_fold]. unfold copy_step at 2.
    pose proof (zlen_nonneg e.2). pose proof (zlen_nonneg done).
    pose proof (zlen_nonneg (concat (tlv_encode <$> es))). cbn [fst snd].
    case_decide as Hd; cycle 1.
    { rewrite zlen_nil in Hb. rewrite bind_ok. apply IH; [case_match |]; lia. }
    destruct Hd as (_ & H4 & _). rewrite zlen_padd in Hb by lia.
    pose proof (zlen_nonneg (vendor_concat oui type es)).
    rewrite put_next by (rewrite ?zlen_padd; lia). rewrite !bind_ok.
    rewrite u32_small by (case_match; lia).
    replace (zlen done + (zlen e.2 - 4)) with (zlen (done ++ (e.2 +! 4)))
      by (rewrite zlen_app, zlen_padd; lia).
    rewrite IH; [by rewrite <- app_assoc | |].
    + rewrite zlen_app, zlen_padd by lia. case_match; lia.
    + rewrite zlen_padd, zlen_padd by (rewrite ?zlen_padd; lia). lia.
Qed.

(** What the function is to return for the elements [es]. *)
Definition vendor_concat_result (oui : list Z) (type : Z) (empty_ok : bool) (es : list elem)
    : option (list Z) * (errno + Z) :=
  let c := vendor_concat oui type es in
  if decide (c = []) then
    (None, if bool_decide (Exists (vendor_elem oui type) es) && empty_ok then inr 0 else inl ENOENT)
  else (Some c, inr (zlen c)).

Lemma vendor_ie_concat_elements fresh oui type bs es rest tail empty_ok :
  zlen oui = 3 → elements_of bs es rest → bytes_ok bs → zlen bs < 2 ^ 32 - 1 →
  ie_tlv_vendor_ie_concat fresh oui type (bs ++ tail) (zlen bs) empty_ok =
    Ok (vendor_concat_result oui type empty_ok es).
Proof.
  intros Ho Hes Hok Hlt. unfold ie_tlv_vendor_ie_concat, vendor_concat_result.
  assert (Hen : zlen (tlv_encode_all es) < 2 ^ 32 - 1).
  { rewrite (elements_concat _ _ _ Hes), zlen_app in Hlt. pose proof (zlen_nonneg rest). lia. }
  erewrite (tlv_loop_elements _ (count_step oui type));
    [| by apply vendor_ie_count_reads | done..].
  rewrite count_fold by lia. rewrite bind_ok, Z.add_0_l.
  destruct (Z.eqb_spec (zlen (vendor_concat oui type es)) 0) as [H0|H0].
  { rewrite decide_True by (by apply zlen_0_inv). done. }
  rewrite decide_False by (intros E; by rewrite E in H0).
  erewrite (tlv_loop_elements _ (copy_step oui type));
    [| by apply vendor_ie_copy_reads | done..].
  pose proof (zlen_nonneg (vendor_concat oui type es)).
  pose proof (copy_fold oui type es [] (l_malloc fresh (zlen (vendor_concat oui type es)))) as Hc.
  cbn [app] in Hc. rewrite zlen_nil in Hc.
  rewrite Hc; [done | lia | by apply l_malloc_length].
Qed.

(** ** Encapsulation *)

Lemma encapsulate_count len : 0 < len ≤ 251 → (len + 250) / 251 = 1.
Proof. intros. symmetry. apply Z.div_unique with (len - 1); lia. Qed.

(** One fragment is the encoding of one vendor element. *)
Lemma encapsulate_fragment_ok oui type pre rest data ie_len :
  zlen oui = 3 → byte_ok type → 0 ≤ ie_len ≤ zlen data → ie_len ≤ 251 → 6 + ie_len ≤ zlen rest →
  vendor_encapsulate_fragment oui type (pre ++ rest) data ie_len (zlen pre) =
    Ok (pre ++ tlv_encode (IE_TYPE_VENDOR_SPECIFIC, oui ++ type :: ptake data ie_len)
            ++ (rest +! (6 + ie_len))).
Proof.
  intros Ho Ht Hd Hd' Hr. unfold vendor_encapsulate_fragment, put1.
  rewrite !(u8_small IE_TYPE_VENDOR_SPECIFIC), (u8_small type), (u8_small (ie_len + 4)) by (done || lia).
  rewrite put_next by zlia. rewrite bind_ok.
  rewrite put_next by zlia. rewrite bind_ok.
  rewrite put_next by zlia. rewrite bind_ok.
  rewrite put_next by zlia. rewrite bind_ok.
  rewrite rdn_ok by done. rewrite bind_ok.
  rewrite put_next by zlia. rewrite !padd_padd by zlia.
  rewrite <- !app_assoc. cbn [tlv_encode]. change (IE_TYPE_VENDOR_SPECIFIC <? 256) with true.
  cbn iota. cbn [app]. rewrite <- !app_assoc. cbn [app].
  replace (zlen (oui ++ type :: ptake data ie_len)) with (ie_len + 4) by zlia.
  do 6 f_equal. f_equal. f_equal. zlia.
Qed.

Lemma encapsulate_loop_done fuel oui type ret data len offset :
  vendor_encapsulate_loop fuel oui type ret data len 0 offset = Ok ret.
Proof. by destruct fuel. Qed.

Lemma encapsulate_loop_step fuel oui type ret data len overhead offset :
  overhead ≠ 0 →
  let ie_len := if len <=? 251 then len else 251 in
  vendor_encapsulate_loop (S fuel) oui type ret data len overhead offset =
    (ret ← vendor_encapsulate_fragment oui type ret data ie_len offset;
     vendor_encapsulate_loop fuel oui type ret (data +! ie_len) (len - ie_len)
       (overhead - 6) (offset + 6)).
Proof. intros H ie_len. cbn [vendor_encapsulate_loop]. by destruct (Z.eqb_spec overhead 0). Qed.

(** A payload that fits in one element is encapsulated into exactly that element. *)
Lemma encapsulate_one fresh oui type data tail build_empty :
  zlen oui = 3 → byte_ok type → zlen data ≤ 251 → (data ≠ [] ∨ build_empty = true) →
  ie_tlv_vendor_ie_encapsulate fresh oui type (data ++ tail) (zlen data) build_empty =
    Ok (tlv_encode (IE_TYPE_VENDOR_SPECIFIC, oui ++ type :: data)).
Proof.
  intros Ho Ht Hd Hne. unfold ie_tlv_vendor_ie_encapsulate. pose proof (zlen_nonneg data).
  assert ((if (zlen data =? 0) && build_empty then 6 else (zlen data + 250) / 251 * 6) = 6) as ->.
  { destruct (Z.eqb_spec (zlen data) 0) as [E|E].
    - apply zlen_0_inv in E. destruct Hne as [ | -> ]; done.
    - rewrite encapsulate_count by lia. done. }
  change (Z.to_nat 6) with 6%nat. rewrite encapsulate_loop_step by done. cbn zeta.
  assert (Hm : zlen (l_malloc fresh (zlen data + 6)) = zlen data + 6) by (apply l_malloc_length; lia).
  destruct (Z.leb_spec (zlen data) 251); [| lia].
  pose proof (encapsulate_fragment_ok oui type [] (l_malloc fresh (zlen data + 6)) (data ++ tail)
    (zlen data)) as Hf. change (zlen (@nil Z)) with 0 in Hf. cbn [app] in Hf.
  rewrite Hf by zlia. rewrite bind_ok. change (6 - 6) with 0. rewrite encapsulate_loop_done, ptake_app by done.
  rewrite padd_all by zlia. by rewrite app_nil_r.
Qed.

(** What the loop over [k] fragments leaves alone: everything before its first
    header and everything after the data of its last fragment. *)
Lemma encapsulate_loop_frame oui type k : ∀ fuel pre rest data len,
  zlen oui = 3 → byte_ok type → (k ≤ fuel)%nat → (0 < k)%nat →
  251 * (Z.of_nat k - 1) < len ≤ 251 * Z.of_nat k → len ≤ zlen data →
  6 * Z.of_nat k + len ≤ zlen rest →
  ∃ rest',
    vendor_encapsulate_loop fuel oui type (pre ++ rest) data len (6 * Z.of_nat k) (zlen pre)
      = Ok (pre ++ IE_TYPE_VENDOR_SPECIFIC :: rest')
    ∧ zlen rest' + 1 = zlen rest
    ∧ (∀ i, 6 * Z.of_nat k + 251 ≤ i → rest' !! Z.to_nat (i - 1) = rest !! Z.to_nat i).
Proof.
  induction k as [|k IH]; intros fuel pre rest data len Ho Ht Hf Hk Hlen Hd Hr; [lia |].
  destruct fuel as [|fuel]; [lia |]. rewrite encapsulate_loop_step by lia. cbn zeta.
  assert (Hl : 0 ≤ (if len <=? 251 then len else 251) ≤ len) by (case_b; lia).
  assert (Hl' : (if len <=? 251 then len else 251) = Z.min len 251) by (case_b; lia).
  set (ie_len := if len <=? 251 then len else 251) in *.
  rewrite encapsulate_fragment_ok by (done || lia). rewrite bind_ok.
  destruct oui as [|o1 [|o2 [|o3 [|]]]]; try (unfold zlen in Ho; cbn in Ho; lia).
  cbn [tlv_encode app]. change (IE_TYPE_VENDOR_SPECIFIC <? 256) with true. cbn iota.
  set (hdr := [IE_TYPE_VENDOR_SPECIFIC; zlen (o1 :: o2 :: o3 :: type :: ptake data ie_len);
               o1; o2; o3; type]).
  set (rest1 := ptake data ie_len ++ (rest +! (6 + ie_len))).
  assert (Hrest : ∀ i, 6 * Z.of_nat (S k) + 251 ≤ i →
    rest1 !! Z.to_nat (i - 6) = rest !! Z.to_nat i).
  { intros i Hi. pose proof (zlen_ptake data ie_len ltac:(lia)) as Hpt. unfold rest1, zlen in *.
    rewrite lookup_app_r by lia. unfold padd. rewrite lookup_drop. f_equal. lia. }
  assert (Hidx : ∀ (l : list Z) i, 6 ≤ i → (List.tl hdr ++ l) !! Z.to_nat (i - 1) = l !! Z.to_nat (i - 6)).
  { intros l i Hi. by replace (Z.to_nat (i - 1)) with (S (S (S (S (S (Z.to_nat (i - 6))))))) by lia. }
  assert (Hlen1 : zlen rest1 = zlen rest - 6) by (unfold rest1; zlia).
  destruct (decide (k = 0%nat)) as [->|Hk0].
  - replace (6 * Z.of_nat 1 - 6) with 0 by lia. rewrite encapsulate_loop_done.
    exists (List.tl hdr ++ rest1). split_and!; [done | unfold hdr; cbn [List.tl app]; zlia |].
    intros i Hi. by rewrite <- Hrest, Hidx by lia.
  - destruct (IH fuel (pre ++ hdr) rest1 (data +! ie_len) (len - ie_len))
      as (rest' & He & Hl2 & Hfr); [done | done | lia | lia | lia | zlia | lia |].
    replace (6 * Z.of_nat (S k) - 6) with (6 * Z.of_nat k) by lia.
    rewrite <- app_assoc in He. replace (zlen pre + 6) with (zlen (pre ++ hdr)) by (unfold hdr; zlia).
    exists (List.tl hdr ++ IE_TYPE_VENDOR_SPECIFIC :: rest'). split_and!.
    + rewrite <- app_assoc in He. exact He.
    + unfold hdr; cbn [List.tl app]. zlia.
    + intros i Hi. rewrite <- Hrest, Hidx, <- Hfr by lia.
      by replace (Z.to_nat (i - 6)) with (S (Z.to_nat (i - 6 - 1))) by lia.
Qed.

(** ** The builder

    A builder writes into one object, its own [buf] or a caller's buffer, at the
    offset [b_tlv]; a builder started by [ie_tlv_builder_recurse] writes into the
    object of its parent.  [b_chain] holds the builder itself and, behind it, its
    [parent] links. *)

Definition MAX_BUILDER_SIZE : Z := 8 * 1024.
Definition TLV_HEADER_LEN : Z := 2.

Record builder_frame : Type := mk_frame {
  b_max : Z;
  b_pos : Z;
  b_tlv : Z;
  b_own : bool; (* [tlv == buf]: the frame writes into its own buffer *)
  b_tag : Z;
  b_len : Z;
}.

Record ie_tlv_builder : Type := mk_builder {
  b_mem : list Z;
  b_this : builder_frame;
  b_parents : list builder_frame;
}.

(** [buf = None] is a NULL buffer. *)
Definition ie_tlv_builder_init (buf : option (list Z)) (len : Z) : ie_tlv_builder :=
  match buf with
  | None =>
      mk_builder (replicate (Z.to_nat MAX_BUILDER_SIZE) 0)
        (mk_frame MAX_BUILDER_SIZE 0 0 true 0xffff 0) []
  | Some mem => mk_builder mem (mk_frame len 0 0 false 0xffff 0) []
  end.

Definition ie_tlv_builder_write_header (b : ie_tlv_builder) : res ie_tlv_builder :=
  let f := b_this b in
  let at_ := b_tlv f + b_pos f in
  mem ← if b_tag f <? 256 then
          put (b_mem b) at_ [u8 (b_tag f); u8 (b_len f)]
        else
          put (b_mem b) at_ [IE_TYPE_EXTENSION; u8 (b_len f + 1); u8 (b_tag f - 256)];
  Ok (mk_builder mem f (b_parents b)).

(** On a frame and its parents; [None] is a [false] return.  The result of the call
    on the parent is ignored, as in the source. *)
Fixpoint set_length_chain (f : builder_frame) (parents : list builder_frame) (new_len : Z)
    : option (builder_frame * list builder_frame) :=
  let new_pos := u32 (b_pos f + TLV_HEADER_LEN + new_len) in
  let new_pos := if 256 <=? b_tag f then u32 (new_pos + 1) else new_pos in
  if b_max f <? new_pos then None
  else
    let parents' :=
      match parents with
      | [] => []
      | p :: ps =>
          match set_length_chain p ps new_pos with
          | Some (p', ps') => p' :: ps'
          | None => p :: ps
          end
      end in
    Some (mk_frame (b_max f) (b_pos f) (b_tlv f) (b_own f) (b_tag f) new_len, parents').

Definition ie_tlv_builder_set_length (b : ie_tlv_builder) (new_len : Z) : option ie_tlv_builder :=
  match set_length_chain (b_this b) (b_parents b) new_len with
  | Some (f, ps) => Some (mk_builder (b_mem b) f ps)
  | None => None
  end.

(** The return value and the builder as the function leaves it, also on failure. *)
Definition ie_tlv_builder_next (b : ie_tlv_builder) (new_tag : Z) : res (bool * ie_tlv_builder) :=
  if 0x1ff <? new_tag then Ok (false, b)
  else
    b ← (let f := b_this b in
         if b_tag f =? 0xffff then Ok b
         else
           b ← ie_tlv_builder_write_header b;
           l ← rd (b_mem b) (b_tlv f + b_pos f + 1);
           Ok (mk_builder (b_mem b)
                 (mk_frame (b_max f) (u32 (b_pos f + TLV_HEADER_LEN + l)) (b_tlv f) (b_own f)
                    (b_tag f) (b_len f)) (b_parents b)));
    let f := b_this b in
    let b := mk_builder (b_mem b)
               (mk_frame (b_max f) (b_pos f) (b_tlv f) (b_own f) new_tag (b_len f))
               (b_parents b) in
    match ie_tlv_builder_set_length b 0 with
    | Some b' => Ok (true, b')
    | None => Ok (false, b)
    end.

(** The offset of the data of the current element in the object. *)
Definition ie_tlv_builder_get_data (b : ie_tlv_builder) : Z :=
  let f := b_this b in
  b_tlv f + TLV_HEADER_LEN + b_pos f + (if 256 <=? b_tag f then 1 else 0).

Definition ie_tlv_builder_set_data (b : ie_tlv_builder) (data : list Z)
    : res (bool * ie_tlv_builder) :=
  match ie_tlv_builder_set_length b (zlen data) with
  | None => Ok (false, b)
  | Some b =>
      mem ← put (b_mem b) (ie_tlv_builder_get_data b) data;
      Ok (true, mk_builder mem (b_this b) (b_parents b))
  end.

(** [end] is computed from [buf]: for a builder whose [tlv] is not its [buf] the
    difference [end - data] is between two objects, which is undefined. *)
Definition ie_tlv_builder_recurse (b : ie_tlv_builder) : res ie_tlv_builder :=
  let f := b_this b in
  if b_own f then
    let data := ie_tlv_builder_get_data b in
    Ok (mk_builder (b_mem b) (mk_frame (u32 (b_max f - data)) 0 data false 0xffff 0)
          (f :: b_parents b))
  else Fault.

(** The object, with the offset of [tlv] in it, and the length. *)
Definition ie_tlv_builder_finalize (b : ie_tlv_builder) : res (ie_tlv_builder * Z) :=
  let f := b_this b in
  if b_tag f =? 0xffff then Ok (b, 0)
  else
    b ← ie_tlv_builder_write_header b;
    l ← rd (b_mem b) (b_tlv f + b_pos f + 1);
    Ok (b, u32 (b_pos f + TLV_HEADER_LEN + l)).

(** Adding elements one after the other, as the callers do; [false] when one does
    not fit. *)
Fixpoint build_elements (b : ie_tlv_builder) (es : list elem) : res (bool * ie_tlv_builder) :=
  match es with
  | [] => Ok (true, b)
  | (tag, data) :: es' =>
      '(r, b) ← ie_tlv_builder_next b tag;
      if negb r then Ok (false, b)
      else
        '(r, b) ← ie_tlv_builder_set_data b data;
        if negb r then Ok (false, b) else build_elements b es'
  end.

Definition ie_tlv_build (buf : option (list Z)) (len : Z) (es : list elem) : res (option (list Z)) :=
  '(r, b) ← build_elements (ie_tlv_builder_init buf len) es;
  if negb r then Ok None
  else '(b, n) ← ie_tlv_builder_finalize b; Ok (Some (ptake (b_mem b +! b_tlv (b_this b)) n)).

(** *** The builder's invariant

    The elements [es] were added and the last of them still lacks its header. *)
Inductive building (max : Z) (own : bool) : list elem → list Z → ie_tlv_builder → Prop :=
  | building_none mem :
      building max own [] mem (mk_builder mem (mk_frame max 0 0 own 0xffff 0) [])
  | building_some es e gap rest :
      elem_ok e → zlen gap = (if e.1 <? 256 then 2 else 3) →
      building max own (es ++ [e]) rest
        (mk_builder (tlv_encode_all es ++ gap ++ e.2 ++ rest)
           (mk_frame max (zlen (tlv_encode_all es)) 0 own e.1 (zlen e.2)) []).

Lemma tlv_encode_all_snoc es e : tlv_encode_all (es ++ [e]) = tlv_encode_all es ++ tlv_encode e.
Proof. unfold tlv_encode_all. rewrite fmap_app, concat_app. csimpl. by rewrite app_nil_r. Qed.

Lemma elem_ok_tag e : elem_ok e → 0 ≤ e.1 < 512 ∧ zlen e.2 ≤ 255.
Proof. destruct e as [t d]; intros [_ H]; cbn; lia. Qed.

(** Writing the header of the last element completes the encoding; the length byte
    then gives back the length of the element. *)
Lemma write_header_ok es e gap rest max own :
  elem_ok e → zlen gap = (if e.1 <? 256 then 2 else 3) →
  let f := mk_frame max (zlen (tlv_encode_all es)) 0 own e.1 (zlen e.2) in
  let mem := tlv_encode_all (es ++ [e]) ++ rest in
  ie_tlv_builder_write_header (mk_builder (tlv_encode_all es ++ gap ++ e.2 ++ rest) f []) =
    Ok (mk_builder mem f []) ∧
  rd mem (0 + zlen (tlv_encode_all es) + 1) = Ok (zlen (tlv_encode e) - 2).
Proof.
  intros He Hgap f mem. unfold f, mem. rewrite tlv_encode_all_snoc.
  set (D := tlv_encode_all es). split.
  - unfold ie_tlv_builder_write_header; cbn [b_this b_mem b_tlv b_pos b_tag b_len b_parents].
    destruct e as [t d]; cbn [fst snd] in *. destruct He as [_ Ht]. pose proof (zlen_nonneg d).
    unfold tlv_encode. rewrite Z.add_0_l. destruct (Z.ltb_spec t 256).
    + rewrite !u8_small by lia. rewrite (put_mid D gap) by zlia.
      rewrite bind_ok, <- !app_assoc. done.
    + rewrite !u8_small by lia. rewrite (put_mid D gap) by zlia.
      rewrite bind_ok, <- !app_assoc. done.
  - rewrite <- app_assoc, rd_app_r by lia.
    replace (0 + zlen D + 1 - zlen D) with 1 by lia.
    destruct e as [t d]. rewrite tlv_encode_length. unfold tlv_encode; cbn [fst snd].
    destruct (Z.ltb_spec t 256); cbn [app]; rd_eval; f_equal; lia.
Qed.

Definition hdr_len (tag : Z) : Z := if tag <? 256 then 2 else 3.

Lemma set_length_ok mem max pos own tag len0 len :
  0 ≤ pos → 0 ≤ len → pos + hdr_len tag + len ≤ max < 2 ^ 32 →
  ie_tlv_builder_set_length (mk_builder mem (mk_frame max pos 0 own tag len0) []) len =
    Some (mk_builder mem (mk_frame max pos 0 own tag len) []).
Proof.
  intros Hp Hl Hmax. unfold hdr_len in *.
  unfold ie_tlv_builder_set_length, set_length_chain, TLV_HEADER_LEN.
  cbn [b_this b_mem b_parents b_tag b_pos b_tlv b_max b_own b_len].
  rewrite (u32_small (pos + 2 + len)) by (case_b; lia).
  destruct (Z.leb_spec 256 tag).
  - rewrite u32_small by (case_b; lia). destruct (Z.ltb_spec max (pos + 2 + len + 1)); [| done].
    case_b; lia.
  - destruct (Z.ltb_spec max (pos + 2 + len)); [| done]. case_b; lia.
Qed.

(** Starting an element completes the one before. *)
Lemma next_ok max own es rest b tag :
  building max own es rest b → 0 ≤ tag < 512 →
  zlen (tlv_encode_all es) + hdr_len tag ≤ max < 2 ^ 32 →
  ie_tlv_builder_next b tag =
    Ok (true, mk_builder (tlv_encode_all es ++ rest)
                (mk_frame max (zlen (tlv_encode_all es)) 0 own tag 0) []).
Proof.
  intros Hb Ht Hmax. unfold ie_tlv_builder_next. destruct (Z.ltb_spec 0x1ff tag); [lia |].
  pose proof (zlen_nonneg (tlv_encode_all es)).
  assert (Hlen : ∀ l, ie_tlv_builder_set_length (mk_builder (tlv_encode_all es ++ rest)
     (mk_frame max (zlen (tlv_encode_all es)) 0 own tag l) []) 0 =
     Some (mk_builder (tlv_encode_all es ++ rest)
       (mk_frame max (zlen (tlv_encode_all es)) 0 own tag 0) [])).
  { intros. apply set_length_ok; lia. }
  destruct Hb as [mem|es e0 gap rest He0 Hgap];
    cbn [b_this b_mem b_parents b_tag b_pos b_tlv b_max b_own b_len].
  - change (65535 =? 65535) with true. cbn iota. rewrite bind_ok.
    change (zlen (tlv_encode_all [])) with 0 in Hlen.
    cbn [b_this b_mem b_parents b_tag b_pos b_tlv b_max b_own b_len]. by rewrite Hlen.
  - pose proof (elem_ok_tag e0 He0). destruct (Z.eqb_spec e0.1 0xffff); [lia |].
    destruct (write_header_ok es e0 gap rest max own He0 Hgap) as [Hw Hrd].
    rewrite Hw, bind_ok. cbn [b_mem b_parents]. rewrite Hrd, !bind_ok. unfold TLV_HEADER_LEN.
    replace (zlen (tlv_encode_all es) + 2 + (zlen (tlv_encode e0) - 2))
      with (zlen (tlv_encode_all (es ++ [e0]))) by (rewrite tlv_encode_all_snoc, zlen_app; lia).
    cbn [b_this b_mem b_parents b_tag b_pos b_tlv b_max b_own b_len].
    rewrite u32_small by (unfold hdr_len in *; case_b; lia). by rewrite Hlen.
Qed.

Lemma set_data_ok max own es rest e :
  elem_ok e → zlen (tlv_encode_all es) + zlen (tlv_encode e) ≤ max < 2 ^ 32 →
  zlen (tlv_encode e) ≤ zlen rest →
  ∃ b, ie_tlv_builder_set_data (mk_builder (tlv_encode_all es ++ rest)
         (mk_frame max (zlen (tlv_encode_all es)) 0 own e.1 0) []) e.2 = Ok (true, b)
    ∧ building max own (es ++ [e]) (rest +! zlen (tlv_encode e)) b.
Proof.
  intros He Hmax Hr. rewrite tlv_encode_length in *. fold (hdr_len e.1) in *.
  assert (2 ≤ hdr_len e.1) by (unfold hdr_len; case_b; lia). znn.
  unfold ie_tlv_builder_set_data. rewrite set_length_ok by lia.
  unfold ie_tlv_builder_get_data, TLV_HEADER_LEN.
  cbn [b_this b_mem b_parents b_tag b_pos b_tlv b_max b_own b_len].
  replace (0 + 2 + zlen (tlv_encode_all es) + (if 256 <=? e.1 then 1 else 0))
    with (zlen (tlv_encode_all es ++ ptake rest (hdr_len e.1))).
  2: { rewrite zlen_app, zlen_ptake by lia. unfold hdr_len. repeat case_b; lia. }
  assert (tlv_encode_all es ++ rest =
    (tlv_encode_all es ++ ptake rest (hdr_len e.1)) ++ (rest +! hdr_len e.1)) as ->
    by (by rewrite <- app_assoc, ptake_padd_id).
  rewrite put_next by zlia.
  eexists. split; [done |]. rewrite padd_padd by lia. rewrite <- !app_assoc.
  apply building_some; [done |]. rewrite zlen_ptake; [done | lia].
Qed.

Lemma build_elements_ok max own es' : ∀ es rest b,
  building max own es rest b → Forall elem_ok es' →
  zlen (tlv_encode_all (es ++ es')) ≤ max < 2 ^ 32 →
  zlen (tlv_encode_all es') ≤ zlen rest →
  ∃ b' rest', build_elements b es' = Ok (true, b') ∧ building max own (es ++ es') rest' b'.
Proof.
  induction es' as [|e es' IH]; intros es rest b Hb Hes Hmax Hr.
  - rewrite app_nil_r. eauto.
  - inversion_clear Hes as [|?? He Hes']. pose proof (elem_ok_tag e He).
    assert (zlen (tlv_encode_all (es ++ e :: es')) =
      zlen (tlv_encode_all es) + zlen (tlv_encode e) + zlen (tlv_encode_all es')) as Hsum.
    { unfold tlv_encode_all. rewrite fmap_app, concat_app. csimpl. rewrite !zlen_app. lia. }
    assert (zlen (tlv_encode_all (e :: es')) = zlen (tlv_encode e) + zlen (tlv_encode_all es')) as Hc
      by (unfold tlv_encode_all; csimpl; by rewrite zlen_app).
    pose proof (tlv_encode_length e) as Hl. fold (hdr_len e.1) in Hl. znn.
    destruct e as [tag data]. cbn [build_elements].
    erewrite next_ok by (done || (cbn in *; lia)). rewrite bind_ok. cbn [negb].
    destruct (set_data_ok max own es rest (tag, data)) as (b2 & Hsd & Hb2); [done | lia.. |].
    cbn [fst snd] in Hsd. rewrite Hsd, bind_ok. cbn [negb].
    destruct (IH _ _ _ Hb2) as (b' & rest' & Hbe & Hb'); [done | | | ].
    + by rewrite <- app_assoc.
    + rewrite zlen_padd; lia.
    + rewrite <- app_assoc in Hb'. eauto.
Qed.

Lemma builder_init_building buf len :
  let max := match buf with None => MAX_BUILDER_SIZE | Some _ => len end in
  let mem := match buf with None => replicate (Z.to_nat MAX_BUILDER_SIZE) 0 | Some m => m end in
  building max (bool_decide (buf = None)) [] mem (ie_tlv_builder_init buf len).
Proof. destruct buf; constructor. Qed.

(** The room a builder has: its own 8 KiB, or what the caller says of its buffer. *)
Definition builder_room (buf : option (list Z)) (len : Z) : Z :=
  match buf with None => MAX_BUILDER_SIZE | Some mem => Z.min len (zlen mem) end.

Lemma ie_tlv_build_ok buf len es :
  Forall elem_ok es → len < 2 ^ 32 → zlen (tlv_encode_all es) ≤ builder_room buf len →
  ie_tlv_build buf len es = Ok (Some (tlv_encode_all es)).
Proof.
  intros Hes Hlen Hroom. unfold ie_tlv_build.
  pose proof (builder_init_building buf len) as Hb. cbn zeta in Hb.
  eapply build_elements_ok in Hb as (b & rest & Hbe & Hb); [| done | |].
  - rewrite Hbe, bind_ok. cbn [negb]. cbn [app] in Hb. unfold ie_tlv_builder_finalize.
    inversion Hb as [|es0 e gap rest0 He Hgap]; subst; [done |].
    cbn [b_this b_mem b_parents b_tag b_pos b_tlv b_max b_own b_len].
    pose proof (elem_ok_tag e He). destruct (Z.eqb_spec e.1 0xffff); [lia |].
    destruct (write_header_ok es0 e gap rest
      (match buf with None => MAX_BUILDER_SIZE | Some _ => len end)
      (bool_decide (buf = None)) He Hgap) as [Hw Hrd].
    rewrite Hw, bind_ok. cbn [b_mem]. rewrite Hrd, !bind_ok. unfold TLV_HEADER_LEN.
    cbn [b_this b_mem b_tlv]. rewrite padd_0.
    replace (zlen (tlv_encode_all es0) + 2 + (zlen (tlv_encode e) - 2))
      with (zlen (tlv_encode_all (es0 ++ [e]))) by (rewrite tlv_encode_all_snoc, zlen_app; lia).
    znn. rewrite u32_small by (destruct buf; unfold builder_room, MAX_BUILDER_SIZE in *; lia).
    by rewrite ptake_app.
  - cbn [app]. znn. destruct buf; unfold builder_room, MAX_BUILDER_SIZE in *; lia.
  - destruct buf; unfold builder_room in *; [lia |]. by rewrite zlen_replicate.
Qed.

(** ** Properties *)

(** over any buffer shorter than 4 GiB, whatever its bytes and whatever follows
    it in memory, the loop [while (ie_tlv_iter_next(&iter))] terminates, reads only
    the bytes of the buffer, and visits exactly the elements of the decomposition of
    the buffer by the element grammar, which is unique. *)
Theorem ie_tlv_iter_exact bs tail :
  bytes_ok bs → zlen bs < 2 ^ 32 - 1 →
  ∃ es rest, elements_of bs es rest
    ∧ tlv_collect (bs ++ tail) (zlen bs) = Ok es
    ∧ (∀ es' rest', elements_of bs es' rest' → es' = es ∧ rest' = rest).
Proof.
  intros Hok Hlen. destruct (elements_total bs Hok) as (es & rest & Hes).
  exists es, rest. split; [done |]. split; [by eapply tlv_collect_elements |].
  intros es' rest' H. by destruct (elements_unique _ _ _ _ _ H Hes).
Qed.

Lemma ie_tlv_iter_exact_witness :
  ∃ es rest, elements_of [0; 1; 65; 255; 2; 32; 7; 9] es rest
    ∧ tlv_collect ([0; 1; 65; 255; 2; 32; 7; 9] ++ [1; 2]) (zlen [0; 1; 65; 255; 2; 32; 7; 9]) = Ok es
    ∧ (∀ es' rest', elements_of [0; 1; 65; 255; 2; 32; 7; 9] es' rest' → es' = es ∧ rest' = rest).
Proof.
  apply (ie_tlv_iter_exact [0; 1; 65; 255; 2; 32; 7; 9] [1; 2]).
  - by_eval.
  - reflexivity.
Defined.

(** elements that fit the wire format and the room of the builder (its own 8 KiB
    buffer, or the buffer of the caller) are all accepted by
    [ie_tlv_builder_next]/[ie_tlv_builder_set_data], and iterating over the buffer
    that [ie_tlv_builder_finalize] returns gives the same elements back in order. *)
Theorem ie_tlv_build_roundtrip buf len es tail :
  Forall elem_ok es → len < 2 ^ 32 - 1 → zlen (tlv_encode_all es) ≤ builder_room buf len →
  ∃ out, ie_tlv_build buf len es = Ok (Some out)
    ∧ zlen out = zlen (tlv_encode_all es)
    ∧ tlv_collect (out ++ tail) (zlen out) = Ok es.
Proof.
  intros Hes Hlen Hroom. exists (tlv_encode_all es).
  split; [apply ie_tlv_build_ok; [done | lia | done] |]. split; [done |].
  apply tlv_collect_elements with [].
  - rewrite <- (app_nil_r (tlv_encode_all es)). apply elements_of_encode; [done |].
    apply stops_no_elem. by left.
  - unfold tlv_encode_all. clear -Hes. induction Hes; csimpl; auto using tlv_encode_bytes_ok with iwd.
  - destruct buf; unfold builder_room, MAX_BUILDER_SIZE in *; lia.
Qed.

Lemma ie_tlv_build_roundtrip_witness :
  ∃ out, ie_tlv_build None 0 [(0, [65; 66]); (288, [19])] = Ok (Some out)
    ∧ zlen out = zlen (tlv_encode_all [(0, [65; 66]); (288, [19])])
    ∧ tlv_collect (out ++ []) (zlen out) = Ok [(0, [65; 66]); (288, [19])].
Proof.
  apply (ie_tlv_build_roundtrip None 0 [(0, [65; 66]); (288, [19])] []).
  - by_eval.
  - reflexivity.
  - discriminate.
Defined.

(** [ie_tlv_vendor_ie_concat] is memory safe and returns, in the order of the
    frame, the concatenation of the bodies of the vendor elements with the given OUI
    and type; with nothing to return it returns NULL and a length of 0 only when an
    element matched and the caller allows an empty payload, [-ENOENT] otherwise. *)
Theorem vendor_ie_concat_correct fresh oui type bs tail empty_ok :
  zlen oui = 3 → bytes_ok bs → zlen bs < 2 ^ 32 - 1 →
  ∃ es rest, elements_of bs es rest
    ∧ ie_tlv_vendor_ie_concat fresh oui type (bs ++ tail) (zlen bs) empty_ok =
        Ok (vendor_concat_result oui type empty_ok es).
Proof.
  intros Ho Hok Hlen. destruct (elements_total bs Hok) as (es & rest & Hes).
  exists es, rest. split; [done |]. by eapply vendor_ie_concat_elements.
Qed.

Lemma vendor_ie_concat_correct_witness :
  ∃ es rest, elements_of [221; 5; 0; 80; 242; 4; 7] es rest
    ∧ ie_tlv_vendor_ie_concat (λ _, 0) microsoft_oui 4 ([221; 5; 0; 80; 242; 4; 7] ++ [])
        (zlen [221; 5; 0; 80; 242; 4; 7]) false =
        Ok (vendor_concat_result microsoft_oui 4 false es).
Proof.
  apply (vendor_ie_concat_correct (λ _, 0) microsoft_oui 4 [221; 5; 0; 80; 242; 4; 7] [] false).
  - reflexivity.
  - by_eval.
  - reflexivity.
Defined.

(** a P2P payload of at most 251 bytes, the empty one included, survives
    [ie_tlv_encapsulate_p2p_payload] followed by [ie_tlv_extract_p2p_payload]: the
    empty payload comes back as NULL with length 0, any other as itself. *)
Theorem p2p_payload_roundtrip fresh fresh' data :
  bytes_ok data → zlen data ≤ 251 →
  ∃ ies, ie_tlv_encapsulate_p2p_payload fresh data (zlen data) = Ok ies
    ∧ ie_tlv_extract_p2p_payload fresh' ies (zlen ies) =
        Ok (if decide (data = []) then (None, inr 0) else (Some data, inr (zlen data))).
Proof.
  intros Hok Hlen. set (e := (IE_TYPE_VENDOR_SPECIFIC, wifi_alliance_oui ++ 0x09 :: data)).
  exists (tlv_encode e). split.
  { unfold ie_tlv_encapsulate_p2p_payload. rewrite <- (app_nil_r data) at 1.
    apply encapsulate_one; [done | done | done | by right]. }
  assert (He : elem_ok e).
  { split; [do 4 (constructor; [done |]); done | left; split; [done | cbn; zlia]]. }
  assert (Hes : elements_of (tlv_encode e) [e] []).
  { rewrite <- (app_nil_r (tlv_encode e)). constructor; [done |]. constructor.
    apply stops_no_elem. by left. }
  unfold ie_tlv_extract_p2p_payload. rewrite <- (app_nil_r (tlv_encode e)) at 1.
  erewrite vendor_ie_concat_elements;
    [| done | exact Hes | by apply tlv_encode_bytes_ok | rewrite tlv_encode_length; cbn; zlia].
  f_equal. assert (Hv : vendor_elem wifi_alliance_oui 9 e) by (split_and!; done || (cbn; zlia)).
  unfold vendor_concat_result.
  assert (vendor_concat wifi_alliance_oui 9 [e] = data) as ->.
  { rewrite vendor_concat_cons, decide_True by done. unfold vendor_concat. csimpl.
    by rewrite app_nil_r. }
  rewrite bool_decide_true by (by constructor). done.
Qed.

Lemma p2p_payload_roundtrip_witness :
  ∃ ies, ie_tlv_encapsulate_p2p_payload (λ _, 0) [2; 2; 0; 37; 10] (zlen [2; 2; 0; 37; 10]) = Ok ies
    ∧ ie_tlv_extract_p2p_payload (λ _, 0) ies (zlen ies) =
        Ok (if decide ([2; 2; 0; 37; 10] = []) then (None, inr 0)
            else (Some [2; 2; 0; 37; 10], inr (zlen [2; 2; 0; 37; 10]))).
Proof.
  apply (p2p_payload_roundtrip (λ _, 0) (λ _, 0) [2; 2; 0; 37; 10]).
  - by_eval.
  - discriminate.
Defined.

(** a payload longer than 251 bytes is not encapsulated correctly: the write
    offset is not advanced over the data of a fragment, so the header of the second
    element replaces the first byte of the payload (offset 6) and the last byte of the
    returned buffer is uninitialised heap memory. *)
Theorem vendor_ie_encapsulate_long_broken fresh oui type data build_empty :
  zlen oui = 3 → byte_ok type → 251 < zlen data →
  ∃ ret, ie_tlv_vendor_ie_encapsulate fresh oui type data (zlen data) build_empty = Ok ret
    ∧ ret !! 6%nat = Some IE_TYPE_VENDOR_SPECIFIC
    ∧ ret !! Z.to_nat (zlen ret - 1) = Some (fresh (Z.to_nat (zlen ret - 1))).
Proof.
  intros Ho Ht Hlen. unfold ie_tlv_vendor_ie_encapsulate.
  destruct (Z.eqb_spec (zlen data) 0) as [?|_]; [lia |]. cbn [andb].
  set (k := (zlen data + 250) / 251).
  assert (Hk : 251 * (k - 1) < zlen data ≤ 251 * k).
  { pose proof (Z_div_mod_eq_full (zlen data + 250) 251).
    pose proof (Z.mod_pos_bound (zlen data + 250) 251). unfold k. lia. }
  set (mem := l_malloc fresh (zlen data + k * 6)).
  assert (Hm : zlen mem = zlen data + k * 6) by (apply l_malloc_length; lia).
  replace (Z.to_nat (k * 6)) with (S (Z.to_nat (k * 6) - 1)) by lia.
  rewrite encapsulate_loop_step by lia. cbn zeta.
  destruct (Z.leb_spec (zlen data) 251); [lia |].
  pose proof (encapsulate_fragment_ok oui type [] mem data 251) as Hf.
  change (zlen (@nil Z)) with 0 in Hf. cbn [app] in Hf. rewrite Hf by (done || lia).
  rewrite bind_ok. clear Hf.
  destruct oui as [|o1 [|o2 [|o3 [|]]]]; try (unfold zlen in Ho; cbn in Ho; lia).
  cbn [tlv_encode app]. change (IE_TYPE_VENDOR_SPECIFIC <? 256) with true. cbn iota.
  set (n := zlen (o1 :: o2 :: o3 :: type :: ptake data 251)). change (6 + 251) with 257.
  set (rest := ptake data 251 ++ (mem +! 257)).
  assert (Hrest : zlen rest = zlen mem - 6) by (unfold rest; zlia).
  destruct (encapsulate_loop_frame [o1; o2; o3] type (Z.to_nat (k - 1)) (Z.to_nat (k * 6) - 1)
    [IE_TYPE_VENDOR_SPECIFIC; n; o1; o2; o3; type] rest (data +! 251) (zlen data - 251))
    as (rest' & He & Hl & Hfr); [done | done | lia | lia | lia | zlia | lia |].
  eexists. split.
  { replace (k * 6 - 6) with (6 * Z.of_nat (Z.to_nat (k - 1))) by lia. exact He. }
  split; [done |]. cbn [app].
  set (ret := IE_TYPE_VENDOR_SPECIFIC :: n :: o1 :: o2 :: o3 :: type :: IE_TYPE_VENDOR_SPECIFIC :: rest').
  assert (Hret : zlen ret = zlen mem) by (unfold ret; zlia).
  assert (Hidx : ret !! Z.to_nat (zlen ret - 1) = rest' !! Z.to_nat (zlen ret - 8)).
  { replace (Z.to_nat (zlen ret - 1)) with (S (S (S (S (S (S (S (Z.to_nat (zlen ret - 8))))))))) by lia.
    done. }
  rewrite Hidx.
  replace (zlen ret - 8) with (zlen ret - 7 - 1) by lia. rewrite Hfr by lia.
  unfold rest. assert (Hp : length (ptake data 251) = 251%nat)
    by (pose proof (zlen_ptake data 251); unfold zlen in *; lia).
  rewrite lookup_app_r by lia. unfold padd. rewrite lookup_drop, Hp.
  rewrite <- (l_malloc_lookup fresh (zlen data + k * 6)) by lia. unfold mem. f_equal. lia.
Qed.

Lemma vendor_ie_encapsulate_long_broken_witness :
  ∃ ret, ie_tlv_vendor_ie_encapsulate (λ _, 0) wifi_alliance_oui 9 (replicate 300 7)
      (zlen (replicate 300 7)) true = Ok ret
    ∧ ret !! 6%nat = Some IE_TYPE_VENDOR_SPECIFIC
    ∧ ret !! Z.to_nat (zlen ret - 1) = Some ((λ _ : nat, 0) (Z.to_nat (zlen ret - 1))).
Proof.
  apply (vendor_ie_encapsulate_long_broken (λ _, 0) wifi_alliance_oui 9 (replicate 300 7) true).
  - reflexivity.
  - by_eval.
  - reflexivity.
Defined.
