(* ===== verification/IeRsn.v ===== *)
(** * RSN, OSEN and WPA elements (src/ie.c)

    Parsing and building of the security elements: the RSNE, the Hotspot 2.0 OSEN
    element and the WPA vendor element. *)

From stdpp Require Import base numbers list option.
From Stdlib Require Import ZArith Lia.
From S2P Require Import Prelude IeTlv.

Open Scope Z_scope.

(** ** Cipher and AKM suites: sets are masks of these bits *)

Definition IE_RSN_CIPHER_SUITE_USE_GROUP_CIPHER : Z := 0x0001.
Definition IE_RSN_CIPHER_SUITE_WEP40 : Z := 0x0002.
Definition IE_RSN_CIPHER_SUITE_TKIP : Z := 0x0004.
Definition IE_RSN_CIPHER_SUITE_CCMP : Z := 0x0008.
Definition IE_RSN_CIPHER_SUITE_WEP104 : Z := 0x0010.
Definition IE_RSN_CIPHER_SUITE_BIP : Z := 0x0020.
Definition IE_RSN_CIPHER_SUITE_NO_GROUP_TRAFFIC : Z := 0x0040.

Definition IE_RSN_AKM_SUITE_8021X : Z := 0x0001.
Definition IE_RSN_AKM_SUITE_PSK : Z := 0x0002.
Definition IE_RSN_AKM_SUITE_FT_OVER_8021X : Z := 0x0004.
Definition IE_RSN_AKM_SUITE_FT_USING_PSK : Z := 0x0008.
Definition IE_RSN_AKM_SUITE_8021X_SHA256 : Z := 0x0010.
Definition IE_RSN_AKM_SUITE_PSK_SHA256 : Z := 0x0020.
Definition IE_RSN_AKM_SUITE_TDLS : Z := 0x0040.
Definition IE_RSN_AKM_SUITE_SAE_SHA256 : Z := 0x0080.
Definition IE_RSN_AKM_SUITE_FT_OVER_SAE_SHA256 : Z := 0x0100.
Definition IE_RSN_AKM_SUITE_AP_PEER_KEY_SHA256 : Z := 0x0200.
Definition IE_RSN_AKM_SUITE_8021X_SUITE_B_SHA256 : Z := 0x0400.
Definition IE_RSN_AKM_SUITE_8021X_SUITE_B_SHA384 : Z := 0x0800.
Definition IE_RSN_AKM_SUITE_FT_OVER_8021X_SHA384 : Z := 0x1000.
Definition IE_RSN_AKM_SUITE_OWE : Z := 0x2000.
Definition IE_RSN_AKM_SUITE_FILS_SHA256 : Z := 0x4000.
Definition IE_RSN_AKM_SUITE_FILS_SHA384 : Z := 0x8000.
Definition IE_RSN_AKM_SUITE_FT_OVER_FILS_SHA256 : Z := 0x10000.
Definition IE_RSN_AKM_SUITE_FT_OVER_FILS_SHA384 : Z := 0x20000.
Definition IE_RSN_AKM_SUITE_OSEN : Z := 0x40000.

Definition IE_WFA_OI_HS20_INDICATION : Z := 0x10.
Definition IE_WFA_OI_OSEN : Z := 0x12.

Definition IE_AKM_IS_SAE (akm : Z) : bool :=
  (akm =? IE_RSN_AKM_SUITE_SAE_SHA256) || (akm =? IE_RSN_AKM_SUITE_FT_OVER_SAE_SHA256).

Definition IE_AKM_IS_FT (akm : Z) : bool :=
  (akm =? IE_RSN_AKM_SUITE_FT_OVER_8021X) || (akm =? IE_RSN_AKM_SUITE_FT_USING_PSK) ||
  (akm =? IE_RSN_AKM_SUITE_FT_OVER_SAE_SHA256) ||
  (akm =? IE_RSN_AKM_SUITE_FT_OVER_8021X_SHA384) ||
  (akm =? IE_RSN_AKM_SUITE_FT_OVER_FILS_SHA256) ||
  (akm =? IE_RSN_AKM_SUITE_FT_OVER_FILS_SHA384).

Definition IE_AKM_IS_FILS (akm : Z) : bool :=
  (akm =? IE_RSN_AKM_SUITE_FILS_SHA256) || (akm =? IE_RSN_AKM_SUITE_FILS_SHA384) ||
  (akm =? IE_RSN_AKM_SUITE_FT_OVER_FILS_SHA256) ||
  (akm =? IE_RSN_AKM_SUITE_FT_OVER_FILS_SHA384).

(** [pmkids = None] is the NULL pointer. *)
Record ie_rsn_info : Type := mk_rsn_info {
  group_cipher : Z;
  pairwise_ciphers : Z;
  akm_suites : Z;
  preauthentication : bool;
  no_pairwise : bool;
  ptksa_replay_counter : Z;
  gtksa_replay_counter : Z;
  mfpr : bool;
  mfpc : bool;
  peerkey_enabled : bool;
  spp_a_msdu_capable : bool;
  spp_a_msdu_required : bool;
  pbac : bool;
  extended_key_id : bool;
  num_pmkids : Z;
  pmkids : option ptr;
  group_management_cipher : Z;
}.

(** [memset(&info, 0, sizeof(info))] and the defaults that follow it. *)
Definition rsn_info_init (group pairwise akm : Z) : ie_rsn_info :=
  mk_rsn_info group pairwise akm false false 0 0 false false false false false false false
    0 None 0.

Definition set_group_cipher v i :=
  mk_rsn_info v (pairwise_ciphers i) (akm_suites i) (preauthentication i) (no_pairwise i)
    (ptksa_replay_counter i) (gtksa_replay_counter i) (mfpr i) (mfpc i) (peerkey_enabled i)
    (spp_a_msdu_capable i) (spp_a_msdu_required i) (pbac i) (extended_key_id i) (num_pmkids i)
    (pmkids i) (group_management_cipher i).
Definition set_pairwise_ciphers v i :=
  mk_rsn_info (group_cipher i) v (akm_suites i) (preauthentication i) (no_pairwise i)
    (ptksa_replay_counter i) (gtksa_replay_counter i) (mfpr i) (mfpc i) (peerkey_enabled i)
    (spp_a_msdu_capable i) (spp_a_msdu_required i) (pbac i) (extended_key_id i) (num_pmkids i)
    (pmkids i) (group_management_cipher i).
Definition set_akm_suites v i :=
  mk_rsn_info (group_cipher i) (pairwise_ciphers i) v (preauthentication i) (no_pairwise i)
    (ptksa_replay_counter i) (gtksa_replay_counter i) (mfpr i) (mfpc i) (peerkey_enabled i)
    (spp_a_msdu_capable i) (spp_a_msdu_required i) (pbac i) (extended_key_id i) (num_pmkids i)
    (pmkids i) (group_management_cipher i).
Definition set_num_pmkids n i :=
  mk_rsn_info (group_cipher i) (pairwise_ciphers i) (akm_suites i) (preauthentication i)
    (no_pairwise i) (ptksa_replay_counter i) (gtksa_replay_counter i) (mfpr i) (mfpc i)
    (peerkey_enabled i) (spp_a_msdu_capable i) (spp_a_msdu_required i) (pbac i)
    (extended_key_id i) n (pmkids i) (group_management_cipher i).
Definition set_pmkids p i :=
  mk_rsn_info (group_cipher i) (pairwise_ciphers i) (akm_suites i) (preauthentication i)
    (no_pairwise i) (ptksa_replay_counter i) (gtksa_replay_counter i) (mfpr i) (mfpc i)
    (peerkey_enabled i) (spp_a_msdu_capable i) (spp_a_msdu_required i) (pbac i)
    (extended_key_id i) (num_pmkids i) p (group_management_cipher i).
Definition set_group_management_cipher v i :=
  mk_rsn_info (group_cipher i) (pairwise_ciphers i) (akm_suites i) (preauthentication i)
    (no_pairwise i) (ptksa_replay_counter i) (gtksa_replay_counter i) (mfpr i) (mfpc i)
    (peerkey_enabled i) (spp_a_msdu_capable i) (spp_a_msdu_required i) (pbac i)
    (extended_key_id i) (num_pmkids i) (pmkids i) v.

(** ** Parsing suites *)

(** [None] is a [false] return. *)
Definition ie_parse_cipher_suite (data : ptr) : res (option Z) :=
  same ← memeq data ieee_oui;
  if (same : bool) then
    t ← rd data 3;
    Ok (match t with
        | 0 => Some IE_RSN_CIPHER_SUITE_USE_GROUP_CIPHER
        | 1 => Some IE_RSN_CIPHER_SUITE_WEP40
        | 2 => Some IE_RSN_CIPHER_SUITE_TKIP
        | 4 => Some IE_RSN_CIPHER_SUITE_CCMP
        | 5 => Some IE_RSN_CIPHER_SUITE_WEP104
        | 6 => Some IE_RSN_CIPHER_SUITE_BIP
        | 7 => Some IE_RSN_CIPHER_SUITE_NO_GROUP_TRAFFIC
        | _ => None
        end)
  else Ok None.

Definition ie_parse_rsn_akm_suite (data : ptr) : res Z :=
  same ← memeq data ieee_oui;
  if (same : bool) then
    t ← rd data 3;
    match t with
    | 0 => Err EINVAL
    | 1 => Ok IE_RSN_AKM_SUITE_8021X
    | 2 => Ok IE_RSN_AKM_SUITE_PSK
    | 3 => Ok IE_RSN_AKM_SUITE_FT_OVER_8021X
    | 4 => Ok IE_RSN_AKM_SUITE_FT_USING_PSK
    | 5 => Ok IE_RSN_AKM_SUITE_8021X_SHA256
    | 6 => Ok IE_RSN_AKM_SUITE_PSK_SHA256
    | 7 => Ok IE_RSN_AKM_SUITE_TDLS
    | 8 => Ok IE_RSN_AKM_SUITE_SAE_SHA256
    | 9 => Ok IE_RSN_AKM_SUITE_FT_OVER_SAE_SHA256
    | 10 => Ok IE_RSN_AKM_SUITE_AP_PEER_KEY_SHA256
    | 11 => Ok IE_RSN_AKM_SUITE_8021X_SUITE_B_SHA256
    | 12 => Ok IE_RSN_AKM_SUITE_8021X_SUITE_B_SHA384
    | 13 => Ok IE_RSN_AKM_SUITE_FT_OVER_8021X_SHA384
    | 14 => Ok IE_RSN_AKM_SUITE_FILS_SHA256
    | 15 => Ok IE_RSN_AKM_SUITE_FILS_SHA384
    | 16 => Ok IE_RSN_AKM_SUITE_FT_OVER_FILS_SHA256
    | 17 => Ok IE_RSN_AKM_SUITE_FT_OVER_FILS_SHA384
    | 18 => Ok IE_RSN_AKM_SUITE_OWE
    | _ => Err ENOENT
    end
  else Err ENOENT.

Definition ie_parse_osen_akm_suite (data : ptr) : res Z :=
  same ← memeq data wifi_alliance_oui;
  if negb same then Err ENOENT
  else
    t ← rd data 3;
    if negb (t =? 1) then Err ENOENT else Ok IE_RSN_AKM_SUITE_OSEN.

Definition keep_suite (allowed : list Z) (r : option Z) : option Z :=
  match r with
  | Some s => if bool_decide (s ∈ allowed) then Some s else None
  | None => None
  end.

Definition group_suites : list Z :=
  [IE_RSN_CIPHER_SUITE_CCMP; IE_RSN_CIPHER_SUITE_TKIP; IE_RSN_CIPHER_SUITE_WEP104;
   IE_RSN_CIPHER_SUITE_WEP40; IE_RSN_CIPHER_SUITE_NO_GROUP_TRAFFIC].
Definition pairwise_suites : list Z :=
  [IE_RSN_CIPHER_SUITE_CCMP; IE_RSN_CIPHER_SUITE_TKIP; IE_RSN_CIPHER_SUITE_WEP104;
   IE_RSN_CIPHER_SUITE_WEP40; IE_RSN_CIPHER_SUITE_USE_GROUP_CIPHER].
Definition group_management_suites : list Z :=
  [IE_RSN_CIPHER_SUITE_BIP; IE_RSN_CIPHER_SUITE_NO_GROUP_TRAFFIC].

Definition ie_parse_group_cipher (data : ptr) : res (option Z) :=
  r ← ie_parse_cipher_suite data; Ok (keep_suite group_suites r).
Definition ie_parse_pairwise_cipher (data : ptr) : res (option Z) :=
  r ← ie_parse_cipher_suite data; Ok (keep_suite pairwise_suites r).
Definition ie_parse_group_management_cipher (data : ptr) : res (option Z) :=
  r ← ie_parse_cipher_suite data; Ok (keep_suite group_management_suites r).

(** ** Parsing the common part *)

(** [RSNE_ADVANCE]: move on by [step], leaving with [info] when nothing is left. *)
Definition rsne_advance {A} (data : ptr) (len step : Z) (done : A) (k : ptr → Z → res A)
    : res A :=
  let data := data +! step in
  let len := u64 (len - step) in
  if len =? 0 then Ok done else k data len.

(** [if (f() < 0) return -e]. *)
Definition on_error {A} (m : res A) (e : errno) : res A :=
  match m with Err _ => Err e | _ => m end.

(** The two [for (i = 0; i < count; i++)] loops over 4-byte suite selectors. *)
Fixpoint parse_pairwise_list (parse : ptr → res (option Z)) (n : nat) (data : ptr) (acc : Z)
    : res Z :=
  match n with
  | O => Ok acc
  | S n' =>
      r ← parse data;
      match r with
      | None => Err ERANGE
      | Some suite => parse_pairwise_list parse n' (data +! 4) (Z.lor acc suite)
      end
  end.

Fixpoint parse_akm_list (akm_parse : ptr → res Z) (n : nat) (data : ptr) (acc : Z) : res Z :=
  match n with
  | O => Ok acc
  | S n' =>
      match akm_parse data with
      | Ok suite => parse_akm_list akm_parse n' (data +! 4) (Z.lor acc suite)
      | Err ENOENT => parse_akm_list akm_parse n' (data +! 4) acc
      | Err _ => Err EBADMSG
      | Fault => Fault
      | Diverge => Diverge
      end
  end.

(** "Parse Group Management Cipher Suite field" *)
Definition parse_group_management (data : ptr) (len : Z) (info : ie_rsn_info) : res ie_rsn_info :=
  if len <? 4 then Err EBADMSG
  else
    r ← ie_parse_group_management_cipher data;
    match r with
    | None => Err ERANGE
    | Some s =>
        rsne_advance data len 4 (set_group_management_cipher s info) (λ _ _, Err EBADMSG)
    end.

(** "Parse PMKID Count field" and "PMKID List field"; [num_pmkids] is a [uint8_t]. *)
Definition parse_pmkids (data : ptr) (len : Z) (info : ie_rsn_info) : res ie_rsn_info :=
  if len <? 2 then Err EBADMSG
  else
    n ← l_get_le16 data;
    let info := set_num_pmkids (u8 n) info in
    rsne_advance data len 2 info (λ data len,
      if 0 <? num_pmkids info then
        if len <? 16 * num_pmkids info then Err EBADMSG
        else
          let info := set_pmkids (Some data) info in
          rsne_advance data len (num_pmkids info * 16) info (λ data len,
            parse_group_management data len info)
      else parse_group_management data len info).

(** The RSN Capabilities field. *)
Definition parse_rsn_capabilities (data : ptr) (info : ie_rsn_info) : res ie_rsn_info :=
  preauth ← test_bit data 0;
  no_pw ← test_bit data 1;
  d0 ← rd data 0;
  mfpr_ ← test_bit data 6;
  mfpc_ ← test_bit data 7;
  peerkey ← test_bit (data +! 1) 1;
  spp_cap ← test_bit (data +! 1) 2;
  spp_req ← test_bit (data +! 1) 3;
  pbac_ ← test_bit (data +! 1) 4;
  ext ← test_bit (data +! 1) 5;
  Ok (mk_rsn_info (group_cipher info) (pairwise_ciphers info) (akm_suites info) preauth no_pw
        (bit_field d0 2 2) (bit_field d0 4 2) mfpr_ mfpc_ peerkey spp_cap spp_req pbac_ ext
        (num_pmkids info) (pmkids info)
        (if mfpc_ : bool then IE_RSN_CIPHER_SUITE_BIP else group_management_cipher info)).

Definition parse_capabilities (data : ptr) (len : Z) (info : ie_rsn_info) : res ie_rsn_info :=
  if len <? 2 then Err EBADMSG
  else
    info ← parse_rsn_capabilities data info;
    rsne_advance data len 2 info (λ data len, parse_pmkids data len info).

(** "Parse AKM Suite Count field" and "AKM Suite List field" *)
Definition parse_akms (akm_parse : ptr → res Z) (data : ptr) (len : Z) (info : ie_rsn_info)
    : res ie_rsn_info :=
  if len <? 2 then Err EBADMSG
  else
    count ← l_get_le16 data;
    if count =? 0 then Err EINVAL
    else
      let data := data +! 2 in
      let len := u64 (len - 2) in
      if len <? 4 * count then Err EBADMSG
      else
        suites ← parse_akm_list akm_parse (Z.to_nat count) data 0;
        let info := set_akm_suites suites info in
        rsne_advance data len (count * 4) info (λ data len, parse_capabilities data len info).

(** "Parse Pairwise Cipher Suite Count field" and "Pairwise Cipher Suite List field" *)
Definition parse_pairwise (akm_parse : ptr → res Z) (data : ptr) (len : Z) (info : ie_rsn_info)
    : res ie_rsn_info :=
  if len <? 2 then Err EBADMSG
  else
    count ← l_get_le16 data;
    if count =? 0 then Err EINVAL
    else
      let data := data +! 2 in
      let len := u64 (len - 2) in
      if len <? 4 * count then Err EBADMSG
      else
        suites ← parse_pairwise_list ie_parse_pairwise_cipher (Z.to_nat count) data 0;
        let info := set_pairwise_ciphers suites info in
        rsne_advance data len (count * 4) info (λ data len, parse_akms akm_parse data len info).

Definition parse_ciphers (data : ptr) (len : Z) (akm_parse : ptr → res Z) (info : ie_rsn_info)
    : res ie_rsn_info :=
  if len <? 4 then Err EBADMSG
  else
    r ← ie_parse_group_cipher data;
    match r with
    | None => Err ERANGE
    | Some s =>
        let info := set_group_cipher s info in
        rsne_advance data len 4 info (λ data len, parse_pairwise akm_parse data len info)
    end.

(** ** RSNE *)

(** [out_info] as the function leaves it. *)
Definition ie_parse_rsne (iter : ie_tlv_iter) : res ie_rsn_info :=
  let data := it_data iter in
  let len := it_len iter in
  let info := rsn_info_init IE_RSN_CIPHER_SUITE_CCMP IE_RSN_CIPHER_SUITE_CCMP
                IE_RSN_AKM_SUITE_8021X in
  if len <? 2 then Err EMSGSIZE
  else
    version ← l_get_le16 data;
    if negb (version =? 1) then Err EBADMSG
    else
      rsne_advance data len 2 info (λ data len,
        on_error (parse_ciphers data len ie_parse_rsn_akm_suite info) EBADMSG).

(** The element a [..._from_data] function looks at: the first of the buffer. *)
Definition first_element (data : ptr) (len : Z) : res ie_tlv_iter :=
  r ← ie_tlv_iter_next (ie_tlv_iter_init data len);
  match r with None => Err EMSGSIZE | Some iter => Ok iter end.

Definition ie_parse_rsne_from_data (data : ptr) (len : Z) : res ie_rsn_info :=
  iter ← first_element data len;
  if negb (it_tag iter =? IE_TYPE_RSN) then Err EPROTOTYPE else ie_parse_rsne iter.

(** ** OSEN *)

(** [data = NULL] is not modelled: the iterator never yields it. *)
Definition is_ie_wfa_ie (data : ptr) (len : Z) (oi_type : Z) : res bool :=
  let len := u8 len in
  if (oi_type =? IE_WFA_OI_OSEN) && (len <? 22) then Ok false
  else if (oi_type =? IE_WFA_OI_HS20_INDICATION) && negb (len =? 5) && negb (len =? 7)
  then Ok false
  else if len <? 4 then Ok false
  else
    same ← memeq data wifi_alliance_oui;
    if negb same then Ok false else t ← rd data 3; Ok (t =? oi_type).

Definition is_ie_wpa_ie (data : ptr) (len : Z) : res bool :=
  let len := u8 len in
  if len <? 6 then Ok false
  else
    same ← memeq data microsoft_oui;
    if negb same then Ok false
    else
      t ← rd data 3;
      if negb (t =? 1) then Ok false
      else v ← l_get_le16 (data +! 4); Ok (v =? 1).

Definition ie_parse_osen (iter : ie_tlv_iter) : res ie_rsn_info :=
  let data := it_data iter in
  let len := it_len iter in
  if negb (it_tag iter =? IE_TYPE_VENDOR_SPECIFIC) then Err EPROTOTYPE
  else
    wfa ← is_ie_wfa_ie data len IE_WFA_OI_OSEN;
    if negb wfa then Err EPROTOTYPE
    else
      let info := rsn_info_init IE_RSN_CIPHER_SUITE_NO_GROUP_TRAFFIC IE_RSN_CIPHER_SUITE_CCMP
                    IE_RSN_AKM_SUITE_8021X in
      rsne_advance data len 4 info (λ data len,
        on_error (parse_ciphers data len ie_parse_osen_akm_suite info) EBADMSG).

Definition ie_parse_osen_from_data (data : ptr) (len : Z) : res ie_rsn_info :=
  iter ← first_element data len; ie_parse_osen iter.

(** ** Building the common part *)

(** The type byte of a cipher suite selector, [None] when the suite has none. *)
Definition cipher_suite_type (suite : Z) : option Z :=
  match suite with
  | 0x01 => Some 0
  | 0x02 => Some 1
  | 0x04 => Some 2
  | 0x08 => Some 4
  | 0x10 => Some 5
  | 0x20 => Some 6
  | 0x40 => Some 7
  | _ => None
  end.

(** [None] is a [false] return. *)
Definition ie_build_cipher_suite (buf : list Z) (pos : Z) (oui : list Z) (suite : Z)
    : res (option (list Z)) :=
  match cipher_suite_type suite with
  | Some t => b ← put buf pos (oui ++ [t]); Ok (Some b)
  | None => Ok None
  end.

Definition rsn_akm_selector (suite : Z) : option (list Z) :=
  match suite with
  | 0x0001 => Some (ieee_oui ++ [1])
  | 0x0002 => Some (ieee_oui ++ [2])
  | 0x0004 => Some (ieee_oui ++ [3])
  | 0x0008 => Some (ieee_oui ++ [4])
  | 0x0010 => Some (ieee_oui ++ [5])
  | 0x0020 => Some (ieee_oui ++ [6])
  | 0x0040 => Some (ieee_oui ++ [7])
  | 0x0080 => Some (ieee_oui ++ [8])
  | 0x0100 => Some (ieee_oui ++ [9])
  | 0x0200 => Some (ieee_oui ++ [10])
  | 0x0400 => Some (ieee_oui ++ [11])
  | 0x0800 => Some (ieee_oui ++ [12])
  | 0x1000 => Some (ieee_oui ++ [13])
  | 0x4000 => Some (ieee_oui ++ [14])
  | 0x8000 => Some (ieee_oui ++ [15])
  | 0x10000 => Some (ieee_oui ++ [16])
  | 0x20000 => Some (ieee_oui ++ [17])
  | 0x2000 => Some (ieee_oui ++ [18])
  | 0x40000 => Some (wifi_alliance_oui ++ [1])
  | _ => None
  end.

Definition ie_build_rsn_akm_suite (buf : list Z) (pos : Z) (suite : Z) : res (option (list Z)) :=
  match rsn_akm_selector suite with
  | Some s => b ← put buf pos s; Ok (Some b)
  | None => Ok None
  end.

Definition wpa_akm_selector (suite : Z) : option (list Z) :=
  match suite with
  | 0x0001 => Some (microsoft_oui ++ [1])
  | 0x0002 => Some (microsoft_oui ++ [2])
  | _ => None
  end.

Definition ie_build_wpa_akm_suite (buf : list Z) (pos : Z) (suite : Z) : res (option (list Z)) :=
  match wpa_akm_selector suite with
  | Some s => b ← put buf pos s; Ok (Some b)
  | None => Ok None
  end.

(** A loop that writes the selectors of the suites of [mask], in the order of [suites]
    and at most up to [max_len] bytes from [off]; the buffer, the position (relative to
    [off]) and the number of selectors. *)
Fixpoint build_suites (build : list Z → Z → Z → res (option (list Z))) (suites : list Z)
    (mask max_len off : Z) (buf : list Z) (pos count : Z) : res (list Z * Z * Z) :=
  match suites with
  | [] => Ok (buf, pos, count)
  | suite :: suites' =>
      if Z.land mask suite =? 0 then
        build_suites build suites' mask max_len off buf pos count
      else if max_len <? pos + 4 then Err EBADMSG
      else
        r ← build buf (off + pos) suite;
        match r with
        | None => Err EINVAL
        | Some buf => build_suites build suites' mask max_len off buf (pos + 4) (count + 1)
        end
  end.

(** The values the AKM loop goes through: [akm_suite <<= 1] up to the last suite. *)
Definition akm_loop_suites : list Z := (λ i, Z.shiftl 1 (Z.of_nat i)) <$> seq 0 19.

Definition bit_if (b : bool) (v : Z) : Z := if b then v else 0.

(** Bits 0 - 7 and bits 8 - 15 of the RSN Capabilities field. *)
Definition rsn_caps0 (info : ie_rsn_info) : Z :=
  u8 (Z.lor (Z.lor (Z.lor (Z.lor (Z.lor (bit_if (preauthentication info) 0x1)
    (bit_if (no_pairwise info) 0x2)) (Z.shiftl (ptksa_replay_counter info) 2))
    (Z.shiftl (gtksa_replay_counter info) 4)) (bit_if (mfpr info) 0x40))
    (bit_if (mfpc info) 0x80)).
Definition rsn_caps1 (info : ie_rsn_info) : Z :=
  Z.lor (Z.lor (Z.lor (Z.lor (bit_if (peerkey_enabled info) 0x2)
    (bit_if (spp_a_msdu_capable info) 0x4)) (bit_if (spp_a_msdu_required info) 0x8))
    (bit_if (pbac info) 0x10)) (bit_if (extended_key_id info) 0x20).

(** From "PMKID Count" to the end of [build_ciphers_common]. *)
Definition build_pmkids (info : ie_rsn_info) (buf : list Z) (off max_len pos : Z)
    (force_group_mgmt_cipher : bool) : res (list Z * Z) :=
  buf ← put buf (off + pos) (le16_bytes (num_pmkids info));
  let pos := pos + 2 in
  if max_len <? pos + num_pmkids info * 16 then Err EINVAL
  else
    '(buf, pos) ← (if num_pmkids info =? 0 then Ok (buf, pos)
                   else match pmkids info with
                        | None => Fault
                        | Some p =>
                            l ← rdn p (16 * num_pmkids info);
                            buf ← put buf (off + pos) l;
                            Ok (buf, pos + 16 * num_pmkids info)
                        end);
    if negb force_group_mgmt_cipher && negb (mfpc info) then Ok (buf, pos)
    else if negb force_group_mgmt_cipher &&
            (group_management_cipher info =? IE_RSN_CIPHER_SUITE_BIP) then Ok (buf, pos)
    else
      r ← ie_build_cipher_suite buf (off + pos) ieee_oui (group_management_cipher info);
      match r with None => Err EINVAL | Some buf => Ok (buf, pos + 4) end.

(** Writes at [buf + off]; the returned position counts from there. *)
Definition build_ciphers_common (info : ie_rsn_info) (buf : list Z) (off max_len : Z)
    (force_group_mgmt_cipher : bool) : res (list Z * Z) :=
  r ← ie_build_cipher_suite buf off ieee_oui (group_cipher info);
  match r with
  | None => Err EINVAL
  | Some buf =>
      let pos := 4 in
      let countptr := off + pos in
      let pos := pos + 2 in
      '(buf, pos, count) ←
        build_suites (λ b p s, ie_build_cipher_suite b p ieee_oui s) pairwise_suites
          (pairwise_ciphers info) max_len off buf pos 0;
      buf ← put buf countptr (le16_bytes count);
      let countptr := off + pos in
      let pos := pos + 2 in
      '(buf, pos, count) ←
        build_suites ie_build_rsn_akm_suite akm_loop_suites (akm_suites info) max_len off
          buf pos 0;
      buf ← put buf countptr (le16_bytes count);
      buf ← put1 buf (off + pos) (rsn_caps0 info);
      let pos := pos + 1 in
      buf ← put1 buf (off + pos) (rsn_caps1 info);
      let pos := pos + 1 in
      if (num_pmkids info =? 0) && negb force_group_mgmt_cipher &&
         (((rsn_caps0 info =? 0) && (rsn_caps1 info =? 0)) || negb (mfpc info) ||
          (group_management_cipher info =? IE_RSN_CIPHER_SUITE_BIP))
      then Ok (buf, pos)
      else build_pmkids info buf off max_len pos force_group_mgmt_cipher
  end.

(** The contents of [to]; [None] is a [false] return. *)
Definition ie_build_rsne (info : ie_rsn_info) (to : list Z) : res (option (list Z)) :=
  to ← put1 to 0 IE_TYPE_RSN;
  to ← put to 2 (le16_bytes 1);
  match build_ciphers_common info to 4 252 false with
  | Ok (to, ret) => to ← put1 to 1 (4 + ret - 2); Ok (Some to)
  | Err _ => Ok None
  | Fault => Fault
  | Diverge => Diverge
  end.

Definition ie_rsne_is_wpa3_personal (info : ie_rsn_info) : bool :=
  let is_transition := negb (Z.land (akm_suites info) IE_RSN_AKM_SUITE_PSK =? 0) in
  if Z.land (akm_suites info) IE_RSN_AKM_SUITE_SAE_SHA256 =? 0 then false
  else if negb (mfpc info) then false
  else is_transition || mfpr info.

Definition ie_build_osen (info : ie_rsn_info) (to : list Z) : res (option (list Z)) :=
  to ← put1 to 0 IE_TYPE_VENDOR_SPECIFIC;
  to ← put to 2 wifi_alliance_oui;
  to ← put1 to 5 0x12;
  match build_ciphers_common info to 6 250 true with
  | Ok (to, ret) => to ← put1 to 1 (6 + ret - 2); Ok (Some to)
  | Err _ => Ok None
  | Fault => Fault
  | Diverge => Diverge
  end.

(** ** The WPA vendor element *)

Definition ie_parse_wpa_cipher_suite (data : ptr) : res (option Z) :=
  same ← memeq data microsoft_oui;
  if (same : bool) then
    t ← rd data 3;
    Ok (match t with
        | 0 => Some IE_RSN_CIPHER_SUITE_USE_GROUP_CIPHER
        | 1 => Some IE_RSN_CIPHER_SUITE_WEP40
        | 2 => Some IE_RSN_CIPHER_SUITE_TKIP
        | 4 => Some IE_RSN_CIPHER_SUITE_CCMP
        | 5 => Some IE_RSN_CIPHER_SUITE_WEP104
        | _ => None
        end)
  else Ok None.

Definition ie_parse_wpa_akm_suite (data : ptr) : res (option Z) :=
  same ← memeq data microsoft_oui;
  if (same : bool) then
    t ← rd data 3;
    Ok (match t with
        | 1 => Some IE_RSN_AKM_SUITE_8021X
        | 2 => Some IE_RSN_AKM_SUITE_PSK
        | _ => None
        end)
  else Ok None.

Definition wpa_suites : list Z :=
  [IE_RSN_CIPHER_SUITE_CCMP; IE_RSN_CIPHER_SUITE_TKIP; IE_RSN_CIPHER_SUITE_WEP104;
   IE_RSN_CIPHER_SUITE_WEP40].

Definition ie_parse_wpa_group_cipher (data : ptr) : res (option Z) :=
  r ← ie_parse_wpa_cipher_suite data; Ok (keep_suite wpa_suites r).
Definition ie_parse_wpa_pairwise_cipher (data : ptr) : res (option Z) :=
  r ← ie_parse_wpa_cipher_suite data; Ok (keep_suite wpa_suites r).

(** [done:] in [ie_parse_wpa].  [out] is what [out_info] points to, [None] for a NULL
    [out_info]. *)
Definition wpa_done (info : ie_rsn_info) (out : option ie_rsn_info) : res (option ie_rsn_info) :=
  if negb (Z.land (group_cipher info) IE_RSN_CIPHER_SUITE_CCMP =? 0) &&
     negb (Z.land (pairwise_ciphers info) IE_RSN_CIPHER_SUITE_TKIP =? 0)
  then Err EBADMSG
  else Ok (match out with Some _ => Some info | None => None end).

(** The capabilities are stored through [out_info], not in the local [info]. *)
Definition wpa_capabilities (data : ptr) (out : option ie_rsn_info) : res (option ie_rsn_info) :=
  match out with
  | None => Fault
  | Some o =>
      preauth ← test_bit data 0;
      no_pw ← test_bit data 1;
      d0 ← rd data 0;
      Ok (Some (mk_rsn_info (group_cipher o) (pairwise_ciphers o) (akm_suites o) preauth no_pw
            (bit_field d0 2 2) (bit_field d0 4 2) (mfpr o) (mfpc o) (peerkey_enabled o)
            (spp_a_msdu_capable o) (spp_a_msdu_required o) (pbac o) (extended_key_id o)
            (num_pmkids o) (pmkids o) (group_management_cipher o)))
  end.

(** [RSNE_ADVANCE] of [ie_parse_wpa], where [done:] still checks [info]. *)
Definition wpa_advance (data : ptr) (len step : Z) (info : ie_rsn_info) (out : option ie_rsn_info)
    (k : ptr → Z → res (option ie_rsn_info)) : res (option ie_rsn_info) :=
  let data := data +! step in
  let len := u64 (len - step) in
  if len =? 0 then wpa_done info out else k data len.

(** From the RSN Capabilities field on: trailing bytes end the function without
    storing [info]. *)
Definition wpa_tail (data : ptr) (len : Z) (info : ie_rsn_info) (out : option ie_rsn_info)
    : res (option ie_rsn_info) :=
  if len <? 2 then Err EBADMSG
  else
    out ← wpa_capabilities data out;
    wpa_advance data len 2 info out (λ _ _, Ok out).

Definition wpa_akms (data : ptr) (len : Z) (info : ie_rsn_info) (out : option ie_rsn_info)
    : res (option ie_rsn_info) :=
  if len <? 2 then Err EBADMSG
  else
    count ← l_get_le16 data;
    if count =? 0 then Err EINVAL
    else
      let data := data +! 2 in
      let len := u64 (len - 2) in
      if len <? 4 * count then Err EBADMSG
      else
        suites ← parse_pairwise_list ie_parse_wpa_akm_suite (Z.to_nat count) data 0;
        let info := set_akm_suites suites info in
        wpa_advance data len (count * 4) info out (λ data len, wpa_tail data len info out).

Definition wpa_pairwise (data : ptr) (len : Z) (info : ie_rsn_info) (out : option ie_rsn_info)
    : res (option ie_rsn_info) :=
  if len <? 2 then Err EBADMSG
  else
    count ← l_get_le16 data;
    if count =? 0 then Err EINVAL
    else
      let data := data +! 2 in
      let len := u64 (len - 2) in
      if len <? 4 * count then Err EBADMSG
      else
        suites ← parse_pairwise_list ie_parse_wpa_pairwise_cipher (Z.to_nat count) data 0;
        let info := set_pairwise_ciphers suites info in
        wpa_advance data len (count * 4) info out (λ data len, wpa_akms data len info out).

(** What [*out_info] holds after a 0 return. *)
Definition ie_parse_wpa (iter : ie_tlv_iter) (out : option ie_rsn_info)
    : res (option ie_rsn_info) :=
  let data := it_data iter in
  let len := it_len iter in
  wpa ← is_ie_wpa_ie data len;
  if negb wpa then Err EINVAL
  else
    let info := rsn_info_init IE_RSN_CIPHER_SUITE_TKIP IE_RSN_CIPHER_SUITE_TKIP
                  IE_RSN_AKM_SUITE_PSK in
    wpa_advance data len 6 info out (λ data len,
      if len <? 4 then Err EBADMSG
      else
        r ← ie_parse_wpa_group_cipher data;
        match r with
        | None => Err ERANGE
        | Some s =>
            let info := set_group_cipher s info in
            wpa_advance data len 4 info out (λ data len, wpa_pairwise data len info out)
        end).

Definition ie_parse_wpa_from_data (data : ptr) (len : Z) (out : option ie_rsn_info)
    : res (option ie_rsn_info) :=
  iter ← first_element data len;
  if negb (it_tag iter =? IE_TYPE_VENDOR_SPECIFIC) then Err EPROTOTYPE
  else ie_parse_wpa iter out.

(** Without a limit: the loops of [ie_build_wpa] do not check the buffer. *)
Definition ie_build_wpa (info : ie_rsn_info) (to : list Z) : res (option (list Z)) :=
  if (group_cipher info =? IE_RSN_CIPHER_SUITE_CCMP) &&
     negb (Z.land (pairwise_ciphers info) IE_RSN_CIPHER_SUITE_TKIP =? 0)
  then Ok None
  else
    to ← put1 to 0 IE_TYPE_VENDOR_SPECIFIC;
    to ← put to 2 microsoft_oui;
    to ← put1 to 5 1;
    to ← put to 6 (le16_bytes 1);
    r ← ie_build_cipher_suite to 8 microsoft_oui (group_cipher info);
    match r with
    | None => Ok None
    | Some to =>
        let countptr := 12 in
        let pos := 14 in
        match build_suites (λ b p s, ie_build_cipher_suite b p microsoft_oui s) wpa_suites
                (pairwise_ciphers info) (2 ^ 32) 0 to pos 0 with
        | Ok (to, pos, count) =>
            to ← put to countptr (le16_bytes count);
            let countptr := pos in
            let pos := pos + 2 in
            match build_suites ie_build_wpa_akm_suite
                    [IE_RSN_AKM_SUITE_8021X; IE_RSN_AKM_SUITE_PSK] (akm_suites info) (2 ^ 32) 0
                    to pos 0 with
            | Ok (to, pos, count) =>
                to ← put to countptr (le16_bytes count);
                to ← put1 to 1 (pos - 2);
                Ok (Some to)
            | Err _ => Ok None
            | Fault => Fault
            | Diverge => Diverge
            end
        | Err _ => Ok None
        | Fault => Fault
        | Diverge => Diverge
        end
    end.

(** ** What the parsers guarantee *)

(** The values a parsed [ie_rsn_info] can hold; the PMKID pointer, when there is one,
    has the 16 bytes of each of the [num_pmkids] entries behind it. *)
Record rsn_info_wf (akm_mask : Z) (i : ie_rsn_info) : Prop := {
  wf_group : group_cipher i ∈ group_suites;
  wf_pairwise : subset_mask (pairwise_ciphers i) 0x1f;
  wf_pairwise_ne : pairwise_ciphers i ≠ 0;
  wf_akm : subset_mask (akm_suites i) akm_mask;
  wf_ptksa : 0 ≤ ptksa_replay_counter i < 4;
  wf_gtksa : 0 ≤ gtksa_replay_counter i < 4;
  wf_num_pmkids : 0 ≤ num_pmkids i < 256;
  wf_pmkids : match pmkids i with
              | None => True
              | Some p => 0 < num_pmkids i ∧ 16 * num_pmkids i ≤ zlen p
              end;
  wf_gmc : group_management_cipher i ∈ 0 :: group_management_suites;
}.

Lemma zlen_ieee_oui : zlen ieee_oui = 3.
Proof. done. Qed.

Lemma zlen_microsoft_oui : zlen microsoft_oui = 3.
Proof. done. Qed.

Lemma zlen_wifi_alliance_oui : zlen wifi_alliance_oui = 3.
Proof. done. Qed.

#[export] Hint Rewrite zlen_ieee_oui zlen_microsoft_oui zlen_wifi_alliance_oui : iwd.

Lemma safe_advance {A} (P : A → Prop) data len step a k :
  bytes_ok data → 0 ≤ step ≤ len → len ≤ zlen data → len < 2 ^ 64 → P a →
  (∀ data' len', bytes_ok data' → 0 < len' ≤ zlen data' → len' < 2 ^ 64 → safe P (k data' len')) →
  safe P (rsne_advance data len step a k).
Proof.
  intros Hok Hs Hl Hmax Ha Hk. unfold rsne_advance. rewrite u64_small by lia.
  case_b; [done |]. apply Hk; [auto with iwd | zlia | lia].
Qed.

Lemma safe_on_error {A} (P : A → Prop) m e : safe P m → safe P (on_error m e).
Proof. by destruct m. Qed.

Lemma parse_cipher_suite_safe data :
  bytes_ok data → 4 ≤ zlen data → safe (λ _, True) (ie_parse_cipher_suite data).
Proof.
  intros. unfold ie_parse_cipher_suite.
  safe_step. destruct a; [| done].
  safe_step. done.
Qed.

Lemma keep_suite_safe allowed data :
  bytes_ok data → 4 ≤ zlen data →
  safe (λ r, ∀ s, r = Some s → s ∈ allowed)
    (r ← ie_parse_cipher_suite data; Ok (keep_suite allowed r)).
Proof.
  intros. eapply safe_bind; [by apply parse_cipher_suite_safe |]. intros [s|] _; simpl; [| done].
  case_bool_decide; naive_solver.
Qed.

Lemma parse_pairwise_list_safe parse allowed mask n : ∀ data acc,
  Forall (λ s, subset_mask s mask ∧ s ≠ 0) allowed →
  (∀ d, bytes_ok d → 4 ≤ zlen d → safe (λ r, ∀ s, r = Some s → s ∈ allowed) (parse d)) →
  bytes_ok data → 4 * Z.of_nat n ≤ zlen data → subset_mask acc mask →
  safe (λ s, subset_mask s mask ∧ ((0 < n)%nat ∨ acc ≠ 0 → s ≠ 0))
    (parse_pairwise_list parse n data acc).
Proof.
  induction n as [|n IH]; intros data acc Hall Hp Hok Hl Hacc; cbn [parse_pairwise_list].
  { split; [done | intros [?|?]; [lia | done]]. }
  eapply safe_bind; [apply Hp; [done | lia] |]. intros [s|] Hs; [| done].
  destruct (Forall_elem _ _ _ Hall (Hs s eq_refl)) as [Hs1 Hs2].
  eapply safe_mono; [apply IH; [done | done | auto with iwd | zlia | auto with iwd] |].
  intros r [Hr Hne]. split; [done |]. intros _. apply Hne. right.
  intros [_ E]%Z.lor_eq_0_iff. done.
Qed.

Lemma parse_akm_list_safe parse mask n : ∀ data acc,
  (∀ d, bytes_ok d → 4 ≤ zlen d → safe (λ s, subset_mask s mask) (parse d)) →
  bytes_ok data → 4 * Z.of_nat n ≤ zlen data → subset_mask acc mask →
  safe (λ s, subset_mask s mask) (parse_akm_list parse n data acc).
Proof.
  induction n as [|n IH]; intros data acc Hp Hok Hl Hacc; cbn [parse_akm_list]; [done |].
  specialize (Hp data Hok ltac:(lia)) as Hd.
  destruct (parse data) as [s|e| |]; simpl in Hd; try done.
  - apply IH; [done | auto with iwd | zlia | auto with iwd].
  - destruct e; try done. apply IH; [done | auto with iwd | zlia | done].
Qed.

Lemma parse_rsn_akm_suite_safe data :
  bytes_ok data → 4 ≤ zlen data →
  safe (λ s, subset_mask s 0x3ffff) (ie_parse_rsn_akm_suite data).
Proof.
  intros. unfold ie_parse_rsn_akm_suite. safe_step. destruct a; [| done].
  safe_step. repeat (case_match; try done).
Qed.

Lemma parse_osen_akm_suite_safe data :
  bytes_ok data → 4 ≤ zlen data →
  safe (λ s, subset_mask s 0x40000) (ie_parse_osen_akm_suite data).
Proof.
  intros. unfold ie_parse_osen_akm_suite. safe_step. destruct a; [| done].
  simpl. safe_step. by case_match.
Qed.

Lemma parse_group_management_safe mask data len info :
  bytes_ok data → 0 < len ≤ zlen data → len < 2 ^ 64 → rsn_info_wf mask info →
  safe (rsn_info_wf mask) (parse_group_management data len info).
Proof.
  intros Hok Hl Hmax Hwf. unfold parse_group_management. case_b; [done |].
  eapply safe_bind; [apply keep_suite_safe; [done | lia] |].
  intros [s|] Hs; [| done]. apply safe_advance; [done | lia.. | | done].
  destruct Hwf. split; try done. simpl. apply list_elem_of_further. by apply Hs.
Qed.

(** The PMKID pointer is set once, when the list is found to be long enough. *)
Lemma parse_pmkids_safe mask data len info :
  bytes_ok data → 0 < len ≤ zlen data → len < 2 ^ 64 → rsn_info_wf mask info →
  pmkids info = None → safe (rsn_info_wf mask) (parse_pmkids data len info).
Proof.
  intros Hok Hl Hmax Hwf Hnone. unfold parse_pmkids. case_b; [done |]. safe_step.
  pose proof (u8_range a) as Hn.
  assert (rsn_info_wf mask (set_num_pmkids (u8 a) info)) as Hwf'.
  { destruct Hwf. split; simpl; try done. by rewrite Hnone. }
  apply safe_advance; [done | lia | lia | done | done |]. intros d l Hd Hll Hlm.
  cbn [num_pmkids set_num_pmkids]. case_b; [| by apply parse_group_management_safe].
  case_b; [done |].
  assert (rsn_info_wf mask (set_pmkids (Some d) (set_num_pmkids (u8 a) info))).
  { destruct Hwf'. split; simpl; try done. lia. }
  apply safe_advance; simpl; try done; try lia.
  intros. by apply parse_group_management_safe.
Qed.

Lemma parse_capabilities_safe mask data len info :
  bytes_ok data → 0 < len ≤ zlen data → len < 2 ^ 64 → rsn_info_wf mask info →
  pmkids info = None → safe (rsn_info_wf mask) (parse_capabilities data len info).
Proof.
  intros Hok Hl Hmax Hwf Hnone. unfold parse_capabilities. case_b; [done |].
  eapply (safe_bind (λ i, rsn_info_wf mask i ∧ pmkids i = None)).
  - unfold parse_rsn_capabilities. repeat safe_step. simpl. split; [| done].
    destruct Hwf. pose proof (bit_field_range a1 2 2). pose proof (bit_field_range a1 4 2).
    split; simpl; try done; [lia.. |].
    destruct a3; [apply list_elem_of_further, list_elem_of_here | done].
  - intros i [Hi Hp]. apply safe_advance; [done | lia | lia | done | done |].
    intros. by apply parse_pmkids_safe.
Qed.

Section ciphers.
Context (akm_parse : ptr → res Z) (mask : Z).
Hypothesis akm_parse_safe : ∀ d,
  bytes_ok d → 4 ≤ zlen d → safe (λ s, subset_mask s mask) (akm_parse d).

Lemma parse_akms_safe data len info :
  bytes_ok data → 0 < len ≤ zlen data → len < 2 ^ 64 → rsn_info_wf mask info →
  pmkids info = None → safe (rsn_info_wf mask) (parse_akms akm_parse data len info).
Proof.
  intros Hok Hl Hmax Hwf Hnone. unfold parse_akms. case_b; [done |]. safe_step.
  case_b; [done |]. rewrite u64_small by lia. case_b; [done |].
  eapply safe_bind; [apply (parse_akm_list_safe _ mask); [done | auto with iwd | zlia | auto with iwd] |].
  intros suites Hs.
  assert (rsn_info_wf mask (set_akm_suites suites info)) by (destruct Hwf; by split).
  apply safe_advance; [auto with iwd | lia | zlia | lia | done |].
  intros. by apply parse_capabilities_safe.
Qed.

Lemma parse_pairwise_safe data len info :
  bytes_ok data → 0 < len ≤ zlen data → len < 2 ^ 64 → rsn_info_wf mask info →
  pmkids info = None → safe (rsn_info_wf mask) (parse_pairwise akm_parse data len info).
Proof.
  intros Hok Hl Hmax Hwf Hnone. unfold parse_pairwise. case_b; [done |]. safe_step.
  case_b; [done |]. rewrite u64_small by lia. case_b; [done |].
  eapply safe_bind.
  { apply (parse_pairwise_list_safe _ pairwise_suites 0x1f);
      [by_eval | intros; by apply keep_suite_safe | auto with iwd | zlia | auto with iwd]. }
  intros suites [Hs Hne].
  assert (rsn_info_wf mask (set_pairwise_ciphers suites info)).
  { destruct Hwf; split; try done. simpl. apply Hne. left. lia. }
  apply safe_advance; [auto with iwd | lia | zlia | lia | done |].
  intros. by apply parse_akms_safe.
Qed.

Lemma parse_ciphers_safe data len info :
  bytes_ok data → 0 < len ≤ zlen data → len < 2 ^ 64 → rsn_info_wf mask info →
  pmkids info = None → safe (rsn_info_wf mask) (parse_ciphers data len akm_parse info).
Proof.
  intros Hok Hl Hmax Hwf Hnone. unfold parse_ciphers. case_b; [done |].
  eapply safe_bind; [apply keep_suite_safe; [done | lia] |].
  intros [s|] Hs; [| done].
  assert (rsn_info_wf mask (set_group_cipher s info)) by (destruct Hwf; split; auto).
  apply safe_advance; [done | lia | lia | lia | done |].
  intros. by apply parse_pairwise_safe.
Qed.

End ciphers.

(** What an iterator promises the parser of an element: the element's bytes are there. *)
Definition elem_readable (it : ie_tlv_iter) : Prop :=
  bytes_ok (it_data it) ∧ 0 ≤ it_len it < 256 ∧ it_len it ≤ zlen (it_data it).

Lemma first_element_safe bs tail :
  bytes_ok (bs ++ tail) → zlen bs < 2 ^ 32 - 1 →
  safe elem_readable (first_element (bs ++ tail) (zlen bs)).
Proof.
  intros Hok Hl. unfold first_element, ie_tlv_iter_init. apply Forall_app in Hok as Hoks.
  destruct (next_spec (zlen bs) 0 (bs ++ tail) bs tail 0 0 []) as [[E _]|(e & bs' & He & Hb & E)];
    [tauto | done.. | |]; rewrite E; simpl; [done |].
  destruct e as [t d], He as [Hd Ht]. unfold elem_readable, visited; simpl.
  assert (bytes_ok (d ++ bs' ++ tail)) as Hall.
  { apply Forall_app_2; [done |]. rewrite Hb, <- app_assoc in Hok.
    by apply Forall_app in Hok as [_ ?]. }
  split; [done |]. split; [znn; lia | zlia].
Qed.

Lemma rsne_defaults_wf mask group :
  group ∈ group_suites → subset_mask IE_RSN_AKM_SUITE_8021X mask →
  rsn_info_wf mask (rsn_info_init group IE_RSN_CIPHER_SUITE_CCMP IE_RSN_AKM_SUITE_8021X).
Proof. intros. split; simpl; done || lia || by_eval. Qed.

(** Parsing one element only reads that element. *)
Lemma ie_parse_rsne_elem_safe it :
  elem_readable it → safe (rsn_info_wf 0x3ffff) (ie_parse_rsne it).
Proof.
  intros (Hok & Hlt & Hl). unfold ie_parse_rsne. case_b; [done |]. safe_step.
  case_match; [done |].
  apply safe_advance; [done | lia | lia | lia | apply rsne_defaults_wf; by_eval |].
  intros. apply safe_on_error, parse_ciphers_safe;
    [apply parse_rsn_akm_suite_safe | done.. | apply rsne_defaults_wf; by_eval | done].
Qed.

Lemma is_ie_wfa_ie_safe data len oi :
  bytes_ok data → 0 ≤ len < 256 → len ≤ zlen data →
  safe (λ b, b = true → 4 ≤ len ∧ (oi = IE_WFA_OI_OSEN → 22 ≤ len) ∧
               (oi = IE_WFA_OI_HS20_INDICATION → len = 5 ∨ len = 7)) (is_ie_wfa_ie data len oi).
Proof.
  intros. unfold is_ie_wfa_ie. rewrite u8_small by lia.
  destruct (Z.eqb_spec oi IE_WFA_OI_OSEN), (Z.eqb_spec oi IE_WFA_OI_HS20_INDICATION); try congruence;
    cbn [andb]; repeat (case_b; cbn [andb negb]; try done);
    (safe_step; destruct a; [| done]; simpl; safe_step; simpl; intros _; split_and!; intros;
     done || lia || congruence).
Qed.

(** C31: Parsing an RSNE out of any received bytes reads nothing outside of them and
    returns; a 0 return leaves a well-formed [ie_rsn_info] (the PMKID list, when there is
    one, lies inside the element). *)
Theorem ie_parse_rsne_safe bs :
  bytes_ok bs → zlen bs < 2 ^ 32 - 1 →
  safe (rsn_info_wf 0x3ffff) (ie_parse_rsne_from_data bs (zlen bs)).
Proof.
  intros Hok Hl. unfold ie_parse_rsne_from_data.
  eapply safe_bind; [rewrite <- (app_nil_r bs) at 1; apply first_element_safe; by rewrite ?app_nil_r |].
  intros it Hit. case_match; [done |]. by apply ie_parse_rsne_elem_safe.
Qed.

Lemma ie_parse_rsne_safe_witness :
  safe (rsn_info_wf 0x3ffff)
    (ie_parse_rsne_from_data [48; 6; 1; 0; 0; 15; 172; 4] (zlen [48; 6; 1; 0; 0; 15; 172; 4])).
Proof. apply ie_parse_rsne_safe; by_eval. Defined.

(** The same for the OSEN element: safe on any bytes, and the only AKMs it can yield
    are OSEN and the 802.1X default of an element that ends before its AKM list. *)
Theorem ie_parse_osen_safe bs :
  bytes_ok bs → zlen bs < 2 ^ 32 - 1 →
  safe (rsn_info_wf 0x40001) (ie_parse_osen_from_data bs (zlen bs)).
Proof.
  intros Hok Hl. unfold ie_parse_osen_from_data.
  eapply safe_bind; [rewrite <- (app_nil_r bs) at 1; apply first_element_safe; by rewrite ?app_nil_r |].
  intros it (Hi & Hlt & Hle). unfold ie_parse_osen. case_match; [done |].
  eapply safe_bind; [by apply is_ie_wfa_ie_safe |].
  intros [|] Hw; [| done]. destruct (Hw eq_refl) as (? & H22 & _). specialize (H22 eq_refl). simpl.
  apply safe_advance; [done | lia | lia | lia | apply rsne_defaults_wf; by_eval |].
  intros. apply safe_on_error, (parse_ciphers_safe _ 0x40001);
    [| done.. | apply rsne_defaults_wf; by_eval | done].
  intros. eapply safe_mono; [by apply parse_osen_akm_suite_safe |].
  intros s Hs. unfold subset_mask in *. rewrite <- Hs at 2. rewrite <- Hs at 1.
  by rewrite <- Z.land_assoc.
Qed.

Lemma ie_parse_osen_safe_witness :
  safe (rsn_info_wf 0x40001)
    (ie_parse_osen_from_data
       [221; 22; 80; 111; 154; 18; 0; 15; 172; 7; 1; 0; 0; 15; 172; 4; 1; 0; 80; 111; 154; 1; 0; 0]
       (zlen [221; 22; 80; 111; 154; 18; 0; 15; 172; 7; 1; 0; 0; 15; 172; 4; 1; 0; 80; 111;
              154; 1; 0; 0])).
Proof. apply ie_parse_osen_safe; by_eval. Defined.

(** ** The encoding of the common part *)

(** The suites of a mask in the order in which a builder goes through them. *)
Definition suites_of (order : list Z) (mask : Z) : list Z :=
  filter (λ s, Z.land mask s ≠ 0) order.

Definition cipher_selector (oui : list Z) (suite : Z) : option (list Z) :=
  t ← cipher_suite_type suite; Some (oui ++ [t]).

(** The selectors, one after the other; a suite that has none adds nothing. *)
Definition selectors (sel : Z → option (list Z)) (l : list Z) : list Z :=
  concat ((λ s, default [] (sel s)) <$> l).

Definition pmkid_list (info : ie_rsn_info) : list Z :=
  match pmkids info with Some p => ptake p (16 * num_pmkids info) | None => [] end.

(** The optional end of the element: PMKIDs and group management cipher, which the OSEN
    element always has ([force]). *)
Definition writes_gmc (force : bool) (info : ie_rsn_info) : bool :=
  force || (mfpc info && negb (group_management_cipher info =? IE_RSN_CIPHER_SUITE_BIP)).

Definition gmc_bytes (force : bool) (info : ie_rsn_info) : list Z :=
  if writes_gmc force info
  then default [] (cipher_selector ieee_oui (group_management_cipher info)) else [].

Definition rsne_tail (force : bool) (info : ie_rsn_info) : list Z :=
  if (num_pmkids info =? 0) && negb (writes_gmc force info) then []
  else le16_bytes (num_pmkids info) ++ pmkid_list info ++ gmc_bytes force info.

Definition rsne_ciphers (force : bool) (info : ie_rsn_info) : list Z :=
  let pw := suites_of pairwise_suites (pairwise_ciphers info) in
  let akm := suites_of akm_loop_suites (akm_suites info) in
  default [] (cipher_selector ieee_oui (group_cipher info)) ++
  (le16_bytes (zlen pw) ++ selectors (cipher_selector ieee_oui) pw) ++
  (le16_bytes (zlen akm) ++ selectors rsn_akm_selector akm) ++
  [rsn_caps0 info; rsn_caps1 info] ++ rsne_tail force info.

(** What the callers of the builders pass: known suites, a PMKID list that holds the
    number of PMKIDs it claims, and a group management cipher only with MFP. *)
Record rsn_info_canon (force : bool) (akm_mask : Z) (info : ie_rsn_info) : Prop := {
  canon_group : group_cipher info ∈ group_suites;
  canon_pairwise : subset_mask (pairwise_ciphers info) 0x1f;
  canon_pairwise_ne : pairwise_ciphers info ≠ 0;
  canon_akm : subset_mask (akm_suites info) akm_mask;
  canon_akm_ne : akm_suites info ≠ 0;
  canon_ptksa : 0 ≤ ptksa_replay_counter info < 4;
  canon_gtksa : 0 ≤ gtksa_replay_counter info < 4;
  canon_num : 0 ≤ num_pmkids info < 256;
  canon_pmkids : zlen (pmkid_list info) = 16 * num_pmkids info;
  canon_gmc : if force || mfpc info then group_management_cipher info ∈ group_management_suites
              else group_management_cipher info = 0;
}.

Lemma selectors_cons sel s l b :
  sel s = Some b → selectors sel (s :: l) = b ++ selectors sel l.
Proof. intros H. unfold selectors. csimpl. by rewrite H. Qed.

Lemma selectors_length sel l :
  Forall (λ s, ∃ b, sel s = Some b ∧ zlen b = 4) l → zlen (selectors sel l) = 4 * zlen l.
Proof.
  induction 1 as [|s l (b & Hs & Hb) H IH]; [done |].
  rewrite (selectors_cons _ _ _ _ Hs). zlia.
Qed.

Lemma suites_of_skip s order mask :
  Z.land mask s = 0 → suites_of (s :: order) mask = suites_of order mask.
Proof. intros. unfold suites_of. by rewrite filter_cons_False by tauto. Qed.

Lemma suites_of_keep s order mask :
  Z.land mask s ≠ 0 → suites_of (s :: order) mask = s :: suites_of order mask.
Proof. intros. unfold suites_of. by rewrite filter_cons_True. Qed.

Lemma build_suites_ok build sel mask max_len off order : ∀ pre rest pos count,
  (∀ b p s l, sel s = Some l → build b p s = (b' ← put b p l; Ok (Some b'))) →
  Forall (λ s, ∃ b, sel s = Some b ∧ zlen b = 4) (suites_of order mask) →
  let sels := selectors sel (suites_of order mask) in
  off + pos = zlen pre → zlen sels ≤ zlen rest → pos + zlen sels ≤ max_len →
  build_suites build order mask max_len off (pre ++ rest) pos count =
    Ok ((pre ++ sels) ++ (rest +! zlen sels), pos + zlen sels,
        count + zlen (suites_of order mask)).
Proof.
  induction order as [|s order IH]; intros pre rest pos count Hb Hall sels Hpos Hr Hm.
  { subst sels. cbn. change (zlen (@nil Z)) with 0. by rewrite !Z.add_0_r, app_nil_r. }
  subst sels. cbn [build_suites].
  destruct (Z.eqb_spec (Z.land mask s) 0) as [E|E].
  { rewrite suites_of_skip in * by done. by apply IH. }
  rewrite suites_of_keep in * by done. inversion_clear Hall as [|?? (b & Hs & H4) Hall'].
  rewrite (selectors_cons _ _ _ _ Hs) in *. rewrite zlen_app, H4 in *. znn.
  destruct (Z.ltb_spec max_len (pos + 4)); [lia |].
  rewrite (Hb _ _ _ _ Hs), put_next by zlia. rewrite !bind_ok, IH by (done || zlia).
  rewrite H4, padd_padd, zlen_cons, <- !app_assoc by lia.
  by rewrite <- !Z.add_assoc.
Qed.

Lemma cipher_suite_build oui b p s l :
  cipher_selector oui s = Some l →
  ie_build_cipher_suite b p oui s = (b' ← put b p l; Ok (Some b')).
Proof.
  unfold cipher_selector, ie_build_cipher_suite. intros H.
  destruct (cipher_suite_type s); by simplify_eq/=.
Qed.

Lemma rsn_akm_build b p s l :
  rsn_akm_selector s = Some l → ie_build_rsn_akm_suite b p s = (b' ← put b p l; Ok (Some b')).
Proof. intros H. unfold ie_build_rsn_akm_suite. by rewrite H. Qed.

Definition has_selector (sel : Z → option (list Z)) (s : Z) : Prop :=
  match sel s with Some b => zlen b = 4 | None => False end.

#[export] Instance has_selector_dec sel s : Decision (has_selector sel s).
Proof. unfold has_selector. destruct (sel s); apply _. Defined.

Lemma has_selector_some sel s : has_selector sel s → ∃ b, sel s = Some b ∧ zlen b = 4.
Proof. unfold has_selector. destruct (sel s); [eauto | done]. Qed.

Lemma suites_of_selectors sel order mask :
  Forall (has_selector sel) order →
  Forall (λ s, ∃ b, sel s = Some b ∧ zlen b = 4) (suites_of order mask).
Proof.
  induction 1 as [|s order Hs H IH]; [constructor |].
  destruct (decide (Z.land mask s = 0)).
  - by rewrite suites_of_skip.
  - rewrite suites_of_keep by done. constructor; [by apply has_selector_some | done].
Qed.

Lemma zlen_le16_bytes v : zlen (le16_bytes v) = 2.
Proof. done. Qed.

#[export] Hint Rewrite zlen_le16_bytes : iwd.

(** Writing a suite list: room for the count, the selectors, then the count. *)
Lemma build_suite_list build sel mask max_len off order pre rest pos
    (k : list Z → Z → res (list Z * Z)) :
  (∀ b p s l, sel s = Some l → build b p s = (b' ← put b p l; Ok (Some b'))) →
  Forall (has_selector sel) order →
  let l := suites_of order mask in
  let enc := le16_bytes (zlen l) ++ selectors sel l in
  off + pos = zlen pre → zlen enc ≤ zlen rest → pos + zlen enc ≤ max_len →
  ('(buf, pos', count) ← build_suites build order mask max_len off (pre ++ rest) (pos + 2) 0;
   buf ← put buf (off + pos) (le16_bytes count);
   k buf pos') =
  k ((pre ++ enc) ++ (rest +! zlen enc)) (pos + zlen enc).
Proof.
  intros Hb Hsel l enc Hpos Hr Hm. subst enc l. rewrite zlen_app, zlen_le16_bytes in *. znn.
  rewrite <- (ptake_padd_id rest 2) at 1. rewrite (app_assoc pre).
  rewrite (build_suites_ok _ sel); [| done | by apply suites_of_selectors | zlia..].
  rewrite bind_ok, Z.add_0_l, <- !app_assoc.
  rewrite put_mid by (rewrite ?zlen_ptake, ?zlen_le16_bytes; lia).
  rewrite bind_ok, padd_padd, <- Z.add_assoc by lia. done.
Qed.

Lemma caps0_byte info : byte_ok (rsn_caps0 info).
Proof. apply u8_range. Qed.

Lemma caps1_byte info : byte_ok (rsn_caps1 info).
Proof.
  unfold rsn_caps1, byte_ok, bit_if. repeat case_match; by vm_compute.
Qed.

Lemma gmc_selector s : s ∈ group_management_suites → has_selector (cipher_selector ieee_oui) s.
Proof. apply Forall_elem. by_eval. Qed.

Lemma group_selector s : s ∈ group_suites → has_selector (cipher_selector ieee_oui) s.
Proof. apply Forall_elem. by_eval. Qed.

Lemma gmc_cases force mask info :
  rsn_info_canon force mask info →
  (writes_gmc force info = false ∧ gmc_bytes force info = [] ∧
   group_management_cipher info = if mfpc info then IE_RSN_CIPHER_SUITE_BIP else 0) ∨
  (writes_gmc force info = true ∧ group_management_cipher info ∈ group_management_suites ∧
   cipher_selector ieee_oui (group_management_cipher info) = Some (gmc_bytes force info) ∧
   zlen (gmc_bytes force info) = 4).
Proof.
  intros Hc. pose proof (canon_gmc _ _ _ Hc) as Hg. unfold gmc_bytes.
  destruct (writes_gmc force info) eqn:Hw; unfold writes_gmc in Hw; [right | left].
  - assert (group_management_cipher info ∈ group_management_suites) as Hin
      by (destruct force, (mfpc info); by simplify_eq/=).
    destruct (has_selector_some _ _ (gmc_selector _ Hin)) as (b & Hb & H4). by rewrite Hb.
  - split; [done |]. split; [done |].
    destruct force, (mfpc info); simplify_eq/=; [| done].
    by apply negb_false_iff, Z.eqb_eq in Hw.
Qed.

(** The PMKIDs as the builder copies them. *)
Lemma pmkid_copy info :
  zlen (pmkid_list info) = 16 * num_pmkids info → 0 < num_pmkids info →
  ∃ p, pmkids info = Some p ∧ rdn p (16 * num_pmkids info) = Ok (pmkid_list info).
Proof.
  unfold pmkid_list. destruct (pmkids info) as [p|]; [| intros H; change (zlen (@nil Z)) with 0 in H; lia].
  intros H Hn. exists p. split; [done |]. rewrite zlen_ptake_min in H by lia.
  apply rdn_ok. lia.
Qed.

Lemma copy_pmkids info pre rest off pos :
  0 ≤ num_pmkids info → zlen (pmkid_list info) = 16 * num_pmkids info →
  off + pos = zlen pre → 16 * num_pmkids info ≤ zlen rest →
  (if num_pmkids info =? 0 then Ok (pre ++ rest, pos)
   else match pmkids info with
        | None => Fault
        | Some p =>
            l ← rdn p (16 * num_pmkids info);
            buf ← put (pre ++ rest) (off + pos) l;
            Ok (buf, pos + 16 * num_pmkids info)
        end) =
  Ok ((pre ++ pmkid_list info) ++ (rest +! (16 * num_pmkids info)), pos + 16 * num_pmkids info).
Proof.
  intros Hn Hp Hpos Hr. destruct (Z.eqb_spec (num_pmkids info) 0) as [E|E].
  - rewrite E in *. rewrite (zlen_0_inv _ Hp). by rewrite app_nil_r, Z.add_0_r.
  - destruct (pmkid_copy info Hp) as (p & -> & ->); [lia |]. rewrite bind_ok.
    rewrite put_next by lia. by rewrite bind_ok, Hp.
Qed.

Lemma build_pmkids_ok force mask info pre rest off pos max_len :
  rsn_info_canon force mask info → rsne_tail force info ≠ [] →
  off + pos = zlen pre → zlen (rsne_tail force info) ≤ zlen rest →
  pos + zlen (rsne_tail force info) ≤ max_len →
  build_pmkids info (pre ++ rest) off max_len pos force =
    Ok ((pre ++ rsne_tail force info) ++ (rest +! zlen (rsne_tail force info)),
        pos + zlen (rsne_tail force info)).
Proof.
  intros Hc Hne Hpos Hr Hm. pose proof (gmc_cases _ _ _ Hc) as Hgm.
  destruct Hc as [_ _ _ _ _ _ _ Hn Hp _].
  unfold rsne_tail in *. destruct ((num_pmkids info =? 0) && _) eqn:Hz; [done |].
  rewrite !zlen_app, zlen_le16_bytes, Hp in Hr, Hm. pose proof (zlen_nonneg (gmc_bytes force info)).
  unfold build_pmkids. rewrite put_next by (rewrite ?zlen_le16_bytes; lia). rewrite bind_ok.
  destruct (Z.ltb_spec max_len (pos + 2 + num_pmkids info * 16)); [lia |].
  rewrite copy_pmkids by zlia. rewrite bind_ok, zlen_le16_bytes, padd_padd by lia.
  unfold writes_gmc in Hgm. rewrite !app_assoc.
  destruct Hgm as [(Hw & -> & _)|(Hw & _ & Hs & H4)].
  - rewrite !app_nil_r, zlen_app, Hp, zlen_le16_bytes, <- !Z.add_assoc.
    destruct force, (mfpc info), (_ =? IE_RSN_CIPHER_SUITE_BIP); by simplify_eq/=.
  - rewrite (cipher_suite_build _ _ _ _ _ Hs), put_next by zlia.
    rewrite !bind_ok, !zlen_app, Hp, H4, zlen_le16_bytes, padd_padd, <- !Z.add_assoc by lia.
    destruct force, (mfpc info), (_ =? IE_RSN_CIPHER_SUITE_BIP); by simplify_eq/=.
Qed.

(** The test that ends the element after the capabilities. *)
Lemma caps0_mfpc info : rsn_caps0 info = 0 → mfpc info = false.
Proof.
  intros H. apply (f_equal (λ z, Z.testbit z 7)) in H. unfold rsn_caps0, u8 in H.
  rewrite Z.mod_pow2_bits_low, Z.lor_spec in H by lia. unfold bit_if in H.
  destruct (mfpc info); [| done]. by rewrite orb_true_r in H.
Qed.

Lemma stops_after_caps force info :
  (num_pmkids info =? 0) && negb force &&
    ((rsn_caps0 info =? 0) && (rsn_caps1 info =? 0) || negb (mfpc info)
     || (group_management_cipher info =? IE_RSN_CIPHER_SUITE_BIP)) =
  bool_decide (rsne_tail force info = []).
Proof.
  unfold rsne_tail, writes_gmc. destruct (Z.eqb_spec (num_pmkids info) 0); cbn [andb];
    [| by rewrite bool_decide_false].
  destruct (Z.eqb_spec (rsn_caps0 info) 0) as [E|E]; [apply caps0_mfpc in E; rewrite E |];
    destruct force, (mfpc info), (_ =? IE_RSN_CIPHER_SUITE_BIP), (_ =? 0); done.
Qed.

Lemma build_ciphers_common_ok force mask info pre rest max_len :
  rsn_info_canon force mask info →
  zlen (rsne_ciphers force info) ≤ zlen rest → zlen (rsne_ciphers force info) ≤ max_len →
  build_ciphers_common info (pre ++ rest) (zlen pre) max_len force =
    Ok ((pre ++ rsne_ciphers force info) ++ (rest +! zlen (rsne_ciphers force info)),
        zlen (rsne_ciphers force info)).
Proof.
  intros Hc Hr Hm.
  destruct (has_selector_some _ _ (group_selector _ (canon_group _ _ _ Hc))) as (g & Hg & Hg4).
  unfold rsne_ciphers in *. rewrite Hg in *. cbn [default id] in *.
  set (pw := le16_bytes _ ++ selectors (cipher_selector ieee_oui) _) in *.
  set (akm := le16_bytes _ ++ selectors rsn_akm_selector _) in *.
  set (tl := rsne_tail force info) in *.
  rewrite !zlen_app, Hg4, !zlen_cons, zlen_nil in *. znn.
  unfold build_ciphers_common. rewrite (cipher_suite_build _ _ _ _ _ Hg), put_next by lia.
  rewrite !bind_ok. cbv zeta.
  rewrite (build_suite_list _ (cipher_selector ieee_oui) _ _ _ pairwise_suites);
    [| apply cipher_suite_build | by_eval | zlia | rewrite Hg4; fold pw; zlia | fold pw; lia].
  fold pw. cbv beta.
  rewrite (build_suite_list _ rsn_akm_selector _ _ _ akm_loop_suites);
    [| apply rsn_akm_build | by_eval | zlia | fold akm; zlia | fold akm; lia].
  fold akm. cbv beta. unfold put1. rewrite (u8_small _ (caps0_byte info)), (u8_small _ (caps1_byte info)).
  rewrite put_next by zlia. rewrite bind_ok.
  rewrite put_next by zlia. rewrite bind_ok.
  rewrite Hg4. change (zlen [rsn_caps0 info]) with 1. change (zlen [rsn_caps1 info]) with 1.
  rewrite !padd_padd by lia.
  rewrite stops_after_caps.
  set (P := ((((pre ++ g) ++ pw) ++ akm) ++ [rsn_caps0 info]) ++ [rsn_caps1 info]).
  assert (zlen P = zlen pre + (4 + zlen pw + zlen akm + 1 + 1)) by (unfold P; zlia).
  replace (pre ++ g ++ pw ++ akm ++ [rsn_caps0 info; rsn_caps1 info] ++ tl) with (P ++ tl)
    by (unfold P; by rewrite <- !app_assoc).
  fold tl.
  destruct (bool_decide (tl = [])) eqn:Htl; [apply bool_decide_eq_true in Htl | apply bool_decide_eq_false in Htl].
  - rewrite Htl, app_nil_r. replace (4 + zlen pw + zlen akm + 1 + 1)
      with (4 + (zlen pw + (zlen akm + (1 + (1 + 0) + zlen (@nil Z))))) by zlia. done.
  - subst tl. rewrite (build_pmkids_ok _ mask) by (done || zlia).
    rewrite padd_padd, <- !app_assoc, <- !Z.add_assoc by lia. done.
Qed.

(** ** Parsing what was built *)

Definition pow2 (s : Z) : Prop := ∀ mask, Z.land mask s = 0 ∨ Z.land mask s = s.

Lemma pow2_shift n : 0 ≤ n → pow2 (Z.shiftl 1 n).
Proof.
  intros Hn mask. rewrite Z.shiftl_1_l. destruct (Z.testbit mask n) eqn:E; [right | left];
    apply Z.bits_inj'; intros m Hm; rewrite Z.land_spec, ?Z.bits_0, Z.pow2_bits_eqb by done;
    (destruct (Z.eqb_spec n m) as [<-|]; [by rewrite E | by rewrite andb_false_r]).
Qed.

Lemma suites_of_lor order mask acc :
  Forall pow2 order →
  foldl Z.lor acc (suites_of order mask) = Z.lor acc (Z.land mask (foldr Z.lor 0 order)).
Proof.
  intros H. revert acc. induction H as [|s order Hs H IH]; intros acc; cbn [foldr].
  { by rewrite Z.land_0_r, Z.lor_0_r. }
  rewrite Z.land_lor_distr_r. destruct (Hs mask) as [E|E].
  - by rewrite suites_of_skip, IH, E, Z.lor_0_l.
  - rewrite E, Z.lor_assoc. destruct (decide (s = 0)) as [->|Hne].
    + by rewrite suites_of_skip, IH, Z.lor_0_r.
    + rewrite suites_of_keep by congruence. cbn [foldl]. by rewrite IH.
Qed.

Lemma suites_of_all order mask :
  Forall pow2 order → subset_mask mask (foldr Z.lor 0 order) →
  foldl Z.lor 0 (suites_of order mask) = mask.
Proof. intros Hp Hs. by rewrite suites_of_lor, Z.lor_0_l. Qed.

Lemma suites_of_nonempty order mask :
  Forall pow2 order → subset_mask mask (foldr Z.lor 0 order) → mask ≠ 0 →
  suites_of order mask ≠ [].
Proof. intros Hp Hs Hne E. pose proof (suites_of_all _ _ Hp Hs) as H. by rewrite E in H. Qed.

Lemma pow2_suites l : Forall (λ s, s ∈ akm_loop_suites) l → Forall pow2 l.
Proof.
  intros H. eapply Forall_impl; [| exact H]. intros s Hs. cbn beta in Hs.
  unfold akm_loop_suites in Hs. apply list_elem_of_fmap in Hs as (i & -> & _).
  apply pow2_shift. lia.
Qed.

(** A parser that recognises the selectors of the suites in [l]. *)
Definition recognises {A} (parse : ptr → res A) (sel : Z → option (list Z)) (ok : Z → A) (s : Z)
    : Prop :=
  ∃ b, sel s = Some b ∧ zlen b = 4 ∧ ∀ tl, parse (b ++ tl) = Ok (ok s).

Lemma parse_pairwise_list_selectors parse sel l tl : ∀ acc,
  Forall (recognises parse sel Some) l →
  parse_pairwise_list parse (Z.to_nat (zlen l)) (selectors sel l ++ tl) acc =
    Ok (foldl Z.lor acc l).
Proof.
  unfold zlen. rewrite Nat2Z.id. intros acc H. revert acc.
  induction H as [|s l (b & Hs & H4 & Hp) H IH]; intros acc; [done |].
  cbn [length parse_pairwise_list]. rewrite (selectors_cons _ _ _ _ Hs), <- app_assoc, Hp.
  rewrite bind_ok, padd_app by done. apply IH.
Qed.

Lemma parse_akm_list_selectors parse sel l tl : ∀ acc,
  Forall (recognises parse sel id) l →
  parse_akm_list parse (Z.to_nat (zlen l)) (selectors sel l ++ tl) acc = Ok (foldl Z.lor acc l).
Proof.
  unfold zlen. rewrite Nat2Z.id. intros acc H. revert acc.
  induction H as [|s l (b & Hs & H4 & Hp) H IH]; intros acc; [done |].
  cbn [length parse_akm_list]. rewrite (selectors_cons _ _ _ _ Hs), <- app_assoc, Hp.
  rewrite padd_app by done. apply IH.
Qed.

Lemma Forall_suites_of (P : Z → Prop) order mask : Forall P order → Forall P (suites_of order mask).
Proof.
  induction 1 as [|s order Hs H IH]; [constructor |].
  destruct (decide (Z.land mask s = 0)).
  - by rewrite suites_of_skip.
  - rewrite suites_of_keep by done. by constructor.
Qed.

Lemma cipher_suite_recognised t tl :
  ie_parse_cipher_suite ((ieee_oui ++ [t]) ++ tl) =
    Ok (match t with
        | 0 => Some IE_RSN_CIPHER_SUITE_USE_GROUP_CIPHER
        | 1 => Some IE_RSN_CIPHER_SUITE_WEP40
        | 2 => Some IE_RSN_CIPHER_SUITE_TKIP
        | 4 => Some IE_RSN_CIPHER_SUITE_CCMP
        | 5 => Some IE_RSN_CIPHER_SUITE_WEP104
        | 6 => Some IE_RSN_CIPHER_SUITE_BIP
        | 7 => Some IE_RSN_CIPHER_SUITE_NO_GROUP_TRAFFIC
        | _ => None
        end).
Proof.
  unfold ie_parse_cipher_suite. rewrite <- app_assoc, memeq_app, bind_ok. done.
Qed.

Lemma pairwise_recognised :
  Forall (recognises ie_parse_pairwise_cipher (cipher_selector ieee_oui) Some) pairwise_suites.
Proof.
  repeat constructor; (eexists; split; [reflexivity |]; split; [done |]; intros tl;
    unfold ie_parse_pairwise_cipher; by rewrite cipher_suite_recognised).
Qed.

Lemma group_recognised :
  Forall (recognises ie_parse_group_cipher (cipher_selector ieee_oui) Some) group_suites.
Proof.
  repeat constructor; (eexists; split; [reflexivity |]; split; [done |]; intros tl;
    unfold ie_parse_group_cipher; by rewrite cipher_suite_recognised).
Qed.

Lemma gmc_recognised :
  Forall (recognises ie_parse_group_management_cipher (cipher_selector ieee_oui) Some)
    group_management_suites.
Proof.
  repeat constructor; (eexists; split; [reflexivity |]; split; [done |]; intros tl;
    unfold ie_parse_group_management_cipher; by rewrite cipher_suite_recognised).
Qed.

(** All the AKM suites but the last one, which only the OSEN element uses. *)
Definition rsn_akms : list Z := take 18 akm_loop_suites.

Lemma akm_recognised :
  Forall (recognises ie_parse_rsn_akm_suite rsn_akm_selector id) rsn_akms.
Proof.
  repeat constructor; (eexists; split; [reflexivity |]; split; [done |]; intros tl;
    unfold ie_parse_rsn_akm_suite; rewrite <- app_assoc, memeq_app, bind_ok; reflexivity).
Qed.

(** Equal but for where the PMKIDs are stored. *)
Definition rsn_info_equiv (i j : ie_rsn_info) : Prop :=
  set_pmkids None i = set_pmkids None j ∧ pmkid_list i = pmkid_list j.

#[export] Instance rsn_info_equiv_equivalence : Equivalence rsn_info_equiv.
Proof. unfold rsn_info_equiv. split; [done | by intros i j [-> ->] | by intros i j k [-> ->] [-> ->]]. Qed.

Lemma caps0_bits info x :
  0 ≤ ptksa_replay_counter info < 4 → 0 ≤ gtksa_replay_counter info < 4 →
  test_bit (rsn_caps0 info :: x) 0 = Ok (preauthentication info) ∧
  test_bit (rsn_caps0 info :: x) 1 = Ok (no_pairwise info) ∧
  bit_field (rsn_caps0 info) 2 2 = ptksa_replay_counter info ∧
  bit_field (rsn_caps0 info) 4 2 = gtksa_replay_counter info ∧
  test_bit (rsn_caps0 info :: x) 6 = Ok (mfpr info) ∧
  test_bit (rsn_caps0 info :: x) 7 = Ok (mfpc info).
Proof.
  destruct info as [???? ? p g]; cbn [ptksa_replay_counter gtksa_replay_counter]. intros Hp Hg.
  assert (p = 0 ∨ p = 1 ∨ p = 2 ∨ p = 3) as Hp' by lia.
  assert (g = 0 ∨ g = 1 ∨ g = 2 ∨ g = 3) as Hg' by lia.
  destruct preauthentication0, no_pairwise0, mfpr0, mfpc0, Hp' as [-> | [-> | [-> | -> ]]],
    Hg' as [-> | [-> | [-> | -> ]]]; repeat split.
Qed.

Lemma caps1_bits info x :
  test_bit (rsn_caps1 info :: x) 1 = Ok (peerkey_enabled info) ∧
  test_bit (rsn_caps1 info :: x) 2 = Ok (spp_a_msdu_capable info) ∧
  test_bit (rsn_caps1 info :: x) 3 = Ok (spp_a_msdu_required info) ∧
  test_bit (rsn_caps1 info :: x) 4 = Ok (pbac info) ∧
  test_bit (rsn_caps1 info :: x) 5 = Ok (extended_key_id info).
Proof.
  unfold rsn_caps1. destruct (peerkey_enabled info), (spp_a_msdu_capable info),
    (spp_a_msdu_required info), (pbac info), (extended_key_id info); repeat split.
Qed.

(** The state of the parser's [info] after the capabilities. *)
Definition rsn_info_caps (info : ie_rsn_info) : ie_rsn_info :=
  set_pmkids None (set_num_pmkids 0 (set_group_management_cipher
    (if mfpc info then IE_RSN_CIPHER_SUITE_BIP else 0) info)).

Lemma advance_app {A} (x y tl data : list Z) (n step : Z) (d : A) k :
  data = x ++ y ++ tl → step = zlen x → n = zlen x + zlen y → n < 2 ^ 64 →
  rsne_advance data n step d k = if bool_decide (y = []) then Ok d else k (y ++ tl) (zlen y).
Proof.
  intros -> -> -> Hl. unfold rsne_advance. rewrite padd_app by done.
  replace (zlen x + zlen y - zlen x) with (zlen y) by lia. znn. rewrite u64_small by lia.
  case_bool_decide as E; [by rewrite E |].
  destruct (Z.eqb_spec (zlen y) 0) as [E'|]; [by apply zlen_0_inv in E' | done].
Qed.

Lemma parse_caps_ok info x i :
  0 ≤ ptksa_replay_counter info < 4 → 0 ≤ gtksa_replay_counter info < 4 →
  group_cipher i = group_cipher info → pairwise_ciphers i = pairwise_ciphers info →
  akm_suites i = akm_suites info → num_pmkids i = 0 → pmkids i = None →
  group_management_cipher i = 0 →
  parse_rsn_capabilities (rsn_caps0 info :: rsn_caps1 info :: x) i = Ok (rsn_info_caps info).
Proof.
  intros Hp Hg E1 E2 E3 E4 E5 E6.
  destruct (caps0_bits info (rsn_caps1 info :: x) Hp Hg) as (B0 & B1 & B2 & B3 & B6 & B7).
  destruct (caps1_bits info x) as (C1 & C2 & C3 & C4 & C5).
  unfold parse_rsn_capabilities. change ((rsn_caps0 info :: rsn_caps1 info :: x) +! 1) with (rsn_caps1 info :: x).
  rewrite B0, B1, B6, B7, C1, C2, C3, C4, C5. change (rd (rsn_caps0 info :: rsn_caps1 info :: x) 0) with (Ok (rsn_caps0 info)).
  rewrite !bind_ok, B2, B3, E1, E2, E3, E4, E5, E6. done.
Qed.

(** The end of the element. *)
Lemma parse_gmc_ok s i tl :
  s ∈ group_management_suites →
  let b := default [] (cipher_selector ieee_oui s) in
  b ≠ [] ∧ zlen b = 4 ∧
  parse_group_management (b ++ tl) (zlen b) i = Ok (set_group_management_cipher s i).
Proof.
  intros Hs. destruct (Forall_elem _ _ _ gmc_recognised Hs) as (b & Hb & H4 & Hp).
  rewrite Hb. cbn [default id]. split; [by intros -> |]. split; [done |].
  unfold parse_group_management. rewrite Hp, H4. cbn [Z.ltb Z.compare]. simpl.
  unfold rsne_advance. done.
Qed.

Lemma pmkid_list_prefix info i x :
  num_pmkids i = num_pmkids info → pmkids i = Some (pmkid_list info ++ x) →
  zlen (pmkid_list info) = 16 * num_pmkids info → pmkid_list i = pmkid_list info.
Proof. intros Hn Hs Hl. unfold pmkid_list at 1. rewrite Hs, Hn. by apply ptake_app. Qed.

Lemma parse_gmc_tail force mask info i tl :
  rsn_info_canon force mask info →
  group_management_cipher i = (if mfpc info then IE_RSN_CIPHER_SUITE_BIP else 0) →
  set_pmkids None (set_group_management_cipher (group_management_cipher info) i) =
    set_pmkids None info →
  pmkid_list i = pmkid_list info →
  ∃ j, (if bool_decide (gmc_bytes force info = []) then Ok i
        else parse_group_management (gmc_bytes force info ++ tl) (zlen (gmc_bytes force info)) i)
       = Ok j ∧ rsn_info_equiv j info.
Proof.
  intros Hc Hi Hs Hp. destruct (gmc_cases _ _ _ Hc) as [(_ & -> & Hg)|(_ & Hin & Hsel & H4)].
  - rewrite bool_decide_true by done. eexists; split; [done |]. split; [| done].
    rewrite <- Hs, Hg, <- Hi. by destruct i.
  - destruct (parse_gmc_ok _ i tl Hin) as (Hne & _ & Hpg). rewrite Hsel in Hne, Hpg.
    rewrite bool_decide_false by done. cbn [default id] in Hpg. rewrite Hpg.
    eexists; split; [done |]. split; [done |]. by rewrite <- Hp.
Qed.

(** The fields that follow the PMKID count. *)
Lemma parse_tail_ok force mask info tl :
  rsn_info_canon force mask info → rsne_tail force info ≠ [] →
  ∃ j, parse_pmkids (rsne_tail force info ++ tl) (zlen (rsne_tail force info))
         (rsn_info_caps info) = Ok j ∧ rsn_info_equiv j info.
Proof.
  intros Hc Hne. pose proof (gmc_cases _ _ _ Hc) as Hgm.
  pose proof (canon_num _ _ _ Hc) as Hn. pose proof (canon_pmkids _ _ _ Hc) as Hp.
  unfold rsne_tail in *. destruct ((num_pmkids info =? 0) && _) eqn:Hz; [done |].
  unfold parse_pmkids. rewrite zlen_app, zlen_le16_bytes. znn.
  destruct (Z.ltb_spec (2 + zlen (pmkid_list info ++ gmc_bytes force info)) 2); [lia |].
  rewrite <- !app_assoc, l_get_le16_bytes by lia. rewrite bind_ok, u8_small by lia.
  assert (zlen (gmc_bytes force info) ≤ 4) by (destruct Hgm as [(_ & -> & _)|(_ & _ & _ & ->)]; done).
  rewrite zlen_app in *.
  rewrite (advance_app (le16_bytes (num_pmkids info)) (pmkid_list info ++ gmc_bytes force info) tl);
    [| by rewrite <- app_assoc | done | zlia | lia].
  cbn [num_pmkids set_num_pmkids].
  destruct (Z.ltb_spec 0 (num_pmkids info)) as [Hpos|Hpos].
  - rewrite bool_decide_false by (intros [E _]%app_nil; rewrite E in Hp; change (zlen (@nil Z)) with 0 in Hp; lia).
    rewrite zlen_app. destruct (Z.ltb_spec (zlen (pmkid_list info) + zlen (gmc_bytes force info)) (16 * num_pmkids info)); [lia |].
    rewrite (advance_app (pmkid_list info) (gmc_bytes force info) tl);
      [| by rewrite <- app_assoc | cbn; lia | done | lia].
    eapply parse_gmc_tail; [done | done | by destruct info |].
    by eapply pmkid_list_prefix; [| cbn; by rewrite <- app_assoc |].
  - assert (pmkid_list info = []) as Hnil by (apply zlen_0_inv; lia). rewrite Hnil.
    assert (gmc_bytes force info ≠ []) as Hg.
    { destruct Hgm as [(Hw & _)|(_ & _ & _ & Hg)]; [| by intros E; rewrite E in Hg].
      rewrite Hw in Hz. destruct (Z.eqb_spec (num_pmkids info) 0); [done | lia]. }
    cbn [app]. rewrite bool_decide_false by done.
    destruct (parse_gmc_tail force mask info (set_num_pmkids (num_pmkids info) (rsn_info_caps info)) tl)
      as (j & Hj & Heq); [done | done | by destruct info | by rewrite Hnil |].
    rewrite bool_decide_false in Hj by done. by exists j.
Qed.

Lemma parse_caps_tail force mask info i tl :
  rsn_info_canon force mask info → zlen (rsne_tail force info) < 65536 →
  group_cipher i = group_cipher info → pairwise_ciphers i = pairwise_ciphers info →
  akm_suites i = akm_suites info → num_pmkids i = 0 → pmkids i = None →
  group_management_cipher i = 0 →
  ∃ j, parse_capabilities ([rsn_caps0 info; rsn_caps1 info] ++ rsne_tail force info ++ tl)
         (2 + zlen (rsne_tail force info)) i = Ok j ∧ rsn_info_equiv j info.
Proof.
  intros Hc Hl E1 E2 E3 E4 E5 E6. unfold parse_capabilities. znn.
  destruct (Z.ltb_spec (2 + zlen (rsne_tail force info)) 2); [lia |].
  cbn [app]. rewrite parse_caps_ok by (done || apply Hc). rewrite bind_ok.
  rewrite (advance_app [rsn_caps0 info; rsn_caps1 info] (rsne_tail force info) tl) by (done || lia).
  case_bool_decide as Ht; [| by eapply parse_tail_ok].
  eexists; split; [done |]. pose proof (canon_pmkids _ _ _ Hc) as Hp.
  unfold rsne_tail in Ht. destruct ((num_pmkids info =? 0) && _) eqn:Hz; [| done].
  apply andb_prop in Hz as [Hn%Z.eqb_eq Hw%negb_true_iff]. rewrite Hn in Hp.
  destruct (gmc_cases _ _ _ Hc) as [(_ & _ & Hg)|(Hw' & _)]; [| congruence].
  split; [| by rewrite (zlen_0_inv _ Hp)]. unfold rsn_info_caps. rewrite <- Hg, <- Hn. by destruct info.
Qed.

Section parse_built.
Context (force : bool) (mask : Z) (akm_parse : ptr → res Z) (info : ie_rsn_info) (tl : list Z).
Hypothesis canon : rsn_info_canon force mask info.
Hypothesis akms_recognised :
  Forall (recognises akm_parse rsn_akm_selector id) (suites_of akm_loop_suites (akm_suites info)).
Hypothesis akm_mask : subset_mask (akm_suites info) (foldr Z.lor 0 akm_loop_suites).
Hypothesis fits : zlen (rsne_ciphers force info) < 65536.

Let pw := suites_of pairwise_suites (pairwise_ciphers info).
Let akm := suites_of akm_loop_suites (akm_suites info).

Lemma recognises_selector {A} (parse : ptr → res A) sel ok l :
  Forall (recognises parse sel ok) l → Forall (λ s, ∃ b, sel s = Some b ∧ zlen b = 4) l.
Proof. intros H. eapply Forall_impl; [| exact H]. intros s (b & ? & ? & _). eauto. Qed.

Lemma parse_akms_built i :
  zlen akm < 65536 → zlen (rsne_tail force info) < 65536 →
  group_cipher i = group_cipher info → pairwise_ciphers i = pairwise_ciphers info →
  num_pmkids i = 0 → pmkids i = None → group_management_cipher i = 0 →
  let caps := [rsn_caps0 info; rsn_caps1 info] ++ rsne_tail force info in
  let enc := le16_bytes (zlen akm) ++ selectors rsn_akm_selector akm in
  ∃ j, parse_akms akm_parse (enc ++ caps ++ tl) (zlen enc + zlen caps) i = Ok j ∧
       rsn_info_equiv j info.
Proof.
  intros Hn Ht E1 E2 E4 E5 E6 caps enc. subst caps enc.
  assert (zlen (selectors rsn_akm_selector akm) = 4 * zlen akm) as Hs
    by (eapply selectors_length, recognises_selector, akms_recognised).
  assert (0 < zlen akm) as Hne.
  { assert (akm ≠ []).
    { apply suites_of_nonempty; [apply pow2_suites; by_eval | done | apply canon]. }
    destruct akm; [done |]. zlia. }
  rewrite !zlen_app, Hs, zlen_le16_bytes. set (caps := [rsn_caps0 info; rsn_caps1 info]).
  change (zlen caps) with 2. znn. unfold parse_akms.
  destruct (Z.ltb_spec (2 + 4 * zlen akm + (2 + zlen (rsne_tail force info))) 2); [lia |].
  rewrite <- !app_assoc, l_get_le16_bytes by lia. rewrite bind_ok.
  destruct (Z.eqb_spec (zlen akm) 0); [lia |]. rewrite padd_app by done. rewrite u64_small by lia.
  destruct (Z.ltb_spec (2 + 4 * zlen akm + (2 + zlen (rsne_tail force info)) - 2) (4 * zlen akm)); [lia |].
  rewrite parse_akm_list_selectors by done. rewrite bind_ok.
  assert (foldl Z.lor 0 akm = akm_suites info) as ->
    by (apply suites_of_all; [apply pow2_suites; by_eval | done]).
  rewrite (advance_app (selectors rsn_akm_selector akm) (caps ++ rsne_tail force info) tl);
    [| by rewrite <- app_assoc | lia | rewrite zlen_app; change (zlen caps) with 2; lia | lia].
  rewrite bool_decide_false by done. rewrite zlen_app, <- app_assoc.
  by apply (parse_caps_tail _ mask).
Qed.

Lemma parse_pairwise_built i :
  num_pmkids i = 0 → pmkids i = None → group_management_cipher i = 0 →
  group_cipher i = group_cipher info → zlen pw < 65536 → zlen akm < 65536 →
  zlen (rsne_tail force info) < 65536 →
  let caps := [rsn_caps0 info; rsn_caps1 info] ++ rsne_tail force info in
  let akms := le16_bytes (zlen akm) ++ selectors rsn_akm_selector akm in
  let enc := le16_bytes (zlen pw) ++ selectors (cipher_selector ieee_oui) pw in
  ∃ j, parse_pairwise akm_parse (enc ++ akms ++ caps ++ tl) (zlen enc + (zlen akms + zlen caps)) i
         = Ok j ∧ rsn_info_equiv j info.
Proof.
  intros E4 E5 E6 E1 Hn Ha Ht caps akms enc. subst enc.
  assert (Forall (recognises ie_parse_pairwise_cipher (cipher_selector ieee_oui) Some) pw) as Hrec
    by (apply Forall_suites_of, pairwise_recognised).
  assert (zlen (selectors (cipher_selector ieee_oui) pw) = 4 * zlen pw) as Hs
    by (eapply selectors_length, recognises_selector, Hrec).
  assert (0 < zlen pw) as Hne.
  { assert (pw ≠ []).
    { apply suites_of_nonempty; [apply pow2_suites; by_eval | apply canon | apply canon]. }
    destruct pw; [done |]. zlia. }
  assert (zlen (selectors rsn_akm_selector akm) = 4 * zlen akm) as Hsa
    by (eapply selectors_length, recognises_selector, akms_recognised).
  assert (0 ≤ zlen akms + zlen caps < 2 ^ 32) as Hlen
    by (unfold akms, caps; rewrite !zlen_app, Hsa; cbn [app]; zlia).
  rewrite zlen_app, Hs, zlen_le16_bytes. znn. unfold parse_pairwise.
  destruct (Z.ltb_spec (2 + 4 * zlen pw + (zlen akms + zlen caps)) 2); [lia |].
  rewrite <- !app_assoc, l_get_le16_bytes by lia. rewrite bind_ok.
  destruct (Z.eqb_spec (zlen pw) 0); [lia |]. rewrite padd_app by done. rewrite u64_small by lia.
  destruct (Z.ltb_spec (2 + 4 * zlen pw + (zlen akms + zlen caps) - 2) (4 * zlen pw)); [lia |].
  rewrite parse_pairwise_list_selectors by done. rewrite bind_ok.
  assert (foldl Z.lor 0 pw = pairwise_ciphers info) as ->
    by (apply suites_of_all; [apply pow2_suites; by_eval | apply canon]).
  rewrite (advance_app (selectors (cipher_selector ieee_oui) pw) (akms ++ caps) tl);
    [| by rewrite <- app_assoc | lia | rewrite zlen_app; lia | lia].
  rewrite bool_decide_false by done. rewrite zlen_app, <- app_assoc.
  by apply parse_akms_built.
Qed.

Lemma parse_ciphers_built group pairwise0 akm0 :
  ∃ j, parse_ciphers (rsne_ciphers force info ++ tl) (zlen (rsne_ciphers force info)) akm_parse
         (rsn_info_init group pairwise0 akm0) = Ok j ∧ rsn_info_equiv j info.
Proof.
  destruct (Forall_elem _ _ _ group_recognised (canon_group _ _ _ canon)) as (g & Hg & H4 & Hp).
  pose proof fits as F. unfold rsne_ciphers in F |- *. rewrite Hg in F |- *. cbn [default id] in F |- *.
  fold pw akm in F |- *.
  assert (zlen (selectors rsn_akm_selector akm) = 4 * zlen akm) as Hsa
    by (eapply selectors_length, recognises_selector, akms_recognised).
  assert (zlen (selectors (cipher_selector ieee_oui) pw) = 4 * zlen pw) as Hsp
    by (eapply selectors_length, recognises_selector, Forall_suites_of, pairwise_recognised).
  set (pws := le16_bytes (zlen pw) ++ selectors (cipher_selector ieee_oui) pw) in F |- *.
  set (akms := le16_bytes (zlen akm) ++ selectors rsn_akm_selector akm) in F |- *.
  set (caps := [rsn_caps0 info; rsn_caps1 info] ++ rsne_tail force info) in F |- *.
  assert (zlen pws = 2 + 4 * zlen pw ∧ zlen akms = 2 + 4 * zlen akm ∧
          zlen caps = 2 + zlen (rsne_tail force info)) as (L1 & L2 & L3)
    by (unfold pws, akms, caps; rewrite !zlen_app, Hsa, Hsp; done).
  rewrite !zlen_app, H4, L1, L2, L3 in F. znn.
  unfold parse_ciphers. rewrite zlen_app, H4, <- app_assoc, Hp.
  destruct (Z.ltb_spec (4 + zlen (pws ++ akms ++ caps)) 4); [znn; lia |]. rewrite bind_ok.
  rewrite (advance_app g (pws ++ akms ++ caps) tl) by (done || rewrite ?zlen_app, ?H4; lia).
  rewrite bool_decide_false by done. rewrite !zlen_app, <- !app_assoc.
  apply parse_pairwise_built; done || lia.
Qed.
End parse_built.

Lemma akm_rsn_only mask :
  subset_mask mask 0x3ffff → suites_of akm_loop_suites mask = suites_of rsn_akms mask.
Proof.
  intros Hm. assert (Z.land mask 0x40000 = 0) as E.
  { unfold subset_mask in Hm. rewrite <- Hm, <- Z.land_assoc. apply Z.land_0_r. }
  unfold suites_of. change akm_loop_suites with (rsn_akms ++ [0x40000]).
  rewrite list.filter_app. rewrite (filter_cons_False _ 0x40000) by tauto. by rewrite filter_nil, app_nil_r.
Qed.

(** The first element of a buffer that starts with one. *)
Lemma first_element_head tag data after :
  tag ≠ IE_TYPE_EXTENSION → zlen data ≤ 255 →
  first_element (tag :: zlen data :: data ++ after) (zlen data + 2) =
    Ok (mk_iter (zlen data + 2) (2 + zlen data) (tag :: zlen data :: data ++ after) tag
          (zlen data) (data ++ after)).
Proof.
  intros Ht Hl. pose proof (zlen_nonneg data). unfold first_element, ie_tlv_iter_init, ie_tlv_iter_next.
  cbn [it_max it_pos it_tlv]. rewrite u32_small by lia.
  destruct (Z.leb_spec (zlen data + 2) (0 + 1)); [lia |]. rewrite rd_cons_0, bind_ok.
  change (rd (tag :: zlen data :: data ++ after) (0 + 1)) with (Ok (zlen data)). rewrite bind_ok.
  destruct (Z.eqb_spec tag IE_TYPE_EXTENSION); [done |].
  destruct (Z.ltb_spec (zlen data + 2) (0 + 2 + zlen data)); [lia |]. done.
Qed.

(** The body of an RSNE as it is built, parsed with anything behind it. *)
Lemma ie_parse_rsne_built info it after :
  rsn_info_canon false 0x3ffff info → zlen (rsne_ciphers false info) ≤ 252 →
  it_data it = (1 :: 0 :: rsne_ciphers false info) ++ after →
  it_len it = zlen (1 :: 0 :: rsne_ciphers false info) →
  ∃ info', ie_parse_rsne it = Ok info' ∧ rsn_info_equiv info' info.
Proof.
  intros Hc Hfit Hd Hl. set (C := rsne_ciphers false info) in *.
  destruct (parse_ciphers_built false 0x3ffff ie_parse_rsn_akm_suite info after)
    with (group := IE_RSN_CIPHER_SUITE_CCMP) (pairwise0 := IE_RSN_CIPHER_SUITE_CCMP)
         (akm0 := IE_RSN_AKM_SUITE_8021X) as (j & Hj & Heq); [done | | | fold C; lia |].
  { rewrite akm_rsn_only by apply Hc. apply Forall_suites_of, akm_recognised. }
  { pose proof (canon_akm _ _ _ Hc) as Hm. unfold subset_mask in *. rewrite <- Hm.
    by rewrite <- Z.land_assoc. }
  fold C in Hj. exists j. split; [| done]. unfold ie_parse_rsne. rewrite Hd, Hl.
  destruct (Z.ltb_spec (zlen (1 :: 0 :: C)) 2); [rewrite !zlen_cons in *; pose proof (zlen_nonneg C); lia |].
  change ((1 :: 0 :: C) ++ after) with ([1; 0] ++ C ++ after).
  change (l_get_le16 ([1; 0] ++ C ++ after)) with (Ok 1). rewrite bind_ok.
  cbn [Z.eqb Pos.eqb negb].
  rewrite (advance_app [1; 0] C after) by (done || zlia).
  rewrite bool_decide_false by (intros E; by rewrite E in Hj). by rewrite Hj.
Qed.

(** The body of an RSNE: the version and the suites. *)
Definition rsne_body (info : ie_rsn_info) : list Z := 1 :: 0 :: rsne_ciphers false info.

(** The element [ie_build_rsne] leaves in its buffer. *)
Lemma ie_build_rsne_ok info to :
  rsn_info_canon false 0x3ffff info → 256 ≤ zlen to → zlen (rsne_ciphers false info) ≤ 252 →
  ie_build_rsne info to =
    Ok (Some (IE_TYPE_RSN :: zlen (rsne_body info) :: rsne_body info ++ (to +! (2 + zlen (rsne_body info))))).
Proof.
  intros Hc Hto Hfit. unfold rsne_body. set (C := rsne_ciphers false info) in *.
  destruct to as [|a [|b [|c [|d rest]]]]; try (unfold zlen in Hto; simpl in Hto; lia).
  rewrite !zlen_cons in Hto. znn.
  replace ((a :: b :: c :: d :: rest) +! (2 + zlen (1 :: 0 :: C))) with (rest +! zlen C).
  2:{ change (a :: b :: c :: d :: rest) with ([a; b; c; d] ++ rest). rewrite padd_app_ge by zlia. f_equal. zlia. }
  unfold ie_build_rsne, put1.
  change (a :: b :: c :: d :: rest) with ([a] ++ b :: c :: d :: rest).
  rewrite (put_head [a] _ [u8 IE_TYPE_RSN]) by done. rewrite bind_ok.
  change ([u8 IE_TYPE_RSN] ++ b :: c :: d :: rest) with ([u8 IE_TYPE_RSN; b] ++ [c; d] ++ rest).
  rewrite (put_mid [u8 IE_TYPE_RSN; b] [c; d] rest (le16_bytes 1)) by done.
  rewrite bind_ok. change 4 with (zlen ([u8 IE_TYPE_RSN; b] ++ le16_bytes 1)) at 1.
  rewrite app_assoc, (build_ciphers_common_ok _ 0x3ffff) by (done || (fold C; lia)). fold C.
  rewrite (u8_small (4 + zlen C - 2)) by lia. rewrite <- !app_assoc.
  rewrite (put_mid [u8 IE_TYPE_RSN] [b] (le16_bytes 1 ++ C ++ (rest +! zlen C)) [4 + zlen C - 2]) by done.
  rewrite bind_ok. do 3 f_equal. cbn [app]. f_equal. rewrite !zlen_cons. lia.
Qed.

(** An element with that body parses to the same information, whatever is behind it. *)
Lemma ie_parse_rsne_from_built info after :
  rsn_info_canon false 0x3ffff info → zlen (rsne_ciphers false info) ≤ 252 →
  ∃ info', ie_parse_rsne_from_data (IE_TYPE_RSN :: zlen (rsne_body info) :: rsne_body info ++ after)
             (zlen (rsne_body info) + 2) = Ok info' ∧ rsn_info_equiv info' info.
Proof.
  intros Hc Hfit. set (B := rsne_body info).
  destruct (ie_parse_rsne_built info (mk_iter (zlen B + 2) (2 + zlen B) (IE_TYPE_RSN :: zlen B :: B ++ after)
      IE_TYPE_RSN (zlen B) (B ++ after)) after) as (j & Hj & Heq); [done.. |].
  exists j. split; [| done]. unfold ie_parse_rsne_from_data.
  rewrite first_element_head by (done || (unfold B, rsne_body; rewrite !zlen_cons; lia)). by rewrite bind_ok.
Qed.

(** C32: Building an RSNE and parsing it back: for every canonical [ie_rsn_info] whose
    encoding fits, [ie_build_rsne] fills the 256-byte buffer without leaving it and
    [ie_parse_rsne_from_data] returns the same information from the element. *)
Theorem ie_rsne_roundtrip info to :
  rsn_info_canon false 0x3ffff info → zlen to = 256 → zlen (rsne_ciphers false info) ≤ 252 →
  ∃ to' info' len, ie_build_rsne info to = Ok (Some to') ∧ rd to' 1 = Ok len ∧
    ie_parse_rsne_from_data to' (len + 2) = Ok info' ∧ rsn_info_equiv info' info.
Proof.
  intros Hc Hto Hfit.
  destruct (ie_parse_rsne_from_built info (to +! (2 + zlen (rsne_body info)))) as (j & Hj & Heq); [done.. |].
  eexists _, j, (zlen (rsne_body info)). split; [by apply ie_build_rsne_ok; lia || done |]. by split_and!.
Qed.

Lemma ie_rsne_roundtrip_witness :
  let info := mk_rsn_info IE_RSN_CIPHER_SUITE_CCMP 0x0c 0x82 true false 3 1 false true false
                false false false false 1 (Some (replicate 16 7)) IE_RSN_CIPHER_SUITE_NO_GROUP_TRAFFIC in
  ∃ to' info' len, ie_build_rsne info (replicate 256 0) = Ok (Some to') ∧ rd to' 1 = Ok len ∧
    ie_parse_rsne_from_data to' (len + 2) = Ok info' ∧ rsn_info_equiv info' info.
Proof. apply ie_rsne_roundtrip; [split; by_eval | by_eval | by_eval]. Defined.

(** An RSNE that ends right after a non-zero PMKID count is accepted: the result
    announces PMKIDs and has no PMKID list. *)
Theorem ie_parse_rsne_pmkids_missing n :
  0 < n < 256 →
  ∃ info,
    ie_parse_rsne_from_data
      [48; 22; 1; 0; 0; 15; 172; 4; 1; 0; 0; 15; 172; 4; 1; 0; 0; 15; 172; 2; 0; 0; n; 0] 24
      = Ok info ∧
    num_pmkids info = n ∧ pmkids info = None.
Proof.
  intros Hn. eexists. split; [reflexivity |]. split; [| done].
  cbn [num_pmkids set_num_pmkids]. unfold le16_of. rewrite u8_small; lia.
Qed.

Lemma ie_parse_rsne_pmkids_missing_witness :
  ∃ info,
    ie_parse_rsne_from_data
      [48; 22; 1; 0; 0; 15; 172; 4; 1; 0; 0; 15; 172; 4; 1; 0; 0; 15; 172; 2; 0; 0; 1; 0] 24
      = Ok info ∧
    num_pmkids info = 1 ∧ pmkids info = None.
Proof. by apply ie_parse_rsne_pmkids_missing. Defined.

(** The group management cipher is written without a length check: with 14 PMKIDs and
    the suites below, whose encoding reaches the end of the 256-byte buffer, the last
    selector is written behind it. *)
Theorem ie_build_rsne_overflow pmkid fresh :
  let info := mk_rsn_info IE_RSN_CIPHER_SUITE_CCMP 0x0c 0x82 false false 0 0 false true false
                false false false false 14 (Some (replicate 224 pmkid))
                IE_RSN_CIPHER_SUITE_NO_GROUP_TRAFFIC in
  ie_build_rsne info (replicate 256 fresh) = Fault.
Proof. vm_compute. reflexivity. Qed.

(** ** The WPA element: results *)

(** The two ways [ie_parse_wpa] leaves the caller's structure. *)
Record wpa_info_wf (i : ie_rsn_info) : Prop := {
  wpa_group : group_cipher i ∈ wpa_suites;
  wpa_pw : subset_mask (pairwise_ciphers i) 0x1e;
  wpa_pw_ne : pairwise_ciphers i ≠ 0;
  wpa_akm : subset_mask (akm_suites i) 0x3;
  wpa_no_caps : preauthentication i = false ∧ no_pairwise i = false ∧
                ptksa_replay_counter i = 0 ∧ gtksa_replay_counter i = 0;
}.

Definition only_caps_changed (o i : ie_rsn_info) : Prop :=
  ∃ a b p g, i = mk_rsn_info (group_cipher o) (pairwise_ciphers o) (akm_suites o) a b p g
    (mfpr o) (mfpc o) (peerkey_enabled o) (spp_a_msdu_capable o) (spp_a_msdu_required o)
    (pbac o) (extended_key_id o) (num_pmkids o) (pmkids o) (group_management_cipher o).

Definition wpa_result (o : ie_rsn_info) (r : option ie_rsn_info) : Prop :=
  ∃ i, r = Some i ∧ (wpa_info_wf i ∨ only_caps_changed o i).

Lemma wpa_done_safe o info out :
  wpa_info_wf info → safe (wpa_result o) (wpa_done info (Some out)).
Proof. intros. unfold wpa_done. case_match; [done |]. simpl. by exists info; auto. Qed.

Lemma wpa_advance_safe o data len step info out k :
  bytes_ok data → 0 ≤ step ≤ len → len ≤ zlen data → len < 2 ^ 64 → wpa_info_wf info →
  (∀ data' len', bytes_ok data' → 0 < len' ≤ zlen data' → len' < 2 ^ 64 →
     safe (wpa_result o) (k data' len')) →
  safe (wpa_result o) (wpa_advance data len step info (Some out) k).
Proof.
  intros Hok Hs Hl Hmax Ha Hk. unfold wpa_advance. rewrite u64_small by lia.
  case_b; [by apply wpa_done_safe |]. apply Hk; [auto with iwd | zlia | lia].
Qed.

Lemma wpa_tail_safe data len info o :
  bytes_ok data → 0 < len ≤ zlen data → len < 2 ^ 64 → wpa_info_wf info →
  safe (wpa_result o) (wpa_tail data len info (Some o)).
Proof.
  intros Hok Hl Hmax Hwf. unfold wpa_tail. case_b; [done |].
  eapply (safe_bind (λ r, ∃ i, r = Some i ∧ only_caps_changed o i)).
  - unfold wpa_capabilities. repeat safe_step. simpl. eexists; split; [done |]. by repeat eexists.
  - intros r (i & -> & Hi). apply wpa_advance_safe; [done | lia.. | done |].
    intros. simpl. by exists i; auto.
Qed.

Lemma wpa_cipher_safe data :
  bytes_ok data → 4 ≤ zlen data →
  safe (λ r, ∀ s, r = Some s → s ∈ wpa_suites)
    (r ← ie_parse_wpa_cipher_suite data; Ok (keep_suite wpa_suites r)).
Proof.
  intros. eapply (safe_bind (λ _, True)).
  - unfold ie_parse_wpa_cipher_suite. safe_step. destruct a; [| done]. by safe_step.
  - intros [s|] _; simpl; [| done]. case_bool_decide; naive_solver.
Qed.

Lemma wpa_akm_safe data :
  bytes_ok data → 4 ≤ zlen data →
  safe (λ r, ∀ s, r = Some s → s ∈ [IE_RSN_AKM_SUITE_8021X; IE_RSN_AKM_SUITE_PSK])
    (ie_parse_wpa_akm_suite data).
Proof.
  intros. unfold ie_parse_wpa_akm_suite. safe_step. destruct a; [| done]. safe_step. simpl.
  intros s. repeat (case_match; try done); intros [= <-]; by_eval.
Qed.

Lemma wpa_akms_safe data len info o :
  bytes_ok data → 0 < len ≤ zlen data → len < 2 ^ 64 → wpa_info_wf info →
  safe (wpa_result o) (wpa_akms data len info (Some o)).
Proof.
  intros Hok Hl Hmax Hwf. unfold wpa_akms. case_b; [done |]. safe_step.
  case_b; [done |]. rewrite u64_small by lia. case_b; [done |].
  eapply safe_bind.
  { apply (parse_pairwise_list_safe _ [IE_RSN_AKM_SUITE_8021X; IE_RSN_AKM_SUITE_PSK] 0x3);
      [by_eval | apply wpa_akm_safe | auto with iwd | zlia | auto with iwd]. }
  intros suites [Hs _].
  apply wpa_advance_safe; [auto with iwd | lia | zlia | lia | destruct Hwf; by split |].
  intros. apply wpa_tail_safe; [done.. |]. destruct Hwf; by split.
Qed.

Lemma wpa_pairwise_safe data len info o :
  bytes_ok data → 0 < len ≤ zlen data → len < 2 ^ 64 → wpa_info_wf info →
  safe (wpa_result o) (wpa_pairwise data len info (Some o)).
Proof.
  intros Hok Hl Hmax Hwf. unfold wpa_pairwise. case_b; [done |]. safe_step.
  case_b; [done |]. rewrite u64_small by lia. case_b; [done |].
  eapply safe_bind.
  { apply (parse_pairwise_list_safe _ wpa_suites 0x1e);
      [by_eval | intros; by apply wpa_cipher_safe | auto with iwd | zlia | auto with iwd]. }
  intros suites [Hs Hne].
  assert (wpa_info_wf (set_pairwise_ciphers suites info)).
  { destruct Hwf; split; try done. apply Hne. left; lia. }
  apply wpa_advance_safe; [auto with iwd | lia | zlia | lia | done |].
  intros. by apply wpa_akms_safe.
Qed.

Lemma is_ie_wpa_ie_safe data len :
  bytes_ok data → 0 ≤ len < 256 → len ≤ zlen data →
  safe (λ b, b = true → 6 ≤ len) (is_ie_wpa_ie data len).
Proof.
  intros. unfold is_ie_wpa_ie. rewrite u8_small by lia. case_b; [done |].
  safe_step. destruct a; [| done]. simpl. safe_step. case_match; [done |]. safe_step. simpl. lia.
Qed.

(** Parsing a WPA element out of any bytes into a caller's structure [o] is safe; a 0
    return leaves either known suites with every RSN capability cleared, or [o] itself
    with nothing but its capabilities overwritten. *)
Theorem ie_parse_wpa_result bs o :
  bytes_ok bs → zlen bs < 2 ^ 32 - 1 →
  safe (wpa_result o) (ie_parse_wpa_from_data bs (zlen bs) (Some o)).
Proof.
  intros Hok Hl. unfold ie_parse_wpa_from_data.
  eapply safe_bind; [rewrite <- (app_nil_r bs) at 1; apply first_element_safe; by rewrite ?app_nil_r |].
  intros it (Hi & Hlt & Hle). case_match; [done |]. unfold ie_parse_wpa.
  eapply safe_bind; [by apply is_ie_wpa_ie_safe |]. intros [|] Hw; [| done].
  specialize (Hw eq_refl). simpl.
  assert (wpa_info_wf (rsn_info_init IE_RSN_CIPHER_SUITE_TKIP IE_RSN_CIPHER_SUITE_TKIP
                         IE_RSN_AKM_SUITE_PSK)) as Hinit by (split; by_eval).
  apply wpa_advance_safe; [done | lia.. | done |]. intros d l Hd Hll Hlm.
  case_b; [done |]. eapply safe_bind; [apply wpa_cipher_safe; [done | lia] |].
  intros [s|] Hs; [| done].
  assert (wpa_info_wf (set_group_cipher s (rsn_info_init IE_RSN_CIPHER_SUITE_TKIP
    IE_RSN_CIPHER_SUITE_TKIP IE_RSN_AKM_SUITE_PSK))) by (destruct Hinit; split; auto).
  apply wpa_advance_safe; [done | lia.. | done |]. intros. by apply wpa_pairwise_safe.
Qed.

Lemma ie_parse_wpa_result_witness :
  let bs := [221; 22; 0; 80; 242; 1; 1; 0; 0; 80; 242; 2; 1; 0; 0; 80; 242; 2; 1; 0; 0; 80; 242; 2] in
  safe (wpa_result (rsn_info_init 0 0 0))
    (ie_parse_wpa_from_data bs (zlen bs) (Some (rsn_info_init 0 0 0))).
Proof. apply ie_parse_wpa_result; by_eval. Defined.

(** The RSN capabilities of a WPA element never reach the caller: they are stored in
    the caller's structure and then overwritten, they are the only thing stored when bytes
    follow them, and they are stored through a NULL pointer when the caller passes one. *)
Theorem ie_parse_wpa_capabilities_lost o c0 c1 :
  let bs := [221; 24; 0; 80; 242; 1; 1; 0; 0; 80; 242; 2; 1; 0; 0; 80; 242; 2; 1; 0; 0; 80; 242; 2;
             c0; c1] in
  let bs' := [221; 25; 0; 80; 242; 1; 1; 0; 0; 80; 242; 2; 1; 0; 0; 80; 242; 2; 1; 0; 0; 80; 242; 2;
              c0; c1; 0] in
  ie_parse_wpa_from_data bs 26 (Some o) =
    Ok (Some (rsn_info_init IE_RSN_CIPHER_SUITE_TKIP IE_RSN_CIPHER_SUITE_TKIP
                IE_RSN_AKM_SUITE_PSK)) ∧
  (∃ i, ie_parse_wpa_from_data bs' 27 (Some o) = Ok (Some i) ∧ only_caps_changed o i) ∧
  ie_parse_wpa_from_data bs 26 None = Fault.
Proof.
  split; [reflexivity |]. split; [| reflexivity].
  eexists. split; [reflexivity |]. by repeat eexists.
Qed.
