(* ===== verification/IeMisc.v ===== *)
(** * Mobility domain, fast transition, neighbor report, roaming consortium and
      Hotspot 2.0 indication elements (src/ie.c) *)

From stdpp Require Import base numbers list option.
From Stdlib Require Import ZArith Lia.
From S2P Require Import Prelude IeTlv IeRsn.

Open Scope Z_scope.

Definition IE_TYPE_MOBILITY_DOMAIN : Z := 54.
Definition IE_TYPE_FAST_BSS_TRANSITION : Z := 55.
Definition IE_TYPE_ROAMING_CONSORTIUM : Z := 111.

(** ** Mobility domain *)

(** MDID, FT over DS, resource request. *)
Definition ie_parse_mobility_domain (iter : ie_tlv_iter) : res (Z * bool * bool) :=
  if negb (it_len iter =? 3) then Err EINVAL
  else
    let data := it_data iter in
    mdid ← l_get_le16 data;
    b ← rd data 2;
    Ok (mdid, 0 <? Z.land b 0x01, 0 <? Z.land b 0x02).

(** [len] is a [uint8_t]. *)
Definition ie_parse_mobility_domain_from_data (data : ptr) (len : Z) : res (Z * bool * bool) :=
  iter ← first_element data (u8 len);
  if negb (it_tag iter =? IE_TYPE_MOBILITY_DOMAIN) then Err EPROTOTYPE
  else ie_parse_mobility_domain iter.

Definition ie_build_mobility_domain (mdid : Z) (ft_over_ds resource_req : bool) (to : list Z)
    : res (list Z) :=
  to ← put1 to 0 IE_TYPE_MOBILITY_DOMAIN;
  to ← put1 to 1 3;
  to ← put to 2 (le16_bytes mdid);
  put1 to 4 (Z.lor (bit_if ft_over_ds 0x01) (bit_if resource_req 0x02)).

(** ** Fast BSS transition *)

(** The arrays hold the bytes of the C arrays: [mic] 24, the nonces 32, [r0khid] 48,
    [r1khid] 6, [gtk_rsc] 8, [gtk] 40, [igtk_ipn] 6 and [igtk] 24. *)
Record ie_ft_info : Type := mk_ft_info {
  mic_element_count : Z;
  ft_mic : list Z;
  ft_anonce : list Z;
  ft_snonce : list Z;
  ft_r0khid : list Z;
  ft_r0khid_len : Z;
  ft_r1khid : list Z;
  ft_r1khid_present : bool;
  ft_gtk_key_id : Z;
  ft_gtk_len : Z;
  ft_gtk_rsc : list Z;
  ft_gtk : list Z;
  ft_igtk_key_id : Z;
  ft_igtk_ipn : list Z;
  ft_igtk_len : Z;
  ft_igtk : list Z;
}.

#[export] Instance ft_info_eta : Eta ie_ft_info := λ r,
  mk_ft_info (mic_element_count r) (ft_mic r) (ft_anonce r) (ft_snonce r) (ft_r0khid r)
    (ft_r0khid_len r) (ft_r1khid r) (ft_r1khid_present r) (ft_gtk_key_id r) (ft_gtk_len r)
    (ft_gtk_rsc r) (ft_gtk r) (ft_igtk_key_id r) (ft_igtk_ipn r) (ft_igtk_len r) (ft_igtk r).

#[export] Instance set_mic_element_count : SetterOf mic_element_count.
Proof. derive_setter. Defined.
#[export] Instance set_ft_mic : SetterOf ft_mic.
Proof. derive_setter. Defined.
#[export] Instance set_ft_anonce : SetterOf ft_anonce.
Proof. derive_setter. Defined.
#[export] Instance set_ft_snonce : SetterOf ft_snonce.
Proof. derive_setter. Defined.
#[export] Instance set_ft_r0khid : SetterOf ft_r0khid.
Proof. derive_setter. Defined.
#[export] Instance set_ft_r0khid_len : SetterOf ft_r0khid_len.
Proof. derive_setter. Defined.
#[export] Instance set_ft_r1khid : SetterOf ft_r1khid.
Proof. derive_setter. Defined.
#[export] Instance set_ft_r1khid_present : SetterOf ft_r1khid_present.
Proof. derive_setter. Defined.
#[export] Instance set_ft_gtk_key_id : SetterOf ft_gtk_key_id.
Proof. derive_setter. Defined.
#[export] Instance set_ft_gtk_len : SetterOf ft_gtk_len.
Proof. derive_setter. Defined.
#[export] Instance set_ft_gtk_rsc : SetterOf ft_gtk_rsc.
Proof. derive_setter. Defined.
#[export] Instance set_ft_gtk : SetterOf ft_gtk.
Proof. derive_setter. Defined.
#[export] Instance set_ft_igtk_key_id : SetterOf ft_igtk_key_id.
Proof. derive_setter. Defined.
#[export] Instance set_ft_igtk_ipn : SetterOf ft_igtk_ipn.
Proof. derive_setter. Defined.
#[export] Instance set_ft_igtk_len : SetterOf ft_igtk_len.
Proof. derive_setter. Defined.
#[export] Instance set_ft_igtk : SetterOf ft_igtk.
Proof. derive_setter. Defined.

Definition zeros (n : nat) : list Z := replicate n 0.

(** [memset(info, 0, sizeof( *info))] *)
Definition ft_info_zero : ie_ft_info :=
  mk_ft_info 0 (zeros 24) (zeros 32) (zeros 32) (zeros 48) 0 (zeros 6) false 0 0 (zeros 8)
    (zeros 40) 0 (zeros 6) 0 (zeros 24).

(** The body of the subelement loop: the [switch]. *)
Definition ft_subelem (id subelem_len : Z) (data : ptr) (info : ie_ft_info) : res ie_ft_info :=
  if id =? 1 then
    if negb (subelem_len =? 6) then Err EINVAL
    else
      b ← rdn data 6;
      r1 ← put (ft_r1khid info) 0 b;
      Ok (info <| ft_r1khid := r1 |> <| ft_r1khid_present := true |>)
  else if id =? 2 then
    if (subelem_len <? 35) || (51 <? subelem_len) then Err EINVAL
    else
      b0 ← rd data 0;
      gtk_len ← rd data 2;
      if negb (align_len gtk_len 8 + 8 =? subelem_len - 11) then Err EINVAL
      else
        rsc ← rdn (data +! 3) 8;
        k ← rdn (data +! 11) (subelem_len - 11);
        rsc ← put (ft_gtk_rsc info) 0 rsc;
        gtk ← put (ft_gtk info) 0 k;
        Ok (info <| ft_gtk_key_id := bit_field b0 0 2 |> <| ft_gtk_len := gtk_len |>
                 <| ft_gtk_rsc := rsc |> <| ft_gtk := gtk |>)
  else if id =? 3 then
    if (subelem_len <? 1) || (48 <? subelem_len) then Err EINVAL
    else
      b ← rdn data subelem_len;
      r0 ← put (ft_r0khid info) 0 b;
      Ok (info <| ft_r0khid := r0 |> <| ft_r0khid_len := subelem_len |>)
  else if id =? 4 then
    if negb (subelem_len =? 33) then Err EINVAL
    else
      key_id ← l_get_le16 data;
      ipn ← rdn (data +! 2) 6;
      igtk_len ← rd data 8;
      if 16 <? igtk_len then Err EINVAL
      else
        k ← rdn (data +! 9) (subelem_len - 9);
        ipn ← put (ft_igtk_ipn info) 0 ipn;
        igtk ← put (ft_igtk info) 0 k;
        Ok (info <| ft_igtk_key_id := key_id |> <| ft_igtk_ipn := ipn |>
                 <| ft_igtk_len := igtk_len |> <| ft_igtk := igtk |>)
  else Ok info.

(** [while (len >= 2)]; [len] is a [uint8_t].  Every iteration advances [data], so the
    number of bytes behind it bounds the iterations that do not read out of bounds. *)
Fixpoint ft_subelems (fuel : nat) (len : Z) (data : ptr) (info : ie_ft_info) : res ie_ft_info :=
  match fuel with
  | O => Diverge
  | S fuel' =>
      if len <? 2 then (if len =? 0 then Ok info else Err EINVAL)
      else
        id ← rd data 0;
        subelem_len ← rd data 1;
        info ← ft_subelem id subelem_len (data +! 2) info;
        ft_subelems fuel' (u8 (len - (subelem_len + 2))) (data +! (2 + subelem_len)) info
  end.

Definition ie_parse_fast_bss_transition (iter : ie_tlv_iter) (mic_len : Z) : res ie_ft_info :=
  let len := u8 (it_len iter) in
  if len <? 66 + mic_len then Err EINVAL
  else
    let data := it_data iter in
    let info := ft_info_zero in
    count ← rd data 1;
    m ← rdn (data +! 2) mic_len;
    m ← put (ft_mic info) 0 m;
    an ← rdn (data +! (mic_len + 2)) 32;
    sn ← rdn (data +! (mic_len + 34)) 32;
    let info := info <| mic_element_count := count |> <| ft_mic := m |> <| ft_anonce := an |>
                     <| ft_snonce := sn |> in
    let data := data +! (66 + mic_len) in
    ft_subelems (S (length data)) (u8 (len - (66 + mic_len))) data info.

Definition ie_parse_fast_bss_transition_from_data (data : ptr) (len mic_len : Z)
    : res ie_ft_info :=
  iter ← first_element data (u8 len);
  if negb (it_tag iter =? IE_TYPE_FAST_BSS_TRANSITION) then Err EPROTOTYPE
  else ie_parse_fast_bss_transition iter mic_len.

(** A subelement at [to + pos], with [len], the element's length byte, updated: the buffer,
    the next position and the new length. *)
Definition ft_put_subelem (to : list Z) (pos len id : Z) (x : list Z) : res (list Z * Z * Z) :=
  to ← put1 to pos id;
  to ← put1 to (pos + 1) (zlen x);
  to ← put to (pos + 2) x;
  let len := u8 (len + (2 + zlen x)) in
  to ← put1 to 1 len;
  Ok (to, pos + (2 + zlen x), len).

(** The element as the function leaves it in [to]. *)
Definition ie_build_fast_bss_transition (info : ie_ft_info) (mic_len : Z) (to : list Z)
    : res (list Z) :=
  let len := if mic_len =? 16 then 82 else 90 in
  to ← put1 to 0 IE_TYPE_FAST_BSS_TRANSITION;
  to ← put1 to 1 len;
  to ← put1 to 2 0;
  to ← put1 to 3 (mic_element_count info);
  m ← rdn (ft_mic info) mic_len;
  to ← put to 4 m;
  to ← put to (mic_len + 4) (ft_anonce info);
  to ← put to (mic_len + 36) (ft_snonce info);
  let pos := 2 + len in
  '(to, pos, len) ←
    (if ft_r1khid_present info then ft_put_subelem to pos len 1 (ft_r1khid info)
     else Ok (to, pos, len));
  if ft_r0khid_len info =? 0 then Ok to
  else
    k ← rdn (ft_r0khid info) (ft_r0khid_len info);
    '(to, _, _) ← ft_put_subelem to pos len 3 k;
    Ok to.

(** ** Neighbor report *)

Record ie_neighbor_report_info : Type := mk_neighbor_report {
  nr_addr : list Z;
  nr_reachable : Z;
  nr_spectrum_mgmt : bool;
  nr_qos : bool;
  nr_apsd : bool;
  nr_rm : bool;
  nr_delayed_block_ack : bool;
  nr_immediate_block_ack : bool;
  nr_security : bool;
  nr_key_scope : bool;
  nr_md : bool;
  nr_ht : bool;
  nr_oper_class : Z;
  nr_channel_num : Z;
  nr_phy_type : Z;
  nr_bss_transition_pref : Z;
  nr_bss_transition_pref_present : bool;
}.

Definition NR_SUBELEM_ID_BSS_TRANSITION_PREF : Z := 3.

(** The loop over the optional subelements: the last preference wins. *)
Definition nr_pref_step (it : ie_tlv_iter) (s : option Z) : res (ctl (option Z)) :=
  if negb (it_tag it =? NR_SUBELEM_ID_BSS_TRANSITION_PREF) then Ok (Next s)
  else if negb (it_len it =? 1) then Ok (Next s)
  else p ← rd (it_data it) 0; Ok (Next (Some p)).

Definition ie_parse_neighbor_report (iter : ie_tlv_iter) : res ie_neighbor_report_info :=
  let len := it_len iter in
  let data := it_data iter in
  if len <? 13 then Err EINVAL
  else
    addr ← rdn data 6;
    ht ← test_bit (data +! 8) 3;
    md ← test_bit (data +! 8) 2;
    iba ← test_bit (data +! 8) 1;
    dba ← test_bit (data +! 8) 0;
    rm ← test_bit (data +! 9) 7;
    apsd ← test_bit (data +! 9) 6;
    qos ← test_bit (data +! 9) 5;
    sm ← test_bit (data +! 9) 4;
    ks ← test_bit (data +! 9) 3;
    sec ← test_bit (data +! 9) 2;
    d9 ← rd data 9;
    oper ← rd data 10;
    chan ← rd data 11;
    phy ← rd data 12;
    pref ← tlv_loop nr_pref_step (data +! 13) (len - 13) None;
    Ok (mk_neighbor_report addr (bit_field d9 0 2) sm qos apsd rm dba iba sec ks md ht
          oper chan phy (default 0 pref) (bool_decide (is_Some pref))).

(** ** Roaming consortium *)

(** The offsets and lengths of the up to three OIs; lengths are [size_t]. *)
Record roaming_consortium : Type := mk_rc {
  rc_num_anqp : Z;
  rc_oi1 : ptr;
  rc_oi1_len : Z;
  rc_oi2 : option (ptr * Z);
  rc_oi3 : option (ptr * Z);
}.

Definition ie_parse_roaming_consortium (iter : ie_tlv_iter) : res roaming_consortium :=
  let len := it_len iter in
  let data := it_data iter in
  if len <? 4 then Err EINVAL
  else
    num_anqp ← rd data 0;
    lens ← rd data 1;
    let oi1_len := bit_field lens 0 4 in
    let oi2_len := bit_field lens 4 4 in
    let oi3_len := u64 (len - (2 + oi1_len + oi2_len)) in
    if oi1_len =? 0 then Err EINVAL
    else if len <? u64 (oi1_len + oi2_len + oi3_len + 2) then Err EINVAL
    else
      Ok (mk_rc num_anqp (data +! 2) oi1_len
            (if oi2_len =? 0 then None else Some (data +! (2 + oi1_len), oi2_len))
            (if oi3_len =? 0 then None else Some (data +! (2 + oi1_len + oi2_len), oi3_len))).

Definition ie_parse_roaming_consortium_from_data (data : ptr) (len : Z) : res roaming_consortium :=
  iter ← first_element data len;
  if negb (it_tag iter =? IE_TYPE_ROAMING_CONSORTIUM) then Err EPROTOTYPE
  else ie_parse_roaming_consortium iter.

Definition ie_build_roaming_consortium (rc : ptr) (rc_len : Z) (to : list Z) : res (list Z) :=
  to ← put1 to 0 IE_TYPE_VENDOR_SPECIFIC;
  to ← put1 to 1 (rc_len + 4);
  to ← put to 2 wifi_alliance_oui;
  to ← put1 to 5 0x1d;
  l ← rdn rc rc_len;
  put to 6 l.

(** ** Hotspot 2.0 indication *)

(** Version, PPS MO ID and domain ID; [l_get_u16] is the host's (little endian) order and
    [domain_id] is a [uint8_t]. *)
Definition ie_parse_hs20_indication (iter : ie_tlv_iter) : res (Z * Z * Z) :=
  let len := it_len iter in
  let data := it_data iter in
  wfa ← is_ie_wfa_ie data (it_len iter) IE_WFA_OI_HS20_INDICATION;
  if negb wfa then Err EPROTOTYPE
  else
    hs20_config ← rd data 4;
    pps_mo_present ← test_bit [hs20_config] 1;
    domain_id_present ← test_bit [hs20_config] 2;
    if pps_mo_present && domain_id_present then Err EPROTOTYPE
    else
      let version := bit_field hs20_config 4 4 in
      if len =? 5 then Ok (version, 0, 0)
      else if (pps_mo_present : bool) then
        v ← l_get_le16 (data +! 5); Ok (version, v, 0)
      else if (domain_id_present : bool) then
        v ← l_get_le16 (data +! 5); Ok (version, 0, u8 v)
      else Ok (version, 0, 0).

Definition ie_parse_hs20_indication_from_data (data : ptr) (len : Z) : res (Z * Z * Z) :=
  iter ← first_element data len;
  if negb (it_tag iter =? IE_TYPE_VENDOR_SPECIFIC) then Err EPROTOTYPE
  else ie_parse_hs20_indication iter.

Definition ie_build_hs20_indication (version : Z) (to : list Z) : res (list Z) :=
  if 2 <? version then Err EINVAL
  else
    to ← put1 to 0 IE_TYPE_VENDOR_SPECIFIC;
    to ← put1 to 1 5;
    to ← put to 2 wifi_alliance_oui;
    to ← put1 to 5 IE_WFA_OI_HS20_INDICATION;
    put1 to 6 (Z.land (Z.shiftl version 4) 0xf0).

(** ** Properties *)

(** Mobility domain round trip: for every 16-bit MDID and both flags the 5 bytes that
    [ie_build_mobility_domain] writes parse back to them. *)
Theorem ie_mobility_domain_roundtrip mdid ds rr to :
  0 ≤ mdid < 65536 → 5 ≤ zlen to →
  ∃ to', ie_build_mobility_domain mdid ds rr to = Ok to' ∧
    ie_parse_mobility_domain_from_data to' 5 = Ok (mdid, ds, rr).
Proof.
  intros Hm Hl. unfold ie_build_mobility_domain. put_seq. eexists. split; [reflexivity |].
  unfold ie_parse_mobility_domain_from_data. rewrite <- !app_assoc.
  set (flags := u8 (Z.lor _ _)). set (rest := to +! _ +! _ +! _ +! _).
  change (u8 5) with (zlen (le16_bytes mdid ++ [flags]) + 2).
  change ([u8 IE_TYPE_MOBILITY_DOMAIN] ++ [u8 3] ++ le16_bytes mdid ++ [flags] ++ rest)
    with (IE_TYPE_MOBILITY_DOMAIN :: zlen (le16_bytes mdid ++ [flags])
            :: (le16_bytes mdid ++ [flags]) ++ rest).
  rewrite first_element_head by done. rewrite bind_ok.
  cbn [it_tag Z.eqb IE_TYPE_MOBILITY_DOMAIN Pos.eqb negb]. unfold ie_parse_mobility_domain.
  cbn [it_data it_len]. change (zlen (le16_bytes mdid ++ [flags]) =? 3) with true. cbn [negb].
  rewrite <- app_assoc, l_get_le16_bytes by done. rewrite bind_ok.
  change (rd (le16_bytes mdid ++ [flags] ++ rest) 2) with (Ok flags). rewrite bind_ok.
  unfold flags. by destruct ds, rr.
Qed.

Lemma ie_mobility_domain_roundtrip_witness :
  ∃ to', ie_build_mobility_domain 0x1234 true false (zeros 5) = Ok to' ∧
    ie_parse_mobility_domain_from_data to' 5 = Ok (0x1234, true, false).
Proof. apply ie_mobility_domain_roundtrip; by_eval. Defined.

(** The encoding of an FTE without key subelements. *)
Definition ft_fixed (info : ie_ft_info) (mic_len : Z) : list Z :=
  [0; mic_element_count info] ++ ptake (ft_mic info) mic_len ++ ft_anonce info ++ ft_snonce info.
Definition ft_r1_enc (info : ie_ft_info) : list Z :=
  if ft_r1khid_present info then [1; 6] ++ ft_r1khid info else [].
Definition ft_r0_enc (info : ie_ft_info) : list Z :=
  if ft_r0khid_len info =? 0 then []
  else [3; ft_r0khid_len info] ++ ptake (ft_r0khid info) (ft_r0khid_len info).
Definition ft_body (info : ie_ft_info) (mic_len : Z) : list Z :=
  ft_fixed info mic_len ++ ft_r1_enc info ++ ft_r0_enc info.

(** What the builder can encode: no GTK or IGTK, and arrays that are zero after the bytes
    in use. *)
Record ft_canon (mic_len : Z) (info : ie_ft_info) : Prop := {
  ftc_mic_len : mic_len = 16 ∨ mic_len = 24;
  ftc_count : byte_ok (mic_element_count info);
  ftc_mic : zlen (ft_mic info) = 24 ∧
            ft_mic info = ptake (ft_mic info) mic_len ++ zeros (Z.to_nat (24 - mic_len));
  ftc_nonces : zlen (ft_anonce info) = 32 ∧ zlen (ft_snonce info) = 32;
  ftc_r0 : 0 ≤ ft_r0khid_len info ≤ 48 ∧ zlen (ft_r0khid info) = 48 ∧
           ft_r0khid info = ptake (ft_r0khid info) (ft_r0khid_len info)
                              ++ zeros (Z.to_nat (48 - ft_r0khid_len info));
  ftc_r1 : zlen (ft_r1khid info) = 6 ∧ (ft_r1khid_present info = false → ft_r1khid info = zeros 6);
  ftc_keys : ft_gtk_key_id info = 0 ∧ ft_gtk_len info = 0 ∧ ft_gtk_rsc info = zeros 8 ∧
             ft_gtk info = zeros 40 ∧ ft_igtk_key_id info = 0 ∧ ft_igtk_ipn info = zeros 6 ∧
             ft_igtk_len info = 0 ∧ ft_igtk info = zeros 24;
}.

Lemma ft_fixed_length info mic_len :
  ft_canon mic_len info → zlen (ft_fixed info mic_len) = 66 + mic_len.
Proof.
  intros [[-> | ->] _ [Hm _] [Ha Hs] _ _ _]; unfold ft_fixed;
    rewrite !zlen_app, zlen_ptake, Ha, Hs by lia; done.
Qed.

Lemma ft_body_length info mic_len :
  ft_canon mic_len info →
  zlen (ft_body info mic_len) =
    66 + mic_len + (if ft_r1khid_present info then 8 else 0)
      + (if ft_r0khid_len info =? 0 then 0 else 2 + ft_r0khid_len info).
Proof.
  intros Hc. pose proof (ft_fixed_length _ _ Hc) as Hf. destruct Hc as [_ _ _ _ (H0 & H0' & _) [H1 _] _].
  unfold ft_body, ft_r1_enc, ft_r0_enc. rewrite !zlen_app, Hf.
  destruct (ft_r1khid_present info), (Z.eqb_spec (ft_r0khid_len info) 0);
    rewrite ?zlen_app, ?zlen_ptake, ?H1 by lia; change (zlen [1; 6]) with 2;
    change (zlen [3; ft_r0khid_len info]) with 2; change (zlen (@nil Z)) with 0; lia.
Qed.

(** Rewriting the length byte of an element. *)
Lemma put_len_byte t x y l : put (t :: x :: l) 1 [y] = Ok (t :: y :: l).
Proof. by apply (put_mid [t] [x] l [y] 1). Qed.

(** Appending one subelement to an element whose length byte is right. *)
Lemma ft_put_subelem_ok t body rest id x :
  byte_ok id → zlen body + 2 + zlen x ≤ 255 → 2 + zlen x ≤ zlen rest →
  let body' := body ++ [id; zlen x] ++ x in
  ft_put_subelem (t :: zlen body :: body ++ rest) (2 + zlen body) (zlen body) id x =
    Ok (t :: zlen body' :: body' ++ (rest +! (2 + zlen x)), 2 + zlen body', zlen body').
Proof.
  intros Hid Hl Hr body'. znn. unfold byte_ok in Hid.
  assert (zlen body' = zlen body + (2 + zlen x)) as Hb by (unfold body'; zlia).
  unfold ft_put_subelem, put1. change (t :: zlen body :: body ++ rest) with ((t :: zlen body :: body) ++ rest).
  rewrite (u8_small id), (u8_small (zlen x)), (u8_small (zlen body + (2 + zlen x))) by lia.
  rewrite u8_small by lia.
  rewrite put_next by zlia. rewrite bind_ok. rewrite put_next by zlia. rewrite bind_ok.
  rewrite put_next by zlia. rewrite bind_ok. rewrite !padd_padd by zlia.
  change (zlen [id] + (zlen [zlen x] + zlen x)) with (1 + (1 + zlen x)).
  replace (1 + (1 + zlen x)) with (2 + zlen x) by lia. cbn [app]. rewrite put_len_byte, bind_ok, Hb.
  unfold body'. rewrite <- !app_assoc. cbn [app].
  by rewrite <- (Z.add_assoc 2 (zlen body)).
Qed.

(** The two optional subelements. *)
Lemma ft_build_subelems info t body rest1 :
  zlen (ft_r1khid info) = 6 → 0 ≤ ft_r0khid_len info ≤ 48 → zlen (ft_r0khid info) = 48 →
  zlen body ≤ 90 → zlen (ft_r1_enc info ++ ft_r0_enc info) ≤ zlen rest1 →
  ∃ rest,
    (if ft_r1khid_present info
     then ft_put_subelem (t :: zlen body :: body ++ rest1) (2 + zlen body) (zlen body) 1
            (ft_r1khid info)
     else Ok (t :: zlen body :: body ++ rest1, 2 + zlen body, zlen body))
    ≫= (λ '(to, pos, len),
          if ft_r0khid_len info =? 0 then Ok to
          else
            k ← rdn (ft_r0khid info) (ft_r0khid_len info);
            '(to, _, _) ← ft_put_subelem to pos len 3 k;
            Ok to) =
    let body' := body ++ ft_r1_enc info ++ ft_r0_enc info in
    Ok (t :: zlen body' :: body' ++ rest).
Proof.
  intros H1 H0 H0' Hb Hr. unfold ft_r1_enc, ft_r0_enc in *. rewrite (rdn_ok (ft_r0khid info)) by lia.
  assert (zlen (ptake (ft_r0khid info) (ft_r0khid_len info)) = ft_r0khid_len info) as Hk
    by (rewrite zlen_ptake; lia).
  destruct (ft_r1khid_present info).
  - rewrite ft_put_subelem_ok by zlia. rewrite bind_ok, H1.
    destruct (Z.eqb_spec (ft_r0khid_len info) 0); [eexists; by rewrite app_nil_r |].
    rewrite bind_ok, ft_put_subelem_ok by zlia. rewrite bind_ok, Hk. eexists. cbv zeta. by rewrite <- !app_assoc.
  - rewrite bind_ok. destruct (Z.eqb_spec (ft_r0khid_len info) 0); [exists rest1; cbn [app]; cbv zeta; by rewrite app_nil_r |].
    rewrite bind_ok, ft_put_subelem_ok by zlia. rewrite bind_ok, Hk. by eexists.
Qed.

Lemma ft_build_ok info mic_len to :
  ft_canon mic_len info → 2 + zlen (ft_body info mic_len) ≤ zlen to →
  ∃ rest, ie_build_fast_bss_transition info mic_len to =
    Ok (IE_TYPE_FAST_BSS_TRANSITION :: zlen (ft_body info mic_len)
          :: ft_body info mic_len ++ rest).
Proof.
  intros Hc Hl. pose proof (ft_fixed_length _ _ Hc) as Hf. pose proof (ft_body_length _ _ Hc) as Hbl.
  assert ((if mic_len =? 16 then 82 else 90) = zlen (ft_fixed info mic_len)) as Hbase
    by (rewrite Hf; destruct (ftc_mic_len _ _ Hc) as [-> | ->]; done).
  destruct Hc as [Hml Hcnt [Hm _] [Ha Hs] (H0 & H0' & _) [H1 _] _].
  assert (0 ≤ mic_len ≤ 24) as Hml' by lia.
  unfold ie_build_fast_bss_transition. rewrite Hbase, (rdn_ok (ft_mic info)) by lia.
  assert (zlen (ptake (ft_mic info) mic_len) = mic_len) as Hmt by (rewrite zlen_ptake; lia).
  unfold put1. rewrite (u8_small (zlen _)), (u8_small _ Hcnt) by lia.
  assert (68 + mic_len ≤ zlen to) as Hto by (destruct (ft_r1khid_present info), (ft_r0khid_len info =? 0); lia).
  rewrite put_first by zlia. rewrite bind_ok.
  rewrite put_next by zlia. rewrite bind_ok. rewrite put_next by zlia. rewrite bind_ok.
  rewrite put_next by zlia. rewrite !bind_ok. rewrite put_next by zlia. rewrite bind_ok.
  rewrite put_next by zlia. rewrite bind_ok. rewrite put_next by zlia. rewrite bind_ok.
  set (rest1 := to +! _ +! _ +! _ +! _ +! _ +! _ +! _).
  assert (zlen rest1 = zlen to - (68 + mic_len)) as Hr by (unfold rest1; zlia). clearbody rest1.
  replace ((((((_ ++ [zlen _]) ++ _) ++ _) ++ _) ++ ft_anonce info) ++ ft_snonce info)
    with (IE_TYPE_FAST_BSS_TRANSITION :: zlen (ft_fixed info mic_len) :: ft_fixed info mic_len)
    by (unfold ft_fixed at 2; by rewrite <- !app_assoc).
  cbn [app]. apply ft_build_subelems; try done; [lia |].
  unfold ft_body in Hl. rewrite zlen_app in Hl. lia.
Qed.

Lemma zeros_padd n k : 0 ≤ k → zeros n +! k = zeros (n - Z.to_nat k).
Proof. intros. unfold zeros, padd. apply drop_replicate. Qed.

(** One turn of the subelement loop. *)
Lemma ft_subelems_step fuel len id x y info info' :
  zlen x < 256 → 2 + zlen x ≤ len < 256 →
  ft_subelem id (zlen x) (x ++ y) info = Ok info' →
  ft_subelems (S fuel) len ([id; zlen x] ++ x ++ y) info =
    ft_subelems fuel (len - (2 + zlen x)) y info'.
Proof.
  intros Hx Hl Hs. znn. cbn [ft_subelems]. destruct (Z.ltb_spec len 2); [lia |].
  cbn [app]. rewrite rd_cons_0, bind_ok. change (rd (id :: zlen x :: x ++ y) 1) with (Ok (zlen x)).
  rewrite bind_ok. change ((id :: zlen x :: x ++ y) +! 2) with (x ++ y). rewrite Hs, bind_ok.
  rewrite u8_small by lia. replace (len - (zlen x + 2)) with (len - (2 + zlen x)) by lia.
  change (id :: zlen x :: x ++ y) with ([id; zlen x] ++ (x ++ y)).
  rewrite padd_app_ge by (change (zlen [id; zlen x]) with 2; lia).
  change (zlen [id; zlen x]) with 2. replace (2 + zlen x - 2) with (zlen x) by lia.
  by rewrite padd_app.
Qed.

Lemma ft_subelem_r1 info x y :
  zlen x = 6 → zlen (ft_r1khid info) = 6 →
  ft_subelem 1 (zlen x) (x ++ y) info =
    Ok (info <| ft_r1khid := x |> <| ft_r1khid_present := true |>).
Proof.
  intros Hx Hr. unfold ft_subelem. cbn [Z.eqb Pos.eqb]. rewrite Hx. cbn [Z.eqb Pos.eqb negb].
  rewrite rdn_app, bind_ok, put_first, bind_ok, padd_all, app_nil_r by lia. done.
Qed.

Lemma ft_subelem_r0 info x y :
  1 ≤ zlen x ≤ 48 → ft_r0khid info = zeros 48 →
  ft_subelem 3 (zlen x) (x ++ y) info =
    Ok (info <| ft_r0khid := x ++ zeros (Z.to_nat (48 - zlen x)) |> <| ft_r0khid_len := zlen x |>).
Proof.
  intros Hx Hr. unfold ft_subelem. cbn [Z.eqb Pos.eqb].
  destruct (Z.ltb_spec (zlen x) 1), (Z.ltb_spec 48 (zlen x)); try lia. cbn [orb].
  rewrite rdn_app, bind_ok, Hr, put_first, bind_ok, zeros_padd by (change (zlen (zeros 48)) with 48; lia).
  by replace (48 - Z.to_nat (zlen x))%nat with (Z.to_nat (48 - zlen x)) by lia.
Qed.

Lemma ft_subelems_r0 mic_len info n y i :
  ft_canon mic_len info → ft_r0khid i = zeros 48 → ft_r0khid_len i = 0 →
  (length (ft_r0_enc info) < n)%nat →
  ft_subelems n (zlen (ft_r0_enc info)) (ft_r0_enc info ++ y) i =
    Ok (i <| ft_r0khid := ft_r0khid info |> <| ft_r0khid_len := ft_r0khid_len info |>).
Proof.
  intros Hc Hi Hi0 Hn. destruct (ftc_r0 _ _ Hc) as (H0 & H0' & H0p).
  destruct n as [|n]; [lia |]. unfold ft_r0_enc in *.
  destruct (Z.eqb_spec (ft_r0khid_len info) 0) as [E|Hne].
  - rewrite E in *. assert (ft_r0khid info = zeros 48) as -> by (by rewrite H0p).
    destruct i; cbn in *; by subst.
  - set (k := ptake (ft_r0khid info) (ft_r0khid_len info)) in *.
    assert (zlen k = ft_r0khid_len info) as Hk by (unfold k; rewrite zlen_ptake; lia).
    rewrite <- Hk in *. rewrite <- app_assoc.
    erewrite ft_subelems_step; [| lia | zlia | by apply ft_subelem_r0; [lia |]].
    rewrite zlen_app. change (zlen [3; zlen k]) with 2. rewrite Z.sub_diag.
    destruct n as [|n]; [cbn in Hn; lia |]. cbn. by rewrite H0p.
Qed.

(** The loop over what the builder wrote. *)
Lemma ft_subelems_built info mic_len rest fuel :
  ft_canon mic_len info → (length (ft_r1_enc info ++ ft_r0_enc info) < fuel)%nat →
  ft_subelems fuel (zlen (ft_r1_enc info ++ ft_r0_enc info)) (ft_r1_enc info ++ ft_r0_enc info ++ rest)
    (ft_info_zero <| mic_element_count := mic_element_count info |> <| ft_mic := ft_mic info |>
       <| ft_anonce := ft_anonce info |> <| ft_snonce := ft_snonce info |>) = Ok info.
Proof.
  intros Hc Hfuel. destruct (ftc_r1 _ _ Hc) as [H1 H1n]. destruct (ftc_r0 _ _ Hc) as (H0 & H0' & _).
  destruct (ftc_keys _ _ Hc) as (K1 & K2 & K3 & K4 & K5 & K6 & K7 & K8).
  destruct fuel as [|fuel]; [lia |]. unfold ft_r1_enc in *.
  destruct (ft_r1khid_present info) eqn:Hp.
  - assert (zlen (ft_r0_enc info) ≤ 50) as Hr0.
    { unfold ft_r0_enc. case_match; [done |]. rewrite zlen_app, zlen_ptake by lia. zlia. }
    replace [1; 6] with [1; zlen (ft_r1khid info)] by (by rewrite H1). rewrite <- !app_assoc.
    erewrite ft_subelems_step; [| lia | zlia | by apply ft_subelem_r1].
    rewrite !zlen_app. change (zlen [1; zlen (ft_r1khid info)]) with 2.
    replace (2 + (zlen (ft_r1khid info) + zlen (ft_r0_enc info)) - (2 + zlen (ft_r1khid info)))
      with (zlen (ft_r0_enc info)) by lia.
    rewrite (ft_subelems_r0 mic_len) by (done || (rewrite !length_app in Hfuel; cbn in Hfuel; lia)). f_equal.
    destruct info; cbn in *; by subst.
  - rewrite (H1n eq_refl) in *. cbn [app]. rewrite (ft_subelems_r0 mic_len) by (done || lia). f_equal.
    specialize (H1n eq_refl). destruct info; cbn in *; by subst.
Qed.

(** The element parses back, whatever is behind it. *)
Lemma ft_parse_built info mic_len rest :
  ft_canon mic_len info →
  ie_parse_fast_bss_transition_from_data
    (IE_TYPE_FAST_BSS_TRANSITION :: zlen (ft_body info mic_len) :: ft_body info mic_len ++ rest)
    (zlen (ft_body info mic_len) + 2) mic_len = Ok info.
Proof.
  intros Hc. pose proof (ft_fixed_length _ _ Hc) as Hf. pose proof (ft_body_length _ _ Hc) as Hbl.
  set (L := zlen (ft_body info mic_len)) in *.
  assert (66 + mic_len ≤ L ≤ 150) as HL.
  { rewrite Hbl. destruct Hc as [[-> | ->] _ _ _ (H0 & _) _ _];
      destruct (ft_r1khid_present info), (ft_r0khid_len info =? 0); lia. }
  assert (0 ≤ mic_len ≤ 24) as Hml by (destruct (ftc_mic_len _ _ Hc); lia).
  unfold ie_parse_fast_bss_transition_from_data. rewrite u8_small by lia. unfold L.
  rewrite first_element_head by (done || (fold L; lia)). rewrite bind_ok.
  cbn [it_tag Z.eqb IE_TYPE_FAST_BSS_TRANSITION Pos.eqb negb].
  unfold ie_parse_fast_bss_transition. cbn [it_data it_len]. fold L. rewrite (u8_small L) by lia.
  destruct (Z.ltb_spec L (66 + mic_len)); [lia |].
  unfold ft_body. rewrite <- !app_assoc. set (S0 := ft_r1_enc info ++ ft_r0_enc info ++ rest).
  unfold ft_fixed in *. rewrite <- !app_assoc.
  set (cnt := [0; mic_element_count info]) in *. set (m := ptake (ft_mic info) mic_len) in *.
  assert (zlen m = mic_len) as Hm by (unfold m; rewrite zlen_ptake; destruct (ftc_mic _ _ Hc); lia).
  destruct (ftc_nonces _ _ Hc) as [Ha Hs]. destruct (ftc_mic _ _ Hc) as [_ Hmz].
  change (rd (cnt ++ m ++ ft_anonce info ++ ft_snonce info ++ S0) 1) with (Ok (mic_element_count info)).
  change ((cnt ++ m ++ ft_anonce info ++ ft_snonce info ++ S0) +! 2)
    with (m ++ ft_anonce info ++ ft_snonce info ++ S0).
  rewrite bind_ok, rdn_app, bind_ok, put_first, bind_ok by (done || (rewrite Hm; apply Hml)).
  assert (m ++ (ft_mic ft_info_zero +! zlen m) = ft_mic info) as ->.
  { rewrite Hmz, Hm. cbn [ft_mic ft_info_zero]. rewrite zeros_padd by lia. do 2 f_equal. lia. }
  assert (zlen cnt = 2) as Hcnt by done.
  rewrite !(app_assoc cnt m), (padd_app (cnt ++ m) _ (mic_len + 2)), rdn_app, bind_ok by (rewrite ?zlen_app; lia).
  rewrite !(app_assoc (cnt ++ m)), (padd_app ((cnt ++ m) ++ _) _ (mic_len + 34)), rdn_app, bind_ok
    by (rewrite ?zlen_app; lia).
  rewrite !(app_assoc ((cnt ++ m) ++ _)), (padd_app (((cnt ++ m) ++ _) ++ _) _ (66 + mic_len))
    by (rewrite !zlen_app; lia).
  assert (u8 (L - (66 + mic_len)) = zlen (ft_r1_enc info ++ ft_r0_enc info)) as ->.
  { rewrite u8_small by lia. unfold L, ft_body, ft_fixed. rewrite (zlen_app (_ ++ _)). fold cnt m. lia. }
  apply (ft_subelems_built info mic_len); [done |].
  unfold S0. rewrite !length_app. lia.
Qed.

(** FTE round trip: for MIC lengths 16 and 24 and every key-less [ie_ft_info], the
    element [ie_build_fast_bss_transition] writes, with the optional R1KH-ID and R0KH-ID
    subelements, parses back to the same structure. *)
Theorem ie_fte_roundtrip info mic_len to :
  ft_canon mic_len info → 2 + zlen (ft_body info mic_len) ≤ zlen to →
  ∃ to' len, ie_build_fast_bss_transition info mic_len to = Ok to' ∧ rd to' 1 = Ok len ∧
    ie_parse_fast_bss_transition_from_data to' (len + 2) mic_len = Ok info.
Proof.
  intros Hc Hl. destruct (ft_build_ok info mic_len to Hc Hl) as [rest Hb].
  eexists _, _. split; [exact Hb |]. split; [done |]. by apply ft_parse_built.
Qed.

Lemma ie_fte_roundtrip_witness :
  let info := ft_info_zero <| mic_element_count := 3 |> <| ft_r0khid := 7 :: zeros 47 |>
                <| ft_r0khid_len := 1 |> <| ft_r1khid := [1; 2; 3; 4; 5; 6] |>
                <| ft_r1khid_present := true |> in
  ∃ to' len, ie_build_fast_bss_transition info 16 (zeros 100) = Ok to' ∧ rd to' 1 = Ok len ∧
    ie_parse_fast_bss_transition_from_data to' (len + 2) 16 = Ok info.
Proof. apply ie_fte_roundtrip; [split; by_eval || (cbn; done) | by_eval]. Defined.

(** The length of an FTE subelement is not checked against what is left of the
    element: an FTE of 84 bytes whose last two announce an R0KH-ID of [n] bytes is read
    [n] bytes behind its end. *)
Theorem ie_parse_fte_overread n fixed :
  1 ≤ n ≤ 48 → zlen fixed = 82 →
  ie_parse_fast_bss_transition_from_data (55 :: 84 :: fixed ++ [3; n]) 86 16 = Fault.
Proof.
  intros Hn Hf. unfold ie_parse_fast_bss_transition_from_data. change (u8 86) with (84 + 2).
  assert (zlen (fixed ++ [3; n]) = 84) as Hl by zlia.
  rewrite <- Hl. rewrite <- (app_nil_r (fixed ++ [3; n])) at 2. rewrite first_element_head by (done || lia).
  rewrite bind_ok. cbn [it_tag Z.eqb IE_TYPE_FAST_BSS_TRANSITION Pos.eqb negb].
  unfold ie_parse_fast_bss_transition. cbn [it_data it_len]. rewrite app_nil_r, Hl.
  change (u8 84) with 84. cbn [Z.ltb Z.compare Pos.compare Pos.compare_cont Z.add Pos.add Pos.succ].
  destruct (rd_in (fixed ++ [3; n]) 1) as (c & -> & _); [lia |]. rewrite bind_ok.
  rewrite (rdn_ok _ 16) by zlia. rewrite bind_ok, put_first, bind_ok
    by (rewrite zlen_ptake by zlia; by vm_compute).
  rewrite !(rdn_ok _ 32) by zlia. rewrite !bind_ok.
  rewrite padd_app by lia.
  cbn [length ft_subelems]. change (u8 (84 - 82)) with 2. cbn [Z.ltb Z.compare Pos.compare Pos.compare_cont].
  rewrite rd_cons_0, bind_ok. change (rd [3; n] 1) with (Ok n). rewrite bind_ok.
  unfold ft_subelem. cbn [Z.eqb Pos.eqb]. destruct (Z.ltb_spec n 1), (Z.ltb_spec 48 n); try lia. cbn [orb].
  change ([3; n] +! 2) with (@nil Z). unfold rdn. change (zlen (@nil Z)) with 0.
  destruct (Z.leb_spec 0 n), (Z.leb_spec n 0); try lia. done.
Qed.

Lemma ie_parse_fte_overread_witness :
  ie_parse_fast_bss_transition_from_data (55 :: 84 :: zeros 82 ++ [3; 48]) 86 16 = Fault.
Proof. apply ie_parse_fte_overread; by_eval. Defined.

(** ** Neighbor report *)

Definition neighbor_report_wf (i : ie_neighbor_report_info) : Prop :=
  zlen (nr_addr i) = 6 ∧ bytes_ok (nr_addr i) ∧ 0 ≤ nr_reachable i < 4 ∧
  byte_ok (nr_oper_class i) ∧ byte_ok (nr_channel_num i) ∧ byte_ok (nr_phy_type i) ∧
  byte_ok (nr_bss_transition_pref i).

(** The preference subelement of the grammar the loop reads. *)
Definition nr_pref (e : elem) (s : option Z) : option Z :=
  match e with (3, [p]) => Some p | _ => s end.

Lemma nr_pref_step_reads : reads_element nr_pref_step (λ e s, Ok (Next (nr_pref e s))).
Proof.
  intros it s d after Hd Hl. unfold nr_pref_step, nr_pref, NR_SUBELEM_ID_BSS_TRANSITION_PREF.
  rewrite Hd, Hl. destruct (Z.eqb_spec (it_tag it) 3) as [->|Hne]; cbn [negb].
  - destruct (Z.eqb_spec (zlen d) 1) as [E|E]; cbn [negb].
    + destruct d as [|x [|y d]]; try (unfold zlen in E; cbn in E; lia). done.
    + by destruct d as [|x [|y d]].
  - destruct (it_tag it) as [|[[]|[]|]|]; done.
Qed.

Lemma nr_pref_fold es s :
  elem_fold (λ e s, Ok (Next (nr_pref e s))) es s = Ok (foldl (flip nr_pref) s es).
Proof. revert s. induction es as [|e es IH]; intros s; [done |]. cbn. apply IH. Qed.

Lemma nr_pref_byte es : Forall elem_ok es → ∀ s, from_option byte_ok True s →
  from_option byte_ok True (foldl (flip nr_pref) s es).
Proof.
  induction 1 as [|[t d] es [Hd _] Hes IH]; intros s Hs; [done |]. cbn. apply IH.
  destruct t as [|[[]|[]|]|]; try done; destruct d as [|x [|y d]]; try done.
  by inversion_clear Hd.
Qed.

(** A loop over the first [n] bytes of a longer object. *)
Lemma tlv_loop_ptake {T} (body : ie_tlv_iter → T → res (ctl T)) step data n s :
  reads_element body step → bytes_ok data → 0 ≤ n ≤ zlen data → n < 2 ^ 32 - 1 →
  ∃ es rest, elements_of (ptake data n) es rest ∧ tlv_loop body data n s = elem_fold step es s.
Proof.
  intros Hb Hok Hn Hlt. destruct (elements_total (ptake data n)) as (es & rest & Hes); [auto with iwd |].
  exists es, rest. split; [done |].
  pose proof (tlv_loop_elements body step (ptake data n) es rest (data +! n) s Hb Hes) as E.
  rewrite ptake_padd_id, zlen_ptake in E by done. apply E; [auto with iwd | lia].
Qed.

Lemma elements_of_ok bs es rest : elements_of bs es rest → Forall elem_ok es.
Proof. induction 1; constructor; done. Qed.

(** Parsing a neighbor report element reads nothing outside of the element, whatever
    its bytes and subelements, and a 0 return leaves a well-formed report. *)
Theorem ie_parse_neighbor_report_safe it :
  elem_readable it → safe neighbor_report_wf (ie_parse_neighbor_report it).
Proof.
  intros (Hok & Hlt & Hl). unfold ie_parse_neighbor_report. case_b; [done |]. repeat safe_step.
  destruct (tlv_loop_ptake nr_pref_step _ (it_data it +! 13) (it_len it - 13) None nr_pref_step_reads)
    as (es & rest & Hes & ->); [auto with iwd | zlia | lia |].
  rewrite nr_pref_fold, bind_ok. simpl. unfold neighbor_report_wf; cbn.
  pose proof (nr_pref_byte es (elements_of_ok _ _ _ Hes) None I) as Hp.
  pose proof (bit_field_range a10 0 2 ltac:(lia)).
  destruct (foldl (flip nr_pref) None es) as [p|]; cbn in *; split_and!; done || lia || by vm_compute.
Qed.

Lemma ie_parse_neighbor_report_safe_witness :
  let it := mk_iter 18 18 [] 52 16 ([1; 2; 3; 4; 5; 6; 0; 0; 12; 7; 81; 6; 7] ++ [3; 1; 200]) in
  safe neighbor_report_wf (ie_parse_neighbor_report it).
Proof. apply ie_parse_neighbor_report_safe. split_and!; by_eval. Defined.

(** ** Roaming consortium *)

(** The roaming consortium parser on every element of at least 4 bytes with a first OI:
    when the first two OI lengths fit, the three OIs are exactly the element's bytes after
    the two-byte header; when they do not, the check that should refuse the element cannot
    fail (its left side has wrapped around) and an OI3 length near 2^64 is returned. *)
Theorem ie_parse_roaming_consortium_cases it anqp lens :
  elem_readable it → 4 ≤ it_len it → rd (it_data it) 0 = Ok anqp → rd (it_data it) 1 = Ok lens →
  let l1 := bit_field lens 0 4 in
  let l2 := bit_field lens 4 4 in
  l1 ≠ 0 →
  ∃ rc, ie_parse_roaming_consortium it = Ok rc ∧ rc_num_anqp rc = anqp ∧ rc_oi1_len rc = l1 ∧
    if 2 + l1 + l2 <=? it_len it
    then ptake (rc_oi1 rc) l1 ++ from_option (λ '(p, n), ptake p n) [] (rc_oi2 rc)
           ++ from_option (λ '(p, n), ptake p n) [] (rc_oi3 rc)
         = ptake (it_data it +! 2) (it_len it - 2)
    else rc_oi3 rc = Some (it_data it +! (2 + l1 + l2), 2 ^ 64 - (2 + l1 + l2 - it_len it)).
Proof.
  intros (Hok & Hlt & Hl) H4 Ha Hls l1 l2 Hne. unfold ie_parse_roaming_consortium.
  destruct (Z.ltb_spec (it_len it) 4); [lia |]. rewrite Ha, bind_ok, Hls, bind_ok. fold l1 l2.
  pose proof (bit_field_range lens 0 4 ltac:(lia)) as R1. pose proof (bit_field_range lens 4 4 ltac:(lia)) as R2.
  fold l1 in R1. fold l2 in R2. destruct (Z.eqb_spec l1 0); [done |].
  assert (u64 (l1 + l2 + u64 (it_len it - (2 + l1 + l2)) + 2) = it_len it) as ->.
  { unfold u64. set (x := it_len it - (2 + l1 + l2)).
    replace (l1 + l2 + x mod 2 ^ 64 + 2) with (x mod 2 ^ 64 + (l1 + l2 + 2)) by lia.
    rewrite Z.add_mod_idemp_l by lia. unfold x. rewrite Z.mod_small; lia. }
  rewrite Z.ltb_irrefl. eexists. split; [reflexivity |]. split; [done |]. split; [done |].
  cbn [rc_oi1 rc_oi2 rc_oi3]. destruct (Z.leb_spec (2 + l1 + l2) (it_len it)).
  - rewrite u64_small by lia. set (l3 := it_len it - (2 + l1 + l2)).
    replace (it_len it - 2) with (l1 + (l2 + l3)) by lia. rewrite ptake_app_split by lia. f_equal.
    rewrite padd_padd, ptake_app_split, padd_padd by lia.
    destruct (Z.eqb_spec l2 0) as [->|], (Z.eqb_spec l3 0) as [->|]; done.
  - assert (u64 (it_len it - (2 + l1 + l2)) = 2 ^ 64 - (2 + l1 + l2 - it_len it)) as ->.
    { unfold u64. rewrite <- (Z_mod_plus_full _ 1), Z.mod_small; lia. }
    case_b; [lia | done].
Qed.

Lemma ie_parse_roaming_consortium_cases_witness :
  let it := mk_iter 6 6 [] 111 4 [1; 0x33; 7; 8] in
  ∃ rc, ie_parse_roaming_consortium it = Ok rc ∧ rc_num_anqp rc = 1 ∧ rc_oi1_len rc = 3 ∧
    rc_oi3 rc = Some (it_data it +! 8, 2 ^ 64 - 4).
Proof.
  apply (ie_parse_roaming_consortium_cases (mk_iter 6 6 [] 111 4 [1; 0x33; 7; 8]) 1 0x33);
    [split_and!; by_eval | by_eval | reflexivity | reflexivity | discriminate].
Defined.

(** ** Hotspot 2.0 *)

(** The Hotspot 2.0 indication parser is safe on every element: the length test of
    [is_ie_wfa_ie] covers each field it reads, and what it returns fits its type. *)
Theorem ie_parse_hs20_safe it :
  elem_readable it →
  safe (λ '(v, pps, dom), 0 ≤ v < 16 ∧ 0 ≤ pps < 65536 ∧ 0 ≤ dom < 256)
    (ie_parse_hs20_indication it).
Proof.
  intros (Hok & Hlt & Hl). unfold ie_parse_hs20_indication.
  eapply safe_bind; [by apply is_ie_wfa_ie_safe |]. intros [|] Hw; [| done]. cbn [negb].
  destruct (Hw eq_refl) as (_ & _ & H57). specialize (H57 eq_refl).
  safe_step. pose proof (bit_field_range a 4 4 ltac:(lia)). safe_step. safe_step.
  destruct (a0 && a1); [done |]. case_b; [simpl; lia |].
  destruct a0; [safe_step; simpl; lia |]. destruct a1; [| simpl; lia].
  safe_step. simpl. pose proof (u8_range a0). lia.
Qed.

Lemma ie_parse_hs20_safe_witness :
  safe (λ '(v, pps, dom), 0 ≤ v < 16 ∧ 0 ≤ pps < 65536 ∧ 0 ≤ dom < 256)
    (ie_parse_hs20_indication (mk_iter 9 9 [] 221 7 [0x50; 0x6f; 0x9a; 0x10; 0x22; 1; 2])).
Proof. apply ie_parse_hs20_safe. split_and!; by_eval. Defined.
