(* ===== verification/Crypto.v ===== *)
(** * Cryptographic helpers (src/crypto.c)

    The key-wrap, SIV, ARC4, PRF and KDF code of iwd over the checksums and ciphers of
    ell, which are parameters: [Ell] lists the primitives and [EllLaws] what their
    documentation promises. *)

From stdpp Require Import base numbers list option.
From Stdlib Require Import ZArith Lia.
From S2P Require Import Prelude.

Open Scope Z_scope.

(** ** ell's primitives *)

Inductive l_checksum_type : Type :=
  | L_CHECKSUM_MD4 | L_CHECKSUM_MD5 | L_CHECKSUM_SHA1 | L_CHECKSUM_SHA256 | L_CHECKSUM_SHA384
  | L_CHECKSUM_SHA512.

#[export] Instance l_checksum_type_eq_dec : EqDecision l_checksum_type.
Proof. solve_decision. Defined.

(** [l_checksum_digest_length] *)
Definition l_checksum_digest_length (type : l_checksum_type) : Z :=
  match type with
  | L_CHECKSUM_MD4 => 16
  | L_CHECKSUM_MD5 => 16
  | L_CHECKSUM_SHA1 => 20
  | L_CHECKSUM_SHA256 => 32
  | L_CHECKSUM_SHA384 => 48
  | L_CHECKSUM_SHA512 => 64
  end.

(** A checksum or a cipher object that cannot be created is [None] (NULL).  A checksum
    maps what it was updated with since its last digest to the digest; a cipher maps its
    input to its output, or to [None] when the operation fails. *)
Class Ell : Type := {
  l_checksum_new : l_checksum_type → option (list Z → list Z);
  l_checksum_new_hmac : l_checksum_type → list Z → option (list Z → list Z);
  l_checksum_new_cmac_aes : list Z → option (list Z → list Z);
  l_cipher_new_aes : list Z → option ((list Z → list Z) * (list Z → option (list Z)));
  l_cipher_new_aes_ctr : list Z → option (list Z → list Z → option (list Z));
}.

Class EllLaws (E : Ell) : Prop := {
  checksum_ok t f d : l_checksum_new t = Some f →
    zlen (f d) = l_checksum_digest_length t ∧ bytes_ok (f d);
  hmac_ok t k f d : l_checksum_new_hmac t k = Some f →
    zlen (f d) = l_checksum_digest_length t ∧ bytes_ok (f d);
  cmac_ok k f d : l_checksum_new_cmac_aes k = Some f → zlen (f d) = 16 ∧ bytes_ok (f d);
  aes_length k e d b : l_cipher_new_aes k = Some (e, d) → zlen b = 16 → zlen (e b) = 16;
  aes_inverse k e d b : l_cipher_new_aes k = Some (e, d) → zlen b = 16 → d (e b) = Some b;
  ctr_length k c iv x y : l_cipher_new_aes_ctr k = Some c → c iv x = Some y → zlen y = zlen x;
  ctr_inverse k c iv x y : l_cipher_new_aes_ctr k = Some c → c iv x = Some y → c iv y = Some x;
}.

(** [l_checksum_get_digest(checksum, out, len out)]: the first bytes of the digest. *)
Definition digest_into (digest out : list Z) : list Z :=
  ptake digest (zlen out) ++ (out +! zlen digest).

Lemma digest_into_long d out : zlen out ≤ zlen d → digest_into d out = ptake d (zlen out).
Proof. intros. unfold digest_into. by rewrite padd_all, app_nil_r. Qed.

Definition xor_bytes (a b : list Z) : list Z := zip_with Z.lxor a b.

Definition be32_bytes (v : Z) : list Z :=
  [u8 (v / 2 ^ 24); u8 (v / 2 ^ 16); u8 (v / 2 ^ 8); u8 v].
Definition be64_bytes (v : Z) : list Z := be32_bytes (v / 2 ^ 32) ++ be32_bytes v.

Definition memeqzero (l : list Z) : bool := forallb (Z.eqb 0) l.

Section crypto.
Context `{Ell}.

(** ** MACs *)

(** The bytes left in [output]; [None] is a [false] return. *)
Definition hmac_common (type : l_checksum_type) (key data output : list Z) : option (list Z) :=
  match l_checksum_new_hmac type key with
  | None => None
  | Some hmac => Some (digest_into (hmac data) output)
  end.

Definition hmac_md5 := hmac_common L_CHECKSUM_MD5.
Definition hmac_sha1 := hmac_common L_CHECKSUM_SHA1.
Definition hmac_sha256 := hmac_common L_CHECKSUM_SHA256.
Definition hmac_sha384 := hmac_common L_CHECKSUM_SHA384.

Definition cmac_aes (key data output : list Z) : option (list Z) :=
  match l_checksum_new_cmac_aes key with
  | None => None
  | Some cmac => Some (digest_into (cmac data) output)
  end.

(** ** AES key wrap (RFC 3394) *)

Definition wrap_iv : list Z := replicate 8 0xa6.

(** [b[0] ^= L_CPU_TO_BE64(t)] *)
Definition xor_t (b0 : list Z) (t : Z) : list Z := xor_bytes b0 (be64_bytes t).

(** The 8-byte words of a buffer. *)
Fixpoint words (n : nat) (l : list Z) : list (list Z) :=
  match n with O => [] | S n' => ptake l 8 :: words n' (l +! 8) end.

(** One run of the inner loop of [aes_unwrap]; it goes through the words from the last
    to the first, so it takes them reversed.  The failure of a decryption ends it. *)
Fixpoint unwrap_pass (decrypt : list Z → option (list Z)) (t : Z) (b0 : list Z)
    (rev_words : list (list Z)) : option (list Z * list (list Z)) :=
  match rev_words with
  | [] => Some (b0, [])
  | w :: ws =>
      match decrypt (xor_t b0 t ++ w) with
      | None => None
      | Some b =>
          match unwrap_pass decrypt (t - 1) (ptake b 8) ws with
          | None => None
          | Some (b0', ws') => Some (b0', (b +! 8) :: ws')
          end
      end
  end.

(** [for (j = 5; j >= 0; j--)] *)
Fixpoint unwrap_rounds (decrypt : list Z → option (list Z)) (j : nat) (t : Z) (b0 : list Z)
    (rev_words : list (list Z)) : option (list Z * list (list Z)) :=
  match j with
  | O => Some (b0, rev_words)
  | S j' =>
      match unwrap_pass decrypt t b0 rev_words with
      | None => None
      | Some (b0, ws) => unwrap_rounds decrypt j' (t - zlen rev_words) b0 ws
      end
  end.

(** The [len - 8] bytes left in [out]; [Ok None] is a [false] return. *)
Definition aes_unwrap (kek : list Z) (inp : ptr) (len : Z) : res (option (list Z)) :=
  let n := Z.shiftr (u64 (len - 8)) 3 in
  match l_cipher_new_aes kek with
  | None => Ok None
  | Some (_, decrypt) =>
      b0 ← rdn inp 8;
      out ← rdn (inp +! 8) (n * 8);
      match unwrap_rounds decrypt 6 (n * 6) b0 (rev (words (Z.to_nat n) out)) with
      | None => Ok None
      | Some (b0, ws) =>
          if bool_decide (b0 = wrap_iv) then Ok (Some (concat (rev ws))) else Ok None
      end
  end.

Fixpoint wrap_pass (encrypt : list Z → list Z) (t : Z) (b0 : list Z) (ws : list (list Z))
    : list Z * list (list Z) :=
  match ws with
  | [] => (b0, [])
  | w :: ws' =>
      let b := encrypt (b0 ++ w) in
      let '(b0', ws'') := wrap_pass encrypt (t + 1) (xor_t (ptake b 8) t) ws' in
      (b0', (b +! 8) :: ws'')
  end.

Fixpoint wrap_rounds (encrypt : list Z → list Z) (j : nat) (t : Z) (b0 : list Z)
    (ws : list (list Z)) : list Z * list (list Z) :=
  match j with
  | O => (b0, ws)
  | S j' =>
      let '(b0, ws') := wrap_pass encrypt t b0 ws in
      wrap_rounds encrypt j' (t + zlen ws) b0 ws'
  end.

(** The [len + 8] bytes left in [out]; the cipher is made with 16 bytes of [kek], whatever the
    length of the key is. *)
Definition aes_wrap (kek : ptr) (inp : ptr) (len : Z) : res (option (list Z)) :=
  let n := Z.shiftr len 3 in
  kek ← rdn kek 16;
  match l_cipher_new_aes kek with
  | None => Ok None
  | Some (encrypt, _) =>
      r ← rdn inp len;
      let '(b0, ws) := wrap_rounds encrypt 6 1 wrap_iv (words (Z.to_nat n) r) in
      Ok (Some (b0 ++ concat ws ++ (r +! (n * 8))))
  end.

(** ** SIV mode (RFC 5297) *)

(** [val] is 16 bytes long. *)
Definition dbl (val : list Z) : list Z :=
  let c := Z.land (nth 0 val 0) 0x80 in
  let shifted :=
    (λ i, if (i <? 15)%nat
          then u8 (Z.lor (Z.shiftl (nth i val 0) 1) (Z.shiftr (nth (S i) val 0) 7))
          else u8 (Z.shiftl (nth i val 0) 1)) <$> seq 0 16 in
  if c =? 0 then shifted
  else take 15 shifted ++ [Z.lxor (nth 15 shifted 0) 0x87].

(** [xor(a, b, len b)]: the bytes of [a] after [b] ends are left alone. *)
Definition xor_into (a b : list Z) : list Z := xor_bytes a b ++ (a +! zlen b).

(** [D] after the loop over the elements that are not the last one. *)
Definition s2v_fold (cmac : list Z → list Z) (d : list Z) (iov : list (list Z)) : list Z :=
  foldl (λ d s, xor_into (dbl d) (ptake (cmac s) 16)) d iov.

Definition s2v (cmac : list Z → list Z) (ad : list (list Z)) (final : list Z) : list Z :=
  let d := s2v_fold cmac (ptake (cmac (replicate 16 0)) 16) ad in
  let n := zlen final in
  let input :=
    if 16 <=? n then ptake final (n - 16) ++ xor_into d (final +! (n - 16))
    else
      let d := xor_into (dbl d) final in
      ptake d n ++ [Z.lxor (nth (Z.to_nat n) d 0) 0x80] ++ (d +! (n + 1)) in
  ptake (cmac input) 16.

(** [v[8] &= 0x7f; v[12] &= 0x7f;] *)
Definition siv_iv (v : list Z) : list Z :=
  <[12%nat := Z.land (nth 12 v 0) 0x7f]> (<[8%nat := Z.land (nth 8 v 0) 0x7f]> v).

(** The [16 + len inp] bytes of [out]. *)
Definition aes_siv_encrypt (key inp : list Z) (ad : list (list Z)) : option (list Z) :=
  let half := zlen key / 2 in
  cmac ← l_checksum_new_cmac_aes (ptake key half);
  let v := s2v cmac ad inp in
  ctr ← l_cipher_new_aes_ctr (ptake (key +! half) half);
  ct ← ctr (siv_iv v) inp;
  Some (v ++ ct).

Definition aes_siv_decrypt (key inp : list Z) (ad : list (list Z)) : option (list Z) :=
  let half := zlen key / 2 in
  if zlen inp <? 16 then None
  else
    out ← (if zlen inp =? 16 then Some []
           else
             ctr ← l_cipher_new_aes_ctr (ptake (key +! half) half);
             ctr (siv_iv (ptake inp 16)) (inp +! 16));
    cmac ← l_checksum_new_cmac_aes (ptake key half);
    if bool_decide (s2v cmac ad out = ptake inp 16) then Some out else None.

(** ** ARC4 *)

Record arc4_ctx : Type := mk_arc4 { arc4_S : list Z; arc4_i : Z; arc4_j : Z }.

Definition swap_S (S : list Z) (i j : Z) : list Z :=
  <[Z.to_nat j := nth (Z.to_nat i) S 0]> (<[Z.to_nat i := nth (Z.to_nat j) S 0]> S).

(** The second loop of [arc4_set_key], [n] iterations from [i]. *)
Fixpoint arc4_key_loop (n : nat) (key : list Z) (S : list Z) (i j k : Z) : list Z :=
  match n with
  | O => S
  | S n' =>
      let j := Z.land (j + (nth (Z.to_nat i) S 0 + nth (Z.to_nat k) key 0)) 0xff in
      arc4_key_loop n' key (swap_S S i j) (i + 1) j ((k + 1) mod zlen key)
  end.

Definition arc4_set_key (key : list Z) : arc4_ctx :=
  mk_arc4 (arc4_key_loop 256 key (Z.of_nat <$> seq 0 256) 0 0 0) 0 0.

(** One step of the generator: the new context and the key-stream byte. *)
Definition arc4_step (ctx : arc4_ctx) : arc4_ctx * Z :=
  let i := Z.land (u8 (arc4_i ctx + 1)) 0xff in
  let j := Z.land (u8 (arc4_j ctx + nth (Z.to_nat i) (arc4_S ctx) 0)) 0xff in
  let S := swap_S (arc4_S ctx) i j in
  (mk_arc4 S i j,
   nth (Z.to_nat (Z.land (nth (Z.to_nat i) S 0 + nth (Z.to_nat j) S 0) 0xff)) S 0).

(** [arc4_crypt] with [dst] and [src] NULL, and with both. *)
Fixpoint arc4_drop (n : nat) (ctx : arc4_ctx) : arc4_ctx :=
  match n with O => ctx | S n' => arc4_drop n' (arc4_step ctx).1 end.

Fixpoint arc4_crypt (ctx : arc4_ctx) (src : list Z) : list Z :=
  match src with
  | [] => []
  | b :: src' => let '(ctx, k) := arc4_step ctx in Z.lxor b k :: arc4_crypt ctx src'
  end.

Definition arc4_skip (key : list Z) (skip : nat) (inp : list Z) : list Z :=
  arc4_crypt (arc4_drop skip (arc4_set_key key)) inp.

(** ** PRF and KDF *)

(** The chunk loop the four functions share: iteration [i] asks for at most [chunk] bytes
    of the digest of [msg i]. *)
Fixpoint digest_chunks (digest : list Z → list Z) (msg : Z → list Z) (chunk : Z) (n : nat)
    (i offset size : Z) (output : list Z) : list Z :=
  match n with
  | O => output
  | S n' =>
      let len := if chunk <? size - offset then chunk else size - offset in
      let piece := digest_into (digest (msg i)) (ptake (output +! offset) len) in
      digest_chunks digest msg chunk n' (i + 1) (offset + len) size
        (ptake output offset ++ piece ++ (output +! (offset + len)))
  end.

Definition prf_sha1 (key prefix data output : list Z) : option (list Z) :=
  hmac ← l_checksum_new_hmac L_CHECKSUM_SHA1 key;
  let size := zlen output in
  Some (digest_chunks hmac (λ i, prefix ++ [0] ++ data ++ [u8 i]) 20
          (Z.to_nat ((size + 19) / 20)) 0 0 size output).

Definition kdf_sha256 (key prefix data output : list Z) : option (list Z) :=
  hmac ← l_checksum_new_hmac L_CHECKSUM_SHA256 key;
  let size := zlen output in
  Some (digest_chunks hmac (λ i, le16_bytes (i + 1) ++ prefix ++ data ++ le16_bytes (size * 8))
          32 (Z.to_nat ((size + 31) / 32)) 0 0 size output).

Definition kdf_sha384 (key prefix data output : list Z) : option (list Z) :=
  hmac ← l_checksum_new_hmac L_CHECKSUM_SHA384 key;
  let size := zlen output in
  Some (digest_chunks hmac (λ i, le16_bytes (i + 1) ++ prefix ++ data ++ le16_bytes (size * 8))
          48 (Z.to_nat ((size + 47) / 48)) 0 0 size output).

(** ** Key hierarchy *)

(** [memcmp(a, b, n) < 0] on byte strings of the same length. *)
Fixpoint bytes_lt (a b : list Z) : bool :=
  match a, b with
  | x :: a', y :: b' => if x <? y then true else if y <? x then false else bytes_lt a' b'
  | _, _ => false
  end.

Definition min_max (a b : list Z) : list Z := if bytes_lt a b then a ++ b else b ++ a.

Definition crypto_derive_ptk (pmk label addr1 addr2 nonce1 nonce2 out_ptk : list Z)
    (type : l_checksum_type) : option (list Z) :=
  let data := min_max addr1 addr2 ++ min_max nonce1 nonce2 in
  match type with
  | L_CHECKSUM_SHA384 => kdf_sha384 pmk label data out_ptk
  | L_CHECKSUM_SHA256 => kdf_sha256 pmk label data out_ptk
  | _ => prf_sha1 pmk label data out_ptk
  end.

(** The labels, as bytes. *)
Definition label_pairwise : list Z :=
  [80; 97; 105; 114; 119; 105; 115; 101; 32; 107; 101; 121; 32; 101; 120; 112; 97; 110; 115;
   105; 111; 110].
Definition label_ft_r0 : list Z := [70; 84; 45; 82; 48].
Definition label_ft_r0n : list Z := [70; 84; 45; 82; 48; 78].
Definition label_ft_r1 : list Z := [70; 84; 45; 82; 49].
Definition label_ft_r1n : list Z := [70; 84; 45; 82; 49; 78].
Definition label_ft_ptk : list Z := [70; 84; 45; 80; 84; 75].
Definition label_ft_ptkn : list Z := [70; 84; 45; 80; 84; 75; 78].
Definition label_pmk_name : list Z := [80; 77; 75; 32; 78; 97; 109; 101].

Definition crypto_derive_pairwise_ptk (pmk addr1 addr2 nonce1 nonce2 out_ptk : list Z)
    (type : l_checksum_type) : option (list Z) :=
  crypto_derive_ptk pmk label_pairwise addr1 addr2 nonce1 nonce2 out_ptk type.

Definition ft_kdf (sha384 : bool) := if sha384 then kdf_sha384 else kdf_sha256.
Definition ft_hash (sha384 : bool) : l_checksum_type :=
  if sha384 then L_CHECKSUM_SHA384 else L_CHECKSUM_SHA256.

(** [out_pmk_r0] (its first bytes) and [out_pmk_r0_name]. *)
Definition crypto_derive_pmk_r0 (xxkey ssid : list Z) (mdid : Z) (r0khid s0khid : list Z)
    (sha384 : bool) : option (list Z * list Z) :=
  let offset := if sha384 then 48 else 32 in
  let context := [u8 (zlen ssid)] ++ ssid ++ le16_bytes mdid ++ [u8 (zlen r0khid)] ++ r0khid
                   ++ s0khid in
  output ← ft_kdf sha384 xxkey label_ft_r0 context
             (replicate (Z.to_nat (if sha384 then 64 else 48)) 0);
  sha ← l_checksum_new (ft_hash sha384);
  Some (ptake output offset, ptake (sha (label_ft_r0n ++ ptake (output +! offset) 16)) 16).

Definition crypto_derive_pmk_r1 (pmk_r0 r1khid s1khid pmk_r0_name : list Z) (sha384 : bool)
    : option (list Z * list Z) :=
  let n := if sha384 then 48 else 32 in
  let context := r1khid ++ s1khid in
  pmk_r1 ← ft_kdf sha384 (ptake pmk_r0 n) label_ft_r1 context (replicate (Z.to_nat n) 0);
  sha ← l_checksum_new (ft_hash sha384);
  Some (pmk_r1, ptake (sha (label_ft_r1n ++ pmk_r0_name ++ context)) 16).

Definition crypto_derive_ft_ptk (pmk_r1 pmk_r1_name addr1 addr2 nonce1 nonce2 : list Z)
    (sha384 : bool) (out_ptk : list Z) : option (list Z * list Z) :=
  let n := if sha384 then 48 else 32 in
  let context := nonce1 ++ nonce2 ++ addr1 ++ addr2 in
  ptk ← ft_kdf sha384 (ptake pmk_r1 n) label_ft_ptk context out_ptk;
  sha ← l_checksum_new (ft_hash sha384);
  Some (ptk, ptake (sha (pmk_r1_name ++ label_ft_ptkn ++ context)) 16).

Definition crypto_derive_pmkid (pmk addr1 addr2 out_pmkid : list Z) (use_sha256 : bool)
    : option (list Z) :=
  let data := label_pmk_name ++ addr2 ++ addr1 in
  if use_sha256 then hmac_sha256 (ptake pmk 32) data out_pmkid
  else hmac_sha1 (ptake pmk 32) data out_pmkid.
End crypto.

(** ** Ciphers *)

Definition CRYPTO_CIPHER_WEP40 : Z := 0x000fac01.
Definition CRYPTO_CIPHER_WEP104 : Z := 0x000fac05.
Definition CRYPTO_CIPHER_TKIP : Z := 0x000fac02.
Definition CRYPTO_CIPHER_CCMP : Z := 0x000fac04.
Definition CRYPTO_CIPHER_BIP : Z := 0x000fac06.

Definition crypto_cipher_key_len (cipher : Z) : Z :=
  if cipher =? CRYPTO_CIPHER_WEP40 then 5
  else if cipher =? CRYPTO_CIPHER_WEP104 then 13
  else if cipher =? CRYPTO_CIPHER_TKIP then 32
  else if cipher =? CRYPTO_CIPHER_CCMP then 16
  else if cipher =? CRYPTO_CIPHER_BIP then 16
  else 0.

Definition CRYPTO_MIN_GTK_LEN : Z := 16.
Definition CRYPTO_MAX_GTK_LEN : Z := 32.
Definition CRYPTO_MIN_IGTK_LEN : Z := 16.
Definition CRYPTO_MAX_IGTK_LEN : Z := 32.

(** ** Key wrap: unwrapping undoes wrapping *)

Lemma xor_bytes_length a b : zlen a = zlen b → zlen (xor_bytes a b) = zlen a.
Proof. unfold xor_bytes, zlen. intros. rewrite length_zip_with. lia. Qed.

Lemma xor_bytes_involutive a b : zlen a = zlen b → xor_bytes (xor_bytes a b) b = a.
Proof.
  unfold xor_bytes, zlen. revert b. induction a as [|x a IH]; intros [|y b] Hl; cbn in *; try done; try lia.
  rewrite IH by lia. by rewrite Z.lxor_assoc, Z.lxor_nilpotent, Z.lxor_0_r.
Qed.

Lemma be64_bytes_length v : zlen (be64_bytes v) = 8.
Proof. done. Qed.

Lemma xor_t_length b t : zlen b = 8 → zlen (xor_t b t) = 8.
Proof. intros. unfold xor_t. by rewrite xor_bytes_length; rewrite ?be64_bytes_length. Qed.

Lemma xor_t_involutive b t : zlen b = 8 → xor_t (xor_t b t) t = b.
Proof. intros. apply xor_bytes_involutive. by rewrite be64_bytes_length. Qed.

Lemma unwrap_pass_app dec l1 : ∀ t b l2,
  unwrap_pass dec t b (l1 ++ l2) =
    match unwrap_pass dec t b l1 with
    | None => None
    | Some (b', l1') =>
        match unwrap_pass dec (t - zlen l1) b' l2 with
        | None => None
        | Some (b'', l2') => Some (b'', l1' ++ l2')
        end
    end.
Proof.
  induction l1 as [|w l1 IH]; intros t b l2; cbn [unwrap_pass app].
  - change (zlen (@nil (list Z))) with 0. rewrite Z.sub_0_r. by destruct (unwrap_pass dec t b l2) as [[]|].
  - destruct (dec _) as [b1|]; [| done]. rewrite IH.
    destruct (unwrap_pass dec (t - 1) (ptake b1 8) l1) as [[b' l1']|]; [| done].
    rewrite zlen_cons. replace (t - 1 - zlen l1) with (t - (1 + zlen l1)) by lia.
    by destruct (unwrap_pass dec (t - (1 + zlen l1)) b' l2) as [[]|].
Qed.

Section wrap.
Context (enc : list Z → list Z) (dec : list Z → option (list Z)).
Hypothesis enc_length : ∀ b, zlen b = 16 → zlen (enc b) = 16.
Hypothesis dec_enc : ∀ b, zlen b = 16 → dec (enc b) = Some b.

Abbreviation word_ok := (λ w : list Z, zlen w = 8).

Lemma wrap_pass_ok ws : ∀ t b0,
  zlen b0 = 8 → Forall word_ok ws →
  zlen (wrap_pass enc t b0 ws).1 = 8 ∧ Forall word_ok (wrap_pass enc t b0 ws).2 ∧
  zlen (wrap_pass enc t b0 ws).2 = zlen ws.
Proof.
  induction ws as [|w ws IH]; intros t b0 Hb Hws; [done |].
  inversion_clear Hws as [|?? Hw Hws']. cbn [wrap_pass].
  assert (zlen (enc (b0 ++ w)) = 16) as He by (apply enc_length; zlia).
  destruct (IH (t + 1) (xor_t (ptake (enc (b0 ++ w)) 8) t)) as (H1 & H2 & H3);
    [apply xor_t_length; by rewrite zlen_ptake by lia | done |].
  destruct (wrap_pass enc (t + 1) _ ws) as [b' ws']; cbn in *.
  split; [done |]. split; [| rewrite !zlen_cons; lia].
  constructor; [| done]. rewrite zlen_padd by lia. lia.
Qed.

(** A pass of the unwrap loop undoes a pass of the wrap loop. *)
Lemma wrap_pass_inverse ws : ∀ t b0,
  zlen b0 = 8 → Forall word_ok ws →
  unwrap_pass dec (t + zlen ws - 1) (wrap_pass enc t b0 ws).1 (rev (wrap_pass enc t b0 ws).2)
    = Some (b0, rev ws).
Proof.
  induction ws as [|w ws IH]; intros t b0 Hb Hws; [done |].
  inversion_clear Hws as [|?? Hw Hws']. cbn [wrap_pass].
  assert (zlen (b0 ++ w) = 16) as Hbw by zlia.
  set (b := enc (b0 ++ w)). pose proof (enc_length _ Hbw) as He. fold b in He.
  assert (zlen (ptake b 8) = 8) as Ht by (rewrite zlen_ptake; lia).
  pose proof (xor_t_length (ptake b 8) t Ht) as Hx.
  specialize (IH (t + 1) _ Hx Hws').
  pose proof (wrap_pass_ok ws (t + 1) _ Hx Hws') as (_ & _ & Hl).
  destruct (wrap_pass enc (t + 1) _ ws) as [b' ws'] eqn:E; cbn [fst snd] in *.
  cbn [rev]. rewrite unwrap_pass_app, zlen_cons.
  replace (t + (1 + zlen ws) - 1) with (t + 1 + zlen ws - 1) by lia. rewrite IH.
  replace (t + 1 + zlen ws - 1 - zlen (rev ws')) with t
    by (unfold zlen in *; rewrite length_rev; lia).
  cbn [unwrap_pass]. rewrite xor_t_involutive, ptake_padd_id by done.
  unfold b. rewrite dec_enc by done. rewrite ptake_app, padd_app by done. done.
Qed.

Lemma unwrap_rounds_snoc j : ∀ t b l,
  unwrap_rounds dec (S j) t b l =
    match unwrap_rounds dec j t b l with
    | None => None
    | Some (b', l') => unwrap_pass dec (t - Z.of_nat j * zlen l) b' l'
    end.
Proof.
  induction j as [|j IH]; intros t b l.
  - cbn [unwrap_rounds]. rewrite Z.sub_0_r. by destruct (unwrap_pass dec t b l) as [[]|].
  - cbn [unwrap_rounds] in *. destruct (unwrap_pass dec t b l) as [[b' l']|] eqn:E; [| done].
    rewrite IH. destruct (unwrap_rounds dec j _ b' l') as [[b2 l2]|]; [| done].
    assert (zlen l' = zlen l) as ->.
    { clear - E. revert t b b' l' E. induction l as [|w l IH]; intros t b b' l' E; cbn in E; simplify_eq; [done |].
      destruct (dec _) as [x|]; [| done]. destruct (unwrap_pass dec (t - 1) _ l) as [[]|] eqn:E'; [| done].
      simplify_eq. rewrite !zlen_cons. f_equal. by eapply IH. }
    f_equal. lia.
Qed.

Lemma wrap_rounds_inverse j : ∀ t b0 ws,
  zlen b0 = 8 → Forall word_ok ws →
  unwrap_rounds dec j (t + Z.of_nat j * zlen ws - 1) (wrap_rounds enc j t b0 ws).1
    (rev (wrap_rounds enc j t b0 ws).2) = Some (b0, rev ws) ∧
  zlen (wrap_rounds enc j t b0 ws).1 = 8 ∧ Forall word_ok (wrap_rounds enc j t b0 ws).2 ∧
  zlen (wrap_rounds enc j t b0 ws).2 = zlen ws.
Proof.
  induction j as [|j IH]; intros t b0 ws Hb Hws; [done |].
  cbn [wrap_rounds]. pose proof (wrap_pass_inverse ws t b0 Hb Hws) as Hinv.
  pose proof (wrap_pass_ok ws t b0 Hb Hws) as (H1 & H2 & H3).
  destruct (wrap_pass enc t b0 ws) as [b1 ws1]; cbn [fst snd] in *.
  destruct (IH (t + zlen ws) b1 ws1 H1 H2) as (Hr & Hl & Hf & Hn).
  destruct (wrap_rounds enc j (t + zlen ws) b1 ws1) as [b2 ws2]; cbn [fst snd] in *.
  rewrite H3 in *. split; [| done].
  rewrite unwrap_rounds_snoc.
  replace (t + Z.of_nat (S j) * zlen ws - 1) with (t + zlen ws + Z.of_nat j * zlen ws - 1) by lia.
  rewrite Hr. replace (zlen (rev ws2)) with (zlen ws) by (unfold zlen in *; rewrite length_rev; lia).
  replace (t + zlen ws + Z.of_nat j * zlen ws - 1 - Z.of_nat j * zlen ws)
    with (t + zlen ws - 1) by lia. done.
Qed.

End wrap.

Lemma words_ok n : ∀ l, zlen l = 8 * Z.of_nat n →
  Forall (λ w : list Z, zlen w = 8) (words n l) ∧ concat (words n l) = l ∧
  zlen (words n l) = Z.of_nat n.
Proof.
  induction n as [|n IH]; intros l Hl; cbn [words concat].
  { split; [constructor |]. split; [| done]. symmetry. apply zlen_0_inv. lia. }
  destruct (IH (l +! 8)) as (H1 & H2 & H3); [rewrite zlen_padd; lia |].
  split; [constructor; [rewrite zlen_ptake; lia | done] |].
  split; [by rewrite H2, ptake_padd_id | rewrite zlen_cons; lia].
Qed.

Lemma words_concat ws : ∀ rest, Forall (λ w : list Z, zlen w = 8) ws →
  words (length ws) (concat ws ++ rest) = ws ∧ zlen (concat ws) = 8 * zlen ws.
Proof.
  intros rest Hws. induction Hws as [|w ws Hw Hws IH]; [done |].
  destruct IH as [IH1 IH2]. cbn [length words concat].
  rewrite <- app_assoc, ptake_app, padd_app, IH1 by done.
  split; [done |]. rewrite zlen_app, zlen_cons, Hw. lia.
Qed.

Lemma aes_unwrap_wrap `{EllLaws} kek x tail tail' :
  16 ≤ zlen kek → is_Some (l_cipher_new_aes (ptake kek 16)) → (8 | zlen x) → zlen x < 2 ^ 32 →
  ∃ w, aes_wrap kek (x ++ tail) (zlen x) = Ok (Some w) ∧ zlen w = zlen x + 8 ∧
       aes_unwrap (ptake kek 16) (w ++ tail') (zlen w) = Ok (Some x).
Proof.
  intros Hkl [[enc dec] Hk] [n Hn] Hlt. pose proof (zlen_nonneg x).
  assert (0 ≤ n) as Hn0 by lia.
  destruct (words_ok (Z.to_nat n) x) as (Hws & Hcat & Hlen); [lia |].
  destruct (wrap_rounds_inverse enc dec (λ b, aes_length _ _ _ b Hk) (λ b, aes_inverse _ _ _ b Hk)
    6 1 wrap_iv (words (Z.to_nat n) x) eq_refl Hws) as (Hinv & Hb & Hf & Hl).
  unfold aes_wrap. rewrite (rdn_ok kek), bind_ok by lia. rewrite Hk, rdn_app by done. rewrite bind_ok.
  assert (Z.shiftr (zlen x) 3 = n) as -> by (rewrite Z.shiftr_div_pow2, Hn by lia; apply Z.div_mul; lia).
  destruct (wrap_rounds enc 6 1 wrap_iv _) as [b0 ws]; cbn [fst snd] in *.
  rewrite padd_all by lia. rewrite app_nil_r.
  destruct (words_concat ws tail' Hf) as [Hw Hc].
  exists (b0 ++ concat ws). split; [done |].
  assert (zlen (b0 ++ concat ws) = zlen x + 8) as Hz by (rewrite zlen_app; lia).
  split; [done |]. unfold aes_unwrap. rewrite Hk, Hz, <- app_assoc, rdn_app by done.
  replace (zlen x + 8 - 8) with (zlen x) by lia. rewrite u64_small by lia.
  rewrite Z.shiftr_div_pow2, Hn by lia. change (2 ^ 3) with 8. rewrite Z.div_mul by lia.
  rewrite bind_ok, padd_app, rdn_app by lia. rewrite bind_ok.
  destruct (words_concat ws [] Hf) as [Hw' _]. rewrite app_nil_r in Hw'.
  replace (Z.to_nat n) with (length ws) by (unfold zlen in *; lia).
  rewrite Hw'. replace (n * 6) with (1 + Z.of_nat 6 * zlen (words (Z.to_nat n) x) - 1) by lia.
  rewrite Hinv, bool_decide_true by done. by rewrite rev_involutive, Hcat.
Qed.

(** C33: Key wrap round trip (RFC 3394): for a plaintext of a multiple of 8 bytes, less than
    2^32, and a kek of at least 16 bytes with the first 16 of which the cipher can be created,
    [aes_wrap], which always takes 16 bytes of the kek, yields 8 bytes more than the plaintext,
    and [aes_unwrap] of them with a key length of 16 returns the plaintext. *)
Theorem aes_wrap_roundtrip `{EllLaws} kek x tail tail' :
  16 ≤ zlen kek → is_Some (l_cipher_new_aes (ptake kek 16)) → (8 | zlen x) → zlen x < 2 ^ 32 →
  ∃ w, aes_wrap kek (x ++ tail) (zlen x) = Ok (Some w) ∧ zlen w = zlen x + 8 ∧
       aes_unwrap (ptake kek 16) (w ++ tail') (zlen w) = Ok (Some x).
Proof. apply aes_unwrap_wrap. Qed.

(** ** SIV: decryption undoes encryption *)

(** C34: AES-SIV round trip: what [aes_siv_encrypt] returns has 16 bytes more than the
    plaintext and [aes_siv_decrypt] accepts it, under the same key and associated data,
    and returns the plaintext. *)
Theorem aes_siv_roundtrip `{EllLaws} key x ad ct :
  aes_siv_encrypt key x ad = Some ct →
  zlen ct = zlen x + 16 ∧ aes_siv_decrypt key ct ad = Some x.
Proof.
  unfold aes_siv_encrypt, aes_siv_decrypt. intros Henc.
  destruct (l_checksum_new_cmac_aes _) as [cmac|] eqn:Hc; [cbn in Henc | done].
  destruct (l_cipher_new_aes_ctr _) as [ctr|] eqn:Ht; [cbn in Henc | done].
  set (v := s2v cmac ad x) in *.
  assert (zlen v = 16) as Hv.
  { unfold v, s2v. rewrite zlen_ptake_min by lia. cbv zeta.
    match goal with |- context [cmac ?m] => destruct (cmac_ok _ _ m Hc) as [-> _] end. done. }
  destruct (ctr (siv_iv v) x) as [y|] eqn:Hy; [cbn in Henc | done].
  injection Henc as <-. pose proof (ctr_length _ _ _ _ _ Ht Hy) as Hl.
  pose proof (ctr_inverse _ _ _ _ _ Ht Hy) as Hi.
  rewrite zlen_app, Hv, Hl. split; [lia |]. pose proof (zlen_nonneg x).
  destruct (Z.ltb_spec (16 + zlen x) 16); [lia |].
  rewrite ptake_app, padd_app by done.
  destruct (Z.eqb_spec (16 + zlen x) 16) as [E0|E0]; cbn.
  - assert (x = []) as -> by (apply zlen_0_inv; lia). by rewrite bool_decide_true.
  - rewrite Hi. cbn. by rewrite bool_decide_true.
Qed.

(** ** ARC4 *)

Fixpoint arc4_stream (ctx : arc4_ctx) (n : nat) : list Z :=
  match n with O => [] | S n' => (arc4_step ctx).2 :: arc4_stream (arc4_step ctx).1 n' end.

Lemma arc4_crypt_stream ctx src :
  arc4_crypt ctx src = zip_with Z.lxor src (arc4_stream ctx (length src)).
Proof.
  revert ctx. induction src as [|b src IH]; intros ctx; [done |].
  cbn. destruct (arc4_step ctx) as [ctx' k]. by rewrite IH.
Qed.

Lemma arc4_stream_length ctx n : length (arc4_stream ctx n) = n.
Proof. revert ctx. induction n; intros; cbn; auto. Qed.

(** ARC4 is its own inverse: applying [arc4_skip] twice with the same key and the
    same number of skipped bytes gives the data back, whatever the key. *)
Theorem arc4_skip_involutive key skip x :
  arc4_skip key skip (arc4_skip key skip x) = x ∧
  zlen (arc4_skip key skip x) = zlen x.
Proof.
  unfold arc4_skip. generalize (arc4_drop skip (arc4_set_key key)). intros ctx.
  rewrite !arc4_crypt_stream.
  assert (length (zip_with Z.lxor x (arc4_stream ctx (length x))) = length x) as Hl.
  { rewrite length_zip_with, arc4_stream_length. lia. }
  rewrite Hl. split; [| unfold zlen; by rewrite Hl].
  apply (xor_bytes_involutive x). unfold zlen. by rewrite arc4_stream_length.
Qed.

(** ** Key derivation *)

(** The reference: the first [size] bytes of the digests put one after the other. *)
Definition digests (digest : list Z → list Z) (msg : Z → list Z) (i : Z) (n : nat) : list Z :=
  concat ((λ k, digest (msg (i + Z.of_nat k))) <$> seq 0 n).

Lemma digests_cons digest msg i n :
  digests digest msg i (S n) = digest (msg i) ++ digests digest msg (i + 1) n.
Proof.
  unfold digests. cbn [seq]. rewrite fmap_cons. cbn [concat]. f_equal; [by rewrite Z.add_0_r |].
  rewrite <- fmap_S_seq, <- list_fmap_compose. f_equal. apply list_fmap_ext. intros ? k _.
  cbn. do 2 f_equal. lia.
Qed.

Lemma digest_chunks_spec digest msg chunk : 0 < chunk → (∀ m, zlen (digest m) = chunk) →
  ∀ n i pre rest,
  (Z.of_nat n - 1) * chunk < zlen rest ≤ Z.of_nat n * chunk →
  digest_chunks digest msg chunk n i (zlen pre) (zlen pre + zlen rest) (pre ++ rest) =
    pre ++ ptake (digests digest msg i n) (zlen rest).
Proof.
  intros Hc Hd n. induction n as [|n IH]; intros i pre rest Hn; cbn [digest_chunks].
  { assert (rest = []) as -> by (apply zlen_0_inv; pose proof (zlen_nonneg rest); lia). done. }
  rewrite digests_cons.
  replace (zlen pre + zlen rest - zlen pre) with (zlen rest) by lia.
  rewrite padd_app by done. pose proof (zlen_nonneg rest). pose proof (zlen_nonneg pre).
  set (len := if chunk <? zlen rest then chunk else zlen rest).
  assert (0 ≤ len ≤ zlen rest ∧ len ≤ chunk) as [Hl Hl'] by (unfold len; case_b; lia).
  assert (digest_into (digest (msg i)) (ptake rest len) = ptake (digest (msg i)) len) as ->.
  { unfold digest_into. rewrite zlen_ptake, padd_all, app_nil_r by (rewrite ?zlen_ptake, ?Hd; lia). done. }
  rewrite ptake_app, padd_app_ge by lia. replace (zlen pre + len - zlen pre) with len by lia.
  specialize (IH (i + 1) (pre ++ ptake (digest (msg i)) len) (rest +! len)).
  rewrite zlen_app, zlen_ptake, zlen_padd in IH by (rewrite ?Hd; lia).
  replace (zlen pre + len + (zlen rest - len)) with (zlen pre + zlen rest) in IH by lia.
  rewrite <- app_assoc in IH. rewrite IH.
  - rewrite <- app_assoc. f_equal. unfold len in *. destruct (Z.ltb_spec chunk (zlen rest)).
    + rewrite ptake_all by (rewrite Hd; lia).
      replace (zlen rest) with (chunk + (zlen rest - chunk)) at 2 by lia.
      rewrite ptake_app_split, ptake_app, padd_app by (rewrite ?Hd; lia). done.
    + replace (zlen rest - zlen rest) with 0 by lia.
      change (ptake (digests digest msg (i + 1) n) 0) with (@nil Z). rewrite app_nil_r.
      unfold ptake. rewrite take_app_le; [done |]. specialize (Hd (msg i)). unfold zlen in *. lia.
  - unfold len. case_b; lia.
Qed.

Lemma chunk_count size chunk : 0 ≤ size → 0 < chunk →
  let n := Z.of_nat (Z.to_nat ((size + (chunk - 1)) / chunk)) in
  (n - 1) * chunk < size ≤ n * chunk.
Proof.
  intros Hs Hc. cbv zeta. rewrite Z2Nat.id by (apply Z.div_pos; lia).
  pose proof (Z_div_mod_eq_full (size + (chunk - 1)) chunk).
  pose proof (Z.mod_pos_bound (size + (chunk - 1)) chunk Hc). nia.
Qed.

Lemma digest_chunks_output digest msg chunk output :
  0 < chunk → (∀ m, zlen (digest m) = chunk) →
  let n := Z.to_nat ((zlen output + (chunk - 1)) / chunk) in
  digest_chunks digest msg chunk n 0 0 (zlen output) output =
    ptake (digests digest msg 0 n) (zlen output).
Proof.
  intros Hc Hd. pose proof (zlen_nonneg output).
  apply (digest_chunks_spec digest msg chunk Hc Hd _ 0 [] output).
  by apply chunk_count.
Qed.

Lemma kdf_sha256_digests `{EllLaws} key prefix data out hmac :
  l_checksum_new_hmac L_CHECKSUM_SHA256 key = Some hmac →
  kdf_sha256 key prefix data out =
    Some (ptake (digests hmac (λ i, le16_bytes (i + 1) ++ prefix ++ data
                                      ++ le16_bytes (zlen out * 8)) 0
                   (Z.to_nat ((zlen out + 31) / 32))) (zlen out)).
Proof.
  intros Hk. unfold kdf_sha256. rewrite Hk. cbn. f_equal.
  apply (digest_chunks_output hmac _ 32); [lia |]. intros m. by apply (hmac_ok _ _ _ _ Hk).
Qed.

(** The 802.11 KDF and PRF compute what they are defined to: the first bytes of the
    concatenation of the HMACs of the counted messages, the counter starting at 1 in
    16 bits (KDF) and at 0 in 8 bits (PRF), for every output size. *)
Theorem kdf_prf_spec `{EllLaws} key prefix data out :
  (∀ hmac, l_checksum_new_hmac L_CHECKSUM_SHA256 key = Some hmac →
     kdf_sha256 key prefix data out =
       Some (ptake (digests hmac (λ i, le16_bytes (i + 1) ++ prefix ++ data
                                         ++ le16_bytes (zlen out * 8)) 0
                      (Z.to_nat ((zlen out + 31) / 32))) (zlen out))) ∧
  (∀ hmac, l_checksum_new_hmac L_CHECKSUM_SHA384 key = Some hmac →
     kdf_sha384 key prefix data out =
       Some (ptake (digests hmac (λ i, le16_bytes (i + 1) ++ prefix ++ data
                                         ++ le16_bytes (zlen out * 8)) 0
                      (Z.to_nat ((zlen out + 47) / 48))) (zlen out))) ∧
  (∀ hmac, l_checksum_new_hmac L_CHECKSUM_SHA1 key = Some hmac →
     prf_sha1 key prefix data out =
       Some (ptake (digests hmac (λ i, prefix ++ [0] ++ data ++ [u8 i]) 0
                      (Z.to_nat ((zlen out + 19) / 20))) (zlen out))).
Proof.
  split_and!; intros hmac Hk; [by apply kdf_sha256_digests | ..];
    unfold kdf_sha384, prf_sha1; rewrite Hk; cbn; f_equal.
  - apply (digest_chunks_output hmac _ 48); [lia |]. intros m. by apply (hmac_ok _ _ _ _ Hk).
  - apply (digest_chunks_output hmac _ 20); [lia |]. intros m. by apply (hmac_ok _ _ _ _ Hk).
Qed.

Lemma bytes_lt_asym a b : bytes_lt a b = true → bytes_lt b a = false.
Proof.
  revert b. induction a as [|x a IH]; intros [|y b]; cbn; try done.
  destruct (Z.ltb_spec x y), (Z.ltb_spec y x); try done; try lia. apply IH.
Qed.

Lemma bytes_lt_total a b :
  zlen a = zlen b → bytes_lt a b = false → bytes_lt b a = false → a = b.
Proof.
  unfold zlen. revert b. induction a as [|x a IH]; intros [|y b]; cbn; try done; try lia.
  destruct (Z.ltb_spec x y), (Z.ltb_spec y x); try done; try lia.
  intros Hl H1 H2. f_equal; [lia |]. apply IH; [lia | done..].
Qed.

Lemma min_max_comm a b : zlen a = zlen b → min_max a b = min_max b a.
Proof.
  intros Hl. unfold min_max. destruct (bytes_lt a b) eqn:E1, (bytes_lt b a) eqn:E2; try done.
  - apply bytes_lt_asym in E1. congruence.
  - by rewrite (bytes_lt_total a b).
Qed.

Lemma pairwise_ptk_comm `{Ell} pmk aa spa anonce snonce out type :
  zlen aa = zlen spa → zlen anonce = zlen snonce →
  crypto_derive_pairwise_ptk pmk aa spa anonce snonce out type =
    crypto_derive_pairwise_ptk pmk spa aa snonce anonce out type.
Proof.
  intros. unfold crypto_derive_pairwise_ptk, crypto_derive_ptk.
  by rewrite (min_max_comm aa), (min_max_comm anonce).
Qed.

(** Both ends of the 4-way handshake derive the same PTK: the derivation does not
    depend on which address or which nonce comes first. *)
Theorem crypto_derive_ptk_symmetric `{Ell} pmk aa spa anonce snonce out type :
  zlen aa = zlen spa → zlen anonce = zlen snonce →
  crypto_derive_pairwise_ptk pmk aa spa anonce snonce out type =
    crypto_derive_pairwise_ptk pmk spa aa snonce anonce out type.
Proof. apply pairwise_ptk_comm. Qed.

(** ** A concrete instance

    Not cryptography: a checksum that depends on the key and on every byte, and
    permutations for ciphers.  It shows that the laws can hold and evaluates the
    definitions on concrete frames. *)

Definition toy_sum (l : list Z) : Z := foldl (λ acc b, (acc * 31 + b + 7) mod 65521) 1 l.

Definition toy_digest (key : list Z) (n : Z) (data : list Z) : list Z :=
  (λ i, u8 (toy_sum (key ++ data) / Z.of_nat (S i) + Z.of_nat i)) <$> seq 0 (Z.to_nat n).

#[local] Instance toy_ell : Ell := {
  l_checksum_new t := Some (toy_digest [] (l_checksum_digest_length t));
  l_checksum_new_hmac t k := Some (toy_digest k (l_checksum_digest_length t));
  l_checksum_new_cmac_aes k := Some (toy_digest k 16);
  l_cipher_new_aes k := Some (λ b, rev b, λ b, Some (rev b));
  l_cipher_new_aes_ctr k := Some (λ iv x, Some (Z.lxor 0x5a <$> x));
}.

Lemma toy_digest_ok key n d : 0 ≤ n → zlen (toy_digest key n d) = n ∧ bytes_ok (toy_digest key n d).
Proof.
  intros. unfold toy_digest, zlen. rewrite length_fmap, length_seq. split; [lia |].
  apply Forall_fmap, Forall_true. intros i. apply u8_range.
Qed.

#[local] Instance toy_ell_laws : EllLaws toy_ell.
Proof.
  split; cbn; intros; simplify_eq.
  - destruct t; by apply toy_digest_ok.
  - destruct t; by apply toy_digest_ok.
  - by apply toy_digest_ok.
  - unfold zlen in *. by rewrite length_rev.
  - by rewrite rev_involutive.
  - unfold zlen. by rewrite length_fmap.
  - f_equal. rewrite <- list_fmap_compose. rewrite <- (list_fmap_id x) at 2.
    apply list_fmap_ext. intros ? b _. cbn. by rewrite <- Z.lxor_assoc, Z.lxor_nilpotent, Z.lxor_0_l.
Qed.

Lemma aes_wrap_roundtrip_witness :
  ∃ w, aes_wrap (replicate 16 1) ([1; 2; 3; 4; 5; 6; 7; 8] ++ []) (zlen [1; 2; 3; 4; 5; 6; 7; 8])
         = Ok (Some w) ∧ zlen w = zlen [1; 2; 3; 4; 5; 6; 7; 8] + 8 ∧
       aes_unwrap (replicate 16 1) (w ++ []) (zlen w) = Ok (Some [1; 2; 3; 4; 5; 6; 7; 8]).
Proof. apply (aes_wrap_roundtrip (replicate 16 1)); [by_eval | done | by exists 1 | by_eval]. Defined.

Lemma aes_siv_roundtrip_witness :
  zlen (default [] (aes_siv_encrypt (replicate 32 9) [1; 2; 3] [[4]; [5; 6]])) = zlen [1; 2; 3] + 16 ∧
  aes_siv_decrypt (replicate 32 9)
    (default [] (aes_siv_encrypt (replicate 32 9) [1; 2; 3] [[4]; [5; 6]])) [[4]; [5; 6]]
    = Some [1; 2; 3].
Proof. apply aes_siv_roundtrip. reflexivity. Defined.

Lemma kdf_prf_spec_witness :
  kdf_sha256 [1] [2] [3] (replicate 40 0) =
    Some (ptake (digests (toy_digest [1] 32) (λ i, le16_bytes (i + 1) ++ [2] ++ [3]
             ++ le16_bytes (zlen (replicate 40 0) * 8)) 0
             (Z.to_nat ((zlen (replicate 40 0) + 31) / 32))) (zlen (replicate 40 0))).
Proof. destruct (kdf_prf_spec [1] [2] [3] (replicate 40 0)) as [H _]. by apply H. Defined.

Lemma crypto_derive_ptk_symmetric_witness :
  crypto_derive_pairwise_ptk [7] [1; 2] [1; 3] [9; 9] [9; 8] (replicate 48 0) L_CHECKSUM_SHA1 =
    crypto_derive_pairwise_ptk [7] [1; 3] [1; 2] [9; 8] [9; 9] (replicate 48 0) L_CHECKSUM_SHA1.
Proof. by apply crypto_derive_ptk_symmetric. Defined.
