(* ===== verification/Kdf.v ===== *)
(** * Key derivation: HKDF, PRF+, PBKDF2 and passphrases (src/crypto.c, ell/cert-crypto.c)

    The feedback-mode functions [hkdf_expand] and [prf_plus_sha1], the extraction step
    [hkdf_extract], the check of a passphrase and the PSK of a network, which ell's
    [l_cert_pkcs5_pbkdf2] stretches.  The references are the recurrences of RFC 5869, RFC 4851
    and RFC 8018. *)

From stdpp Require Import base numbers list option.
From Stdlib Require Import ZArith Lia.
From S2P Require Import Prelude Crypto.

Open Scope Z_scope.

Section kdf.
Context `{Ell}.

(** ** HKDF *)

(** The digest left in [out]; [None] is a [false] return.  A NULL key is [dlen] zeros. *)
Definition hkdf_extract (type : l_checksum_type) (key : option (list Z)) (args : list (list Z))
    : option (list Z) :=
  let dlen := l_checksum_digest_length type in
  let k := match key with Some key => key | None => replicate (Z.to_nat dlen) 0 end in
  hmac ← l_checksum_new_hmac type k;
  let out := ptake (hmac (concat args)) dlen in
  if zlen out =? dlen then Some out else None.

(** The [while (out_len > 0)] of [hkdf_expand]: [t] is the block before, [T(0)] is empty; the
    bytes written are returned. *)
Fixpoint hkdf_loop (fuel : nat) (hmac : list Z → list Z) (info t : list Z) (count out_len : Z)
    : res (list Z) :=
  match fuel with
  | O => Diverge
  | S fuel' =>
      if 0 <? out_len then
        let block := ptake (hmac (t ++ info ++ [count])) out_len in
        rest ← hkdf_loop fuel' hmac info block (u8 (count + 1)) (out_len - zlen block);
        Ok (block ++ rest)
      else Ok []
  end.

(** [out_len] bytes.  Every digest has at least one byte, so the fuel is enough. *)
Definition hkdf_expand (type : l_checksum_type) (key info : list Z) (out_len : Z)
    : res (option (list Z)) :=
  match l_checksum_new_hmac type key with
  | None => Ok None
  | Some hmac => Some <$> hkdf_loop (S (Z.to_nat out_len)) hmac info [] 1 out_len
  end.

(** ** PRF+ *)

Definition SHA1_MAC_LEN : Z := 20.

(** [for (counter = 1;; counter++)]: it is left after the block that makes [size] 0. *)
Fixpoint prf_plus_loop (fuel : nat) (hmac : list Z → list Z) (label seed t : list Z)
    (counter size : Z) : res (list Z) :=
  match fuel with
  | O => Diverge
  | S fuel' =>
      let len := if SHA1_MAC_LEN <? size then SHA1_MAC_LEN else size in
      let block := ptake (hmac (t ++ label ++ seed ++ [counter] ++ [0; 0])) len in
      if size - len =? 0 then Ok block
      else
        rest ← prf_plus_loop fuel' hmac label seed block (u8 (counter + 1)) (size - len);
        Ok (block ++ rest)
  end.

Definition prf_plus_sha1 (key label seed : list Z) (size : Z) : res (option (list Z)) :=
  match l_checksum_new_hmac L_CHECKSUM_SHA1 key with
  | None => Ok None
  | Some hmac => Some <$> prf_plus_loop (S (Z.to_nat size)) hmac label seed [] 1 size
  end.

(** ** PBKDF2 *)

(** The loop over [j]: [u] is the block of the iteration before, [out] the block accumulated;
    [None] when the digest has another length than [h_len]. *)
Fixpoint pbkdf2_inner (n : nat) (hmac : list Z → list Z) (h_len : Z) (u out : list Z)
    : option (list Z) :=
  match n with
  | O => Some out
  | S n' =>
      let u := ptake (hmac u) h_len in
      if zlen u =? h_len then pbkdf2_inner n' hmac h_len u (xor_bytes out (ptake u (zlen out)))
      else None
  end.

(** The loop over the blocks. *)
Fixpoint pbkdf2_outer (fuel : nat) (hmac : list Z → list Z) (h_len : Z) (salt : list Z)
    (iter_count : nat) (i dk_len : Z) : res (option (list Z)) :=
  match fuel with
  | O => Diverge
  | S fuel' =>
      if dk_len =? 0 then Ok (Some [])
      else
        let block_len := if dk_len <? h_len then dk_len else h_len in
        match pbkdf2_inner iter_count hmac h_len (salt ++ be32_bytes i)
                (replicate (Z.to_nat block_len) 0) with
        | None => Ok None
        | Some block =>
            rest ← pbkdf2_outer fuel' hmac h_len salt iter_count (u32 (i + 1)) (dk_len - block_len);
            Ok (match rest with Some rest => Some (block ++ rest) | None => None end)
        end
  end.

Definition l_cert_pkcs5_pbkdf2 (type : l_checksum_type) (password salt : list Z) (iter_count : nat)
    (dk_len : Z) : res (option (list Z)) :=
  match type with
  | L_CHECKSUM_MD4 | L_CHECKSUM_MD5 => Ok None
  | _ =>
      match l_checksum_new_hmac type password with
      | None => Ok None
      | Some hmac =>
          pbkdf2_outer (S (Z.to_nat dk_len)) hmac (l_checksum_digest_length type) salt iter_count 1
            dk_len
      end
  end.

(** ** Passphrases *)

(** [l_ascii_table[c] & L_ASCII_PRINT] *)
Definition l_ascii_isprint (c : Z) : bool := (0x20 <=? c) && (c <=? 0x7e).

(** A C string is the bytes before its terminating zero. *)
Definition crypto_passphrase_is_valid (passphrase : list Z) : bool :=
  let passphrase_len := zlen passphrase in
  if (passphrase_len <? 8) || (63 <? passphrase_len) then false
  else forallb l_ascii_isprint passphrase.

(** [Ok None] is [-ENOKEY]. *)
Definition crypto_psk_from_passphrase (passphrase ssid : option (list Z)) : res (option (list Z)) :=
  match passphrase, ssid with
  | None, _ => Err EINVAL
  | Some _, None => Err EINVAL
  | Some passphrase, Some ssid =>
      if negb (crypto_passphrase_is_valid passphrase) then Err ERANGE
      else if (zlen ssid =? 0) || (32 <? zlen ssid) then Err ERANGE
      else l_cert_pkcs5_pbkdf2 L_CHECKSUM_SHA1 passphrase ssid 4096 32
  end.
End kdf.

Definition crypto_cipher_tk_bits (cipher : Z) : Z := crypto_cipher_key_len cipher * 8.

(** ** Feedback mode *)

(** The blocks of a function in feedback mode: [T(0)] is empty, [T(i)] is the digest of the
    message made of [i] and [T(i - 1)]. *)
Fixpoint feedback (digest : list Z → list Z) (msg : list Z → Z → list Z) (i : nat) : list Z :=
  match i with
  | O => []
  | S i' => digest (msg (feedback digest msg i') (Z.of_nat i))
  end.

(** The blocks [T(i+1)], ..., [T(i+n)]. *)
Definition feedback_blocks (digest : list Z → list Z) (msg : list Z → Z → list Z) (i n : nat) : list Z :=
  concat (feedback digest msg <$> seq (S i) n).

Lemma feedback_blocks_S digest msg i n :
  feedback_blocks digest msg i (S n) = feedback digest msg (S i) ++ feedback_blocks digest msg (S i) n.
Proof. done. Qed.

Lemma ptake_app_lt {A} (l k : list A) n : n ≤ zlen l → ptake (l ++ k) n = ptake l n.
Proof. intros. unfold ptake, zlen in *. rewrite take_app_le by lia. done. Qed.

Lemma feedback_blocks_zlen f msg d i n : (∀ m, zlen (f m) = d) → zlen (feedback_blocks f msg i n) = Z.of_nat n * d.
Proof.
  intros Hd. revert i. induction n as [|n IH]; intros i; [done |].
  rewrite feedback_blocks_S, zlen_app, IH. cbn [feedback]. rewrite Hd. lia.
Qed.

Section feedback.
Variables (digest : list Z → list Z) (dlen : Z).
Hypotheses (Hdlen : 0 < dlen) (Hd : ∀ m, zlen (digest m) = dlen).

(** The message of [hkdf_expand] and the one of [prf_plus_sha1]. *)
Definition hkdf_msg (info t : list Z) (i : Z) : list Z := t ++ info ++ [i].
Definition prf_plus_msg (label seed t : list Z) (i : Z) : list Z := t ++ label ++ seed ++ [i] ++ [0; 0].

Lemma hkdf_loop_spec info n : ∀ fuel i len,
  (Z.to_nat len < fuel)%nat → 0 ≤ len ≤ Z.of_nat n * dlen → (i + n ≤ 255)%nat →
  hkdf_loop fuel digest info (feedback digest (hkdf_msg info) i) (u8 (Z.of_nat (S i))) len =
    Ok (ptake (feedback_blocks digest (hkdf_msg info) i n) len).
Proof.
  induction n as [|n IH]; intros [|fuel] i len Hf Hl Hi; try lia; cbn [hkdf_loop];
    destruct (Z.ltb_spec 0 len) as [Hp|Hp]; try lia; try (by replace len with 0 by lia).
  rewrite feedback_blocks_S. set (T := feedback digest (hkdf_msg info) (S i)).
  assert (digest (feedback digest (hkdf_msg info) i ++ info ++ [u8 (Z.of_nat (S i))]) = T) as ->.
  { unfold T. cbn [feedback]. unfold hkdf_msg at 3. by rewrite u8_small by lia. }
  assert (HT : zlen T = dlen) by apply Hd.
  destruct (Z.le_gt_cases len dlen).
  - rewrite zlen_ptake, ptake_app_lt, Z.sub_diag by lia.
    destruct fuel; [lia |]. cbn. by rewrite app_nil_r.
  - rewrite ptake_all, ptake_app_ge, HT by lia.
    replace (u8 (u8 (Z.of_nat (S i)) + 1)) with (u8 (Z.of_nat (S (S i)))).
    { unfold T. by rewrite IH by lia. }
    unfold u8. rewrite Z.add_mod_idemp_l by lia. f_equal. lia.
Qed.

Lemma prf_plus_loop_spec label seed n : dlen = SHA1_MAC_LEN → ∀ fuel i size,
  (Z.to_nat size < fuel)%nat → 0 ≤ size ≤ Z.of_nat (S n) * dlen → (i + n < 255)%nat →
  prf_plus_loop fuel digest label seed (feedback digest (prf_plus_msg label seed) i)
      (u8 (Z.of_nat (S i))) size =
    Ok (ptake (feedback_blocks digest (prf_plus_msg label seed) i (S n)) size).
Proof.
  intros E. induction n as [|n IH]; intros [|fuel] i size Hf Hl Hi; try lia; cbn [prf_plus_loop];
    rewrite <- E, feedback_blocks_S; set (T := feedback digest (prf_plus_msg label seed) (S i));
    (assert (digest (feedback digest (prf_plus_msg label seed) i ++ label ++ seed
                     ++ [u8 (Z.of_nat (S i))] ++ [0; 0]) = T) as ->
       by (unfold T; cbn [feedback]; unfold prf_plus_msg at 3; by rewrite u8_small by lia));
    (assert (HT : zlen T = dlen) by apply Hd); destruct (Z.ltb_spec dlen size); try lia.
  1, 3: rewrite Z.sub_diag, ptake_app_lt by lia; done.
  destruct (Z.eqb_spec (size - dlen) 0); [lia |].
  rewrite ptake_all, ptake_app_ge, HT by lia.
  replace (u8 (u8 (Z.of_nat (S i)) + 1)) with (u8 (Z.of_nat (S (S i)))).
  { unfold T. by rewrite IH by lia. }
  unfold u8. rewrite Z.add_mod_idemp_l by lia. f_equal. lia.
Qed.
End feedback.

Lemma digest_length_pos t : 0 < l_checksum_digest_length t.
Proof. by destruct t. Qed.

Lemma hkdf_extract_hmac `{EllLaws} type key args hmac : l_checksum_new_hmac type key = Some hmac →
  hkdf_extract type (Some key) args = Some (hmac (concat args)).
Proof.
  intros Hk. unfold hkdf_extract. rewrite Hk. cbn [mbind option_bind].
  destruct (hmac_ok _ _ _ (concat args) Hk) as [Hl _]. by rewrite ptake_all, Hl, Z.eqb_refl by lia.
Qed.

Lemma hkdf_expand_blocks `{EllLaws} type key info len hmac :
  l_checksum_new_hmac type key = Some hmac → 0 ≤ len ≤ 255 * l_checksum_digest_length type →
  hkdf_expand type key info len = Ok (Some (ptake (feedback_blocks hmac (hkdf_msg info) 0 255) len)).
Proof.
  intros Hk Hl. unfold hkdf_expand. rewrite Hk.
  assert (Hd : ∀ m, zlen (hmac m) = l_checksum_digest_length type) by (intros; by apply (hmac_ok _ _ _ _ Hk)).
  pose proof (hkdf_loop_spec hmac _ (digest_length_pos type) Hd info 255 (S (Z.to_nat len)) 0 len) as El.
  cbn [feedback] in El. change (u8 (Z.of_nat 1)) with 1 in El. by rewrite El by lia.
Qed.

(** ** PBKDF2 *)

Section pbkdf2.
Variables (prf : list Z → list Z) (h_len : Z).
Hypotheses (Hh : 0 < h_len) (Hprf : ∀ m, zlen (prf m) = h_len).

(** RFC 8018: the exclusive or of the [c] iterates of the PRF on the salt and the block index. *)
Fixpoint pbkdf2_U (u : list Z) (c : nat) : list Z :=
  match c with
  | O => replicate (Z.to_nat h_len) 0
  | S c' => xor_bytes (prf u) (pbkdf2_U (prf u) c')
  end.

Definition pbkdf2_F (salt : list Z) (c : nat) (i : Z) : list Z := pbkdf2_U (salt ++ be32_bytes i) c.

Lemma xor_bytes_zlen a b : zlen (xor_bytes a b) = Z.min (zlen a) (zlen b).
Proof. unfold xor_bytes, zlen. rewrite length_zip_with. lia. Qed.

Lemma xor_bytes_assoc a b c : xor_bytes a (xor_bytes b c) = xor_bytes (xor_bytes a b) c.
Proof.
  unfold xor_bytes. revert b c. induction a as [|x a IH]; intros [|y b] [|z c]; cbn; try done.
  by rewrite Z.lxor_assoc, IH.
Qed.

Lemma xor_bytes_take n a b : take n (xor_bytes a b) = xor_bytes (take n a) (take n b).
Proof.
  unfold xor_bytes. revert a b. induction n as [|n IH]; intros [|x a] [|y b]; cbn; try done. by rewrite IH.
Qed.

Lemma xor_bytes_zero a n : zlen a ≤ Z.of_nat n → xor_bytes a (replicate n 0) = a.
Proof.
  unfold xor_bytes, zlen. revert n. induction a as [|x a IH]; intros [|n] Hn; cbn in *; try done; try lia.
  by rewrite Z.lxor_0_r, IH by lia.
Qed.

Lemma xor_bytes_zero_l a n : zlen a ≤ Z.of_nat n → xor_bytes (replicate n 0) a = a.
Proof.
  unfold xor_bytes, zlen. revert n. induction a as [|x a IH]; intros [|n] Hn; cbn in *; try done; try lia.
  by rewrite IH by lia.
Qed.

Lemma pbkdf2_U_length c : ∀ u, zlen (pbkdf2_U u c) = h_len.
Proof.
  induction c as [|c IH]; intros u; cbn [pbkdf2_U]; [apply zlen_replicate; lia |].
  rewrite xor_bytes_zlen, IH, Hprf. lia.
Qed.

Lemma pbkdf2_inner_spec c : ∀ u out, zlen out ≤ h_len →
  pbkdf2_inner c prf h_len u out = Some (xor_bytes out (ptake (pbkdf2_U u c) (zlen out))).
Proof.
  induction c as [|c IH]; intros u out Ho; cbn [pbkdf2_inner pbkdf2_U].
  - unfold ptake. rewrite take_replicate, xor_bytes_zero by (unfold zlen in *; lia). done.
  - rewrite (ptake_all (prf u)), Hprf, Z.eqb_refl by (rewrite Hprf; lia).
    assert (zlen (xor_bytes out (ptake (prf u) (zlen out))) = zlen out) as E.
    { rewrite xor_bytes_zlen, zlen_ptake by (rewrite Hprf; znn; lia). lia. }
    rewrite IH by (rewrite E; done). rewrite E, <- xor_bytes_assoc. unfold ptake at 3.
    by rewrite xor_bytes_take.
Qed.

Lemma pbkdf2_outer_spec salt c n : ∀ fuel i len,
  (Z.to_nat len < fuel)%nat → 0 ≤ len ≤ Z.of_nat n * h_len → 0 ≤ i → i + Z.of_nat n < 2 ^ 32 →
  pbkdf2_outer fuel prf h_len salt c i len =
    Ok (Some (ptake (concat ((λ k, pbkdf2_F salt c (i + Z.of_nat k)) <$> seq 0 n)) len)).
Proof.
  induction n as [|n IH]; intros [|fuel] i len Hf Hl Hi Hw; try lia; cbn [pbkdf2_outer];
    (destruct (Z.eqb_spec len 0) as [->|Hp]; [done |]); [lia |].
  set (bl := if len <? h_len then len else h_len).
  assert (Hbl : 0 < bl ≤ h_len ∧ bl ≤ len ∧ len - bl ≤ Z.of_nat n * h_len)
    by (unfold bl; destruct (Z.ltb_spec len h_len); nia).
  rewrite pbkdf2_inner_spec by (rewrite zlen_replicate; lia). rewrite zlen_replicate by lia.
  fold (pbkdf2_F salt c i).
  rewrite xor_bytes_zero_l by (rewrite zlen_ptake; unfold pbkdf2_F; rewrite ?pbkdf2_U_length; lia).
  rewrite u32_small, IH by lia. cbn [mbind res_bind].
  do 2 f_equal. cbn [seq]. rewrite fmap_cons, <- fmap_S_seq, <- list_fmap_compose, Z.add_0_r. cbn [concat].
  assert (HF : zlen (pbkdf2_F salt c i) = h_len) by apply pbkdf2_U_length.
  assert (Hs : (λ k, pbkdf2_F salt c (i + 1 + Z.of_nat k)) <$> seq 0 n
               = (λ k, pbkdf2_F salt c (i + Z.of_nat k)) ∘ S <$> seq 0 n).
  { apply list_fmap_ext. intros ? k _. cbn. f_equal. lia. }
  rewrite Hs. unfold bl. destruct (Z.ltb_spec len h_len).
  - rewrite Z.sub_diag, ptake_app_lt by lia. by rewrite app_nil_r.
  - by rewrite (ptake_all (pbkdf2_F _ _ _)), ptake_app_ge, HF by (rewrite ?HF; lia).
Qed.
End pbkdf2.

(** ** What the functions compute *)

(** [hkdf_expand] is the expansion step of RFC 5869 and [prf_plus_sha1] the T-PRF of
    RFC 4851: the first bytes of the concatenation of the blocks [T(1)], [T(2)], ..., each the
    HMAC of the block before with the fixed parts and the counter.  This holds up to the 255
    blocks of which the counter byte is a counter, and the functions return for every such
    size. *)
Theorem hkdf_prf_plus_spec `{EllLaws} type key info label seed len :
  (∀ hmac, l_checksum_new_hmac type key = Some hmac →
     0 ≤ len ≤ 255 * l_checksum_digest_length type →
     hkdf_expand type key info len =
       Ok (Some (ptake (feedback_blocks hmac (λ t i, t ++ info ++ [i]) 0 255) len))) ∧
  (∀ hmac, l_checksum_new_hmac L_CHECKSUM_SHA1 key = Some hmac → 0 ≤ len ≤ 255 * 20 →
     prf_plus_sha1 key label seed len =
       Ok (Some (ptake (feedback_blocks hmac (λ t i, t ++ label ++ seed ++ [i; 0; 0]) 0 255) len))).
Proof.
  split; intros hmac Hk Hl; [by apply hkdf_expand_blocks |].
  unfold prf_plus_sha1. rewrite Hk.
  assert (Hd : ∀ m, zlen (hmac m) = 20) by (intros; by apply (hmac_ok _ _ _ _ Hk)).
  pose proof (prf_plus_loop_spec hmac 20 eq_refl Hd label seed 254 eq_refl (S (Z.to_nat len)) 0 len) as Ep.
  cbn [feedback] in Ep. change (u8 (Z.of_nat 1)) with 1 in Ep. by rewrite Ep by lia.
Qed.

Lemma pbkdf2_blocks `{EllLaws} type password salt c len hmac :
  type ≠ L_CHECKSUM_MD4 → type ≠ L_CHECKSUM_MD5 → l_checksum_new_hmac type password = Some hmac → 0 ≤ len < 2 ^ 32 - 2 →
  let h := l_checksum_digest_length type in
  l_cert_pkcs5_pbkdf2 type password salt c len =
    Ok (Some (ptake (concat ((λ k, pbkdf2_F hmac h salt c (1 + Z.of_nat k))
                             <$> seq 0 (Z.to_nat ((len + (h - 1)) / h)))) len)).
Proof.
  intros Ht4 Ht Hk Hl h. unfold l_cert_pkcs5_pbkdf2. rewrite Hk.
  assert (Hd : ∀ m, zlen (hmac m) = h) by (intros; by apply (hmac_ok _ _ _ _ Hk)).
  assert (Hh : 0 < h) by apply digest_length_pos.
  pose proof (chunk_count len h ltac:(lia) Hh) as Hn. cbv zeta in Hn.
  destruct type; [done | done | ..]; apply pbkdf2_outer_spec; try done; try lia; nia.
Qed.

(** The PSK of a network is PBKDF2 (RFC 8018) with HMAC-SHA1 of the passphrase, the SSID as
    salt, 4096 iterations and 32 bytes: the first block and the first 12 bytes of the second.
    Every other input is refused: a NULL argument with [-EINVAL], a passphrase that is not 8
    to 63 printable ASCII characters or an SSID that is not 1 to 32 bytes long with
    [-ERANGE]. *)
Theorem crypto_psk_from_passphrase_spec `{EllLaws} passphrase ssid hmac :
  l_checksum_new_hmac L_CHECKSUM_SHA1 passphrase = Some hmac →
  crypto_psk_from_passphrase (Some passphrase) (Some ssid) =
    (if bool_decide (8 ≤ zlen passphrase ≤ 63 ∧ Forall (λ c, 32 ≤ c ≤ 126) passphrase
                     ∧ 1 ≤ zlen ssid ≤ 32)
     then Ok (Some (pbkdf2_F hmac 20 ssid 4096 1 ++ ptake (pbkdf2_F hmac 20 ssid 4096 2) 12))
     else Err ERANGE) ∧
  crypto_psk_from_passphrase None (Some ssid) = Err EINVAL ∧
  crypto_psk_from_passphrase (Some passphrase) None = Err EINVAL.
Proof.
  intros Hk. split_and!; [| done..]. unfold crypto_psk_from_passphrase.
  assert (crypto_passphrase_is_valid passphrase =
          bool_decide (8 ≤ zlen passphrase ≤ 63 ∧ Forall (λ c, 32 ≤ c ≤ 126) passphrase)) as ->.
  { apply eq_bool_prop_intro. rewrite bool_decide_spec. unfold crypto_passphrase_is_valid, l_ascii_isprint.
    rewrite Is_true_true. destruct (Z.ltb_spec (zlen passphrase) 8), (Z.ltb_spec 63 (zlen passphrase)); cbn [orb];
      [split; [done | lia].. |].
    rewrite forallb_forall, Forall_forall. setoid_rewrite <- list_elem_of_In.
    setoid_rewrite andb_true_iff. setoid_rewrite Z.leb_le. tauto. }
  destruct (bool_decide_reflect (8 ≤ zlen passphrase ≤ 63 ∧ Forall (λ c, 32 ≤ c ≤ 126) passphrase)) as [Hp|Hp];
    cbn [negb]; [| by rewrite bool_decide_false by tauto].
  pose proof (zlen_nonneg ssid). destruct (Z.eqb_spec (zlen ssid) 0); cbn [orb];
    [by rewrite bool_decide_false by lia |].
  destruct (Z.ltb_spec 32 (zlen ssid)); [by rewrite bool_decide_false by lia |].
  rewrite bool_decide_true by (destruct Hp; split_and!; done || lia).
  rewrite (pbkdf2_blocks L_CHECKSUM_SHA1 passphrase ssid 4096 32 hmac) by (done || lia). do 2 f_equal.
  change (Z.to_nat _) with 2%nat. cbn [seq fmap list_fmap concat l_checksum_digest_length].
  assert (HF : zlen (pbkdf2_F hmac 20 ssid 4096 (1 + Z.of_nat 0)) = 20).
  { apply pbkdf2_U_length; [done |]. intros m. by apply (hmac_ok _ _ _ _ Hk). }
  by rewrite app_nil_r, ptake_app_ge, HF by (rewrite HF; lia).
Qed.

(** ** Witnesses *)

#[local] Existing Instance toy_ell.
#[local] Existing Instance toy_ell_laws.

Lemma hkdf_prf_plus_spec_witness :
  hkdf_expand L_CHECKSUM_SHA256 [1; 2] [3] 80 =
    Ok (Some (ptake (feedback_blocks (toy_digest [1; 2] 32) (λ t i, t ++ [3] ++ [i]) 0 255) 80)).
Proof.
  destruct (hkdf_prf_plus_spec L_CHECKSUM_SHA256 [1; 2] [3] [] [] 80) as [H _].
  apply H; [done |]. by_eval.
Defined.

Lemma crypto_psk_from_passphrase_spec_witness :
  crypto_psk_from_passphrase (Some [49; 50; 51; 52; 53; 54; 55; 56]) (Some [105; 119; 100]) =
    Ok (Some (pbkdf2_F (toy_digest [49; 50; 51; 52; 53; 54; 55; 56] 20) 20 [105; 119; 100] 4096 1
              ++ ptake (pbkdf2_F (toy_digest [49; 50; 51; 52; 53; 54; 55; 56] 20) 20 [105; 119; 100] 4096 2) 12)).
Proof.
  destruct (crypto_psk_from_passphrase_spec [49; 50; 51; 52; 53; 54; 55; 56] [105; 119; 100]
              (toy_digest [49; 50; 51; 52; 53; 54; 55; 56] 20)) as [H _]; [reflexivity |].
  rewrite H, bool_decide_true; [reflexivity | by_eval].
Defined.
