(* ===== verification/Handshake.v ===== *)
(** * The handshake state (src/handshake.c, src/handshake.h)

    The keys, nonces, elements and flags of one security association, the derivation of
    the PTK, the key-size tables, the KDE search and the installation of keys. *)

From stdpp Require Import base numbers list option.
From Stdlib Require Import ZArith Lia.
From S2P Require Import Prelude IeTlv IeRsn IeMisc Crypto.

Open Scope Z_scope.

(** ** State

    The arrays hold the bytes of the C arrays: [pmk] 64, the nonces 32, [ptk] 136,
    [pmk_r0], [pmk_r1], [fils_ft] and [r0khid] 48, the names and [pmkid] 16, [ssid] and
    [gtk] 32, [gtk_rsc], [r1khid] and the addresses 6.  A pointer is [None] when it is
    NULL; of [settings_8021x] only whether it is NULL matters here. *)
Record handshake_state : Type := mk_hs {
  hs_ifindex : Z;
  hs_spa : list Z;
  hs_aa : list Z;
  hs_authenticator_ie : option (list Z);
  hs_supplicant_ie : option (list Z);
  hs_mde : option (list Z);
  hs_fte : option (list Z);
  hs_pairwise_cipher : Z;
  hs_group_cipher : Z;
  hs_group_management_cipher : Z;
  hs_akm_suite : Z;
  hs_pmk : list Z;
  hs_pmk_len : Z;
  hs_snonce : list Z;
  hs_anonce : list Z;
  hs_ptk : list Z;
  hs_pmk_r0 : list Z;
  hs_pmk_r0_name : list Z;
  hs_pmk_r1 : list Z;
  hs_pmk_r1_name : list Z;
  hs_pmkid : list Z;
  hs_fils_ft : list Z;
  hs_fils_ft_len : Z;
  hs_settings_8021x : bool;
  hs_have_snonce : bool;
  hs_ptk_complete : bool;
  hs_wpa_ie : bool;
  hs_osen_ie : bool;
  hs_have_pmk : bool;
  hs_mfp : bool;
  hs_have_anonce : bool;
  hs_have_pmkid : bool;
  hs_authenticator : bool;
  hs_wait_for_gtk : bool;
  hs_no_rekey : bool;
  hs_support_fils : bool;
  hs_ssid : list Z;
  hs_ssid_len : Z;
  hs_passphrase : option (list Z);
  hs_r0khid : list Z;
  hs_r0khid_len : Z;
  hs_r1khid : list Z;
  hs_gtk : list Z;
  hs_gtk_rsc : list Z;
  hs_proto_version : Z;
  hs_gtk_index : Z;
  hs_support_ip_allocation : bool;
  hs_client_ip_addr : Z;
  hs_subnet_mask : Z;
  hs_go_ip_addr : Z;
}.

#[export] Instance hs_eta : Eta handshake_state := λ s,
  mk_hs (hs_ifindex s) (hs_spa s) (hs_aa s) (hs_authenticator_ie s) (hs_supplicant_ie s)
    (hs_mde s) (hs_fte s) (hs_pairwise_cipher s) (hs_group_cipher s)
    (hs_group_management_cipher s) (hs_akm_suite s) (hs_pmk s) (hs_pmk_len s) (hs_snonce s)
    (hs_anonce s) (hs_ptk s) (hs_pmk_r0 s) (hs_pmk_r0_name s) (hs_pmk_r1 s) (hs_pmk_r1_name
    s) (hs_pmkid s) (hs_fils_ft s) (hs_fils_ft_len s) (hs_settings_8021x s) (hs_have_snonce
    s) (hs_ptk_complete s) (hs_wpa_ie s) (hs_osen_ie s) (hs_have_pmk s) (hs_mfp s)
    (hs_have_anonce s) (hs_have_pmkid s) (hs_authenticator s) (hs_wait_for_gtk s)
    (hs_no_rekey s) (hs_support_fils s) (hs_ssid s) (hs_ssid_len s) (hs_passphrase s)
    (hs_r0khid s) (hs_r0khid_len s) (hs_r1khid s) (hs_gtk s) (hs_gtk_rsc s)
    (hs_proto_version s) (hs_gtk_index s) (hs_support_ip_allocation s) (hs_client_ip_addr s)
    (hs_subnet_mask s) (hs_go_ip_addr s).

#[export] Instance set_hs_ifindex : SetterOf hs_ifindex.
Proof. derive_setter. Defined.
#[export] Instance set_hs_spa : SetterOf hs_spa.
Proof. derive_setter. Defined.
#[export] Instance set_hs_aa : SetterOf hs_aa.
Proof. derive_setter. Defined.
#[export] Instance set_hs_authenticator_ie : SetterOf hs_authenticator_ie.
Proof. derive_setter. Defined.
#[export] Instance set_hs_supplicant_ie : SetterOf hs_supplicant_ie.
Proof. derive_setter. Defined.
#[export] Instance set_hs_mde : SetterOf hs_mde.
Proof. derive_setter. Defined.
#[export] Instance set_hs_fte : SetterOf hs_fte.
Proof. derive_setter. Defined.
#[export] Instance set_hs_pairwise_cipher : SetterOf hs_pairwise_cipher.
Proof. derive_setter. Defined.
#[export] Instance set_hs_group_cipher : SetterOf hs_group_cipher.
Proof. derive_setter. Defined.
#[export] Instance set_hs_group_management_cipher : SetterOf hs_group_management_cipher.
Proof. derive_setter. Defined.
#[export] Instance set_hs_akm_suite : SetterOf hs_akm_suite.
Proof. derive_setter. Defined.
#[export] Instance set_hs_pmk : SetterOf hs_pmk.
Proof. derive_setter. Defined.
#[export] Instance set_hs_pmk_len : SetterOf hs_pmk_len.
Proof. derive_setter. Defined.
#[export] Instance set_hs_snonce : SetterOf hs_snonce.
Proof. derive_setter. Defined.
#[export] Instance set_hs_anonce : SetterOf hs_anonce.
Proof. derive_setter. Defined.
#[export] Instance set_hs_ptk : SetterOf hs_ptk.
Proof. derive_setter. Defined.
#[export] Instance set_hs_pmk_r0 : SetterOf hs_pmk_r0.
Proof. derive_setter. Defined.
#[export] Instance set_hs_pmk_r0_name : SetterOf hs_pmk_r0_name.
Proof. derive_setter. Defined.
#[export] Instance set_hs_pmk_r1 : SetterOf hs_pmk_r1.
Proof. derive_setter. Defined.
#[export] Instance set_hs_pmk_r1_name : SetterOf hs_pmk_r1_name.
Proof. derive_setter. Defined.
#[export] Instance set_hs_pmkid : SetterOf hs_pmkid.
Proof. derive_setter. Defined.
#[export] Instance set_hs_fils_ft : SetterOf hs_fils_ft.
Proof. derive_setter. Defined.
#[export] Instance set_hs_fils_ft_len : SetterOf hs_fils_ft_len.
Proof. derive_setter. Defined.
#[export] Instance set_hs_settings_8021x : SetterOf hs_settings_8021x.
Proof. derive_setter. Defined.
#[export] Instance set_hs_have_snonce : SetterOf hs_have_snonce.
Proof. derive_setter. Defined.
#[export] Instance set_hs_ptk_complete : SetterOf hs_ptk_complete.
Proof. derive_setter. Defined.
#[export] Instance set_hs_wpa_ie : SetterOf hs_wpa_ie.
Proof. derive_setter. Defined.
#[export] Instance set_hs_osen_ie : SetterOf hs_osen_ie.
Proof. derive_setter. Defined.
#[export] Instance set_hs_have_pmk : SetterOf hs_have_pmk.
Proof. derive_setter. Defined.
#[export] Instance set_hs_mfp : SetterOf hs_mfp.
Proof. derive_setter. Defined.
#[export] Instance set_hs_have_anonce : SetterOf hs_have_anonce.
Proof. derive_setter. Defined.
#[export] Instance set_hs_have_pmkid : SetterOf hs_have_pmkid.
Proof. derive_setter. Defined.
#[export] Instance set_hs_authenticator : SetterOf hs_authenticator.
Proof. derive_setter. Defined.
#[export] Instance set_hs_wait_for_gtk : SetterOf hs_wait_for_gtk.
Proof. derive_setter. Defined.
#[export] Instance set_hs_no_rekey : SetterOf hs_no_rekey.
Proof. derive_setter. Defined.
#[export] Instance set_hs_support_fils : SetterOf hs_support_fils.
Proof. derive_setter. Defined.
#[export] Instance set_hs_ssid : SetterOf hs_ssid.
Proof. derive_setter. Defined.
#[export] Instance set_hs_ssid_len : SetterOf hs_ssid_len.
Proof. derive_setter. Defined.
#[export] Instance set_hs_passphrase : SetterOf hs_passphrase.
Proof. derive_setter. Defined.
#[export] Instance set_hs_r0khid : SetterOf hs_r0khid.
Proof. derive_setter. Defined.
#[export] Instance set_hs_r0khid_len : SetterOf hs_r0khid_len.
Proof. derive_setter. Defined.
#[export] Instance set_hs_r1khid : SetterOf hs_r1khid.
Proof. derive_setter. Defined.
#[export] Instance set_hs_gtk : SetterOf hs_gtk.
Proof. derive_setter. Defined.
#[export] Instance set_hs_gtk_rsc : SetterOf hs_gtk_rsc.
Proof. derive_setter. Defined.
#[export] Instance set_hs_proto_version : SetterOf hs_proto_version.
Proof. derive_setter. Defined.
#[export] Instance set_hs_gtk_index : SetterOf hs_gtk_index.
Proof. derive_setter. Defined.
#[export] Instance set_hs_support_ip_allocation : SetterOf hs_support_ip_allocation.
Proof. derive_setter. Defined.
#[export] Instance set_hs_client_ip_addr : SetterOf hs_client_ip_addr.
Proof. derive_setter. Defined.
#[export] Instance set_hs_subnet_mask : SetterOf hs_subnet_mask.
Proof. derive_setter. Defined.
#[export] Instance set_hs_go_ip_addr : SetterOf hs_go_ip_addr.
Proof. derive_setter. Defined.

Inductive handshake_event : Type :=
  | HANDSHAKE_EVENT_STARTED
  | HANDSHAKE_EVENT_SETTING_KEYS
  | HANDSHAKE_EVENT_REKEY_FAILED
  | HANDSHAKE_EVENT_FAILED (reason_code : Z)
  | HANDSHAKE_EVENT_EAP_NOTIFY (event : Z).

(** What the handshake and the EAPoL state machine do to the outside, in order. *)
Inductive effect : Type :=
  | Tx (dst : list Z) (proto : Z) (frame : list Z) (noencrypt : bool)
  | Event (e : handshake_event)
  | InstallTk (tk : option (list Z)) (cipher : Z)
  | InstallGtk (key_index : Z) (gtk rsc : list Z) (cipher : Z)
  | InstallIgtk (key_index : Z) (igtk ipn : list Z) (cipher : Z)
  | InstallPmk (pmk : list Z)
  | RekeyOffload (kek kck : option (list Z)) (replay_counter : Z)
  | ErpCacheAdd (session_id emsk ssid : list Z).

#[export] Instance handshake_event_eq_dec : EqDecision handshake_event.
Proof. solve_decision. Defined.
#[export] Instance effect_eq_dec : EqDecision effect.
Proof. solve_decision. Defined.

(** The callbacks netdev registers ([__handshake_set_install_tk_func] and the like): a hook
    that is [false] is a NULL function pointer. *)
Record hooks : Type := mk_hooks {
  hook_install_tk : bool;
  hook_install_gtk : bool;
  hook_install_igtk : bool;
  hook_event : bool;
  hook_tx_packet : bool;
  hook_rekey_offload : bool;
  hook_install_pmk : bool;
}.

(** ** Machine helpers *)

(** [__builtin_popcount] on 32 bits. *)
Definition popcount (z : Z) : Z :=
  zlen (filter (λ i, Z.testbit z (Z.of_nat i) = true) (seq 0 32)).

Definition has_any (mask flags : Z) : bool := negb (Z.land mask flags =? 0).

Definition ie_rsn_cipher_suite_to_cipher (suite : Z) : Z :=
  if suite =? IE_RSN_CIPHER_SUITE_CCMP then CRYPTO_CIPHER_CCMP
  else if suite =? IE_RSN_CIPHER_SUITE_TKIP then CRYPTO_CIPHER_TKIP
  else if suite =? IE_RSN_CIPHER_SUITE_WEP40 then CRYPTO_CIPHER_WEP40
  else if suite =? IE_RSN_CIPHER_SUITE_WEP104 then CRYPTO_CIPHER_WEP104
  else if suite =? IE_RSN_CIPHER_SUITE_BIP then CRYPTO_CIPHER_BIP
  else 0.

Definition l_get_be32 (p : ptr) : res Z :=
  a ← rd p 0; b ← rd p 1; c ← rd p 2; d ← rd p 3;
  Ok (a * 2 ^ 24 + b * 2 ^ 16 + c * 2 ^ 8 + d).

(** Calls whose result is only tested for an error. *)
Definition ok_or_none {A} (m : res A) : res (option A) :=
  match m with
  | Ok a => Ok (Some a)
  | Err _ => Ok None
  | Fault => Fault
  | Diverge => Diverge
  end.

(** ** Setters *)

Definition handshake_state_set_supplicant_address (s : handshake_state) (spa : ptr) :=
  b ← rdn spa 6; Ok (s <| hs_spa := b |>).
Definition handshake_state_set_authenticator_address (s : handshake_state) (aa : ptr) :=
  b ← rdn aa 6; Ok (s <| hs_aa := b |>).
Definition handshake_state_set_authenticator (s : handshake_state) (auth : bool) :=
  s <| hs_authenticator := auth |>.

Definition handshake_state_set_pmk (s : handshake_state) (pmk : ptr) (pmk_len : Z)
    : res handshake_state :=
  b ← rdn pmk pmk_len;
  p ← put (hs_pmk s) 0 b;
  Ok (s <| hs_pmk := p |> <| hs_pmk_len := pmk_len |> <| hs_have_pmk := true |>).

Definition handshake_state_set_ptk (s : handshake_state) (ptk : ptr) (ptk_len : Z)
    : res handshake_state :=
  b ← rdn ptk ptk_len;
  p ← put (hs_ptk s) 0 b;
  Ok (s <| hs_ptk := p |> <| hs_ptk_complete := true |>).

Definition handshake_state_set_ssid (s : handshake_state) (ssid : ptr) (ssid_len : Z)
    : res handshake_state :=
  b ← rdn ssid ssid_len;
  p ← put (hs_ssid s) 0 b;
  Ok (s <| hs_ssid := p |> <| hs_ssid_len := ssid_len |>).

(** [l_memdup(ie, ie[1] + 2)] *)
Definition memdup_ie (ie : ptr) : res (list Z) := l ← rd ie 1; rdn ie (l + 2).

Definition handshake_state_set_mde (s : handshake_state) (mde : option ptr)
    : res handshake_state :=
  match mde with
  | None => Ok (s <| hs_mde := None |>)
  | Some p => b ← memdup_ie p; Ok (s <| hs_mde := Some b |>)
  end.

Definition handshake_state_set_fte (s : handshake_state) (fte : option ptr)
    : res handshake_state :=
  match fte with
  | None => Ok (s <| hs_fte := None |>)
  | Some p => b ← memdup_ie p; Ok (s <| hs_fte := Some b |>)
  end.

Definition handshake_state_set_kh_ids (s : handshake_state) (r0khid : ptr) (r0khid_len : Z)
    (r1khid : ptr) : res handshake_state :=
  b ← rdn r0khid r0khid_len;
  r0 ← put (hs_r0khid s) 0 b;
  r1 ← rdn r1khid 6;
  Ok (s <| hs_r0khid := r0 |> <| hs_r0khid_len := r0khid_len |> <| hs_r1khid := r1 |>).

Definition handshake_state_set_no_rekey (s : handshake_state) (no_rekey : bool) :=
  s <| hs_no_rekey := no_rekey |>.

Definition handshake_state_set_fils_ft (s : handshake_state) (fils_ft : ptr) (len : Z)
    : res handshake_state :=
  b ← rdn fils_ft len;
  p ← put (hs_fils_ft s) 0 b;
  Ok (s <| hs_fils_ft := p |> <| hs_fils_ft_len := u8 len |>).

(** [proto_version] is two bits wide. *)
Definition handshake_state_set_protocol_version (s : handshake_state) (v : Z) :=
  s <| hs_proto_version := v mod 4 |>.

(** [nonce] is what [get_nonce] writes. *)
Definition handshake_state_new_snonce (s : handshake_state) (nonce : list Z) :=
  s <| hs_snonce := nonce |> <| hs_have_snonce := true |>.
Definition handshake_state_new_anonce (s : handshake_state) (nonce : list Z) :=
  s <| hs_anonce := nonce |> <| hs_have_anonce := true |>.
Definition handshake_state_set_anonce (s : handshake_state) (anonce : ptr)
    : res handshake_state :=
  b ← rdn anonce 32; Ok (s <| hs_anonce := b |>).
Definition handshake_state_override_pairwise_cipher (s : handshake_state) (pairwise : Z) :=
  s <| hs_pairwise_cipher := pairwise |>.
Definition handshake_state_set_pmkid (s : handshake_state) (pmkid : ptr) : res handshake_state :=
  b ← rdn pmkid 16; Ok (s <| hs_pmkid := b |> <| hs_have_pmkid := true |>).

(** ** The negotiated suites *)

Definition handshake_state_setup_own_ciphers (s : handshake_state) (info : ie_rsn_info)
    : handshake_state * bool :=
  if negb (popcount (akm_suites info) =? 1) then (s, false)
  else
    let s := s <| hs_akm_suite := akm_suites info |> <| hs_group_cipher := group_cipher info |>
               <| hs_group_management_cipher := group_management_cipher info |> in
    (if hs_osen_ie s then s else s <| hs_mfp := mfpc info |>, true).

(** [junk] is the uninitialised [struct ie_rsn_info] on the stack. *)
Definition parse_own_ie (junk : ie_rsn_info) (s : handshake_state) (ie : ptr) (len : Z)
    : res (option ie_rsn_info) :=
  if hs_wpa_ie s then
    r ← ok_or_none (ie_parse_wpa_from_data ie len (Some junk));
    Ok (match r with Some (Some i) => Some i | _ => None end)
  else if hs_osen_ie s then ok_or_none (ie_parse_osen_from_data ie len)
  else ok_or_none (ie_parse_rsne_from_data ie len).

Definition handshake_state_set_authenticator_ie (junk : ie_rsn_info) (s : handshake_state)
    (ie : ptr) : res (handshake_state * bool) :=
  copy ← memdup_ie ie;
  len ← rd ie 1;
  wpa ← is_ie_wpa_ie (ie +! 2) len;
  osen ← is_ie_wfa_ie (ie +! 2) len IE_WFA_OI_OSEN;
  let s := s <| hs_authenticator_ie := Some copy |> <| hs_wpa_ie := wpa |>
             <| hs_osen_ie := osen |> in
  if negb (hs_authenticator s) then Ok (s, true)
  else
    r ← parse_own_ie junk s ie (len + 2);
    match r with
    | None => Ok (s, false)
    | Some info => Ok (handshake_state_setup_own_ciphers s info)
    end.

Definition handshake_state_set_supplicant_ie (junk : ie_rsn_info) (s : handshake_state)
    (ie : ptr) : res (handshake_state * bool) :=
  copy ← memdup_ie ie;
  len ← rd ie 1;
  wpa ← is_ie_wpa_ie (ie +! 2) len;
  osen ← is_ie_wfa_ie (ie +! 2) len IE_WFA_OI_OSEN;
  let s := s <| hs_supplicant_ie := Some copy |> <| hs_wpa_ie := wpa |>
             <| hs_osen_ie := osen |> in
  r ← parse_own_ie junk s ie (len + 2);
  match r with
  | None => Ok (s, false)
  | Some info =>
      if negb (popcount (pairwise_ciphers info) =? 1) then Ok (s, false)
      else
        let s := s <| hs_pairwise_cipher := pairwise_ciphers info |> in
        if hs_authenticator s then Ok (s, true)
        else Ok (handshake_state_setup_own_ciphers s info)
  end.

(** ** Key sizes *)

(** PTK, KCK and KEK sizes. *)
Definition handshake_get_key_sizes (s : handshake_state) : option (Z * Z * Z) :=
  let tk := crypto_cipher_key_len (ie_rsn_cipher_suite_to_cipher (hs_pairwise_cipher s)) in
  let akm := hs_akm_suite s in
  let sizes :=
    if (akm =? IE_RSN_AKM_SUITE_8021X_SUITE_B_SHA256) || (akm =? IE_RSN_AKM_SUITE_FT_OVER_8021X_SHA384)
    then Some (24, 32)
    else if akm =? IE_RSN_AKM_SUITE_OWE then
      if hs_pmk_len s =? 32 then Some (16, 16)
      else if hs_pmk_len s =? 48 then Some (24, 32)
      else if hs_pmk_len s =? 64 then Some (32, 32)
      else None
    else if (akm =? IE_RSN_AKM_SUITE_FILS_SHA256) || (akm =? IE_RSN_AKM_SUITE_FT_OVER_FILS_SHA256)
    then Some (0, 32)
    else if (akm =? IE_RSN_AKM_SUITE_FILS_SHA384) || (akm =? IE_RSN_AKM_SUITE_FT_OVER_FILS_SHA384)
    then Some (0, 64)
    else Some (16, 16) in
  match sizes with
  | None => None
  | Some (kck, kek) =>
      let ptk := kck + kek + tk in
      let ptk := if akm =? IE_RSN_AKM_SUITE_FT_OVER_FILS_SHA256 then ptk + 32
                 else if akm =? IE_RSN_AKM_SUITE_FT_OVER_FILS_SHA384 then ptk + 56
                 else ptk in
      Some (ptk, kck, kek)
  end.

Definition handshake_state_get_ptk_size (s : handshake_state) : Z :=
  match handshake_get_key_sizes s with Some (ptk, _, _) => ptk | None => 0 end.

Definition handshake_state_get_kck (s : handshake_state) : ptr :=
  if has_any (hs_akm_suite s) IE_RSN_AKM_SUITE_FT_OVER_FILS_SHA256 then hs_ptk s +! 48
  else if has_any (hs_akm_suite s) IE_RSN_AKM_SUITE_FT_OVER_FILS_SHA384 then hs_ptk s +! 80
  else hs_ptk s.

Definition handshake_state_get_kck_len (s : handshake_state) : Z :=
  if has_any (hs_akm_suite s) IE_RSN_AKM_SUITE_FT_OVER_FILS_SHA384 then 24 else 16.

Definition handshake_state_get_kek_len (s : handshake_state) : Z :=
  match handshake_get_key_sizes s with Some (_, _, kek) => kek | None => 0 end.

Definition handshake_state_get_kek (s : handshake_state) : option ptr :=
  match handshake_get_key_sizes s with
  | Some (_, kck, _) => Some (hs_ptk s +! kck)
  | None => None
  end.

Definition handshake_get_tk (s : handshake_state) : option ptr :=
  match handshake_get_key_sizes s with
  | Some (_, kck, kek) => Some (hs_ptk s +! (kck + kek))
  | None => None
  end.

Section handshake.
Context `{Ell}.

(** ** PTK derivation *)

Definition FT_AKMS : Z :=
  Z.lor (Z.lor IE_RSN_AKM_SUITE_FT_OVER_8021X IE_RSN_AKM_SUITE_FT_USING_PSK)
        IE_RSN_AKM_SUITE_FT_OVER_SAE_SHA256.
Definition FT_FILS_AKMS : Z :=
  Z.lor IE_RSN_AKM_SUITE_FT_OVER_FILS_SHA256 IE_RSN_AKM_SUITE_FT_OVER_FILS_SHA384.
Definition SHA256_AKMS : Z :=
  Z.lor (Z.lor (Z.lor (Z.lor (Z.lor (Z.lor IE_RSN_AKM_SUITE_8021X_SHA256
    IE_RSN_AKM_SUITE_PSK_SHA256) IE_RSN_AKM_SUITE_SAE_SHA256)
    IE_RSN_AKM_SUITE_FT_OVER_SAE_SHA256) IE_RSN_AKM_SUITE_FILS_SHA256)
    IE_RSN_AKM_SUITE_FT_OVER_FILS_SHA256) IE_RSN_AKM_SUITE_OSEN.

Definition ptk_checksum_type (s : handshake_state) : option l_checksum_type :=
  let akm := hs_akm_suite s in
  if has_any akm IE_RSN_AKM_SUITE_OWE then
    if hs_pmk_len s =? 32 then Some L_CHECKSUM_SHA256
    else if hs_pmk_len s =? 48 then Some L_CHECKSUM_SHA384
    else if hs_pmk_len s =? 64 then Some L_CHECKSUM_SHA512
    else None
  else if has_any akm (Z.lor IE_RSN_AKM_SUITE_FILS_SHA384 IE_RSN_AKM_SUITE_FT_OVER_FILS_SHA384)
  then Some L_CHECKSUM_SHA384
  else if has_any akm SHA256_AKMS then Some L_CHECKSUM_SHA256
  else Some L_CHECKSUM_SHA1.

(** Write the first [ptk_size] bytes of [s->ptk]. *)
Definition ptk_region (s : handshake_state) (ptk_size : Z) : res (list Z) := rdn (hs_ptk s) ptk_size.

(** The fast-transition branch.  The outputs of a derivation that fails are left as they
    were; [junk_mdid] is the uninitialised [mdid], used when the MDE does not parse. *)
Definition derive_ft_ptk (junk_mdid : Z) (s : handshake_state) (ptk_size : Z)
    : res (handshake_state * bool) :=
  let akm := hs_akm_suite s in
  let sha384 := has_any akm IE_RSN_AKM_SUITE_FT_OVER_FILS_SHA384 in
  xxkey ← (if akm =? IE_RSN_AKM_SUITE_FT_OVER_8021X then rdn (hs_pmk s +! 32) 32
           else if has_any akm FT_FILS_AKMS then rdn (hs_fils_ft s) (hs_fils_ft_len s)
           else rdn (hs_pmk s) 32);
  match hs_mde s with
  | None => Fault
  | Some mde =>
      l ← rd mde 1;
      r ← ok_or_none (ie_parse_mobility_domain_from_data mde (l + 2));
      let mdid := match r with Some (m, _, _) => m | None => junk_mdid end in
      ssid ← rdn (hs_ssid s) (hs_ssid_len s);
      r0khid ← rdn (hs_r0khid s) (hs_r0khid_len s);
      match crypto_derive_pmk_r0 xxkey ssid mdid r0khid (hs_spa s) sha384 with
      | None => Ok (s, false)
      | Some (pmk_r0, pmk_r0_name) =>
          p ← put (hs_pmk_r0 s) 0 pmk_r0;
          let s := s <| hs_pmk_r0 := p |> <| hs_pmk_r0_name := pmk_r0_name |> in
          match crypto_derive_pmk_r1 (hs_pmk_r0 s) (hs_r1khid s) (hs_spa s) (hs_pmk_r0_name s)
                  sha384 with
          | None => Ok (s, false)
          | Some (pmk_r1, pmk_r1_name) =>
              p ← put (hs_pmk_r1 s) 0 pmk_r1;
              let s := s <| hs_pmk_r1 := p |> <| hs_pmk_r1_name := pmk_r1_name |> in
              out ← ptk_region s ptk_size;
              match crypto_derive_ft_ptk (hs_pmk_r1 s) (hs_pmk_r1_name s) (hs_aa s) (hs_spa s)
                      (hs_snonce s) (hs_anonce s) sha384 out with
              | None => Ok (s, false)
              | Some (ptk, _) =>
                  p ← put (hs_ptk s) 0 ptk;
                  Ok (s <| hs_ptk := p |>, true)
              end
          end
      end
  end.

Definition handshake_state_derive_ptk (junk_mdid : Z) (s : handshake_state)
    : res (handshake_state * bool) :=
  let akm := hs_akm_suite s in
  if negb (has_any akm FT_FILS_AKMS) && (negb (hs_have_snonce s) || negb (hs_have_pmk s))
  then Ok (s, false)
  else if has_any akm (Z.lor FT_AKMS FT_FILS_AKMS) &&
          (bool_decide (hs_mde s = None) || bool_decide (hs_fte s = None))
  then Ok (s, false)
  else
    let s := s <| hs_ptk_complete := false |> in
    match ptk_checksum_type s with
    | None => Ok (s, false)
    | Some type =>
        let ptk_size := handshake_state_get_ptk_size s in
        if has_any akm (Z.lor FT_AKMS FT_FILS_AKMS) then derive_ft_ptk junk_mdid s ptk_size
        else
          pmk ← rdn (hs_pmk s) (hs_pmk_len s);
          out ← ptk_region s ptk_size;
          match crypto_derive_pairwise_ptk pmk (hs_spa s) (hs_aa s) (hs_anonce s) (hs_snonce s)
                  out type with
          | None => Ok (s, false)
          | Some ptk => p ← put (hs_ptk s) 0 ptk; Ok (s <| hs_ptk := p |>, true)
          end
    end.

(** ** Installation *)

Variable hk : hooks.

Definition handshake_event_ (e : handshake_event) : list effect :=
  if hook_event hk then [Event e] else [].

Definition handshake_state_install_ptk (s : handshake_state) : handshake_state * list effect :=
  let s := s <| hs_ptk_complete := true |> in
  if hook_install_tk hk then
    let cipher := ie_rsn_cipher_suite_to_cipher (hs_pairwise_cipher s) in
    (s, handshake_event_ HANDSHAKE_EVENT_SETTING_KEYS ++
        [InstallTk ((λ tk, ptake tk (crypto_cipher_key_len cipher)) <$> handshake_get_tk s) cipher])
  else (s, []).

Definition handshake_state_install_gtk (s : handshake_state) (index : Z) (gtk rsc : list Z)
    : list effect :=
  if hook_install_gtk hk
  then [InstallGtk index gtk rsc (ie_rsn_cipher_suite_to_cipher (hs_group_cipher s))] else [].

Definition handshake_state_install_igtk (s : handshake_state) (index : Z) (igtk ipn : list Z)
    : list effect :=
  if hook_install_igtk hk
  then [InstallIgtk index igtk ipn (ie_rsn_cipher_suite_to_cipher (hs_group_management_cipher s))]
  else [].

(** The 16 bytes of [out_pmkid]; [junk] is what it held. *)
Definition handshake_state_get_pmkid (s : handshake_state) (junk : list Z) : option (list Z) :=
  if hs_have_pmkid s then Some (hs_pmkid s)
  else if negb (hs_have_pmk s) then None
  else
    let use_sha256 := has_any (hs_akm_suite s)
                        (Z.lor IE_RSN_AKM_SUITE_8021X_SHA256 IE_RSN_AKM_SUITE_PSK_SHA256) in
    crypto_derive_pmkid (hs_pmk s) (hs_spa s) (hs_aa s) junk use_sha256.

Definition handshake_state_set_gtk (s : handshake_state) (key : ptr) (key_index : Z) (rsc : ptr)
    : res handshake_state :=
  let key_len := crypto_cipher_key_len (ie_rsn_cipher_suite_to_cipher (hs_group_cipher s)) in
  if key_len =? 0 then Ok s
  else
    k ← rdn key key_len;
    g ← put (hs_gtk s) 0 k;
    r ← rdn rsc 6;
    Ok (s <| hs_gtk := g |> <| hs_gtk_index := key_index |> <| hs_gtk_rsc := r |>).

(** ** FTE keys *)

Definition handshake_state_get_ft_fils_kek (s : handshake_state) : option (ptr * Z) :=
  if has_any (hs_akm_suite s) IE_RSN_AKM_SUITE_FT_OVER_FILS_SHA256 then Some (hs_ptk s +! 64, 16)
  else if has_any (hs_akm_suite s) IE_RSN_AKM_SUITE_FT_OVER_FILS_SHA384
  then Some (hs_ptk s +! 104, 32)
  else None.

(** The padding test on the unwrapped bytes after the key. *)
Definition fte_padding_ok (pad : list Z) : bool :=
  match pad with
  | [] => true
  | b :: pad' => (b =? 0xdd) && forallb (Z.eqb 0) pad'
  end.

(** The unwrapped bytes (what is left in [key_out]) and whether they are well formed;
    [Ok None] is a [false] return of [aes_unwrap]. *)
Definition handshake_decode_fte_key (s : handshake_state) (wrapped : ptr) (key_len : Z)
    : res (option (list Z * bool)) :=
  let padded_len := if key_len <? 16 then 16 else align_len key_len 8 in
  let kek := if has_any (hs_akm_suite s) FT_FILS_AKMS then handshake_state_get_ft_fils_kek s
             else (λ k, (k, 16)) <$> handshake_state_get_kek s in
  match kek with
  | None => Fault
  | Some (kek, kek_len) =>
      k ← rdn kek kek_len;
      r ← aes_unwrap k wrapped (padded_len + 8);
      match r with
      | None => Ok None
      | Some out => Ok (Some (out, fte_padding_ok (out +! key_len)))
      end
  end.
End handshake.

(** ** The RSNE of message 3 against the one of the beacon *)

Definition rsn_info_match (m s : ie_rsn_info) : bool :=
  (group_cipher m =? group_cipher s) && (pairwise_ciphers m =? pairwise_ciphers s) &&
  (akm_suites m =? akm_suites s) && eqb (preauthentication m) (preauthentication s) &&
  eqb (no_pairwise m) (no_pairwise s) &&
  (ptksa_replay_counter m =? ptksa_replay_counter s) &&
  (gtksa_replay_counter m =? gtksa_replay_counter s) &&
  eqb (mfpr m) (mfpr s) && eqb (mfpc m) (mfpc s) &&
  eqb (peerkey_enabled m) (peerkey_enabled s) &&
  eqb (spp_a_msdu_capable m) (spp_a_msdu_capable s) &&
  eqb (spp_a_msdu_required m) (spp_a_msdu_required s) && eqb (pbac m) (pbac s) &&
  eqb (extended_key_id m) (extended_key_id s) &&
  (group_management_cipher m =? group_management_cipher s).

Definition parse_ap_ie (junk : ie_rsn_info) (ie : ptr) (is_wpa : bool) : res (option ie_rsn_info) :=
  l ← rd ie 1;
  if is_wpa then
    r ← ok_or_none (ie_parse_wpa_from_data ie (l + 2) (Some junk));
    Ok (match r with Some (Some i) => Some i | _ => None end)
  else ok_or_none (ie_parse_rsne_from_data ie (l + 2)).

Definition handshake_util_ap_ie_matches (junk : ie_rsn_info) (msg_ie scan_ie : ptr) (is_wpa : bool)
    : res bool :=
  m1 ← rd msg_ie 1;
  s1 ← rd scan_ie 1;
  same ← (if m1 =? s1 then
            a ← rdn (msg_ie +! 2) m1;
            b ← rdn (scan_ie +! 2) m1;
            Ok (bool_decide (a = b))
          else Ok false);
  if (same : bool) then Ok true
  else
    m ← parse_ap_ie junk msg_ie is_wpa;
    match m with
    | None => Ok false
    | Some m =>
        s ← parse_ap_ie junk scan_ie is_wpa;
        match s with
        | None => Ok false
        | Some s => Ok (rsn_info_match m s)
        end
    end.

(** ** Key data encapsulation (KDE) *)

Definition HANDSHAKE_KDE_GTK : Z := 0x000fac01.
Definition HANDSHAKE_KDE_PMKID : Z := 0x000fac04.
Definition HANDSHAKE_KDE_IGTK : Z := 0x000fac09.
Definition HANDSHAKE_KDE_IP_ADDRESS_REQ : Z := 0x506f9a04.
Definition HANDSHAKE_KDE_IP_ADDRESS_ALLOC : Z := 0x506f9a05.

(** The body of the loop: [Stop None] is the [return NULL] on padding. *)
Definition find_kde_step (selector : Z) (it : ie_tlv_iter) (s : option (ptr * Z))
    : res (ctl (option (ptr * Z))) :=
  if negb (it_tag it =? IE_TYPE_VENDOR_SPECIFIC) then Ok (Next s)
  else if it_len it <? 4 then Ok (Stop None)
  else
    v ← l_get_be32 (it_data it);
    if negb (v =? selector) then Ok (Next s)
    else Ok (Stop (Some (it_data it +! 4, it_len it - 4))).

(** The data of the first matching KDE and its length; [None] is NULL. *)
Definition find_kde (data : ptr) (data_len selector : Z) : res (option (ptr * Z)) :=
  tlv_loop (find_kde_step selector) data data_len None.

Definition kde_bounded (lo hi : Z) (r : option (ptr * Z)) : option (ptr * Z) :=
  match r with
  | Some (p, n) => if (n <? lo) || (hi <? n) then None else Some (p, n)
  | None => None
  end.

Definition handshake_util_find_gtk_kde (data : ptr) (data_len : Z) : res (option (ptr * Z)) :=
  r ← find_kde data data_len HANDSHAKE_KDE_GTK;
  Ok (kde_bounded (CRYPTO_MIN_GTK_LEN + 2) (CRYPTO_MAX_GTK_LEN + 2) r).

Definition handshake_util_find_igtk_kde (data : ptr) (data_len : Z) : res (option (ptr * Z)) :=
  r ← find_kde data data_len HANDSHAKE_KDE_IGTK;
  Ok (kde_bounded (CRYPTO_MIN_IGTK_LEN + 8) (CRYPTO_MAX_IGTK_LEN + 8) r).

Definition handshake_util_find_pmkid_kde (data : ptr) (data_len : Z) : res (option ptr) :=
  r ← find_kde data data_len HANDSHAKE_KDE_PMKID;
  Ok (match r with
      | Some (p, n) => if n =? 16 then Some p else None
      | None => None
      end).

(** The [8 + key_len] bytes written at [to]. *)
Definition handshake_util_build_gtk_kde (cipher : Z) (key : ptr) (key_index : Z)
    : res (list Z) :=
  let key_len := crypto_cipher_key_len cipher in
  k ← rdn key key_len;
  Ok ([u8 IE_TYPE_VENDOR_SPECIFIC; u8 (6 + key_len)] ++ be32_bytes HANDSHAKE_KDE_GTK
        ++ [u8 key_index; 0] ++ k).

(** ** Key sizes *)

Lemma cipher_key_len_cases suite :
  let n := crypto_cipher_key_len (ie_rsn_cipher_suite_to_cipher suite) in
  n = 0 ∨ n = 5 ∨ n = 13 ∨ n = 16 ∨ n = 32 ∧ suite = IE_RSN_CIPHER_SUITE_TKIP.
Proof.
  unfold ie_rsn_cipher_suite_to_cipher.
  destruct (Z.eqb_spec suite IE_RSN_CIPHER_SUITE_CCMP); [cbn; tauto |].
  destruct (Z.eqb_spec suite IE_RSN_CIPHER_SUITE_TKIP); [cbn; tauto |].
  repeat case_b; cbn; tauto.
Qed.

(** C37: The PTK fits the 136 bytes of [struct handshake_state] for every AKM, pairwise
    cipher and PMK length, with one exception: FT over FILS-SHA384 with TKIP needs 152. *)
Theorem handshake_ptk_size_bound s ptk kck kek :
  handshake_get_key_sizes s = Some (ptk, kck, kek) →
  0 ≤ kck ∧ 0 ≤ kek ∧
  kck + kek + crypto_cipher_key_len (ie_rsn_cipher_suite_to_cipher (hs_pairwise_cipher s)) ≤ ptk ∧
  (ptk ≤ 136 ∨ hs_akm_suite s = IE_RSN_AKM_SUITE_FT_OVER_FILS_SHA384 ∧
               hs_pairwise_cipher s = IE_RSN_CIPHER_SUITE_TKIP ∧ ptk = 152).
Proof.
  unfold handshake_get_key_sizes. pose proof (cipher_key_len_cases (hs_pairwise_cipher s)) as Htk.
  cbv zeta in Htk. set (tk := crypto_cipher_key_len _) in *. intros E.
  destruct (Z.eqb_spec (hs_akm_suite s) IE_RSN_AKM_SUITE_FT_OVER_FILS_SHA384) as [Ha|Ha].
  - rewrite Ha in E. cbn in E. simplify_eq. split_and!; lia.
  - repeat (case_match; simplify_eq/=); split_and!; try lia; left; lia.
Qed.

Definition hs_zero : handshake_state :=
  mk_hs 0 (zeros 6) (zeros 6) None None None None 0 0 0 0 (zeros 64) 0 (zeros 32) (zeros 32)
    (zeros 136) (zeros 48) (zeros 16) (zeros 48) (zeros 16) (zeros 16) (zeros 48) 0 false false
    false false false false false false false false false false false (zeros 32) 0 None (zeros 48) 0
    (zeros 6) (zeros 32) (zeros 6) 0 0 false 0 0 0.

Lemma handshake_ptk_size_bound_witness :
  let s := hs_zero <| hs_akm_suite := IE_RSN_AKM_SUITE_FT_OVER_FILS_SHA384 |>
             <| hs_pairwise_cipher := IE_RSN_CIPHER_SUITE_TKIP |> in
  0 ≤ 0 ∧ 0 ≤ 64 ∧
  0 + 64 + crypto_cipher_key_len (ie_rsn_cipher_suite_to_cipher (hs_pairwise_cipher s)) ≤ 152 ∧
  (152 ≤ 136 ∨ hs_akm_suite s = IE_RSN_AKM_SUITE_FT_OVER_FILS_SHA384 ∧
               hs_pairwise_cipher s = IE_RSN_CIPHER_SUITE_TKIP ∧ 152 = 152).
Proof. apply handshake_ptk_size_bound. reflexivity. Defined.

(** The long KCK and KEK (24 and 32 bytes) are given to the AKM with selector type 11
    (Suite B SHA-256) and not to the one with selector type 12 (Suite B SHA-384), which
    gets 16 and 16 although its MIC is 24 bytes long. *)
Theorem handshake_suite_b_key_sizes s :
  rsn_akm_selector IE_RSN_AKM_SUITE_8021X_SUITE_B_SHA256 = Some (ieee_oui ++ [11]) ∧
  rsn_akm_selector IE_RSN_AKM_SUITE_8021X_SUITE_B_SHA384 = Some (ieee_oui ++ [12]) ∧
  (λ '(_, kck, kek), (kck, kek)) <$> handshake_get_key_sizes
     (s <| hs_akm_suite := IE_RSN_AKM_SUITE_8021X_SUITE_B_SHA256 |>) = Some (24, 32) ∧
  (λ '(_, kck, kek), (kck, kek)) <$> handshake_get_key_sizes
     (s <| hs_akm_suite := IE_RSN_AKM_SUITE_8021X_SUITE_B_SHA384 |>) = Some (16, 16).
Proof. done. Qed.

(** ** KDEs *)

Definition be32_of (a b c d : Z) : Z := a * 2 ^ 24 + b * 2 ^ 16 + c * 2 ^ 8 + d.

(** The search as a function on the elements: the payload after the selector. *)
Fixpoint kde_search (selector : Z) (es : list elem) : option (list Z) :=
  match es with
  | [] => None
  | (tag, d) :: es' =>
      if negb (tag =? IE_TYPE_VENDOR_SPECIFIC) then kde_search selector es'
      else match d with
           | a :: b :: c :: e :: payload =>
               if be32_of a b c e =? selector then Some payload else kde_search selector es'
           | _ => None
           end
  end.

Lemma find_kde_step_visited selector max pos tlv tag d after :
  find_kde_step selector (visited max pos tlv (tag, d) after) None =
    if negb (tag =? IE_TYPE_VENDOR_SPECIFIC) then Ok (Next None)
    else match d with
         | a :: b :: c :: e :: payload =>
             if be32_of a b c e =? selector then Ok (Stop (Some (payload ++ after, zlen payload)))
             else Ok (Next None)
         | _ => Ok (Stop None)
         end.
Proof.
  unfold find_kde_step, visited. cbn [it_tag it_len it_data fst snd]. case_match; [done |].
  destruct d as [|a [|b [|c [|e payload]]]]; try done.
  destruct (Z.ltb_spec (zlen (a :: b :: c :: e :: payload)) 4); [rewrite !zlen_cons in *; znn; lia |].
  unfold l_get_be32. cbn [app]. rd_eval. fold (be32_of a b c e).
  destruct (be32_of a b c e =? selector); [| done]. cbn [negb].
  change ((a :: b :: c :: e :: payload ++ after) +! 4) with (payload ++ after).
  do 4 f_equal. rewrite !zlen_cons. lia.
Qed.

Lemma find_kde_elements bs es rest tail selector :
  elements_of bs es rest → bytes_ok bs → zlen bs < 2 ^ 32 - 1 →
  match kde_search selector es with
  | None => find_kde (bs ++ tail) (zlen bs) selector = Ok None
  | Some payload => ∃ after, find_kde (bs ++ tail) (zlen bs) selector =
                      Ok (Some (payload ++ after, zlen payload))
  end.
Proof.
  intros Hes Hok Hlt. unfold find_kde. erewrite tlv_loop_visits by done.
  generalize (zlen bs) 0 (bs ++ tail) (rest ++ tail). clear. intros max pos tlv after.
  revert pos. induction es as [|[tag d] es IH]; intros pos; [done |].
  cbn [visits ctl_fold kde_search]. rewrite find_kde_step_visited.
  destruct (negb (tag =? IE_TYPE_VENDOR_SPECIFIC)); [apply IH |].
  destruct d as [|a [|b [|c [|e payload]]]]; try done.
  destruct (be32_of a b c e =? selector); [by eexists | apply IH].
Qed.

(** The KDE search over any key data of up to 4 GB returns exactly the payload of the
    first KDE with the selector that comes before the padding (a vendor element too short
    for a selector); the pointer it returns has all of the payload's bytes behind it, and
    nothing outside of the key data is read. *)
Theorem find_kde_correct bs tail selector :
  bytes_ok bs → zlen bs < 2 ^ 32 - 1 →
  ∃ es rest, elements_of bs es rest ∧
    match kde_search selector es with
    | None => find_kde (bs ++ tail) (zlen bs) selector = Ok None
    | Some payload => ∃ after, find_kde (bs ++ tail) (zlen bs) selector =
                        Ok (Some (payload ++ after, zlen payload))
    end.
Proof.
  intros Hok Hlt. destruct (elements_total bs Hok) as (es & rest & Hes). exists es, rest.
  split; [done |]. by apply (find_kde_elements _ _ rest).
Qed.

Lemma find_kde_correct_witness :
  let bs := [48; 0; 221; 6; 0; 15; 172; 1; 2; 0; 221; 0] in
  ∃ es rest, elements_of bs es rest ∧
    match kde_search HANDSHAKE_KDE_GTK es with
    | None => find_kde (bs ++ []) (zlen bs) HANDSHAKE_KDE_GTK = Ok None
    | Some payload => ∃ after, find_kde (bs ++ []) (zlen bs) HANDSHAKE_KDE_GTK =
                        Ok (Some (payload ++ after, zlen payload))
    end.
Proof. apply find_kde_correct; by_eval. Defined.

Lemma tlv_encode_all_bytes_ok es : Forall elem_ok es → bytes_ok (tlv_encode_all es).
Proof.
  unfold tlv_encode_all. induction 1 as [|e es He Hes IH]; [constructor |]. csimpl.
  apply Forall_app_2; [by apply tlv_encode_bytes_ok | done].
Qed.

(** The reference encoding of a GTK KDE as an element. *)
Definition gtk_kde_elem (key : list Z) (key_index : Z) : elem :=
  (IE_TYPE_VENDOR_SPECIFIC, be32_bytes HANDSHAKE_KDE_GTK ++ [key_index; 0] ++ key).

Lemma build_gtk_kde_encode cipher key tail key_index :
  0 ≤ key_index < 256 → zlen key = crypto_cipher_key_len cipher → zlen key ≤ 32 →
  handshake_util_build_gtk_kde cipher (key ++ tail) key_index =
    Ok (tlv_encode (gtk_kde_elem key key_index)).
Proof.
  intros Hi Hk Hl. unfold handshake_util_build_gtk_kde. rewrite rdn_app by done. rewrite bind_ok, <- Hk.
  znn. rewrite (u8_small (6 + zlen key)), (u8_small key_index) by lia. unfold gtk_kde_elem, tlv_encode.
  cbn [Z.ltb Z.compare Pos.compare Pos.compare_cont IE_TYPE_VENDOR_SPECIFIC].
  rewrite !zlen_app. change (zlen (be32_bytes HANDSHAKE_KDE_GTK)) with 4.
  change (zlen [key_index; 0]) with 2. replace (4 + (2 + zlen key)) with (6 + zlen key) by lia. done.
Qed.

(** GTK KDE round trip: a 16 or 32 byte GTK wrapped by the authenticator's
    [handshake_util_build_gtk_kde] after any elements that are not vendor elements is found
    by the supplicant's [handshake_util_find_gtk_kde] with its key index and its bytes. *)
Theorem gtk_kde_roundtrip cipher key tail0 key_index kde es rest tail :
  0 ≤ key_index < 256 → zlen key = crypto_cipher_key_len cipher → zlen key = 16 ∨ zlen key = 32 →
  bytes_ok key → Forall elem_ok es → Forall (λ e, e.1 ≠ IE_TYPE_VENDOR_SPECIFIC) es →
  handshake_util_build_gtk_kde cipher (key ++ tail0) key_index = Ok kde →
  bytes_ok rest → no_elem rest → zlen (tlv_encode_all es ++ kde ++ rest) < 2 ^ 32 - 1 →
  let data := tlv_encode_all es ++ kde ++ rest in
  ∃ after, handshake_util_find_gtk_kde (data ++ tail) (zlen data) =
    Ok (Some (([key_index; 0] ++ key) ++ after, 2 + zlen key)).
Proof.
  intros Hi Hk Hl Hok Hes Hnv Hb Hrok Hrest Hlt data.
  rewrite build_gtk_kde_encode in Hb by (done || lia).
  assert (kde = tlv_encode (gtk_kde_elem key key_index)) as -> by congruence.
  assert (elem_ok (gtk_kde_elem key key_index)) as Hel.
  { split; [| left; split; [done |]; rewrite !zlen_app; change (zlen [key_index; 0]) with 2;
              change (zlen (be32_bytes HANDSHAKE_KDE_GTK)) with 4; lia].
    apply Forall_app_2; [by_eval |]. repeat constructor; unfold byte_ok; done || lia. }
  assert (data = tlv_encode_all (es ++ [gtk_kde_elem key key_index]) ++ rest) as Hd.
  { unfold data, tlv_encode_all. rewrite fmap_app, concat_app. cbn. by rewrite app_nil_r, <- app_assoc. }
  assert (Forall elem_ok (es ++ [gtk_kde_elem key key_index])) as Hes' by (apply Forall_app_2; auto).
  assert (elements_of data (es ++ [gtk_kde_elem key key_index]) rest) as Hels
    by (rewrite Hd; by apply elements_of_encode).
  assert (bytes_ok data) as Hdok
    by (rewrite Hd; apply Forall_app_2; [by apply tlv_encode_all_bytes_ok | done]).
  pose proof (find_kde_elements _ _ _ tail HANDSHAKE_KDE_GTK Hels Hdok Hlt) as Hf.
  assert (kde_search HANDSHAKE_KDE_GTK (es ++ [gtk_kde_elem key key_index]) = Some ([key_index; 0] ++ key)) as Es.
  { clear -Hnv. induction Hnv as [|[t d] es Ht Hnv IH]; [done |]. cbn in *.
    destruct (Z.eqb_spec t IE_TYPE_VENDOR_SPECIFIC); done. }
  rewrite Es in Hf. destruct Hf as [after Hf]. exists after. unfold handshake_util_find_gtk_kde.
  rewrite Hf, bind_ok. unfold kde_bounded. rewrite zlen_app. change (zlen [key_index; 0]) with 2.
  unfold CRYPTO_MIN_GTK_LEN, CRYPTO_MAX_GTK_LEN.
  destruct (Z.ltb_spec (2 + zlen key) (16 + 2)), (Z.ltb_spec (32 + 2) (2 + zlen key)); try lia. done.
Qed.

Lemma gtk_kde_roundtrip_witness :
  let kde := [221; 22; 0; 15; 172; 1; 1; 0] ++ replicate 16 5 in
  let data := tlv_encode_all [(48, [1; 0])] ++ kde ++ [221] in
  ∃ after, handshake_util_find_gtk_kde (data ++ []) (zlen data) =
    Ok (Some (([1; 0] ++ replicate 16 5) ++ after, 2 + zlen (replicate 16 5))).
Proof.
  apply (gtk_kde_roundtrip CRYPTO_CIPHER_CCMP (replicate 16 5) [] 1 _ [(48, [1; 0])] [221] []).
  all: try by_eval; try reflexivity; try (by left).

  - intros [t d] r [_ [[? ?]|[? ?]]] Hn; cbn in Hn; destruct (t <? 256); by simplify_eq.
Defined.

(** ** Keys inside an FTE *)

Lemma align_len_8 n : 0 ≤ n → align_len n 8 = 8 * ((n + 7) / 8).
Proof.
  intros Hn. unfold align_len. replace (n + 8 - 1) with (n + 7) by lia.
  change (Z.lnot (8 - 1)) with (Z.lnot (Z.ones 3)). rewrite <- Z.ldiff_land, Z.ldiff_ones_r by lia.
  rewrite Z.shiftr_div_pow2, Z.shiftl_mul_pow2 by lia. change (2 ^ 3) with 8. lia.
Qed.

(** The padding of 802.11-2012, 12.8.5: [0xdd], then zeros, up to 16 bytes and a multiple
    of 8. *)
Definition fte_padded_len (n : Z) : Z := if n <? 16 then 16 else align_len n 8.
Definition fte_pad (key : list Z) : list Z :=
  let n := fte_padded_len (zlen key) - zlen key in
  key ++ (if n =? 0 then [] else 0xdd :: zeros (Z.to_nat (n - 1))).

Lemma fte_padded_len_spec n : 0 ≤ n → n ≤ fte_padded_len n ≤ n + 16 ∧ (8 | fte_padded_len n).
Proof.
  intros Hn. unfold fte_padded_len. destruct (Z.ltb_spec n 16); [split; [lia | by exists 2] |].
  rewrite align_len_8 by done. split; [| eexists; apply Z.mul_comm].
  pose proof (Z_div_mod_eq_full (n + 7) 8). pose proof (Z.mod_pos_bound (n + 7) 8). lia.
Qed.

Lemma fte_pad_length key : zlen (fte_pad key) = fte_padded_len (zlen key).
Proof.
  unfold fte_pad. pose proof (fte_padded_len_spec (zlen key) (zlen_nonneg key)) as [H _].
  rewrite zlen_app. case_b; [change (zlen (@nil Z)) with 0; lia |].
  rewrite zlen_cons. unfold zeros. rewrite zlen_replicate; lia.
Qed.

(** A GTK or IGTK of up to 32 bytes that the AP pads and wraps with the KEK of the
    association is accepted by [handshake_decode_fte_key], which leaves the key followed by
    its padding in the output. *)
Theorem decode_fte_key_roundtrip `{EllLaws} s key w kek tail tail' :
  has_any (hs_akm_suite s) FT_FILS_AKMS = false → handshake_state_get_kek s = Some kek →
  16 ≤ zlen kek → is_Some (l_cipher_new_aes (ptake kek 16)) → zlen key ≤ 32 →
  aes_wrap kek (fte_pad key ++ tail) (fte_padded_len (zlen key)) = Ok (Some w) →
  handshake_decode_fte_key s (w ++ tail') (zlen key) = Ok (Some (fte_pad key, true)).
Proof.
  intros Hft Hkek Hkl Hc Hl Hw. pose proof (fte_pad_length key) as Hp. pose proof (zlen_nonneg key).
  pose proof (fte_padded_len_spec (zlen key) ltac:(lia)) as [Hb Hd].
  destruct (aes_unwrap_wrap kek (fte_pad key) tail tail' Hkl Hc) as (w' & Hw' & Hwl & Hu);
    [by rewrite Hp | lia |].
  rewrite Hp in Hw'. assert (w' = w) as -> by congruence. rewrite Hwl, Hp in Hu.
  unfold handshake_decode_fte_key. rewrite Hft, Hkek. cbn [fmap option_fmap option_map].
  rewrite rdn_ok, bind_ok by lia. fold (fte_padded_len (zlen key)). rewrite Hu, bind_ok.
  do 3 f_equal. unfold fte_pad. rewrite padd_app by done. case_b; [done |]. cbn.
  generalize (Z.to_nat (fte_padded_len (zlen key) - zlen key - 1)). intros k. by induction k.
Qed.

#[local] Existing Instance toy_ell.
#[local] Existing Instance toy_ell_laws.

Lemma decode_fte_key_roundtrip_witness :
  let s := hs_zero <| hs_akm_suite := IE_RSN_AKM_SUITE_FT_USING_PSK |> in
  let w := match aes_wrap (zeros 16) (fte_pad (replicate 5 9) ++ []) 16 with
           | Ok (Some w) => w | _ => [] end in
  handshake_decode_fte_key s (w ++ [1; 2]) (zlen (replicate 5 9)) =
    Ok (Some (fte_pad (replicate 5 9), true)).
Proof.
  eapply (decode_fte_key_roundtrip _ _ _ (zeros 120) [] [1; 2]); [done | done | by_eval | done | by_eval |].
  vm_compute. reflexivity.
Defined.
