(* ===== verification/EapolFrame.v ===== *)
(** * EAPoL-Key frames (src/eapolutil.c, src/eapolutil.h, src/eapol.c)

    The layout of [struct eapol_key], the validation of a received frame, the MIC, the
    encryption of the key data, the checks on each message of the 4-way and group key
    handshakes and the construction of the replies. *)

From stdpp Require Import base numbers list option.
From Stdlib Require Import ZArith Lia.
From S2P Require Import Prelude IeTlv IeRsn IeMisc Crypto Handshake.

Open Scope Z_scope.

(** ** The frame

    [struct eapol_key] with its bit fields; integers are in host order.  [ek_key_data] is
    the memory from the flexible array member [key_data] to the end of the object that
    holds the frame: the MIC, the length of the key data and the key data. *)
Record eapol_key : Type := mk_ek {
  ek_protocol_version : Z;
  ek_packet_type : Z;
  ek_packet_len : Z;
  ek_descriptor_type : Z;
  ek_key_mic : bool;
  ek_secure : bool;
  ek_error : bool;
  ek_request : bool;
  ek_encrypted_key_data : bool;
  ek_smk_message : bool;
  ek_reserved2 : Z;
  ek_key_descriptor_version : Z;
  ek_key_type : bool;
  ek_wpa_key_id : Z;
  ek_install : bool;
  ek_key_ack : bool;
  ek_key_length : Z;
  ek_key_replay_counter : Z;
  ek_key_nonce : list Z;
  ek_eapol_key_iv : list Z;
  ek_key_rsc : list Z;
  ek_reserved : list Z;
  ek_key_data : list Z;
}.

#[export] Instance ek_eta : Eta eapol_key := λ e,
  mk_ek (ek_protocol_version e) (ek_packet_type e) (ek_packet_len e) (ek_descriptor_type e)
    (ek_key_mic e) (ek_secure e) (ek_error e) (ek_request e) (ek_encrypted_key_data e)
    (ek_smk_message e) (ek_reserved2 e) (ek_key_descriptor_version e) (ek_key_type e)
    (ek_wpa_key_id e) (ek_install e) (ek_key_ack e) (ek_key_length e) (ek_key_replay_counter e)
    (ek_key_nonce e) (ek_eapol_key_iv e) (ek_key_rsc e) (ek_reserved e) (ek_key_data e).

#[export] Instance set_ek_protocol_version : SetterOf ek_protocol_version.
Proof. derive_setter. Defined.
#[export] Instance set_ek_packet_type : SetterOf ek_packet_type.
Proof. derive_setter. Defined.
#[export] Instance set_ek_packet_len : SetterOf ek_packet_len.
Proof. derive_setter. Defined.
#[export] Instance set_ek_descriptor_type : SetterOf ek_descriptor_type.
Proof. derive_setter. Defined.
#[export] Instance set_ek_key_mic : SetterOf ek_key_mic.
Proof. derive_setter. Defined.
#[export] Instance set_ek_secure : SetterOf ek_secure.
Proof. derive_setter. Defined.
#[export] Instance set_ek_error : SetterOf ek_error.
Proof. derive_setter. Defined.
#[export] Instance set_ek_request : SetterOf ek_request.
Proof. derive_setter. Defined.
#[export] Instance set_ek_encrypted_key_data : SetterOf ek_encrypted_key_data.
Proof. derive_setter. Defined.
#[export] Instance set_ek_smk_message : SetterOf ek_smk_message.
Proof. derive_setter. Defined.
#[export] Instance set_ek_reserved2 : SetterOf ek_reserved2.
Proof. derive_setter. Defined.
#[export] Instance set_ek_key_descriptor_version : SetterOf ek_key_descriptor_version.
Proof. derive_setter. Defined.
#[export] Instance set_ek_key_type : SetterOf ek_key_type.
Proof. derive_setter. Defined.
#[export] Instance set_ek_wpa_key_id : SetterOf ek_wpa_key_id.
Proof. derive_setter. Defined.
#[export] Instance set_ek_install : SetterOf ek_install.
Proof. derive_setter. Defined.
#[export] Instance set_ek_key_ack : SetterOf ek_key_ack.
Proof. derive_setter. Defined.
#[export] Instance set_ek_key_length : SetterOf ek_key_length.
Proof. derive_setter. Defined.
#[export] Instance set_ek_key_replay_counter : SetterOf ek_key_replay_counter.
Proof. derive_setter. Defined.
#[export] Instance set_ek_key_nonce : SetterOf ek_key_nonce.
Proof. derive_setter. Defined.
#[export] Instance set_ek_eapol_key_iv : SetterOf ek_eapol_key_iv.
Proof. derive_setter. Defined.
#[export] Instance set_ek_key_rsc : SetterOf ek_key_rsc.
Proof. derive_setter. Defined.
#[export] Instance set_ek_reserved : SetterOf ek_reserved.
Proof. derive_setter. Defined.
#[export] Instance set_ek_key_data : SetterOf ek_key_data.
Proof. derive_setter. Defined.

Definition b2z (b : bool) : Z := if b then 1 else 0.

(** The two bytes of bit fields, in the layout of [__LITTLE_ENDIAN_BITFIELD]. *)
Definition ek_info1 (e : eapol_key) : Z :=
  b2z (ek_key_mic e) + 2 * b2z (ek_secure e) + 4 * b2z (ek_error e) + 8 * b2z (ek_request e)
  + 16 * b2z (ek_encrypted_key_data e) + 32 * b2z (ek_smk_message e) + 64 * ek_reserved2 e.
Definition ek_info2 (e : eapol_key) : Z :=
  ek_key_descriptor_version e + 8 * b2z (ek_key_type e) + 16 * ek_wpa_key_id e
  + 64 * b2z (ek_install e) + 128 * b2z (ek_key_ack e).

(** [sizeof(struct eapol_key)] *)
Definition EK_SIZE : Z := 81.

(** The bytes of the structure, and of the object that holds it. *)
Definition ek_header (e : eapol_key) : list Z :=
  [ek_protocol_version e; ek_packet_type e] ++ be16_bytes (ek_packet_len e)
  ++ [ek_descriptor_type e; ek_info1 e; ek_info2 e] ++ be16_bytes (ek_key_length e)
  ++ be64_bytes (ek_key_replay_counter e) ++ ek_key_nonce e ++ ek_eapol_key_iv e
  ++ ek_key_rsc e ++ ek_reserved e.
Definition ek_bytes (e : eapol_key) : list Z := ek_header e ++ ek_key_data e.

Definition be32_list (l : list Z) : Z :=
  nth 0 l 0 * 2 ^ 24 + nth 1 l 0 * 2 ^ 16 + nth 2 l 0 * 2 ^ 8 + nth 3 l 0.
Definition be64_of (l : list Z) : Z := be32_list (ptake l 4) * 2 ^ 32 + be32_list (l +! 4).

(** The view of the memory at [p] as a [struct eapol_key]. *)
Definition ek_view (p : ptr) : res eapol_key :=
  h ← rdn p EK_SIZE;
  let byte i := nth i h 0 in
  let i1 := byte 5%nat in
  let i2 := byte 6%nat in
  Ok (mk_ek (byte 0%nat) (byte 1%nat) (be16_of (byte 2%nat) (byte 3%nat)) (byte 4%nat)
        (Z.testbit i1 0) (Z.testbit i1 1) (Z.testbit i1 2) (Z.testbit i1 3) (Z.testbit i1 4)
        (Z.testbit i1 5) (bit_field i1 6 2)
        (bit_field i2 0 3) (Z.testbit i2 3) (bit_field i2 4 2) (Z.testbit i2 6) (Z.testbit i2 7)
        (be16_of (byte 7%nat) (byte 8%nat)) (be64_of (ptake (h +! 9) 8)) (ptake (h +! 17) 32)
        (ptake (h +! 49) 16) (ptake (h +! 65) 8) (ptake (h +! 73) 8) (p +! EK_SIZE)).

Definition EAPOL_FRAME_LEN (mic_len : Z) : Z := EK_SIZE + mic_len + 2.

(** [EAPOL_KEY_DATA_LEN] and [EAPOL_KEY_DATA] *)
Definition ek_data_len (e : eapol_key) (mic_len : Z) : res Z :=
  l_get_be16 (ek_key_data e +! mic_len).
Definition ek_data (e : eapol_key) (mic_len : Z) : ptr := ek_key_data e +! (mic_len + 2).

Definition EAPOL_PROTOCOL_VERSION_2001 : Z := 1.
Definition EAPOL_PROTOCOL_VERSION_2004 : Z := 2.
Definition EAPOL_PROTOCOL_VERSION_2010 : Z := 3.
Definition EAPOL_DESCRIPTOR_TYPE_RC4 : Z := 1.
Definition EAPOL_DESCRIPTOR_TYPE_80211 : Z := 2.
Definition EAPOL_DESCRIPTOR_TYPE_WPA : Z := 254.
Definition EAPOL_KEY_DESCRIPTOR_VERSION_AKM_DEFINED : Z := 0.
Definition EAPOL_KEY_DESCRIPTOR_VERSION_HMAC_MD5_ARC4 : Z := 1.
Definition EAPOL_KEY_DESCRIPTOR_VERSION_HMAC_SHA1_AES : Z := 2.
Definition EAPOL_KEY_DESCRIPTOR_VERSION_AES_128_CMAC_AES : Z := 3.
Definition MIC_MAXLEN : Z := 32.

(** [None] is NULL. *)
Definition eapol_key_validate (frame : ptr) (len mic_len : Z) : res (option eapol_key) :=
  if len <? EAPOL_FRAME_LEN mic_len then Ok None
  else
    ek ← ek_view frame;
    data_len ← ek_data_len ek mic_len;
    if len <? EAPOL_FRAME_LEN mic_len + data_len then Ok None
    else if negb ((ek_protocol_version ek =? EAPOL_PROTOCOL_VERSION_2001)
                  || (ek_protocol_version ek =? EAPOL_PROTOCOL_VERSION_2004)
                  || (ek_protocol_version ek =? EAPOL_PROTOCOL_VERSION_2010)) then Ok None
    else if negb (ek_packet_type ek =? 3) then Ok None
    else if negb ((ek_descriptor_type ek =? EAPOL_DESCRIPTOR_TYPE_RC4)
                  || (ek_descriptor_type ek =? EAPOL_DESCRIPTOR_TYPE_80211)
                  || (ek_descriptor_type ek =? EAPOL_DESCRIPTOR_TYPE_WPA)) then Ok None
    else if negb ((ek_key_descriptor_version ek =? EAPOL_KEY_DESCRIPTOR_VERSION_HMAC_MD5_ARC4)
                  || (ek_key_descriptor_version ek =? EAPOL_KEY_DESCRIPTOR_VERSION_HMAC_SHA1_AES)
                  || (ek_key_descriptor_version ek =? EAPOL_KEY_DESCRIPTOR_VERSION_AES_128_CMAC_AES)
                  || (ek_key_descriptor_version ek =? EAPOL_KEY_DESCRIPTOR_VERSION_AKM_DEFINED))
    then Ok None
    else Ok (Some ek).

Section frames.
Context `{Ell}.

(** ** The MIC *)

(** The [mic_len] bytes left in [mic], which held [mic] before; [Ok None] is [false]. *)
Definition eapol_calculate_mic (akm : Z) (kck : ptr) (ek : eapol_key) (mic : list Z)
    (mic_len : Z) : res (option (list Z)) :=
  n ← ek_data_len ek mic_len;
  let frame_len := EAPOL_FRAME_LEN mic_len + n in
  let with_key len (f : list Z → list Z → list Z → option (list Z)) :=
    key ← rdn kck len;
    data ← rdn (ek_bytes ek) frame_len;
    out ← rdn mic mic_len;
    Ok (f key data out) in
  let version := ek_key_descriptor_version ek in
  if version =? EAPOL_KEY_DESCRIPTOR_VERSION_HMAC_MD5_ARC4 then with_key 16 hmac_md5
  else if version =? EAPOL_KEY_DESCRIPTOR_VERSION_HMAC_SHA1_AES then with_key 16 hmac_sha1
  else if version =? EAPOL_KEY_DESCRIPTOR_VERSION_AES_128_CMAC_AES then with_key 16 cmac_aes
  else if version =? EAPOL_KEY_DESCRIPTOR_VERSION_AKM_DEFINED then
    if (akm =? IE_RSN_AKM_SUITE_SAE_SHA256) || (akm =? IE_RSN_AKM_SUITE_FT_OVER_SAE_SHA256)
       || (akm =? IE_RSN_AKM_SUITE_OSEN) then with_key 16 cmac_aes
    else if akm =? IE_RSN_AKM_SUITE_OWE then
      if mic_len =? 16 then with_key mic_len hmac_sha256
      else if mic_len =? 24 then with_key 24 hmac_sha384
      else Ok None
    else Ok None
  else Ok None.

(** The checksum object of [eapol_verify_mic]; [Ok None] is a [false] return. *)
Definition verify_mic_checksum (akm : Z) (kck : ptr) (version mic_len : Z)
    : res (option (list Z → list Z)) :=
  let hmac type len := (key ← rdn kck len; Ok (l_checksum_new_hmac type key)) in
  let cmac := (key ← rdn kck 16; Ok (l_checksum_new_cmac_aes key)) in
  if version =? EAPOL_KEY_DESCRIPTOR_VERSION_HMAC_MD5_ARC4 then hmac L_CHECKSUM_MD5 16
  else if version =? EAPOL_KEY_DESCRIPTOR_VERSION_HMAC_SHA1_AES then hmac L_CHECKSUM_SHA1 16
  else if version =? EAPOL_KEY_DESCRIPTOR_VERSION_AES_128_CMAC_AES then cmac
  else if version =? EAPOL_KEY_DESCRIPTOR_VERSION_AKM_DEFINED then
    if (akm =? IE_RSN_AKM_SUITE_SAE_SHA256) || (akm =? IE_RSN_AKM_SUITE_FT_OVER_SAE_SHA256)
       || (akm =? IE_RSN_AKM_SUITE_OSEN) then cmac
    else if akm =? IE_RSN_AKM_SUITE_OWE then
      if mic_len =? 16 then hmac L_CHECKSUM_SHA256 16
      else if mic_len =? 24 then hmac L_CHECKSUM_SHA384 24
      else if mic_len =? 32 then hmac L_CHECKSUM_SHA512 32
      else Ok None
    else Ok None
  else Ok None.

Definition eapol_verify_mic (akm : Z) (kck : ptr) (ek : eapol_key) (mic_len : Z) : res bool :=
  let mic := zeros 32 in
  n ← ek_data_len ek mic_len;
  checksum ← verify_mic_checksum akm kck (ek_key_descriptor_version ek) mic_len;
  match checksum with
  | None => Ok false
  | Some f =>
      iov1 ← rdn mic mic_len;
      iov2 ← rdn (ek_key_data ek +! mic_len) (n + 2);
      memeq (ek_key_data ek) (digest_into (f (ek_header ek ++ iov1 ++ iov2)) iov1)
  end.

Definition eapol_get_mic_length (akm pmk_len : Z) : Z :=
  if (akm =? IE_RSN_AKM_SUITE_8021X_SUITE_B_SHA384)
     || (akm =? IE_RSN_AKM_SUITE_FT_OVER_8021X_SHA384) then 24
  else if akm =? IE_RSN_AKM_SUITE_OWE then
    if pmk_len =? 32 then 16
    else if pmk_len =? 48 then 24
    else if pmk_len =? 64 then 32
    else 0
  else 16.

(** ** Key data encryption *)

(** A key of [n] bytes behind a pointer that may be NULL. *)
Definition rd_key (kek : option ptr) (n : Z) : res (list Z) :=
  match kek with Some p => rdn p n | None => Fault end.

Definition is_fils_akm (akm : Z) : bool :=
  (akm =? IE_RSN_AKM_SUITE_FILS_SHA256) || (akm =? IE_RSN_AKM_SUITE_FILS_SHA384).

(** The length of the plaintext, [None] when the key data are refused. *)
Definition decrypt_expected_len (akm version key_data_len : Z) : option Z :=
  let wrapped := if (key_data_len <? 24) || negb (key_data_len mod 8 =? 0) then None
                 else Some (key_data_len - 8) in
  if version =? EAPOL_KEY_DESCRIPTOR_VERSION_HMAC_MD5_ARC4 then Some key_data_len
  else if version =? EAPOL_KEY_DESCRIPTOR_VERSION_AKM_DEFINED then
    if is_fils_akm akm then if key_data_len <? 16 then None else Some (key_data_len - 16)
    else if (akm =? IE_RSN_AKM_SUITE_SAE_SHA256) || (akm =? IE_RSN_AKM_SUITE_FT_OVER_SAE_SHA256)
            || (akm =? IE_RSN_AKM_SUITE_OWE) || (akm =? IE_RSN_AKM_SUITE_OSEN) then wrapped
    else None
  else if (version =? EAPOL_KEY_DESCRIPTOR_VERSION_HMAC_SHA1_AES)
          || (version =? EAPOL_KEY_DESCRIPTOR_VERSION_AES_128_CMAC_AES) then wrapped
  else None.

(** The bytes of the buffer returned, whose number is [*decrypted_size]; [Ok None] is NULL.
    [l_new(uint8_t, 0)] is NULL too. *)
Definition eapol_decrypt_key_data (akm : Z) (kek : option ptr) (ek : eapol_key) (mic_len : Z)
    : res (option (list Z)) :=
  key_data_len ← ek_data_len ek mic_len;
  let key_data := ek_data ek mic_len in
  let version := ek_key_descriptor_version ek in
  match decrypt_expected_len akm version key_data_len with
  | None => Ok None
  | Some expected_len =>
      let unwrap kek_len := (k ← rd_key kek kek_len; aes_unwrap k key_data key_data_len) in
      buf ← (if version =? EAPOL_KEY_DESCRIPTOR_VERSION_HMAC_MD5_ARC4 then
               k ← rd_key kek 16;
               d ← rdn key_data key_data_len;
               Ok (Some (arc4_skip (ek_eapol_key_iv ek ++ k) 256 d))
             else if akm =? IE_RSN_AKM_SUITE_OWE then
               if mic_len =? 16 then unwrap 16
               else if (mic_len =? 24) || (mic_len =? 32) then unwrap 32
               else Ok None
             else if is_fils_akm akm then
               k ← rd_key kek (if akm =? IE_RSN_AKM_SUITE_FILS_SHA256 then 32 else 64);
               d ← rdn key_data key_data_len;
               ad ← rdn (ek_bytes ek) (EAPOL_FRAME_LEN mic_len);
               Ok (aes_siv_decrypt k d [ad])
             else unwrap 16);
      Ok (if expected_len =? 0 then None else buf)
  end.

Definition needs_pad (key_data_len : Z) : bool :=
  (key_data_len <? 16) || negb (key_data_len mod 8 =? 0).

(** [while (key_data_len < 16 || key_data_len % 8) key_data[key_data_len++] = 0x00;] *)
Fixpoint pad_key_data (fuel : nat) (key_data : list Z) (len : Z) : res (list Z * Z) :=
  match fuel with
  | O => Diverge
  | S fuel' =>
      if needs_pad len then
        kd ← put1 key_data len 0;
        pad_key_data fuel' kd (len + 1)
      else Ok (key_data, len)
  end.

(** The [0xdd] and the zeros after it; at most 16 bytes of padding are written. *)
Definition append_padding (key_data : list Z) (key_data_len : Z) : res (list Z * Z) :=
  '(key_data, key_data_len) ←
    (if needs_pad key_data_len then
       kd ← put1 key_data key_data_len 0xdd; Ok (kd, key_data_len + 1)
     else Ok (key_data, key_data_len));
  pad_key_data 17 key_data key_data_len.

(** The frame with the encrypted key data and its length, or the error. *)
Definition eapol_encrypt_key_data (kek : option ptr) (key_data : list Z) (key_data_len : Z)
    (out_frame : eapol_key) (mic_len : Z) : res (eapol_key * Z) :=
  let version := ek_key_descriptor_version out_frame in
  let finish (frame : eapol_key) len :=
    kd ← put (ek_key_data frame) mic_len (be16_bytes len);
    Ok (frame <| ek_key_data := kd |>, len) in
  if version =? EAPOL_KEY_DESCRIPTOR_VERSION_HMAC_MD5_ARC4 then Err ENOTSUP
  else if (version =? EAPOL_KEY_DESCRIPTOR_VERSION_HMAC_SHA1_AES)
          || (version =? EAPOL_KEY_DESCRIPTOR_VERSION_AES_128_CMAC_AES) then
    '(key_data, key_data_len) ← append_padding key_data key_data_len;
    kek ← nonnull kek;
    w ← aes_wrap kek key_data key_data_len;
    match w with
    | None => Err ENOPROTOOPT
    | Some w =>
        kd ← put (ek_key_data out_frame) (mic_len + 2) w;
        finish (out_frame <| ek_key_data := kd |>) (key_data_len + 8)
    end
  else finish out_frame key_data_len.

Definition eapol_key_data_append (ek : eapol_key) (mic_len selector : Z) (data : list Z)
    : res eapol_key :=
  n ← ek_data_len ek mic_len;
  let base := mic_len + 2 in
  kd ← put1 (ek_key_data ek) (base + n) IE_TYPE_VENDOR_SPECIFIC;
  kd ← put1 kd (base + u16 (n + 1)) (4 + zlen data);
  kd ← put kd (base + u16 (n + 2)) (be32_bytes selector);
  kd ← put kd (base + u16 (n + 6)) data;
  kd ← put kd mic_len (be16_bytes (u16 (n + 6 + zlen data)));
  Ok (ek <| ek_key_data := kd |>).

(** The FILS encryption of the key data in place; [key_data] of the frame starts at the
    length field.  [Ok None] is [false]. *)
Definition eapol_aes_siv_encrypt (kek : option ptr) (kek_len : Z) (frame : eapol_key) (len : Z)
    : res (option eapol_key) :=
  k ← rd_key kek kek_len;
  ad ← rdn (ek_bytes frame) (EAPOL_FRAME_LEN 0);
  d ← rdn (ek_data frame 0) len;
  match aes_siv_encrypt k d [ad] with
  | None => Ok None
  | Some encr =>
      kd ← put (ek_key_data frame) 2 encr;
      Ok (Some (frame <| ek_key_data := kd |>))
  end.
End frames.

(** ** The checks on each message *)

(** [VERIFY_PTK_COMMON] and [VERIFY_GTK_COMMON] *)
Definition VERIFY_PTK_COMMON (ek : eapol_key) : bool :=
  ek_key_type ek && negb (ek_smk_message ek) && negb (ek_request ek) && negb (ek_error ek).
Definition VERIFY_GTK_COMMON (ek : eapol_key) : bool :=
  negb (ek_key_type ek) && negb (ek_smk_message ek) && negb (ek_request ek)
  && negb (ek_error ek) && negb (ek_install ek).

Definition eapol_verify_ptk_1_of_4 (ek : eapol_key) (mic_len : Z) : res bool :=
  if negb (VERIFY_PTK_COMMON ek) then Ok false
  else if ek_install ek then Ok false
  else if negb (ek_key_ack ek) then Ok false
  else if ek_key_mic ek then Ok false
  else if ek_secure ek then Ok false
  else if ek_encrypted_key_data ek then Ok false
  else if negb (ek_wpa_key_id ek =? 0) then Ok false
  else if negb (memeqzero (ek_key_rsc ek)) then Ok false
  else if negb (memeqzero (ek_reserved ek)) then Ok false
  else
    mic ← rdn (ek_key_data ek) mic_len;
    Ok (memeqzero mic).

Definition eapol_verify_ptk_2_of_4 (ek : eapol_key) : bool :=
  VERIFY_PTK_COMMON ek && negb (ek_install ek) && negb (ek_key_ack ek) && ek_key_mic ek
  && negb (ek_secure ek) && negb (ek_encrypted_key_data ek) && (ek_wpa_key_id ek =? 0)
  && negb (ek_request ek) && memeqzero (ek_eapol_key_iv ek) && memeqzero (ek_key_rsc ek)
  && memeqzero (ek_reserved ek).

Definition eapol_verify_ptk_3_of_4 (ek : eapol_key) (is_wpa : bool) (mic_len : Z) : bool :=
  VERIFY_PTK_COMMON ek && ek_install ek && ek_key_ack ek
  && negb (negb (mic_len =? 0) && negb (ek_key_mic ek))
  && eqb (ek_secure ek) (negb is_wpa)
  && negb (negb (ek_encrypted_key_data ek) && negb is_wpa)
  && (ek_wpa_key_id ek =? 0)
  && ((ek_key_length ek =? 16) || (ek_key_length ek =? 32))
  && memeqzero (ek_reserved ek).

Definition eapol_verify_ptk_4_of_4 (ek : eapol_key) (is_wpa : bool) : bool :=
  VERIFY_PTK_COMMON ek && negb (ek_install ek) && negb (ek_key_ack ek) && ek_key_mic ek
  && eqb (ek_secure ek) (negb is_wpa) && negb (ek_encrypted_key_data ek)
  && (ek_wpa_key_id ek =? 0) && negb (ek_request ek) && memeqzero (ek_key_nonce ek)
  && memeqzero (ek_eapol_key_iv ek) && memeqzero (ek_key_rsc ek) && memeqzero (ek_reserved ek).

Definition eapol_verify_gtk_1_of_2 (ek : eapol_key) (is_wpa : bool) (mic_len : Z) : bool :=
  VERIFY_GTK_COMMON ek && ek_key_ack ek
  && negb (negb (mic_len =? 0) && negb (ek_key_mic ek)) && ek_secure ek
  && negb (negb (ek_encrypted_key_data ek) && negb is_wpa)
  && ((ek_key_length ek =? 0) || (ek_key_length ek =? 16) || (ek_key_length ek =? 32))
  && memeqzero (ek_reserved ek)
  && negb (is_wpa && (ek_wpa_key_id ek =? 0)).

Definition eapol_verify_gtk_2_of_2 (ek : eapol_key) (is_wpa : bool) : bool :=
  VERIFY_GTK_COMMON ek && negb (ek_key_ack ek) && ek_key_mic ek && ek_secure ek
  && negb (ek_encrypted_key_data ek) && (ek_key_length ek =? 0)
  && memeqzero (ek_key_nonce ek) && memeqzero (ek_eapol_key_iv ek)
  && memeqzero (ek_key_rsc ek) && memeqzero (ek_reserved ek).

(** ** The replies *)

(** [fresh] is what [l_malloc] leaves in the 16 bytes that are not cleared. *)
Definition eapol_create_common (fresh : nat → Z) (protocol version : Z) (secure : bool)
    (key_replay_counter : Z) (snonce : list Z) (extra_data : list Z) (key_type is_wpa : bool)
    (mic_len : Z) : eapol_key :=
  let extra_key_len := if mic_len =? 0 then 16 else 0 in
  let to_alloc := EAPOL_FRAME_LEN mic_len in
  let extra_len := zlen extra_data in
  mk_ek (u8 protocol) 3 (u16 (to_alloc + extra_len + extra_key_len - 4))
    (if is_wpa then EAPOL_DESCRIPTOR_TYPE_WPA else EAPOL_DESCRIPTOR_TYPE_80211)
    (negb (mic_len =? 0)) secure false false (mic_len =? 0) false 0
    (version mod 8) key_type 0 false false
    0 (u64 key_replay_counter) snonce (zeros 16) (zeros 8) (zeros 8)
    (zeros (Z.to_nat mic_len) ++ be16_bytes (extra_len + extra_key_len) ++ extra_data
       ++ l_malloc fresh extra_key_len).

Definition eapol_create_ptk_2_of_4 fresh (protocol version key_replay_counter : Z)
    (snonce extra_data : list Z) (is_wpa : bool) (mic_len : Z) : eapol_key :=
  eapol_create_common fresh protocol version false key_replay_counter snonce extra_data true
    is_wpa mic_len.

Definition eapol_create_ptk_4_of_4 fresh (protocol version key_replay_counter : Z)
    (is_wpa : bool) (mic_len : Z) : eapol_key :=
  eapol_create_common fresh protocol version (if is_wpa then false else true)
    key_replay_counter (zeros 32) [] true is_wpa mic_len.

Definition eapol_create_gtk_2_of_2 fresh (protocol version key_replay_counter : Z)
    (is_wpa : bool) (wpa_key_id mic_len : Z) : eapol_key :=
  let step2 := eapol_create_common fresh protocol version true key_replay_counter (zeros 32) []
                 false is_wpa mic_len in
  if is_wpa then step2 <| ek_wpa_key_id := wpa_key_id mod 4 |> else step2.

(** [memcpy(EAPOL_KEY_MIC(frame), mic, mic_len)] *)
Definition ek_set_mic (ek : eapol_key) (mic : list Z) : res eapol_key :=
  kd ← put (ek_key_data ek) 0 mic; Ok (ek <| ek_key_data := kd |>).

(** ** Layout: the view of a frame and its bytes *)

Definition ek_wf (e : eapol_key) : Prop :=
  byte_ok (ek_protocol_version e) ∧ byte_ok (ek_packet_type e) ∧ 0 ≤ ek_packet_len e < 65536 ∧
  byte_ok (ek_descriptor_type e) ∧ 0 ≤ ek_reserved2 e < 4 ∧ 0 ≤ ek_key_descriptor_version e < 8 ∧
  0 ≤ ek_wpa_key_id e < 4 ∧ 0 ≤ ek_key_length e < 65536 ∧ 0 ≤ ek_key_replay_counter e < 2 ^ 64 ∧
  zlen (ek_key_nonce e) = 32 ∧ zlen (ek_eapol_key_iv e) = 16 ∧ zlen (ek_key_rsc e) = 8 ∧
  zlen (ek_reserved e) = 8.

#[export] Instance ek_wf_dec e : Decision (ek_wf e).
Proof. unfold ek_wf. apply _. Defined.

Lemma info1_bits_inv b : byte_ok b →
  b2z (Z.testbit b 0) + 2 * b2z (Z.testbit b 1) + 4 * b2z (Z.testbit b 2)
  + 8 * b2z (Z.testbit b 3) + 16 * b2z (Z.testbit b 4) + 32 * b2z (Z.testbit b 5)
  + 64 * bit_field b 6 2 = b.
Proof.
  intros Hb. pattern b. apply (Forall_elem _ (seqZ 0 256)); [by_eval |].
  apply elem_of_seqZ. unfold byte_ok in Hb. lia.
Qed.

Lemma info2_bits_inv b : byte_ok b →
  bit_field b 0 3 + 8 * b2z (Z.testbit b 3) + 16 * bit_field b 4 2
  + 64 * b2z (Z.testbit b 6) + 128 * b2z (Z.testbit b 7) = b.
Proof.
  intros Hb. pattern b. apply (Forall_elem _ (seqZ 0 256)); [by_eval |].
  apply elem_of_seqZ. unfold byte_ok in Hb. lia.
Qed.

Lemma info1_bits a b c d e f r : 0 ≤ r < 4 →
  let z := b2z a + 2 * b2z b + 4 * b2z c + 8 * b2z d + 16 * b2z e + 32 * b2z f + 64 * r in
  Z.testbit z 0 = a ∧ Z.testbit z 1 = b ∧ Z.testbit z 2 = c ∧ Z.testbit z 3 = d ∧
  Z.testbit z 4 = e ∧ Z.testbit z 5 = f ∧ bit_field z 6 2 = r.
Proof.
  intros Hr. assert (r = 0 ∨ r = 1 ∨ r = 2 ∨ r = 3) as Hr' by lia.
  destruct a, b, c, d, e, f, Hr' as [-> | [-> | [-> | ->]]]; vm_compute; auto 10.
Qed.

Lemma info2_bits v a k b c : 0 ≤ v < 8 → 0 ≤ k < 4 →
  let z := v + 8 * b2z a + 16 * k + 64 * b2z b + 128 * b2z c in
  bit_field z 0 3 = v ∧ Z.testbit z 3 = a ∧ bit_field z 4 2 = k ∧ Z.testbit z 6 = b ∧
  Z.testbit z 7 = c.
Proof.
  intros Hv Hk.
  assert (v = 0 ∨ v = 1 ∨ v = 2 ∨ v = 3 ∨ v = 4 ∨ v = 5 ∨ v = 6 ∨ v = 7) as Hv' by lia.
  assert (k = 0 ∨ k = 1 ∨ k = 2 ∨ k = 3) as Hk' by lia. clear Hv Hk.
  destruct Hk' as [-> | [-> | [-> | ->]]], a, b, c;
    destruct Hv' as [-> | [-> | [-> | [-> | [-> | [-> | [-> | ->]]]]]]]; vm_compute; auto 10.
Qed.

Lemma u8_byte b : byte_ok b → u8 b = b.
Proof. apply u8_small. Qed.

Lemma be16_of_bytes v : 0 ≤ v < 65536 → be16_of (u8 (v / 256)) (u8 v) = v.
Proof. intros. pose proof (l_get_be16_bytes v [] ltac:(done)) as Hv. by injection Hv. Qed.

Lemma be16_bytes_of a b : byte_ok a → byte_ok b → be16_bytes (be16_of a b) = [a; b].
Proof.
  unfold byte_ok, be16_bytes, be16_of. intros.
  rewrite Z.div_add_l, (Z.div_small b), Z.add_0_r, (u8_small a) by lia.
  unfold u8. by rewrite Z.add_comm, Z.mod_add, Z.mod_small by lia.
Qed.

(** The digits of a number in base 256. *)
Lemma be32_of_bytes v : 0 ≤ v < 2 ^ 32 → be32_list (be32_bytes v) = v.
Proof.
  intros Hv. unfold be32_list, be32_bytes, u8. cbn [nth].
  change (2 ^ 24) with (256 * 256 * 256). change (2 ^ 16) with (256 * 256).
  change (2 ^ 8) with 256. rewrite <- !Z.div_div by lia.
  pose proof (Z_div_mod_eq_full v 256). pose proof (Z_div_mod_eq_full (v / 256) 256).
  pose proof (Z_div_mod_eq_full (v / 256 / 256) 256).
  rewrite (Z.mod_small (v / 256 / 256 / 256)); [lia |].
  split; [repeat apply Z.div_pos; lia |]. rewrite !Z.div_div by lia.
  apply Z.div_lt_upper_bound; lia.
Qed.

Lemma be32_bytes_of a b c d : byte_ok a → byte_ok b → byte_ok c → byte_ok d →
  be32_bytes (be32_list [a; b; c; d]) = [a; b; c; d].
Proof.
  unfold byte_ok, be32_bytes, be32_list. intros. cbn [nth].
  change (2 ^ 24) with (256 * 256 * 256). change (2 ^ 16) with (256 * 256).
  change (2 ^ 8) with 256. rewrite <- !Z.div_div by lia.
  assert (Hd : ∀ x y, 0 ≤ y < 256 → (x * 256 + y) / 256 = x).
  { intros. rewrite Z.div_add_l, Z.div_small by lia. lia. }
  assert (Hm : ∀ x y, 0 ≤ y < 256 → u8 (x * 256 + y) = y).
  { intros. unfold u8. change (2 ^ 8) with 256. rewrite Z.add_comm, Z.mod_add by lia. by apply Z.mod_small. }
  replace (a * (256 * 256 * 256) + b * (256 * 256) + c * 256 + d)
    with (((a * 256 + b) * 256 + c) * 256 + d) by lia.
  by rewrite !Hd, !Hm, u8_small by lia.
Qed.

Lemma u64_of_be32 a b : 0 ≤ b < 2 ^ 32 → (a * 2 ^ 32 + b) / 2 ^ 32 = a.
Proof. intros. rewrite Z.div_add_l, Z.div_small by lia. lia. Qed.

Lemma be32_bytes_mod v : be32_bytes (v mod 2 ^ 32) = be32_bytes v.
Proof.
  assert (Hd : ∀ k, 0 ≤ k ≤ 24 → u8 (v mod 2 ^ 32 / 2 ^ k) = u8 (v / 2 ^ k)).
  { intros k Hk. unfold u8. rewrite <- !Z.shiftr_div_pow2 by lia. apply Z.bits_inj'. intros n Hn.
    destruct (Z.lt_ge_cases n 8).
    - rewrite !Z.mod_pow2_bits_low, !Z.shiftr_spec, Z.mod_pow2_bits_low by lia. done.
    - by rewrite !Z.mod_pow2_bits_high by lia. }
  unfold be32_bytes. pose proof (Hd 0) as H0. rewrite !Z.div_1_r in H0. by rewrite !Hd, H0 by lia.
Qed.

Lemma be64_of_bytes v : 0 ≤ v < 2 ^ 64 → be64_of (be64_bytes v) = v.
Proof.
  intros. unfold be64_of. change (ptake (be64_bytes v) 4) with (be32_bytes (v / 2 ^ 32)).
  change (be64_bytes v +! 4) with (be32_bytes v). rewrite <- (be32_bytes_mod v).
  rewrite !be32_of_bytes.
  - pose proof (Z_div_mod_eq_full v (2 ^ 32)). lia.
  - apply Z.mod_pos_bound. lia.
  - split; [apply Z.div_pos | apply Z.div_lt_upper_bound]; lia.
Qed.

Lemma be32_of_range l : bytes_ok l → zlen l = 4 → 0 ≤ be32_list l < 2 ^ 32.
Proof.
  intros Hl Hn. destruct l as [|a [|b [|c [|d [|]]]]]; try (exfalso; unfold zlen in Hn; cbn in Hn; lia).
  decompose_Forall_hyps. unfold byte_ok in *. unfold be32_list. cbn [nth]. lia.
Qed.

Lemma be64_bytes_of l : bytes_ok l → zlen l = 8 → be64_bytes (be64_of l) = l ∧ 0 ≤ be64_of l < 2 ^ 64.
Proof.
  intros Hl Hn. unfold be64_of.
  pose proof (be32_of_range (ptake l 4) ltac:(auto with iwd) ltac:(rewrite zlen_ptake; lia)) as Ha.
  pose proof (be32_of_range (l +! 4) ltac:(auto with iwd) ltac:(rewrite zlen_padd; lia)) as Hb.
  split; [| lia]. unfold be64_bytes. rewrite u64_of_be32 by done.
  rewrite <- (be32_bytes_mod (_ + _)). rewrite Z.add_comm, Z.mod_add, Z.mod_small by lia.
  destruct l as [|a [|b [|c [|d [|e [|f [|g [|h [|]]]]]]]]]; try (exfalso; unfold zlen in Hn; cbn in Hn; lia).
  decompose_Forall_hyps.
  change (ptake [a; b; c; d; e; f; g; h] 4) with [a; b; c; d].
  change ([a; b; c; d; e; f; g; h] +! 4) with [e; f; g; h].
  change (be32_bytes (be32_list [a; b; c; d]) ++ be32_bytes (be32_list [e; f; g; h]) =
    [a; b; c; d; e; f; g; h]).
  by rewrite !be32_bytes_of.
Qed.

(** A frame of 81 bytes or more cut at the fields of the structure. *)
Lemma frame_split p : EK_SIZE ≤ zlen p → ∃ b0 b1 b2 b3 b4 b5 b6 b7 b8
  (ctr nonce iv rsc rsv rest : list Z),
  p = [b0; b1; b2; b3; b4; b5; b6; b7; b8] ++ ctr ++ nonce ++ iv ++ rsc ++ rsv ++ rest ∧
  zlen ctr = 8 ∧ zlen nonce = 32 ∧ zlen iv = 16 ∧ zlen rsc = 8 ∧ zlen rsv = 8.
Proof.
  unfold EK_SIZE. intros Hp.
  do 9 (destruct p as [|? p]; [exfalso; unfold zlen in Hp; cbn in Hp; lia |]).
  rewrite !zlen_cons in Hp.
  eexists _, _, _, _, _, _, _, _, _, (ptake p 8), (ptake (p +! 8) 32), (ptake (p +! 40) 16),
    (ptake (p +! 56) 8), (ptake (p +! 64) 8), (p +! 72).
  split; [| rewrite !zlen_ptake by (rewrite ?zlen_padd; lia); done].
  cbn [app]. do 9 f_equal.
  rewrite <- (ptake_padd_id p 8) at 1. f_equal.
  rewrite <- (ptake_padd_id (p +! 8) 32) at 1. rewrite (padd_padd p 8 32) by lia. f_equal.
  rewrite <- (ptake_padd_id (p +! (8 + 32)) 16) at 1. rewrite (padd_padd p (8 + 32) 16) by lia. f_equal.
  rewrite <- (ptake_padd_id (p +! (8 + 32 + 16)) 8) at 1.
  rewrite (padd_padd p (8 + 32 + 16) 8) by lia. f_equal.
  rewrite <- (ptake_padd_id (p +! (8 + 32 + 16 + 8)) 8) at 1.
  by rewrite (padd_padd p (8 + 32 + 16 + 8) 8) by lia.
Qed.

Lemma ek_view_fields b0 b1 b2 b3 b4 b5 b6 b7 b8 (ctr nonce iv rsc rsv rest : list Z) :
  zlen ctr = 8 → zlen nonce = 32 → zlen iv = 16 → zlen rsc = 8 → zlen rsv = 8 →
  ek_view ([b0; b1; b2; b3; b4; b5; b6; b7; b8] ++ ctr ++ nonce ++ iv ++ rsc ++ rsv ++ rest) =
    Ok (mk_ek b0 b1 (be16_of b2 b3) b4 (Z.testbit b5 0) (Z.testbit b5 1) (Z.testbit b5 2)
          (Z.testbit b5 3) (Z.testbit b5 4) (Z.testbit b5 5) (bit_field b5 6 2)
          (bit_field b6 0 3) (Z.testbit b6 3) (bit_field b6 4 2) (Z.testbit b6 6)
          (Z.testbit b6 7) (be16_of b7 b8) (be64_of ctr) nonce iv rsc rsv rest).
Proof.
  intros Hc Hn Hi Hr Hv. set (h := [b0; b1; b2; b3; b4; b5; b6; b7; b8]).
  assert (Hsz : zlen (h ++ ctr ++ nonce ++ iv ++ rsc ++ rsv) = EK_SIZE).
  { rewrite !zlen_app, Hc, Hn, Hi, Hr, Hv. done. }
  replace (h ++ ctr ++ nonce ++ iv ++ rsc ++ rsv ++ rest)
    with ((h ++ ctr ++ nonce ++ iv ++ rsc ++ rsv) ++ rest) by (by rewrite <- !app_assoc).
  unfold ek_view. rewrite rdn_app, bind_ok by done. rewrite (padd_app _ rest) by done.
  assert (Hcut : ∀ (a x b : list Z) n m, n = zlen a → m = zlen x → ptake ((a ++ x ++ b) +! n) m = x).
  { intros a x b n m -> ->. rewrite padd_app by done. by rewrite ptake_app. }
  f_equal. f_equal.
  - by rewrite (Hcut h ctr).
  - rewrite (app_assoc h). apply Hcut; [rewrite zlen_app, Hc |]; done.
  - rewrite (app_assoc h), (app_assoc (h ++ ctr)). apply Hcut; [rewrite !zlen_app, Hc, Hn |]; done.
  - rewrite (app_assoc h), (app_assoc (h ++ ctr)), (app_assoc ((h ++ ctr) ++ nonce)).
    apply Hcut; [rewrite !zlen_app, Hc, Hn, Hi |]; done.
  - rewrite (app_assoc h), (app_assoc (h ++ ctr)), (app_assoc ((h ++ ctr) ++ nonce)),
      (app_assoc (((h ++ ctr) ++ nonce) ++ iv)).
    rewrite <- (app_nil_r rsv) at 1. apply Hcut; [rewrite !zlen_app, Hc, Hn, Hi, Hr |]; done.
Qed.

(** Projections of an explicit structure. *)
Ltac ek_proj :=
  cbv beta iota delta [ek_protocol_version ek_packet_type ek_packet_len ek_descriptor_type
    ek_key_mic ek_secure ek_error ek_request ek_encrypted_key_data ek_smk_message ek_reserved2
    ek_key_descriptor_version ek_key_type ek_wpa_key_id ek_install ek_key_ack ek_key_length
    ek_key_replay_counter ek_key_nonce ek_eapol_key_iv ek_key_rsc ek_reserved ek_key_data].

Lemma ek_header_length e : ek_wf e → zlen (ek_header e) = EK_SIZE.
Proof.
  intros (_ & _ & _ & _ & _ & _ & _ & _ & _ & Hn & Hi & Hr & Hv).
  unfold ek_header. rewrite !zlen_app, Hn, Hi, Hr, Hv. done.
Qed.

Lemma ek_view_of_bytes e : ek_wf e → ek_view (ek_bytes e) = Ok e.
Proof.
  intros (Hpv & Hpt & Hpl & Hdt & Hr2 & Hkd & Hid & Hkl & Hrc & Hn & Hi & Hr & Hv).
  unfold ek_bytes, ek_header, be16_bytes. rewrite <- !app_assoc. cbn [app].
  etransitivity; [apply ek_view_fields; done |].
  rewrite !be16_of_bytes, be64_of_bytes by done. unfold ek_info1, ek_info2.
  destruct (info1_bits (ek_key_mic e) (ek_secure e) (ek_error e) (ek_request e)
    (ek_encrypted_key_data e) (ek_smk_message e) _ Hr2) as (-> & -> & -> & -> & -> & -> & ->).
  destruct (info2_bits _ (ek_key_type e) _ (ek_install e) (ek_key_ack e) Hkd Hid)
    as (-> & -> & -> & -> & ->).
  by destruct e.
Qed.

Lemma ek_bytes_of_view p : bytes_ok p → EK_SIZE ≤ zlen p →
  ∃ e, ek_view p = Ok e ∧ ek_bytes e = p ∧ ek_wf e.
Proof.
  intros Hok Hlen. destruct (frame_split p Hlen) as (b0 & b1 & b2 & b3 & b4 & b5 & b6 & b7 & b8 &
    ctr & nonce & iv & rsc & rsv & rest & -> & Hc & Hn & Hi & Hr & Hv).
  apply Forall_app in Hok as [Hh Hok]. apply Forall_app in Hok as [Hctr _].
  destruct (be64_bytes_of ctr Hctr Hc) as [He Hrange]. decompose_Forall_hyps.
  eexists. split; [by apply ek_view_fields |]. split.
  - unfold ek_bytes, ek_header, ek_info1, ek_info2.
    ek_proj. cbn [app].
    rewrite info1_bits_inv, info2_bits_inv, He by done.
    rewrite !be16_bytes_of by done. cbn [app]. by rewrite <- !app_assoc.
  - unfold ek_wf, byte_ok in *. cbn. pose proof (bit_field_range b5 6 2 ltac:(lia)).
    pose proof (bit_field_range b6 0 3 ltac:(lia)). pose proof (bit_field_range b6 4 2 ltac:(lia)).
    unfold be16_of. repeat split; try lia.
Qed.

(** [struct eapol_key] and its wire format determine each other: every frame of at least
    81 bytes is viewed as a well-formed structure whose bytes are the frame, and the bytes of
    every well-formed structure, bit fields and big-endian counters included, are viewed as
    that structure. *)
Theorem eapol_key_layout_roundtrip :
  (∀ p, bytes_ok p → EK_SIZE ≤ zlen p → ∃ e, ek_view p = Ok e ∧ ek_bytes e = p ∧ ek_wf e) ∧
  (∀ e, ek_wf e → ek_view (ek_bytes e) = Ok e).
Proof. split; [apply ek_bytes_of_view | apply ek_view_of_bytes]. Qed.

Lemma eapol_key_layout_roundtrip_witness :
  ∃ e, ek_view (ek_bytes (eapol_create_ptk_4_of_4 (λ _, 0) 2 2 7 false 16)) = Ok e ∧
    ek_key_replay_counter e = 7 ∧ ek_secure e = true.
Proof.
  eexists. split; [apply (proj2 eapol_key_layout_roundtrip); by_eval | done].
Defined.

(** ** Validation *)

Definition key_frame_ok (frame : ptr) (len mic_len : Z) (ek : eapol_key) : Prop :=
  ek_bytes ek = frame ∧ ek_wf ek ∧
  (∃ n, ek_data_len ek mic_len = Ok n ∧ 0 ≤ n ∧ EAPOL_FRAME_LEN mic_len + n ≤ len) ∧
  1 ≤ ek_protocol_version ek ≤ 3 ∧ ek_packet_type ek = 3 ∧
  (ek_descriptor_type ek = 1 ∨ ek_descriptor_type ek = 2 ∨ ek_descriptor_type ek = 254) ∧
  ek_key_descriptor_version ek ≤ 3.

Lemma l_get_be16_in p : bytes_ok p → 2 ≤ zlen p → ∃ v, l_get_be16 p = Ok v ∧ 0 ≤ v < 65536.
Proof.
  intros Hp Hl. destruct (rd_in p 0 ltac:(lia)) as (a & Ha & _).
  destruct (rd_in p 1 ltac:(lia)) as (b & Hb & _). unfold l_get_be16. rewrite Ha, Hb. eexists.
  split; [done |]. pose proof (rd_byte_ok _ _ _ Hp Ha). pose proof (rd_byte_ok _ _ _ Hp Hb).
  unfold byte_ok, be16_of in *. lia.
Qed.

Lemma ek_key_data_length ek : ek_wf ek → zlen (ek_key_data ek) = zlen (ek_bytes ek) - EK_SIZE.
Proof. intros. unfold ek_bytes. rewrite zlen_app, ek_header_length by done. lia. Qed.

Lemma ek_key_data_ok ek : bytes_ok (ek_bytes ek) → bytes_ok (ek_key_data ek).
Proof. unfold ek_bytes. by intros [_ ?]%Forall_app. Qed.

Lemma ek_bytes_inj e1 e2 : ek_wf e1 → ek_wf e2 → ek_bytes e1 = ek_bytes e2 → e1 = e2.
Proof.
  intros H1 H2 E. apply ek_view_of_bytes in H1, H2. rewrite E in H1. congruence.
Qed.

Lemma eqb3_spec v a b c : (v =? a) || (v =? b) || (v =? c) = true ↔ v = a ∨ v = b ∨ v = c.
Proof. rewrite !orb_true_iff, !Z.eqb_eq. tauto. Qed.

(** [eapol_key_validate] never reads past the [len] bytes of the frame, and it returns
    the frame exactly when the structure, the MIC, the length field and the key data it
    announces fit in [len] bytes and the four enumerated fields have a known value. *)
Theorem eapol_key_validate_correct frame len mic_len :
  bytes_ok frame → len ≤ zlen frame → 0 ≤ mic_len →
  ∃ r, eapol_key_validate frame len mic_len = Ok r ∧
    ∀ ek, r = Some ek ↔ key_frame_ok frame len mic_len ek.
Proof.
  intros Hok Hlen Hm. unfold eapol_key_validate, EAPOL_FRAME_LEN. case_b.
  { exists None. split; [done |]. intros ek. split; [done |].
    intros (_ & _ & (n & _ & ? & ?) & _). unfold EAPOL_FRAME_LEN in *. lia. }
  destruct (ek_bytes_of_view frame Hok) as (e & He & Hb & Hwf); [unfold EK_SIZE in *; lia |].
  rewrite He, bind_ok.
  destruct (l_get_be16_in (ek_key_data e +! mic_len)) as (n & Hn & Hr).
  { apply padd_Forall, ek_key_data_ok. by rewrite Hb. }
  { rewrite zlen_padd; rewrite ek_key_data_length, Hb by done; lia. }
  change (l_get_be16 (ek_key_data e +! mic_len)) with (ek_data_len e mic_len) in Hn.
  rewrite Hn, bind_ok.
  assert (Hinj : ∀ ek, ek_bytes ek = frame → ek_wf ek → ek = e).
  { intros ek E Hw. apply ek_bytes_inj; congruence. }
  unfold EAPOL_PROTOCOL_VERSION_2001, EAPOL_PROTOCOL_VERSION_2004, EAPOL_PROTOCOL_VERSION_2010,
    EAPOL_DESCRIPTOR_TYPE_RC4, EAPOL_DESCRIPTOR_TYPE_80211, EAPOL_DESCRIPTOR_TYPE_WPA,
    EAPOL_KEY_DESCRIPTOR_VERSION_HMAC_MD5_ARC4, EAPOL_KEY_DESCRIPTOR_VERSION_HMAC_SHA1_AES,
    EAPOL_KEY_DESCRIPTOR_VERSION_AES_128_CMAC_AES, EAPOL_KEY_DESCRIPTOR_VERSION_AKM_DEFINED.
  assert (Hver : 0 ≤ ek_key_descriptor_version e < 8) by apply Hwf.
  assert (Hno : ∀ r : option eapol_key, r = None → ¬ key_frame_ok frame len mic_len e →
    ∃ r', Ok r = Ok r' ∧ ∀ ek, r' = Some ek ↔ key_frame_ok frame len mic_len ek).
  { intros r -> Hk. exists None. split; [done |]. intros ek. split; [done |]. intros Hek.
    destruct Hk. by rewrite <- (Hinj ek (proj1 Hek) (proj1 (proj2 Hek))). }
  destruct (Z.ltb_spec len (EK_SIZE + mic_len + 2 + n)).
  { apply Hno; [done |]. intros (_ & _ & (n' & Hn' & ? & ?) & _). unfold EAPOL_FRAME_LEN in *.
    assert (n' = n) by congruence. lia. }
  destruct (_ || _ || (ek_protocol_version e =? 3)) eqn:E1; cbn [negb].
  2: { apply Hno; [done |]. intros (_ & _ & _ & Hv & _). apply not_true_iff_false in E1.
       rewrite eqb3_spec in E1. lia. }
  destruct (Z.eqb_spec (ek_packet_type e) 3); cbn [negb]; [| by apply Hno; [| intros (_ & _ & _ & _ & ? & _)]].
  destruct (_ || _ || (ek_descriptor_type e =? 254)) eqn:E2; cbn [negb].
  2: { apply Hno; [done |]. intros (_ & _ & _ & _ & _ & Hv & _). apply not_true_iff_false in E2.
       rewrite eqb3_spec in E2. lia. }
  apply eqb3_spec in E1, E2. rewrite <- orb_assoc.
  destruct (_ || _) eqn:E3; cbn [negb].
  - exists (Some e). split; [done |]. intros ek. split; [| intros Hek; f_equal; symmetry; by apply Hinj; apply Hek].
    intros [= <-]. rewrite !orb_true_iff, !Z.eqb_eq in E3. split_and!; try done; try lia.
    exists n. split_and!; done || (unfold EAPOL_FRAME_LEN; lia).
  - apply Hno; [done |]. intros (_ & _ & _ & _ & _ & _ & Hv).
    rewrite !orb_false_iff, !Z.eqb_neq in E3. lia.
Qed.

Definition ptk_4_frame : list Z := ek_bytes (eapol_create_ptk_4_of_4 (λ _, 0) 2 2 7 false 16).

Lemma eapol_key_validate_correct_witness :
  ∃ r, eapol_key_validate ptk_4_frame (zlen ptk_4_frame) 16 = Ok r ∧
    ∀ ek, r = Some ek ↔ key_frame_ok ptk_4_frame (zlen ptk_4_frame) 16 ek.
Proof. apply eapol_key_validate_correct; by_eval. Defined.

(** ** The MIC *)

(** The frame with its MIC field cleared. *)
Definition ek_zero_mic (ek : eapol_key) (mic_len : Z) : eapol_key :=
  ek <| ek_key_data := zeros (Z.to_nat mic_len) ++ (ek_key_data ek +! mic_len) |>.

Lemma zeros_length n : 0 ≤ n → zlen (zeros (Z.to_nat n)) = n.
Proof. apply zlen_replicate. Qed.

Lemma ek_zero_mic_data_len ek m : 0 ≤ m → ek_data_len (ek_zero_mic ek m) m = ek_data_len ek m.
Proof.
  intros. unfold ek_data_len, ek_zero_mic. cbn. rewrite padd_app; [done |]. by rewrite zeros_length.
Qed.

Lemma ek_bytes_set_key_data ek kd : ek_bytes (ek <| ek_key_data := kd |>) = ek_header ek ++ kd.
Proof. done. Qed.

Lemma l_get_be16_range p v : bytes_ok p → l_get_be16 p = Ok v → 0 ≤ v < 65536 ∧ 2 ≤ zlen p.
Proof.
  intros Hp H. pose proof H as H'. unfold l_get_be16 in H'. inv_bind H'. inv_bind H'.
  destruct (rd_inv _ _ _ Hr0) as [? _]. destruct (l_get_be16_in p Hp) as (v' & ? & ?); [lia |].
  assert (v' = v) by congruence. lia.
Qed.

(** The bytes the MIC is computed over. *)
Lemma ek_zero_mic_bytes ek m n :
  ek_wf ek → 0 ≤ m → 0 ≤ n → m + 2 + n ≤ zlen (ek_key_data ek) →
  rdn (ek_bytes (ek_zero_mic ek m)) (EAPOL_FRAME_LEN m + n) =
    Ok (ek_header ek ++ zeros (Z.to_nat m) ++ ptake (ek_key_data ek +! m) (n + 2)).
Proof.
  intros Hw Hm Hn Hl. pose proof (ek_header_length ek Hw) as Hh.
  unfold ek_zero_mic. rewrite ek_bytes_set_key_data. unfold EAPOL_FRAME_LEN.
  rewrite rdn_ok by (rewrite !zlen_app, zeros_length, zlen_padd by lia; unfold EK_SIZE in *; lia).
  f_equal. replace (EK_SIZE + m + 2 + n) with (EK_SIZE + (m + (n + 2))) by lia.
  rewrite ptake_app_split, ptake_app, padd_app by (done || unfold EK_SIZE; lia). f_equal.
  rewrite ptake_app_split by lia.
  by rewrite (ptake_app (zeros _)), (padd_app (zeros _)) by (by rewrite zeros_length).
Qed.

(** The leading [mic_len] bytes of a digest that is at least as long. *)
Lemma rdn_length p n l : rdn p n = Ok l → zlen l = n.
Proof. intros [? ->]%rdn_inv. by apply zlen_ptake. Qed.

(** A checksum whose digests have at least [n] bytes. *)
Definition digests_at_least (n : Z) (f : list Z → list Z) : Prop := ∀ d, n ≤ zlen (f d).

(** What [eapol_calculate_mic] stores is the digest of the checksum [eapol_verify_mic]
    creates for the same frame. *)
Lemma calculate_mic_checksum `{EllLaws} akm kck ek mic m mic_len :
  mic_len ≤ 16 ∨ akm = IE_RSN_AKM_SUITE_OWE ∧ ek_key_descriptor_version ek = 0 →
  eapol_calculate_mic akm kck ek mic mic_len = Ok (Some m) →
  ∃ n f data, ek_data_len ek mic_len = Ok n ∧
    verify_mic_checksum akm kck (ek_key_descriptor_version ek) mic_len = Ok (Some f) ∧
    rdn (ek_bytes ek) (EAPOL_FRAME_LEN mic_len + n) = Ok data ∧
    m = ptake (f data) mic_len ∧ 0 ≤ mic_len ≤ 32 ∧ digests_at_least mic_len f.
Proof.
  intros Hlen Hc. unfold eapol_calculate_mic in Hc. inv_bind Hc. rename r into n.
  exists n.
  assert (Hm32 : mic_len ≤ 32).
  { destruct Hlen as [? | [-> V]]; [lia |]. rewrite V in Hc. cbn in Hc. repeat case_b; lia || done. }
  assert (Hgo : ∀ len (mk : list Z → option (list Z → list Z)),
    (∀ key f, mk key = Some f → digests_at_least mic_len f) →
    (key ← rdn kck len; data ← rdn (ek_bytes ek) (EAPOL_FRAME_LEN mic_len + n);
     out ← rdn mic mic_len;
     Ok (match mk key with None => None | Some f => Some (digest_into (f data) out) end)) = Ok (Some m) →
    ∃ f data, (key ← rdn kck len; Ok (mk key)) = Ok (Some f) ∧
      rdn (ek_bytes ek) (EAPOL_FRAME_LEN mic_len + n) = Ok data ∧
      m = ptake (f data) mic_len ∧ 0 ≤ mic_len ∧ digests_at_least mic_len f).
  { intros len mk Hmk Hk. inv_bind Hk. inv_bind Hk. inv_bind Hk.
    destruct (mk r) as [f|] eqn:Ef; [| done]. exists f, r0. rewrite Hr0, bind_ok, Ef.
    pose proof (rdn_length _ _ _ Hr2) as Hl2. pose proof (Hmk _ _ Ef) as Hd.
    apply rdn_inv in Hr2 as [? _]. injection Hk as <-. rewrite digest_into_long, Hl2; [| rewrite Hl2; apply Hd].
    split_and!; done || lia. }
  assert (Hg : ∀ chk, (∃ f data, chk = Ok (Some f) ∧
      rdn (ek_bytes ek) (EAPOL_FRAME_LEN mic_len + n) = Ok data ∧
      m = ptake (f data) mic_len ∧ 0 ≤ mic_len ∧ digests_at_least mic_len f) →
    ∃ f data, ek_data_len ek mic_len = Ok n ∧ chk = Ok (Some f) ∧
      rdn (ek_bytes ek) (EAPOL_FRAME_LEN mic_len + n) = Ok data ∧
      m = ptake (f data) mic_len ∧ 0 ≤ mic_len ≤ 32 ∧ digests_at_least mic_len f)
    by (intros chk (f & data & ? & ? & ? & ? & ?); exists f, data; split_and!; done || lia).
  apply Hg. clear Hg. unfold verify_mic_checksum.
  assert (Hmac : ∀ t, mic_len ≤ l_checksum_digest_length t →
    ∀ key f, l_checksum_new_hmac t key = Some f → digests_at_least mic_len f).
  { intros t Ht key f Hf d. by destruct (hmac_ok t key f d Hf) as [-> _]. }
  assert (Hcmac : mic_len ≤ 16 →
    ∀ key f, l_checksum_new_cmac_aes key = Some f → digests_at_least mic_len f).
  { intros Hm key f Hf d. by destruct (cmac_ok key f d Hf) as [-> _]. }
  unfold EAPOL_KEY_DESCRIPTOR_VERSION_AKM_DEFINED in *.
  destruct (ek_key_descriptor_version ek =? EAPOL_KEY_DESCRIPTOR_VERSION_HMAC_MD5_ARC4) eqn:V1.
  { apply Z.eqb_eq in V1. destruct Hlen as [Hlen | [_ V]]; [| by rewrite V in V1].
    apply Hgo in Hc; [exact Hc |]. apply Hmac. cbn. lia. }
  destruct (ek_key_descriptor_version ek =? EAPOL_KEY_DESCRIPTOR_VERSION_HMAC_SHA1_AES) eqn:V2.
  { apply Z.eqb_eq in V2. destruct Hlen as [Hlen | [_ V]]; [| by rewrite V in V2].
    apply Hgo in Hc; [exact Hc |]. apply Hmac. cbn. lia. }
  destruct (ek_key_descriptor_version ek =? EAPOL_KEY_DESCRIPTOR_VERSION_AES_128_CMAC_AES) eqn:V3.
  { apply Z.eqb_eq in V3. destruct Hlen as [Hlen | [_ V]]; [| by rewrite V in V3].
    apply Hgo in Hc; [exact Hc |]. apply Hcmac. lia. }
  destruct (ek_key_descriptor_version ek =? 0) eqn:V0; [| done].
  destruct (_ || (akm =? IE_RSN_AKM_SUITE_OSEN)) eqn:Ea.
  { destruct Hlen as [Hlen | [-> _]]; [| done]. apply Hgo in Hc; [exact Hc |]. apply Hcmac. lia. }
  destruct (akm =? IE_RSN_AKM_SUITE_OWE); [| done].
  destruct (mic_len =? 16) eqn:E16.
  { apply Z.eqb_eq in E16. subst. apply Hgo in Hc; [exact Hc |]. apply Hmac. cbn. lia. }
  destruct (mic_len =? 24) eqn:E24; [| done].
  apply Z.eqb_eq in E24. subst. apply Hgo in Hc; [exact Hc |]. apply Hmac. cbn. lia.
Qed.

(** The decision of [eapol_verify_mic], in terms of [eapol_calculate_mic]. *)
Lemma verify_mic_spec `{EllLaws} akm kck ek mic m mic_len n :
  ek_wf ek → 0 ≤ n →
  mic_len ≤ 16 ∨ akm = IE_RSN_AKM_SUITE_OWE ∧ ek_key_descriptor_version ek = 0 →
  ek_data_len ek mic_len = Ok n → mic_len + 2 + n ≤ zlen (ek_key_data ek) →
  eapol_calculate_mic akm kck (ek_zero_mic ek mic_len) mic mic_len = Ok (Some m) →
  eapol_verify_mic akm kck ek mic_len = Ok (bool_decide (ptake (ek_key_data ek) mic_len = m)).
Proof.
  intros Hw Hn0 Hlen Hn Hl Hc.
  apply calculate_mic_checksum in Hc as (n' & f & data & Hn' & Hf & Hd & -> & Hm & Hlong); [| done].
  rewrite ek_zero_mic_data_len in Hn' by lia. assert (n' = n) as -> by congruence.
  rewrite ek_zero_mic_bytes in Hd by (done || lia). injection Hd as <-.
  unfold eapol_verify_mic. rewrite Hn, bind_ok.
  change (ek_key_descriptor_version (ek_zero_mic ek mic_len)) with (ek_key_descriptor_version ek) in Hf.
  rewrite Hf, bind_ok.
  rewrite (rdn_ok (zeros 32)), bind_ok by (change (zlen (zeros 32)) with 32; lia).
  assert (Hz : ptake (zeros 32) mic_len = zeros (Z.to_nat mic_len)).
  { unfold ptake, zeros. rewrite take_replicate. f_equal. lia. }
  rewrite Hz, rdn_ok, bind_ok by (rewrite zlen_padd; lia).
  rewrite digest_into_long; rewrite zeros_length by lia; [| apply Hlong].
  rewrite memeq_ok; rewrite zlen_ptake; try lia; [done | split; [lia | apply Hlong]..].
Qed.

(** [eapol_verify_mic] accepts a frame exactly when its MIC field holds what
    [eapol_calculate_mic] computes, with the same AKM and key, for the frame with a cleared
    MIC field; in particular the frame a peer completes with [eapol_calculate_mic] is
    accepted. *)
Theorem eapol_verify_mic_correct `{EllLaws} akm kck ek mic m mic_len n :
  ek_wf ek → 0 ≤ n →
  mic_len ≤ 16 ∨ akm = IE_RSN_AKM_SUITE_OWE ∧ ek_key_descriptor_version ek = 0 →
  ek_data_len ek mic_len = Ok n → mic_len + 2 + n ≤ zlen (ek_key_data ek) →
  eapol_calculate_mic akm kck (ek_zero_mic ek mic_len) mic mic_len = Ok (Some m) →
  eapol_verify_mic akm kck ek mic_len = Ok (bool_decide (ptake (ek_key_data ek) mic_len = m)).
Proof. apply verify_mic_spec. Qed.

(** with OWE and a 64-byte PMK (group 21) the MIC is 32 bytes long and
    [eapol_verify_mic] has a checksum for it, but [eapol_calculate_mic] has no case for it:
    it returns [false] for every frame whose length field can be read, so no reply can be
    sent. *)
Theorem eapol_owe_group21_no_mic `{Ell} kck ek mic n f :
  ek_key_descriptor_version ek = EAPOL_KEY_DESCRIPTOR_VERSION_AKM_DEFINED →
  ek_data_len ek 32 = Ok n → 32 ≤ zlen kck →
  l_checksum_new_hmac L_CHECKSUM_SHA512 (ptake kck 32) = Some f →
  eapol_get_mic_length IE_RSN_AKM_SUITE_OWE 64 = 32 ∧
  verify_mic_checksum IE_RSN_AKM_SUITE_OWE kck (ek_key_descriptor_version ek) 32 = Ok (Some f) ∧
  eapol_calculate_mic IE_RSN_AKM_SUITE_OWE kck ek mic 32 = Ok None.
Proof.
  intros Hv Hn Hk Hf. unfold eapol_calculate_mic. rewrite Hn, Hv. split_and!; [done | | done].
  unfold verify_mic_checksum. cbn. by rewrite rdn_ok, bind_ok, Hf by lia.
Qed.

(** ** The replies pass the checks of the peer *)

(** The well-formedness of a frame does not depend on its key data. *)
Lemma ek_wf_set_key_data ek kd : ek_wf ek → ek_wf (ek <| ek_key_data := kd |>).
Proof. done. Qed.

Lemma put_mic m mic rest : 0 ≤ m → zlen mic = m → put (zeros (Z.to_nat m) ++ rest) 0 mic = Ok (mic ++ rest).
Proof. intros. apply put_head. by rewrite zeros_length. Qed.

(** A complete reply: once any MIC has been stored in it, the frame occupies the announced
    length and the receiver's [eapol_key_validate] and [verify] accept it. *)
Definition reply_accepted (mic_len : Z) (verify : eapol_key → bool) (f : eapol_key) : Prop :=
  ∀ mic, zlen mic = mic_len → bytes_ok mic → ∃ f', ek_set_mic f mic = Ok f' ∧
    zlen (ek_bytes f') = 4 + ek_packet_len f' ∧ ptake (ek_key_data f') mic_len = mic ∧
    eapol_key_validate (ek_bytes f') (4 + ek_packet_len f') mic_len = Ok (Some f') ∧
    verify f' = true.

Lemma zeros_ok n : bytes_ok (zeros n).
Proof. apply Forall_replicate. done. Qed.

(** The common part of the three replies. *)
Lemma create_common_validate fresh protocol version secure rc snonce extra kt is_wpa kid mic_len mic :
  0 < mic_len ≤ 32 → 1 ≤ protocol ≤ 3 → 0 ≤ version ≤ 3 → 0 ≤ kid < 4 →
  zlen snonce = 32 → bytes_ok snonce → bytes_ok extra → zlen extra ≤ 1024 →
  zlen mic = mic_len → bytes_ok mic →
  let f := (eapol_create_common fresh protocol version secure rc snonce extra kt is_wpa mic_len)
             <| ek_wpa_key_id := kid |> in
  let f' := f <| ek_key_data := mic ++ be16_bytes (zlen extra) ++ extra |> in
  ek_set_mic f mic = Ok f' ∧ zlen (ek_bytes f') = 4 + ek_packet_len f' ∧
  ptake (ek_key_data f') mic_len = mic ∧
  eapol_key_validate (ek_bytes f') (4 + ek_packet_len f') mic_len = Ok (Some f').
Proof.
  intros Hm Hp Hv Hk Hn Hnok Hx Hxl Hmic Hmok f f'. pose proof (zlen_nonneg extra) as Hx0.
  assert (Hwf : ek_wf f').
  { unfold ek_wf, byte_ok. cbn -[u8 u16 u64 zeros]. rewrite !u8_small by lia.
    pose proof (u64_range rc). pose proof (u16_range (EAPOL_FRAME_LEN mic_len + zlen extra
      + (if mic_len =? 0 then 16 else 0) - 4)).
    pose proof (Z.mod_pos_bound version 8 ltac:(lia)). destruct is_wpa; split_and!; done || lia. }
  assert (Hset : ek_set_mic f mic = Ok f').
  { unfold ek_set_mic. cbn -[zeros put be16_bytes]. rewrite put_mic by lia. cbn -[be16_bytes].
    unfold f', f. destruct (Z.eqb_spec mic_len 0); [lia |]. rewrite Z.add_0_r. cbn -[be16_bytes].
    by rewrite app_nil_r. }
  assert (Hplen : ek_packet_len f' = EAPOL_FRAME_LEN mic_len + zlen extra - 4).
  { cbn -[u16]. destruct (Z.eqb_spec mic_len 0); [lia |]. unfold EAPOL_FRAME_LEN, EK_SIZE.
    rewrite u16_small; lia. }
  assert (Hbl : zlen (ek_bytes f') = 4 + ek_packet_len f').
  { unfold ek_bytes. rewrite zlen_app, ek_header_length by done. rewrite Hplen.
    unfold EAPOL_FRAME_LEN. change (ek_key_data f') with (mic ++ be16_bytes (zlen extra) ++ extra).
    rewrite !zlen_app. change (zlen (be16_bytes (zlen extra))) with 2. lia. }
  split_and!; [done | done | by apply ptake_app |].
  unfold eapol_key_validate. rewrite ek_view_of_bytes, bind_ok by done.
  assert (ek_data_len f' mic_len = Ok (zlen extra)) as ->.
  { unfold ek_data_len. change (ek_key_data f') with (mic ++ be16_bytes (zlen extra) ++ extra).
    rewrite padd_app by done. apply l_get_be16_bytes. lia. }
  rewrite Hplen, bind_ok.
  destruct (Z.ltb_spec (4 + (EAPOL_FRAME_LEN mic_len + zlen extra - 4)) (EAPOL_FRAME_LEN mic_len)); [lia |].
  destruct (Z.ltb_spec (4 + (EAPOL_FRAME_LEN mic_len + zlen extra - 4))
              (EAPOL_FRAME_LEN mic_len + zlen extra)); [lia |].
  change (ek_protocol_version f') with (u8 protocol). rewrite u8_small by lia.
  change (ek_packet_type f') with 3. change (ek_key_descriptor_version f') with (version mod 8).
  rewrite (Z.mod_small version) by lia.
  assert (protocol = 1 ∨ protocol = 2 ∨ protocol = 3) as Hp' by lia.
  assert (version = 0 ∨ version = 1 ∨ version = 2 ∨ version = 3) as Hv' by lia.
  change (ek_descriptor_type f') with (if is_wpa then 254 else 2).
  destruct is_wpa, Hp' as [-> | [-> | ->]], Hv' as [-> | [-> | [-> | ->]]]; reflexivity.
Qed.

(** The checks on an explicit structure. *)
Ltac unfold_verify :=
  unfold eapol_verify_ptk_2_of_4, eapol_verify_ptk_4_of_4, eapol_verify_gtk_2_of_2,
    VERIFY_PTK_COMMON, VERIFY_GTK_COMMON; cbn -[Z.eqb].

(** the replies of the supplicant pass the checks of the authenticator: messages 2/4 and
    4/4 and the group message 2/2 built by [eapol_create_*], completed with any MIC of the
    negotiated length, are as long as they announce and are accepted by
    [eapol_key_validate] and by the [eapol_verify_*] function of that message. *)
Theorem eapol_replies_accepted fresh protocol version rc snonce extra is_wpa kid mic_len :
  0 < mic_len ≤ 32 → 1 ≤ protocol ≤ 3 → 0 ≤ version ≤ 3 → 0 ≤ kid < 4 →
  zlen snonce = 32 → bytes_ok snonce → bytes_ok extra → zlen extra ≤ 1024 →
  reply_accepted mic_len eapol_verify_ptk_2_of_4
    (eapol_create_ptk_2_of_4 fresh protocol version rc snonce extra is_wpa mic_len) ∧
  reply_accepted mic_len (λ f, eapol_verify_ptk_4_of_4 f is_wpa)
    (eapol_create_ptk_4_of_4 fresh protocol version rc is_wpa mic_len) ∧
  reply_accepted mic_len (λ f, eapol_verify_gtk_2_of_2 f is_wpa)
    (eapol_create_gtk_2_of_2 fresh protocol version rc is_wpa kid mic_len).
Proof.
  intros Hm Hp Hv Hk Hn Hnok Hx Hxl.
  assert (Hne : (mic_len =? 0) = false) by (apply Z.eqb_neq; lia).
  split_and!; intros mic Hmic Hmok.
  - destruct (create_common_validate fresh protocol version false rc snonce extra true is_wpa 0
      mic_len mic) as (Hs & Hl & Ht & Hval); try done; try apply zeros_ok. eexists. split; [exact Hs |].
    split_and!; [done.. |]. unfold_verify.
    by rewrite Hne.
  - destruct (create_common_validate fresh protocol version (if is_wpa then false else true) rc
      (zeros 32) [] true is_wpa 0 mic_len mic) as (Hs & Hl & Ht & Hval); try done; try apply zeros_ok.
    eexists. split; [exact Hs |]. split_and!; [done.. |]. unfold_verify. rewrite Hne. by destruct is_wpa.
  - destruct (create_common_validate fresh protocol version true rc (zeros 32) [] false is_wpa
      (if is_wpa then kid mod 4 else 0) mic_len mic) as (Hs & Hl & Ht & Hval); try done; try apply zeros_ok.
    { pose proof (Z.mod_pos_bound kid 4 ltac:(lia)). destruct is_wpa; lia. }
    destruct is_wpa; (eexists; split; [exact Hs |]; split_and!; [done.. |];
      unfold_verify; by rewrite Hne).
Qed.

(** ** Key data: decryption undoes encryption *)

Lemma fte_padded_len_eq n : 0 ≤ n → fte_padded_len n = if n <? 16 then 16 else 8 * ((n + 7) / 8).
Proof. intros. unfold fte_padded_len. case_b; [done | by apply align_len_8]. Qed.

Lemma needs_pad_spec n : 0 ≤ n →
  if needs_pad n then n < fte_padded_len n ∧ fte_padded_len (n + 1) = fte_padded_len n
  else fte_padded_len n = n.
Proof.
  intros Hn. rewrite !fte_padded_len_eq by lia. unfold needs_pad.
  repeat case_b; cbn; Z.div_mod_to_equations; lia.
Qed.

Lemma pad_key_data_ok k : ∀ fuel l spare,
  fte_padded_len (zlen l) - zlen l = Z.of_nat k → (k < fuel)%nat → Z.of_nat k ≤ zlen spare →
  pad_key_data fuel (l ++ spare) (zlen l) =
    Ok (l ++ zeros k ++ (spare +! Z.of_nat k), fte_padded_len (zlen l)).
Proof.
  induction k as [|k IH]; intros [|fuel] l spare Hk Hf Hs; try lia; cbn [pad_key_data];
    pose proof (zlen_nonneg l) as Hl; pose proof (needs_pad_spec (zlen l) Hl) as Hp;
    destruct (needs_pad _); try lia.
  - rewrite Hp. done.
  - unfold put1. rewrite put_next, bind_ok by (done || rewrite zlen_cons, zlen_nil; lia).
    change (u8 0) with 0.
    assert (Hl1 : zlen (l ++ [0]) = zlen l + 1) by (rewrite zlen_app; done).
    rewrite <- Hl1, IH; rewrite ?Hl1; destruct Hp as [_ Hp]; rewrite ?Hp; try lia.
    + change (zlen [0]) with 1. rewrite padd_padd, <- app_assoc by lia.
      replace (1 + Z.of_nat k) with (Z.of_nat (S k)) by lia. done.
    + change (zlen [0]) with 1. rewrite zlen_padd; lia.
Qed.

(** The two padding steps of [eapol_encrypt_key_data]. *)
Lemma append_padding_ok data spare : 17 ≤ zlen spare → ∃ spare',
  append_padding (data ++ spare) (zlen data) =
    Ok (fte_pad data ++ spare', fte_padded_len (zlen data)).
Proof.
  unfold append_padding.
  intros Hs. pose proof (zlen_nonneg data) as Hd.
  pose proof (fte_padded_len_spec (zlen data) Hd) as [Hb _].
  pose proof (needs_pad_spec (zlen data) Hd) as Hp. unfold fte_pad. destruct (needs_pad _).
  - destruct Hp as [Hlt Hp]. destruct (Z.eqb_spec (fte_padded_len (zlen data) - zlen data) 0); [lia |].
    set (k := Z.to_nat (fte_padded_len (zlen data) - zlen data - 1)).
    eexists. unfold put1. rewrite put_next, !bind_ok by (done || (change (zlen [u8 221]) with 1; lia)).
    change (u8 0xdd) with 0xdd. change (zlen [0xdd]) with 1.
    assert (Hl1 : zlen (data ++ [0xdd]) = zlen data + 1) by (rewrite zlen_app; done).
    rewrite <- Hl1, (pad_key_data_ok k); rewrite ?Hl1, ?Hp; try lia; [| rewrite zlen_padd; lia].
    rewrite <- !app_assoc. cbn [app]. reflexivity.
  - destruct (Z.eqb_spec (fte_padded_len (zlen data) - zlen data) 0); [| lia].
    exists spare. rewrite bind_ok, (pad_key_data_ok 0) by lia. by rewrite app_nil_r.
Qed.

(** The descriptor versions that use AES key wrap. *)
Lemma wrap_versions v : v = 2 ∨ v = 3 →
  (v =? EAPOL_KEY_DESCRIPTOR_VERSION_HMAC_MD5_ARC4) = false ∧
  (v =? EAPOL_KEY_DESCRIPTOR_VERSION_AKM_DEFINED) = false ∧
  (v =? EAPOL_KEY_DESCRIPTOR_VERSION_HMAC_SHA1_AES)
    || (v =? EAPOL_KEY_DESCRIPTOR_VERSION_AES_128_CMAC_AES) = true.
Proof. by intros [-> | ->]. Qed.

(** [w] is the padded [data] wrapped with the first 16 bytes of [kek]. *)
Definition wraps_to `{Ell} (kek : ptr) (data w : list Z) : Prop :=
  zlen w = fte_padded_len (zlen data) + 8 ∧
  ∀ tail, aes_unwrap (ptake kek 16) (w ++ tail) (zlen w) = Ok (Some (fte_pad data)).

Lemma aes_wrap_padded `{EllLaws} kek data spare :
  16 ≤ zlen kek → is_Some (l_cipher_new_aes (ptake kek 16)) → zlen data ≤ 1024 →
  ∃ w, aes_wrap kek (fte_pad data ++ spare) (fte_padded_len (zlen data)) = Ok (Some w) ∧
       wraps_to kek data w.
Proof.
  intros Hk Hc Hd. pose proof (fte_padded_len_spec (zlen data) (zlen_nonneg data)) as [Hb Hdiv].
  pose proof (fte_pad_length data) as Hpl.
  assert (Hgo : ∀ tail, ∃ w, aes_wrap kek (fte_pad data ++ spare) (zlen (fte_pad data)) = Ok (Some w) ∧
    zlen w = zlen (fte_pad data) + 8 ∧ aes_unwrap (ptake kek 16) (w ++ tail) (zlen w) = Ok (Some (fte_pad data)))
    by (intros tail; apply aes_unwrap_wrap; [done | done | by rewrite Hpl | lia]).
  rewrite Hpl in Hgo. destruct (Hgo []) as (w & Hw & Hwl & _). exists w. split; [done |].
  split; [done |]. intros tail. destruct (Hgo tail) as (w' & Hw' & _ & Hu). congruence.
Qed.

Lemma encrypt_key_data_ok `{EllLaws} kek data spare ek mic_len :
  ek_key_descriptor_version ek = 2 ∨ ek_key_descriptor_version ek = 3 →
  16 ≤ zlen kek → is_Some (l_cipher_new_aes (ptake kek 16)) → 0 ≤ mic_len →
  17 ≤ zlen spare → zlen data ≤ 1024 → mic_len + zlen data + 26 ≤ zlen (ek_key_data ek) →
  ∃ w, wraps_to kek data w ∧
    eapol_encrypt_key_data (Some kek) (data ++ spare) (zlen data) ek mic_len =
      Ok (ek <| ek_key_data := ptake (ek_key_data ek) mic_len ++ be16_bytes (zlen w) ++ w
                  ++ (ek_key_data ek +! (mic_len + 2 + zlen w)) |>, zlen w).
Proof.
  intros [V1 [_ V23]]%wrap_versions Hkek Hc Hm Hs Hd Hroom.
  pose proof (fte_padded_len_spec (zlen data) (zlen_nonneg data)) as [Hb _].
  destruct (append_padding_ok data spare Hs) as (spare' & Hpad).
  destruct (aes_wrap_padded kek data spare' Hkek Hc Hd) as (w & Hw & Hwr). pose proof Hwr as [Hwl _].
  pose proof (zlen_nonneg data). exists w. split; [done |].
  set (kd := ek_key_data ek) in *. set (tail := kd +! (mic_len + 2 + zlen w)).
  unfold eapol_encrypt_key_data. rewrite V1, V23, Hpad, bind_ok. cbn [nonnull].
  rewrite bind_ok, Hw, bind_ok.
  assert (Hcut : kd = ptake kd mic_len ++ ptake (kd +! mic_len) 2
    ++ ptake (kd +! (mic_len + 2)) (zlen w) ++ tail).
  { rewrite <- (ptake_padd_id kd mic_len) at 1. f_equal.
    rewrite <- (ptake_padd_id (kd +! mic_len) 2) at 1. rewrite (padd_padd kd mic_len 2) by lia. f_equal.
    rewrite <- (ptake_padd_id (kd +! (mic_len + 2)) (zlen w)) at 1.
    by rewrite (padd_padd kd (mic_len + 2)) by lia. }
  assert (Hl1 : zlen (ptake kd mic_len) = mic_len) by (apply zlen_ptake; lia).
  assert (Hl2 : zlen (ptake (kd +! mic_len) 2) = 2) by (apply zlen_ptake; rewrite zlen_padd; lia).
  assert (Hput : put kd (mic_len + 2) w = Ok (ptake kd mic_len ++ ptake (kd +! mic_len) 2 ++ w ++ tail)).
  { rewrite Hcut at 1. rewrite !(app_assoc (ptake kd mic_len)). apply put_mid.
    - rewrite zlen_app. lia.
    - apply zlen_ptake. rewrite zlen_padd; lia. }
  change (ek_key_data ek) with kd. rewrite Hput, bind_ok. cbn [ek_key_data set_field set_ek_key_data].
  rewrite put_mid, bind_ok by (by rewrite ?Hl1, ?Hl2). by rewrite Hwl.
Qed.

(** A frame that carries [w] decrypts to the padded data, whatever its MIC and what follows. *)
Lemma decrypt_key_data_ok `{EllLaws} akm kek data w ek mic tail :
  ek_key_descriptor_version ek = 2 ∨ ek_key_descriptor_version ek = 3 →
  akm ≠ IE_RSN_AKM_SUITE_OWE → is_fils_akm akm = false → 16 ≤ zlen kek → zlen data ≤ 1024 →
  wraps_to kek data w → ek_key_data ek = mic ++ be16_bytes (zlen w) ++ w ++ tail →
  ek_data_len ek (zlen mic) = Ok (zlen w) ∧
  eapol_decrypt_key_data akm (Some kek) ek (zlen mic) = Ok (Some (fte_pad data)).
Proof.
  intros [V1 [V0 V23]]%wrap_versions Howe Hfils Hkek Hd [Hwl Hu] Hkd.
  pose proof (zlen_nonneg data) as Hd0. pose proof (zlen_nonneg mic) as Hm.
  pose proof (fte_padded_len_spec (zlen data) Hd0) as [Hb [q Hq]].
  assert (Hn : ek_data_len ek (zlen mic) = Ok (zlen w)).
  { unfold ek_data_len. rewrite Hkd, padd_app by done. apply l_get_be16_bytes. lia. }
  split; [done |].
  unfold eapol_decrypt_key_data, decrypt_expected_len. rewrite Hn, bind_ok, V1, V0, V23.
  assert (Hlen : (zlen w <? 24) || negb (zlen w mod 8 =? 0) = false).
  { assert (16 ≤ fte_padded_len (zlen data)).
    { rewrite fte_padded_len_eq by done. case_b; [lia |]. Z.div_mod_to_equations; lia. }
    rewrite Hwl, Hq. replace (q * 8 + 8) with ((q + 1) * 8) by lia.
    rewrite Z.mod_mul by lia. destruct (Z.ltb_spec ((q + 1) * 8) 24); [lia | done]. }
  rewrite Hlen. destruct (Z.eqb_spec akm IE_RSN_AKM_SUITE_OWE); [done |]. rewrite Hfils. cbn [rd_key].
  rewrite rdn_ok, bind_ok by lia. unfold ek_data. rewrite Hkd.
  rewrite <- (padd_padd _ (zlen mic) 2), (padd_app mic) by (done || lia).
  rewrite (padd_app (be16_bytes _)), Hu, bind_ok by done.
  destruct (Z.eqb_spec (zlen w - 8) 0); [lia | done].
Qed.

(** key data encrypted with [eapol_encrypt_key_data] for the descriptor versions that
    use AES key wrap fit the frame with 24 bytes to spare and come back from
    [eapol_decrypt_key_data] as they were, followed by the padding of 802.11. *)
Theorem eapol_key_data_roundtrip `{EllLaws} akm kek data spare ek mic_len :
  ek_key_descriptor_version ek = 2 ∨ ek_key_descriptor_version ek = 3 →
  akm ≠ IE_RSN_AKM_SUITE_OWE → is_fils_akm akm = false →
  16 ≤ zlen kek → is_Some (l_cipher_new_aes (ptake kek 16)) → 0 ≤ mic_len →
  17 ≤ zlen spare → zlen data ≤ 1024 → mic_len + zlen data + 26 ≤ zlen (ek_key_data ek) →
  ∃ ek', eapol_encrypt_key_data (Some kek) (data ++ spare) (zlen data) ek mic_len =
           Ok (ek', fte_padded_len (zlen data) + 8) ∧
    ek_data_len ek' mic_len = Ok (fte_padded_len (zlen data) + 8) ∧
    eapol_decrypt_key_data akm (Some kek) ek' mic_len = Ok (Some (fte_pad data)).
Proof.
  intros Hv Ho Hf Hk Hc Hm Hs Hd Hroom.
  destruct (encrypt_key_data_ok kek data spare ek mic_len) as (w & Hw & He); try done.
  pose proof Hw as [Hwl _]. rewrite Hwl in He at 3. eexists. split; [exact He |].
  rewrite <- Hwl. pose proof (fte_padded_len_spec (zlen data) (zlen_nonneg data)) as [Hb _].
  assert (Hl : zlen (ptake (ek_key_data ek) mic_len) = mic_len) by (apply zlen_ptake; pose proof (zlen_nonneg data); lia).
  pose proof (decrypt_key_data_ok akm kek data w (ek <| ek_key_data := ptake (ek_key_data ek) mic_len
    ++ be16_bytes (zlen w) ++ w ++ (ek_key_data ek +! (mic_len + 2 + zlen w)) |>)) as Hdec.
  specialize (Hdec (ptake (ek_key_data ek) mic_len) _ Hv Ho Hf Hk Hd Hw eq_refl). by rewrite Hl in Hdec.
Qed.

Lemma be32_bytes_length v : zlen (be32_bytes v) = 4.
Proof. done. Qed.
#[export] Hint Rewrite be32_bytes_length : iwd.

(** A KDE appended to an empty key data field. *)
Lemma key_data_append_first ek mic_len selector data tail :
  0 ≤ mic_len → zlen data ≤ 240 → 6 + zlen data ≤ zlen tail →
  ek_key_data ek = zeros (Z.to_nat mic_len) ++ [0; 0] ++ tail →
  eapol_key_data_append ek mic_len selector data =
    Ok (ek <| ek_key_data := zeros (Z.to_nat mic_len) ++ be16_bytes (6 + zlen data)
          ++ [IE_TYPE_VENDOR_SPECIFIC; 4 + zlen data] ++ be32_bytes selector ++ data
          ++ (tail +! (6 + zlen data)) |>).
Proof.
  intros Hm Hl Ht Hkd. pose proof (zlen_nonneg data).
  set (z := zeros (Z.to_nat mic_len)) in *.
  assert (Hz : zlen z = mic_len) by (by apply zeros_length).
  unfold eapol_key_data_append, ek_data_len. rewrite Hkd, (padd_app z) by done.
  change (l_get_be16 ([0; 0] ++ tail)) with (Ok (be16_of 0 0)). rewrite bind_ok.
  change (be16_of 0 0) with 0. change (u16 (0 + 1)) with 1. change (u16 (0 + 2)) with 2.
  change (u16 (0 + 6)) with 6. rewrite (u16_small (0 + 6 + zlen data)) by lia. unfold put1.
  rewrite (u8_small (4 + _)) by lia. change (u8 IE_TYPE_VENDOR_SPECIFIC) with IE_TYPE_VENDOR_SPECIFIC.
  rewrite app_assoc. clearbody z. clear Hkd. do 4 (rewrite put_next, bind_ok by zlia).
  rewrite <- !app_assoc. rewrite put_mid, bind_ok by done. do 2 f_equal.
  change (zlen [IE_TYPE_VENDOR_SPECIFIC]) with 1. change (zlen [4 + zlen data]) with 1.
  change (zlen (be32_bytes selector)) with 4. rewrite !padd_padd by lia.
  replace (0 + 6 + zlen data) with (6 + zlen data) by lia.
  by replace (1 + (1 + (4 + zlen data))) with (6 + zlen data) by lia.
Qed.

(** a KDE appended to an empty key data field with [eapol_key_data_append] is the one
    [find_kde] returns to the receiver; the PMKID of message 1/4 is found by
    [handshake_util_find_pmkid_kde]. *)
Theorem eapol_pmkid_kde_roundtrip ek mic_len pmkid tail :
  0 ≤ mic_len → bytes_ok pmkid → zlen pmkid = 16 → 22 ≤ zlen tail →
  ek_key_data ek = zeros (Z.to_nat mic_len) ++ [0; 0] ++ tail →
  ∃ ek', eapol_key_data_append ek mic_len HANDSHAKE_KDE_PMKID pmkid = Ok ek' ∧
    ek_data_len ek' mic_len = Ok 22 ∧
    ∃ p, handshake_util_find_pmkid_kde (ek_data ek' mic_len) 22 = Ok (Some p) ∧
         rdn p 16 = Ok pmkid.
Proof.
  intros Hm Hok Hl Ht Hkd.
  rewrite (key_data_append_first ek mic_len _ pmkid tail) by (done || lia). rewrite Hl.
  set (z := zeros (Z.to_nat mic_len)) in *.
  assert (Hz : zlen z = mic_len) by (by apply zeros_length).
  eexists. split; [reflexivity |]. unfold ek_data_len, ek_data.
  cbn [ek_key_data set_field set_ek_key_data].
  rewrite <- (padd_padd _ mic_len 2), (padd_app z) by (done || lia). split; [done |].
  change (6 + 16) with 22. rewrite (padd_app (be16_bytes 22)) by done.
  match goal with |- context [pmkid ++ ?t] => set (rest := t) end.
  set (kde := (IE_TYPE_VENDOR_SPECIFIC, be32_bytes HANDSHAKE_KDE_PMKID ++ pmkid) : elem).
  assert (elem_ok kde).
  { split; [| left; rewrite zlen_app, Hl; done]. apply Forall_app_2; [| done]. by_eval. }
  assert ([IE_TYPE_VENDOR_SPECIFIC; 4 + 16] ++ be32_bytes HANDSHAKE_KDE_PMKID ++ pmkid ++ rest =
    tlv_encode_all [kde] ++ [] ++ rest) as ->.
  { unfold tlv_encode_all, kde. cbn -[be32_bytes]. rewrite zlen_app, Hl, !app_nil_r. cbn -[be32_bytes].
    by rewrite <- app_assoc. }
  assert (Hel : elements_of (tlv_encode_all [kde]) [kde] []).
  { unfold tlv_encode_all. cbn [fmap list_fmap concat]. apply elements_step; [done |].
    apply elements_stop. intros [t d] r _ Hn. cbn in Hn. destruct (t <? 256); done. }
  assert (Hlen : zlen (tlv_encode_all [kde]) = 22).
  { unfold tlv_encode_all, kde. cbn -[be32_bytes]. rewrite !zlen_cons, app_nil_r, zlen_app, Hl. done. }
  pose proof (find_kde_elements _ _ _ rest HANDSHAKE_KDE_PMKID Hel) as Hf. rewrite Hlen in Hf.
  unfold handshake_util_find_pmkid_kde. cbn [app].
  destruct Hf as (after & Hf); [by apply tlv_encode_all_bytes_ok; constructor | done |].
  cbn [app] in Hf. rewrite Hf, bind_ok, Hl. cbn [Z.eqb Pos.eqb].
  eexists. split; [reflexivity |]. by apply rdn_app.
Qed.

(** ** Witnesses *)

#[local] Existing Instance toy_ell.
#[local] Existing Instance toy_ell_laws.

(** A structure with [kd] behind it. *)
Definition frame_with (version : Z) (kd : list Z) : eapol_key :=
  (eapol_create_ptk_4_of_4 (λ _, 0) 2 version 7 false 16) <| ek_key_data := kd |>.

Lemma eapol_verify_mic_correct_witness :
  let ek := frame_with 2 (replicate 16 5 ++ [0; 2; 9; 9]) in
  ∃ m, eapol_verify_mic IE_RSN_AKM_SUITE_PSK (zeros 16) ek 16 =
         Ok (bool_decide (ptake (ek_key_data ek) 16 = m)) ∧ zlen m = 16.
Proof.
  intros ek.
  exists (match eapol_calculate_mic IE_RSN_AKM_SUITE_PSK (zeros 16) (ek_zero_mic ek 16) (zeros 32) 16
          with Ok (Some m) => m | _ => [] end).
  split; [| by_eval].
  apply (eapol_verify_mic_correct _ _ _ (zeros 32) _ _ 2); [by_eval.. | left; lia | done | by_eval |].
  vm_compute. reflexivity.
Defined.

Lemma eapol_owe_group21_no_mic_witness :
  let ek := frame_with 0 (zeros 34) in
  eapol_calculate_mic IE_RSN_AKM_SUITE_OWE (zeros 136) ek (zeros 32) 32 = Ok None.
Proof.
  intros ek. eapply (eapol_owe_group21_no_mic (zeros 136) ek (zeros 32) 0); [done.. | by_eval | done].
Defined.

Lemma eapol_replies_accepted_witness :
  reply_accepted 16 eapol_verify_ptk_2_of_4
    (eapol_create_ptk_2_of_4 (λ _, 0) 2 2 1 (zeros 32) [48; 0] false 16).
Proof. apply (eapol_replies_accepted (λ _, 0) 2 2 1 (zeros 32) [48; 0] false 0 16); by_eval. Defined.

Lemma eapol_key_data_roundtrip_witness :
  ∃ ek', eapol_encrypt_key_data (Some (zeros 16)) ([48; 0] ++ zeros 20) 2
           (frame_with 2 (zeros 100)) 16 = Ok (ek', 24) ∧
    eapol_decrypt_key_data IE_RSN_AKM_SUITE_PSK (Some (zeros 16)) ek' 16 =
      Ok (Some ([48; 0; 0xdd] ++ zeros 13)).
Proof.
  destruct (eapol_key_data_roundtrip IE_RSN_AKM_SUITE_PSK (zeros 16) [48; 0] (zeros 20)
    (frame_with 2 (zeros 100)) 16) as (ek' & He & _ & Hd); try by_eval.
  exists ek'. split; [exact He | exact Hd].
Defined.

Lemma eapol_pmkid_kde_roundtrip_witness :
  ∃ ek', eapol_key_data_append (frame_with 2 (zeros 431)) 16 HANDSHAKE_KDE_PMKID (replicate 16 7) =
           Ok ek' ∧ ek_data_len ek' 16 = Ok 22.
Proof.
  destruct (eapol_pmkid_kde_roundtrip (frame_with 2 (zeros 431)) 16 (replicate 16 7) (zeros 413))
    as (ek' & He & Hn & _); [by_eval.. | done |]. by exists ek'.
Defined.
