(* ===== verification/Eapol.v ===== *)
(** * The EAPoL state machine (src/eapol.c)

    The supplicant and the authenticator of the 4-way and group key handshakes: the state
    machine [struct eapol_sm], its timers, the handler of each message, the dispatch of
    received frames and the callbacks of the EAP layer. *)

From stdpp Require Import base numbers list option.
From Stdlib Require Import ZArith Lia.
From S2P Require Import Prelude IeTlv IeRsn IeMisc Crypto Handshake EapolFrame.

Open Scope Z_scope.

(** ** State *)

(** The callback of [sm->timeout]: [eapol_timeout], [eapol_ptk_1_of_4_retry] or
    [eapol_ptk_3_of_4_retry]. *)
Inductive timer : Type := EAPOL_TIMEOUT | PTK_1_RETRY | PTK_3_RETRY.

(** [struct eapol_sm].  A timer is armed ([Some (callback, milliseconds)], [true]) or NULL;
    [sm_eap] tells whether [sm->eap] is not NULL; [sm_watch] is the frame watch of
    [eapol_register]: the interface and whether the authenticator's handler is called. *)
Record eapol_sm : Type := mk_sm {
  sm_protocol_version : Z;
  sm_replay_counter : Z;
  sm_timeout : option (timer * Z);
  sm_eapol_start_timeout : bool;
  sm_frame_retry : Z;
  sm_listen_interval : Z;
  sm_have_replay : bool;
  sm_started : bool;
  sm_use_eapol_start : bool;
  sm_require_handshake : bool;
  sm_eap_exchanged : bool;
  sm_last_eap_unencrypted : bool;
  sm_eap : bool;
  sm_early_frame : option (list Z);
  sm_early_frame_unencrypted : bool;
  sm_watch : option (Z * bool);
  sm_installed_gtk_len : Z;
  sm_installed_gtk : list Z;
  sm_installed_igtk_len : Z;
  sm_installed_igtk : list Z;
  sm_mic_len : Z;
}.

#[export] Instance sm_eta : Eta eapol_sm := λ s,
  mk_sm (sm_protocol_version s) (sm_replay_counter s) (sm_timeout s) (sm_eapol_start_timeout s)
    (sm_frame_retry s) (sm_listen_interval s) (sm_have_replay s) (sm_started s)
    (sm_use_eapol_start s) (sm_require_handshake s) (sm_eap_exchanged s)
    (sm_last_eap_unencrypted s) (sm_eap s) (sm_early_frame s) (sm_early_frame_unencrypted s)
    (sm_watch s) (sm_installed_gtk_len s) (sm_installed_gtk s) (sm_installed_igtk_len s)
    (sm_installed_igtk s) (sm_mic_len s).

#[export] Instance set_sm_protocol_version : SetterOf sm_protocol_version.
Proof. derive_setter. Defined.
#[export] Instance set_sm_replay_counter : SetterOf sm_replay_counter.
Proof. derive_setter. Defined.
#[export] Instance set_sm_timeout : SetterOf sm_timeout.
Proof. derive_setter. Defined.
#[export] Instance set_sm_eapol_start_timeout : SetterOf sm_eapol_start_timeout.
Proof. derive_setter. Defined.
#[export] Instance set_sm_frame_retry : SetterOf sm_frame_retry.
Proof. derive_setter. Defined.
#[export] Instance set_sm_listen_interval : SetterOf sm_listen_interval.
Proof. derive_setter. Defined.
#[export] Instance set_sm_have_replay : SetterOf sm_have_replay.
Proof. derive_setter. Defined.
#[export] Instance set_sm_started : SetterOf sm_started.
Proof. derive_setter. Defined.
#[export] Instance set_sm_use_eapol_start : SetterOf sm_use_eapol_start.
Proof. derive_setter. Defined.
#[export] Instance set_sm_require_handshake : SetterOf sm_require_handshake.
Proof. derive_setter. Defined.
#[export] Instance set_sm_eap_exchanged : SetterOf sm_eap_exchanged.
Proof. derive_setter. Defined.
#[export] Instance set_sm_last_eap_unencrypted : SetterOf sm_last_eap_unencrypted.
Proof. derive_setter. Defined.
#[export] Instance set_sm_eap : SetterOf sm_eap.
Proof. derive_setter. Defined.
#[export] Instance set_sm_early_frame : SetterOf sm_early_frame.
Proof. derive_setter. Defined.
#[export] Instance set_sm_early_frame_unencrypted : SetterOf sm_early_frame_unencrypted.
Proof. derive_setter. Defined.
#[export] Instance set_sm_watch : SetterOf sm_watch.
Proof. derive_setter. Defined.
#[export] Instance set_sm_installed_gtk_len : SetterOf sm_installed_gtk_len.
Proof. derive_setter. Defined.
#[export] Instance set_sm_installed_gtk : SetterOf sm_installed_gtk.
Proof. derive_setter. Defined.
#[export] Instance set_sm_installed_igtk_len : SetterOf sm_installed_igtk_len.
Proof. derive_setter. Defined.
#[export] Instance set_sm_installed_igtk : SetterOf sm_installed_igtk.
Proof. derive_setter. Defined.
#[export] Instance set_sm_mic_len : SetterOf sm_mic_len.
Proof. derive_setter. Defined.

(** The state of one association: the state machine ([None] once it has been freed), the
    handshake state it points to, what has been done to the outside so far and the number of
    questions put to the environment. *)
Record st : Type := mk_st {
  st_sm : option eapol_sm;
  st_hs : handshake_state;
  st_out : list effect;
  st_tick : nat;
}.

(** What [eap_rx_packet] and [eap_start] call back. *)
Inductive eap_callback : Type :=
  | EAP_MSG (data : list Z)
  | EAP_COMPLETE (success : bool)
  | EAP_RESULTS (msk : list Z) (emsk session_id : option (list Z))
  | EAP_EVENT (event : Z).

(** The environment: the hooks, the configured handshake time, the nonces [get_nonce] returns,
    the contents of uninitialised memory, and the behaviour of the EAP layer, each answer
    indexed by the number of the question. *)
Record env : Type := mk_env {
  env_hooks : hooks;
  eapol_4way_handshake_time : Z;
  env_nonce : nat → list Z;
  env_junk : nat → Z;
  env_junk_info : ie_rsn_info;
  env_junk_mdid : Z;
  eap_new_ok : nat → bool;
  eap_load_settings_ok : nat → bool;
  eap_rx_packet : nat → list Z → list eap_callback;
  eap_start : nat → list eap_callback;
}.

(** ** The monad of the handlers *)

Definition M (A : Type) : Type := st → res (A * st).

#[export] Instance M_ret : MRet M := λ A a s, Ok (a, s).
#[export] Instance M_bind : MBind M := λ A B f m s,
  match m s with
  | Ok (a, s') => f a s'
  | Err e => Err e
  | Fault => Fault
  | Diverge => Diverge
  end.

Definition lift {A} (m : res A) : M A := λ s,
  match m with Ok a => Ok (a, s) | Err e => Err e | Fault => Fault | Diverge => Diverge end.

(** Access to the state machine: a use after free is a fault. *)
Definition get_sm : M eapol_sm := λ s,
  match st_sm s with Some sm => Ok (sm, s) | None => Fault end.
Definition mod_sm (f : eapol_sm → eapol_sm) : M unit := λ s,
  match st_sm s with
  | Some sm => Ok (tt, mk_st (Some (f sm)) (st_hs s) (st_out s) (st_tick s))
  | None => Fault
  end.
Definition free_sm : M unit := λ s,
  match st_sm s with
  | Some _ => Ok (tt, mk_st None (st_hs s) (st_out s) (st_tick s))
  | None => Fault
  end.
(** [sm->handshake], which is reached through the state machine. *)
Definition get_hs : M handshake_state := λ s,
  match st_sm s with Some _ => Ok (st_hs s, s) | None => Fault end.
Definition mod_hs (f : handshake_state → handshake_state) : M unit := λ s,
  match st_sm s with
  | Some sm => Ok (tt, mk_st (Some sm) (f (st_hs s)) (st_out s) (st_tick s))
  | None => Fault
  end.
Definition put_hs (h : handshake_state) : M unit := mod_hs (λ _, h).
Definition emit (l : list effect) : M unit := λ s,
  Ok (tt, mk_st (st_sm s) (st_hs s) (st_out s ++ l) (st_tick s)).
Definition tick : M nat := λ s,
  Ok (st_tick s, mk_st (st_sm s) (st_hs s) (st_out s) (S (st_tick s))).
Definition skip : M unit := mret tt.

Definition ETH_P_PAE : Z := 0x888e.
Definition MMPDU_REASON_CODE_UNSPECIFIED : Z := 1.
Definition MMPDU_REASON_CODE_INVALID_IE : Z := 13.
Definition MMPDU_REASON_CODE_4WAY_HANDSHAKE_TIMEOUT : Z := 15.
Definition MMPDU_REASON_CODE_IE_DIFFERENT : Z := 17.
Definition MMPDU_REASON_CODE_INVALID_PAIRWISE_CIPHER : Z := 19.
Definition MMPDU_REASON_CODE_IEEE8021X_FAILED : Z := 23.

(** ** Searching the key data *)

(** The first RSNE and the second one. *)
Definition find_rsne_step (it : ie_tlv_iter) (s : option ptr * option ptr)
    : res (ctl (option ptr * option ptr)) :=
  if negb (it_tag it =? IE_TYPE_RSN) then Ok (Next s)
  else match s.1 with
       | None => Ok (Next (Some (iter_header it), None))
       | Some first => Ok (Stop (Some first, Some (iter_header it)))
       end.
Definition eapol_find_rsne (data : ptr) (data_len : Z) : res (option ptr * option ptr) :=
  tlv_loop find_rsne_step data data_len (None, None).

Definition find_wfa_kde_step (oi_type : Z) (it : ie_tlv_iter) (s : option ptr)
    : res (ctl (option ptr)) :=
  if it_tag it =? IE_TYPE_VENDOR_SPECIFIC then
    wfa ← is_ie_wfa_ie (it_data it) (it_len it) oi_type;
    Ok (if (wfa : bool) then Stop (Some (iter_header it)) else Next s)
  else Ok (Next s).
Definition eapol_find_wfa_kde (data : ptr) (data_len oi_type : Z) : res (option ptr) :=
  tlv_loop (find_wfa_kde_step oi_type) data data_len None.

Definition find_wpa_ie_step (it : ie_tlv_iter) (s : option ptr) : res (ctl (option ptr)) :=
  if negb (it_tag it =? IE_TYPE_VENDOR_SPECIFIC) then Ok (Next s)
  else
    wpa ← is_ie_wpa_ie (it_data it) (it_len it);
    Ok (if (wpa : bool) then Stop (Some (iter_header it)) else Next s).
Definition eapol_find_wpa_ie (data : ptr) (data_len : Z) : res (option ptr) :=
  tlv_loop find_wpa_ie_step data data_len None.

Definition eapol_check_ip_mask (mask ip1 ip2 : ptr) : res bool :=
  m ← l_get_be32 mask;
  a ← l_get_be32 ip1;
  b ← l_get_be32 ip2;
  Ok ((Z.land (Z.lxor a b) m =? 0) && negb (a =? b)
      && negb (Z.land a (u32 (Z.lnot m)) =? 0) && negb (Z.land b (u32 (Z.lnot m)) =? 0)
      && negb (Z.lor a m =? 0xffffffff) && negb (Z.lor b m =? 0xffffffff)
      && (u32 (Z.shiftl m (popcount m)) =? 0)).

(** The MDE and the FTE of message 3 against those of the association; [Stop false] is the
    [goto error_ie_different]. *)
Definition ft_ies_step (mde fte : option ptr) (it : ie_tlv_iter) (_ : bool) : res (ctl bool) :=
  let same ie :=
    p ← nonnull ie;
    l ← rd p 1;
    b ← rdn p (l + 2);
    eq ← memeq (iter_header it) b;
    Ok (if (eq : bool) then Next true else Stop false) in
  if it_tag it =? IE_TYPE_MOBILITY_DOMAIN then same mde
  else if it_tag it =? IE_TYPE_FAST_BSS_TRANSITION then same fte
  else Ok (Next true).

(** A group key of the key data: the index, the bytes and their number. *)
Abbreviation group_key := (Z * ptr * Z)%type.

Section eapol.
Context `{Ell}.
Variable E : env.

Definition fresh : nat → Z := env_junk E.

(** ** Output *)

(** [ef] is the memory at the frame; netdev sends its [4 + packet_len] bytes. *)
Definition __eapol_tx_packet (dst : list Z) (proto : Z) (ef : ptr) (noencrypt : bool) : M unit :=
  if hook_tx_packet (env_hooks E) then
    n ← lift (l_get_be16 (ef +! 2));
    b ← lift (rdn ef (4 + n));
    emit [Tx dst proto b noencrypt]
  else skip.

Definition eapol_sm_write (ef : ptr) (noencrypt : bool) : M unit :=
  hs ← get_hs;
  __eapol_tx_packet (if hs_authenticator hs then hs_spa hs else hs_aa hs) ETH_P_PAE ef noencrypt.

Definition eapol_sm_write_key (ek : eapol_key) (noencrypt : bool) : M unit :=
  eapol_sm_write (ek_bytes ek) noencrypt.

Definition eapol_event (e : handshake_event) : M unit := emit (handshake_event_ (env_hooks E) e).

(** [eapol_sm_free]: the timers, the early frame and the watch go with the state machine. *)
Definition eapol_sm_free : M unit := free_sm.

Definition handshake_failed (reason_code : Z) : M unit :=
  eapol_event (HANDSHAKE_EVENT_FAILED reason_code);; eapol_sm_free.

(** ** Timers *)

Definition eapol_timeout : M unit :=
  mod_sm (λ sm, sm <| sm_timeout := None |>);;
  handshake_failed MMPDU_REASON_CODE_4WAY_HANDSHAKE_TIMEOUT.

Definition __send_eapol_start (noencrypt : bool) : M unit :=
  eapol_event HANDSHAKE_EVENT_STARTED;;
  eapol_sm_write [EAPOL_PROTOCOL_VERSION_2001; 1; 0; 0] noencrypt.

Definition send_eapol_start : M unit :=
  mod_sm (λ sm, sm <| sm_eapol_start_timeout := false |>);;
  __send_eapol_start true.

(** The retransmission timeout in milliseconds, computed in 32-bit unsigned arithmetic. *)
Definition key_timeout_ms (frame_retry listen_interval : Z) : Z :=
  let beacon_us := 100 * 1024 in
  if (frame_retry =? 2) && negb (listen_interval =? 0) then u32 (listen_interval * beacon_us) / 2000
  else if (2 <? frame_retry) && negb (listen_interval =? 0)
  then u32 (listen_interval * beacon_us) / 1000
  else 100.

Definition eapol_set_key_timeout (cb : timer) : M unit :=
  mod_sm (λ sm,
    let retry := u32 (sm_frame_retry sm + 1) in
    let ms := key_timeout_ms retry (sm_listen_interval sm) in
    let sm := sm <| sm_frame_retry := retry |> in
    if 1 <? retry then sm <| sm_timeout := (λ t, (fst t, ms)) <$> sm_timeout sm |>
    else sm <| sm_timeout := Some (cb, ms) |>).

(** ** Group keys *)

Definition eapol_install_gtk (gtk_key_index : Z) (gtk : ptr) (gtk_len : Z) (rsc : list Z) : M unit :=
  sm ← get_sm;
  hs ← get_hs;
  key ← lift (rdn gtk gtk_len);
  if (sm_installed_gtk_len sm =? gtk_len) && bool_decide (ptake (sm_installed_gtk sm) gtk_len = key)
  then skip
  else
    emit (handshake_state_install_gtk (env_hooks E) hs gtk_key_index key (ptake rsc 6));;
    installed ← lift (put (sm_installed_gtk sm) 0 key);
    mod_sm (λ sm, sm <| sm_installed_gtk := installed |> <| sm_installed_gtk_len := u8 gtk_len |>).

(** [igtk] is the 6-byte packet number followed by the key. *)
Definition eapol_install_igtk (igtk_key_index : Z) (igtk : ptr) (igtk_len : Z) : M unit :=
  sm ← get_sm;
  hs ← get_hs;
  key ← lift (rdn (igtk +! 6) (igtk_len - 6));
  if (sm_installed_igtk_len sm =? igtk_len - 6)
     && bool_decide (ptake (sm_installed_igtk sm) (igtk_len - 6) = key)
  then skip
  else
    ipn ← lift (rdn igtk 6);
    emit (handshake_state_install_igtk (env_hooks E) hs igtk_key_index key ipn);;
    installed ← lift (put (sm_installed_igtk sm) 0 key);
    mod_sm (λ sm, sm <| sm_installed_igtk := installed |>
                     <| sm_installed_igtk_len := u8 (igtk_len - 6) |>).

(** The keys a message carried, the GTK first. *)
Definition install_group_keys (gtk igtk : option group_key) (rsc : list Z) : M unit :=
  match gtk with
  | Some (i, key, len) => eapol_install_gtk i key len rsc
  | None => skip
  end;;
  match igtk with
  | Some (i, key, len) => eapol_install_igtk i key len
  | None => skip
  end.

(** ** Completing a reply *)

(** The MIC, or the FILS encryption of the [len] bytes of key data, and the transmission;
    [mic] is the uninitialised array the MIC is computed into. *)
Definition eapol_finish_reply (step : eapol_key) (len : Z) (unencrypted : bool) : M bool :=
  sm ← get_sm;
  hs ← get_hs;
  let mic_len := sm_mic_len sm in
  if negb (mic_len =? 0) then
    mic ← lift (eapol_calculate_mic (hs_akm_suite hs) (handshake_state_get_kck hs) step
                  (l_malloc fresh MIC_MAXLEN) mic_len);
    match mic with
    | None => handshake_failed MMPDU_REASON_CODE_UNSPECIFIED;; mret false
    | Some mic =>
        step ← lift (ek_set_mic step mic);
        eapol_sm_write_key step unencrypted;; mret true
    end
  else
    r ← lift (eapol_aes_siv_encrypt (handshake_state_get_kek hs) (handshake_state_get_kek_len hs)
                step len);
    match r with
    | None => handshake_failed MMPDU_REASON_CODE_UNSPECIFIED;; mret false
    | Some step => eapol_sm_write_key step unencrypted;; mret true
    end.

(** ** Message 1/4 *)

(** The frame in a 512-byte buffer whose first [EAPOL_FRAME_LEN] bytes have been cleared. *)
Definition frame_buf (protocol_version mic_len : Z) : eapol_key :=
  mk_ek (u8 protocol_version) 3 0 EAPOL_DESCRIPTOR_TYPE_80211
    false false false false false false 0
    EAPOL_KEY_DESCRIPTOR_VERSION_HMAC_SHA1_AES false 0 false false
    0 0 (zeros 32) (zeros 16) (zeros 8) (zeros 8)
    (zeros (Z.to_nat (mic_len + 2)) ++ l_malloc fresh (512 - EAPOL_FRAME_LEN mic_len)).

Definition eapol_send_ptk_1_of_4 : M unit :=
  t ← tick;
  mod_hs (λ hs, handshake_state_new_anonce hs (env_nonce E t));;
  mod_hs (λ hs, hs <| hs_ptk_complete := false |>);;
  mod_sm (λ sm, sm <| sm_replay_counter := u64 (sm_replay_counter sm + 1) |>);;
  sm ← get_sm;
  hs ← get_hs;
  let cipher := ie_rsn_cipher_suite_to_cipher (hs_pairwise_cipher hs) in
  let ek := (frame_buf (sm_protocol_version sm) (sm_mic_len sm))
              <| ek_key_type := true |> <| ek_key_ack := true |>
              <| ek_key_length := crypto_cipher_key_len cipher |>
              <| ek_key_replay_counter := sm_replay_counter sm |>
              <| ek_key_nonce := hs_anonce hs |> in
  let junk := l_malloc fresh 16 in
  let pmkid := default junk (crypto_derive_pmkid (hs_pmk hs) (hs_spa hs) (hs_aa hs) junk false) in
  ek ← lift (eapol_key_data_append ek (sm_mic_len sm) HANDSHAKE_KDE_PMKID pmkid);
  n ← lift (ek_data_len ek (sm_mic_len sm));
  eapol_sm_write_key
    (ek <| ek_packet_len := u16 (EAPOL_FRAME_LEN (sm_mic_len sm) + n - 4) |>) false.

Definition eapol_ptk_1_of_4_retry : M unit :=
  sm ← get_sm;
  if 3 <=? sm_frame_retry sm then handshake_failed MMPDU_REASON_CODE_4WAY_HANDSHAKE_TIMEOUT
  else eapol_send_ptk_1_of_4;; eapol_set_key_timeout PTK_1_RETRY.

(** [for (i = 0; i < num_pmkids; i++)]: whether [pmkid] is in the list. *)
Fixpoint pmkid_in_list (n : nat) (pmkids : option ptr) (pmkid : list Z) : res bool :=
  match n with
  | O => Ok false
  | S n' =>
      p ← nonnull pmkids;
      eq ← memeq p pmkid;
      if (eq : bool) then Ok true else pmkid_in_list n' (Some (p +! 16)) pmkid
  end.

(** What message 1 is answered with after a look at its PMKID KDE. *)
Inductive pmkid_verdict : Type := PMKID_CONTINUE | PMKID_ERROR | PMKID_EAPOL_START.

Definition check_pmkid (sm : eapol_sm) (hs : handshake_state) (rsn_info : ie_rsn_info)
    (pmkid : option ptr) : res pmkid_verdict :=
  if negb (sm_eap_exchanged sm) && negb (hs_wpa_ie hs) && negb (num_pmkids rsn_info =? 0) then
    match pmkid with
    | None => Ok PMKID_ERROR
    | Some p =>
        b ← rdn p 16;
        found ← pmkid_in_list (Z.to_nat (num_pmkids rsn_info)) (pmkids rsn_info) b;
        Ok (if (found : bool) then PMKID_CONTINUE else PMKID_ERROR)
    end
  else
    match pmkid with
    | None => Ok PMKID_CONTINUE
    | Some p =>
        match handshake_state_get_pmkid hs (l_malloc fresh 16) with
        | None => Ok PMKID_ERROR
        | Some own_pmkid =>
            same ← memeq p own_pmkid;
            Ok (if negb same && sm_eap sm then PMKID_EAPOL_START else PMKID_CONTINUE)
        end
    end.

(** The elements of message 2 in [ies], and [ies_len]. *)
Definition ptk_2_ies (hs : handshake_state) (own_ie : ptr) (rsn_info : ie_rsn_info)
    : res (list Z * Z) :=
  let ies := l_malloc fresh 512 in
  '(ies, ies_len) ←
    (if has_any (hs_akm_suite hs) FT_AKMS then
       r ← ie_build_rsne (set_pmkids (Some (hs_pmk_r1_name hs)) (set_num_pmkids 1 rsn_info)) ies;
       ies ← nonnull r;
       l ← rd ies 1;
       let ies_len := l + 2 in
       mde ← nonnull (hs_mde hs);
       l ← rd mde 1;
       b ← rdn mde (l + 2);
       ies ← put ies ies_len b;
       let ies_len := ies_len + (l + 2) in
       fte ← nonnull (hs_fte hs);
       l ← rd fte 1;
       b ← rdn fte (l + 2);
       ies ← put ies ies_len b;
       Ok (ies, ies_len + (l + 2))
     else
       l ← rd own_ie 1;
       b ← rdn own_ie (l + 2);
       ies ← put ies 0 b;
       Ok (ies, l + 2));
  if hs_support_ip_allocation hs then
    ies ← put1 ies ies_len IE_TYPE_VENDOR_SPECIFIC;
    ies ← put1 ies (ies_len + 1) (4 + 1);
    ies ← put ies (ies_len + 2) (be32_bytes HANDSHAKE_KDE_IP_ADDRESS_REQ);
    ies ← put1 ies (ies_len + 6) 1;
    Ok (ies, ies_len + 7)
  else Ok (ies, ies_len).

Definition ptk_1_send_step2 (ek : eapol_key) (own_ie : ptr) (rsn_info : ie_rsn_info)
    (unencrypted : bool) : M unit :=
  sm ← get_sm;
  hs ← get_hs;
  '(ies, ies_len) ← lift (ptk_2_ies hs own_ie rsn_info);
  extra ← lift (rdn ies ies_len);
  let step2 := eapol_create_ptk_2_of_4 fresh (sm_protocol_version sm)
                 (ek_key_descriptor_version ek) (ek_key_replay_counter ek) (hs_snonce hs) extra
                 (hs_wpa_ie hs) (sm_mic_len sm) in
  sent ← eapol_finish_reply step2 ies_len unencrypted;
  if (sent : bool) then mod_sm (λ sm, sm <| sm_eapol_start_timeout := false |>) else skip.

Definition eapol_handle_ptk_1_of_4 (ek : eapol_key) (unencrypted : bool) : M unit :=
  sm ← get_sm;
  hs ← get_hs;
  let mic_len := sm_mic_len sm in
  ok ← lift (eapol_verify_ptk_1_of_4 ek mic_len);
  if negb ok then handshake_failed MMPDU_REASON_CODE_UNSPECIFIED
  else
    n ← lift (ek_data_len ek mic_len);
    pmkid ← lift (handshake_util_find_pmkid_kde (ek_data ek mic_len) n);
    own_ie ← lift (nonnull (hs_supplicant_ie hs));
    info ← lift (if hs_wpa_ie hs then Ok (Some (env_junk_info E))
                 else l ← rd own_ie 1; ok_or_none (ie_parse_rsne_from_data own_ie (l + 2)));
    match info with
    | None => handshake_failed MMPDU_REASON_CODE_UNSPECIFIED
    | Some rsn_info =>
        verdict ← lift (check_pmkid sm hs rsn_info pmkid);
        match verdict with
        | PMKID_ERROR => handshake_failed MMPDU_REASON_CODE_UNSPECIFIED
        | PMKID_EAPOL_START => __send_eapol_start unencrypted
        | PMKID_CONTINUE =>
            if negb (hs_have_snonce hs) || negb (bool_decide (hs_anonce hs = ek_key_nonce ek))
               || hs_ptk_complete hs then
              if hs_ptk_complete hs && hs_no_rekey hs then eapol_event HANDSHAKE_EVENT_REKEY_FAILED
              else
                t ← tick;
                let hs := handshake_state_new_snonce hs (env_nonce E t) in
                hs ← lift (handshake_state_set_anonce hs (ek_key_nonce ek));
                '(hs, ok) ← lift (handshake_state_derive_ptk (env_junk_mdid E) hs);
                put_hs hs;;
                if negb ok then handshake_failed MMPDU_REASON_CODE_UNSPECIFIED
                else ptk_1_send_step2 ek own_ie rsn_info unencrypted
            else ptk_1_send_step2 ek own_ie rsn_info unencrypted
        end
    end.

(** ** Message 3/4: the authenticator's side *)

(** The key data of message 3 and their length. *)
Definition ptk_3_key_data (hs : handshake_state) (rsne : ptr) : res (list Z * Z) :=
  l ← rd rsne 1;
  let rsne_len := l + 2 in
  let group_cipher := ie_rsn_cipher_suite_to_cipher (hs_group_cipher hs) in
  b ← rdn rsne rsne_len;
  buf ← put (l_malloc fresh (128 + rsne_len)) 0 b;
  '(buf, len) ←
    (if negb (group_cipher =? 0) then
       kde ← handshake_util_build_gtk_kde group_cipher (hs_gtk hs) (hs_gtk_index hs);
       buf ← put buf rsne_len kde;
       l ← rd buf (rsne_len + 1);
       Ok (buf, rsne_len + (l + 2))
     else Ok (buf, rsne_len));
  if hs_support_ip_allocation hs then
    buf ← put1 buf len IE_TYPE_VENDOR_SPECIFIC;
    buf ← put1 buf (len + 1) (4 + 12);
    buf ← put buf (len + 2) (be32_bytes HANDSHAKE_KDE_IP_ADDRESS_ALLOC);
    buf ← put buf (len + 6) (be32_bytes (hs_client_ip_addr hs));
    buf ← put buf (len + 10) (be32_bytes (hs_subnet_mask hs));
    buf ← put buf (len + 14) (be32_bytes (hs_go_ip_addr hs));
    Ok (buf, len + 18)
  else Ok (buf, len).

Definition eapol_send_ptk_3_of_4 : M unit :=
  hs ← get_hs;
  rsne ← lift (nonnull (hs_authenticator_ie hs));
  mod_sm (λ sm, sm <| sm_replay_counter := u64 (sm_replay_counter sm + 1) |>);;
  sm ← get_sm;
  let mic_len := sm_mic_len sm in
  let cipher := ie_rsn_cipher_suite_to_cipher (hs_pairwise_cipher hs) in
  let ek := (frame_buf (sm_protocol_version sm) mic_len)
              <| ek_key_type := true |> <| ek_install := true |> <| ek_key_ack := true |>
              <| ek_key_mic := true |> <| ek_secure := true |> <| ek_encrypted_key_data := true |>
              <| ek_key_length := crypto_cipher_key_len cipher |>
              <| ek_key_replay_counter := sm_replay_counter sm |>
              <| ek_key_nonce := hs_anonce hs |> <| ek_key_rsc := hs_gtk_rsc hs ++ [0; 0] |> in
  '(key_data, key_data_len) ← lift (ptk_3_key_data hs rsne);
  r ← lift (ok_or_none (eapol_encrypt_key_data (handshake_state_get_kek hs) key_data key_data_len
                          ek mic_len));
  match r with
  | None => skip
  | Some (ek, key_data_len) =>
      let ek := ek <| ek_packet_len := u16 (EAPOL_FRAME_LEN mic_len + key_data_len - 4) |> in
      mic ← lift (eapol_calculate_mic (hs_akm_suite hs) (handshake_state_get_kck hs) ek
                    (ek_key_data ek) mic_len);
      match mic with
      | None => skip
      | Some mic => ek ← lift (ek_set_mic ek mic); eapol_sm_write_key ek false
      end
  end.

Definition eapol_ptk_3_of_4_retry : M unit :=
  sm ← get_sm;
  if 3 <=? sm_frame_retry sm then handshake_failed MMPDU_REASON_CODE_4WAY_HANDSHAKE_TIMEOUT
  else eapol_send_ptk_3_of_4;; eapol_set_key_timeout PTK_3_RETRY.

(** ** Message 2/4 *)

Definition ptk_2_rsne_matches (rsne : option ptr) (supplicant_ie : ptr) : res bool :=
  match rsne with
  | None => Ok false
  | Some p =>
      l ← rd p 1;
      own ← rd supplicant_ie 1;
      if negb (l =? own) then Ok false
      else b ← rdn (supplicant_ie +! 2) l; memeq (p +! 2) b
  end.

Definition eapol_handle_ptk_2_of_4 (ek : eapol_key) : M unit :=
  sm ← get_sm;
  hs ← get_hs;
  let mic_len := sm_mic_len sm in
  if negb (eapol_verify_ptk_2_of_4 ek) then skip
  else if negb (ek_key_replay_counter ek =? sm_replay_counter sm) then skip
  else
    pmk ← lift (rdn (hs_pmk hs) (hs_pmk_len hs));
    out ← lift (ptk_region hs (handshake_state_get_ptk_size hs));
    match crypto_derive_pairwise_ptk pmk (hs_spa hs) (hs_aa hs) (hs_anonce hs) (ek_key_nonce ek)
            out L_CHECKSUM_SHA1 with
    | None => skip
    | Some ptk =>
        p ← lift (put (hs_ptk hs) 0 ptk);
        mod_hs (λ hs, hs <| hs_ptk := p |>);;
        hs ← get_hs;
        ok ← lift (eapol_verify_mic (hs_akm_suite hs) (handshake_state_get_kck hs) ek mic_len);
        if negb ok then skip
        else
          n ← lift (ek_data_len ek mic_len);
          rsne ← lift (eapol_find_rsne (ek_data ek mic_len) n);
          own ← lift (nonnull (hs_supplicant_ie hs));
          same ← lift (ptk_2_rsne_matches (fst rsne) own);
          if negb same then handshake_failed MMPDU_REASON_CODE_IE_DIFFERENT
          else
            kde ← lift (if hs_support_ip_allocation hs
                        then eapol_find_wfa_kde (ek_data ek mic_len) n
                               (Z.land HANDSHAKE_KDE_IP_ADDRESS_REQ 255)
                        else Ok None);
            bad ← lift (match kde with
                        | None => Ok false
                        | Some p =>
                            l ← rd p 1;
                            if l <? 5 then Ok true else v ← rd p 6; Ok (negb (v =? 1))
                        end);
            if (bad : bool) then handshake_failed MMPDU_REASON_CODE_INVALID_IE
            else
              mod_hs (λ hs, if hs_support_ip_allocation hs
                            then hs <| hs_support_ip_allocation := negb (bool_decide (kde = None)) |>
                            else hs);;
              mod_hs (λ hs, hs <| hs_snonce := ek_key_nonce ek |> <| hs_have_snonce := true |>);;
              mod_sm (λ sm, sm <| sm_frame_retry := 0 |>);;
              eapol_ptk_3_of_4_retry
    end.

(** ** Message 3/4: the supplicant's side *)

(** The RSN, WPA or OSEN element of message 3 and the second RSNE. *)
Definition ptk_3_find_ie (hs : handshake_state) (data : ptr) (size : Z)
    : res (option ptr * option ptr) :=
  if hs_wpa_ie hs then r ← eapol_find_wpa_ie data size; Ok (r, None)
  else if hs_osen_ie hs then r ← eapol_find_wfa_kde data size IE_WFA_OI_OSEN; Ok (r, None)
  else eapol_find_rsne data size.

(** The checks of a fast-transition association; [false] is [goto error_ie_different]. *)
Definition ptk_3_check_ft (hs : handshake_state) (rsne data : ptr) (size : Z) : res bool :=
  if negb (has_any (hs_akm_suite hs) FT_AKMS) then Ok true
  else
    l ← rd rsne 1;
    r ← ok_or_none (ie_parse_rsne_from_data rsne (l + 2));
    match r with
    | None => Ok false
    | Some info =>
        if negb (num_pmkids info =? 1) then Ok false
        else
          p ← nonnull (pmkids info);
          same ← memeq p (hs_pmk_r1_name hs);
          if negb same then Ok false
          else tlv_loop (ft_ies_step (hs_mde hs) (hs_fte hs)) data size true
    end.

(** The pairwise cipher of the second RSNE. *)
Inductive override_verdict : Type :=
  | NO_OVERRIDE | OVERRIDE (pairwise : Z) | OVERRIDE_IE_DIFFERENT | OVERRIDE_INVALID.

Definition ptk_3_override (rsne : ptr) (optional_rsne : option ptr) : res override_verdict :=
  match optional_rsne with
  | None => Ok NO_OVERRIDE
  | Some optional =>
      l ← rd rsne 1;
      r1 ← ok_or_none (ie_parse_rsne_from_data rsne (l + 2));
      match r1 with
      | None => Ok OVERRIDE_IE_DIFFERENT
      | Some info1 =>
          l ← rd optional 1;
          r2 ← ok_or_none (ie_parse_rsne_from_data optional (l + 2));
          match r2 with
          | None => Ok OVERRIDE_IE_DIFFERENT
          | Some info2 =>
              let override := u16 (pairwise_ciphers info2) in
              if negb (akm_suites info1 =? akm_suites info2)
                 || negb (group_cipher info1 =? group_cipher info2) then Ok OVERRIDE_IE_DIFFERENT
              else if (override =? pairwise_ciphers info1)
                      || (Z.land (pairwise_ciphers info1) override =? 0)
                      || negb (popcount override =? 1) then Ok OVERRIDE_INVALID
              else Ok (OVERRIDE override)
          end
      end
  end.

(** [None] is a missing or malformed KDE, [Some None] a key that is not expected. *)
Definition ptk_3_gtk (hs : handshake_state) (data : ptr) (size : Z)
    : res (option (option group_key)) :=
  if negb (hs_wpa_ie hs) && negb (hs_group_cipher hs =? IE_RSN_CIPHER_SUITE_NO_GROUP_TRAFFIC) then
    r ← handshake_util_find_gtk_kde data size;
    match r with
    | None => Ok None
    | Some (gtk, gtk_len) =>
        b ← rd gtk 0; Ok (Some (Some (bit_field b 0 2, gtk +! 2, gtk_len - 2)))
    end
  else Ok (Some None).

Definition find_igtk (hs : handshake_state) (data : ptr) (size : Z)
    : res (option (option group_key)) :=
  if hs_mfp hs then
    r ← handshake_util_find_igtk_kde data size;
    match r with
    | None => Ok None
    | Some (igtk, igtk_len) =>
        i ← l_get_le16 igtk; Ok (Some (Some (i, igtk +! 2, igtk_len - 2)))
    end
  else Ok (Some None).

(** The IP addresses of message 3; [None] is an invalid KDE. *)
Definition ptk_3_ip (hs : handshake_state) (data : ptr) (size : Z)
    : res (option (handshake_state → handshake_state)) :=
  if hs_support_ip_allocation hs then
    r ← eapol_find_wfa_kde data size (Z.land HANDSHAKE_KDE_IP_ADDRESS_ALLOC 255);
    match r with
    | None => Ok (Some (λ hs, hs <| hs_support_ip_allocation := false |>))
    | Some kde =>
        l ← rd kde 1;
        if l <? 16 then Ok None
        else
          ok ← eapol_check_ip_mask (kde +! 10) (kde +! 6) (kde +! 14);
          if negb ok then Ok None
          else
            client ← l_get_be32 (kde +! 6);
            mask ← l_get_be32 (kde +! 10);
            go ← l_get_be32 (kde +! 14);
            Ok (Some (λ hs, hs <| hs_support_ip_allocation := true |>
                              <| hs_client_ip_addr := client |> <| hs_subnet_mask := mask |>
                              <| hs_go_ip_addr := go |>))
    end
  else Ok (Some (λ hs, hs)).

(** From the label [retransmit]: the reply, and the keys unless they are installed. *)
Definition ptk_3_reply (ek : eapol_key) (gtk igtk : option group_key) (unencrypted : bool)
    : M unit :=
  mod_sm (λ sm, sm <| sm_replay_counter := ek_key_replay_counter ek |>
                   <| sm_have_replay := true |>);;
  sm ← get_sm;
  hs ← get_hs;
  let step4 := eapol_create_ptk_4_of_4 fresh (sm_protocol_version sm)
                 (ek_key_descriptor_version ek) (sm_replay_counter sm) (hs_wpa_ie hs)
                 (sm_mic_len sm) in
  sent ← eapol_finish_reply step4 0 unencrypted;
  if negb sent || hs_ptk_complete hs then skip
  else
    mod_hs (λ hs, if bool_decide (gtk = None)
                     && negb (hs_group_cipher hs =? IE_RSN_CIPHER_SUITE_NO_GROUP_TRAFFIC)
                  then hs <| hs_wait_for_gtk := true |> else hs);;
    install_group_keys gtk igtk (ek_key_rsc ek);;
    hs ← get_hs;
    let '(hs, effects) := handshake_state_install_ptk (env_hooks E) hs in
    put_hs hs;; emit effects;;
    (if hook_rekey_offload (env_hooks E) then
       sm ← get_sm;
       emit [RekeyOffload (handshake_state_get_kek hs) (Some (handshake_state_get_kck hs))
               (sm_replay_counter sm)]
     else skip);;
    mod_sm (λ sm, sm <| sm_timeout := None |>).

Definition eapol_handle_ptk_3_of_4 (ek : eapol_key) (data : ptr) (size : Z) (unencrypted : bool)
    : M unit :=
  sm ← get_sm;
  hs ← get_hs;
  let error_ie_different := handshake_failed MMPDU_REASON_CODE_IE_DIFFERENT in
  if negb (eapol_verify_ptk_3_of_4 ek (hs_wpa_ie hs) (sm_mic_len sm))
  then handshake_failed MMPDU_REASON_CODE_UNSPECIFIED
  else if negb (bool_decide (hs_anonce hs = ek_key_nonce ek)) then skip
  else
    '(rsne, optional_rsne) ← lift (ptk_3_find_ie hs data size);
    match rsne with
    | None => error_ie_different
    | Some rsne =>
        ap_ie ← lift (nonnull (hs_authenticator_ie hs));
        same ← lift (handshake_util_ap_ie_matches (env_junk_info E) rsne ap_ie (hs_wpa_ie hs));
        if negb same then error_ie_different
        else
          ft ← lift (ptk_3_check_ft hs rsne data size);
          if negb ft then error_ie_different
          else if hs_ptk_complete hs then ptk_3_reply ek None None unencrypted
          else
            override ← lift (ptk_3_override rsne optional_rsne);
            match override with
            | OVERRIDE_IE_DIFFERENT => error_ie_different
            | OVERRIDE_INVALID => handshake_failed MMPDU_REASON_CODE_INVALID_PAIRWISE_CIPHER
            | _ =>
                mod_hs (λ hs, match override with
                              | OVERRIDE c => handshake_state_override_pairwise_cipher hs c
                              | _ => hs
                              end);;
                gtk ← lift (ptk_3_gtk hs data size);
                match gtk with
                | None => handshake_failed MMPDU_REASON_CODE_UNSPECIFIED
                | Some gtk =>
                    igtk ← lift (find_igtk hs data size);
                    match igtk with
                    | None => handshake_failed MMPDU_REASON_CODE_UNSPECIFIED
                    | Some igtk =>
                        ip ← lift (ptk_3_ip hs data size);
                        match ip with
                        | None => handshake_failed MMPDU_REASON_CODE_INVALID_IE
                        | Some update => mod_hs update;; ptk_3_reply ek gtk igtk unencrypted
                        end
                    end
                end
            end
    end.

(** ** Message 4/4 *)

Definition eapol_handle_ptk_4_of_4 (ek : eapol_key) : M unit :=
  sm ← get_sm;
  hs ← get_hs;
  if negb (eapol_verify_ptk_4_of_4 ek false) then skip
  else if negb (ek_key_replay_counter ek =? sm_replay_counter sm) then skip
  else
    ok ← lift (eapol_verify_mic (hs_akm_suite hs) (handshake_state_get_kck hs) ek (sm_mic_len sm));
    if negb ok then skip
    else
      mod_sm (λ sm, sm <| sm_timeout := None |>);;
      (if negb (hs_ptk_complete hs) then
         let '(hs, effects) := handshake_state_install_ptk (env_hooks E) hs in
         put_hs hs;; emit effects
       else skip);;
      mod_hs (λ hs, hs <| hs_ptk_complete := true |>).

(** ** Group message 1/2 *)

Definition gtk_1_gtk (hs : handshake_state) (ek : eapol_key) (data : ptr) (size : Z)
    : res (option group_key) :=
  if negb (hs_wpa_ie hs) then
    r ← handshake_util_find_gtk_kde data size;
    match r with
    | None => Ok None
    | Some (gtk, gtk_len) => b ← rd gtk 0; Ok (Some (bit_field b 0 2, gtk +! 2, gtk_len - 2))
    end
  else if (size <? CRYPTO_MIN_GTK_LEN) || (CRYPTO_MAX_GTK_LEN <? size) then Ok None
  else Ok (Some (ek_wpa_key_id ek, data, size)).

Definition eapol_handle_gtk_1_of_2 (ek : eapol_key) (data : ptr) (size : Z) (unencrypted : bool)
    : M unit :=
  sm ← get_sm;
  hs ← get_hs;
  if negb (eapol_verify_gtk_1_of_2 ek (hs_wpa_ie hs) (sm_mic_len sm))
  then handshake_failed MMPDU_REASON_CODE_UNSPECIFIED
  else
    gtk ← lift (gtk_1_gtk hs ek data size);
    match gtk with
    | None => skip
    | Some (gtk_key_index, gtk, gtk_len) =>
        igtk ← lift (find_igtk hs data size);
        match igtk with
        | None => skip
        | Some igtk =>
            mod_sm (λ sm, sm <| sm_replay_counter := ek_key_replay_counter ek |>
                             <| sm_have_replay := true |>);;
            sm ← get_sm;
            let step2 := eapol_create_gtk_2_of_2 fresh (sm_protocol_version sm)
                           (ek_key_descriptor_version ek) (sm_replay_counter sm) (hs_wpa_ie hs)
                           (ek_wpa_key_id ek) (sm_mic_len sm) in
            sent ← eapol_finish_reply step2 0 unencrypted;
            if negb sent then skip
            else
              install_group_keys (Some (gtk_key_index, gtk, gtk_len)) igtk (ek_key_rsc ek)
        end
    end.

(** ** Dispatch of EAPoL-Key frames *)

(** [4 + packet_len] bytes are at [frame]. *)
Definition frame_len (frame : ptr) : res Z := n ← l_get_be16 (frame +! 2); Ok (4 + n).

Definition eapol_key_handle (frame : ptr) (unencrypted : bool) : M unit :=
  sm ← get_sm;
  hs ← get_hs;
  let mic_len := sm_mic_len sm in
  len ← lift (frame_len frame);
  v ← lift (eapol_key_validate frame len mic_len);
  match v with
  | None => skip
  | Some ek =>
      if negb (ek_key_ack ek) then skip
      else if negb (hs_wpa_ie hs) && negb (ek_descriptor_type ek =? EAPOL_DESCRIPTOR_TYPE_80211)
      then skip
      else if hs_wpa_ie hs && negb (ek_descriptor_type ek =? EAPOL_DESCRIPTOR_TYPE_WPA) then skip
      else if sm_have_replay sm && (ek_key_replay_counter ek <=? sm_replay_counter sm) then skip
      else
        accept ← lift (if ek_key_mic ek then
                         if negb (hs_have_snonce hs) then Ok false
                         else eapol_verify_mic (hs_akm_suite hs) (handshake_state_get_kck hs) ek
                                mic_len
                       else Ok true);
        if negb accept then skip
        else
          n ← lift (ek_data_len ek mic_len);
          let encrypted := (ek_encrypted_key_data ek && negb (hs_wpa_ie hs))
                           || (negb (ek_key_type ek) && hs_wpa_ie hs) in
          if encrypted && negb (mic_len =? 0) && negb (hs_have_snonce hs) then skip
          else
            decrypted ← lift (if encrypted
                              then eapol_decrypt_key_data (hs_akm_suite hs)
                                     (handshake_state_get_kek hs) ek mic_len
                              else Ok None);
            if encrypted && bool_decide (decrypted = None) then skip
            else if negb (ek_key_type ek) then
              if negb (hs_ptk_complete hs) then skip
              else if hs_group_cipher hs =? IE_RSN_CIPHER_SUITE_NO_GROUP_TRAFFIC then skip
              else match decrypted with
                   | None => skip
                   | Some d => eapol_handle_gtk_1_of_2 ek d (zlen d) unencrypted
                   end
            else if negb (ek_key_mic ek) && negb (ek_encrypted_key_data ek)
            then eapol_handle_ptk_1_of_4 ek unencrypted
            else
              let '(data, size) := match decrypted with
                                   | Some d => (d, zlen d)
                                   | None => (ek_data ek mic_len, n)
                                   end in
              if size =? 0 then skip else eapol_handle_ptk_3_of_4 ek data size unencrypted
  end.

Definition eapol_auth_key_handle (frame : ptr) : M unit :=
  sm ← get_sm;
  hs ← get_hs;
  len ← lift (frame_len frame);
  v ← lift (eapol_key_validate frame len (sm_mic_len sm));
  match v with
  | None => skip
  | Some ek =>
      if ek_key_ack ek then skip
      else if ek_request ek then skip
      else if negb (hs_have_anonce hs) then skip
      else
        n ← lift (ek_data_len ek (sm_mic_len sm));
        if negb (n =? 0) then eapol_handle_ptk_2_of_4 ek else eapol_handle_ptk_4_of_4 ek
  end.

(** ** EAP callbacks *)

Definition eapol_eap_msg_cb (eap_data : list Z) : M unit :=
  sm ← get_sm;
  eapol_sm_write ([u8 (sm_protocol_version sm); 0] ++ be16_bytes (zlen eap_data) ++ eap_data)
    (sm_last_eap_unencrypted sm).

Definition eapol_eap_complete_cb (success : bool) : M unit :=
  if negb success then
    mod_sm (λ sm, sm <| sm_eap := false |>);;
    handshake_failed MMPDU_REASON_CODE_IEEE8021X_FAILED
  else
    hs ← get_hs;
    (if hook_install_pmk (env_hooks E) then
       pmk ← lift (rdn (hs_pmk hs) (hs_pmk_len hs)); emit [InstallPmk pmk]
     else skip);;
    if hs_authenticator hs then
      if negb (hs_have_pmk hs) then handshake_failed MMPDU_REASON_CODE_UNSPECIFIED
      else eapol_ptk_1_of_4_retry
    else skip.

(** The number of bytes of the MSK that become the PMK, [None] when it is too short. *)
Definition msk_pmk_len (akm msk_len : Z) : option Z :=
  if msk_len <? (if akm =? IE_RSN_AKM_SUITE_FT_OVER_8021X then 64 else 32) then None
  else if akm =? IE_RSN_AKM_SUITE_FT_OVER_8021X then Some 64
  else if (akm =? IE_RSN_AKM_SUITE_8021X_SUITE_B_SHA384)
          || (akm =? IE_RSN_AKM_SUITE_FT_OVER_8021X_SHA384) then Some 48
  else Some 32.

Definition eapol_eap_results_cb (msk : list Z) (emsk session_id : option (list Z)) : M unit :=
  hs ← get_hs;
  match msk_pmk_len (hs_akm_suite hs) (zlen msk) with
  | None => handshake_failed MMPDU_REASON_CODE_IEEE8021X_FAILED
  | Some msk_len =>
      mod_sm (λ sm, sm <| sm_mic_len := eapol_get_mic_length (hs_akm_suite hs) (hs_pmk_len hs) |>);;
      hs' ← lift (handshake_state_set_pmk hs msk msk_len);
      put_hs hs';;
      match hs_support_fils hs', emsk, session_id with
      | true, Some emsk, Some sid => emit [ErpCacheAdd sid emsk (hs_ssid hs')]
      | _, _, _ => skip
      end
  end.

Definition run_callback (c : eap_callback) : M unit :=
  match c with
  | EAP_MSG data => eapol_eap_msg_cb data
  | EAP_COMPLETE success => eapol_eap_complete_cb success
  | EAP_RESULTS msk emsk sid => eapol_eap_results_cb msk emsk sid
  | EAP_EVENT event => eapol_event (HANDSHAKE_EVENT_EAP_NOTIFY event)
  end.

Fixpoint run_callbacks (cs : list eap_callback) : M unit :=
  match cs with [] => skip | c :: cs' => run_callback c;; run_callbacks cs' end.

Definition call_eap_rx_packet (data : list Z) : M unit :=
  t ← tick; run_callbacks (eap_rx_packet E t data).
Definition call_eap_start : M unit := t ← tick; run_callbacks (eap_start E t).

(** ** Received frames *)

Definition eapol_rx_auth_packet (proto : Z) (from frame : ptr) (noencrypt : bool) : M unit :=
  hs ← get_hs;
  if negb (proto =? ETH_P_PAE) then skip
  else
    same ← lift (memeq from (hs_spa hs));
    if negb same then skip
    else
      sm ← get_sm;
      type ← lift (rd frame 1);
      if type =? 0 then
        if negb (sm_eap sm) then skip
        else
          n ← lift (l_get_be16 (frame +! 2));
          d ← lift (rdn (frame +! 4) n);
          call_eap_rx_packet d
      else if type =? 1 then if sm_eap sm then call_eap_start else skip
      else if type =? 3 then eapol_auth_key_handle frame
      else skip.

Definition eapol_rx_packet (proto : Z) (from frame : ptr) (unencrypted : bool) : M unit :=
  hs ← get_hs;
  if negb (proto =? ETH_P_PAE) then skip
  else
    same ← lift (memeq from (hs_aa hs));
    if negb same then skip
    else
      sm ← get_sm;
      if negb (sm_started sm) then
        if negb (bool_decide (sm_early_frame sm = None)) then skip
        else
          len ← lift (frame_len frame);
          b ← lift (rdn frame len);
          mod_sm (λ sm, sm <| sm_early_frame := Some b |>
                           <| sm_early_frame_unencrypted := unencrypted |>)
      else
        version ← lift (rd frame 0);
        mod_sm (λ sm, if sm_protocol_version sm =? 0 then sm <| sm_protocol_version := version |>
                      else sm);;
        type ← lift (rd frame 1);
        if type =? 0 then
          mod_sm (λ sm, sm <| sm_eapol_start_timeout := false |>);;
          t ← tick;
          if negb (sm_eap sm) && negb (eap_new_ok E t) then skip
          else
            mod_sm (λ sm, sm <| sm_eap := true |> <| sm_eap_exchanged := true |>
                             <| sm_last_eap_unencrypted := unencrypted |>);;
            n ← lift (l_get_be16 (frame +! 2));
            d ← lift (rdn (frame +! 4) n);
            call_eap_rx_packet d
        else if type =? 3 then
          if negb (hs_have_pmk hs) then
            if negb (sm_eap sm) then skip
            else if sm_eapol_start_timeout sm then
              mod_sm (λ sm, sm <| sm_eapol_start_timeout := false |>);;
              __send_eapol_start unencrypted
            else skip
          else eapol_key_handle frame unencrypted
        else skip.

(** [len] bytes at [frame] have been received on [ifindex]; the watch of a freed state machine
    is gone. *)
Definition __eapol_rx_packet (ifindex : Z) (src : ptr) (proto : Z) (frame : ptr) (len : Z)
    (noencrypt : bool) : M unit :=
  if len <? 4 then skip
  else
    version ← lift (rd frame 0);
    if negb ((version =? EAPOL_PROTOCOL_VERSION_2001) || (version =? EAPOL_PROTOCOL_VERSION_2004)
             || (version =? EAPOL_PROTOCOL_VERSION_2010)) then skip
    else
      n ← lift (frame_len frame);
      if len <? n then skip
      else λ s,
        match st_sm s with
        | Some sm =>
            match sm_watch sm with
            | Some (i, auth) =>
                if negb (i =? ifindex) then Ok (tt, s)
                else if (auth : bool) then eapol_rx_auth_packet proto src frame noencrypt s
                else eapol_rx_packet proto src frame noencrypt s
            | None => Ok (tt, s)
            end
        | None => Ok (tt, s)
        end.

(** [eapol_find_sm] finds the state machine of the interface and the authenticator. *)
Definition __eapol_update_replay_counter (ifindex : Z) (aa : list Z) (replay_counter : Z) : M unit :=
  λ s, match st_sm s with
       | Some sm =>
           if bool_decide (sm_watch sm = None) then Ok (tt, s)
           else if negb (hs_ifindex (st_hs s) =? ifindex) then Ok (tt, s)
           else if negb (bool_decide (hs_aa (st_hs s) = ptake aa 6)) then Ok (tt, s)
           else if replay_counter <=? sm_replay_counter sm then Ok (tt, s)
           else mod_sm (λ sm, sm <| sm_replay_counter := replay_counter |>) s
       | None => Ok (tt, s)
       end.

(** ** Life cycle *)

Definition eapol_sm_new (hs : handshake_state) : eapol_sm :=
  mk_sm 0 0 None false 0 0 false false (hs_settings_8021x hs && negb (hs_authenticator hs)) true
    false false false None false None 0 (zeros 32) 0 (zeros 32) 0.

Definition eapol_sm_set_listen_interval (interval : Z) : M unit :=
  mod_sm (λ sm, sm <| sm_listen_interval := u16 interval |>).
Definition eapol_sm_set_use_eapol_start (enabled : bool) : M unit :=
  mod_sm (λ sm, sm <| sm_use_eapol_start := enabled |>).
Definition eapol_sm_set_require_handshake (enabled : bool) : M unit :=
  mod_sm (λ sm, let sm := sm <| sm_require_handshake := enabled |> in
                if negb enabled then sm <| sm_use_eapol_start := false |> else sm).

Definition eapol_register : M unit :=
  hs ← get_hs;
  mod_sm (λ sm, sm <| sm_watch := Some (hs_ifindex hs, hs_authenticator hs) |>
                   <| sm_protocol_version := hs_proto_version hs |>).

(** The part of [eapol_start] from [sm->started = true]. *)
Definition eapol_start_handshake : M bool :=
  hs ← get_hs;
  mod_sm (λ sm, sm <| sm_started := true |>);;
  mod_sm (λ sm, if sm_require_handshake sm
                then sm <| sm_timeout := Some (EAPOL_TIMEOUT, eapol_4way_handshake_time E * 1000) |>
                else sm);;
  mod_sm (λ sm, if negb (hs_authenticator hs) && sm_use_eapol_start sm
                then sm <| sm_eapol_start_timeout := true |> else sm);;
  mod_sm (λ sm, sm <| sm_mic_len := eapol_get_mic_length (hs_akm_suite hs) (hs_pmk_len hs) |>);;
  sm ← get_sm;
  match sm_early_frame sm with
  | None => skip
  | Some frame =>
      eapol_rx_packet ETH_P_PAE (hs_aa hs) frame (sm_early_frame_unencrypted sm);;
      mod_sm (λ sm, sm <| sm_early_frame := None |>)
  end;;
  hs ← get_hs;
  if hs_authenticator hs then
    mod_sm (λ sm, if sm_protocol_version sm =? 0
                  then sm <| sm_protocol_version := EAPOL_PROTOCOL_VERSION_2004 |> else sm);;
    sm ← get_sm;
    if hs_settings_8021x hs then
      (if negb (sm_use_eapol_start sm) then call_eap_start else skip);; mret true
    else if negb (hs_have_pmk hs) then mret false
    else eapol_ptk_1_of_4_retry;; mret true
  else mret true.

Definition eapol_start : M bool :=
  hs ← get_hs;
  if hs_settings_8021x hs then
    t ← tick;
    if negb (eap_new_ok E t) then mret false
    else if negb (eap_load_settings_ok E t) then mod_sm (λ sm, sm <| sm_eap := false |>);; mret false
    else mod_sm (λ sm, sm <| sm_eap := true |>);; eapol_start_handshake
  else eapol_start_handshake.
End eapol.
