(* ===== verification/EapolSpec.v ===== *)
(** * The supplicant as a state machine: specification and refinement (src/eapol.c)

    [sta] is what matters of the supplicant's state: the replay counter, whether a SNonce has
    been drawn, whether the keys of the current SNonce are installed, the group keys in use
    and the log of installations.  [sta_step] is its transition relation, and every call of
    the frame handlers of src/eapol.c is one of its steps. *)

From stdpp Require Import base numbers list option.
From Stdlib Require Import ZArith Lia.
From S2P Require Import Prelude IeTlv IeRsn IeMisc Crypto Handshake EapolFrame Eapol.

Open Scope Z_scope.

(** ** The specification *)

Inductive key_log : Type :=
  | LOG_TK (tk : option (list Z))
  | LOG_GTK (gtk : list Z)
  | LOG_IGTK (igtk : list Z).

#[export] Instance key_log_eq_dec : EqDecision key_log.
Proof. solve_decision. Defined.

Definition key_log_of (e : effect) : option key_log :=
  match e with
  | InstallTk tk _ => Some (LOG_TK tk)
  | InstallGtk _ gtk _ _ => Some (LOG_GTK gtk)
  | InstallIgtk _ igtk _ _ => Some (LOG_IGTK igtk)
  | _ => None
  end.
Definition installs (l : list effect) : list key_log := omap key_log_of l.

Record sta : Type := mk_sta {
  sta_alive : bool;
  sta_replay : option Z;
  sta_snonce : bool;
  sta_complete : bool;
  sta_gtk : list Z;
  sta_igtk : list Z;
  sta_draws : nat;
  sta_log : list key_log;
}.

(** [rc] has not been used. *)
Definition fresh_counter (x : sta) (rc : Z) : Prop :=
  match sta_replay x with Some old => old < rc | None => True end.

Definition use_counter (rc : Z) (x : sta) : sta :=
  mk_sta (sta_alive x) (Some rc) (sta_snonce x) (sta_complete x) (sta_gtk x) (sta_igtk x)
    (sta_draws x) (sta_log x).

(** A group key is installed unless it is the one in use. *)
Definition add_gtk (k : option (list Z)) (x : sta) : sta :=
  match k with
  | Some k =>
      if bool_decide (sta_gtk x = k) then x
      else mk_sta (sta_alive x) (sta_replay x) (sta_snonce x) (sta_complete x) k (sta_igtk x)
             (sta_draws x) (sta_log x ++ [LOG_GTK k])
  | None => x
  end.
Definition add_igtk (k : option (list Z)) (x : sta) : sta :=
  match k with
  | Some k =>
      if bool_decide (sta_igtk x = k) then x
      else mk_sta (sta_alive x) (sta_replay x) (sta_snonce x) (sta_complete x) (sta_gtk x) k
             (sta_draws x) (sta_log x ++ [LOG_IGTK k])
  | None => x
  end.
Definition add_tk (tk : option (list Z)) (x : sta) : sta :=
  mk_sta (sta_alive x) (sta_replay x) (sta_snonce x) true (sta_gtk x) (sta_igtk x) (sta_draws x)
    (sta_log x ++ [LOG_TK tk]).

(** [auth] says that the frame carries a MIC made with the current KCK. *)
Inductive sta_step (auth : Prop) : sta → sta → Prop :=
  | step_ignore x draws :
      (sta_draws x ≤ draws)%nat →
      sta_step auth x (mk_sta (sta_alive x) (sta_replay x) (sta_snonce x) (sta_complete x)
                         (sta_gtk x) (sta_igtk x) draws (sta_log x))
  | step_fail x y :
      sta_alive y = false → sta_snonce y = false → sta_log y = sta_log x →
      (sta_draws x ≤ sta_draws y)%nat →
      sta_step auth x y
  | step_offload x rc :
      fresh_counter x rc →
      sta_step auth x (mk_sta (sta_alive x) ((λ _, rc) <$> sta_replay x) (sta_snonce x)
                         (sta_complete x) (sta_gtk x) (sta_igtk x) (sta_draws x) (sta_log x))
  | step_new_snonce x :
      sta_alive x = true →
      sta_step auth x (mk_sta (sta_alive x) (sta_replay x) true false (sta_gtk x) (sta_igtk x)
                         (S (sta_draws x)) (sta_log x))
  | step_retransmit x rc :
      auth → sta_alive x = true → sta_snonce x = true → sta_complete x = true → fresh_counter x rc →
      sta_step auth x (use_counter rc x)
  | step_install x rc gtk igtk tk :
      auth → sta_alive x = true → sta_snonce x = true → sta_complete x = false → fresh_counter x rc →
      sta_step auth x (add_tk tk (add_igtk igtk (add_gtk gtk (use_counter rc x))))
  | step_group x rc gtk igtk :
      auth → sta_alive x = true → sta_snonce x = true → sta_complete x = true → fresh_counter x rc →
      sta_step auth x (add_igtk igtk (add_gtk gtk (use_counter rc x))).

(** The abstraction of a state of the code. *)
Definition sta_of (s : st) : sta :=
  match st_sm s with
  | Some sm =>
      mk_sta true (if sm_have_replay sm then Some (sm_replay_counter sm) else None)
        (hs_have_snonce (st_hs s)) (hs_ptk_complete (st_hs s))
        (ptake (sm_installed_gtk sm) (sm_installed_gtk_len sm))
        (ptake (sm_installed_igtk sm) (sm_installed_igtk_len sm))
        (st_tick s) (installs (st_out s))
  | None => mk_sta false None false false [] [] (st_tick s) (installs (st_out s))
  end.

(** ** Partial correctness of the handlers *)

Definition wlp {A} (m : M A) (Q : A → st → Prop) (s : st) : Prop :=
  match m s with Ok (a, s') => Q a s' | _ => True end.

Lemma wlp_bind {A B} (m : M A) (f : A → M B) Q s :
  wlp m (λ a, wlp (f a) Q) s → wlp (m ≫= f) Q s.
Proof. unfold wlp, mbind, M_bind. by destruct (m s) as [[a s']| | |]. Qed.

Lemma wlp_mono {A} (m : M A) (P Q : A → st → Prop) s :
  wlp m P s → (∀ a s', P a s' → Q a s') → wlp m Q s.
Proof. unfold wlp. destruct (m s) as [[a s']| | |]; auto. Qed.

Lemma wlp_ret {A} (a : A) (Q : A → st → Prop) s : Q a s → wlp (mret a) Q s.
Proof. done. Qed.

Lemma wlp_skip (Q : unit → st → Prop) s : Q tt s → wlp skip Q s.
Proof. done. Qed.

Lemma wlp_lift {A} (m : res A) (Q : A → st → Prop) s :
  (∀ a, m = Ok a → Q a s) → wlp (lift m) Q s.
Proof. unfold wlp, lift. destruct m; auto. Qed.

Lemma wlp_emit l (Q : unit → st → Prop) sm hs out t :
  Q tt (mk_st sm hs (out ++ l) t) → wlp (emit l) Q (mk_st sm hs out t).
Proof. done. Qed.

Lemma wlp_tick (Q : nat → st → Prop) sm hs out t :
  Q t (mk_st sm hs out (S t)) → wlp tick Q (mk_st sm hs out t).
Proof. done. Qed.

Section alive.
Context (sm : eapol_sm) (hs : handshake_state) (out : list effect) (t : nat).

Lemma wlp_get_sm (Q : eapol_sm → st → Prop) :
  Q sm (mk_st (Some sm) hs out t) → wlp get_sm Q (mk_st (Some sm) hs out t).
Proof. done. Qed.

Lemma wlp_get_hs (Q : handshake_state → st → Prop) :
  Q hs (mk_st (Some sm) hs out t) → wlp get_hs Q (mk_st (Some sm) hs out t).
Proof. done. Qed.

Lemma wlp_mod_sm f (Q : unit → st → Prop) :
  Q tt (mk_st (Some (f sm)) hs out t) → wlp (mod_sm f) Q (mk_st (Some sm) hs out t).
Proof. done. Qed.

Lemma wlp_mod_hs f (Q : unit → st → Prop) :
  Q tt (mk_st (Some sm) (f hs) out t) → wlp (mod_hs f) Q (mk_st (Some sm) hs out t).
Proof. done. Qed.

Lemma wlp_put_hs h (Q : unit → st → Prop) :
  Q tt (mk_st (Some sm) h out t) → wlp (put_hs h) Q (mk_st (Some sm) hs out t).
Proof. done. Qed.

Lemma wlp_free_sm (Q : unit → st → Prop) :
  Q tt (mk_st None hs out t) → wlp free_sm Q (mk_st (Some sm) hs out t).
Proof. done. Qed.
End alive.

Create HintDb wlp.
#[export] Hint Resolve wlp_ret wlp_skip : wlp.

(** One instruction of a handler. *)
Ltac wlp_step :=
  lazymatch goal with
  | |- wlp (_ ≫= _) _ _ => apply wlp_bind
  | |- wlp (mret _) _ _ => apply wlp_ret
  | |- wlp skip _ _ => apply wlp_skip
  | |- wlp (lift _) _ _ => apply wlp_lift; let H := fresh "Hl" in intros ? H
  | |- wlp (emit _) _ _ => apply wlp_emit
  | |- wlp tick _ _ => apply wlp_tick
  | |- wlp get_sm _ _ => apply wlp_get_sm
  | |- wlp get_hs _ _ => apply wlp_get_hs
  | |- wlp (mod_sm _) _ _ => apply wlp_mod_sm
  | |- wlp (mod_hs _) _ _ => apply wlp_mod_hs
  | |- wlp (put_hs _) _ _ => apply wlp_put_hs
  | |- wlp free_sm _ _ => apply wlp_free_sm
  | |- wlp (if ?b then _ else _) _ _ => let H := fresh "Hb" in destruct b eqn:H
  | |- wlp (match ?x with _ => _ end) _ _ => let H := fresh "Hx" in destruct x eqn:H
  end.

(** No key is among the effects. *)
Definition no_keys (l : list effect) : Prop := installs l = [].

Lemma installs_app l1 l2 : installs (l1 ++ l2) = installs l1 ++ installs l2.
Proof. unfold installs. apply omap_app. Qed.

Lemma installs_no_keys l1 l2 : no_keys l2 → installs (l1 ++ l2) = installs l1.
Proof. intros Hl. by rewrite installs_app, Hl, app_nil_r. Qed.

Lemma no_keys_app l1 l2 : no_keys l1 → no_keys l2 → no_keys (l1 ++ l2).
Proof. unfold no_keys. intros H1 H2. by rewrite installs_app, H1, H2. Qed.

Lemma no_keys_event hk e : no_keys (handshake_event_ hk e).
Proof. unfold handshake_event_. by case_match. Qed.

#[export] Hint Resolve no_keys_app no_keys_event : wlp.

(** ** The invariant of the code's state *)

Definition sm_inv (sm : eapol_sm) : Prop :=
  zlen (sm_installed_gtk sm) = 32 ∧ 0 ≤ sm_installed_gtk_len sm ≤ 32 ∧
  zlen (sm_installed_igtk sm) = 32 ∧ 0 ≤ sm_installed_igtk_len sm ≤ 32 ∧
  (sm_started sm = true → sm_mic_len sm ≠ 0).

Definition st_inv (s : st) : Prop :=
  eapol_get_mic_length (hs_akm_suite (st_hs s)) (hs_pmk_len (st_hs s)) ≠ 0 ∧
  hs_authenticator (st_hs s) = false ∧
  match st_sm s with
  | Some sm => sm_inv sm ∧ match sm_watch sm with Some (_, auth) => auth = false | None => True end
  | None => True
  end.

#[export] Instance sm_inv_dec sm : Decision (sm_inv sm).
Proof. unfold sm_inv. apply _. Defined.
#[export] Instance st_inv_dec s : Decision (st_inv s).
Proof.
  unfold st_inv. destruct (st_sm s) as [sm|]; [destruct (sm_watch sm) as [[? ?]|] |]; apply _.
Defined.

(** The hooks that record the installations are registered. *)
Definition key_hooks (E : env) : Prop :=
  hook_install_tk (env_hooks E) = true ∧ hook_install_gtk (env_hooks E) = true ∧
  hook_install_igtk (env_hooks E) = true.

Section handlers.
Context `{Ell}.
Variable E : env.

(** Steps that leave the association alone, but for [l] and the state machine [sm']. *)
Definition only_emits (sm' : option eapol_sm) (s s' : st) : Prop :=
  ∃ l, no_keys l ∧ s' = mk_st sm' (st_hs s) (st_out s ++ l) (st_tick s).

Lemma only_emits_refl sm hs out t : only_emits sm (mk_st sm hs out t) (mk_st sm hs out t).
Proof. exists []. split; [done |]. cbn. by rewrite app_nil_r. Qed.

Lemma only_emits_trans sm1 sm2 s1 s2 s3 :
  only_emits sm1 s1 s2 → only_emits sm2 s2 s3 → only_emits sm2 s1 s3.
Proof.
  intros (l1 & H1 & ->) (l2 & H2 & ->). exists (l1 ++ l2). cbn. rewrite app_assoc.
  auto with wlp.
Qed.

Implicit Types (sm : eapol_sm) (hs : handshake_state) (out : list effect) (t : nat).
Abbreviation s0 sm hs out t := (mk_st (Some sm) hs out t).

Lemma eapol_event_wlp e sm hs out t :
  wlp (eapol_event E e) (λ _, only_emits (Some sm) (s0 sm hs out t)) (s0 sm hs out t).
Proof. unfold eapol_event. wlp_step. eexists. split; [apply no_keys_event | done]. Qed.

Lemma handshake_failed_wlp r sm hs out t :
  wlp (handshake_failed E r) (λ _, only_emits None (s0 sm hs out t)) (s0 sm hs out t).
Proof.
  unfold handshake_failed, eapol_event, eapol_sm_free. repeat wlp_step.
  eexists. split; [apply no_keys_event | done].
Qed.

Lemma eapol_sm_write_wlp ef ne sm hs out t :
  wlp (eapol_sm_write E ef ne) (λ _, only_emits (Some sm) (s0 sm hs out t)) (s0 sm hs out t).
Proof.
  unfold eapol_sm_write, __eapol_tx_packet. repeat wlp_step; [| apply only_emits_refl].
  eexists. by split; [| reflexivity].
Qed.

Lemma send_eapol_start_wlp ne sm hs out t :
  wlp (__send_eapol_start E ne) (λ _, only_emits (Some sm) (s0 sm hs out t)) (s0 sm hs out t).
Proof.
  unfold __send_eapol_start. wlp_step. eapply wlp_mono; [apply eapol_event_wlp |].
  intros [] s1 (l & Hl & ->). eapply wlp_mono; [apply eapol_sm_write_wlp |].
  intros [] s2 Hs. eapply only_emits_trans; [by exists l | exact Hs].
Qed.
Lemma eapol_finish_reply_wlp step n ne sm hs out t :
  let s := mk_st (Some sm) hs out t in
  wlp (eapol_finish_reply E step n ne)
    (λ b s', only_emits (if (b : bool) then Some sm else None) s s') s.
Proof.
  intros s. unfold eapol_finish_reply, eapol_sm_write_key. do 3 wlp_step.
  all: repeat first [apply handshake_failed_wlp | wlp_step
    | eapply wlp_mono; [apply handshake_failed_wlp | intros ? ? ?; by apply wlp_ret]
    | eapply wlp_mono; [apply eapol_sm_write_wlp | intros ? ? ?; by apply wlp_ret]].
Qed.

(** ** Simulation *)

Definition simulates (auth : Prop) (s s' : st) : Prop :=
  sta_step auth (sta_of s) (sta_of s') ∧ st_inv s'.

Lemma sim_same auth s s' sm' :
  only_emits (Some sm') s s' → st_inv (mk_st (Some sm') (st_hs s) (st_out s) (st_tick s)) →
  sta_of (mk_st (Some sm') (st_hs s) (st_out s) (st_tick s)) = sta_of s → simulates auth s s'.
Proof.
  intros (l & Hl & ->) Hinv Hs. split; [| exact Hinv].
  assert (sta_of (mk_st (Some sm') (st_hs s) (st_out s ++ l) (st_tick s)) = sta_of s) as ->.
  { rewrite <- Hs. unfold sta_of. cbn. by rewrite installs_no_keys. }
  destruct (sta_of s) eqn:Es. pose proof (step_ignore auth (sta_of s) (sta_draws (sta_of s))) as Hst.
  rewrite Es in Hst. by apply Hst.
Qed.

Lemma sim_refl auth s : st_inv s → simulates auth s s.
Proof.
  intros Hinv. split; [| exact Hinv].
  destruct (sta_of s) eqn:Es. pose proof (step_ignore auth (sta_of s) (sta_draws (sta_of s))) as Hst.
  rewrite Es in Hst. by apply Hst.
Qed.

(** The state machine has been freed after [s1]. *)
Lemma sim_fail auth s s1 s' :
  st_inv s1 → sta_log (sta_of s1) = sta_log (sta_of s) → (st_tick s ≤ st_tick s1)%nat →
  only_emits None s1 s' → simulates auth s s'.
Proof.
  intros (Hm & Ha & _) Hlog Ht (l & Hl & ->). split; [| by split_and!].
  apply step_fail; [done | done | |].
  - rewrite <- Hlog. unfold sta_of. cbn. rewrite installs_no_keys by done. by destruct (st_sm s1).
  - unfold sta_of. cbn. by destruct (st_sm s).
Qed.

(** ** Installing group keys *)

Hypothesis Hhooks : key_hooks E.

(** A key of at most 32 bytes at the start of the array that records it. *)
Lemma installed_update (old key : list Z) installed :
  put old 0 key = Ok installed → zlen old = 32 →
  zlen installed = 32 ∧ 0 ≤ u8 (zlen key) ≤ 32 ∧ ptake installed (u8 (zlen key)) = key.
Proof.
  intros Hp Hl. pose proof (put_length _ _ _ _ Hp) as Hlen.
  unfold put in Hp. destruct (Z.leb_spec (0 + zlen key) (zlen old)); [| done].
  cbn in Hp. injection Hp as <-. pose proof (zlen_nonneg key).
  rewrite u8_small by lia. split_and!; try lia.
  change (ptake old 0) with (@nil Z). by apply ptake_app.
Qed.

Lemma ptake_ne_length (old key : list Z) n :
  0 ≤ n ≤ zlen old → n ≠ zlen key → ptake old n ≠ key.
Proof. intros Hn Hne <-. by rewrite zlen_ptake in Hne. Qed.

Lemma eapol_install_gtk_wlp i gtk n rsc sm hs out t :
  let s := mk_st (Some sm) hs out t in
  st_inv s →
  wlp (eapol_install_gtk E i gtk n rsc) (λ _ s', ∃ key sm' out', s' = mk_st (Some sm') hs out' t ∧
    sta_of s' = add_gtk (Some key) (sta_of s) ∧ st_inv s') s.
Proof.
  intros s (Hm & Ha & Hi & Hw). destruct Hhooks as (_ & Hg & _).
  unfold eapol_install_gtk. do 4 wlp_step. do 2 wlp_step. rename a into key.
  pose proof (rdn_length _ _ _ Hl) as Hkl. destruct Hi as (I1 & I2 & I3 & I4 & I5).
  wlp_step.
  - apply andb_true_iff in Hb as [Hn Hk]. apply Z.eqb_eq in Hn. apply bool_decide_eq_true in Hk.
    wlp_step. exists key, sm, out. split; [done |]. split; [| by split_and!].
    unfold add_gtk. rewrite bool_decide_true; [done |]. cbn. by rewrite Hn.
  - repeat wlp_step. unfold handshake_state_install_gtk. rewrite Hg.
    destruct (installed_update _ _ _ Hl0 I1) as (J1 & J2 & J3). rewrite Hkl in J2, J3.
    eexists key, _, _. split; [reflexivity |]. split; [| by split_and!].
    unfold add_gtk. rewrite bool_decide_false.
    + unfold sta_of. cbn. rewrite J3, installs_app. done.
    + cbn. intros Heq. apply andb_false_iff in Hb as [Hn | Hk].
      * apply Z.eqb_neq in Hn. revert Heq. apply ptake_ne_length; lia.
      * apply bool_decide_eq_false in Hk. destruct Hk.
        assert (sm_installed_gtk_len sm = n) as <-; [| done].
        rewrite <- Heq in Hkl. by rewrite zlen_ptake in Hkl by lia.
Qed.

Lemma eapol_install_igtk_wlp i igtk n sm hs out t :
  let s := mk_st (Some sm) hs out t in
  st_inv s →
  wlp (eapol_install_igtk E i igtk n) (λ _ s', ∃ key sm' out', s' = mk_st (Some sm') hs out' t ∧
    sta_of s' = add_igtk (Some key) (sta_of s) ∧ st_inv s') s.
Proof.
  intros s (Hm & Ha & Hi & Hw). destruct Hhooks as (_ & _ & Hg).
  unfold eapol_install_igtk. do 4 wlp_step. do 2 wlp_step. rename a into key.
  pose proof (rdn_length _ _ _ Hl) as Hkl. destruct Hi as (I1 & I2 & I3 & I4 & I5).
  wlp_step.
  - apply andb_true_iff in Hb as [Hn Hk]. apply Z.eqb_eq in Hn. apply bool_decide_eq_true in Hk.
    wlp_step. exists key, sm, out. split; [done |]. split; [| by split_and!].
    unfold add_igtk. rewrite bool_decide_true; [done |]. cbn. by rewrite Hn.
  - repeat wlp_step. unfold handshake_state_install_igtk. rewrite Hg.
    destruct (installed_update _ _ _ Hl1 I3) as (J1 & J2 & J3). rewrite Hkl in J2, J3.
    eexists key, _, _. split; [reflexivity |]. split; [| by split_and!].
    unfold add_igtk. rewrite bool_decide_false.
    + unfold sta_of. cbn. rewrite J3, installs_app. done.
    + cbn. intros Heq. apply andb_false_iff in Hb as [Hn | Hk].
      * apply Z.eqb_neq in Hn. revert Heq. apply ptake_ne_length; lia.
      * apply bool_decide_eq_false in Hk. destruct Hk.
        assert (sm_installed_igtk_len sm = n - 6) as <-; [| done].
        rewrite <- Heq in Hkl. by rewrite zlen_ptake in Hkl by lia.
Qed.

(** ** Messages 3/4 and group 1/2 *)

(** The group keys of a handler, when there are some. *)
Lemma install_keys_wlp (gtk igtk : option group_key) rsc sm hs out t :
  let s := mk_st (Some sm) hs out t in
  st_inv s →
  wlp (install_group_keys E gtk igtk rsc)
    (λ _ s', ∃ k ik sm' out', s' = mk_st (Some sm') hs out' t ∧
       sta_of s' = add_igtk ik (add_gtk k (sta_of s)) ∧ st_inv s') s.
Proof.
  intros s Hinv. unfold install_group_keys. wlp_step.
  eapply (wlp_mono _ (λ _ s', ∃ k sm' out', s' = mk_st (Some sm') hs out' t ∧
    sta_of s' = add_gtk k (sta_of s) ∧ st_inv s')).
  { destruct gtk as [[[i key] len]|].
    - eapply wlp_mono; [by apply eapol_install_gtk_wlp |]. intros [] s' (key' & sm' & out' & ? & ? & ?). eauto 10.
    - wlp_step. exists None, sm, out. done. }
  intros [] s' (k & sm' & out' & -> & Hs & Hinv').
  destruct igtk as [[[i key] len]|].
  - eapply wlp_mono; [by apply eapol_install_igtk_wlp |]. intros [] s' (key' & sm2 & out2 & ? & ? & ?).
    exists k, (Some key'), sm2, out2. by rewrite <- Hs.
  - wlp_step. exists k, None, sm', out'. by rewrite <- Hs.
Qed.

Lemma install_ptk_spec hs : ∃ tk l, handshake_state_install_ptk (env_hooks E) hs =
  (hs <| hs_ptk_complete := true |>, l) ∧ installs l = [LOG_TK tk].
Proof.
  destruct Hhooks as (Htk & _). unfold handshake_state_install_ptk. rewrite Htk.
  eexists _, _. split; [reflexivity |]. rewrite installs_app, no_keys_event. reflexivity.
Qed.

Lemma ptk_3_reply_wlp (auth : Prop) ek gtk igtk ne sm hs out t :
  let s := mk_st (Some sm) hs out t in
  auth → st_inv s → hs_have_snonce hs = true →
  (sm_have_replay sm = true → sm_replay_counter sm < ek_key_replay_counter ek) →
  wlp (ptk_3_reply E ek gtk igtk ne) (λ _, simulates auth s) s.
Proof.
  intros s Hauth Hinv Hsn Hrc. unfold ptk_3_reply. do 2 wlp_step. wlp_step. wlp_step. wlp_step. wlp_step.
  wlp_step.
  set (sm1 := sm <| sm_replay_counter := _ |> <| sm_have_replay := true |>).
  assert (Hinv1 : st_inv (mk_st (Some sm1) hs out t)) by exact Hinv.
  assert (Hfresh : fresh_counter (sta_of s) (ek_key_replay_counter ek)).
  { unfold fresh_counter. cbn. destruct (sm_have_replay sm); auto. }
  assert (Huse : sta_of (mk_st (Some sm1) hs out t) = use_counter (ek_key_replay_counter ek) (sta_of s))
    by done.
  eapply wlp_mono; [apply eapol_finish_reply_wlp |]. intros sent s1 Hs1.
  destruct sent; cbn [negb orb].
  2: { wlp_step. eapply (sim_fail _ _ (mk_st (Some sm1) hs out t)); done. }
  destruct Hs1 as (l & Hl & ->). cbn [st_hs st_out st_tick].
  destruct (hs_ptk_complete hs) eqn:Hc.
  { wlp_step. split; [| exact Hinv1].
    replace (sta_of (mk_st (Some sm1) hs (out ++ l) t))
      with (use_counter (ek_key_replay_counter ek) (sta_of s)).
    - by apply step_retransmit.
    - rewrite <- Huse. unfold sta_of. cbn. by rewrite installs_no_keys. }
  do 2 wlp_step. cbv beta.
  set (hs1 := if bool_decide (gtk = None) && _ then _ else hs).
  assert (Hhs1 : hs_have_snonce hs1 = true ∧ hs_ptk_complete hs1 = false ∧
    hs_akm_suite hs1 = hs_akm_suite hs ∧ hs_pmk_len hs1 = hs_pmk_len hs ∧
    hs_authenticator hs1 = hs_authenticator hs)
    by (unfold hs1; destruct (bool_decide (gtk = None) && _); done).
  destruct Hhs1 as (Hsn1 & Hc1 & Hak & Hpl & Hau).
  assert (Hinv2 : st_inv (mk_st (Some sm1) hs1 (out ++ l) t)).
  { unfold st_inv in *. cbn in *. by rewrite Hak, Hpl, Hau. }
  assert (Hsta2 : sta_of (mk_st (Some sm1) hs1 (out ++ l) t) = use_counter (ek_key_replay_counter ek) (sta_of s)).
  { rewrite <- Huse. unfold sta_of. cbn. by rewrite installs_no_keys, Hsn, Hsn1, Hc, Hc1. }
  clearbody hs1.
  wlp_step. eapply wlp_mono; [by apply install_keys_wlp |].
  intros [] s2 (k & ik & sm2 & out2 & -> & Hs2 & Hinv3). do 2 wlp_step.
  destruct (install_ptk_spec hs1) as (tk & l2 & -> & Hl2).
  do 4 wlp_step.
  assert (Hfin : ∀ sm3 l3, sta_of (mk_st (Some sm3) hs1 out2 t) = sta_of (mk_st (Some sm2) hs1 out2 t) →
    st_inv (mk_st (Some sm3) hs1 out2 t) → no_keys l3 →
    simulates auth s (mk_st (Some sm3) (hs1 <| hs_ptk_complete := true |>) ((out2 ++ l2) ++ l3) t)).
  { intros sm3 l3 Hsm3 Hi3 Hl3. split; [| exact Hi3].
    replace (sta_of (mk_st (Some sm3) _ _ t)) with (add_tk tk (add_igtk ik (add_gtk k (use_counter (ek_key_replay_counter ek) (sta_of s))))).
    { by apply step_install. }
    rewrite <- Hsta2, <- Hs2, <- Hsm3. unfold sta_of, add_tk. cbn.
    by rewrite installs_no_keys, installs_app, Hl2. }
  wlp_step. destruct (hook_rekey_offload (env_hooks E)).
  - repeat wlp_step. by apply Hfin.
  - repeat wlp_step. rewrite <- (app_nil_r (out2 ++ l2)). by apply Hfin.
Qed.

Lemma sim_eq_l auth s1 s s' : sta_of s1 = sta_of s → simulates auth s1 s' → simulates auth s s'.
Proof. unfold simulates. by intros ->. Qed.

(** The fields the specification sees are left alone by the changes of message 3. *)
Definition hs_same (hs hs' : handshake_state) : Prop :=
  hs_have_snonce hs' = hs_have_snonce hs ∧ hs_ptk_complete hs' = hs_ptk_complete hs ∧
  hs_akm_suite hs' = hs_akm_suite hs ∧ hs_pmk_len hs' = hs_pmk_len hs ∧
  hs_authenticator hs' = hs_authenticator hs.

Lemma hs_same_st sm hs hs' out t : hs_same hs hs' → st_inv (mk_st (Some sm) hs out t) →
  st_inv (mk_st (Some sm) hs' out t) ∧
  sta_of (mk_st (Some sm) hs' out t) = sta_of (mk_st (Some sm) hs out t).
Proof.
  intros (H1 & H2 & H3 & H4 & H5) Hinv. unfold st_inv, sta_of in *. cbn in *.
  by rewrite H1, H2, H3, H4, H5.
Qed.

Lemma ptk_3_ip_same hs data size f : ptk_3_ip hs data size = Ok (Some f) → ∀ h, hs_same h (f h).
Proof.
  unfold ptk_3_ip. intros Hf h. destruct (hs_support_ip_allocation hs); [| by simplify_eq].
  inv_bind Hf. destruct r as [kde|]; [| by simplify_eq]. inv_bind Hf. case_match; [done |].
  inv_bind Hf. destruct r0; [| done]. cbn [negb] in Hf. inv_bind Hf. inv_bind Hf. inv_bind Hf.
  by simplify_eq.
Qed.

Lemma eapol_handle_ptk_3_wlp (auth : Prop) ek data size ne sm hs out t :
  let s := mk_st (Some sm) hs out t in
  auth → st_inv s → hs_have_snonce hs = true →
  (sm_have_replay sm = true → sm_replay_counter sm < ek_key_replay_counter ek) →
  wlp (eapol_handle_ptk_3_of_4 E ek data size ne) (λ _, simulates auth s) s.
Proof.
  intros s Hauth Hinv Hsn Hrc.
  assert (Hfail : ∀ r hs', hs_same hs hs' →
    wlp (handshake_failed E r) (λ _, simulates auth s) (mk_st (Some sm) hs' out t)).
  { intros r hs' Hs. destruct (hs_same_st sm hs hs' out t Hs Hinv) as [Hi He].
    eapply wlp_mono; [apply handshake_failed_wlp |]. intros [] s' Hs'.
    by eapply sim_fail; [exact Hi | rewrite He | | exact Hs']. }
  assert (Hrefl : hs_same hs hs) by done.
  unfold eapol_handle_ptk_3_of_4. do 2 wlp_step. do 2 wlp_step. wlp_step; [by apply Hfail |].
  wlp_step; [wlp_step; by apply sim_refl |]. do 2 wlp_step.
  destruct a as [[rsne|] optional]; [| by apply Hfail]. do 4 wlp_step.
  wlp_step; [by apply Hfail |]. do 2 wlp_step. wlp_step; [by apply Hfail |].
  wlp_step; [by apply ptk_3_reply_wlp |]. do 2 wlp_step.
  set (ov := λ hs : handshake_state, _).
  assert (Hov : hs_same hs (ov hs)) by (unfold ov; by destruct a2).
  assert (Hgo : wlp (mod_hs ov;; gtk ← lift (ptk_3_gtk hs data size);
    match gtk with
    | None => handshake_failed E MMPDU_REASON_CODE_UNSPECIFIED
    | Some gtk =>
        igtk ← lift (find_igtk hs data size);
        match igtk with
        | None => handshake_failed E MMPDU_REASON_CODE_UNSPECIFIED
        | Some igtk =>
            ip ← lift (ptk_3_ip hs data size);
            match ip with
            | None => handshake_failed E MMPDU_REASON_CODE_INVALID_IE
            | Some update => mod_hs update;; ptk_3_reply E ek gtk igtk ne
            end
        end
    end) (λ _, simulates auth s) s).
  { do 2 wlp_step. do 2 wlp_step. wlp_step; [| by apply Hfail]. do 2 wlp_step.
    wlp_step; [| by apply Hfail]. do 2 wlp_step. wlp_step; [| by apply Hfail]. do 2 wlp_step.
    pose proof (ptk_3_ip_same _ _ _ _ Hl6 (ov hs)) as Hip.
    assert (Hs2 : hs_same hs (h (ov hs))) by (unfold hs_same in *; intuition congruence).
    destruct (hs_same_st sm hs _ out t Hs2 Hinv) as [Hi He].
    eapply wlp_mono; [apply (ptk_3_reply_wlp auth); try done; destruct Hs2 as [-> _]; done |].
    intros [] s' Hs'. by eapply sim_eq_l; [exact He |]. }
  destruct a2; first [exact Hgo | by apply Hfail].
Qed.

Lemma eapol_handle_gtk_1_wlp (auth : Prop) ek data size ne sm hs out t :
  let s := mk_st (Some sm) hs out t in
  auth → st_inv s → hs_have_snonce hs = true → hs_ptk_complete hs = true →
  (sm_have_replay sm = true → sm_replay_counter sm < ek_key_replay_counter ek) →
  wlp (eapol_handle_gtk_1_of_2 E ek data size ne) (λ _, simulates auth s) s.
Proof.
  intros s Hauth Hinv Hsn Hc Hrc. unfold eapol_handle_gtk_1_of_2. do 4 wlp_step. wlp_step.
  { eapply wlp_mono; [apply handshake_failed_wlp |]. intros [] s' Hs'. by eapply sim_fail. }
  do 2 wlp_step. destruct a as [[[i gtk] n]|]; [| wlp_step; by apply sim_refl].
  do 2 wlp_step. wlp_step; [| wlp_step; by apply sim_refl]. do 4 wlp_step.
  set (sm1 := sm <| sm_replay_counter := _ |> <| sm_have_replay := true |>).
  assert (Hinv1 : st_inv (mk_st (Some sm1) hs out t)) by exact Hinv.
  assert (Hfresh : fresh_counter (sta_of s) (ek_key_replay_counter ek)).
  { unfold fresh_counter. cbn. destruct (sm_have_replay sm); auto. }
  wlp_step. eapply wlp_mono; [apply eapol_finish_reply_wlp |]. intros sent s1 Hs1.
  destruct sent; cbn [negb].
  2: { wlp_step. eapply (sim_fail _ _ (mk_st (Some sm1) hs out t)); done. }
  destruct Hs1 as (l & Hl' & ->). cbn [st_hs st_out st_tick].
  eapply wlp_mono; [by apply install_keys_wlp |].
  intros [] s2 (k & ik & sm2 & out2 & -> & Hs2 & Hinv3). split; [| exact Hinv3].
  rewrite Hs2. replace (sta_of (mk_st (Some sm1) hs (out ++ l) t))
    with (use_counter (ek_key_replay_counter ek) (sta_of s)); [by apply step_group |].
  unfold sta_of, use_counter. cbn. by rewrite installs_no_keys.
Qed.

(** ** Message 1/4 *)

Lemma derive_ft_ptk_flags junk hs n hs' b : derive_ft_ptk junk hs n = Ok (hs', b) → hs_same hs hs'.
Proof.
  unfold derive_ft_ptk. intros Hd. inv_bind Hd. destruct (hs_mde hs) as [mde|]; [| done].
  repeat (inv_bind Hd). destruct (crypto_derive_pmk_r0 _ _ _ _ _ _) as [[r0k r0n]|]; [| by simplify_eq].
  inv_bind Hd. destruct (crypto_derive_pmk_r1 _ _ _ _ _) as [[r1k r1n]|]; [| by simplify_eq].
  inv_bind Hd. inv_bind Hd.
  destruct (crypto_derive_ft_ptk _ _ _ _ _ _ _ _) as [[ptk nm]|]; [| by simplify_eq].
  inv_bind Hd. by simplify_eq.
Qed.

(** A derivation marks the PTK as not installed. *)
Lemma derive_ptk_flags junk hs hs' b : handshake_state_derive_ptk junk hs = Ok (hs', b) →
  b = false ∧ hs' = hs ∨ hs_same (hs <| hs_ptk_complete := false |>) hs'.
Proof.
  unfold handshake_state_derive_ptk. intros Hd. case_match; [left; by simplify_eq |].
  case_match; [left; by simplify_eq |]. right.
  destruct (ptk_checksum_type _) as [type|]; [| by simplify_eq]. case_match.
  - by apply derive_ft_ptk_flags in Hd.
  - inv_bind Hd. inv_bind Hd. destruct (crypto_derive_pairwise_ptk _ _ _ _ _ _ _); [| by simplify_eq].
    inv_bind Hd. by simplify_eq.
Qed.

Lemma ptk_1_send_step2_wlp ek own info ne sm hs out t :
  let s := mk_st (Some sm) hs out t in
  wlp (ptk_1_send_step2 E ek own info ne) (λ _ s', only_emits None s s' ∨
    only_emits (Some (sm <| sm_eapol_start_timeout := false |>)) s s') s.
Proof.
  intros s. unfold ptk_1_send_step2. do 6 wlp_step. destruct a as [ies n]. do 2 wlp_step. wlp_step.
  eapply wlp_mono; [apply eapol_finish_reply_wlp |]. intros sent s1 Hs1. destruct sent.
  - destruct Hs1 as (l & Hl' & ->). wlp_step. right. by exists l.
  - wlp_step. by left.
Qed.

Lemma eapol_handle_ptk_1_wlp auth ek ne sm hs out t :
  let s := mk_st (Some sm) hs out t in
  st_inv s → wlp (eapol_handle_ptk_1_of_4 E ek ne) (λ _, simulates auth s) s.
Proof.
  intros s Hinv.
  assert (Hfail : ∀ r hs' out' t', hs_akm_suite hs' = hs_akm_suite hs → hs_pmk_len hs' = hs_pmk_len hs →
    hs_authenticator hs' = hs_authenticator hs → installs out' = installs out → (t ≤ t')%nat →
    wlp (handshake_failed E r) (λ _, simulates auth s) (mk_st (Some sm) hs' out' t')).
  { intros r hs' out' t' Hk Hp Hau Ho Ht. eapply wlp_mono; [apply handshake_failed_wlp |].
    intros [] s' Hs'. eapply sim_fail; [| | | exact Hs']; [| done | done].
    unfold st_inv in *. cbn in *. by rewrite Hk, Hp, Hau. }
  unfold eapol_handle_ptk_1_of_4. do 4 wlp_step. do 2 wlp_step. wlp_step; [by apply Hfail |].
  do 8 wlp_step. destruct a3 as [info|]; [| by apply Hfail]. do 2 wlp_step.
  destruct a3; [| by apply Hfail |].
  2: { eapply wlp_mono; [apply send_eapol_start_wlp |]. intros [] s' Hs'. by eapply sim_same. }
  wlp_step.
  2: { eapply wlp_mono; [apply ptk_1_send_step2_wlp |]. intros [] s' [Hs' | Hs'];
       [by eapply sim_fail | by eapply sim_same]. }
  wlp_step.
  { eapply wlp_mono; [apply eapol_event_wlp |]. intros [] s' Hs'. by eapply sim_same. }
  do 2 wlp_step. do 4 wlp_step. destruct a4 as [hs2 ok]. do 2 wlp_step.
  assert (Hflags : hs_have_snonce hs2 = true ∧ (ok = true → hs_ptk_complete hs2 = false) ∧
    hs_akm_suite hs2 = hs_akm_suite hs ∧ hs_pmk_len hs2 = hs_pmk_len hs ∧
    hs_authenticator hs2 = hs_authenticator hs).
  { unfold handshake_state_set_anonce in Hl5. inv_bind Hl5. injection Hl5 as <-.
    apply derive_ptk_flags in Hl6 as [[-> ->] | (-> & -> & -> & -> & ->)]; done. }
  destruct Hflags as (Hs2 & Hc2 & Hk & Hp & Hau).
  destruct ok; cbn [negb]; [| by apply Hfail; auto].
  assert (Hi2 : st_inv (mk_st (Some sm) hs2 out (S t))).
  { unfold st_inv in *. cbn in *. by rewrite Hk, Hp, Hau. }
  eapply wlp_mono; [apply ptk_1_send_step2_wlp |]. intros [] s' [Hs' | (l & Hno & ->)].
  { eapply sim_fail; [exact Hi2 | done | cbn; lia | exact Hs']. }
  split; [| exact Hi2].
  pose proof (step_new_snonce auth (sta_of s) eq_refl) as Hstep. unfold sta_of in Hstep |- *. cbn in Hstep |- *.
  rewrite installs_no_keys, Hs2, Hc2 by done. exact Hstep.
Qed.

(** ** EAPoL-Key frames *)

(** The frame is a valid EAPoL-Key frame whose MIC was made with the current KCK. *)
Definition authentic (s : st) (frame : ptr) : Prop :=
  match st_sm s with
  | Some sm => ∃ len ek, eapol_key_validate frame len (sm_mic_len sm) = Ok (Some ek) ∧
      ek_key_mic ek = true ∧
      eapol_verify_mic (hs_akm_suite (st_hs s)) (handshake_state_get_kck (st_hs s)) ek
        (sm_mic_len sm) = Ok true
  | None => False
  end.

(** Without a MIC, the messages that carry keys end the handshake. *)
Lemma ptk_3_no_mic_wlp auth ek data size ne sm hs out t :
  let s := mk_st (Some sm) hs out t in
  st_inv s → sm_mic_len sm ≠ 0 → ek_key_mic ek = false →
  wlp (eapol_handle_ptk_3_of_4 E ek data size ne) (λ _, simulates auth s) s.
Proof.
  intros s Hinv Hm Hk. unfold eapol_handle_ptk_3_of_4. do 4 wlp_step.
  assert (eapol_verify_ptk_3_of_4 ek (hs_wpa_ie hs) (sm_mic_len sm) = false) as ->.
  { unfold eapol_verify_ptk_3_of_4. rewrite Hk, (proj2 (Z.eqb_neq _ _) Hm). cbn. by rewrite !andb_false_r. }
  cbn [negb]. eapply wlp_mono; [apply handshake_failed_wlp |]. intros [] s' Hs'. by eapply sim_fail.
Qed.

Lemma gtk_1_no_mic_wlp auth ek data size ne sm hs out t :
  let s := mk_st (Some sm) hs out t in
  st_inv s → sm_mic_len sm ≠ 0 → ek_key_mic ek = false →
  wlp (eapol_handle_gtk_1_of_2 E ek data size ne) (λ _, simulates auth s) s.
Proof.
  intros s Hinv Hm Hk. unfold eapol_handle_gtk_1_of_2. do 4 wlp_step.
  assert (eapol_verify_gtk_1_of_2 ek (hs_wpa_ie hs) (sm_mic_len sm) = false) as ->.
  { unfold eapol_verify_gtk_1_of_2. rewrite Hk, (proj2 (Z.eqb_neq _ _) Hm). cbn. by rewrite !andb_false_r. }
  cbn [negb]. eapply wlp_mono; [apply handshake_failed_wlp |]. intros [] s' Hs'. by eapply sim_fail.
Qed.

Lemma eapol_key_handle_wlp frame ne sm hs out t :
  let s := mk_st (Some sm) hs out t in
  st_inv s → sm_started sm = true →
  wlp (eapol_key_handle E frame ne) (λ _, simulates (authentic s frame) s) s.
Proof.
  intros s Hinv Hst.
  assert (Hskip : ∀ auth, wlp skip (λ _, simulates auth s) s) by (intros; wlp_step; by apply sim_refl).
  assert (Hmic : sm_mic_len sm ≠ 0) by (destruct Hinv as (_ & _ & (_ & _ & _ & _ & Hm) & _); auto).
  unfold eapol_key_handle. do 4 wlp_step. do 4 wlp_step. destruct a0 as [ek|]; [| apply Hskip].
  do 4 (wlp_step; [apply Hskip |]). do 2 wlp_step. wlp_step; [apply Hskip |]. do 2 wlp_step.
  wlp_step; [apply Hskip |]. do 2 wlp_step. wlp_step; [apply Hskip |].
  assert (Hrc : sm_have_replay sm = true → sm_replay_counter sm < ek_key_replay_counter ek).
  { intros Hr. rewrite Hr in Hb2. by apply Z.leb_gt in Hb2. }
  destruct (ek_key_mic ek) eqn:Ek.
  - destruct (hs_have_snonce hs) eqn:Esn; cbn [negb] in Hl1; [| by simplify_eq].
    destruct a0; [| done].
    assert (Hauth : authentic s frame) by (exists a, ek; done).
    wlp_step.
    + wlp_step; [apply Hskip |]. wlp_step; [apply Hskip |]. destruct a2; [| apply Hskip].
      apply negb_false_iff in Hb7. by apply eapol_handle_gtk_1_wlp.
    + cbn [negb andb]. destruct a2 as [d|]; (wlp_step; [apply Hskip |]); by apply eapol_handle_ptk_3_wlp.
  - wlp_step.
    + wlp_step; [apply Hskip |]. wlp_step; [apply Hskip |]. destruct a2; [| apply Hskip].
      by apply gtk_1_no_mic_wlp.
    + wlp_step; [by apply eapol_handle_ptk_1_wlp |].
      destruct a2 as [d|]; (wlp_step; [apply Hskip |]); by apply ptk_3_no_mic_wlp.
Qed.

(** ** EAP callbacks *)

(** The state machine is alive and the keys are those of [s], or it has been freed. *)
Lemma msk_pmk_len_cases akm n m : msk_pmk_len akm n = Some m →
  (akm = IE_RSN_AKM_SUITE_OWE → m = 32) ∧ (m = 32 ∨ m = 48 ∨ m = 64).
Proof.
  unfold msk_pmk_len. intros Hm. destruct (n <? _); [done |].
  destruct (Z.eqb_spec akm IE_RSN_AKM_SUITE_FT_OVER_8021X) as [-> |]; [simplify_eq; split; [done | auto] |].
  case_match eqn:Hk; simplify_eq; split; auto.
  intros ->. done.
Qed.

Lemma mic_length_pmk akm m m' : (akm = IE_RSN_AKM_SUITE_OWE → m' = 32) →
  eapol_get_mic_length akm m ≠ 0 → eapol_get_mic_length akm m' ≠ 0.
Proof.
  unfold eapol_get_mic_length. intros Hm. case_match; [done |].
  destruct (Z.eqb_spec akm IE_RSN_AKM_SUITE_OWE); [| done]. by rewrite Hm.
Qed.

(** Steps that neither install a key nor use a replay counter. *)
Definition idle (s s' : st) : Prop :=
  st_inv s' ∧ (st_tick s ≤ st_tick s')%nat ∧ sta_log (sta_of s') = sta_log (sta_of s) ∧
  (st_sm s' = None ∨
   sta_of s' = mk_sta (sta_alive (sta_of s)) (sta_replay (sta_of s)) (sta_snonce (sta_of s))
                 (sta_complete (sta_of s)) (sta_gtk (sta_of s)) (sta_igtk (sta_of s))
                 (st_tick s') (sta_log (sta_of s))).

Lemma sta_of_draws s : sta_draws (sta_of s) = st_tick s.
Proof. unfold sta_of. by destruct (st_sm s). Qed.

Lemma idle_simulates auth s s' : idle s s' → simulates auth s s'.
Proof.
  intros (Hi & Ht & Hlog & [Hd | Hs]); (split; [| exact Hi]).
  - apply step_fail; [unfold sta_of; by rewrite Hd .. | done | by rewrite !sta_of_draws].
  - rewrite Hs. apply step_ignore. by rewrite sta_of_draws.
Qed.

Lemma idle_refl s : st_inv s → idle s s.
Proof.
  intros Hi. split_and!; [done.. |]. right. unfold sta_of. by destruct (st_sm s).
Qed.

Lemma idle_trans s1 s2 s3 : idle s1 s2 → idle s2 s3 → idle s1 s3.
Proof.
  intros (_ & Ht & Hlog & H12) (Hi & Ht' & Hlog' & H23). split_and!; [done | lia | congruence |].
  destruct H23 as [? | H23]; [by left |]. destruct H12 as [Hd | H12].
  - left. destruct (st_sm s3) eqn:E3; [| done]. exfalso.
    assert (sta_alive (sta_of s3) = sta_alive (sta_of s2)) as Ha by (by rewrite H23).
    unfold sta_of in Ha. by rewrite E3, Hd in Ha.
  - right. rewrite H23, H12. reflexivity.
Qed.

Lemma idle_emits (sm' : option eapol_sm) s s' : only_emits sm' s s' → st_inv (mk_st sm' (st_hs s) (st_out s) (st_tick s)) →
  sm' = None ∨ sta_of (mk_st sm' (st_hs s) (st_out s) (st_tick s)) = sta_of s → idle s s'.
Proof.
  intros (l & Hl & ->) Hi Hs. split_and!; [exact Hi | done | |].
  - unfold sta_of. cbn. rewrite installs_no_keys by done. by destruct sm', (st_sm s).
  - destruct Hs as [-> | Hs]; [by left |]. right. rewrite <- Hs. unfold sta_of. cbn.
    rewrite installs_no_keys by done. by destruct sm'.
Qed.

Lemma idle_sm sm sm' hs out t : st_inv (s0 sm' hs out t) →
  sta_of (s0 sm' hs out t) = sta_of (s0 sm hs out t) → idle (s0 sm hs out t) (s0 sm' hs out t).
Proof.
  intros Hi Hs. destruct (idle_refl _ Hi) as (_ & _ & Hl & Hr). split_and!; [done.. | by rewrite Hs |].
  right. destruct Hr as [|Hr]; [done |]. by rewrite <- Hs.
Qed.

Lemma handshake_failed_idle r s : st_inv s → wlp (handshake_failed E r) (λ _, idle s) s.
Proof.
  intros Hi. destruct s as [[sm|] hs out t]; [| done].
  eapply wlp_mono; [apply handshake_failed_wlp |]. intros [] s' Hs'. eapply idle_emits; [exact Hs' | | by left].
  by destruct Hi as (? & ? & _).
Qed.

Lemma run_callback_wlp c s : st_inv s → wlp (run_callback E c) (λ _, idle s) s.
Proof.
  intros Hi. destruct s as [[sm|] hs out t]; destruct c as [data | ok | msk emsk sid | ev]; cbn [run_callback].
  - unfold eapol_eap_msg_cb. do 2 wlp_step. eapply wlp_mono; [apply eapol_sm_write_wlp |].
    intros [] s' Hs'. eapply idle_emits; [exact Hs' | done | by right].
  - unfold eapol_eap_complete_cb. wlp_step.
    { do 2 wlp_step. eapply wlp_mono; [by apply handshake_failed_idle |]. intros [] s' Hs'.
      eapply idle_trans; [by apply idle_sm | exact Hs']. }
    assert (hs_authenticator hs = false) as Ha by apply Hi.
    do 3 wlp_step. destruct (hook_install_pmk (env_hooks E)).
    + do 3 wlp_step. rewrite Ha. wlp_step. eapply (idle_emits (Some sm)); [| done | by right].
      eexists. by split; [| reflexivity].
    + wlp_step. rewrite Ha. wlp_step. by apply idle_refl.
  - unfold eapol_eap_results_cb. do 2 wlp_step. wlp_step; [| by apply handshake_failed_idle].
    do 2 wlp_step. do 2 wlp_step. do 2 wlp_step.
    apply msk_pmk_len_cases in Hx as [Howe _].
    unfold handshake_state_set_pmk in Hl. inv_bind Hl. inv_bind Hl. injection Hl as <-.
    destruct Hi as (Hm & Ha & (I1 & I2 & I3 & I4 & I5) & Hw). cbn in Hm.
    assert (Hi' : ∀ l, st_inv (mk_st (Some (sm <| sm_mic_len := eapol_get_mic_length (hs_akm_suite hs) (hs_pmk_len hs) |>))
      (hs <| hs_pmk := r0 |> <| hs_pmk_len := z |> <| hs_have_pmk := true |>) (out ++ l) t)).
    { intros l. split; [by eapply mic_length_pmk |]. by split_and!. }
    assert (Hidle : ∀ l, no_keys l → idle (mk_st (Some sm) hs out t)
      (mk_st (Some (sm <| sm_mic_len := eapol_get_mic_length (hs_akm_suite hs) (hs_pmk_len hs) |>))
      (hs <| hs_pmk := r0 |> <| hs_pmk_len := z |> <| hs_have_pmk := true |>) (out ++ l) t)).
    { intros l Hl'. split_and!; [apply Hi' | done | |].
      - cbn. by rewrite installs_no_keys.
      - right. unfold sta_of. cbn. by rewrite installs_no_keys. }
    assert (Hnil := Hidle [] eq_refl). rewrite app_nil_r in Hnil.
    destruct (hs_support_fils _); [| by wlp_step].
    destruct emsk as [emsk|]; [| by wlp_step]. destruct sid as [sid|]; [| by wlp_step].
    wlp_step. by apply Hidle.
  - eapply wlp_mono; [apply eapol_event_wlp |]. intros [] s' Hs'. eapply idle_emits; [exact Hs' | done | by right].
  - done.
  - unfold eapol_eap_complete_cb. by destruct ok.
  - done.
  - unfold eapol_event. wlp_step. eapply (idle_emits None); [| done | by left].
    eexists. split; [apply no_keys_event | reflexivity].
Qed.

Lemma run_callbacks_wlp cs : ∀ s, st_inv s → wlp (run_callbacks E cs) (λ _, idle s) s.
Proof.
  induction cs as [|c cs IH]; intros s Hi; cbn [run_callbacks].
  - wlp_step. by apply idle_refl.
  - wlp_step. eapply wlp_mono; [by apply run_callback_wlp |]. intros [] s1 Hs1.
    eapply wlp_mono; [apply IH, Hs1 |]. intros [] s2 Hs2. by eapply idle_trans.
Qed.

(** ** Received frames and timers *)

(** The frame of an EAPoL-Key message, seen by [eapol_rx_packet] once the version is known. *)
Lemma authentic_version s sm sm' frame :
  st_sm s = Some sm → sm_mic_len sm' = sm_mic_len sm →
  authentic (mk_st (Some sm') (st_hs s) (st_out s) (st_tick s)) frame → authentic s frame.
Proof. unfold authentic. intros -> Hm. cbn. by rewrite Hm. Qed.

Lemma sta_step_mono (P Q : Prop) x y : (P → Q) → sta_step P x y → sta_step Q x y.
Proof.
  intros HPQ Hs. destruct Hs; [apply step_ignore | apply step_fail | apply step_offload
    | apply step_new_snonce | apply step_retransmit | apply step_install | apply step_group]; auto.
Qed.

Lemma sim_auth (P Q : Prop) s s' : (P → Q) → simulates P s s' → simulates Q s s'.
Proof. intros HPQ [Hs Hi]. split; [by eapply sta_step_mono | done]. Qed.

Definition eap_frame (frame : ptr) : bool :=
  match rd frame 1 with Ok type => type =? 0 | _ => false end.

Lemma eap_frame_type frame : eap_frame frame = true → rd frame 1 = Ok 0.
Proof. unfold eap_frame. destruct (rd frame 1); [| done..]. by intros ->%Z.eqb_eq. Qed.

(** An EAP packet neither installs a key nor draws a SNonce. *)
Lemma eapol_rx_eap_packet_wlp proto from frame ne sm hs out t :
  let s := mk_st (Some sm) hs out t in
  st_inv s → eap_frame frame = true → wlp (eapol_rx_packet E proto from frame ne) (λ _, idle s) s.
Proof.
  intros s Hinv Hty%eap_frame_type.
  assert (Hskip : wlp skip (λ _, idle s) s) by (wlp_step; by apply idle_refl).
  unfold eapol_rx_packet. do 2 wlp_step. wlp_step; [apply Hskip |]. do 2 wlp_step.
  wlp_step; [apply Hskip |]. do 2 wlp_step. wlp_step.
  { wlp_step; [apply Hskip |]. do 5 wlp_step. apply idle_sm; done. }
  do 4 wlp_step. cbv beta. set (sm1 := if sm_protocol_version sm =? 0 then _ else sm).
  assert (Hsm1 : st_inv (mk_st (Some sm1) hs out t) ∧ sta_of (mk_st (Some sm1) hs out t) = sta_of s)
    by (unfold sm1; destruct (sm_protocol_version sm =? 0); done).
  clearbody sm1. destruct Hsm1 as (Hi1 & Hs1).
  assert (H01 : idle s (mk_st (Some sm1) hs out t)) by (by apply idle_sm).
  do 2 wlp_step. rewrite Hty in *. match goal with H : Ok 0 = Ok _ |- _ => injection H as <- end.
  cbn [Z.eqb]. do 4 wlp_step.
  assert (H02 : ∀ sm2 t', st_inv (mk_st (Some sm2) hs out t) →
    sta_of (mk_st (Some sm2) hs out t) = sta_of (mk_st (Some sm1) hs out t) → (t ≤ t')%nat →
    idle s (mk_st (Some sm2) hs out t')).
  { intros sm2 t' Hi2 Hs2 Ht. split_and!; [exact Hi2 | exact Ht | by destruct H01 as (_ & _ & ? & _) |].
    right. rewrite Hs1 in Hs2. unfold sta_of in *. cbn in *. by injection Hs2 as -> -> ->. }
  wlp_step; [wlp_step; by apply H02; [| | lia] |].
  unfold call_eap_rx_packet. do 8 wlp_step.
  match goal with |- wlp _ _ (mk_st (Some ?sm2) _ _ ?t2) =>
    assert (H03 : idle s (mk_st (Some sm2) hs out t2)) by (by apply H02; [| | lia]) end.
  eapply wlp_mono; [apply run_callbacks_wlp; apply H03 |]. intros [] s' Hs'. by eapply idle_trans.
Qed.

Lemma eapol_rx_packet_wlp proto from frame ne sm hs out t :
  let s := mk_st (Some sm) hs out t in
  st_inv s → wlp (eapol_rx_packet E proto from frame ne) (λ _, simulates (authentic s frame) s) s.
Proof.
  intros s Hinv.
  assert (Hskip : ∀ auth, wlp skip (λ _, simulates auth s) s) by (intros; wlp_step; by apply sim_refl).
  destruct (eap_frame frame) eqn:Hty.
  { eapply wlp_mono; [by apply eapol_rx_eap_packet_wlp |]. intros [] s' Hs'. by apply idle_simulates. }
  unfold eapol_rx_packet. do 2 wlp_step. wlp_step; [apply Hskip |]. do 2 wlp_step.
  wlp_step; [apply Hskip |]. do 2 wlp_step. wlp_step.
  - wlp_step; [apply Hskip |]. do 5 wlp_step. apply idle_simulates, idle_sm; done.
  - apply negb_false_iff in Hb1. do 4 wlp_step. cbv beta.
    set (sm1 := if sm_protocol_version sm =? 0 then _ else sm).
    assert (Hsm1 : st_inv (mk_st (Some sm1) hs out t) ∧ sta_of (mk_st (Some sm1) hs out t) = sta_of s ∧
      sm_started sm1 = true ∧ sm_mic_len sm1 = sm_mic_len sm)
      by (unfold sm1; destruct (sm_protocol_version sm =? 0); done).
    clearbody sm1. destruct Hsm1 as (Hi1 & Hs1 & Hst1 & Hm1).
    assert (H01 : idle s (mk_st (Some sm1) hs out t)) by (by apply idle_sm).
    assert (Hskip1 : ∀ auth, wlp skip (λ _, simulates auth s) (mk_st (Some sm1) hs out t))
      by (intros; wlp_step; by apply idle_simulates).
    do 2 wlp_step. wlp_step.
    + unfold eap_frame in Hty. rewrite Hl1, Hb2 in Hty. done.
    + wlp_step; [| apply Hskip1]. wlp_step.
      * wlp_step; [apply Hskip1 |]. wlp_step; [| apply Hskip1]. do 2 wlp_step.
        eapply wlp_mono; [apply send_eapol_start_wlp |]. intros [] s' Hs'.
        apply idle_simulates. eapply idle_trans; [exact H01 |]. eapply idle_trans; [| eapply idle_emits; [exact Hs' | exact Hi1 | by right]].
        by apply idle_sm.
      * eapply wlp_mono; [by apply eapol_key_handle_wlp |]. intros [] s' Hs'.
        eapply sim_eq_l; [exact Hs1 |]. eapply sim_auth; [| exact Hs'].
        by apply (authentic_version s sm sm1).
Qed.

Lemma __eapol_rx_packet_wlp ifindex src proto frame len ne s :
  st_inv s →
  wlp (__eapol_rx_packet E ifindex src proto frame len ne) (λ _, simulates (authentic s frame) s) s.
Proof.
  intros Hinv.
  assert (Hskip : simulates (authentic s frame) s s) by (by apply sim_refl).
  unfold __eapol_rx_packet. wlp_step; [by wlp_step |]. do 2 wlp_step. wlp_step; [by wlp_step |].
  do 2 wlp_step. wlp_step; [by wlp_step |].
  destruct s as [[sm|] hs out t]; [| exact Hskip]. unfold wlp. cbn [st_sm].
  destruct Hinv as (H1 & H2 & H3 & H4). destruct (sm_watch sm) as [[i auth]|] eqn:Hw; [| exact Hskip].
  destruct (negb (i =? ifindex)); [exact Hskip |]. subst auth.
  apply eapol_rx_packet_wlp. split_and!; try done. cbn. by rewrite Hw.
Qed.

Lemma __eapol_rx_eap_packet_wlp ifindex src proto frame len ne s :
  st_inv s → eap_frame frame = true →
  wlp (__eapol_rx_packet E ifindex src proto frame len ne) (λ _, idle s) s.
Proof.
  intros Hinv Hty. assert (Hskip : idle s s) by (by apply idle_refl).
  unfold __eapol_rx_packet. wlp_step; [by wlp_step |]. do 2 wlp_step. wlp_step; [by wlp_step |].
  do 2 wlp_step. wlp_step; [by wlp_step |].
  destruct s as [[sm|] hs out t]; [| exact Hskip]. unfold wlp. cbn [st_sm].
  destruct Hinv as (H1 & H2 & H3 & H4). destruct (sm_watch sm) as [[i auth]|] eqn:Hw; [| exact Hskip].
  destruct (negb (i =? ifindex)); [exact Hskip |]. subst auth.
  apply eapol_rx_eap_packet_wlp; [| done]. split_and!; try done. cbn. by rewrite Hw.
Qed.

Lemma eapol_timeout_wlp auth s : st_inv s → wlp (eapol_timeout E) (λ _, simulates auth s) s.
Proof.
  intros Hi. destruct s as [[sm|] hs out t]; [| done]. unfold eapol_timeout. do 2 wlp_step.
  eapply wlp_mono; [by apply handshake_failed_idle |]. intros [] s' Hs'. apply idle_simulates.
  eapply idle_trans; [by apply idle_sm | exact Hs'].
Qed.

Lemma send_eapol_start_timer_wlp auth s : st_inv s → wlp (send_eapol_start E) (λ _, simulates auth s) s.
Proof.
  intros Hi. destruct s as [[sm|] hs out t]; [| done]. unfold send_eapol_start. do 2 wlp_step.
  eapply wlp_mono; [by apply send_eapol_start_wlp |]. intros [] s' Hs'. apply idle_simulates.
  eapply idle_trans; [| eapply idle_emits; [exact Hs' | done | by right]]. by apply idle_sm.
Qed.

Lemma update_replay_counter_wlp auth ifindex aa rc s : st_inv s →
  wlp (__eapol_update_replay_counter ifindex aa rc) (λ _, simulates auth s) s.
Proof.
  intros Hi. pose proof (sim_refl auth s Hi) as Hr. unfold __eapol_update_replay_counter, wlp.
  destruct s as [[sm|] hs out t]; [| exact Hr]. cbn [st_sm st_hs].
  destruct (bool_decide (sm_watch sm = None)); [exact Hr |].
  destruct (negb (hs_ifindex hs =? ifindex)); [exact Hr |].
  destruct (negb _); [exact Hr |]. destruct (Z.leb_spec rc (sm_replay_counter sm)); [exact Hr |].
  split; [| exact Hi].
  pose proof (step_offload auth (sta_of (mk_st (Some sm) hs out t)) rc) as Hs.
  unfold sta_of, fresh_counter in *. cbn in *. destruct (sm_have_replay sm); cbn in *; auto.
Qed.

(** What happens to a supplicant that has been started. *)
Inductive input : Type :=
  | IN_FRAME (ifindex : Z) (src : ptr) (proto : Z) (frame : ptr) (len : Z) (noencrypt : bool)
  | IN_TIMEOUT
  | IN_START_TIMER
  | IN_REPLAY_COUNTER (ifindex : Z) (aa : list Z) (replay_counter : Z).

Definition handle_input (i : input) : M unit :=
  match i with
  | IN_FRAME ifindex src proto frame len ne => __eapol_rx_packet E ifindex src proto frame len ne
  | IN_TIMEOUT => eapol_timeout E
  | IN_START_TIMER => send_eapol_start E
  | IN_REPLAY_COUNTER ifindex aa rc => __eapol_update_replay_counter ifindex aa rc
  end.

Definition input_authentic (s : st) (i : input) : Prop :=
  match i with IN_FRAME _ _ _ frame _ _ => authentic s frame | _ => False end.

Lemma handle_input_sim i s : st_inv s →
  wlp (handle_input i) (λ _, simulates (input_authentic s i) s) s.
Proof.
  intros Hi. destruct i; cbn; [by apply __eapol_rx_packet_wlp | by apply eapol_timeout_wlp
    | by apply send_eapol_start_timer_wlp | by apply update_replay_counter_wlp].
Qed.

(** The states reachable by handling inputs. *)
Inductive reaches (s : st) : st → Prop :=
  | reaches_refl : reaches s s
  | reaches_step s1 i s2 : reaches s s1 → handle_input i s1 = Ok (tt, s2) → reaches s s2.

(** The SNonces drawn by one input: the counter [st_tick] of what the state machine takes from
    its environment moves with every SNonce, and otherwise only with the EAP packets that a
    supplicant hands to the EAP layer. *)
Definition snonces_drawn (i : input) (s s' : st) : nat :=
  match i with
  | IN_FRAME _ _ _ frame _ _ => if eap_frame frame then 0 else st_tick s' - st_tick s
  | _ => st_tick s' - st_tick s
  end.

(** The states reachable by handling inputs that draw [n] SNonces. *)
Inductive reaches_drawing (s : st) : nat → st → Prop :=
  | drawing_refl : reaches_drawing s 0 s
  | drawing_step n s1 i s2 :
      reaches_drawing s n s1 → handle_input i s1 = Ok (tt, s2) →
      reaches_drawing s (n + snonces_drawn i s1 s2) s2.

Lemma reaches_inv s s' : st_inv s → reaches s s' → st_inv s'.
Proof.
  intros Hi. induction 1 as [|s1 i s2 Hr IH Hh]; [done |].
  pose proof (handle_input_sim i s1 IH) as Hs. unfold wlp in Hs. rewrite Hh in Hs. apply Hs.
Qed.
End handlers.


(** ** Consequences *)

(** The temporal, group and integrity group keys installed so far, in order. *)
Definition tks (l : list key_log) : list (option (list Z)) :=
  omap (λ e, match e with LOG_TK k => Some k | _ => None end) l.
Definition gtks (l : list key_log) : list (list Z) :=
  omap (λ e, match e with LOG_GTK k => Some k | _ => None end) l.
Definition igtks (l : list key_log) : list (list Z) :=
  omap (λ e, match e with LOG_IGTK k => Some k | _ => None end) l.

Lemma tks_app l1 l2 : tks (l1 ++ l2) = tks l1 ++ tks l2.
Proof. apply omap_app. Qed.
Lemma gtks_app l1 l2 : gtks (l1 ++ l2) = gtks l1 ++ gtks l2.
Proof. apply omap_app. Qed.
Lemma igtks_app l1 l2 : igtks (l1 ++ l2) = igtks l1 ++ igtks l2.
Proof. apply omap_app. Qed.

(** What [add_gtk] and [add_igtk] change. *)
Lemma add_gtk_tks k x : tks (sta_log (add_gtk k x)) = tks (sta_log x).
Proof. unfold add_gtk. repeat case_match; try done. cbn. by rewrite tks_app, app_nil_r. Qed.
Lemma add_igtk_tks k x : tks (sta_log (add_igtk k x)) = tks (sta_log x).
Proof. unfold add_igtk. repeat case_match; try done. cbn. by rewrite tks_app, app_nil_r. Qed.
Lemma add_gtk_igtks k x : igtks (sta_log (add_gtk k x)) = igtks (sta_log x).
Proof. unfold add_gtk. repeat case_match; try done. cbn. by rewrite igtks_app, app_nil_r. Qed.
Lemma add_igtk_gtks k x : gtks (sta_log (add_igtk k x)) = gtks (sta_log x).
Proof. unfold add_igtk. repeat case_match; try done. cbn. by rewrite gtks_app, app_nil_r. Qed.

(** The other fields. *)
Definition sta_rest (x : sta) := (sta_alive x, sta_replay x, sta_snonce x, sta_complete x, sta_draws x).
Lemma add_gtk_rest k x : sta_rest (add_gtk k x) = sta_rest x ∧ sta_igtk (add_gtk k x) = sta_igtk x.
Proof. unfold add_gtk. by repeat case_match. Qed.
Lemma add_igtk_rest k x : sta_rest (add_igtk k x) = sta_rest x ∧ sta_gtk (add_igtk k x) = sta_gtk x.
Proof. unfold add_igtk. by repeat case_match. Qed.

Lemma add_gtk_alive k x : sta_alive (add_gtk k x) = sta_alive x.
Proof. unfold add_gtk. by repeat case_match. Qed.

Lemma add_keys_rest ik k x : sta_rest (add_igtk ik (add_gtk k x)) = sta_rest x.
Proof. rewrite (proj1 (add_igtk_rest _ _)). apply add_gtk_rest. Qed.

Ltac add_rest :=
  match goal with
  | |- context [add_igtk ?ik (add_gtk ?k ?x)] =>
      let Hr := fresh "Hrest" in
      pose proof (add_keys_rest ik k x) as Hr; unfold sta_rest in Hr; injection Hr as ? ? ? ? ?
  end.

(** The temporal key: at most [n] installations without a new SNonce. *)
Definition tk_budget (n : nat) (x : sta) : Prop :=
  (length (tks (sta_log x)) + (if sta_snonce x && negb (sta_complete x) then 1 else 0) ≤ n)%nat.

Lemma sta_step_tk auth n x y :
  sta_step auth x y → tk_budget n x → tk_budget (n + (sta_draws y - sta_draws x)) y.
Proof.
  intros Hs Hb. unfold tk_budget in *. destruct Hs; cbn -[add_gtk add_igtk tks] in *; try lia.
  - rewrite H0, H1. cbn -[tks]. lia.
  - rewrite H1, H2 in Hb. cbn [andb negb] in Hb.
    rewrite andb_false_r, tks_app, length_app, add_igtk_tks, add_gtk_tks.
    change (sta_log (use_counter rc x)) with (sta_log x).
    change (length (tks [LOG_TK tk])) with 1%nat. lia.
  - add_rest. rewrite add_igtk_tks, add_gtk_tks.
    replace (sta_snonce (add_igtk _ _)) with (sta_snonce x) by congruence.
    replace (sta_complete (add_igtk _ _)) with (sta_complete x) by congruence.
    change (sta_log (use_counter rc x)) with (sta_log x). lia.
Qed.

Lemma sta_step_dead auth x y : sta_step auth x y → sta_alive x = false → sta_alive y = false.
Proof. destruct 1; try add_rest; cbn -[add_gtk add_igtk] in *; congruence. Qed.

(** The replay counter never decreases, it increases with every key installed, and once a
    key has been installed it is in use. *)
Definition replay_ok (x y : sta) : Prop :=
  sta_alive y = true →
  (∀ a, sta_replay x = Some a →
     ∃ b, sta_replay y = Some b ∧ a ≤ b ∧ (sta_log y ≠ sta_log x → a < b)) ∧
  (sta_log y ≠ sta_log x → is_Some (sta_replay y)).

Lemma sta_step_replay auth x y : sta_step auth x y → replay_ok x y.
Proof.
  intros Hs Ha. split.
  - intros a Hx. destruct Hs; try add_rest; cbn -[add_gtk add_igtk] in *;
      unfold fresh_counter in *; rewrite ?Hx in *.
    + exists a. split_and!; [done | lia | done].
    + congruence.
    + exists rc. split_and!; [done | lia | done].
    + exists a. split_and!; [done | lia | done].
    + exists rc. split_and!; [done | lia | done].
    + exists rc. split_and!; [congruence | lia | done].
    + exists rc. split_and!; [congruence | lia | done].
  - intros Hl. destruct Hs; try add_rest; cbn -[add_gtk add_igtk] in *; done.
Qed.

Lemma replay_ok_trans auth x y z : replay_ok x y → sta_step auth y z → replay_ok x z.
Proof.
  intros Hxy Hst Hz. destruct (sta_alive y) eqn:Ey.
  2: { by rewrite (sta_step_dead _ _ _ Hst Ey) in Hz. }
  destruct (Hxy Ey) as [H1 H2]. destruct (sta_step_replay _ _ _ Hst Hz) as [H3 H4]. split.
  - intros a Ha. destruct (H1 a Ha) as (b & Hb & Hle & Hlt).
    destruct (H3 b Hb) as (c & Hc & Hle' & Hlt').
    exists c. split_and!; [done | lia |]. intros Hne.
    destruct (decide (sta_log y = sta_log x)) as [He | He]; [| apply Hlt in He; lia].
    rewrite <- He in Hne. apply Hlt' in Hne. lia.
  - intros Hne. destruct (decide (sta_log y = sta_log x)) as [He | He]; [apply H4; congruence |].
    destruct (H2 He) as [b Hb]. destruct (H3 b Hb) as (c & Hc & _). by exists c.
Qed.

(** The group keys: no key is installed twice in a row, and the last one is in use. *)
Definition no_repeat (l : list (list Z)) : Prop := ∀ l1 k l2, l ≠ l1 ++ k :: k :: l2.

Definition group_ok (x : sta) : Prop :=
  no_repeat (gtks (sta_log x)) ∧ no_repeat (igtks (sta_log x)) ∧
  (sta_alive x = true → ∀ l k, gtks (sta_log x) = l ++ [k] → sta_gtk x = k) ∧
  (sta_alive x = true → ∀ l k, igtks (sta_log x) = l ++ [k] → sta_igtk x = k).

Lemma no_repeat_snoc l k : no_repeat l → (∀ l', l ≠ l' ++ [k]) → no_repeat (l ++ [k]).
Proof.
  intros Hl Hk l1 k' l2 E. destruct (list_eq_nil_dec l2) as [-> | Hne].
  - change (l1 ++ [k'; k']) with (l1 ++ [k'] ++ [k']) in E. rewrite app_assoc in E.
    apply app_inj_tail in E as [-> ->]. by destruct (Hk l1).
  - destruct (exists_last Hne) as (l2' & z & ->). rewrite app_comm_cons, app_comm_cons, app_assoc in E.
    apply app_inj_tail in E as [-> _]. by apply (Hl l1 k' l2').
Qed.

Lemma add_gtk_ok k x : sta_alive x = true → group_ok x → group_ok (add_gtk k x).
Proof.
  intros Ha (H1 & H2 & H3 & H4). destruct k as [k|]; [| done]. cbn.
  case_bool_decide as Hk; [by split_and! |].
  unfold group_ok. cbn [sta_log sta_alive sta_gtk sta_igtk]. rewrite gtks_app, igtks_app.
  change (gtks [LOG_GTK k]) with [k]. change (igtks [LOG_GTK k]) with (@nil (list Z)).
  rewrite app_nil_r. split_and!; [| done | | done].
  - apply no_repeat_snoc; [done |]. intros l' E. by apply Hk, (H3 Ha l').
  - intros _ l k' E. by apply app_inj_tail in E as [_ ->].
Qed.

Lemma add_igtk_ok k x : sta_alive x = true → group_ok x → group_ok (add_igtk k x).
Proof.
  intros Ha (H1 & H2 & H3 & H4). destruct k as [k|]; [| done]. cbn.
  case_bool_decide as Hk; [by split_and! |].
  unfold group_ok. cbn [sta_log sta_alive sta_gtk sta_igtk]. rewrite gtks_app, igtks_app.
  change (igtks [LOG_IGTK k]) with [k]. change (gtks [LOG_IGTK k]) with (@nil (list Z)).
  rewrite app_nil_r. split_and!; [done | | done |].
  - apply no_repeat_snoc; [done |]. intros l' E. by apply Hk, (H4 Ha l').
  - intros _ l k' E. by apply app_inj_tail in E as [_ ->].
Qed.

Lemma sta_step_group auth x y : sta_step auth x y → group_ok x → group_ok y.
Proof.
  intros Hs Hg. destruct Hs; try exact Hg.
  - destruct Hg as (H3 & H4 & _). unfold group_ok. rewrite H1, H. by split_and!.
  - assert (Hk : group_ok (add_igtk igtk (add_gtk gtk (use_counter rc x)))).
    { apply add_igtk_ok; [by rewrite add_gtk_alive |]. by apply add_gtk_ok. }
    destruct Hk as (K1 & K2 & K3 & K4). unfold group_ok, add_tk. cbn [sta_log sta_alive sta_gtk sta_igtk].
    rewrite gtks_app, igtks_app, !app_nil_r. by split_and!.
  - apply add_igtk_ok; [by rewrite add_gtk_alive |]. by apply add_gtk_ok.
Qed.

Section runs.
Context `{Ell} (E : env) (Hhooks : key_hooks E).

Lemma reaches_ind_sta (P : sta → Prop) s s' :
  st_inv s → P (sta_of s) → (∀ auth x y, sta_step auth x y → P x → P y) →
  reaches E s s' → P (sta_of s').
Proof.
  intros Hi H0 Hstep Hr. induction Hr as [|s1 i s2 Hr IH Hh]; [done |].
  assert (st_inv s1) as Hi1 by (by apply (reaches_inv E Hhooks s)).
  pose proof (handle_input_sim E Hhooks i s1 Hi1) as Hs. unfold wlp in Hs. rewrite Hh in Hs.
  by eapply Hstep; [apply Hs |].
Qed.

Lemma sta_of_log s : sta_log (sta_of s) = installs (st_out s).
Proof. unfold sta_of. by destruct (st_sm s). Qed.

Lemma idle_budget n s s' : idle s s' → tk_budget n (sta_of s) → tk_budget n (sta_of s').
Proof.
  intros (_ & _ & Hlog & Hs) Hb. unfold tk_budget in *. destruct Hs as [Hd | Hs].
  - rewrite Hlog. unfold sta_of at 2 3. rewrite Hd. cbn. lia.
  - rewrite Hs. exact Hb.
Qed.

Lemma reaches_drawing_reaches s n s' : reaches_drawing E s n s' → reaches E s s'.
Proof. induction 1; [apply reaches_refl | by eapply reaches_step]. Qed.

Lemma reaches_drawing_budget s N n s' :
  st_inv s → tk_budget N (sta_of s) → reaches_drawing E s n s' → tk_budget (N + n) (sta_of s').
Proof.
  intros Hi Hb Hr. induction Hr as [|n s1 i s2 Hr IH Hh]; [by rewrite Nat.add_0_r |].
  assert (st_inv s1) as Hi1 by (by apply (reaches_inv E Hhooks s), (reaches_drawing_reaches s n)).
  assert (Hstep : tk_budget (N + n + (st_tick s2 - st_tick s1)) (sta_of s2)).
  { rewrite <- !sta_of_draws. pose proof (handle_input_sim E Hhooks i s1 Hi1) as Hs.
    unfold wlp in Hs. rewrite Hh in Hs. by eapply sta_step_tk; [apply Hs |]. }
  rewrite Nat.add_assoc. destruct i as [ifindex src proto frame len ne | | |]; [| exact Hstep ..].
  cbn. destruct (eap_frame frame) eqn:He; [| exact Hstep]. rewrite Nat.add_0_r.
  pose proof (__eapol_rx_eap_packet_wlp E ifindex src proto frame len ne s1 Hi1 He) as Hs.
  unfold wlp in Hs. cbn in Hh. rewrite Hh in Hs. by eapply idle_budget.
Qed.
End runs.

(** C3: replay protection: in any run of the supplicant, between two states in which the state
    machine lives, a replay counter that was in use ([have_replay]) stays in use and never
    decreases, and it has increased if a key has been installed during the run.  A state machine
    that has not accepted a counter yet takes the first one it sees, whatever it is; from the
    first installation of a key on a counter is in use. *)
Theorem eapol_replay_protection `{Ell} E s s' sm sm' :
  key_hooks E → st_inv s → reaches E s s' → st_sm s = Some sm → st_sm s' = Some sm' →
  (sm_have_replay sm = true →
     sm_have_replay sm' = true ∧ sm_replay_counter sm ≤ sm_replay_counter sm' ∧
     (installs (st_out s') ≠ installs (st_out s) → sm_replay_counter sm < sm_replay_counter sm')) ∧
  (installs (st_out s') ≠ installs (st_out s) → sm_have_replay sm' = true).
Proof.
  intros Hh Hi Hr Hs Hs'.
  assert (Hok : replay_ok (sta_of s) (sta_of s')).
  { apply (reaches_ind_sta E Hh (replay_ok (sta_of s)) s); [done | | | done].
    - intros _. split; [| done]. intros a Ha. exists a. split_and!; [done | lia | done].
    - intros auth x y Hst Hx. by eapply replay_ok_trans. }
  unfold replay_ok, sta_of in Hok. rewrite Hs, Hs' in Hok. cbn in Hok.
  destruct (Hok eq_refl) as [H1 H2]. split.
  - intros Hrep. rewrite Hrep in H1. destruct (H1 _ eq_refl) as (b & Hb & Hle & Hlt).
    destruct (sm_have_replay sm'); [| done]. by injection Hb as <-.
  - intros Hne. destruct (H2 Hne) as [b Hb]. by destruct (sm_have_replay sm').
Qed.

(** C2: no key reinstallation: in any run of the supplicant, whatever it receives, the temporal
    keys installed are at most one more than the SNonces drawn during the run, and at most as
    many when the keys of the SNonce in use at its start had been installed before.  In
    particular a run without a new SNonce, however many (retransmitted or replayed) frames and
    EAP packets it handles, installs at most one temporal key. *)
Theorem eapol_tk_once_per_snonce `{Ell} E s n s' :
  key_hooks E → st_inv s → reaches_drawing E s n s' →
  (length (tks (installs (st_out s'))) ≤
     length (tks (installs (st_out s))) + (if hs_ptk_complete (st_hs s) then 0 else 1) + n)%nat.
Proof.
  intros Hh Hi Hr. set (N := (length (tks (installs (st_out s))) + (if hs_ptk_complete (st_hs s) then 0 else 1))%nat).
  assert (Hb : tk_budget N (sta_of s)).
  { unfold tk_budget, N. rewrite sta_of_log. unfold sta_of.
    destruct (st_sm s); cbn; [destruct (hs_ptk_complete (st_hs s)), (hs_have_snonce (st_hs s)) |]; cbn; lia. }
  pose proof (reaches_drawing_budget E Hh s N n s' Hi Hb Hr) as Hb'. unfold tk_budget in Hb'.
  rewrite sta_of_log in Hb'. lia.
Qed.

(** C4: no group key reinstallation: a supplicant that has installed no group key yet never
    installs the same GTK, or the same IGTK, twice in a row, however often the access point
    (or a replay) sends it. *)
Theorem eapol_group_key_not_reinstalled `{Ell} E s s' :
  key_hooks E → st_inv s → reaches E s s' →
  gtks (installs (st_out s)) = [] → igtks (installs (st_out s)) = [] →
  no_repeat (gtks (installs (st_out s'))) ∧ no_repeat (igtks (installs (st_out s'))).
Proof.
  intros Hh Hi Hr Hg Hig.
  assert (Hlog : ∀ s, sta_log (sta_of s) = installs (st_out s)).
  { intros s2. unfold sta_of. by destruct (st_sm s2). }
  assert (Hok : group_ok (sta_of s')).
  { apply (reaches_ind_sta E Hh group_ok s); [done | | apply sta_step_group | done].
    unfold group_ok. rewrite Hlog, Hg, Hig. split_and!; [by intros [|? []] .. | by intros _ [|? []] | by intros _ [|? []]]. }
  destruct Hok as (H1 & H2 & _). by rewrite Hlog in H1, H2.
Qed.
