(* ===== verification/EapolAuth.v ===== *)
(** * The authenticator of the 4-way handshake (src/eapol.c)

    The retransmission timers, the frames the authenticator sends and the conditions under
    which it installs the temporal key. *)

From stdpp Require Import base numbers list option.
From Stdlib Require Import ZArith Lia.
From S2P Require Import Prelude IeTlv IeRsn IeMisc Crypto Handshake EapolFrame Eapol EapolSpec.

Open Scope Z_scope.

(** ** Retransmission timeouts *)

(** the retransmission timeout is 100 ms for the first transmission or without a listen
    interval, half the listen interval (in units of 1024 us times 100) for the second and the
    listen interval afterwards, as long as the interval is below 41944; from there on the
    32-bit product wraps and the timeout is too short (98 ms for 41944 beacon intervals). *)
Theorem key_timeout_correct retry li :
  0 ≤ li →
  (retry ≤ 1 ∨ li = 0 → key_timeout_ms retry li = 100) ∧
  (0 < li ≤ 41943 → key_timeout_ms 2 li = li * 102400 / 2000 ∧
                    (2 < retry → key_timeout_ms retry li = li * 102400 / 1000)) ∧
  key_timeout_ms 3 41944 = 98.
Proof.
  intros Hli. unfold key_timeout_ms. change (100 * 1024) with 102400. split_and!; [| | done].
  - intros [Hr | ->]; [| by rewrite !andb_false_r].
    destruct (Z.eqb_spec retry 2); [lia |]. by destruct (Z.ltb_spec 2 retry); [lia |].
  - intros Hl. rewrite (proj2 (Z.eqb_neq li 0)) by lia. rewrite u32_small by lia. split; [done |].
    intros Hr. destruct (Z.eqb_spec retry 2); [lia |]. by destruct (Z.ltb_spec 2 retry); [| lia].
Qed.

Lemma key_timeout_correct_witness : key_timeout_ms 2 10 = 512 ∧ key_timeout_ms 3 10 = 1024.
Proof.
  destruct (key_timeout_correct 3 10 ltac:(lia)) as (_ & Hl & _).
  destruct (Hl ltac:(lia)) as [H2 H3]. split; [exact H2 | exact (H3 ltac:(lia))].
Defined.

(** ** The authenticator *)

Section authenticator.
Context `{Ell}.
Variable E : env.

Lemma emits_no_installs sm s s' : only_emits sm s s' → installs (st_out s') = installs (st_out s).
Proof. intros (l & Hl & ->). cbn. by apply installs_no_keys. Qed.

Lemma failed_no_installs r sm hs out t :
  wlp (handshake_failed E r) (λ _ s', installs (st_out s') = installs out)
    (mk_st (Some sm) hs out t).
Proof.
  eapply wlp_mono; [apply handshake_failed_wlp |]. intros [] s' Hs'. by rewrite (emits_no_installs _ _ _ Hs').
Qed.

Lemma write_no_installs ef ne sm hs out t :
  wlp (eapol_sm_write E ef ne) (λ _ s', ∃ out', s' = mk_st (Some sm) hs out' t ∧
    installs (st_out s') = installs out) (mk_st (Some sm) hs out t).
Proof.
  eapply wlp_mono; [apply eapol_sm_write_wlp |]. intros [] s' Hs'.
  pose proof (emits_no_installs _ _ _ Hs'). destruct Hs' as (l & _ & ->). eauto.
Qed.

Lemma send_ptk_3_no_installs sm hs out t :
  wlp (eapol_send_ptk_3_of_4 E) (λ _ s', ∃ sm' out', s' = mk_st (Some sm') hs out' t ∧
    installs (st_out s') = installs out) (mk_st (Some sm) hs out t).
Proof.
  unfold eapol_send_ptk_3_of_4. do 10 wlp_step. destruct a0 as [kd n]. do 2 wlp_step.
  destruct a0 as [[ek n']|]; [| wlp_step; by eexists _, _]. do 2 wlp_step.
  destruct a0 as [mic|]; [| wlp_step; by eexists _, _]. do 2 wlp_step.
  eapply wlp_mono; [apply write_no_installs |]. intros [] s' (out' & -> & Hn). eauto.
Qed.

Lemma ptk_3_retry_no_installs sm hs out t :
  wlp (eapol_ptk_3_of_4_retry E) (λ _ s', installs (st_out s') = installs out)
    (mk_st (Some sm) hs out t).
Proof.
  unfold eapol_ptk_3_of_4_retry. do 2 wlp_step. wlp_step; [apply failed_no_installs |]. wlp_step.
  eapply wlp_mono; [apply send_ptk_3_no_installs |]. intros [] s' (sm' & out' & -> & Hn).
  unfold eapol_set_key_timeout. by wlp_step.
Qed.

Lemma ptk_2_no_installs ek sm hs out t :
  wlp (eapol_handle_ptk_2_of_4 E ek) (λ _ s', installs (st_out s') = installs out)
    (mk_st (Some sm) hs out t).
Proof.
  unfold eapol_handle_ptk_2_of_4. do 4 wlp_step. do 2 (wlp_step; [by wlp_step |]). do 4 wlp_step.
  destruct (crypto_derive_pairwise_ptk _ _ _ _ _ _ _) as [ptk|]; [| by wlp_step].
  do 6 wlp_step. do 2 wlp_step. wlp_step; [by wlp_step |]. do 8 wlp_step.
  wlp_step; [apply failed_no_installs |]. do 4 wlp_step. wlp_step; [apply failed_no_installs |].
  do 6 wlp_step. apply ptk_3_retry_no_installs.
Qed.

Lemma auth_key_handle_wlp frame sm hs out t :
  let s := mk_st (Some sm) hs out t in
  wlp (eapol_auth_key_handle E frame) (λ _ s', installs (st_out s') ≠ installs out →
    ∃ len ek, eapol_key_validate frame len (sm_mic_len sm) = Ok (Some ek) ∧
      eapol_verify_ptk_4_of_4 ek false = true ∧
      ek_key_replay_counter ek = sm_replay_counter sm ∧
      eapol_verify_mic (hs_akm_suite hs) (handshake_state_get_kck hs) ek (sm_mic_len sm) = Ok true ∧
      hs_ptk_complete hs = false ∧ hs_ptk_complete (st_hs s') = true ∧
      ∃ l, installs (st_out s') = installs out ++ installs l ∧
           l = snd (handshake_state_install_ptk (env_hooks E) hs)) s.
Proof.
  intros s. unfold eapol_auth_key_handle. do 8 wlp_step.
  destruct a0 as [ek|]; [| by wlp_step]. do 3 (wlp_step; [by wlp_step |]). do 2 wlp_step. wlp_step.
  { eapply wlp_mono; [apply ptk_2_no_installs |]. intros [] s' Hn Hne. by destruct Hne. }
  unfold eapol_handle_ptk_4_of_4. do 4 wlp_step. wlp_step; [by wlp_step |]. wlp_step; [by wlp_step |].
  do 2 wlp_step. wlp_step; [by wlp_step |]. do 4 wlp_step.
  - apply negb_true_iff in Hb6. destruct (handshake_state_install_ptk (env_hooks E) hs) as [hs' l] eqn:Ei.
    do 4 wlp_step. intros _. exists a, ek. apply negb_false_iff in Hb3, Hb4. apply Z.eqb_eq in Hb4.
    destruct a1; [| done]. split_and!; try done. exists l. split; [| done]. cbn. by rewrite installs_app.
  - do 2 wlp_step. intros Hne. by destruct Hne.
Qed.
End authenticator.

(** C5: the authenticator installs the temporal key only for a frame that is a well-formed
    message 4/4, carries the replay counter of the last message sent and has a valid MIC
    under the current KCK, and only once: the PTK was not complete before and is complete
    afterwards. *)
Theorem eapol_auth_install_authentic `{Ell} E frame sm hs out t s' :
  eapol_auth_key_handle E frame (mk_st (Some sm) hs out t) = Ok (tt, s') →
  installs (st_out s') ≠ installs out →
  ∃ len ek, eapol_key_validate frame len (sm_mic_len sm) = Ok (Some ek) ∧
    eapol_verify_ptk_4_of_4 ek false = true ∧
    ek_key_replay_counter ek = sm_replay_counter sm ∧
    eapol_verify_mic (hs_akm_suite hs) (handshake_state_get_kck hs) ek (sm_mic_len sm) = Ok true ∧
    hs_ptk_complete hs = false ∧ hs_ptk_complete (st_hs s') = true ∧
    ∃ l, installs (st_out s') = installs out ++ installs l ∧
         l = snd (handshake_state_install_ptk (env_hooks E) hs).
Proof.
  intros Hr Hne. pose proof (auth_key_handle_wlp E frame sm hs out t) as Hw. unfold wlp in Hw.
  rewrite Hr in Hw. by apply Hw.
Qed.

(** ** The frames of the authenticator *)

Lemma ek_bytes_packet_len e : ek_wf e → l_get_be16 (ek_bytes e +! 2) = Ok (ek_packet_len e).
Proof.
  intros Hw. assert (0 ≤ ek_packet_len e < 65536) by apply Hw.
  unfold ek_bytes, ek_header. rewrite <- !app_assoc.
  change (([ek_protocol_version e; ek_packet_type e] ++ ?l) +! 2) with l.
  by apply l_get_be16_bytes.
Qed.

(** A frame in a buffer: the bytes of the frame and what follows it. *)
Lemma ek_bytes_split e mic data n tail :
  ek_wf e → ek_key_data e = mic ++ be16_bytes n ++ data ++ tail →
  ek_bytes e = ek_bytes (e <| ek_key_data := mic ++ be16_bytes n ++ data |>) ++ tail ∧
  zlen (ek_bytes (e <| ek_key_data := mic ++ be16_bytes n ++ data |>)) =
    EAPOL_FRAME_LEN (zlen mic) + zlen data.
Proof.
  intros Hw Hkd. split.
  - rewrite ek_bytes_set_key_data. unfold ek_bytes. rewrite Hkd. by rewrite <- !app_assoc.
  - rewrite ek_bytes_set_key_data, zlen_app, ek_header_length by done. unfold EAPOL_FRAME_LEN.
    rewrite !zlen_app. change (zlen (be16_bytes n)) with 2. lia.
Qed.

(** [eapol_key_validate] on a frame with known contents. *)
Lemma validate_frame e mic data :
  ek_wf e → ek_key_data e = mic ++ be16_bytes (zlen data) ++ data → zlen data < 65536 →
  1 ≤ ek_protocol_version e ≤ 3 → ek_packet_type e = 3 →
  ek_descriptor_type e = EAPOL_DESCRIPTOR_TYPE_80211 →
  ek_key_descriptor_version e = EAPOL_KEY_DESCRIPTOR_VERSION_HMAC_SHA1_AES →
  eapol_key_validate (ek_bytes e) (zlen (ek_bytes e)) (zlen mic) = Ok (Some e).
Proof.
  intros Hw Hkd Hd Hp Ht Hdt Hv. pose proof (zlen_nonneg data).
  assert (Hlen : zlen (ek_bytes e) = EAPOL_FRAME_LEN (zlen mic) + zlen data).
  { unfold ek_bytes. rewrite zlen_app, ek_header_length, Hkd by done. unfold EAPOL_FRAME_LEN.
    rewrite !zlen_app. change (zlen (be16_bytes (zlen data))) with 2. lia. }
  unfold eapol_key_validate. rewrite ek_view_of_bytes, bind_ok, Hlen by done.
  assert (ek_data_len e (zlen mic) = Ok (zlen data)) as ->.
  { unfold ek_data_len. rewrite Hkd, padd_app by done. apply l_get_be16_bytes. lia. }
  destruct (Z.ltb_spec (EAPOL_FRAME_LEN (zlen mic) + zlen data) (EAPOL_FRAME_LEN (zlen mic))); [lia |].
  rewrite bind_ok, Z.ltb_irrefl, Ht, Hdt, Hv.
  assert (ek_protocol_version e = 1 ∨ ek_protocol_version e = 2 ∨ ek_protocol_version e = 3)
    as [-> | [-> | ->]] by lia; done.
Qed.

(** Running a handler step by step. *)
Lemma M_bind_ok {A B} (m : M A) (f : A → M B) s a s' : m s = Ok (a, s') → (m ≫= f) s = f a s'.
Proof. intros Hm. unfold mbind, M_bind. by rewrite Hm. Qed.

Lemma lift_bind_ok {A B} (m : res A) (f : A → M B) s a : m = Ok a → (lift m ≫= f) s = f a s.
Proof. by intros ->. Qed.

Ltac run_step :=
  match goal with
  | |- context [(lift _ ≫= _) (mk_st _ _ _ _)] => erewrite lift_bind_ok by eassumption
  | |- context [(_ ≫= _) (mk_st _ _ _ _)] => erewrite M_bind_ok by reflexivity
  end; cbn beta iota delta [st_sm st_hs st_out st_tick].

Section sending.
Context {ell : Ell} {laws : EllLaws ell}.
Variable E : env.
Hypothesis Htx : hook_tx_packet (env_hooks E) = true.

Definition tx_dst (hs : handshake_state) : list Z :=
  if hs_authenticator hs then hs_spa hs else hs_aa hs.

(** Writing a frame that lies in a larger buffer. *)
Lemma write_key_ok e mic data tail ne sm hs out t :
  ek_wf e → ek_key_data e = mic ++ be16_bytes (zlen data) ++ data ++ tail →
  4 + ek_packet_len e = EAPOL_FRAME_LEN (zlen mic) + zlen data →
  eapol_sm_write_key E e ne (mk_st (Some sm) hs out t) =
    Ok (tt, mk_st (Some sm) hs
          (out ++ [Tx (tx_dst hs) ETH_P_PAE
                     (ek_bytes (e <| ek_key_data := mic ++ be16_bytes (zlen data) ++ data |>)) ne]) t).
Proof.
  intros Hw Hkd Hl. destruct (ek_bytes_split e mic data _ tail Hw Hkd) as [Hs Hz].
  pose proof (ek_bytes_packet_len e Hw) as Hpl. unfold eapol_sm_write_key, eapol_sm_write, __eapol_tx_packet.
  run_step. rewrite Htx. run_step. erewrite lift_bind_ok; [| rewrite Hs; apply rdn_app; lia]. reflexivity.
Qed.

Lemma cipher_key_len_bound suite :
  0 ≤ crypto_cipher_key_len (ie_rsn_cipher_suite_to_cipher suite) ≤ 32.
Proof.
  unfold ie_rsn_cipher_suite_to_cipher. repeat case_match; by vm_compute.
Qed.

Lemma crypto_derive_pmkid_length pmk a1 a2 out b pmkid :
  crypto_derive_pmkid pmk a1 a2 out b = Some pmkid → zlen out = 16 → zlen pmkid = 16.
Proof.
  unfold crypto_derive_pmkid, hmac_sha1, hmac_sha256, hmac_common. intros Hp Hl.
  assert (Hgo : ∀ ty k d, match l_checksum_new_hmac ty k with
      | Some hmac => Some (digest_into (hmac d) out) | None => None end = Some pmkid →
      16 ≤ l_checksum_digest_length ty → zlen pmkid = 16).
  { intros ty k d Hd Ht. destruct (l_checksum_new_hmac ty k) as [f|] eqn:Ef; [| done].
    injection Hd as <-. destruct (hmac_ok ty k f d Ef) as [Hn _].
    rewrite digest_into_long, zlen_ptake; lia. }
  destruct b; eapply Hgo; try exact Hp; by vm_compute.
Qed.

Lemma memeqzero_zeros n : memeqzero (zeros n) = true.
Proof. by induction n. Qed.

(** The state after message 1/4 has been sent. *)
Definition sent_ptk_1 (sm : eapol_sm) (hs : handshake_state) (out : list effect) (t : nat)
    (frame : list Z) : st :=
  mk_st (Some (sm <| sm_replay_counter := u64 (sm_replay_counter sm + 1) |>))
    (hs <| hs_anonce := env_nonce E t |> <| hs_have_anonce := true |> <| hs_ptk_complete := false |>)
    (out ++ [Tx (tx_dst hs) ETH_P_PAE frame false]) (S t).

Lemma send_ptk_1_ok sm hs out t :
  0 < sm_mic_len sm ≤ 32 → 1 ≤ sm_protocol_version sm ≤ 3 → zlen (env_nonce E t) = 32 →
  ∃ frame ek,
    eapol_send_ptk_1_of_4 E (mk_st (Some sm) hs out t) = Ok (tt, sent_ptk_1 sm hs out t frame) ∧
    eapol_key_validate frame (zlen frame) (sm_mic_len sm) = Ok (Some ek) ∧
    eapol_verify_ptk_1_of_4 ek (sm_mic_len sm) = Ok true ∧
    ek_key_replay_counter ek = u64 (sm_replay_counter sm + 1) ∧
    ek_key_nonce ek = env_nonce E t.
Proof.
  intros Hm Hp Hn. unfold eapol_send_ptk_1_of_4. do 6 run_step.
  set (hs1 := _ <| hs_ptk_complete := false |>). set (sm1 := sm <| sm_replay_counter := _ |>).
  change (sm_mic_len sm1) with (sm_mic_len sm). change (sm_protocol_version sm1) with (sm_protocol_version sm).
  set (m := sm_mic_len sm) in *.
  match goal with |- context [eapol_key_data_append ?e _ _ ?p] => set (ek0 := e); set (pmkid := p) end.
  assert (Hpl : zlen pmkid = 16).
  { unfold pmkid. destruct (crypto_derive_pmkid _ _ _ _ _) as [p|] eqn:Ep; cbn [default].
    - by apply crypto_derive_pmkid_length in Ep; [| apply l_malloc_length].
    - by apply l_malloc_length. }
  set (tail := l_malloc (fresh E) (512 - EAPOL_FRAME_LEN m)).
  assert (Htl : zlen tail = 512 - EAPOL_FRAME_LEN m) by (apply l_malloc_length; unfold EAPOL_FRAME_LEN, EK_SIZE; lia).
  assert (Hkd : ek_key_data ek0 = zeros (Z.to_nat m) ++ [0; 0] ++ tail).
  { change (zeros (Z.to_nat (m + 2)) ++ tail = zeros (Z.to_nat m) ++ [0; 0] ++ tail).
    rewrite Z2Nat.inj_add by lia. unfold zeros. rewrite replicate_add. by rewrite <- app_assoc. }
  pose proof (key_data_append_first ek0 m HANDSHAKE_KDE_PMKID pmkid tail ltac:(lia) ltac:(lia)
    ltac:(unfold EAPOL_FRAME_LEN, EK_SIZE in *; lia) Hkd) as Happ.
  run_step. rewrite Hpl. change (6 + 16) with 22. change (4 + 16) with 20.
  set (data := [IE_TYPE_VENDOR_SPECIFIC; 20] ++ be32_bytes HANDSHAKE_KDE_PMKID ++ pmkid).
  assert (Hdl : zlen data = 22) by (unfold data; rewrite !zlen_app, Hpl; done).
  assert (Hdn : ek_data_len (ek0 <| ek_key_data := zeros (Z.to_nat m) ++ be16_bytes 22
      ++ [IE_TYPE_VENDOR_SPECIFIC; 20] ++ be32_bytes HANDSHAKE_KDE_PMKID ++ pmkid ++ (tail +! 22) |>) m = Ok 22).
  { unfold ek_data_len. cbn [ek_key_data set_field set_ek_key_data].
    rewrite padd_app by (by rewrite zeros_length by lia). done. }
  run_step.
  match goal with |- context [eapol_sm_write_key E ?e _ _] => set (ek1 := e) end.
  assert (Hplen : ek_packet_len ek1 = EAPOL_FRAME_LEN m + 18).
  { change (u16 (EAPOL_FRAME_LEN m + 22 - 4) = EAPOL_FRAME_LEN m + 18). unfold EAPOL_FRAME_LEN, EK_SIZE.
    rewrite u16_small; lia. }
  assert (Hkl := cipher_key_len_bound (hs_pairwise_cipher hs)).
  assert (Hwf : ek_wf ek1).
  { unfold ek_wf. rewrite Hplen. unfold EAPOL_FRAME_LEN, EK_SIZE, byte_ok.
    change (ek_protocol_version ek1) with (u8 (sm_protocol_version sm)). rewrite u8_small by lia.
    change (ek_key_length ek1) with (crypto_cipher_key_len (ie_rsn_cipher_suite_to_cipher (hs_pairwise_cipher hs))).
    change (ek_key_replay_counter ek1) with (u64 (sm_replay_counter sm + 1)).
    pose proof (u64_range (sm_replay_counter sm + 1)). change (ek_key_nonce ek1) with (env_nonce E t).
    split_and!; done || lia. }
  erewrite (write_key_ok ek1 (zeros (Z.to_nat m)) data (tail +! 22)).
  2: exact Hwf.
  2: { rewrite Hdl. unfold data. by rewrite <- !app_assoc. }
  2: { rewrite Hplen, Hdl, zeros_length by lia. lia. }
  set (ek2 := ek1 <| ek_key_data := _ |>).
  exists (ek_bytes ek2), ek2. split; [done |].
  assert (Hwf2 : ek_wf ek2) by exact Hwf.
  split.
  { rewrite <- (zeros_length m) at 1 by lia. apply (validate_frame ek2 _ data); try done; [lia |].
    change (1 ≤ u8 (sm_protocol_version sm) ≤ 3). rewrite u8_small; lia. }
  split; [| done]. unfold eapol_verify_ptk_1_of_4, VERIFY_PTK_COMMON. cbn -[rdn zeros be16_bytes data].
  rewrite rdn_app, bind_ok by (by rewrite zeros_length by lia).
  change (forallb _ (zeros 8)) with true. cbn [negb]. by rewrite memeqzero_zeros.
Qed.
End sending.

(** message 1/4: for every supported MIC length [eapol_send_ptk_1_of_4] fits the frame in
    its 512-byte buffer, draws a new ANonce, marks the PTK as not installed, increments the
    replay counter and sends exactly one frame, which the supplicant's [eapol_key_validate]
    and [eapol_verify_ptk_1_of_4] accept and which carries the new ANonce and counter. *)
Theorem eapol_ptk_1_accepted {ell : Ell} {laws : EllLaws ell} E sm hs out t :
  hook_tx_packet (env_hooks E) = true →
  0 < sm_mic_len sm ≤ 32 → 1 ≤ sm_protocol_version sm ≤ 3 → zlen (env_nonce E t) = 32 →
  ∃ frame ek,
    eapol_send_ptk_1_of_4 E (mk_st (Some sm) hs out t) = Ok (tt, sent_ptk_1 E sm hs out t frame) ∧
    eapol_key_validate frame (zlen frame) (sm_mic_len sm) = Ok (Some ek) ∧
    eapol_verify_ptk_1_of_4 ek (sm_mic_len sm) = Ok true ∧
    ek_key_replay_counter ek = u64 (sm_replay_counter sm + 1) ∧
    ek_key_nonce ek = env_nonce E t.
Proof. intros. by apply send_ptk_1_ok. Qed.

(** ** Message 3/4 *)

(** The key data before the padding: the RSNE, the GTK KDE and the IP allocation KDE. *)
Definition gtk_kde_of (cipher : Z) (hs : handshake_state) : list Z :=
  if cipher =? 0 then []
  else [IE_TYPE_VENDOR_SPECIFIC; 6 + crypto_cipher_key_len cipher]
         ++ be32_bytes HANDSHAKE_KDE_GTK ++ [u8 (hs_gtk_index hs); 0]
         ++ ptake (hs_gtk hs) (crypto_cipher_key_len cipher).
Definition ip_kde_of (hs : handshake_state) : list Z :=
  if hs_support_ip_allocation hs then
    [IE_TYPE_VENDOR_SPECIFIC; 16] ++ be32_bytes HANDSHAKE_KDE_IP_ADDRESS_ALLOC
      ++ be32_bytes (hs_client_ip_addr hs) ++ be32_bytes (hs_subnet_mask hs)
      ++ be32_bytes (hs_go_ip_addr hs)
  else [].

Definition ptk_3_plain (hs : handshake_state) (rsne : list Z) : list Z :=
  rsne ++ gtk_kde_of (ie_rsn_cipher_suite_to_cipher (hs_group_cipher hs)) hs ++ ip_kde_of hs.

Section message3.
Context {ell : Ell} {laws : EllLaws ell}.
Variable E : env.

Lemma gtk_kde_length hs : zlen (hs_gtk hs) = 32 →
  0 ≤ zlen (gtk_kde_of (ie_rsn_cipher_suite_to_cipher (hs_group_cipher hs)) hs) ≤ 40.
Proof.
  intros Hg. pose proof (cipher_key_len_bound (hs_group_cipher hs)).
  unfold gtk_kde_of. case_match; [by vm_compute |]. rewrite !zlen_app, zlen_ptake by lia.
  change (zlen (be32_bytes HANDSHAKE_KDE_GTK)) with 4. change (zlen [_; _]) with 2.
  change (zlen [_; _]) with 2. lia.
Qed.

Lemma ip_kde_length hs : 0 ≤ zlen (ip_kde_of hs) ≤ 18.
Proof. unfold ip_kde_of. by case_match. Qed.

Lemma ptk_3_key_data_ok hs rsne l tail :
  rd rsne 1 = Ok l → 0 ≤ l ≤ 255 → zlen rsne = l + 2 → zlen (hs_gtk hs) = 32 →
  ∃ spare, ptk_3_key_data E hs (rsne ++ tail) =
    Ok (ptk_3_plain hs rsne ++ spare, zlen (ptk_3_plain hs rsne)) ∧ 17 ≤ zlen spare ∧
    zlen (ptk_3_plain hs rsne) ≤ 315.
Proof.
  intros Hl Hb Hz Hg. unfold ptk_3_key_data, ptk_3_plain.
  assert (rd (rsne ++ tail) 1 = Ok l) as -> by (by rewrite rd_app_l by (rewrite Hz; lia)).
  rewrite bind_ok, (rdn_app rsne) by lia. rewrite bind_ok.
  pose proof (l_malloc_length (fresh E) (128 + (l + 2)) ltac:(lia)) as Hbuf.
  rewrite put_first, bind_ok by lia.
  set (sp := l_malloc _ _ +! _). assert (Hsp : zlen sp = 128) by (unfold sp; rewrite zlen_padd; lia).
  clearbody sp. clear Hbuf.
  set (cipher := ie_rsn_cipher_suite_to_cipher (hs_group_cipher hs)).
  pose proof (gtk_kde_length hs Hg) as Hkde. fold cipher in Hkde.
  assert (Hgtk : ∃ sp1, zlen sp1 = 128 - zlen (gtk_kde_of cipher hs) ∧
    (if negb (cipher =? 0) then
       kde ← handshake_util_build_gtk_kde cipher (hs_gtk hs) (hs_gtk_index hs);
       buf ← put (rsne ++ sp) (l + 2) kde;
       l0 ← rd buf (l + 2 + 1);
       Ok (buf, l + 2 + (l0 + 2))
     else Ok (rsne ++ sp, l + 2)) =
    Ok ((rsne ++ gtk_kde_of cipher hs) ++ sp1, zlen (rsne ++ gtk_kde_of cipher hs))).
  { unfold gtk_kde_of in *. destruct (Z.eqb_spec cipher 0) as [Hc | Hc]; cbn [negb].
    - exists sp. rewrite app_nil_r, Hz. split; [done | reflexivity].
    - pose proof (cipher_key_len_bound (hs_group_cipher hs)) as Hk. fold cipher in Hk.
      unfold handshake_util_build_gtk_kde. rewrite rdn_ok, !bind_ok by lia.
      change (u8 IE_TYPE_VENDOR_SPECIFIC) with IE_TYPE_VENDOR_SPECIFIC.
      rewrite (u8_small (6 + _)) by lia.
      set (kde := [IE_TYPE_VENDOR_SPECIFIC; 6 + crypto_cipher_key_len cipher] ++ _) in *.
      assert (Hkl : zlen kde = 8 + crypto_cipher_key_len cipher).
      { unfold kde. rewrite !zlen_app, zlen_ptake by lia. change (zlen (be32_bytes _)) with 4.
        change (zlen [IE_TYPE_VENDOR_SPECIFIC; _]) with 2. change (zlen [_; 0]) with 2. lia. }
      assert (Hrd : rd kde 1 = Ok (6 + crypto_cipher_key_len cipher)) by done.
      clearbody kde. rewrite put_next, bind_ok by lia.
      exists (sp +! zlen kde). split; [rewrite zlen_padd; lia |].
      rewrite (rd_app_l (rsne ++ kde)), (rd_app_r rsne) by (rewrite ?zlen_app; lia).
      replace (l + 2 + 1 - zlen rsne) with 1 by lia. rewrite Hrd, bind_ok, zlen_app.
      do 2 f_equal. lia. }
  destruct Hgtk as (sp1 & Hsp1 & ->). rewrite bind_ok.
  pose proof (ip_kde_length hs) as Hip.
  set (pre := rsne ++ gtk_kde_of cipher hs) in *.
  assert (Hpre : zlen pre = l + 2 + zlen (gtk_kde_of cipher hs)) by (unfold pre; rewrite zlen_app; lia).
  exists (sp1 +! zlen (ip_kde_of hs)). rewrite !app_assoc. fold pre. split_and!.
  2: { rewrite zlen_padd; lia. }
  2: { rewrite zlen_app. lia. }
  unfold ip_kde_of in *. destruct (hs_support_ip_allocation hs).
  2: { by rewrite app_nil_r. }
  assert (Hs1 : 88 ≤ zlen sp1) by lia. clearbody pre. clear Hkde Hsp1 Hpre Hip.
  unfold put1. do 6 (rewrite put_next, bind_ok by zlia).
  rewrite !padd_padd by (apply zlen_nonneg || (pose proof (zlen_nonneg (be32_bytes 0)); zlia)).
  rewrite <- !app_assoc. do 2 f_equal. rewrite zlen_app. reflexivity.
Qed.

(** The MIC of a frame with descriptor version 2. *)
Lemma calculate_mic_sha1 akm kck ek mc data tail mic f :
  ek_wf ek → ek_key_descriptor_version ek = EAPOL_KEY_DESCRIPTOR_VERSION_HMAC_SHA1_AES →
  ek_key_data ek = mc ++ be16_bytes (zlen data) ++ data ++ tail → zlen mc = 16 → zlen data < 65536 →
  16 ≤ zlen kck → 16 ≤ zlen mic → l_checksum_new_hmac L_CHECKSUM_SHA1 (ptake kck 16) = Some f →
  eapol_calculate_mic akm kck ek mic 16 =
    Ok (Some (ptake (f (ek_header ek ++ mc ++ be16_bytes (zlen data) ++ data)) 16)) ∧
  zlen (ptake (f (ek_header ek ++ mc ++ be16_bytes (zlen data) ++ data)) 16) = 16.
Proof.
  intros Hw Hv Hkd Hmc Hd Hkck Hmic Hf. pose proof (zlen_nonneg data).
  assert (Hfl : ∀ d, zlen (f d) = 20) by (intros d; by destruct (hmac_ok _ _ _ d Hf)).
  split; [| by rewrite zlen_ptake by (rewrite Hfl; lia)].
  destruct (ek_bytes_split ek mc data (zlen data) tail Hw Hkd) as [Hs Hz].
  unfold eapol_calculate_mic, ek_data_len. rewrite Hkd, padd_app by done.
  rewrite l_get_be16_bytes, bind_ok, Hv by lia. rewrite Hmc in Hz.
  change (EAPOL_KEY_DESCRIPTOR_VERSION_HMAC_SHA1_AES =? EAPOL_KEY_DESCRIPTOR_VERSION_HMAC_MD5_ARC4) with false.
  change (EAPOL_KEY_DESCRIPTOR_VERSION_HMAC_SHA1_AES =? EAPOL_KEY_DESCRIPTOR_VERSION_HMAC_SHA1_AES) with true.
  cbv beta iota zeta. rewrite (rdn_ok kck), bind_ok, Hs, rdn_app, bind_ok by (done || lia). rewrite rdn_ok, bind_ok by lia.
  unfold hmac_sha1, hmac_common. rewrite Hf. do 2 f_equal.
  rewrite digest_into_long; rewrite zlen_ptake by lia; [done | rewrite Hfl; lia].
Qed.

(** The state after message 3/4 has been sent. *)
Definition sent_ptk_3 (sm : eapol_sm) (hs : handshake_state) (out : list effect) (t : nat)
    (frame : list Z) : st :=
  mk_st (Some (sm <| sm_replay_counter := u64 (sm_replay_counter sm + 1) |>)) hs
    (out ++ [Tx (tx_dst hs) ETH_P_PAE frame false]) t.

(** What the supplicant checks on a message 3/4 whose key data are [data] wrapped. *)
Definition ptk_3_ok (hs : handshake_state) (kek : ptr) (data frame : list Z) (ek : eapol_key) : Prop :=
  eapol_key_validate frame (zlen frame) 16 = Ok (Some ek) ∧
  eapol_verify_ptk_3_of_4 ek false 16 = true ∧
  eapol_verify_mic (hs_akm_suite hs) (handshake_state_get_kck hs) ek 16 = Ok true ∧
  eapol_decrypt_key_data (hs_akm_suite hs) (Some kek) ek 16 = Ok (Some (fte_pad data)).

(** A frame with such key data, completed with its MIC, passes the supplicant's checks. *)
Lemma ptk_3_frame_ok hs kek data w ek f :
  let e0 := ek <| ek_key_data := zeros 16 ++ be16_bytes (zlen w) ++ w |> in
  let mic := ptake (f (ek_bytes e0)) 16 in
  let e := ek <| ek_key_data := mic ++ be16_bytes (zlen w) ++ w |> in
  ek_wf ek → ek_key_descriptor_version ek = EAPOL_KEY_DESCRIPTOR_VERSION_HMAC_SHA1_AES →
  1 ≤ ek_protocol_version ek ≤ 3 → ek_packet_type ek = 3 →
  ek_descriptor_type ek = EAPOL_DESCRIPTOR_TYPE_80211 → eapol_verify_ptk_3_of_4 ek false 16 = true →
  hs_akm_suite hs ≠ IE_RSN_AKM_SUITE_OWE → is_fils_akm (hs_akm_suite hs) = false →
  16 ≤ zlen kek → 16 ≤ zlen (handshake_state_get_kck hs) → zlen data ≤ 1024 → wraps_to kek data w →
  l_checksum_new_hmac L_CHECKSUM_SHA1 (ptake (handshake_state_get_kck hs) 16) = Some f →
  ptk_3_ok hs kek data (ek_bytes e) e.
Proof.
  intros e0 mic e Hwf Hv Hp Ht Hdt Hver Howe Hfils Hkek Hkck Hd Hw Hf. pose proof Hw as [Hwl _].
  pose proof (fte_padded_len_spec (zlen data) (zlen_nonneg data)) as [Hb _]. pose proof (zlen_nonneg data).
  destruct (calculate_mic_sha1 (hs_akm_suite hs) (handshake_state_get_kck hs) e0 (zeros 16) w [] (zeros 16) f)
    as [Hc Hl]; try done; [by rewrite app_nil_r | lia |].
  change (ek_header e0 ++ zeros 16 ++ be16_bytes (zlen w) ++ w) with (ek_bytes e0) in Hc, Hl.
  fold mic in Hc, Hl. assert (Hkd : ek_key_data e = mic ++ be16_bytes (zlen w) ++ w ++ []) by (by rewrite app_nil_r).
  destruct (decrypt_key_data_ok (hs_akm_suite hs) kek data w e mic []) as [Hn Hdec]; try done.
  { left. exact Hv. }
  rewrite Hl in Hn, Hdec. split_and!.
  - rewrite <- Hl. apply (validate_frame e mic w); try done. lia.
  - exact Hver.
  - rewrite (verify_mic_spec _ _ e (zeros 16) mic 16 (zlen w)); try done; try lia.
    + f_equal. apply bool_decide_true. rewrite Hkd. by apply ptake_app.
    + rewrite Hkd, !zlen_app, Hl. change (zlen (be16_bytes _)) with 2. change (zlen (@nil Z)) with 0. lia.
    + rewrite <- Hc. f_equal. unfold ek_zero_mic, e0. cbn [ek_key_data set_field set_ek_key_data e].
      rewrite padd_app by done. done.
  - exact Hdec.
Qed.

Hypothesis Htx : hook_tx_packet (env_hooks E) = true.

Lemma zeros_split a b : 0 ≤ a → 0 ≤ b → zeros (Z.to_nat (a + b)) = zeros (Z.to_nat a) ++ zeros (Z.to_nat b).
Proof. intros. unfold zeros. by rewrite Z2Nat.inj_add, replicate_add by lia. Qed.

(** The end of [eapol_send_ptk_3_of_4]: the MIC and the transmission. *)
Lemma finish_ptk_3_ok sm hs out t kek data w ek rest f :
  ek_key_data ek = zeros 16 ++ be16_bytes (zlen w) ++ w ++ rest → wraps_to kek data w → zlen data ≤ 1024 →
  ek_wf ek → ek_key_descriptor_version ek = EAPOL_KEY_DESCRIPTOR_VERSION_HMAC_SHA1_AES →
  1 ≤ ek_protocol_version ek ≤ 3 → ek_packet_type ek = 3 →
  ek_descriptor_type ek = EAPOL_DESCRIPTOR_TYPE_80211 → eapol_verify_ptk_3_of_4 ek false 16 = true →
  ek_packet_len ek = EAPOL_FRAME_LEN 16 + zlen w - 4 →
  hs_akm_suite hs ≠ IE_RSN_AKM_SUITE_OWE → is_fils_akm (hs_akm_suite hs) = false →
  16 ≤ zlen kek → 16 ≤ zlen (handshake_state_get_kck hs) →
  l_checksum_new_hmac L_CHECKSUM_SHA1 (ptake (handshake_state_get_kck hs) 16) = Some f →
  ∃ mic, let e := ek <| ek_key_data := mic ++ be16_bytes (zlen w) ++ w |> in
    (mic ← lift (eapol_calculate_mic (hs_akm_suite hs) (handshake_state_get_kck hs) ek (ek_key_data ek) 16);
     match mic with
     | None => skip
     | Some mic => ek ← lift (ek_set_mic ek mic); eapol_sm_write_key E ek false
     end) (mk_st (Some sm) hs out t) =
      Ok (tt, mk_st (Some sm) hs (out ++ [Tx (tx_dst hs) ETH_P_PAE (ek_bytes e) false]) t) ∧
    ptk_3_ok hs kek data (ek_bytes e) e.
Proof.
  intros Hkd Hw Hd Hwf Hv Hpv Ht Hdt Hver Hplen Howe Hfils Hkl Hck Hf. pose proof (zlen_nonneg data).
  pose proof Hw as [Hwl _]. pose proof (fte_padded_len_spec (zlen data) (zlen_nonneg data)) as [Hb _].
  destruct (calculate_mic_sha1 (hs_akm_suite hs) (handshake_state_get_kck hs) ek (zeros 16) w rest
    (ek_key_data ek) f) as [Hmic Hml]; try done; try lia.
  { rewrite Hkd, zlen_app. pose proof (zlen_nonneg (be16_bytes (zlen w) ++ w ++ rest)).
    change (zlen (zeros 16)) with 16. lia. }
  erewrite lift_bind_ok by exact Hmic. cbv beta iota. set (mic := ptake (f _) 16) in *.
  exists mic. erewrite lift_bind_ok.
  2: { unfold ek_set_mic. rewrite Hkd, put_head by (by rewrite Hml). reflexivity. }
  rewrite (write_key_ok E Htx _ mic w rest); [| done.. | rewrite Hml; change (ek_packet_len _) with (ek_packet_len ek); lia].
  split; [done |]. by apply (ptk_3_frame_ok hs kek data w ek f).
Qed.

Lemma send_ptk_3_ok sm hs out t rsne l tail kek f :
  sm_mic_len sm = 16 → 1 ≤ sm_protocol_version sm ≤ 3 →
  hs_authenticator_ie hs = Some (rsne ++ tail) → rd rsne 1 = Ok l → 0 ≤ l ≤ 255 → zlen rsne = l + 2 →
  zlen (hs_gtk hs) = 32 → zlen (hs_gtk_rsc hs) = 6 → zlen (hs_anonce hs) = 32 →
  hs_pairwise_cipher hs = IE_RSN_CIPHER_SUITE_CCMP ∨ hs_pairwise_cipher hs = IE_RSN_CIPHER_SUITE_TKIP →
  hs_akm_suite hs ≠ IE_RSN_AKM_SUITE_OWE → is_fils_akm (hs_akm_suite hs) = false →
  handshake_state_get_kek hs = Some kek → 16 ≤ zlen kek → 16 ≤ zlen (handshake_state_get_kck hs) →
  is_Some (l_cipher_new_aes (ptake kek 16)) →
  l_checksum_new_hmac L_CHECKSUM_SHA1 (ptake (handshake_state_get_kck hs) 16) = Some f →
  ∃ frame ek,
    eapol_send_ptk_3_of_4 E (mk_st (Some sm) hs out t) = Ok (tt, sent_ptk_3 sm hs out t frame) ∧
    ptk_3_ok hs kek (ptk_3_plain hs rsne) frame ek ∧
    ek_key_replay_counter ek = u64 (sm_replay_counter sm + 1) ∧ ek_key_nonce ek = hs_anonce hs ∧
    ek_key_rsc ek = hs_gtk_rsc hs ++ [0; 0].
Proof.
  intros Hm Hp Hie Hl Hlb Hz Hg Hr Ha Hc Howe Hfils Hkek Hkl Hck Haes Hf.
  unfold eapol_send_ptk_3_of_4. run_step. erewrite lift_bind_ok by (by rewrite Hie). do 2 run_step.
  change (sm_mic_len (sm <| sm_replay_counter := _ |>)) with (sm_mic_len sm). rewrite Hm.
  change (sm_protocol_version (sm <| sm_replay_counter := _ |>)) with (sm_protocol_version sm).
  destruct (ptk_3_key_data_ok hs rsne l tail Hl Hlb Hz Hg) as (spare & Hkd & Hsp & Hpb).
  erewrite lift_bind_ok by exact Hkd. cbv beta iota.
  match goal with |- context [eapol_encrypt_key_data _ _ _ ?e _] => set (ek0 := e) end.
  assert (Hk0 : ek_key_data ek0 = zeros 16 ++ zeros 2 ++ l_malloc (fresh E) (512 - EAPOL_FRAME_LEN 16)) by done.
  assert (Hkl0 : zlen (ek_key_data ek0) = 431) by (rewrite Hk0, !zlen_app, l_malloc_length; done).
  set (data := ptk_3_plain hs rsne) in *. pose proof (zlen_nonneg data).
  destruct (encrypt_key_data_ok kek data spare ek0 16) as (w & Hw & Henc); try done; try lia; [by left |].
  assert (Hw' := Hw). destruct Hw' as [Hwl _].
  pose proof (fte_padded_len_spec (zlen data) (zlen_nonneg data)) as [Hb _].
  erewrite lift_bind_ok by (rewrite Hkek, Henc; reflexivity). cbv beta iota.
  rewrite Hk0. change (ptake (zeros 16 ++ _) 16) with (zeros 16). rewrite <- Hk0.
  set (rest := ek_key_data ek0 +! _). set (ek1 := _ <| ek_packet_len := _ |>).
  assert (Hplen : ek_packet_len ek1 = EAPOL_FRAME_LEN 16 + zlen w - 4).
  { apply u16_small. unfold EAPOL_FRAME_LEN, EK_SIZE. lia. }
  assert (Hpv : ek_protocol_version ek1 = sm_protocol_version sm) by (apply u8_small; lia).
  assert (Hkle : ek_key_length ek1 = 16 ∨ ek_key_length ek1 = 32).
  { change (ek_key_length ek1) with (crypto_cipher_key_len (ie_rsn_cipher_suite_to_cipher (hs_pairwise_cipher hs))).
    destruct Hc as [-> | ->]; [by left | by right]. }
  assert (Hwf : ek_wf ek1).
  { unfold ek_wf. rewrite Hplen, Hpv. unfold EAPOL_FRAME_LEN, EK_SIZE, byte_ok.
    pose proof (u64_range (sm_replay_counter sm + 1)). split_and!; try done; try lia; try apply H0.
    change (zlen (hs_gtk_rsc hs ++ [0; 0]) = 8). rewrite zlen_app, Hr. done. }
  destruct (finish_ptk_3_ok (sm <| sm_replay_counter := u64 (sm_replay_counter sm + 1) |>) hs out t kek data w ek1
    rest f) as (mic & Hrun & Hok); try done; try lia.
  { unfold eapol_verify_ptk_3_of_4, VERIFY_PTK_COMMON. destruct Hkle as [-> | ->]; reflexivity. }
  eexists _, _. split; [exact Hrun |]. done.
Qed.
End message3.

(** C6: message 3/4: with a 16-byte MIC, an RSNE of any length and the keys of a negotiated PTK,
    [eapol_send_ptk_3_of_4] fits the frame in its buffers, increments the replay counter and
    sends exactly one frame, which the supplicant accepts: [eapol_key_validate],
    [eapol_verify_ptk_3_of_4] and [eapol_verify_mic] succeed on it and
    [eapol_decrypt_key_data] returns the RSNE, the GTK KDE and the IP allocation KDE the
    authenticator put together, with the padding of 802.11. *)
Theorem eapol_ptk_3_accepted {ell : Ell} {laws : EllLaws ell} E sm hs out t rsne l tail kek f :
  hook_tx_packet (env_hooks E) = true → sm_mic_len sm = 16 → 1 ≤ sm_protocol_version sm ≤ 3 →
  hs_authenticator_ie hs = Some (rsne ++ tail) → rd rsne 1 = Ok l → 0 ≤ l ≤ 255 → zlen rsne = l + 2 →
  zlen (hs_gtk hs) = 32 → zlen (hs_gtk_rsc hs) = 6 → zlen (hs_anonce hs) = 32 →
  hs_pairwise_cipher hs = IE_RSN_CIPHER_SUITE_CCMP ∨ hs_pairwise_cipher hs = IE_RSN_CIPHER_SUITE_TKIP →
  hs_akm_suite hs ≠ IE_RSN_AKM_SUITE_OWE → is_fils_akm (hs_akm_suite hs) = false →
  handshake_state_get_kek hs = Some kek → 16 ≤ zlen kek → 16 ≤ zlen (handshake_state_get_kck hs) →
  is_Some (l_cipher_new_aes (ptake kek 16)) →
  l_checksum_new_hmac L_CHECKSUM_SHA1 (ptake (handshake_state_get_kck hs) 16) = Some f →
  ∃ frame ek,
    eapol_send_ptk_3_of_4 E (mk_st (Some sm) hs out t) = Ok (tt, sent_ptk_3 sm hs out t frame) ∧
    eapol_key_validate frame (zlen frame) 16 = Ok (Some ek) ∧
    eapol_verify_ptk_3_of_4 ek false 16 = true ∧
    eapol_verify_mic (hs_akm_suite hs) (handshake_state_get_kck hs) ek 16 = Ok true ∧
    eapol_decrypt_key_data (hs_akm_suite hs) (Some kek) ek 16 = Ok (Some (fte_pad (ptk_3_plain hs rsne))) ∧
    ek_key_replay_counter ek = u64 (sm_replay_counter sm + 1) ∧ ek_key_nonce ek = hs_anonce hs.
Proof.
  intros. edestruct send_ptk_3_ok as (frame & ek & ? & (? & ? & ? & ?) & ? & ? & _); eauto.
  exists frame, ek. by split_and!.
Qed.

(** ** Retransmission of message 1/4 *)

Section retry.
Context {ell : Ell} {laws : EllLaws ell}.
Variable E : env.

(** The armed timer expires: its callback runs. *)
Definition fire_timer : M unit :=
  sm ← get_sm;
  match sm_timeout sm with
  | None => skip
  | Some (EAPOL_TIMEOUT, _) => eapol_timeout E
  | Some (PTK_1_RETRY, _) => eapol_ptk_1_of_4_retry E
  | Some (PTK_3_RETRY, _) => eapol_ptk_3_of_4_retry E
  end.

(** The frame is a message 1/4 with this replay counter and ANonce, and the supplicant's
    checks accept it. *)
Definition is_ptk_1 (mic_len rc : Z) (nonce frame : list Z) : Prop :=
  ∃ ek, eapol_key_validate frame (zlen frame) mic_len = Ok (Some ek) ∧
        eapol_verify_ptk_1_of_4 ek mic_len = Ok true ∧
        ek_key_replay_counter ek = rc ∧ ek_key_nonce ek = nonce.

(** [n] messages 1/4 have been sent since [sm], [hs], [out] and [t], the [i]-th one with the
    [i]-th replay counter and a nonce of its own, and the timer is armed. *)
Definition ptk_1_sent (sm : eapol_sm) (hs : handshake_state) (out : list effect) (t : nat) (n : Z)
    (s : st) : Prop :=
  ∃ sm' hs' frames,
    s = mk_st (Some sm') hs' (out ++ ((λ f, Tx (tx_dst hs) ETH_P_PAE f false) <$> frames))
          (t + length frames) ∧
    (∀ i f, frames !! i = Some f →
       is_ptk_1 (sm_mic_len sm) (u64 (sm_replay_counter sm + Z.of_nat i + 1)) (env_nonce E (t + i)) f) ∧
    zlen frames = n ∧ sm_frame_retry sm' = n ∧ sm_mic_len sm' = sm_mic_len sm ∧
    sm_protocol_version sm' = sm_protocol_version sm ∧ sm_listen_interval sm' = sm_listen_interval sm ∧
    sm_replay_counter sm' = u64 (sm_replay_counter sm + n) ∧ tx_dst hs' = tx_dst hs ∧
    sm_timeout sm' = Some (PTK_1_RETRY, key_timeout_ms n (sm_listen_interval sm)).

Hypothesis Htx : hook_tx_packet (env_hooks E) = true.
Hypothesis Hnonce : ∀ t, zlen (env_nonce E t) = 32.

Lemma retry_sends sm hs out t :
  sm_frame_retry sm < 3 → 0 < sm_mic_len sm ≤ 32 → 1 ≤ sm_protocol_version sm ≤ 3 →
  ∃ frame,
    eapol_ptk_1_of_4_retry E (mk_st (Some sm) hs out t) =
      eapol_set_key_timeout PTK_1_RETRY (sent_ptk_1 E sm hs out t frame) ∧
    is_ptk_1 (sm_mic_len sm) (u64 (sm_replay_counter sm + 1)) (env_nonce E t) frame.
Proof.
  intros Hr Hm Hp.
  destruct (send_ptk_1_ok E Htx sm hs out t Hm Hp (Hnonce t)) as (frame & ek & Hs & Hek).
  exists frame. split; [| by exists ek].
  unfold eapol_ptk_1_of_4_retry. run_step. destruct (Z.leb_spec 3 (sm_frame_retry sm)); [lia |].
  by erewrite M_bind_ok by exact Hs.
Qed.

Lemma ptk_1_first sm hs out t :
  sm_frame_retry sm = 0 → 0 < sm_mic_len sm ≤ 32 → 1 ≤ sm_protocol_version sm ≤ 3 →
  ∃ s, eapol_ptk_1_of_4_retry E (mk_st (Some sm) hs out t) = Ok (tt, s) ∧ ptk_1_sent sm hs out t 1 s.
Proof.
  intros Hr Hm Hp. destruct (retry_sends sm hs out t) as (frame & Hs & Hf); try done; [lia |]. rewrite Hs.
  eexists. split; [reflexivity |]. unfold sent_ptk_1. eexists _, _, [frame].
  split; [rewrite Nat.add_1_r; reflexivity |]. split.
  { intros i f [-> ->]%list_lookup_singleton_Some. by rewrite Nat.add_0_r, Z.add_0_r. }
  unfold sent_ptk_1. cbn -[u64 u32 Z.ltb key_timeout_ms]. rewrite Hr. by split_and!.
Qed.

Lemma u64_add_idemp a b : u64 (u64 a + b) = u64 (a + b).
Proof. unfold u64. apply Zplus_mod_idemp_l. Qed.

Lemma ptk_1_next sm hs out t n s :
  0 < sm_mic_len sm ≤ 32 → 1 ≤ sm_protocol_version sm ≤ 3 → 1 ≤ n < 3 → ptk_1_sent sm hs out t n s →
  ∃ s', fire_timer s = Ok (tt, s') ∧ ptk_1_sent sm hs out t (n + 1) s'.
Proof.
  intros Hm Hp Hn (sm1 & hs1 & frames & -> & Hfr & Hl & Hr & Hm1 & Hp1 & Hli & Hrc & Hdst & Ht).
  unfold fire_timer. run_step. rewrite Ht.
  match goal with |- context [mk_st (Some sm1) hs1 ?o ?t1] =>
    destruct (retry_sends sm1 hs1 o t1) as (frame & Hs & Hf); [lia | lia | lia |] end.
  rewrite Hs. eexists. split; [reflexivity |]. eexists _, _, (frames ++ [frame]).
  split; [unfold sent_ptk_1; cbn [st_sm st_hs st_out st_tick] |].
  { rewrite fmap_app, app_assoc, <- Hdst, length_app, Nat.add_assoc, Nat.add_1_r. reflexivity. }
  split.
  { intros i f [Hi | [Hge Hi]]%lookup_app_Some; [by apply Hfr |].
    apply list_lookup_singleton_Some in Hi as [Hi ->].
    replace i with (length frames) by lia. fold (zlen frames).
    rewrite Hm1, Hrc, u64_add_idemp in Hf. rewrite Hl. exact Hf. }
  unfold sent_ptk_1. cbn -[u64 u32 Z.ltb key_timeout_ms Z.add]. rewrite Hr, u32_small by lia.
  destruct (Z.ltb_spec 1 (n + 1)); [| lia]. cbn -[u64 u32 Z.ltb key_timeout_ms Z.add].
  rewrite Hrc, Ht, Hli, zlen_app, Hl. split_and!; try done.
  rewrite u64_add_idemp. f_equal. lia.
Qed.

Lemma ptk_1_last sm hs out t s : ptk_1_sent sm hs out t 3 s →
  fire_timer s = Ok (tt, mk_st None (st_hs s)
    (st_out s ++ handshake_event_ (env_hooks E)
                   (HANDSHAKE_EVENT_FAILED MMPDU_REASON_CODE_4WAY_HANDSHAKE_TIMEOUT)) (st_tick s)).
Proof.
  intros (sm1 & hs1 & frames & -> & Hfr & Hl & Hr & Hm1 & Hp1 & Hli & Hrc & Hdst & Ht).
  unfold fire_timer. run_step. rewrite Ht. unfold eapol_ptk_1_of_4_retry. run_step. by rewrite Hr.
Qed.
End retry.

(** C7: an authenticator whose peer never answers gives up: the first [eapol_ptk_1_of_4_retry]
    sends message 1/4 and arms the timer, and the next two expirations send one message 1/4
    each; every one of the frames passes the supplicant's [eapol_key_validate] and
    [eapol_verify_ptk_1_of_4], carries the next replay counter (modulo 2^64) and the nonce drawn
    for it, and the timer is armed with the timeout of its turn; the third expiration sends
    nothing, reports [HANDSHAKE_EVENT_FAILED] with the 4-way handshake timeout reason and
    frees the state machine.  The state machine knows its MIC length (at most 32 bytes) and
    protocol version (1 to 3), and the random nonces have 32 bytes. *)
Theorem eapol_ptk_1_gives_up {ell : Ell} {laws : EllLaws ell} E sm hs out t :
  hook_tx_packet (env_hooks E) = true → (∀ t, zlen (env_nonce E t) = 32) →
  sm_frame_retry sm = 0 → 0 < sm_mic_len sm ≤ 32 → 1 ≤ sm_protocol_version sm ≤ 3 →
  ∃ s1 s2 s3,
    eapol_ptk_1_of_4_retry E (mk_st (Some sm) hs out t) = Ok (tt, s1) ∧ ptk_1_sent E sm hs out t 1 s1 ∧
    fire_timer E s1 = Ok (tt, s2) ∧ ptk_1_sent E sm hs out t 2 s2 ∧
    fire_timer E s2 = Ok (tt, s3) ∧ ptk_1_sent E sm hs out t 3 s3 ∧
    fire_timer E s3 = Ok (tt, mk_st None (st_hs s3)
      (st_out s3 ++ handshake_event_ (env_hooks E)
                      (HANDSHAKE_EVENT_FAILED MMPDU_REASON_CODE_4WAY_HANDSHAKE_TIMEOUT)) (st_tick s3)).
Proof.
  intros Htx Hn Hr Hm Hp. destruct (ptk_1_first E Htx Hn sm hs out t Hr Hm Hp) as (s1 & H1 & I1).
  destruct (ptk_1_next E Htx Hn sm hs out t 1 s1 Hm Hp ltac:(lia) I1) as (s2 & H2 & I2).
  destruct (ptk_1_next E Htx Hn sm hs out t 2 s2 Hm Hp ltac:(lia) I2) as (s3 & H3 & I3).
  exists s1, s2, s3. split_and!; try done. by eapply ptk_1_last.
Qed.
