(* ===== verification/EapolRun.v ===== *)
(** * Runs of the EAPoL state machine (src/eapol.c)

    A complete 4-way handshake between the authenticator and the supplicant of the model, on
    which the theorems about the state machine are instantiated, and the situations in which
    the code misbehaves. *)

From stdpp Require Import base numbers list option.
From Stdlib Require Import ZArith Lia.
From S2P Require Import Prelude IeTlv IeRsn IeMisc Crypto Handshake EapolFrame Eapol EapolSpec EapolAuth.

Open Scope Z_scope.

(** ** A network with one access point and one station *)

Definition run_rsne : list Z :=
  [48; 20; 1; 0; 0; 15; 172; 4; 1; 0; 0; 15; 172; 4; 1; 0; 0; 15; 172; 2; 0; 0].

Definition all_hooks : hooks := mk_hooks true true true true true true true.

(** The nonces of a node are 32 times [base], [base + 1], ...; there is no EAP. *)
Definition run_env (base : Z) : env :=
  mk_env all_hooks 5 (λ n, replicate 32 (base + Z.of_nat n)) (λ _, 0) (rsn_info_init 0 0 0) 0
    (λ _, true) (λ _, true) (λ _ _, []) (λ _, []).

Definition run_spa : list Z := [2; 0; 0; 0; 0; 1].
Definition run_aa : list Z := [2; 0; 0; 0; 0; 2].

Definition run_hs : handshake_state :=
  hs_zero <| hs_ifindex := 1 |> <| hs_spa := run_spa |> <| hs_aa := run_aa |>
    <| hs_authenticator_ie := Some run_rsne |> <| hs_supplicant_ie := Some run_rsne |>
    <| hs_pairwise_cipher := IE_RSN_CIPHER_SUITE_CCMP |>
    <| hs_group_cipher := IE_RSN_CIPHER_SUITE_CCMP |>
    <| hs_akm_suite := IE_RSN_AKM_SUITE_PSK |> <| hs_pmk := replicate 64 9 |>
    <| hs_pmk_len := 32 |> <| hs_have_pmk := true |>.
Definition run_hs_ap : handshake_state :=
  run_hs <| hs_authenticator := true |> <| hs_gtk := replicate 32 5 |> <| hs_gtk_index := 1 |>.

Definition run_ap : env := run_env 100.
Definition run_sta : env := run_env 200.

Definition state_of {A} (r : res (A * st)) : res st := p ← r; Ok (snd p).

Definition run_init (hs : handshake_state) : st := mk_st (Some (eapol_sm_new hs)) hs [] 0.

Section run.
Context `{Ell}.

Definition run_boot (E : env) (hs : handshake_state) : res st :=
  state_of ((eapol_register;; eapol_start E) (run_init hs)).

Definition deliver (E : env) (src frame : list Z) (s : st) : res st :=
  state_of (__eapol_rx_packet E 1 src ETH_P_PAE frame (zlen frame) true s).

(** The last frame sent. *)
Definition last_frame (s : st) : list Z :=
  foldl (λ f e, match e with Tx _ _ f' _ => f' | _ => f end) [] (st_out s).

(** The states of the access point and of the station after each message. *)
Definition run_0 : res (st * st) :=
  ap ← run_boot run_ap run_hs_ap; sta ← run_boot run_sta run_hs; Ok (ap, sta).
Definition to_sta (r : res (st * st)) : res (st * st) :=
  '(ap, sta) ← r; sta ← deliver run_sta run_aa (last_frame ap) sta; Ok (ap, sta).
Definition to_ap (r : res (st * st)) : res (st * st) :=
  '(ap, sta) ← r; ap ← deliver run_ap run_spa (last_frame sta) ap; Ok (ap, sta).
Definition run_1 : res (st * st) := to_sta run_0.
Definition run_2 : res (st * st) := to_ap run_1.
Definition run_3 : res (st * st) := to_sta run_2.
Definition run_4 : res (st * st) := to_ap run_3.
End run.

#[local] Existing Instance toy_ell.
#[local] Existing Instance toy_ell_laws.

Definition sta_at (r : res (st * st)) : st :=
  match r with Ok (_, sta) => sta | _ => run_init run_hs end.
Definition ap_at (r : res (st * st)) : st :=
  match r with Ok (ap, _) => ap | _ => run_init run_hs_ap end.

(** Both sides install the same temporal key, once, and the station the group key of the
    access point. *)
Example four_way_handshake_completes :
  match run_4 with
  | Ok (ap, sta) =>
      bool_decide (length (tks (installs (st_out ap))) = 1%nat ∧
        tks (installs (st_out sta)) = tks (installs (st_out ap)) ∧
        gtks (installs (st_out sta)) = [replicate 16 5] ∧
        hs_ptk_complete (st_hs ap) = true ∧ hs_ptk_complete (st_hs sta) = true)
  | _ => false
  end = true.
Proof. vm_compute. reflexivity. Qed.

(** Message 3/4 at the station. *)
Definition run_msg3 : input :=
  IN_FRAME 1 run_aa ETH_P_PAE (last_frame (ap_at run_2)) (zlen (last_frame (ap_at run_2))) true.


(** The station receives message 3/4 twice. *)
Lemma run_msg3_reaches : reaches run_sta (sta_at run_2) (sta_at run_3).
Proof.
  eapply (reaches_step _ _ _ run_msg3); [apply reaches_refl | vm_compute; reflexivity].
Qed.

Definition run_msg3_again : st :=
  match handle_input run_sta run_msg3 (sta_at run_3) with Ok (_, s) => s | _ => sta_at run_3 end.

Lemma run_msg3_again_reaches : reaches_drawing run_sta (sta_at run_3) 0 run_msg3_again.
Proof.
  assert (Hd : (0 + snonces_drawn run_msg3 (sta_at run_3) run_msg3_again)%nat = 0%nat)
    by (vm_compute; reflexivity).
  rewrite <- Hd. apply drawing_step; [apply drawing_refl | vm_compute; reflexivity].
Qed.

Lemma eapol_tk_once_per_snonce_witness :
  length (tks (installs (st_out (sta_at run_3)))) = 1%nat ∧
  hs_ptk_complete (st_hs (sta_at run_3)) = true ∧
  (length (tks (installs (st_out run_msg3_again))) ≤
     length (tks (installs (st_out (sta_at run_3))))
     + (if hs_ptk_complete (st_hs (sta_at run_3)) then 0 else 1) + 0)%nat.
Proof.
  split; [vm_compute; reflexivity |]. split; [vm_compute; reflexivity |].
  apply (eapol_tk_once_per_snonce run_sta (sta_at run_3) 0); [done | by_eval |].
  apply run_msg3_again_reaches.
Defined.

Lemma eapol_group_key_not_reinstalled_witness :
  no_repeat (gtks (installs (st_out (sta_at run_3)))).
Proof.
  refine (proj1 (eapol_group_key_not_reinstalled run_sta (sta_at run_2) (sta_at run_3) _ _ _ _ _));
    [done | by_eval | apply run_msg3_reaches | vm_compute; reflexivity ..].
Defined.

(** A second group key after the first one. *)
Definition run_gtk_frame : list Z :=
  match eapol_encrypt_key_data (handshake_state_get_kek (st_hs (ap_at run_4)))
          ((match handshake_util_build_gtk_kde CRYPTO_CIPHER_CCMP (replicate 16 6) 2 with
            | Ok kde => kde | _ => [] end) ++ zeros 128) 24
          ((frame_buf run_ap 2 16) <| ek_key_ack := true |> <| ek_key_mic := true |>
             <| ek_secure := true |> <| ek_encrypted_key_data := true |>
             <| ek_key_replay_counter := 3 |> <| ek_packet_len := 127 |>) 16 with
  | Ok (ek, n) =>
      match eapol_calculate_mic IE_RSN_AKM_SUITE_PSK
              (handshake_state_get_kck (st_hs (ap_at run_4))) ek (zeros 32) 16 with
      | Ok (Some mic) => match ek_set_mic ek mic with
                         | Ok ek => ptake (ek_bytes ek) (99 + n)
                         | _ => []
                         end
      | _ => []
      end
  | _ => []
  end.

Definition run_group : input := IN_FRAME 1 run_aa ETH_P_PAE run_gtk_frame (zlen run_gtk_frame) true.
Definition run_5 : st :=
  match handle_input run_sta run_group (sta_at run_3) with Ok (_, s) => s | _ => sta_at run_3 end.
Definition sm_at (s : st) : eapol_sm :=
  match st_sm s with Some sm => sm | None => eapol_sm_new run_hs end.

Lemma eapol_replay_protection_witness :
  (sm_have_replay (sm_at (sta_at run_3)) = true →
   sm_have_replay (sm_at run_5) = true ∧
   sm_replay_counter (sm_at (sta_at run_3)) ≤ sm_replay_counter (sm_at run_5) ∧
   (installs (st_out run_5) ≠ installs (st_out (sta_at run_3)) →
    sm_replay_counter (sm_at (sta_at run_3)) < sm_replay_counter (sm_at run_5))) ∧
  (installs (st_out run_5) ≠ installs (st_out (sta_at run_3)) → sm_have_replay (sm_at run_5) = true).
Proof.
  refine (eapol_replay_protection run_sta (sta_at run_3) run_5 _ _ _ _ _ _ _);
    [done | by_eval | | vm_compute; reflexivity ..].
  eapply (reaches_step _ _ _ run_group); [apply reaches_refl | vm_compute; reflexivity].
Defined.

(** ** The authenticator *)

Definition run_sm : eapol_sm :=
  (eapol_sm_new run_hs_ap) <| sm_protocol_version := 2 |> <| sm_mic_len := 16 |>.

Lemma eapol_ptk_1_accepted_witness :
  ∃ frame ek,
    eapol_send_ptk_1_of_4 run_ap (mk_st (Some run_sm) run_hs_ap [] 0) =
      Ok (tt, sent_ptk_1 run_ap run_sm run_hs_ap [] 0 frame) ∧
    eapol_key_validate frame (zlen frame) 16 = Ok (Some ek) ∧
    eapol_verify_ptk_1_of_4 ek 16 = Ok true ∧
    ek_key_replay_counter ek = 1 ∧ ek_key_nonce ek = replicate 32 100.
Proof.
  refine (eapol_ptk_1_accepted run_ap run_sm run_hs_ap [] 0%nat _ _ _ _);
    by_eval.
Defined.

(** Message 4/4 at the access point. *)
Definition run_msg4 : list Z := last_frame (sta_at run_3).
Definition run_sm4 : eapol_sm := sm_at (ap_at run_3).
Definition run_hs4 : handshake_state := st_hs (ap_at run_3).

Lemma eapol_auth_install_authentic_witness :
  ∃ len ek, eapol_key_validate run_msg4 len (sm_mic_len run_sm4) = Ok (Some ek) ∧
    eapol_verify_ptk_4_of_4 ek false = true ∧ ek_key_replay_counter ek = sm_replay_counter run_sm4 ∧
    eapol_verify_mic (hs_akm_suite run_hs4) (handshake_state_get_kck run_hs4) ek (sm_mic_len run_sm4)
      = Ok true ∧
    hs_ptk_complete run_hs4 = false ∧ hs_ptk_complete (st_hs (ap_at run_4)) = true ∧
    ∃ l, installs (st_out (ap_at run_4)) = installs (st_out (ap_at run_3)) ++ installs l ∧
         l = snd (handshake_state_install_ptk (env_hooks run_ap) run_hs4).
Proof.
  refine (eapol_auth_install_authentic run_ap run_msg4 run_sm4 run_hs4
            (st_out (ap_at run_3)) (st_tick (ap_at run_3)) (ap_at run_4) _ _).
  - vm_compute. reflexivity.
  - apply (bool_decide_unpack _). vm_compute. exact I.
Defined.

(** Message 3/4 from an access point that holds a PTK. *)
Definition run_hs3 : handshake_state :=
  run_hs_ap <| hs_ptk := replicate 136 7 |> <| hs_anonce := replicate 32 1 |>.

Lemma eapol_ptk_3_accepted_witness :
  ∃ frame ek,
    eapol_send_ptk_3_of_4 run_ap (mk_st (Some run_sm) run_hs3 [] 0) =
      Ok (tt, sent_ptk_3 run_sm run_hs3 [] 0 frame) ∧
    eapol_key_validate frame (zlen frame) 16 = Ok (Some ek) ∧
    eapol_verify_ptk_3_of_4 ek false 16 = true ∧
    eapol_verify_mic IE_RSN_AKM_SUITE_PSK (replicate 136 7) ek 16 = Ok true ∧
    eapol_decrypt_key_data IE_RSN_AKM_SUITE_PSK (Some (replicate 120 7)) ek 16 =
      Ok (Some (fte_pad (ptk_3_plain run_hs3 run_rsne))) ∧
    ek_key_replay_counter ek = u64 (sm_replay_counter run_sm + 1) ∧ ek_key_nonce ek = replicate 32 1.
Proof.
  refine (eapol_ptk_3_accepted run_ap run_sm run_hs3 [] 0%nat run_rsne 20 [] (replicate 120 7)
            (toy_digest (replicate 16 7) 20) _ _ _ _ _ _ _ _ _ _ _ _ _ _ _ _ _ _);
    try reflexivity; by_eval.
Defined.

Lemma eapol_ptk_1_gives_up_witness :
  ∃ s1 s2 s3,
    eapol_ptk_1_of_4_retry run_ap (mk_st (Some run_sm) run_hs_ap [] 0) = Ok (tt, s1) ∧
    ptk_1_sent run_ap run_sm run_hs_ap [] 0 1 s1 ∧
    fire_timer run_ap s1 = Ok (tt, s2) ∧ ptk_1_sent run_ap run_sm run_hs_ap [] 0 2 s2 ∧
    fire_timer run_ap s2 = Ok (tt, s3) ∧ ptk_1_sent run_ap run_sm run_hs_ap [] 0 3 s3 ∧
    fire_timer run_ap s3 = Ok (tt, mk_st None (st_hs s3)
      (st_out s3 ++ handshake_event_ (env_hooks run_ap)
                      (HANDSHAKE_EVENT_FAILED MMPDU_REASON_CODE_4WAY_HANDSHAKE_TIMEOUT)) (st_tick s3)).
Proof.
  refine (eapol_ptk_1_gives_up run_ap run_sm run_hs_ap [] 0%nat _ _ _ _ _);
    [done | done | done | by_eval | by_eval].
Defined.

(** ** A frame received before [eapol_start] *)

(** The frame is an EAPoL-Key frame that the supplicant takes for message 1/4 and that
    [eapol_verify_ptk_1_of_4] refuses. *)
Definition bad_ptk_1 (wpa : bool) (mic_len : Z) (frame : list Z) : Prop :=
  ∃ ek n, frame_len frame = Ok (zlen frame) ∧
    eapol_key_validate frame (zlen frame) mic_len = Ok (Some ek) ∧ ek_data_len ek mic_len = Ok n ∧
    ek_key_ack ek = true ∧
    ek_descriptor_type ek = (if wpa then EAPOL_DESCRIPTOR_TYPE_WPA else EAPOL_DESCRIPTOR_TYPE_80211) ∧
    ek_key_type ek = true ∧ ek_key_mic ek = false ∧ ek_encrypted_key_data ek = false ∧
    eapol_verify_ptk_1_of_4 ek mic_len = Ok false.

Lemma validate_header frame len mic_len ek :
  eapol_key_validate frame len mic_len = Ok (Some ek) →
  EK_SIZE ≤ zlen frame ∧ ∃ v, rd frame 0 = Ok v ∧ (v = 1 ∨ v = 2 ∨ v = 3) ∧ rd frame 1 = Ok 3.
Proof.
  unfold eapol_key_validate. destruct (len <? EAPOL_FRAME_LEN mic_len); [done |]. intros Hv.
  inv_bind Hv. inv_bind Hv. destruct (_ <? _) in Hv; [done |].
  destruct (negb _) eqn:Ha in Hv; [done |]. destruct (negb _) eqn:Hb in Hv; [done |]. clear Hv.
  apply negb_false_iff in Ha, Hb. rewrite !orb_true_iff, !Z.eqb_eq in Ha. apply Z.eqb_eq in Hb.
  unfold ek_view in Hr. inv_bind Hr. apply rdn_inv in Hr1 as [Hh ->]. injection Hr as <-. split; [lia |].
  destruct frame as [|a [|b frame]]; [by destruct Hh as [_ []] .. |]. clear Hr0.
  change (b = 3) in Hb. change ((a = 1 ∨ a = 2) ∨ a = 3) in Ha. subst b. exists a.
  split_and!; [done | lia | done].
Qed.

Section early_frame.
Context `{Ell}.
Variable E : env.
Implicit Types (sm : eapol_sm) (hs : handshake_state) (out : list effect) (t : nat).

Lemma bad_ptk_1_frees frame ne sm hs out t :
  bad_ptk_1 (hs_wpa_ie hs) (sm_mic_len sm) frame → sm_have_replay sm = false →
  ∃ out', eapol_key_handle E frame ne (mk_st (Some sm) hs out t) = Ok (tt, mk_st None hs out' t).
Proof.
  intros (ek & n & Hlen & Hv & Hn & Hack & Hdesc & Hkt & Hmic & Henc & Hbad) Hrep.
  unfold eapol_key_handle. do 4 run_step. rewrite Hack, Hdesc. cbn [negb].
  assert (Hd1 : negb (hs_wpa_ie hs) && negb ((if hs_wpa_ie hs then EAPOL_DESCRIPTOR_TYPE_WPA
    else EAPOL_DESCRIPTOR_TYPE_80211) =? EAPOL_DESCRIPTOR_TYPE_80211) = false) by (by destruct (hs_wpa_ie hs)).
  assert (Hd2 : hs_wpa_ie hs && negb ((if hs_wpa_ie hs then EAPOL_DESCRIPTOR_TYPE_WPA
    else EAPOL_DESCRIPTOR_TYPE_80211) =? EAPOL_DESCRIPTOR_TYPE_WPA) = false) by (by destruct (hs_wpa_ie hs)).
  rewrite Hd1, Hd2, Hrep, Hmic. cbn [andb]. run_step. cbn [negb]. run_step. rewrite Henc, Hkt. cbn [negb andb orb].
  run_step. unfold eapol_handle_ptk_1_of_4. do 3 run_step. eexists. reflexivity.
Qed.

Lemma rx_bad_ptk_1_frees frame ne sm hs out t :
  bad_ptk_1 (hs_wpa_ie hs) (sm_mic_len sm) frame → sm_have_replay sm = false →
  sm_started sm = true → hs_have_pmk hs = true →
  ∃ out', eapol_rx_packet E ETH_P_PAE (hs_aa hs) frame ne (mk_st (Some sm) hs out t) =
    Ok (tt, mk_st None hs out' t).
Proof.
  intros Hbad Hrep Hst Hpmk. destruct Hbad as (ek & n & Hlen & Hv & Hrest).
  destruct (validate_header _ _ _ _ Hv) as (_ & v & Hv0 & _ & Hty).
  assert (Hself : memeq (hs_aa hs) (hs_aa hs) = Ok true).
  { pose proof (zlen_nonneg (hs_aa hs)). unfold memeq. rewrite rdn_ok, ptake_all by lia. cbn.
    by rewrite bool_decide_true. }
  unfold eapol_rx_packet. run_step. cbn [Z.eqb negb]. rewrite Z.eqb_refl. cbn [negb]. run_step. cbn [negb].
  run_step. rewrite Hst. cbn [negb]. do 3 run_step. cbn [Z.eqb Pos.eqb]. rewrite Hpmk. cbn [negb].
  apply bad_ptk_1_frees; [| by destruct (sm_protocol_version sm =? 0)].
  destruct (sm_protocol_version sm =? 0); by exists ek, n.
Qed.

Lemma early_frame_kept frame mic_len ifindex src ne sm hs out t :
  bad_ptk_1 (hs_wpa_ie hs) mic_len frame → memeq src (hs_aa hs) = Ok true →
  sm_watch sm = Some (ifindex, false) → sm_started sm = false → sm_early_frame sm = None →
  __eapol_rx_packet E ifindex src ETH_P_PAE frame (zlen frame) ne (mk_st (Some sm) hs out t) =
    Ok (tt, mk_st (Some (sm <| sm_early_frame := Some frame |>
                            <| sm_early_frame_unencrypted := ne |>)) hs out t).
Proof.
  intros (ek & n & Hlen & Hv & _) Hsrc Hwatch Hst Hearly.
  destruct (validate_header _ _ _ _ Hv) as (Hl & v & Hv0 & Hver & _). unfold EK_SIZE in Hl.
  assert (Hb : rdn frame (zlen frame) = Ok frame) by (rewrite rdn_ok, ptake_all by lia; done).
  unfold __eapol_rx_packet. destruct (Z.ltb_spec (zlen frame) 4); [lia |]. run_step.
  replace (negb _) with false by (destruct Hver as [-> | [-> | ->]]; done). run_step.
  rewrite Z.ltb_irrefl. cbn [st_sm]. rewrite Hwatch, Z.eqb_refl. cbn [negb].
  unfold eapol_rx_packet. run_step. rewrite Z.eqb_refl. cbn [negb]. run_step. cbn [negb].
  run_step. rewrite Hst, Hearly. cbn [negb]. rewrite bool_decide_true by done. cbn [negb].
  do 2 run_step. reflexivity.
Qed.

Lemma start_early_frame_fault frame sm hs out t :
  bad_ptk_1 (hs_wpa_ie hs) (eapol_get_mic_length (hs_akm_suite hs) (hs_pmk_len hs)) frame →
  hs_settings_8021x hs = false → hs_have_pmk hs = true →
  sm_early_frame sm = Some frame → sm_have_replay sm = false →
  eapol_start E (mk_st (Some sm) hs out t) = Fault.
Proof.
  intros Hbad H8021x Hpmk Hearly Hrep.
  unfold eapol_start. run_step. rewrite H8021x. unfold eapol_start_handshake. do 6 run_step.
  set (sm1 := _ <| sm_mic_len := _ |>).
  assert (Hsm1 : sm_early_frame sm1 = Some frame ∧ sm_have_replay sm1 = false ∧ sm_started sm1 = true ∧
    sm_mic_len sm1 = eapol_get_mic_length (hs_akm_suite hs) (hs_pmk_len hs)).
  { unfold sm1. cbn. by repeat case_match. }
  clearbody sm1. destruct Hsm1 as (Hf1 & Hr1 & Hs1 & Hm1). rewrite Hf1. rewrite <- Hm1 in Hbad.
  destruct (rx_bad_ptk_1_frees frame (sm_early_frame_unencrypted sm1) sm1 hs out t)
    as (out' & Hrx); [done.. |].
  unfold mbind at 1, M_bind at 1. unfold mbind at 1, M_bind at 1. rewrite Hrx. reflexivity.
Qed.
End early_frame.

(** ** A frame received before [eapol_start] *)

(** C40: a frame that arrives between [eapol_register] and [eapol_start] is kept in
    [early_frame] and handled by [eapol_start].  Whenever that frame, for a supplicant that has
    its PMK and does no EAP, is an EAPoL-Key frame of the shape of message 1/4 that
    [eapol_verify_ptk_1_of_4] refuses (which takes no knowledge of any key: the Secure bit
    is enough), [handshake_failed] frees the state machine and [eapol_start] goes on to use it. *)
Theorem eapol_start_early_frame_use_after_free `{Ell} E sm hs out t ifindex src frame ne :
  hs_settings_8021x hs = false → hs_have_pmk hs = true → memeq src (hs_aa hs) = Ok true →
  sm_watch sm = Some (ifindex, false) → sm_started sm = false → sm_early_frame sm = None →
  sm_have_replay sm = false →
  bad_ptk_1 (hs_wpa_ie hs) (eapol_get_mic_length (hs_akm_suite hs) (hs_pmk_len hs)) frame →
  ∃ s, __eapol_rx_packet E ifindex src ETH_P_PAE frame (zlen frame) ne (mk_st (Some sm) hs out t) =
         Ok (tt, s) ∧
       st_out s = out ∧ sm_early_frame <$> st_sm s = Some (Some frame) ∧ eapol_start E s = Fault.
Proof.
  intros H8021x Hpmk Hsrc Hwatch Hst Hearly Hrep Hbad.
  exists (mk_st (Some (sm <| sm_early_frame := Some frame |> <| sm_early_frame_unencrypted := ne |>))
            hs out t).
  split; [by eapply early_frame_kept |]. split_and!; [done | done |].
  by eapply (start_early_frame_fault E frame).
Qed.

(** A message 1/4 that an attacker can send: its Secure bit is set, so that
    [eapol_verify_ptk_1_of_4] refuses it. *)
Definition forged_msg1 : list Z :=
  ek_bytes (mk_ek 2 3 95 EAPOL_DESCRIPTOR_TYPE_80211 false true false false false false 0
    EAPOL_KEY_DESCRIPTOR_VERSION_HMAC_SHA1_AES true 0 false true 16 1 (zeros 32) (zeros 16) (zeros 8)
    (zeros 8) (zeros 18)).

Lemma forged_msg1_bad : bad_ptk_1 false 16 forged_msg1.
Proof. eexists _, _. split_and!; vm_compute; reflexivity. Qed.

Definition run_registered : eapol_sm :=
  (eapol_sm_new run_hs) <| sm_watch := Some (1, false) |>.

Lemma eapol_start_early_frame_use_after_free_witness :
  eapol_register (run_init run_hs) = Ok (tt, mk_st (Some run_registered) run_hs [] 0) ∧
  ∃ s, __eapol_rx_packet run_sta 1 run_aa ETH_P_PAE forged_msg1 (zlen forged_msg1) true
         (mk_st (Some run_registered) run_hs [] 0) = Ok (tt, s) ∧
       st_out s = [] ∧ sm_early_frame <$> st_sm s = Some (Some forged_msg1) ∧
       eapol_start run_sta s = Fault.
Proof.
  split; [vm_compute; reflexivity |].
  apply (eapol_start_early_frame_use_after_free run_sta run_registered run_hs [] 0%nat 1 run_aa
           forged_msg1 true); try reflexivity. exact forged_msg1_bad.
Defined.
