(* ===== verification/Mpdu.v ===== *)
(** * 802.11 management frames (src/mpdu.c, src/mpdu.h)

    Validation of a received management frame: the frame control field, the header, the
    fixed fields of each subtype and the set of information elements that may follow. *)

From stdpp Require Import base numbers list option.
From Stdlib Require Import ZArith Lia.
From S2P Require Import Prelude IeTlv IeRsn IeMisc.

Open Scope Z_scope.

(** ** Constants (src/ie.h, src/mpdu.h) *)

Definition IE_TYPE_SSID : Z := 0.
Definition IE_TYPE_SUPPORTED_RATES : Z := 1.
Definition IE_TYPE_DSSS_PARAMETER_SET : Z := 3.
Definition IE_TYPE_CF_PARAMETER_SET : Z := 4.
Definition IE_TYPE_TIM : Z := 5.
Definition IE_TYPE_IBSS_PARAMETER_SET : Z := 6.
Definition IE_TYPE_COUNTRY : Z := 7.
Definition IE_TYPE_REQUEST : Z := 10.
Definition IE_TYPE_BSS_LOAD : Z := 11.
Definition IE_TYPE_EDCA_PARAMETER_SET : Z := 12.
Definition IE_TYPE_TSPEC : Z := 13.
Definition IE_TYPE_TCLAS : Z := 14.
Definition IE_TYPE_SCHEDULE : Z := 15.
Definition IE_TYPE_CHALLENGE_TEXT : Z := 16.
Definition IE_TYPE_POWER_CONSTRAINT : Z := 32.
Definition IE_TYPE_POWER_CAPABILITY : Z := 33.
Definition IE_TYPE_TPC_REPORT : Z := 35.
Definition IE_TYPE_SUPPORTED_CHANNELS : Z := 36.
Definition IE_TYPE_CHANNEL_SWITCH_ANNOUNCEMENT : Z := 37.
Definition IE_TYPE_QUIET : Z := 40.
Definition IE_TYPE_IBSS_DFS : Z := 41.
Definition IE_TYPE_ERP : Z := 42.
Definition IE_TYPE_TS_DELAY : Z := 43.
Definition IE_TYPE_TCLAS_PROCESSING : Z := 44.
Definition IE_TYPE_HT_CAPABILITIES : Z := 45.
Definition IE_TYPE_QOS_CAPABILITY : Z := 46.
Definition IE_TYPE_EXTENDED_SUPPORTED_RATES : Z := 50.
Definition IE_TYPE_AP_CHANNEL_REPORT : Z := 51.
Definition IE_TYPE_NEIGHBOR_REPORT : Z := 52.
Definition IE_TYPE_RCPI : Z := 53.
Definition IE_TYPE_TIMEOUT_INTERVAL : Z := 56.
Definition IE_TYPE_RIC_DATA : Z := 57.
Definition IE_TYPE_DSE_REGISTERED_LOCATION : Z := 58.
Definition IE_TYPE_SUPPORTED_OPERATING_CLASSES : Z := 59.
Definition IE_TYPE_EXTENDED_CHANNEL_SWITCH_ANNOUNCEMENT : Z := 60.
Definition IE_TYPE_HT_OPERATION : Z := 61.
Definition IE_TYPE_BSS_AVERAGE_ACCESS_DELAY : Z := 63.
Definition IE_TYPE_ANTENNA : Z := 64.
Definition IE_TYPE_RSNI : Z := 65.
Definition IE_TYPE_MEASUREMENT_PILOT_TRANSMISSION : Z := 66.
Definition IE_TYPE_BSS_AVAILABLE_ADMISSION_CAPACITY : Z := 67.
Definition IE_TYPE_BSS_AC_ACCESS_DELAY : Z := 68.
Definition IE_TYPE_TIME_ADVERTISEMENT : Z := 69.
Definition IE_TYPE_RM_ENABLED_CAPABILITIES : Z := 70.
Definition IE_TYPE_MULTIPLE_BSSID : Z := 71.
Definition IE_TYPE_BSS_COEXISTENCE : Z := 72.
Definition IE_TYPE_OVERLAPPING_BSS_SCAN_PARAMETERS : Z := 74.
Definition IE_TYPE_RIC_DESCRIPTOR : Z := 75.
Definition IE_TYPE_SSID_LIST : Z := 84.
Definition IE_TYPE_FMS_DESCRIPTOR : Z := 86.
Definition IE_TYPE_FMS_REQUEST : Z := 87.
Definition IE_TYPE_FMS_RESPONSE : Z := 88.
Definition IE_TYPE_QOS_TRAFFIC_CAPABILITY : Z := 89.
Definition IE_TYPE_BSS_MAX_IDLE_PERIOD : Z := 90.
Definition IE_TYPE_TIM_BROADCAST_REQUEST : Z := 94.
Definition IE_TYPE_TIM_BROADCAST_RESPONSE : Z := 95.
Definition IE_TYPE_CHANNEL_USAGE : Z := 97.
Definition IE_TYPE_DMS_REQUEST : Z := 99.
Definition IE_TYPE_DMS_RESPONSE : Z := 100.
Definition IE_TYPE_INTERWORKING : Z := 107.
Definition IE_TYPE_ADVERTISEMENT_PROTOCOL : Z := 108.
Definition IE_TYPE_EXPEDITED_BANDWIDTH_REQUEST : Z := 109.
Definition IE_TYPE_QOS_MAP_SET : Z := 110.
Definition IE_TYPE_EMERGENCY_ALERT_IDENTIFIER : Z := 112.
Definition IE_TYPE_MESH_CONFIGURATION : Z := 113.
Definition IE_TYPE_MESH_ID : Z := 114.
Definition IE_TYPE_MESH_CHANNEL_SWITCH_PARAMETERS : Z := 118.
Definition IE_TYPE_MESH_AWAKE_WINDOW : Z := 119.
Definition IE_TYPE_BEACON_TIMING : Z := 120.
Definition IE_TYPE_MCCAOP_ADVERTISEMENT : Z := 123.
Definition IE_TYPE_EXTENDED_CAPABILITIES : Z := 127.
Definition IE_TYPE_DMG_CAPABILITIES : Z := 148.
Definition IE_TYPE_MULTIBAND : Z := 158.
Definition IE_TYPE_MULTIPLE_MAC_SUBLAYERS : Z := 170.
Definition IE_TYPE_MCCAOP_ADVERTISEMENT_OVERVIEW : Z := 174.
Definition IE_TYPE_QMF_POLICY : Z := 181.
Definition IE_TYPE_QLOAD_REPORT : Z := 186.
Definition IE_TYPE_HCCA_TXOP_UPDATE_COUNT : Z := 187.
Definition IE_TYPE_VHT_CAPABILITIES : Z := 191.
Definition IE_TYPE_VHT_OPERATION : Z := 192.
Definition IE_TYPE_EXTENDED_BSS_LOAD : Z := 193.
Definition IE_TYPE_TRANSMIT_POWER_ENVELOPE : Z := 195.
Definition IE_TYPE_CHANNEL_SWITCH_WRAPPER : Z := 196.
Definition IE_TYPE_QUIET_CHANNEL : Z := 198.
Definition IE_TYPE_OPERATING_MODE_NOTIFICATION : Z := 199.
Definition IE_TYPE_REDUCED_NEIGHBOR_REPORT : Z := 201.
Definition IE_TYPE_TVHT_OPERATION : Z := 202.
Definition IE_TYPE_FILS_SESSION : Z := 260.
Definition IE_TYPE_FILS_WRAPPED_DATA : Z := 264.
Definition IE_TYPE_EXTENDED_REQUEST : Z := 266.
Definition IE_TYPE_ESTIMATED_SERVICE_PARAMETERS : Z := 267.
Definition IE_TYPE_FUTURE_CHANNEL_GUIDANCE : Z := 270.

Definition MPDU_TYPE_MANAGEMENT : Z := 0.
Definition MPDU_MANAGEMENT_SUBTYPE_ASSOCIATION_REQUEST : Z := 0x0.
Definition MPDU_MANAGEMENT_SUBTYPE_ASSOCIATION_RESPONSE : Z := 0x1.
Definition MPDU_MANAGEMENT_SUBTYPE_REASSOCIATION_REQUEST : Z := 0x2.
Definition MPDU_MANAGEMENT_SUBTYPE_REASSOCIATION_RESPONSE : Z := 0x3.
Definition MPDU_MANAGEMENT_SUBTYPE_PROBE_REQUEST : Z := 0x4.
Definition MPDU_MANAGEMENT_SUBTYPE_PROBE_RESPONSE : Z := 0x5.
Definition MPDU_MANAGEMENT_SUBTYPE_TIMING_ADVERTISEMENT : Z := 0x6.
Definition MPDU_MANAGEMENT_SUBTYPE_BEACON : Z := 0x8.
Definition MPDU_MANAGEMENT_SUBTYPE_ATIM : Z := 0x9.
Definition MPDU_MANAGEMENT_SUBTYPE_DISASSOCIATION : Z := 0xA.
Definition MPDU_MANAGEMENT_SUBTYPE_AUTHENTICATION : Z := 0xB.
Definition MPDU_MANAGEMENT_SUBTYPE_DEAUTHENTICATION : Z := 0xC.
Definition MPDU_MANAGEMENT_SUBTYPE_ACTION : Z := 0xD.
Definition MPDU_MANAGEMENT_SUBTYPE_ACTION_NO_ACK : Z := 0xE.

Definition MMPDU_AUTH_ALGO_OPEN_SYSTEM : Z := 0.
Definition MMPDU_AUTH_ALGO_SHARED_KEY : Z := 1.
Definition MMPDU_AUTH_ALGO_FT : Z := 2.
Definition MMPDU_AUTH_ALGO_SAE : Z := 3.
Definition MMPDU_AUTH_ALGO_FILS_SK : Z := 4.
Definition MMPDU_AUTH_ALGO_FILS_SK_PFS : Z := 5.

(** The elements each subtype knows. *)
Definition assoc_request_order : list Z :=
  [IE_TYPE_SSID; IE_TYPE_SUPPORTED_RATES; IE_TYPE_EXTENDED_SUPPORTED_RATES;
   IE_TYPE_POWER_CAPABILITY; IE_TYPE_SUPPORTED_CHANNELS; IE_TYPE_RSN; IE_TYPE_QOS_CAPABILITY;
   IE_TYPE_RM_ENABLED_CAPABILITIES; IE_TYPE_MOBILITY_DOMAIN;
   IE_TYPE_SUPPORTED_OPERATING_CLASSES; IE_TYPE_HT_CAPABILITIES; IE_TYPE_BSS_COEXISTENCE;
   IE_TYPE_EXTENDED_CAPABILITIES; IE_TYPE_QOS_TRAFFIC_CAPABILITY;
   IE_TYPE_TIM_BROADCAST_REQUEST; IE_TYPE_INTERWORKING; IE_TYPE_VENDOR_SPECIFIC].
Definition assoc_response_order : list Z :=
  [IE_TYPE_SUPPORTED_RATES; IE_TYPE_EXTENDED_SUPPORTED_RATES; IE_TYPE_EDCA_PARAMETER_SET;
   IE_TYPE_RCPI; IE_TYPE_RSNI; IE_TYPE_RM_ENABLED_CAPABILITIES; IE_TYPE_MOBILITY_DOMAIN;
   IE_TYPE_FAST_BSS_TRANSITION; IE_TYPE_DSE_REGISTERED_LOCATION; IE_TYPE_TIMEOUT_INTERVAL;
   IE_TYPE_HT_CAPABILITIES; IE_TYPE_HT_OPERATION; IE_TYPE_BSS_COEXISTENCE;
   IE_TYPE_OVERLAPPING_BSS_SCAN_PARAMETERS; IE_TYPE_EXTENDED_CAPABILITIES;
   IE_TYPE_BSS_MAX_IDLE_PERIOD; IE_TYPE_TIM_BROADCAST_RESPONSE; IE_TYPE_QOS_MAP_SET;
   IE_TYPE_VENDOR_SPECIFIC].
Definition reassoc_request_order : list Z :=
  [IE_TYPE_SSID; IE_TYPE_SUPPORTED_RATES; IE_TYPE_EXTENDED_SUPPORTED_RATES;
   IE_TYPE_POWER_CAPABILITY; IE_TYPE_SUPPORTED_CHANNELS; IE_TYPE_RSN; IE_TYPE_QOS_CAPABILITY;
   IE_TYPE_RM_ENABLED_CAPABILITIES; IE_TYPE_MOBILITY_DOMAIN; IE_TYPE_FAST_BSS_TRANSITION;
   IE_TYPE_RIC_DATA; IE_TYPE_SUPPORTED_OPERATING_CLASSES; IE_TYPE_HT_CAPABILITIES;
   IE_TYPE_BSS_COEXISTENCE; IE_TYPE_EXTENDED_CAPABILITIES; IE_TYPE_QOS_TRAFFIC_CAPABILITY;
   IE_TYPE_TIM_BROADCAST_REQUEST; IE_TYPE_FMS_REQUEST; IE_TYPE_DMS_REQUEST;
   IE_TYPE_INTERWORKING; IE_TYPE_VENDOR_SPECIFIC].
Definition reassoc_response_order : list Z :=
  [IE_TYPE_SUPPORTED_RATES; IE_TYPE_EXTENDED_SUPPORTED_RATES; IE_TYPE_EDCA_PARAMETER_SET;
   IE_TYPE_RCPI; IE_TYPE_RSNI; IE_TYPE_RM_ENABLED_CAPABILITIES; IE_TYPE_RSN;
   IE_TYPE_MOBILITY_DOMAIN; IE_TYPE_FAST_BSS_TRANSITION; IE_TYPE_RIC_DATA;
   IE_TYPE_DSE_REGISTERED_LOCATION; IE_TYPE_TIMEOUT_INTERVAL; IE_TYPE_HT_CAPABILITIES;
   IE_TYPE_HT_OPERATION; IE_TYPE_BSS_COEXISTENCE; IE_TYPE_OVERLAPPING_BSS_SCAN_PARAMETERS;
   IE_TYPE_EXTENDED_CAPABILITIES; IE_TYPE_BSS_MAX_IDLE_PERIOD; IE_TYPE_TIM_BROADCAST_RESPONSE;
   IE_TYPE_FMS_RESPONSE; IE_TYPE_DMS_RESPONSE; IE_TYPE_QOS_MAP_SET; IE_TYPE_VENDOR_SPECIFIC].
Definition probe_request_order : list Z :=
  [IE_TYPE_SSID; IE_TYPE_SUPPORTED_RATES; IE_TYPE_REQUEST; IE_TYPE_EXTENDED_SUPPORTED_RATES;
   IE_TYPE_DSSS_PARAMETER_SET; IE_TYPE_SUPPORTED_OPERATING_CLASSES; IE_TYPE_HT_CAPABILITIES;
   IE_TYPE_BSS_COEXISTENCE; IE_TYPE_EXTENDED_CAPABILITIES; IE_TYPE_SSID_LIST;
   IE_TYPE_CHANNEL_USAGE; IE_TYPE_INTERWORKING; IE_TYPE_MESH_ID; IE_TYPE_MULTIBAND;
   IE_TYPE_DMG_CAPABILITIES; IE_TYPE_MULTIPLE_MAC_SUBLAYERS; IE_TYPE_VHT_CAPABILITIES;
   IE_TYPE_ESTIMATED_SERVICE_PARAMETERS; IE_TYPE_EXTENDED_REQUEST; IE_TYPE_VENDOR_SPECIFIC].
Definition timing_advertisement_order : list Z :=
  [IE_TYPE_COUNTRY; IE_TYPE_POWER_CONSTRAINT; IE_TYPE_TIME_ADVERTISEMENT;
   IE_TYPE_EXTENDED_CAPABILITIES; IE_TYPE_VENDOR_SPECIFIC].
Definition beacon_order : list Z :=
  [IE_TYPE_SSID; IE_TYPE_SUPPORTED_RATES; IE_TYPE_DSSS_PARAMETER_SET; IE_TYPE_CF_PARAMETER_SET;
   IE_TYPE_IBSS_PARAMETER_SET; IE_TYPE_TIM; IE_TYPE_COUNTRY; IE_TYPE_POWER_CONSTRAINT;
   IE_TYPE_CHANNEL_SWITCH_ANNOUNCEMENT; IE_TYPE_QUIET; IE_TYPE_IBSS_DFS; IE_TYPE_TPC_REPORT;
   IE_TYPE_ERP; IE_TYPE_EXTENDED_SUPPORTED_RATES; IE_TYPE_RSN; IE_TYPE_BSS_LOAD;
   IE_TYPE_EDCA_PARAMETER_SET; IE_TYPE_QOS_CAPABILITY; IE_TYPE_AP_CHANNEL_REPORT;
   IE_TYPE_BSS_AVERAGE_ACCESS_DELAY; IE_TYPE_ANTENNA; IE_TYPE_BSS_AVAILABLE_ADMISSION_CAPACITY;
   IE_TYPE_BSS_AC_ACCESS_DELAY; IE_TYPE_MEASUREMENT_PILOT_TRANSMISSION; IE_TYPE_MULTIPLE_BSSID;
   IE_TYPE_RM_ENABLED_CAPABILITIES; IE_TYPE_MOBILITY_DOMAIN; IE_TYPE_DSE_REGISTERED_LOCATION;
   IE_TYPE_EXTENDED_CHANNEL_SWITCH_ANNOUNCEMENT; IE_TYPE_SUPPORTED_OPERATING_CLASSES;
   IE_TYPE_HT_CAPABILITIES; IE_TYPE_HT_OPERATION; IE_TYPE_BSS_COEXISTENCE;
   IE_TYPE_OVERLAPPING_BSS_SCAN_PARAMETERS; IE_TYPE_EXTENDED_CAPABILITIES;
   IE_TYPE_FMS_DESCRIPTOR; IE_TYPE_QOS_TRAFFIC_CAPABILITY; IE_TYPE_TIME_ADVERTISEMENT;
   IE_TYPE_INTERWORKING; IE_TYPE_ADVERTISEMENT_PROTOCOL; IE_TYPE_ROAMING_CONSORTIUM;
   IE_TYPE_EMERGENCY_ALERT_IDENTIFIER; IE_TYPE_MESH_ID; IE_TYPE_MESH_CONFIGURATION;
   IE_TYPE_MESH_AWAKE_WINDOW; IE_TYPE_BEACON_TIMING; IE_TYPE_MCCAOP_ADVERTISEMENT_OVERVIEW;
   IE_TYPE_MCCAOP_ADVERTISEMENT; IE_TYPE_MESH_CHANNEL_SWITCH_PARAMETERS; IE_TYPE_QMF_POLICY;
   IE_TYPE_QLOAD_REPORT; IE_TYPE_HCCA_TXOP_UPDATE_COUNT; IE_TYPE_MULTIBAND;
   IE_TYPE_VHT_CAPABILITIES; IE_TYPE_VHT_OPERATION; IE_TYPE_TRANSMIT_POWER_ENVELOPE;
   IE_TYPE_CHANNEL_SWITCH_WRAPPER; IE_TYPE_EXTENDED_BSS_LOAD; IE_TYPE_QUIET_CHANNEL;
   IE_TYPE_OPERATING_MODE_NOTIFICATION; IE_TYPE_REDUCED_NEIGHBOR_REPORT;
   IE_TYPE_TVHT_OPERATION; IE_TYPE_ESTIMATED_SERVICE_PARAMETERS;
   IE_TYPE_FUTURE_CHANNEL_GUIDANCE; IE_TYPE_VENDOR_SPECIFIC].
Definition auth_shared_key_order : list Z :=
  [IE_TYPE_CHALLENGE_TEXT; IE_TYPE_MULTIBAND; IE_TYPE_VENDOR_SPECIFIC].
Definition auth_ft_order : list Z :=
  [IE_TYPE_RSN; IE_TYPE_MOBILITY_DOMAIN; IE_TYPE_FAST_BSS_TRANSITION; IE_TYPE_TIMEOUT_INTERVAL;
   IE_TYPE_RIC_DATA; IE_TYPE_FAST_BSS_TRANSITION; IE_TYPE_MULTIBAND; IE_TYPE_VENDOR_SPECIFIC].
Definition auth_error_order : list Z :=
  [IE_TYPE_NEIGHBOR_REPORT; IE_TYPE_VENDOR_SPECIFIC].
Definition auth_fils_order : list Z :=
  [IE_TYPE_FILS_SESSION; IE_TYPE_FILS_WRAPPED_DATA].

(** ** The header

    The fields of [struct mpdu_fc] in the layout of [__LITTLE_ENDIAN_BITFIELD]. *)

Definition fc_type (frame : ptr) : res Z := b ← rd frame 0; Ok (bit_field b 2 2).
Definition fc_subtype (frame : ptr) : res Z := b ← rd frame 0; Ok (bit_field b 4 4).
Definition fc_order (frame : ptr) : res bool := b ← rd frame 1; Ok (Z.testbit b 7).

(** The new offset, [None] for [false]. *)
Definition validate_mgmt_header (mpdu : ptr) (len offset : Z) : res (option Z) :=
  if len <? offset + 22 then Ok None
  else
    let offset := offset + 22 in
    order ← fc_order mpdu;
    if negb order then Ok (Some offset)
    else if len <? offset + 4 then Ok None
    else Ok (Some (offset + 4)).

(** ** The elements *)

Definition ric_tags : list Z :=
  [IE_TYPE_TSPEC; IE_TYPE_TCLAS; IE_TYPE_TCLAS_PROCESSING; IE_TYPE_EXPEDITED_BANDWIDTH_REQUEST;
   IE_TYPE_SCHEDULE; IE_TYPE_TS_DELAY; IE_TYPE_RIC_DESCRIPTOR; IE_TYPE_VENDOR_SPECIFIC].

(** The tags that may appear more than once. *)
Definition repeatable_tags : list Z :=
  [IE_TYPE_VENDOR_SPECIFIC; IE_TYPE_RIC_DATA; IE_TYPE_TRANSMIT_POWER_ENVELOPE;
   IE_TYPE_MCCAOP_ADVERTISEMENT; IE_TYPE_EMERGENCY_ALERT_IDENTIFIER; IE_TYPE_MULTIPLE_BSSID;
   IE_TYPE_NEIGHBOR_REPORT; IE_TYPE_QUIET_CHANNEL].

Definition mem (tag : Z) (l : list Z) : bool := existsb (Z.eqb tag) l.

(** The iterator after the descriptors; the function always returns [true]. *)
Fixpoint skip_resource_req_resp (fuel : nat) (iter : ie_tlv_iter) : res ie_tlv_iter :=
  match fuel with
  | O => Diverge
  | S fuel' =>
      r ← ie_tlv_iter_next iter;
      match r with
      | None => Ok iter
      | Some tmp => if mem (it_tag tmp) ric_tags then skip_resource_req_resp fuel' tmp else Ok iter
      end
  end.

(** The loop over the clone of the iterator: whether [tag] comes again. *)
Fixpoint tag_follows (fuel : nat) (tag : Z) (clone : ie_tlv_iter) : res bool :=
  match fuel with
  | O => Diverge
  | S fuel' =>
      r ← ie_tlv_iter_next clone;
      match r with
      | None => Ok false
      | Some clone => if it_tag clone =? tag then Ok true else tag_follows fuel' tag clone
      end
  end.

Fixpoint validate_ies_loop (fuel : nat) (tag_order : list Z) (iter : ie_tlv_iter) : res bool :=
  match fuel with
  | O => Diverge
  | S fuel' =>
      r ← ie_tlv_iter_next iter;
      match r with
      | None => Ok true
      | Some iter =>
          let tag := it_tag iter in
          if negb (mem tag tag_order) then validate_ies_loop fuel' tag_order iter
          else
            dup ← (if negb (mem tag repeatable_tags) then tag_follows fuel' tag iter else Ok false);
            if (dup : bool) then Ok false
            else
              iter ← (if tag =? IE_TYPE_RIC_DATA then skip_resource_req_resp fuel' iter else Ok iter);
              validate_ies_loop fuel' tag_order iter
      end
  end.

Definition validate_mgmt_ies (ies : ptr) (ies_len : Z) (tag_order : list Z) : res bool :=
  validate_ies_loop (tlv_fuel ies_len) tag_order (ie_tlv_iter_init ies ies_len).

(** ** The subtypes

    The check they share: [size] bytes of fixed fields at [offset], then the elements. *)

Definition validate_fixed_and_ies (size : Z) (order : list Z) (mpdu : ptr) (len offset : Z) : res bool :=
  if len <? offset + size then Ok false
  else validate_mgmt_ies (mpdu +! (offset + size)) (len - (offset + size)) order.

(** [sizeof] of the packed structures; the timestamps are declared as one byte. *)
Definition validate_association_request_mmpdu := validate_fixed_and_ies 4 assoc_request_order.
Definition validate_association_response_mmpdu := validate_fixed_and_ies 6 assoc_response_order.
Definition validate_reassociation_request_mmpdu := validate_fixed_and_ies 10 reassoc_request_order.
Definition validate_reassociation_response_mmpdu := validate_fixed_and_ies 6 reassoc_response_order.
Definition validate_probe_request_mmpdu := validate_fixed_and_ies 0 probe_request_order.
Definition validate_probe_response_mmpdu (mpdu : ptr) (len offset : Z) : res bool := Ok true.
Definition validate_timing_advertisement_mmpdu := validate_fixed_and_ies 3 timing_advertisement_order.
Definition validate_beacon_mmpdu := validate_fixed_and_ies 5 beacon_order.
Definition validate_atim_mmpdu (mpdu : ptr) (len offset : Z) : res bool := Ok (offset =? len).
Definition validate_disassociation_mmpdu (mpdu : ptr) (len offset : Z) : res bool :=
  Ok (offset + 2 <=? len).
Definition validate_deauthentication_mmpdu (mpdu : ptr) (len offset : Z) : res bool :=
  Ok (offset + 2 <=? len).

Definition validate_authentication_mmpdu (mpdu : ptr) (len offset : Z) : res bool :=
  let body := mpdu +! offset in
  if len <? offset + 6 then Ok false
  else
    let offset := offset + 6 in
    let ies order := validate_mgmt_ies (body +! 6) (len - offset) order in
    status ← l_get_le16 (body +! 4);
    if negb (status =? 0) then ies auth_error_order
    else
      algorithm ← l_get_le16 body;
      if algorithm =? MMPDU_AUTH_ALGO_OPEN_SYSTEM then Ok (offset <=? len)
      else if algorithm =? MMPDU_AUTH_ALGO_SHARED_KEY then
        transaction_sequence ← l_get_le16 (body +! 2);
        if (transaction_sequence <? 2) || (3 <? transaction_sequence) then Ok (offset <=? len)
        else ies auth_shared_key_order
      else if algorithm =? MMPDU_AUTH_ALGO_FT then ies auth_ft_order
      else if algorithm =? MMPDU_AUTH_ALGO_SAE then Ok (offset <=? len)
      else if (algorithm =? MMPDU_AUTH_ALGO_FILS_SK) || (algorithm =? MMPDU_AUTH_ALGO_FILS_SK_PFS)
      then ies auth_fils_order
      else Ok false.

Definition validate_mgmt_mpdu (mpdu : ptr) (len offset : Z) : res bool :=
  h ← validate_mgmt_header mpdu len offset;
  match h with
  | None => Ok false
  | Some offset =>
      st ← fc_subtype mpdu;
      if st =? MPDU_MANAGEMENT_SUBTYPE_ASSOCIATION_REQUEST then
        validate_association_request_mmpdu mpdu len offset
      else if st =? MPDU_MANAGEMENT_SUBTYPE_ASSOCIATION_RESPONSE then
        validate_association_response_mmpdu mpdu len offset
      else if st =? MPDU_MANAGEMENT_SUBTYPE_REASSOCIATION_REQUEST then
        validate_reassociation_request_mmpdu mpdu len offset
      else if st =? MPDU_MANAGEMENT_SUBTYPE_REASSOCIATION_RESPONSE then
        validate_reassociation_response_mmpdu mpdu len offset
      else if st =? MPDU_MANAGEMENT_SUBTYPE_PROBE_REQUEST then
        validate_probe_request_mmpdu mpdu len offset
      else if st =? MPDU_MANAGEMENT_SUBTYPE_PROBE_RESPONSE then
        validate_probe_response_mmpdu mpdu len offset
      else if st =? MPDU_MANAGEMENT_SUBTYPE_TIMING_ADVERTISEMENT then
        validate_timing_advertisement_mmpdu mpdu len offset
      else if st =? MPDU_MANAGEMENT_SUBTYPE_BEACON then validate_beacon_mmpdu mpdu len offset
      else if st =? MPDU_MANAGEMENT_SUBTYPE_ATIM then validate_atim_mmpdu mpdu len offset
      else if st =? MPDU_MANAGEMENT_SUBTYPE_DISASSOCIATION then
        validate_disassociation_mmpdu mpdu len offset
      else if st =? MPDU_MANAGEMENT_SUBTYPE_AUTHENTICATION then
        validate_authentication_mmpdu mpdu len offset
      else if st =? MPDU_MANAGEMENT_SUBTYPE_DEAUTHENTICATION then
        validate_deauthentication_mmpdu mpdu len offset
      else if (st =? MPDU_MANAGEMENT_SUBTYPE_ACTION) || (st =? MPDU_MANAGEMENT_SUBTYPE_ACTION_NO_ACK)
      then Ok (offset + 1 <=? len)
      else Ok false
  end.

(** The frame itself or NULL. *)
Definition mpdu_validate (frame : option ptr) (len : Z) : res (option ptr) :=
  match frame with
  | None => Ok None
  | Some frame =>
      if len <? 2 then Ok None
      else
        type ← fc_type frame;
        if type =? MPDU_TYPE_MANAGEMENT then
          ok ← validate_mgmt_mpdu frame len 2;
          Ok (if (ok : bool) then Some frame else None)
        else Ok None
  end.

Definition mmpdu_header_len (mmpdu : ptr) : res Z :=
  order ← fc_order mmpdu; Ok (if (order : bool) then 28 else 24).

Definition mmpdu_body (mmpdu : ptr) : res ptr := n ← mmpdu_header_len mmpdu; Ok (mmpdu +! n).

(** ** Reason and status codes *)

Definition MMPDU_REASON_CODE_UNSPECIFIED : Z := 1.
Definition MMPDU_STATUS_CODE_UNSPECIFIED : Z := 1.
Definition MMPDU_STATUS_CODE_ANTI_CLOGGING_TOKEN_REQ : Z := 76.
Definition MMPDU_STATUS_CODE_UNSUPP_FINITE_CYCLIC_GROUP : Z := 77.
Definition MMPDU_STATUS_CODE_INVALID_ELEMENT : Z := 40.

(** ** The checks as functions on the elements *)

(** An iterator before the bytes [bs]. *)
Definition reads_at (it : ie_tlv_iter) (bs tail : list Z) : Prop :=
  bytes_ok bs ∧ 0 ≤ it_pos it ∧ it_max it = it_pos it + zlen bs ∧ it_max it < 2 ^ 32 - 1 ∧
  it_tlv it +! it_pos it = bs ++ tail.

Lemma next_at it bs tail es rest : reads_at it bs tail → elements_of bs es rest →
  match es with
  | [] => ie_tlv_iter_next it = Ok None
  | e :: es' => ∃ it' bs', ie_tlv_iter_next it = Ok (Some it') ∧ it_tag it' = e.1 ∧
      reads_at it' bs' tail ∧ elements_of bs' es' rest ∧ (length bs' < length bs)%nat
  end.
Proof.
  destruct it as [max pos tlv tag len data]. intros (Hok & Hp & Hmax & Hlt & Htlv) Hes. cbn in *.
  destruct (next_spec max pos tlv bs tail tag len data) as [[Hn Hno]|(e & bs' & He & -> & Hn)]; try done.
  - destruct Hes as [|e bs es rest He _]; [done | by destruct (Hno e bs)].
  - inversion Hes as [? Hno|e' bs1 es' rest' He' Hes' Heq]; subst; [by destruct (Hno e bs') |].
    apply tlv_encode_inj in Heq as [-> ->]; [| done..].
    eexists _, bs'. split; [exact Hn |]. split; [done |].
    pose proof (tlv_encode_length e). pose proof (zlen_nonneg e.2).
    apply Forall_app in Hok as [_ Hok]. rewrite zlen_app in Hlt.
    split_and!; [| done |].
    + unfold reads_at, visited; cbn. rewrite zlen_app. split_and!; [done | case_match; lia | lia | lia |].
      rewrite <- padd_padd, Htlv, <- app_assoc by (case_match; lia). by rewrite padd_app.
    + rewrite length_app. unfold zlen in *. case_match; lia.
Qed.

Lemma init_at bs tail : bytes_ok bs → zlen bs < 2 ^ 32 - 1 →
  reads_at (ie_tlv_iter_init (bs ++ tail) (zlen bs)) bs tail.
Proof. intros. unfold reads_at, ie_tlv_iter_init; cbn. by rewrite padd_0. Qed.

Lemma mem_spec tag l : mem tag l = bool_decide (tag ∈ l).
Proof.
  unfold mem. apply eq_true_iff_eq. rewrite existsb_exists, bool_decide_eq_true. split.
  - intros (x & Hx & ->%Z.eqb_eq). by apply list_elem_of_In.
  - intros Hx. exists tag. split; [by apply list_elem_of_In | apply Z.eqb_refl].
Qed.

(** The elements left after the descriptors of a resource request. *)
Fixpoint drop_ric (es : list elem) : list elem :=
  match es with
  | e :: es' => if mem e.1 ric_tags then drop_ric es' else es
  | [] => []
  end.

Lemma drop_ric_length es : (length (drop_ric es) ≤ length es)%nat.
Proof.
  induction es as [|e es IH]; [done |]. cbn [drop_ric]. destruct (mem e.1 ric_tags); cbn [length]; lia.
Qed.

Lemma skip_elements es : ∀ fuel it bs tail rest,
  reads_at it bs tail → elements_of bs es rest → (length bs < fuel)%nat →
  ∃ it' bs', skip_resource_req_resp fuel it = Ok it' ∧ reads_at it' bs' tail ∧
    elements_of bs' (drop_ric es) rest ∧ (length bs' ≤ length bs)%nat.
Proof.
  induction es as [|e es IH]; intros [|fuel] it bs tail rest Hat Hes Hf; try lia;
    pose proof (next_at it bs tail _ rest Hat Hes) as Hn; cbn [skip_resource_req_resp drop_ric].
  - rewrite Hn. by exists it, bs.
  - destruct Hn as (it' & bs' & -> & Ht & Hat' & Hes' & Hl). rewrite bind_ok, Ht.
    destruct (mem e.1 ric_tags); [| by exists it, bs].
    destruct (IH fuel it' bs' tail rest) as (it2 & bs2 & ? & ? & ? & ?); try done; [lia |].
    exists it2, bs2. split_and!; try done. lia.
Qed.

Lemma tag_follows_elements es : ∀ fuel tag it bs tail rest,
  reads_at it bs tail → elements_of bs es rest → (length bs < fuel)%nat →
  tag_follows fuel tag it = Ok (existsb (λ e, e.1 =? tag) es).
Proof.
  induction es as [|e es IH]; intros [|fuel] tag it bs tail rest Hat Hes Hf; try lia;
    pose proof (next_at it bs tail _ rest Hat Hes) as Hn; cbn [tag_follows existsb].
  - by rewrite Hn.
  - destruct Hn as (it' & bs' & -> & Ht & Hat' & Hes' & Hl). rewrite bind_ok, Ht.
    destruct (e.1 =? tag); [done |]. apply (IH fuel tag it' bs' tail rest); try done. lia.
Qed.

(** What [validate_mgmt_ies] decides. *)
Fixpoint ies_ok (n : nat) (order : list Z) (es : list elem) : bool :=
  match n, es with
  | S n', e :: es' =>
      if negb (mem e.1 order) then ies_ok n' order es'
      else if negb (mem e.1 repeatable_tags) && existsb (λ e', e'.1 =? e.1) es' then false
      else ies_ok n' order (if e.1 =? IE_TYPE_RIC_DATA then drop_ric es' else es')
  | _, _ => true
  end.

Lemma validate_loop_elements n : ∀ fuel order it bs tail es rest,
  reads_at it bs tail → elements_of bs es rest → (length bs < fuel)%nat → (length es ≤ n)%nat →
  validate_ies_loop fuel order it = Ok (ies_ok n order es).
Proof.
  induction n as [|n IH]; intros [|fuel] order it bs tail es rest Hat Hes Hf Hn; try lia;
    pose proof (next_at it bs tail _ rest Hat Hes) as Hx; cbn [validate_ies_loop ies_ok].
  - destruct es; [| cbn in Hn; lia]. by rewrite Hx.
  - destruct es as [|e es]; [by rewrite Hx |]. cbn in Hn.
    destruct Hx as (it' & bs' & -> & Ht & Hat' & Hes' & Hl). rewrite bind_ok, Ht.
    destruct (mem e.1 order); cbn [negb]; [| apply (IH fuel order it' bs' tail es rest); done || lia].
    rewrite (tag_follows_elements es fuel e.1 it' bs' tail rest) by (done || lia).
    destruct (mem e.1 repeatable_tags); cbn [negb andb]; rewrite bind_ok;
      [| destruct (existsb (λ e', e'.1 =? e.1) es); [done |]].
    all: destruct (e.1 =? IE_TYPE_RIC_DATA); [| rewrite bind_ok; apply (IH fuel order it' bs' tail es rest); done || lia].
    all: destruct (skip_elements es fuel it' bs' tail rest) as (it2 & bs2 & -> & ? & ? & ?); try done; [lia |].
    all: rewrite bind_ok; apply (IH fuel order it2 bs2 tail (drop_ric es) rest); try done; [lia |].
    all: pose proof (drop_ric_length es); lia.
Qed.

Lemma validate_ies_elements order bs tail es rest :
  bytes_ok bs → zlen bs < 2 ^ 32 - 1 → elements_of bs es rest →
  validate_mgmt_ies (bs ++ tail) (zlen bs) order = Ok (ies_ok (length es) order es).
Proof.
  intros Hok Hl Hes. unfold validate_mgmt_ies.
  apply (validate_loop_elements _ _ _ _ bs tail es rest); [by apply init_at | done | | done].
  unfold tlv_fuel, zlen. lia.
Qed.

(** The tags that have to be unique. *)
Definition unique_tags (order : list Z) (es : list elem) : list Z :=
  filter (λ t, t ∈ order ∧ t ∉ repeatable_tags) (es.*1).

Lemma ies_ok_unique order es : IE_TYPE_RIC_DATA ∉ order →
  ies_ok (length es) order es = bool_decide (NoDup (unique_tags order es)).
Proof.
  intros Hric. unfold unique_tags. induction es as [|e es IH]; [done |]. cbn [ies_ok length fmap list_fmap].
  rewrite filter_cons, !mem_spec. destruct (decide (e.1 ∈ order)) as [Ho|Ho].
  2: { rewrite bool_decide_false, decide_False by tauto. done. }
  rewrite bool_decide_true by done. cbn [negb].
  destruct (Z.eqb_spec e.1 IE_TYPE_RIC_DATA) as [E|_]; [by rewrite E in Ho |].
  destruct (decide (e.1 ∈ repeatable_tags)) as [Hr|Hr].
  { rewrite bool_decide_true, decide_False by tauto. done. }
  rewrite (bool_decide_false (e.1 ∈ _)), decide_True by tauto. cbn [negb andb].
  destruct (existsb (λ e', e'.1 =? e.1) es) eqn:Hex.
  - symmetry. apply bool_decide_false. intros [Hni _]%list.NoDup_cons. apply Hni.
    apply existsb_exists in Hex as (e' & Hin & He%Z.eqb_eq). apply list_elem_of_filter. split; [done |].
    rewrite <- He. apply list_elem_of_fmap. exists e'. split; [done | by apply list_elem_of_In].
  - rewrite IH. apply bool_decide_ext. split; [| by intros [_ ?]%list.NoDup_cons].
    intros Hd. apply list.NoDup_cons. split; [| done]. intros [_ Hin]%list_elem_of_filter.
    apply list_elem_of_fmap in Hin as (e' & He & Hin).
    rewrite <- not_true_iff_false, existsb_exists in Hex. apply Hex. exists e'.
    split; [by apply list_elem_of_In | by apply Z.eqb_eq].
Qed.

(** The elements of a management frame are accepted exactly when no known element that may
    appear once appears twice; unknown elements and the bytes after the last complete one
    are ignored, and nothing behind the frame is read. *)
Theorem validate_mgmt_ies_unique order bs tail es rest :
  bytes_ok bs → zlen bs < 2 ^ 32 - 1 → elements_of bs es rest → IE_TYPE_RIC_DATA ∉ order →
  validate_mgmt_ies (bs ++ tail) (zlen bs) order = Ok (bool_decide (NoDup (unique_tags order es))).
Proof. intros. rewrite <- ies_ok_unique by done. by eapply validate_ies_elements. Qed.

Lemma validate_mgmt_ies_unique_witness :
  validate_mgmt_ies ([0; 1; 65; 1; 1; 130; 99; 0; 99; 0] ++ [7]) 10 assoc_request_order = Ok true.
Proof.
  refine (validate_mgmt_ies_unique assoc_request_order [0; 1; 65; 1; 1; 130; 99; 0; 99; 0] [7]
            [(0, [65]); (1, [130]); (99, []); (99, [])] [] _ _ _ _); try by_eval.
  change [0; 1; 65; 1; 1; 130; 99; 0; 99; 0]
    with (tlv_encode_all [(0, [65]); (1, [130]); (99, []); (99, [])] ++ []).
  apply elements_of_encode; [by_eval |]. apply stops_no_elem. by left.
Defined.

(** ** The frame *)

Lemma validate_ies_returns order bs tail : bytes_ok bs → zlen bs < 2 ^ 32 - 1 →
  ∃ b, validate_mgmt_ies (bs ++ tail) (zlen bs) order = Ok b.
Proof.
  intros Hok Hl. destruct (elements_total bs Hok) as (es & rest & Hes).
  eexists. by eapply validate_ies_elements.
Qed.

(** The fixed fields the validation of a subtype guarantees. *)
Definition fixed_len (st : Z) : Z :=
  if st =? MPDU_MANAGEMENT_SUBTYPE_ASSOCIATION_REQUEST then 4
  else if st =? MPDU_MANAGEMENT_SUBTYPE_ASSOCIATION_RESPONSE then 6
  else if st =? MPDU_MANAGEMENT_SUBTYPE_REASSOCIATION_REQUEST then 10
  else if st =? MPDU_MANAGEMENT_SUBTYPE_REASSOCIATION_RESPONSE then 6
  else if st =? MPDU_MANAGEMENT_SUBTYPE_PROBE_REQUEST then 0
  else if st =? MPDU_MANAGEMENT_SUBTYPE_PROBE_RESPONSE then 0
  else if st =? MPDU_MANAGEMENT_SUBTYPE_TIMING_ADVERTISEMENT then 3
  else if st =? MPDU_MANAGEMENT_SUBTYPE_BEACON then 5
  else if st =? MPDU_MANAGEMENT_SUBTYPE_ATIM then 0
  else if st =? MPDU_MANAGEMENT_SUBTYPE_DISASSOCIATION then 2
  else if st =? MPDU_MANAGEMENT_SUBTYPE_AUTHENTICATION then 6
  else if st =? MPDU_MANAGEMENT_SUBTYPE_DEAUTHENTICATION then 2
  else if (st =? MPDU_MANAGEMENT_SUBTYPE_ACTION) || (st =? MPDU_MANAGEMENT_SUBTYPE_ACTION_NO_ACK)
  then 1 else 0.

Lemma padd_app_l {A} (l k : list A) n : n ≤ zlen l → (l ++ k) +! n = (l +! n) ++ k.
Proof. intros. unfold padd, zlen in *. apply drop_app_le. lia. Qed.

Section frames.
Variables (frame tail : list Z).
Hypothesis (Hok : bytes_ok frame) (Hlt : zlen frame < 2 ^ 31).

Lemma frame_rd i : 0 ≤ i < zlen frame → ∃ v, rd (frame ++ tail) i = Ok v ∧ byte_ok v.
Proof.
  intros Hi. rewrite rd_app_l by done. destruct (rd_in frame i) as (v & -> & Hv); [done |].
  exists v. split; [done |]. by eapply Forall_lookup_1 in Hv.
Qed.

Lemma frame_le16 i : 0 ≤ i → i + 2 ≤ zlen frame → ∃ v, l_get_le16 ((frame ++ tail) +! i) = Ok v.
Proof.
  intros Hi Hl. unfold l_get_le16. rewrite !rd_padd by lia.
  destruct (frame_rd (i + 0)) as (a & -> & _); [lia |]. destruct (frame_rd (i + 1)) as (b & -> & _); [lia |].
  eexists. reflexivity.
Qed.

Lemma frame_ies order off : 0 ≤ off ≤ zlen frame →
  ∃ b, validate_mgmt_ies ((frame ++ tail) +! off) (zlen frame - off) order = Ok b.
Proof.
  intros Ho. rewrite padd_app_l by lia. rewrite <- (zlen_padd frame off) by lia.
  apply validate_ies_returns; [by auto with iwd | rewrite zlen_padd; lia].
Qed.

Lemma fixed_and_ies_ok size order off : 0 ≤ size → 0 ≤ off ≤ zlen frame →
  ∃ b, validate_fixed_and_ies size order (frame ++ tail) (zlen frame) off = Ok b ∧
    (b = true → off + size ≤ zlen frame).
Proof.
  intros Hs Ho. unfold validate_fixed_and_ies. destruct (Z.ltb_spec (zlen frame) (off + size)).
  - by exists false.
  - destruct (frame_ies order (off + size)) as (b & ->); [lia |]. by exists b.
Qed.

Lemma validate_auth_ok off : 0 ≤ off ≤ zlen frame →
  ∃ b, validate_authentication_mmpdu (frame ++ tail) (zlen frame) off = Ok b ∧
    (b = true → off + 6 ≤ zlen frame).
Proof.
  intros Ho. unfold validate_authentication_mmpdu. destruct (Z.ltb_spec (zlen frame) (off + 6)); [by exists false |].
  rewrite !padd_padd by lia.
  destruct (frame_le16 (off + 4)) as (status & ->); [lia..|].
  destruct (frame_le16 off) as (alg & ->); [lia..|]. destruct (frame_le16 (off + 2)) as (tr & ->); [lia..|].
  assert (Hies : ∀ order, ∃ b, validate_mgmt_ies ((frame ++ tail) +! (off + 6)) (zlen frame - (off + 6)) order = Ok b)
    by (intros order; apply frame_ies; lia).
  rewrite !bind_ok. repeat case_match; try (by eexists);
    match goal with |- context [validate_mgmt_ies _ _ ?o] => destruct (Hies o) as (b & ->) end; by eexists.
Qed.

Lemma validate_header_ok : 2 ≤ zlen frame →
  ∃ h r, validate_mgmt_header (frame ++ tail) (zlen frame) 2 = Ok r ∧
    mmpdu_header_len (frame ++ tail) = Ok h ∧ (∀ off, r = Some off → off = h ∧ 24 ≤ h ≤ zlen frame).
Proof.
  intros H2. unfold validate_mgmt_header, mmpdu_header_len, fc_order.
  destruct (frame_rd 1) as (b & -> & _); [lia |]. rewrite bind_ok.
  change (2 + 22) with 24. change (24 + 4) with 28. rewrite bind_ok.
  destruct (Z.ltb_spec (zlen frame) 24); [by eexists _, _ |].
  destruct (Z.testbit b 7); rewrite bind_ok; cbn [negb].
  - destruct (Z.ltb_spec (zlen frame) 28); eexists _, _; (split; [done |]; split; [done |]); intros off E;
      simplify_eq. split; [done | lia].
  - eexists _, _. split; [done |]. split; [done |]. intros off E. simplify_eq. split; [done | lia].
Qed.

Lemma validate_mpdu_ok : 2 ≤ zlen frame →
  ∃ h st b, mmpdu_header_len (frame ++ tail) = Ok h ∧ fc_subtype (frame ++ tail) = Ok st ∧
    validate_mgmt_mpdu (frame ++ tail) (zlen frame) 2 = Ok b ∧
    (b = true → 24 ≤ h ∧ h + fixed_len st ≤ zlen frame).
Proof.
  intros H2. destruct (validate_header_ok H2) as (h & r & Hr & Hh & Hoff).
  destruct (frame_rd 0) as (b0 & Hb0 & _); [lia |].
  assert (Hst : fc_subtype (frame ++ tail) = Ok (bit_field b0 4 4)) by (unfold fc_subtype; by rewrite Hb0).
  set (st := bit_field b0 4 4) in *. exists h, st. unfold validate_mgmt_mpdu. rewrite Hr, bind_ok.
  destruct r as [off|]; [| by exists false]. destruct (Hoff off eq_refl) as [-> Hh24].
  rewrite Hst, bind_ok. unfold fixed_len.
  unfold validate_association_request_mmpdu, validate_association_response_mmpdu,
    validate_reassociation_request_mmpdu, validate_reassociation_response_mmpdu,
    validate_probe_request_mmpdu, validate_timing_advertisement_mmpdu, validate_beacon_mmpdu.
  repeat match goal with
  | |- context [if ?b then _ else _] =>
      lazymatch b with
      | _ =? _ => destruct b
      | _ || _ => destruct b
      end
  end;
  first [ match goal with |- context [validate_fixed_and_ies ?s ?o] =>
            destruct (fixed_and_ies_ok s o h) as (b & -> & Hb); [lia | lia |] end;
          exists b; split_and!; try done; intros; split; [lia | by apply Hb]
        | match goal with |- context [validate_authentication_mmpdu] =>
            destruct (validate_auth_ok h) as (b & -> & Hb); [lia |] end;
          exists b; split_and!; try done; intros; split; [lia | by apply Hb]
        | eexists; split_and!; [done.. |]; intros; lia ].
Qed.
End frames.

Lemma mpdu_validate_cases frame tail :
  bytes_ok frame → zlen frame < 2 ^ 31 →
  ∃ r, mpdu_validate (Some (frame ++ tail)) (zlen frame) = Ok r ∧
    (∀ p, r = Some p → p = frame ++ tail ∧
       ∃ h st, mmpdu_header_len p = Ok h ∧ fc_subtype p = Ok st ∧ 24 ≤ h ∧ h + fixed_len st ≤ zlen frame).
Proof.
  intros Hok Hlt. unfold mpdu_validate. destruct (Z.ltb_spec (zlen frame) 2); [by exists None |].
  destruct (validate_mpdu_ok frame tail Hok Hlt) as (h & st & b & Hh & Hst & Hv & Hb); [done |].
  unfold fc_type. destruct (frame_rd frame tail Hok 0) as (b0 & -> & _); [lia |]. rewrite !bind_ok.
  destruct (_ =? MPDU_TYPE_MANAGEMENT); [| by exists None]. rewrite Hv, bind_ok.
  destruct b; [| by exists None]. exists (Some (frame ++ tail)). split; [done |].
  intros p [= <-]. split; [done |]. exists h, st. destruct (Hb eq_refl). by split_and!.
Qed.

(** [mpdu_validate] on any received frame returns without reading behind it, and a frame it
    accepts holds the whole header and the fixed fields of its subtype, so that reading
    [mmpdu_body] of it as that subtype's structure stays inside the frame. *)
Theorem mpdu_validate_safe frame tail :
  bytes_ok frame → zlen frame < 2 ^ 31 →
  ∃ r, mpdu_validate (Some (frame ++ tail)) (zlen frame) = Ok r ∧
    (∀ p, r = Some p → p = frame ++ tail ∧
       ∃ h st, mmpdu_header_len p = Ok h ∧ fc_subtype p = Ok st ∧ 24 ≤ h ∧ h + fixed_len st ≤ zlen frame).
Proof. apply mpdu_validate_cases. Qed.

Lemma mpdu_validate_safe_witness :
  let frame := [0xb0; 0] ++ replicate 22 0 ++ [3; 0; 1; 0; 0; 0; 19; 0] in
  ∃ r, mpdu_validate (Some (frame ++ [])) (zlen frame) = Ok r ∧
    (∀ p, r = Some p → p = frame ++ [] ∧
       ∃ h st, mmpdu_header_len p = Ok h ∧ fc_subtype p = Ok st ∧ 24 ≤ h ∧ h + fixed_len st ≤ zlen frame).
Proof. apply mpdu_validate_safe; by_eval. Defined.

(** Elements that start with an SSID element followed by another one. *)
Lemma two_ssids_refused order l n : IE_TYPE_RIC_DATA ∉ order → 0 ∈ order →
  bytes_ok l → 0 ≤ n < 256 → n ≤ zlen l → zlen l < 2 ^ 31 →
  validate_mgmt_ies ([0; 0; 0; n] ++ l) (4 + zlen l) order = Ok false.
Proof.
  intros Hric Hssid Hl Hn Hnl Hlt. destruct (elements_total (l +! n)) as (es & rest & Hes); [auto with iwd |].
  assert (Hall : elements_of ([0; 0; 0; n] ++ l) ((0, []) :: (0, ptake l n) :: es) rest).
  { assert ([0; 0; 0; n] ++ l = tlv_encode (0, []) ++ tlv_encode (0, ptake l n) ++ (l +! n)) as ->.
    { cbn [tlv_encode Z.ltb Z.compare app]. rewrite zlen_ptake, ptake_padd_id by lia. done. }
    constructor; [by_eval |]. constructor; [| done]. split; [auto with iwd |]. left. rewrite zlen_ptake; lia. }
  replace (4 + zlen l) with (zlen ([0; 0; 0; n] ++ l)) by (rewrite zlen_app; done).
  rewrite <- (app_nil_r ([0; 0; 0; n] ++ l)) at 1.
  erewrite (validate_ies_elements order ([0; 0; 0; n] ++ l) []);
    [| | rewrite zlen_app; change (zlen [0; 0; 0; n]) with 4; lia | exact Hall].
  - cbn [ies_ok length fst]. by rewrite !mem_spec, bool_decide_true.
  - apply Forall_app. split; [repeat constructor; unfold byte_ok; lia | done].
Qed.

(** The timestamp of a beacon is 8 bytes long, but [struct mmpdu_beacon] declares it as one:
    the elements are looked for 7 bytes too early.  A beacon with the usual interval of 100 TU
    and a time stamp below 2^40 us is refused as soon as 97 bytes of elements follow: the end
    of its timestamp and the interval are read as two SSID elements. *)
Theorem mpdu_beacon_refused hdr ts caps ies :
  bytes_ok (caps ++ ies) → zlen hdr = 22 → zlen ts = 5 → zlen caps = 2 → 97 ≤ zlen ies < 2 ^ 16 →
  let frame := [0x80; 0] ++ hdr ++ (ts ++ [0; 0; 0]) ++ [100; 0] ++ caps ++ ies in
  mpdu_validate (Some frame) (zlen frame) = Ok None.
Proof.
  intros Hok Hh Ht Hc Hi frame. set (l := 0 :: caps ++ ies).
  assert (Hl : zlen l = 3 + zlen ies) by (unfold l; rewrite zlen_cons, zlen_app; lia).
  assert (Hsplit : frame = ([0x80; 0] ++ hdr ++ ts) ++ [0; 0; 0; 100] ++ l)
    by (unfold frame, l; rewrite <- !app_assoc; done).
  assert (Hpre : zlen ([0x80; 0] ++ hdr ++ ts) = 29) by (rewrite !zlen_app, Hh, Ht; done).
  assert (Hlen : zlen frame = 33 + zlen l).
  { rewrite Hsplit, zlen_app, Hpre, zlen_app. change (zlen [0; 0; 0; 100]) with 4. lia. }
  assert (Hv : validate_beacon_mmpdu frame (zlen frame) 24 = Ok false).
  { unfold validate_beacon_mmpdu, validate_fixed_and_ies. change (24 + 5) with 29.
    destruct (Z.ltb_spec (zlen frame) 29); [lia |].
    rewrite Hsplit at 1. rewrite padd_app by done.
    replace (zlen frame - 29) with (4 + zlen l) by lia.
    apply two_ssids_refused; [by_eval | by_eval | | lia..]. constructor; [by_eval | done]. }
  unfold mpdu_validate. destruct (Z.ltb_spec (zlen frame) 2); [lia |].
  change (fc_type frame) with (@Ok Z 0). rewrite bind_ok. cbn [Z.eqb MPDU_TYPE_MANAGEMENT].
  unfold validate_mgmt_mpdu, validate_mgmt_header. change (fc_order frame) with (@Ok bool false).
  change (fc_subtype frame) with (@Ok Z 8).
  change (2 + 22) with 24. destruct (Z.ltb_spec (zlen frame) 24); [lia |]. rewrite !bind_ok. cbn [negb].
  rewrite !bind_ok.
  unfold MPDU_MANAGEMENT_SUBTYPE_ASSOCIATION_REQUEST, MPDU_MANAGEMENT_SUBTYPE_ASSOCIATION_RESPONSE,
    MPDU_MANAGEMENT_SUBTYPE_REASSOCIATION_REQUEST, MPDU_MANAGEMENT_SUBTYPE_REASSOCIATION_RESPONSE,
    MPDU_MANAGEMENT_SUBTYPE_PROBE_REQUEST, MPDU_MANAGEMENT_SUBTYPE_PROBE_RESPONSE,
    MPDU_MANAGEMENT_SUBTYPE_TIMING_ADVERTISEMENT, MPDU_MANAGEMENT_SUBTYPE_BEACON.
  cbn [Z.eqb Pos.eqb]. by rewrite Hv.
Qed.

Lemma mpdu_beacon_refused_witness :
  let frame := [0x80; 0] ++ replicate 22 1 ++ ([1; 2; 3; 4; 5] ++ [0; 0; 0]) ++ [100; 0] ++ [1; 0]
                 ++ [0; 4; 105; 119; 100; 49; 1; 1; 130] ++ [221; 86] ++ replicate 86 7 in
  mpdu_validate (Some frame) (zlen frame) = Ok None.
Proof.
  refine (mpdu_beacon_refused (replicate 22 1) [1; 2; 3; 4; 5] [1; 0]
            ([0; 4; 105; 119; 100; 49; 1; 1; 130] ++ [221; 86] ++ replicate 86 7) _ _ _ _ _); by_eval.
Defined.

(** ** Association responses *)

Definition is_assoc_response (f : list Z) : Prop :=
  fc_subtype f = Ok MPDU_MANAGEMENT_SUBTYPE_ASSOCIATION_RESPONSE ∨
  fc_subtype f = Ok MPDU_MANAGEMENT_SUBTYPE_REASSOCIATION_RESPONSE.

(** The elements and the status of a (re)association response. *)
Definition response_elements (f : list Z) (es : list elem) : Prop :=
  ∃ h rest, mmpdu_header_len f = Ok h ∧ elements_of (f +! (h + 6)) es rest.

Definition assoc_status (f : list Z) : res Z := b ← mmpdu_body f; l_get_le16 (b +! 2).

(** A received response is refused, or its fixed fields and elements lie inside the frame. *)
Lemma assoc_response_cases f : bytes_ok f → zlen f < 2 ^ 31 → is_assoc_response f →
  mpdu_validate (Some f) (zlen f) = Ok None ∨
  (mpdu_validate (Some f) (zlen f) = Ok (Some f) ∧
   ∃ h status, mmpdu_header_len f = Ok h ∧ mmpdu_body f = Ok (f +! h) ∧
     l_get_le16 (f +! h +! 2) = Ok status ∧ 0 ≤ status < 65536 ∧ f +! h +! 6 = f +! (h + 6) ∧
     u32 (zlen f - (h + 6)) = zlen (f +! (h + 6)) ∧ zlen (f +! (h + 6)) < 2 ^ 31 ∧ bytes_ok (f +! (h + 6))).
Proof.
  intros Hf Hlt Hst. destruct (mpdu_validate_cases f [] Hf Hlt) as (hdr & Hv & Hh). rewrite app_nil_r in *.
  destruct hdr as [p|]; [right | by left]. destruct (Hh p eq_refl) as (-> & h & st & Hlen & Hst' & Hh24 & Hfix).
  split; [done |].
  assert (Hfix' : h + 6 ≤ zlen f) by (destruct Hst as [Hst|Hst]; rewrite Hst in Hst'; injection Hst' as <-; exact Hfix).
  destruct (l_get_le16_in (f +! h +! 2)) as [status Hs]; [rewrite !zlen_padd; rewrite ?zlen_padd; lia |].
  assert (Hl : zlen (f +! (h + 6)) = zlen f - (h + 6)) by (apply zlen_padd; lia).
  exists h, status. split_and!; try done; try lia.
  - unfold mmpdu_body. by rewrite Hlen.
  - apply l_get_le16_range in Hs; [lia | by auto with iwd].
  - apply l_get_le16_range in Hs; [lia | by auto with iwd].
  - apply padd_padd; lia.
  - rewrite u32_small by lia. done.
  - by auto with iwd.
Qed.
