(* ===== verification/Ecc.v ===== *)
(** * Elliptic curves as the authentication protocols use them

    The interface of ell's ecc.h: scalars are numbers tagged with their curve, the arithmetic
    of points is abstract and comes with the laws of a cyclic group.  [be_bytes] and [be_val]
    are the big-endian encodings of the scalars and coordinates. *)

From stdpp Require Import base numbers list option.
From Stdlib Require Import ZArith Lia.
From S2P Require Import Prelude.

Open Scope Z_scope.

(** ** Big-endian numbers *)

Fixpoint be_bytes (n : nat) (v : Z) : list Z :=
  match n with O => [] | S n' => be_bytes n' (v / 256) ++ [u8 v] end.

Definition be_val (l : list Z) : Z := foldl (λ a b, a * 256 + b) 0 l.

Lemma be_bytes_length n v : length (be_bytes n v) = n.
Proof. revert v. induction n as [|n IH]; intros v; [done |]. cbn. rewrite length_app, IH. cbn. lia. Qed.

Lemma be_bytes_zlen n v : 0 ≤ n → zlen (be_bytes (Z.to_nat n) v) = n.
Proof. intros. unfold zlen. rewrite be_bytes_length. lia. Qed.

Lemma be_bytes_ok n v : bytes_ok (be_bytes n v).
Proof.
  revert v. induction n as [|n IH]; intros v; cbn; [constructor |].
  apply Forall_app. split; [apply IH |]. constructor; [apply u8_range | constructor].
Qed.

Lemma be_val_bytes n v : be_val (be_bytes n v) = v mod 256 ^ Z.of_nat n.
Proof.
  revert v. induction n as [|n IH]; intros v; cbn [be_bytes]; [symmetry; apply Z.mod_1_r |].
  unfold be_val in *. rewrite foldl_app. cbn [foldl]. rewrite IH. unfold u8.
  replace (Z.of_nat (S n)) with (1 + Z.of_nat n) by lia.
  rewrite Z.pow_add_r, Z.pow_1_r by lia. change (2 ^ 8) with 256.
  rewrite (Z.rem_mul_r v 256) by lia. lia.
Qed.

Lemma be_val_snoc l b : be_val (l ++ [b]) = be_val l * 256 + b.
Proof. unfold be_val. by rewrite foldl_app. Qed.

Lemma be_val_cons x l : be_val (x :: l) = x * 256 ^ zlen l + be_val l.
Proof.
  induction l as [|b l IH] using rev_ind; [unfold be_val; cbn [foldl]; change (zlen []) with 0; lia |].
  rewrite app_comm_cons, !be_val_snoc, IH, zlen_app. change (zlen [b]) with 1.
  rewrite Z.pow_add_r by (pose proof (zlen_nonneg l); lia). lia.
Qed.

Lemma be_val_range l : bytes_ok l → 0 ≤ be_val l < 256 ^ zlen l.
Proof.
  induction 1 as [|x l Hx _ IH]; [done |]. rewrite be_val_cons, zlen_cons. unfold byte_ok in Hx.
  rewrite Z.pow_add_r by (pose proof (zlen_nonneg l); lia). nia.
Qed.

(** ** The interface *)

Class Ecc : Type := {
  l_ecc_curve : Type;
  ecc_elem : Type;
  l_ecc_curve_get_ike_group : Z → option l_ecc_curve;
  (** the array of [l_ecc_curve_get_supported_ike_groups] before its terminating 0 *)
  supported_ike_groups : list Z;
  (** the field, the order of the group and the bytes of a scalar or coordinate *)
  ecc_prime : l_ecc_curve → Z;
  ecc_order : l_ecc_curve → Z;
  ecc_bytes : l_ecc_curve → Z;
  (** x^3 + ax + b *)
  ecc_sum_x : l_ecc_curve → Z → Z;
  ecc_legendre : l_ecc_curve → Z → Z;
  ecc_mul : l_ecc_curve → Z → ecc_elem → ecc_elem;
  ecc_add : l_ecc_curve → ecc_elem → ecc_elem → ecc_elem;
  (** the base point [curve->g] *)
  ecc_gen : l_ecc_curve → ecc_elem;
  (** the contents of [l_ecc_point_new] *)
  ecc_zero : ecc_elem;
  ecc_neg : l_ecc_curve → ecc_elem → ecc_elem;
  ecc_coords : l_ecc_curve → ecc_elem → Z * Z;
  (** [l_ecc_point_from_data] on the bytes given *)
  ecc_from_data : l_ecc_curve → Z → list Z → option ecc_elem;
  ecc_elem_eqb : ecc_elem → ecc_elem → bool;
  (** a point of the curve other than the point at infinity *)
  ecc_valid : l_ecc_curve → ecc_elem → bool;
}.

Definition L_ECC_SCALAR_MAX_BYTES : Z := 48.
Definition L_ECC_POINT_MAX_BYTES : Z := 96.
Definition L_ECC_POINT_TYPE_COMPLIANT : Z := 1.
Definition L_ECC_POINT_TYPE_FULL : Z := 4.

Section ecc.
Context `{Ecc}.

Record scalar : Type := mk_scalar { s_curve : l_ecc_curve; s_val : Z }.
Record point : Type := mk_point { p_curve : l_ecc_curve; p_elem : ecc_elem }.

(** NULL when the bytes do not hold a number between 2 and the order. *)
Definition l_ecc_scalar_new (c : l_ecc_curve) (buf : ptr) : res (option scalar) :=
  b ← rdn buf (ecc_bytes c);
  let v := be_val b in
  Ok (if (1 <? v) && (v <? ecc_order c) then Some (mk_scalar c v) else None).

Definition l_ecc_scalar_get_data (s : scalar) : list Z :=
  be_bytes (Z.to_nat (ecc_bytes (s_curve s))) (s_val s).

(** [_vli_mod_add], whose operands are below the modulus *)
Definition l_ecc_scalar_add (a b : scalar) (modulus : Z) : scalar :=
  mk_scalar (s_curve a) ((s_val a + s_val b) mod modulus).

Definition l_ecc_scalar_multiply (a b : scalar) : scalar :=
  mk_scalar (s_curve a) ((s_val a * s_val b) mod ecc_prime (s_curve a)).

Definition l_ecc_scalar_legendre (s : scalar) : Z := ecc_legendre (s_curve s) (s_val s).

Definition l_ecc_scalars_are_equal (a b : scalar) : bool := s_val a =? s_val b.

Definition l_ecc_point_get_x (p : point) : list Z :=
  be_bytes (Z.to_nat (ecc_bytes (p_curve p))) (ecc_coords (p_curve p) (p_elem p)).1.

Definition elem_data (c : l_ecc_curve) (e : ecc_elem) : list Z :=
  be_bytes (Z.to_nat (ecc_bytes c)) (ecc_coords c e).1
  ++ be_bytes (Z.to_nat (ecc_bytes c)) (ecc_coords c e).2.

Definition l_ecc_point_get_data (p : point) : list Z := elem_data (p_curve p) (p_elem p).

Definition l_ecc_point_multiply (s : scalar) (p : point) : point :=
  mk_point (s_curve s) (ecc_mul (s_curve s) (s_val s) (p_elem p)).

Definition l_ecc_point_add (a b : point) : point :=
  mk_point (p_curve a) (ecc_add (p_curve a) (p_elem a) (p_elem b)).

(** A result that is left as it was when an argument is NULL. *)
Definition scalar_add_into (ret : scalar) (a b : option scalar) (modulus : Z) : scalar :=
  match a, b with Some a, Some b => l_ecc_scalar_add a b modulus | _, _ => ret end.

Definition point_multiply_into (ret : point) (s : option scalar) (p : option point) : point :=
  match s, p with Some s, Some p => l_ecc_point_multiply s p | _, _ => ret end.

Definition l_ecc_point_new (c : l_ecc_curve) : point := mk_point c ecc_zero.

Definition l_ecc_point_inverse (p : point) : point :=
  mk_point (p_curve p) (ecc_neg (p_curve p) (p_elem p)).

Definition l_ecc_points_are_equal (a b : point) : bool := ecc_elem_eqb (p_elem a) (p_elem b).

Definition l_ecc_point_from_data (c : l_ecc_curve) (type : Z) (data : ptr) (len : Z) : res (option point) :=
  b ← rdn data len; Ok (mk_point c <$> ecc_from_data c type b).

(** [ecc_groups[i]]: the terminating 0 is the last entry of the array. *)
Definition ecc_group (i : Z) : res Z :=
  if (0 <=? i) && (i <? zlen supported_ike_groups) then
    Ok (nth (Z.to_nat i) supported_ike_groups 0)
  else if i =? zlen supported_ike_groups then Ok 0
  else Fault.

Lemma ecc_group_inv i g :
  ecc_group i = Ok g → g ≠ 0 → 0 ≤ i < zlen supported_ike_groups ∧ g ∈ supported_ike_groups.
Proof.
  unfold ecc_group. destruct (Z.leb_spec 0 i), (Z.ltb_spec i (zlen supported_ike_groups)); cbn [andb].
  1: { intros [= <-] _. split; [lia |]. apply list_elem_of_In, nth_In. unfold zlen in *. lia. }
  all: case_match; by intros [= <-].
Qed.
End ecc.

(** The multiples [aP] and [bP] of a generator have different x-coordinates. *)
Definition ecc_generic `{Ecc} (c : l_ecc_curve) (a b : Z) : Prop :=
  a mod ecc_order c ≠ 0 ∧ b mod ecc_order c ≠ 0
  ∧ (a + b) mod ecc_order c ≠ 0 ∧ (a - b) mod ecc_order c ≠ 0.

(** What the protocols rely on. *)
Class EccLaws (E : Ecc) : Prop := {
  ecc_bytes_range c : 16 ≤ ecc_bytes c ≤ L_ECC_SCALAR_MAX_BYTES;
  (** group 19 is P-256: a coordinate has 32 bytes *)
  ecc_bytes_19 c : l_ecc_curve_get_ike_group 19 = Some c → ecc_bytes c ≤ 32;
  ecc_order_range c : 2 < ecc_order c ≤ 256 ^ ecc_bytes c;
  ecc_prime_range c : 2 < ecc_prime c < 256 ^ ecc_bytes c;
  ecc_sum_range c x : 0 ≤ ecc_sum_x c x < ecc_prime c;
  supported_groups_ok g : g ∈ supported_ike_groups → 0 < g < 65536 ∧ is_Some (l_ecc_curve_get_ike_group g);
  supported_groups_len : 0 < zlen supported_ike_groups < 256;
  (** scalar multiplication is an action of the integers modulo the order; the addition of
      ell divides by the difference of the x-coordinates, so it is that of the group for two
      points that are neither equal, nor opposite, nor the point at infinity *)
  ecc_mul_add c a b P : ecc_valid c P = true → ecc_generic c a b →
    ecc_add c (ecc_mul c a P) (ecc_mul c b P) = ecc_mul c (a + b) P;
  ecc_mul_mul c a b P : ecc_valid c P = true → a mod ecc_order c ≠ 0 → b mod ecc_order c ≠ 0 →
    ecc_mul c a (ecc_mul c b P) = ecc_mul c (a * b) P;
  ecc_mul_mod c a P : ecc_valid c P = true → ecc_mul c (a mod ecc_order c) P = ecc_mul c a P;
  ecc_mul_neg c a P : ecc_valid c P = true → ecc_neg c (ecc_mul c a P) = ecc_mul c (- a) P;
  ecc_mul_valid c a P : ecc_valid c P = true → a mod ecc_order c ≠ 0 →
    ecc_valid c (ecc_mul c a P) = true;
  (** a point that is not the point at infinity survives its encoding *)
  ecc_from_full c P : ecc_valid c P = true → ecc_from_data c L_ECC_POINT_TYPE_FULL (elem_data c P) = Some P;
  (** data that is too short for the x-coordinate is refused *)
  ecc_from_short c t l : zlen l < ecc_bytes c → ecc_from_data c t l = None;
  (** a compliant point is one of the two points that have the x-coordinate *)
  ecc_from_compliant c P : ecc_valid c P = true →
    ∃ Q, ecc_from_data c L_ECC_POINT_TYPE_COMPLIANT
           (be_bytes (Z.to_nat (ecc_bytes c)) (ecc_coords c P).1) = Some Q
         ∧ (Q = P ∨ Q = ecc_neg c P);
  ecc_neg_x c P : ecc_valid c P = true → (ecc_coords c (ecc_neg c P)).1 = (ecc_coords c P).1;
  ecc_gen_valid c : ecc_valid c (ecc_gen c) = true;
  (** a compressed point: the coordinate is all that is read, and a type of 2 asks for the odd
      square root, a type of 3 for the even one *)
  ecc_from_prefix c t l k : t = 1 ∨ t = 2 ∨ t = 3 → zlen l = ecc_bytes c →
    ecc_from_data c t (l ++ k) = ecc_from_data c t l;
  ecc_from_compressed c t x : t = 2 ∨ t = 3 → 0 ≤ x < ecc_prime c → ecc_legendre c (ecc_sum_x c x) = 1 →
    ∃ P, ecc_from_data c t (be_bytes (Z.to_nat (ecc_bytes c)) x) = Some P ∧ ecc_valid c P = true
         ∧ (ecc_coords c P).1 = x ∧ Z.odd (ecc_coords c P).2 = (t =? 2);
  (** the Legendre symbol: 1 for a non-zero square, -1 for a non-square, 0 for 0 *)
  legendre_mul c a b : ecc_legendre c ((a * b) mod ecc_prime c) = ecc_legendre c a * ecc_legendre c b;
  legendre_unit c a : 0 < a < ecc_prime c → ecc_legendre c a = 1 ∨ ecc_legendre c a = -1;
  legendre_zero c : ecc_legendre c 0 = 0;
}.
