(* ===== verification/Sae.v ===== *)
(** * SAE: simultaneous authentication of equals (src/sae.c)

    The state machine of a station's SAE exchange: the hunting-and-pecking search for the
    password element, the commit and confirm messages, and the checks that each state makes
    on a received message.  The constant-time selection of src/util.h is
    modelled with it.  Values are laid out for a little-endian machine. *)

From stdpp Require Import base numbers list option.
From Stdlib Require Import ZArith Lia.
From S2P Require Import Prelude IeTlv IeRsn IeMisc Crypto Kdf Handshake Mpdu StRes Ecc.

Open Scope Z_scope.

(** ** Constant-time selection (src/util.h) *)

Definition util_secure_select_byte (mask true_value false_value : Z) : Z :=
  u8 (Z.lor (Z.land mask true_value) (Z.land (Z.lnot mask) false_value)).

(** [size] bytes of [dest]. *)
Definition util_secure_select (mask : Z) (true_value false_value : ptr) (size : Z) : res (list Z) :=
  t ← rdn true_value size;
  f ← rdn false_value size;
  Ok (zip_with (util_secure_select_byte mask) t f).

Definition util_secure_fill_with_msb (val : Z) : Z := u32 (Z.shiftr (u32 val) 31 * 0xFFFFFFFF).

(** One round of [l_secure_memcmp]: [res] is kept when the bytes are equal.  The integers stay
    between -255 and 255. *)
Definition memcmp_round (a b res : Z) : Z :=
  let diff := a - b in
  let mask := Z.shiftr (Z.land (diff - 1) (Z.lnot diff)) 8 in
  Z.lor (Z.land res mask) diff.

(** From the last byte to the first. *)
Definition l_secure_memcmp (a b : list Z) : Z :=
  foldr (λ p res, memcmp_round p.1 p.2 res) 0 (zip a b).

(** ** State *)

Definition SAE_SYNC_MAX : Z := 3.
Definition SAE_MAX_ASSOC_RETRY : Z := 3.

Definition SAE_STATE_NOTHING : Z := 0.
Definition SAE_STATE_COMMITTED : Z := 1.
Definition SAE_STATE_CONFIRMED : Z := 2.
Definition SAE_STATE_ACCEPTED : Z := 3.

Inductive sae_effect : Type :=
  | TxAuth (body : list Z)
  | TxAssoc.

(** The random numbers and the uninitialised memory of a run; [residue_fuel] bounds the search
    for a random residue. *)
Record sae_env `{Ecc} : Type := mk_sae_env {
  rnd_scalar : nat → l_ecc_curve → Z;
  rnd_bytes : nat → nat → list Z;
  sae_junk : nat → Z;
  residue_fuel : nat;
}.

Section sae.
Context {ell : Ell} {ecc : Ecc}.

(** [struct sae_sm] with the handshake it points to, the frames it sent and the number of
    random draws.  The curve pointer is [None] for a group ell does not know. *)
Record sae_sm : Type := mk_sae {
  sae_hs : handshake_state;
  sae_pwe : option point;
  sae_state : Z;
  sae_curve : option l_ecc_curve;
  sae_group : Z;
  sae_group_retry : Z;
  sae_rand : option scalar;
  sae_scalar : option scalar;
  sae_p_scalar : option scalar;
  sae_element : option point;
  sae_p_element : option point;
  sae_kck : list Z;
  sae_pmk : list Z;
  sae_pmkid : list Z;
  sae_token : option (list Z);
  sae_sync : Z;
  sae_sc : Z;
  sae_rc : Z;
  sae_peer : list Z;
  sae_assoc_retry : Z;
  sae_out : list sae_effect;
  sae_tick : nat;
}.

#[global] Instance sae_eta : Eta sae_sm := λ s,
  mk_sae (sae_hs s) (sae_pwe s) (sae_state s) (sae_curve s) (sae_group s)
    (sae_group_retry s) (sae_rand s) (sae_scalar s) (sae_p_scalar s) (sae_element s)
    (sae_p_element s) (sae_kck s) (sae_pmk s) (sae_pmkid s) (sae_token s) (sae_sync s) (sae_sc s)
    (sae_rc s) (sae_peer s) (sae_assoc_retry s) (sae_out s) (sae_tick s).
#[global] Instance set_sae_hs : SetterOf sae_hs.
Proof. derive_setter. Defined.
#[global] Instance set_sae_pwe : SetterOf sae_pwe.
Proof. derive_setter. Defined.
#[global] Instance set_sae_state : SetterOf sae_state.
Proof. derive_setter. Defined.
#[global] Instance set_sae_curve : SetterOf sae_curve.
Proof. derive_setter. Defined.
#[global] Instance set_sae_group : SetterOf sae_group.
Proof. derive_setter. Defined.
#[global] Instance set_sae_group_retry : SetterOf sae_group_retry.
Proof. derive_setter. Defined.
#[global] Instance set_sae_rand : SetterOf sae_rand.
Proof. derive_setter. Defined.
#[global] Instance set_sae_scalar : SetterOf sae_scalar.
Proof. derive_setter. Defined.
#[global] Instance set_sae_p_scalar : SetterOf sae_p_scalar.
Proof. derive_setter. Defined.
#[global] Instance set_sae_element : SetterOf sae_element.
Proof. derive_setter. Defined.
#[global] Instance set_sae_p_element : SetterOf sae_p_element.
Proof. derive_setter. Defined.
#[global] Instance set_sae_kck : SetterOf sae_kck.
Proof. derive_setter. Defined.
#[global] Instance set_sae_pmk : SetterOf sae_pmk.
Proof. derive_setter. Defined.
#[global] Instance set_sae_pmkid : SetterOf sae_pmkid.
Proof. derive_setter. Defined.
#[global] Instance set_sae_token : SetterOf sae_token.
Proof. derive_setter. Defined.
#[global] Instance set_sae_sync : SetterOf sae_sync.
Proof. derive_setter. Defined.
#[global] Instance set_sae_sc : SetterOf sae_sc.
Proof. derive_setter. Defined.
#[global] Instance set_sae_rc : SetterOf sae_rc.
Proof. derive_setter. Defined.
#[global] Instance set_sae_peer : SetterOf sae_peer.
Proof. derive_setter. Defined.
#[global] Instance set_sae_assoc_retry : SetterOf sae_assoc_retry.
Proof. derive_setter. Defined.
#[global] Instance set_sae_out : SetterOf sae_out.
Proof. derive_setter. Defined.
#[global] Instance set_sae_tick : SetterOf sae_tick.
Proof. derive_setter. Defined.

Variable E : sae_env.

Definition tx_auth (body : list Z) : sr sae_sm unit :=
  modify (λ s, s <| sae_out := sae_out s ++ [TxAuth body] |>).
Definition tx_assoc : sr sae_sm unit := modify (λ s, s <| sae_out := sae_out s ++ [TxAssoc] |>).

Definition draw : sr sae_sm nat := λ s, Ok (sae_tick s, s <| sae_tick := S (sae_tick s) |>).

Definition l_ecc_scalar_new_random (c : l_ecc_curve) : sr sae_sm scalar :=
  t ← draw; mret (mk_scalar c (rnd_scalar E t c)).

(** A NULL pointer that is dereferenced. *)
Definition deref {A} (p : option A) : sr sae_sm A := run (match p with Some a => Ok a | None => Fault end).

(** ** The password element *)

Definition sae_pwd_seed (addr1 addr2 base : list Z) (counter : Z) : option (list Z) :=
  let key := if bytes_lt addr2 addr1 then addr1 ++ addr2 else addr2 ++ addr1 in
  hkdf_extract L_CHECKSUM_SHA256 (Some key) [base; [counter]].

Definition label_hunting : list Z :=
  (* SAE Hunting and Pecking *)
  [83; 65; 69; 32; 72; 117; 110; 116; 105; 110; 103; 32; 97; 110; 100; 32; 80; 101; 99; 107; 105;
   110; 103].
Definition label_kck_pmk : list Z :=
  (* SAE KCK and PMK *)
  [83; 65; 69; 32; 75; 67; 75; 32; 97; 110; 100; 32; 80; 77; 75].

Definition prime_data (c : l_ecc_curve) : list Z := be_bytes (Z.to_nat (ecc_bytes c)) (ecc_prime c).

(** NULL when the KDF fails or the value is not a scalar of the curve; [qnr] has 48 bytes. *)
Definition sae_pwd_value (c : l_ecc_curve) (pwd_seed qnr : list Z) : res (option scalar) :=
  let prime := prime_data c in
  let len := ecc_bytes c in
  let buf := l_malloc (sae_junk E) L_ECC_SCALAR_MAX_BYTES in
  out ← rdn buf len;
  match kdf_sha256 pwd_seed label_hunting prime out with
  | None => Ok None
  | Some v =>
      let pwd_value := v ++ (buf +! len) in
      let is_in_range := util_secure_fill_with_msb (l_secure_memcmp v prime) in
      x ← util_secure_select (u8 is_in_range) pwd_value qnr L_ECC_SCALAR_MAX_BYTES;
      l_ecc_scalar_new c x
  end.

Fixpoint residue_loop (fuel : nat) (c : l_ecc_curve) (want : Z) : sr sae_sm scalar :=
  match fuel with
  | O => run Diverge
  | S fuel' =>
      s ← l_ecc_scalar_new_random c;
      if l_ecc_scalar_legendre s =? want then mret s else residue_loop fuel' c want
  end.

Definition sae_new_residue (c : l_ecc_curve) (residue : bool) : sr sae_sm scalar :=
  residue_loop (residue_fuel E) c (if residue then -1 else 1).

(** [rbuf[bytes / 8 - 1] & 1] of the big-endian bytes of a scalar, on a little-endian machine *)
Definition mask_bit (r : scalar) : bool :=
  Z.odd (nth (Z.to_nat (ecc_bytes (s_curve r) - 8)) (l_ecc_scalar_get_data r) 0).

Definition sae_is_quadradic_residue (c : l_ecc_curve) (value : option scalar) (qr qnr : scalar)
    : sr sae_sm Z :=
  r ← l_ecc_scalar_new_random c;
  let y_sqr := mk_scalar c (match value with Some v => ecc_sum_x c (s_val v) | None => 0 end) in
  let num := l_ecc_scalar_multiply (l_ecc_scalar_multiply y_sqr r) r in
  mret (if mask_bit r then
          if l_ecc_scalar_legendre (l_ecc_scalar_multiply num qr) =? -1 then 1 else 0
        else
          if l_ecc_scalar_legendre (l_ecc_scalar_multiply num qnr) =? 1 then 1 else 0).

(** The variables of the loop: [found] is 0 or 0xff. *)
Record pwe_vars : Type := mk_pwe { pwe_found : Z; pwe_x : list Z; pwe_odd : Z }.

(** One iteration.  A seed that could not be computed leaves [pwd_seed] as it was: zeros after
    the first iteration. *)
Definition pwe_step (c : l_ecc_curve) (password dummy addr1 addr2 qnr_bin : list Z) (qr qnr : scalar)
    (counter : Z) (v : pwe_vars) : sr sae_sm pwe_vars :=
  base ← run (util_secure_select (pwe_found v) dummy password (zlen password));
  let old := if counter =? 1 then l_malloc (sae_junk E) 32 else zeros 32 in
  let pwd_seed := default old (sae_pwd_seed addr1 addr2 base counter) in
  pwd_value ← run (sae_pwd_value c pwd_seed qnr_bin);
  is_residue ← sae_is_quadradic_residue c pwd_value qr qnr;
  pv ← deref pwd_value;
  let x_cand := l_ecc_scalar_get_data pv in
  x ← run (util_secure_select (pwe_found v) (pwe_x v) (x_cand ++ (pwe_x v +! zlen x_cand))
             L_ECC_SCALAR_MAX_BYTES);
  let odd := util_secure_select_byte (pwe_found v) (pwe_odd v) (Z.land (nth 31 pwd_seed 0) 1) in
  mret (mk_pwe (Z.lor (pwe_found v) (u8 (is_residue * 0xff))) x odd).

(** [for (counter = 1; counter <= 30; counter++)] *)
Fixpoint pwe_loop (n : nat) (c : l_ecc_curve) (password dummy addr1 addr2 qnr_bin : list Z)
    (qr qnr : scalar) (counter : Z) (v : pwe_vars) : sr sae_sm pwe_vars :=
  match n with
  | O => mret v
  | S n' =>
      v ← pwe_step c password dummy addr1 addr2 qnr_bin qr qnr counter v;
      pwe_loop n' c password dummy addr1 addr2 qnr_bin qr qnr (counter + 1) v
  end.

Definition sae_compute_pwe (password addr1 addr2 : list Z) : sr sae_sm bool :=
  s ← get;
  c ← deref (sae_curve s);
  qr ← sae_new_residue c true;
  qnr ← sae_new_residue c false;
  let qd := l_ecc_scalar_get_data qnr in
  let qnr_bin := qd ++ zeros (Z.to_nat (L_ECC_SCALAR_MAX_BYTES - zlen qd)) in
  t ← draw;
  let dummy := rnd_bytes E t (length password) in
  v ← pwe_loop 30 c password dummy addr1 addr2 qnr_bin qr qnr 1
        (mk_pwe 0 (l_malloc (sae_junk E) L_ECC_SCALAR_MAX_BYTES) 0);
  if pwe_found v =? 0 then mret false
  else
    pwe ← run (l_ecc_point_from_data c ((if pwe_odd v =? 0 then 1 else 0) + 2) (pwe_x v)
                 L_ECC_SCALAR_MAX_BYTES);
    modify (λ s, s <| sae_pwe := pwe |>);;
    mret (bool_decide (is_Some pwe)).

(** ** Messages *)

(** The digest, or [None] for [false]. *)
Definition sae_cn (kck : list Z) (send_confirm : Z) (scalar1 : option scalar) (element1 : option point)
    (scalar2 : option scalar) (element2 : option point) : sr sae_sm (option (list Z)) :=
  match l_checksum_new_hmac L_CHECKSUM_SHA256 kck with
  | None => mret None
  | Some hmac =>
      s1 ← deref scalar1;
      e1 ← deref element1;
      s2 ← deref scalar2;
      e2 ← deref element2;
      mret (Some (ptake (hmac (le16_bytes send_confirm ++ l_ecc_scalar_get_data s1
                               ++ l_ecc_point_get_data e1 ++ l_ecc_scalar_get_data s2
                               ++ l_ecc_point_get_data e2)) 32))
  end.

Definition sae_reject_authentication (reason : Z) : sr sae_sm unit :=
  s ← get;
  tx_auth (le16_bytes 1 ++ le16_bytes reason
           ++ (if reason =? MMPDU_STATUS_CODE_UNSUPP_FINITE_CYCLIC_GROUP
               then le16_bytes (sae_group s) else [])).

(** The 406 bytes of [commit]: the frame written so far is the prefix of the buffer. *)
Definition COMMIT_SIZE : Z := L_ECC_SCALAR_MAX_BYTES + L_ECC_POINT_MAX_BYTES + 262.

(** The frame of [sae_build_commit] after [old_commit]. *)
Definition commit_frame (s : sae_sm) : sr sae_sm (list Z) :=
  buf ← run (put (l_malloc (sae_junk E) COMMIT_SIZE) 0 (le16_bytes 1));
  buf ← run (put buf 2 (le16_bytes 0));
  buf ← run (put buf 4 (le16_bytes (sae_group s)));
  '(buf, pos) ← match sae_token s with
                | Some token => buf ← run (put buf 6 token); mret (buf, 6 + zlen token)
                | None => mret (buf, 6)
                end;
  sc ← deref (sae_scalar s);
  let d := l_ecc_scalar_get_data sc in
  buf ← run (put buf pos d);
  let pos := pos + zlen d in
  el ← deref (sae_element s);
  let d := l_ecc_point_get_data el in
  buf ← run (put buf pos d);
  run (rdn buf (pos + zlen d)).

(** [None] for [false]. *)
Definition sae_build_commit (addr1 addr2 : list Z) (retry : bool) : sr sae_sm (option (list Z)) :=
  s ← get;
  ok ← (if retry then mret true
        else match hs_passphrase (sae_hs s) with
             | None => mret false
             | Some password =>
                 pwe_ok ← sae_compute_pwe password addr1 addr2;
                 if negb pwe_ok then mret false
                 else
                   s ← get;
                   c ← deref (sae_curve s);
                   pwe ← deref (sae_pwe s);
                   rand ← l_ecc_scalar_new_random c;
                   mask ← l_ecc_scalar_new_random c;
                   modify (λ s, s <| sae_rand := Some rand |>
                     <| sae_scalar := Some (l_ecc_scalar_add rand mask (ecc_order c)) |>
                     <| sae_element := Some (l_ecc_point_inverse (l_ecc_point_multiply mask pwe)) |>);;
                   mret true
             end);
  if negb ok then mret None
  else s ← get; f ← commit_frame s; mret (Some f).

Definition sae_send_commit (retry : bool) : sr sae_sm bool :=
  s ← get;
  f ← sae_build_commit (hs_spa (sae_hs s)) (hs_aa (sae_hs s)) retry;
  match f with
  | None => mret false
  | Some commit =>
      modify (λ s, s <| sae_state := SAE_STATE_COMMITTED |>);;
      tx_auth commit;;
      mret true
  end.

(** A confirm that could not be computed is sent uninitialised. *)
Definition sae_send_confirm : sr sae_sm unit :=
  s ← get;
  c ← sae_cn (sae_kck s) (sae_sc s) (sae_scalar s) (sae_element s) (sae_p_scalar s) (sae_p_element s);
  let confirm := default (l_malloc (sae_junk E) 32) c in
  modify (λ s, s <| sae_state := SAE_STATE_CONFIRMED |>);;
  tx_auth (le16_bytes 2 ++ le16_bytes 0 ++ le16_bytes (sae_sc s) ++ confirm).

(** The key derivation of [sae_process_commit]: K, then the KCK, the PMK and the PMKID.  The
    functions of ell leave their result as it was when one of these pointers is NULL. *)
Definition sae_keys (c : l_ecc_curve) (rand sc : option scalar) (p_scalar : scalar)
    (pwe : option point) (p_element : point) : list Z * list Z * list Z :=
  let k := point_multiply_into (l_ecc_point_new c) (Some p_scalar) pwe in
  let k := l_ecc_point_add k p_element in
  let k := point_multiply_into k rand (Some k) in
  let junk n := l_malloc (sae_junk E) n in
  let keyseed := default (junk 32) (hmac_sha256 (zeros 32) (l_ecc_point_get_x k) (junk 32)) in
  let tmp_scalar := scalar_add_into (mk_scalar c 0) (Some p_scalar) sc (ecc_order c) in
  let tmp := l_ecc_scalar_get_data tmp_scalar in
  let kp := default (junk 64) (kdf_sha256 keyseed label_kck_pmk (ptake tmp (ecc_bytes c)) (junk 64)) in
  let tmp_scalar := scalar_add_into tmp_scalar sc (Some p_scalar) (ecc_order c) in
  let tmp := l_ecc_scalar_get_data tmp_scalar in
  (ptake kp 32, ptake (kp +! 32) 32, ptake (tmp ++ (junk L_ECC_SCALAR_MAX_BYTES +! zlen tmp)) 16).

Definition sae_reject (reason : Z) : sr sae_sm Z := sae_reject_authentication reason;; mret BADMSG.

Definition sae_process_commit (frame : ptr) (len : Z) : sr sae_sm Z :=
  s ← get;
  c ← deref (sae_curve s);
  let nbytes := ecc_bytes c in
  if negb (sae_state s =? SAE_STATE_COMMITTED) then sae_reject MMPDU_REASON_CODE_UNSPECIFIED
  else if len <? nbytes + nbytes * 2 + 2 then sae_reject MMPDU_REASON_CODE_UNSPECIFIED
  else
    group ← run (l_get_le16 frame);
    if negb (group =? sae_group s) then
      sae_reject_authentication MMPDU_STATUS_CODE_UNSUPP_FINITE_CYCLIC_GROUP;; mret 0
    else
      ps ← run (l_ecc_scalar_new c (frame +! 2));
      modify (λ s, s <| sae_p_scalar := ps |>);;
      match ps with
      | None => sae_reject MMPDU_REASON_CODE_UNSPECIFIED
      | Some p_scalar =>
          pe ← run (l_ecc_point_from_data c L_ECC_POINT_TYPE_FULL (frame +! (2 + nbytes)) (nbytes * 2));
          modify (λ s, s <| sae_p_element := pe |>);;
          match pe with
          | None => sae_reject MMPDU_REASON_CODE_UNSPECIFIED
          | Some p_element =>
              if from_option (l_ecc_scalars_are_equal p_scalar) false (sae_scalar s)
                 || from_option (l_ecc_points_are_equal p_element) false (sae_element s)
              then mret 0
              else
                modify (λ s, s <| sae_sc := u16 (sae_sc s + 1) |>);;
                let '(kck, pmk, pmkid) :=
                  sae_keys c (sae_rand s) (sae_scalar s) p_scalar (sae_pwe s) p_element in
                modify (λ s, s <| sae_kck := kck |> <| sae_pmk := pmk |> <| sae_pmkid := pmkid |>);;
                sae_send_confirm;;
                mret 0
          end
      end.

Definition sae_verify_confirm (frame : ptr) : sr sae_sm bool :=
  s ← get;
  rc ← run (l_get_le16 frame);
  c ← sae_cn (sae_kck s) rc (sae_p_scalar s) (sae_p_element s) (sae_scalar s) (sae_element s);
  same ← run (memeq (frame +! 2) (default (l_malloc (sae_junk E) 32) c));
  if negb same then mret false
  else modify (λ s, s <| sae_rc := rc |>);; mret true.

Definition sae_process_confirm (frame : ptr) (len : Z) : sr sae_sm Z :=
  s ← get;
  if negb (sae_state s =? SAE_STATE_CONFIRMED) then sae_reject MMPDU_REASON_CODE_UNSPECIFIED
  else if len <? 34 then sae_reject MMPDU_REASON_CODE_UNSPECIFIED
  else
    ok ← sae_verify_confirm frame;
    if negb ok then sae_reject MMPDU_REASON_CODE_UNSPECIFIED
    else
      modify (λ s, s <| sae_sc := 0xffff |>);;
      s ← get;
      hs ← run (handshake_state_set_pmkid (sae_hs s) (sae_pmkid s));
      hs ← run (handshake_state_set_pmk hs (sae_pmk s) 32);
      modify (λ s, s <| sae_hs := hs |> <| sae_state := SAE_STATE_ACCEPTED |>);;
      tx_assoc;;
      mret 0.

Definition sae_assoc_timeout : sr sae_sm bool :=
  s ← get;
  if SAE_MAX_ASSOC_RETRY <=? sae_assoc_retry s then mret false
  else
    modify (λ s, s <| sae_assoc_retry := u8 (sae_assoc_retry s + 1) |>);;
    tx_assoc;;
    mret true.

(** ** Received messages *)

Definition sae_process_anti_clogging (frame : ptr) (len : Z) : sr sae_sm unit :=
  if (len <? 3) || (258 <? len) then pass
  else
    token ← run (rdn (frame +! 2) (len - 2));
    modify (λ s, s <| sae_token := Some token |> <| sae_sync := 0 |>);;
    sae_send_commit true;;
    pass.

Definition sae_verify_nothing (transaction status : Z) (frame : ptr) (len : Z) : sr sae_sm Z :=
  s ← get;
  if negb (transaction =? SAE_STATE_COMMITTED) then mret BADMSG
  else if negb (status =? 0) then mret BADMSG
  else if len <? 2 then mret BADMSG
  else
    group ← run (l_get_le16 frame);
    if negb (group =? sae_group s) then sae_reject MMPDU_STATUS_CODE_UNSUPP_FINITE_CYCLIC_GROUP
    else mret 0.

Definition sae_reset_state : sr sae_sm unit :=
  modify (λ s, s <| sae_token := None |> <| sae_scalar := None |> <| sae_p_scalar := None |>
                 <| sae_rand := None |> <| sae_element := None |> <| sae_p_element := None |>
                 <| sae_pwe := None |>).

Definition reject_unsupp_group : sr sae_sm Z :=
  sae_reject_authentication MMPDU_STATUS_CODE_UNSUPP_FINITE_CYCLIC_GROUP;;
  mret MMPDU_STATUS_CODE_UNSUPP_FINITE_CYCLIC_GROUP.

Definition sae_verify_committed (transaction status : Z) (frame : ptr) (len : Z) : sr sae_sm Z :=
  s ← get;
  if transaction =? SAE_STATE_CONFIRMED then
    if SAE_SYNC_MAX <? sae_sync s then mret BADMSG
    else
      modify (λ s, s <| sae_sync := u16 (sae_sync s + 1) |>);;
      sae_send_commit true;;
      mret AGAIN
  else if status =? MMPDU_STATUS_CODE_ANTI_CLOGGING_TOKEN_REQ then
    sae_process_anti_clogging frame len;; mret AGAIN
  else if status =? MMPDU_STATUS_CODE_UNSUPP_FINITE_CYCLIC_GROUP then
    mismatch ← run (if len <? 2 then Ok false
                    else g ← l_get_le16 frame; Ok (negb (g =? sae_group s)));
    if (mismatch : bool) then mret BADMSG
    else
      modify (λ s, s <| sae_group_retry := u8 (sae_group_retry s + 1) |>);;
      s ← get;
      g ← run (ecc_group (sae_group_retry s));
      if g =? 0 then
        modify (λ s, s <| sae_state := SAE_STATE_NOTHING |>);; reject_unsupp_group
      else
        sae_reset_state;;
        modify (λ s, s <| sae_group := g |> <| sae_curve := l_ecc_curve_get_ike_group g |>
                       <| sae_sync := 0 |>);;
        sae_send_commit false;;
        mret AGAIN
  else if status =? 0 then
    if len <? 2 then mret BADMSG
    else
      g ← run (l_get_le16 frame);
      if g =? sae_group s then mret 0
      else
        match l_ecc_curve_get_ike_group g with
        | None =>
            if SAE_SYNC_MAX <? sae_sync s then mret BADMSG
            else
              modify (λ s, s <| sae_sync := u16 (sae_sync s + 1) |>);;
              reject_unsupp_group
        | Some c =>
            if bytes_lt (hs_aa (sae_hs s)) (hs_spa (sae_hs s)) then
              sae_send_commit true;; mret 0
            else
              modify (λ s, s <| sae_sync := 0 |> <| sae_sc := u16 (sae_sc s + 1) |>
                             <| sae_group := g |> <| sae_curve := Some c |>);;
              sae_send_commit false;;
              modify (λ s, s <| sae_state := SAE_STATE_CONFIRMED |>);;
              mret 0
        end
  else mret 0.

Definition sae_verify_confirmed (trans status : Z) (frame : ptr) (len : Z) : sr sae_sm Z :=
  s ← get;
  if trans =? SAE_STATE_CONFIRMED then mret 0
  else if negb (status =? 0) then mret 0
  else if SAE_SYNC_MAX <? sae_sync s then mret BADMSG
  else if len <? 2 then mret BADMSG
  else
    g ← run (l_get_le16 frame);
    if negb (g =? sae_group s) then mret 0
    else
      modify (λ s, s <| sae_sync := u16 (sae_sync s + 1) |> <| sae_sc := u16 (sae_sc s + 1) |>);;
      sae_send_commit true;;
      sae_send_confirm;;
      mret 0.

Definition sae_verify_accepted (trans status : Z) (frame : ptr) (len : Z) : sr sae_sm Z :=
  s ← get;
  if negb (trans =? SAE_STATE_CONFIRMED) then mret BADMSG
  else if SAE_SYNC_MAX <? sae_sync s then mret BADMSG
  else if len <? 2 then mret BADMSG
  else
    sc ← run (l_get_le16 frame);
    if (sc <=? sae_rc s) || (sc =? 0xffff) then mret BADMSG
    else
      ok ← sae_verify_confirm frame;
      if negb ok then mret BADMSG
      else
        modify (λ s, s <| sae_sync := u16 (sae_sync s + 1) |> <| sae_sc := 0xffff |>);;
        sae_send_confirm;;
        mret 0.

Definition sae_verify_packet (trans status : Z) (frame : ptr) (len : Z) : sr sae_sm Z :=
  s ← get;
  if negb (trans =? SAE_STATE_COMMITTED) && negb (trans =? SAE_STATE_CONFIRMED) then mret BADMSG
  else if sae_state s =? SAE_STATE_NOTHING then sae_verify_nothing trans status frame len
  else if sae_state s =? SAE_STATE_COMMITTED then sae_verify_committed trans status frame len
  else if sae_state s =? SAE_STATE_CONFIRMED then sae_verify_confirmed trans status frame len
  else if sae_state s =? SAE_STATE_ACCEPTED then sae_verify_accepted trans status frame len
  else mret (-1).

(** The part of [sae_rx_authenticate] after the header. *)
Definition sae_rx_body (trans status : Z) (ies : ptr) (len : Z) : sr sae_sm Z :=
  ret ← sae_verify_packet trans status ies len;
  if negb (ret =? 0) then mret ret
  else if trans =? SAE_STATE_COMMITTED then sae_process_commit ies len
  else if trans =? SAE_STATE_CONFIRMED then sae_process_confirm ies len
  else sae_reject MMPDU_REASON_CODE_UNSPECIFIED.

Definition sae_rx_authenticate (frame : ptr) (len : Z) : sr sae_sm Z :=
  hdr ← run (mpdu_validate (Some frame) len);
  match hdr with
  | None => sae_reject MMPDU_REASON_CODE_UNSPECIFIED
  | Some hdr =>
      body ← run (mmpdu_body hdr);
      n ← run (mmpdu_header_len hdr);
      trans ← run (l_get_le16 (body +! 2));
      status ← run (l_get_le16 (body +! 4));
      sae_rx_body trans status (body +! 6) (len - n - 6)
  end.

Definition sae_rx_associate (frame : ptr) (len : Z) : sr sae_sm Z :=
  hdr ← run (mpdu_validate (Some frame) len);
  match hdr with
  | None => mret BADMSG
  | Some hdr =>
      body ← run (mmpdu_body hdr);
      run (l_get_le16 (body +! 2))
  end.

Definition sae_start : sr sae_sm bool :=
  modify (λ s, s <| sae_peer := if hs_authenticator (sae_hs s) then hs_spa (sae_hs s)
                                else hs_aa (sae_hs s) |>);;
  sae_send_commit false.
End sae.

Definition sae_sm_new `{Ell} `{Ecc} (hs : handshake_state) : res sae_sm :=
  g ← ecc_group 0;
  Ok (mk_sae hs None SAE_STATE_NOTHING (l_ecc_curve_get_ike_group g) g 0
        None None None None None (zeros 32) (zeros 32) (zeros 16) None 0 0 0 (zeros 6) 0 [] 0).
