(* ===== verification/SaeSpec.v ===== *)
(** * SAE: the exchange between two stations (src/sae.c)

    What the code of Sae.v promises: two parties with the same password element derive the
    same keys and accept each other; a PMK is only handed over after a confirm that proves
    the knowledge of the KCK; the constant-time search finds what the plain one would. *)

From stdpp Require Import base numbers list option.
From Stdlib Require Import ZArith Lia.
From S2P Require Import Prelude IeTlv IeRsn IeMisc Crypto Kdf Handshake Mpdu StRes Ecc Sae.

Open Scope Z_scope.

Section facts.
Context {ell : Ell} {laws : EllLaws ell} {ecc : Ecc} {eccl : EccLaws ecc}.
Variable E : sae_env.

(** ** The commit message *)

(** A party that has sent its commit: [r] and [m] are its secrets, [P] the password element. *)
Record committed (s : sae_sm) (c : l_ecc_curve) (g : Z) (P : ecc_elem) (r m : Z) : Prop := {
  co_state : sae_state s = SAE_STATE_COMMITTED;
  co_curve : sae_curve s = Some c;
  co_group : sae_group s = g;
  co_pwe : sae_pwe s = Some (mk_point c P);
  co_rand : sae_rand s = Some (mk_scalar c r);
  co_scalar : sae_scalar s = Some (mk_scalar c ((r + m) mod ecc_order c));
  co_element : sae_element s = Some (mk_point c (ecc_neg c (ecc_mul c m P)));
}.

(** The fields behind the status code. *)
Definition commit_ies (g : Z) (token : option (list Z)) (sc : scalar) (el : point) : list Z :=
  le16_bytes g ++ default [] token ++ l_ecc_scalar_get_data sc ++ l_ecc_point_get_data el.

Lemma scalar_data_zlen sc : zlen (l_ecc_scalar_get_data sc) = ecc_bytes (s_curve sc).
Proof.
  unfold l_ecc_scalar_get_data. apply be_bytes_zlen.
  pose proof (ecc_bytes_range (s_curve sc)). lia.
Qed.

Lemma point_data_zlen p : zlen (l_ecc_point_get_data p) = ecc_bytes (p_curve p) * 2.
Proof.
  unfold l_ecc_point_get_data, elem_data. pose proof (ecc_bytes_range (p_curve p)).
  rewrite zlen_app, !be_bytes_zlen by lia. lia.
Qed.

(** The two last writes of the message. *)
Lemma commit_tail_ok (pre rest d1 d2 : list Z) pos (s0 : sae_sm) :
  pos = zlen pre → zlen d1 + zlen d2 ≤ zlen rest →
  (buf ← run (put (pre ++ rest) pos d1);
   buf ← run (put buf (pos + zlen d1) d2);
   run (rdn buf (pos + zlen d1 + zlen d2))) s0 = Ok (pre ++ d1 ++ d2, s0).
Proof.
  intros -> Hl. erewrite run_bind_ok by (apply put_next; zlia).
  erewrite run_bind_ok by (apply put_next; zlia).
  unfold run. rewrite rdn_app by zlia. by rewrite <- !app_assoc.
Qed.

Lemma commit_frame_ok s s0 sc el :
  sae_scalar s = Some sc → sae_element s = Some el →
  from_option zlen 0 (sae_token s) ≤ 256 →
  commit_frame E s s0
  = Ok (le16_bytes 1 ++ le16_bytes 0 ++ commit_ies (sae_group s) (sae_token s) sc el, s0).
Proof.
  intros Hs He Ht. unfold commit_frame, commit_ies.
  pose proof (ecc_bytes_range (s_curve sc)). pose proof (ecc_bytes_range (p_curve el)).
  pose proof (scalar_data_zlen sc) as Ls. pose proof (point_data_zlen el) as Le.
  pose proof (l_malloc_length (sae_junk E) COMMIT_SIZE ltac:(vm_compute; discriminate)) as Lb.
  change L_ECC_SCALAR_MAX_BYTES with 48 in *. change COMMIT_SIZE with 406 in *.
  erewrite run_bind_ok by (apply put_first; zlia).
  do 2 erewrite run_bind_ok by (apply put_next; zlia).
  rewrite Hs, He. set (hdr := _ ++ le16_bytes (sae_group s)). set (rest := l_malloc _ _ +! _ +! _ +! _).
  assert (Lh : zlen hdr = 6) by (unfold hdr; zlia).
  assert (Lr : zlen rest = 400) by (unfold rest; zlia).
  destruct (sae_token s) as [token|]; cbn [from_option default] in *.
  - erewrite sr_bind_ok by (erewrite run_bind_ok by (apply put_next; zlia); reflexivity).
    etransitivity; [apply (commit_tail_ok (hdr ++ token)); zlia |].
    unfold hdr. by rewrite <- !app_assoc.
  - etransitivity; [apply (commit_tail_ok hdr); zlia |]. unfold hdr. by rewrite <- !app_assoc.
Qed.

(** ** The keys *)

(** HMAC-SHA256 can be computed. *)
Definition sha256_available : Prop := ∀ k, is_Some (l_checksum_new_hmac L_CHECKSUM_SHA256 k).

Definition hmac256 (key data : list Z) : list Z :=
  match l_checksum_new_hmac L_CHECKSUM_SHA256 key with Some h => h data | None => [] end.

(** 12.4.5.4: the KCK, the PMK and the PMKID of the shared secret's x-coordinate [k] and of
    the sum of the scalars. *)
Definition keys_of (c : l_ecc_curve) (k sum : Z) : list Z * list Z * list Z :=
  let enc v := be_bytes (Z.to_nat (ecc_bytes c)) v in
  let keyseed := hmac256 (zeros 32) (enc k) in
  let kp := digests (hmac256 keyseed)
              (λ i, le16_bytes (i + 1) ++ label_kck_pmk ++ enc sum ++ le16_bytes 512) 0 2 in
  (ptake kp 32, ptake (kp +! 32) 32, ptake (enc sum) 16).

Lemma digests_ext f g msg i n : (∀ m, f m = g m) → digests f msg i n = digests g msg i n.
Proof. intros Hfg. unfold digests. f_equal. by apply list_fmap_ext. Qed.

Lemma hmac256_zlen k d : sha256_available → zlen (hmac256 k d) = 32.
Proof.
  intros Ha. unfold hmac256. destruct (Ha k) as [h Hh]. rewrite Hh. by apply (hmac_ok _ _ _ _ Hh).
Qed.

Lemma hmac_sha256_full k d out :
  sha256_available → zlen out = 32 → hmac_sha256 k d out = Some (hmac256 k d).
Proof.
  intros Ha Ho. pose proof (hmac256_zlen k d Ha) as Hl. unfold hmac_sha256, hmac_common, hmac256 in *.
  destruct (Ha k) as [h Hh]. rewrite Hh in *. unfold digest_into.
  by rewrite ptake_all, padd_all, app_nil_r by lia.
Qed.

Lemma kdf_sha256_64 k prefix data out :
  sha256_available → zlen out = 64 →
  kdf_sha256 k prefix data out
  = Some (digests (hmac256 k) (λ i, le16_bytes (i + 1) ++ prefix ++ data ++ le16_bytes 512) 0 2).
Proof.
  intros Ha Ho. destruct (Ha k) as [h Hh]. rewrite (kdf_sha256_digests _ _ _ _ h), Ho by done.
  change (Z.to_nat ((64 + 31) / 32)) with 2%nat. change (64 * 8) with 512.
  assert (Hx : ∀ m, h m = hmac256 k m) by (intros m; unfold hmac256; by rewrite Hh).
  rewrite (digests_ext h (hmac256 k)) by done. rewrite ptake_all; [done |].
  rewrite !digests_cons, !zlen_app, !hmac256_zlen by done.
  change (zlen (digests _ _ _ 0)) with 0. lia.
Qed.

Lemma sae_keys_of c r sc ps P pe :
  sha256_available →
  sae_keys E c (Some (mk_scalar c r)) (Some (mk_scalar c sc)) (mk_scalar c ps)
    (Some (mk_point c P)) (mk_point c pe)
  = keys_of c (ecc_coords c (ecc_mul c r (ecc_add c (ecc_mul c ps P) pe))).1
      ((sc + ps) mod ecc_order c).
Proof.
  intros Ha. unfold sae_keys. cbn -[l_malloc zeros Z.to_nat hmac_sha256 kdf_sha256].
  pose proof (ecc_bytes_range c). unfold L_ECC_SCALAR_MAX_BYTES in *.
  rewrite hmac_sha256_full by (rewrite ?l_malloc_length; done). cbn -[l_malloc zeros Z.to_nat kdf_sha256].
  rewrite kdf_sha256_64 by (rewrite ?l_malloc_length; done). cbn -[l_malloc zeros Z.to_nat digests].
  unfold keys_of, l_ecc_point_get_x, l_ecc_scalar_get_data. cbn -[l_malloc zeros Z.to_nat digests].
  rewrite (Z.add_comm ps sc).
  rewrite (ptake_all (be_bytes _ _) (ecc_bytes c)) by (rewrite be_bytes_zlen; lia).
  by rewrite ptake_app_le by (rewrite be_bytes_zlen; lia).
Qed.

(** The secrets for which the commit is well formed and no addition of the exchange meets two
    points with the same x-coordinate. *)
Record good_secrets (c : l_ecc_curve) (r m : Z) : Prop := {
  gs_rand : r mod ecc_order c ≠ 0;
  gs_mask : m mod ecc_order c ≠ 0;
  gs_scalar : 1 < (r + m) mod ecc_order c;
  gs_generic : (r + 2 * m) mod ecc_order c ≠ 0;
}.

Lemma mod_opp_ne a n : 0 < n → a mod n ≠ 0 → (- a) mod n ≠ 0.
Proof. intros Hn Ha Hb. apply Ha. rewrite <- (Z.opp_involutive a). by apply Z.mod_opp_l_z; [lia |]. Qed.

(** [r · (s' · P + e')] is [r · r' · P]. *)
Lemma shared_secret c P r r' m' :
  ecc_valid c P = true → r mod ecc_order c ≠ 0 → good_secrets c r' m' →
  ecc_mul c r (ecc_add c (ecc_mul c ((r' + m') mod ecc_order c) P) (ecc_neg c (ecc_mul c m' P)))
  = ecc_mul c (r * r') P.
Proof.
  intros HP Hr [H1 H2 H3 H4]. pose proof (ecc_order_range c).
  rewrite ecc_mul_neg, ecc_mul_mod, ecc_mul_add by
    (done || (split_and!; [lia | by apply mod_opp_ne; lia | ..];
              [by replace (r' + m' + - m') with r' by lia
              | by replace (r' + m' - - m') with (r' + 2 * m') by lia])).
  replace (r' + m' + - m') with r' by lia. by apply ecc_mul_mul.
Qed.

(** Runs the instructions whose outcome is known. *)
Local Ltac sr_eval :=
  cbv [mbind sr_bind mret sr_ret run get modify pass deref tx_auth tx_assoc]; cbv beta iota.

(** Decides the tests on constants. *)
Local Ltac sae_consts :=
  cbv [SAE_STATE_NOTHING SAE_STATE_COMMITTED SAE_STATE_CONFIRMED SAE_STATE_ACCEPTED
       MMPDU_STATUS_CODE_ANTI_CLOGGING_TOKEN_REQ MMPDU_STATUS_CODE_UNSUPP_FINITE_CYCLIC_GROUP];
  cbn [Z.eqb Pos.eqb negb andb orb].

(** ** Receiving a commit *)

Lemma scalar_roundtrip c v rest :
  1 < v < ecc_order c → l_ecc_scalar_new c (l_ecc_scalar_get_data (mk_scalar c v) ++ rest) = Ok (Some (mk_scalar c v)).
Proof.
  intros Hv. unfold l_ecc_scalar_new. rewrite rdn_app by (by rewrite scalar_data_zlen).
  cbn [mbind res_bind]. unfold l_ecc_scalar_get_data. cbn [s_curve s_val].
  pose proof (ecc_order_range c). pose proof (ecc_bytes_range c).
  rewrite be_val_bytes, Z2Nat.id, Z.mod_small by lia.
  destruct (Z.ltb_spec 1 v), (Z.ltb_spec v (ecc_order c)); done || lia.
Qed.

Lemma point_roundtrip c Q rest :
  ecc_valid c Q = true →
  l_ecc_point_from_data c L_ECC_POINT_TYPE_FULL (l_ecc_point_get_data (mk_point c Q) ++ rest)
    (ecc_bytes c * 2) = Ok (Some (mk_point c Q)).
Proof.
  intros HQ. unfold l_ecc_point_from_data. rewrite rdn_app by (by rewrite point_data_zlen).
  cbn [mbind res_bind]. unfold l_ecc_point_get_data. cbn [p_curve p_elem]. by rewrite ecc_from_full.
Qed.

(** CN(kck, sc, s1, e1, s2, e2) *)
Definition cn (kck : list Z) (sc : Z) (s1 : scalar) (e1 : point) (s2 : scalar) (e2 : point) : list Z :=
  hmac256 kck (le16_bytes sc ++ l_ecc_scalar_get_data s1 ++ l_ecc_point_get_data e1
               ++ l_ecc_scalar_get_data s2 ++ l_ecc_point_get_data e2).

Lemma sae_cn_ok kck sc s1 e1 s2 e2 s :
  sha256_available →
  sae_cn kck sc (Some s1) (Some e1) (Some s2) (Some e2) s = Ok (Some (cn kck sc s1 e1 s2 e2), s).
Proof.
  intros Ha. pose proof (λ d, hmac256_zlen kck d Ha) as Hl.
  unfold sae_cn, cn, hmac256 in *. destruct (Ha kck) as [h Hh]. rewrite Hh in *.
  sr_eval. by rewrite ptake_all by (rewrite Hl; lia).
Qed.

Definition confirm_ies (sc : Z) (mac : list Z) : list Z := le16_bytes sc ++ mac.

(** The state after the peer's commit was accepted. *)
Definition after_commit (s : sae_sm) (kck pmk pmkid : list Z) (sc : scalar) (el : point)
    (p_scalar : scalar) (p_element : point) : sae_sm :=
  let sc' := u16 (sae_sc s + 1) in
  s <| sae_p_scalar := Some p_scalar |> <| sae_p_element := Some p_element |> <| sae_sc := sc' |>
    <| sae_kck := kck |> <| sae_pmk := pmk |> <| sae_pmkid := pmkid |>
    <| sae_state := SAE_STATE_CONFIRMED |>
    <| sae_out := sae_out s ++ [TxAuth (le16_bytes 2 ++ le16_bytes 0
                                 ++ confirm_ies sc' (cn kck sc' sc el p_scalar p_element))] |>.

Lemma sae_rx_commit s c g P r m sv Q kck pmk pmkid :
  sha256_available → committed s c g P r m → 0 ≤ g < 65536 →
  1 < sv < ecc_order c → ecc_valid c Q = true →
  sv ≠ (r + m) mod ecc_order c → ecc_elem_eqb Q (ecc_neg c (ecc_mul c m P)) = false →
  keys_of c (ecc_coords c (ecc_mul c r (ecc_add c (ecc_mul c sv P) Q))).1
    (((r + m) mod ecc_order c + sv) mod ecc_order c) = (kck, pmk, pmkid) →
  let ies := commit_ies g None (mk_scalar c sv) (mk_point c Q) in
  sae_rx_body E 1 0 ies (zlen ies) s
  = Ok (0, after_commit s kck pmk pmkid (mk_scalar c ((r + m) mod ecc_order c))
             (mk_point c (ecc_neg c (ecc_mul c m P))) (mk_scalar c sv) (mk_point c Q)).
Proof.
  intros Ha [Hst Hcu Hg Hpwe Hrand Hsc Hel] Hgr Hsv HQ Hne Hneq Hk. cbv zeta.
  set (ies := commit_ies _ _ _ _).
  assert (Lies : zlen ies = 2 + ecc_bytes c * 3).
  { unfold ies, commit_ies. cbn [default].
    rewrite !zlen_app, zlen_le16_bytes, zlen_nil, scalar_data_zlen, point_data_zlen. cbn [s_curve p_curve]. lia. }
  assert (Hle : l_get_le16 ies = Ok g) by (by apply l_get_le16_bytes).
  assert (Hs1 : l_ecc_scalar_new c (ies +! 2) = Ok (Some (mk_scalar c sv))).
  { unfold ies, commit_ies. rewrite padd_app by done. by apply scalar_roundtrip. }
  assert (He1 : l_ecc_point_from_data c L_ECC_POINT_TYPE_FULL (ies +! (2 + ecc_bytes c)) (ecc_bytes c * 2)
                = Ok (Some (mk_point c Q))).
  { unfold ies, commit_ies. cbn [default]. rewrite app_nil_l, app_assoc, padd_app by
      (by rewrite zlen_app, zlen_le16_bytes, scalar_data_zlen).
    rewrite <- (app_nil_r (l_ecc_point_get_data _)). by apply point_roundtrip. }
  clearbody ies. pose proof (ecc_bytes_range c). apply wp_eq.
  unfold sae_rx_body, sae_verify_packet. sr_seq. rewrite Hst. sae_consts.
  unfold sae_verify_committed. sr_seq. sae_consts. destruct (Z.ltb_spec (zlen ies) 2); [lia |]. sr_seq.
  eapply wp_run; [exact Hle |]. rewrite Hg, Z.eqb_refl. sr_seq. sae_consts.
  unfold sae_process_commit. sr_seq. rewrite Hcu. eapply wp_run; [done |]. cbv zeta. rewrite Hst. sae_consts.
  destruct (Z.ltb_spec (zlen ies) (ecc_bytes c + ecc_bytes c * 2 + 2)); [lia |]. sr_seq.
  eapply wp_run; [exact Hle |]. rewrite Hg, Z.eqb_refl. sae_consts. sr_seq.
  eapply wp_run; [exact Hs1 |]. sr_seq. eapply wp_run; [exact He1 |]. sr_seq.
  rewrite Hsc, Hel, Hpwe, Hrand. cbn [from_option]. unfold l_ecc_scalars_are_equal, l_ecc_points_are_equal.
  cbn [s_val p_elem]. rewrite Hneq. destruct (Z.eqb_spec sv ((r + m) mod ecc_order c)); [done |]. sae_consts. sr_seq.
  rewrite sae_keys_of, Hk by done. sr_seq. unfold sae_send_confirm. sr_seq.
  cbn -[sae_cn]. rewrite Hsc, Hel.
  eapply wp_ok; [by apply sae_cn_ok |]. unfold tx_auth. sr_seq. done.
Qed.

(** ** Receiving a confirm *)

(** The state after the peer's confirm was accepted. *)
Definition after_confirm (s : sae_sm) (rc : Z) : sae_sm :=
  s <| sae_rc := rc |> <| sae_sc := 0xffff |>
    <| sae_hs := (sae_hs s) <| hs_pmkid := sae_pmkid s |> <| hs_have_pmkid := true |>
                   <| hs_pmk := sae_pmk s ++ (hs_pmk (sae_hs s) +! 32) |> <| hs_pmk_len := 32 |>
                   <| hs_have_pmk := true |> |>
    <| sae_state := SAE_STATE_ACCEPTED |> <| sae_out := sae_out s ++ [TxAssoc] |>.

Lemma confirm_ies_zlen sc kck s1 e1 s2 e2 n :
  sha256_available → zlen (confirm_ies sc (cn kck n s1 e1 s2 e2)) = 34.
Proof.
  intros. unfold confirm_ies, cn. rewrite zlen_app, zlen_le16_bytes, hmac256_zlen by done. lia.
Qed.

Lemma sae_rx_confirm s rc sc el ps pe :
  sha256_available → 0 ≤ rc < 65536 →
  sae_state s = SAE_STATE_CONFIRMED →
  sae_scalar s = Some sc → sae_element s = Some el →
  sae_p_scalar s = Some ps → sae_p_element s = Some pe →
  zlen (sae_pmkid s) = 16 → zlen (sae_pmk s) = 32 → 32 ≤ zlen (hs_pmk (sae_hs s)) →
  let ies := confirm_ies rc (cn (sae_kck s) rc ps pe sc el) in
  sae_rx_body E 2 0 ies (zlen ies) s = Ok (0, after_confirm s rc).
Proof.
  intros Ha Hrc Hst Hs He Hps Hpe Hid Hpmk Hhs. cbv zeta. rewrite confirm_ies_zlen by done.
  set (ies := confirm_ies _ _).
  assert (Hle : l_get_le16 ies = Ok rc) by (by apply l_get_le16_bytes).
  assert (Hm : memeq (ies +! 2) (cn (sae_kck s) rc ps pe sc el) = Ok true).
  { unfold ies, confirm_ies. rewrite padd_app by done. rewrite <- (app_nil_r (cn _ _ _ _ _ _)) at 1.
    apply memeq_app. }
  clearbody ies. apply wp_eq.
  unfold sae_rx_body, sae_verify_packet. sr_seq. rewrite Hst. sae_consts.
  unfold sae_verify_confirmed. sr_seq. sae_consts. sr_seq. sae_consts.
  unfold sae_process_confirm. sr_seq. rewrite Hst. sae_consts. cbn [Z.ltb Z.compare Pos.compare Pos.compare_cont].
  unfold sae_verify_confirm. sr_seq. eapply wp_run; [exact Hle |]. sr_seq. rewrite Hs, He, Hps, Hpe.
  eapply wp_ok; [by apply sae_cn_ok |]. sr_seq. eapply wp_run; [exact Hm |]. sae_consts. sr_seq.
  sae_consts. sr_seq.
  cbn -[handshake_state_set_pmkid handshake_state_set_pmk].
  unfold handshake_state_set_pmkid, handshake_state_set_pmk.
  eapply wp_run; [by rewrite rdn_ok, ptake_all by lia |]. sr_seq.
  eapply wp_run; [rewrite rdn_ok, ptake_all, bind_ok by lia; cbn -[put]; by rewrite put_first by lia |].
  unfold tx_assoc. sr_seq. rewrite Hpmk. done.
Qed.

(** ** Whole frames *)

(** An authentication frame of the SAE algorithm around what [tx_auth] was given: [addrs] are
    the duration, the addresses and the sequence number. *)
Definition auth_frame (addrs body : list Z) : list Z :=
  [0xb0; 0] ++ addrs ++ le16_bytes MMPDU_AUTH_ALGO_SAE ++ body.

Lemma sae_rx_frame addrs trans ies s :
  zlen addrs = 22 → 0 ≤ trans < 65536 →
  let f := auth_frame addrs (le16_bytes trans ++ le16_bytes 0 ++ ies) in
  sae_rx_authenticate E f (zlen f) s = sae_rx_body E trans 0 ies (zlen ies) s.
Proof.
  intros La Ht. set (body := le16_bytes MMPDU_AUTH_ALGO_SAE ++ le16_bytes trans ++ le16_bytes 0 ++ ies).
  set (f := auth_frame _ _). cbv zeta.
  assert (Hf : f +! 24 = body).
  { unfold f, auth_frame. rewrite app_assoc, padd_app by (rewrite zlen_app, La; done). done. }
  assert (Lf : zlen f = 30 + zlen ies).
  { unfold f, auth_frame. rewrite !zlen_app, La, !zlen_le16_bytes. change (zlen [176; 0]) with 2. lia. }
  assert (Ho : fc_order f = Ok false) by done.
  assert (H0 : l_get_le16 body = Ok MMPDU_AUTH_ALGO_SAE) by (by apply l_get_le16_bytes).
  assert (H2 : l_get_le16 (body +! 2) = Ok trans).
  { unfold body. rewrite padd_app by done. by apply l_get_le16_bytes. }
  assert (H4 : l_get_le16 (body +! 4) = Ok 0).
  { unfold body. rewrite app_assoc, padd_app by done. by apply l_get_le16_bytes. }
  assert (H6 : body +! 6 = ies) by (unfold body; by rewrite !app_assoc, padd_app by done).
  assert (Hv : mpdu_validate (Some f) (zlen f) = Ok (Some f)).
  { unfold mpdu_validate. pose proof (zlen_nonneg ies).
    destruct (Z.ltb_spec (zlen f) 2); [lia |]. change (fc_type f) with (Ok 0). rewrite bind_ok.
    change (0 =? MPDU_TYPE_MANAGEMENT) with true. cbv iota.
    assert (validate_mgmt_mpdu f (zlen f) 2 = Ok true) as ->; [| done].
    unfold validate_mgmt_mpdu, validate_mgmt_header. destruct (Z.ltb_spec (zlen f) (2 + 22)); [lia |].
    rewrite Ho, bind_ok. cbn [negb]. rewrite bind_ok. change (fc_subtype f) with (Ok 11). rewrite bind_ok.
    change (validate_authentication_mmpdu f (zlen f) (2 + 22) = Ok true).
    unfold validate_authentication_mmpdu. change (2 + 22) with 24. rewrite Hf, H4, H0.
    destruct (Z.ltb_spec (zlen f) (24 + 6)); [lia |].
    change (Ok (24 + 6 <=? zlen f) = Ok true). f_equal. apply Z.leb_le. lia. }
  unfold sae_rx_authenticate, mmpdu_body, mmpdu_header_len. clearbody f.
  rewrite (run_bind_ok _ _ _ _ Hv), Ho.
  rewrite (run_bind_ok _ _ _ (f +! 24)) by done. rewrite (run_bind_ok _ _ _ 24) by done.
  rewrite Hf, (run_bind_ok _ _ _ _ H2), (run_bind_ok _ _ _ _ H4), H6, Lf.
  by replace (30 + zlen ies - 24 - 6) with (zlen ies) by lia.
Qed.
End facts.

(** ** The exchange *)

Section exchange.
Context {ell : Ell} {laws : EllLaws ell} {ecc : Ecc} {eccl : EccLaws ecc}.

(** The fields of the commit of a party with the secrets [r] and [m]. *)
Definition party_ies (c : l_ecc_curve) (g : Z) (P : ecc_elem) (r m : Z) : list Z :=
  commit_ies g None (mk_scalar c ((r + m) mod ecc_order c)) (mk_point c (ecc_neg c (ecc_mul c m P))).

(** The shared keys of two parties. *)
Definition party_keys (c : l_ecc_curve) (P : ecc_elem) (r m r' m' : Z) : list Z * list Z * list Z :=
  keys_of c (ecc_coords c (ecc_mul c (r * r') P)).1
    (((r + m) mod ecc_order c + (r' + m') mod ecc_order c) mod ecc_order c).

Lemma party_keys_comm c P r m r' m' : party_keys c P r m r' m' = party_keys c P r' m' r m.
Proof. unfold party_keys. by rewrite (Z.mul_comm r), (Z.add_comm ((r + m) mod _)). Qed.

(** One side of the first half: the peer's commit is answered by a confirm. *)
Lemma party_rx_commit E s c g P r m r' m' kck pmk pmkid addrs :
  sha256_available → committed s c g P r m → 0 ≤ g < 65536 → ecc_valid c P = true →
  good_secrets c r m → good_secrets c r' m' →
  (r + m) mod ecc_order c ≠ (r' + m') mod ecc_order c →
  ecc_elem_eqb (ecc_neg c (ecc_mul c m' P)) (ecc_neg c (ecc_mul c m P)) = false →
  party_keys c P r m r' m' = (kck, pmk, pmkid) → zlen addrs = 22 →
  let f := auth_frame addrs (le16_bytes 1 ++ le16_bytes 0 ++ party_ies c g P r' m') in
  sae_rx_authenticate E f (zlen f) s
  = Ok (0, after_commit s kck pmk pmkid (mk_scalar c ((r + m) mod ecc_order c))
             (mk_point c (ecc_neg c (ecc_mul c m P))) (mk_scalar c ((r' + m') mod ecc_order c))
             (mk_point c (ecc_neg c (ecc_mul c m' P)))).
Proof.
  intros Ha Hc Hg HP Hs Hs' Hne Hne' Hk La. cbv zeta. rewrite sae_rx_frame by (done || lia).
  pose proof (ecc_order_range c). destruct Hs' as [? Hm' ? ?] eqn:HE.
  apply (sae_rx_commit E s c g P r m ((r' + m') mod ecc_order c)); try done.
  - split; [done |]. apply Z.mod_pos_bound. lia.
  - rewrite ecc_mul_neg by done. apply ecc_mul_valid; [done |]. apply mod_opp_ne; [lia | done].
  - by rewrite shared_secret by (done || apply Hs).
Qed.

Lemma keys_of_zlen c k sum kck pmk pmkid :
  sha256_available → keys_of c k sum = (kck, pmk, pmkid) → zlen pmk = 32 ∧ zlen pmkid = 16.
Proof.
  intros Ha [= <- <- <-]. pose proof (ecc_bytes_range c). split.
  - rewrite !digests_cons, padd_app, ptake_app by (by rewrite hmac256_zlen). by apply hmac256_zlen.
  - apply zlen_ptake. rewrite be_bytes_zlen; lia.
Qed.

(** C9: Two parties that sent a commit for the same group, the same password element and different
    secrets accept each other: each one's commit is answered with a confirm which the other
    accepts, both end in the accepted state, ask for the association, and have handed the same
    PMK and PMKID to their handshakes.  The secrets are such that no two points added have the
    same x-coordinate. *)
Theorem sae_exchange_agrees EA EB A B c g P rA mA rB mB addrs :
  sha256_available → committed A c g P rA mA → committed B c g P rB mB →
  sae_token A = None → sae_token B = None →
  0 ≤ g < 65536 → ecc_valid c P = true → good_secrets c rA mA → good_secrets c rB mB →
  (rA + mA) mod ecc_order c ≠ (rB + mB) mod ecc_order c →
  ecc_elem_eqb (ecc_neg c (ecc_mul c mB P)) (ecc_neg c (ecc_mul c mA P)) = false →
  ecc_elem_eqb (ecc_neg c (ecc_mul c mA P)) (ecc_neg c (ecc_mul c mB P)) = false →
  32 ≤ zlen (hs_pmk (sae_hs A)) → 32 ≤ zlen (hs_pmk (sae_hs B)) → zlen addrs = 22 →
  let rx E body s := sae_rx_authenticate E (auth_frame addrs body) (zlen (auth_frame addrs body)) s in
  ∃ comA comB A1 B1 conA conB A2 B2,
    commit_frame EA A A = Ok (comA, A) ∧ commit_frame EB B B = Ok (comB, B)
    ∧ rx EA comB A = Ok (0, A1) ∧ rx EB comA B = Ok (0, B1)
    ∧ sae_out A1 = sae_out A ++ [TxAuth conA] ∧ sae_out B1 = sae_out B ++ [TxAuth conB]
    ∧ rx EA conB A1 = Ok (0, A2) ∧ rx EB conA B1 = Ok (0, B2)
    ∧ sae_state A2 = SAE_STATE_ACCEPTED ∧ sae_state B2 = SAE_STATE_ACCEPTED
    ∧ sae_out A2 = sae_out A1 ++ [TxAssoc] ∧ sae_out B2 = sae_out B1 ++ [TxAssoc]
    ∧ ptake (hs_pmk (sae_hs A2)) 32 = ptake (hs_pmk (sae_hs B2)) 32
    ∧ zlen (ptake (hs_pmk (sae_hs A2)) 32) = 32
    ∧ hs_pmkid (sae_hs A2) = hs_pmkid (sae_hs B2).
Proof.
  intros Ha HA HB HtA HtB Hg HP HsA HsB Hne Hne1 Hne2 HhA HhB La rx.
  destruct (party_keys c P rA mA rB mB) as [[kck pmk] pmkid] eqn:Hk.
  pose proof Hk as Hk'. rewrite party_keys_comm in Hk'.
  destruct (keys_of_zlen _ _ _ _ _ _ Ha Hk) as [Lp Lid].
  pose proof (commit_frame_ok EA A A _ _ (co_scalar _ _ _ _ _ _ HA) (co_element _ _ _ _ _ _ HA)) as FA.
  pose proof (commit_frame_ok EB B B _ _ (co_scalar _ _ _ _ _ _ HB) (co_element _ _ _ _ _ _ HB)) as FB.
  rewrite HtA, (co_group _ _ _ _ _ _ HA) in FA. rewrite HtB, (co_group _ _ _ _ _ _ HB) in FB.
  cbn [from_option] in FA, FB.
  pose proof (party_rx_commit EA A c g P rA mA rB mB kck pmk pmkid addrs Ha HA Hg HP HsA HsB Hne Hne1 Hk La) as RA.
  pose proof (party_rx_commit EB B c g P rB mB rA mA kck pmk pmkid addrs Ha HB Hg HP HsB HsA (not_eq_sym Hne) Hne2 Hk' La) as RB.
  cbv zeta in RA, RB. set (A1 := after_commit A _ _ _ _ _ _ _) in RA. set (B1 := after_commit B _ _ _ _ _ _ _) in RB.
  do 2 eexists. exists A1, B1. do 2 eexists. exists (after_confirm A1 (u16 (sae_sc B + 1))), (after_confirm B1 (u16 (sae_sc A + 1))).
  split_and!; [apply FA; lia | apply FB; lia | exact RA | exact RB | reflexivity | reflexivity | ..].
  all: unfold rx; try (cbn; rewrite ?ptake_app by done; done).
  - rewrite sae_rx_frame by (done || lia).
    eapply (sae_rx_confirm EA A1); try done; apply u16_range || (cbn; apply HA).
  - rewrite sae_rx_frame by (done || lia).
    eapply (sae_rx_confirm EB B1); try done; apply u16_range || (cbn; apply HB).
Qed.
End exchange.
