(* ===== verification/SaePwe.v ===== *)
(** * SAE: the search for the password element (sae_compute_pwe of src/sae.c)

    The constant-time loop, which always makes 30 rounds on masked values, finds what the
    plain loop [hunt] finds: the first candidate that is the x-coordinate of a point. *)

From stdpp Require Import base numbers list option.
From Stdlib Require Import ZArith Lia.
From S2P Require Import Prelude IeTlv IeRsn IeMisc Crypto Kdf Handshake Mpdu StRes Ecc Sae SaeSpec.

Open Scope Z_scope.

(** ** Masks *)

Lemma select_byte_0 t f : byte_ok f → util_secure_select_byte 0 t f = f.
Proof.
  intros Hf. unfold util_secure_select_byte. change (Z.lnot 0) with (-1).
  rewrite Z.land_0_l, Z.lor_0_l, Z.land_m1_l. by apply u8_small.
Qed.

Lemma select_byte_255 t f : byte_ok t → byte_ok f → util_secure_select_byte 255 t f = t.
Proof.
  intros Ht Hf. unfold util_secure_select_byte, byte_ok in *.
  assert (Z.land (Z.lnot 255) f = 0) as ->.
  { rewrite Z.land_comm, <- Z.ldiff_land. change 255 with (Z.ones 8).
    rewrite Z.ldiff_ones_r, Z.shiftr_div_pow2, Z.div_small by lia. done. }
  rewrite Z.lor_0_r, Z.land_comm. change 255 with (Z.ones 8). rewrite Z.land_ones by lia.
  unfold u8. rewrite Z.mod_mod by done. by apply Z.mod_small.
Qed.

Lemma zip_select_0 t f : length t = length f → bytes_ok f → zip_with (util_secure_select_byte 0) t f = f.
Proof.
  revert f. induction t as [|x t IH]; intros [|y f] Hl Hf; try done.
  inversion Hf; subst. cbn. f_equal; [by apply select_byte_0 | by apply IH; [injection Hl |]].
Qed.

Lemma zip_select_255 t f :
  length t = length f → bytes_ok t → bytes_ok f → zip_with (util_secure_select_byte 255) t f = t.
Proof.
  revert f. induction t as [|x t IH]; intros [|y f] Hl Ht Hf; try done.
  inversion Hf; inversion Ht; subst. cbn.
  f_equal; [by apply select_byte_255 | by apply IH; [injection Hl | |]].
Qed.

(** The mask selects one of two buffers of the size given. *)
Lemma secure_select_ok (b : bool) t f n :
  zlen t = n → zlen f = n → bytes_ok t → bytes_ok f →
  util_secure_select (if b then 255 else 0) t f n = Ok (if b then t else f).
Proof.
  intros Lt Lf Ht Hf. pose proof (zlen_nonneg t). unfold util_secure_select.
  rewrite !rdn_ok, !ptake_all, !bind_ok by lia. f_equal. unfold zlen in *.
  destruct b; [apply zip_select_255 | apply zip_select_0]; try done; lia.
Qed.

(** The comparison in constant time has the sign of the difference of the numbers. *)
Lemma memcmp_round_spec a b res : byte_ok a → byte_ok b →
  memcmp_round a b res = if a =? b then res else a - b.
Proof.
  unfold byte_ok, memcmp_round. intros Ha Hb. cbv zeta. destruct (Z.eqb_spec a b) as [->|Hne].
  { rewrite Z.sub_diag. change (Z.shiftr (Z.land (0 - 1) (Z.lnot 0)) 8) with (-1).
    by rewrite Z.land_m1_r, Z.lor_0_r. }
  assert (Z.shiftr (Z.land (a - b - 1) (Z.lnot (a - b))) 8 = 0) as ->.
  { rewrite Z.shiftr_land. unfold Z.lnot. destruct (Z.lt_ge_cases (a - b) 0).
    - rewrite (Z.shiftr_div_pow2 (Z.pred (- (a - b)))), (Z.div_small (Z.pred _)) by (cbn; lia). apply Z.land_0_r.
    - rewrite (Z.shiftr_div_pow2 (a - b - 1)), (Z.div_small (a - b - 1)) by (cbn; lia). apply Z.land_0_l. }
  by rewrite Z.land_0_r.
Qed.

Lemma secure_memcmp_spec a b : zlen a = zlen b → bytes_ok a → bytes_ok b →
  -256 < l_secure_memcmp a b < 256 ∧ (l_secure_memcmp a b < 0 ↔ be_val a < be_val b).
Proof.
  unfold zlen. intros Hl Ha Hb. revert b Hl Hb. induction Ha as [|x a Hx Ha IH]; intros [|y b] Hl Hb; try done.
  inversion Hb as [|? ? Hy Hb']; subst. cbn in Hl. destruct (IH b) as [Hr Hs]; [lia | done |].
  unfold l_secure_memcmp in *. cbn [zip zip_with foldr fst snd]. rewrite memcmp_round_spec by done.
  rewrite !be_val_cons. pose proof (be_val_range a Ha). pose proof (be_val_range b Hb').
  assert (Hz : zlen a = zlen b) by (unfold zlen; lia). rewrite Hz in *.
  unfold byte_ok in *. destruct (Z.eqb_spec x y) as [->|Hne]; [split; [done | rewrite Hs; lia] |].
  split; [lia |]. destruct (Z.lt_ge_cases x y); split; intros; try lia; nia.
Qed.

Lemma in_range_mask a b : zlen a = zlen b → bytes_ok a → bytes_ok b →
  u8 (util_secure_fill_with_msb (l_secure_memcmp a b)) = if be_val a <? be_val b then 255 else 0.
Proof.
  intros Hl Ha Hb. destruct (secure_memcmp_spec a b Hl Ha Hb) as [Hr Hs].
  unfold util_secure_fill_with_msb. rewrite Z.shiftr_div_pow2 by lia.
  destruct (Z.ltb_spec (be_val a) (be_val b)) as [Hlt|Hge].
  - apply Hs in Hlt. assert (u32 (l_secure_memcmp a b) / 2 ^ 31 = 1) as ->; [| done].
    unfold u32. replace (l_secure_memcmp a b) with (l_secure_memcmp a b + 2 ^ 32 + (-1) * 2 ^ 32) by lia.
    rewrite Z.mod_add, Z.mod_small by lia. symmetry. apply (Z.div_unique _ _ _ (l_secure_memcmp a b + 2 ^ 31)); lia.
  - assert (0 ≤ l_secure_memcmp a b) by lia. by rewrite (u32_small (l_secure_memcmp a b)), Z.div_small by lia.
Qed.

Section pwe.
Context {ell : Ell} {laws : EllLaws ell} {ecc : Ecc} {eccl : EccLaws ecc}.
Variable E : sae_env.
Variable c : l_ecc_curve.
Context (sha256 : sha256_available).

(** The random numbers are bytes and units of the field, and both kinds of residues come up. *)
Record env_ok : Prop := {
  env_scalar t : 1 < rnd_scalar E t c < Z.min (ecc_prime c) (ecc_order c);
  env_residue t want : want = 1 ∨ want = -1 →
    ∃ k, (k < residue_fuel E)%nat ∧ ecc_legendre c (rnd_scalar E (t + k) c) = want;
  env_bytes t n : length (rnd_bytes E t n) = n ∧ bytes_ok (rnd_bytes E t n);
  env_junk i : byte_ok (sae_junk E i);
}.

(** ** The plain search *)

Definition seed_of (addr1 addr2 base : list Z) (counter : Z) : list Z :=
  hmac256 (if bytes_lt addr2 addr1 then addr1 ++ addr2 else addr2 ++ addr1) (base ++ [counter]).

(** KDF-n(seed, "SAE Hunting and Pecking", p) *)
Definition pwd_bytes (seed : list Z) : list Z :=
  default [] (kdf_sha256 seed label_hunting (prime_data c) (zeros (Z.to_nat (ecc_bytes c)))).

(** The candidate of a seed: [qnr] takes the place of a value that is not in the field. *)
Definition candidate (qnr : Z) (seed : list Z) : Z :=
  let v := be_val (pwd_bytes seed) in if v <? ecc_prime c then v else qnr.

Definition is_x (v : Z) : bool := ecc_legendre c (ecc_sum_x c v) =? 1.

(** The x-coordinate and the parity of y. *)
Fixpoint hunt (n : nat) (qnr : Z) (password addr1 addr2 : list Z) (counter : Z) : option (Z * bool) :=
  match n with
  | O => None
  | S n' =>
      let seed := seed_of addr1 addr2 password counter in
      if is_x (candidate qnr seed) then Some (candidate qnr seed, Z.odd (nth 31 seed 0))
      else hunt n' qnr password addr1 addr2 (counter + 1)
  end.

(** The numbers that [l_ecc_scalar_new] takes: neither 0 nor 1, and below the order. *)
Definition is_scalar (v : Z) : bool := (1 <? v) && (v <? ecc_order c).

(** The 30 rounds of the code: once a point has been found the password is replaced by random
    bytes.  [None] if one of the numbers derived is not a scalar: [l_ecc_scalar_new] returns
    NULL for it, and [sae_compute_pwe] dereferences what it returns. *)
Fixpoint rounds (n : nat) (qnr : Z) (password dummy addr1 addr2 : list Z) (counter : Z)
    (found : option (Z * bool)) : option (option (Z * bool)) :=
  match n with
  | O => Some found
  | S n' =>
      let seed := seed_of addr1 addr2 (match found with Some _ => dummy | None => password end) counter in
      let v := candidate qnr seed in
      if negb (is_scalar v) then None
      else rounds n' qnr password dummy addr1 addr2 (counter + 1)
             (match found with
              | Some _ => found
              | None => if is_x v then Some (v, Z.odd (nth 31 seed 0)) else None
              end)
  end.

Lemma rounds_found n qnr password dummy addr1 addr2 counter f r :
  rounds n qnr password dummy addr1 addr2 counter (Some f) = Some r → r = Some f.
Proof.
  revert counter. induction n as [|n IH]; intros counter; cbn [rounds]; [by intros [= <-] |].
  destruct (negb _); [done | apply IH].
Qed.

(** The rounds find what the plain search finds, unless they meet a number that is no scalar. *)
Lemma rounds_hunt n qnr password dummy addr1 addr2 counter r :
  rounds n qnr password dummy addr1 addr2 counter None = Some r →
  r = hunt n qnr password addr1 addr2 counter.
Proof.
  revert counter. induction n as [|n IH]; intros counter; cbn [rounds hunt]; [by intros [= <-] |].
  destruct (negb _); [done |]. destruct (is_x _); [apply rounds_found | apply IH].
Qed.

Lemma rounds_scalars n qnr password dummy addr1 addr2 counter found :
  (∀ seed, is_scalar (candidate qnr seed) = true) →
  rounds n qnr password dummy addr1 addr2 counter found ≠ None.
Proof.
  intros Hs. revert counter found. induction n as [|n IH]; intros counter found; cbn [rounds]; [done |].
  rewrite Hs. apply IH.
Qed.

(** ** The rounds *)

Context (env : env_ok).

Lemma pwd_bytes_ok seed out :
  zlen out = ecc_bytes c →
  kdf_sha256 seed label_hunting (prime_data c) out = Some (pwd_bytes seed)
  ∧ zlen (pwd_bytes seed) = ecc_bytes c ∧ bytes_ok (pwd_bytes seed).
Proof.
  intros Lo. pose proof (ecc_bytes_range c). destruct (sha256 seed) as [h Hh].
  assert (Lz : zlen (zeros (Z.to_nat (ecc_bytes c))) = ecc_bytes c) by (unfold zeros; apply zlen_replicate; lia).
  unfold pwd_bytes. rewrite !(kdf_sha256_digests _ _ _ _ h Hh), Lo, Lz. cbn [default]. split; [done |].
  set (n := Z.to_nat _).
  assert (Hd : ∀ i k msg, zlen (digests h msg i k) = 32 * Z.of_nat k ∧ bytes_ok (digests h msg i k)).
  { intros i k msg. revert i. induction k as [|k IH]; intros i; [by split; [| constructor] |].
    rewrite digests_cons, zlen_app. destruct (hmac_ok _ _ _ (msg i) Hh) as [-> Hb]. cbn [l_checksum_digest_length].
    destruct (IH (i + 1)) as [-> ?]. split; [lia | by apply Forall_app]. }
  destruct (Hd 0 n (λ i, le16_bytes (i + 1) ++ label_hunting ++ prime_data c ++ le16_bytes (ecc_bytes c * 8))) as [Hn Hb].
  split; [| by apply ptake_Forall]. apply zlen_ptake. rewrite Hn. split; [lia |].
  unfold n. rewrite Z2Nat.id by (apply Z.div_pos; lia).
  pose proof (Z_div_mod_eq_full (ecc_bytes c + 31) 32).
  pose proof (Z.mod_pos_bound (ecc_bytes c + 31) 32 ltac:(lia)). lia.
Qed.

Definition qnr_buf (qnr : Z) : list Z :=
  be_bytes (Z.to_nat (ecc_bytes c)) qnr ++ zeros (Z.to_nat (L_ECC_SCALAR_MAX_BYTES - ecc_bytes c)).

Lemma prime_val : be_val (prime_data c) = ecc_prime c.
Proof.
  unfold prime_data. pose proof (ecc_bytes_range c). pose proof (ecc_prime_range c).
  rewrite be_val_bytes, Z2Nat.id by lia. apply Z.mod_small. lia.
Qed.

Lemma candidate_range qnr seed :
  1 < qnr < Z.min (ecc_prime c) (ecc_order c) → 0 ≤ candidate qnr seed < ecc_prime c.
Proof.
  intros Hq. unfold candidate. destruct (Z.ltb_spec (be_val (pwd_bytes seed)) (ecc_prime c)); [| lia].
  pose proof (ecc_bytes_range c) as Hb. unfold L_ECC_SCALAR_MAX_BYTES in Hb.
  assert (Lz : zlen (zeros (Z.to_nat (ecc_bytes c))) = ecc_bytes c) by (unfold zeros; apply zlen_replicate; lia).
  destruct (pwd_bytes_ok seed _ Lz) as (_ & _ & Hv). pose proof (be_val_range _ Hv). lia.
Qed.

Lemma scalar_new_ok l k :
  zlen l = ecc_bytes c →
  l_ecc_scalar_new c (l ++ k) =
    Ok (if is_scalar (be_val l) then Some (mk_scalar c (be_val l)) else None).
Proof.
  intros Ll. unfold l_ecc_scalar_new. rewrite rdn_app by done. cbn [mbind res_bind]. unfold is_scalar.
  by destruct (_ && _).
Qed.

Lemma qnr_buf_ok qnr : zlen (qnr_buf qnr) = 48 ∧ bytes_ok (qnr_buf qnr).
Proof.
  pose proof (ecc_bytes_range c). unfold qnr_buf, zeros, L_ECC_SCALAR_MAX_BYTES in *.
  rewrite zlen_app, be_bytes_zlen, zlen_replicate by lia. split; [lia |].
  apply Forall_app. split; [apply be_bytes_ok |]. apply Forall_replicate. by split.
Qed.

Lemma be_val_small v : 0 ≤ v < 256 ^ ecc_bytes c → be_val (be_bytes (Z.to_nat (ecc_bytes c)) v) = v.
Proof. intros. pose proof (ecc_bytes_range c). rewrite be_val_bytes, Z2Nat.id by lia. by apply Z.mod_small. Qed.

Lemma pwd_value_ok qnr seed :
  1 < qnr < Z.min (ecc_prime c) (ecc_order c) →
  sae_pwd_value E c seed (qnr_buf qnr) =
    Ok (if is_scalar (candidate qnr seed) then Some (mk_scalar c (candidate qnr seed)) else None).
Proof.
  intros Hq. pose proof (ecc_bytes_range c). pose proof (ecc_order_range c). pose proof (ecc_prime_range c).
  unfold L_ECC_SCALAR_MAX_BYTES in *.
  set (junk := l_malloc (sae_junk E) 48). assert (Lj : zlen junk = 48) by (by apply l_malloc_length).
  assert (Hj : bytes_ok junk) by (apply Forall_fmap, Forall_true; intros; apply env).
  destruct (pwd_bytes_ok seed (ptake junk (ecc_bytes c))) as (Hk & Lv & Hv); [rewrite zlen_ptake; lia |].
  unfold sae_pwd_value. change L_ECC_SCALAR_MAX_BYTES with 48. fold junk.
  rewrite rdn_ok, bind_ok by lia. rewrite Hk. cbv zeta.
  rewrite in_range_mask, prime_val by (done || apply be_bytes_ok || (unfold prime_data; rewrite be_bytes_zlen; lia)).
  set (b := be_val (pwd_bytes seed) <? ecc_prime c).
  destruct (qnr_buf_ok qnr) as [Lq Hqb].
  rewrite secure_select_ok, bind_ok by
    (done || (by apply Forall_app; auto with iwd) || (rewrite zlen_app, zlen_padd; lia)).
  unfold candidate. fold b. destruct b; [by apply scalar_new_ok |].
  unfold qnr_buf. by rewrite scalar_new_ok; rewrite ?be_bytes_zlen, ?be_val_small by lia.
Qed.

(** The blinded test: [r] is a unit, and so are the two residues. *)
Lemma residue_ok v qr qnr s :
  0 ≤ v < ecc_prime c → ecc_legendre c qr = -1 → ecc_legendre c qnr = 1 →
  ∃ n, sae_is_quadradic_residue E c (Some (mk_scalar c v)) (mk_scalar c qr) (mk_scalar c qnr) s
       = Ok (if is_x v then 1 else 0, s <| sae_tick := n |>).
Proof.
  intros Hv Hqr Hqnr. exists (S (sae_tick s)). unfold sae_is_quadradic_residue.
  set (r := rnd_scalar E (sae_tick s) c).
  erewrite sr_bind_ok by reflexivity. fold r. cbv zeta. unfold l_ecc_scalar_multiply. cbn [s_val s_curve].
  assert (Hr : ecc_legendre c r * ecc_legendre c r = 1).
  { pose proof (env_scalar env (sae_tick s)). destruct (legendre_unit c r); [unfold r; lia | |]; nia. }
  unfold l_ecc_scalar_legendre. cbn [s_val s_curve]. rewrite !legendre_mul, Hqr, Hqnr.
  rewrite <- (Z.mul_assoc (ecc_legendre c (ecc_sum_x c v))), Hr, !Z.mul_1_r. unfold is_x.
  destruct (mask_bit _); [| done].
  destruct (Z.eqb_spec (ecc_legendre c (ecc_sum_x c v)) 1) as [->|Hn]; [done |].
  destruct (Z.eqb_spec (ecc_legendre c (ecc_sum_x c v) * -1) (-1)); [lia | done].
Qed.

Lemma residue_loop_ok fuel want s :
  (∃ k, (k < fuel)%nat ∧ ecc_legendre c (rnd_scalar E (sae_tick s + k) c) = want) →
  ∃ v n, residue_loop E fuel c want s = Ok (mk_scalar c v, s <| sae_tick := n |>)
         ∧ ecc_legendre c v = want ∧ 1 < v < Z.min (ecc_prime c) (ecc_order c).
Proof.
  revert s. induction fuel as [|fuel IH]; intros s (k & Hk & Hw); [lia |]. cbn [residue_loop].
  erewrite sr_bind_ok by reflexivity. unfold l_ecc_scalar_legendre. cbn [s_val s_curve].
  destruct (Z.eqb_spec (ecc_legendre c (rnd_scalar E (sae_tick s) c)) want) as [He|Hne].
  - eexists _, _. split; [reflexivity |]. split; [done | apply env].
  - destruct k as [|k]; [rewrite Nat.add_0_r in Hw; done |].
    destruct (IH (s <| sae_tick := S (sae_tick s) |>)) as (v & n & -> & ? & ?).
    { exists k. split; [lia |]. rewrite <- Hw. cbn. do 2 f_equal. lia. }
    by exists v, n.
Qed.

Lemma pwd_seed_ok a1 a2 base counter :
  sae_pwd_seed a1 a2 base counter = Some (seed_of a1 a2 base counter)
  ∧ zlen (seed_of a1 a2 base counter) = 32 ∧ bytes_ok (seed_of a1 a2 base counter).
Proof.
  unfold sae_pwd_seed, seed_of. cbv zeta. set (key := if bytes_lt a2 a1 then a1 ++ a2 else a2 ++ a1).
  unfold hmac256. destruct (sha256 key) as [h Hh]. erewrite hkdf_extract_hmac by exact Hh. rewrite Hh.
  split; [done | by apply (hmac_ok _ _ _ _ Hh)].
Qed.

Definition mask (b : bool) : Z := if b then 255 else 0.

Definition vars (b : bool) (x : list Z) (odd : bool) : pwe_vars :=
  mk_pwe (mask b) x (if odd then 1 else 0).

Section rounds.
Variables (password dummy addr1 addr2 : list Z) (qr qnr : Z).
Hypothesis (Hpw : bytes_ok password) (Hdu : bytes_ok dummy) (Hlen : zlen dummy = zlen password).
Hypothesis (Hqr : ecc_legendre c qr = -1) (Hqnr : ecc_legendre c qnr = 1).
Hypothesis (Hqr2 : 1 < qnr < Z.min (ecc_prime c) (ecc_order c)).

(** One round on the values of the plain loop. *)
Lemma pwe_step_ok (b : bool) x (odd : bool) counter s :
  zlen x = 48 → bytes_ok x →
  let seed := seed_of addr1 addr2 (if b then dummy else password) counter in
  let v := candidate qnr seed in
  let step := pwe_step E c password dummy addr1 addr2 (qnr_buf qnr) (mk_scalar c qr) (mk_scalar c qnr)
                counter (vars b x odd) s in
  if is_scalar v then
    ∃ n, step = Ok (vars (b || is_x v)
                      (if b then x else be_bytes (Z.to_nat (ecc_bytes c)) v ++ (x +! ecc_bytes c))
                      (if b then odd else Z.odd (nth 31 seed 0)), s <| sae_tick := n |>)
  else step = Fault.
Proof.
  intros Lx Hx seed v step. pose proof (ecc_bytes_range c).
  destruct (pwd_seed_ok addr1 addr2 (if b then dummy else password) counter) as (Hs & Ls & Hsb).
  fold seed in Hs, Ls, Hsb. pose proof (candidate_range qnr seed Hqr2) as Hv. fold v in Hv.
  subst step. unfold pwe_step, vars, mask. cbn [pwe_found pwe_x pwe_odd].
  erewrite run_bind_ok by (by apply secure_select_ok). rewrite Hs. cbn [from_option]. unfold id.
  erewrite run_bind_ok by (by apply pwd_value_ok). fold v.
  destruct (is_scalar v); [| reflexivity].
  destruct (residue_ok v qr qnr s) as [n Hn]; [lia | done.. |]. exists n.
  erewrite sr_bind_ok by exact Hn. unfold deref. erewrite run_bind_ok by reflexivity. cbv zeta.
  assert (Lc : zlen (l_ecc_scalar_get_data (mk_scalar c v)) = ecc_bytes c) by (by rewrite scalar_data_zlen).
  unfold L_ECC_SCALAR_MAX_BYTES in *.
  erewrite run_bind_ok.
  2: { apply secure_select_ok; [done | rewrite zlen_app, Lc, zlen_padd; lia | done |].
       apply Forall_app. split; [apply be_bytes_ok | by apply padd_Forall]. }
  rewrite Lc. unfold mret, sr_ret. do 3 f_equal.
  - by destruct b, (is_x v).
  - change (util_secure_select_byte (mask b) (if odd then 1 else 0) (Z.land (nth 31 seed 0) 1)
            = if (if b then odd else Z.odd (nth 31 seed 0)) then 1 else 0).
    change 1 with (Z.ones 1) at 2. rewrite Z.land_ones by lia. change (2 ^ 1) with 2. rewrite Zmod_odd.
    destruct b; [rewrite select_byte_255 | rewrite select_byte_0]; try done;
      [by destruct odd | by destruct (Z.odd (nth 31 seed 0))..].
Qed.

(** The buffers hold what has been found. *)
Definition holds (found : option (Z * bool)) (x : list Z) (odd : bool) : Prop :=
  zlen x = 48 ∧ bytes_ok x ∧
  ∀ v o, found = Some (v, o) →
    odd = o ∧ is_x v = true ∧ 0 ≤ v < ecc_prime c
    ∧ ∃ rest, x = be_bytes (Z.to_nat (ecc_bytes c)) v ++ rest.

Lemma holds_next found x odd seed :
  let v := candidate qnr seed in
  let o := Z.odd (nth 31 seed 0) in
  holds found x odd →
  holds (match found with Some _ => found | None => if is_x v then Some (v, o) else None end)
    (match found with
     | Some _ => x
     | None => be_bytes (Z.to_nat (ecc_bytes c)) v ++ (x +! ecc_bytes c)
     end)
    (match found with Some _ => odd | None => o end).
Proof.
  intros v o (Lx & Hx & Hf). destruct found as [f|]; [done |].
  pose proof (ecc_bytes_range c). unfold L_ECC_SCALAR_MAX_BYTES in *.
  split; [rewrite zlen_app, be_bytes_zlen, zlen_padd by lia; lia |].
  split; [apply Forall_app; split; [apply be_bytes_ok | by apply padd_Forall] |].
  intros v' o' He. destruct (is_x v) eqn:Hvx; [| done]. injection He as <- <-.
  split_and!; try done; [apply (candidate_range qnr seed Hqr2) .. |]. by eexists.
Qed.

Lemma pwe_loop_rounds i found x odd counter s :
  holds found x odd →
  let loop := pwe_loop E i c password dummy addr1 addr2 (qnr_buf qnr) (mk_scalar c qr) (mk_scalar c qnr)
                counter (vars (bool_decide (is_Some found)) x odd) s in
  match rounds i qnr password dummy addr1 addr2 counter found with
  | None => loop = Fault
  | Some found' => ∃ n x' odd', holds found' x' odd' ∧
      loop = Ok (vars (bool_decide (is_Some found')) x' odd', s <| sae_tick := n |>)
  end.
Proof.
  revert found x odd counter s. induction i as [|i IH]; intros found x odd counter s Hh; cbn [pwe_loop rounds].
  { exists (sae_tick s), x, odd. split; [done |]. by destruct s. }
  pose proof Hh as (Lx & Hx & _).
  pose proof (pwe_step_ok (bool_decide (is_Some found)) x odd counter s Lx Hx) as Hs. cbv zeta in Hs.
  assert (Hb : ∀ A (a b : A), (if bool_decide (is_Some found) then a else b) =
    match found with Some _ => a | None => b end).
  { intros A a b. by destruct found. }
  rewrite !Hb in Hs. set (seed := seed_of _ _ _ _) in *. set (v := candidate qnr seed) in *.
  destruct (is_scalar v); cbn [negb].
  2: { by apply sr_bind_fault. }
  destruct Hs as [n Hs]. rewrite (sr_bind_ok _ _ _ _ _ Hs).
  assert (Hd : bool_decide (is_Some found) || is_x v = bool_decide (is_Some
    (match found with Some _ => found | None => if is_x v then Some (v, Z.odd (nth 31 seed 0)) else None end))).
  { destruct found; [done |]. by destruct (is_x v). }
  rewrite Hd. pose proof (holds_next found x odd seed Hh) as Hn. cbv zeta in Hn. fold v in Hn.
  specialize (IH _ _ _ (counter + 1) (s <| sae_tick := n |>) Hn). cbv zeta in IH.
  destruct (rounds i _ _ _ _ _ _ _) as [f'|]; [| done].
  destruct IH as (m & x' & o' & Hh' & ->). by exists m, x', o'.
Qed.
End rounds.

(** The point of an x-coordinate and a parity. *)
Definition element_of (x : Z) (odd : bool) : option ecc_elem :=
  ecc_from_data c (if odd then 2 else 3) (be_bytes (Z.to_nat (ecc_bytes c)) x).

(** The password element is that of [found]. *)
Definition pwe_found_ok (found : option (Z * bool)) (old : option point) (b : bool)
    (pwe : option point) : Prop :=
  match found with
  | None => b = false ∧ pwe = old
  | Some (x, odd) =>
      b = true ∧ ∃ P, pwe = Some (mk_point c P) ∧ ecc_valid c P = true
                      ∧ (ecc_coords c P).1 = x ∧ Z.odd (ecc_coords c P).2 = odd
                      ∧ element_of x odd = Some P
  end.

(** The element found by the search, for the numbers and bytes drawn. *)
Lemma compute_pwe_ok password addr1 addr2 s :
  bytes_ok password → sae_curve s = Some c →
  ∃ qnr dummy, 1 < qnr < Z.min (ecc_prime c) (ecc_order c) ∧ ecc_legendre c qnr = 1
    ∧ zlen dummy = zlen password
    ∧ match rounds 30 qnr password dummy addr1 addr2 1 None with
      | None => sae_compute_pwe E password addr1 addr2 s = Fault
      | Some _ =>
          ∃ n b pwe, sae_compute_pwe E password addr1 addr2 s = Ok (b, s <| sae_pwe := pwe |> <| sae_tick := n |>)
            ∧ pwe_found_ok (hunt 30 qnr password addr1 addr2 1) (sae_pwe s) b pwe
      end.
Proof.
  intros Hpw Hc. remember (sae_compute_pwe E password addr1 addr2 s) as r eqn:Hr.
  unfold sae_compute_pwe, deref at 1, sae_new_residue in Hr. rewrite (sr_bind_ok _ _ _ s s eq_refl), Hc in Hr.
  destruct (residue_loop_ok (residue_fuel E) (-1) s) as (qr & n1 & H1 & Hqr & _); [apply env; auto |].
  destruct (residue_loop_ok (residue_fuel E) 1 (s <| sae_tick := n1 |>)) as (qnr & n2 & H2 & Hqnr & Hq); [apply env; auto |].
  destruct (env_bytes env (sae_tick (s <| sae_tick := n1 |> <| sae_tick := n2 |>)) (length password)) as [Ld Hd].
  set (dummy := rnd_bytes E _ (length password)) in *.
  assert (Ldu : zlen dummy = zlen password) by (unfold zlen; by rewrite Ld).
  exists qnr, dummy. do 3 (split; [done |]).
  erewrite run_bind_ok in Hr by reflexivity. rewrite (sr_bind_ok _ _ _ _ _ H1), (sr_bind_ok _ _ _ _ _ H2) in Hr.
  cbv zeta in Hr. rewrite scalar_data_zlen in Hr. fold (qnr_buf qnr) in Hr.
  erewrite sr_bind_ok in Hr by reflexivity. fold dummy in Hr.
  set (x0 := l_malloc _ _) in Hr.
  change (mk_pwe 0 x0 0) with (vars (bool_decide (is_Some (@None (Z * bool)))) x0 false) in Hr.
  match type of Hr with context [(pwe_loop _ _ _ _ _ _ _ _ _ _ _ _ ≫= _) ?t] =>
    pose proof (pwe_loop_rounds password dummy addr1 addr2 qr qnr Hpw Hd Ldu Hqr Hqnr Hq 30 None x0 false 1 t) as Hl end.
  cbv zeta in Hl. destruct (rounds 30 qnr password dummy addr1 addr2 1 None) as [found|] eqn:Hro.
  2: { subst r. apply sr_bind_fault, Hl. split_and!; [done | | done].
       apply Forall_fmap, Forall_true. intros. apply env. }
  destruct Hl as (n & x' & odd' & (Lx & Hx & Hf) & Hl).
  { split_and!; [done | | done]. apply Forall_fmap, Forall_true. intros. apply env. }
  apply rounds_hunt in Hro. rewrite <- Hro. clear Hro.
  erewrite sr_bind_ok in Hr by exact Hl. cbn [vars pwe_found pwe_x pwe_odd] in Hr. subst r. exists n.
  destruct found as [[x odd]|]; cbn [mask].
  2: { rewrite bool_decide_false by (by intros [? ?]). exists false, (sae_pwe s). split; [done |]. by destruct s. }
  rewrite bool_decide_true by done. destruct (Hf x odd eq_refl) as (-> & Hxs & Hxr & rest & ->).
  change (mask true =? 0) with false. cbv iota. unfold l_ecc_point_from_data.
  destruct (ecc_from_compressed c ((if (if odd then 1 else 0) =? 0 then 1 else 0) + 2) x) as (P & HP & Hv & Hco & Hod);
    [by destruct odd; auto | lia | by apply Z.eqb_eq |].
  exists true, (Some (mk_point c P)). erewrite run_bind_ok.
  2: { unfold L_ECC_SCALAR_MAX_BYTES. rewrite rdn_ok, ptake_all, bind_ok by lia.
       rewrite ecc_from_prefix, HP; [reflexivity | by destruct odd; auto |].
       apply be_bytes_zlen. pose proof (ecc_bytes_range c). lia. }
  split; [done |]. split; [done |]. exists P.
  split_and!; try done; [by rewrite Hod; destruct odd |]. unfold element_of. by destruct odd.
Qed.
End pwe.

(** C11: the constant-time search of [sae_compute_pwe] against the plain one, for every password.
    The code draws a number [qnr], which takes the place of a derived value that is not in the
    field (so that what is found can depend on it), and [dummy] bytes to go on with once a point
    has been found.  If each of the 30 rounds derives a scalar, the code returns exactly what the
    plain search over the counters 1 to 30 finds: [false] if no candidate is the x-coordinate of
    a point, and otherwise the point of the first one with the parity that the seed's last bit
    asks for.  If a round derives 0, 1 or a number of the field that is not below the order,
    [l_ecc_scalar_new] returns NULL and the code dereferences it.  HMAC-SHA256 is available, the
    random scalars lie between 2 and both the order and the prime, and residues and
    non-residues come up while they are looked for ([env_ok]). *)
Theorem sae_compute_pwe_correct {ell : Ell} {laws : EllLaws ell} {ecc : Ecc} {eccl : EccLaws ecc}
    E c password addr1 addr2 s :
  sha256_available → env_ok E c → bytes_ok password → sae_curve s = Some c →
  ∃ qnr dummy, 1 < qnr < Z.min (ecc_prime c) (ecc_order c) ∧ ecc_legendre c qnr = 1
    ∧ zlen dummy = zlen password
    ∧ match rounds c 30 qnr password dummy addr1 addr2 1 None with
      | None => sae_compute_pwe E password addr1 addr2 s = Fault
      | Some _ =>
          ∃ n b pwe, sae_compute_pwe E password addr1 addr2 s = Ok (b, s <| sae_pwe := pwe |> <| sae_tick := n |>)
            ∧ pwe_found_ok c (hunt c 30 qnr password addr1 addr2 1) (sae_pwe s) b pwe
      end.
Proof. intros. by apply compute_pwe_ok. Qed.

(** ** Two parties *)

Section parties.
Context {ell : Ell} {laws : EllLaws ell} {ecc : Ecc} {eccl : EccLaws ecc}.

Lemma seed_of_comm a1 a2 base counter : zlen a1 = zlen a2 → seed_of a1 a2 base counter = seed_of a2 a1 base counter.
Proof.
  intros Hl. unfold seed_of. f_equal.
  destruct (bytes_lt a2 a1) eqn:H1, (bytes_lt a1 a2) eqn:H2; try done.
  - apply bytes_lt_asym in H1. congruence.
  - by rewrite (bytes_lt_total a1 a2).
Qed.

Lemma hunt_comm c n qnr qnr' pw a1 a2 counter :
  zlen a1 = zlen a2 → (∀ seed, be_val (pwd_bytes c seed) < ecc_prime c) →
  hunt c n qnr pw a1 a2 counter = hunt c n qnr' pw a2 a1 counter.
Proof.
  intros Hl Hin. revert counter. induction n as [|n IH]; intros counter; cbn [hunt]; [done |].
  rewrite (seed_of_comm a1 a2), IH by done. unfold candidate.
  destruct (Z.ltb_spec (be_val (pwd_bytes c (seed_of a2 a1 pw counter))) (ecc_prime c)) as [|Hge]; [done |].
  pose proof (Hin (seed_of a2 a1 pw counter)). lia.
Qed.

(** Two parties with the same password, the same group and each other's addresses compute the
    same password element, whatever their random numbers are, provided that every value derived
    from a seed is a scalar of the field. *)
Theorem sae_password_element_shared E1 E2 c password addr1 addr2 s1 s2 :
  sha256_available → env_ok E1 c → env_ok E2 c →
  (∀ seed, 1 < be_val (pwd_bytes c seed) < Z.min (ecc_prime c) (ecc_order c)) →
  bytes_ok password → zlen addr1 = zlen addr2 → sae_curve s1 = Some c → sae_curve s2 = Some c →
  ∃ b t1 t2, sae_compute_pwe E1 password addr1 addr2 s1 = Ok (b, t1)
    ∧ sae_compute_pwe E2 password addr2 addr1 s2 = Ok (b, t2)
    ∧ (b = true → ∃ P, sae_pwe t1 = Some (mk_point c P) ∧ sae_pwe t2 = Some (mk_point c P)
                       ∧ ecc_valid c P = true).
Proof.
  intros Ha He1 He2 Hin Hpw Hl Hc1 Hc2.
  assert (Hsc : ∀ qnr seed, is_scalar c (candidate c qnr seed) = true).
  { intros qnr seed. specialize (Hin seed). unfold candidate, is_scalar.
    destruct (Z.ltb_spec (be_val (pwd_bytes c seed)) (ecc_prime c)); [| lia]. apply andb_true_iff. lia. }
  destruct (compute_pwe_ok E1 c Ha He1 password addr1 addr2 s1 Hpw Hc1) as (q1 & d1 & _ & _ & _ & H1).
  destruct (compute_pwe_ok E2 c Ha He2 password addr2 addr1 s2 Hpw Hc2) as (q2 & d2 & _ & _ & _ & H2).
  destruct (rounds c 30 q1 _ _ _ _ _ _) eqn:R1; [| by destruct (rounds_scalars c 30 q1 password d1 addr1 addr2 1 None (Hsc q1))].
  destruct (rounds c 30 q2 _ _ _ _ _ _) eqn:R2; [| by destruct (rounds_scalars c 30 q2 password d2 addr2 addr1 1 None (Hsc q2))].
  destruct H1 as (n1 & b1 & p1 & -> & H1), H2 as (n2 & b2 & p2 & -> & H2).
  rewrite (hunt_comm c 30 q1 q2) in H1 by (done || (intros seed; specialize (Hin seed); lia)).
  unfold pwe_found_ok in *. destruct (hunt c 30 q2 password addr2 addr1 1) as [[x odd]|].
  - destruct H1 as (-> & P1 & -> & Hv & _ & _ & Hx1), H2 as (-> & P2 & -> & _ & _ & _ & Hx2).
    assert (P2 = P1) as -> by congruence. do 3 eexists. do 2 (split; [done |]). intros _. by exists P1.
  - destruct H1 as [-> _], H2 as [-> _]. do 3 eexists. by do 2 (split; [done |]).
Qed.
End parties.
