(* ===== verification/SaeRun.v ===== *)
(** * SAE: sessions (src/sae.c with its caller in src/netdev.c)

    The states a session can be in: [sae_reach] is what netdev.c does with the state machine,
    which it frees as soon as a received frame returns neither 0 nor -EAGAIN.  The invariant
    of these states gives the authenticity of the PMK and the absence of faults. *)

From stdpp Require Import base numbers list option.
From Stdlib Require Import ZArith Lia.
From S2P Require Import Prelude IeTlv IeRsn IeMisc Crypto Kdf Handshake Mpdu StRes Ecc Sae SaeSpec SaePwe.

Open Scope Z_scope.

Section run.
Context {ell : Ell} {laws : EllLaws ell} {ecc : Ecc} {eccl : EccLaws ecc}.
Variable E : sae_env.

(** ** What the functions change *)

Local Ltac steps := repeat (cbn [negb]; sr_step).

Lemma tick_id (s : sae_sm) : s = s <| sae_tick := sae_tick s |>.
Proof. by destruct s. Qed.

Lemma new_random_frame c s :
  wpl (l_ecc_scalar_new_random E c) (λ x s', s_curve x = c ∧ ∃ n, s' = s <| sae_tick := n |>) s.
Proof. unfold wpl. cbn. split; [done | by eexists]. Qed.

Lemma residue_loop_frame fuel c want s :
  wpl (residue_loop E fuel c want) (λ _ s', ∃ n, s' = s <| sae_tick := n |>) s.
Proof.
  revert s. induction fuel as [|fuel IH]; intros s; cbn [residue_loop]; [done |].
  sr_step. eapply wpl_mono; [apply new_random_frame |]. intros x ? [_ [n ->]]. sr_step.
  - sr_step. eauto.
  - eapply wpl_mono; [apply IH |]. intros ? ? [k ->]. by exists k.
Qed.

Lemma deref_frame {A} (p : option A) (Q : A → sae_sm → Prop) s :
  (∀ a, p = Some a → Q a s) → wpl (deref p) Q s.
Proof. intros H. unfold deref. apply wpl_run. destruct p; [|done]. intros ? [= <-]. auto. Qed.

Lemma pwe_step_frame c pw du a1 a2 qb qr qnr k v s :
  wpl (pwe_step E c pw du a1 a2 qb qr qnr k v) (λ _ s', ∃ n, s' = s <| sae_tick := n |>) s.
Proof.
  unfold pwe_step, sae_is_quadradic_residue. steps.
  eapply wpl_mono; [apply new_random_frame |]. intros x ? [_ [n ->]]. steps.
  apply deref_frame. intros. steps. eauto.
Qed.

Lemma pwe_loop_frame i c pw du a1 a2 qb qr qnr k v s :
  wpl (pwe_loop E i c pw du a1 a2 qb qr qnr k v) (λ _ s', ∃ n, s' = s <| sae_tick := n |>) s.
Proof.
  revert k v s. induction i as [|i IH]; intros k v s; cbn [pwe_loop].
  - sr_step. exists (sae_tick s). apply tick_id.
  - sr_step. eapply wpl_mono; [apply pwe_step_frame |]. intros ? ? [n ->].
    eapply wpl_mono; [apply IH |]. intros ? ? [m ->]. by exists m.
Qed.

Lemma compute_pwe_frame pw a1 a2 s :
  wpl (sae_compute_pwe E pw a1 a2)
    (λ b s', ∃ n c pwe, sae_curve s = Some c ∧ s' = s <| sae_pwe := pwe |> <| sae_tick := n |>
                        ∧ if b then ∃ P, pwe = Some (mk_point c P)
                          else pwe = None ∨ pwe = sae_pwe s) s.
Proof.
  unfold sae_compute_pwe. steps. apply deref_frame. intros c Hc. steps.
  eapply wpl_mono; [apply residue_loop_frame |]. intros ? ? [n1 ->]. steps.
  eapply wpl_mono; [apply residue_loop_frame |]. intros ? ? [n2 ->]. steps.
  unfold draw, wpl at 1. steps. eapply wpl_mono; [apply pwe_loop_frame |]. intros v ? [n3 ->]. steps.
  - exists n3, c, (sae_pwe s). destruct s. eauto.
  - exists n3, c. unfold l_ecc_point_from_data in Hr. apply bind_Ok_inv in Hr as (? & _ & [= <-]).
    destruct (ecc_from_data _ _ _); cbn; eauto 10.
Qed.

Lemma commit_frame_frame s0 s : wpl (commit_frame E s0) (λ _ s', s' = s) s.
Proof.
  unfold commit_frame. steps.
  all: apply deref_frame; intros; steps; apply deref_frame; intros; steps; done.
Qed.

Definition sent (f : list Z) (s : sae_sm) : sae_sm :=
  s <| sae_state := SAE_STATE_COMMITTED |> <| sae_out := sae_out s ++ [TxAuth f] |>.

Lemma send_commit_retry_frame s :
  wpl (sae_send_commit E true) (λ b s', b = true ∧ ∃ f, s' = sent f s) s.
Proof.
  unfold sae_send_commit, sae_build_commit, tx_auth. steps.
  eapply wpl_mono; [apply commit_frame_frame |]; intros ? ? ->; steps; eauto.
Qed.

(** The secrets and the public values of a party are consistent. *)
Definition secrets (s : sae_sm) (c : l_ecc_curve) (P : ecc_elem) (r m : Z) : Prop :=
  sae_curve s = Some c ∧ sae_pwe s = Some (mk_point c P) ∧ sae_rand s = Some (mk_scalar c r)
  ∧ sae_scalar s = Some (mk_scalar c ((r + m) mod ecc_order c))
  ∧ sae_element s = Some (mk_point c (ecc_neg c (ecc_mul c m P))).

Definition with_secrets (s : sae_sm) (c : l_ecc_curve) (P : ecc_elem) (r m : Z) (n : nat) : sae_sm :=
  s <| sae_pwe := Some (mk_point c P) |> <| sae_rand := Some (mk_scalar c r) |>
    <| sae_scalar := Some (mk_scalar c ((r + m) mod ecc_order c)) |>
    <| sae_element := Some (mk_point c (ecc_neg c (ecc_mul c m P))) |> <| sae_tick := n |>.

Lemma send_commit_new_frame s :
  wpl (sae_send_commit E false)
    (λ b s', (b = true ∧ ∃ c P r m n f, sae_curve s = Some c ∧ s' = sent f (with_secrets s c P r m n))
             ∨ (b = false ∧ ∃ n pwe, s' = s <| sae_pwe := pwe |> <| sae_tick := n |>
                                     ∧ (pwe = None ∨ pwe = sae_pwe s))) s.
Proof.
  unfold sae_send_commit, sae_build_commit, tx_auth. steps.
  - eapply wpl_mono; [apply compute_pwe_frame |].
    intros [] ? (n & c & pwe & Hc & -> & Hp); steps.
    + destruct Hp as [P ->]. apply deref_frame. intros ? [= <-]%(eq_trans (eq_sym Hc)). steps.
      apply deref_frame. intros ? [= <-]. steps.
      eapply wpl_mono; [apply new_random_frame |]. intros [? r] ? [Hr1 [n1 ->]]. steps.
      eapply wpl_mono; [apply new_random_frame |]. intros [? m] ? [Hm1 [n2 ->]]. steps.
      cbn in Hr1, Hm1. subst.
      eapply wpl_mono; [apply commit_frame_frame |]; intros f ? ->. steps.
      left. split; [done |]. exists c, P, r, m, n2, f. done.
    + right. eauto 10.
  - right. split; [done |]. exists (sae_tick s), (sae_pwe s). split; [| by right]. by destruct s.
Qed.

Lemma cn_frame kck n s1 e1 s2 e2 s :
  wpl (sae_cn kck n s1 e1 s2 e2) (λ _ s', s' = s) s.
Proof.
  unfold sae_cn. steps; [| done].
  apply deref_frame; intros; steps; apply deref_frame; intros; steps.
  apply deref_frame; intros; steps; apply deref_frame; intros; steps. done.
Qed.

Lemma send_confirm_frame s :
  wpl (sae_send_confirm E)
    (λ _ s', ∃ f, s' = s <| sae_state := SAE_STATE_CONFIRMED |> <| sae_out := sae_out s ++ [TxAuth f] |>) s.
Proof.
  unfold sae_send_confirm, tx_auth. steps. eapply wpl_mono; [apply cn_frame |]. intros ? ? ->. steps. eauto.
Qed.

Lemma reject_frame r s :
  wpl (sae_reject_authentication r) (λ _ s', ∃ f, s' = s <| sae_out := sae_out s ++ [TxAuth f] |>) s.
Proof. unfold sae_reject_authentication, tx_auth. steps; eauto. Qed.

(** ** The invariant *)

Context (sha256 : sha256_available).

(** The keys are those of the own secrets and of the peer's public values. *)
Definition agreed (s : sae_sm) (c : l_ecc_curve) (P : ecc_elem) (r m ps : Z) (Q : ecc_elem) : Prop :=
  secrets s c P r m
  ∧ sae_p_scalar s = Some (mk_scalar c ps) ∧ sae_p_element s = Some (mk_point c Q)
  ∧ keys_of c (ecc_coords c (ecc_mul c r (ecc_add c (ecc_mul c ps P) Q))).1
      (((r + m) mod ecc_order c + ps) mod ecc_order c) = (sae_kck s, sae_pmk s, sae_pmkid s).

Definition no_secrets (s : sae_sm) : Prop :=
  sae_pwe s = None ∧ sae_rand s = None ∧ sae_scalar s = None ∧ sae_element s = None.

Record sae_inv (s : sae_sm) : Prop := {
  inv_sync : 0 ≤ sae_sync s ≤ SAE_SYNC_MAX + 1;
  inv_retry : 0 ≤ sae_group_retry s < zlen supported_ike_groups;
  inv_group : sae_group s ∈ supported_ike_groups;
  inv_curve : sae_curve s = l_ecc_curve_get_ike_group (sae_group s);
  inv_token : from_option zlen 0 (sae_token s) ≤ 256;
  inv_hs : zlen (hs_pmk (sae_hs s)) = 64;
  inv_pass : from_option (λ p, bytes_ok p) True (hs_passphrase (sae_hs s));
  inv_state :
    (sae_state s = SAE_STATE_COMMITTED ∧ (no_secrets s ∨ ∃ c P r m, secrets s c P r m))
    ∨ ((sae_state s = SAE_STATE_CONFIRMED ∨ sae_state s = SAE_STATE_ACCEPTED)
       ∧ ∃ c P r m ps Q, agreed s c P r m ps Q);
}.

(** What netdev.c goes on with. *)
Definition live (ret : Z) : Prop := ret = 0 ∨ ret = AGAIN.

(** The frame carries the confirm of the holder of the KCK. *)
Definition confirmed_by (s : sae_sm) (ies : ptr) : Prop :=
  ∃ rc ps pe sc el, l_get_le16 ies = Ok rc ∧ sae_p_scalar s = Some ps ∧ sae_p_element s = Some pe
    ∧ sae_scalar s = Some sc ∧ sae_element s = Some el
    ∧ rdn (ies +! 2) 32 = Ok (cn (sae_kck s) rc ps pe sc el).

Definition is_assoc (e : sae_effect) : bool := match e with TxAssoc => true | TxAuth _ => false end.
Definition assocs (s : sae_sm) : nat := length (List.filter is_assoc (sae_out s)).

(** The handshake gets a key, and the association is asked for, only for a confirmed peer. *)
Definition authentic (s : sae_sm) (ies : ptr) (s' : sae_sm) : Prop :=
  (sae_hs s' = sae_hs s ∧ assocs s' = assocs s)
  ∨ (confirmed_by s ies ∧ (∃ c P r m ps Q, agreed s c P r m ps Q)
     ∧ ptake (hs_pmk (sae_hs s')) 32 = sae_pmk s ∧ hs_pmkid (sae_hs s') = sae_pmkid s
     ∧ assocs s' = S (assocs s)).

Definition step_ok (s : sae_sm) (ies : ptr) (ret : Z) (s' : sae_sm) : Prop :=
  (live ret → sae_inv s') ∧ authentic s ies s'.

Lemma assocs_auth s f : assocs (s <| sae_out := sae_out s ++ [TxAuth f] |>) = assocs s.
Proof. unfold assocs. cbn. by rewrite List.filter_app, app_nil_r. Qed.

Lemma verify_confirm_frame ies s :
  wpl (sae_verify_confirm E ies)
    (λ b s', if b then confirmed_by s ies ∧ ∃ rc, s' = s <| sae_rc := rc |> else s' = s) s.
Proof.
  unfold sae_verify_confirm. steps.
  destruct (sae_p_scalar s) as [ps|] eqn:H1, (sae_p_element s) as [pe|] eqn:H2,
    (sae_scalar s) as [sc|] eqn:H3, (sae_element s) as [el|] eqn:H4;
    try (destruct (sha256 (sae_kck s)) as [h Hh]; unfold wpl, sae_cn; by rewrite Hh).
  unfold wpl at 1. rewrite sae_cn_ok by done. steps; [done |].
  unfold memeq in Hr0. cbn [default] in Hr0. apply bind_Ok_inv in Hr0 as (b & Hrd & [= Hd]).
  subst. case_bool_decide; [| done]. subst b. split; [| eauto].
  exists a, ps, pe, sc, el. split_and!; try done. rewrite <- Hrd. f_equal. symmetry. by apply hmac256_zlen.
Qed.

(** ** The handlers *)

Lemma assocs_same s f (s' : sae_sm) :
  sae_out s' = sae_out s ++ [TxAuth f] → assocs s' = assocs s.
Proof. intros H. unfold assocs. by rewrite H, List.filter_app, app_nil_r. Qed.

Lemma bad_ret : ¬ live BADMSG.
Proof. by intros [?|?]. Qed.

Lemma scalar_new_curve c b sc : l_ecc_scalar_new c b = Ok (Some sc) → ∃ v, sc = mk_scalar c v.
Proof.
  unfold l_ecc_scalar_new. intros (l & _ & H)%bind_Ok_inv. revert H. case_match; intros [= <-]. eauto.
Qed.

Lemma point_from_data_curve c t b n p : l_ecc_point_from_data c t b n = Ok (Some p) → ∃ Q, p = mk_point c Q.
Proof.
  unfold l_ecc_point_from_data. intros (l & _ & H)%bind_Ok_inv. revert H.
  destruct (ecc_from_data c t l); cbn; intros [= <-]. eauto.
Qed.

(** Neither the handshake nor the number of associations has changed. *)
Definition quiet (s s' : sae_sm) : Prop := sae_hs s' = sae_hs s ∧ assocs s' = assocs s.
Definition quiet_ok (s : sae_sm) (ret : Z) (s' : sae_sm) : Prop := (live ret → sae_inv s') ∧ quiet s s'.

Lemma quiet_step s ies ret s' : quiet_ok s ret s' → step_ok s ies ret s'.
Proof. intros [? ?]. split; [done | by left]. Qed.

Lemma quiet_trans s t u : quiet s t → quiet t u → quiet s u.
Proof. unfold quiet. intros [-> ->]. done. Qed.

Lemma quiet_sent s t f : sae_hs t = sae_hs s → sae_out t = sae_out s ++ [TxAuth f] → quiet s t.
Proof. intros Hh Ho. split; [done |]. by apply (assocs_same s f). Qed.

(** A rejection changes nothing. *)
Lemma rejected s t r :
  sae_hs t = sae_hs s → sae_out t = sae_out s → wpl (sae_reject r) (quiet_ok s) t.
Proof.
  intros Hh Ho. unfold sae_reject. steps. eapply wpl_mono; [apply reject_frame |]. intros _ ? [f ->]. steps.
  split; [by intros ?%bad_ret |]. apply (quiet_sent s _ f); [done |]. cbn. by rewrite Ho.
Qed.

Lemma process_commit_bad ies len s :
  sae_state s ≠ SAE_STATE_COMMITTED →
  wpl (sae_process_commit E ies len)
    (λ ret s', ret = BADMSG ∧ ∃ f, s' = s <| sae_out := sae_out s ++ [TxAuth f] |>) s.
Proof.
  intros Hst. unfold sae_process_commit. steps. apply deref_frame. intros c Hc. cbv zeta.
  destruct (Z.eqb_spec (sae_state s) SAE_STATE_COMMITTED); [done |]. cbn [negb]. unfold sae_reject. steps.
  eapply wpl_mono; [apply reject_frame |]. intros _ ? [f ->]. steps. eauto.
Qed.

Local Ltac other_state :=
  exfalso; match goal with
  | H1 : sae_state ?s = _, H2 : sae_state ?s = _ |- _ => rewrite H1 in H2; discriminate H2
  end.

(** Closes the invariant of a state in which the fields of the invariant did not change. *)
Local Ltac keep I :=
  let H := fresh in
  destruct I as [? ? ? ? ? ? ? H]; constructor; cbn;
  first [done | destruct H as [[? ?]|[[?|?] ?]]; [left; by split | other_state..] | idtac].

Lemma send_confirm_secrets s :
  no_secrets s → wpl (sae_send_confirm E) (λ _ _, False) s.
Proof.
  intros (_ & _ & H & _). unfold sae_send_confirm. steps. rewrite H. unfold sae_cn.
  destruct (sha256 (sae_kck s)) as [h ->]. steps. by apply deref_frame.
Qed.

(** The end of [sae_process_commit]. *)
Lemma process_commit_agreed s s' c sv Q :
  sae_inv s → sae_state s = SAE_STATE_COMMITTED → sae_curve s = Some c →
  let keys := sae_keys E c (sae_rand s) (sae_scalar s) (mk_scalar c sv) (sae_pwe s) (mk_point c Q) in
  s' = s <| sae_p_scalar := Some (mk_scalar c sv) |> <| sae_p_element := Some (mk_point c Q) |>
         <| sae_sc := u16 (sae_sc s + 1) |> <| sae_kck := keys.1.1 |> <| sae_pmk := keys.1.2 |>
         <| sae_pmkid := keys.2 |> →
  wpl (sae_send_confirm E) (λ _, quiet_ok s 0) s'.
Proof.
  intros I Hst Hc keys Hs'.
  destruct (inv_state s I) as [[_ Hsec]|[[?|?] ?]]; [| other_state..].
  destruct Hsec as [Hno|(c' & P & r & m & H1 & H2 & H3 & H4 & H5)].
  { eapply wpl_mono; [apply send_confirm_secrets; by subst s' |]. done. }
  assert (c' = c) as -> by congruence.
  assert (Hk : keys = keys_of c (ecc_coords c (ecc_mul c r (ecc_add c (ecc_mul c sv P) Q))).1
                        (((r + m) mod ecc_order c + sv) mod ecc_order c))
    by (subst keys; rewrite H2, H3, H4; by apply sae_keys_of).
  clearbody keys. destruct keys as [[kck pmk] pmkid].
  eapply wpl_mono; [apply send_confirm_frame |]. intros _ ? [f ->].
  split; [| subst s'; by apply (quiet_sent s _ f)].
  intros _. destruct I. subst s'. constructor; cbn; try done. right. split; [by left |].
  exists c, P, r, m, sv, Q. done.
Qed.

Lemma process_commit_ok ies len s :
  sae_inv s → sae_state s = SAE_STATE_COMMITTED → wpl (sae_process_commit E ies len) (quiet_ok s) s.
Proof.
  intros I Hst. unfold sae_process_commit. steps. apply deref_frame. intros c Hc. cbv zeta.
  rewrite Hst. change (SAE_STATE_COMMITTED =? SAE_STATE_COMMITTED) with true. cbn [negb].
  sr_step; [by apply rejected |]. steps.
  - eapply wpl_mono; [apply reject_frame |]. intros _ ? [f ->]. steps.
    split; [intros _; keep I | by apply (quiet_sent s _ f)].
  - split; [intros _; keep I | done].
  - apply scalar_new_curve in Hr0 as [v ->]. apply point_from_data_curve in Hr1 as [Q ->].
    eapply wpl_mono; [eapply (process_commit_agreed s); [done.. | by rewrite Hx1] |].
    intros ? ? H. by sr_step.
  - by apply rejected.
  - by apply rejected.
Qed.

Lemma process_confirm_ok ies len s :
  sae_inv s → sae_state s = SAE_STATE_CONFIRMED → wpl (sae_process_confirm E ies len) (step_ok s ies) s.
Proof.
  intros I Hst. unfold sae_process_confirm. sr_step. sr_step. rewrite Hst.
  change (SAE_STATE_CONFIRMED =? SAE_STATE_CONFIRMED) with true. cbn [negb].
  sr_step; [by eapply wpl_mono; [by apply rejected |]; intros; apply quiet_step |]. sr_step.
  eapply wpl_mono; [apply verify_confirm_frame |]. intros [] s' Hs'; cbn [negb]; 
    [| subst; by eapply wpl_mono; [by apply rejected |]; intros; apply quiet_step].
  destruct Hs' as [Hcf [rc ->]]. steps. cbn in *.
  apply bind_Ok_inv in Hr as (b & Hb1 & [= <-]). apply bind_Ok_inv in Hr0 as (b0 & Hb2 & Hr).
  apply bind_Ok_inv in Hr as (pm & Hpm & [= <-]). unfold tx_assoc. steps.
  destruct (inv_state s I) as [[? _]|[_ Hag]]; [other_state |].
  pose proof Hag as (c & P & r & m & ps & Q & _ & _ & _ & Hk).
  destruct (keys_of_zlen _ _ _ _ _ _ sha256 Hk) as [Lp Li].
  apply rdn_inv in Hb1 as [_ ->]. apply rdn_inv in Hb2 as [_ ->].
  rewrite (ptake_all (sae_pmk s)) in Hpm by lia. rewrite (ptake_all (sae_pmkid s)) by lia.
  pose proof (inv_hs s I) as Lh. cbn -[put] in Hpm. rewrite put_first in Hpm by lia. injection Hpm as <-.
  split.
  - intros _. destruct I. constructor; cbn; try done.
    + rewrite zlen_app, zlen_padd by lia. lia.
    + right. split; [by right | exact Hag].
  - right. split_and!; [done | exact Hag | by apply ptake_app | done |].
    unfold assocs. cbn. rewrite List.filter_app, length_app. cbn. lia.
Qed.

(** ** Verification of a received message *)

(** What is left of a message for its handler. *)
Definition verified (s : sae_sm) (trans ret : Z) (t : sae_sm) : Prop :=
  quiet s t ∧ (ret ≠ 0 → live ret → sae_inv t)
  ∧ (ret = 0 → trans ≠ SAE_STATE_CONFIRMED
       ∧ (sae_state t ≠ SAE_STATE_COMMITTED ∨ (sae_inv t ∧ sae_state t = SAE_STATE_COMMITTED))).

Lemma verified_stop s trans ret t : ret ≠ 0 → ¬ live ret → quiet s t → verified s trans ret t.
Proof. intros. by split_and!. Qed.

Lemma verified_again s trans t : quiet s t → sae_inv t → verified s trans AGAIN t.
Proof. intros. by split_and!. Qed.

Lemma inv_sent s f :
  sae_inv s → sae_state s = SAE_STATE_COMMITTED → sae_inv (sent f s).
Proof. intros I Hst. keep I. Qed.

Lemma resync_ok s trans :
  sae_inv s → sae_state s = SAE_STATE_COMMITTED → sae_sync s ≤ SAE_SYNC_MAX →
  wpl (sae_send_commit E true ≫= λ _, mret AGAIN) (verified s trans)
    (s <| sae_sync := u16 (sae_sync s + 1) |>).
Proof.
  intros I Hst Hy. steps. eapply wpl_mono; [apply send_commit_retry_frame |]. intros ? ? [_ [f ->]]. steps.
  apply verified_again; [by apply (quiet_sent s _ f) |].
  pose proof (inv_sync s I). apply inv_sent; [| done]. keep I.
  unfold SAE_SYNC_MAX in *. rewrite u16_small; lia.
Qed.

Lemma anti_clogging_ok ies len s trans :
  sae_inv s → sae_state s = SAE_STATE_COMMITTED →
  wpl (sae_process_anti_clogging E ies len ≫= λ _, mret AGAIN) (verified s trans) s.
Proof.
  intros I Hst. unfold sae_process_anti_clogging. steps; [by apply verified_again |].
  eapply wpl_mono; [apply send_commit_retry_frame |]. intros ? ? [_ [f ->]]. steps.
  apply verified_again; [by apply (quiet_sent s _ f) |]. apply inv_sent; [| done].
  apply orb_false_iff in Hb as [?%Z.ltb_ge ?%Z.ltb_ge]. apply rdn_inv in Hr as [? ->].
  keep I. rewrite zlen_ptake; lia.
Qed.

(** A state that was reset for the group [g]. *)
Record fresh_group (s t : sae_sm) (g : Z) : Prop := {
  fg_state : sae_state t = SAE_STATE_COMMITTED;
  fg_none : no_secrets t;
  fg_token : sae_token t = None;
  fg_sync : sae_sync t = 0;
  fg_retry : 0 ≤ sae_group_retry t < zlen supported_ike_groups;
  fg_group : sae_group t = g;
  fg_curve : sae_curve t = l_ecc_curve_get_ike_group g;
  fg_hs : sae_hs t = sae_hs s;
  fg_out : sae_out t = sae_out s;
}.

Lemma new_group_ok s trans t g :
  sae_inv s → fresh_group s t g → g ∈ supported_ike_groups →
  wpl (sae_send_commit E false ≫= λ _, mret AGAIN) (verified s trans) t.
Proof.
  intros I [? (? & ? & ? & ?) Ht Hy ? Hgr ? Hh Ho] Hin. pose proof (inv_hs s I). pose proof (inv_pass s I). sr_step.
  eapply wpl_mono; [apply send_commit_new_frame |].
  intros b ? [(-> & c & P & r & m & n & f & Hc & ->)|(-> & n & pwe & -> & Hp)]; steps.
  - apply verified_again; [apply (quiet_sent s _ f); [done | cbn; by rewrite Ho] |].
    constructor; cbn; rewrite ?Hh, ?Hy, ?Ht, ?Hgr; try done.
    left. split; [done |]. right. by exists c, P, r, m.
  - apply verified_again; [split; [done |]; unfold assocs; cbn; by rewrite Ho |].
    constructor; cbn; rewrite ?Hh, ?Hy, ?Ht, ?Hgr; try done.
    left. split; [done |]. left. split_and!; try done. cbn. destruct Hp; congruence.
Qed.

Lemma verified_bad s trans t : quiet s t → verified s trans BADMSG t.
Proof. intros. by apply verified_stop; [| apply bad_ret |]. Qed.

Lemma verified_ok s trans t :
  trans ≠ SAE_STATE_CONFIRMED → quiet s t → sae_inv t → sae_state t = SAE_STATE_COMMITTED →
  verified s trans 0 t.
Proof. intros. split_and!; [done.. |]. intros _. split; [done | by right]. Qed.

Lemma reject_group_ok s trans t :
  sae_hs t = sae_hs s → sae_out t = sae_out s → wpl reject_unsupp_group (verified s trans) t.
Proof.
  intros Hh Ho. unfold reject_unsupp_group. steps. eapply wpl_mono; [apply reject_frame |].
  intros _ ? [f ->]. steps. apply verified_stop; [done | by intros [?|?] |].
  apply (quiet_sent s _ f); [done |]. cbn. by rewrite Ho.
Qed.

(** A commit with status 0. *)
Lemma diff_group_ok trans s t c g :
  trans ≠ SAE_STATE_CONFIRMED →
  t = s <| sae_sync := 0 |> <| sae_sc := u16 (sae_sc s + 1) |> <| sae_group := g |> <| sae_curve := Some c |> →
  wpl (sae_send_commit E false ≫= λ _, modify (λ s, s <| sae_state := SAE_STATE_CONFIRMED |>) ≫= λ _, mret 0)
    (verified s trans) t.
Proof.
  intros Htr Ht. sr_step. eapply wpl_mono; [apply send_commit_new_frame |].
  intros b ? [(_ & c' & P & r & m & n & f & _ & ->)|(_ & n & pwe & -> & _)]; steps.
  - split_and!; [subst; by apply (quiet_sent s _ f) | done |]. intros _. split; [done | by left].
  - split_and!; [by subst | done |]. intros _. split; [done | by left].
Qed.

Lemma verify_committed_ok trans status ies len s :
  sae_inv s → sae_state s = SAE_STATE_COMMITTED →
  wpl (sae_verify_committed E trans status ies len) (verified s trans) s.
Proof.
  intros I Hst. unfold sae_verify_committed. sr_step. sr_step.
  destruct (Z.eqb_spec trans SAE_STATE_CONFIRMED) as [|Htr].
  { sr_step; [sr_step; by apply verified_bad |]. sr_step. sr_step.
    apply resync_ok; [done.. | by apply Z.ltb_ge]. }
  sr_step; [by apply anti_clogging_ok |].
  sr_step.
  { sr_step. sr_step. sr_step; [sr_step; by apply verified_bad |].
    do 6 sr_step. cbn in Hr0. destruct (Z.eqb_spec a0 0) as [->|Hg0].
    - sr_step. sr_step. by apply reject_group_ok.
    - apply ecc_group_inv in Hr0 as [Hi Hin]; [| done]. unfold sae_reset_state. do 4 sr_step.
      apply (new_group_ok s _ _ a0); [done | | done].
      constructor; cbn; try done; by split_and!. }
  sr_step; [| sr_step; by apply verified_ok].
  sr_step; [sr_step; by apply verified_bad |]. sr_step. sr_step. sr_step; [sr_step; by apply verified_ok |].
  sr_step.
  - sr_step; [| do 2 sr_step; by eapply diff_group_ok].
    sr_step. eapply wpl_mono; [apply send_commit_retry_frame |]. intros ? ? [_ [f ->]]. steps.
    apply verified_ok; [done | by apply (quiet_sent s _ f) | by apply inv_sent | done].
  - sr_step; [sr_step; by apply verified_bad |]. do 2 sr_step. by apply reject_group_ok.
Qed.

Lemma verify_confirmed_ok trans status ies len s :
  sae_inv s → sae_state s = SAE_STATE_CONFIRMED → trans ≠ SAE_STATE_CONFIRMED →
  wpl (sae_verify_confirmed E trans status ies len) (verified s trans) s.
Proof.
  intros I Hst Htr.
  assert (Hskip : ∀ t, quiet s t → sae_state t = SAE_STATE_CONFIRMED → verified s trans 0 t).
  { intros t Hq Ht. split_and!; [done.. |]. intros _. split; [done |]. left. by rewrite Ht. }
  unfold sae_verify_confirmed. sr_step. sr_step.
  destruct (Z.eqb_spec trans SAE_STATE_CONFIRMED); [done |]. 
  sr_step; [sr_step; by apply Hskip |]. sr_step; [sr_step; by apply verified_bad |].
  sr_step; [sr_step; by apply verified_bad |]. sr_step. sr_step.
  sr_step; [sr_step; by apply Hskip |]. do 3 sr_step.
  eapply wpl_mono; [apply send_commit_retry_frame |]. intros ? ? [_ [f ->]]. steps.
  eapply wpl_mono; [apply send_confirm_frame |]. intros ? ? [f' ->]. steps.
  apply Hskip; [| done]. eapply quiet_trans; [by apply (quiet_sent s (sent f s) f) |]. by apply (quiet_sent _ _ f').
Qed.

(** The handler of a message that was verified. *)
Lemma after_verified s trans ret t ies len :
  verified s trans ret t →
  wpl (if negb (ret =? 0) then mret ret
       else if trans =? SAE_STATE_COMMITTED then sae_process_commit E ies len
       else if trans =? SAE_STATE_CONFIRMED then sae_process_confirm E ies len
       else sae_reject MMPDU_REASON_CODE_UNSPECIFIED) (step_ok s ies) t.
Proof.
  intros (Hq & Hn & Hz). destruct (Z.eqb_spec ret 0) as [->|Hr]; cbn [negb].
  2: { sr_step. apply quiet_step. split; [by apply Hn | done]. }
  destruct (Hz eq_refl) as [Htr Hs].
  destruct (Z.eqb_spec trans SAE_STATE_CONFIRMED); [done |].
  assert (∀ ret u, quiet_ok t ret u → step_ok s ies ret u) as Hstep.
  { intros r u [? ?]. apply quiet_step. split; [done |]. by eapply quiet_trans. }
  sr_step; [| eapply wpl_mono; [by apply rejected | by apply Hstep]].
  destruct Hs as [Hs|[It Hs]].
  - eapply wpl_mono; [by apply process_commit_bad |]. intros ? ? [-> [f ->]]. apply Hstep.
    split; [by intros ?%bad_ret | by apply (quiet_sent t _ f)].
  - eapply wpl_mono; [by apply process_commit_ok | by apply Hstep].
Qed.

(** A confirm in the accepted state. *)
Lemma accepted_confirm_ok status ies len s :
  sae_inv s → sae_state s = SAE_STATE_ACCEPTED →
  wpl (sae_verify_accepted E SAE_STATE_CONFIRMED status ies len)
    (λ ret t, (ret = BADMSG ∧ quiet s t)
              ∨ (ret = 0 ∧ sae_inv t ∧ sae_state t = SAE_STATE_CONFIRMED
                 ∧ ∀ r u, step_ok t ies r u → step_ok s ies r u)) s.
Proof.
  intros I Hst. unfold sae_verify_accepted. sr_step. sr_step. cbn [negb Z.eqb SAE_STATE_CONFIRMED Pos.eqb].
  sr_step; [sr_step; by left |]. sr_step; [sr_step; by left |]. sr_step. sr_step.
  sr_step; [sr_step; by left |]. sr_step.
  eapply wpl_mono; [apply verify_confirm_frame |]. intros [] s' Hs'; cbn [negb]; [| subst; sr_step; by left].
  destruct Hs' as [Hcf [rc ->]]. do 3 sr_step.
  eapply wpl_mono; [apply send_confirm_frame |]. intros ? ? [f ->]. sr_step. right.
  apply Z.ltb_ge in Hb. pose proof (inv_sync s I).
  destruct (inv_state s I) as [[? _]|[_ Hag]]; [other_state |]. split_and!; [done | | done |].
  - destruct I. constructor; cbn; try done.
    + unfold SAE_SYNC_MAX in *. rewrite u16_small; lia.
    + right. split; [by left | exact Hag].
  - intros r u [H1 H2]. split; [exact H1 |]. destruct H2 as [Hq|(H2 & H3 & H4 & H5 & H6)].
    + left. eapply quiet_trans; [| exact Hq]. by apply (quiet_sent s _ f).
    + right. split_and!; [exact H2 | exact H3 | exact H4 | exact H5 |].
      rewrite H6. f_equal. by apply (assocs_same s f).
Qed.

Lemma rx_body_ok trans status ies len s :
  sae_inv s → wpl (sae_rx_body E trans status ies len) (step_ok s ies) s.
Proof.
  intros I. unfold sae_rx_body, sae_verify_packet. sr_step. sr_step. sr_step.
  destruct (Z.eqb_spec trans SAE_STATE_CONFIRMED) as [Hc|Hc].
  2: destruct (Z.eqb_spec trans SAE_STATE_COMMITTED) as [Hk|Hk]; cbn [negb andb].
  - (* a confirm *)
    subst trans. cbn [negb andb Z.eqb SAE_STATE_CONFIRMED SAE_STATE_COMMITTED Pos.eqb].
    destruct (inv_state s I) as [[Hst _]|[[Hst|Hst] _]]; rewrite Hst;
      cbn [Z.eqb SAE_STATE_CONFIRMED SAE_STATE_COMMITTED SAE_STATE_NOTHING SAE_STATE_ACCEPTED Pos.eqb].
    + eapply wpl_mono; [by apply verify_committed_ok |]. intros. by apply (after_verified s 2).
    + unfold sae_verify_confirmed. do 2 sr_step. rewrite Z.eqb_refl. sr_step. by apply process_confirm_ok.
    + eapply wpl_mono; [by apply accepted_confirm_ok |].
      intros ? t [[-> Hq]|(-> & It & Ht & Hstep)]; cbn [negb Z.eqb BADMSG].
      * sr_step. apply quiet_step. split; [by intros ?%bad_ret | done].
      * eapply wpl_mono; [by apply process_confirm_ok | exact Hstep].
  - (* a commit *)
    subst trans. destruct (inv_state s I) as [[Hst _]|[[Hst|Hst] _]]; rewrite Hst;
      cbn [Z.eqb SAE_STATE_CONFIRMED SAE_STATE_COMMITTED SAE_STATE_NOTHING SAE_STATE_ACCEPTED Pos.eqb].
    + eapply wpl_mono; [by apply verify_committed_ok |]. intros. by apply (after_verified s 1).
    + eapply wpl_mono; [by apply verify_confirmed_ok |]. intros. by apply (after_verified s 1).
    + unfold sae_verify_accepted. sr_step. sr_step. cbn [negb Z.eqb SAE_STATE_CONFIRMED SAE_STATE_COMMITTED Pos.eqb]. sr_step. apply (after_verified s 1). by apply verified_bad.
  - sr_step. apply quiet_step. split; [by intros ?%bad_ret | done].
Qed.

(** ** Sessions *)

(** The fields behind the status code of a received authentication frame. *)
Definition auth_ies (f : ptr) : ptr :=
  match mmpdu_body f with Ok b => b +! 6 | _ => [] end.

Lemma rx_authenticate_ok f len s :
  sae_inv s → wpl (sae_rx_authenticate E f len) (step_ok s (auth_ies f)) s.
Proof.
  intros I. unfold sae_rx_authenticate. sr_step. sr_step. destruct a as [hdr|].
  2: { eapply wpl_mono; [by apply rejected |]. intros. by apply quiet_step. }
  assert (hdr = f) as ->.
  { unfold mpdu_validate in Hr. case_match; [done |]. apply bind_Ok_inv in Hr as (ty & _ & Hr).
    case_match; [| done]. apply bind_Ok_inv in Hr as (ok & _ & [= Hr]). by destruct ok; simplify_eq. }
  sr_step. sr_step. unfold auth_ies. rewrite Hr0. do 6 sr_step. by apply rx_body_ok.
Qed.

(** The states of a session: it begins with [sae_start] and ends with the first frame whose
    handling returns neither 0 nor -EAGAIN (netdev_authenticate_event). *)
Inductive sae_reach : sae_sm → Prop :=
  | reach_start hs s0 s :
      zlen (hs_pmk hs) = 64 → from_option (λ p, bytes_ok p) True (hs_passphrase hs) →
      sae_sm_new hs = Ok s0 → sae_start E s0 = Ok (true, s) → sae_reach s
  | reach_rx s f len ret s' :
      sae_reach s → sae_rx_authenticate E f len s = Ok (ret, s') → live ret → sae_reach s'
  | reach_timeout s s' :
      sae_reach s → sae_assoc_timeout s = Ok (true, s') → sae_reach s'.

Lemma start_inv hs s0 s :
  zlen (hs_pmk hs) = 64 → from_option (λ p, bytes_ok p) True (hs_passphrase hs) →
  sae_sm_new hs = Ok s0 → sae_start E s0 = Ok (true, s) → sae_inv s.
Proof.
  intros Lh Hpa Hn Hs. unfold sae_sm_new in Hn. apply bind_Ok_inv in Hn as (g & Hg & [= <-]).
  pose proof supported_groups_len. apply ecc_group_inv in Hg as [_ Hin].
  2: { unfold ecc_group in Hg. cbn [Z.leb Z.compare andb] in Hg. destruct (Z.ltb_spec 0 (zlen supported_ike_groups)); [| lia].
       injection Hg as <-. eapply Z.neq_sym, Z.lt_neq, supported_groups_ok, list_elem_of_In, nth_In. unfold zlen in *. cbn. lia. }
  unfold sae_start in Hs. rewrite (sr_bind_ok _ _ _ tt _ eq_refl) in Hs.
  match type of Hs with _ ?t = _ => pose proof (send_commit_new_frame t) as Hw end.
  unfold wpl in Hw. rewrite Hs in Hw. destruct Hw as [(_ & c & P & r & m & n & f & Hc & ->)|[? _]]; [| done].
  constructor; cbn; try (done || lia). left. split; [done |]. right. by exists c, P, r, m.
Qed.

Lemma reach_inv s : sae_reach s → sae_inv s.
Proof.
  induction 1 as [hs s0 s Lh Hpa Hn Hs|s f len ret s' _ I Hrx Hl|s s' _ I Ht].
  - by eapply start_inv.
  - pose proof (rx_authenticate_ok f len s I) as Hw. unfold wpl in Hw. rewrite Hrx in Hw. by apply Hw.
  - unfold sae_assoc_timeout in Ht. rewrite (sr_bind_ok _ _ _ s s eq_refl) in Ht.
    destruct (SAE_MAX_ASSOC_RETRY <=? sae_assoc_retry s); [done |]. injection Ht as <-.
    destruct I. by constructor.
Qed.

(** C8: Whatever frames arrive, the PMK that a session hands to its handshake is that of the SAE
    exchange, and it is handed over, with the request to associate, only when the frame just
    received carries a confirm computed with the KCK of that exchange; a frame that is not
    such a confirm leaves the handshake as it was. *)
Theorem sae_pmk_authentic s f len ret s' :
  sae_reach s → sae_rx_authenticate E f len s = Ok (ret, s') → authentic s (auth_ies f) s'.
Proof.
  intros Hs Hrx. pose proof (rx_authenticate_ok f len s (reach_inv s Hs)) as Hw.
  unfold wpl in Hw. rewrite Hrx in Hw. apply Hw.
Qed.

(** The states of a session are consistent: the counters stay within their bounds, the group
    and the curve belong together and are supported, the secrets and the public values fit
    each other, and in the confirmed and accepted states the keys are those of the exchange. *)
Theorem sae_session_invariant s : sae_reach s → sae_inv s.
Proof. apply reach_inv. Qed.
(** ** No faults *)

Context (env : ∀ c, env_ok E c).

(** For the password and the addresses of the session there are numbers and bytes, of those
    that [sae_compute_pwe] can draw, with which it meets a value that is not a scalar. *)
Definition null_value (hs : handshake_state) : Prop :=
  ∃ pw c qnr dummy, hs_passphrase hs = Some pw ∧ 1 < qnr < Z.min (ecc_prime c) (ecc_order c)
    ∧ zlen dummy = zlen pw ∧ rounds c 30 qnr pw dummy (hs_spa hs) (hs_aa hs) 1 None = None.

Abbreviation returns_sr m := (wp m (λ _ _, True)).

Lemma secrets_some s c P r m : secrets s c P r m →
  ∃ sc el, sae_scalar s = Some sc ∧ sae_element s = Some el.
Proof. intros (_ & _ & _ & -> & ->). eauto. Qed.

Lemma send_commit_retry_total s sc el :
  sae_scalar s = Some sc → sae_element s = Some el → from_option zlen 0 (sae_token s) ≤ 256 →
  returns_sr (sae_send_commit E true) s.
Proof.
  intros Hs He Ht. unfold sae_send_commit, sae_build_commit, tx_auth. sr_seq. cbn [negb]. sr_seq.
  eapply wp_ok; [by apply commit_frame_ok |]. by sr_seq.
Qed.

Lemma send_commit_new_total hs s c :
  hs = sae_hs s → sae_curve s = Some c → from_option (λ p, bytes_ok p) True (hs_passphrase (sae_hs s)) →
  from_option zlen 0 (sae_token s) ≤ 256 →
  wpf (null_value hs) (sae_send_commit E false) (λ _ _, True) s.
Proof.
  intros -> Hc Hp Ht. unfold sae_send_commit, sae_build_commit, tx_auth. sr_seq.
  destruct (hs_passphrase (sae_hs s)) as [pw|] eqn:Hpw; [| by sr_seq; cbn [negb]; sr_seq].
  destruct (compute_pwe_ok E c sha256 (env c) pw (hs_spa (sae_hs s)) (hs_aa (sae_hs s)) s Hp Hc)
    as (q & dummy & Hq & _ & Hd & Hm).
  sr_seq. destruct (rounds c 30 q pw dummy _ _ 1 None) eqn:Hro.
  2: { unfold wpf at 1. rewrite Hm. by exists pw, c, q, dummy. }
  destruct Hm as (n & b & pwe & Hpwe & Hm). apply wpf_wp. eapply wp_ok; [exact Hpwe |].
  destruct b; cbn [negb]; [| by sr_seq; cbn [negb]; sr_seq].
  unfold pwe_found_ok in Hm.
  destruct (hunt c 30 q pw (hs_spa (sae_hs s)) (hs_aa (sae_hs s)) 1) as [[x odd]|]; [| by destruct Hm].
  destruct Hm as (_ & P & -> & _). sr_seq. unfold deref. eapply wpf_run; [cbn; by rewrite Hc |]. sr_seq.
  eapply wpf_run; [done |]. sr_seq. apply wpf_wp. eapply wp_ok; [reflexivity |]. sr_seq. apply wpf_wp. eapply wp_ok; [reflexivity |].
  sr_seq. cbn [negb]. sr_seq. apply wpf_wp. eapply wp_ok; [by apply commit_frame_ok |]. by sr_seq.
Qed.


Lemma send_confirm_total s sc el ps pe :
  sae_scalar s = Some sc → sae_element s = Some el → sae_p_scalar s = Some ps → sae_p_element s = Some pe →
  returns_sr (sae_send_confirm E) s.
Proof.
  intros Hs He Hps Hpe. unfold sae_send_confirm, tx_auth. sr_seq. rewrite Hs, He, Hps, Hpe.
  eapply wp_ok; [by apply sae_cn_ok |]. by sr_seq.
Qed.

Lemma process_commit_total ies s c :
  sae_curve s = Some c →
  (sae_state s = SAE_STATE_COMMITTED → ∃ P r m, secrets s c P r m) →
  returns_sr (sae_process_commit E ies (zlen ies)) s.
Proof.
  intros Hc Hsec. unfold sae_process_commit. sr_seq. unfold deref. eapply wp_run; [by rewrite Hc |]. cbv zeta.
  destruct (Z.eqb_spec (sae_state s) SAE_STATE_COMMITTED) as [Hst|]; cbn [negb]; [| done].
  destruct (Hsec Hst) as (P & r & m & _ & Hpwe & Hr & Hs & He). pose proof (ecc_bytes_range c).
  destruct (Z.ltb_spec (zlen ies) (ecc_bytes c + ecc_bytes c * 2 + 2)); [done |]. sr_seq.
  destruct (l_get_le16_in ies) as [g Hg]; [lia |]. eapply wp_run; [exact Hg |].
  destruct (g =? sae_group s); cbn [negb]; [| done]. sr_seq.
  unfold l_ecc_scalar_new. eapply wp_run; [rewrite rdn_ok by (rewrite zlen_padd; lia); reflexivity |]. sr_seq.
  sr_step; [| done]. sr_seq. unfold l_ecc_point_from_data.
  eapply wp_run; [rewrite rdn_ok by (rewrite zlen_padd; lia); reflexivity |]. sr_seq.
  sr_step; [| done]. sr_step; [by sr_seq |]. sr_seq.
  match goal with |- context [sae_keys ?a ?b ?d ?e ?f ?g ?h] => destruct (sae_keys a b d e f g h) as [[??]?] end.
  sr_seq. eapply wp_mono; [by eapply send_confirm_total |]. intros. by sr_seq.
Qed.

Lemma verify_confirm_total ies s sc el ps pe :
  sae_scalar s = Some sc → sae_element s = Some el → sae_p_scalar s = Some ps → sae_p_element s = Some pe →
  34 ≤ zlen ies → returns_sr (sae_verify_confirm E ies) s.
Proof.
  intros Hs He Hps Hpe Hl. unfold sae_verify_confirm. sr_seq.
  destruct (l_get_le16_in ies) as [rc Hrc]; [lia |]. eapply wp_run; [exact Hrc |]. sr_seq. rewrite Hs, He, Hps, Hpe.
  eapply wp_ok; [by apply sae_cn_ok |]. sr_seq. cbn [from_option]. unfold id.
  eapply wp_run; [apply memeq_ok; unfold cn; rewrite hmac256_zlen, zlen_padd by (done || lia); lia |].
  sr_step; by sr_seq.
Qed.
(** What a verified commit leaves for [sae_process_commit]. *)
Definition can_process (t : sae_sm) : Prop :=
  ∃ c, sae_curve t = Some c ∧ (sae_state t = SAE_STATE_COMMITTED → ∃ P r m, secrets t c P r m).

Lemma resend_total {A} (a : A) (Q : A → sae_sm → Prop) s sc el :
  sae_scalar s = Some sc → sae_element s = Some el → from_option zlen 0 (sae_token s) ≤ 256 →
  (∀ f, Q a (sent f s)) → wp (sae_send_commit E true ≫= λ _, mret a) Q s.
Proof.
  intros Hs He Ht HQ. sr_seq.
  eapply wp_wpl; [by eapply send_commit_retry_total | apply send_commit_retry_frame |].
  intros ? ? [_ [f ->]]. by sr_seq.
Qed.

Lemma ecc_group_next s : sae_inv s → ∃ g, ecc_group (u8 (sae_group_retry s + 1)) = Ok g.
Proof.
  intros I. pose proof (inv_retry s I). pose proof supported_groups_len. rewrite u8_small by lia.
  unfold ecc_group. destruct (Z.leb_spec 0 (sae_group_retry s + 1)); [| lia].
  destruct (Z.ltb_spec (sae_group_retry s + 1) (zlen supported_ike_groups)); cbn [andb]; [by eexists |].
  destruct (Z.eqb_spec (sae_group_retry s + 1) (zlen supported_ike_groups)); [by eexists | lia].
Qed.

Lemma verify_committed_total trans status ies s c P r m :
  sae_inv s → sae_state s = SAE_STATE_COMMITTED → secrets s c P r m →
  wpf (null_value (sae_hs s)) (sae_verify_committed E trans status ies (zlen ies))
    (λ ret t, ret = 0 → can_process t) s.
Proof.
  intros I Hst Hsec. pose proof Hsec as (Hc & _ & _ & Hs & He). pose proof (inv_token s I) as Ht.
  pose proof (inv_pass s I) as Hpa.
  unfold sae_verify_committed. sr_seq.
  sr_step; [sr_step; [by sr_seq |]; sr_step; sr_step; apply wpf_wp; eapply resend_total; [exact Hs | exact He | exact Ht | by intros] |].
  sr_step. { unfold sae_process_anti_clogging. sr_seq. sr_step; [by sr_seq |].
    apply orb_false_iff in Hb1 as [?%Z.ltb_ge ?%Z.ltb_ge]. sr_seq.
    eapply wpf_run; [apply rdn_ok; rewrite zlen_padd; lia |]. sr_seq.
    apply wpf_wp. eapply wp_mono; [eapply send_commit_retry_total; [exact Hs | exact He |] | by intros; sr_seq].
    cbn. rewrite zlen_ptake; [lia | rewrite zlen_padd; lia]. }
  sr_step. { sr_seq.
    assert (∃ b, (if zlen ies <? 2 then Ok false else g ← l_get_le16 ies; Ok (negb (g =? sae_group s))) = Ok b) as [b Hmm].
    { destruct (Z.ltb_spec (zlen ies) 2); [by eexists |]. destruct (l_get_le16_in ies) as [g ->]; [lia |]. by eexists. }
    eapply wpf_run; [exact Hmm |]. destruct b; sr_seq; [done |].
    destruct (ecc_group_next s I) as [g Hg]. eapply wpf_run; [exact Hg |].
    destruct (Z.eqb_spec g 0) as [|Hg0]; [done |]. unfold sae_reset_state. sr_seq.
    apply ecc_group_inv in Hg as [_ Hin]; [| done]. destruct (supported_groups_ok g Hin) as [_ [c' Hc']].
    eapply wpf_mono; [eapply send_commit_new_total; [reflexivity | exact Hc' | exact Hpa | done] | by intros; sr_seq]. }
  assert (Hcan : can_process s) by (exists c; eauto).
  sr_step; [| by sr_seq]. destruct (Z.ltb_spec (zlen ies) 2); [by sr_seq |]. sr_seq.
  destruct (l_get_le16_in ies) as [g Hg]; [lia |]. eapply wpf_run; [exact Hg |].
  sr_step; [by sr_seq |]. sr_step; [| sr_step; done].
  sr_step.
  { apply wpf_wp. eapply resend_total; [exact Hs | exact He | exact Ht |].
    intros f _. exists c. split; [done | by exists P, r, m]. }
  sr_seq.
  eapply wpf_wpl; [eapply send_commit_new_total; [reflexivity | reflexivity | exact Hpa | exact Ht] | apply send_commit_new_frame |].
  intros b ? [(_ & c' & P' & r' & m' & n & f & Hc' & ->)|(_ & n & pwe & -> & _)]; sr_seq; intros _.
  - exists c'. by split.
  - eexists. by split.
Qed.
Lemma process_total trans ret t ies :
  trans ≠ SAE_STATE_CONFIRMED → (ret = 0 → can_process t) →
  returns_sr (if negb (ret =? 0) then mret ret
       else if trans =? SAE_STATE_COMMITTED then sae_process_commit E ies (zlen ies)
       else if trans =? SAE_STATE_CONFIRMED then sae_process_confirm E ies (zlen ies)
       else sae_reject MMPDU_REASON_CODE_UNSPECIFIED) t.
Proof.
  intros Htr Hp. destruct (Z.eqb_spec ret 0) as [H0|]; cbn [negb]; [| done].
  destruct (Z.eqb_spec trans SAE_STATE_CONFIRMED); [done |].
  sr_step; [| done]. destruct (Hp H0) as (c & Hc & Hs). by eapply process_commit_total.
Qed.

Lemma process_confirm_total ies s c P r m ps Q :
  sae_inv s → agreed s c P r m ps Q → returns_sr (sae_process_confirm E ies (zlen ies)) s.
Proof.
  intros I Hag. pose proof Hag as ((_ & _ & _ & Hs & He) & Hps & Hpe & Hk).
  destruct (keys_of_zlen _ _ _ _ _ _ sha256 Hk) as [Lp Li]. pose proof (inv_hs s I) as Lh.
  unfold sae_process_confirm. sr_seq. sr_step; [done |]. destruct (Z.ltb_spec (zlen ies) 34); [done |]. sr_seq.
  eapply wp_wpl; [by eapply verify_confirm_total | apply verify_confirm_frame |].
  intros [] t Ht; cbn [negb]; [| done]. destruct Ht as [_ [rc ->]]. sr_seq.
  unfold handshake_state_set_pmkid, handshake_state_set_pmk.
  eapply wp_run; [by rewrite rdn_ok by (cbn; lia) |]. sr_seq.
  eapply wp_run; [rewrite rdn_ok, bind_ok by (cbn; lia); rewrite put_first; [done |] |].
  - rewrite zlen_ptake by (cbn; lia). cbn. lia.
  - unfold tx_assoc. by sr_seq.
Qed.

Lemma verify_confirmed_total trans status ies s c P r m ps Q :
  sae_inv s → agreed s c P r m ps Q → sae_state s = SAE_STATE_CONFIRMED → trans ≠ SAE_STATE_CONFIRMED →
  wp (sae_verify_confirmed E trans status ies (zlen ies)) (λ ret t, ret = 0 → can_process t) s.
Proof.
  intros I Hag Hst Htr. pose proof Hag as ((Hc & _ & _ & Hs & He) & Hps & Hpe & _).
  assert (Hcan : ∀ t, sae_curve t = Some c → sae_state t = SAE_STATE_CONFIRMED → can_process t).
  { intros t Ht Hst'. exists c. split; [done |]. by rewrite Hst'. }
  unfold sae_verify_confirmed. sr_seq. destruct (Z.eqb_spec trans SAE_STATE_CONFIRMED); [done |].
  sr_step; [sr_seq; intros; by apply Hcan |]. sr_step; [by sr_seq |].
  destruct (Z.ltb_spec (zlen ies) 2); [by sr_seq |]. sr_seq.
  destruct (l_get_le16_in ies) as [g Hg]; [lia |]. eapply wp_run; [exact Hg |].
  sr_step; [sr_seq; intros; by apply Hcan |]. sr_seq.
  eapply wp_wpl; [eapply send_commit_retry_total; [exact Hs | exact He | exact (inv_token s I)]
                 | apply send_commit_retry_frame |].
  intros ? ? [_ [f ->]]. sr_seq.
  eapply wp_wpl; [eapply send_confirm_total; [exact Hs | exact He | exact Hps | exact Hpe] | apply send_confirm_frame |].
  intros ? ? [f' ->]. sr_seq. intros _. apply Hcan; [exact Hc | reflexivity].
Qed.

Lemma verify_accepted_total status ies s c P r m ps Q :
  sae_inv s → agreed s c P r m ps Q → 34 ≤ zlen ies →
  returns_sr (sae_verify_accepted E SAE_STATE_CONFIRMED status ies (zlen ies)) s.
Proof.
  intros I Hag Hl. pose proof Hag as ((Hc & _ & _ & Hs & He) & Hps & Hpe & _).
  unfold sae_verify_accepted. sr_seq. sr_step; [done |]. sr_step; [done |]. sr_step; [done |]. sr_seq.
  destruct (l_get_le16_in ies) as [g Hg]; [lia |]. eapply wp_run; [exact Hg |]. sr_step; [done |]. sr_seq.
  eapply wp_wpl; [by eapply verify_confirm_total | apply verify_confirm_frame |].
  intros [] t Ht; cbn [negb]; [| done]. destruct Ht as [_ [rc ->]]. sr_seq.
  eapply wp_mono; [eapply send_confirm_total; [exact Hs | exact He | exact Hps | exact Hpe] |]. by intros; sr_seq.
Qed.

Lemma rx_body_total trans status ies s :
  sae_inv s → is_Some (sae_scalar s) → 
  (sae_state s = SAE_STATE_ACCEPTED → trans = SAE_STATE_CONFIRMED → 34 ≤ zlen ies) →
  wpf (null_value (sae_hs s)) (sae_rx_body E trans status ies (zlen ies)) (λ _ _, True) s.
Proof.
  intros I Hsome Hacc. unfold sae_rx_body, sae_verify_packet. sr_seq.
  destruct (Z.eqb_spec trans SAE_STATE_CONFIRMED) as [Hc|Hc].
  2: destruct (Z.eqb_spec trans SAE_STATE_COMMITTED) as [Hk|Hk]; cbn [negb andb].
  - (* a confirm *)
    subst trans. cbn [negb andb Z.eqb SAE_STATE_CONFIRMED SAE_STATE_COMMITTED Pos.eqb].
    destruct (inv_state s I) as [[Hst Hsec]|[[Hst|Hst] (c & P & r & m & ps & Q & Hag)]]; rewrite Hst;
      cbn [Z.eqb SAE_STATE_CONFIRMED SAE_STATE_COMMITTED SAE_STATE_NOTHING SAE_STATE_ACCEPTED Pos.eqb].
    + destruct Hsec as [(_ & _ & Hn & _)|(c & P & r & m & Hsec)]; [rewrite Hn in Hsome; by destruct Hsome |].
      eapply wpf_wpl; [eapply wpf_mono; [by eapply verify_committed_total | done] | by apply verify_committed_ok |].
      intros ret t (_ & _ & Hz). destruct (Z.eqb_spec ret 0) as [->|]; cbn [negb]; [by destruct (Hz eq_refl) | done].
    + unfold sae_verify_confirmed. sr_seq. rewrite Z.eqb_refl. sr_seq. apply wpf_wp. by eapply process_confirm_total.
    + eapply wpf_wpl; [apply wpf_wp; by eapply verify_accepted_total; [.. | apply Hacc] | by apply accepted_confirm_ok |].
      intros ret t [[-> _]|(-> & It & Ht & _)]; cbn [negb Z.eqb BADMSG]; [done |].
      destruct (inv_state t It) as [[? _]|[_ (c' & P' & r' & m' & ps' & Q' & Hag')]]; [other_state |].
      apply wpf_wp. by eapply process_confirm_total.
  - (* a commit *)
    subst trans. destruct (inv_state s I) as [[Hst Hsec]|[[Hst|Hst] (c & P & r & m & ps & Q & Hag)]]; rewrite Hst;
      cbn [Z.eqb SAE_STATE_CONFIRMED SAE_STATE_COMMITTED SAE_STATE_NOTHING SAE_STATE_ACCEPTED Pos.eqb].
    + destruct Hsec as [(_ & _ & Hn & _)|(c & P & r & m & Hsec)]; [rewrite Hn in Hsome; by destruct Hsome |].
      eapply wpf_mono; [by eapply verify_committed_total |]. intros. by apply wpf_wp, (process_total 1).
    + eapply wpf_mono; [by eapply wpf_wp, verify_confirmed_total |]. intros. by apply wpf_wp, (process_total 1).
    + unfold sae_verify_accepted. sr_seq. cbn [negb Z.eqb SAE_STATE_CONFIRMED SAE_STATE_COMMITTED Pos.eqb]. by sr_seq.
  - by sr_seq.
Qed.



(** Two recoveries of the protocol end the session instead: a commit for another group that is
    supported, when the own address is the lower one, and a commit for the own group in the
    confirmed state.  The new commit (and, in the second case, the confirm) is sent, but the
    code then goes on to [sae_process_commit], which rejects the frame because the state is no
    longer the committed one, and -EBADMSG makes netdev.c give up. *)
Theorem sae_recovery_ends_session s addrs g rest :
  sae_reach s → is_Some (sae_scalar s) → zlen addrs = 22 → 0 ≤ g < 65536 →
  (sae_state s = SAE_STATE_COMMITTED ∧ g ≠ sae_group s ∧ is_Some (l_ecc_curve_get_ike_group g)
   ∧ bytes_lt (hs_aa (sae_hs s)) (hs_spa (sae_hs s)) = false)
  ∨ (sae_state s = SAE_STATE_CONFIRMED ∧ g = sae_group s) →
  let f := auth_frame addrs (le16_bytes 1 ++ le16_bytes 0 ++ le16_bytes g ++ rest) in
  (∃ s', sae_rx_authenticate E f (zlen f) s = Ok (BADMSG, s'))
  ∨ (sae_rx_authenticate E f (zlen f) s = Fault ∧ null_value (sae_hs s)).
Proof.
  intros Hr Hsome La Hg Hcase. cbv zeta. rewrite sae_rx_frame by (done || lia). pose proof (reach_inv s Hr) as I.
  set (ies := le16_bytes g ++ rest). assert (Hle : l_get_le16 ies = Ok g) by (by apply l_get_le16_bytes).
  assert (Hl : 2 ≤ zlen ies) by (unfold ies; rewrite zlen_app, zlen_le16_bytes; pose proof (zlen_nonneg rest); lia).
  clearbody ies.
  enough (Hw : wpl (sae_rx_body E 1 0 ies (zlen ies)) (λ ret _, ret = BADMSG) s).
  { assert (Ht : wpf (null_value (sae_hs s)) (sae_rx_body E 1 0 ies (zlen ies)) (λ _ _, True) s)
      by (by apply rx_body_total).
    unfold wpf, wpl in *. destruct (sae_rx_body E 1 0 ies (zlen ies) s) as [[ret s']| | |]; try done; subst; eauto. }
  unfold sae_rx_body, sae_verify_packet. do 3 sr_step.
  destruct Hcase as [(Hst & Hne & [c Hc] & Hmac)|(Hst & ->)]; rewrite Hst;
    cbn [negb andb Z.eqb SAE_STATE_CONFIRMED SAE_STATE_COMMITTED SAE_STATE_NOTHING Pos.eqb].
  - unfold sae_verify_committed. do 2 sr_step. cbn [Z.eqb SAE_STATE_CONFIRMED Pos.eqb
      MMPDU_STATUS_CODE_ANTI_CLOGGING_TOKEN_REQ MMPDU_STATUS_CODE_UNSUPP_FINITE_CYCLIC_GROUP].
    destruct (Z.ltb_spec (zlen ies) 2); [lia |]. sr_step. unfold wpl at 1, run at 1. rewrite Hle.
    destruct (Z.eqb_spec g (sae_group s)); [done |]. rewrite Hc, Hmac. do 3 sr_step.
    eapply wpl_mono; [apply send_commit_new_frame |]. intros b t _. do 3 sr_step. cbn [negb Z.eqb].
    by eapply wpl_mono; [apply process_commit_bad | intros ? ? [-> _]].
  - unfold sae_verify_confirmed. do 2 sr_step. cbn [negb Z.eqb SAE_STATE_CONFIRMED Pos.eqb].
    sr_step; [sr_step; done |]. destruct (Z.ltb_spec (zlen ies) 2); [lia |]. sr_step. unfold wpl at 1, run at 1.
    rewrite Hle, Z.eqb_refl. cbn [negb]. do 3 sr_step.
    eapply wpl_mono; [apply send_commit_retry_frame |]. intros ? ? [_ [f ->]]. sr_step.
    eapply wpl_mono; [apply send_confirm_frame |]. intros ? ? [f' ->]. sr_step. cbn [negb Z.eqb].
    by eapply wpl_mono; [apply process_commit_bad | intros ? ? [-> _]].
Qed.

(** In the accepted state the length of a confirm is not checked before its MAC is compared:
    one of 2 to 33 bytes whose counter is new makes the comparison read behind the frame. *)
Theorem sae_accepted_confirm_overread s addrs rc rest :
  sae_reach s → sae_state s = SAE_STATE_ACCEPTED → sae_sync s ≤ SAE_SYNC_MAX → zlen addrs = 22 →
  sae_rc s < rc < 0xffff → 0 ≤ rc → zlen rest < 32 →
  let f := auth_frame addrs (le16_bytes 2 ++ le16_bytes 0 ++ le16_bytes rc ++ rest) in
  sae_rx_authenticate E f (zlen f) s = Fault.
Proof.
  intros Hr Hst Hsy La Hrc Hrc0 Hl. cbv zeta. rewrite sae_rx_frame by (done || lia). pose proof (reach_inv s Hr) as I.
  set (ies := le16_bytes rc ++ rest). assert (Hle : l_get_le16 ies = Ok rc) by (apply l_get_le16_bytes; lia).
  assert (Hm : zlen ies = 2 + zlen rest) by (unfold ies; by rewrite zlen_app, zlen_le16_bytes).
  pose proof (zlen_nonneg rest).
  destruct (inv_state s I) as [[? _]|[_ (c & P & r & m & ps & Q & (_ & _ & _ & Hs & He) & Hps & Hpe & _)]]; [other_state |].
  unfold sae_rx_body, sae_verify_packet. cbn [negb andb Z.eqb SAE_STATE_CONFIRMED SAE_STATE_COMMITTED Pos.eqb].
  unfold mbind at 1, sr_bind at 1. rewrite (sr_bind_ok _ _ _ s s eq_refl), Hst.
  cbn [Z.eqb SAE_STATE_CONFIRMED SAE_STATE_COMMITTED SAE_STATE_NOTHING SAE_STATE_ACCEPTED Pos.eqb].
  assert (Hv : sae_verify_accepted E 2 0 ies (zlen ies) s = Fault); [| by rewrite Hv].
  unfold sae_verify_accepted. rewrite (sr_bind_ok _ _ _ s s eq_refl). cbn [negb Z.eqb SAE_STATE_CONFIRMED Pos.eqb].
  destruct (Z.ltb_spec SAE_SYNC_MAX (sae_sync s)); [lia |]. destruct (Z.ltb_spec (zlen ies) 2); [lia |].
  rewrite (run_bind_ok _ _ _ _ Hle). destruct (Z.leb_spec rc (sae_rc s)); [lia |].
  destruct (Z.eqb_spec rc 0xffff); [lia |]. cbn [orb].
  assert (Hvc : sae_verify_confirm E ies s = Fault); [| unfold mbind, sr_bind; by rewrite Hvc].
  unfold sae_verify_confirm. rewrite (sr_bind_ok _ _ _ s s eq_refl), (run_bind_ok _ _ _ _ Hle), Hps, Hpe, Hs, He.
  erewrite sr_bind_ok by (by apply sae_cn_ok). cbn [from_option]. unfold id, mbind, sr_bind, run, memeq.
  unfold rdn. replace (zlen (cn _ _ _ _ _ _)) with 32 by (symmetry; by apply hmac256_zlen).
  rewrite zlen_padd by lia. destruct (Z.leb_spec 32 (zlen ies - 2)); [lia |]. done.
Qed.
End run.

