(* ===== verification/SaeTest.v ===== *)
(** * SAE: concrete sessions

    The curve y^2 = x^3 - 3x + 1 over the field of 11 elements, whose group has the prime
    order 17, as an instance of the interface, and sessions on it at which the theorems on
    SAE are evaluated.  A point is the multiple of the generator (0, 1) it is. *)

From stdpp Require Import base numbers list option.
From Stdlib Require Import ZArith Lia.
From S2P Require Import Prelude IeTlv IeRsn IeMisc Crypto Kdf Handshake Mpdu StRes Ecc Sae SaeSpec SaePwe SaeRun.

Open Scope Z_scope.

(** ** The curve *)

Definition points : list (Z * Z) :=
  [(0, 0); (0, 1); (5, 1); (6, 10); (10, 6); (4, 8); (8, 7); (7, 2); (2, 5); (2, 6); (7, 9); (8, 4);
   (4, 3); (10, 5); (6, 1); (5, 10); (0, 10)].

Definition coords (k : Z) : Z * Z := nth (Z.to_nat (k mod 17)) points (0, 0).

Definition multiples : list Z := Z.of_nat <$> seq 1 16.

Definition find_point (f : Z * Z → bool) : option Z := List.find (λ k, f (coords k)) multiples.

Definition legendre11 (a : Z) : Z :=
  let a := a mod 11 in
  if a =? 0 then 0 else if existsb (Z.eqb a) [1; 3; 4; 5; 9] then 1 else -1.

#[local] Instance small_ecc : Ecc := {
  l_ecc_curve := unit;
  ecc_elem := Z;
  l_ecc_curve_get_ike_group g := if (g =? 19) || (g =? 20) then Some tt else None;
  supported_ike_groups := [19; 20];
  ecc_prime _ := 11;
  ecc_order _ := 17;
  ecc_bytes _ := 32;
  ecc_sum_x _ x := (x * x * x - 3 * x + 1) mod 11;
  ecc_legendre _ := legendre11;
  ecc_mul _ a P := (a * P) mod 17;
  ecc_add _ P Q := (P + Q) mod 17;
  ecc_gen _ := 1;
  ecc_zero := 0;
  ecc_neg _ P := (- P) mod 17;
  ecc_coords _ := coords;
  ecc_from_data _ type data :=
    let x := be_val (ptake data 32) in
    let y := be_val (ptake (data +! 32) 32) in
    if zlen data <? 32 then None
    else if type =? 4 then if zlen data <? 64 then None else find_point (λ p, (p.1 =? x) && (p.2 =? y))
    else if type =? 1 then find_point (λ p, (p.1 =? x) && ((p.2 <? 5) || (p.2 =? 6)))
    else find_point (λ p, (p.1 =? x) && Bool.eqb (Z.odd p.2) (type =? 2));
  ecc_elem_eqb := Z.eqb;
  ecc_valid _ P := (0 <? P) && (P <? 17);
}.

(** A statement on the numbers of a range is checked on each. *)
Lemma range_check (f : Z → bool) n x :
  forallb f (Z.of_nat <$> seq 0 (Z.to_nat n)) = true → 0 ≤ x < n → f x = true.
Proof.
  intros H Hx. rewrite forallb_forall in H. apply H. apply in_map_iff. exists (Z.to_nat x).
  split; [lia |]. apply in_seq. lia.
Qed.

Lemma legendre_mod a : legendre11 (a mod 11) = legendre11 a.
Proof. unfold legendre11. by rewrite Z.mod_mod by done. Qed.

Lemma legendre_mult a b : legendre11 ((a * b) mod 11) = legendre11 a * legendre11 b.
Proof.
  rewrite Z.mul_mod, legendre_mod by done. rewrite <- (legendre_mod a), <- (legendre_mod b).
  pose proof (Z.mod_pos_bound a 11 ltac:(lia)). pose proof (Z.mod_pos_bound b 11 ltac:(lia)).
  generalize dependent (a mod 11). generalize dependent (b mod 11). intros y Hy x Hx. apply Z.eqb_eq.
  apply (range_check (λ y, legendre11 (x * y) =? legendre11 x * legendre11 y) 11); [| done].
  apply (range_check (λ x, forallb (λ y, legendre11 (x * y) =? legendre11 x * legendre11 y)
                             (Z.of_nat <$> seq 0 (Z.to_nat 11))) 11); [by vm_compute | done].
Qed.

(** The finite checks. *)
Lemma mul_valid_check :
  forallb (λ P, forallb (λ x, (P =? 0) || (x =? 0) || (0 <? (x * P) mod 17))
                  (Z.of_nat <$> seq 0 (Z.to_nat 17))) (Z.of_nat <$> seq 0 (Z.to_nat 17)) = true.
Proof. by vm_compute. Qed.

Definition full_ok (P : Z) : bool :=
  (P =? 0) || match @ecc_from_data small_ecc tt L_ECC_POINT_TYPE_FULL (@elem_data small_ecc tt P) with
              | Some Q => Q =? P
              | None => false
              end.

Lemma from_full_check : forallb full_ok (Z.of_nat <$> seq 0 (Z.to_nat 17)) = true.
Proof. by vm_compute. Qed.

Lemma full_ok_spec P : full_ok P = true → P ≠ 0 →
  @ecc_from_data small_ecc tt L_ECC_POINT_TYPE_FULL (@elem_data small_ecc tt P) = Some P.
Proof.
  unfold full_ok. generalize (@ecc_from_data small_ecc tt L_ECC_POINT_TYPE_FULL (@elem_data small_ecc tt P)).
  intros o Ho HP. destruct (Z.eqb_spec P 0); [done |]. destruct o as [Q|]; [| done]. cbn [orb] in Ho.
  apply Z.eqb_eq in Ho. by subst.
Qed.

Definition compressed_ok (t x : Z) : bool :=
  negb (legendre11 ((x * x * x - 3 * x + 1) mod 11) =? 1)
  || match @ecc_from_data small_ecc tt t (be_bytes (Z.to_nat 32) x) with
     | Some P => (0 <? P) && (P <? 17) && ((coords P).1 =? x) && Bool.eqb (Z.odd (coords P).2) (t =? 2)
     | None => false
     end.

Lemma from_compressed_check t : t = 2 ∨ t = 3 →
  forallb (compressed_ok t) (Z.of_nat <$> seq 0 (Z.to_nat 11)) = true.
Proof. intros [->| ->]; by vm_compute. Qed.

Definition compliant_ok (P : Z) : bool :=
  (P =? 0)
  || (((coords ((- P) mod 17)).1 =? (coords P).1)
      && match @ecc_from_data small_ecc tt L_ECC_POINT_TYPE_COMPLIANT
                 (be_bytes (Z.to_nat 32) (coords P).1) with
         | Some Q => (Q =? P) || (Q =? (- P) mod 17)
         | None => false
         end).

Lemma from_compliant_check : forallb compliant_ok (Z.of_nat <$> seq 0 (Z.to_nat 17)) = true.
Proof. by vm_compute. Qed.

Lemma compliant_ok_spec P : compliant_ok P = true → P ≠ 0 →
  (coords ((- P) mod 17)).1 = (coords P).1 ∧
  ∃ Q, @ecc_from_data small_ecc tt L_ECC_POINT_TYPE_COMPLIANT (be_bytes (Z.to_nat 32) (coords P).1) = Some Q
       ∧ (Q = P ∨ Q = (- P) mod 17).
Proof.
  unfold compliant_ok.
  generalize (@ecc_from_data small_ecc tt L_ECC_POINT_TYPE_COMPLIANT (be_bytes (Z.to_nat 32) (coords P).1)).
  intros o Ho HP. destruct (Z.eqb_spec P 0); [done |]. cbn [orb] in Ho.
  apply andb_true_iff in Ho as [Hx%Z.eqb_eq Ho]. split; [done |]. destruct o as [Q|]; [| done].
  exists Q. split; [done |]. apply orb_true_iff in Ho as [?%Z.eqb_eq|?%Z.eqb_eq]; auto.
Qed.

Lemma legendre_check :
  forallb (λ a, (a =? 0) || (legendre11 a =? 1) || (legendre11 a =? -1)) (Z.of_nat <$> seq 0 (Z.to_nat 11)) = true.
Proof. by vm_compute. Qed.

#[local] Instance small_ecc_laws : EccLaws small_ecc.
Proof.
  assert (Hval : ∀ P, (0 <? P) && (P <? 17) = true → 0 ≤ P < 17 ∧ P ≠ 0).
  { intros P [?%Z.ltb_lt ?%Z.ltb_lt]%andb_true_iff. lia. }
  split; cbn [l_ecc_curve ecc_elem l_ecc_curve_get_ike_group supported_ike_groups ecc_prime ecc_order ecc_bytes
              ecc_sum_x ecc_legendre ecc_mul ecc_add ecc_gen ecc_zero ecc_neg ecc_coords ecc_valid small_ecc].
  - intros; unfold L_ECC_SCALAR_MAX_BYTES; lia.
  - intros; lia.
  - intros; lia.
  - intros; lia.
  - intros. apply Z.mod_pos_bound. lia.
  - intros g Hg. apply list_elem_of_In in Hg as [<-|[<-|[]]]; (split; [lia | by eexists]).
  - by vm_compute.
  - intros c a b P HP _. by rewrite <- Z.add_mod, <- Z.mul_add_distr_r by lia.
  - intros c a b P HP _ _. rewrite Z.mul_mod_idemp_r by lia. f_equal. lia.
  - intros c a P HP. by rewrite Z.mul_mod_idemp_l by lia.
  - intros c a P HP. rewrite <- !Z.sub_0_l, Zminus_mod_idemp_r. f_equal. lia.
  - intros c a P [HP HP0]%Hval Ha. rewrite <- Z.mul_mod_idemp_l by lia.
    pose proof (Z.mod_pos_bound a 17 ltac:(lia)). generalize dependent (a mod 17). intros x Hx0 Hx.
    pose proof mul_valid_check as Hc.
    apply (range_check _ 17 P) in Hc; [| done]. apply (range_check _ 17 x) in Hc; [| done].
    pose proof (Z.mod_pos_bound (x * P) 17 ltac:(lia)).
    destruct (Z.eqb_spec P 0); [done |]. destruct (Z.eqb_spec x 0); [done |]. cbn in Hc.
    rewrite Hc. apply Z.ltb_lt. lia.
  - intros c P [HP HP0]%Hval. 
    destruct c. apply full_ok_spec; [| done]. by apply (range_check full_ok 17), HP; apply from_full_check.
  - intros c t l Hl. unfold ecc_from_data, small_ecc. cbv zeta. by destruct (Z.ltb_spec (zlen l) 32); [| lia].
  - intros c P [HP HP0]%Hval. destruct c. apply compliant_ok_spec; [| done].
    by apply (range_check compliant_ok 17), HP; apply from_compliant_check.
  - intros c P [HP HP0]%Hval. apply compliant_ok_spec; [| done].
    by apply (range_check compliant_ok 17), HP; apply from_compliant_check.
  - done.
  - intros c t l k Ht Hl. unfold ecc_from_data, small_ecc. cbv zeta. destruct (Z.eqb_spec t 4); [lia |].
    pose proof (zlen_nonneg k). rewrite ptake_app_le, zlen_app by lia.
    by destruct (Z.ltb_spec (zlen l + zlen k) 32), (Z.ltb_spec (zlen l) 32); try lia.
  - intros c t x Ht Hx Hl. destruct c.
    pose proof (from_compressed_check t Ht) as Hc.
    apply (range_check _ 11 x) in Hc; [| done]. unfold compressed_ok in Hc. rewrite Hl in Hc. cbn [negb Z.eqb Pos.eqb orb] in Hc.
    destruct (ecc_from_data _ t (be_bytes (Z.to_nat 32) x)) as [P|]; [| done].
    apply andb_true_iff in Hc as [[[? ?]%andb_true_iff ?%Z.eqb_eq]%andb_true_iff ?%eqb_prop].
    exists P. split_and!; try done. by apply andb_true_iff.
  - intros. apply legendre_mult.
  - intros c a Ha.
    pose proof legendre_check as Hc.
    apply (range_check _ 11 a) in Hc; [| lia]. cbv beta in Hc. destruct (Z.eqb_spec a 0); [lia |].
    apply orb_true_iff in Hc as [?%Z.eqb_eq|?%Z.eqb_eq]; auto.
  - done.
Qed.

(** ** The checksum and the random numbers *)

(** The last byte of a digest lies between 2 and 10, the others are zero, so that every number
    derived from it is an element of the field and a scalar. *)
Definition small_digest (key data : list Z) : list Z :=
  let n := toy_sum (key ++ data) in zeros 31 ++ [2 + n mod 9].

#[local] Instance small_ell : Ell := {
  l_checksum_new := @l_checksum_new toy_ell;
  l_checksum_new_hmac t k :=
    match t with L_CHECKSUM_SHA256 => Some (small_digest k) | _ => @l_checksum_new_hmac toy_ell t k end;
  l_checksum_new_cmac_aes := @l_checksum_new_cmac_aes toy_ell;
  l_cipher_new_aes := @l_cipher_new_aes toy_ell;
  l_cipher_new_aes_ctr := @l_cipher_new_aes_ctr toy_ell;
}.

Lemma small_digest_ok k d : zlen (small_digest k d) = 32 ∧ bytes_ok (small_digest k d).
Proof.
  split; [done |]. unfold small_digest. pose proof (Z.mod_pos_bound (toy_sum (k ++ d)) 9 ltac:(lia)).
  apply Forall_app. split; [apply Forall_replicate; by split |]. constructor; [unfold byte_ok; lia | done].
Qed.

#[local] Instance small_ell_laws : EllLaws small_ell.
Proof.
  pose proof toy_ell_laws as T. split; try apply T.
  intros t k f d. destruct t; try apply T. intros [= <-]. apply small_digest_ok.
Qed.

Lemma small_sha256 : sha256_available.
Proof. by eexists. Qed.

(** Every [a]-th number of a row of 9. *)
Definition small_env (a : Z) : sae_env := {|
  rnd_scalar t _ := 2 + (Z.of_nat t * a) mod 9;
  rnd_bytes t n := replicate n (u8 (Z.of_nat t));
  sae_junk _ := 0xaa;
  residue_fuel := 9;
|}.

Definition residue_comes_up (a x want : Z) : bool :=
  existsb (λ k, legendre11 (2 + (x + Z.of_nat k * a) mod 9) =? want) (seq 0 9).

Lemma residue_check a want : a = 2 ∨ a = 4 → want = 1 ∨ want = -1 →
  forallb (λ x, residue_comes_up a x want) (Z.of_nat <$> seq 0 (Z.to_nat 9)) = true.
Proof. intros [->| ->] [->| ->]; by vm_compute. Qed.

Lemma small_env_ok a c : a = 2 ∨ a = 4 → env_ok (small_env a) c.
Proof.
  intros Ha. split; cbn [rnd_scalar rnd_bytes sae_junk residue_fuel small_env].
  - intros t. cbn. pose proof (Z.mod_pos_bound (Z.of_nat t * a) 9 ltac:(lia)). lia.
  - intros t want Hw. pose proof (residue_check a want Ha Hw) as Hc.
    apply (range_check _ 9 ((Z.of_nat t * a) mod 9)) in Hc; [| apply Z.mod_pos_bound; lia].
    apply existsb_exists in Hc as (k & Hk%in_seq & Hl%Z.eqb_eq). exists k. split; [lia |].
    rewrite <- Hl. change (legendre11 (2 + (Z.of_nat (t + k) * a) mod 9)
                           = legendre11 (2 + ((Z.of_nat t * a) mod 9 + Z.of_nat k * a) mod 9)).
    rewrite Z.add_mod_idemp_l by lia. do 3 f_equal. lia.
  - intros t n. rewrite length_replicate. split; [done |]. apply Forall_replicate, u8_range.
  - by split.
Qed.

Lemma small_pwd_bytes c seed : ∃ n, be_val (pwd_bytes c seed) = 2 + n mod 9.
Proof.
  unfold pwd_bytes. rewrite (kdf_sha256_digests _ _ _ _ (small_digest seed)) by done.
  change (Z.to_nat ((zlen (zeros (Z.to_nat (ecc_bytes c))) + 31) / 32)) with 1%nat.
  rewrite digests_cons. change (digests _ _ (0 + 1) 0) with (@nil Z). rewrite app_nil_r.
  eexists (toy_sum _). cbn [default from_option id]. unfold small_digest. reflexivity.
Qed.

Lemma small_values c seed : 1 < be_val (pwd_bytes c seed) < Z.min (ecc_prime c) (ecc_order c).
Proof.
  destruct (small_pwd_bytes c seed) as [n ->]. cbn.
  pose proof (Z.mod_pos_bound n 9 ltac:(lia)). lia.
Qed.

(** ** A session *)

(** An equation that the virtual machine decides. *)
Local Ltac by_vm := match goal with |- _ = ?r => vm_cast_no_check (@eq_refl _ r) end.

Definition small_hs (authenticator : bool) : handshake_state :=
  hs_zero <| hs_spa := [2; 0; 0; 0; 0; 9] |> <| hs_aa := [2; 0; 0; 0; 0; 1] |> <| hs_pmk := zeros 64 |>
          <| hs_passphrase := Some [115; 101; 99; 114; 101; 116] |> <| hs_authenticator := authenticator |>.

Definition no_sm : sae_sm := mk_sae hs_zero None 0 None 0 0 None None None None None [] [] [] None 0 0 0 [] 0 [] 0.
Definition state_of {A} (m : res (A * sae_sm)) : sae_sm := match m with Ok (_, s) => s | _ => no_sm end.
Definition last_auth (s : sae_sm) : list Z :=
  match last (sae_out s) TxAssoc with TxAuth b => b | TxAssoc => [] end.

Definition small_addrs : list Z := replicate 22 5.
Definition small_rx (a : Z) (body : list Z) (s : sae_sm) : res (Z * sae_sm) :=
  sae_rx_authenticate (small_env a) (auth_frame small_addrs body) (zlen (auth_frame small_addrs body)) s.

(** The station and the access point after their commits, the confirms, and the end. *)
Definition sta0 : sae_sm :=
  Eval vm_compute in match sae_sm_new (small_hs false) with Ok s => s | _ => no_sm end.
Definition sta1 : sae_sm := Eval vm_compute in state_of (sae_start (small_env 2) sta0).
Definition ap0 : sae_sm :=
  Eval vm_compute in match sae_sm_new (small_hs true) with Ok s => s | _ => no_sm end.
Definition ap1 : sae_sm := Eval vm_compute in state_of (sae_start (small_env 4) ap0).
Definition sta2 : sae_sm := Eval vm_compute in state_of (small_rx 2 (last_auth ap1) sta1).
Definition ap2 : sae_sm := Eval vm_compute in state_of (small_rx 4 (last_auth sta1) ap1).
Definition sta3 : sae_sm := Eval vm_compute in state_of (small_rx 2 (last_auth ap2) sta2).

Lemma sta1_reach : sae_reach (small_env 2) sta1.
Proof.
  refine (reach_start (small_env 2) (small_hs false) sta0 sta1 eq_refl _ _ _); [by_eval | |].
  - by_vm.
  - by_vm.
Qed.

Lemma sta2_reach : sae_reach (small_env 2) sta2.
Proof.
  refine (reach_rx (small_env 2) sta1 (auth_frame small_addrs (last_auth ap1))
            (zlen (auth_frame small_addrs (last_auth ap1))) 0 sta2 sta1_reach _ (or_introl eq_refl)).
  by_vm.
Qed.

Lemma sta3_reach : sae_reach (small_env 2) sta3.
Proof.
  refine (reach_rx (small_env 2) sta2 (auth_frame small_addrs (last_auth ap2))
            (zlen (auth_frame small_addrs (last_auth ap2))) 0 sta3 sta2_reach _ (or_introl eq_refl)).
  by_vm.
Qed.

Lemma small_envs a : a = 2 ∨ a = 4 → ∀ c, env_ok (small_env a) c.
Proof. intros. by apply small_env_ok. Qed.

(** ** The theorems at these sessions *)

Lemma sae_exchange_agrees_witness :
  let rx E body s := sae_rx_authenticate E (auth_frame small_addrs body) (zlen (auth_frame small_addrs body)) s in
  ∃ comA comB A1 B1 conA conB A2 B2,
    commit_frame (small_env 2) sta1 sta1 = Ok (comA, sta1) ∧ commit_frame (small_env 4) ap1 ap1 = Ok (comB, ap1)
    ∧ rx (small_env 2) comB sta1 = Ok (0, A1) ∧ rx (small_env 4) comA ap1 = Ok (0, B1)
    ∧ sae_out A1 = sae_out sta1 ++ [TxAuth conA] ∧ sae_out B1 = sae_out ap1 ++ [TxAuth conB]
    ∧ rx (small_env 2) conB A1 = Ok (0, A2) ∧ rx (small_env 4) conA B1 = Ok (0, B2)
    ∧ sae_state A2 = SAE_STATE_ACCEPTED ∧ sae_state B2 = SAE_STATE_ACCEPTED
    ∧ sae_out A2 = sae_out A1 ++ [TxAssoc] ∧ sae_out B2 = sae_out B1 ++ [TxAssoc]
    ∧ ptake (hs_pmk (sae_hs A2)) 32 = ptake (hs_pmk (sae_hs B2)) 32
    ∧ zlen (ptake (hs_pmk (sae_hs A2)) 32) = 32
    ∧ hs_pmkid (sae_hs A2) = hs_pmkid (sae_hs B2).
Proof.
  refine (sae_exchange_agrees (small_env 2) (small_env 4) sta1 ap1 tt 19 7 5 7 7 2 small_addrs
            small_sha256 _ _ eq_refl eq_refl _ eq_refl _ _ _ eq_refl eq_refl _ _ eq_refl).
  - by split.
  - by split.
  - lia.
  - by split.
  - by split.
  - done.
  - by_eval.
  - by_eval.
Defined.

Lemma sae_pmk_authentic_witness :
  authentic sta2 (auth_ies (auth_frame small_addrs (last_auth ap2))) sta3.
Proof.
  refine (sae_pmk_authentic (small_env 2) small_sha256 sta2 (auth_frame small_addrs (last_auth ap2))
            (zlen (auth_frame small_addrs (last_auth ap2))) 0 sta3 sta2_reach _).
  by_vm.
Defined.

Lemma sae_session_invariant_witness : sae_inv sta3.
Proof. exact (sae_session_invariant (small_env 2) small_sha256 sta3 sta3_reach). Defined.


Lemma sae_recovery_ends_session_witness :
  let f := auth_frame small_addrs (le16_bytes 1 ++ le16_bytes 0 ++ le16_bytes 19 ++ []) in
  (∃ s', sae_rx_authenticate (small_env 2) f (zlen f) sta2 = Ok (BADMSG, s'))
  ∨ (sae_rx_authenticate (small_env 2) f (zlen f) sta2 = Fault ∧ null_value (sae_hs sta2)).
Proof.
  refine (sae_recovery_ends_session (small_env 2) small_sha256 (small_envs 2 (or_introl eq_refl))
            sta2 small_addrs 19 [] sta2_reach _ eq_refl _ (or_intror (conj eq_refl eq_refl))).
  - by eexists.
  - lia.
Defined.

Lemma sae_accepted_confirm_overread_witness :
  let f := auth_frame small_addrs (le16_bytes 2 ++ le16_bytes 0 ++ le16_bytes 2 ++ [0]) in
  sae_rx_authenticate (small_env 2) f (zlen f) sta3 = Fault.
Proof.
  refine (sae_accepted_confirm_overread (small_env 2) small_sha256 sta3 small_addrs 2 [0] sta3_reach
            eq_refl _ eq_refl _ _ _); by_eval.
Defined.

Lemma sae_compute_pwe_correct_witness :
  let pw := [112; 119] in
  let a1 := [1; 2; 3; 4; 5; 6] in
  let a2 := [6; 5; 4; 3; 2; 1] in
  ∃ qnr dummy, 1 < qnr < Z.min (ecc_prime tt) (ecc_order tt) ∧ ecc_legendre tt qnr = 1
    ∧ zlen dummy = zlen pw
    ∧ match rounds tt 30 qnr pw dummy a1 a2 1 None with
      | None => sae_compute_pwe (small_env 2) pw a1 a2 sta0 = Fault
      | Some _ =>
          ∃ n b pwe, sae_compute_pwe (small_env 2) pw a1 a2 sta0 = Ok (b, sta0 <| sae_pwe := pwe |> <| sae_tick := n |>)
            ∧ pwe_found_ok tt (hunt tt 30 qnr pw a1 a2 1) (sae_pwe sta0) b pwe
      end.
Proof.
  refine (sae_compute_pwe_correct (small_env 2) tt [112; 119] [1; 2; 3; 4; 5; 6] [6; 5; 4; 3; 2; 1] sta0
            small_sha256 (small_envs 2 (or_introl eq_refl) tt) _ eq_refl). by_eval.
Defined.

Lemma sae_password_element_shared_witness :
  ∃ b t1 t2, sae_compute_pwe (small_env 2) [112; 119] [1; 2; 3; 4; 5; 6] [6; 5; 4; 3; 2; 1] sta0 = Ok (b, t1)
    ∧ sae_compute_pwe (small_env 4) [112; 119] [6; 5; 4; 3; 2; 1] [1; 2; 3; 4; 5; 6] ap0 = Ok (b, t2)
    ∧ (b = true → ∃ P, sae_pwe t1 = Some (mk_point tt P) ∧ sae_pwe t2 = Some (mk_point tt P)
                       ∧ ecc_valid tt P = true).
Proof.
  refine (sae_password_element_shared (small_env 2) (small_env 4) tt [112; 119] [1; 2; 3; 4; 5; 6]
            [6; 5; 4; 3; 2; 1] sta0 ap0 small_sha256 (small_envs 2 (or_introl eq_refl) tt)
            (small_envs 4 (or_intror eq_refl) tt) (small_values tt) _ eq_refl eq_refl eq_refl).
  by_eval.
Defined.
