(* ===== verification/Owe.v ===== *)
(** * OWE: opportunistic wireless encryption (src/owe.c, ell/ecdh.c)

    The Diffie-Hellman exchange in the association frames: the key pair for the group in use,
    the element sent, the checks on the association response and the derivation of the PMK.
    The key pair is on the heap; what its pointers hold after it was freed is part of the
    state. *)

From stdpp Require Import base numbers list option.
From Stdlib Require Import ZArith Lia.
From S2P Require Import Prelude IeTlv IeRsn IeMisc Crypto Kdf Handshake Mpdu StRes Ecc.

Open Scope Z_scope.

Definition ECDH_MAX_ITERATIONS : nat := 20.
Definition IE_TYPE_OWE_DH_PARAM : Z := 256 + 32.

(** A pointer to an allocated object: NULL, an object, or an object that was freed. *)
Inductive heap_ptr (A : Type) : Type :=
  | Null
  | Live (a : A)
  | Dangling.
Arguments Null {A}.
Arguments Live {A} a.
Arguments Dangling {A}.

Inductive owe_effect : Type :=
  | OweTxAuthenticate
  | OweTxAssociate (ies : list (list Z)).

(** The random scalars of a run and the contents of uninitialised memory. *)
Record owe_env `{Ecc} : Type := mk_owe_env {
  owe_rnd : nat → l_ecc_curve → Z;
  owe_junk : nat → Z;
}.

Section owe.
Context {ell : Ell} {ecc : Ecc}.

(** [struct owe_sm] with the handshake it points to, the messages sent and the number of random
    draws. *)
Record owe_sm : Type := mk_owe {
  owe_hs : handshake_state;
  owe_curve : option l_ecc_curve;
  owe_private : heap_ptr scalar;
  owe_public_key : heap_ptr point;
  owe_retry_ : Z;
  owe_group : Z;
  owe_out : list owe_effect;
  owe_tick : nat;
}.

#[global] Instance owe_eta : Eta owe_sm := λ s,
  mk_owe (owe_hs s) (owe_curve s) (owe_private s) (owe_public_key s) (owe_retry_ s) (owe_group s)
    (owe_out s) (owe_tick s).
#[global] Instance set_owe_hs : SetterOf owe_hs.
Proof. derive_setter. Defined.
#[global] Instance set_owe_curve : SetterOf owe_curve.
Proof. derive_setter. Defined.
#[global] Instance set_owe_private : SetterOf owe_private.
Proof. derive_setter. Defined.
#[global] Instance set_owe_public_key : SetterOf owe_public_key.
Proof. derive_setter. Defined.
#[global] Instance set_owe_retry_ : SetterOf owe_retry_.
Proof. derive_setter. Defined.
#[global] Instance set_owe_group : SetterOf owe_group.
Proof. derive_setter. Defined.
#[global] Instance set_owe_out : SetterOf owe_out.
Proof. derive_setter. Defined.
#[global] Instance set_owe_tick : SetterOf owe_tick.
Proof. derive_setter. Defined.

Variable E : owe_env.

(** The object behind a pointer, and [free] of it. *)
Definition load {A} (p : heap_ptr A) : sr owe_sm A := run (match p with Live a => Ok a | _ => Fault end).
Definition release {A} (p : heap_ptr A) : sr owe_sm unit :=
  run (match p with Dangling => Fault | _ => Ok tt end).
Definition not_null {A} (p : option A) : sr owe_sm A := run (match p with Some a => Ok a | None => Fault end).

Definition owe_random (c : l_ecc_curve) : sr owe_sm scalar := λ s,
  Ok (mk_scalar c (owe_rnd E (owe_tick s) c), s <| owe_tick := S (owe_tick s) |>).

(** ** Diffie-Hellman (ell/ecdh.c) *)

(** [_ecc_calculate_p2] *)
Definition ecc_p2 (c : l_ecc_curve) : Z := Z.shiftr (ecc_prime c - 1) 1.

(** [while (!compliant && iter++ < ECDH_MAX_ITERATIONS)], with [owe->private] and
    [owe->public_key] for the output arguments; the result is [compliant]. *)
Fixpoint key_pair_loop (n : nat) (c : l_ecc_curve) : sr owe_sm bool :=
  match n with
  | O => mret false
  | S n' =>
      k ← owe_random c;
      modify (λ s, s <| owe_private := Live k |>);;
      let Q := mk_point c (ecc_mul c (s_val k) (ecc_gen c)) in
      modify (λ s, s <| owe_public_key := Live Q |>);;
      if ecc_p2 c <=? (ecc_coords c (p_elem Q)).2 then mret true
      else
        modify (λ s, s <| owe_private := Dangling |>);;
        key_pair_loop n' c
  end.

Definition l_ecdh_generate_key_pair (curve : option l_ecc_curve) : sr owe_sm bool :=
  c ← not_null curve;
  modify (λ s, s <| owe_public_key := Live (l_ecc_point_new c) |>);;
  compliant ← key_pair_loop ECDH_MAX_ITERATIONS c;
  if (compliant : bool) then mret true
  else
    modify (λ s, s <| owe_public_key := Dangling |>);;
    mret false.

Definition l_ecdh_generate_shared_secret (private_key : scalar) (other_public : point)
    : sr owe_sm scalar :=
  let c := s_curve private_key in
  owe_random c;;
  let product := ecc_mul c (s_val private_key) (p_elem other_public) in
  mret (mk_scalar c (ecc_coords c product).1).

(** ** The state machine *)

Definition owe_reset : sr owe_sm bool :=
  s ← get;
  g ← run (ecc_group (owe_retry_ s));
  if g =? 0 then mret false
  else
    modify (λ s, s <| owe_group := u16 g |>);;
    let c := l_ecc_curve_get_ike_group (u16 g) in
    modify (λ s, s <| owe_curve := c |>);;
    release (owe_private s);;
    release (owe_public_key s);;
    l_ecdh_generate_key_pair c.

Definition owe_free : sr owe_sm unit :=
  s ← get;
  release (owe_private s);;
  modify (λ s, s <| owe_private := Dangling |>);;
  release (owe_public_key s);;
  modify (λ s, s <| owe_public_key := Dangling |>).

Definition owe_start : sr owe_sm bool :=
  modify (λ s, s <| owe_out := owe_out s ++ [OweTxAuthenticate] |>);;
  mret true.

(** The frame is not looked at.  [buf] has 5 + 48 bytes. *)
Definition owe_rx_authenticate : sr owe_sm Z :=
  s ← get;
  ie ← not_null (hs_supplicant_ie (owe_hs s));
  ie ← run (memdup_ie ie);
  pub ← load (owe_public_key s);
  let x := l_ecc_point_get_x pub in
  let len := zlen x in
  buf ← run (put (l_malloc (owe_junk E) (5 + L_ECC_SCALAR_MAX_BYTES)) 0
               ([IE_TYPE_EXTENSION; u8 (3 + len); IE_TYPE_OWE_DH_PARAM - 256]
                ++ le16_bytes (owe_group s) ++ x));
  dh ← run (rdn buf (u8 (3 + len) + 2));
  modify (λ s, s <| owe_out := owe_out s ++ [OweTxAssociate [ie; dh]] |>);;
  mret 0.

Definition label_owe : list Z :=
  (* OWE Key Generation *)
  [79; 87; 69; 32; 75; 101; 121; 32; 71; 101; 110; 101; 114; 97; 116; 105; 111; 110].

Definition owe_hash (group : Z) : option l_checksum_type :=
  if group =? 19 then Some L_CHECKSUM_SHA256
  else if group =? 20 then Some L_CHECKSUM_SHA384
  else None.

(** RFC 8110, section 4.4.  [prk] has 48 bytes, of which the extraction writes a digest. *)
Definition owe_compute_keys (public_key : ptr) (pub_len : Z) : sr owe_sm bool :=
  s ← get;
  c ← not_null (owe_curve s);
  other ← run (l_ecc_point_from_data c L_ECC_POINT_TYPE_COMPLIANT public_key pub_len);
  match other with
  | None => mret false
  | Some other_public =>
      private ← load (owe_private s);
      shared_secret ← l_ecdh_generate_shared_secret private other_public;
      let nbytes := ecc_bytes (s_curve shared_secret) in
      if L_ECC_SCALAR_MAX_BYTES <? nbytes then mret false
      else
        let ss_buf := l_ecc_scalar_get_data shared_secret in
        pub ← load (owe_public_key s);
        peer ← run (rdn public_key nbytes);
        let key := l_ecc_point_get_x pub ++ peer ++ le16_bytes (owe_group s) in
        match owe_hash (owe_group s) with
        | None => mret false
        | Some type =>
            match hkdf_extract type (Some key) [ss_buf] with
            | None => mret false
            | Some prk =>
                prk_buf ← run (put (l_malloc (owe_junk E) L_ECC_SCALAR_MAX_BYTES) 0 prk);
                prk ← run (rdn prk_buf nbytes);
                pmk ← run (hkdf_expand type prk label_owe nbytes);
                match pmk with
                | None => mret false
                | Some pmk =>
                    let pmkid := match l_checksum_new type with
                                 | Some sha => ptake (sha (ptake key nbytes ++ peer)) 16
                                 | None => l_malloc (owe_junk E) 16
                                 end in
                    hs ← run (handshake_state_set_pmk (owe_hs s) pmk nbytes);
                    hs ← run (handshake_state_set_pmkid hs pmkid);
                    modify (λ s, s <| owe_hs := hs |>);;
                    mret true
                end
            end
        end
  end.

Definition owe_retry : sr owe_sm bool :=
  modify (λ s, s <| owe_retry_ := u8 (owe_retry_ s + 1) |>);;
  ok ← owe_reset;
  if negb ok then mret false
  else owe_rx_authenticate;; mret true.

(** The variables of the loop over the elements; [oa_invalid] is the jump to [invalid_ies]. *)
Record owe_assoc : Type := mk_owe_assoc {
  oa_dh : option (ptr * Z);
  oa_akm_found : bool;
  oa_invalid : bool;
}.

Definition owe_assoc_step (it : ie_tlv_iter) (a : owe_assoc) : res (ctl owe_assoc) :=
  if it_tag it =? IE_TYPE_OWE_DH_PARAM then
    Ok (Next (mk_owe_assoc (Some (it_data it, it_len it)) (oa_akm_found a) (oa_invalid a)))
  else if it_tag it =? IE_TYPE_RSN then
    let invalid := Stop (mk_owe_assoc (oa_dh a) (oa_akm_found a) true) in
    match ie_parse_rsne it with
    | Ok info =>
        if negb (akm_suites info =? IE_RSN_AKM_SUITE_OWE) then Ok invalid
        else Ok (Next (mk_owe_assoc (oa_dh a) true (oa_invalid a)))
    | Err _ => Ok invalid
    | Fault => Fault
    | Diverge => Diverge
    end
  else Ok (Next a).

(** After the elements were read. *)
Definition owe_assoc_finish (a : owe_assoc) : sr owe_sm Z :=
  match a with
  | mk_owe_assoc (Some (owe_dh, owe_dh_len)) true false =>
      if owe_dh_len <? 34 then mret MMPDU_STATUS_CODE_INVALID_ELEMENT
      else
        s ← get;
        g ← run (l_get_le16 owe_dh);
        if negb (g =? owe_group s) then mret BADMSG
        else
          ok ← owe_compute_keys (owe_dh +! 2) (owe_dh_len - 2);
          mret (if (ok : bool) then 0 else BADMSG)
  | _ => mret MMPDU_STATUS_CODE_INVALID_ELEMENT
  end.

Definition owe_rx_associate (frame : ptr) (len : Z) : sr owe_sm Z :=
  mpdu ← run (mpdu_validate (Some frame) len);
  match mpdu with
  | None => mret BADMSG
  | Some mpdu =>
      body ← run (mmpdu_body mpdu);
      n ← run (mmpdu_header_len mpdu);
      status ← run (l_get_le16 (body +! 2));
      if status =? MMPDU_STATUS_CODE_UNSUPP_FINITE_CYCLIC_GROUP then
        ok ← owe_retry;
        mret (if (ok : bool) then AGAIN else status)
      else if negb (status =? 0) then mret status
      else
        a ← run (tlv_loop owe_assoc_step (body +! 6) (u32 (len - (n + 6)))
                   (mk_owe_assoc None false false));
        owe_assoc_finish a
  end.

(** [None] is NULL. *)
Definition owe_sm_new (hs : handshake_state) : res (option owe_sm) :=
  r ← owe_reset (mk_owe hs None Null Null 0 0 [] 0);
  Ok (if (r.1 : bool) then Some r.2 else None).
End owe.
