(* ===== verification/OweSpec.v ===== *)
(** * OWE: what the exchange guarantees (src/owe.c)

    The invariant of a session as netdev.c drives it, the keys of RFC 8110 on both sides of the
    exchange, the handling of any association response, and the double free after a failed
    retry. *)

From stdpp Require Import base numbers list option sets.
From Stdlib Require Import ZArith Lia.
From S2P Require Import Prelude IeTlv IeRsn IeMisc Crypto Kdf Handshake Mpdu StRes Ecc Owe.

Open Scope Z_scope.

Section spec.
Context {ell : Ell} {laws : EllLaws ell} {ecc : Ecc} {eccl : EccLaws ecc}.
Variable E : owe_env.

(** [l_ecc_scalar_new_random]: a scalar other than 0 and 1 *)
Definition owe_env_ok : Prop := ∀ t c, 1 < owe_rnd E t c < ecc_order c.

(** ** The invariant *)

(** The key pair [k], [kG] on the curve of the group in use. *)
Definition key_pair (s : owe_sm) (c : l_ecc_curve) (k : Z) : Prop :=
  owe_curve s = Some c ∧ owe_private s = Live (mk_scalar c k) ∧
  owe_public_key s = Live (mk_point c (ecc_mul c k (ecc_gen c))) ∧ 1 < k < ecc_order c.

Definition owe_hs_ok (hs : handshake_state) : Prop :=
  zlen (hs_pmk hs) = 64 ∧ ∃ ie own, hs_supplicant_ie hs = Some ie ∧ memdup_ie ie = Ok own.

(** The group in use is entry [retry] of the table. *)
Definition owe_inv (s : owe_sm) : Prop :=
  owe_hs_ok (owe_hs s) ∧ 0 ≤ owe_retry_ s < zlen supported_ike_groups ∧
  ecc_group (owe_retry_ s) = Ok (owe_group s) ∧
  ∃ c k, l_ecc_curve_get_ike_group (owe_group s) = Some c ∧ key_pair s c k.

(** Everything but the key pair and the number of draws. *)
Definition same_session (s t : owe_sm) : Prop :=
  owe_hs t = owe_hs s ∧ owe_curve t = owe_curve s ∧ owe_retry_ t = owe_retry_ s ∧
  owe_group t = owe_group s ∧ owe_out t = owe_out s.

Lemma key_pair_loop_ok (env : owe_env_ok) n c : ∀ s,
  owe_curve s = Some c → n ≠ 0%nat ∨ owe_private s = Dangling →
  wp (key_pair_loop E n c)
     (λ b t, same_session s t ∧
             if b : bool then ∃ k, key_pair t c k else owe_private t = Dangling) s.
Proof.
  induction n as [|n IH]; intros s Hc Hn; cbn [key_pair_loop].
  { apply wp_ret. destruct Hn; [done |]. by split_and!. }
  apply wp_bind. eapply wp_ok; [reflexivity |]. sr_seq.
  destruct (_ <=? _); [apply wp_ret; split; [by split_and! |]; eexists; by split_and!; try apply env |].
  sr_seq. eapply wp_mono; [apply IH; [done | by right] |].
  intros b t [(? & ? & ? & ? & ?) Hb]. split; [by split_and! | done].
Qed.

(** The pointers of a session that can be freed. *)
Definition owned {A} (p : heap_ptr A) : Prop := p ≠ Dangling.

Lemma wp_release {A} (p : heap_ptr A) (Q : unit → owe_sm → Prop) s :
  owned p → Q tt s → wp (release p) Q s.
Proof. unfold release, owned. by destruct p. Qed.

Lemma owe_reset_ok (env : owe_env_ok) s :
  owned (owe_private s) → owned (owe_public_key s) → 0 ≤ owe_retry_ s ≤ zlen supported_ike_groups →
  wp (owe_reset E)
     (λ b t, owe_hs t = owe_hs s ∧ owe_retry_ t = owe_retry_ s ∧ owe_out t = owe_out s ∧
        if b : bool then owe_hs_ok (owe_hs s) → owe_inv t
        else (owe_retry_ s = zlen supported_ike_groups ∧ t = s)
             ∨ (owe_retry_ s < zlen supported_ike_groups
                ∧ owe_private t = Dangling ∧ owe_public_key t = Dangling)) s.
Proof.
  intros Hp Hq Hr. unfold owe_reset. sr_seq.
  assert (Hg : ∃ g, ecc_group (owe_retry_ s) = Ok g ∧ (g = 0 ↔ owe_retry_ s = zlen supported_ike_groups)).
  { unfold ecc_group. destruct (Z.leb_spec 0 (owe_retry_ s)); [| lia].
    destruct (Z.ltb_spec (owe_retry_ s) (zlen supported_ike_groups)) as [Hlt|]; cbn [andb].
    - eexists. split; [done |]. split; [| lia]. intros E0.
      assert (Hin : nth (Z.to_nat (owe_retry_ s)) supported_ike_groups 0 ∈ supported_ike_groups).
      { apply list_elem_of_In, nth_In. unfold zlen in Hlt. lia. }
      apply supported_groups_ok in Hin as [? _]. lia.
    - destruct (Z.eqb_spec (owe_retry_ s) (zlen supported_ike_groups)); [| lia]. by exists 0. }
  destruct Hg as (g & Hg & H0). eapply wp_run; [exact Hg |].
  destruct (Z.eqb_spec g 0) as [E0|Hne].
  { apply wp_ret. split_and!; try done. left. split; [by apply H0 | done]. }
  apply ecc_group_inv in Hg as Hin; [| done]. destruct Hin as [Hlt Hin].
  apply supported_groups_ok in Hin as [Hgr [c Hc]]. rewrite u16_small by lia. rewrite Hc.
  sr_seq. apply wp_release; [done |]. sr_seq. apply wp_release; [done |].
  unfold l_ecdh_generate_key_pair. sr_seq. eapply wp_run; [done |]. sr_seq.
  eapply wp_mono; [apply (key_pair_loop_ok env); [done | by left] |].
  intros b t [(Hhs & Hcu & Hre & Hgp & Hou) Hb]. destruct b; sr_seq.
  - split_and!; [exact Hhs | exact Hre | exact Hou |]. intros Hok. destruct Hb as [k Hk].
    unfold owe_inv. rewrite Hhs, Hre, Hgp. split; [exact Hok |]. split; [exact Hlt |]. split; [exact Hg |].
    exists c, k. by split.
  - split_and!; [exact Hhs | exact Hre | exact Hou |]. right. by split_and!; [apply Hlt | |].
Qed.

(** ** The association request *)

(** The x-coordinate of [kG], as it is sent. *)
Definition dh_public (c : l_ecc_curve) (k : Z) : list Z :=
  be_bytes (Z.to_nat (ecc_bytes c)) (ecc_coords c (ecc_mul c k (ecc_gen c))).1.

(** The Diffie-Hellman Parameter element of RFC 8110. *)
Definition dh_element (c : l_ecc_curve) (g k : Z) : elem := (IE_TYPE_OWE_DH_PARAM, le16_bytes g ++ dh_public c k).

Lemma dh_public_zlen c k : zlen (dh_public c k) = ecc_bytes c.
Proof. pose proof (ecc_bytes_range c). apply be_bytes_zlen. lia. Qed.

Definition sent (s : owe_sm) (e : owe_effect) : owe_sm := s <| owe_out := owe_out s ++ [e] |>.

Lemma owe_rx_authenticate_ok s c k ie own :
  key_pair s c k → hs_supplicant_ie (owe_hs s) = Some ie → memdup_ie ie = Ok own →
  owe_rx_authenticate E s = Ok (0, sent s (OweTxAssociate [own; tlv_encode (dh_element c (owe_group s) k)])).
Proof.
  intros (Hc & Hk & Hq & Hr) Hie Hown. unfold owe_rx_authenticate. apply wp_eq. sr_seq.
  rewrite Hie, Hq. eapply wp_run; [reflexivity |]. sr_seq. eapply wp_run; [exact Hown |]. sr_seq.
  eapply wp_run; [reflexivity |]. sr_seq. unfold l_ecc_point_get_x. cbn [p_curve p_elem].
  fold (dh_public c k). pose proof (ecc_bytes_range c) as Hb. unfold L_ECC_SCALAR_MAX_BYTES in *.
  rewrite dh_public_zlen, u8_small by lia.
  eapply wp_run; [apply put_first; rewrite l_malloc_length by lia; rewrite !zlen_app, dh_public_zlen; zlia |].
  sr_seq. eapply wp_run.
  { apply rdn_app. rewrite !zlen_app, dh_public_zlen. unfold le16_bytes. zlia. }
  sr_seq. split; [done |]. unfold sent, dh_element, tlv_encode.
  change (IE_TYPE_OWE_DH_PARAM <? 256) with false. cbv iota. rewrite zlen_app, dh_public_zlen.
  change (zlen (le16_bytes (owe_group s))) with 2. by replace (2 + ecc_bytes c + 1) with (3 + ecc_bytes c) by lia.
Qed.

(** ** The keys *)

Definition hm (type : l_checksum_type) (key msg : list Z) : list Z :=
  match l_checksum_new_hmac type key with Some f => f msg | None => [] end.

(** RFC 8110, section 4.4: [C] and [A] are the public keys of the client and of the access point,
    [z] the shared secret; a key of [zlen z] bytes.  For the groups 19 and 20 this is the length
    of the digest, and the extracted key is used whole. *)
Definition owe_pmk (type : l_checksum_type) (C A : list Z) (g : Z) (z : list Z) : list Z :=
  let prk := hm type (C ++ A ++ le16_bytes g) z in
  ptake (feedback_blocks (hm type (ptake prk (zlen z))) (hkdf_msg label_owe) 0 255) (zlen z).

Definition owe_pmkid (type : l_checksum_type) (C A : list Z) : list Z :=
  match l_checksum_new type with Some sha => ptake (sha (C ++ A)) 16 | None => l_malloc (owe_junk E) 16 end.

Definition shared_x (c : l_ecc_curve) (k : Z) (Q : ecc_elem) : list Z :=
  be_bytes (Z.to_nat (ecc_bytes c)) (ecc_coords c (ecc_mul c k Q)).1.

(** The handshake once the keys are there. *)
Definition owe_keyed (hs hs' : handshake_state) (pmk pmkid : list Z) : Prop :=
  hs' = hs <| hs_pmk := pmk ++ (hs_pmk hs +! zlen pmk) |> <| hs_pmk_len := zlen pmk |> <| hs_have_pmk := true |>
           <| hs_pmkid := pmkid |> <| hs_have_pmkid := true |>.

Lemma feedback_ext f g msg i : (∀ m, f m = g m) → feedback f msg i = feedback g msg i.
Proof. intros Hfg. induction i as [|i IH]; [done |]. cbn [feedback]. by rewrite IH, Hfg. Qed.

Lemma owe_hash_len g type : owe_hash g = Some type → 16 ≤ l_checksum_digest_length type ≤ 48.
Proof. unfold owe_hash. repeat case_match; intros [= <-]; cbn; lia. Qed.

Lemma owe_hash_bytes g type c : owe_hash g = Some type → l_ecc_curve_get_ike_group g = Some c →
  ecc_bytes c ≤ l_checksum_digest_length type.
Proof.
  unfold owe_hash. pose proof (ecc_bytes_range c) as Hb. unfold L_ECC_SCALAR_MAX_BYTES in Hb.
  destruct (Z.eqb_spec g 19) as [->|]; [intros [= <-] ?; by apply ecc_bytes_19 |].
  destruct (Z.eqb_spec g 20) as [->|]; [intros [= <-] ?; cbn; lia | done].
Qed.

Lemma owe_compute_keys_ok s c k g data tail :
  key_pair s c k → owe_group s = g → l_ecc_curve_get_ike_group g = Some c → zlen (hs_pmk (owe_hs s)) = 64 →
  wp (owe_compute_keys E (data ++ tail) (zlen data))
     (λ b t, owe_private t = owe_private s ∧ owe_public_key t = owe_public_key s ∧ owe_out t = owe_out s ∧
        owe_retry_ t = owe_retry_ s ∧ owe_group t = owe_group s ∧ owe_curve t = owe_curve s ∧
        if b : bool then
          ∃ Q type, ecc_from_data c L_ECC_POINT_TYPE_COMPLIANT data = Some Q ∧ owe_hash g = Some type ∧
            let A := ptake data (ecc_bytes c) in
            zlen A = ecc_bytes c ∧
            owe_keyed (owe_hs s) (owe_hs t) (owe_pmk type (dh_public c k) A g (shared_x c k Q))
              (owe_pmkid type (dh_public c k) A)
        else owe_hs t = owe_hs s ∧
             (ecc_from_data c L_ECC_POINT_TYPE_COMPLIANT data = None ∨ owe_hash g = None ∨
              ∃ type key, owe_hash g = Some type ∧ l_checksum_new_hmac type key = None)) s.
Proof.
  intros (Hc & Hk & Hq & Hr) <- Hg Hpmk. unfold owe_compute_keys. sr_seq.
  rewrite Hc. eapply wp_run; [reflexivity |]. sr_seq. unfold l_ecc_point_from_data.
  rewrite rdn_app by done. rewrite bind_ok. eapply wp_run; [reflexivity |].
  pose proof (ecc_bytes_range c) as Hb. unfold L_ECC_SCALAR_MAX_BYTES in *.
  destruct (ecc_from_data c _ data) as [Q|] eqn:HQ; cbn [fmap option_fmap option_map]; [| apply wp_ret; by split_and!; auto].
  assert (Hlen : ecc_bytes c ≤ zlen data).
  { destruct (Z.lt_ge_cases (zlen data) (ecc_bytes c)) as [Hs|]; [| done]. by rewrite ecc_from_short in HQ. }
  sr_seq. rewrite Hk. eapply wp_run; [reflexivity |]. sr_seq. unfold l_ecdh_generate_shared_secret. cbn [s_curve s_val p_elem].
  sr_seq. eapply wp_ok; [reflexivity |]. sr_seq. cbn [s_curve]. destruct (Z.ltb_spec 48 (ecc_bytes c)); [lia |].
  sr_seq. rewrite Hq. eapply wp_run; [reflexivity |]. sr_seq.
  assert (Hpeer : rdn (data ++ tail) (ecc_bytes c) = Ok (ptake data (ecc_bytes c))).
  { rewrite rdn_ok, ptake_app_lt by (rewrite ?zlen_app; pose proof (zlen_nonneg tail); lia). done. }
  eapply wp_run; [exact Hpeer |].
  unfold l_ecc_point_get_x, l_ecc_scalar_get_data. cbn [p_curve p_elem s_curve s_val].
  fold (dh_public c k) (shared_x c k Q). set (C := dh_public c k). set (A := ptake data (ecc_bytes c)).
  set (z := shared_x c k Q). assert (HA : zlen A = ecc_bytes c) by (apply zlen_ptake; lia).
  assert (HC : zlen C = ecc_bytes c) by apply dh_public_zlen.
  assert (Hz : zlen z = ecc_bytes c) by (apply be_bytes_zlen; lia).
  destruct (owe_hash (owe_group s)) as [type|] eqn:Ht; [| sr_seq; by split_and!; auto].
  pose proof (owe_hash_len _ _ Ht) as Hd.
  destruct (l_checksum_new_hmac type (C ++ A ++ le16_bytes (owe_group s))) as [f|] eqn:Hf.
  2: { unfold hkdf_extract. rewrite Hf. cbn [mbind option_bind]. sr_seq. split_and!; try done. do 2 right. by eexists _, _. }
  rewrite (hkdf_extract_hmac _ _ _ f Hf). cbn [concat]. rewrite app_nil_r.
  destruct (hmac_ok _ _ _ z Hf) as [Hfl _]. sr_seq.
  eapply wp_run; [apply put_first; rewrite l_malloc_length; lia |]. sr_seq.
  pose proof (owe_hash_bytes _ _ _ Ht Hg) as Hbd.
  eapply wp_run; [rewrite rdn_ok, ptake_app_lt by (rewrite ?zlen_app; znn; lia); reflexivity |]. sr_seq.
  destruct (l_checksum_new_hmac type (ptake (f z) (ecc_bytes c))) as [f2|] eqn:Hf2.
  2: { unfold hkdf_expand. rewrite Hf2. eapply wp_run; [reflexivity |]. sr_seq. split_and!; try done.
       do 2 right. by eexists _, _. }
  eapply wp_run; [apply (hkdf_expand_blocks _ _ _ _ f2 Hf2); lia |]. sr_seq.
  assert (Hpm : owe_pmk type C A (owe_group s) z = ptake (feedback_blocks f2 (hkdf_msg label_owe) 0 255) (ecc_bytes c)).
  { unfold owe_pmk, hm. rewrite Hf, Hz, Hf2. done. }
  rewrite <- Hpm.
  assert (Hpl : zlen (owe_pmk type C A (owe_group s) z) = ecc_bytes c).
  { rewrite Hpm. apply zlen_ptake. rewrite (feedback_blocks_zlen f2 _ (l_checksum_digest_length type)); [lia |].
    intros m. by apply (hmac_ok _ _ _ _ Hf2). }
  remember (owe_pmk type C A (owe_group s) z) as pmk eqn:Epmk.
  assert (Hid : (match l_checksum_new type with
                 | Some sha => ptake (sha (ptake (C ++ A ++ le16_bytes (owe_group s)) (ecc_bytes c) ++ A)) 16
                 | None => l_malloc (owe_junk E) 16
                 end) = owe_pmkid type C A).
  { unfold owe_pmkid. case_match; [| done]. by rewrite ptake_app. }
  rewrite Hid.
  assert (Hidl : zlen (owe_pmkid type C A) = 16).
  { unfold owe_pmkid. destruct (l_checksum_new type) as [sha|] eqn:Hs; [| by apply l_malloc_length].
    apply zlen_ptake. rewrite (proj1 (checksum_ok _ _ _ Hs)). lia. }
  remember (owe_pmkid type C A) as pmkid eqn:Epmkid. sr_seq. eapply wp_run.
  { unfold handshake_state_set_pmk. rewrite rdn_ok, ptake_all by lia. rewrite bind_ok.
    rewrite put_first by lia. reflexivity. }
  sr_seq. eapply wp_run.
  { unfold handshake_state_set_pmkid. rewrite rdn_ok, ptake_all by lia. reflexivity. }
  sr_seq. split_and!; try done. exists Q, type. split_and!; try done. unfold owe_keyed. fold z. by rewrite <- Epmk, <- Epmkid, Hpl.
Qed.

(** ** The elements of the association response *)

(** An RSNE that parses, whatever follows it, and has the AKM suite of OWE alone. *)
Definition owe_rsne (d : list Z) : Prop :=
  ∀ it after, it_data it = d ++ after → it_len it = zlen d →
    ∃ info, ie_parse_rsne it = Ok info ∧ akm_suites info = IE_RSN_AKM_SUITE_OWE.

(** Every RSNE that is built for OWE is one. *)
Lemma owe_rsne_built info : rsn_info_canon false 0x3ffff info → zlen (rsne_ciphers false info) ≤ 252 →
  akm_suites info = IE_RSN_AKM_SUITE_OWE → owe_rsne (1 :: 0 :: rsne_ciphers false info).
Proof.
  intros Hc Hl Ha it after Hd Hn. destruct (ie_parse_rsne_built info it after Hc Hl Hd Hn) as (j & Hj & [Heq _]).
  exists j. split; [done |]. rewrite <- Ha. by injection Heq.
Qed.

(** An RSNE of [es] was parsed and found to be one of OWE. *)
Definition akm_seen (es : list elem) : Prop :=
  ∃ it d after info, (IE_TYPE_RSN, d) ∈ es ∧ it_data it = d ++ after ∧ it_len it = zlen d ∧
    ie_parse_rsne it = Ok info ∧ akm_suites info = IE_RSN_AKM_SUITE_OWE.

(** What the loop may have found among the elements [es]. *)
Definition found_in (es : list elem) (a : owe_assoc) : Prop :=
  (∀ p n, oa_dh a = Some (p, n) → ∃ d after, p = d ++ after ∧ n = zlen d ∧ (IE_TYPE_OWE_DH_PARAM, d) ∈ es) ∧
  (oa_akm_found a = true → akm_seen es).

Lemma found_in_mono es es' a : es ⊆ es' → found_in es a → found_in es' a.
Proof.
  intros Hs [H1 H2]. split.
  - intros p n Hp. destruct (H1 p n Hp) as (d & after & ? & ? & ?). exists d, after. split_and!; auto.
  - intros Ha. destruct (H2 Ha) as (it & d & after & info & ? & ?). exists it, d, after, info. split; auto.
Qed.

Lemma owe_assoc_step_ok e it after a es :
  elem_ok e → bytes_ok after → it_tag it = e.1 → it_data it = e.2 ++ after → it_len it = zlen e.2 →
  found_in es a → ∃ r, owe_assoc_step it a = Ok r ∧
    match r with Next b | Stop b => found_in (es ++ [e]) b end.
Proof.
  intros He Hafter Ht Hd Hl Hf. destruct e as [tag d]. cbn in Ht, Hd, Hl. destruct He as [Hdok Htag].
  assert (Hm : found_in (es ++ [(tag, d)]) a) by (eapply found_in_mono; [| done]; intros x Hx; apply elem_of_app; by left).
  unfold owe_assoc_step. rewrite Ht. destruct (Z.eqb_spec tag IE_TYPE_OWE_DH_PARAM) as [->|].
  { eexists. split; [done |]. split; [| apply Hm]. cbn. intros p n [= <- <-]. exists d, after.
    split_and!; [done.. | set_solver +]. }
  destruct (Z.eqb_spec tag IE_TYPE_RSN) as [->|]; [| by eexists].
  assert (Hs : safe (rsn_info_wf 0x3ffff) (ie_parse_rsne it)).
  { apply ie_parse_rsne_elem_safe. unfold elem_readable. rewrite Hd, Hl, zlen_app.
    split; [by apply Forall_app |]. znn. lia. }
  destruct (ie_parse_rsne it) as [info| | |] eqn:Hp; try done; [| by eexists].
  destruct (Z.eqb_spec (akm_suites info) IE_RSN_AKM_SUITE_OWE); cbn [negb]; [| by eexists].
  eexists. split; [done |]. split; [apply Hm |]. intros _. exists it, d, after, info. split_and!; try done. set_solver +.
Qed.

Lemma owe_assoc_fold_ok es : ∀ seen max pos tlv after a,
  Forall elem_ok es → bytes_ok after → found_in seen a →
  ∃ b, ctl_fold owe_assoc_step (visits max pos tlv es after) a = Ok b ∧ found_in (seen ++ es) b.
Proof.
  induction es as [|e es IH]; intros seen max pos tlv after a Hes Hafter Hf; cbn [visits ctl_fold].
  { exists a. by rewrite app_nil_r. }
  apply list.Forall_cons in Hes as [He Hes].
  assert (Hb : bytes_ok (tlv_encode_all es ++ after)).
  { apply Forall_app. split; [| done]. unfold tlv_encode_all. apply Forall_concat, Forall_fmap.
    eapply Forall_impl; [exact Hes |]. intros e' ?. by apply tlv_encode_bytes_ok. }
  destruct (owe_assoc_step_ok e (visited max pos tlv e (tlv_encode_all es ++ after)) _ a seen He Hb)
    as (r & -> & Hr); try done.
  rewrite bind_ok. destruct r as [b|b].
  - destruct (IH (seen ++ [e]) max (pos + zlen (tlv_encode e)) tlv after b Hes Hafter Hr) as (b' & -> & Hb').
    exists b'. by rewrite <- app_assoc in Hb'.
  - exists b. split; [done |]. eapply found_in_mono; [| done].
    intros x Hx. rewrite cons_middle, app_assoc. apply elem_of_app. by left.
Qed.

Lemma elements_ok bs es rest : elements_of bs es rest → Forall elem_ok es.
Proof. induction 1; by constructor. Qed.

Lemma owe_assoc_loop_ok bs es rest tail :
  elements_of bs es rest → bytes_ok (bs ++ tail) → zlen bs < 2 ^ 32 - 1 →
  ∃ a, tlv_loop owe_assoc_step (bs ++ tail) (zlen bs) (mk_owe_assoc None false false) = Ok a ∧ found_in es a.
Proof.
  intros Hes Hok Hl. apply Forall_app in Hok as [Hok Ht]. erewrite tlv_loop_visits by done.
  apply (owe_assoc_fold_ok es []); [by eapply elements_ok | | by split].
  apply Forall_app. split; [| done]. rewrite (elements_concat _ _ _ Hes) in Hok.
  by apply Forall_app in Hok as [_ ?].
Qed.

(** ** Association responses *)

(** The response named an element with the group in use and a point, from which the keys in the
    handshake are computed as RFC 8110 asks. *)
Definition owe_accepted (s : owe_sm) (f : list Z) (t : owe_sm) : Prop :=
  ∃ c k es d Q type, key_pair s c k ∧ response_elements f es ∧ akm_seen es ∧
    (IE_TYPE_OWE_DH_PARAM, d) ∈ es ∧ l_get_le16 d = Ok (owe_group s) ∧
    ecc_from_data c L_ECC_POINT_TYPE_COMPLIANT (d +! 2) = Some Q ∧ owe_hash (owe_group s) = Some type ∧
    let A := ptake (d +! 2) (ecc_bytes c) in
    owe_keyed (owe_hs s) (owe_hs t) (owe_pmk type (dh_public c k) A (owe_group s) (shared_x c k Q))
      (owe_pmkid type (dh_public c k) A).

(** The response refuses the group that was proposed. *)
Definition refuses (f : list Z) : Prop :=
  mpdu_validate (Some f) (zlen f) = Ok (Some f) ∧
  assoc_status f = Ok MMPDU_STATUS_CODE_UNSUPP_FINITE_CYCLIC_GROUP.

(** The association has been asked for again, for the next group and with a key pair of it. *)
Definition owe_next_group (s t : owe_sm) : Prop :=
  owe_inv t ∧ owe_retry_ t = owe_retry_ s + 1 ∧ owe_hs t = owe_hs s ∧
  ∃ c k own, l_ecc_curve_get_ike_group (owe_group t) = Some c ∧ key_pair t c k ∧
    owe_out t = owe_out s ++ [OweTxAssociate [own; tlv_encode (dh_element c (owe_group t) k)]].

(** There is no next group, or no key pair could be generated for it. *)
Definition owe_no_next_group (s t : owe_sm) : Prop :=
  owe_hs t = owe_hs s ∧ owe_out t = owe_out s ∧
  ((owe_retry_ s + 1 = zlen supported_ike_groups ∧ owned (owe_private t) ∧ owned (owe_public_key t))
   ∨ (owe_retry_ s + 1 < zlen supported_ike_groups
      ∧ owe_private t = Dangling ∧ owe_public_key t = Dangling)).

(** The ways in which a response is answered. *)
Definition owe_answered (s : owe_sm) (f : list Z) (r : Z) (t : owe_sm) : Prop :=
  (refuses f ∧ r = AGAIN ∧ owe_next_group s t) ∨
  (refuses f ∧ r = MMPDU_STATUS_CODE_UNSUPP_FINITE_CYCLIC_GROUP ∧ owe_no_next_group s t) ∨
  (¬ refuses f ∧ r = 0 ∧ owned (owe_private t) ∧ owned (owe_public_key t) ∧ owe_accepted s f t) ∨
  (¬ refuses f ∧ r ≠ 0 ∧ r ≠ AGAIN ∧ r ≠ MMPDU_STATUS_CODE_UNSUPP_FINITE_CYCLIC_GROUP ∧ owe_hs t = owe_hs s ∧
     owned (owe_private t) ∧ owned (owe_public_key t)).

Lemma key_pair_owned s c k : key_pair s c k → owned (owe_private s) ∧ owned (owe_public_key s).
Proof. intros (_ & Hk & Hq & _). by rewrite Hk, Hq. Qed.

Lemma owe_retry_ok (env : owe_env_ok) s : owe_inv s →
  wp (owe_retry E) (λ b t, if b : bool then owe_next_group s t else owe_no_next_group s t) s.
Proof.
  intros (Hhs & Hr & Hg & c & k & Hc & Hkp). destruct (key_pair_owned _ _ _ Hkp) as [Hp Hq].
  pose proof supported_groups_len. unfold owe_retry. sr_seq.
  assert (Hu : u8 (owe_retry_ s + 1) = owe_retry_ s + 1) by (apply u8_small; lia). rewrite Hu.
  eapply wp_mono; [apply (owe_reset_ok env); [exact Hp | exact Hq | cbn; lia] |].
  intros b t (Hhst & Hrt & Hot & Hb). cbn in Hhst, Hrt, Hot, Hb. destruct b; cbn [negb]; sr_seq.
  2: { split_and!; [exact Hhst | exact Hot |]. destruct Hb as [[Hl ->]|(Hl & Hd)]; [by left | by right]. }
  specialize (Hb Hhs). pose proof Hb as (Hhs' & Hr' & Hg' & c' & k' & Hc' & Hkp').
  destruct Hhs' as (Hpmk & ie & own & Hie & Hown).
  eapply wp_ok; [by eapply owe_rx_authenticate_ok |]. sr_seq.
  split; [exact Hb |]. split_and!; [exact Hrt | exact Hhst |].
  exists c', k', own. split_and!; [exact Hc' | apply Hkp' .. |]. unfold sent. cbn. by rewrite Hot.
Qed.

Lemma wp_answer_fail s f r t :
  ¬ refuses f → r ≠ 0 → r ≠ AGAIN → r ≠ MMPDU_STATUS_CODE_UNSUPP_FINITE_CYCLIC_GROUP → owe_hs t = owe_hs s →
  owned (owe_private t) → owned (owe_public_key t) → owe_answered s f r t.
Proof. intros. do 3 right. by split_and!. Qed.

Lemma owe_finish_ok s f es a :
  owe_inv s → ¬ refuses f → response_elements f es → found_in es a →
  wp (owe_assoc_finish E a) (owe_answered s f) s.
Proof.
  intros ((Hpmk & _) & Hr & Hg & c & k & Hc & Hkp) Hnr Hes [Hdh Hakm].
  destruct (key_pair_owned _ _ _ Hkp) as [Hp Hq]. unfold owe_assoc_finish.
  assert (Hbad : wp (mret MMPDU_STATUS_CODE_INVALID_ELEMENT) (owe_answered s f) s) by by apply wp_answer_fail.
  destruct a as [[[p n]|] [|] [|]]; try exact Hbad.
  destruct (Z.ltb_spec n 34) as [|Hn]; [exact Hbad |].
  destruct (Hdh p n eq_refl) as (d & after & -> & -> & Hin). sr_seq.
  assert (Hd : ∃ g, l_get_le16 d = Ok g ∧ l_get_le16 (d ++ after) = Ok g).
  { unfold l_get_le16. rewrite !(rd_app_l d after) by lia. destruct (l_get_le16_in d) as [g Hg']; [lia |].
    exists g. by split. }
  destruct Hd as (g & Hdg & Hdg'). eapply wp_run; [exact Hdg' |].
  destruct (Z.eqb_spec g (owe_group s)) as [->|]; cbn [negb]; sr_seq; [| by apply wp_answer_fail].
  rewrite padd_app_l by lia. rewrite <- (zlen_padd d 2) by lia.
  eapply wp_mono; [by apply (owe_compute_keys_ok s c k (owe_group s)) |].
  intros b t (Hpt & Hqt & _ & _ & _ & _ & Hb). sr_seq. rewrite <- Hpt in Hp. rewrite <- Hqt in Hq. destruct b.
  - right; right; left. split_and!; try done. destruct Hb as (Q & type & HQ & Ht & _ & Hkeyed).
    exists c, k, es, d, Q, type. split_and!; try done. by apply Hakm.
  - destruct Hb as [? _]. by apply wp_answer_fail.
Qed.

Lemma owe_rx_associate_ok (env : owe_env_ok) s f :
  owe_inv s → bytes_ok f → zlen f < 2 ^ 31 → is_assoc_response f →
  wp (owe_rx_associate E f (zlen f)) (owe_answered s f) s.
Proof.
  intros I Hf Hlt Hst. pose proof I as (_ & _ & _ & c & k & _ & Hkp).
  destruct (key_pair_owned _ _ _ Hkp) as [Hp Hq].
  unfold owe_rx_associate. sr_seq.
  destruct (assoc_response_cases f Hf Hlt Hst) as [Hv|(Hv & h & status & Hlen & Hb & Hs & Hsr & Hpp & Hu & Hil & Hie)];
    (eapply wp_run; [exact Hv |]); cbv iota; sr_seq.
  { apply wp_answer_fail; try done. intros [Hv' _]. rewrite Hv in Hv'. discriminate. }
  assert (Hstat : assoc_status f = Ok status) by (unfold assoc_status; by rewrite Hb).
  eapply wp_run; [exact Hb |]. sr_seq. eapply wp_run; [exact Hlen |]. sr_seq. eapply wp_run; [exact Hs |].
  destruct (Z.eqb_spec status MMPDU_STATUS_CODE_UNSUPP_FINITE_CYCLIC_GROUP) as [->|Hne]; sr_seq.
  { eapply wp_mono; [by apply owe_retry_ok |]. intros b t Hb'. sr_seq.
    destruct b; [left | right; left]; by split_and!. }
  assert (Hnr : ¬ refuses f) by (intros [_ Hs']; congruence).
  destruct (Z.eqb_spec status 0); cbn [negb]; sr_seq; [| apply wp_answer_fail; try done; unfold AGAIN; lia].
  rewrite Hpp, Hu. destruct (elements_total _ Hie) as (es & rest & Hes).
  destruct (owe_assoc_loop_ok _ es rest [] Hes) as (a & Ha & Hfa); [by rewrite app_nil_r | lia |].
  rewrite app_nil_r in Ha. eapply wp_run; [exact Ha |].
  eapply owe_finish_ok; [done | done | | done]. by exists h, rest.
Qed.

(** ** Sessions *)

(** What netdev.c does with the state machine: it is created for a handshake with the own
    elements, started, asked for the association request after the authentication, and gets the
    responses to it as long as they return [-EAGAIN]. *)
Inductive owe_reach : owe_sm → Prop :=
  | owe_reach_new hs s : owe_hs_ok hs → owe_sm_new E hs = Ok (Some s) → owe_reach s
  | owe_reach_start s b t : owe_reach s → owe_start s = Ok (b, t) → owe_reach t
  | owe_reach_auth s r t : owe_reach s → owe_rx_authenticate E s = Ok (r, t) → owe_reach t
  | owe_reach_assoc s f t : owe_reach s → bytes_ok f → zlen f < 2 ^ 31 → is_assoc_response f →
      owe_rx_associate E f (zlen f) s = Ok (AGAIN, t) → owe_reach t.

Lemma owe_inv_sent s e : owe_inv s → owe_inv (sent s e).
Proof. done. Qed.

Lemma owe_reach_inv (env : owe_env_ok) s : owe_reach s → owe_inv s.
Proof.
  induction 1 as [hs s Hhs Hnew|s b t _ IH Hst|s r t _ IH Ha|s f t _ IH Hf Hlt Hst Hrx].
  - pose proof supported_groups_len.
    pose proof (owe_reset_ok env (mk_owe hs None Null Null 0 0 [] 0)) as Hw. cbn in Hw.
    specialize (Hw ltac:(done) ltac:(done) ltac:(lia)). unfold owe_sm_new in Hnew.
    apply wp_inv in Hw as (b & t & Ht & Hhst & _ & _ & Hb). rewrite Ht, bind_ok in Hnew. cbn in Hnew.
    destruct b; [| done]. injection Hnew as <-. by apply Hb.
  - unfold owe_start, modify, mret, sr_ret, mbind, sr_bind in Hst. injection Hst as _ <-. by apply owe_inv_sent.
  - pose proof IH as ((_ & ie & own & Hie & Hown) & _ & _ & c & k & _ & Hkp).
    rewrite (owe_rx_authenticate_ok s c k ie own) in Ha by done. injection Ha as _ <-. by apply owe_inv_sent.
  - pose proof (owe_rx_associate_ok env s f IH Hf Hlt Hst) as Hw. unfold wp in Hw. rewrite Hrx in Hw.
    by destruct Hw as [(_ & _ & ? & _)|[(_ & ? & _)|[(_ & ? & _)|(_ & _ & ? & _)]]].
Qed.

(** C12: In every session, every association response is processed without a fault: nothing is
    read outside of the frame, no freed or NULL pointer is used.  The handshake gets a PMK only
    when the response carries an RSNE of OWE and a Diffie-Hellman element of the group in use
    with a point of the curve, and it is then the PMK of RFC 8110 for that point and the own key
    pair, with its PMKID; every other response leaves the handshake alone.  A response that
    refuses the group (status 77) moves the session to the next group of the table, for which a
    new key pair is drawn and a new association request with its public key is sent; when there is
    no next group, or none of the key pairs drawn for it is accepted, the status is returned and
    nothing is sent. *)
Theorem owe_rx_associate_safe s f :
  owe_env_ok → owe_reach s → bytes_ok f → zlen f < 2 ^ 31 → is_assoc_response f →
  ∃ r t, owe_rx_associate E f (zlen f) s = Ok (r, t) ∧ owe_answered s f r t.
Proof.
  intros env Hr Hf Hlt Hst. pose proof (owe_reach_inv env s Hr) as I.
  destruct (wp_inv _ _ _ (owe_rx_associate_ok env s f I Hf Hlt Hst)) as (r & t & ? & ?). eauto.
Qed.

(** The responses [fs], each of which asks for another try. *)
Fixpoint owe_retries (fs : list (list Z)) (s : owe_sm) : option owe_sm :=
  match fs with
  | [] => Some s
  | f :: fs' =>
      match owe_rx_associate E f (zlen f) s with
      | Ok (r, t) => if r =? AGAIN then owe_retries fs' t else None
      | _ => None
      end
  end.

Lemma owe_retries_reach (env : owe_env_ok) fs : ∀ s t,
  owe_reach s → Forall (λ f, bytes_ok f ∧ zlen f < 2 ^ 31 ∧ is_assoc_response f) fs →
  owe_retries fs s = Some t → owe_reach t ∧ owe_retry_ t = owe_retry_ s + zlen fs.
Proof.
  induction fs as [|f fs IH]; intros s t Hr Hfs Hrun; cbn in Hrun.
  { injection Hrun as <-. change (zlen []) with 0. by rewrite Z.add_0_r. }
  apply list.Forall_cons in Hfs as [(Hf & Hlt & Hst) Hfs].
  destruct (owe_rx_associate E f (zlen f) s) as [[r u]| | |] eqn:Hrx; try done.
  destruct (Z.eqb_spec r AGAIN) as [->|]; [| done].
  pose proof (owe_rx_associate_ok env s f (owe_reach_inv env s Hr) Hf Hlt Hst) as Hw. unfold wp in Hw. rewrite Hrx in Hw.
  assert (Hn : owe_retry_ u = owe_retry_ s + 1) by by destruct Hw as [(_ & _ & _ & ? & _)|[(_ & ? & _)|[(_ & ? & _)|(_ & _ & ? & _)]]].
  destruct (IH u t) as [? Ht]; [by eapply owe_reach_assoc | done.. |]. split; [done |]. rewrite zlen_cons. lia.
Qed.

(** C36: The association is not retried forever: every retry takes the next group of the table,
    so that there are fewer retries than supported groups, whatever the access point answers. *)
Theorem owe_retries_bounded fs s t :
  owe_env_ok → owe_reach s → Forall (λ f, bytes_ok f ∧ zlen f < 2 ^ 31 ∧ is_assoc_response f) fs →
  owe_retries fs s = Some t →
  ecc_group (owe_retry_ s + zlen fs) = Ok (owe_group t) ∧
  owe_retry_ s + zlen fs < zlen supported_ike_groups.
Proof.
  intros env Hr Hfs Hrun. destruct (owe_retries_reach env fs s t Hr Hfs Hrun) as [Ht <-].
  destruct (owe_reach_inv env t Ht) as (_ & ? & ? & _). split; [done | lia].
Qed.

(** ** The exchange *)

Lemma shared_secret_x c a b Q : 1 < a < ecc_order c → 1 < b < ecc_order c →
  Q = ecc_mul c b (ecc_gen c) ∨ Q = ecc_neg c (ecc_mul c b (ecc_gen c)) →
  (a * b) mod ecc_order c ≠ 0 → shared_x c a Q = dh_public c (a * b).
Proof.
  intros Ha Hb HQ Hab. unfold shared_x, dh_public. f_equal. pose proof (ecc_gen_valid c) as Hv.
  assert (Hnz : ∀ x, 1 < x < ecc_order c → x mod ecc_order c ≠ 0) by (intros; rewrite Z.mod_small; lia).
  destruct HQ as [->| ->]; [by rewrite ecc_mul_mul by auto |].
  rewrite ecc_mul_neg, ecc_mul_mul by (auto; rewrite Z_mod_nz_opp_full by auto; rewrite Z.mod_small; lia).
  replace (a * - b) with (- (a * b)) by lia. rewrite <- ecc_mul_neg by done. apply ecc_neg_x. by apply ecc_mul_valid.
Qed.

(** The loop over the elements of a response that has what OWE asks for. *)
Lemma owe_fold_accept es : ∀ max pos tlv after a,
  (∀ d, (IE_TYPE_RSN, d) ∈ es → owe_rsne d) → oa_invalid a = false →
  ∃ b, ctl_fold owe_assoc_step (visits max pos tlv es after) a = Ok b ∧ oa_invalid b = false ∧
    (oa_akm_found a = true ∨ IE_TYPE_RSN ∈ es.*1 → oa_akm_found b = true) ∧
    (is_Some (oa_dh a) ∨ IE_TYPE_OWE_DH_PARAM ∈ es.*1 → is_Some (oa_dh b)).
Proof.
  induction es as [|[tag d] es IH]; intros max pos tlv after a Hrsn Hinv; cbn [visits ctl_fold].
  { exists a. split_and!; try done; intros [?|[]%not_elem_of_nil]; done. }
  set (it := visited _ _ _ _ _).
  assert (Hstep : ∃ a', owe_assoc_step it a = Ok (Next a') ∧ oa_invalid a' = false ∧
            (oa_akm_found a = true ∨ tag = IE_TYPE_RSN → oa_akm_found a' = true) ∧
            (is_Some (oa_dh a) ∨ tag = IE_TYPE_OWE_DH_PARAM → is_Some (oa_dh a'))).
  { unfold owe_assoc_step. change (it_tag it) with tag.
    destruct (Z.eqb_spec tag IE_TYPE_OWE_DH_PARAM) as [->|Ht]; [| destruct (Z.eqb_spec tag IE_TYPE_RSN) as [->|Ht2]].
    - eexists. split; [done |]. split_and!; [done | by intros [|] | done].
    - destruct (Hrsn d) with (it := it) (after := tlv_encode_all es ++ after) as (info & -> & ->); [by left | done.. |].
      eexists. split; [done |]. split_and!; [done | done | by intros [|]].
    - exists a. split; [done |]. split_and!; [done | by intros [|] | by intros [|]]. }
  destruct Hstep as (a' & -> & Hinv' & Hakm & Hdh). rewrite bind_ok.
  destruct (IH max (pos + zlen (tlv_encode (tag, d))) tlv after a') as (b & -> & ? & Hb & Hd);
    [intros; apply Hrsn; by right | done |].
  exists b. split_and!; try done; cbn; rewrite elem_of_cons; intros [?|[?|?]]; auto.
Qed.

(** A response with status 0 is decided by its elements. *)
Lemma owe_rx_status_0 s f es Q :
  bytes_ok f → zlen f < 2 ^ 31 → is_assoc_response f → mpdu_validate (Some f) (zlen f) = Ok (Some f) →
  assoc_status f = Ok 0 → response_elements f es →
  (∀ max tlv after, match ctl_fold owe_assoc_step (visits max 0 tlv es after) (mk_owe_assoc None false false) with
                    | Ok a => found_in es a → wp (owe_assoc_finish E a) Q s
                    | _ => False
                    end) →
  wp (owe_rx_associate E f (zlen f)) Q s.
Proof.
  intros Hf Hlt Hst Hv Hs (h & rest & Hh & Hes) Hfold.
  destruct (assoc_response_cases f Hf Hlt Hst) as [Hv'|(_ & h' & status & Hh' & Hb & Hs' & _ & Hpp & Hu & Hil & Hie)];
    [by rewrite Hv in Hv' |]. rewrite Hh in Hh'. injection Hh' as <-.
  unfold assoc_status in Hs. rewrite Hb, bind_ok in Hs.
  unfold owe_rx_associate. sr_seq. eapply wp_run; [exact Hv |]. cbv iota. sr_seq.
  eapply wp_run; [exact Hb |]. sr_seq. eapply wp_run; [exact Hh |]. sr_seq. eapply wp_run; [exact Hs |].
  change (0 =? MMPDU_STATUS_CODE_UNSUPP_FINITE_CYCLIC_GROUP) with false. change (negb (0 =? 0)) with false. cbv iota.
  sr_seq. rewrite Hpp, Hu.
  destruct (owe_assoc_loop_ok _ es rest [] Hes) as (a & Ha & Hfa); [by rewrite app_nil_r | lia |].
  pose proof Ha as Ha'. erewrite tlv_loop_visits in Ha' by (done || lia). rewrite app_nil_r in Ha.
  eapply wp_run; [exact Ha |].
  specialize (Hfold (zlen (f +! (h + 6))) ((f +! (h + 6)) ++ []) (rest ++ [])). rewrite Ha' in Hfold. by apply Hfold.
Qed.

(** C13: An association response with status 0, an RSNE of OWE and the Diffie-Hellman element of an
    access point with the key pair [b], [bG] is accepted, and the keys are those of RFC 8110
    for the secret both sides share, the x-coordinate of [(ab)G]: the point is recovered from
    its x-coordinate only up to its sign, which does not change the secret. *)
Theorem owe_exchange_keys s c a b f es type :
  owe_env_ok → owe_reach s → key_pair s c a → 1 < b < ecc_order c → (a * b) mod ecc_order c ≠ 0 →
  owe_hash (owe_group s) = Some type → (∀ key, is_Some (l_checksum_new_hmac type key)) →
  bytes_ok f → zlen f < 2 ^ 31 → is_assoc_response f → mpdu_validate (Some f) (zlen f) = Ok (Some f) →
  assoc_status f = Ok 0 → response_elements f es →
  (∀ d, (IE_TYPE_RSN, d) ∈ es → owe_rsne d) → IE_TYPE_RSN ∈ es.*1 →
  (∀ d, (IE_TYPE_OWE_DH_PARAM, d) ∈ es ↔ d = le16_bytes (owe_group s) ++ dh_public c b) →
  32 ≤ ecc_bytes c →
  ∃ t, owe_rx_associate E f (zlen f) s = Ok (0, t) ∧
    owe_keyed (owe_hs s) (owe_hs t)
      (owe_pmk type (dh_public c a) (dh_public c b) (owe_group s) (dh_public c (a * b)))
      (owe_pmkid type (dh_public c a) (dh_public c b)).
Proof.
  intros env Hr Hkp Hb Hab Ht Hhm Hf Hlt Hst Hv Hs Hes Hrsn Hakm Hdh H32.
  pose proof (owe_reach_inv env s Hr) as ((Hpmk & _) & _ & Hg & c' & k' & Hc & Hkp').
  assert (c' = c) as -> by (destruct Hkp as (H1 & _), Hkp' as (H2 & _); congruence).
  set (A := dh_public c b) in *. set (d := le16_bytes (owe_group s) ++ A) in *.
  assert (HA : zlen A = ecc_bytes c) by apply dh_public_zlen.
  assert (Hdl : zlen d = 2 + ecc_bytes c) by (unfold d; rewrite zlen_app, HA; done).
  assert (Hgr : 0 ≤ owe_group s < 65536).
  { destruct (decide (owe_group s = 0)) as [E0|]; [by rewrite E0 in Ht |].
    apply ecc_group_inv in Hg as [_ Hin]; [| done]. apply supported_groups_ok in Hin as [? _]. lia. }
  assert (Hval : ecc_valid c (ecc_mul c b (ecc_gen c)) = true).
  { apply ecc_mul_valid; [apply ecc_gen_valid |]. rewrite Z.mod_small; lia. }
  destruct (ecc_from_compliant c _ Hval) as (Q & HQ & HQs).
  change (ecc_from_data c L_ECC_POINT_TYPE_COMPLIANT A = Some Q) in HQ.
  enough (Hw : wp (owe_rx_associate E f (zlen f)) (λ r t, r = 0 ∧ owe_keyed (owe_hs s) (owe_hs t)
      (owe_pmk type (dh_public c a) A (owe_group s) (dh_public c (a * b))) (owe_pmkid type (dh_public c a) A)) s).
  { apply wp_inv in Hw as (r & t & Hrx & -> & Hk). eauto. }
  eapply owe_rx_status_0; [done.. |]. intros max tlv after.
  destruct (owe_fold_accept es max 0 tlv after (mk_owe_assoc None false false) Hrsn eq_refl)
    as ([dh akm inv] & -> & Hinv & Hak & Hsome). cbn in Hinv, Hak, Hsome. intros [Hfd _]. cbn in Hfd.
  rewrite Hinv, Hak by by right.
  destruct Hsome as [[p n] ->]; [right; apply list_elem_of_fmap; exists (IE_TYPE_OWE_DH_PARAM, d); split; [done | by apply Hdh] |].
  destruct (Hfd p n eq_refl) as (d' & aft & -> & -> & Hin). apply Hdh in Hin as ->.
  unfold owe_assoc_finish. destruct (Z.ltb_spec (zlen d) 34); [lia |]. sr_seq.
  eapply wp_run; [unfold d; rewrite <- app_assoc; by apply l_get_le16_bytes |]. rewrite Z.eqb_refl. cbn [negb].
  rewrite padd_app_l by lia. rewrite <- (zlen_padd d 2) by lia.
  assert (Hd2 : d +! 2 = A) by by apply padd_app. rewrite Hd2. sr_seq.
  eapply wp_mono; [by apply (owe_compute_keys_ok s c a (owe_group s)) |].
  intros ok t (_ & _ & _ & _ & _ & _ & Hok). sr_seq. destruct ok.
  - destruct Hok as (Q' & type' & HQ' & Ht' & _ & Hkeyed). rewrite HQ in HQ'. rewrite Ht in Ht'.
    injection HQ' as <-. injection Ht' as <-. split; [done |]. rewrite ptake_all in Hkeyed by lia.
    rewrite (shared_secret_x c a b Q) in Hkeyed; [done | by destruct Hkp as (_ & _ & _ & ?) | done..].
  - destruct Hok as [_ [Hn|[Hn|(ty & key & Hty & Hn)]]]; [by rewrite HQ in Hn | by rewrite Ht in Hn |].
    rewrite Ht in Hty. injection Hty as <-. destruct (Hhm key) as [? Hk]. by rewrite Hk in Hn.
Qed.

(** ** A retry without a key pair *)

Lemma key_pair_loop_fails n c : ∀ s, n ≠ 0%nat ∨ owe_private s = Dangling →
  (∀ i, (i < n)%nat → (ecc_coords c (ecc_mul c (owe_rnd E (owe_tick s + i) c) (ecc_gen c))).2 < ecc_p2 c) →
  wp (key_pair_loop E n c) (λ b t, b = false ∧ owe_private t = Dangling) s.
Proof.
  induction n as [|n IH]; intros s Hn Hy; cbn [key_pair_loop]; [apply wp_ret; by destruct Hn |].
  apply wp_bind. eapply wp_ok; [reflexivity |]. sr_seq. cbn [s_val p_elem].
  destruct (Z.leb_spec (ecc_p2 c) (ecc_coords c (ecc_mul c (owe_rnd E (owe_tick s) c) (ecc_gen c))).2) as [Hle|_].
  { specialize (Hy 0%nat ltac:(lia)). rewrite Nat.add_0_r in Hy. lia. }
  sr_seq. apply IH; [by right |]. intros i Hi. specialize (Hy (S i) ltac:(lia)).
  cbn. by rewrite <- Nat.add_succ_r.
Qed.

(** When the access point refuses the group and none of the 20 key pairs drawn for the next one
    has a y-coordinate that is accepted, the session is left with pointers to the scalar and the
    point that were freed, and freeing the session frees them again. *)
Theorem owe_failed_retry_double_free s f g c :
  owe_env_ok → owe_reach s → bytes_ok f → zlen f < 2 ^ 31 → is_assoc_response f →
  mpdu_validate (Some f) (zlen f) = Ok (Some f) →
  assoc_status f = Ok MMPDU_STATUS_CODE_UNSUPP_FINITE_CYCLIC_GROUP →
  ecc_group (owe_retry_ s + 1) = Ok g → g ≠ 0 → l_ecc_curve_get_ike_group g = Some c →
  (∀ i, (i < 20)%nat →
     (ecc_coords c (ecc_mul c (owe_rnd E (owe_tick s + i) c) (ecc_gen c))).2 < ecc_p2 c) →
  ∃ t, owe_rx_associate E f (zlen f) s = Ok (MMPDU_STATUS_CODE_UNSUPP_FINITE_CYCLIC_GROUP, t) ∧
    owe_free t = Fault.
Proof.
  intros env Hr Hf Hlt Hst Hv Hs Hg Hg0 Hc Hy. pose proof (owe_reach_inv env s Hr) as (_ & Hi & _ & c0 & k0 & _ & Hkp).
  destruct (key_pair_owned _ _ _ Hkp) as [Hp Hq]. pose proof supported_groups_len.
  apply ecc_group_inv in Hg as Hin; [| done]. destruct Hin as [_ Hin]. apply supported_groups_ok in Hin as [Hgr _].
  enough (Hw : wp (owe_rx_associate E f (zlen f))
                  (λ r t, r = MMPDU_STATUS_CODE_UNSUPP_FINITE_CYCLIC_GROUP ∧ owe_private t = Dangling) s).
  { apply wp_inv in Hw as (r & t & Hrx & -> & Hd). exists t. split; [done |].
    unfold owe_free, get, release, run, mbind, sr_bind. by rewrite Hd. }
  unfold assoc_status in Hs. unfold owe_rx_associate. sr_seq. eapply wp_run; [exact Hv |]. cbv iota. sr_seq.
  destruct (mmpdu_body f) as [body| | |] eqn:Hb; try done. eapply wp_run; [done |]. sr_seq.
  assert (∃ h, mmpdu_header_len f = Ok h) as [h Hh].
  { unfold mmpdu_body in Hb. destruct (mmpdu_header_len f); try done. by eexists. }
  eapply wp_run; [exact Hh |]. sr_seq. eapply wp_run; [exact Hs |]. rewrite Z.eqb_refl. sr_seq.
  unfold owe_retry. sr_seq. unfold owe_reset. sr_seq. cbn.
  rewrite u8_small by lia. eapply wp_run; [exact Hg |]. destruct (Z.eqb_spec g 0); [done |]. sr_seq.
  apply wp_release; [exact Hp |]. sr_seq. apply wp_release; [exact Hq |].
  rewrite u16_small, Hc by lia. unfold l_ecdh_generate_key_pair. sr_seq. eapply wp_run; [done |]. sr_seq.
  eapply wp_mono; [apply key_pair_loop_fails; [by left | exact Hy] |].
  intros ok t [-> Hd]. sr_seq. by split.
Qed.
End spec.
