(* ===== verification/OweTest.v ===== *)
(** * OWE: concrete sessions

    The theorems on OWE at sessions on the small curve of SaeTest.v, whose coordinates are
    encoded in 32 bytes. *)

From stdpp Require Import base numbers list option.
From Stdlib Require Import ZArith Lia.
From S2P Require Import Prelude IeTlv IeRsn IeMisc Crypto Kdf Handshake Mpdu StRes Ecc SaeTest Owe OweSpec.

Open Scope Z_scope.

#[local] Existing Instance small_ecc.
#[local] Existing Instance small_ecc_laws.
#[local] Existing Instance small_ell.
#[local] Existing Instance small_ell_laws.

Local Ltac by_vm := match goal with |- _ = ?r => vm_cast_no_check (@eq_refl _ r) end.

(** The private key is 3 at first, and [next] from then on: 3G = (6, 10) is accepted as a public
    key, 2G = (5, 1) is not. *)
Definition owe_test_env (next : Z) : owe_env := {|
  owe_rnd t _ := match t with O => 3 | _ => next end;
  owe_junk _ := 0xaa;
|}.

Lemma owe_test_env_ok next : 1 < next < 17 → owe_env_ok (owe_test_env next).
Proof. intros Hn [|t] []; cbn; lia. Qed.

Definition owe_test_info : ie_rsn_info :=
  mk_rsn_info IE_RSN_CIPHER_SUITE_CCMP IE_RSN_CIPHER_SUITE_CCMP IE_RSN_AKM_SUITE_OWE false false 0 0
    false false false false false false false 0 None 0.

Definition owe_test_rsne : list Z := Eval vm_compute in 1 :: 0 :: rsne_ciphers false owe_test_info.

Lemma owe_test_rsne_ok : owe_rsne owe_test_rsne.
Proof.
  change owe_test_rsne with (1 :: 0 :: rsne_ciphers false owe_test_info). apply owe_rsne_built.
  - split; by_eval.
  - by_eval.
  - done.
Qed.

Definition owe_test_hs : handshake_state :=
  hs_zero <| hs_pmk := zeros 64 |> <| hs_supplicant_ie := Some (tlv_encode (IE_TYPE_RSN, owe_test_rsne)) |>.

Definition owe_test_s : owe_sm :=
  Eval vm_compute in
    match owe_sm_new (owe_test_env 3) owe_test_hs with Ok (Some s) => s | _ => mk_owe hs_zero None Null Null 0 0 [] 0 end.

Lemma owe_test_hs_ok : owe_hs_ok owe_test_hs.
Proof.
  split; [done |]. exists (tlv_encode (IE_TYPE_RSN, owe_test_rsne)), (tlv_encode (IE_TYPE_RSN, owe_test_rsne)).
  split; [done | by vm_compute].
Qed.

Lemma owe_test_reach next : owe_reach (owe_test_env next) owe_test_s.
Proof. eapply owe_reach_new; [apply owe_test_hs_ok |]. by_vm. Qed.

(** Association responses: one that refuses the group, and one of an access point whose private
    key is 5. *)
Definition assoc_response (status : Z) (ies : list Z) : list Z :=
  [0x10; 0] ++ replicate 22 5 ++ [1; 0] ++ le16_bytes status ++ [1; 0] ++ ies.

Definition owe_test_refusal : list Z := assoc_response 77 [].

Definition owe_test_elements : list elem := [(IE_TYPE_RSN, owe_test_rsne); dh_element tt 19 5].
Definition owe_test_response : list Z := assoc_response 0 (tlv_encode_all owe_test_elements).

Lemma owe_test_response_elements : response_elements owe_test_response owe_test_elements.
Proof.
  exists 24, []. split; [by vm_compute |].
  assert (owe_test_response +! (24 + 6) = tlv_encode_all owe_test_elements ++ []) as -> by by vm_compute.
  apply elements_of_encode; [by_eval |]. apply stops_no_elem. by left.
Qed.

Lemma owe_rx_associate_safe_witness :
  ∃ r t, owe_rx_associate (owe_test_env 3) owe_test_refusal (zlen owe_test_refusal) owe_test_s = Ok (r, t) ∧
    owe_answered (owe_test_env 3) owe_test_s owe_test_refusal r t.
Proof.
  apply owe_rx_associate_safe; [by apply owe_test_env_ok | apply owe_test_reach | by_eval | by_eval | by left].
Defined.

Lemma owe_retries_bounded_witness :
  ∃ t, owe_retries (owe_test_env 3) [owe_test_refusal] owe_test_s = Some t ∧
    ecc_group (owe_retry_ owe_test_s + zlen [owe_test_refusal]) = Ok (owe_group t).
Proof.
  destruct (owe_retries (owe_test_env 3) [owe_test_refusal] owe_test_s) as [t|] eqn:Ht; [| by vm_compute in Ht].
  exists t. split; [done |].
  apply (owe_retries_bounded (owe_test_env 3) [owe_test_refusal] owe_test_s t);
    [by apply owe_test_env_ok | apply owe_test_reach | | done].
  repeat constructor; by_eval.
Defined.

Lemma owe_exchange_keys_witness :
  ∃ t, owe_rx_associate (owe_test_env 3) owe_test_response (zlen owe_test_response) owe_test_s = Ok (0, t) ∧
    owe_keyed (owe_hs owe_test_s) (owe_hs t)
      (owe_pmk L_CHECKSUM_SHA256 (dh_public tt 3) (dh_public tt 5) (owe_group owe_test_s) (dh_public tt (3 * 5)))
      (owe_pmkid (owe_test_env 3) L_CHECKSUM_SHA256 (dh_public tt 3) (dh_public tt 5)).
Proof.
  apply (owe_exchange_keys (owe_test_env 3) owe_test_s tt 3 5 owe_test_response owe_test_elements L_CHECKSUM_SHA256).
  - by apply owe_test_env_ok.
  - apply owe_test_reach.
  - by split_and!.
  - by_eval.
  - by_eval.
  - done.
  - intros key. by eexists.
  - by_eval.
  - by_eval.
  - by left.
  - by vm_compute.
  - by vm_compute.
  - apply owe_test_response_elements.
  - intros d [[= ->]|[[=]|[]%not_elem_of_nil]%elem_of_cons]%elem_of_cons. apply owe_test_rsne_ok.
  - by_eval.
  - intros d. unfold owe_test_elements. rewrite !elem_of_cons. split.
    + intros [[=]|[[= ->]|[]%not_elem_of_nil]]. by vm_compute.
    + intros ->. right; left. by vm_compute.
  - by_eval.
Defined.

Lemma owe_failed_retry_double_free_witness :
  ∃ t, owe_rx_associate (owe_test_env 2) owe_test_refusal (zlen owe_test_refusal) owe_test_s
         = Ok (MMPDU_STATUS_CODE_UNSUPP_FINITE_CYCLIC_GROUP, t) ∧ owe_free t = Fault.
Proof.
  apply (owe_failed_retry_double_free (owe_test_env 2) owe_test_s owe_test_refusal 20 tt).
  - by apply owe_test_env_ok.
  - apply owe_test_reach.
  - by_eval.
  - by_eval.
  - by left.
  - by vm_compute.
  - by vm_compute.
  - by vm_compute.
  - done.
  - done.
  - intros i _. by vm_compute.
Defined.
