(* ===== verification/Ft.v ===== *)
(** * Fast BSS transition (src/ft.c)

    The FT authentication protocol over the air and over the distribution system: the elements
    of the first message, the checks on the second, the reassociation request with its MIC, and
    the checks on the response after which the keys are installed.  The handshake state is part
    of the state of the machine. *)

From stdpp Require Import base numbers list option.
From Stdlib Require Import ZArith Lia.
From S2P Require Import Prelude IeTlv IeRsn IeMisc Crypto Handshake Mpdu StRes.

Open Scope Z_scope.

Inductive ft_effect : Type :=
  | FtTxAuthenticate (ies : list Z)
  | FtTxAssociate (ies : list (list Z))
  | FtKey (e : effect).

(** [struct ft_sm] with the handshake it points to and the calls it made. *)
Record ft_sm : Type := mk_ft { ft_hs : handshake_state; ft_out : list ft_effect }.

#[export] Instance ft_sm_eta : Eta ft_sm := λ s, mk_ft (ft_hs s) (ft_out s).
#[export] Instance set_ft_hs : SetterOf ft_hs.
Proof. derive_setter. Defined.
#[export] Instance set_ft_out : SetterOf ft_out.
Proof. derive_setter. Defined.

(** The hooks of the handshake, what [tx_assoc] returns, and the contents of uninitialised
    memory. *)
Record ft_env : Type := mk_ft_env {
  ft_hooks : hooks;
  ft_tx_assoc_ret : Z;
  ft_junk : nat → Z;
  ft_junk_mdid : Z;
  ft_junk_info : ie_rsn_info;
}.

(** [struct ft_ds_info] *)
Record ft_ds_info : Type := mk_ft_ds {
  ds_spa : list Z;
  ds_aa : list Z;
  ds_snonce : list Z;
  ds_mde : list Z;
  ds_fte : option (list Z);
  ds_ft_info : ie_ft_info;
}.

#[export] Instance ft_ds_eta : Eta ft_ds_info := λ s,
  mk_ft_ds (ds_spa s) (ds_aa s) (ds_snonce s) (ds_mde s) (ds_fte s) (ds_ft_info s).
#[export] Instance set_ds_fte : SetterOf ds_fte.
Proof. derive_setter. Defined.
#[export] Instance set_ds_ft_info : SetterOf ds_ft_info.
Proof. derive_setter. Defined.

(** The integers returned. *)
Definition EINVAL_ : Z := -22.
Definition ENOENT_ : Z := -2.

Section ft.
Context `{Ell}.
Variable E : ft_env.

(** ** The MIC *)

(** The [kck_len] bytes of [out_mic]; [Ok None] is a [false] return. *)
Definition ft_calculate_fte_mic (hs : handshake_state) (seq_num : Z) (rsne fte ric : option ptr)
    : res (option (list Z)) :=
  let kck_len := handshake_state_get_kck_len hs in
  rsne ← match rsne with Some p => memdup_ie p | None => Ok [] end;
  mde ← nonnull (hs_mde hs);
  mde ← memdup_ie mde;
  fte ← match fte with
        | Some p =>
            head ← rdn p 4;
            l ← rd p 1;
            rest ← rdn (p +! (4 + kck_len)) (u64 (l + 2 - 4 - kck_len));
            Ok (head ++ zeros (Z.to_nat kck_len) ++ rest)
        | None => Ok []
        end;
  ric ← match ric with Some p => memdup_ie p | None => Ok [] end;
  kck ← rdn (handshake_state_get_kck hs) kck_len;
  let checksum := if kck_len =? 16 then l_checksum_new_cmac_aes kck
                  else l_checksum_new_hmac L_CHECKSUM_SHA384 kck in
  Ok ((λ mac, ptake (mac (hs_spa hs ++ hs_aa hs ++ [u8 seq_num] ++ rsne ++ mde ++ fte ++ ric)) kck_len)
        <$> checksum).

(** ** Received frames *)

(** [Ok None] is a [false] return; the status and, when it is 0, the elements. *)
Definition ft_parse_authentication_resp_frame (data : ptr) (len : Z) (addr1 addr2 addr3 : list Z)
    (auth_seq : Z) : res (option (Z * option (ptr * Z))) :=
  if len <? 30 then Ok None
  else
    fc ← l_get_le16 data;
    if negb (fc =? 0x00b0) then Ok None
    else
      a1 ← memeq (data +! 4) addr1;
      if negb a1 then Ok None
      else
        a2 ← memeq (data +! 10) addr2;
        if negb a2 then Ok None
        else
          a3 ← memeq (data +! 16) addr3;
          if negb a3 then Ok None
          else
            alg ← l_get_le16 (data +! 24);
            if negb (alg =? 2) then Ok None
            else
              seq ← l_get_le16 (data +! 26);
              if negb (seq =? auth_seq) then Ok None
              else
                status ← (if (auth_seq =? 2) || (auth_seq =? 4) then l_get_le16 (data +! 28) else Ok 0);
                Ok (Some (status, if status =? 0 then Some (data +! 28, len - 28) else None)).

(** The headers of the elements found. *)
Record ft_ies : Type := mk_ft_ies { fi_rsne : option ptr; fi_mde : option ptr; fi_fte : option ptr }.

(** The body of the loops over the elements: [Stop None] is the error on a second element. *)
Definition ft_elements_step (it : ie_tlv_iter) (s : option ft_ies) : res (ctl (option ft_ies)) :=
  match s with
  | None => Ok (Stop None)
  | Some i =>
      let h := iter_header it in
      Ok (if it_tag it =? IE_TYPE_RSN then
            match fi_rsne i with Some _ => Stop None | None => Next (Some (mk_ft_ies (Some h) (fi_mde i) (fi_fte i))) end
          else if it_tag it =? IE_TYPE_MOBILITY_DOMAIN then
            match fi_mde i with Some _ => Stop None | None => Next (Some (mk_ft_ies (fi_rsne i) (Some h) (fi_fte i))) end
          else if it_tag it =? IE_TYPE_FAST_BSS_TRANSITION then
            match fi_fte i with Some _ => Stop None | None => Next (Some (mk_ft_ies (fi_rsne i) (fi_mde i) (Some h))) end
          else Next s)
  end.

Definition no_ies : ft_ies := mk_ft_ies None None None.

(** The status is read after the elements. *)
Definition ft_parse_associate_resp_frame (frame : ptr) (frame_len : Z) : res (option (Z * ft_ies)) :=
  mpdu ← mpdu_validate (Some frame) frame_len;
  match mpdu with
  | None => Ok None
  | Some mpdu =>
      body ← mmpdu_body mpdu;
      n ← mmpdu_header_len mpdu;
      r ← tlv_loop ft_elements_step (body +! 6) (u32 (frame_len - (n + 6))) (Some no_ies);
      match r with
      | None => Ok None
      | Some ies => status ← l_get_le16 (body +! 2); Ok (Some (status, ies))
      end
  end.

(** ** The reassociation request *)

(** The RSNE of the handshake with one PMKID; [Err EINVAL] when it does not parse.  The result of
    [ie_build_rsne] is not looked at: a failure leaves the length uninitialised. *)
Definition rsne_with_pmkid (hs : handshake_state) (pmkid : list Z) (to : list Z) : res (list Z) :=
  ie ← nonnull (hs_supplicant_ie hs);
  l ← rd ie 1;
  match ie_parse_rsne_from_data ie (l + 2) with
  | Ok info =>
      r ← ie_build_rsne (set_pmkids (Some pmkid) (set_num_pmkids 1 info)) to;
      nonnull r
  | Err _ => Err EINVAL
  | Fault => Fault
  | Diverge => Diverge
  end.

Definition reassociate_ft_info (hs : handshake_state) : res ie_ft_info :=
  r0 ← rdn (hs_r0khid hs) (hs_r0khid_len hs);
  r0khid ← put (ft_r0khid ft_info_zero) 0 r0;
  Ok (ft_info_zero <| mic_element_count := 3 |> <| ft_r0khid := r0khid |>
        <| ft_r0khid_len := hs_r0khid_len hs |> <| ft_r1khid := hs_r1khid hs |> <| ft_r1khid_present := true |>
        <| ft_anonce := hs_anonce hs |> <| ft_snonce := hs_snonce hs |>).

(** The elements of the request, or [Err EINVAL]. *)
Definition reassociate_ies (hs : handshake_state) : res (list (list Z)) :=
  let kck_len := handshake_state_get_kck_len hs in
  match hs_supplicant_ie hs with
  | None => mde ← nonnull (hs_mde hs); mde ← memdup_ie mde; Ok [mde]
  | Some _ =>
      rsne ← rsne_with_pmkid hs (hs_pmk_r1_name hs) (l_malloc (ft_junk E) 256);
      mde ← nonnull (hs_mde hs);
      mde ← memdup_ie mde;
      ft_info ← reassociate_ft_info hs;
      fte ← ie_build_fast_bss_transition ft_info kck_len (l_malloc (ft_junk E) 256);
      r ← ft_calculate_fte_mic hs 5 (Some rsne) (Some fte) None;
      match r with
      | None => Err EINVAL
      | Some mic =>
          m ← put (ft_mic ft_info) 0 mic;
          fte ← ie_build_fast_bss_transition (ft_info <| ft_mic := m |>) kck_len fte;
          rsne ← memdup_ie rsne;
          fte ← memdup_ie fte;
          Ok [rsne; mde; fte]
      end
  end.

Definition ft_tx_reassociate : sr ft_sm Z :=
  s ← get;
  match reassociate_ies (ft_hs s) with
  | Ok ies =>
      modify (λ s, s <| ft_out := ft_out s ++ [FtTxAssociate ies] |>);;
      mret (ft_tx_assoc_ret E)
  | Err _ => mret EINVAL_
  | Fault => run Fault
  | Diverge => run Diverge
  end.

(** ** The second message *)

(** An RSNE with the one PMKID [name] and otherwise as advertised. *)
Definition ft_rsne_ok (rsne : ptr) (name : list Z) (authenticator_ie : option ptr) : res bool :=
  l ← rd rsne 1;
  r ← ok_or_none (ie_parse_rsne_from_data rsne (l + 2));
  match r with
  | None => Ok false
  | Some info =>
      if negb (num_pmkids info =? 1) then Ok false
      else
        p ← nonnull (pmkids info);
        same ← memeq p name;
        if negb same then Ok false
        else
          aie ← nonnull authenticator_ie;
          handshake_util_ap_ie_matches (ft_junk_info E) rsne aie false
  end.

Definition ft_verify_rsne (rsne : option ptr) (pmk_r0_name : list Z) (authenticator_ie : option ptr)
    : res bool :=
  match rsne with
  | None => Ok false
  | Some rsne => ft_rsne_ok rsne pmk_r0_name authenticator_ie
  end.

(** The MDE and the FTE, or [Ok None] for [-EINVAL]. *)
Definition ft_parse_ies (hs : handshake_state) (ies : ptr) (ies_len : Z)
    : res (option (option ptr * option ptr)) :=
  r ← tlv_loop ft_elements_step ies (u32 ies_len) (Some no_ies);
  match r with
  | None => Ok None
  | Some i =>
      ok ← (if bool_decide (is_Some (hs_supplicant_ie hs)) then
              ft_verify_rsne (fi_rsne i) (hs_pmk_r0_name hs) (hs_authenticator_ie hs)
            else Ok (bool_decide (fi_rsne i = None)));
      Ok (if (ok : bool) then Some (fi_mde i, fi_fte i) else None)
  end.

(** [Ok None] is a [false] return. *)
Definition ft_parse_fte (hs : handshake_state) (snonce : list Z) (fte : option ptr)
    : res (option ie_ft_info) :=
  let kck_len := handshake_state_get_kck_len hs in
  match fte with
  | None => Ok None
  | Some fte =>
      l ← rd fte 1;
      r ← ok_or_none (ie_parse_fast_bss_transition_from_data fte (l + 2) kck_len);
      match r with
      | None => Ok None
      | Some info =>
          zero_mic ← memeq (ft_mic info) (zeros (Z.to_nat kck_len));
          if negb (mic_element_count info =? 0) || negb zero_mic then Ok None
          else if negb (hs_r0khid_len hs =? ft_r0khid_len info) then Ok None
          else
            r0 ← rdn (hs_r0khid hs) (hs_r0khid_len hs);
            same ← memeq (ft_r0khid info) r0;
            if negb same || negb (ft_r1khid_present info) then Ok None
            else
              same ← memeq (ft_snonce info) snonce;
              Ok (if negb same then None else Some info)
      end
  end.

(** [memcmp(mde1, mde1, mde1[1] + 2) == 0] *)
Definition mde_equal (mde1 mde2 : option ptr) : res bool :=
  match mde1, mde2 with
  | Some mde1, Some mde2 =>
      l ← rd mde1 1;
      a ← rdn mde1 (l + 2);
      b ← rdn mde1 (l + 2);
      Ok (bool_decide (a = b))
  | _, _ => Ok false
  end.

(** [Ok None] is a [false] return. *)
Definition ft_over_ds_process_ies (info : ft_ds_info) (hs : handshake_state) (ies : ptr) (ies_len : Z)
    : res (option ft_ds_info) :=
  r ← ft_parse_ies hs ies ies_len;
  match r with
  | None => Ok None
  | Some (mde, fte) =>
      same ← mde_equal (Some (ds_mde info)) mde;
      if negb same then Ok None
      else match hs_supplicant_ie hs with
           | Some _ =>
               r ← ft_parse_fte hs (ds_snonce info) fte;
               match r with
               | None => Ok None
               | Some ft_info =>
                   fte ← nonnull fte;
                   copy ← memdup_ie fte;
                   Ok (Some (info <| ds_ft_info := ft_info |> <| ds_fte := Some copy |>))
               end
           | None => Ok (match fte with Some _ => None | None => Some info end)
           end
  end.

(** The keys of the second message; the result of the derivation is not looked at. *)
Definition ft_set_keys (hs : handshake_state) (fte : option ptr) (ft_info : ie_ft_info)
    : res handshake_state :=
  hs ← handshake_state_set_fte hs fte;
  hs ← handshake_state_set_anonce hs (ft_anonce ft_info);
  hs ← handshake_state_set_kh_ids hs (ft_r0khid ft_info) (ft_r0khid_len ft_info) (ft_r1khid ft_info);
  r ← handshake_state_derive_ptk (ft_junk_mdid E) hs;
  Ok r.1.

(** The handshake after a 0 return; [Ok None] is [-EBADMSG]. *)
Definition ft_process_ies (hs : handshake_state) (ies : option ptr) (ies_len : Z)
    : res (option handshake_state) :=
  match ies with
  | None => Ok None
  | Some ies =>
      r ← ft_parse_ies hs ies ies_len;
      match r with
      | None => Ok None
      | Some (mde, fte) =>
          same ← mde_equal (hs_mde hs) mde;
          if negb same then Ok None
          else match hs_supplicant_ie hs with
               | Some _ =>
                   r ← ft_parse_fte hs (hs_snonce hs) fte;
                   match r with
                   | None => Ok None
                   | Some ft_info => Some <$> ft_set_keys hs fte ft_info
                   end
               | None => Ok (match fte with Some _ => None | None => Some hs end)
               end
      end
  end.

(** The integer returned and the information after it; [None] when the elements were refused,
    where [ft_info] may hold a part of the refused FTE. *)
Definition ft_over_ds_parse_action_response (info : ft_ds_info) (hs : handshake_state)
    (frame : ptr) (frame_len : Z) : res (Z * option ft_ds_info) :=
  if frame_len <? 16 then Ok (EINVAL_, Some info)
  else
    category ← rd frame 0;
    if negb (category =? 6) then Ok (EINVAL_, Some info)
    else
      action ← rd frame 1;
      if negb (action =? 2) then Ok (EINVAL_, Some info)
      else
        s ← memeq (frame +! 2) (ds_spa info);
        if negb s then Ok (ENOENT_, Some info)
        else
          a ← memeq (frame +! 8) (ds_aa info);
          if negb a then Ok (ENOENT_, Some info)
          else
            status ← l_get_le16 (frame +! 14);
            if negb (status =? 0) then Ok (status, Some info)
            else
              r ← ft_over_ds_process_ies info hs (frame +! 16) (frame_len - 16);
              Ok (match r with Some info => (0, Some info) | None => (BADMSG, None) end).

Definition ft_over_ds_prepare_handshake (info : ft_ds_info) (hs : handshake_state)
    : res handshake_state :=
  match hs_supplicant_ie hs with
  | None => Ok hs
  | Some _ => ft_set_keys (hs <| hs_snonce := ds_snonce info |>) (ds_fte info) (ds_ft_info info)
  end.

(** ** The handlers *)

(** An error is returned as [status_code], which is 0 once the frame was parsed. *)
Definition ft_rx_authenticate (frame : ptr) (frame_len : Z) : sr ft_sm Z :=
  s ← get;
  let hs := ft_hs s in
  r ← run (ft_parse_authentication_resp_frame frame frame_len (hs_spa hs) (hs_aa hs) (hs_aa hs) 2);
  match r with
  | None => mret MMPDU_STATUS_CODE_UNSPECIFIED
  | Some (status_code, ies) =>
      if negb (status_code =? 0) then mret status_code
      else
        hs ← run (ft_process_ies hs (fst <$> ies) (from_option snd 0 ies));
        match hs with
        | None => mret status_code
        | Some hs =>
            modify (λ s, s <| ft_hs := hs |>);;
            ft_tx_reassociate
        end
  end.

Definition ft_key_effects (l : list effect) : sr ft_sm unit :=
  modify (λ s, s <| ft_out := ft_out s ++ (FtKey <$> l) |>).

(** The keys of the FTE, unwrapped into buffers of 32 and 16 bytes; [false] is a
    [return -EBADMSG]. *)
Definition ft_install_gtk (hs : handshake_state) (ft_info : ie_ft_info) : sr ft_sm bool :=
  if ft_gtk_len ft_info =? 0 then mret true
  else
    r ← run (handshake_decode_fte_key hs (ft_gtk ft_info) (ft_gtk_len ft_info));
    gtk_buf ← run (match r with Some (gtk, _) => put (l_malloc (ft_junk E) 32) 0 gtk | None => Ok [] end);
    match r with
    | Some (_, true) =>
        rsc6 ← run (rd (ft_gtk_rsc ft_info) 6);
        rsc7 ← run (rd (ft_gtk_rsc ft_info) 7);
        if negb (rsc6 =? 0) || negb (rsc7 =? 0) then mret false
        else
          ft_key_effects (handshake_state_install_gtk (ft_hooks E) hs (ft_gtk_key_id ft_info)
                            (ptake gtk_buf (ft_gtk_len ft_info)) (ptake (ft_gtk_rsc ft_info) 6));;
          mret true
    | _ => mret false
    end.

Definition ft_install_igtk (hs : handshake_state) (ft_info : ie_ft_info) : sr ft_sm bool :=
  if ft_igtk_len ft_info =? 0 then mret true
  else
    r ← run (handshake_decode_fte_key hs (ft_igtk ft_info) (ft_igtk_len ft_info));
    igtk_buf ← run (match r with Some (igtk, _) => put (l_malloc (ft_junk E) 16) 0 igtk | None => Ok [] end);
    match r with
    | Some (_, true) =>
        ft_key_effects (handshake_state_install_igtk (ft_hooks E) hs (ft_igtk_key_id ft_info)
                          (ptake igtk_buf (ft_igtk_len ft_info)) (ft_igtk_ipn ft_info));;
        mret true
    | _ => mret false
    end.

(** The FTE of the reassociation response against the handshake. *)
Definition ft_fte_matches (hs : handshake_state) (ft_info : ie_ft_info) (mic : list Z) : res bool :=
  same ← memeq (ft_mic ft_info) mic;
  if negb (mic_element_count ft_info =? 3) || negb same then Ok false
  else if negb (hs_r0khid_len hs =? ft_r0khid_len ft_info) then Ok false
  else
    r0 ← rdn (hs_r0khid hs) (hs_r0khid_len hs);
    same ← memeq (ft_r0khid ft_info) r0;
    if negb same || negb (ft_r1khid_present ft_info) then Ok false
    else
      same ← memeq (ft_r1khid ft_info) (hs_r1khid hs);
      if negb same then Ok false
      else
        same ← memeq (ft_anonce ft_info) (hs_anonce hs);
        if negb same then Ok false
        else memeq (ft_snonce ft_info) (hs_snonce hs).

Definition ft_process_fte (rsne : option ptr) (fte : ptr) : sr ft_sm Z :=
  s ← get;
  let hs := ft_hs s in
  l ← run (rd fte 1);
  r ← run (ok_or_none (ie_parse_fast_bss_transition_from_data fte (l + 2) (handshake_state_get_kck_len hs)));
  match r with
  | None => mret BADMSG
  | Some ft_info =>
      mic ← run (ft_calculate_fte_mic hs 6 rsne (Some fte) None);
      match mic with
      | None => mret BADMSG
      | Some mic =>
          ok ← run (ft_fte_matches hs ft_info mic);
          if negb ok then mret BADMSG
          else
            ok ← ft_install_gtk hs ft_info;
            if negb ok then mret BADMSG
            else
              ok ← ft_install_igtk hs ft_info;
              if negb ok then mret BADMSG
              else
                let (hs, l) := handshake_state_install_ptk (ft_hooks E) hs in
                modify (λ s, s <| ft_hs := hs |>);;
                ft_key_effects l;;
                mret 0
      end
  end.

(** The status in the frame is not looked at. *)
Definition ft_rx_associate (frame : ptr) (frame_len : Z) : sr ft_sm Z :=
  s ← get;
  let hs := ft_hs s in
  let is_rsn := bool_decide (is_Some (hs_supplicant_ie hs)) in
  r ← run (ft_parse_associate_resp_frame frame frame_len);
  match r with
  | None => mret BADMSG
  | Some (_, ies) =>
      ok ← run (if is_rsn then
                  match fi_rsne ies with
                  | None => Ok false
                  | Some rsne => ft_rsne_ok rsne (hs_pmk_r1_name hs) (hs_authenticator_ie hs)
                  end
                else Ok (bool_decide (fi_rsne ies = None)));
      if negb ok then mret BADMSG
      else
        ok ← run (match hs_mde hs with
                  | None => Ok true
                  | Some sent =>
                      match fi_mde ies with
                      | None => Ok false
                      | Some mde => sent ← memdup_ie sent; memeq mde sent
                      end
                  end);
        if negb ok then mret BADMSG
        else
          let need := bool_decide (is_Some (hs_mde hs)) && is_rsn in
          match fi_fte ies with
          | None => mret (if need then BADMSG else 0)
          | Some fte => if negb need then mret BADMSG else ft_process_fte (fi_rsne ies) fte
          end
  end.

(** ** Starting *)

(** The elements written to [buf]; [Err EINVAL] is a [false] return. *)
Definition ft_build_authenticate_ies (hs : handshake_state) (new_snonce : list Z) (buf : list Z)
    : res (list Z) :=
  let kck_len := handshake_state_get_kck_len hs in
  '(buf, pos) ← match hs_supplicant_ie hs with
                | None => Ok (buf, 0)
                | Some _ =>
                    buf ← rsne_with_pmkid hs (hs_pmk_r0_name hs) buf;
                    l ← rd buf 1;
                    Ok (buf, l + 2)
                end;
  mde ← nonnull (hs_mde hs);
  m ← rdn (mde +! 2) 3;
  buf ← put buf pos ([IE_TYPE_MOBILITY_DOMAIN; 3] ++ m);
  let pos := pos + 5 in
  match hs_supplicant_ie hs with
  | None => rdn buf pos
  | Some _ =>
      r0 ← rdn (hs_r0khid hs) (hs_r0khid_len hs);
      r0khid ← put (ft_r0khid ft_info_zero) 0 r0;
      let ft_info := ft_info_zero <| ft_r0khid := r0khid |> <| ft_r0khid_len := hs_r0khid_len hs |>
                                  <| ft_snonce := new_snonce |> in
      fte ← ie_build_fast_bss_transition ft_info kck_len (buf +! pos);
      l ← rd fte 1;
      rdn (ptake buf pos ++ fte) (pos + (l + 2))
  end.

Definition ft_start : sr ft_sm bool :=
  s ← get;
  match ft_build_authenticate_ies (ft_hs s) (hs_snonce (ft_hs s)) (l_malloc (ft_junk E) 512) with
  | Ok ies =>
      modify (λ s, s <| ft_out := ft_out s ++ [FtTxAuthenticate ies] |>);;
      mret true
  | Err _ => mret false
  | Fault => run Fault
  | Diverge => run Diverge
  end.

Definition ft_over_ds_start : sr ft_sm bool :=
  r ← ft_tx_reassociate;
  mret (r =? 0).
End ft.

Definition ft_over_air_sm_new (hs : handshake_state) : ft_sm := mk_ft hs [].
Definition ft_over_ds_sm_new (hs : handshake_state) : ft_sm := mk_ft hs [].
