(* ===== verification/FtSpec.v ===== *)
(** * Fast BSS transition: what the exchange guarantees (src/ft.c) *)

From stdpp Require Import base numbers list option.
From Stdlib Require Import ZArith Lia.
From S2P Require Import Prelude IeTlv IeRsn IeMisc Crypto Handshake Mpdu StRes Ft.

Open Scope Z_scope.

(** ** The elements of a message *)

(** The payloads of the elements with a tag. *)
Definition payloads (tag : Z) (es : list elem) : list (list Z) := snd <$> filter (λ e, e.1 = tag) es.

Lemma payloads_app tag es es' : payloads tag (es ++ es') = payloads tag es ++ payloads tag es'.
Proof. unfold payloads. by rewrite list.filter_app, fmap_app. Qed.

Lemma payloads_one tag e : payloads tag [e] = if decide (e.1 = tag) then [e.2] else [].
Proof. unfold payloads. rewrite filter_cons. by case_decide. Qed.

(** A pointer to the only element with a tag, or NULL when there is none. *)
Definition points_to (tag : Z) (es : list elem) (p : option ptr) : Prop :=
  match p with
  | Some p => ∃ d after, p = tlv_encode (tag, d) ++ after ∧ payloads tag es = [d]
  | None => payloads tag es = []
  end.

Definition ies_of (es : list elem) (i : ft_ies) : Prop :=
  points_to IE_TYPE_RSN es (fi_rsne i) ∧ points_to IE_TYPE_MOBILITY_DOMAIN es (fi_mde i) ∧
  points_to IE_TYPE_FAST_BSS_TRANSITION es (fi_fte i).

(** No element of the three appears twice. *)
Definition ft_tags : list Z := [IE_TYPE_RSN; IE_TYPE_MOBILITY_DOMAIN; IE_TYPE_FAST_BSS_TRANSITION].
Definition no_repeats (es : list elem) : Prop := ∀ tag, tag ∈ ft_tags → (length (payloads tag es) ≤ 1)%nat.

Lemma visited_header max pos tlv e after :
  e.1 < 256 → tlv +! pos = tlv_encode e ++ after → 0 ≤ pos →
  iter_header (visited max pos tlv e after) = tlv_encode e ++ after.
Proof.
  intros Ht Htlv Hp. unfold iter_header, visited. cbn [it_tlv it_pos it_len]. rewrite tlv_encode_length.
  destruct (Z.ltb_spec e.1 256); [| lia]. by replace (pos + (2 + zlen e.2) - zlen e.2 - 2) with pos by lia.
Qed.

Lemma points_to_skip tag es e p : e.1 ≠ tag → points_to tag es p → points_to tag (es ++ [e]) p.
Proof.
  intros Hne. unfold points_to. rewrite payloads_app, payloads_one. destruct (decide (e.1 = tag)); [done |].
  by rewrite app_nil_r.
Qed.

Lemma points_to_new tag es d after : points_to tag es None → points_to tag (es ++ [(tag, d)]) (Some (tlv_encode (tag, d) ++ after)).
Proof.
  cbn. intros Hn. exists d, after. split; [done |]. rewrite payloads_app, Hn, payloads_one. cbn. by rewrite decide_True.
Qed.

Lemma points_to_again tag es d p rest : points_to tag es (Some p) → ¬ (length (payloads tag (es ++ (tag, d) :: rest)) ≤ 1)%nat.
Proof.
  intros (d' & after & _ & Hp). rewrite payloads_app, Hp. change ((tag, d) :: rest) with ([(tag, d)] ++ rest).
  rewrite payloads_app, payloads_one. cbn. rewrite decide_True by done. cbn. lia.
Qed.

(** The loop over the elements finds the one of each kind, or refuses a repeated one. *)
Lemma ft_fold_elements es : ∀ seen max pos tlv after i,
  ies_of seen i → 0 ≤ pos → tlv +! pos = tlv_encode_all es ++ after →
  ∃ r, ctl_fold ft_elements_step (visits max pos tlv es after) (Some i) = Ok r ∧
    match r with Some j => ies_of (seen ++ es) j | None => ¬ no_repeats (seen ++ es) end.
Proof.
  induction es as [|[tag d] es IH]; intros seen max pos tlv after i (Hr & Hm & Hf) Hp Htlv; cbn [visits ctl_fold].
  { exists (Some i). rewrite app_nil_r. by split_and!. }
  assert (Hhd : tag < 256 → iter_header (visited max pos tlv (tag, d) (tlv_encode_all es ++ after))
                            = tlv_encode (tag, d) ++ tlv_encode_all es ++ after).
  { intros. apply visited_header; [done | | done]. rewrite Htlv. unfold tlv_encode_all. csimpl. by rewrite <- app_assoc. }
  set (it := visited max pos tlv (tag, d) (tlv_encode_all es ++ after)) in *.
  assert (Hstep : (∃ j, ft_elements_step it (Some i) = Ok (Next (Some j)) ∧ ies_of (seen ++ [(tag, d)]) j) ∨
                  (ft_elements_step it (Some i) = Ok (Stop None) ∧ ¬ no_repeats (seen ++ (tag, d) :: es))).
  { unfold ft_elements_step. change (it_tag it) with tag.
    destruct (Z.eqb_spec tag IE_TYPE_RSN) as [->|N1]; [| destruct (Z.eqb_spec tag IE_TYPE_MOBILITY_DOMAIN) as [->|N2];
      [| destruct (Z.eqb_spec tag IE_TYPE_FAST_BSS_TRANSITION) as [->|N3]]].
    - rewrite Hhd by done. destruct (fi_rsne i) as [p|] eqn:Hi.
      + right. split; [done |]. intros Hn. eapply points_to_again, Hn; [exact Hr | by left].
      + left. eexists. split; [done |]. split_and!; [by apply points_to_new | by apply points_to_skip | by apply points_to_skip].
    - rewrite Hhd by done. destruct (fi_mde i) as [p|] eqn:Hi.
      + right. split; [done |]. intros Hn. eapply points_to_again, Hn; [exact Hm | by right; left].
      + left. eexists. split; [done |]. split_and!; [by apply points_to_skip | by apply points_to_new | by apply points_to_skip].
    - rewrite Hhd by done. destruct (fi_fte i) as [p|] eqn:Hi.
      + right. split; [done |]. intros Hn. eapply points_to_again, Hn; [exact Hf | by right; right; left].
      + left. eexists. split; [done |]. split_and!; [by apply points_to_skip | by apply points_to_skip | by apply points_to_new].
    - left. exists i. split; [done |]. split_and!; by apply points_to_skip. }
  destruct Hstep as [(j & -> & Hj)|[-> Hn]]; rewrite bind_ok; [| by exists None].
  destruct (IH (seen ++ [(tag, d)]) max (pos + zlen (tlv_encode (tag, d))) tlv after j Hj) as (r & Hr' & Hk);
    [pose proof (zlen_nonneg (tlv_encode (tag, d))); lia | |].
  - rewrite <- padd_padd by (try apply zlen_nonneg; lia). rewrite Htlv. unfold tlv_encode_all. csimpl.
    rewrite <- app_assoc. by apply padd_app.
  - exists r. by rewrite <- app_assoc in Hk.
Qed.

Lemma ft_loop_elements bs es rest tail :
  elements_of bs es rest → bytes_ok bs → zlen bs < 2 ^ 32 - 1 →
  ∃ r, tlv_loop ft_elements_step (bs ++ tail) (zlen bs) (Some no_ies) = Ok r ∧
    match r with Some j => ies_of es j | None => ¬ no_repeats es end.
Proof.
  intros Hes Hok Hl. erewrite tlv_loop_visits by done.
  apply (ft_fold_elements es []); [done | done |].
  rewrite padd_0, app_assoc. f_equal. by apply elements_concat.
Qed.

(** ** What an accepted reassociation response shows *)

Lemma memdup_ie_encode tag d after : tag < 256 → memdup_ie (tlv_encode (tag, d) ++ after) = Ok (tlv_encode (tag, d)).
Proof.
  intros Ht. cbn [tlv_encode]. destruct (Z.ltb_spec tag 256); [| lia]. unfold memdup_ie. cbn [app].
  change (rd (tag :: zlen d :: d ++ after) 1) with (Ok (zlen d)). rewrite bind_ok.
  change (tag :: zlen d :: d ++ after) with ((tag :: zlen d :: d) ++ after). apply rdn_app. zlia.
Qed.

(** An element that compares equal to a stored one is the stored one. *)
Lemma memeq_same_ie tag d after sent copy :
  tag < 256 → memdup_ie sent = Ok copy → memeq (tlv_encode (tag, d) ++ after) copy = Ok true →
  bytes_ok sent → copy = tlv_encode (tag, d).
Proof.
  intros Ht Hc Hm Hok. unfold memdup_ie in Hc. apply bind_Ok_inv in Hc as (l & Hl & Hc).
  apply rdn_inv in Hc as [Hn ->]. pose proof (rd_byte_ok _ _ _ Hok Hl) as Hb. unfold byte_ok in Hb.
  apply rd_inv in Hl as [_ Hl].
  unfold memeq in Hm. apply bind_Ok_inv in Hm as (b & Hrd & Hm). injection Hm as Hm. apply bool_decide_eq_true in Hm.
  apply rdn_inv in Hrd as [Hz ->]. rewrite zlen_ptake in Hm, Hz by lia.
  cbn [tlv_encode] in *. destruct (Z.ltb_spec tag 256); [| lia].
  assert (Hlen : zlen d = l).
  { apply (f_equal (lookup 1%nat)) in Hm. unfold ptake in Hm. rewrite !lookup_take_lt in Hm by lia.
    cbn in Hm. change (Z.to_nat 1) with 1%nat in Hl. congruence. }
  subst l. rewrite <- Hm. apply ptake_app. zlia.
Qed.

(** The payload of an FTE: MIC control, MIC, ANonce, SNonce, subelements. *)
Definition fte_mic (n : Z) (d : list Z) : list Z := ptake (d +! 2) n.
Definition fte_zero_mic (n : Z) (d : list Z) : list Z := ptake d 2 ++ zeros (Z.to_nat n) ++ (d +! (2 + n)).
Definition fte_anonce (n : Z) (d : list Z) : list Z := ptake (d +! (n + 2)) 32.
Definition fte_snonce (n : Z) (d : list Z) : list Z := ptake (d +! (n + 34)) 32.

(** The loop over the subelements leaves the fixed fields alone. *)
Definition same_fixed (i j : ie_ft_info) : Prop :=
  mic_element_count i = mic_element_count j ∧ ft_mic i = ft_mic j ∧ ft_anonce i = ft_anonce j ∧ ft_snonce i = ft_snonce j.

Lemma ft_subelem_fixed id n data i j : ft_subelem id n data i = Ok j → same_fixed j i.
Proof.
  unfold ft_subelem. intros Hj.
  repeat match type of Hj with
  | (if ?b then _ else _) = _ => destruct b
  | (_ ≫= _) = Ok _ => apply bind_Ok_inv in Hj as (? & _ & Hj)
  end; try discriminate; injection Hj as <-; done.
Qed.

Lemma ft_subelems_fixed fuel : ∀ len data i j, ft_subelems fuel len data i = Ok j → same_fixed j i.
Proof.
  induction fuel as [|fuel IH]; intros len data i j; [done |]. cbn [ft_subelems]. intros Hj.
  destruct (len <? 2); [destruct (len =? 0); [by injection Hj as <- | done] |].
  apply bind_Ok_inv in Hj as (id & _ & Hj). apply bind_Ok_inv in Hj as (sl & _ & Hj).
  apply bind_Ok_inv in Hj as (k & Hk & Hj). apply IH in Hj. apply ft_subelem_fixed in Hk.
  unfold same_fixed in *. intuition congruence.
Qed.

Lemma ie_parse_fte_fixed d after n info :
  zlen d ≤ 255 → 0 ≤ n ≤ 24 →
  ie_parse_fast_bss_transition_from_data (tlv_encode (IE_TYPE_FAST_BSS_TRANSITION, d) ++ after) (zlen d + 2) n = Ok info →
  66 + n ≤ zlen d ∧ ptake (ft_mic info) n = fte_mic n d ∧ ft_anonce info = fte_anonce n d ∧ ft_snonce info = fte_snonce n d.
Proof.
  intros Hd Hn. unfold ie_parse_fast_bss_transition_from_data. znn.
  destruct (Z_lt_le_dec 253 (zlen d)) as [Hbig|Hd2];
    [assert (zlen d = 254 ∨ zlen d = 255) as [-> | ->] by lia; done |].
  rewrite u8_small by lia.
  cbn [tlv_encode IE_TYPE_FAST_BSS_TRANSITION Z.ltb Z.compare Pos.compare Pos.compare_cont app].
  rewrite first_element_head by (done || lia). rewrite bind_ok.
  cbn [it_tag Z.eqb Pos.eqb negb]. unfold ie_parse_fast_bss_transition. cbn [it_len it_data].
  rewrite u8_small by lia. destruct (Z.ltb_spec (zlen d) (66 + n)) as [|Hl]; [done |]. intros Hp.
  apply bind_Ok_inv in Hp as (c & _ & Hp). apply bind_Ok_inv in Hp as (m & Hm & Hp).
  apply bind_Ok_inv in Hp as (m' & Hm' & Hp). apply bind_Ok_inv in Hp as (an & Han & Hp).
  apply bind_Ok_inv in Hp as (sn & Hsn & Hp). apply ft_subelems_fixed in Hp as (_ & Hmic & Ha & Hs).
  cbn in Hmic, Ha, Hs. rewrite Hmic, Ha, Hs. clear Hmic Ha Hs.
  apply rdn_inv in Hm as [_ ->]. apply rdn_inv in Han as [_ ->]. apply rdn_inv in Hsn as [_ ->].
  assert (Hpre : ∀ k j, 0 ≤ k → 0 ≤ j → k + j ≤ zlen d → ptake ((d ++ after) +! k) j = ptake (d +! k) j).
  { intros k j Hk Hj Hkj. rewrite <- (ptake_padd_id d k) at 1. rewrite <- app_assoc.
    rewrite padd_app by (rewrite zlen_ptake; lia). apply ptake_app_le. rewrite zlen_padd; lia. }
  split; [lia |]. rewrite !Hpre in * by lia. split; [| done].
  rewrite put_first in Hm'. 2:{ rewrite zlen_ptake by (rewrite zlen_padd; lia). change (zlen (ft_mic ft_info_zero)) with 24. lia. }
  injection Hm' as <-. apply ptake_app. unfold fte_mic. rewrite zlen_ptake; [done | rewrite zlen_padd; lia].
Qed.

(** The keyed MAC of the handshake, over what the MIC protects. *)
Definition ft_mac `{Ell} (hs : handshake_state) (msg : list Z) : option (list Z) :=
  let n := handshake_state_get_kck_len hs in
  let kck := ptake (handshake_state_get_kck hs) n in
  (λ mac, ptake (mac msg) n) <$>
    (if n =? 16 then l_checksum_new_cmac_aes kck else l_checksum_new_hmac L_CHECKSUM_SHA384 kck).

Lemma kck_len_cases hs : handshake_state_get_kck_len hs = 16 ∨ handshake_state_get_kck_len hs = 24.
Proof. unfold handshake_state_get_kck_len. case_match; auto. Qed.

Lemma ft_mac_length `{EllLaws} hs msg mic : ft_mac hs msg = Some mic → zlen mic = handshake_state_get_kck_len hs.
Proof.
  unfold ft_mac. destruct (kck_len_cases hs) as [-> | ->]; cbn [Z.eqb Pos.eqb].
  - destruct (l_checksum_new_cmac_aes _) as [f|] eqn:Hf; [| done]. intros Hm. injection Hm as <-.
    destruct (cmac_ok _ _ msg Hf) as [Hl _]. by rewrite ptake_all by lia.
  - destruct (l_checksum_new_hmac _ _) as [f|] eqn:Hf; [| done]. intros Hm. injection Hm as <-.
    destruct (hmac_ok _ _ _ msg Hf) as [Hl _]. rewrite zlen_ptake; [done |]. rewrite Hl. cbn. lia.
Qed.

(** What the MIC of message [seq] protects: the addresses, the number of the message and the
    elements, with the MIC field of the FTE zero. *)
Definition mic_input (hs : handshake_state) (seq : Z) (rsne mde fte : list Z) : list Z :=
  hs_spa hs ++ hs_aa hs ++ [u8 seq] ++ tlv_encode (IE_TYPE_RSN, rsne) ++ tlv_encode (IE_TYPE_MOBILITY_DOMAIN, mde) ++
  [IE_TYPE_FAST_BSS_TRANSITION; zlen fte] ++ fte_zero_mic (handshake_state_get_kck_len hs) fte.

(** The elements of a response are those the target AP has to send, under the keys of the
    handshake. *)
Definition ft_response_authentic `{Ell} (hs : handshake_state) (es : list elem) : Prop :=
  let n := handshake_state_get_kck_len hs in
  ∃ rsne mde fte,
    payloads IE_TYPE_RSN es = [rsne] ∧ payloads IE_TYPE_MOBILITY_DOMAIN es = [mde] ∧
    payloads IE_TYPE_FAST_BSS_TRANSITION es = [fte] ∧
    (∃ after info p, ie_parse_rsne_from_data (tlv_encode (IE_TYPE_RSN, rsne) ++ after) (zlen rsne + 2) = Ok info ∧
       num_pmkids info = 1 ∧ pmkids info = Some p ∧ ptake p 16 = hs_pmk_r1_name hs) ∧
    (∃ sent, hs_mde hs = Some sent ∧ memdup_ie sent = Ok (tlv_encode (IE_TYPE_MOBILITY_DOMAIN, mde))) ∧
    ft_mac hs (mic_input hs 6 rsne mde fte) = Some (fte_mic n fte) ∧
    fte_anonce n fte = hs_anonce hs ∧ fte_snonce n fte = hs_snonce hs.

Lemma memeq_inv p q : memeq p q = Ok true → ptake p (zlen q) = q.
Proof.
  unfold memeq. intros Hm. apply bind_Ok_inv in Hm as (b & Hb & Hm). apply rdn_inv in Hb as [_ ->].
  injection Hm as Hm. by apply bool_decide_eq_true in Hm.
Qed.

Section authentic.
Context {EC : Ell} {EL : EllLaws EC}.
Variable E : ft_env.

(** The lengths of the fixed-size fields. *)
Record ft_hs_wf (hs : handshake_state) : Prop := {
  fw_anonce : zlen (hs_anonce hs) = 32;
  fw_snonce : zlen (hs_snonce hs) = 32;
  fw_r1_name : zlen (hs_pmk_r1_name hs) = 16;
  fw_mde : ∀ p, hs_mde hs = Some p → bytes_ok p;
}.

Lemma ft_rsne_ok_inv d after name aie :
  zlen name = 16 → ft_rsne_ok E (tlv_encode (IE_TYPE_RSN, d) ++ after) name aie = Ok true →
  ∃ info p, ie_parse_rsne_from_data (tlv_encode (IE_TYPE_RSN, d) ++ after) (zlen d + 2) = Ok info ∧
    num_pmkids info = 1 ∧ pmkids info = Some p ∧ ptake p 16 = name.
Proof.
  intros Hn. unfold ft_rsne_ok. intros Ho. apply bind_Ok_inv in Ho as (l & Hl & Ho).
  change (Ok (zlen d) = Ok l) in Hl. injection Hl as <-.
  apply bind_Ok_inv in Ho as (r & Hr & Ho). unfold ok_or_none in Hr.
  destruct (ie_parse_rsne_from_data _ _) as [info| | |]; try discriminate; injection Hr as <-; [| done].
  destruct (Z.eqb_spec (num_pmkids info) 1) as [H1|]; cbn [negb] in Ho; [| done].
  apply bind_Ok_inv in Ho as (p & Hp & Ho). apply bind_Ok_inv in Ho as (b & Hb & Ho).
  destruct b; cbn [negb] in Ho; [| done]. exists info, p. split_and!; try done.
  - by destruct (pmkids info); [injection Hp as -> |].
  - apply memeq_inv in Hb. by rewrite Hn in Hb.
Qed.

(** The MIC of a message, over its elements. *)
Lemma ft_calculate_mic_elements hs seq rsne mde fte afr aff sent :
  hs_mde hs = Some sent → memdup_ie sent = Ok (tlv_encode (IE_TYPE_MOBILITY_DOMAIN, mde)) →
  66 + handshake_state_get_kck_len hs ≤ zlen fte ≤ 255 →
  ft_calculate_fte_mic hs seq (Some (tlv_encode (IE_TYPE_RSN, rsne) ++ afr))
    (Some (tlv_encode (IE_TYPE_FAST_BSS_TRANSITION, fte) ++ aff)) None =
  (_ ← rdn (handshake_state_get_kck hs) (handshake_state_get_kck_len hs);
   Ok (ft_mac hs (mic_input hs seq rsne mde fte))).
Proof.
  intros Hs Hmd Hl. pose proof (kck_len_cases hs) as Hk. unfold ft_calculate_fte_mic, ft_mac, mic_input.
  set (n := handshake_state_get_kck_len hs) in *. clearbody n.
  rewrite memdup_ie_encode, bind_ok, Hs by done. cbn [nonnull]. rewrite bind_ok, Hmd, bind_ok.
  set (p := tlv_encode (IE_TYPE_FAST_BSS_TRANSITION, fte) ++ aff).
  assert (Hp : p = [IE_TYPE_FAST_BSS_TRANSITION; zlen fte] ++ fte ++ aff) by done.
  rewrite !bind_assoc. rewrite (rdn_ok p 4) by (rewrite Hp; zlia). rewrite bind_ok.
  change (rd p 1) with (Ok (zlen fte)). rewrite bind_assoc, bind_ok.
  rewrite u64_small by lia. rewrite bind_assoc, (rdn_ok (p +! (4 + n)) (zlen fte + 2 - 4 - n)), !bind_ok
    by (rewrite zlen_padd; rewrite Hp; zlia).
  replace (ptake p 4) with ([IE_TYPE_FAST_BSS_TRANSITION; zlen fte] ++ ptake fte 2).
  2:{ rewrite Hp. rewrite (app_assoc _ fte aff). symmetry. etrans; [apply ptake_app_le; zlia |].
      unfold ptake. by rewrite (take_app_ge [_; _] fte) by (cbn; lia). }
  replace (ptake (p +! (4 + n)) (zlen fte + 2 - 4 - n)) with (fte +! (2 + n)).
  2:{ rewrite Hp, padd_app_ge by zlia. change (zlen [IE_TYPE_FAST_BSS_TRANSITION; zlen fte]) with 2.
      replace (4 + n - 2) with (2 + n) by lia. rewrite <- (ptake_padd_id fte (2 + n)) at 2. rewrite <- app_assoc.
      rewrite padd_app, ptake_app by (rewrite ?zlen_ptake, ?zlen_padd; lia). done. }
  destruct (rdn (handshake_state_get_kck hs) n) as [kck| | |] eqn:Hkck; try done. rewrite !bind_ok.
  apply rdn_inv in Hkck as [_ ->]. f_equal. unfold fte_zero_mic.
  destruct (if n =? 16 then _ else _); [| done]. cbn. by rewrite app_nil_r.
Qed.

Lemma ft_fte_matches_inv hs info mic :
  zlen (hs_anonce hs) = 32 → zlen (hs_snonce hs) = 32 → zlen (ft_anonce info) = 32 → zlen (ft_snonce info) = 32 →
  ft_fte_matches hs info mic = Ok true →
  ptake (ft_mic info) (zlen mic) = mic ∧ ft_anonce info = hs_anonce hs ∧ ft_snonce info = hs_snonce hs.
Proof.
  intros Ha Hs Ha' Hs'. unfold ft_fte_matches. intros Hm.
  apply bind_Ok_inv in Hm as (b & Hb & Hm).
  destruct b; [| by rewrite orb_true_r in Hm]. apply memeq_inv in Hb. split; [done |].
  destruct (mic_element_count info =? 3); [| done]. cbn [negb orb] in Hm.
  destruct (negb _); [done |]. apply bind_Ok_inv in Hm as (r0 & _ & Hm).
  apply bind_Ok_inv in Hm as (b & _ & Hm). destruct (_ || _); [done |].
  apply bind_Ok_inv in Hm as (b' & _ & Hm). destruct (negb b'); [done |].
  apply bind_Ok_inv in Hm as (b'' & Hb'' & Hm). destruct b''; cbn [negb] in Hm; [| done].
  apply memeq_inv in Hb'', Hm. rewrite ptake_all in Hb'', Hm by lia. done.
Qed.

Lemma ft_out_refused {A} (m : sr ft_sm A) (P : Prop) s : P → wpl m (λ _ _, P) s.
Proof. intros HP. unfold wpl. by destruct (m s) as [[a t]| | |]. Qed.

Lemma ft_process_fte_authentic s rsne mde fte afr aff sent :
  ft_hs_wf (ft_hs s) → zlen fte ≤ 255 →
  hs_mde (ft_hs s) = Some sent → memdup_ie sent = Ok (tlv_encode (IE_TYPE_MOBILITY_DOMAIN, mde)) →
  let n := handshake_state_get_kck_len (ft_hs s) in
  let hs := ft_hs s in
  wpl (ft_process_fte E (Some (tlv_encode (IE_TYPE_RSN, rsne) ++ afr)) (tlv_encode (IE_TYPE_FAST_BSS_TRANSITION, fte) ++ aff))
    (λ r t, (r = BADMSG ∧ t = s) ∨
       ft_mac hs (mic_input hs 6 rsne mde fte) = Some (fte_mic n fte) ∧
       fte_anonce n fte = hs_anonce hs ∧ fte_snonce n fte = hs_snonce hs) s.
Proof.
  intros Hwf Hl Hs Hmd n hs. unfold ft_process_fte. pose proof (kck_len_cases hs) as Hk. fold n in Hk.
  sr_step. sr_step. cbv zeta. fold hs n. sr_step. sr_step.
  change (rd _ 1) with (Ok (zlen fte)) in Hr. injection Hr as <-. sr_step. sr_step.
  unfold ok_or_none in Hr.
  destruct (ie_parse_fast_bss_transition_from_data _ _ _) as [info| | |] eqn:Hp; try discriminate;
    injection Hr as <-; [| sr_step; by left].
  apply ie_parse_fte_fixed in Hp as (Hf & Hmic & Han & Hsn); [| done | lia].
  sr_step. sr_step. destruct a as [mic|]; [| sr_step; by left].
  rewrite (ft_calculate_mic_elements _ 6 rsne mde fte afr aff sent) in Hr by done.
  apply bind_Ok_inv in Hr as (kck & _ & Hr). injection Hr as Hr.
  sr_step. sr_step. destruct a; cbn [negb]; [| sr_step; by left].
  apply ft_fte_matches_inv in Hr0 as (Hm & Ha' & Hs');
    [| apply Hwf | apply Hwf | |]; [| rewrite ?Han, ?Hsn; unfold fte_anonce, fte_snonce; rewrite zlen_ptake; [done | rewrite zlen_padd; lia] ..].
  pose proof (ft_mac_length _ _ _ Hr) as Hml. rewrite Hml, Hmic in Hm.
  eapply wpl_mono; [eapply ft_out_refused | intros r t Hres; right; exact Hres].
  change n with (handshake_state_get_kck_len hs). rewrite Hm. by rewrite <- Han, <- Hsn.
Qed.

Lemma payload_of bs es rest tag d : elements_of bs es rest → payloads tag es = [d] → zlen d ≤ 255.
Proof.
  intros Hes Hp. apply elements_of_ok in Hes.
  assert (Hin : d ∈ payloads tag es) by (rewrite Hp; by left). unfold payloads in Hin.
  apply list_elem_of_fmap in Hin as ([t d'] & -> & Hin). apply list_elem_of_filter in Hin as [_ Hin].
  pose proof (Forall_elem _ _ _ Hes Hin) as [_ Ho]. cbn. lia.
Qed.

(** C14: keys are only installed for an authentic response.  Whenever [ft_rx_associate] returns
    for a (re)association response received during a transition in an RSN, it has either refused
    the response with [-EBADMSG] and left the state machine and the handshake untouched, or the
    response has exactly one RSNE, one MDE and one FTE, the RSNE names the one PMK-R1, the MDE is
    the one that was sent, the nonces are those of the handshake and the MIC of the FTE is the MAC
    under the KCK over the addresses, the number 6 and the three elements.  That it returns is not
    stated, and it does not for every response: an RSNE that ends right after a PMKID count of 1
    makes it read through a NULL pointer, as in [ft_rx_authenticate_null_pmkids], and the parser of
    the FTE can read behind the element. *)
Theorem ft_keys_authentic s f r t :
  bytes_ok f → zlen f < 2 ^ 31 → is_assoc_response f → ft_hs_wf (ft_hs s) →
  is_Some (hs_supplicant_ie (ft_hs s)) → is_Some (hs_mde (ft_hs s)) →
  ft_rx_associate E f (zlen f) s = Ok (r, t) →
  (r = BADMSG ∧ t = s) ∨ ∃ es, response_elements f es ∧ ft_response_authentic (ft_hs s) es.
Proof.
  intros Hf Hlt Hst Hwf Hsup [sent Hsent] Hrun.
  enough (Hw : wpl (ft_rx_associate E f (zlen f)) (λ r t, (r = BADMSG ∧ t = s) ∨
            ∃ es, response_elements f es ∧ ft_response_authentic (ft_hs s) es) s)
    by (unfold wpl in Hw; by rewrite Hrun in Hw).
  clear Hrun r t. unfold ft_rx_associate. sr_step. sr_step. cbv zeta. sr_step. sr_step.
  unfold ft_parse_associate_resp_frame in Hr.
  destruct (assoc_response_cases f Hf Hlt Hst) as [Hv|(Hv & h & status & Hlen & Hb & Hs & _ & Hpp & Hu & Hil & Hie)];
    rewrite Hv, bind_ok in Hr; [injection Hr as <-; sr_step; by left |].
  rewrite Hb, bind_ok, Hlen, bind_ok, Hpp, Hu in Hr.
  destruct (elements_total _ Hie) as (es & rest & Hes).
  destruct (ft_loop_elements _ es rest [] Hes Hie) as (res & Hres & Hi); [lia |].
  rewrite app_nil_r in Hres. rewrite Hres, bind_ok in Hr.
  destruct res as [ies|]; [| injection Hr as <-; sr_step; by left].
  rewrite Hs, bind_ok in Hr. injection Hr as <-. rewrite (bool_decide_true _ Hsup).
  destruct Hi as (Hir & Him & Hif). destruct (fi_rsne ies) as [rp|]; [| do 2 sr_step; injection Hr as <-; cbn [negb]; sr_step; by left].
  destruct Hir as (rsne & afr & -> & Hpr). sr_step. sr_step. destruct a; cbn [negb]; [| sr_step; by left].
  apply ft_rsne_ok_inv in Hr as Hrs; [| apply Hwf].
  rewrite Hsent. sr_step. sr_step. destruct a; cbn [negb]; [| sr_step; by left].
  destruct (fi_mde ies) as [mp|]; [| done]. destruct Him as (mde & afm & -> & Hpm).
  apply bind_Ok_inv in Hr0 as (copy & Hcopy & Hsame).
  assert (copy = tlv_encode (IE_TYPE_MOBILITY_DOMAIN, mde)) as ->
    by (eapply memeq_same_ie; [| exact Hcopy | exact Hsame | by eapply fw_mde]; done).
  destruct (fi_fte ies) as [fp|]; [| sr_step; by left]. destruct Hif as (fte & aff & -> & Hpf).
  cbn [bool_decide negb andb]. 
  eapply wpl_mono; [eapply ft_process_fte_authentic; try done; by eapply payload_of |].
  intros r t [Hbad|(Hmac & Han & Hsn)]; [by left |]. right. exists es. split; [by exists h, rest |].
  destruct Hrs as (info & p & ? & ? & ? & ?).
  exists rsne, mde, fte. split_and!; try done; [by exists afr, info, p | by exists sent].
Qed.
End authentic.
