(* ===== verification/FtRun.v ===== *)
(** * Fast BSS transition: the messages of the exchange (src/ft.c)

    What the station sends, and that the answers of an AP with the same keys are accepted. *)

From stdpp Require Import base numbers list option.
From Stdlib Require Import ZArith Lia.
From S2P Require Import Prelude IeTlv IeRsn IeMisc Crypto Handshake Mpdu StRes Ft FtSpec.

Open Scope Z_scope.

(** ** The elements *)

(** The information of an RSNE with one PMKID. *)
Definition with_pmkid (name : list Z) (info : ie_rsn_info) : ie_rsn_info :=
  set_pmkids (Some name) (set_num_pmkids 1 info).

Definition rsne_elem (info : ie_rsn_info) : elem := (IE_TYPE_RSN, rsne_body info).
Definition fte_elem (n : Z) (info : ie_ft_info) : elem := (IE_TYPE_FAST_BSS_TRANSITION, ft_body info n).

Lemma with_pmkid_canon name info :
  rsn_info_canon false 0x3ffff info → zlen name = 16 → rsn_info_canon false 0x3ffff (with_pmkid name info).
Proof.
  intros [] Hn. split; try done. unfold with_pmkid, pmkid_list. cbn. rewrite ptake_all by lia. lia.
Qed.

Lemma rsn_info_match_pmkid name i j k :
  rsn_info_equiv j (with_pmkid name i) → rsn_info_equiv k i → rsn_info_match j k = true.
Proof.
  intros [Hj _] [Hk _]. destruct i, j, k. unfold with_pmkid, set_pmkids, set_num_pmkids in *. cbn in *.
  injection Hj as -> -> -> -> -> -> -> -> -> -> -> -> -> -> -> ->.
  injection Hk as -> -> -> -> -> -> -> -> -> -> -> -> -> -> -> ->.
  unfold rsn_info_match. cbn. by rewrite !Z.eqb_refl, !eqb_reflx.
Qed.

Section rsne.
Variable E : ft_env.
Variables (adv : ie_rsn_info) (name : list Z).
Hypothesis Hcanon : rsn_info_canon false 0x3ffff adv.
Hypothesis Hfit : zlen (rsne_ciphers false adv) ≤ 252.
Hypothesis Hfit' : zlen (rsne_ciphers false (with_pmkid name adv)) ≤ 252.
Hypothesis Hname : zlen name = 16.

(** The advertised RSNE with the PMKID added. *)
Lemma ft_rsne_ok_built after after' :
  ft_rsne_ok E (tlv_encode (rsne_elem (with_pmkid name adv)) ++ after) name
    (Some (tlv_encode (rsne_elem adv) ++ after')) = Ok true.
Proof.
  destruct (ie_parse_rsne_from_built _ after (with_pmkid_canon name adv Hcanon Hname) Hfit') as (m & Hm & Em).
  destruct (ie_parse_rsne_from_built _ after' Hcanon Hfit) as (s & Hs & Es).
  set (B := rsne_body (with_pmkid name adv)) in *. set (B' := rsne_body adv) in *.
  change (tlv_encode (rsne_elem (with_pmkid name adv)) ++ after) with (IE_TYPE_RSN :: zlen B :: B ++ after).
  change (tlv_encode (rsne_elem adv) ++ after') with (IE_TYPE_RSN :: zlen B' :: B' ++ after').
  unfold ft_rsne_ok. change (rd (IE_TYPE_RSN :: zlen B :: B ++ after) 1) with (Ok (zlen B)).
  rewrite bind_ok. unfold ok_or_none. rewrite Hm, bind_ok.
  assert (Hnum : num_pmkids m = 1) by (destruct Em as [Em _]; by apply (f_equal num_pmkids) in Em).
  assert (Hp : ∃ p, pmkids m = Some p ∧ ptake p 16 = name).
  { destruct Em as [_ Em]. unfold pmkid_list in Em. rewrite Hnum in Em. cbn in Em.
    rewrite (ptake_all name) in Em by lia. destruct (pmkids m) as [p|]; [by exists p |]. by subst name. }
  rewrite Hnum. cbn [Z.eqb Pos.eqb negb]. destruct Hp as (p & -> & Hp). cbn [nonnull]. rewrite bind_ok.
  assert (Hpl : zlen name ≤ zlen p). { rewrite <- Hp, zlen_ptake_min by lia. lia. }
  rewrite memeq_ok, bind_ok, Hname, bool_decide_true by done. cbn [negb nonnull]. rewrite bind_ok.
  unfold handshake_util_ap_ie_matches.
  change (rd (IE_TYPE_RSN :: zlen B :: B ++ after) 1) with (Ok (zlen B)).
  change (rd (IE_TYPE_RSN :: zlen B' :: B' ++ after') 1) with (Ok (zlen B')). rewrite !bind_ok.
  change ((IE_TYPE_RSN :: zlen B :: B ++ after) +! 2) with (B ++ after).
  change ((IE_TYPE_RSN :: zlen B' :: B' ++ after') +! 2) with (B' ++ after').
  assert (Hpm : parse_ap_ie (ft_junk_info E) (IE_TYPE_RSN :: zlen B :: B ++ after) false = Ok (Some m)).
  { unfold parse_ap_ie. change (rd (IE_TYPE_RSN :: zlen B :: B ++ after) 1) with (Ok (zlen B)).
    by rewrite bind_ok, Hm. }
  assert (Hps : parse_ap_ie (ft_junk_info E) (IE_TYPE_RSN :: zlen B' :: B' ++ after') false = Ok (Some s)).
  { unfold parse_ap_ie. change (rd (IE_TYPE_RSN :: zlen B' :: B' ++ after') 1) with (Ok (zlen B')).
    by rewrite bind_ok, Hs. }
  assert (Hsame : ∃ same, (if zlen B =? zlen B' then
                             a ← rdn (B ++ after) (zlen B); b ← rdn (B' ++ after') (zlen B); Ok (bool_decide (a = b))
                           else Ok false) = Ok same).
  { destruct (Z.eqb_spec (zlen B) (zlen B')) as [Heq|_]; [| by exists false].
    rewrite (rdn_app B), bind_ok, (rdn_app B'), bind_ok by done. by eexists. }
  destruct Hsame as [[] ->]; rewrite bind_ok; [done |].
  rewrite Hpm, bind_ok, Hps, bind_ok. by rewrite (rsn_info_match_pmkid name adv).
Qed.
End rsne.

(** ** The reassociation response *)

Lemma memeq_eq p q : ptake p (zlen q) = q → memeq p q = Ok true.
Proof.
  intros Hq. assert (zlen q ≤ zlen p).
  { rewrite <- Hq, zlen_ptake_min by apply zlen_nonneg. lia. }
  rewrite memeq_ok by done. by rewrite bool_decide_true.
Qed.

Lemma points_to_found tag es p d : points_to tag es p → payloads tag es = [d] →
  ∃ after, p = Some (tlv_encode (tag, d) ++ after).
Proof. destruct p as [p|]; cbn; [| by intros ->]. intros (d' & after & -> & ->). intros [= ->]. by exists after. Qed.

(** An FTE that agrees with the handshake. *)
Record fte_agrees (hs : handshake_state) (info : ie_ft_info) : Prop := {
  fa_r0_len : ft_r0khid_len info = hs_r0khid_len hs;
  fa_r0 : ptake (ft_r0khid info) (hs_r0khid_len hs) = ptake (hs_r0khid hs) (hs_r0khid_len hs);
  fa_r0_in : 0 ≤ hs_r0khid_len hs ≤ zlen (hs_r0khid hs);
  fa_r1_present : ft_r1khid_present info = true;
  fa_snonce : ft_snonce info = hs_snonce hs;
}.

Section accept.
Context {EC : Ell} {EL : EllLaws EC}.
Variable E : ft_env.

Lemma ft_fte_matches_ok hs info mic :
  fte_agrees hs info → mic_element_count info = 3 → ft_r1khid info = hs_r1khid hs → ft_anonce info = hs_anonce hs →
  ptake (ft_mic info) (zlen mic) = mic → ft_fte_matches hs info mic = Ok true.
Proof.
  intros [Hl H0 Hin Hp Hs] Hc H1 Ha Hm. unfold ft_fte_matches.
  assert (Hsame : ∀ l : list Z, memeq l l = Ok true) by (intros l; apply memeq_eq; by apply ptake_all).
  rewrite (memeq_eq _ mic), bind_ok, Hc, Hl by done. cbn [Z.eqb Pos.eqb negb orb].
  rewrite Z.eqb_refl. cbn [negb].
  rewrite rdn_ok, bind_ok by done.
  rewrite (memeq_eq (ft_r0khid info)), bind_ok, Hp by (rewrite zlen_ptake by done; done). cbn [negb orb].
  rewrite H1, Ha, Hs, (Hsame (hs_r1khid hs)), bind_ok. cbn [negb]. rewrite (Hsame (hs_anonce hs)), bind_ok. apply Hsame.
Qed.

(** The state once the PTK is installed. *)
Definition ptk_installed (s : ft_sm) : ft_sm :=
  let (hs, l) := handshake_state_install_ptk (ft_hooks E) (ft_hs s) in
  s <| ft_hs := hs |> <| ft_out := ft_out s ++ (FtKey <$> l) |>.

Lemma fte_zero_mic_built n info : zlen (ft_mic info) = 24 → n = 16 ∨ n = 24 → 
  fte_mic n (ft_body info n) = ptake (ft_mic info) n.
Proof.
  intros Hl Hn. unfold fte_mic, ft_body, ft_fixed. rewrite <- !app_assoc. rewrite padd_app by done.
  apply ptake_app. rewrite zlen_ptake; lia.
Qed.

Lemma ft_process_fte_ok s rsne mde info afr aff sent :
  let hs := ft_hs s in
  let n := handshake_state_get_kck_len hs in
  ft_canon n info → hs_mde hs = Some sent → memdup_ie sent = Ok (tlv_encode (IE_TYPE_MOBILITY_DOMAIN, mde)) →
  fte_agrees hs info → mic_element_count info = 3 → ft_r1khid info = hs_r1khid hs → ft_anonce info = hs_anonce hs →
  n ≤ zlen (handshake_state_get_kck hs) →
  ft_mac hs (mic_input hs 6 rsne mde (ft_body info n)) = Some (ptake (ft_mic info) n) →
  wp (ft_process_fte E (Some (tlv_encode (IE_TYPE_RSN, rsne) ++ afr)) (tlv_encode (fte_elem n info) ++ aff))
    (λ r t, r = 0 ∧ t = ptk_installed s) s.
Proof.
  intros hs n Hc Hs Hmd Ha Hcnt H1 Han Hk Hmac. unfold ft_process_fte. sr_seq. cbv zeta. fold hs n.
  sr_seq. eapply wp_run; [done |]. sr_seq. eapply wp_run.
  { etrans; [exact (f_equal ok_or_none (ft_parse_built info n aff Hc)) | done]. }
  cbv iota. sr_seq. pose proof (ft_body_length _ _ Hc) as Hbl.
  assert (66 + n ≤ zlen (ft_body info n) ≤ 255).
  { rewrite Hbl. destruct (ftc_r0 _ _ Hc) as ((? & ?) & _). pose proof (kck_len_cases hs). fold n in H0.
    destruct (ft_r1khid_present info), (ft_r0khid_len info =? 0); lia. }
  eapply wp_run.
  { unfold fte_elem. erewrite ft_calculate_mic_elements by done. fold n. rewrite rdn_ok, bind_ok by
      (split; [destruct (kck_len_cases hs); unfold n; lia | done]). by rewrite Hmac. }
  cbv iota. sr_seq. eapply wp_run.
  { apply ft_fte_matches_ok; try done. pose proof (ftc_mic_len _ _ Hc). rewrite zlen_ptake; [done |].
    destruct (ftc_mic _ _ Hc). lia. }
  cbn [negb]. destruct (ftc_keys _ _ Hc) as (_ & Hg & _ & _ & _ & _ & Hi & _).
  unfold ft_install_gtk, ft_install_igtk. rewrite Hg, Hi. cbn [Z.eqb]. sr_seq. cbn [negb]. sr_seq. cbn [negb].
  unfold ptk_installed, ft_key_effects. fold hs. destruct (handshake_state_install_ptk _ hs) as [hs' l].
  sr_seq. split; [done |]. by destruct s.
Qed.

(** The reassociation response of an AP with the same keys is accepted: the advertised
    RSNE with the PMKR1Name, the MDE that was sent, and an FTE as [ie_build_fast_bss_transition]
    builds it, with the key holders and nonces of the handshake and the MIC of message 6.  The
    call returns 0 and has installed the PTK and nothing else. *)
Theorem ft_rx_associate_accepts s f es adv afa mde info sent :
  let hs := ft_hs s in
  let n := handshake_state_get_kck_len hs in
  let rsne := with_pmkid (hs_pmk_r1_name hs) adv in
  bytes_ok f → zlen f < 2 ^ 31 → is_assoc_response f → mpdu_validate (Some f) (zlen f) = Ok (Some f) →
  response_elements f es →
  payloads IE_TYPE_RSN es = [rsne_body rsne] → payloads IE_TYPE_MOBILITY_DOMAIN es = [mde] →
  payloads IE_TYPE_FAST_BSS_TRANSITION es = [ft_body info n] →
  is_Some (hs_supplicant_ie hs) → hs_authenticator_ie hs = Some (tlv_encode (rsne_elem adv) ++ afa) →
  rsn_info_canon false 0x3ffff adv → zlen (rsne_ciphers false adv) ≤ 252 → zlen (rsne_ciphers false rsne) ≤ 252 →
  zlen (hs_pmk_r1_name hs) = 16 →
  hs_mde hs = Some sent → memdup_ie sent = Ok (tlv_encode (IE_TYPE_MOBILITY_DOMAIN, mde)) →
  ft_canon n info → fte_agrees hs info → mic_element_count info = 3 → ft_r1khid info = hs_r1khid hs →
  ft_anonce info = hs_anonce hs → n ≤ zlen (handshake_state_get_kck hs) →
  ft_mac hs (mic_input hs 6 (rsne_body rsne) mde (ft_body info n)) = Some (ptake (ft_mic info) n) →
  ft_rx_associate E f (zlen f) s = Ok (0, ptk_installed s).
Proof.
  intros hs n rsne Hf Hlt Hst Hv (h' & rest & Hlen' & Hes) Hpr Hpm Hpf Hsup Haie Hadv Hfa Hfr Hnm Hsent Hcopy
    Hc Ha Hcnt H1 Han Hk Hmac.
  destruct (assoc_response_cases f Hf Hlt Hst) as [Hv'|(_ & h & status & Hlen & Hb & Hs & _ & Hpp & Hu & Hil & Hie)];
    [congruence |].
  rewrite Hlen in Hlen'. injection Hlen' as <-.
  destruct (ft_loop_elements _ es rest [] Hes Hie) as (res & Hres & Hi); [lia |]. rewrite app_nil_r in Hres.
  destruct res as [ies|].
  2:{ exfalso. apply Hi. intros tag Htag. unfold ft_tags in Htag. rewrite !elem_of_cons, elem_of_nil in Htag.
      destruct Htag as [->|[->|[->| []]]]; rewrite ?Hpr, ?Hpm, ?Hpf; cbn; lia. }
  destruct Hi as (Hir & Him & Hif).
  destruct (points_to_found _ _ _ _ Hir Hpr) as [afr Er]. destruct (points_to_found _ _ _ _ Him Hpm) as [afm Em].
  destruct (points_to_found _ _ _ _ Hif Hpf) as [aff Ef].
  apply wp_eq. unfold ft_rx_associate. sr_seq. cbv zeta. sr_seq. fold hs.
  eapply wp_run.
  { unfold ft_parse_associate_resp_frame. rewrite Hv, bind_ok, Hb, bind_ok, Hlen, bind_ok, Hpp, Hu, Hres, bind_ok, Hs.
    by rewrite bind_ok. }
  cbv iota. rewrite (bool_decide_true _ Hsup), Er, Em, Ef, Hsent. sr_seq. eapply wp_run.
  { rewrite Haie. apply (ft_rsne_ok_built E adv); done. }
  cbn [negb]. sr_seq. eapply wp_run.
  { rewrite Hcopy, bind_ok. apply memeq_app. }
  rewrite bool_decide_true by done. cbn [negb andb]. by eapply ft_process_fte_ok.
Qed.
End accept.

(** ** What the station sends *)

(** A handshake ready for the transition: the own RSNE, the MDE of the target and the
    fixed-size fields. *)
Record ft_ready (hs : handshake_state) (own : ie_rsn_info) (mde : list Z) : Prop := {
  fr_own : ∃ after, hs_supplicant_ie hs = Some (tlv_encode (rsne_elem own) ++ after);
  fr_canon : rsn_info_canon false 0x3ffff own;
  fr_fit : zlen (rsne_ciphers false own) ≤ 252;
  fr_fit_r0 : zlen (rsne_ciphers false (with_pmkid (hs_pmk_r0_name hs) own)) ≤ 252;
  fr_fit_r1 : zlen (rsne_ciphers false (with_pmkid (hs_pmk_r1_name hs) own)) ≤ 252;
  fr_mde : ∃ sent, hs_mde hs = Some sent ∧ memdup_ie sent = Ok (tlv_encode (IE_TYPE_MOBILITY_DOMAIN, mde));
  fr_r0 : 0 ≤ hs_r0khid_len hs ≤ 48 ∧ zlen (hs_r0khid hs) = 48;
  fr_r1 : zlen (hs_r1khid hs) = 6;
  fr_anonce : zlen (hs_anonce hs) = 32;
  fr_snonce : zlen (hs_snonce hs) = 32;
  fr_r0_name : zlen (hs_pmk_r0_name hs) = 16;
  fr_r1_name : zlen (hs_pmk_r1_name hs) = 16;
}.

Lemma with_pmkid_equiv name i j : rsn_info_equiv i j → with_pmkid name i = with_pmkid name j.
Proof. intros [He _]. destruct i, j. unfold with_pmkid, set_pmkids, set_num_pmkids in *. cbn in *.
  by injection He as -> -> -> -> -> -> -> -> -> -> -> -> -> -> -> ->.
Qed.

Lemma rsne_with_pmkid_ok hs own mde name to :
  ft_ready hs own mde → zlen name = 16 → zlen (rsne_ciphers false (with_pmkid name own)) ≤ 252 → 256 ≤ zlen to →
  rsne_with_pmkid hs name to =
    Ok (tlv_encode (rsne_elem (with_pmkid name own)) ++ (to +! (2 + zlen (rsne_body (with_pmkid name own))))).
Proof.
  intros R Hn Hfit Hto. destruct (fr_own _ _ _ R) as [after Hown].
  destruct (ie_parse_rsne_from_built own after (fr_canon _ _ _ R) (fr_fit _ _ _ R)) as (i & Hi & Heq).
  unfold rsne_with_pmkid. rewrite Hown. cbn [nonnull]. rewrite bind_ok.
  change (rd (tlv_encode (rsne_elem own) ++ after) 1) with (Ok (zlen (rsne_body own))). rewrite bind_ok.
  change (tlv_encode (rsne_elem own) ++ after) with (IE_TYPE_RSN :: zlen (rsne_body own) :: rsne_body own ++ after).
  rewrite Hi. change (set_pmkids (Some name) (set_num_pmkids 1 i)) with (with_pmkid name i).
  rewrite (with_pmkid_equiv _ _ _ Heq), ie_build_rsne_ok, bind_ok; [done | | done | done].
  apply with_pmkid_canon; [apply R | done].
Qed.

(** The FTE of the request, without and with its MIC. *)
Definition request_info (hs : handshake_state) (count : Z) (mic anonce snonce : list Z) (r1khid : option (list Z)) : ie_ft_info :=
  let n := hs_r0khid_len hs in
  ft_info_zero <| mic_element_count := count |> <| ft_mic := mic ++ zeros (24 - length mic) |>
    <| ft_r0khid := ptake (hs_r0khid hs) n ++ zeros (Z.to_nat (48 - n)) |> <| ft_r0khid_len := n |>
    <| ft_r1khid := default (zeros 6) r1khid |> <| ft_r1khid_present := bool_decide (is_Some r1khid) |>
    <| ft_anonce := anonce |> <| ft_snonce := snonce |>.

Lemma request_info_canon hs count mic anonce snonce r1khid n :
  n = 16 ∨ n = 24 → byte_ok count → zlen mic = n ∨ mic = [] → zlen anonce = 32 → zlen snonce = 32 →
  0 ≤ hs_r0khid_len hs ≤ 48 → zlen (hs_r0khid hs) = 48 → (∀ r, r1khid = Some r → zlen r = 6) →
  ft_canon n (request_info hs count mic anonce snonce r1khid).
Proof.
  intros Hn Hc Hm Ha Hs H0 H0' H1.
  assert (Hz : ∀ k, zlen (zeros k) = Z.of_nat k) by (intros k; unfold zlen, zeros; by rewrite length_replicate).
  assert (Hr : zlen (ptake (hs_r0khid hs) (hs_r0khid_len hs)) = hs_r0khid_len hs) by (rewrite zlen_ptake; lia).
  split; cbn; try done.
  - assert (Hl : zlen mic ≤ 24) by (destruct Hm as [? | ->]; [lia | done]). unfold zlen in Hl.
    split; [rewrite zlen_app, Hz; unfold zlen; lia |].
    destruct Hm as [Hm | ->].
    + rewrite ptake_app by done. do 2 f_equal. unfold zlen in Hm. lia.
    + cbn. by destruct Hn as [-> | ->].
  - split_and!; [lia | lia | rewrite zlen_app, Hr, Hz; lia | by rewrite ptake_app].
  - destruct r1khid as [r|]; cbn; [| done]. split; [by apply H1 | done].
Qed.

(** The MIC field does not change what the MIC is computed over. *)
Lemma fte_zero_mic_request hs count mic mic' anonce snonce r1khid n :
  n = 16 ∨ n = 24 → zlen mic ≤ 24 → zlen mic' ≤ 24 →
  fte_zero_mic n (ft_body (request_info hs count mic anonce snonce r1khid) n) =
  fte_zero_mic n (ft_body (request_info hs count mic' anonce snonce r1khid) n).
Proof.
  intros Hn Hm Hm'. assert (Hz : ∀ l : list Z, zlen l ≤ 24 → zlen (l ++ zeros (24 - length l)) = 24).
  { intros l Hl. unfold zlen in *. rewrite length_app. unfold zeros. rewrite length_replicate. lia. }
  assert (He : ∀ l, zlen l ≤ 24 → fte_zero_mic n (ft_body (request_info hs count l anonce snonce r1khid) n) =
    [0; count] ++ zeros (Z.to_nat n) ++ (anonce ++ snonce ++
      ft_r1_enc (request_info hs count [] anonce snonce r1khid) ++ ft_r0_enc (request_info hs count [] anonce snonce r1khid))).
  { intros l Hl. unfold fte_zero_mic, ft_body, ft_fixed. rewrite <- !app_assoc.
    rewrite ptake_app by done. do 2 f_equal. rewrite padd_app_ge by (rewrite !zlen_cons, zlen_nil; lia).
    change (zlen [0; mic_element_count _]) with 2. replace (2 + n - 2) with n by lia.
    apply padd_app. rewrite zlen_ptake; [done |]. change (ft_mic _) with (l ++ zeros (24 - length l)). rewrite Hz by done. lia. }
  by rewrite !He.
Qed.

Lemma zeros_tail l k : (length l ≤ k)%nat → l ++ (zeros k +! zlen l) = l ++ zeros (k - length l).
Proof. intros. rewrite zeros_padd by apply zlen_nonneg. unfold zlen. by rewrite Nat2Z.id. Qed.

Lemma put1_length buf pos v buf' : put1 buf pos v = Ok buf' → zlen buf' = zlen buf.
Proof. apply put_length. Qed.

Lemma ft_put_subelem_length to pos len id x to' p l : ft_put_subelem to pos len id x = Ok (to', p, l) → zlen to' = zlen to.
Proof.
  unfold ft_put_subelem. intros Hr. apply bind_Ok_inv in Hr as (b1 & ?%put1_length & Hr).
  apply bind_Ok_inv in Hr as (b2 & ?%put1_length & Hr). apply bind_Ok_inv in Hr as (b3 & ?%put_length & Hr).
  apply bind_Ok_inv in Hr as (b4 & ?%put1_length & Hr). injection Hr as <- _ _. congruence.
Qed.

Lemma ie_build_fte_length info n to to' : ie_build_fast_bss_transition info n to = Ok to' → zlen to' = zlen to.
Proof.
  unfold ie_build_fast_bss_transition. intros Hr.
  apply bind_Ok_inv in Hr as (b1 & ?%put1_length & Hr). apply bind_Ok_inv in Hr as (b2 & ?%put1_length & Hr).
  apply bind_Ok_inv in Hr as (b3 & ?%put1_length & Hr). apply bind_Ok_inv in Hr as (b4 & ?%put1_length & Hr).
  apply bind_Ok_inv in Hr as (m & _ & Hr). apply bind_Ok_inv in Hr as (b5 & ?%put_length & Hr).
  apply bind_Ok_inv in Hr as (b6 & ?%put_length & Hr). apply bind_Ok_inv in Hr as (b7 & ?%put_length & Hr).
  apply bind_Ok_inv in Hr as ([[b8 p] l] & H8 & Hr).
  assert (zlen b8 = zlen b7) by (destruct (ft_r1khid_present info); [by eapply ft_put_subelem_length | by injection H8 as <- _ _]).
  destruct (ft_r0khid_len info =? 0); [injection Hr as <-; congruence |].
  apply bind_Ok_inv in Hr as (k & _ & Hr). apply bind_Ok_inv in Hr as ([[b9 p'] l'] & ?%ft_put_subelem_length & Hr).
  injection Hr as <-. congruence.
Qed.

Section request.
Context {EC : Ell} {EL : EllLaws EC}.
Variable E : ft_env.

Lemma reassociate_ft_info_ok hs own mde :
  ft_ready hs own mde →
  reassociate_ft_info hs = Ok (request_info hs 3 [] (hs_anonce hs) (hs_snonce hs) (Some (hs_r1khid hs))).
Proof.
  intros R. destruct (fr_r0 _ _ _ R) as [H0 H0']. unfold reassociate_ft_info.
  rewrite rdn_ok, bind_ok by lia. assert (Hl : zlen (ptake (hs_r0khid hs) (hs_r0khid_len hs)) = hs_r0khid_len hs)
    by (rewrite zlen_ptake; lia).
  rewrite put_first by (change (zlen (ft_r0khid ft_info_zero)) with 48; lia).
  rewrite bind_ok. change (ft_r0khid ft_info_zero) with (zeros 48). rewrite zeros_padd by lia. rewrite Hl.
  unfold request_info. replace (48 - Z.to_nat (hs_r0khid_len hs))%nat with (Z.to_nat (48 - hs_r0khid_len hs)) by lia.
  done.
Qed.

(** C16: The reassociation request: for a handshake ready for the transition exactly one
    request is sent, with the own RSNE naming the PMK-R1, the MDE of the target, and an FTE that
    carries the nonces and key holders of the handshake and whose MIC is the MAC of message 5 over
    these three elements; the 256-byte buffers are never exceeded. *)
Theorem ft_reassociation_request s own mde :
  let hs := ft_hs s in
  let n := handshake_state_get_kck_len hs in
  let rsne := with_pmkid (hs_pmk_r1_name hs) own in
  ft_ready hs own mde → n ≤ zlen (handshake_state_get_kck hs) →
  (∀ msg, is_Some (ft_mac hs msg)) →
  ∃ mic,
    let fte := ft_body (request_info hs 3 mic (hs_anonce hs) (hs_snonce hs) (Some (hs_r1khid hs))) n in
    ft_mac hs (mic_input hs 5 (rsne_body rsne) mde fte) = Some mic ∧ fte_mic n fte = mic ∧
    ft_tx_reassociate E s = Ok (ft_tx_assoc_ret E,
      s <| ft_out := ft_out s ++ [FtTxAssociate (tlv_encode <$>
             [rsne_elem rsne; (IE_TYPE_MOBILITY_DOMAIN, mde); (IE_TYPE_FAST_BSS_TRANSITION, fte)])] |>).
Proof.
  intros hs n rsne R Hk Hmac. pose proof (kck_len_cases hs) as Hn. fold n in Hn.
  set (info mic := request_info hs 3 mic (hs_anonce hs) (hs_snonce hs) (Some (hs_r1khid hs))).
  assert (Hc : ∀ mic, zlen mic = n ∨ mic = [] → ft_canon n (info mic)).
  { intros mic Hm. apply request_info_canon; try done; try apply R. by intros r [= <-]; apply R. }
  assert (Hbl : ∀ mic, zlen mic = n ∨ mic = [] → 66 + n ≤ zlen (ft_body (info mic) n) ≤ 148).
  { intros mic Hm. rewrite (ft_body_length _ _ (Hc mic Hm)). destruct (fr_r0 _ _ _ R). cbn. case_match; lia. }
  destruct (Hmac (mic_input hs 5 (rsne_body rsne) mde (ft_body (info []) n))) as [mic Hmic].
  pose proof (ft_mac_length _ _ _ Hmic) as Hml. fold n in Hml.
  assert (Hz : fte_zero_mic n (ft_body (info mic) n) = fte_zero_mic n (ft_body (info []) n))
    by (apply fte_zero_mic_request; done || lia).
  assert (Hll : zlen (ft_body (info mic) n) = zlen (ft_body (info []) n))
    by (rewrite (ft_body_length _ _ (Hc mic (or_introl Hml))), (ft_body_length _ _ (Hc [] (or_intror eq_refl))); done).
  exists mic. change (request_info hs 3 mic (hs_anonce hs) (hs_snonce hs) (Some (hs_r1khid hs))) with (info mic).
  split_and!.
  { rewrite <- Hmic. unfold mic_input. fold n. by rewrite Hz, Hll. }
  { rewrite fte_zero_mic_built; [| apply (Hc mic); by left | done].
    change (ft_mic (info mic)) with (mic ++ zeros (24 - length mic)). by apply ptake_app. }
  assert (Hies : reassociate_ies E hs = Ok (tlv_encode <$> [rsne_elem rsne; (IE_TYPE_MOBILITY_DOMAIN, mde);
                   (IE_TYPE_FAST_BSS_TRANSITION, ft_body (info mic) n)])).
  { unfold reassociate_ies. destruct (fr_own _ _ _ R) as [x Hx]. rewrite Hx. cbv iota.
    assert (Hj : zlen (l_malloc (ft_junk E) 256) = 256) by (by rewrite l_malloc_length).
    rewrite (rsne_with_pmkid_ok _ _ _ _ _ R) by (apply R || lia). rewrite bind_ok. fold rsne.
    destruct (fr_mde _ _ _ R) as (sent & Hs & Hcopy). rewrite Hs. cbn [nonnull]. rewrite bind_ok, Hcopy, bind_ok.
    rewrite (reassociate_ft_info_ok _ _ _ R), bind_ok. fold (info []). fold n.
    destruct (ft_build_ok (info []) n (l_malloc (ft_junk E) 256) (Hc [] (or_intror eq_refl))) as [rest Hb];
      [specialize (Hbl [] (or_intror eq_refl)); lia |].
    rewrite Hb, bind_ok.
    change (IE_TYPE_FAST_BSS_TRANSITION :: zlen (ft_body (info []) n) :: ft_body (info []) n ++ rest)
      with (tlv_encode (IE_TYPE_FAST_BSS_TRANSITION, ft_body (info []) n) ++ rest).
    unfold rsne_elem. erewrite ft_calculate_mic_elements;
      [| exact Hs | exact Hcopy | specialize (Hbl [] (or_intror eq_refl)); fold n; lia].
    fold n. rewrite rdn_ok, !bind_ok by lia. rewrite Hmic.
    rewrite put_first by (change (zlen (ft_mic (info []))) with 24; lia). rewrite bind_ok.
    assert (Hset : set_field ft_mic (mic ++ (ft_mic (info []) +! zlen mic)) (info []) = info mic).
    { change (ft_mic (info [])) with (zeros 24). rewrite zeros_tail by (unfold zlen in Hml; lia). done. }
    rewrite Hset.
    destruct (ft_build_ok (info mic) n (tlv_encode (IE_TYPE_FAST_BSS_TRANSITION, ft_body (info []) n) ++ rest)
                (Hc mic (or_introl Hml))) as [rest' Hb'].
    { apply ie_build_fte_length in Hb. rewrite Hj in Hb.
      change (2 + zlen (ft_body (info mic) n) ≤
              zlen (IE_TYPE_FAST_BSS_TRANSITION :: zlen (ft_body (info []) n) :: ft_body (info []) n ++ rest)).
      rewrite Hb. specialize (Hbl mic (or_introl Hml)). lia. }
    rewrite Hb', bind_ok.
    change (IE_TYPE_FAST_BSS_TRANSITION :: zlen (ft_body (info mic) n) :: ft_body (info mic) n ++ rest')
      with (tlv_encode (IE_TYPE_FAST_BSS_TRANSITION, ft_body (info mic) n) ++ rest').
    rewrite !memdup_ie_encode by done. done. }
  apply wp_eq. unfold ft_tx_reassociate. sr_seq. fold hs. rewrite Hies. sr_seq. done.
Qed.
End request.

(** ** The second message *)

(** An authentication response of the FT protocol with status 0. *)
Definition ft_auth_response (hs : handshake_state) (dur sc : list Z) (ies : list Z) : list Z :=
  [0xb0; 0] ++ dur ++ hs_spa hs ++ hs_aa hs ++ hs_aa hs ++ sc ++ [2; 0; 2; 0; 0; 0] ++ ies.

(** The keys of a second message whose R0KH-ID is the known one. *)
Lemma ft_set_keys_eq `{Ell} E hs info d after :
  fte_agrees hs info → zlen (ft_anonce info) = 32 → zlen (ft_r1khid info) = 6 → zlen (ft_r0khid info) = 48 →
  zlen (hs_r0khid hs) = 48 →
  ft_set_keys E hs (Some (tlv_encode (IE_TYPE_FAST_BSS_TRANSITION, d) ++ after)) info =
    (r ← handshake_state_derive_ptk (ft_junk_mdid E)
           (hs <| hs_fte := Some (tlv_encode (IE_TYPE_FAST_BSS_TRANSITION, d)) |> <| hs_anonce := ft_anonce info |>
               <| hs_r1khid := ft_r1khid info |>);
     Ok r.1).
Proof.
  intros [Hl0 H0 Hin _ _] Han Hr1 Hrz Hz. unfold ft_set_keys, handshake_state_set_fte.
  rewrite memdup_ie_encode by done. rewrite !bind_ok. set (x := tlv_encode _).
  unfold handshake_state_set_anonce. rewrite (rdn_ok (ft_anonce info)), !bind_ok, ptake_all by lia.
  unfold handshake_state_set_kh_ids. rewrite Hl0, (rdn_ok (ft_r0khid info)), bind_ok, H0 by lia.
  assert (Hp : put (hs_r0khid hs) 0 (ptake (hs_r0khid hs) (hs_r0khid_len hs)) = Ok (hs_r0khid hs)).
  { rewrite put_first by (rewrite zlen_ptake; lia). rewrite zlen_ptake by lia. by rewrite ptake_padd_id. }
  change (hs_r0khid (set_field hs_anonce _ _)) with (hs_r0khid hs). rewrite Hp, bind_ok.
  rewrite (rdn_ok (ft_r1khid info)), !bind_ok, (ptake_all (ft_r1khid info)) by lia.
  by destruct hs.
Qed.

Section second.
Context {EC : Ell} {EL : EllLaws EC}.
Variable E : ft_env.
Variable s : ft_sm.
Variables (dur sc ies rest : list Z) (es : list elem).
Let hs := ft_hs s.
Let f := ft_auth_response hs dur sc ies.
Hypothesis Hdur : zlen dur = 2.
Hypothesis Hsc : zlen sc = 2.
Hypothesis Hspa : zlen (hs_spa hs) = 6.
Hypothesis Haa : zlen (hs_aa hs) = 6.
Hypothesis Hies : elements_of ies es rest.
Hypothesis Hok : bytes_ok ies.
Hypothesis Hlen : zlen ies < 2 ^ 31.

Lemma ft_auth_response_parsed :
  ft_parse_authentication_resp_frame f (zlen f) (hs_spa hs) (hs_aa hs) (hs_aa hs) 2 =
    Ok (Some (0, Some ([0; 0] ++ ies, 2 + zlen ies))).
Proof.
  assert (Hl : zlen f = 30 + zlen ies) by (unfold f, ft_auth_response; rewrite !zlen_app, Hdur, Hspa, Haa, Hsc;
    change (zlen [0xb0; 0]) with 2; change (zlen [2; 0; 2; 0; 0; 0]) with 6; lia).
  unfold ft_parse_authentication_resp_frame. rewrite Hl. pose proof (zlen_nonneg ies).
  destruct (Z.ltb_spec (30 + zlen ies) 30); [lia |].
  change (l_get_le16 f) with (Ok 0xb0). rewrite bind_ok. cbn [Z.eqb Pos.eqb negb].
  assert (H4 : f +! 4 = hs_spa hs ++ hs_aa hs ++ hs_aa hs ++ sc ++ [2; 0; 2; 0; 0; 0] ++ ies).
  { unfold f, ft_auth_response. rewrite app_assoc. apply padd_app. by rewrite zlen_app, Hdur. }
  assert (H10 : f +! 10 = hs_aa hs ++ hs_aa hs ++ sc ++ [2; 0; 2; 0; 0; 0] ++ ies).
  { change 10 with (4 + 6). rewrite <- padd_padd, H4 by lia. by apply padd_app. }
  assert (H16 : f +! 16 = hs_aa hs ++ sc ++ [2; 0; 2; 0; 0; 0] ++ ies).
  { change 16 with (10 + 6). rewrite <- padd_padd, H10 by lia. by apply padd_app. }
  assert (H24 : f +! 24 = [2; 0; 2; 0; 0; 0] ++ ies).
  { change 24 with (16 + 8). rewrite <- padd_padd, H16, app_assoc by lia. apply padd_app. by rewrite zlen_app, Haa, Hsc. }
  assert (H26 : f +! 26 = [2; 0; 0; 0] ++ ies) by (change 26 with (24 + 2); by rewrite <- padd_padd, H24 by lia).
  assert (H28 : f +! 28 = [0; 0] ++ ies) by (change 28 with (26 + 2); by rewrite <- padd_padd, H26 by lia).
  rewrite H4, memeq_app, bind_ok. cbn [negb]. rewrite H10, memeq_app, bind_ok. cbn [negb].
  rewrite H16, memeq_app, bind_ok. cbn [negb]. rewrite H24. change (l_get_le16 ([2; 0; 2; 0; 0; 0] ++ ies)) with (Ok 2).
  rewrite bind_ok. cbn [Z.eqb Pos.eqb negb]. rewrite H26. change (l_get_le16 ([2; 0; 0; 0] ++ ies)) with (Ok 2).
  rewrite bind_ok. cbn [Z.eqb Pos.eqb negb orb]. rewrite H28. change (l_get_le16 ([0; 0] ++ ies)) with (Ok 0).
  rewrite bind_ok. cbn [Z.eqb]. by replace (30 + zlen ies - 28) with (2 + zlen ies) by lia.
Qed.

(** The status field is read as an empty element. *)
Lemma ft_auth_elements :
  ∃ r, tlv_loop ft_elements_step ([0; 0] ++ ies) (u32 (2 + zlen ies)) (Some no_ies) = Ok r ∧
    match r with Some j => ies_of es j | None => ¬ no_repeats es end.
Proof.
  assert (Hes : elements_of (tlv_encode (0, []) ++ ies) ((0, []) :: es) rest).
  { apply elements_step; [| done]. split; [apply Forall_nil_2 | left; split; [lia | done]]. }
  pose proof (zlen_nonneg ies).
  destruct (ft_loop_elements _ _ _ [] Hes) as (r & Hr & Hi);
    [apply Forall_app; split; [apply Forall_cons_2; [done |]; by apply Forall_cons_2 | done] | change (tlv_encode (0, [])) with [0; 0]; zlia |].
  rewrite app_nil_r in Hr. exists r. rewrite u32_small by lia.
  split; [etrans; [| exact Hr]; f_equal; cbn; zlia |].
  destruct r as [j|]; [exact Hi |]. intros Hn. apply Hi. intros tag Htag. specialize (Hn tag Htag).
  unfold payloads in *. rewrite filter_cons_False; [exact Hn |].
  cbn. unfold ft_tags in Htag. rewrite !elem_of_cons, elem_of_nil in Htag. by intros <-; intuition.
Qed.

(** A second message whose elements are refused is reported as success: without an
    RSNE in an RSN, [ft_rx_authenticate] sends nothing and returns the status code, 0, which
    netdev.c takes for a message that was dealt with. *)
Theorem ft_rx_authenticate_ignores_errors :
  is_Some (hs_supplicant_ie hs) → no_repeats es → payloads IE_TYPE_RSN es = [] →
  ft_rx_authenticate E f (zlen f) s = Ok (0, s).
Proof.
  intros Hsup Hn Hno. apply wp_eq. unfold ft_rx_authenticate. sr_seq. cbv zeta. fold hs. sr_seq.
  eapply wp_run; [exact ft_auth_response_parsed |]. cbv iota. cbn [Z.eqb negb]. sr_seq.
  eapply (wp_run _ _ _ None); [| cbv iota; sr_seq; done].
  unfold ft_process_ies. cbn [fmap option_fmap option_map fst from_option snd].
  unfold ft_parse_ies. destruct ft_auth_elements as (r & -> & Hi). rewrite bind_ok.
  destruct r as [i|]; [| done]. destruct Hi as (Hr & _). rewrite bool_decide_true by done.
  destruct (fi_rsne i) as [p|]; [| done]. destruct Hr as (d & a & _ & Hd). congruence.
Qed.

(** C15: The second message of an AP that echoes the first one is accepted: the PTK is
    derived from the ANonce and the R1 key holder of its FTE, and the reassociation request is
    sent with that handshake. *)
Theorem ft_rx_authenticate_accepts adv afa mde info hs' b :
  let n := handshake_state_get_kck_len hs in
  let rsne := with_pmkid (hs_pmk_r0_name hs) adv in
  payloads IE_TYPE_RSN es = [rsne_body rsne] → payloads IE_TYPE_MOBILITY_DOMAIN es = [mde] →
  payloads IE_TYPE_FAST_BSS_TRANSITION es = [ft_body info n] →
  is_Some (hs_supplicant_ie hs) → hs_authenticator_ie hs = Some (tlv_encode (rsne_elem adv) ++ afa) →
  rsn_info_canon false 0x3ffff adv → zlen (rsne_ciphers false adv) ≤ 252 → zlen (rsne_ciphers false rsne) ≤ 252 →
  zlen (hs_pmk_r0_name hs) = 16 → (∃ sent c, hs_mde hs = Some sent ∧ memdup_ie sent = Ok c) →
  ft_canon n info → fte_agrees hs info → mic_element_count info = 0 → ft_mic info = zeros 24 →
  zlen (hs_r0khid hs) = 48 →
  handshake_state_derive_ptk (ft_junk_mdid E)
    (hs <| hs_fte := Some (tlv_encode (fte_elem n info)) |> <| hs_anonce := ft_anonce info |>
        <| hs_r1khid := ft_r1khid info |>) = Ok (hs', b) →
  ft_rx_authenticate E f (zlen f) s = ft_tx_reassociate E (s <| ft_hs := hs' |>).
Proof.
  intros n rsne Hpr Hpm Hpf Hsup Haie Hadv Hfa Hfr Hnm (sent & c & Hsent & Hcopy) Hc Ha Hcnt Hmic Hr0 Hder.
  destruct ft_auth_elements as (r & Hloop & Hi). destruct r as [i|].
  2:{ exfalso. apply Hi. intros tag Htag. unfold ft_tags in Htag. rewrite !elem_of_cons, elem_of_nil in Htag.
      destruct Htag as [->|[->|[->| []]]]; rewrite ?Hpr, ?Hpm, ?Hpf; cbn; lia. }
  destruct Hi as (Hir & Him & Hif).
  destruct (points_to_found _ _ _ _ Hir Hpr) as [afr Er]. destruct (points_to_found _ _ _ _ Him Hpm) as [afm Em].
  destruct (points_to_found _ _ _ _ Hif Hpf) as [aff Ef].
  assert (Hies' : ft_parse_ies E hs ([0; 0] ++ ies) (2 + zlen ies) = Ok (Some (fi_mde i, fi_fte i))).
  { unfold ft_parse_ies. rewrite Hloop, bind_ok, Er, (bool_decide_true _ Hsup), Haie. unfold ft_verify_rsne.
    pose proof (ft_rsne_ok_built E adv _ Hadv Hfa Hfr Hnm afr afa) as Hro. unfold rsne_elem in *. fold rsne in Hro.
    by rewrite Hro, bind_ok. }
  assert (Hmde : mde_equal (hs_mde hs) (fi_mde i) = Ok true).
  { rewrite Hsent, Em. unfold mde_equal, memdup_ie in *. apply bind_Ok_inv in Hcopy as (l & Hl & Hcopy).
    rewrite Hl, bind_ok, Hcopy, !bind_ok. by rewrite bool_decide_true. }
  assert (Hfte : ft_parse_fte hs (hs_snonce hs) (fi_fte i) = Ok (Some info)).
  { rewrite Ef. unfold ft_parse_fte.
    change (rd (tlv_encode (IE_TYPE_FAST_BSS_TRANSITION, ft_body info n) ++ aff) 1) with (Ok (zlen (ft_body info n))).
    rewrite bind_ok.
    assert (Hpb : ok_or_none (ie_parse_fast_bss_transition_from_data
              (tlv_encode (IE_TYPE_FAST_BSS_TRANSITION, ft_body info n) ++ aff) (zlen (ft_body info n) + 2) n) = Ok (Some info))
      by exact (f_equal ok_or_none (ft_parse_built info n aff Hc)).
    fold n. rewrite Hpb, bind_ok, Hcnt, Hmic. destruct Ha as [Hl0 H0 Hin H1 Hs].
    rewrite (memeq_eq (zeros 24)), bind_ok by (destruct (kck_len_cases hs) as [Hk | Hk]; unfold n; rewrite Hk; done).
    cbn [Z.eqb negb orb]. rewrite Hl0, Z.eqb_refl. cbn [negb]. rewrite rdn_ok, bind_ok by done.
    rewrite (memeq_eq (ft_r0khid info)), bind_ok, H1 by (rewrite zlen_ptake by done; done). cbn [negb orb].
    rewrite (memeq_eq (ft_snonce info)), bind_ok by (rewrite Hs; by apply ptake_all). done. }
  assert (Hset : ft_set_keys E hs (fi_fte i) info = Ok hs').
  { rewrite Ef. destruct (ftc_nonces _ _ Hc) as [Han _]. destruct (ftc_r1 _ _ Hc) as [Hr1 _].
    destruct (ftc_r0 _ _ Hc) as (_ & Hrz & _). rewrite ft_set_keys_eq by (done || lia).
    unfold fte_elem in Hder. by rewrite Hder. }
  unfold ft_rx_authenticate. erewrite sr_bind_ok by done. cbv zeta. fold hs.
  erewrite run_bind_ok by exact ft_auth_response_parsed. cbv iota. cbn [Z.eqb negb].
  cbn [fmap option_fmap option_map fst from_option snd].
  rewrite (run_bind_ok _ _ _ (Some hs')). 
  2:{ unfold ft_process_ies. rewrite Hies', bind_ok, Hmde, bind_ok. cbn [negb].
      destruct (hs_supplicant_ie hs) as [x|]; [| by destruct Hsup]. by rewrite Hfte, bind_ok, Hset. }
  cbv iota. by erewrite sr_bind_ok by done.
Qed.
End second.

(** ** The first message *)

Section first.
Context {EC : Ell}.
Variable E : ft_env.

Lemma memdup_ie_prefix p e : memdup_ie p = Ok e → p = e ++ (p +! zlen e).
Proof.
  unfold memdup_ie. intros Hm. apply bind_Ok_inv in Hm as (l & _ & Hm). apply rdn_inv in Hm as [Hl ->].
  rewrite zlen_ptake by done. by rewrite ptake_padd_id.
Qed.

Lemma ft_build_authenticate_ok hs own mde snonce buf :
  ft_ready hs own mde → zlen mde = 3 → zlen snonce = 32 → zlen buf = 512 →
  let n := handshake_state_get_kck_len hs in
  ft_build_authenticate_ies hs snonce buf =
    Ok (tlv_encode_all [rsne_elem (with_pmkid (hs_pmk_r0_name hs) own); (IE_TYPE_MOBILITY_DOMAIN, mde);
                        fte_elem n (request_info hs 0 [] (zeros 32) snonce None)]).
Proof.
  intros R Hm Hs Hb n. pose proof (kck_len_cases hs) as Hn. fold n in Hn.
  unfold ft_build_authenticate_ies. destruct (fr_own _ _ _ R) as [x Hx]. rewrite Hx. cbv iota zeta. fold n.
  set (r := rsne_elem (with_pmkid (hs_pmk_r0_name hs) own)).
  assert (Hr : zlen (tlv_encode r) = 2 + zlen (rsne_body (with_pmkid (hs_pmk_r0_name hs) own))) by (by rewrite tlv_encode_length).
  pose proof (fr_fit_r0 _ _ _ R) as Hfit.
  assert (Hrl : zlen (rsne_body (with_pmkid (hs_pmk_r0_name hs) own)) ≤ 254) by (unfold rsne_body; rewrite !zlen_cons; lia).
  pose proof (zlen_nonneg (rsne_body (with_pmkid (hs_pmk_r0_name hs) own))).
  rewrite (rsne_with_pmkid_ok _ _ _ _ _ R) by (apply R || lia). rewrite bind_ok. rewrite <- Hr. fold r.
  set (rest1 := buf +! zlen (tlv_encode r)). assert (H1 : zlen rest1 = 512 - zlen (tlv_encode r)) by (unfold rest1; rewrite zlen_padd; lia).
  change (rd (tlv_encode r ++ rest1) 1) with (Ok (zlen (rsne_body (with_pmkid (hs_pmk_r0_name hs) own)))).
  rewrite bind_ok. replace (zlen (rsne_body (with_pmkid (hs_pmk_r0_name hs) own)) + 2) with (zlen (tlv_encode r)) by lia.
  rewrite bind_ok. destruct (fr_mde _ _ _ R) as (sent & Hsent & Hcopy). rewrite Hsent. cbn [nonnull]. rewrite bind_ok.
  apply memdup_ie_prefix in Hcopy.
  assert (Hmd : rdn (sent +! 2) 3 = Ok mde).
  { rewrite Hcopy. cbn [tlv_encode Z.ltb IE_TYPE_MOBILITY_DOMAIN Z.compare Pos.compare Pos.compare_cont app].
    change ((?a :: ?b :: ?l) +! 2) with l. by apply rdn_app. }
  rewrite Hmd, bind_ok. set (md := tlv_encode (IE_TYPE_MOBILITY_DOMAIN, mde)).
  assert (Hmdl : zlen md = 5) by (unfold md; rewrite tlv_encode_length; cbn [fst snd]; rewrite Hm; done).
  replace ([IE_TYPE_MOBILITY_DOMAIN; 3] ++ mde) with md by (unfold md; cbn; by rewrite Hm).
  rewrite put_next, bind_ok by (done || lia). rewrite Hmdl. set (rest2 := rest1 +! 5).
  assert (H2 : zlen rest2 = 507 - zlen (tlv_encode r)) by (unfold rest2; rewrite zlen_padd; lia).
  destruct (fr_r0 _ _ _ R) as [H0 H0']. rewrite (rdn_ok (hs_r0khid hs)), bind_ok by lia.
  assert (Hl : zlen (ptake (hs_r0khid hs) (hs_r0khid_len hs)) = hs_r0khid_len hs) by (rewrite zlen_ptake; lia).
  rewrite put_first by (change (zlen (ft_r0khid ft_info_zero)) with 48; lia). rewrite bind_ok.
  change (ft_r0khid ft_info_zero) with (zeros 48). rewrite zeros_padd, Hl by lia.
  set (info := request_info hs 0 [] (zeros 32) snonce None).
  match goal with |- context [ie_build_fast_bss_transition ?i n _] => replace i with info end.
  2:{ unfold info, request_info. by replace (48 - Z.to_nat (hs_r0khid_len hs))%nat with (Z.to_nat (48 - hs_r0khid_len hs)) by lia. }
  assert (Hpos : zlen (tlv_encode r) + 5 = zlen (tlv_encode r ++ md)) by (rewrite zlen_app; lia).
  rewrite Hpos, padd_app by done.
  assert (Hc : ft_canon n info) by (apply request_info_canon; try done; by right).
  pose proof (ft_body_length _ _ Hc) as Hbl.
  assert (Hbl' : zlen (ft_body info n) ≤ 140) by (rewrite Hbl; change (ft_r1khid_present info) with false;
    change (ft_r0khid_len info) with (hs_r0khid_len hs); destruct (hs_r0khid_len hs =? 0); lia).
  destruct (ft_build_ok info n rest2 Hc) as [rest3 Hb3]; [lia |].
  rewrite Hb3, bind_ok. change (rd (_ :: ?l :: _) 1) with (Ok l). rewrite bind_ok, ptake_app by done.
  change (IE_TYPE_FAST_BSS_TRANSITION :: zlen (ft_body info n) :: ft_body info n ++ rest3) with (tlv_encode (fte_elem n info) ++ rest3).
  rewrite app_assoc. rewrite rdn_app.
  - unfold tlv_encode_all. csimpl. by rewrite app_nil_r, <- app_assoc.
  - rewrite (zlen_app (_ ++ _)), tlv_encode_length. cbn [fte_elem fst snd]. 
    change (IE_TYPE_FAST_BSS_TRANSITION <? 256) with true. cbv iota. lia.
Qed.

(** The first message: [ft_start] sends the own RSNE with the PMKR0Name, the MDE
    and an FTE with the R0 key holder and the SNonce, all other fields zero; the 512-byte buffer
    is never exceeded. *)
Theorem ft_start_request s own mde :
  let hs := ft_hs s in
  let n := handshake_state_get_kck_len hs in
  ft_ready hs own mde → zlen mde = 3 →
  ft_start E s = Ok (true,
    s <| ft_out := ft_out s ++ [FtTxAuthenticate (tlv_encode_all
           [rsne_elem (with_pmkid (hs_pmk_r0_name hs) own); (IE_TYPE_MOBILITY_DOMAIN, mde);
            fte_elem n (request_info hs 0 [] (zeros 32) (hs_snonce hs) None)])] |>).
Proof.
  intros hs n R Hm. apply wp_eq. unfold ft_start. sr_seq. fold hs.
  rewrite (ft_build_authenticate_ok hs own mde) by (done || apply R || by rewrite l_malloc_length). sr_seq. done.
Qed.
End first.

(** ** Flaws *)

(** Any MDE passes the comparison with the one of the first message, which is compared
    with itself. *)
Theorem mde_equal_any mde1 mde2 c : memdup_ie mde1 = Ok c → mde_equal (Some mde1) (Some mde2) = Ok true.
Proof.
  unfold mde_equal, memdup_ie. intros Hm. apply bind_Ok_inv in Hm as (l & -> & Hm).
  by rewrite !bind_ok, Hm, !bind_ok, bool_decide_true.
Qed.

(** The MDE kept for the transition over the DS is three bytes without a header. *)
Lemma mde_equal_ds_overread a b c p : 2 ≤ b → mde_equal (Some [a; b; c]) (Some p) = Fault.
Proof.
  intros Hb. unfold mde_equal. change (rd [a; b; c] 1) with (Ok b). rewrite bind_ok. unfold rdn.
  change (zlen [a; b; c]) with 3. destruct (Z.leb_spec (b + 2) 3); [lia |]. by rewrite andb_false_r.
Qed.

Definition null_pmkids_rsne : list Z :=
  [1; 0; 0; 15; 172; 4; 1; 0; 0; 15; 172; 4; 1; 0; 0; 15; 172; 2; 0; 0; 1; 0].

(** C38: An RSNE that ends right after a PMKID count of 1 makes the check of the PMKID
    read through a NULL pointer: one unauthenticated authentication response stops the daemon. *)
Theorem ft_rx_authenticate_null_pmkids {EC : Ell} E s dur sc :
  let hs := ft_hs s in
  let f := ft_auth_response hs dur sc (tlv_encode (IE_TYPE_RSN, null_pmkids_rsne)) in
  zlen dur = 2 → zlen sc = 2 → zlen (hs_spa hs) = 6 → zlen (hs_aa hs) = 6 → is_Some (hs_supplicant_ie hs) →
  ft_rx_authenticate E f (zlen f) s = Fault.
Proof.
  intros hs f Hdur Hsc Hspa Haa [ie Hie]. unfold ft_rx_authenticate. erewrite sr_bind_ok by done. cbv zeta.
  erewrite run_bind_ok by by apply ft_auth_response_parsed. cbv iota. cbn [Z.eqb negb].
  assert (Hp : ft_process_ies E (ft_hs s) (Some ([0; 0] ++ tlv_encode (IE_TYPE_RSN, null_pmkids_rsne)))
            (2 + zlen (tlv_encode (IE_TYPE_RSN, null_pmkids_rsne))) = Fault).
  { unfold ft_process_ies, ft_parse_ies.
    assert (Hl : tlv_loop ft_elements_step ([0; 0] ++ tlv_encode (IE_TYPE_RSN, null_pmkids_rsne))
               (u32 (2 + zlen (tlv_encode (IE_TYPE_RSN, null_pmkids_rsne)))) (Some no_ies) =
             Ok (Some (mk_ft_ies (Some (tlv_encode (IE_TYPE_RSN, null_pmkids_rsne))) None None))) by reflexivity.
    rewrite Hl, bind_ok. fold hs. rewrite Hie. reflexivity. }
  cbn [fmap option_fmap option_map fst from_option snd]. by rewrite Hp.
Qed.
