(* ===== verification/FtTest.v ===== *)
(** * Fast BSS transition: a concrete exchange

    The theorems on the FT protocol at a transition to an AP that advertises CCMP and FT-PSK. *)

From stdpp Require Import base numbers list option.
From Stdlib Require Import ZArith Lia.
From S2P Require Import Prelude IeTlv IeRsn IeMisc Crypto Handshake Mpdu StRes Ft FtSpec FtRun.

Open Scope Z_scope.

#[local] Existing Instance toy_ell.
#[local] Existing Instance toy_ell_laws.

Local Ltac by_vm := match goal with |- _ = ?r => vm_cast_no_check (@eq_refl _ r) end.

Definition ft_test_info : ie_rsn_info :=
  mk_rsn_info IE_RSN_CIPHER_SUITE_CCMP IE_RSN_CIPHER_SUITE_CCMP IE_RSN_AKM_SUITE_FT_USING_PSK false false 0 0
    false false false false false false false 0 None 0.

Lemma ft_test_canon : rsn_info_canon false 0x3ffff ft_test_info.
Proof. split; by_eval. Qed.

Definition ft_test_env : ft_env := {|
  ft_hooks := mk_hooks true true true true true true true;
  ft_tx_assoc_ret := 0;
  ft_junk _ := 0xaa;
  ft_junk_mdid := 0;
  ft_junk_info := ft_test_info;
|}.

Definition ft_test_mde : list Z := [0x12; 0x34; 1].

(** The handshake before the transition: a PMK, the SSID, and the identity of the R0 key
    holder. *)
Definition ft_test_hs : handshake_state :=
  hs_zero <| hs_spa := replicate 6 2 |> <| hs_aa := replicate 6 4 |>
    <| hs_akm_suite := IE_RSN_AKM_SUITE_FT_USING_PSK |> <| hs_pairwise_cipher := IE_RSN_CIPHER_SUITE_CCMP |>
    <| hs_pmk := replicate 64 7 |> <| hs_pmk_len := 32 |> <| hs_have_pmk := true |>
    <| hs_ssid := replicate 4 65 ++ zeros 28 |> <| hs_ssid_len := 4 |>
    <| hs_snonce := replicate 32 9 |> <| hs_have_snonce := true |>
    <| hs_mde := Some (tlv_encode (IE_TYPE_MOBILITY_DOMAIN, ft_test_mde)) |>
    <| hs_fte := Some [55; 0] |>
    <| hs_r0khid := [1; 2; 3] ++ zeros 45 |> <| hs_r0khid_len := 3 |>
    <| hs_pmk_r0_name := replicate 16 11 |>
    <| hs_supplicant_ie := Some (tlv_encode (rsne_elem ft_test_info)) |>
    <| hs_authenticator_ie := Some (tlv_encode (rsne_elem ft_test_info)) |>.

Definition ft_test_s : ft_sm := ft_over_air_sm_new ft_test_hs.

Lemma ft_test_ready : ft_ready ft_test_hs ft_test_info ft_test_mde.
Proof.
  split; try by_eval.
  - exists []. done.
  - apply ft_test_canon.
  - eexists. split; [done |]. by vm_compute.
Qed.

(** ** The first message *)

Lemma ft_start_request_witness :
  let hs := ft_hs ft_test_s in
  ft_start ft_test_env ft_test_s = Ok (true,
    ft_test_s <| ft_out := ft_out ft_test_s ++ [FtTxAuthenticate (tlv_encode_all
      [rsne_elem (with_pmkid (hs_pmk_r0_name hs) ft_test_info); (IE_TYPE_MOBILITY_DOMAIN, ft_test_mde);
       fte_elem (handshake_state_get_kck_len hs) (request_info hs 0 [] (zeros 32) (hs_snonce hs) None)])] |>).
Proof. exact (ft_start_request ft_test_env ft_test_s ft_test_info ft_test_mde ft_test_ready eq_refl). Defined.

(** ** The second message *)

(** The FTE of the AP: the ANonce and the identity of the R1 key holder. *)
Definition ft_test_fte2 : ie_ft_info :=
  request_info ft_test_hs 0 [] (replicate 32 13) (replicate 32 9) (Some (replicate 6 17)).

Definition ft_test_elements2 : list elem :=
  [rsne_elem (with_pmkid (hs_pmk_r0_name ft_test_hs) ft_test_info); (IE_TYPE_MOBILITY_DOMAIN, ft_test_mde);
   fte_elem 16 ft_test_fte2].

Definition ft_test_hs2 : handshake_state :=
  Eval vm_compute in
    match handshake_state_derive_ptk 0
            (ft_test_hs <| hs_fte := Some (tlv_encode (fte_elem 16 ft_test_fte2)) |>
               <| hs_anonce := replicate 32 13 |> <| hs_r1khid := replicate 6 17 |>) with
    | Ok (hs, true) => hs | _ => hs_zero end.

Lemma ft_test_ies2 : elements_of (tlv_encode_all ft_test_elements2) ft_test_elements2 [].
Proof.
  rewrite <- (app_nil_r (tlv_encode_all _)). apply elements_of_encode; [by_eval |]. apply stops_no_elem. by left.
Qed.

Lemma ft_test_agrees : fte_agrees ft_test_hs ft_test_fte2.
Proof. split; by_eval. Qed.

Lemma ft_test_fte2_canon : ft_canon 16 ft_test_fte2.
Proof. apply request_info_canon; [by_eval .. | by intros r [= <-]]. Qed.

Lemma ft_rx_authenticate_accepts_witness :
  let f := ft_auth_response ft_test_hs [0; 0] [16; 0] (tlv_encode_all ft_test_elements2) in
  ft_rx_authenticate ft_test_env f (zlen f) ft_test_s = ft_tx_reassociate ft_test_env (ft_test_s <| ft_hs := ft_test_hs2 |>).
Proof.
  eapply (ft_rx_authenticate_accepts ft_test_env ft_test_s [0; 0] [16; 0] _ [] ft_test_elements2)
    with (adv := ft_test_info) (afa := []) (mde := ft_test_mde) (info := ft_test_fte2) (b := true);
    [done | done | done | done | apply ft_test_ies2 | by_eval | by_eval | by_vm | by_vm | by_vm | done | done
    | apply ft_test_canon | by_eval | by_eval | done | eexists _, _; split; [done | by vm_compute]
    | apply ft_test_fte2_canon | apply ft_test_agrees | done | done | done | by_vm].
Defined.

Lemma ft_rx_authenticate_ignores_errors_witness :
  let f := ft_auth_response ft_test_hs [0; 0] [16; 0] [] in
  ft_rx_authenticate ft_test_env f (zlen f) ft_test_s = Ok (0, ft_test_s).
Proof.
  eapply (ft_rx_authenticate_ignores_errors ft_test_env ft_test_s [0; 0] [16; 0] [] [] []);
    [done | done | done | done | apply (elements_of_encode [] []); [constructor | apply stops_no_elem; by left]
    | by_eval | by_eval | done | intros tag _; cbn; lia | done].
Defined.

Lemma ft_rx_authenticate_null_pmkids_witness :
  let f := ft_auth_response ft_test_hs [0; 0] [16; 0] (tlv_encode (IE_TYPE_RSN, null_pmkids_rsne)) in
  ft_rx_authenticate ft_test_env f (zlen f) ft_test_s = Fault.
Proof. by apply (ft_rx_authenticate_null_pmkids ft_test_env ft_test_s). Defined.

Lemma mde_equal_any_witness : mde_equal (Some [54; 3; 1; 2; 3]) (Some [54; 3; 4; 5; 6]) = Ok true.
Proof. by eapply mde_equal_any. Defined.

(** ** The third message *)

Definition ft_test_s2 : ft_sm := mk_ft ft_test_hs2 [].

Lemma ft_test_ready2 : ft_ready ft_test_hs2 ft_test_info ft_test_mde.
Proof.
  split; try by_eval.
  - exists []. by_vm.
  - apply ft_test_canon.
  - eexists. split; [done |]. by vm_compute.
Qed.

Lemma ft_test_mac hs msg : is_Some (ft_mac hs msg).
Proof. unfold ft_mac. destruct (kck_len_cases hs) as [-> | ->]; done. Qed.

Lemma ft_reassociation_request_witness :
  let hs := ft_hs ft_test_s2 in
  let n := handshake_state_get_kck_len hs in
  let rsne := with_pmkid (hs_pmk_r1_name hs) ft_test_info in
  ∃ mic,
    let fte := ft_body (request_info hs 3 mic (hs_anonce hs) (hs_snonce hs) (Some (hs_r1khid hs))) n in
    ft_mac hs (mic_input hs 5 (rsne_body rsne) ft_test_mde fte) = Some mic ∧ fte_mic n fte = mic ∧
    ft_tx_reassociate ft_test_env ft_test_s2 = Ok (ft_tx_assoc_ret ft_test_env,
      ft_test_s2 <| ft_out := ft_out ft_test_s2 ++ [FtTxAssociate (tlv_encode <$>
        [rsne_elem rsne; (IE_TYPE_MOBILITY_DOMAIN, ft_test_mde); (IE_TYPE_FAST_BSS_TRANSITION, fte)])] |>).
Proof.
  apply (ft_reassociation_request ft_test_env ft_test_s2 ft_test_info ft_test_mde);
    [apply ft_test_ready2 | by_eval | apply ft_test_mac].
Defined.

(** ** The fourth message *)

Definition ft_test_rsne4 : list Z := Eval vm_compute in rsne_body (with_pmkid (hs_pmk_r1_name ft_test_hs2) ft_test_info).

Definition ft_test_fte4 (mic : list Z) : ie_ft_info :=
  request_info ft_test_hs2 3 mic (replicate 32 13) (replicate 32 9) (Some (replicate 6 17)).

Definition ft_test_mic4 : list Z := Eval vm_compute in
  default [] (ft_mac ft_test_hs2 (mic_input ft_test_hs2 6 ft_test_rsne4 ft_test_mde (ft_body (ft_test_fte4 []) 16))).

Lemma ft_test_fte4_canon : ft_canon (handshake_state_get_kck_len ft_test_hs2) (ft_test_fte4 ft_test_mic4).
Proof.
  unfold ft_test_fte4. apply request_info_canon; [by_eval .. |]. intros r Hr. by injection Hr as <-.
Qed.

Definition ft_test_elements4 : list elem :=
  [(IE_TYPE_RSN, ft_test_rsne4); (IE_TYPE_MOBILITY_DOMAIN, ft_test_mde); fte_elem 16 (ft_test_fte4 ft_test_mic4)].

(** A reassociation response with status 0. *)
Definition ft_test_response4 : list Z :=
  Eval vm_compute in [0x30; 0] ++ replicate 22 4 ++ [1; 0; 0; 0; 1; 0] ++ tlv_encode_all ft_test_elements4.

Lemma ft_test_response4_elements : response_elements ft_test_response4 ft_test_elements4.
Proof.
  exists 24, []. split; [by vm_compute |].
  assert (ft_test_response4 +! (24 + 6) = tlv_encode_all ft_test_elements4 ++ []) as -> by by vm_compute.
  apply elements_of_encode; [by_eval |]. apply stops_no_elem. by left.
Qed.

Lemma ft_rx_associate_accepts_witness :
  ft_rx_associate ft_test_env ft_test_response4 (zlen ft_test_response4) ft_test_s2 = Ok (0, ptk_installed ft_test_env ft_test_s2).
Proof.
  eapply (ft_rx_associate_accepts ft_test_env ft_test_s2 ft_test_response4 ft_test_elements4 ft_test_info [] ft_test_mde
            (ft_test_fte4 ft_test_mic4) (tlv_encode (IE_TYPE_MOBILITY_DOMAIN, ft_test_mde)));
    [by_eval | by_eval | by right | by_vm | apply ft_test_response4_elements | by_vm | by_vm | by_vm | by_eval
    | by_vm | apply ft_test_canon | by_eval | by_eval | by_vm | by_vm | by_vm | | split; by_eval | by_vm | by_vm | by_vm
    | by_eval | by_vm].
  apply ft_test_fte4_canon.
Defined.

Lemma ft_keys_authentic_witness :
  (0 = BADMSG ∧ ptk_installed ft_test_env ft_test_s2 = ft_test_s2) ∨
  ∃ es, response_elements ft_test_response4 es ∧ ft_response_authentic (ft_hs ft_test_s2) es.
Proof.
  apply (ft_keys_authentic ft_test_env ft_test_s2 ft_test_response4);
    [by_eval | by_eval | by right | split; [by_vm | by_vm | by_vm |] | by_eval | by_eval | by_vm].
  intros p Hp. assert (p = tlv_encode (IE_TYPE_MOBILITY_DOMAIN, ft_test_mde)) as -> by (by injection Hp as <-). by_eval.
Defined.
