(* ===== verification/Eap.v ===== *)
(** * The Extensible Authentication Protocol (src/eap.c)

    The state of one EAP conversation, as a peer or as an authenticator, and its operations over
    the methods, which are given by their static data and their callbacks.  The object is freed by
    [eap_free], which the owner may call from its completion callback: every later access is a
    fault. *)

From stdpp Require Import base numbers list option.
From Stdlib Require Import ZArith Lia Ascii String.
From S2P Require Import Prelude StRes.

Open Scope Z_scope.

(** ** Data *)

Definition EAP_TYPE_IDENTITY : Z := 1.
Definition EAP_TYPE_NOTIFICATION : Z := 2.
Definition EAP_TYPE_NAK : Z := 3.
Definition __EAP_TYPE_MIN_METHOD : Z := 4.
Definition EAP_TYPE_MD5_CHALLENGE : Z := 4.
Definition EAP_TYPE_GTC : Z := 6.
Definition EAP_TYPE_MSCHAPV2 : Z := 26.
Definition EAP_TYPE_EXPANDED : Z := 254.

Definition EAP_CODE_REQUEST : Z := 1.
Definition EAP_CODE_RESPONSE : Z := 2.
Definition EAP_CODE_SUCCESS : Z := 3.
Definition EAP_CODE_FAILURE : Z := 4.

Inductive eap_result : Type := EAP_RESULT_SUCCESS | EAP_RESULT_FAIL | EAP_RESULT_TIMEOUT.

#[export] Instance eap_result_eq_dec : EqDecision eap_result.
Proof. solve_decision. Defined.

Inductive eap_secret_type : Type :=
  | EAP_SECRET_LOCAL_PKEY_PASSPHRASE | EAP_SECRET_REMOTE_PASSWORD | EAP_SECRET_REMOTE_USER_PASSWORD.
Inductive eap_secret_cache_policy : Type := EAP_CACHE_NEVER | EAP_CACHE_TEMPORARY.

(** [struct eap_secret_info]; the value is set by the agent. *)
Record eap_secret_info : Type := mk_secret {
  sec_id : string;
  sec_id2 : option string;
  sec_type : eap_secret_type;
  sec_parameter : option (list Z);
  sec_value : option (list Z);
  sec_cache_policy : eap_secret_cache_policy;
}.

(** A settings object of ell: its accessors for the group [Security].  Strings are without their
    final NUL. *)
Record l_settings : Type := mk_settings {
  l_settings_get_value : string → option string;
  l_settings_get_string : string → option (list Z);
  l_settings_get_bytes : string → option (list Z);
}.

(** [snprintf(setting, n, "%s...", prefix)] *)
Definition setting_key (n : nat) (prefix name : string) : string := substring 0 (n - 1) (prefix ++ name).

Definition lower (c : ascii) : ascii :=
  let n := nat_of_ascii c in if (65 <=? n)%nat && (n <=? 90)%nat then ascii_of_nat (n + 32) else c.
Fixpoint strcasecmp_eq (a b : string) : bool :=
  match a, b with
  | EmptyString, EmptyString => true
  | String c a, String d b => Ascii.eqb (lower c) (lower d) && strcasecmp_eq a b
  | _, _ => false
  end.

(** The static part of [struct eap_method]. *)
Record eap_method : Type := mk_method {
  request_type : Z;
  vendor_id : list Z;
  vendor_type : Z;
  exports_msk : bool;
  m_name : string;
}.

(** The calls of [tx_packet], [complete], [set_key_material] and [event_func]. *)
Inductive eap_effect : Type :=
  | EapTx (pkt : list Z)
  | EapComplete (result : eap_result)
  | EapKeyMaterial (msk : list Z) (emsk iv session_id : option (list Z))
  | EapEvent (event : Z).

(** [struct eap_state] over the states of the methods; [eap_has_km] and [eap_has_event] tell
    whether the callback is set, and [eap_freed] whether the object is gone.  [identity_setting]
    only occurs in messages of the log. *)
Record eap_state (MS : Type) : Type := mk_eap {
  eap_has_km : bool;
  eap_has_event : bool;
  eap_mtu : Z;
  eap_meth : option eap_method;
  eap_identity : option (list Z);
  eap_authenticator : bool;
  eap_last_id : Z;
  eap_method_state : option MS;
  eap_msuccess : bool;
  eap_timer : bool;
  eap_identity_req_count : Z;
  eap_method_req_count : Z;
  eap_discard : bool;
  eap_out : list eap_effect;
  eap_freed : bool;
}.
Arguments mk_eap {MS}.
Arguments eap_has_km {MS}.
Arguments eap_has_event {MS}.
Arguments eap_mtu {MS}.
Arguments eap_meth {MS}.
Arguments eap_identity {MS}.
Arguments eap_authenticator {MS}.
Arguments eap_last_id {MS}.
Arguments eap_method_state {MS}.
Arguments eap_msuccess {MS}.
Arguments eap_timer {MS}.
Arguments eap_identity_req_count {MS}.
Arguments eap_method_req_count {MS}.
Arguments eap_discard {MS}.
Arguments eap_out {MS}.
Arguments eap_freed {MS}.

#[export] Instance eap_eta {MS} : Eta (eap_state MS) := λ s,
  mk_eap (eap_has_km s) (eap_has_event s) (eap_mtu s) (eap_meth s) (eap_identity s)
    (eap_authenticator s) (eap_last_id s) (eap_method_state s) (eap_msuccess s)
    (eap_timer s) (eap_identity_req_count s) (eap_method_req_count s) (eap_discard s) (eap_out s) (eap_freed s).

#[export] Instance set_eap_has_km {MS} : SetterOf (@eap_has_km MS).
Proof. derive_setter. Defined.
#[export] Instance set_eap_has_event {MS} : SetterOf (@eap_has_event MS).
Proof. derive_setter. Defined.
#[export] Instance set_eap_mtu_ {MS} : SetterOf (@eap_mtu MS).
Proof. derive_setter. Defined.
#[export] Instance set_eap_meth {MS} : SetterOf (@eap_meth MS).
Proof. derive_setter. Defined.
#[export] Instance set_eap_identity {MS} : SetterOf (@eap_identity MS).
Proof. derive_setter. Defined.
#[export] Instance set_eap_authenticator {MS} : SetterOf (@eap_authenticator MS).
Proof. derive_setter. Defined.
#[export] Instance set_eap_last_id {MS} : SetterOf (@eap_last_id MS).
Proof. derive_setter. Defined.
#[export] Instance set_eap_method_state {MS} : SetterOf (@eap_method_state MS).
Proof. derive_setter. Defined.
#[export] Instance set_eap_msuccess {MS} : SetterOf (@eap_msuccess MS).
Proof. derive_setter. Defined.
#[export] Instance set_eap_timer {MS} : SetterOf (@eap_timer MS).
Proof. derive_setter. Defined.
#[export] Instance set_eap_identity_req_count {MS} : SetterOf (@eap_identity_req_count MS).
Proof. derive_setter. Defined.
#[export] Instance set_eap_method_req_count {MS} : SetterOf (@eap_method_req_count MS).
Proof. derive_setter. Defined.
#[export] Instance set_eap_discard {MS} : SetterOf (@eap_discard MS).
Proof. derive_setter. Defined.
#[export] Instance set_eap_out {MS} : SetterOf (@eap_out MS).
Proof. derive_setter. Defined.
#[export] Instance set_eap_freed {MS} : SetterOf (@eap_freed MS).
Proof. derive_setter. Defined.

(** The callbacks of [struct eap_method]; [None] is NULL. *)
Record eap_ops (MS : Type) : Type := mk_ops {
  op_check_settings : option (l_settings → list eap_secret_info → string → list eap_secret_info → res (Z * list eap_secret_info));
  op_load_settings : option (l_settings → string → sr (eap_state MS) bool);
  op_reset_state : option (sr (eap_state MS) bool);
  op_free : option (sr (eap_state MS) unit);
  op_handle_request : option (ptr → Z → sr (eap_state MS) unit);
  op_handle_retransmit : option (ptr → Z → sr (eap_state MS) unit);
  op_get_identity : option (sr (eap_state MS) (option (list Z)));
  op_validate_identity : option (list Z → sr (eap_state MS) bool);
  op_handle_response : option (ptr → Z → sr (eap_state MS) unit);
}.
Arguments mk_ops {MS}.
Arguments op_check_settings {MS}.
Arguments op_load_settings {MS}.
Arguments op_reset_state {MS}.
Arguments op_free {MS}.
Arguments op_handle_request {MS}.
Arguments op_handle_retransmit {MS}.
Arguments op_get_identity {MS}.
Arguments op_validate_identity {MS}.
Arguments op_handle_response {MS}.

(** ** Secrets *)

Definition eap_secret_info_match (a : eap_secret_info) (b : string) : bool := String.eqb (sec_id a) b.

Definition eap_append_secret (out_missing : list eap_secret_info) (type : eap_secret_type) (id : string)
    (id2 : option string) (parameter : option (list Z)) (cache_policy : eap_secret_cache_policy)
    : list eap_secret_info :=
  out_missing ++ [mk_secret id id2 type parameter None cache_policy].

Definition l_queue_find (secrets : list eap_secret_info) (key : string) : option eap_secret_info :=
  find (λ s, eap_secret_info_match s key) secrets.

Definition ENOENT_ret : Z := -2.
Definition ENOTSUP_ret : Z := -95.
Definition EPERM_ret : Z := -1.

Section eap.
Context {MS : Type}.
Abbreviation eap_state := (eap_state MS).
(** The callbacks of each method, what the completion callback of the owner does to the object,
    and the contents of uninitialised memory. *)
Variable ops : eap_method → eap_ops MS.
Variable on_complete : eap_result → sr eap_state unit.
Variable junk : nat → Z.

(** ** Access to the object *)

Definition get_eap : sr eap_state eap_state :=
  s ← get;
  if eap_freed s then run Fault else mret s.
Definition mod_eap (f : eap_state → eap_state) : sr eap_state unit :=
  get_eap;; modify f.
Definition eap_emit (e : eap_effect) : sr eap_state unit :=
  mod_eap (λ s, s <| eap_out := eap_out s ++ [e] |>).

Definition eap_new (default_mtu : Z) : eap_state :=
  mk_eap false false default_mtu None None false (-1) None false false 0 0 false [] false.

Definition eap_set_key_material_func (b : bool) : sr eap_state unit := mod_eap (λ s, s <| eap_has_km := b |>).
Definition eap_set_event_func (b : bool) : sr eap_state unit := mod_eap (λ s, s <| eap_has_event := b |>).
Definition eap_set_mtu (mtu : Z) : sr eap_state unit := mod_eap (λ s, s <| eap_mtu := mtu |>).
Definition eap_get_mtu : sr eap_state Z := s ← get_eap; mret (eap_mtu s).
Definition eap_get_identity : sr eap_state (option (list Z)) := s ← get_eap; mret (eap_identity s).
Definition eap_set_data (d : option MS) : sr eap_state unit := mod_eap (λ s, s <| eap_method_state := d |>).
Definition eap_get_data : sr eap_state (option MS) := s ← get_eap; mret (eap_method_state s).
Definition eap_method_is_success : sr eap_state bool := s ← get_eap; mret (eap_msuccess s).
Definition eap_discard_success_and_failure (discard : bool) : sr eap_state unit :=
  mod_eap (λ s, s <| eap_discard := discard |>).
Definition eap_save_last_id : sr eap_state Z := s ← get_eap; mret (u8 (eap_last_id s)).
Definition eap_restore_last_id (last_id : Z) : sr eap_state unit := mod_eap (λ s, s <| eap_last_id := last_id |>).
Definition eap_get_method_type : sr eap_state Z :=
  s ← get_eap; m ← run (nonnull (eap_meth s)); mret (request_type m).
Definition eap_get_method_name : sr eap_state string :=
  s ← get_eap; m ← run (nonnull (eap_meth s)); mret (m_name m).

(** ** The life of the object *)

Definition eap_reset : sr eap_state bool :=
  s ← get_eap;
  ok ← match eap_method_state s with
       | None => mret true
       | Some _ =>
           m ← run (nonnull (eap_meth s));
           match op_reset_state (ops m) with Some f => f | None => mret true end
       end;
  if negb ok then mret false
  else
    mod_eap (λ s, s <| eap_msuccess := false |> <| eap_timer := false |>);;
    mret true.

Definition eap_free_common : sr eap_state unit :=
  s ← get_eap;
  match eap_method_state s with
  | None => mret tt
  | Some _ =>
      m ← run (nonnull (eap_meth s));
      match op_free (ops m) with Some f => f | None => mret tt end
  end;;
  mod_eap (λ s, s <| eap_meth := None |> <| eap_identity := None |>).

Definition eap_free : sr eap_state unit :=
  eap_free_common;;
  mod_eap (λ s, s <| eap_timer := false |> <| eap_freed := true |>).

(** [eap->complete(result, eap->user_data)] *)
Definition eap_complete (result : eap_result) : sr eap_state unit :=
  eap_emit (EapComplete result);; on_complete result.

(** ** Sending *)

Definition be32_be (v : Z) : list Z := [u8 (v / 2 ^ 24); u8 (v / 2 ^ 16); u8 (v / 2 ^ 8); u8 v].

Definition eap_send_packet (code id : Z) (buf : list Z) (len : Z) : sr eap_state unit :=
  buf ← run (put1 buf 0 code);
  buf ← run (put1 buf 1 id);
  buf ← run (put buf 2 (be16_bytes len));
  pkt ← run (rdn buf len);
  eap_emit (EapTx pkt).

(** The type, and for an expanded type the vendor of the method. *)
Definition eap_put_type (s : eap_state) (type : Z) (buf : list Z) : res (list Z) :=
  buf ← put1 buf 4 type;
  if type =? EAP_TYPE_EXPANDED then
    m ← nonnull (eap_meth s);
    buf ← put buf 5 (vendor_id m);
    put buf 8 (be32_be (vendor_type m))
  else Ok buf.

Definition eap_send_response (type : Z) (buf : list Z) (len : Z) : sr eap_state unit :=
  s ← get_eap;
  buf ← run (eap_put_type s type buf);
  eap_send_packet EAP_CODE_RESPONSE (eap_last_id s) buf len.

Definition eap_method_respond (buf : list Z) (len : Z) : sr eap_state unit :=
  s ← get_eap;
  m ← run (nonnull (eap_meth s));
  eap_send_response (request_type m) buf len.

Definition eap_method_new_request (buf : list Z) (len : Z) : sr eap_state unit :=
  s ← get_eap;
  m ← run (nonnull (eap_meth s));
  buf ← run (eap_put_type s (request_type m) buf);
  mod_eap (λ s, s <| eap_last_id := eap_last_id s + 1 |>);;
  s ← get_eap;
  eap_send_packet EAP_CODE_REQUEST (eap_last_id s) buf len.

Definition eap_send_identity_response (identity : option (list Z)) : sr eap_state unit :=
  let identity := default [] identity in
  let len := zlen identity in
  buf ← run (put (l_malloc junk (5 + len)) 5 identity);
  eap_send_response EAP_TYPE_IDENTITY buf (len + 5).

(** ** Timeout, results *)

Definition eap_start_complete_timeout : sr eap_state unit := mod_eap (λ s, s <| eap_timer := true |>).

Definition eap_complete_timeout : sr eap_state unit :=
  mod_eap (λ s, s <| eap_timer := false |>);;
  s ← get_eap;
  eap_complete (if eap_msuccess s then EAP_RESULT_SUCCESS else EAP_RESULT_TIMEOUT).

Definition eap_set_key_material (msk : list Z) (emsk iv session_id : option (list Z)) : sr eap_state unit :=
  s ← get_eap;
  if eap_has_km s then eap_emit (EapKeyMaterial msk emsk iv session_id) else mret tt.

Definition eap_method_event (id : Z) : sr eap_state unit :=
  s ← get_eap;
  if eap_has_event s then eap_emit (EapEvent id) else mret tt.

(** The authenticator sends an EAP-Failure in both cases. *)
Definition eap_method_success : sr eap_state unit :=
  mod_eap (λ s, s <| eap_msuccess := true |>);;
  s ← get_eap;
  if eap_authenticator s then
    eap_send_packet EAP_CODE_FAILURE (eap_last_id s) (l_malloc junk 4) 4;;
    eap_complete EAP_RESULT_SUCCESS
  else mret tt.

Definition eap_method_error : sr eap_state unit :=
  s ← get_eap;
  (if eap_authenticator s then eap_send_packet EAP_CODE_FAILURE (eap_last_id s) (l_malloc junk 4) 4
   else mret tt);;
  eap_complete EAP_RESULT_FAIL.

(** ** The authenticator's first request *)

Definition eap_start : sr eap_state unit :=
  s ← get_eap;
  match eap_identity s with
  | Some _ => mret tt
  | None =>
      mod_eap (λ s, s <| eap_last_id := 1 |>);;
      buf ← run (put1 (l_malloc junk 5) 4 EAP_TYPE_IDENTITY);
      eap_send_packet EAP_CODE_REQUEST 1 buf 5
  end.

(** ** Requests *)

(** The legacy Nak. *)
Definition eap_send_nak : sr eap_state unit :=
  s ← get_eap;
  buf ← run (put1 (l_malloc junk 10) 5 (match eap_meth s with Some m => request_type m | None => 0 end));
  eap_send_response EAP_TYPE_NAK buf 6.

Definition eap_method_request (m : eap_method) (retransmit : bool) (type : Z) (pkt : ptr) (len : Z)
    : sr eap_state unit :=
  if negb (type =? request_type m) then eap_send_nak
  else
    op ← run (nonnull (match op_handle_retransmit (ops m) with
                       | Some f => if retransmit then Some f else op_handle_request (ops m)
                       | None => op_handle_request (ops m)
                       end));
    if negb (type =? EAP_TYPE_EXPANDED) then op (pkt +! 1) (len - 1)
    else if len <? 8 then mret tt
    else op (pkt +! 8) (len - 8).

Definition __eap_handle_request (id : Z) (pkt : ptr) (len : Z) : sr eap_state unit :=
  if len <? 1 then mret tt
  else
    type ← run (rd pkt 0);
    s ← get_eap;
    if (__EAP_TYPE_MIN_METHOD <=? type) && bool_decide (eap_meth s = None) then eap_send_nak
    else
      let retransmit := id =? eap_last_id s in
      mod_eap (λ s, s <| eap_last_id := id |>);;
      if __EAP_TYPE_MIN_METHOD <=? type then
        mod_eap (λ s, s <| eap_method_req_count := u32 (eap_method_req_count s + 1) |>);;
        m ← run (nonnull (eap_meth s));
        eap_method_request m retransmit type pkt len
      else if type =? EAP_TYPE_IDENTITY then
        mod_eap (λ s, s <| eap_identity_req_count := u32 (eap_identity_req_count s + 1) |>);;
        eap_send_identity_response (eap_identity s)
      else if type =? EAP_TYPE_NOTIFICATION then
        if len <? 2 then mret tt
        else eap_send_response EAP_TYPE_NOTIFICATION (l_malloc junk 10) 5
      else eap_send_nak.

(** ** Responses *)

(** The type of a response: the octet, and the vendor of an expanded one. *)
Record response_type : Type := mk_rtype { rt_type : Z; rt_vendor : option (Z * Z) }.

Definition is_expanded_response (t : response_type) (id ty : Z) : bool :=
  match rt_vendor t with Some (i, v) => (i =? id) && (v =? ty) | None => false end.
Definition response_is (t : response_type) (wanted : Z) : bool :=
  (rt_type t =? wanted) || is_expanded_response t 0 wanted.

Definition get_be24 (p : ptr) : res Z := a ← rd p 0; b ← rd p 1; c ← rd p 2; Ok (a * 2 ^ 16 + b * 2 ^ 8 + c).
Definition get_be32 (p : ptr) : res Z :=
  a ← rd p 0; b ← rd p 1; c ← rd p 2; d ← rd p 3; Ok (a * 2 ^ 24 + b * 2 ^ 16 + c * 2 ^ 8 + d).

(** The bytes up to the first NUL. *)
Fixpoint cstring (l : list Z) : list Z :=
  match l with
  | [] => []
  | c :: l => if c =? 0 then [] else c :: cstring l
  end.

(** The identity of the peer; the length is only looked at when the data has a NUL. *)
Definition eap_peer_identity (m : eap_method) (pkt : ptr) (len : Z) : sr eap_state unit :=
  d ← run (rdn pkt len);
  if (253 <? len) && bool_decide (0 ∈ d) then eap_method_error
  else
    mod_eap (λ s, s <| eap_identity := Some (cstring d) |>);;
    ok ← match op_validate_identity (ops m) with Some f => f (cstring d) | None => mret true end;
    if negb ok then eap_method_error else mret tt.

Definition eap_dispatch_response (m : eap_method) (t : response_type) (pkt : ptr) (len : Z) : sr eap_state unit :=
  if response_is t EAP_TYPE_NAK then eap_method_error
  else
    s ← get_eap;
    match eap_identity s with
    | None => if negb (response_is t EAP_TYPE_IDENTITY) then eap_method_error else eap_peer_identity m pkt len
    | Some _ =>
        our_vendor_id ← run (get_be24 (vendor_id m));
        if (if negb (request_type m =? EAP_TYPE_EXPANDED) then response_is t (request_type m)
            else is_expanded_response t our_vendor_id (vendor_type m))
        then op ← run (nonnull (op_handle_response (ops m))); op pkt len
        else eap_method_error
    end.

Definition eap_handle_response (pkt : ptr) (len : Z) : sr eap_state unit :=
  s ← get_eap;
  m ← run (nonnull (eap_meth s));
  if len <? 1 then mret tt
  else
    type ← run (rd pkt 0);
    let pkt := pkt +! 1 in
    let len := len - 1 in
    if negb (type =? EAP_TYPE_EXPANDED) then eap_dispatch_response m (mk_rtype type None) pkt len
    else if len <? 7 then mret tt
    else
      v_id ← run (get_be24 pkt);
      v_type ← run (get_be32 (pkt +! 3));
      if (v_id =? 0) && (v_type =? EAP_TYPE_NAK) && negb (request_type m =? EAP_TYPE_EXPANDED) then mret tt
      else eap_dispatch_response m (mk_rtype type (Some (v_id, v_type))) (pkt +! 7) (len - 7).

(** ** Packets *)

Definition eap_rx_result (success : bool) (id eap_len : Z) : sr eap_state unit :=
  s ← get_eap;
  if eap_authenticator s then mret tt
  else if eap_discard s then mret tt
  else
    mod_eap (λ s, s <| eap_timer := false |>);;
    if negb (id =? eap_last_id s) && negb (id =? eap_last_id s + 1) then mret tt
    else if negb (eap_len =? 4) then mret tt
    else if success && negb (eap_msuccess s) then mret tt
    else if negb success && eap_msuccess s then mret tt
    else eap_complete (if success then EAP_RESULT_SUCCESS else EAP_RESULT_FAIL).

Definition eap_rx_packet (pkt : ptr) (len : Z) : sr eap_state unit :=
  if len <? 4 then mret tt
  else
    eap_len ← run (l_get_be16 (pkt +! 2));
    if (eap_len <? 4) || (len <? eap_len) then mret tt
    else
      code ← run (rd pkt 0);
      id ← run (rd pkt 1);
      s ← get_eap;
      if code =? EAP_CODE_REQUEST then
        if eap_authenticator s then mret tt
        else __eap_handle_request id (pkt +! 4) (eap_len - 4)
      else if code =? EAP_CODE_RESPONSE then
        if negb (eap_authenticator s) || negb (id =? eap_last_id s) || bool_decide (eap_meth s = None) then mret tt
        else eap_handle_response (pkt +! 4) (eap_len - 4)
      else if code =? EAP_CODE_SUCCESS then eap_rx_result true id eap_len
      else if code =? EAP_CODE_FAILURE then eap_rx_result false id eap_len
      else mret tt.

(** ** Methods and settings *)

(** The registered methods, and the integer returned. *)
Definition eap_register_method (eap_methods : list eap_method) (m : eap_method) : Z * list eap_method :=
  if bool_decide (op_handle_request (ops m) = None) && bool_decide (op_handle_response (ops m) = None)
  then (EPERM_ret, eap_methods) else (0, m :: eap_methods).

Definition eap_find_method (eap_methods : list eap_method) (name : string) : option eap_method :=
  find (λ m, strcasecmp_eq name (m_name m)) eap_methods.

(** The integer returned and the queue of missing secrets. *)
Definition __eap_check_settings (eap_methods : list eap_method) (settings : l_settings)
    (secrets : list eap_secret_info) (prefix : string) (set_key_material : bool)
    (missing : list eap_secret_info) : res (Z * list eap_secret_info) :=
  match l_settings_get_value settings (setting_key 64 prefix "Method") with
  | None => Ok (ENOENT_ret, missing)
  | Some method_name =>
      match eap_find_method eap_methods method_name with
      | None => Ok (ENOTSUP_ret, missing)
      | Some m =>
          if set_key_material && negb (exports_msk m) then Ok (ENOTSUP_ret, missing)
          else match op_check_settings (ops m) with
               | None => Ok (0, missing)
               | Some f => '(ret, missing) ← f settings secrets prefix missing;
                           Ok (if ret <? 0 then ret else 0, missing)
               end
      end
  end.

(** The missing secrets are handed over on success only. *)
Definition eap_check_settings (eap_methods : list eap_method) (settings : l_settings)
    (secrets : list eap_secret_info) (prefix : string) (set_key_material : bool)
    : res (Z * option (list eap_secret_info)) :=
  '(ret, missing) ← __eap_check_settings eap_methods settings secrets prefix set_key_material [];
  Ok (if ret <? 0 then (ret, None) else (0, Some missing)).

Definition eap_load_settings (eap_methods : list eap_method) (settings : l_settings) (prefix : string)
    : sr eap_state bool :=
  match l_settings_get_value settings (setting_key 64 prefix "Method") with
  | None => mret false
  | Some method_name =>
      match eap_find_method eap_methods method_name with
      | Some m => mod_eap (λ s, s <| eap_meth := Some m |>)
      | None => mret tt
      end;;
      s ← get_eap;
      match eap_meth s with
      | None => mret false
      | Some m =>
          loaded ← (if eap_has_km s && negb (exports_msk m) then mret false
                    else match op_load_settings (ops m) with Some f => f settings prefix | None => mret true end);
          if negb loaded then eap_free_common;; mret false
          else
            let auth := bool_decide (op_handle_request (ops m) = None) in
            mod_eap (λ s, s <| eap_authenticator := auth |>);;
            if auth then mret true
            else
              identity ← match op_get_identity (ops m) with
                         | None => mret (l_settings_get_string settings (setting_key 64 prefix "Identity"))
                         | Some f => f
                         end;
              mod_eap (λ s, s <| eap_identity := identity |>);;
              s ← get_eap;
              match identity with
              | None => mret true
              | Some id =>
                  if (253 <? zlen id) || (u64 (eap_mtu s - 5) <? zlen id) then eap_free_common;; mret false
                  else mret true
              end
      end
  end.
End eap.

(** The default MTU after [__eap_set_config] and [eap_init]; [configured] is the setting of the
    configuration file. *)
Definition __eap_set_config (configured : option Z) : Z := default 1400 configured.
Definition eap_init (default_mtu : Z) : Z := if default_mtu =? 0 then 1020 else default_mtu.
