(* ===== verification/EapSpec.v ===== *)
(** * EAP: what a conversation guarantees (src/eap.c)

    The contract between the framework and its methods is a class; the theorems on packets are
    proved against it, and EapRun.v shows that the modelled methods and the owner of the
    conversation satisfy it. *)

From stdpp Require Import base numbers list option relations.
From Stdlib Require Import ZArith Lia.
From S2P Require Import Prelude StRes Eap.

Open Scope Z_scope.

(** ** Packets *)

Definition is_tx (e : eap_effect) : bool := match e with EapTx _ => true | _ => false end.
Definition is_complete (e : eap_effect) : bool := match e with EapComplete _ => true | _ => false end.

(** A response to the request [id], of the length its header says. *)
Definition response_packet (id : Z) (p : list Z) : Prop :=
  5 ≤ zlen p ∧ ∃ data, p = [EAP_CODE_RESPONSE; id] ++ be16_bytes (zlen p) ++ data.

(** What the peer does with one request: at most one packet, which answers it, and no result. *)
Definition answers (id : Z) (l : list eap_effect) : Prop :=
  (length (filter is_tx l) ≤ 1)%nat ∧
  Forall (λ e, match e with EapTx p => response_packet id p | EapComplete _ => False | _ => True end) l.

Lemma answers_nil id : answers id [].
Proof. split; [cbn; lia | apply Forall_nil_2]. Qed.

Lemma answers_tx id p : response_packet id p → answers id [EapTx p].
Proof. intros Hp. split; [rewrite filter_cons_True by done; cbn; lia | by apply Forall_singleton]. Qed.

(** ** Peers *)

Section spec.
Context {MS : Type}.
Abbreviation eap_state := (eap_state MS).
Variable ops : eap_method → eap_ops MS.
Variable on_complete : eap_result → sr eap_state unit.
Variable junk : nat → Z.
(** The invariant of the state of a method. *)
Variable ms_ok : eap_method → MS → Prop.

Record eap_peer (s : eap_state) : Prop := {
  ep_alive : eap_freed s = false;
  ep_peer : eap_authenticator s = false;
  ep_last : -1 ≤ eap_last_id s < 256;
  ep_identity : zlen (default [] (eap_identity s)) ≤ 253;
  ep_method : match eap_meth s with
              | Some m => zlen (vendor_id m) = 3 ∧ 0 ≤ request_type m < 256 ∧ ∃ ms, eap_method_state s = Some ms ∧ ms_ok m ms
              | None => eap_method_state s = None
              end;
}.

(** A request has been dealt with: the conversation goes on, or it has failed and is gone. *)
Definition turn (id : Z) (s t : eap_state) : Prop :=
  ∃ l, answers id l ∧
    ((eap_out t = eap_out s ++ l ∧ eap_peer t ∧ eap_meth t = eap_meth s) ∨
     (eap_out t = eap_out s ++ l ++ [EapComplete EAP_RESULT_FAIL] ∧ eap_freed t = true)).

(** What the framework relies on: the methods deal with a request, and the owner of the
    conversation frees it when it has failed and keeps it when it has succeeded. *)
Class EapMethodsOk : Prop := {
  handle_request_ok m f s pkt len :
    op_handle_request (ops m) = Some f ∨ op_handle_retransmit (ops m) = Some f →
    eap_peer s → eap_meth s = Some m → 0 ≤ eap_last_id s → bytes_ok pkt →
    0 ≤ len ≤ zlen pkt → len < 2 ^ 16 →
    wp (f pkt len) (λ _, turn (eap_last_id s) s) s;
  handle_request_set m ms : ms_ok m ms → is_Some (op_handle_request (ops m));
}.
Class EapOwner : Prop := {
  complete_failed r s : r ≠ EAP_RESULT_SUCCESS → eap_peer s →
    wp (on_complete r) (λ _ t, eap_freed t = true ∧ eap_out t = eap_out s) s;
  complete_succeeded s : eap_peer s →
    wp (on_complete EAP_RESULT_SUCCESS) (λ _ t, eap_peer t ∧ eap_out t = eap_out s ∧ eap_meth t = eap_meth s) s;
}.

Lemma eap_peer_out s l : eap_peer s → eap_peer (s <| eap_out := l |>).
Proof. intros []. by split. Qed.
Lemma eap_peer_id s id : eap_peer s → 0 ≤ id < 256 → eap_peer (s <| eap_last_id := id |>).
Proof. intros [] ?. split; try done. cbn. lia. Qed.
Lemma eap_peer_timer s b : eap_peer s → eap_peer (s <| eap_timer := b |>).
Proof. intros []. by split. Qed.
Lemma eap_peer_success s b : eap_peer s → eap_peer (s <| eap_msuccess := b |>).
Proof. intros []. by split. Qed.
Lemma eap_peer_identity_count s n : eap_peer s → eap_peer (s <| eap_identity_req_count := n |>).
Proof. intros []. by split. Qed.
Lemma eap_peer_method_count s n : eap_peer s → eap_peer (s <| eap_method_req_count := n |>).
Proof. intros []. by split. Qed.

(** ** Steps *)

Lemma wp_get_eap (Q : eap_state → eap_state → Prop) s : eap_freed s = false → Q s s → wp get_eap Q s.
Proof. intros Hf HQ. unfold get_eap. sr_seq. rewrite Hf. by sr_seq. Qed.

Lemma wp_mod_eap f (Q : unit → eap_state → Prop) s : eap_freed s = false → Q tt (f s) → wp (mod_eap f) Q s.
Proof. intros Hf HQ. unfold mod_eap. sr_seq. apply wp_get_eap; [done |]. by sr_seq. Qed.

Lemma wp_eap_emit e (Q : unit → eap_state → Prop) s :
  eap_freed s = false → Q tt (s <| eap_out := eap_out s ++ [e] |>) → wp (eap_emit e) Q s.
Proof. intros Hf HQ. by apply wp_mod_eap. Qed.

(** The packet [eap_send_packet] makes of a buffer. *)
Definition packet_of (code id : Z) (buf : list Z) (len : Z) : list Z :=
  [u8 code; u8 id] ++ be16_bytes len ++ ptake (buf +! 4) (len - 4).

Lemma zlen_be16_bytes v : zlen (be16_bytes v) = 2.
Proof. done. Qed.

Lemma packet_of_length code id buf len : 4 ≤ len ≤ zlen buf → zlen (packet_of code id buf len) = len.
Proof.
  intros Hl. unfold packet_of. rewrite !zlen_app, zlen_be16_bytes, zlen_ptake by (rewrite zlen_padd; lia).
  change (zlen [u8 code; u8 id]) with 2. lia.
Qed.

Lemma wp_eap_send_packet code id buf len (Q : unit → eap_state → Prop) s :
  eap_freed s = false → 4 ≤ len ≤ zlen buf →
  Q tt (s <| eap_out := eap_out s ++ [EapTx (packet_of code id buf len)] |>) →
  wp (eap_send_packet code id buf len) Q s.
Proof.
  intros Hf Hl HQ. unfold eap_send_packet, put1.
  destruct buf as [|a [|b [|c [|d buf]]]]; try (rewrite ?zlen_cons, ?zlen_nil in Hl; pose proof (zlen_nonneg (@nil Z)); lia).
  sr_seq. eapply wp_run; [exact (put_head [a] (b :: c :: d :: buf) [u8 code] eq_refl) |]. sr_seq.
  eapply wp_run; [exact (put_mid [u8 code] [b] (c :: d :: buf) [u8 id] 1 eq_refl eq_refl) |]. sr_seq.
  eapply wp_run; [exact (put_mid [u8 code; u8 id] [c; d] buf (be16_bytes len) 2 eq_refl eq_refl) |]. sr_seq.
  change ((a :: b :: c :: d :: buf)) with ([a; b; c; d] ++ buf) in HQ.
  rewrite !zlen_cons in Hl. pose proof (zlen_nonneg buf).
  eapply wp_run; [apply rdn_ok; rewrite !zlen_app, zlen_be16_bytes; change (zlen [u8 code; u8 id]) with 2; lia |].
  apply wp_eap_emit; [done |].
  assert (Hp : ptake ([u8 code; u8 id] ++ be16_bytes len ++ buf) len = packet_of code id ([a; b; c; d] ++ buf) len).
  { unfold packet_of. rewrite (padd_app [a; b; c; d]) by done. rewrite ptake_app_ge by (change (zlen [u8 code; u8 id]) with 2; lia).
    change (zlen [u8 code; u8 id]) with 2. rewrite ptake_app_ge by (rewrite zlen_be16_bytes; lia). do 2 f_equal.
    rewrite zlen_be16_bytes. f_equal. lia. }
  rewrite Hp. exact HQ.
Qed.

(** A response of a type that is not an expanded one. *)
Definition response_of (id type : Z) (data : list Z) : list Z :=
  [EAP_CODE_RESPONSE; u8 id] ++ be16_bytes (5 + zlen data) ++ [u8 type] ++ data.

Lemma response_of_packet id type data : response_packet (u8 id) (response_of id type data).
Proof.
  assert (Hl : zlen (response_of id type data) = 5 + zlen data).
  { unfold response_of. rewrite !zlen_app, zlen_be16_bytes. change (zlen [EAP_CODE_RESPONSE; u8 id]) with 2.
    change (zlen [u8 type]) with 1. lia. }
  split; [rewrite Hl; pose proof (zlen_nonneg data); lia |]. exists ([u8 type] ++ data). by rewrite Hl.
Qed.

Lemma wp_eap_send_response type hdr data rest len (Q : unit → eap_state → Prop) s :
  eap_freed s = false → type ≠ EAP_TYPE_EXPANDED → zlen hdr = 5 → len = 5 + zlen data →
  Q tt (s <| eap_out := eap_out s ++ [EapTx (response_of (eap_last_id s) type data)] |>) →
  wp (eap_send_response type (hdr ++ data ++ rest) len) Q s.
Proof.
  intros Hf Ht Hh -> HQ. unfold eap_send_response. sr_seq. apply wp_get_eap; [done |]. sr_seq.
  destruct hdr as [|a [|b [|c [|d [|e [|]]]]]]; try (rewrite ?zlen_cons, ?zlen_nil in Hh; pose proof (zlen_nonneg (@nil Z)); lia);
    [| rewrite !zlen_cons in Hh; znn; lia].
  eapply wp_run.
  { unfold eap_put_type, put1. change ([a; b; c; d; e] ++ data ++ rest) with ([a; b; c; d] ++ [e] ++ data ++ rest).
    rewrite (put_mid [a; b; c; d] [e] (data ++ rest) [u8 type] 4 eq_refl eq_refl), bind_ok.
    destruct (Z.eqb_spec type EAP_TYPE_EXPANDED); done. }
  pose proof (zlen_nonneg data). pose proof (zlen_nonneg rest).
  apply wp_eap_send_packet; [done | rewrite !zlen_app; change (zlen [a; b; c; d]) with 4; change (zlen [u8 type]) with 1; lia |].
  assert (Hp : packet_of EAP_CODE_RESPONSE (eap_last_id s) ([a; b; c; d] ++ [u8 type] ++ data ++ rest) (5 + zlen data) =
               response_of (eap_last_id s) type data).
  { unfold packet_of, response_of. rewrite (padd_app [a; b; c; d]) by done. do 2 f_equal.
    rewrite app_assoc. apply ptake_app. rewrite zlen_app. change (zlen [u8 type]) with 1. lia. }
  rewrite Hp. exact HQ.
Qed.

Lemma wp_eap_send_nak (Q : unit → eap_state → Prop) s :
  eap_freed s = false →
  Q tt (s <| eap_out := eap_out s ++ [EapTx (response_of (eap_last_id s) EAP_TYPE_NAK
             [u8 (match eap_meth s with Some m => request_type m | None => 0 end)])] |>) →
  wp (eap_send_nak junk) Q s.
Proof.
  intros Hf HQ. unfold eap_send_nak. sr_seq. apply wp_get_eap; [done |]. sr_seq.
  set (t := match eap_meth s with Some m => request_type m | None => 0 end) in *.
  eapply wp_run.
  { unfold put1. assert (Hm : l_malloc junk 10 = l_malloc junk 5 ++ [junk 5%nat] ++ (junk <$> seq 6 4)) by reflexivity.
    rewrite Hm. apply put_mid; [by rewrite l_malloc_length | done]. }
  apply (wp_eap_send_response EAP_TYPE_NAK (l_malloc junk 5) [u8 t] (junk <$> seq 6 4));
    [done | done | by rewrite l_malloc_length | done | exact HQ].
Qed.

(** ** Requests *)

Lemma turn_quiet id s t : eap_peer t → eap_out t = eap_out s → eap_meth t = eap_meth s → turn id s t.
Proof. intros Ht Ho Hm. exists []. split; [apply answers_nil |]. left. by rewrite app_nil_r. Qed.

Lemma turn_reply id s t p :
  eap_peer t → eap_out t = eap_out s ++ [EapTx p] → response_packet id p → eap_meth t = eap_meth s → turn id s t.
Proof. intros Ht Ho Hp Hm. exists [EapTx p]. split; [by apply answers_tx |]. by left. Qed.

Lemma turn_from id s s' t : eap_out s' = eap_out s → eap_meth s' = eap_meth s → turn id s' t → turn id s t.
Proof. intros Ho Hm (l & Hl & Ht). exists l. split; [done |]. by rewrite <- Ho, <- Hm. Qed.

Lemma wp_reply type hdr data rest len id s :
  eap_peer s → eap_last_id s = id → 0 ≤ id < 256 → type ≠ EAP_TYPE_EXPANDED → zlen hdr = 5 → len = 5 + zlen data →
  wp (eap_send_response type (hdr ++ data ++ rest) len) (λ _, turn id s) s.
Proof.
  intros Hp Hi Hr Ht Hh Hl. apply wp_eap_send_response; [apply Hp | done.. |].
  eapply turn_reply; [by apply eap_peer_out | done | | done].
  rewrite Hi. pose proof (response_of_packet id type data) as Hrp. by rewrite u8_small in Hrp.
Qed.

Lemma eap_method_error_ok (O : EapOwner) s :
  eap_peer s →
  wp (eap_method_error on_complete junk)
     (λ _ t, eap_freed t = true ∧ eap_out t = eap_out s ++ [EapComplete EAP_RESULT_FAIL]) s.
Proof.
  intros Hp. unfold eap_method_error. sr_seq. apply wp_get_eap; [apply Hp |]. rewrite (ep_peer _ Hp). sr_seq.
  unfold eap_complete. sr_seq. apply wp_eap_emit; [apply Hp |].
  eapply wp_mono; [apply complete_failed; [done | by apply eap_peer_out] |]. intros [] t [Hf Ho]. by split.
Qed.

Lemma eap_send_identity_ok id identity s :
  eap_peer s → eap_last_id s = id → 0 ≤ id < 256 →
  wp (eap_send_identity_response junk identity) (λ _, turn id s) s.
Proof.
  intros Hp Hi Hr. unfold eap_send_identity_response. set (d := default [] identity).
  pose proof (zlen_nonneg d). sr_seq.
  eapply wp_run; [apply put_ok; [lia |]; rewrite l_malloc_length; lia |].
  assert (Hl : zlen (ptake (l_malloc junk (5 + zlen d)) 5) = 5) by (rewrite zlen_ptake; [done |]; rewrite l_malloc_length; lia).
  apply wp_reply; try done. lia.
Qed.

Lemma eap_method_request_ok (M : EapMethodsOk) m retransmit type pkt len s :
  eap_peer s → eap_meth s = Some m → 0 ≤ eap_last_id s → bytes_ok pkt → 1 ≤ len ≤ zlen pkt → len < 2 ^ 16 →
  wp (eap_method_request ops junk m retransmit type pkt len) (λ _, turn (eap_last_id s) s) s.
Proof.
  intros Hp Hm Hi Hok Hl Hmax. pose proof (ep_last _ Hp) as Hlast. unfold eap_method_request.
  destruct (Z.eqb_spec type (request_type m)); cbn [negb].
  2:{ apply wp_eap_send_nak; [apply Hp |]. eapply turn_reply; [by apply eap_peer_out | done | | done].
      rewrite Hm. pose proof (response_of_packet (eap_last_id s) EAP_TYPE_NAK [u8 (request_type m)]) as Hr.
      by rewrite u8_small in Hr by lia. }
  pose proof (ep_method _ Hp) as Hms. rewrite Hm in Hms. destruct Hms as (_ & _ & ms & _ & Hms).
  destruct (handle_request_set m ms Hms) as [f Hf].
  assert (Hop : ∃ op, (match op_handle_retransmit (ops m) with
                       | Some f => if retransmit then Some f else op_handle_request (ops m)
                       | None => op_handle_request (ops m)
                       end) = Some op ∧ (op_handle_request (ops m) = Some op ∨ op_handle_retransmit (ops m) = Some op)).
  { destruct (op_handle_retransmit (ops m)) as [g|]; [destruct retransmit |]; eauto. }
  destruct Hop as (op & Hop & Hwhich). sr_seq. eapply wp_run; [by rewrite Hop |].
  destruct (Z.eqb_spec type EAP_TYPE_EXPANDED); cbn [negb].
  - destruct (Z.ltb_spec len 8); [sr_seq; by apply turn_quiet |].
    apply (handle_request_ok m); [done.. | by auto with iwd | rewrite zlen_padd; lia | lia].
  - apply (handle_request_ok m); [done.. | by auto with iwd | rewrite zlen_padd; lia | lia].
Qed.

Lemma eap_handle_request_ok (M : EapMethodsOk) id pkt len s :
  eap_peer s → 0 ≤ id < 256 → bytes_ok pkt → 0 ≤ len ≤ zlen pkt → len < 2 ^ 16 →
  wp (__eap_handle_request ops junk id pkt len)
     (λ _ t, ∃ rid, turn rid s t ∧ (rid = id ∨ eap_meth s = None ∧ rid = u8 (eap_last_id s))) s.
Proof.
  intros Hp Hid Hok Hl Hmax. unfold __eap_handle_request.
  destruct (Z.ltb_spec len 1); [sr_seq; exists id; split; [by apply turn_quiet | by left] |].
  destruct (rd_in pkt 0) as (type & Htype & _); [lia |]. pose proof (rd_byte_ok _ _ _ Hok Htype) as Htb. unfold byte_ok in Htb.
  sr_seq. eapply wp_run; [exact Htype |]. sr_seq. apply wp_get_eap; [apply Hp |]. sr_seq.
  destruct (Z.leb_spec __EAP_TYPE_MIN_METHOD type) as [Hmin|Hmin]; cbn [andb].
  - destruct (eap_meth s) as [m|] eqn:Hmeth.
    + rewrite bool_decide_false by done. cbv zeta. sr_seq. apply wp_mod_eap; [apply Hp |]. sr_seq.
      apply wp_mod_eap; [apply Hp |]. sr_seq. eapply wp_run; [done |].
      set (s' := set_field eap_method_req_count _ _).
      assert (Hp' : eap_peer s') by (by apply eap_peer_method_count, eap_peer_id).
      eapply wp_mono; [apply (eap_method_request_ok M m (id =? eap_last_id s) type pkt len s');
        [exact Hp' | exact Hmeth | apply Hid | done | lia | lia] |].
      intros [] t Ht. exists id. split; [by eapply (turn_from _ _ s') | by left].
    + rewrite bool_decide_true by done. apply wp_eap_send_nak; [apply Hp |].
      exists (u8 (eap_last_id s)). split; [| by right].
      eapply turn_reply; [by apply eap_peer_out | done | apply response_of_packet | done].
  - cbv zeta. sr_seq. apply wp_mod_eap; [apply Hp |].
    set (s1 := set_field eap_last_id id s). assert (Hp1 : eap_peer s1) by (by apply eap_peer_id).
    assert (Hret : ∀ m : sr eap_state unit, wp m (λ _, turn id s1) s1 →
              wp m (λ _ t, ∃ rid, turn rid s t ∧ (rid = id ∨ eap_meth s = None ∧ rid = u8 (eap_last_id s))) s1).
    { intros m Hm. eapply wp_mono; [exact Hm |]. intros [] t Ht. exists id. split; [by eapply (turn_from _ _ s1) | by left]. }
    apply Hret. destruct (Z.eqb_spec type EAP_TYPE_IDENTITY).
    + sr_seq. apply wp_mod_eap; [apply Hp1 |]. set (s2 := set_field eap_identity_req_count _ s1).
      assert (Hp2 : eap_peer s2) by (by apply eap_peer_identity_count).
      eapply wp_mono; [by apply eap_send_identity_ok |]. intros [] t Ht. by eapply (turn_from _ _ s2).
    + destruct (Z.eqb_spec type EAP_TYPE_NOTIFICATION).
      * destruct (Z.ltb_spec len 2); [sr_seq; by apply turn_quiet |].
        assert (Hm : l_malloc junk 10 = l_malloc junk 5 ++ [] ++ (junk <$> seq 5 5)) by reflexivity. rewrite Hm.
        apply wp_reply; [exact Hp1 | done | done | done | by rewrite l_malloc_length | done].
      * apply wp_eap_send_nak; [apply Hp1 |]. eapply turn_reply; [by apply eap_peer_out | done | | done].
        pose proof (response_of_packet id EAP_TYPE_NAK [u8 match eap_meth s1 with Some m => request_type m | None => 0 end]) as Hr.
        by rewrite u8_small in Hr.
Qed.

(** ** Packets *)

(** An EAP-Success or EAP-Failure for the last request or the one after it. *)
Definition result_packet (code last_id : Z) (pkt : list Z) : Prop :=
  ∃ id, ptake pkt 4 = [code; id; 0; 4] ∧ (id = last_id ∨ id = last_id + 1).

(** What one packet can make a peer do: answer it, with the identifier of the packet if a method
    is configured, and then go on, fail, or end with the success the method has reported. *)
Definition rx_outcome (pkt : list Z) (s t : eap_state) : Prop :=
  ∃ rid l tl, eap_out t = eap_out s ++ l ++ tl ∧ answers rid l ∧
    (l = [] ∨ pkt !! 1%nat = Some rid ∨ eap_meth s = None) ∧
    ((tl = [] ∧ eap_peer t) ∨
     (tl = [EapComplete EAP_RESULT_FAIL] ∧ eap_freed t = true ∧
        (pkt !! 0%nat = Some EAP_CODE_REQUEST ∨
         eap_msuccess s = false ∧ l = [] ∧ result_packet EAP_CODE_FAILURE (eap_last_id s) pkt)) ∨
     (tl = [EapComplete EAP_RESULT_SUCCESS] ∧ eap_peer t ∧ l = [] ∧ eap_msuccess s = true ∧
        result_packet EAP_CODE_SUCCESS (eap_last_id s) pkt)).

Lemma rx_quiet pkt s t : eap_peer t → eap_out t = eap_out s → rx_outcome pkt s t.
Proof.
  intros Ht Ho. exists 0, [], []. split_and!; [by rewrite !app_nil_r | apply answers_nil | by left | by left].
Qed.

Lemma eap_rx_result_ok (O : EapOwner) success id pkt s rest :
  eap_peer s → pkt = [if (success : bool) then EAP_CODE_SUCCESS else EAP_CODE_FAILURE; id] ++ rest →
  ∀ eap_len, (eap_len = 4 → ptake rest 2 = [0; 4]) →
  wp (eap_rx_result on_complete success id eap_len) (λ _, rx_outcome pkt s) s.
Proof.
  intros Hp Hpkt eap_len Hlen. unfold eap_rx_result. sr_seq. apply wp_get_eap; [apply Hp |]. rewrite (ep_peer _ Hp).
  destruct (eap_discard s); [sr_seq; by apply rx_quiet |]. sr_seq. apply wp_mod_eap; [apply Hp |].
  set (s1 := set_field eap_timer false s). assert (Hp1 : eap_peer s1) by (by apply eap_peer_timer).
  destruct (negb (id =? eap_last_id s) && negb (id =? eap_last_id s + 1)) eqn:Hid; [sr_seq; by apply rx_quiet |].
  destruct (Z.eqb_spec eap_len 4) as [H4|]; cbn [negb]; [| sr_seq; by apply rx_quiet].
  assert (Hres : result_packet (if success then EAP_CODE_SUCCESS else EAP_CODE_FAILURE) (eap_last_id s) pkt).
  { exists id. rewrite Hpkt, ptake_app_ge by (rewrite !zlen_cons, zlen_nil; lia). change (4 - zlen [_; id]) with 2. rewrite (Hlen H4).
    split; [done |]. destruct (Z.eqb_spec id (eap_last_id s)), (Z.eqb_spec id (eap_last_id s + 1)); auto. done. }
  destruct success; cbn [andb negb].
  - destruct (eap_msuccess s) eqn:Hs; cbn [negb]; [| sr_seq; by apply rx_quiet].
    unfold eap_complete. sr_seq. apply wp_eap_emit; [apply Hp1 |].
    eapply wp_mono; [apply complete_succeeded; by apply eap_peer_out |]. intros [] t (Ht & Ho & _).
    exists 0, [], [EapComplete EAP_RESULT_SUCCESS]. split_and!; [exact Ho | apply answers_nil | by left | by right; right].
  - destruct (eap_msuccess s) eqn:Hs; [sr_seq; by apply rx_quiet |].
    unfold eap_complete. sr_seq. apply wp_eap_emit; [apply Hp1 |].
    eapply wp_mono; [apply complete_failed; [done | by apply eap_peer_out] |]. intros [] t (Ht & Ho).
    exists 0, [], [EapComplete EAP_RESULT_FAIL]. split_and!; [exact Ho | apply answers_nil | by left | right; left].
    split_and!; [done | done | by right].
Qed.

Lemma eap_rx_packet_ok (M : EapMethodsOk) (O : EapOwner) pkt s :
  eap_peer s → bytes_ok pkt →
  ∃ t, eap_rx_packet ops on_complete junk pkt (zlen pkt) s = Ok (tt, t) ∧ rx_outcome pkt s t.
Proof.
  intros Hp Hok.
  enough (Hw : wp (eap_rx_packet ops on_complete junk pkt (zlen pkt)) (λ _, rx_outcome pkt s) s).
  { apply wp_inv in Hw as ([] & t & Ht & Ho). by exists t. }
  unfold eap_rx_packet. destruct (Z.ltb_spec (zlen pkt) 4); [sr_seq; by apply rx_quiet |].
  destruct pkt as [|code [|id [|l1 [|l2 rest]]]]; try (rewrite ?zlen_cons, ?zlen_nil in *; lia).
  rewrite !zlen_cons in *. pose proof (zlen_nonneg rest).
  assert (Hb : byte_ok code ∧ byte_ok id ∧ byte_ok l1 ∧ byte_ok l2 ∧ bytes_ok rest)
    by (rewrite !list.Forall_cons in Hok; tauto).
  destruct Hb as (Hb0 & Hb1 & Hb2 & Hb3 & Hrest). unfold byte_ok in Hb0, Hb1, Hb2, Hb3.
  sr_seq. eapply wp_run; [done |]. set (eap_len := be16_of l1 l2). 
  destruct (Z.ltb_spec eap_len 4) as [|Hl4]; cbn [orb]; [sr_seq; by apply rx_quiet |].
  destruct (Z.ltb_spec (1 + (1 + (1 + (1 + zlen rest)))) eap_len); [sr_seq; by apply rx_quiet |].
  sr_seq. eapply wp_run; [done |]. sr_seq. eapply wp_run; [done |]. sr_seq. apply wp_get_eap; [apply Hp |].
  rewrite (ep_peer _ Hp).
  assert (Hlen4 : eap_len = 4 → ptake (l1 :: l2 :: rest) 2 = [0; 4]).
  { unfold eap_len, be16_of. intros He. assert (l1 = 0 ∧ l2 = 4) as [-> ->] by lia. done. }
  destruct (Z.eqb_spec code EAP_CODE_REQUEST) as [->|].
  { eapply wp_mono; [apply (eap_handle_request_ok M); [done | done | exact Hrest | |] |].
    2:{ unfold eap_len, be16_of. lia. }
    { change ((_ :: _ :: _ :: _ :: rest) +! 4) with rest. lia. }
    intros [] t (rid & (l & Hl & Ht) & Hrid).
    destruct Ht as [(Ho & Ht & _)|(Ho & Ht)].
    - exists rid, l, []. split_and!; [by rewrite app_nil_r | done | right; destruct Hrid as [->|[? _]]; [by left | by right] | by left].
    - exists rid, l, [EapComplete EAP_RESULT_FAIL].
      split_and!; [done | done | right; destruct Hrid as [->|[? _]]; [by left | by right] | right; left; by split_and!; [| | left]]. }
  destruct (Z.eqb_spec code EAP_CODE_RESPONSE); [sr_seq; by apply rx_quiet |].
  destruct (Z.eqb_spec code EAP_CODE_SUCCESS) as [->|]; [by apply (eap_rx_result_ok O true) with (rest := l1 :: l2 :: rest) |].
  destruct (Z.eqb_spec code EAP_CODE_FAILURE) as [->|]; [by apply (eap_rx_result_ok O false) with (rest := l1 :: l2 :: rest) |].
  sr_seq. by apply rx_quiet.
Qed.

(** One packet, whatever its bytes: a peer whose methods and owner keep their contracts never
    accesses a freed object or memory out of bounds; it sends at most one packet, a response of the
    length its header says with the identifier of the request; it fails only on a request or on a
    well-formed EAP-Failure while the method has not reported success, and succeeds only on a
    well-formed EAP-Success for the last request once the method has. *)
Theorem eap_rx_packet_safe (M : EapMethodsOk) (O : EapOwner) pkt s :
  eap_peer s → bytes_ok pkt →
  ∃ t, eap_rx_packet ops on_complete junk pkt (zlen pkt) s = Ok (tt, t) ∧ rx_outcome pkt s t.
Proof. apply eap_rx_packet_ok; done. Qed.

(** ** Conversations *)

(** What happens to a conversation: packets arrive, and the timer runs out. *)
Inductive eap_step : eap_state → eap_state → Prop :=
  | step_packet pkt s t : eap_freed s = false → bytes_ok pkt →
      eap_rx_packet ops on_complete junk pkt (zlen pkt) s = Ok (tt, t) → eap_step s t
  | step_timeout s t : eap_freed s = false → eap_timer s = true →
      eap_complete_timeout on_complete s = Ok (tt, t) → eap_step s t.

(** No result but success so far. *)
Definition no_failure (l : list eap_effect) : Prop := Forall (λ e, ∀ r, e = EapComplete r → r = EAP_RESULT_SUCCESS) l.

(** Going on, or over with one failure, the last thing that happened. *)
Definition live_or_over (s : eap_state) : Prop :=
  (eap_peer s ∧ no_failure (eap_out s)) ∨
  (eap_freed s = true ∧ ∃ l r, eap_out s = l ++ [EapComplete r] ∧ r ≠ EAP_RESULT_SUCCESS ∧ no_failure l).

Lemma answers_no_failure id l : answers id l → no_failure l.
Proof. intros [_ Hl]. eapply Forall_impl; [exact Hl |]. by intros [] Hx r [=]. Qed.

Lemma eap_complete_timeout_ok (O : EapOwner) s :
  eap_peer s → wp (eap_complete_timeout on_complete)
    (λ _ t, if eap_msuccess s then eap_peer t ∧ eap_out t = eap_out s ++ [EapComplete EAP_RESULT_SUCCESS]
            else eap_freed t = true ∧ eap_out t = eap_out s ++ [EapComplete EAP_RESULT_TIMEOUT]) s.
Proof.
  intros Hp. unfold eap_complete_timeout. sr_seq. apply wp_mod_eap; [apply Hp |]. sr_seq. apply wp_get_eap; [apply Hp |].
  change (eap_msuccess (set_field eap_timer false s)) with (eap_msuccess s).
  unfold eap_complete. sr_seq. apply wp_eap_emit; [apply Hp |].
  destruct (eap_msuccess s).
  - eapply wp_mono; [apply complete_succeeded; by apply eap_peer_out, eap_peer_timer |]. intros [] t (Ht & Ho & _). by split.
  - eapply wp_mono; [apply complete_failed; [done | by apply eap_peer_out, eap_peer_timer] |]. intros [] t (Ht & Ho). by split.
Qed.

Lemma eap_step_live (M : EapMethodsOk) (O : EapOwner) s t :
  eap_step s t → live_or_over s → live_or_over t.
Proof.
  intros Hstep [[Hp Hn]|[Hf _]]; [| destruct Hstep; congruence].
  assert (Hone : no_failure [EapComplete EAP_RESULT_SUCCESS]) by (apply Forall_singleton; by intros r [= <-]).
  destruct Hstep as [pkt s t _ Hok Hrun|s t _ _ Hrun].
  - destruct (eap_rx_packet_ok M O pkt s Hp Hok) as (t' & Ht & rid & l & tl & Ho & Ha & _ & Hcase).
    assert (t' = t) as -> by congruence. apply answers_no_failure in Ha.
    destruct Hcase as [(-> & Hpt)|[(-> & Hft & _)|(-> & Hpt & _)]].
    + left. rewrite Ho, app_nil_r. split; [done | by apply Forall_app_2].
    + right. split; [done |]. exists (eap_out s ++ l), EAP_RESULT_FAIL. rewrite Ho, app_assoc. split_and!; [done | done | by apply Forall_app_2].
    + left. rewrite Ho. split; [done |]. by repeat apply Forall_app_2.
  - pose proof (eap_complete_timeout_ok O s Hp) as Hw. unfold wp in Hw. rewrite Hrun in Hw.
    destruct (eap_msuccess s), Hw as [Ht Ho].
    + left. rewrite Ho. split; [done | by apply Forall_app_2].
    + right. split; [done |]. by exists (eap_out s), EAP_RESULT_TIMEOUT.
Qed.

(** After any sequence of packets and timeouts a peer is alive in a well-formed state and has
    reported no failure, or it is freed and its last action was its one report of a failure; while
    it is alive, every packet can be handled. *)
Lemma eap_conversation_ok (M : EapMethodsOk) (O : EapOwner) s t :
  eap_peer s → no_failure (eap_out s) → rtc eap_step s t →
  live_or_over t ∧
  (eap_freed t = false → ∀ pkt, bytes_ok pkt → ∃ u, eap_rx_packet ops on_complete junk pkt (zlen pkt) t = Ok (tt, u)).
Proof.
  intros Hp Hn Hrtc.
  assert (Hlive : live_or_over t).
  { assert (Hs : live_or_over s) by (by left). clear Hp Hn. induction Hrtc as [|s u t Hstep _ IH]; [done |].
    apply IH. by eapply eap_step_live. }
  split; [done |]. intros Hf pkt Hok. destruct Hlive as [[Hpt _]|[Hft _]]; [| congruence].
  destruct (eap_rx_packet_ok M O pkt t Hpt Hok) as (u & Hu & _). by exists u.
Qed.

End spec.
