(* ===== verification/Mschap.v ===== *)
(** * MS-CHAP: password hashes and responses (src/mschaputil.c, ell/utf8.c)

    The NT password hash of a UTF-8 password, the DES-based responses of MS-CHAP and MS-CHAPv2,
    the authenticator response, and the MPPE keys of src/eap-mschapv2.c, over the checksums of
    [Ell] and the DES of [Des]. *)

From stdpp Require Import base numbers list option.
From Stdlib Require Import ZArith Lia.
From S2P Require Import Prelude IeTlv IeMisc Crypto.

Open Scope Z_scope.

(** [l_cipher_new(L_CIPHER_DES, key, 8)] with [l_cipher_encrypt] on one block. *)
Class Des : Type := { l_cipher_new_des : list Z → option (list Z → list Z) }.

Class DesLaws (D : Des) : Prop := {
  des_length k f b : l_cipher_new_des k = Some f → zlen b = 8 → zlen (f b) = 8 ∧ bytes_ok (f b);
}.

(** ** UTF-8 *)

Definition valid_unicode (c : Z) : bool :=
  if c <=? 0xd7ff then true
  else if (c <? 0xe000) || (0x10ffff <? c) then false
  else if (0xfdd0 <=? c) && (c <=? 0xfdef) then false
  else negb (Z.land c 0xfffe =? 0xfffe).

(** [__builtin_clz(~(b << 24))]: the number of leading ones of a byte. *)
Definition leading_ones (b : Z) : Z :=
  if b <? 0x80 then 0 else if b <? 0xc0 then 1 else if b <? 0xe0 then 2 else if b <? 0xf0 then 3
  else if b <? 0xf8 then 4 else if b <? 0xfc then 5 else if b <? 0xfe then 6 else if b <? 0xff then 7 else 8.

(** The loop over the continuation bytes from [i] on; [None] is an error. *)
Fixpoint utf8_continue (n : nat) (str : ptr) (i val : Z) : res (option Z) :=
  match n with
  | O => Ok (Some val)
  | S n =>
      c ← rd str i;
      if negb (Z.land c 0xc0 =? 0x80) then Ok None
      else utf8_continue n str (i + 1) (Z.lor (Z.shiftl val 6) (Z.land c 0x3f))
  end.

Definition utf8_min (expect_bytes : Z) : Z :=
  if expect_bytes =? 2 then 2 ^ 7 else if expect_bytes =? 3 then 2 ^ 11 else 2 ^ 16.

(** The number of bytes read and the code point, when it is stored; [-1] is an error. *)
Definition l_utf8_get_codepoint (str : ptr) (len : Z) : res (Z * option Z) :=
  if len =? 0 then Ok (0, None)
  else
    b ← rd str 0;
    if (0 <? b) && (b <? 0x80) then Ok (1, Some b)
    else
      let expect_bytes := leading_ones b in
      if (expect_bytes <? 2) || (4 <? expect_bytes) then Ok (-1, None)
      else if len <? expect_bytes then Ok (-1, None)
      else
        val ← utf8_continue (Z.to_nat (expect_bytes - 1)) str 1
                (Z.land b (Z.shiftr 0xff (expect_bytes + 1)));
        Ok (match val with
            | None => (-1, None)
            | Some val =>
                if (val <? utf8_min expect_bytes) || negb (valid_unicode val) then (-1, None)
                else (expect_bytes, Some val)
            end).

(** The bytes that are not continuation bytes. *)
Definition l_utf8_strlen (str : list Z) : Z := zlen (filter (λ b, Z.shiftr b 6 ≠ 2) str).

(** ** Password hashes *)

Section mschap.
Context `{Ell} `{Des}.
Variable junk : nat → Z.

(** The loop of [mschap_nt_password_hash]: [n] characters to go, and the buffer so far; [None]
    is the error return.  The password is followed by its NUL; a code point that could not be
    read leaves [val] as it was. *)
Fixpoint ucs2_loop (n : nat) (password : ptr) (bsize pos val : Z) (buffer : list Z) : res (option (list Z)) :=
  match n with
  | O => Ok (Some buffer)
  | S n =>
      '(r, cp) ← (if pos <=? bsize then l_utf8_get_codepoint (password +! pos) (u64 (bsize - pos)) else Fault);
      let val := default val cp in
      let pos := u32 (pos + r) in
      if 0xffff <? val then Ok None
      else ucs2_loop n password bsize pos val (buffer ++ le16_bytes val)
  end.

(** [Ok None] is a [false] return.  The password is given without its NUL. *)
Definition mschap_nt_password_hash (password : list Z) : res (option (list Z)) :=
  r ← ucs2_loop (Z.to_nat (l_utf8_strlen password)) (password ++ [0]) (zlen password) 0 (junk 0) [];
  Ok (match r with
      | None => None
      | Some buffer => (λ md4, ptake (md4 buffer) 16) <$> l_checksum_new L_CHECKSUM_MD4
      end).

Definition mschapv2_hash_nt_password_hash (password_hash : list Z) : option (list Z) :=
  (λ md4, ptake (md4 password_hash) 16) <$> l_checksum_new L_CHECKSUM_MD4.

(** ** DES *)

(** The loop over the 7 bytes of the key; [i] is the number of bytes done. *)
Fixpoint des_key_loop (key : list Z) (i next : Z) : list Z :=
  match key with
  | [] => [Z.lor next 1]
  | tmp :: key =>
      Z.lor (Z.lor (Z.shiftr tmp i) next) 1 :: des_key_loop key (i + 1) (u8 (Z.shiftl tmp (7 - i)))
  end.

(** The 8 bytes of [pkey]. *)
Definition mschap_des_key (key : list Z) : list Z := des_key_loop key 0 0.

Definition mschap_des_encrypt (challenge key : list Z) : option (list Z) :=
  (λ des, des challenge) <$> l_cipher_new_des (mschap_des_key key).

(** The three blocks. *)
Definition mschap_challenge_response (challenge password_hash : list Z) : option (list Z) :=
  let buf := password_hash ++ zeros 5 in
  a ← mschap_des_encrypt challenge (ptake buf 7);
  b ← mschap_des_encrypt challenge (ptake (buf +! 7) 7);
  c ← mschap_des_encrypt challenge (ptake (buf +! 14) 7);
  Some (a ++ b ++ c).

(** ** MS-CHAPv2 *)

Fixpoint after_backslash (username : list Z) : option (list Z) :=
  match username with
  | [] => None
  | c :: rest => if c =? 92 then Some rest else after_backslash rest
  end.
Definition mschapv2_exlude_domain_name (username : list Z) : list Z :=
  default username (after_backslash username).

Definition mschapv2_challenge_hash (peer_challenge server_challenge username : list Z) : option (list Z) :=
  (λ sha1, ptake (sha1 (peer_challenge ++ server_challenge ++ mschapv2_exlude_domain_name username)) 8)
    <$> l_checksum_new L_CHECKSUM_SHA1.

Definition mschapv2_generate_nt_response (password_hash peer_challenge server_challenge user : list Z)
    : option (list Z) :=
  challenge ← mschapv2_challenge_hash peer_challenge server_challenge user;
  let buffer := password_hash ++ zeros 5 in
  a ← mschap_des_encrypt challenge (ptake buffer 7);
  b ← mschap_des_encrypt challenge (ptake (buffer +! 7) 7);
  c ← mschap_des_encrypt challenge (ptake (buffer +! 14) 7);
  Some (a ++ b ++ c).

Definition magic1 : list Z :=
  [0x4D; 0x61; 0x67; 0x69; 0x63; 0x20; 0x73; 0x65; 0x72; 0x76; 0x65; 0x72; 0x20; 0x74; 0x6F; 0x20; 0x63; 0x6C;
   0x69; 0x65; 0x6E; 0x74; 0x20; 0x73; 0x69; 0x67; 0x6E; 0x69; 0x6E; 0x67; 0x20; 0x63; 0x6F; 0x6E; 0x73; 0x74;
   0x61; 0x6E; 0x74].
Definition magic2 : list Z :=
  [0x50; 0x61; 0x64; 0x20; 0x74; 0x6F; 0x20; 0x6D; 0x61; 0x6B; 0x65; 0x20; 0x69; 0x74; 0x20; 0x64; 0x6F; 0x20;
   0x6D; 0x6F; 0x72; 0x65; 0x20; 0x74; 0x68; 0x61; 0x6E; 0x20; 0x6F; 0x6E; 0x65; 0x20; 0x69; 0x74; 0x65; 0x72;
   0x61; 0x74; 0x69; 0x6F; 0x6E].

Definition hex_digit_upper (n : Z) : Z := if n <? 10 then 48 + n else 55 + n.
Definition l_util_hexstring_upper (buf : list Z) : list Z :=
  buf ≫= λ b, [hex_digit_upper (Z.shiftr b 4); hex_digit_upper (Z.land b 0xf)].

(** The 42 characters of the response. *)
Definition mschapv2_generate_authenticator_response
    (pw_hash_hash nt_response peer_challenge server_challenge user : list Z) : option (list Z) :=
  sha1 ← l_checksum_new L_CHECKSUM_SHA1;
  let digest := ptake (sha1 (pw_hash_hash ++ nt_response ++ magic1)) 20 in
  challenge ← mschapv2_challenge_hash peer_challenge server_challenge user;
  let digest := ptake (sha1 (digest ++ challenge ++ magic2)) 20 in
  Some ([83; 61] ++ ptake (l_util_hexstring_upper digest) 40).

(** ** MPPE keys (src/eap-mschapv2.c) *)

Definition mppe_magic : list Z :=
  [0x54; 0x68; 0x69; 0x73; 0x20; 0x69; 0x73; 0x20; 0x74; 0x68; 0x65; 0x20; 0x4d; 0x50; 0x50; 0x45; 0x20; 0x4d;
   0x61; 0x73; 0x74; 0x65; 0x72; 0x20; 0x4b; 0x65; 0x79].

Definition mschapv2_get_master_key (pw_hash_hash nt_response : list Z) : option (list Z) :=
  (λ sha1, ptake (sha1 (pw_hash_hash ++ nt_response ++ mppe_magic)) 16) <$> l_checksum_new L_CHECKSUM_SHA1.

Definition mppe_magic2 : list Z :=
  [0x4f; 0x6e; 0x20; 0x74; 0x68; 0x65; 0x20; 0x63; 0x6c; 0x69; 0x65; 0x6e; 0x74; 0x20; 0x73; 0x69; 0x64; 0x65;
   0x2c; 0x20; 0x74; 0x68; 0x69; 0x73; 0x20; 0x69; 0x73; 0x20; 0x74; 0x68; 0x65; 0x20; 0x73; 0x65; 0x6e; 0x64;
   0x20; 0x6b; 0x65; 0x79; 0x3b; 0x20; 0x6f; 0x6e; 0x20; 0x74; 0x68; 0x65; 0x20; 0x73; 0x65; 0x72; 0x76; 0x65;
   0x72; 0x20; 0x73; 0x69; 0x64; 0x65; 0x2c; 0x20; 0x69; 0x74; 0x20; 0x69; 0x73; 0x20; 0x74; 0x68; 0x65; 0x20;
   0x72; 0x65; 0x63; 0x65; 0x69; 0x76; 0x65; 0x20; 0x6b; 0x65; 0x79; 0x2e].
Definition mppe_magic3 : list Z :=
  [0x4f; 0x6e; 0x20; 0x74; 0x68; 0x65; 0x20; 0x63; 0x6c; 0x69; 0x65; 0x6e; 0x74; 0x20; 0x73; 0x69; 0x64; 0x65;
   0x2c; 0x20; 0x74; 0x68; 0x69; 0x73; 0x20; 0x69; 0x73; 0x20; 0x74; 0x68; 0x65; 0x20; 0x72; 0x65; 0x63; 0x65;
   0x69; 0x76; 0x65; 0x20; 0x6b; 0x65; 0x79; 0x3b; 0x20; 0x6f; 0x6e; 0x20; 0x74; 0x68; 0x65; 0x20; 0x73; 0x65;
   0x72; 0x76; 0x65; 0x72; 0x20; 0x73; 0x69; 0x64; 0x65; 0x2c; 0x20; 0x69; 0x74; 0x20; 0x69; 0x73; 0x20; 0x74;
   0x68; 0x65; 0x20; 0x73; 0x65; 0x6e; 0x64; 0x20; 0x6b; 0x65; 0x79; 0x2e].

(** The first [session_len] bytes. *)
Definition mschapv2_get_asymmetric_start_key (master_key : list Z) (session_len : Z) (server send : bool)
    : option (list Z) :=
  let magic := if eqb send server then mppe_magic3 else mppe_magic2 in
  (λ sha1, ptake (sha1 (master_key ++ zeros 40 ++ magic ++ replicate 40 0xf2)) session_len)
    <$> l_checksum_new L_CHECKSUM_SHA1.
End mschap.

(** ** Properties *)

(** The number with the digits [l], most significant first. *)
Fixpoint digits (base : Z) (l : list Z) : Z :=
  match l with
  | [] => 0
  | d :: l => d * base ^ zlen l + digits base l
  end.

Lemma des_key_loop_length key : ∀ i next, length (des_key_loop key i next) = S (length key).
Proof. induction key as [|b key IH]; intros i next; [done |]. cbn. by rewrite IH. Qed.

(** Bits that do not overlap add up. *)
Lemma lor_disjoint a b n : 0 ≤ n → 0 ≤ b < 2 ^ n → Z.lor (a * 2 ^ n) b = a * 2 ^ n + b.
Proof.
  intros Hn Hb. rewrite <- Z.shiftl_mul_pow2 by done.
  assert (Hland : Z.land (Z.shiftl a n) b = 0).
  { apply Z.bits_inj'. intros k Hk. rewrite Z.land_spec, Z.bits_0. destruct (Z_lt_le_dec k n).
    - by rewrite Z.shiftl_spec_low.
    - destruct (decide (b = 0)) as [->|]; [by rewrite Z.bits_0, andb_false_r |].
      rewrite (Z.bits_above_log2 b), andb_false_r; [done | lia |]. apply Z.log2_lt_pow2; [lia |].
      apply Z.lt_le_trans with (2 ^ n); [lia |]. by apply Z.pow_le_mono_r. }
  by rewrite <- Z.lxor_lor, Z.add_nocarry_lxor.
Qed.

Lemma lor_1_half x : 0 ≤ x → Z.shiftr (Z.lor x 1) 1 = x / 2.
Proof.
  intros Hx. rewrite Z.shiftr_lor. change (Z.shiftr 1 1) with 0. rewrite Z.lor_0_r.
  by rewrite Z.shiftr_div_pow2.
Qed.

Lemma lor_1_byte x : 0 ≤ x < 256 → byte_ok (Z.lor x 1) ∧ Z.odd (Z.lor x 1) = true.
Proof.
  intros Hx. assert (Hodd : Z.odd (Z.lor x 1) = true) by (by rewrite <- Z.bit0_odd, Z.lor_spec, orb_true_r).
  split; [| done]. pose proof (Z.div2_odd (Z.lor x 1)) as He. rewrite Hodd, Z.div2_spec, lor_1_half in He by lia.
  rewrite He. cbn [Z.b2z]. unfold byte_ok. pose proof (Z.div_pos x 2). pose proof (Z.div_lt_upper_bound x 2 128). lia.
Qed.

Lemma des_key_loop_digits key : ∀ i c,
  bytes_ok key → zlen key = 7 - i → 0 ≤ i → 0 ≤ c < 2 ^ i →
  let pkey := des_key_loop key i (c * 2 ^ (8 - i)) in
  digits 128 ((λ b, Z.shiftr b 1) <$> pkey) = c * 256 ^ zlen key + digits 256 key ∧
  Forall (λ b, byte_ok b ∧ Z.odd b = true) pkey.
Proof.
  induction key as [|b key IH]; intros i c Hok Hl Hi Hc; cbn [des_key_loop fmap list_fmap digits].
  - change (zlen (@nil Z)) with 0 in *. assert (i = 7) as -> by lia. change (2 ^ 7) with 128 in Hc.
    change (8 - 7) with 1. change (2 ^ 1) with 2. rewrite lor_1_half, (Z.div_mul c 2) by lia.
    change (zlen (list_fmap _ _ _ [])) with 0. split; [lia |].
    constructor; [| constructor]. apply lor_1_byte. lia.
  - apply list.Forall_cons in Hok as [Hb Hok]. unfold byte_ok in Hb. rewrite zlen_cons in Hl. pose proof (zlen_nonneg key).
    assert (Hp : 2 ^ 8 = 2 ^ i * 2 ^ (8 - i)) by (rewrite <- Z.pow_add_r by lia; f_equal; lia). change (2 ^ 8) with 256 in Hp.
    assert (Hpi : 0 < 2 ^ i) by (apply Z.pow_pos_nonneg; lia).
    assert (Hpr : 0 < 2 ^ (8 - i)) by (apply Z.pow_pos_nonneg; lia).
    assert (Hd : 0 ≤ b / 2 ^ i < 2 ^ (8 - i)) by (split; [apply Z.div_pos; lia | apply Z.div_lt_upper_bound; lia]).
    rewrite (Z.shiftr_div_pow2 b i) by lia. rewrite (Z.lor_comm (b / 2 ^ i)), lor_disjoint by lia.
    set (x := c * 2 ^ (8 - i) + b / 2 ^ i).
    assert (Hx : 0 ≤ x < 256) by (unfold x; nia).
    set (c' := b mod 2 ^ (i + 1)).
    assert (Hi1 : 2 ^ (i + 1) = 2 * 2 ^ i) by (rewrite Z.add_comm, Z.pow_add_r by lia; done).
    assert (Hc' : 0 ≤ c' < 2 ^ (i + 1)) by (apply Z.mod_pos_bound; lia).
    assert (Hnext : u8 (Z.shiftl b (7 - i)) = c' * 2 ^ (8 - (i + 1))).
    { rewrite Z.shiftl_mul_pow2 by lia. unfold u8, c'. replace (8 - (i + 1)) with (7 - i) by lia.
      assert (H8 : 256 = 2 ^ (i + 1) * 2 ^ (7 - i)) by (rewrite <- Z.pow_add_r by lia; replace (i + 1 + (7 - i)) with 8 by lia; done).
      change (2 ^ 8) with 256. rewrite H8. rewrite Z.mul_mod_distr_r; [done | lia |]. 
      apply Z.pow_nonzero; lia. }
    rewrite Hnext. destruct (IH (i + 1) c' Hok ltac:(lia) ltac:(lia) Hc') as [IHd IHf].
    split; [| constructor; [| done]].
    + rewrite IHd, lor_1_half by lia.
      assert (Hlen : zlen ((λ b0, Z.shiftr b0 1) <$> des_key_loop key (i + 1) (c' * 2 ^ (8 - (i + 1)))) = 7 - i).
      { unfold zlen. rewrite length_fmap, des_key_loop_length. unfold zlen in Hl. lia. }
      rewrite Hlen, zlen_cons. set (k := zlen key) in *.
      assert (Hb2 : b = 2 ^ (i + 1) * (b / 2 ^ (i + 1)) + c') by (apply Z.div_mod; lia).
      assert (Hx2 : x / 2 = c * 2 ^ (k + 1) + b / 2 ^ (i + 1)).
      { unfold x. replace (8 - i) with (k + 1 + 1) by lia. rewrite (Z.pow_add_r 2 (k + 1) 1) by lia. change (2 ^ 1) with 2.
        replace (c * (2 ^ (k + 1) * 2)) with (c * 2 ^ (k + 1) * 2) by lia. rewrite Z.div_add_l by lia.
        by rewrite Z.div_div, Hi1, (Z.mul_comm 2) by lia. }
      rewrite Hx2. set (q := b / 2 ^ (i + 1)) in *.
      assert (H128 : 128 ^ (7 - i) = 2 ^ (i + 1) * 256 ^ k).
      { change 128 with (2 ^ 7). change 256 with (2 ^ 8). rewrite <- !Z.pow_mul_r, <- Z.pow_add_r by lia. f_equal. lia. }
      assert (H256 : 2 ^ (k + 1) * 2 ^ (i + 1) = 256) by (rewrite <- Z.pow_add_r by lia; replace (k + 1 + (i + 1)) with 8 by lia; done).
      rewrite H128, (Z.add_comm 1 k), (Z.pow_add_r 256 k 1) by lia. change (256 ^ 1) with 256.
      replace (c * (256 ^ k * 256)) with (c * (256 ^ k * (2 ^ (k + 1) * 2 ^ (i + 1)))) by (rewrite H256; ring).
      rewrite Hb2 at 1. ring.
    + apply lor_1_byte. lia.
Qed.

(** The DES key [mschap_des_encrypt] makes of 7 bytes: 8 bytes of odd value whose upper 7 bits
    are, in order, the 56 bits of the 7 bytes. *)
Theorem mschap_des_key_correct key :
  bytes_ok key → zlen key = 7 →
  let pkey := mschap_des_key key in
  zlen pkey = 8 ∧ Forall (λ b, byte_ok b ∧ Z.odd b = true) pkey ∧
  digits 128 ((λ b, Z.shiftr b 1) <$> pkey) = digits 256 key.
Proof.
  intros Hok Hl pkey. destruct (des_key_loop_digits key 0 0 Hok) as [Hd Hf]; [lia | lia | lia |].
  split_and!; [unfold pkey, mschap_des_key, zlen; rewrite des_key_loop_length; unfold zlen in Hl; lia | done |].
  etrans; [exact Hd |]. lia.
Qed.

Lemma mschap_des_key_correct_witness :
  let pkey := mschap_des_key [0x45; 0x96; 0xfd; 0x02; 0x11; 0xff; 0x80] in
  zlen pkey = 8 ∧ Forall (λ b, byte_ok b ∧ Z.odd b = true) pkey ∧
  digits 128 ((λ b, Z.shiftr b 1) <$> pkey) = digits 256 [0x45; 0x96; 0xfd; 0x02; 0x11; 0xff; 0x80].
Proof. apply mschap_des_key_correct; by_eval. Defined.

(** ** UTF-8 passwords *)

(** RFC 3629 *)
Definition utf8_encode (c : Z) : list Z :=
  if c <? 0x80 then [c]
  else if c <? 0x800 then [0xc0 + c / 64; 0x80 + c mod 64]
  else if c <? 0x10000 then [0xe0 + c / 4096; 0x80 + (c / 64) mod 64; 0x80 + c mod 64]
  else [0xf0 + c / 262144; 0x80 + (c / 4096) mod 64; 0x80 + (c / 64) mod 64; 0x80 + c mod 64].

(** A finite case analysis on a bounded number. *)
Lemma below_forallb (P : Z → bool) n x : forallb (λ k, P (Z.of_nat k)) (seq 0 n) = true → 0 ≤ x < Z.of_nat n → P x = true.
Proof.
  intros Hf Hx. rewrite forallb_forall in Hf. specialize (Hf (Z.to_nat x)). rewrite Z2Nat.id in Hf by lia.
  apply Hf. apply in_seq. lia.
Qed.

Lemma utf8_cont_byte x : 0 ≤ x < 64 →
  Z.land (0x80 + x) 0xc0 = 0x80 ∧ Z.land (0x80 + x) 0x3f = x ∧ Z.shiftr (0x80 + x) 6 = 2.
Proof.
  intros Hx. pose proof (below_forallb (λ x, (Z.land (0x80 + x) 0xc0 =? 0x80) && (Z.land (0x80 + x) 0x3f =? x) &&
    (Z.shiftr (0x80 + x) 6 =? 2)) 64 x eq_refl Hx) as Hb. cbv beta in Hb. lia.
Qed.

Lemma utf8_continue_step n str i val x : 0 ≤ x < 64 → 0 ≤ val → rd str i = Ok (0x80 + x) →
  utf8_continue (S n) str i val = utf8_continue n str (i + 1) (val * 64 + x).
Proof.
  intros Hx Hv Hr. cbn [utf8_continue]. rewrite Hr, bind_ok. destruct (utf8_cont_byte x Hx) as (-> & -> & _).
  cbn [Z.eqb Pos.eqb negb]. rewrite Z.shiftl_mul_pow2 by lia. by rewrite lor_disjoint.
Qed.

Lemma utf8_lead_byte x :
  (0 ≤ x < 32 → leading_ones (0xc0 + x) = 2 ∧ Z.land (0xc0 + x) (Z.shiftr 0xff 3) = x ∧ Z.shiftr (0xc0 + x) 6 ≠ 2) ∧
  (0 ≤ x < 16 → leading_ones (0xe0 + x) = 3 ∧ Z.land (0xe0 + x) (Z.shiftr 0xff 4) = x ∧ Z.shiftr (0xe0 + x) 6 ≠ 2) ∧
  (0 ≤ x < 8 → leading_ones (0xf0 + x) = 4 ∧ Z.land (0xf0 + x) (Z.shiftr 0xff 5) = x ∧ Z.shiftr (0xf0 + x) 6 ≠ 2).
Proof.
  split_and!; intros Hx.
  - pose proof (below_forallb (λ x, (leading_ones (0xc0 + x) =? 2) && (Z.land (0xc0 + x) (Z.shiftr 0xff 3) =? x) &&
      negb (Z.shiftr (0xc0 + x) 6 =? 2)) 32 x eq_refl Hx) as Hb. cbv beta in Hb. lia.
  - pose proof (below_forallb (λ x, (leading_ones (0xe0 + x) =? 3) && (Z.land (0xe0 + x) (Z.shiftr 0xff 4) =? x) &&
      negb (Z.shiftr (0xe0 + x) 6 =? 2)) 16 x eq_refl Hx) as Hb. cbv beta in Hb. lia.
  - pose proof (below_forallb (λ x, (leading_ones (0xf0 + x) =? 4) && (Z.land (0xf0 + x) (Z.shiftr 0xff 5) =? x) &&
      negb (Z.shiftr (0xf0 + x) 6 =? 2)) 8 x eq_refl Hx) as Hb. cbv beta in Hb. lia.
Qed.

Lemma valid_unicode_bound c : valid_unicode c = true → c ≤ 0x10ffff.
Proof. unfold valid_unicode. intros Hv. repeat case_b; try lia; done. Qed.

Lemma codepoint_multi b n x str len c :
  leading_ones b = n → 2 ≤ n ≤ 4 → Z.land b (Z.shiftr 0xff (n + 1)) = x → n ≤ len → rd str 0 = Ok b → 0x80 ≤ b →
  utf8_continue (Z.to_nat (n - 1)) str 1 x = Ok (Some c) → utf8_min n ≤ c → valid_unicode c = true →
  l_utf8_get_codepoint str len = Ok (n, Some c).
Proof.
  intros Hn Hn' Hx Hl Hr Hb Hc Hm Hv. unfold l_utf8_get_codepoint. destruct (Z.eqb_spec len 0); [lia |].
  rewrite Hr, bind_ok. destruct (Z.ltb_spec b 0x80); [lia |]. rewrite andb_false_r. cbv zeta. rewrite Hn.
  destruct (Z.ltb_spec n 2), (Z.ltb_spec 4 n); try lia. cbn [orb]. destruct (Z.ltb_spec len n); [lia |].
  rewrite Hx, Hc, bind_ok, Hv. destruct (Z.ltb_spec c (utf8_min n)); [lia |]. done.
Qed.

(** Decoding an encoded character. *)
Lemma l_utf8_get_codepoint_encode c rest len :
  0 < c → valid_unicode c = true → zlen (utf8_encode c) ≤ len →
  l_utf8_get_codepoint (utf8_encode c ++ rest) len = Ok (zlen (utf8_encode c), Some c).
Proof.
  intros Hc Hv Hl. pose proof (valid_unicode_bound c Hv) as Hmax. unfold utf8_encode in *.
  assert (Hm : 0 ≤ c mod 64 < 64) by (apply Z.mod_pos_bound; lia).
  assert (Hm2 : 0 ≤ (c / 64) mod 64 < 64) by (apply Z.mod_pos_bound; lia).
  assert (Hm3 : 0 ≤ (c / 4096) mod 64 < 64) by (apply Z.mod_pos_bound; lia).
  assert (E1 : c = c / 64 * 64 + c mod 64) by (pose proof (Z.div_mod c 64); lia).
  assert (E2 : c / 64 = c / 4096 * 64 + (c / 64) mod 64)
    by (pose proof (Z.div_mod (c / 64) 64); rewrite Z.div_div in *; change (64 * 64) with 4096 in *; lia).
  assert (E3 : c / 4096 = c / 262144 * 64 + (c / 4096) mod 64)
    by (pose proof (Z.div_mod (c / 4096) 64); rewrite Z.div_div in *; change (4096 * 64) with 262144 in *; lia).
  destruct (Z.ltb_spec c 0x80); [| destruct (Z.ltb_spec c 0x800); [| destruct (Z.ltb_spec c 0x10000)]];
    rewrite ?zlen_cons, ?zlen_nil in Hl; cbn [app].
  - unfold l_utf8_get_codepoint. destruct (Z.eqb_spec len 0); [lia |]. rewrite rd_cons_0, bind_ok.
    destruct (Z.ltb_spec 0 c), (Z.ltb_spec c 0x80); try lia. done.
  - destruct (utf8_lead_byte (c / 64)) as (Hlead & _ & _). destruct Hlead as (Ho & Hx & _); [split; [apply Z.div_pos | apply Z.div_lt_upper_bound]; lia |].
    change (zlen [_; _]) with 2.
    eapply codepoint_multi; [exact Ho | lia | exact Hx | lia | done | | | change (utf8_min 2) with 128; lia | done].
    { pose proof (Z.div_pos c 64). lia. }
    change (Z.to_nat (2 - 1)) with 1%nat. rewrite (utf8_continue_step _ _ _ _ (c mod 64)) by (done || (apply Z.div_pos; lia)).
    cbn [utf8_continue]. by rewrite <- E1.
  - destruct (utf8_lead_byte (c / 4096)) as (_ & Hlead & _). destruct Hlead as (Ho & Hx & _); [split; [apply Z.div_pos | apply Z.div_lt_upper_bound]; lia |].
    change (zlen [_; _; _]) with 3.
    eapply codepoint_multi; [exact Ho | lia | exact Hx | lia | done | | | change (utf8_min 3) with 2048; lia | done].
    { pose proof (Z.div_pos c 4096). lia. }
    change (Z.to_nat (3 - 1)) with 2%nat. rewrite (utf8_continue_step _ _ _ _ ((c / 64) mod 64)) by (done || (apply Z.div_pos; lia)).
    rewrite <- E2, (utf8_continue_step _ _ _ _ (c mod 64)) by (done || (apply Z.div_pos; lia)).
    cbn [utf8_continue]. by rewrite <- E1.
  - destruct (utf8_lead_byte (c / 262144)) as (_ & _ & Hlead). destruct Hlead as (Ho & Hx & _); [split; [apply Z.div_pos | apply Z.div_lt_upper_bound]; lia |].
    change (zlen [_; _; _; _]) with 4.
    eapply codepoint_multi; [exact Ho | lia | exact Hx | lia | done | | | change (utf8_min 4) with 65536; lia | done].
    { pose proof (Z.div_pos c 262144). lia. }
    change (Z.to_nat (4 - 1)) with 3%nat. rewrite (utf8_continue_step _ _ _ _ ((c / 4096) mod 64)) by (done || (apply Z.div_pos; lia)).
    rewrite <- E3, (utf8_continue_step _ _ _ _ ((c / 64) mod 64)) by (done || (apply Z.div_pos; lia)).
    rewrite <- E2, (utf8_continue_step _ _ _ _ (c mod 64)) by (done || (apply Z.div_pos; lia)).
    cbn [utf8_continue]. by rewrite <- E1.
Qed.

Lemma l_utf8_strlen_encode c : 0 < c → valid_unicode c = true → l_utf8_strlen (utf8_encode c) = 1.
Proof.
  intros Hc Hv. pose proof (valid_unicode_bound c Hv) as Hmax. unfold utf8_encode, l_utf8_strlen.
  assert (Hm : ∀ x, 0 ≤ x mod 64 < 64) by (intros x; apply Z.mod_pos_bound; lia).
  pose proof (λ x, utf8_cont_byte (x mod 64) (Hm x)) as Hcont.
  assert (Hskip : ∀ x l, filter (λ b, Z.shiftr b 6 ≠ 2) ((0x80 + x mod 64) :: l) = filter (λ b, Z.shiftr b 6 ≠ 2) l).
  { intros x l. rewrite filter_cons_False; [done |]. destruct (Hcont x) as (_ & _ & ->). tauto. }
  destruct (Z.ltb_spec c 0x80); [| destruct (Z.ltb_spec c 0x800); [| destruct (Z.ltb_spec c 0x10000)]];
    (rewrite filter_cons_True; [rewrite ?Hskip; done |]).
  - rewrite Z.shiftr_div_pow2 by lia. change (2 ^ 6) with 64. pose proof (Z.div_lt_upper_bound c 64 2). lia.
  - destruct (utf8_lead_byte (c / 64)) as (Hlead & _ & _). apply Hlead. split; [apply Z.div_pos | apply Z.div_lt_upper_bound]; lia.
  - destruct (utf8_lead_byte (c / 4096)) as (_ & Hlead & _). apply Hlead. split; [apply Z.div_pos | apply Z.div_lt_upper_bound]; lia.
  - destruct (utf8_lead_byte (c / 262144)) as (_ & _ & Hlead). apply Hlead. split; [apply Z.div_pos | apply Z.div_lt_upper_bound]; lia.
Qed.

Lemma utf8_encode_length c : 1 ≤ zlen (utf8_encode c) ≤ 4.
Proof. unfold utf8_encode. repeat case_b; rewrite ?zlen_cons, ?zlen_nil; lia. Qed.

(** A character of a password. *)
Definition utf8_char (c : Z) : Prop := 0 < c ∧ valid_unicode c = true.

Lemma l_utf8_strlen_encode_all cps : Forall utf8_char cps → l_utf8_strlen (cps ≫= utf8_encode) = zlen cps.
Proof.
  induction 1 as [|c cps [Hc Hv] Hcps IH]; [done |]. csimpl. unfold l_utf8_strlen in *.
  rewrite list.filter_app, zlen_app, IH, zlen_cons. fold (l_utf8_strlen (utf8_encode c)). by rewrite l_utf8_strlen_encode.
Qed.

Section nt_hash.
Context `{Ell}.

Lemma ucs2_loop_encode cps : ∀ done_ val buffer,
  Forall utf8_char cps → zlen done_ + zlen (cps ≫= utf8_encode) < 2 ^ 32 →
  ucs2_loop (length cps) (done_ ++ (cps ≫= utf8_encode) ++ [0]) (zlen done_ + zlen (cps ≫= utf8_encode)) (zlen done_) val buffer =
    Ok (if bool_decide (Forall (λ c, c ≤ 0xffff) cps) then Some (buffer ++ (cps ≫= le16_bytes)) else None).
Proof.
  induction cps as [|c cps IH]; intros done_ val buffer Hc Hl.
  { cbn. by rewrite app_nil_r. }
  apply list.Forall_cons in Hc as [[Hc Hv] Hcps]. cbn [length ucs2_loop]. csimpl. 
  change ((c :: cps) ≫= utf8_encode) with (utf8_encode c ++ (cps ≫= utf8_encode)) in *.
  pose proof (utf8_encode_length c) as He. rewrite zlen_app in *. set (rest := cps ≫= utf8_encode) in *. znn.
  destruct (Z.leb_spec (zlen done_) (zlen done_ + (zlen (utf8_encode c) + zlen rest))); [| lia].
  rewrite padd_app by done. rewrite u64_small by lia. rewrite <- app_assoc.
  rewrite l_utf8_get_codepoint_encode, bind_ok by (done || lia). cbn [default from_option id]. unfold id.
  destruct (Z.ltb_spec 0xffff c) as [Hbig|Hsmall].
  { rewrite bool_decide_false; [done |]. intros HF. apply list.Forall_cons in HF as [? _]. lia. }
  rewrite u32_small by lia. specialize (IH (done_ ++ utf8_encode c) c (buffer ++ le16_bytes c) Hcps).
  rewrite zlen_app, <- app_assoc in IH. fold rest in IH.
  replace (zlen done_ + (zlen (utf8_encode c) + zlen rest)) with (zlen done_ + zlen (utf8_encode c) + zlen rest) by lia.
  rewrite IH by lia. f_equal. rewrite <- app_assoc.
  erewrite (bool_decide_ext (Forall _ (c :: cps))); [done |]. rewrite list.Forall_cons. tauto.
Qed.

(** C35: The NT hash of a password given in UTF-8: the MD4 digest of its characters as 16-bit
    little-endian numbers, and a failure when a character is outside of the basic plane.  The
    password is the RFC 3629 encoding of any characters that ell accepts. *)
Theorem mschap_nt_password_hash_correct junk cps md4 :
  Forall utf8_char cps → zlen (cps ≫= utf8_encode) < 2 ^ 32 → l_checksum_new L_CHECKSUM_MD4 = Some md4 →
  mschap_nt_password_hash junk (cps ≫= utf8_encode) =
    Ok (if bool_decide (Forall (λ c, c ≤ 0xffff) cps) then Some (ptake (md4 (cps ≫= le16_bytes)) 16) else None).
Proof.
  intros Hc Hl Hm. unfold mschap_nt_password_hash. rewrite l_utf8_strlen_encode_all by done.
  pose proof (ucs2_loop_encode cps [] (junk 0%nat) [] Hc) as Hloop. change (zlen (@nil Z)) with 0 in Hloop.
  rewrite !Z.add_0_l in Hloop. cbn [app] in Hloop. unfold zlen at 1. rewrite Nat2Z.id, Hloop, bind_ok by lia.
  case_bool_decide; [| done]. by rewrite Hm.
Qed.
End nt_hash.

#[local] Existing Instance toy_ell.

Lemma mschap_nt_password_hash_correct_witness :
  let cps := [112; 228; 0x20ac; 0x10348] in
  mschap_nt_password_hash (λ _, 0) (cps ≫= utf8_encode) =
    Ok (if bool_decide (Forall (λ c, c ≤ 0xffff) cps) then Some (ptake (toy_digest [] 16 (cps ≫= le16_bytes)) 16) else None).
Proof. apply mschap_nt_password_hash_correct; [repeat constructor; by_eval | by_eval | done]. Defined.
