(* ===== verification/EapMethods.v ===== *)
(** * EAP methods: MD5, GTC and MSCHAPv2 (src/eap-md5.c, src/eap-gtc.c, src/eap-mschapv2.c)

    The state of each method and its callbacks, on the framework of Eap.v.  The secrets are wiped
    before they are freed, which is not visible here. *)

From stdpp Require Import base numbers list option.
From Stdlib Require Import ZArith Lia Ascii String.
From S2P Require Import Prelude StRes IeMisc Crypto Eap Mschap.

Open Scope Z_scope.

(** [struct eap_mschapv2_state]; [ms_draws] is the number of challenges drawn so far. *)
Record eap_mschapv2_state : Type := mk_mschapv2 {
  ms_password_hash : list Z;
  ms_user : list Z;
  ms_current_id : Z;
  ms_peer_challenge : list Z;
  ms_server_challenge : list Z;
  ms_draws : nat;
}.

#[export] Instance mschapv2_eta : Eta eap_mschapv2_state := λ s,
  mk_mschapv2 (ms_password_hash s) (ms_user s) (ms_current_id s) (ms_peer_challenge s) (ms_server_challenge s) (ms_draws s).
#[export] Instance set_ms_current_id : SetterOf ms_current_id.
Proof. derive_setter. Defined.
#[export] Instance set_ms_peer_challenge : SetterOf ms_peer_challenge.
Proof. derive_setter. Defined.
#[export] Instance set_ms_server_challenge : SetterOf ms_server_challenge.
Proof. derive_setter. Defined.
#[export] Instance set_ms_draws : SetterOf ms_draws.
Proof. derive_setter. Defined.

(** What [method_state] points to. *)
Inductive method_state : Type :=
  | EapMd5State (secret : list Z)
  | EapGtcState (password : list Z)
  | EapMschapv2State (s : eap_mschapv2_state).

Definition MSCHAPV2_CHAL_LEN : Z := 16.
Definition MSCHAPV2_OP_CHALLENGE : Z := 1.
Definition MSCHAPV2_OP_RESPONSE : Z := 2.
Definition MSCHAPV2_OP_SUCCESS : Z := 3.
Definition MSCHAPV2_OP_FAILURE : Z := 4.
Definition EAP_GTC_MAX_PASSWORD_LEN : Z := 2048.

Definition eap_md5 : eap_method := mk_method EAP_TYPE_MD5_CHALLENGE [0; 0; 0] 0 false "MD5".
Definition eap_gtc : eap_method := mk_method EAP_TYPE_GTC [0; 0; 0] 0 false "GTC".
Definition eap_mschapv2 : eap_method := mk_method EAP_TYPE_MSCHAPV2 [0; 0; 0] 0 true "MSCHAPV2".

Definition EEXIST_ret : Z := -17.
Definition EINVAL_ret : Z := -22.

(** ** Settings *)

(** The checks of MD5 and GTC, which differ in the name of the deprecated setting. *)
Definition password_check_settings (old : string) (settings : l_settings) (secrets : list eap_secret_info)
    (prefix : string) (missing : list eap_secret_info) : res (Z * list eap_secret_info) :=
  let identity_key := setting_key 72 prefix "Identity" in
  let password_key := setting_key 72 prefix "Password" in
  Ok (0,
    match l_settings_get_string settings identity_key with
    | None =>
        match l_queue_find secrets identity_key with
        | Some _ => missing
        | None => eap_append_secret missing EAP_SECRET_REMOTE_USER_PASSWORD identity_key (Some password_key) None
                    EAP_CACHE_TEMPORARY
        end
    | Some identity =>
        match l_settings_get_string settings password_key with
        | Some _ => missing
        | None =>
            match l_settings_get_string settings (setting_key 72 prefix old) with
            | Some _ => missing
            | None =>
                match l_queue_find secrets password_key with
                | Some _ => missing
                | None => eap_append_secret missing EAP_SECRET_REMOTE_PASSWORD password_key None (Some identity)
                            EAP_CACHE_TEMPORARY
                end
            end
        end
    end).

(** The password, from its setting or the deprecated one. *)
Definition password_setting (old : string) (settings : l_settings) (prefix : string) : option (list Z) :=
  match l_settings_get_string settings (setting_key 72 prefix "Password") with
  | Some p => Some p
  | None => l_settings_get_string settings (setting_key 72 prefix old)
  end.

Section methods.
Context `{Ell} `{Des}.
Variable on_complete : eap_result → sr (eap_state method_state) unit.
Variable junk : nat → Z.
(** [l_getrandom]: the bytes of each draw. *)
Variable random : nat → list Z.
Abbreviation eap := (sr (eap_state method_state)).

(** ** MD5 *)

Definition md5_state : eap (list Z) :=
  d ← eap_get_data;
  match d with Some (EapMd5State secret) => mret secret | _ => run Fault end.

Definition eap_md5_free : eap unit := md5_state;; eap_set_data None.

Definition eap_md5_handle_request (pkt : ptr) (len : Z) : eap unit :=
  secret ← md5_state;
  ok ← run (if len <? 1 then Ok false
            else n ← rd pkt 0; Ok (negb (len <? n + 1) && negb (n <? 1)));
  if negb ok then eap_method_error on_complete junk
  else
    match l_checksum_new L_CHECKSUM_MD5 with
    | None => eap_method_error on_complete junk
    | Some md5 =>
        n ← run (rd pkt 0);
        value ← run (rdn (pkt +! 1) n);
        identifier ← eap_save_last_id;
        response ← run (put1 (l_malloc junk 22) 5 16);
        response ← run (put response 6 (ptake (md5 ([identifier] ++ secret ++ value)) 16));
        eap_method_respond response 22;;
        eap_method_success on_complete junk
    end.

Definition eap_md5_check_settings := password_check_settings "MD5-Secret".

Definition eap_md5_load_settings (settings : l_settings) (prefix : string) : eap bool :=
  match password_setting "MD5-Secret" settings prefix with
  | None => mret false
  | Some secret => eap_set_data (Some (EapMd5State secret));; mret true
  end.

(** ** GTC *)

Definition gtc_state : eap (list Z) :=
  d ← eap_get_data;
  match d with Some (EapGtcState password) => mret password | _ => run Fault end.

Definition eap_gtc_free : eap unit := gtc_state;; eap_set_data None.

(** The request is only looked at for the log. *)
Definition eap_gtc_handle_request (pkt : ptr) (len : Z) : eap unit :=
  password ← gtc_state;
  response ← run (put (l_malloc junk (5 + zlen password)) 5 password);
  eap_method_respond response (5 + zlen password);;
  eap_method_success on_complete junk.

Definition eap_gtc_check_settings := password_check_settings "GTC-Secret".

Definition eap_gtc_load_settings (settings : l_settings) (prefix : string) : eap bool :=
  match password_setting "GTC-Secret" settings prefix with
  | None => mret false
  | Some password =>
      if EAP_GTC_MAX_PASSWORD_LEN <? zlen password then mret false
      else eap_set_data (Some (EapGtcState password));; mret true
  end.

(** ** MSCHAPv2 *)

Definition mschapv2_state : eap eap_mschapv2_state :=
  d ← eap_get_data;
  match d with Some (EapMschapv2State s) => mret s | _ => run Fault end.
Definition mod_mschapv2 (f : eap_mschapv2_state → eap_mschapv2_state) : eap unit :=
  s ← mschapv2_state;
  eap_set_data (Some (EapMschapv2State (f s))).

Definition eap_mschapv2_reset_state : eap bool :=
  mod_mschapv2 (λ s, s <| ms_peer_challenge := zeros 16 |> <| ms_server_challenge := zeros 16 |>);;
  mret true.

Definition eap_mschapv2_free : eap unit := eap_mschapv2_reset_state;; eap_set_data None.

(** [struct mschapv2_response] and the name. *)
Definition mschapv2_response (s : eap_mschapv2_state) (nt_response : list Z) : list Z :=
  let size := 54 + zlen (ms_user s) in
  [MSCHAPV2_OP_RESPONSE; ms_current_id s] ++ be16_bytes size ++ [49] ++ ms_peer_challenge s ++ zeros 8 ++
  nt_response ++ [0] ++ ms_user s.

Definition eap_mschapv2_send_response : eap bool :=
  s ← mschapv2_state;
  let size := 54 + zlen (ms_user s) in
  match mschapv2_generate_nt_response (ms_password_hash s) (ms_peer_challenge s) (ms_server_challenge s) (ms_user s) with
  | None => mret false
  | Some nt_response =>
      output ← run (put (l_malloc junk (size + 5)) 5 (mschapv2_response s nt_response));
      eap_method_respond output (size + 5);;
      mret true
  end.

Definition eap_mschapv2_handle_challenge (pkt : ptr) (len : Z) : eap unit :=
  n ← run (rd pkt 0);
  if negb (n =? MSCHAPV2_CHAL_LEN) then eap_method_error on_complete junk
  else if u64 (len - 1) <? MSCHAPV2_CHAL_LEN then eap_method_error on_complete junk
  else
    c ← run (rdn (pkt +! 1) 16);
    mod_mschapv2 (λ s, s <| ms_server_challenge := c |> <| ms_peer_challenge := random (ms_draws s) |>
                         <| ms_draws := S (ms_draws s) |>);;
    sent ← eap_mschapv2_send_response;
    if (sent : bool) then mret tt else eap_method_error on_complete junk.

(** The session keys, once the response of the authenticator is the right one. *)
Definition mschapv2_session_key (pw_hash_hash nt_response : list Z) : option (list Z) :=
  master_key ← mschapv2_get_master_key pw_hash_hash nt_response;
  k1 ← mschapv2_get_asymmetric_start_key master_key 16 false true;
  k2 ← mschapv2_get_asymmetric_start_key master_key 16 false false;
  Some (k1 ++ k2).

Definition eap_mschapv2_handle_success (pkt : ptr) (len : Z) : eap unit :=
  s ← mschapv2_state;
  let pw_hash_hash := default (l_malloc junk 16) (mschapv2_hash_nt_password_hash (ms_password_hash s)) in
  match mschapv2_generate_nt_response (ms_password_hash s) (ms_peer_challenge s) (ms_server_challenge s) (ms_user s) with
  | None => eap_method_error on_complete junk
  | Some nt_response =>
      match mschapv2_generate_authenticator_response pw_hash_hash nt_response (ms_peer_challenge s)
              (ms_server_challenge s) (ms_user s) with
      | None => eap_method_error on_complete junk
      | Some authenticator_resp =>
          same ← run (if len <? 42 then Ok false else memeq pkt authenticator_resp);
          if negb same then eap_method_error on_complete junk
          else
            match mschapv2_session_key pw_hash_hash nt_response with
            | None => eap_method_error on_complete junk
            | Some session_key =>
                eap_method_success on_complete junk;;
                buffer ← run (put1 (l_malloc junk 6) 5 MSCHAPV2_OP_SUCCESS);
                eap_method_respond buffer 6;;
                eap_set_key_material session_key None None None
            end
      end
  end.

Definition eap_mschapv2_handle_failure (pkt : ptr) (len : Z) : eap unit := eap_method_error on_complete junk.

Definition eap_mschapv2_handle_request (pkt : ptr) (len : Z) : eap unit :=
  mschapv2_state;;
  if len <? 5 then eap_method_error on_complete junk
  else
    id ← run (rd pkt 1);
    mod_mschapv2 (λ s, s <| ms_current_id := id |>);;
    mschap_len ← run (l_get_be16 (pkt +! 2));
    if negb (mschap_len =? len) then eap_method_error on_complete junk
    else
      op ← run (rd pkt 0);
      if op =? MSCHAPV2_OP_CHALLENGE then eap_mschapv2_handle_challenge (pkt +! 4) (len - 4)
      else if op =? MSCHAPV2_OP_SUCCESS then eap_mschapv2_handle_success (pkt +! 4) (len - 4)
      else if op =? MSCHAPV2_OP_FAILURE then eap_mschapv2_handle_failure (pkt +! 4) (len - 4)
      else eap_method_error on_complete junk.

(** The password of a secret [user NUL password]. *)
Definition mschapv2_validate (password : list Z) (missing : list eap_secret_info) : res (Z * list eap_secret_info) :=
  r ← mschap_nt_password_hash junk password;
  Ok (match r with Some _ => 0 | None => EINVAL_ret end, missing).

Definition eap_mschapv2_check_settings (settings : l_settings) (secrets : list eap_secret_info) (prefix : string)
    (missing : list eap_secret_info) : res (Z * list eap_secret_info) :=
  let setting := setting_key 64 prefix "Identity" in
  let setting2 := setting_key 64 prefix "Password" in
  match l_settings_get_string settings setting with
  | None =>
      match l_queue_find secrets setting with
      | Some secret =>
          v ← nonnull (sec_value secret);
          mschapv2_validate (cstring (v +! (zlen (cstring v) + 1))) missing
      | None => Ok (0, eap_append_secret missing EAP_SECRET_REMOTE_USER_PASSWORD setting (Some setting2) None
                         EAP_CACHE_TEMPORARY)
      end
  | Some identity =>
      match l_settings_get_string settings setting2,
            l_settings_get_bytes settings (setting_key 64 prefix "Password-Hash") with
      | Some _, Some _ => Ok (EEXIST_ret, missing)
      | None, Some hash => Ok (if negb (zlen hash =? 16) then EINVAL_ret else 0, missing)
      | Some password, None => mschapv2_validate password missing
      | None, None =>
          match l_queue_find secrets setting2 with
          | None => Ok (0, eap_append_secret missing EAP_SECRET_REMOTE_PASSWORD setting2 None (Some identity)
                             EAP_CACHE_TEMPORARY)
          | Some secret => v ← nonnull (sec_value secret); mschapv2_validate (cstring v) missing
          end
      end
  end.

(** The result of the hash function is not looked at: it leaves the zeros of the new state. *)
Definition eap_mschapv2_load_settings (settings : l_settings) (prefix : string) : eap bool :=
  match l_settings_get_string settings (setting_key 64 prefix "Identity") with
  | None => mret false
  | Some user =>
      hash ← run (match l_settings_get_string settings (setting_key 64 prefix "Password") with
                  | Some password => r ← mschap_nt_password_hash junk password; Ok (default (zeros 16) r)
                  | None =>
                      hash ← nonnull (l_settings_get_bytes settings (setting_key 64 prefix "Password-Hash"));
                      rdn hash 16
                  end);
      eap_set_data (Some (EapMschapv2State (mk_mschapv2 hash user 0 (zeros 16) (zeros 16) 0)));;
      mret true
  end.

(** ** The tables of callbacks *)

Definition eap_method_ops (m : eap_method) : eap_ops method_state :=
  if request_type m =? EAP_TYPE_MD5_CHALLENGE then
    mk_ops (Some eap_md5_check_settings) (Some eap_md5_load_settings) None (Some eap_md5_free)
      (Some eap_md5_handle_request) None None None None
  else if request_type m =? EAP_TYPE_GTC then
    mk_ops (Some eap_gtc_check_settings) (Some eap_gtc_load_settings) None (Some eap_gtc_free)
      (Some eap_gtc_handle_request) None None None None
  else if request_type m =? EAP_TYPE_MSCHAPV2 then
    mk_ops (Some eap_mschapv2_check_settings) (Some eap_mschapv2_load_settings) (Some eap_mschapv2_reset_state)
      (Some eap_mschapv2_free) (Some eap_mschapv2_handle_request) None None None None
  else mk_ops None None None None None None None None None.
End methods.
