(* ===== verification/EapRun.v ===== *)
(** * EAP: the methods and a conversation (src/eap-md5.c, src/eap-gtc.c, src/eap-mschapv2.c)

    The modelled methods and the completion callback of eapol.c keep the contract of EapSpec.v;
    what each method computes; flaws of the framework. *)

From stdpp Require Import base numbers list option relations.
From Stdlib Require Import ZArith Lia.
From S2P Require Import Prelude StRes IeMisc Crypto Eap EapSpec Mschap EapMethods.

Open Scope Z_scope.

(** ** The owner *)

Section owner.
Context `{Ell} `{Des}.
Variable junk : nat → Z.
Variable random : nat → list Z.

(** [eapol_eap_complete_cb]: a failed conversation is freed, a successful one is reset. *)
Definition eapol_on_complete (r : eap_result) : sr (eap_state method_state) unit :=
  let ops := eap_method_ops (λ _, mret tt) junk random in
  match r with
  | EAP_RESULT_SUCCESS => eap_reset ops;; mret tt
  | _ => eap_free ops
  end.

(** The states of the methods. *)
Definition ms_ok (m : eap_method) (ms : method_state) : Prop :=
  match ms with
  | EapMd5State secret => m = eap_md5
  | EapGtcState password => m = eap_gtc
  | EapMschapv2State s => m = eap_mschapv2 ∧ zlen (ms_peer_challenge s) = 16
  end.
Abbreviation eap_peer := (eap_peer ms_ok).

Lemma wp_get_data (Q : option method_state → eap_state method_state → Prop) s :
  eap_freed s = false → Q (eap_method_state s) s → wp eap_get_data Q s.
Proof. intros Hf HQ. unfold eap_get_data. sr_seq. apply wp_get_eap; [done |]. by sr_seq. Qed.

Lemma wp_mschapv2_state (Q : eap_mschapv2_state → eap_state method_state → Prop) s ms :
  eap_freed s = false → eap_method_state s = Some (EapMschapv2State ms) → Q ms s → wp mschapv2_state Q s.
Proof. intros Hf Hm HQ. unfold mschapv2_state. sr_seq. apply wp_get_data; [done |]. rewrite Hm. by sr_seq. Qed.

Lemma wp_mod_mschapv2 f (Q : unit → eap_state method_state → Prop) s ms :
  eap_freed s = false → eap_method_state s = Some (EapMschapv2State ms) →
  Q tt (s <| eap_method_state := Some (EapMschapv2State (f ms)) |>) → wp (mod_mschapv2 f) Q s.
Proof.
  intros Hf Hm HQ. unfold mod_mschapv2. sr_seq. eapply wp_mschapv2_state; [done | exact Hm |].
  unfold eap_set_data. by apply wp_mod_eap.
Qed.

(** The [free] callback of a method. *)
Lemma method_free_ok oc m ms s :
  eap_freed s = false → eap_method_state s = Some ms → ms_ok m ms →
  wp (match op_free (eap_method_ops oc junk random m) with Some f => f | None => mret tt end)
     (λ _ t, eap_freed t = false ∧ eap_out t = eap_out s) s.
Proof.
  intros Hf Hs Hm. destruct ms as [secret|password|ms]; cbn [ms_ok] in Hm; [subst m | subst m | destruct Hm as [-> _]]; cbn -[mbind mret].
  - unfold eap_md5_free, md5_state. sr_seq. apply wp_get_data; [done |]. rewrite Hs. sr_seq.
    unfold eap_set_data. by apply wp_mod_eap.
  - unfold eap_gtc_free, gtc_state. sr_seq. apply wp_get_data; [done |]. rewrite Hs. sr_seq.
    unfold eap_set_data. by apply wp_mod_eap.
  - unfold eap_mschapv2_free, eap_mschapv2_reset_state. sr_seq. eapply wp_mod_mschapv2; [done | exact Hs |]. sr_seq.
    unfold eap_set_data. by apply wp_mod_eap.
Qed.

#[export] Instance eapol_owner : EapOwner eapol_on_complete ms_ok.
Proof.
  split.
  - intros r s Hr Hp. assert (Hf : wp (eap_free (eap_method_ops (λ _, mret tt) junk random))
      (λ _ t, eap_freed t = true ∧ eap_out t = eap_out s) s); [| by destruct r].
    pose proof (ep_alive _ _ Hp) as Ha. pose proof (ep_method _ _ Hp) as Hm.
    unfold eap_free, eap_free_common. sr_seq. apply wp_get_eap; [done |]. sr_seq.
    apply wp_mono with (P := λ _ t, eap_freed t = false ∧ eap_out t = eap_out s).
    { destruct (eap_meth s) as [m|].
      - destruct Hm as (_ & _ & ms & Hms & Hok). rewrite Hms. sr_seq. eapply wp_run; [done |]. by eapply method_free_ok.
      - rewrite Hm. by sr_seq. }
    intros [] t [Ht Ho]. apply wp_mod_eap; [done |]. by apply wp_mod_eap.
  - intros s Hp. unfold eapol_on_complete, eap_reset. pose proof (ep_alive _ _ Hp) as Ha. pose proof (ep_method _ _ Hp) as Hm.
    sr_seq. apply wp_get_eap; [done |]. sr_seq.
    apply wp_mono with (P := λ ok t, ok = true ∧ eap_peer t ∧ eap_out t = eap_out s ∧ eap_meth t = eap_meth s).
    { destruct (eap_meth s) as [m|] eqn:Hmeth; [| rewrite Hm; by sr_seq].
      destruct Hm as (Hv & Hty & ms & Hms & Hok). rewrite Hms. sr_seq. eapply wp_run; [done |].
      destruct ms as [secret|password|ms]; cbn [ms_ok] in Hok; [subst m; by sr_seq | subst m; by sr_seq |].
      destruct Hok as [-> Hch]. cbn -[mbind mret]. unfold eap_mschapv2_reset_state. sr_seq.
      eapply wp_mod_mschapv2; [done | exact Hms |]. sr_seq. split_and!; [done | | done | by rewrite <- Hmeth].
      destruct Hp. split; try done. cbn. rewrite Hmeth. split_and!; try done. eexists. by split. }
    intros ok t (-> & Hpt & Ho & Hmt). cbn [negb]. sr_seq. apply wp_mod_eap; [apply Hpt |]. sr_seq. split_and!; [| done | done].
    by apply eap_peer_timer, eap_peer_success.
Qed.
End owner.

(** ** The methods *)

Lemma wp_method_respond {MS} (ms_ok : eap_method → MS → Prop) m hdr data rest len (Q : unit → eap_state MS → Prop) s :
  EapSpec.eap_peer ms_ok s → eap_meth s = Some m → request_type m ≠ EAP_TYPE_EXPANDED → zlen hdr = 5 → len = 5 + zlen data →
  Q tt (s <| eap_out := eap_out s ++ [EapTx (response_of (eap_last_id s) (request_type m) data)] |>) →
  wp (eap_method_respond (hdr ++ data ++ rest) len) Q s.
Proof.
  intros Hp Hm Ht Hh Hl HQ. unfold eap_method_respond. sr_seq. apply wp_get_eap; [apply Hp |]. sr_seq.
  eapply wp_run; [by rewrite Hm |]. apply wp_eap_send_response; [apply Hp | done..].
Qed.

Lemma wp_peer_success {MS} (ms_ok : eap_method → MS → Prop) oc junk (Q : unit → eap_state MS → Prop) s :
  EapSpec.eap_peer ms_ok s → Q tt (s <| eap_msuccess := true |>) → wp (eap_method_success oc junk) Q s.
Proof.
  intros Hp HQ. unfold eap_method_success. sr_seq. apply wp_mod_eap; [apply Hp |]. sr_seq.
  apply wp_get_eap; [apply Hp |]. cbn. by rewrite (ep_peer _ _ Hp).
Qed.

Section methods.
Context {EC : Ell} {EL : EllLaws EC} {DC : Des} {DL : DesLaws DC}.
Variable junk : nat → Z.
Variable random : nat → list Z.
Hypothesis Hrandom : ∀ n, zlen (random n) = 16.
Abbreviation oc := (eapol_on_complete junk random).
Abbreviation eap_peer := (EapSpec.eap_peer ms_ok).
Abbreviation state := (eap_state method_state).

Lemma eap_peer_mschapv2 (s : state) ms :
  eap_peer s → eap_meth s = Some eap_mschapv2 → zlen (ms_peer_challenge ms) = 16 →
  eap_peer (s <| eap_method_state := Some (EapMschapv2State ms) |>).
Proof.
  intros [] Hm Hl. split; try done. cbn. rewrite Hm. split_and!; try done. eexists. by split.
Qed.

(** An error ends the turn. *)
Lemma error_turn id (s s' : state) :
  eap_peer s' → eap_out s' = eap_out s → wp (eap_method_error oc junk) (λ _, turn ms_ok id s) s'.
Proof.
  intros Hp Ho. eapply wp_mono; [by apply (eap_method_error_ok oc junk ms_ok _) |].
  intros [] t [Hf Ht]. exists []. split; [apply answers_nil |]. right. split; [| done]. by rewrite Ht, Ho.
Qed.

(** *** MD5 *)

(** The value field of a well-formed request. *)
Definition md5_request (pkt : list Z) (len : Z) (value : list Z) : Prop :=
  ∃ rest, pkt = zlen value :: value ++ rest ∧ 1 ≤ zlen value ∧ zlen value + 1 ≤ len.

Lemma md5_handle_request_cases (s : state) secret pkt len :
  eap_peer s → eap_meth s = Some eap_md5 → eap_method_state s = Some (EapMd5State secret) →
  bytes_ok pkt → 0 ≤ len ≤ zlen pkt →
  wp (eap_md5_handle_request oc junk pkt len)
     (λ _ t, (∃ value md5, md5_request pkt len value ∧ l_checksum_new L_CHECKSUM_MD5 = Some md5 ∧
                t = s <| eap_out := eap_out s ++ [EapTx (response_of (eap_last_id s) EAP_TYPE_MD5_CHALLENGE
                           ([16] ++ md5 ([u8 (eap_last_id s)] ++ secret ++ value)))] |> <| eap_msuccess := true |>) ∨
             (eap_freed t = true ∧ eap_out t = eap_out s ++ [EapComplete EAP_RESULT_FAIL] ∧
                ((∀ value, ¬ md5_request pkt len value) ∨ l_checksum_new L_CHECKSUM_MD5 = None))) s.
Proof.
  intros Hp Hm Hs Hok Hl. unfold eap_md5_handle_request, md5_state. sr_seq. apply wp_get_data; [apply Hp |]. rewrite Hs. sr_seq.
  assert (Herr : ∀ P : state → Prop, (∀ value, ¬ md5_request pkt len value) ∨ l_checksum_new L_CHECKSUM_MD5 = None →
    wp (eap_method_error oc junk) (λ _ t, P t ∨ (eap_freed t = true ∧ eap_out t = eap_out s ++ [EapComplete EAP_RESULT_FAIL] ∧
                ((∀ value, ¬ md5_request pkt len value) ∨ l_checksum_new L_CHECKSUM_MD5 = None))) s).
  { intros P He. eapply wp_mono; [by apply (eap_method_error_ok oc junk ms_ok _) |]. intros [] t [? ?]. right. by split_and!. }
  destruct (Z.ltb_spec len 1).
  { eapply wp_run; [done |]. cbn [negb]. apply Herr. left. intros v (rest & _ & ? & ?). lia. }
  destruct pkt as [|n pkt].
  { exfalso. change (zlen (@nil Z)) with 0 in Hl. clear -Hl H. lia. }
  apply list.Forall_cons in Hok as [Hn Hok]. unfold byte_ok in Hn.
  eapply wp_run; [by rewrite rd_cons_0, bind_ok |].
  destruct (negb (len <? n + 1) && negb (n <? 1)) eqn:Hgood; cbn [negb].
  2:{ apply Herr. left. intros v (rest & [= -> ->] & ? & ?). lia. }
  destruct (l_checksum_new L_CHECKSUM_MD5) as [md5|] eqn:Hmd5; [| apply Herr; by right].
  sr_seq. eapply wp_run; [apply rd_cons_0 |]. sr_seq. rewrite zlen_cons in Hl.
  eapply wp_run; [apply rdn_ok; change ((n :: pkt) +! 1) with pkt; lia |]. change ((n :: pkt) +! 1) with pkt.
  unfold eap_save_last_id. sr_seq. apply wp_get_eap; [apply Hp |]. sr_seq.
  set (value := ptake pkt n). assert (Hv : zlen value = n) by (unfold value; rewrite zlen_ptake; lia).
  pose proof (proj1 (checksum_ok _ _ ([u8 (eap_last_id s)] ++ secret ++ value) Hmd5)) as Hdl.
  change (l_checksum_digest_length L_CHECKSUM_MD5) with 16 in Hdl.
  set (d := md5 ([u8 (eap_last_id s)] ++ secret ++ value)) in *.
  set (T := (junk <$> seq 6 16) : list Z). assert (HT : zlen T = 16) by done.
  assert (Hmal : l_malloc junk 22 = l_malloc junk 5 ++ [junk 5%nat] ++ T) by done.
  eapply wp_run; [rewrite Hmal; exact (put_mid (l_malloc junk 5) [junk 5%nat] T [u8 16] 5 eq_refl eq_refl) |]. sr_seq.
  eapply wp_run.
  { rewrite ptake_all by lia. rewrite app_assoc, <- (app_nil_r T).
    apply (put_mid (l_malloc junk 5 ++ [u8 16]) T [] d); [done | by rewrite Hdl]. }
  sr_seq. rewrite <- app_assoc.
  change ([u8 16] ++ d ++ []) with (([16] ++ d) ++ []).
  apply (wp_method_respond ms_ok eap_md5); [done | done | done | by rewrite l_malloc_length | rewrite zlen_app, Hdl; done |].
  eapply wp_peer_success; [by apply eap_peer_out |]. left. exists value, md5. split_and!; try done.
  exists (pkt +! n). rewrite Hv. split_and!; [| lia | lia]. unfold value; by rewrite ptake_padd_id.
Qed.

(** *** GTC *)

Lemma put_response size d : size = 5 + zlen d →
  ∃ hdr, zlen hdr = 5 ∧ put (l_malloc junk size) 5 d = Ok (hdr ++ d ++ []).
Proof.
  intros ->. pose proof (zlen_nonneg d). exists (ptake (l_malloc junk (5 + zlen d)) 5).
  assert (Hl : zlen (l_malloc junk (5 + zlen d)) = 5 + zlen d) by (apply l_malloc_length; lia).
  split; [rewrite zlen_ptake; lia |]. rewrite put_ok by lia. do 3 f_equal. apply padd_all. lia.
Qed.

Lemma gtc_handle_request_reply (s : state) password pkt len :
  eap_peer s → eap_meth s = Some eap_gtc → eap_method_state s = Some (EapGtcState password) →
  eap_gtc_handle_request oc junk pkt len s =
    Ok (tt, s <| eap_out := eap_out s ++ [EapTx (response_of (eap_last_id s) EAP_TYPE_GTC password)] |> <| eap_msuccess := true |>).
Proof.
  intros Hp Hm Hs. apply wp_eq. unfold eap_gtc_handle_request, gtc_state. sr_seq. apply wp_get_data; [apply Hp |]. rewrite Hs. sr_seq.
  destruct (put_response (5 + zlen password) password eq_refl) as (hdr & Hh & Hput). eapply wp_run; [exact Hput |]. sr_seq.
  apply (wp_method_respond ms_ok eap_gtc); [done | done | done | done | done |].
  eapply wp_peer_success; [by apply eap_peer_out |]. done.
Qed.

(** *** MSCHAPv2 *)

Lemma des_encrypt_length challenge key r : zlen challenge = 8 → mschap_des_encrypt challenge key = Some r → zlen r = 8.
Proof.
  intros Hc. unfold mschap_des_encrypt. destruct (l_cipher_new_des _) as [f|] eqn:Hf; [| done]. intros [= <-].
  by destruct (des_length _ _ challenge Hf Hc).
Qed.

Lemma nt_response_length hash pc sc user r : mschapv2_generate_nt_response hash pc sc user = Some r → zlen r = 24.
Proof.
  unfold mschapv2_generate_nt_response, mschapv2_challenge_hash.
  destruct (l_checksum_new L_CHECKSUM_SHA1) as [sha1|] eqn:Hsha; [| done]. cbn [fmap option_fmap option_map mbind option_bind].
  set (d := _ ++ _ ++ mschapv2_exlude_domain_name user). destruct (checksum_ok _ _ d Hsha) as [Hd _].
  change (l_checksum_digest_length L_CHECKSUM_SHA1) with 20 in Hd.
  assert (Hc : zlen (ptake (sha1 d) 8) = 8) by (rewrite zlen_ptake; lia). set (c := ptake (sha1 d) 8) in *.
  intros (a & Ha & (b & Hb & (e & He & [= <-])%bind_Some)%bind_Some)%bind_Some.
  apply des_encrypt_length in Ha, Hb, He; [| done..]. rewrite !zlen_app. lia.
Qed.

Lemma mschapv2_response_length ms r :
  zlen (ms_peer_challenge ms) = 16 → zlen r = 24 → zlen (mschapv2_response ms r) = 54 + zlen (ms_user ms).
Proof.
  intros Hc Hr. unfold mschapv2_response. rewrite !zlen_app, Hc, Hr, zlen_be16_bytes.
  change (zlen [_; ms_current_id ms]) with 2. change (zlen (zeros 8)) with 8. change (zlen [49]) with 1. change (zlen [0]) with 1. lia.
Qed.

Lemma wp_mschapv2_send_response (Q : bool → state → Prop) (s : state) ms :
  eap_peer s → eap_meth s = Some eap_mschapv2 → eap_method_state s = Some (EapMschapv2State ms) → zlen (ms_peer_challenge ms) = 16 →
  match mschapv2_generate_nt_response (ms_password_hash ms) (ms_peer_challenge ms) (ms_server_challenge ms) (ms_user ms) with
  | None => Q false s
  | Some r => Q true (s <| eap_out := eap_out s ++ [EapTx (response_of (eap_last_id s) EAP_TYPE_MSCHAPV2 (mschapv2_response ms r))] |>)
  end → wp (eap_mschapv2_send_response junk) Q s.
Proof.
  intros Hp Hm Hs Hc HQ. unfold eap_mschapv2_send_response. sr_seq. eapply wp_mschapv2_state; [apply Hp | exact Hs |].
  cbv zeta. destruct (mschapv2_generate_nt_response _ _ _ _) as [r|] eqn:Hr; [| by sr_seq].
  apply nt_response_length in Hr. pose proof (mschapv2_response_length ms r Hc Hr) as Hl. sr_seq.
  destruct (put_response (54 + zlen (ms_user ms) + 5) (mschapv2_response ms r)) as (hdr & Hh & Hput); [lia |].
  eapply wp_run; [exact Hput |]. sr_seq.
  apply (wp_method_respond ms_ok eap_mschapv2); [done | done | done | done | lia |]. by sr_seq.
Qed.

(** The conversation has failed, with nothing sent. *)
Definition failed (s t : state) : Prop := eap_freed t = true ∧ eap_out t = eap_out s ++ [EapComplete EAP_RESULT_FAIL].

Lemma wp_error (P : state → Prop) (s s' : state) :
  eap_peer s' → eap_out s' = eap_out s → (∀ t, failed s t → P t) → wp (eap_method_error oc junk) (λ _, P) s'.
Proof.
  intros Hp Ho HP. eapply wp_mono; [by apply (eap_method_error_ok oc junk ms_ok _) |]. intros [] t [Hf Ht]. apply HP.
  split; [done |]. by rewrite Ht, Ho.
Qed.

Definition nt_of (ms : eap_mschapv2_state) : option (list Z) :=
  mschapv2_generate_nt_response (ms_password_hash ms) (ms_peer_challenge ms) (ms_server_challenge ms) (ms_user ms).
(** The state after a challenge. *)
Definition challenged (c : list Z) (ms : eap_mschapv2_state) : eap_mschapv2_state :=
  ms <| ms_server_challenge := c |> <| ms_peer_challenge := random (ms_draws ms) |> <| ms_draws := S (ms_draws ms) |>.
Definition with_ms (ms : eap_mschapv2_state) (s : state) : state := s <| eap_method_state := Some (EapMschapv2State ms) |>.

Definition challenge_msg (pkt : list Z) (len : Z) (c : list Z) : Prop :=
  zlen c = 16 ∧ 17 ≤ len ∧ ∃ rest, pkt = 16 :: c ++ rest.

Lemma mschapv2_handle_challenge_cases (s : state) ms pkt len :
  eap_peer s → eap_meth s = Some eap_mschapv2 → eap_method_state s = Some (EapMschapv2State ms) →
  bytes_ok pkt → 1 ≤ len ≤ zlen pkt → len < 2 ^ 32 →
  wp (eap_mschapv2_handle_challenge oc junk random pkt len)
     (λ _ t, (∃ c r, challenge_msg pkt len c ∧ nt_of (challenged c ms) = Some r ∧
                t = with_ms (challenged c ms) s <| eap_out := eap_out s ++
                  [EapTx (response_of (eap_last_id s) EAP_TYPE_MSCHAPV2 (mschapv2_response (challenged c ms) r))] |>) ∨
             (failed s t ∧ ∀ c, challenge_msg pkt len c → nt_of (challenged c ms) = None)) s.
Proof.
  intros Hp Hm Hs Hok Hl Hmax. unfold eap_mschapv2_handle_challenge. sr_seq.
  destruct pkt as [|n pkt]; [exfalso; change (zlen (@nil Z)) with 0 in Hl; lia |]. eapply wp_run; [apply rd_cons_0 |].
  unfold MSCHAPV2_CHAL_LEN.
  destruct (Z.eqb_spec n 16) as [->|Hn]; cbn [negb].
  2:{ eapply wp_error; [done | done |]. intros t Ht. right. split; [done |]. intros c (_ & _ & rest & [= ? _]). done. }
  rewrite u64_small by lia. destruct (Z.ltb_spec (len - 1) 16) as [Hshort|Hlong].
  { eapply wp_error; [done | done |]. intros t Ht. right. split; [done |]. intros c (_ & ? & _). lia. }
  rewrite zlen_cons in Hl. change ((16 :: pkt) +! 1) with pkt. sr_seq. eapply wp_run; [apply rdn_ok; lia |]. sr_seq.
  set (c := ptake pkt 16). assert (Hc : zlen c = 16) by (unfold c; rewrite zlen_ptake; lia).
  assert (Hmsg : ∀ c', challenge_msg (16 :: pkt) len c' → c' = c).
  { intros c' (Hc' & _ & rest & [= ->]). unfold c. by rewrite ptake_app. }
  eapply wp_mod_mschapv2; [apply Hp | exact Hs |]. cbv beta. fold (challenged c ms). fold (with_ms (challenged c ms) s).
  assert (Hp' : eap_peer (with_ms (challenged c ms) s)) by (apply eap_peer_mschapv2; [done | done | apply Hrandom]).
  sr_seq. apply (wp_mschapv2_send_response _ _ (challenged c ms)); [done | done | done | apply Hrandom |].
  fold (nt_of (challenged c ms)). destruct (nt_of (challenged c ms)) as [r|] eqn:Hr.
  - sr_seq. left. exists c, r. split_and!; try done. split_and!; [done | lia |]. exists (pkt +! 16). unfold c. by rewrite ptake_padd_id.
  - eapply wp_error; [done | done |]. intros t Ht. right. split; [done |]. by intros c' ->%Hmsg.
Qed.

Definition hash_hash (ms : eap_mschapv2_state) : list Z :=
  default (l_malloc junk 16) (mschapv2_hash_nt_password_hash (ms_password_hash ms)).
Definition auth_of (ms : eap_mschapv2_state) (r : list Z) : option (list Z) :=
  mschapv2_generate_authenticator_response (hash_hash ms) r (ms_peer_challenge ms) (ms_server_challenge ms) (ms_user ms).

Lemma hexstring_length l : zlen (l_util_hexstring_upper l) = 2 * zlen l.
Proof.
  induction l as [|b l IH]; [done |]. unfold l_util_hexstring_upper in *. csimpl. rewrite !zlen_cons. rewrite IH. lia.
Qed.

Lemma auth_response_length hh r pc sc user a :
  mschapv2_generate_authenticator_response hh r pc sc user = Some a → zlen a = 42.
Proof.
  unfold mschapv2_generate_authenticator_response. intros (sha1 & Hsha & (c & _ & [= <-])%bind_Some)%bind_Some.
  set (d := _ ++ c ++ magic2). destruct (checksum_ok _ _ d Hsha) as [Hd _].
  change (l_checksum_digest_length L_CHECKSUM_SHA1) with 20 in Hd.
  rewrite !zlen_cons. rewrite zlen_ptake; [lia |]. rewrite hexstring_length, zlen_ptake; lia.
Qed.

(** The right answer of the authenticator, and the keys it confirms. *)
Definition success_msg (ms : eap_mschapv2_state) (pkt : list Z) (len : Z) (session_key : list Z) : Prop :=
  ∃ r a, nt_of ms = Some r ∧ auth_of ms r = Some a ∧ 42 ≤ len ∧ ptake pkt 42 = a ∧
         mschapv2_session_key (hash_hash ms) r = Some session_key.

(** The state after it. *)
Definition accepted (session_key : list Z) (s : state) : state :=
  s <| eap_msuccess := true |>
    <| eap_out := eap_out s ++ EapTx (response_of (eap_last_id s) EAP_TYPE_MSCHAPV2 [MSCHAPV2_OP_SUCCESS]) ::
                  (if eap_has_km s then [EapKeyMaterial session_key None None None] else []) |>.

Lemma mschapv2_handle_success_cases (s : state) ms pkt len :
  eap_peer s → eap_meth s = Some eap_mschapv2 → eap_method_state s = Some (EapMschapv2State ms) → 0 ≤ len ≤ zlen pkt →
  wp (eap_mschapv2_handle_success oc junk pkt len)
     (λ _ t, (∃ sk, success_msg ms pkt len sk ∧ t = accepted sk s) ∨
             (failed s t ∧ ∀ sk, ¬ success_msg ms pkt len sk)) s.
Proof.
  intros Hp Hm Hs Hl. unfold eap_mschapv2_handle_success. sr_seq. eapply wp_mschapv2_state; [apply Hp | exact Hs |].
  cbv zeta. fold (hash_hash ms). fold (nt_of ms).
  assert (Herr : (∀ sk, ¬ success_msg ms pkt len sk) → wp (eap_method_error oc junk)
     (λ _ t, (∃ sk, success_msg ms pkt len sk ∧ t = accepted sk s) ∨ (failed s t ∧ ∀ sk, ¬ success_msg ms pkt len sk)) s).
  { intros Hn. eapply wp_error; [done | done |]. intros t Ht. by right. }
  destruct (nt_of ms) as [r|] eqn:Hr; [| apply Herr; intros sk (? & ? & ? & _); simplify_eq].
  fold (auth_of ms r). destruct (auth_of ms r) as [a|] eqn:Ha; [| apply Herr; intros sk (? & ? & ? & ? & _); simplify_eq].
  pose proof (auth_response_length _ _ _ _ _ _ Ha) as Hal. sr_seq.
  eapply (wp_run _ _ _ (negb (len <? 42) && bool_decide (ptake pkt 42 = a))).
  { destruct (Z.ltb_spec len 42); [done |]. rewrite memeq_ok by lia. by rewrite Hal. }
  destruct (Z.ltb_spec len 42) as [Hs42|Hl42]; cbn [negb andb].
  { apply Herr. intros sk (? & ? & ? & ? & ? & _). lia. }
  case_bool_decide as Hmatch; cbn [negb]; [| apply Herr; intros sk (? & ? & ? & ? & ? & ? & _); simplify_eq].
  destruct (mschapv2_session_key (hash_hash ms) r) as [sk|] eqn:Hsk; [| apply Herr; intros sk (? & ? & ? & ? & ? & ? & ?); simplify_eq].
  sr_seq. eapply wp_peer_success; [exact Hp |]. sr_seq.
  assert (Hmal : l_malloc junk 6 = l_malloc junk 5 ++ [junk 5%nat] ++ []) by done.
  eapply wp_run; [rewrite Hmal; exact (put_mid (l_malloc junk 5) [junk 5%nat] [] [u8 3] 5 eq_refl eq_refl) |]. sr_seq.
  set (s1 := set_field eap_msuccess true s). assert (Hp1 : eap_peer s1) by (by apply eap_peer_success).
  apply (wp_method_respond ms_ok eap_mschapv2); [done | done | done | done | done |].
  unfold eap_set_key_material. sr_seq. apply wp_get_eap; [apply Hp1 |].
  assert (Hin : success_msg ms pkt len sk) by (exists r, a; by split_and!).
  set (p := EapTx _). set (s2 := set_field eap_out _ s1).
  change (eap_has_km s2) with (eap_has_km s). destruct (eap_has_km s) eqn:Hkm.
  - apply wp_eap_emit; [apply Hp1 |]. left. exists sk. split; [done |]. unfold accepted. rewrite Hkm.
    unfold s2. change (eap_out (set_field eap_out ?x s1)) with x. rewrite <- app_assoc. done.
  - sr_seq. left. exists sk. split; [done |]. unfold accepted. by rewrite Hkm.
Qed.

(** The whole handler: the identifier of the message is stored, and the message is of its
    length. *)
Definition with_id (id : Z) (ms : eap_mschapv2_state) : eap_mschapv2_state := ms <| ms_current_id := id |>.
Definition ms_msg (pkt : list Z) (len op id : Z) (body : list Z) : Prop :=
  5 ≤ len ∧ ∃ l1 l2, pkt = op :: id :: l1 :: l2 :: body ∧ be16_of l1 l2 = len.

(** What a request does; [id] is the identifier of its message. *)
Definition ms_outcome (s : state) (ms : eap_mschapv2_state) (pkt : list Z) (len : Z) (t : state) : Prop :=
  (∃ id body c r, ms_msg pkt len MSCHAPV2_OP_CHALLENGE id body ∧ challenge_msg body (len - 4) c ∧
     let ms' := challenged c (with_id id ms) in nt_of ms' = Some r ∧
     t = with_ms ms' s <| eap_out := eap_out s ++
           [EapTx (response_of (eap_last_id s) EAP_TYPE_MSCHAPV2 (mschapv2_response ms' r))] |>) ∨
  (∃ id body sk, ms_msg pkt len MSCHAPV2_OP_SUCCESS id body ∧ success_msg ms body (len - 4) sk ∧
     t = accepted sk (with_ms (with_id id ms) s)) ∨
  (failed s t ∧ ∀ op id body, ms_msg pkt len op id body →
     (op = MSCHAPV2_OP_CHALLENGE → ∀ c, challenge_msg body (len - 4) c → nt_of (challenged c (with_id id ms)) = None) ∧
     (op = MSCHAPV2_OP_SUCCESS → ∀ sk, ¬ success_msg ms body (len - 4) sk)).

Lemma mschapv2_handle_request_cases (s : state) ms pkt len :
  eap_peer s → eap_meth s = Some eap_mschapv2 → eap_method_state s = Some (EapMschapv2State ms) → zlen (ms_peer_challenge ms) = 16 →
  bytes_ok pkt → 0 ≤ len ≤ zlen pkt → len < 2 ^ 16 →
  wp (eap_mschapv2_handle_request oc junk random pkt len) (λ _, ms_outcome s ms pkt len) s.
Proof.
  intros Hp Hm Hs Hch Hok Hl Hmax. unfold eap_mschapv2_handle_request. sr_seq. eapply wp_mschapv2_state; [apply Hp | exact Hs |].
  destruct (Z.ltb_spec len 5) as [|Hl5].
  { eapply wp_error; [done | done |]. intros t Ht. right. right. split; [done |]. intros op id body (? & _). lia. }
  destruct pkt as [|op [|id [|l1 [|l2 body]]]]; try (rewrite ?zlen_cons in Hl; change (zlen (@nil Z)) with 0 in Hl; lia).
  assert (Hbody : bytes_ok body) by (rewrite !list.Forall_cons in Hok; tauto).
  sr_seq. eapply wp_run; [done |]. sr_seq. eapply wp_mod_mschapv2; [apply Hp | exact Hs |]. cbv beta.
  fold (with_id id ms). fold (with_ms (with_id id ms) s). set (s1 := with_ms (with_id id ms) s).
  assert (Hp1 : eap_peer s1) by (by apply eap_peer_mschapv2).
  sr_seq. eapply wp_run; [done |].
  destruct (Z.eqb_spec (be16_of l1 l2) len) as [Hlen|Hlen]; cbn [negb].
  2:{ eapply wp_error; [done | done |]. intros t Ht. right. right. split; [done |].
      intros op' id' body' (_ & ? & ? & [= -> -> -> -> ->] & ?). done. }
  sr_seq. eapply wp_run; [done |]. change ((op :: id :: l1 :: l2 :: body) +! 4) with body.
  assert (Hmsg : ms_msg (op :: id :: l1 :: l2 :: body) len op id body) by (split; [done |]; by exists l1, l2).
  assert (Hinv : ∀ op' id' body', ms_msg (op :: id :: l1 :: l2 :: body) len op' id' body' → op' = op ∧ id' = id ∧ body' = body).
  { intros op' id' body' (_ & ? & ? & [= -> -> -> -> ->] & ?). done. }
  rewrite !zlen_cons in Hl.
  destruct (Z.eqb_spec op MSCHAPV2_OP_CHALLENGE) as [->|Hop1].
  { eapply wp_mono; [apply (mschapv2_handle_challenge_cases s1 (with_id id ms)); [done | done | done | done | lia | lia] |].
    intros [] t [(c & r & Hc & Hr & ->)|(Hf & Hn)].
    - left. by exists id, body, c, r.
    - right. right. split; [done |]. intros op' id' body' (-> & -> & ->)%Hinv. split; [by intros _ | done]. }
  destruct (Z.eqb_spec op MSCHAPV2_OP_SUCCESS) as [->|Hop2].
  { eapply wp_mono; [apply (mschapv2_handle_success_cases s1 (with_id id ms)); [done | done | done | lia] |].
    intros [] t [(sk & Hsk & ->)|(Hf & Hn)].
    - right. left. by exists id, body, sk.
    - right. right. split; [done |]. intros op' id' body' (-> & -> & ->)%Hinv. split; [done | by intros _]. }
  assert (Herr : wp (eap_method_error oc junk) (λ _, ms_outcome s ms (op :: id :: l1 :: l2 :: body) len) s1).
  { eapply wp_error; [done | done |]. intros t Ht. right. right. split; [done |].
    by intros op' id' body' (-> & -> & ->)%Hinv. }
  destruct (op =? MSCHAPV2_OP_FAILURE); exact Herr.
Qed.

(** ** The contract *)

Lemma failed_turn id (s t : state) : failed s t → turn ms_ok id s t.
Proof. intros [Hf Ho]. exists []. split; [apply answers_nil |]. by right. Qed.

Lemma response_of_last (s : state) type data :
  eap_peer s → 0 ≤ eap_last_id s → response_packet (eap_last_id s) (response_of (eap_last_id s) type data).
Proof.
  intros Hp Hi. pose proof (ep_last _ _ Hp). pose proof (response_of_packet (eap_last_id s) type data) as Hr.
  by rewrite u8_small in Hr by lia.
Qed.

Lemma accepted_turn sk (s : state) :
  eap_peer s → 0 ≤ eap_last_id s → turn ms_ok (eap_last_id s) s (accepted sk s).
Proof.
  intros Hp Hi. set (p := response_of (eap_last_id s) EAP_TYPE_MSCHAPV2 [MSCHAPV2_OP_SUCCESS]).
  assert (Hr : response_packet (eap_last_id s) p) by (by apply response_of_last).
  exists (EapTx p :: if eap_has_km s then [EapKeyMaterial sk None None None] else []). split.
  - split; [destruct (eap_has_km s); vm_compute; lia |]. apply Forall_cons_2; [done |]. destruct (eap_has_km s); repeat constructor.
  - left. split_and!; [done | | done]. by apply eap_peer_out, eap_peer_success.
Qed.

#[export] Instance eap_methods_ok : EapMethodsOk (eap_method_ops oc junk random) ms_ok.
Proof.
  split.
  2:{ intros m [secret|password|ms] Hms; cbn [ms_ok] in Hms; [subst m; by eexists | subst m; by eexists |].
      destruct Hms as [-> _]. by eexists. }
  intros m f s pkt len Hop Hp Hm Hi Hok Hl Hmax. pose proof (ep_method _ _ Hp) as Hms. rewrite Hm in Hms.
  destruct Hms as (_ & _ & ms & Hs & Hms). destruct ms as [secret|password|ms]; cbn [ms_ok] in Hms.
  - subst m. destruct Hop as [[= <-]|Hop]; [| done].
    eapply wp_mono; [by apply (md5_handle_request_cases s secret) |].
    intros [] t [(v & md5 & _ & _ & ->)|(Hf & Ho & _)]; [| by apply failed_turn].
    eapply turn_reply; [by apply eap_peer_success, eap_peer_out | done | by apply response_of_last | done].
  - subst m. destruct Hop as [[= <-]|Hop]; [| done].
    eapply wp_ok; [by apply gtc_handle_request_reply |].
    eapply turn_reply; [by apply eap_peer_success, eap_peer_out | done | by apply response_of_last | done].
  - destruct Hms as [-> Hch]. destruct Hop as [[= <-]|Hop]; [| done].
    eapply wp_mono; [by apply (mschapv2_handle_request_cases s ms) |].
    intros [] t [(id & body & c & r & _ & _ & _ & ->)|[(id & body & sk & _ & _ & ->)|(Hf & _)]]; [| | by apply failed_turn].
    + eapply turn_reply; [| done | by apply response_of_last | done].
      apply eap_peer_mschapv2; [by apply eap_peer_out | done | apply Hrandom].
    + eapply (turn_from _ _ _ (with_ms (with_id id ms) s)); [done | done |].
      apply (accepted_turn sk (with_ms (with_id id ms) s)); [by apply eap_peer_mschapv2 | done].
Qed.
End methods.

(** C21: conversations of a peer with the methods MD5, GTC and MSCHAPv2, owned by eapol.c, whose
    completion callback resets a conversation that succeeded and frees one that failed with
    [eap_free].  After any sequence of packets, of any bytes, and timeouts the peer is alive in a
    well-formed state and has reported no failure, or it has been freed and its last action was
    its one report of a failure; while it is alive, every packet is handled without access to a
    freed object or outside of a buffer.  The random challenges of MSCHAPv2 have 16 bytes. *)
Theorem eap_conversation_safe {EC : Ell} {EL : EllLaws EC} {DC : Des} {DL : DesLaws DC} junk random s t :
  (∀ n, zlen (random n) = 16) →
  let oc := eapol_on_complete junk random in
  let ops := eap_method_ops oc junk random in
  EapSpec.eap_peer ms_ok s → no_failure (eap_out s) → rtc (eap_step ops oc junk) s t →
  live_or_over ms_ok t ∧
  (eap_freed t = false → ∀ pkt, bytes_ok pkt →
     ∃ u, eap_rx_packet ops oc junk pkt (zlen pkt) t = Ok (tt, u)).
Proof.
  intros Hr oc ops. apply eap_conversation_ok; [by apply eap_methods_ok | apply eapol_owner].
Qed.
