(* ===== verification/EapLogin.v ===== *)
(** * EAP: logins (src/eap.c, src/eap-md5.c, src/eap-mschapv2.c)

    Conversations of a peer with a server that knows its secret, what a peer requires before it
    reports success, what any sequence of packets can lead to, and the cases where the framework
    does not do what its comments say. *)

From stdpp Require Import base numbers list option relations.
From Stdlib Require Import ZArith Lia Ascii String.
From S2P Require Import Prelude StRes IeMisc Crypto Eap EapSpec Mschap EapMethods EapRun.

Open Scope Z_scope.

(** ** Packets of a server *)

Definition eap_request (id type : Z) (data : list Z) : list Z :=
  [EAP_CODE_REQUEST; id] ++ be16_bytes (5 + zlen data) ++ [type] ++ data.
Definition eap_success (id : Z) : list Z := [EAP_CODE_SUCCESS; id; 0; 4].

Lemma zlen_eap_request id type data : zlen (eap_request id type data) = 5 + zlen data.
Proof.
  unfold eap_request. rewrite !zlen_app, zlen_be16_bytes. change (zlen [_; id]) with 2. change (zlen [type]) with 1. lia.
Qed.

Section login.
Context {EC : Ell} {EL : EllLaws EC} {DC : Des} {DL : DesLaws DC}.
Variable junk : nat → Z.
Variable random : nat → list Z.
Hypothesis Hrandom : ∀ n, zlen (random n) = 16.
Abbreviation oc := (eapol_on_complete junk random).
Abbreviation ops := (eap_method_ops oc junk random).
Abbreviation eap_peer := (EapSpec.eap_peer ms_ok).
Abbreviation state := (eap_state method_state).
Abbreviation rx pkt := (eap_rx_packet ops oc junk pkt (zlen pkt)).

(** The packets received, one after the other. *)
Fixpoint rx_all (pkts : list (list Z)) : sr state unit :=
  match pkts with
  | [] => mret tt
  | pkt :: pkts => rx pkt;; rx_all pkts
  end.

(** The state in which the method sees the request [id]. *)
Definition requested (id : Z) (s : state) : state :=
  s <| eap_last_id := id |> <| eap_method_req_count := u32 (eap_method_req_count s + 1) |>.

Lemma wp_rx_request m f id data (Q : unit → state → Prop) s :
  eap_peer s → eap_meth s = Some m → __EAP_TYPE_MIN_METHOD ≤ request_type m → request_type m ≠ EAP_TYPE_EXPANDED →
  op_handle_retransmit (ops m) = None → op_handle_request (ops m) = Some f → 5 + zlen data < 65536 →
  wp (f data (zlen data)) Q (requested id s) → wp (rx (eap_request id (request_type m) data)) Q s.
Proof.
  intros Hp Hm Hmin Hne Hnr Hf Hl HQ. rewrite zlen_eap_request. unfold eap_rx_packet. pose proof (zlen_nonneg data).
  destruct (Z.ltb_spec (5 + zlen data) 4); [lia |]. sr_seq.
  eapply wp_run; [change (eap_request id (request_type m) data +! 2) with
    (be16_bytes (5 + zlen data) ++ [request_type m] ++ data); apply l_get_be16_bytes; lia |].
  destruct (Z.ltb_spec (5 + zlen data) 4); [lia |]. cbn [orb]. rewrite Z.ltb_irrefl.
  sr_seq. eapply wp_run; [done |]. sr_seq. eapply wp_run; [done |]. sr_seq. apply wp_get_eap; [apply Hp |].
  rewrite (ep_peer _ _ Hp). cbn [Z.eqb Pos.eqb EAP_CODE_REQUEST].
  change (eap_request id (request_type m) data +! 4) with (request_type m :: data).
  replace (5 + zlen data - 4) with (1 + zlen data) by lia. unfold __eap_handle_request.
  destruct (Z.ltb_spec (1 + zlen data) 1); [lia |]. sr_seq. eapply wp_run; [done |]. sr_seq. apply wp_get_eap; [apply Hp |].
  destruct (Z.leb_spec __EAP_TYPE_MIN_METHOD (request_type m)); [| lia].
  rewrite bool_decide_false by (by rewrite Hm). cbn [andb]. sr_seq. apply wp_mod_eap; [apply Hp |]. sr_seq.
  apply wp_mod_eap; [apply Hp |]. sr_seq. eapply wp_run; [by rewrite Hm |].
  unfold eap_method_request. rewrite Z.eqb_refl. cbn [negb]. sr_seq. eapply wp_run; [rewrite Hnr, Hf; done |].
  destruct (Z.eqb_spec (request_type m) EAP_TYPE_EXPANDED); [done |]. cbn [negb].
  change ((request_type m :: data) +! 1) with data. replace (1 + zlen data - 1) with (zlen data) by lia. exact HQ.
Qed.

Lemma eap_peer_requested id s : eap_peer s → 0 ≤ id < 256 → eap_peer (requested id s).
Proof. intros. by apply eap_peer_method_count, eap_peer_id. Qed.

Lemma wp_rx_success (Q : unit → state → Prop) (s : state) :
  eap_peer s → eap_msuccess s = true → eap_discard s = false → 
  (∀ t, eap_peer t → eap_out t = eap_out s ++ [EapComplete EAP_RESULT_SUCCESS] → Q tt t) →
  wp (rx (eap_success (eap_last_id s))) Q s.
Proof.
  intros Hp Hsucc Hd HQ. unfold eap_rx_packet. change (zlen (eap_success (eap_last_id s)) <? 4) with false. cbv iota. sr_seq.
  eapply (wp_run _ _ _ 4); [done |]. change ((4 <? 4) || (zlen (eap_success (eap_last_id s)) <? 4)) with false. cbv iota. sr_seq.
  eapply wp_run; [done |]. sr_seq. eapply wp_run; [done |]. sr_seq. apply wp_get_eap; [apply Hp |].
  cbn [Z.eqb Pos.eqb EAP_CODE_REQUEST EAP_CODE_RESPONSE EAP_CODE_SUCCESS]. unfold eap_rx_result. sr_seq. apply wp_get_eap; [apply Hp |].
  rewrite (ep_peer _ _ Hp), Hd, Hsucc. sr_seq. apply wp_mod_eap; [apply Hp |]. rewrite Z.eqb_refl. cbn [negb andb].
  change (4 =? 4) with true. cbn [negb andb].
  unfold eap_complete. sr_seq. apply wp_eap_emit; [apply Hp |].
  eapply wp_mono; [apply (complete_succeeded oc ms_ok); by apply eap_peer_out, eap_peer_timer |].
  intros [] t (Ht & Ho & _). by apply HQ.
Qed.

(** ** MD5 *)

(** The MD5 method answers a challenge with the digest of the identifier, the secret and the
    value of the challenge, and the EAP-Success of the server ends the conversation successfully. *)
Theorem eap_md5_login (s : state) secret id value name md5 :
  eap_peer s → eap_meth s = Some eap_md5 → eap_method_state s = Some (EapMd5State secret) → eap_discard s = false →
  0 ≤ id < 256 → 1 ≤ zlen value < 256 → bytes_ok value → bytes_ok name → 6 + zlen value + zlen name < 65536 →
  l_checksum_new L_CHECKSUM_MD5 = Some md5 →
  ∃ t, rx_all [eap_request id EAP_TYPE_MD5_CHALLENGE (zlen value :: value ++ name); eap_success id] s = Ok (tt, t) ∧
    eap_peer t ∧ eap_out t = eap_out s ++
      [EapTx (response_of id EAP_TYPE_MD5_CHALLENGE (16 :: md5 (id :: secret ++ value))); EapComplete EAP_RESULT_SUCCESS].
Proof.
  intros Hp Hm Hs Hd Hid Hv Hvok Hnok Hl Hmd5.
  enough (Hw : wp (rx_all [eap_request id EAP_TYPE_MD5_CHALLENGE (zlen value :: value ++ name); eap_success id])
    (λ _ t, eap_peer t ∧ eap_out t = eap_out s ++
      [EapTx (response_of id EAP_TYPE_MD5_CHALLENGE (16 :: md5 (id :: secret ++ value))); EapComplete EAP_RESULT_SUCCESS]) s).
  { apply wp_inv in Hw as ([] & t & Ht & Ho). by exists t. }
  unfold rx_all. sr_seq. set (data := zlen value :: value ++ name).
  assert (Hdl : zlen data = 1 + zlen value + zlen name) by (unfold data; rewrite zlen_cons, zlen_app; lia).
  pose proof (zlen_nonneg name).
  eapply (wp_rx_request eap_md5); [exact Hp | exact Hm | done | done | done | done | lia |].
  assert (Hp' : eap_peer (requested id s)) by (by apply eap_peer_requested).
  eapply wp_mono; [apply (md5_handle_request_cases junk random _ secret); [exact Hp' | exact Hm | exact Hs | | lia] |].
  { apply Forall_cons_2; [unfold byte_ok; lia |]. by apply Forall_app_2. }
  assert (Hreq : md5_request data (zlen data) value) by (exists name; split_and!; [done | lia | lia]).
  intros [] t [(v & f & (rest & Heq & Hv1 & Hv2) & Hf & ->)|(_ & _ & [Hn|Hn])]; [| by destruct (Hn value) | by rewrite Hmd5 in Hn].
  assert (Hvv : v = value).
  { unfold data in Heq. injection Heq as Hz Heq. apply (f_equal (take (List.length value))) in Heq.
    unfold zlen in Hz. rewrite take_app_length in Heq. rewrite Heq. symmetry. apply take_app_length'. lia. }
  subst v. simplify_eq. sr_seq. set (t := set_field eap_msuccess true _).
  change id with (eap_last_id t) at 1.
  apply wp_rx_success; [by apply eap_peer_success, eap_peer_out | done | exact Hd |]. intros t' Ht' Ho'. sr_seq.
  split; [done |]. rewrite Ho'. cbn -[response_of]. rewrite u8_small by lia. by rewrite <- app_assoc.
Qed.

(** ** MSCHAPv2 *)

(** The messages of a server. *)
Definition challenge_request (id mid : Z) (sc name : list Z) : list Z :=
  eap_request id EAP_TYPE_MSCHAPV2 ([MSCHAPV2_OP_CHALLENGE; mid] ++ be16_bytes (21 + zlen name) ++ 16 :: sc ++ name).
Definition success_request (id mid : Z) (a msg : list Z) : list Z :=
  eap_request id EAP_TYPE_MSCHAPV2 ([MSCHAPV2_OP_SUCCESS; mid] ++ be16_bytes (4 + zlen a + zlen msg) ++ a ++ msg).

(** RFC 2759 and RFC 3079 for a server that knows the hash of the password: what it expects, what
    it proves, and the keys it derives, the one it receives with before the one it sends with. *)
Definition server_nt_response (hash pc sc user : list Z) : option (list Z) :=
  challenge ← mschapv2_challenge_hash pc sc user;
  mschap_challenge_response challenge hash.
Definition server_auth_response (hash nt pc sc user : list Z) : option (list Z) :=
  hh ← mschapv2_hash_nt_password_hash hash;
  mschapv2_generate_authenticator_response hh nt pc sc user.
Definition server_keys (hash nt : list Z) : option (list Z) :=
  hh ← mschapv2_hash_nt_password_hash hash;
  mk ← mschapv2_get_master_key hh nt;
  recv ← mschapv2_get_asymmetric_start_key mk 16 true false;
  send ← mschapv2_get_asymmetric_start_key mk 16 true true;
  Some (recv ++ send).

Lemma ms_msg_inv op id body len rest :
  len = 4 + zlen body → 5 ≤ len < 65536 → rest = [op; id] ++ be16_bytes len ++ body →
  ms_msg rest len op id body.
Proof.
  intros Hl Hr ->. split; [lia |]. exists (u8 (len / 256)), (u8 len). split; [done |].
  pose proof (l_get_be16_bytes len [] ltac:(lia)) as Hv. by injection Hv.
Qed.

Lemma ms_msg_fun pkt len op id body op' id' body' :
  ms_msg pkt len op id body → ms_msg pkt len op' id' body' → op' = op ∧ id' = id ∧ body' = body.
Proof. intros (_ & ? & ? & -> & _) (_ & ? & ? & [= -> -> -> -> ->] & _). done. Qed.

Lemma challenge_msg_fun pkt len c c' : challenge_msg pkt len c → challenge_msg pkt len c' → c' = c.
Proof.
  intros (Hc & _ & rest & ->) (Hc' & _ & rest' & [= He]). apply (f_equal (λ l, ptake l 16)) in He.
  by rewrite !ptake_app in He.
Qed.

Lemma mschapv2_challenge_step (s : state) ms id mid sc name r (Q : unit → state → Prop) :
  eap_peer s → eap_meth s = Some eap_mschapv2 → eap_method_state s = Some (EapMschapv2State ms) → zlen (ms_peer_challenge ms) = 16 →
  0 ≤ id < 256 → 0 ≤ mid < 256 → bytes_ok sc → zlen sc = 16 → bytes_ok name → 26 + zlen name < 65536 →
  let ms' := challenged random sc (with_id mid ms) in
  nt_of ms' = Some r →
  Q tt (with_ms ms' (requested id s) <| eap_out := eap_out s ++
          [EapTx (response_of id EAP_TYPE_MSCHAPV2 (mschapv2_response ms' r))] |>) →
  wp (rx (challenge_request id mid sc name)) Q s.
Proof.
  intros Hp Hm Hs Hch Hid Hmid Hsc Hscl Hname Hl ms' Hr HQ. unfold challenge_request.
  set (body := 16 :: sc ++ name). set (data := _ ++ be16_bytes _ ++ body). pose proof (zlen_nonneg name).
  assert (Hbl : zlen body = 17 + zlen name) by (unfold body; rewrite zlen_cons, zlen_app; lia).
  assert (Hdl : zlen data = 21 + zlen name).
  { unfold data. rewrite !zlen_app, zlen_be16_bytes, Hbl. change (zlen [_; mid]) with 2. lia. }
  assert (Hmsg : ms_msg data (zlen data) MSCHAPV2_OP_CHALLENGE mid body) by (apply ms_msg_inv; [lia | lia | by rewrite Hdl]).
  assert (Hc : challenge_msg body (zlen data - 4) sc) by (split_and!; [done | lia |]; by exists name).
  eapply (wp_rx_request eap_mschapv2); [exact Hp | exact Hm | done | done | done | done | lia |].
  eapply wp_mono; [apply (mschapv2_handle_request_cases junk random Hrandom (requested id s) ms);
    [by apply eap_peer_requested | exact Hm | exact Hs | done | | lia | lia] |].
  { unfold data, body. repeat (apply Forall_app_2 || apply Forall_cons_2 || apply Forall_nil_2); try done; apply u8_range. }
  intros [] t [(id' & body' & c & r' & Hmsg' & Hc' & Hr' & ->)|[(id' & body' & sk & Hmsg' & _)|(_ & Hn)]].
  - destruct (ms_msg_fun _ _ _ _ _ _ _ _ Hmsg Hmsg') as (_ & -> & ->). rewrite (challenge_msg_fun _ _ _ _ Hc Hc') in *.
    fold ms' in Hr' |- *. rewrite Hr in Hr'. injection Hr' as <-. exact HQ.
  - by destruct (ms_msg_fun _ _ _ _ _ _ _ _ Hmsg Hmsg') as (? & _ & _).
  - destruct (Hn _ _ _ Hmsg) as [Hn1 _]. specialize (Hn1 eq_refl sc Hc). unfold ms' in Hr. by rewrite Hn1 in Hr.
Qed.

Lemma mschapv2_success_step (s : state) ms id mid a msg sk (Q : unit → state → Prop) :
  eap_peer s → eap_meth s = Some eap_mschapv2 → eap_method_state s = Some (EapMschapv2State ms) → zlen (ms_peer_challenge ms) = 16 →
  0 ≤ id < 256 → 0 ≤ mid < 256 → zlen a = 42 → bytes_ok a → bytes_ok msg → 60 + zlen msg < 65536 →
  success_msg junk ms (a ++ msg) (42 + zlen msg) sk →
  Q tt (accepted sk (with_ms (with_id mid ms) (requested id s))) → wp (rx (success_request id mid a msg)) Q s.
Proof.
  intros Hp Hm Hs Hch Hid Hmid Hal Hok Hmok Hl Hin HQ. unfold success_request.
  set (body := a ++ msg). set (data := _ ++ be16_bytes _ ++ body). pose proof (zlen_nonneg msg).
  assert (Hbl : zlen body = 42 + zlen msg) by (unfold body; rewrite zlen_app; lia).
  assert (Hdl : zlen data = 46 + zlen msg).
  { unfold data. rewrite !zlen_app, zlen_be16_bytes, Hbl. change (zlen [_; mid]) with 2. lia. }
  assert (Hmsg : ms_msg data (zlen data) MSCHAPV2_OP_SUCCESS mid body).
  { apply ms_msg_inv; [lia | lia |]. rewrite Hdl. unfold data. rewrite Hal. by replace (4 + 42 + zlen msg) with (46 + zlen msg) by lia. }
  replace (42 + zlen msg) with (zlen data - 4) in Hin by lia.
  eapply (wp_rx_request eap_mschapv2); [exact Hp | exact Hm | done | done | done | done | lia |].
  eapply wp_mono; [apply (mschapv2_handle_request_cases junk random Hrandom (requested id s) ms);
    [by apply eap_peer_requested | exact Hm | exact Hs | done | | lia | lia] |].
  { unfold data, body. repeat (apply Forall_app_2 || apply Forall_cons_2 || apply Forall_nil_2); try done; apply u8_range. }
  intros [] t [(id' & body' & c & r' & Hmsg' & _)|[(id' & body' & sk' & Hmsg' & Hin' & ->)|(_ & Hn)]].
  - by destruct (ms_msg_fun _ _ _ _ _ _ _ _ Hmsg Hmsg') as (? & _ & _).
  - destruct (ms_msg_fun _ _ _ _ _ _ _ _ Hmsg Hmsg') as (_ & -> & ->).
    destruct Hin as (r & a1 & Hr & _ & _ & _ & Hk), Hin' as (r' & a2 & Hr' & _ & _ & _ & Hk').
    rewrite Hr in Hr'. injection Hr' as <-. rewrite Hk in Hk'. injection Hk' as <-. exact HQ.
  - destruct (Hn _ _ _ Hmsg) as [_ Hn2]. by destruct (Hn2 eq_refl sk).
Qed.

Lemma hexstring_bytes l : bytes_ok l → bytes_ok (l_util_hexstring_upper l).
Proof.
  induction 1 as [|b l Hb Hl IH]; [constructor |]. unfold l_util_hexstring_upper in *. csimpl.
  assert (Hd : ∀ d, 0 ≤ d < 16 → byte_ok (hex_digit_upper d)) by (intros d Hd; unfold hex_digit_upper, byte_ok; case_b; lia).
  unfold byte_ok in Hb. apply Forall_cons_2; [apply Hd | apply Forall_cons_2; [apply Hd | done]].
  - rewrite Z.shiftr_div_pow2 by lia. change (2 ^ 4) with 16. split; [apply Z.div_pos | apply Z.div_lt_upper_bound]; lia.
  - change 0xf with (Z.ones 4). rewrite Z.land_ones by lia. apply Z.mod_pos_bound. lia.
Qed.

Lemma auth_response_bytes hh r pc sc user a :
  mschapv2_generate_authenticator_response hh r pc sc user = Some a → bytes_ok a.
Proof.
  unfold mschapv2_generate_authenticator_response. intros (sha1 & Hsha & (c & _ & [= <-])%bind_Some)%bind_Some.
  do 2 (apply Forall_cons_2; [by_eval |]). apply Forall_take, hexstring_bytes, Forall_take.
  by apply (checksum_ok _ _ _ Hsha).
Qed.

(** C23: A conversation with a server that knows the password hash: the response to the challenge
    carries the NT response the server computes for the two challenges, the server's proof is
    accepted and acknowledged, the keys handed over are the server's, its receiving key first, and
    the EAP-Success ends the conversation successfully. *)
Theorem eap_mschapv2_login (s : state) ms id1 id2 mid1 mid2 sc name msg r a keys :
  eap_peer s → eap_meth s = Some eap_mschapv2 → eap_method_state s = Some (EapMschapv2State ms) →
  eap_has_km s = true → eap_discard s = false →
  Forall (λ i, 0 ≤ i < 256) [id1; id2; mid1; mid2] → zlen sc = 16 → bytes_ok (sc ++ name ++ msg) → 60 + zlen name + zlen msg < 65536 →
  let pc := random (ms_draws ms) in
  server_nt_response (ms_password_hash ms) pc sc (ms_user ms) = Some r →
  server_auth_response (ms_password_hash ms) r pc sc (ms_user ms) = Some a →
  server_keys (ms_password_hash ms) r = Some keys →
  ∃ t, rx_all [challenge_request id1 mid1 sc name; success_request id2 mid2 a msg; eap_success id2] s = Ok (tt, t) ∧ eap_peer t ∧
    eap_out t = eap_out s ++
      [EapTx (response_of id1 EAP_TYPE_MSCHAPV2 ([MSCHAPV2_OP_RESPONSE; mid1] ++ be16_bytes (54 + zlen (ms_user ms)) ++ [49] ++
                pc ++ zeros 8 ++ r ++ [0] ++ ms_user ms));
       EapTx (response_of id2 EAP_TYPE_MSCHAPV2 [MSCHAPV2_OP_SUCCESS]);
       EapKeyMaterial keys None None None; EapComplete EAP_RESULT_SUCCESS].
Proof.
  intros Hp Hm Hs Hkm Hd Hids Hsc Hok Hl pc Hr Ha Hk.
  rewrite !list.Forall_cons in Hids. destruct Hids as (Hid1 & Hid2 & Hmid1 & Hmid2 & _).
  apply Forall_app in Hok as [Hscok [Hnok Hmok]%Forall_app]. pose proof (zlen_nonneg name). pose proof (zlen_nonneg msg).
  assert (Hch : zlen (ms_peer_challenge ms) = 16).
  { pose proof (ep_method _ _ Hp) as Hms. rewrite Hm, Hs in Hms. destruct Hms as (_ & _ & ? & [= <-] & _ & Hch). done. }
  unfold server_auth_response in Ha. apply bind_Some in Ha as (hh & Hhh & Ha).
  unfold server_keys in Hk. rewrite Hhh in Hk. change (Some hh ≫= ?f) with (f hh) in Hk.
  enough (Hw : wp (rx_all [challenge_request id1 mid1 sc name; success_request id2 mid2 a msg; eap_success id2])
    (λ _ t, eap_peer t ∧ eap_out t = eap_out s ++ [EapTx (response_of id1 EAP_TYPE_MSCHAPV2 (mschapv2_response (challenged random sc (with_id mid1 ms)) r));
       EapTx (response_of id2 EAP_TYPE_MSCHAPV2 [MSCHAPV2_OP_SUCCESS]);
       EapKeyMaterial keys None None None; EapComplete EAP_RESULT_SUCCESS]) s).
  { apply wp_inv in Hw as ([] & t & Ht & Hpt & Ho). by exists t. }
  unfold rx_all. sr_seq. set (ms1 := challenged random sc (with_id mid1 ms)).
  eapply (mschapv2_challenge_step s ms id1 mid1 sc name r); [done | done | done | done | done | done | done | done | done | lia | exact Hr |].
  fold ms1. set (p1 := EapTx _). set (s1 := with_ms _ _).
  assert (Hp1 : eap_peer s1).
  { apply eap_peer_mschapv2; [| exact Hm | apply Hrandom]. by apply eap_peer_out, eap_peer_requested. }
  sr_seq. eapply (mschapv2_success_step s1 ms1 id2 mid2 a msg keys); [exact Hp1 | exact Hm | done | apply Hrandom | done | done | | | done | lia | |].
  { by eapply auth_response_length. }
  { by eapply auth_response_bytes. }
  { assert (Hhash : hash_hash junk ms1 = hh) by (unfold hash_hash; change (ms_password_hash ms1) with (ms_password_hash ms); by rewrite Hhh).
    exists r, a. unfold auth_of, mschapv2_session_key. rewrite Hhash. split_and!; [exact Hr | exact Ha | lia | | exact Hk].
    apply ptake_app. by erewrite auth_response_length. }
  set (s2 := accepted _ _).
  assert (Hp2 : eap_peer s2).
  { apply eap_peer_out, eap_peer_success, eap_peer_mschapv2; [| exact Hm | apply Hrandom]. by apply eap_peer_requested. }
  sr_seq. change id2 with (eap_last_id s2). apply wp_rx_success; [exact Hp2 | done | exact Hd |]. intros t Ht Ho. sr_seq.
  split; [done |]. rewrite Ho. unfold s2, accepted. change (eap_has_km _) with (eap_has_km s). rewrite Hkm. cbn -[response_of p1].
  by rewrite <- !app_assoc.
Qed.

(** C22: The peer of MSCHAPv2 reports success or hands over keys only on a success message of the
    right length that begins with the authenticator response for its password and the two
    challenges. *)
Theorem eap_mschapv2_success_authentic (s t : state) ms pkt len :
  eap_peer s → eap_meth s = Some eap_mschapv2 → eap_method_state s = Some (EapMschapv2State ms) → zlen (ms_peer_challenge ms) = 16 →
  bytes_ok pkt → 0 ≤ len ≤ zlen pkt → len < 2 ^ 16 →
  eap_mschapv2_handle_request oc junk random pkt len s = Ok (tt, t) →
  (eap_msuccess s = false ∧ eap_msuccess t = true ∧ eap_freed t = false) ∨
  (∃ k e i d, EapKeyMaterial k e i d ∈ eap_out t ∧ EapKeyMaterial k e i d ∉ eap_out s) →
  ∃ mid l1 l2 r a msg,
    pkt = [MSCHAPV2_OP_SUCCESS; mid; l1; l2] ++ a ++ msg ∧ be16_of l1 l2 = len ∧
    mschapv2_generate_nt_response (ms_password_hash ms) (ms_peer_challenge ms) (ms_server_challenge ms) (ms_user ms) = Some r ∧
    mschapv2_generate_authenticator_response (default (l_malloc junk 16) (mschapv2_hash_nt_password_hash (ms_password_hash ms)))
      r (ms_peer_challenge ms) (ms_server_challenge ms) (ms_user ms) = Some a.
Proof.
  intros Hp Hm Hs Hch Hok Hl Hmax Hrun Hnew.
  pose proof (mschapv2_handle_request_cases junk random Hrandom s ms pkt len Hp Hm Hs Hch Hok Hl Hmax) as Hw.
  unfold wp in Hw. rewrite Hrun in Hw. clear Hrun.
  destruct Hw as [(id & body & c & r & _ & _ & _ & ->)|[(id & body & sk & Hmsg & Hin & ->)|((Hf & Ho) & _)]].
  - exfalso. destruct Hnew as [(H1 & H2 & _)|(k & e & i & d & H1 & H2)]; [cbn in H2; congruence |].
    change (eap_out (with_ms _ _)) with (eap_out s ++ [EapTx (response_of (eap_last_id s) EAP_TYPE_MSCHAPV2
      (mschapv2_response (challenged random c (with_id id ms)) r))]) in H1.
    apply elem_of_app in H1 as [H1|H1%list_elem_of_singleton]; done.
  - destruct Hmsg as (_ & l1 & l2 & -> & Hlen). destruct Hin as (r & a & Hr & Ha & H42 & Hpre & _).
    exists id, l1, l2, r, a, (body +! 42). split_and!; [| done | exact Hr | exact Ha].
    rewrite <- Hpre. cbn [app]. by rewrite ptake_padd_id.
  - exfalso. destruct Hnew as [(_ & _ & H1)|(k & e & i & d & H1 & H2)]; [congruence |]. rewrite Ho in H1.
    apply elem_of_app in H1 as [H1|H1%list_elem_of_singleton]; done.
Qed.

(** ** Settings *)

Lemma mschapv2_validate_ok password missing r :
  mschapv2_validate junk password missing = Ok r → r.2 = missing ∧ ∃ h, mschap_nt_password_hash junk password = Ok h.
Proof. unfold mschapv2_validate. destruct (mschap_nt_password_hash junk password); [| done..]. intros [= <-]. by eauto. Qed.

(** A method's settings, once checked, load or are refused. *)
Lemma load_settings_ok m f g settings prefix ret (s : state) :
  m ∈ [eap_md5; eap_gtc; eap_mschapv2] → eap_freed s = false →
  op_check_settings (ops m) = Some f → f settings [] prefix [] = Ok (ret, []) → 0 ≤ ret →
  op_load_settings (ops m) = Some g →
  wp (g settings prefix)
     (λ ok t, if (ok : bool) then ∃ ms, ms_ok m ms ∧ t = s <| eap_method_state := Some ms |> else t = s) s.
Proof.
  intros Hm Hf Hcheck Hret Hpos Hload. rewrite !elem_of_cons in Hm.
  destruct Hm as [-> | [-> | [-> | Hm]]]; [| | | by apply not_elem_of_nil in Hm];
    injection Hcheck as <-; injection Hload as <-.
  - unfold eap_md5_load_settings. destruct (password_setting _ _ _) as [secret|]; [| by sr_seq].
    sr_seq. unfold eap_set_data. apply wp_mod_eap; [done |]. sr_seq. by exists (EapMd5State secret).
  - unfold eap_gtc_load_settings. destruct (password_setting _ _ _) as [secret|]; [| by sr_seq].
    case_b; [by sr_seq |]. sr_seq. unfold eap_set_data. apply wp_mod_eap; [done |]. sr_seq. by exists (EapGtcState secret).
  - unfold eap_mschapv2_check_settings in Hret. unfold eap_mschapv2_load_settings.
    destruct (l_settings_get_string settings (setting_key 64 prefix "Identity")) as [user|]; [| by sr_seq].
    assert (Hhash : ∃ hash, match l_settings_get_string settings (setting_key 64 prefix "Password") with
                  | Some password => r ← mschap_nt_password_hash junk password; Ok (default (zeros 16) r)
                  | None =>
                      hash ← nonnull (l_settings_get_bytes settings (setting_key 64 prefix "Password-Hash"));
                      rdn hash 16
                  end = Ok hash).
    { destruct (l_settings_get_string settings (setting_key 64 prefix "Password")) as [password|].
      - destruct (l_settings_get_bytes _ _); [injection Hret as <-; done |].
        apply mschapv2_validate_ok in Hret as (_ & h & ->). by eexists.
      - destruct (l_settings_get_bytes _ _) as [hash|]; [| done]. cbn [nonnull]. rewrite bind_ok.
        destruct (Z.eqb_spec (zlen hash) 16); [| injection Hret as <-; done]. eexists. apply rdn_ok. lia. }
    destruct Hhash as [hash Hhash]. sr_seq. eapply wp_run; [exact Hhash |]. sr_seq. unfold eap_set_data.
    apply wp_mod_eap; [done |]. sr_seq. by exists (EapMschapv2State (mk_mschapv2 hash user 0 (zeros 16) (zeros 16) 0)).
Qed.

(** C24: settings checked as complete by themselves load.  For the methods MD5, GTC and MSCHAPv2:
    when [eap_check_settings], given no secrets besides the settings, finds nothing wrong and
    nothing missing, loading the same settings does not fault, and when it succeeds the new object
    is a well-formed peer with the configured identity and has done nothing yet.  Secrets that an
    agent has supplied besides the settings are outside of the statement: network.c writes them
    into the settings that it loads. *)
Theorem eap_checked_settings_load methods settings prefix km mtu :
  Forall (λ m, m ∈ [eap_md5; eap_gtc; eap_mschapv2]) methods →
  eap_check_settings ops methods settings [] prefix km = Ok (0, Some []) →
  ∃ ok t, eap_load_settings ops methods settings prefix ((eap_new mtu) <| eap_has_km := km |>) = Ok (ok, t) ∧
    (ok = true → eap_peer t ∧ eap_out t = [] ∧ is_Some (eap_meth t) ∧
                 eap_identity t = l_settings_get_string settings (setting_key 64 prefix "Identity")).
Proof.
  intros Hall Hcheck. set (s := set_field eap_has_km km (eap_new mtu)).
  enough (Hw : wp (eap_load_settings ops methods settings prefix)
    (λ ok t, (ok = true → eap_peer t ∧ eap_out t = [] ∧ is_Some (eap_meth t) ∧
                 eap_identity t = l_settings_get_string settings (setting_key 64 prefix "Identity"))) s).
  { apply wp_inv in Hw as (ok & t & Ht & Ho). by exists ok, t. }
  unfold eap_check_settings, __eap_check_settings in Hcheck. unfold eap_load_settings.
  destruct (l_settings_get_value settings (setting_key 64 prefix "Method")) as [name|]; [| done].
  destruct (eap_find_method methods name) as [m|] eqn:Hfind; [| done].
  assert (Hm : m ∈ [eap_md5; eap_gtc; eap_mschapv2]).
  { unfold eap_find_method in Hfind. apply find_some in Hfind as [Hin _]. rewrite List.Forall_forall in Hall. by apply Hall. }
  sr_seq. apply wp_mod_eap; [done |]. set (s1 := set_field eap_meth (Some m) s). sr_seq. apply wp_get_eap; [done |].
  change (eap_meth s1) with (Some m). change (eap_has_km s1) with km. cbv iota.
  destruct (km && negb (exports_msk m)) eqn:Hmsk; [rewrite bind_ok in Hcheck; done |].
  assert (Hops : ∃ f g, op_check_settings (ops m) = Some f ∧ op_load_settings (ops m) = Some g ∧
            is_Some (op_handle_request (ops m)) ∧ op_get_identity (ops m) = None ∧ zlen (vendor_id m) = 3 ∧ 0 ≤ request_type m < 256).
  { rewrite !elem_of_cons in Hm. destruct Hm as [-> | [-> | [-> | Hm]]]; [| | | by apply not_elem_of_nil in Hm];
      (eexists _, _; split_and!; [done | done | by eexists | done | done | done | done]). }
  destruct Hops as (f & g & Hf & Hg & [h Hh] & Hid & Hv & Hty). rewrite Hf in Hcheck. rewrite Hg.
  destruct (f settings [] prefix []) as [[ret missing]|e| |] eqn:Hret; [| done..]. rewrite !bind_ok in Hcheck. cbv beta iota in Hcheck.
  revert Hcheck. destruct (Z.ltb_spec ret 0) as [Hneg|Hpos].
  { destruct (Z.ltb_spec ret 0); [by intros [=] | lia]. }
  intros [= ->]. sr_seq.
  eapply wp_mono; [apply (load_settings_ok m f g settings prefix ret s1 Hm eq_refl Hf Hret Hpos Hg) |].
  intros [] t Ht; cbn [negb]; cycle 1.
  { subst t. sr_seq. unfold eap_free_common. sr_seq. apply wp_get_eap; [done |]. sr_seq. apply wp_mod_eap; [done |]. by sr_seq. }
  destruct Ht as (ms & Hms & ->). set (s2 := set_field eap_method_state (Some ms) s1).
  rewrite Hh, bool_decide_false by done. cbv zeta. sr_seq. apply wp_mod_eap; [done |]. cbv iota. rewrite Hid. sr_seq.
  apply wp_mod_eap; [done |]. sr_seq. apply wp_get_eap; [done |].
  set (identity := l_settings_get_string settings (setting_key 64 prefix "Identity")). set (s3 := set_field eap_identity identity _).
  assert (Hpeer : zlen (default [] identity) ≤ 253 → eap_peer s3 ∧ eap_out s3 = [] ∧ is_Some (eap_meth s3) ∧ eap_identity s3 = identity).
  { intros Hl. split_and!; [| done | by eexists | done]. split; [done | done | cbn; lia | exact Hl |]. cbn.
    split_and!; [exact Hv | apply Hty | apply Hty |]. by exists ms. }
  destruct identity as [id|]; [| sr_seq; intros _; by apply Hpeer].
  destruct (Z.ltb_spec 253 (zlen id)) as [Hbig|Hsmall]; cbn [orb]; [| case_b; [| sr_seq; intros _; by apply Hpeer]].
  all: sr_seq; unfold eap_free_common; sr_seq; apply wp_get_eap; [done |]; sr_seq;
    change (eap_method_state s3) with (Some ms); cbv iota; sr_seq; eapply wp_run; [done |];
    (eapply wp_mono; [by apply (method_free_ok junk random oc m ms s3) |]); intros [] t [Hft _];
    apply wp_mod_eap; [done |]; by sr_seq.
Qed.
End login.

(** ** Where the framework differs from its comments *)

Section flaws.
Context {MS : Type}.
Variable ops : eap_method → eap_ops MS.
Variable on_complete : eap_result → sr (eap_state MS) unit.
Variable junk : nat → Z.
Variable ms_ok : eap_method → MS → Prop.

(** An EAP-Success or EAP-Failure that is dropped for its identifier, which includes 0 as the
    successor of 255, has already stopped the completion timer. *)
Theorem eap_result_wrong_id success id (s : eap_state MS) :
  EapSpec.eap_peer ms_ok s → eap_discard s = false →
  id ≠ eap_last_id s → id ≠ eap_last_id s + 1 →
  eap_rx_packet ops on_complete junk [if (success : bool) then EAP_CODE_SUCCESS else EAP_CODE_FAILURE; id; 0; 4] 4 s =
    Ok (tt, s <| eap_timer := false |>).
Proof.
  intros Hp Hd H1 H2. apply wp_eq. unfold eap_rx_packet. change (4 <? 4) with false. cbv iota. sr_seq.
  eapply (wp_run _ _ _ 4); [done |]. change ((4 <? 4) || (4 <? 4)) with false. cbv iota. sr_seq.
  eapply wp_run; [done |]. sr_seq. eapply wp_run; [done |]. sr_seq. apply wp_get_eap; [apply Hp |].
  assert (Hw : ∀ b, wp (eap_rx_result on_complete b id 4) (λ u t, u = tt ∧ t = s <| eap_timer := false |>) s).
  { intros b. unfold eap_rx_result. sr_seq. apply wp_get_eap; [apply Hp |]. rewrite (ep_peer _ _ Hp), Hd. sr_seq.
    apply wp_mod_eap; [apply Hp |]. destruct (Z.eqb_spec id (eap_last_id s)), (Z.eqb_spec id (eap_last_id s + 1)); done. }
  destruct success; apply Hw.
Qed.

(** An authenticator stores a peer identity of any length, also above 253 bytes, if it has no
    NUL. *)
Theorem eap_identity_any_length m identity (s : eap_state MS) :
  eap_freed s = false → eap_meth s = Some m → eap_identity s = None → op_validate_identity (ops m) = None → 0 ∉ identity →
  eap_handle_response ops on_complete junk (EAP_TYPE_IDENTITY :: identity) (1 + zlen identity) s =
    Ok (tt, s <| eap_identity := Some identity |>).
Proof.
  intros Hf Hm Hi Hv Hz. apply wp_eq. unfold eap_handle_response. sr_seq. apply wp_get_eap; [done |]. sr_seq.
  eapply wp_run; [by rewrite Hm |]. pose proof (zlen_nonneg identity). destruct (Z.ltb_spec (1 + zlen identity) 1); [lia |].
  sr_seq. eapply wp_run; [done |]. change (negb (EAP_TYPE_IDENTITY =? EAP_TYPE_EXPANDED)) with true. cbv zeta iota.
  change ((EAP_TYPE_IDENTITY :: identity) +! 1) with identity. replace (1 + zlen identity - 1) with (zlen identity) by lia.
  unfold eap_dispatch_response. change (response_is (mk_rtype EAP_TYPE_IDENTITY None) EAP_TYPE_NAK) with false. cbv iota. sr_seq.
  apply wp_get_eap; [done |]. rewrite Hi. change (negb (response_is (mk_rtype EAP_TYPE_IDENTITY None) EAP_TYPE_IDENTITY)) with false. cbv iota.
  assert (Hc : cstring identity = identity).
  { clear -Hz. induction identity as [|c identity IH]; [done |]. apply not_elem_of_cons in Hz as [Hc Hz]. cbn.
    destruct (Z.eqb_spec c 0); [congruence |]. by rewrite IH. }
  unfold eap_peer_identity. sr_seq. eapply (wp_run _ _ _ identity); [rewrite rdn_ok by lia; by rewrite ptake_all by lia |].
  rewrite (bool_decide_false (0 ∈ identity)) by done. rewrite andb_false_r, Hc. sr_seq. apply wp_mod_eap; [done |]. rewrite Hv. by sr_seq.
Qed.

(** An authenticator whose method succeeds sends an EAP-Failure and reports success. *)
Theorem eap_authenticator_success_sends_failure (s : eap_state MS) :
  eap_freed s = false → eap_authenticator s = true → 0 ≤ eap_last_id s < 256 →
  eap_method_success (λ _, mret tt) junk s =
    Ok (tt, s <| eap_msuccess := true |>
              <| eap_out := eap_out s ++ [EapTx [EAP_CODE_FAILURE; eap_last_id s; 0; 4]; EapComplete EAP_RESULT_SUCCESS] |>).
Proof.
  intros Hf Ha Hid. apply wp_eq. unfold eap_method_success. sr_seq. apply wp_mod_eap; [done |]. sr_seq. apply wp_get_eap; [done |].
  change (eap_authenticator (set_field eap_msuccess true s)) with (eap_authenticator s). rewrite Ha. sr_seq.
  apply wp_eap_send_packet; [done | change (zlen (l_malloc junk 4)) with 4; lia |].
  unfold eap_complete. sr_seq. apply wp_eap_emit; [done |]. sr_seq. split; [done |].
  unfold packet_of. change (ptake (l_malloc junk 4 +! 4) (4 - 4)) with (@nil Z). cbn.
  rewrite (u8_small (eap_last_id s)) by done. by rewrite <- app_assoc.
Qed.
End flaws.
