(* ===== verification/EapTest.v ===== *)
(** * EAP: concrete conversations

    The theorems on EAP at a peer configured with MD5, a peer configured with MSCHAPv2, and an
    authenticator. *)

From stdpp Require Import base numbers list option relations.
From Stdlib Require Import ZArith Lia Ascii String.
From S2P Require Import Prelude StRes IeMisc Crypto Eap EapSpec Mschap EapMethods EapRun EapLogin.

Open Scope Z_scope.

#[local] Existing Instance toy_ell.
#[local] Existing Instance toy_ell_laws.

Local Ltac by_vm := match goal with |- _ = ?r => vm_cast_no_check (@eq_refl _ r) end.

(** A stand-in for DES that keeps the length of a block. *)
#[local] Instance toy_des : Des := {| l_cipher_new_des k := Some (λ b, (λ x, u8 (x + 1)) <$> b) |}.
#[local] Instance toy_des_laws : DesLaws toy_des.
Proof.
  split. intros k f b [= <-] Hb. split; [unfold zlen in *; by rewrite length_fmap |].
  apply Forall_fmap, Forall_true. intros x. apply u8_range.
Qed.

Definition test_junk (n : nat) : Z := 0xaa.
Definition test_random (n : nat) : list Z := replicate 16 (Z.of_nat n + 1).

Lemma test_random_length n : zlen (test_random n) = 16.
Proof. done. Qed.

Abbreviation test_oc := (eapol_on_complete test_junk test_random).
Abbreviation test_ops := (eap_method_ops test_oc test_junk test_random).

(** ** MD5 *)

Definition md5_peer : eap_state method_state :=
  (eap_new 1400) <| eap_meth := Some eap_md5 |> <| eap_method_state := Some (EapMd5State [115; 51]) |>
    <| eap_identity := Some [106; 111; 101] |>.

Lemma md5_peer_ok : eap_peer ms_ok md5_peer.
Proof. split; [by_eval | by_eval | by_eval | by_eval |]. cbn. split_and!; try by_eval. by eexists. Qed.

Lemma eap_md5_login_witness :
  ∃ t, rx_all test_junk test_random [eap_request 7 EAP_TYPE_MD5_CHALLENGE (4 :: [9; 8; 7; 6] ++ [65]); eap_success 7] md5_peer = Ok (tt, t) ∧
    eap_peer ms_ok t ∧ eap_out t = eap_out md5_peer ++
      [EapTx (response_of 7 EAP_TYPE_MD5_CHALLENGE (16 :: toy_digest [] 16 (7 :: [115; 51] ++ [9; 8; 7; 6]))); EapComplete EAP_RESULT_SUCCESS].
Proof.
  apply (eap_md5_login test_junk test_random md5_peer [115; 51] 7 [9; 8; 7; 6] [65] (toy_digest [] 16) md5_peer_ok);
    solve [done | by_eval | split; by_eval].
Defined.

Lemma eap_rx_packet_safe_witness :
  ∃ t, eap_rx_packet test_ops test_oc test_junk [1; 9; 0; 5; 1] 5 md5_peer = Ok (tt, t) ∧ rx_outcome ms_ok [1; 9; 0; 5; 1] md5_peer t.
Proof.
  apply (eap_rx_packet_safe test_ops test_oc test_junk ms_ok (eap_methods_ok test_junk test_random test_random_length)
           (eapol_owner test_junk test_random) [1; 9; 0; 5; 1] md5_peer md5_peer_ok). by_eval.
Defined.

(** The peer after the request for its identity. *)
Definition md5_peer1 : eap_state method_state :=
  md5_peer <| eap_last_id := 9 |> <| eap_identity_req_count := 1 |>
    <| eap_out := [EapTx [2; 9; 0; 8; 1; 106; 111; 101]] |>.

Lemma eap_conversation_safe_witness :
  live_or_over ms_ok md5_peer1 ∧
  (eap_freed md5_peer1 = false → ∀ pkt, bytes_ok pkt →
     ∃ u, eap_rx_packet test_ops test_oc test_junk pkt (zlen pkt) md5_peer1 = Ok (tt, u)).
Proof.
  apply (eap_conversation_safe test_junk test_random md5_peer md5_peer1 test_random_length md5_peer_ok);
    [constructor |].
  apply rtc_once. apply (step_packet _ _ _ [1; 9; 0; 5; 1]); [done | by_eval | by_vm].
Defined.

Lemma eap_result_wrong_id_witness :
  eap_rx_packet test_ops test_oc test_junk [EAP_CODE_SUCCESS; 0; 0; 4] 4 (md5_peer <| eap_last_id := 255 |> <| eap_timer := true |>) =
    Ok (tt, (md5_peer <| eap_last_id := 255 |> <| eap_timer := true |>) <| eap_timer := false |>).
Proof.
  apply (eap_result_wrong_id test_ops test_oc test_junk ms_ok true 0 (md5_peer <| eap_last_id := 255 |> <| eap_timer := true |>));
    [| done | done | done].
  by apply eap_peer_timer, eap_peer_id; [apply md5_peer_ok |].
Defined.

(** ** MSCHAPv2 *)

Definition ms_test : eap_mschapv2_state := mk_mschapv2 (replicate 16 3) [68; 92; 106] 0 (zeros 16) (zeros 16) 0.

Definition ms_peer : eap_state method_state :=
  (eap_new 1400) <| eap_has_km := true |> <| eap_meth := Some eap_mschapv2 |>
    <| eap_method_state := Some (EapMschapv2State ms_test) |>.

Lemma ms_peer_ok : eap_peer ms_ok ms_peer.
Proof. split; [by_eval | by_eval | by_eval | by_eval |]. cbn. split_and!; try by_eval. by eexists. Qed.

Definition ms_sc : list Z := replicate 16 5.
Definition ms_nt : list Z :=
  Eval vm_compute in default [] (server_nt_response (replicate 16 3) (test_random 0) ms_sc [68; 92; 106]).
Definition ms_auth : list Z :=
  Eval vm_compute in default [] (server_auth_response (replicate 16 3) ms_nt (test_random 0) ms_sc [68; 92; 106]).
Definition ms_keys : list Z := Eval vm_compute in default [] (server_keys (replicate 16 3) ms_nt).

Lemma eap_mschapv2_login_witness :
  ∃ t, rx_all test_junk test_random
         [challenge_request 20 1 ms_sc [115]; success_request 21 2 ms_auth [32; 77]; eap_success 21] ms_peer = Ok (tt, t) ∧ eap_peer ms_ok t ∧
    eap_out t = eap_out ms_peer ++
      [EapTx (response_of 20 EAP_TYPE_MSCHAPV2 ([MSCHAPV2_OP_RESPONSE; 1] ++ be16_bytes (54 + zlen (ms_user ms_test)) ++ [49] ++
                test_random 0 ++ zeros 8 ++ ms_nt ++ [0] ++ ms_user ms_test));
       EapTx (response_of 21 EAP_TYPE_MSCHAPV2 [MSCHAPV2_OP_SUCCESS]);
       EapKeyMaterial ms_keys None None None; EapComplete EAP_RESULT_SUCCESS].
Proof.
  apply (eap_mschapv2_login test_junk test_random test_random_length ms_peer ms_test 20 21 1 2 ms_sc [115] [32; 77] ms_nt ms_auth ms_keys ms_peer_ok);
    solve [done | by_eval | by_vm].
Defined.

(** The peer after the challenge, and after the proof of the server. *)
Definition ms_test1 : eap_mschapv2_state := mk_mschapv2 (replicate 16 3) [68; 92; 106] 1 (test_random 0) ms_sc 1.
Definition ms_peer1 : eap_state method_state :=
  ms_peer <| eap_method_state := Some (EapMschapv2State ms_test1) |> <| eap_last_id := 20 |>.
Definition ms_proof : list Z := [MSCHAPV2_OP_SUCCESS; 2; 0; 48] ++ ms_auth ++ [32; 77].
Definition ms_peer2 : eap_state method_state :=
  ms_peer1 <| eap_method_state := Some (EapMschapv2State (ms_test1 <| ms_current_id := 2 |>)) |> <| eap_msuccess := true |>
    <| eap_out := [EapTx (response_of 20 EAP_TYPE_MSCHAPV2 [MSCHAPV2_OP_SUCCESS]); EapKeyMaterial ms_keys None None None] |>.

Lemma eap_mschapv2_success_authentic_witness :
  ∃ mid l1 l2 r a msg,
    ms_proof = [MSCHAPV2_OP_SUCCESS; mid; l1; l2] ++ a ++ msg ∧ be16_of l1 l2 = 48 ∧
    mschapv2_generate_nt_response (ms_password_hash ms_test1) (ms_peer_challenge ms_test1) (ms_server_challenge ms_test1) (ms_user ms_test1) = Some r ∧
    mschapv2_generate_authenticator_response (default (l_malloc test_junk 16) (mschapv2_hash_nt_password_hash (ms_password_hash ms_test1)))
      r (ms_peer_challenge ms_test1) (ms_server_challenge ms_test1) (ms_user ms_test1) = Some a.
Proof.
  apply (eap_mschapv2_success_authentic test_junk test_random test_random_length ms_peer1 ms_peer2 ms_test1 ms_proof 48);
    [| done | done | done | by_eval | by_eval | by_eval | by_vm | left; by split_and!].
  split; [by_eval | by_eval | by_eval | by_eval |]. cbn. split_and!; try by_eval. by eexists.
Defined.

(** ** Settings *)

Definition test_settings : l_settings := {|
  l_settings_get_value k := if String.eqb k "EAP-Method" then Some "mschapv2"%string else None;
  l_settings_get_string k := if String.eqb k "EAP-Identity" then Some [106; 111; 101] else if String.eqb k "EAP-Password" then Some [112; 119] else None;
  l_settings_get_bytes k := None;
|}.

Lemma eap_checked_settings_load_witness :
  ∃ ok t, eap_load_settings test_ops [eap_gtc; eap_mschapv2] test_settings "EAP-" ((eap_new 1400) <| eap_has_km := true |>) = Ok (ok, t) ∧
    (ok = true → eap_peer ms_ok t ∧ eap_out t = [] ∧ is_Some (eap_meth t) ∧
                 eap_identity t = l_settings_get_string test_settings (setting_key 64 "EAP-" "Identity")).
Proof.
  apply (eap_checked_settings_load test_junk test_random [eap_gtc; eap_mschapv2] test_settings "EAP-" true 1400).
  - repeat constructor.
  - by_vm.
Defined.

(** ** Authenticators *)

Definition reg_method : eap_method := mk_method 254 [0; 0x37; 0x2a] 1 false "WSC-R".
Definition reg_ops (m : eap_method) : eap_ops method_state :=
  mk_ops None None None None None None None None (Some (λ _ _, mret tt)).
Definition reg_state : eap_state method_state :=
  (eap_new 1400) <| eap_authenticator := true |> <| eap_meth := Some reg_method |> <| eap_last_id := 1 |>.

Lemma eap_identity_any_length_witness :
  eap_handle_response reg_ops test_oc test_junk (EAP_TYPE_IDENTITY :: replicate 300 65) (1 + zlen (replicate 300 65)) reg_state =
    Ok (tt, reg_state <| eap_identity := Some (replicate 300 65) |>).
Proof.
  apply (eap_identity_any_length reg_ops test_oc test_junk reg_method (replicate 300 65) reg_state); try done. by_eval.
Defined.

Lemma eap_authenticator_success_sends_failure_witness :
  eap_method_success (λ _, mret tt) test_junk reg_state =
    Ok (tt, reg_state <| eap_msuccess := true |>
              <| eap_out := eap_out reg_state ++ [EapTx [EAP_CODE_FAILURE; eap_last_id reg_state; 0; 4]; EapComplete EAP_RESULT_SUCCESS] |>).
Proof. apply (eap_authenticator_success_sends_failure test_junk reg_state); by_eval. Defined.
