(* ===== verification/Erp.v ===== *)
(** * The EAP re-authentication protocol (src/erp.c)

    The cache of keys with its reference counts, the keys derived from an EMSK, the
    EAP-Initiate message and the check of EAP-Finish. *)

From stdpp Require Import base numbers list option gmap.
From Stdlib Require Import ZArith Lia.
From S2P Require Import Prelude StRes IeMisc Crypto Kdf Eap.

Open Scope Z_scope.

Definition ERP_DEFAULT_KEY_LIFETIME_US : Z := 86400000000.
Definition ERP_TYPE_REAUTH : Z := 2.
Definition ERP_TLV_KEYNAME_NAI : Z := 1.
Definition ERP_TV_RRK_LIFETIME : Z := 2.
Definition ERP_TV_RMSK_LIFETIME : Z := 3.
Definition ERP_CRYPTOSUITE_SHA256_128 : Z := 2.
Definition EAP_CODE_INITIATE : Z := 5.
Definition EAP_CODE_FINISH : Z := 6.

(** ** The cache *)

(** [struct erp_cache_entry]; strings are without their NUL, and [None] is NULL. *)
Record erp_cache_entry : Type := mk_entry {
  ec_id : option (list Z);
  ec_emsk : list Z;
  ec_session_id : list Z;
  ec_ssid : option (list Z);
  ec_expire_time : Z;
  ec_ref : Z;
  ec_invalid : bool;
}.

#[export] Instance entry_eta : Eta erp_cache_entry := λ e,
  mk_entry (ec_id e) (ec_emsk e) (ec_session_id e) (ec_ssid e) (ec_expire_time e) (ec_ref e) (ec_invalid e).
#[export] Instance set_ec_ref : SetterOf ec_ref.
Proof. derive_setter. Defined.
#[export] Instance set_ec_invalid : SetterOf ec_invalid.
Proof. derive_setter. Defined.

(** [struct l_queue_entry], by its address; the order in the list stands for [next]. *)
Record l_queue_entry : Type := mk_node {
  qe_addr : nat;
  qe_data : nat;
}.

(** The queue entries that are allocated, from the head on, and the cache entries that are. *)
Record key_cache : Type := mk_cache {
  kc_queue : list l_queue_entry;
  kc_heap : gmap nat erp_cache_entry;
  kc_next : nat;
}.

#[export] Instance cache_eta : Eta key_cache := λ c, mk_cache (kc_queue c) (kc_heap c) (kc_next c).
#[export] Instance set_kc_queue : SetterOf kc_queue.
Proof. derive_setter. Defined.
#[export] Instance set_kc_heap : SetterOf kc_heap.
Proof. derive_setter. Defined.
#[export] Instance set_kc_next : SetterOf kc_next.
Proof. derive_setter. Defined.

Definition l_time_after (a b : Z) : bool := b <? a.
Definition l_time_offset (time offset : Z) : Z :=
  if 2 ^ 64 - 1 - time <? offset then 2 ^ 64 - 1 else time + offset.

Definition entry_at (a : nat) : sr key_cache erp_cache_entry :=
  c ← get;
  run (nonnull (kc_heap c !! a)).
Definition set_entry (a : nat) (e : erp_cache_entry) : sr key_cache unit :=
  modify (λ c, c <| kc_heap := <[a := e]> (kc_heap c) |>).

Definition erp_cache_entry_destroy (a : nat) : sr key_cache unit :=
  entry_at a;;
  modify (λ c, c <| kc_heap := delete a (kc_heap c) |>).

(** [l_queue_remove]: the first queue entry with the data is taken out and freed. *)
Fixpoint remove_data (a : nat) (queue : list l_queue_entry) : list l_queue_entry :=
  match queue with
  | [] => []
  | entry :: queue => if (qe_data entry =? a)%nat then queue else entry :: remove_data a queue
  end.
Definition queue_remove (a : nat) : sr key_cache unit :=
  modify (λ c, c <| kc_queue := remove_data a (kc_queue c) |>).

(** What is read through a pointer to a queue entry: the data and the next queue entry; [None] if it
    is not allocated. *)
Fixpoint node_at (entry : nat) (queue : list l_queue_entry) : option (nat * option nat) :=
  match queue with
  | [] => None
  | n :: queue => if (qe_addr n =? entry)%nat then Some (qe_data n, qe_addr <$> head queue) else node_at entry queue
  end.
Definition queue_entry_at (entry : nat) : sr key_cache (nat * option nat) :=
  c ← get;
  run (nonnull (node_at entry (kc_queue c))).

Definition erp_cache_add (now : Z) (id session_id emsk ssid : option (list Z)) : sr key_cache unit :=
  match id, session_id, emsk with
  | None, None, None => mret tt
  | _, _, _ =>
      modify (λ c,
        mk_cache (mk_node (S (kc_next c)) (kc_next c) :: kc_queue c)
          (<[kc_next c := mk_entry id (default [] emsk) (default [] session_id) ssid
                            (l_time_offset now ERP_DEFAULT_KEY_LIFETIME_US) 0 false]> (kc_heap c))
          (S (S (kc_next c))))
  end.

(** The loop of [find_keycache] from the queue entry [entry]; [now a] is the time at which the cache
    entry [a] is looked at.  Each iteration reads [entry->data] at its start and [entry->next] at its
    end, from the queue as it is then. *)
Fixpoint find_keycache_loop (now : nat → Z) (id ssid : option (list Z)) (fuel : nat) (entry : option nat)
    : sr key_cache (option nat) :=
  match entry, fuel with
  | None, _ => mret None
  | Some _, O => run Diverge
  | Some entry, S fuel =>
      '(a, _) ← queue_entry_at entry;
      e ← entry_at a;
      let continue :=
        '(_, next) ← queue_entry_at entry;
        find_keycache_loop now id ssid fuel next in
      if ec_invalid e then continue
      else if l_time_after (now a) (ec_expire_time e) then
        (if ec_ref e =? 0 then
           queue_remove a;;
           erp_cache_entry_destroy a
         else set_entry a (e <| ec_invalid := true |>));;
        continue
      else
        same_id ← run (match id with
                       | Some id => s ← nonnull (ec_id e); Ok (bool_decide (s = id))
                       | None => Ok false
                       end);
        if (same_id : bool) then mret (Some a)
        else
          same_ssid ← run (match ssid with
                           | Some ssid => s ← nonnull (ec_ssid e); Ok (bool_decide (s = ssid))
                           | None => Ok false
                           end);
          if (same_ssid : bool) then mret (Some a) else continue
  end.

Definition find_keycache (now : nat → Z) (id ssid : option (list Z)) : sr key_cache (option nat) :=
  match id, ssid with
  | None, None => mret None
  | _, _ =>
      c ← get;
      find_keycache_loop now id ssid (length (kc_queue c)) (qe_addr <$> head (kc_queue c))
  end.

Definition erp_cache_remove (now : nat → Z) (id : option (list Z)) : sr key_cache unit :=
  r ← find_keycache now id None;
  match r with
  | None => mret tt
  | Some a =>
      e ← entry_at a;
      if negb (ec_ref e =? 0) then set_entry a (e <| ec_invalid := true |>)
      else queue_remove a;; erp_cache_entry_destroy a
  end.

(** The pointer returned. *)
Definition erp_cache_get (now : nat → Z) (ssid : option (list Z)) : sr key_cache (option nat) :=
  r ← find_keycache now None ssid;
  match r with
  | None => mret None
  | Some a =>
      e ← entry_at a;
      set_entry a (e <| ec_ref := u32 (ec_ref e + 1) |>);;
      mret (Some a)
  end.

Definition erp_cache_put (a : nat) : sr key_cache unit :=
  e ← entry_at a;
  let e := e <| ec_ref := u32 (ec_ref e - 1) |> in
  set_entry a e;;
  if negb (ec_ref e =? 0) then mret tt
  else if negb (ec_invalid e) then mret tt
  else queue_remove a;; erp_cache_entry_destroy a.

Definition erp_cache_entry_get_identity (a : nat) : sr key_cache (option (list Z)) :=
  e ← entry_at a; mret (ec_id e).

Definition erp_init : key_cache := mk_cache [] ∅ 0.

(** ** Identities (src/util.c) *)

(** The prefix before the first separator, which one it is, and what follows it. *)
Fixpoint split_identity (identity : list Z) : option (list Z * Z * list Z) :=
  match identity with
  | [] => None
  | c :: rest =>
      if (c =? 92) || (c =? 64) then Some ([], c, rest)
      else (λ '(l, sep, r), (c :: l, sep, r)) <$> split_identity rest
  end.

(** The static buffer has 256 bytes; a prefix that fills it is not terminated. *)
Definition util_get_domain (identity : list Z) : res (list Z) :=
  match split_identity identity with
  | None => Ok identity
  | Some (prefix, sep, rest) =>
      if sep =? 92 then if zlen prefix <? 256 then Ok prefix else Fault
      else Ok (ptake rest 255)
  end.
Definition util_get_username (identity : list Z) : res (list Z) :=
  match split_identity identity with
  | None => Ok identity
  | Some (prefix, sep, rest) =>
      if sep =? 64 then if zlen prefix <? 256 then Ok prefix else Fault
      else Ok (ptake rest 255)
  end.

(** ** Keys *)

(** The labels, as bytes. *)
Definition ERP_RRK_LABEL : list Z :=
  [69; 65; 80; 32; 82; 101; 45; 97; 117; 116; 104; 101; 110; 116; 105; 99; 97; 116; 105; 111; 110; 32; 82; 111; 111;
   116; 32; 75; 101; 121; 64; 105; 101; 116; 102; 46; 111; 114; 103].
Definition ERP_RIK_LABEL : list Z :=
  [82; 101; 45; 97; 117; 116; 104; 101; 110; 116; 105; 99; 97; 116; 105; 111; 110; 32; 73; 110; 116; 101; 103; 114;
   105; 116; 121; 32; 75; 101; 121; 64; 105; 101; 116; 102; 46; 111; 114; 103].
Definition ERP_RMSK_LABEL : list Z :=
  [82; 101; 45; 97; 117; 116; 104; 101; 110; 116; 105; 99; 97; 116; 105; 111; 110; 32; 77; 97; 115; 116; 101; 114; 32;
   83; 101; 115; 115; 105; 111; 110; 32; 75; 101; 121; 64; 105; 101; 116; 102; 46; 111; 114; 103].

Definition hex_digit (n : Z) : Z := if n <? 10 then 48 + n else 87 + n.
Definition l_util_hexstring (buf : list Z) : list Z :=
  buf ≫= λ b, [hex_digit (Z.shiftr b 4); hex_digit (Z.land b 0xf)].

(** [struct erp_state]; [erp_cache] is the entry it points to, whose keys and names are not
    changed while it is referenced. *)
Record erp_state : Type := mk_erp {
  erp_cache : erp_cache_entry;
  erp_rmsk : list Z;
  erp_r_rk : list Z;
  erp_r_ik : list Z;
  erp_keyname_nai : list Z;
  erp_seq : Z;
}.

#[export] Instance erp_eta : Eta erp_state := λ s,
  mk_erp (erp_cache s) (erp_rmsk s) (erp_r_rk s) (erp_r_ik s) (erp_keyname_nai s) (erp_seq s).
#[export] Instance set_erp_rmsk : SetterOf erp_rmsk.
Proof. derive_setter. Defined.
#[export] Instance set_erp_r_rk : SetterOf erp_r_rk.
Proof. derive_setter. Defined.
#[export] Instance set_erp_r_ik : SetterOf erp_r_ik.
Proof. derive_setter. Defined.
#[export] Instance set_erp_keyname_nai : SetterOf erp_keyname_nai.
Proof. derive_setter. Defined.

(** [None] is NULL. *)
Definition erp_new (cache : option erp_cache_entry) : option erp_state :=
  (λ e, mk_erp e (zeros 64) (zeros 64) (zeros 64) (zeros 254) 0) <$> cache.

(** ** The iterator *)

Record erp_tlv_iter : Type := mk_erp_iter {
  et_max : Z;
  et_pos : Z;
  et_tlv : ptr;
  et_tag : Z;
  et_len : Z;
  et_data : ptr;
}.

Definition erp_tlv_iter_init (tlv : ptr) (len : Z) : erp_tlv_iter := mk_erp_iter len 0 tlv 0 0 [].

(** [None] is a [false] return. *)
Definition erp_tlv_iter_next (iter : erp_tlv_iter) : res (option erp_tlv_iter) :=
  let pos := et_pos iter in
  if et_max iter <=? u32 (pos + 2) then Ok None
  else
    tag ← rd (et_tlv iter) pos;
    '(len, off) ← (if negb (tag =? ERP_TV_RMSK_LIFETIME) && negb (tag =? ERP_TV_RRK_LIFETIME)
                   then len ← rd (et_tlv iter) (pos + 1); Ok (len, pos + 2)
                   else Ok (4, pos + 1));
    if et_max iter <? off + len then Ok None
    else Ok (Some (mk_erp_iter (et_max iter) (off + len) (et_tlv iter) tag len (et_tlv iter +! off))).

(** The loop of [erp_rx_packet]: the keyName-NAI; [Ok None] is the failure on a second one. *)
Fixpoint erp_nai_loop (fuel : nat) (iter : erp_tlv_iter) (nai : option ptr) : res (option (option ptr)) :=
  match fuel with
  | O => Diverge
  | S fuel =>
      r ← erp_tlv_iter_next iter;
      match r with
      | None => Ok (Some nai)
      | Some iter =>
          if et_tag iter =? ERP_TLV_KEYNAME_NAI then
            match nai with
            | Some _ => Ok None
            | None => erp_nai_loop fuel iter (Some (et_data iter))
            end
          else erp_nai_loop fuel iter nai
      end
  end.

Section erp.
Context `{Ell}.
(** The contents of uninitialised memory. *)
Variable junk : nat → Z.

(** The 16 characters of [buf]. *)
Definition erp_derive_emsk_name (session_id : list Z) : res (option (list Z)) :=
  r ← hkdf_expand L_CHECKSUM_SHA256 session_id [69; 77; 83; 75; 0; 0; 8] 8;
  Ok (option_map l_util_hexstring r).

(** The return value and the buffers [r_rk] and [r_ik]. *)
Definition erp_derive_reauth_keys (emsk r_rk r_ik : list Z) : res (bool * list Z * list Z) :=
  let emsk_len := zlen emsk in
  r ← hkdf_expand L_CHECKSUM_SHA256 emsk (ERP_RRK_LABEL ++ [0] ++ be16_bytes emsk_len) emsk_len;
  match r with
  | None => Ok (false, r_rk, r_ik)
  | Some k =>
      r_rk ← put r_rk 0 k;
      key ← rdn r_rk emsk_len;
      r ← hkdf_expand L_CHECKSUM_SHA256 key
            (ERP_RIK_LABEL ++ [0] ++ [ERP_CRYPTOSUITE_SHA256_128] ++ be16_bytes emsk_len) emsk_len;
      match r with
      | None => Ok (false, r_rk, r_ik)
      | Some k => r_ik ← put r_ik 0 k; Ok (true, r_rk, r_ik)
      end
  end.

(** ** EAP-Initiate *)

(** The message without its tag. *)
Definition erp_initiate (seq : Z) (nai : list Z) : list Z :=
  [EAP_CODE_INITIATE; 0] ++ be16_bytes (27 + zlen nai) ++ [ERP_TYPE_REAUTH; 0] ++ be16_bytes seq ++
  [ERP_TLV_KEYNAME_NAI; u8 (zlen nai)] ++ nai ++ [ERP_CRYPTOSUITE_SHA256_128].

(** The packet given to [tx_packet], which is called last; without one the return is [false]. *)
Definition erp_start (s : erp_state) : res (erp_state * option (list Z)) :=
  let cache := erp_cache s in
  r ← erp_derive_emsk_name (ec_session_id cache);
  match r with
  | None => Ok (s, None)
  | Some emsk_name =>
      '(ok, r_rk, r_ik) ← erp_derive_reauth_keys (ec_emsk cache) (erp_r_rk s) (erp_r_ik s);
      let s := s <| erp_r_rk := r_rk |> <| erp_r_ik := r_ik |> in
      if negb ok then Ok (s, None)
      else
        id ← nonnull (ec_id cache);
        domain ← util_get_domain id;
        let nai := emsk_name ++ [64] ++ domain in
        keyname ← put (erp_keyname_nai s) 0 (nai ++ [0]);
        let buf := erp_initiate (erp_seq s) nai in
        key ← rdn r_ik (zlen (ec_emsk cache));
        let tag := default (l_malloc junk 16) (hmac_sha256 key buf (l_malloc junk 16)) in
        Ok (s <| erp_keyname_nai := keyname |>, Some (buf ++ tag))
  end.

(** ** EAP-Finish *)

(** [Ok None] is the return of [-EINVAL]; the code of the packet is not looked at. *)
Definition erp_rx_packet (s : erp_state) (pkt : ptr) (len : Z) : res (option erp_state) :=
  let emsk_len := zlen (ec_emsk (erp_cache s)) in
  if len <? 25 then Ok None
  else
    type ← rd pkt 4;
    if negb (type =? ERP_TYPE_REAUTH) then Ok None
    else
      r ← test_bit (pkt +! 5) 0;
      if (r : bool) then Ok None
      else
        seq ← l_get_be16 (pkt +! 6);
        if negb (seq =? erp_seq s) then Ok None
        else
          cs ← rd pkt (len - 17);
          if negb (cs =? ERP_CRYPTOSUITE_SHA256_128) then Ok None
          else
            key ← rdn (erp_r_ik s) emsk_len;
            data ← rdn pkt (len - 16);
            let hash := default (l_malloc junk 16) (hmac_sha256 key data (l_malloc junk 16)) in
            same ← memeq (pkt +! (len - 16)) hash;
            if negb same then Ok None
            else
              r ← erp_nai_loop (S (Z.to_nat len)) (erp_tlv_iter_init (pkt +! 8) (u32 (len - 8 - 17))) None;
              match r with
              | Some (Some nai) =>
                  same ← memeq nai (cstring (erp_keyname_nai s));
                  if negb same then Ok None
                  else
                    key ← rdn (erp_r_rk s) emsk_len;
                    r ← hkdf_expand L_CHECKSUM_SHA256 key
                          (ERP_RMSK_LABEL ++ [0] ++ be16_bytes (erp_seq s) ++ be16_bytes 64) emsk_len;
                    match r with
                    | None => Ok None
                    | Some rmsk => rmsk ← put (erp_rmsk s) 0 rmsk; Ok (Some (s <| erp_rmsk := rmsk |>))
                    end
              | _ => Ok None
              end.

Definition erp_get_rmsk (s : erp_state) : res (list Z) := rdn (erp_rmsk s) (zlen (ec_emsk (erp_cache s))).
End erp.
