(* ===== verification/ErpSpec.v ===== *)
(** * The EAP re-authentication protocol: what it guarantees (src/erp.c)

    The exchange with a server that has the same EMSK, what an accepted message proves, the
    reference counts of the cache, and the cases in which the code goes wrong. *)

From stdpp Require Import base numbers list option gmap relations.
From Stdlib Require Import ZArith Lia.
From S2P Require Import Prelude StRes IeMisc Crypto Kdf Eap Erp.

Open Scope Z_scope.

Section erp.
Context {EC : Ell} {EL : EllLaws EC}.
Variable junk : nat → Z.

(** HMAC-SHA256, where ell provides it. *)
Definition sha256_works : Prop := ∀ k, is_Some (l_checksum_new_hmac L_CHECKSUM_SHA256 k).
Definition mac256 (k d : list Z) : list Z :=
  match l_checksum_new_hmac L_CHECKSUM_SHA256 k with Some h => h d | None => [] end.

Lemma mac256_zlen k d : sha256_works → zlen (mac256 k d) = 32.
Proof. intros Hw. unfold mac256. destruct (Hw k) as [h Hh]. rewrite Hh. by apply (hmac_ok _ _ _ _ Hh). Qed.

Lemma tag_value k d out : sha256_works → zlen out = 16 → hmac_sha256 k d out = Some (ptake (mac256 k d) 16).
Proof.
  intros Hw Ho. pose proof (mac256_zlen k d Hw) as Hl. unfold hmac_sha256, hmac_common, mac256 in *.
  destruct (Hw k) as [h Hh]. rewrite Hh in *. rewrite digest_into_long by lia. by rewrite Ho.
Qed.

(** The HKDF expansion. *)
Definition expand (k info : list Z) (len : Z) : list Z := ptake (feedback_blocks (mac256 k) (hkdf_msg info) 0 255) len.

Lemma hkdf_expand_ok k info len : sha256_works → 0 ≤ len ≤ 8160 →
  hkdf_expand L_CHECKSUM_SHA256 k info len = Ok (Some (expand k info len)).
Proof.
  intros Hw Hl. destruct (Hw k) as [h Hh]. rewrite (hkdf_expand_blocks _ _ _ _ _ Hh) by exact Hl.
  unfold expand, mac256. by rewrite Hh.
Qed.

Lemma expand_zlen k info len : sha256_works → 0 ≤ len ≤ 8160 → zlen (expand k info len) = len.
Proof.
  intros Hw Hl. unfold expand. rewrite zlen_ptake; [done |].
  rewrite (feedback_blocks_zlen _ _ 32) by (intros; by apply mac256_zlen). lia.
Qed.

(** ** The keys of RFC 6696 *)

Definition rfc_rrk (emsk : list Z) : list Z := expand emsk (ERP_RRK_LABEL ++ [0] ++ be16_bytes 64) 64.
Definition rfc_rik (emsk : list Z) : list Z :=
  expand (rfc_rrk emsk) (ERP_RIK_LABEL ++ [0; ERP_CRYPTOSUITE_SHA256_128] ++ be16_bytes 64) 64.
Definition rfc_rmsk (emsk : list Z) (seq : Z) : list Z :=
  expand (rfc_rrk emsk) (ERP_RMSK_LABEL ++ [0] ++ be16_bytes seq ++ be16_bytes 64) 64.
(** The EMSK name and the NAI. *)
Definition rfc_nai (session_id domain : list Z) : list Z :=
  l_util_hexstring (expand session_id [69; 77; 83; 75; 0; 0; 8] 8) ++ [64] ++ domain.

(** An entry of the cache with keys of the usual size and an identity of which the name fits. *)
Record erp_entry_ok (e : erp_cache_entry) (domain : list Z) : Prop := {
  eo_emsk : zlen (ec_emsk e) = 64;
  eo_domain : ∃ id, ec_id e = Some id ∧ util_get_domain id = Ok domain;
  eo_nul : 0 ∉ domain;
  eo_fits : zlen domain ≤ 236;
}.

(** The state before [erp_start]. *)
Record erp_fresh (s : erp_state) : Prop := {
  ef_rmsk : zlen (erp_rmsk s) = 64;
  ef_rrk : zlen (erp_r_rk s) = 64;
  ef_rik : zlen (erp_r_ik s) = 64;
  ef_nai : zlen (erp_keyname_nai s) = 254;
  ef_seq : 0 ≤ erp_seq s < 65536;
}.

(** The state after it. *)
Record erp_started (s : erp_state) (nai : list Z) : Prop := {
  es_emsk : zlen (ec_emsk (erp_cache s)) = 64;
  es_rmsk : zlen (erp_rmsk s) = 64;
  es_rrk : erp_r_rk s = rfc_rrk (ec_emsk (erp_cache s));
  es_rik : erp_r_ik s = rfc_rik (ec_emsk (erp_cache s));
  es_nai : ∃ rest, erp_keyname_nai s = nai ++ [0] ++ rest;
  es_nul : 0 ∉ nai;
  es_len : 1 ≤ zlen nai ≤ 253;
  es_seq : 0 ≤ erp_seq s < 65536;
}.

Lemma hexstring_zlen l : zlen (l_util_hexstring l) = 2 * zlen l.
Proof. induction l as [|b l IH]; [done |]. unfold l_util_hexstring in *. csimpl. rewrite !zlen_cons, IH. lia. Qed.

Lemma hexstring_nul l : bytes_ok l → 0 ∉ l_util_hexstring l.
Proof.
  induction 1 as [|b l Hb Hl IH]; [by apply not_elem_of_nil |]. unfold l_util_hexstring in *. csimpl. unfold byte_ok in Hb.
  assert (Hd : ∀ d, 0 ≤ d → 0 ≠ hex_digit d) by (intros d Hd; unfold hex_digit; case_b; lia).
  apply not_elem_of_cons. split; [apply Hd, Z.shiftr_nonneg; lia |].
  apply not_elem_of_cons. split; [| done]. apply Hd, Z.land_nonneg. lia.
Qed.

Lemma put_all buf l : zlen buf = zlen l → put buf 0 l = Ok l.
Proof. intros Hl. rewrite put_first by lia. by rewrite padd_all, app_nil_r by lia. Qed.

(** ** EAP-Initiate *)

(** The message the code sends: the name of the EMSK and the domain as keyName-NAI, and the tag of
    RFC 6696; the keys are those of the RFC. *)
Lemma erp_start_ok s domain :
  sha256_works → erp_fresh s → erp_entry_ok (erp_cache s) domain →
  let e := erp_cache s in
  let nai := rfc_nai (ec_session_id e) domain in
  let buf := erp_initiate (erp_seq s) nai in
  ∃ t, erp_start junk s = Ok (t, Some (buf ++ ptake (mac256 (rfc_rik (ec_emsk e)) buf) 16)) ∧
       erp_started t nai ∧ erp_cache t = e ∧ erp_seq t = erp_seq s.
Proof.
  intros Hw [Hrm Hrr Hri Hna Hsq] [He (id & Hid & Hdom) Hnul Hfit] e nai buf. unfold erp_start. fold e.
  unfold erp_derive_emsk_name. rewrite hkdf_expand_ok, !bind_ok by (done || lia). cbn [option_map].
  unfold erp_derive_reauth_keys. change (zlen (ec_emsk (erp_cache s))) with (zlen (ec_emsk e)) in He. rewrite He.
  rewrite hkdf_expand_ok, !bind_ok by (done || lia). fold (rfc_rrk (ec_emsk e)).
  assert (Hk1 : zlen (rfc_rrk (ec_emsk e)) = 64) by (apply expand_zlen; [done | lia]).
  rewrite put_all, !bind_ok by lia. rewrite rdn_ok, !bind_ok by lia. rewrite ptake_all by lia.
  rewrite hkdf_expand_ok, !bind_ok by (done || lia). fold (rfc_rik (ec_emsk e)).
  assert (Hk2 : zlen (rfc_rik (ec_emsk e)) = 64) by (apply expand_zlen; [done | lia]).
  change (ERP_RIK_LABEL ++ [0] ++ [ERP_CRYPTOSUITE_SHA256_128] ++ be16_bytes 64) with
    (ERP_RIK_LABEL ++ [0; ERP_CRYPTOSUITE_SHA256_128] ++ be16_bytes 64).
  fold (rfc_rik (ec_emsk e)). rewrite put_all, !bind_ok by lia. cbn [negb].
  fold e in Hid. rewrite Hid. cbn [nonnull]. rewrite bind_ok, Hdom, bind_ok.
  change (l_util_hexstring _ ++ [64] ++ domain) with nai.
  assert (Hhex : zlen (expand (ec_session_id e) [69; 77; 83; 75; 0; 0; 8] 8) = 8) by (apply expand_zlen; [done | lia]).
  assert (Hl : zlen nai = 17 + zlen domain).
  { unfold nai, rfc_nai. rewrite !zlen_app, hexstring_zlen, Hhex. change (zlen [64]) with 1. lia. }
  pose proof (zlen_nonneg domain). cbn [erp_keyname_nai set_field].
  rewrite put_first, bind_ok by (rewrite zlen_app; change (zlen [0]) with 1; cbn; lia).
  rewrite rdn_ok, bind_ok by lia. rewrite ptake_all by lia. cbn [erp_seq set_field]. fold buf.
  rewrite tag_value by (done || by rewrite l_malloc_length). cbn [default from_option].
  eexists. split; [reflexivity |]. split; [| done]. split; try done.
  - cbn. rewrite <- app_assoc. by eexists.
  - unfold nai, rfc_nai. rewrite !not_elem_of_app. split_and!; [apply hexstring_nul | by intros ?%list_elem_of_singleton | done].
    unfold expand. apply ptake_Forall. unfold feedback_blocks. apply Forall_concat, Forall_fmap, Forall_true.
    intros i. destruct i as [|i]; cbn [feedback compose]; [constructor |]. unfold mac256. destruct (Hw (ec_session_id e)) as [h Hh]. rewrite Hh.
    by apply (hmac_ok _ _ _ _ Hh).
  - lia.
Qed.

(** ** EAP-Finish *)

(** A message without its tag: any code, identifier and length, and flags. *)
Definition erp_message (head : list Z) (flags seq : Z) (nai : list Z) : list Z :=
  head ++ [ERP_TYPE_REAUTH; flags] ++ be16_bytes seq ++ [ERP_TLV_KEYNAME_NAI; zlen nai] ++ nai ++ [ERP_CRYPTOSUITE_SHA256_128].
Definition erp_tagged (emsk m : list Z) : list Z := m ++ ptake (mac256 (rfc_rik emsk) m) 16.

Lemma erp_next_one nai rest :
  1 ≤ zlen nai ≤ 255 →
  let tlv := [ERP_TLV_KEYNAME_NAI; zlen nai] ++ nai ++ rest in
  erp_tlv_iter_next (erp_tlv_iter_init tlv (2 + zlen nai)) =
    Ok (Some (mk_erp_iter (2 + zlen nai) (2 + zlen nai) tlv ERP_TLV_KEYNAME_NAI (zlen nai) (nai ++ rest))).
Proof.
  intros Hn tlv. unfold erp_tlv_iter_next, erp_tlv_iter_init. cbn [et_max et_pos et_tlv].
  change (u32 (0 + 2)) with 2. destruct (Z.leb_spec (2 + zlen nai) 2); [lia |].
  change (rd tlv 0) with (Ok ERP_TLV_KEYNAME_NAI). rewrite bind_ok.
  change (rd tlv (0 + 1)) with (Ok (zlen nai)). change (tlv +! (0 + 2)) with (nai ++ rest).
  cbn [Z.eqb Pos.eqb negb andb ERP_TV_RMSK_LIFETIME ERP_TV_RRK_LIFETIME ERP_TLV_KEYNAME_NAI]. rewrite !bind_ok.
  change (0 + 2) with 2. by destruct (Z.ltb_spec (2 + zlen nai) (2 + zlen nai)); [lia |].
Qed.

Lemma erp_next_end max pos tlv tag len data : 0 ≤ pos < 2 ^ 31 → max ≤ pos + 2 →
  erp_tlv_iter_next (mk_erp_iter max pos tlv tag len data) = Ok None.
Proof.
  intros Hp Hm. unfold erp_tlv_iter_next. cbn [et_max et_pos]. rewrite u32_small by lia.
  by destruct (Z.leb_spec max (pos + 2)); [| lia].
Qed.

Lemma erp_nai_loop_one nai rest fuel :
  1 ≤ zlen nai ≤ 255 →
  erp_nai_loop (S (S fuel)) (erp_tlv_iter_init ([ERP_TLV_KEYNAME_NAI; zlen nai] ++ nai ++ rest) (2 + zlen nai)) None =
    Ok (Some (Some (nai ++ rest))).
Proof.
  intros Hn. cbn [erp_nai_loop]. rewrite erp_next_one, bind_ok by done. cbn [et_tag et_data]. rewrite Z.eqb_refl.
  by rewrite erp_next_end, bind_ok by lia.
Qed.

Lemma cstring_app l rest : 0 ∉ l → cstring (l ++ [0] ++ rest) = l.
Proof.
  induction l as [|c l IH]; intros Hn; [done |]. apply not_elem_of_cons in Hn as [Hc Hn]. cbn.
  destruct (Z.eqb_spec c 0); [congruence |]. f_equal. by apply IH.
Qed.

Lemma erp_rx_message s nai head flags after :
  sha256_works → erp_started s nai → zlen head = 4 → Z.testbit flags 0 = false →
  let emsk := ec_emsk (erp_cache s) in
  let pkt := erp_tagged emsk (erp_message head flags (erp_seq s) nai) in
  erp_rx_packet junk s (pkt ++ after) (zlen pkt) = Ok (Some (s <| erp_rmsk := rfc_rmsk emsk (erp_seq s) |>)).
Proof.
  intros Hw [He Hrm Hrk Hik (nrest & Hnai) Hnul Hn Hs] Hh Hf emsk pkt.
  set (m := erp_message head flags (erp_seq s) nai) in *. set (tag := ptake (mac256 (rfc_rik emsk) m) 16).
  assert (Htag : zlen tag = 16) by (unfold tag; rewrite zlen_ptake; [done |]; rewrite mac256_zlen by done; lia).
  assert (Hm : zlen m = 11 + zlen nai).
  { unfold m, erp_message. rewrite !zlen_app, Hh. change (zlen [_; flags]) with 2. change (zlen (be16_bytes _)) with 2.
    change (zlen [_; zlen nai]) with 2. change (zlen [_]) with 1. lia. }
  assert (Hl : zlen pkt = 27 + zlen nai) by (unfold pkt, erp_tagged; fold tag; rewrite zlen_app; lia).
  unfold erp_rx_packet. rewrite Hl. destruct (Z.ltb_spec (27 + zlen nai) 25); [lia |].
  assert (Hshape : pkt ++ after = head ++ [ERP_TYPE_REAUTH; flags] ++ be16_bytes (erp_seq s) ++ [ERP_TLV_KEYNAME_NAI; zlen nai] ++ nai ++
                         [ERP_CRYPTOSUITE_SHA256_128] ++ tag ++ after).
  { unfold pkt, erp_tagged, m, erp_message. by rewrite <- !app_assoc. }
  assert (H4 : (pkt ++ after) +! 4 = [ERP_TYPE_REAUTH; flags] ++ be16_bytes (erp_seq s) ++ [ERP_TLV_KEYNAME_NAI; zlen nai] ++ nai ++
                         [ERP_CRYPTOSUITE_SHA256_128] ++ tag ++ after) by (rewrite Hshape; by apply padd_app).
  replace 4 with (4 + 0) by lia. rewrite <- rd_padd, H4 by lia. cbn [app]. rewrite rd_cons_0, bind_ok.
  cbn [Z.eqb Pos.eqb negb ERP_TYPE_REAUTH].
  assert (H5 : ∀ k, 4 ≤ k → (pkt ++ after) +! k = ((pkt ++ after) +! 4) +! (k - 4)) by (intros k Hk; rewrite padd_padd by lia; f_equal; lia).
  rewrite (H5 5), H4 by lia. change (5 - 4) with 1. erewrite test_bit_ok; [| lia | reflexivity]. rewrite bind_ok.
  change (0 mod 8) with 0. rewrite Hf. rewrite (H5 6), H4 by lia. change (6 - 4) with 2.
  change (([ERP_TYPE_REAUTH; flags] ++ be16_bytes (erp_seq s) ++ ?x) +! 2) with (be16_bytes (erp_seq s) ++ x).
  rewrite l_get_be16_bytes, bind_ok, Z.eqb_refl by done. cbn [negb].
  assert (Hcs : rd (pkt ++ after) (27 + zlen nai - 17) = Ok ERP_CRYPTOSUITE_SHA256_128).
  { set (pre := head ++ [ERP_TYPE_REAUTH; flags] ++ be16_bytes (erp_seq s) ++ [ERP_TLV_KEYNAME_NAI; zlen nai] ++ nai).
    assert (Hpre : zlen pre = 10 + zlen nai).
    { unfold pre. rewrite !zlen_app, Hh. change (zlen [_; flags]) with 2. change (zlen (be16_bytes _)) with 2.
      change (zlen [_; zlen nai]) with 2. lia. }
    replace (pkt ++ after) with (pre ++ [ERP_CRYPTOSUITE_SHA256_128] ++ tag ++ after) by (rewrite Hshape; unfold pre; by rewrite <- !app_assoc).
    rewrite rd_app_r by lia. replace (27 + zlen nai - 17 - zlen pre) with 0 by lia. done. }
  rewrite Hcs, bind_ok. cbn [Z.eqb Pos.eqb negb ERP_CRYPTOSUITE_SHA256_128]. fold emsk in He, Hrk, Hik |- *. rewrite He, Hik.
  assert (Hk2 : zlen (rfc_rik emsk) = 64) by (apply expand_zlen; [done | lia]).
  assert (Hk1 : zlen (rfc_rrk emsk) = 64) by (apply expand_zlen; [done | lia]).
  rewrite (rdn_ok (rfc_rik emsk) 64), bind_ok, (ptake_all (rfc_rik emsk)) by lia. replace (27 + zlen nai - 16) with (11 + zlen nai) by lia.
  assert (Hrd : rdn (pkt ++ after) (11 + zlen nai) = Ok m) by (unfold pkt, erp_tagged; rewrite <- app_assoc; apply rdn_app; lia).
  rewrite Hrd, bind_ok, tag_value by (done || by rewrite l_malloc_length). cbn [default from_option]. fold tag.
  assert (Hend : (pkt ++ after) +! (11 + zlen nai) = tag ++ after).
  { unfold pkt, erp_tagged. rewrite <- app_assoc. by apply padd_app. }
  rewrite Hend, memeq_app, bind_ok. cbn [negb].
  rewrite (H5 8), H4 by lia. change (8 - 4) with 4. replace (27 + zlen nai - 8 - 17) with (2 + zlen nai) by lia.
  rewrite u32_small by lia.
  change (([ERP_TYPE_REAUTH; flags] ++ be16_bytes (erp_seq s) ++ ?x) +! 4) with x.
  replace (S (Z.to_nat (27 + zlen nai))) with (S (S (Z.to_nat (26 + zlen nai)))) by lia.
  rewrite erp_nai_loop_one, bind_ok by lia. rewrite Hnai, cstring_app by done. rewrite memeq_app, bind_ok. cbn [negb].
  rewrite Hrk, (rdn_ok (rfc_rrk emsk) 64), bind_ok, (ptake_all (rfc_rrk emsk)) by lia. rewrite hkdf_expand_ok, bind_ok by (done || lia).
  change (expand _ _ _) with (rfc_rmsk emsk (erp_seq s)). rewrite put_all; [done |]. unfold rfc_rmsk. rewrite expand_zlen by (done || lia). lia.
Qed.

(** C19: the re-authentication.  The peer's message is EAP-Initiate/Re-auth with the keyName-NAI,
    tagged with the rIK of the EMSK.  Every EAP-Finish/Re-auth message, of any identifier, that has
    the result flag (bit 0 of the flags) clear, the same sequence number, the keyName-NAI as its
    only TLV, the cryptosuite HMAC-SHA256-128 and the tag of the rIK is accepted, and the peer then
    has the rMSK that RFC 6696 derives from the EMSK.  The cache entry has an EMSK of 64 bytes and
    an identity whose domain has at most 236 characters (longer ones do not fit [keyname_nai]). *)
Theorem erp_reauth_agrees s domain :
  sha256_works → erp_fresh s → erp_entry_ok (erp_cache s) domain →
  let emsk := ec_emsk (erp_cache s) in
  let nai := rfc_nai (ec_session_id (erp_cache s)) domain in
  ∃ t, erp_start junk s = Ok (t, Some (erp_tagged emsk (erp_initiate (erp_seq s) nai))) ∧
    ∀ id flags, Z.testbit flags 0 = false →
    let finish := erp_tagged emsk (erp_message ([EAP_CODE_FINISH; id] ++ be16_bytes (27 + zlen nai)) flags (erp_seq s) nai) in
    ∃ u, erp_rx_packet junk t finish (zlen finish) = Ok (Some u) ∧ erp_get_rmsk u = Ok (rfc_rmsk emsk (erp_seq s)).
Proof.
  intros Hw Hf He emsk nai. destruct (erp_start_ok s domain Hw Hf He) as (t & Ht & Hst & Hc & Hs). exists t. split; [exact Ht |].
  intros id flags Hfl finish. pose proof (erp_rx_message t nai ([EAP_CODE_FINISH; id] ++ be16_bytes (27 + zlen nai)) flags [] Hw Hst eq_refl Hfl) as Hrx.
  cbv zeta in Hrx. rewrite app_nil_r in Hrx. rewrite Hc, Hs in Hrx. fold emsk finish in Hrx. rewrite Hrx. eexists. split; [done |].
  unfold erp_get_rmsk. cbn. rewrite Hc. fold emsk. pose proof (eo_emsk _ _ He) as H64. fold emsk in H64. rewrite H64.
  assert (Hr : zlen (rfc_rmsk emsk (erp_seq s)) = 64) by (apply expand_zlen; [done | lia]).
  rewrite rdn_ok by lia. by rewrite ptake_all by lia.
Qed.

(** The code of a message is not looked at: the peer accepts its own EAP-Initiate message as the
    EAP-Finish of the server. *)
Theorem erp_reflected_accepted s domain :
  sha256_works → erp_fresh s → erp_entry_ok (erp_cache s) domain →
  ∃ t pkt u, erp_start junk s = Ok (t, Some pkt) ∧ erp_rx_packet junk t pkt (zlen pkt) = Ok (Some u).
Proof.
  intros Hw Hf He. destruct (erp_start_ok s domain Hw Hf He) as (t & Ht & Hst & Hc & Hs).
  set (nai := rfc_nai (ec_session_id (erp_cache s)) domain) in *.
  pose proof (erp_rx_message t nai ([EAP_CODE_INITIATE; 0] ++ be16_bytes (27 + zlen nai)) 0 [] Hw Hst eq_refl eq_refl) as Hrx.
  cbv zeta in Hrx. rewrite app_nil_r in Hrx. rewrite Hc, Hs in Hrx.
  assert (Hi : erp_message ([EAP_CODE_INITIATE; 0] ++ be16_bytes (27 + zlen nai)) 0 (erp_seq s) nai = erp_initiate (erp_seq s) nai).
  { unfold erp_message, erp_initiate. pose proof (es_len _ _ Hst). by rewrite u8_small by lia. }
  rewrite Hi in Hrx. eexists t, _, _. split; [exact Ht | exact Hrx].
Qed.

(** The tag of a packet. *)
Definition tag_valid (emsk pkt : list Z) : Prop :=
  25 ≤ zlen pkt ∧ pkt +! (zlen pkt - 16) = ptake (mac256 (rfc_rik emsk) (ptake pkt (zlen pkt - 16))) 16.

(** A packet without the tag of the server is refused without a fault and without a change of
    state, and the rMSK of an accepted one is that of the EMSK. *)
Theorem erp_rx_authentic s nai pkt :
  sha256_works → erp_started s nai → bytes_ok pkt →
  let emsk := ec_emsk (erp_cache s) in
  let r := erp_rx_packet junk s pkt (zlen pkt) in
  (r = Ok None ∨ tag_valid emsk pkt) ∧
  ∀ t, r = Ok (Some t) → t = s <| erp_rmsk := rfc_rmsk emsk (erp_seq s) |>.
Proof.
  intros Hw [He Hrm Hrk Hik (nrest & Hnai) Hnul Hn Hs] Hok emsk. unfold erp_rx_packet. fold emsk in He, Hrk, Hik |- *. rewrite He.
  destruct (Z.ltb_spec (zlen pkt) 25) as [|Hl]; [by split; [left |] |].
  destruct (rd_in pkt 4) as (type & -> & _); [lia |]. rewrite bind_ok.
  destruct (negb (type =? ERP_TYPE_REAUTH)); [by split; [left |] |].
  destruct (rd_in (pkt +! 5) 0) as (b & Hb & _); [rewrite zlen_padd; lia |].
  erewrite test_bit_ok; [| lia | exact Hb]. rewrite bind_ok. destruct (Z.testbit b (0 mod 8)); [by split; [left |] |].
  destruct (rd_in (pkt +! 6) 0) as (s1 & Hs1 & _); [rewrite zlen_padd; lia |].
  destruct (rd_in (pkt +! 6) 1) as (s2 & Hs2 & _); [rewrite zlen_padd; lia |].
  unfold l_get_be16. rewrite Hs1, Hs2, !bind_ok. destruct (negb (be16_of s1 s2 =? erp_seq s)); [by split; [left |] |].
  destruct (rd_in pkt (zlen pkt - 17)) as (cs & -> & _); [lia |]. rewrite bind_ok.
  destruct (negb (cs =? ERP_CRYPTOSUITE_SHA256_128)); [by split; [left |] |].
  assert (Hk2 : zlen (rfc_rik emsk) = 64) by (apply expand_zlen; [done | lia]).
  assert (Hk1 : zlen (rfc_rrk emsk) = 64) by (apply expand_zlen; [done | lia]).
  rewrite Hik, (rdn_ok (rfc_rik emsk) 64), bind_ok, (ptake_all (rfc_rik emsk)) by lia.
  rewrite (rdn_ok pkt), bind_ok by lia. rewrite tag_value by (done || by rewrite l_malloc_length). cbn [default from_option]. unfold id.
  set (tag := ptake (mac256 (rfc_rik emsk) _) 16).
  assert (Htag : zlen tag = 16) by (unfold tag; rewrite zlen_ptake; [done |]; rewrite mac256_zlen by done; lia).
  assert (Htail : zlen (pkt +! (zlen pkt - 16)) = 16) by (rewrite zlen_padd; lia).
  rewrite (memeq_ok (pkt +! (zlen pkt - 16)) tag), bind_ok by lia. rewrite Htag, (ptake_all (pkt +! (zlen pkt - 16))) by lia.
  case_bool_decide as Hv; cbn [negb]; [| by split; [left |]]. split; [by right |]. intros t Ht.
  inv_bind Ht. destruct r as [[nai'|]|]; [| done | done]. inv_bind Ht. destruct (negb r); [done |].
  rewrite Hrk, (rdn_ok (rfc_rrk emsk) 64), bind_ok, (ptake_all (rfc_rrk emsk)) in Ht by lia.
  rewrite hkdf_expand_ok, bind_ok in Ht by (done || lia).
  rewrite put_all, bind_ok in Ht by (rewrite expand_zlen by (done || lia); lia). by injection Ht.
Qed.

(** [keyname_nai] has room for 253 characters, but a domain may have as many besides the name of
    the EMSK: an identity of 237 characters without a separator is written past its end. *)
Theorem erp_start_nai_overflow s id :
  sha256_works → erp_fresh s → zlen (ec_emsk (erp_cache s)) = 64 → ec_id (erp_cache s) = Some id →
  92 ∉ id → 64 ∉ id → 237 ≤ zlen id → erp_start junk s = Fault.
Proof.
  intros Hw [Hrm Hrr Hri Hna Hsq] He Hid Hn1 Hn2 Hl. set (e := erp_cache s) in *. unfold erp_start. fold e.
  unfold erp_derive_emsk_name. rewrite hkdf_expand_ok, !bind_ok by (done || lia). cbn [option_map].
  unfold erp_derive_reauth_keys. rewrite He.
  rewrite hkdf_expand_ok, !bind_ok by (done || lia). fold (rfc_rrk (ec_emsk e)).
  assert (Hk1 : zlen (rfc_rrk (ec_emsk e)) = 64) by (apply expand_zlen; [done | lia]).
  rewrite put_all, !bind_ok by lia. rewrite rdn_ok, !bind_ok by lia. rewrite ptake_all by lia.
  rewrite hkdf_expand_ok, !bind_ok by (done || lia). rewrite put_all, !bind_ok by (rewrite expand_zlen by (done || lia); lia).
  cbn [negb]. rewrite Hid. cbn [nonnull]. rewrite bind_ok.
  assert (Hsplit : split_identity id = None).
  { clear -Hn1 Hn2. induction id as [|c id IH]; [done |]. apply not_elem_of_cons in Hn1 as [? ?], Hn2 as [? ?]. cbn.
    destruct (Z.eqb_spec c 92), (Z.eqb_spec c 64); try congruence. cbn. by rewrite IH. }
  unfold util_get_domain. rewrite Hsplit, bind_ok. cbn [erp_keyname_nai set_field].
  unfold put. assert (Hbig : 255 ≤ zlen ((l_util_hexstring (expand (ec_session_id e) [69; 77; 83; 75; 0; 0; 8] 8) ++ [64] ++ id) ++ [0])).
  { rewrite !zlen_app, hexstring_zlen, expand_zlen by (done || lia). change (zlen [64]) with 1. change (zlen [0]) with 1. lia. }
  set (l := _ ++ [0]) in *. change (zlen (erp_keyname_nai _)) with (zlen (erp_keyname_nai s)). rewrite Hna.
  destruct (Z.leb_spec (0 + zlen l) 254); [lia |]. by rewrite andb_false_r.
Qed.
End erp.
