(* ===== verification/ErpCache.v ===== *)
(** * The cache of re-authentication keys: reference counts (src/erp.c)

    The holders of entries are tracked next to the cache: an entry that is held is never freed and
    keeps its keys, whatever is added, removed or expires in the meantime. *)

From stdpp Require Import base numbers list option gmap relations.
From Stdlib Require Import ZArith Lia.
From S2P Require Import Prelude StRes Erp.

Open Scope Z_scope.

(** How often [a] is held. *)
Definition held (a : nat) (h : list nat) : nat := length (filter (λ b, b = a) h).

Lemma held_cons a b h : held a (b :: h) = (if decide (b = a) then S (held a h) else held a h).
Proof. unfold held. rewrite filter_cons. by case_decide. Qed.

Lemma held_app a h1 h2 : held a (h1 ++ h2) = (held a h1 + held a h2)%nat.
Proof. unfold held. by rewrite list.filter_app, length_app. Qed.

Lemma held_pos a h : a ∈ h → (0 < held a h)%nat.
Proof.
  intros Ha. unfold held. assert (Hin : a ∈ filter (λ b, b = a) h) by (by apply list_elem_of_filter).
  destruct (filter _ h); [by apply not_elem_of_nil in Hin | cbn; lia].
Qed.

Lemma held_bound a h : (held a h ≤ length h)%nat.
Proof. apply length_filter. Qed.

(** ** The queue *)

Lemma remove_data_sublist a q : remove_data a q `sublist_of` q.
Proof. induction q as [|n q IH]; cbn; [done |]. case_match; [by apply sublist_cons | by apply sublist_skip]. Qed.

Lemma remove_data_nodup {A} (f : l_queue_entry → A) a q : NoDup (f <$> q) → NoDup (f <$> remove_data a q).
Proof. intros Hq. eapply sublist_NoDup; [exact Hq |]. apply fmap_sublist, remove_data_sublist. Qed.

Lemma remove_data_elem a b q : NoDup (qe_data <$> q) → b ∈ qe_data <$> remove_data a q ↔ b ≠ a ∧ b ∈ qe_data <$> q.
Proof.
  induction q as [|n q IH]; cbn; [intros _; rewrite elem_of_nil; tauto |]. rewrite list.NoDup_cons. intros [Hn Hq].
  destruct (Nat.eqb_spec (qe_data n) a) as [<-|Hne].
  - rewrite elem_of_cons. split; [intros Hb; split; [by intros -> | by right] | by intros [Hb [->|?]]].
  - cbn. rewrite !elem_of_cons, IH by done. intuition congruence.
Qed.

Lemma remove_data_mid pre n q : NoDup (qe_data <$> pre ++ n :: q) → remove_data (qe_data n) (pre ++ n :: q) = pre ++ q.
Proof.
  induction pre as [|m pre IH]; cbn; [by rewrite Nat.eqb_refl |]. rewrite list.NoDup_cons. intros [Hm Hq].
  destruct (Nat.eqb_spec (qe_data m) (qe_data n)) as [E|_]; [| by rewrite IH].
  destruct Hm. rewrite E. apply list_elem_of_fmap_2. apply elem_of_app. right. left.
Qed.

Lemma node_at_none entry q : entry ∉ qe_addr <$> q → node_at entry q = None.
Proof.
  induction q as [|n q IH]; cbn; [done |]. rewrite not_elem_of_cons. intros [Hn Hq].
  destruct (Nat.eqb_spec (qe_addr n) entry); [congruence | by apply IH].
Qed.

Lemma node_at_mid pre n q : NoDup (qe_addr <$> pre ++ n :: q) → node_at (qe_addr n) (pre ++ n :: q) = Some (qe_data n, qe_addr <$> head q).
Proof.
  induction pre as [|m pre IH]; cbn; [by rewrite Nat.eqb_refl |]. rewrite list.NoDup_cons. intros [Hm Hq].
  destruct (Nat.eqb_spec (qe_addr m) (qe_addr n)) as [E|_]; [| by apply IH].
  destruct Hm. rewrite E. apply list_elem_of_fmap_2. apply elem_of_app. right. left.
Qed.

Lemma node_at_removed pre n q : NoDup (qe_addr <$> pre ++ n :: q) → node_at (qe_addr n) (pre ++ q) = None.
Proof.
  rewrite fmap_app, fmap_cons. intros (_ & Hd & Hn)%NoDup_app. apply list.NoDup_cons in Hn as [Hn _]. apply node_at_none.
  rewrite fmap_app, elem_of_app. intros [Hin|Hin]; [| done]. destruct (Hd _ Hin). left.
Qed.

(** ** The invariant *)

(** The holders and the cache. *)
Record cache_inv (h : list nat) (c : key_cache) : Prop := {
  ci_nodup : NoDup (qe_data <$> kc_queue c);
  ci_nodes : NoDup (qe_addr <$> kc_queue c);
  ci_queue a : a ∈ qe_data <$> kc_queue c ↔ is_Some (kc_heap c !! a);
  ci_fresh_node n : n ∈ kc_queue c → (qe_addr n < kc_next c)%nat;
  ci_fresh a : is_Some (kc_heap c !! a) → (a < kc_next c)%nat;
  ci_ref a e : kc_heap c !! a = Some e → ec_ref e = Z.of_nat (held a h);
  ci_held a : a ∈ h → is_Some (kc_heap c !! a);
  ci_bound : Z.of_nat (length h) < 2 ^ 32;
}.

Definition same_keys (e f : erp_cache_entry) : Prop :=
  ec_id f = ec_id e ∧ ec_emsk f = ec_emsk e ∧ ec_session_id f = ec_session_id e ∧ ec_ssid f = ec_ssid e ∧
  ec_expire_time f = ec_expire_time e.

(** Addresses are not used again, and the keys of an entry do not change. *)
Definition evolves (c d : key_cache) : Prop :=
  (kc_next c ≤ kc_next d)%nat ∧
  ∀ a f, kc_heap d !! a = Some f → (a < kc_next c)%nat → ∃ e, kc_heap c !! a = Some e ∧ same_keys e f.

#[export] Instance evolves_preorder : PreOrder evolves.
Proof.
  split.
  - intros c. split; [done |]. intros a f Hf _. by exists f.
  - intros c d e [H1 H2] [H3 H4]. split; [lia |]. intros a g Hg Ha.
    destruct (H4 a g Hg ltac:(lia)) as (f & Hf & Hfg). destruct (H2 a f Hf Ha) as (x & Hx & Hxf). exists x. split; [done |].
    unfold same_keys in *. intuition congruence.
Qed.

(** An operation on one entry. *)
Definition update_entry (a : nat) (e : erp_cache_entry) (c : key_cache) : key_cache := c <| kc_heap := <[a := e]> (kc_heap c) |>.
Definition drop_entry (a : nat) (c : key_cache) : key_cache :=
  c <| kc_queue := remove_data a (kc_queue c) |> <| kc_heap := delete a (kc_heap c) |>.

Lemma update_entry_evolves a e f c : kc_heap c !! a = Some e → same_keys e f → evolves c (update_entry a f c).
Proof.
  intros He Hs. split; [done |]. intros b g Hg _. cbn in Hg. destruct (decide (b = a)) as [->|Hb].
  - rewrite lookup_insert_eq in Hg. injection Hg as <-. by exists e.
  - rewrite lookup_insert_ne in Hg by done. by exists g.
Qed.

Lemma drop_entry_evolves a c : evolves c (drop_entry a c).
Proof.
  split; [done |]. intros b g Hg _. cbn in Hg. apply lookup_delete_Some in Hg as [_ Hg]. by exists g.
Qed.

Lemma update_entry_inv h h' a e f c :
  cache_inv h c → kc_heap c !! a = Some e → ec_ref f = Z.of_nat (held a h') → (∀ b, b ≠ a → held b h' = held b h) →
  (∀ b, b ∈ h' → b = a ∨ b ∈ h) → Z.of_nat (length h') < 2 ^ 32 → cache_inv h' (update_entry a f c).
Proof.
  intros [Hd Hm Hq Hfn Hf Hr Hh Hb] He Href Hother Hin Hbound. split; cbn.
  - done.
  - done.
  - intros b. rewrite Hq. destruct (decide (b = a)) as [->|Hb']; [rewrite lookup_insert_eq, He; done | by rewrite lookup_insert_ne].
  - done.
  - intros b [g Hg]. apply lookup_insert_Some in Hg as [[<- _]|[_ Hg]]; apply Hf; by eexists.
  - intros b g Hg. apply lookup_insert_Some in Hg as [[<- <-]|[Hne Hg]]; [done |]. rewrite Hother by done. by apply Hr.
  - intros b Hbin. destruct (decide (b = a)) as [->|Hb']; [rewrite lookup_insert_eq; by eexists |].
    rewrite lookup_insert_ne by done. destruct (Hin b Hbin); [done | by apply Hh].
  - done.
Qed.

Lemma drop_entry_inv h a e c : cache_inv h c → kc_heap c !! a = Some e → ec_ref e = 0 → cache_inv h (drop_entry a c).
Proof.
  intros [Hd Hm Hq Hfn Hf Hr Hh Hb] He H0. split; cbn.
  - by apply remove_data_nodup.
  - by apply remove_data_nodup.
  - intros b. rewrite remove_data_elem, Hq by done. destruct (decide (b = a)) as [->|Hb']; [rewrite lookup_delete_eq | rewrite lookup_delete_ne by done].
    + split; [tauto | by intros [? ?]].
    + tauto.
  - intros n Hn. apply Hfn. by eapply elem_of_sublist; [exact Hn | apply remove_data_sublist].
  - intros b [g Hg]. apply lookup_delete_Some in Hg as [_ Hg]. apply Hf. by eexists.
  - intros b g Hg. apply lookup_delete_Some in Hg as [_ Hg]. by apply Hr.
  - intros b Hin. destruct (decide (b = a)) as [->|Hb']; [| rewrite lookup_delete_ne by done; by apply Hh].
    apply held_pos in Hin. rewrite (Hr a e He) in H0. lia.
  - done.
Qed.

(** ** The search *)

Lemma wpl_entry_at a (Q : erp_cache_entry → key_cache → Prop) c :
  (∀ e, kc_heap c !! a = Some e → Q e c) → wpl (entry_at a) Q c.
Proof. intros HQ. unfold entry_at. do 3 sr_step. apply HQ. by destruct (kc_heap c !! a); [injection Hr as -> |]. Qed.

Lemma entry_at_ok a e c : kc_heap c !! a = Some e → entry_at a c = Ok (e, c).
Proof. intros He. apply wp_eq. unfold entry_at. sr_seq. eapply wp_run; [by rewrite He |]. done. Qed.

(** Removing an entry and freeing it. *)
Lemma wpl_drop_entry a (Q : unit → key_cache → Prop) c : Q tt (drop_entry a c) → wpl (queue_remove a;; erp_cache_entry_destroy a) Q c.
Proof.
  intros HQ. sr_step. unfold queue_remove. sr_step. unfold erp_cache_entry_destroy. sr_step. apply wpl_entry_at. intros e _. sr_step. done.
Qed.

(** What the search does: it marks entries in use as invalid. *)
Definition searched (h : list nat) (c d : key_cache) : Prop := cache_inv h d ∧ evolves c d ∧ kc_queue d = kc_queue c.

(** What the search goes wrong at: an entry that has expired and is not in use, and one without the
    string that it is compared with. *)
Definition expired_unused (now : nat → Z) (c : key_cache) (n : l_queue_entry) : Prop :=
  ∃ e, kc_heap c !! qe_data n = Some e ∧ ec_invalid e = false ∧ ec_ref e = 0 ∧ ec_expire_time e < now (qe_data n).
Definition trouble (now : nat → Z) (id ssid : option (list Z)) (c : key_cache) (n : l_queue_entry) : Prop :=
  expired_unused now c n ∨
  ∃ e, kc_heap c !! qe_data n = Some e ∧ ec_invalid e = false ∧ (is_Some id ∧ ec_id e = None ∨ is_Some ssid ∧ ec_ssid e = None).

(** What the search goes on behind: an entry that is invalid, one that has expired and is in use, and
    one of another identity and network. *)
Definition differs (s t : option (list Z)) : Prop := ∀ x, s = Some x → ∃ y, t = Some y ∧ y ≠ x.
Definition passed (now : nat → Z) (id ssid : option (list Z)) (c : key_cache) (n : l_queue_entry) : Prop :=
  ∃ e, kc_heap c !! qe_data n = Some e ∧
    (ec_invalid e = true ∨ ec_ref e ≠ 0 ∧ ec_expire_time e < now (qe_data n) ∨
     now (qe_data n) ≤ ec_expire_time e ∧ differs id (ec_id e) ∧ differs ssid (ec_ssid e)).

Lemma queue_entry_ok pre n q c :
  kc_queue c = pre ++ n :: q → NoDup (qe_addr <$> kc_queue c) → queue_entry_at (qe_addr n) c = Ok ((qe_data n, qe_addr <$> head q), c).
Proof.
  intros Hq Hd. apply wp_eq. unfold queue_entry_at. sr_seq. eapply wp_run; [| done]. rewrite Hq in Hd |- *. by rewrite node_at_mid.
Qed.

Lemma wpf_eq {S A} N (m : sr S A) (Q : A → S → Prop) s a t : m s = Ok (a, t) → Q a t → wpf N m Q s.
Proof. unfold wpf. by intros ->. Qed.

(** A comparison with a string that may be NULL. *)
Lemma wpf_compare N (s t : option (list Z)) (Q : bool → key_cache → Prop) c :
  (is_Some s → t = None → N) → (∀ b, (b = true → is_Some s ∧ t = s) → Q b c) →
  wpf N (run (match s with Some s => t ← nonnull t; Ok (bool_decide (t = s)) | None => Ok false end)) Q c.
Proof.
  intros HN HQ. unfold wpf, run. destruct s as [s|]; [| by apply HQ]. destruct t as [t|]; cbn; [| by apply HN].
  apply HQ. intros H%bool_decide_eq_true. by subst.
Qed.

Lemma find_loop_ok N now id ssid h q : ∀ fuel pre c,
  cache_inv h c → kc_queue c = pre ++ q → (length q ≤ fuel)%nat → (∀ n, n ∈ q → trouble now id ssid c n → N) →
  wpf N (find_keycache_loop now id ssid fuel (qe_addr <$> head q))
      (λ r d, searched h c d ∧ ∀ a, r = Some a →
         ∃ e, kc_heap d !! a = Some e ∧ ec_invalid e = false ∧ now a ≤ ec_expire_time e ∧
              (is_Some id ∧ ec_id e = id ∨ is_Some ssid ∧ ec_ssid e = ssid)) c.
Proof.
  induction q as [|n q IH]; intros fuel pre c Hc Hq Hfuel HN.
  { change (qe_addr <$> head []) with (@None nat). destruct fuel; cbn [find_keycache_loop]; apply wpf_ret; (split; [by split_and! | done]). }
  destruct fuel as [|fuel]; [cbn in Hfuel; lia |]. cbn [head fmap option_fmap option_map find_keycache_loop].
  pose proof (queue_entry_ok pre n q c Hq (ci_nodes _ _ Hc)) as Hnode.
  assert (Hq' : kc_queue c = (pre ++ [n]) ++ q) by (by rewrite <- app_assoc). assert (Hlen : (length q ≤ fuel)%nat) by (cbn in Hfuel; lia).
  sr_step. eapply wpf_eq; [exact Hnode |]. cbv beta iota. set (a := qe_data n) in *.
  destruct (proj1 (ci_queue _ _ Hc a)) as [e He]; [rewrite Hq, fmap_app, fmap_cons, elem_of_app; right; left |].
  sr_step. eapply wpf_eq; [by apply entry_at_ok |]. cbv zeta.
  assert (Hnext : wpf N ('(_, next) ← queue_entry_at (qe_addr n); find_keycache_loop now id ssid fuel next)
    (λ r d, searched h c d ∧ ∀ a, r = Some a →
         ∃ e, kc_heap d !! a = Some e ∧ ec_invalid e = false ∧ now a ≤ ec_expire_time e ∧
              (is_Some id ∧ ec_id e = id ∨ is_Some ssid ∧ ec_ssid e = ssid)) c).
  { sr_step. eapply wpf_eq; [exact Hnode |]. eapply IH; [done | done | done |]. intros m Hm. apply HN. by right. }
  destruct (ec_invalid e) eqn:Hinv; [exact Hnext |].
  unfold l_time_after. destruct (Z.ltb_spec (ec_expire_time e) (now a)) as [Hexp|Hfresh].
  - destruct (Z.eqb_spec (ec_ref e) 0) as [H0|H0].
    { assert (H : N) by (apply (HN n); [left | left; by exists e]).
      sr_step. unfold queue_remove. sr_seq. unfold erp_cache_entry_destroy. sr_seq. eapply wpf_eq; [by apply entry_at_ok |]. sr_seq.
      unfold wpf, queue_entry_at, mbind, sr_bind, get, run. cbn [kc_queue]. cbn. rewrite Hq.
      pose proof (ci_nodup _ _ Hc) as Hd1. pose proof (ci_nodes _ _ Hc) as Hd2. rewrite Hq in Hd1, Hd2.
      unfold a. rewrite remove_data_mid by done. by rewrite node_at_removed. }
    sr_step. unfold set_entry. sr_step. set (f := e <| ec_invalid := true |>). fold (update_entry a f c). set (d := update_entry a f c).
    assert (Hd : cache_inv h d).
    { apply (update_entry_inv h h a e); try done; [cbn; by apply (ci_ref _ _ Hc) | auto | apply Hc]. }
    sr_step. eapply wpf_eq; [by apply (queue_entry_ok pre n q d Hq (ci_nodes _ _ Hd)) |]. cbv beta iota.
    eapply wpf_mono.
    { eapply (IH fuel (pre ++ [n]) d Hd Hq' Hlen). intros m Hm Ht. apply (HN m); [by right |].
      destruct Ht as [(g & Hg & Hgi & Hgt)|(g & Hg & Hgi & Hgt)]; [left | right]; exists g; (split; [| done]);
        (cbn in Hg; by apply lookup_insert_Some in Hg as [[_ <-]|[_ Hg]]). }
    intros r t [(Hi & Hev & Hqt) Hr]. split; [| done]. split_and!; [done | | done].
    etrans; [| exact Hev]. by apply (update_entry_evolves a e).
  - assert (Hfound : ∀ P : Prop, P → searched h c c ∧ P) by (intros P HP; split; [| done]; split_and!; done).
    sr_step. apply wpf_compare.
    { intros Hs Hnull. apply (HN n); [left |]. right. exists e. split_and!; [done | done |]. by left. }
    intros [] Hid.
    { sr_step. apply Hfound. intros b [= <-]. exists e. split_and!; [done | done | lia | left; by apply Hid]. }
    sr_step. apply wpf_compare.
    { intros Hs Hnull. apply (HN n); [left |]. right. exists e. split_and!; [done | done |]. by right. }
    intros [] Hss; [| exact Hnext].
    sr_step. apply Hfound. intros b [= <-]. exists e. split_and!; [done | done | lia | right; by apply Hss].
Qed.

(** The search ends, and goes wrong only at an entry that gives it trouble. *)
Lemma find_keycache_total now id ssid h c : cache_inv h c →
  wpf (∃ n, n ∈ kc_queue c ∧ trouble now id ssid c n) (find_keycache now id ssid)
      (λ r d, searched h c d ∧ ∀ a, r = Some a →
         ∃ e, kc_heap d !! a = Some e ∧ ec_invalid e = false ∧ now a ≤ ec_expire_time e ∧
              (is_Some id ∧ ec_id e = id ∨ is_Some ssid ∧ ec_ssid e = ssid)) c.
Proof.
  intros Hc. assert (Hl := find_loop_ok (∃ n, n ∈ kc_queue c ∧ trouble now id ssid c n) now id ssid h (kc_queue c) (length (kc_queue c)) [] c Hc eq_refl (le_n _)
    ltac:(by eauto)).
  unfold find_keycache. destruct id, ssid; [sr_step; sr_step; exact Hl.. |]. sr_step. split; [by split_and! | done].
Qed.

(** The entry that has expired is removed with its queue entry, which is then read. *)
Lemma find_loop_expired now id ssid h l : ∀ fuel pre n post c,
  cache_inv h c → kc_queue c = pre ++ l ++ n :: post → (length l < fuel)%nat →
  Forall (passed now id ssid c) l → expired_unused now c n →
  find_keycache_loop now id ssid fuel (qe_addr <$> head (l ++ n :: post)) c = Fault.
Proof.
  induction l as [|m l IH]; intros fuel pre n post c Hc Hq Hfuel Hl Hn; (destruct fuel as [|fuel]; [cbn in Hfuel; lia |]).
  - destruct Hn as (e & He & Hinv & Href & Hexp). cbn [app] in *. cbn [head fmap option_fmap option_map find_keycache_loop].
    rewrite (sr_bind_ok _ _ _ _ _ (queue_entry_ok pre n post c Hq (ci_nodes _ _ Hc))).
    rewrite (sr_bind_ok _ _ _ _ _ (entry_at_ok _ e c He)). rewrite Hinv. unfold l_time_after.
    destruct (Z.ltb_spec (ec_expire_time e) (now (qe_data n))); [| lia]. rewrite Href. cbn [Z.eqb].
    erewrite sr_bind_ok; [| erewrite sr_bind_ok; [| reflexivity]; unfold erp_cache_entry_destroy; erewrite sr_bind_ok; [reflexivity | by apply entry_at_ok]].
    apply sr_bind_fault. unfold queue_entry_at, mbind, sr_bind, get, run. cbn. rewrite Hq.
    pose proof (ci_nodup _ _ Hc) as Hd1. pose proof (ci_nodes _ _ Hc) as Hd2. rewrite Hq in Hd1, Hd2.
    rewrite remove_data_mid by done. by rewrite node_at_removed.
  - apply list.Forall_cons in Hl as [(e & He & Hm) Hl]. cbn [app] in *. cbn [head fmap option_fmap option_map find_keycache_loop].
    assert (Hq' : kc_queue c = (pre ++ [m]) ++ l ++ n :: post) by (by rewrite <- app_assoc).
    assert (Hlen : (length l < fuel)%nat) by (cbn in Hfuel; lia).
    pose proof (queue_entry_ok pre m _ c Hq (ci_nodes _ _ Hc)) as Hnode. rewrite (sr_bind_ok _ _ _ _ _ Hnode).
    rewrite (sr_bind_ok _ _ _ _ _ (entry_at_ok _ e c He)). cbv zeta.
    assert (Hnext : ('(_, next) ← queue_entry_at (qe_addr m); find_keycache_loop now id ssid fuel next) c = Fault).
    { rewrite (sr_bind_ok _ _ _ _ _ Hnode). by apply (IH fuel (pre ++ [m])). }
    destruct (ec_invalid e) eqn:Hinv; [exact Hnext |]. destruct Hm as [?|[[Href Hexp]|(Hfresh & Hid & Hss)]]; [done | |].
    + unfold l_time_after. destruct (Z.ltb_spec (ec_expire_time e) (now (qe_data m))); [| lia].
      destruct (Z.eqb_spec (ec_ref e) 0); [done |]. erewrite sr_bind_ok; [| reflexivity].
      set (f := e <| ec_invalid := true |>). fold (update_entry (qe_data m) f c). set (d := update_entry (qe_data m) f c).
      assert (Hd : cache_inv h d).
      { apply (update_entry_inv h h (qe_data m) e); try done; [cbn; by apply (ci_ref _ _ Hc) | auto | apply Hc]. }
      rewrite (sr_bind_ok _ _ _ _ _ (queue_entry_ok pre m _ d Hq (ci_nodes _ _ Hd))). apply (IH fuel (pre ++ [m])); [done | done | done | |].
      * eapply list.Forall_impl; [exact Hl |]. intros k (g & Hg & Hk). destruct (decide (qe_data k = qe_data m)) as [E|E].
        -- exists f. split; [cbn; by rewrite E, lookup_insert_eq | by left].
        -- exists g. split; [cbn; by rewrite lookup_insert_ne | exact Hk].
      * destruct Hn as (g & Hg & Hgi & Hgr & Hge). exists g. split; [| done]. cbn. rewrite lookup_insert_ne; [done |].
        intros E. rewrite <- E, He in Hg. injection Hg as <-. done.
    + unfold l_time_after. destruct (Z.ltb_spec (ec_expire_time e) (now (qe_data m))); [lia |].
      assert (Hcmp : ∀ s t, differs s t → run (match s with Some s => t ← nonnull t; Ok (bool_decide (t = s)) | None => Ok false end) c = Ok (false, c)).
      { intros s t Hdf. destruct s as [s|]; [| done]. destruct (Hdf s eq_refl) as (y & -> & Hy). unfold run. cbn. by rewrite bool_decide_false. }
      rewrite (sr_bind_ok _ _ _ _ _ (Hcmp _ _ Hid)). rewrite (sr_bind_ok _ _ _ _ _ (Hcmp _ _ Hss)). exact Hnext.
Qed.

Lemma find_keycache_expired now id ssid h c pre n post :
  cache_inv h c → kc_queue c = pre ++ n :: post → is_Some id ∨ is_Some ssid → Forall (passed now id ssid c) pre → expired_unused now c n →
  find_keycache now id ssid c = Fault.
Proof.
  intros Hc Hq Hs Hp Hn.
  assert (Hl : find_keycache_loop now id ssid (length (kc_queue c)) (qe_addr <$> head (kc_queue c)) c = Fault).
  { rewrite Hq. apply (find_loop_expired now id ssid h pre _ []); try done. rewrite length_app. cbn. lia. }
  unfold find_keycache. destruct id, ssid; [exact Hl.. |]. by destruct Hs as [[? [=]]|[? [=]]].
Qed.

Lemma wpf_to_wpl {S A} N (m : sr S A) Q s : wpf N m Q s → wpl m Q s.
Proof. unfold wpf, wpl. by destruct (m s) as [[? ?]|? | |]. Qed.

Lemma find_keycache_ok now id ssid h c : cache_inv h c →
  wpl (find_keycache now id ssid)
      (λ r d, searched h c d ∧ ∀ a, r = Some a →
         ∃ e, kc_heap d !! a = Some e ∧ ec_invalid e = false ∧ now a ≤ ec_expire_time e ∧
              (is_Some id ∧ ec_id e = id ∨ is_Some ssid ∧ ec_ssid e = ssid)) c.
Proof. intros Hc. eapply wpf_to_wpl. by apply find_keycache_total. Qed.

(** ** The operations *)

Lemma cache_add_ok now id session_id emsk ssid h c : cache_inv h c →
  wpl (erp_cache_add now id session_id emsk ssid) (λ _ d, cache_inv h d ∧ evolves c d) c.
Proof.
  intros Hc. assert (Hnew : ∀ e, ec_ref e = 0 →
    let d := mk_cache (mk_node (S (kc_next c)) (kc_next c) :: kc_queue c) (<[kc_next c := e]> (kc_heap c)) (S (S (kc_next c))) in
    cache_inv h d ∧ evolves c d).
  { intros e He d. pose proof Hc as [Hd Hm Hq Hfn Hf Hr Hh Hb].
    assert (Hnone : kc_heap c !! kc_next c = None).
    { destruct (kc_heap c !! kc_next c) eqn:Hx; [| done]. specialize (Hf (kc_next c) ltac:(by eexists)). lia. }
    split; [split; cbn |].
    - apply NoDup_cons. split; [| done]. rewrite Hq, Hnone. by intros [? ?].
    - apply NoDup_cons. split; [| done]. intros (n & En & Hn)%list_elem_of_fmap. specialize (Hfn n Hn). lia.
    - intros a. rewrite elem_of_cons, Hq. destruct (decide (a = kc_next c)) as [->|Ha].
      + rewrite lookup_insert_eq. split; [by eexists | by left].
      + rewrite lookup_insert_ne by done. intuition congruence.
    - intros n [->|Hn]%elem_of_cons; [cbn; lia |]. specialize (Hfn n Hn). lia.
    - intros a [f Ha]. apply lookup_insert_Some in Ha as [[<- _]|[_ Ha]]; [lia |]. specialize (Hf a ltac:(by eexists)). lia.
    - intros a f Ha. apply lookup_insert_Some in Ha as [[<- <-]|[_ Ha]]; [| by apply Hr].
      rewrite He. destruct (held (kc_next c) h) eqn:Hn; [done |]. exfalso.
      assert (Hin : kc_next c ∈ h).
      { unfold held in Hn. destruct (filter (λ b, b = kc_next c) h) as [|b l] eqn:Hfl; [done |].
        assert (Hb' : b ∈ filter (λ b, b = kc_next c) h) by (rewrite Hfl; apply elem_of_cons; by left).
        apply list_elem_of_filter in Hb' as [-> ?]. done. }
      apply Hh in Hin. rewrite Hnone in Hin. by destruct Hin.
    - intros a Ha. destruct (decide (a = kc_next c)) as [->|Hne]; [rewrite lookup_insert_eq; by eexists |].
      rewrite lookup_insert_ne by done. by apply Hh.
    - done.
    - split; [cbn; lia |]. intros a f Ha Hlt. cbn in Ha. rewrite lookup_insert_ne in Ha by lia. by exists f. }
  unfold erp_cache_add. destruct id, session_id, emsk; try (sr_step; by apply Hnew). by sr_step.
Qed.

Lemma cache_remove_ok now id h c : cache_inv h c → wpl (erp_cache_remove now id) (λ _ d, cache_inv h d ∧ evolves c d) c.
Proof.
  intros Hc. unfold erp_cache_remove. sr_step. eapply wpl_mono; [by apply (find_keycache_ok _ _ _ h) |].
  intros r d [(Hi & Hev & _) Hr]. destruct r as [a|]; [| by sr_step]. sr_step. apply wpl_entry_at. intros e He.
  destruct (Z.eqb_spec (ec_ref e) 0) as [H0|H0]; cbn [negb].
  - apply wpl_drop_entry. split; [by eapply drop_entry_inv |]. etrans; [exact Hev | apply drop_entry_evolves].
  - unfold set_entry. sr_step. fold (update_entry a (e <| ec_invalid := true |>) d).
    split; [| etrans; [exact Hev | by apply (update_entry_evolves a e)]].
    apply (update_entry_inv h h a e); try done; [cbn; by apply (ci_ref _ _ Hi) | auto | apply Hi].
Qed.

Lemma cache_get_ok now ssid h c : cache_inv h c → Z.of_nat (length h) < 2 ^ 32 - 1 →
  wpl (erp_cache_get now ssid)
      (λ r d, evolves c d ∧
         match r with
         | None => cache_inv h d
         | Some a => cache_inv (a :: h) d ∧ ∃ e, kc_heap d !! a = Some e ∧ ec_invalid e = false ∧ now a ≤ ec_expire_time e ∧
                                               is_Some ssid ∧ ec_ssid e = ssid
         end) c.
Proof.
  intros Hc Hlen. unfold erp_cache_get. sr_step. eapply wpl_mono; [by apply (find_keycache_ok _ _ _ h) |].
  intros r d [(Hi & Hev & _) Hr]. destruct r as [a|]; [| by sr_step]. sr_step. apply wpl_entry_at. intros e He.
  destruct (Hr a eq_refl) as (e' & He' & Hinv & Hexp & Hmatch). rewrite He in He'. injection He' as <-.
  sr_step. unfold set_entry. sr_step. sr_step. set (f := e <| ec_ref := u32 (ec_ref e + 1) |>). fold (update_entry a f d).
  pose proof (held_bound a h). pose proof (ci_ref _ _ Hi a e He) as Href.
  split; [etrans; [exact Hev | by apply (update_entry_evolves a e)] |]. split.
  - apply (update_entry_inv h (a :: h) a e); try done.
    + unfold f. cbn [ec_ref set_field]. change (ec_ref f) with (u32 (ec_ref e + 1)). rewrite held_cons, decide_True by done.
      unfold f. cbn. rewrite u32_small by lia. lia.
    + intros b Hb. rewrite held_cons. by rewrite decide_False.
    + intros b. rewrite elem_of_cons. tauto.
    + cbn [length]. lia.
  - exists f. split_and!; [cbn; by rewrite lookup_insert_eq | done | done | by destruct Hmatch as [[[? ?] _]|[? _]] |].
    destruct Hmatch as [[[? [=]] _]|[_ Hm]]. done.
Qed.

Lemma cache_put_ok a h1 h2 c : cache_inv (h1 ++ a :: h2) c →
  wp (erp_cache_put a) (λ _ d, cache_inv (h1 ++ h2) d ∧ evolves c d) c.
Proof.
  intros Hc. assert (Hin : a ∈ h1 ++ a :: h2) by (apply elem_of_app; right; apply elem_of_cons; by left).
  destruct (ci_held _ _ Hc a Hin) as [e He]. pose proof (ci_ref _ _ Hc a e He) as Href.
  unfold erp_cache_put. apply wp_bind. unfold entry_at at 1. sr_seq. eapply wp_run; [by rewrite He |]. cbv zeta.
  set (f := e <| ec_ref := u32 (ec_ref e - 1) |>). unfold set_entry. sr_seq. fold (update_entry a f c).
  assert (Hn : held a (h1 ++ a :: h2) = S (held a (h1 ++ h2))) by (rewrite !held_app, held_cons, decide_True by done; lia).
  pose proof (held_bound a (h1 ++ a :: h2)) as Hle. pose proof (ci_bound _ _ Hc) as Hb.
  assert (Hfref : ec_ref f = Z.of_nat (held a (h1 ++ h2))) by (unfold f; cbn; rewrite u32_small by lia; lia).
  assert (Hi : cache_inv (h1 ++ h2) (update_entry a f c)).
  { apply (update_entry_inv (h1 ++ a :: h2) _ a e); try done.
    - intros b Hne. rewrite !held_app, held_cons, decide_False by done. done.
    - intros b. rewrite !elem_of_app, elem_of_cons. tauto.
    - rewrite length_app in *. cbn in Hb. lia. }
  assert (Hev : evolves c (update_entry a f c)) by (by apply (update_entry_evolves a e)).
  destruct (Z.eqb_spec (ec_ref f) 0) as [H0|]; cbn [negb]; [| by sr_seq].
  destruct (ec_invalid f); cbn [negb]; [| by sr_seq].
  sr_seq. unfold queue_remove. sr_seq. unfold erp_cache_entry_destroy, entry_at. sr_seq.
  eapply wp_run; [cbn; by rewrite lookup_insert_eq |].
  assert (Ha : kc_heap (update_entry a f c) !! a = Some f) by (cbn; by rewrite lookup_insert_eq).
  pose proof (drop_entry_inv _ _ _ _ Hi Ha H0) as Hd. pose proof (drop_entry_evolves a (update_entry a f c)) as Hde.
  split; [exact Hd |]. etrans; [exact Hev | exact Hde].
Qed.

(** ** Histories *)

(** The operations of a history, with the holders before and after. *)
Inductive cache_step : list nat * key_cache → list nat * key_cache → Prop :=
  | cache_step_add now id session_id emsk ssid h c d :
      erp_cache_add now id session_id emsk ssid c = Ok (tt, d) → cache_step (h, c) (h, d)
  | cache_step_remove now id h c d :
      erp_cache_remove now id c = Ok (tt, d) → cache_step (h, c) (h, d)
  | cache_step_miss now ssid h c d :
      erp_cache_get now ssid c = Ok (None, d) → cache_step (h, c) (h, d)
  | cache_step_get now ssid a h c d :
      Z.of_nat (length h) < 2 ^ 32 - 1 → erp_cache_get now ssid c = Ok (Some a, d) → cache_step (h, c) (a :: h, d)
  | cache_step_put a h1 h2 c d :
      erp_cache_put a c = Ok (tt, d) → cache_step (h1 ++ a :: h2, c) (h1 ++ h2, d).

Lemma wpl_inv {S A} (m : sr S A) Q s a t : wpl m Q s → m s = Ok (a, t) → Q a t.
Proof. unfold wpl. intros Hw Hrun. by rewrite Hrun in Hw. Qed.

Lemma cache_miss_ok now ssid h c d : cache_inv h c → erp_cache_get now ssid c = Ok (None, d) → cache_inv h d ∧ evolves c d.
Proof.
  intros Hc Hrun. assert (Hw : wpl (erp_cache_get now ssid) (λ r d, r = None → cache_inv h d ∧ evolves c d) c).
  { unfold erp_cache_get. sr_step. eapply wpl_mono; [by apply (find_keycache_ok _ _ _ h) |].
    intros r e [(Hi & Hev & _) _]. destruct r as [a|]; [| by sr_step]. sr_step. apply wpl_entry_at. intros f _.
    sr_step. unfold set_entry. sr_step. by sr_step. }
  by apply (wpl_inv _ _ _ _ _ Hw Hrun).
Qed.

Lemma cache_step_inv x y : cache_step x y → cache_inv x.1 x.2 → cache_inv y.1 y.2 ∧ evolves x.2 y.2.
Proof.
  destruct 1 as [now id sid emsk ssid h c d Hrun|now id h c d Hrun|now ssid h c d Hrun|now ssid a h c d Hlen Hrun|a h1 h2 c d Hrun];
    cbn [fst snd]; intros Hc.
  - exact (wpl_inv _ _ _ _ _ (cache_add_ok now id sid emsk ssid h c Hc) Hrun).
  - exact (wpl_inv _ _ _ _ _ (cache_remove_ok now id h c Hc) Hrun).
  - by eapply cache_miss_ok.
  - destruct (wpl_inv _ _ _ _ _ (cache_get_ok now ssid h c Hc Hlen) Hrun) as (Hev & Hi & _). done.
  - pose proof (cache_put_ok a h1 h2 c Hc) as Hw. unfold wp in Hw. by rewrite Hrun in Hw.
Qed.

(** C20: Reference counts: whatever happens to the cache, an entry that is still held is allocated, has
    the keys it had, counts its holders, and giving it back does not fault. *)
Theorem erp_cache_handles_alive h c h' c' a :
  cache_inv h c → rtc cache_step (h, c) (h', c') → a ∈ h → a ∈ h' →
  ∃ e f d, kc_heap c !! a = Some e ∧ kc_heap c' !! a = Some f ∧ same_keys e f ∧
           ec_ref f = Z.of_nat (held a h') ∧ erp_cache_put a c' = Ok (tt, d).
Proof.
  intros Hc Hrtc Ha Ha'.
  assert (Hinv : cache_inv h' c' ∧ evolves c c').
  { change h with (h, c).1 in Hc. change c with (h, c).2 in Hc at 2. change c with (h, c).2 at 1.
    change h' with (h', c').1. change c' with (h', c').2 at 2 3. revert Hc. clear Ha Ha'.
    induction Hrtc as [x|x y z Hstep _ IH]; intros Hc; [by split |].
    destruct (cache_step_inv x y Hstep Hc) as [Hy Hev]. destruct (IH Hy) as [Hz Hev']. split; [done |]. by etrans. }
  destruct Hinv as [Hi [_ Hev]]. destruct (ci_held _ _ Hi a Ha') as [f Hf].
  destruct (Hev a f Hf) as (e & He & Hsame); [apply (ci_fresh _ _ Hc), (ci_held _ _ Hc a Ha) |].
  apply list_elem_of_split in Ha' as (h1 & h2 & ->).
  destruct (wp_inv _ _ _ (cache_put_ok a h1 h2 c' Hi)) as ([] & d & Hd & _).
  exists e, f, d. split_and!; try done. by apply (ci_ref _ _ Hi).
Qed.

(** C39: The search through the cache and what it goes wrong at.  When it comes to an entry that has
    expired while nobody held it, wherever it is in the queue, the queue entry of it is freed and the
    pointer to the next one is then read from it: getting keys for a network, or removing those of an
    identity, is a use after free.  It comes to the entry if those before it are invalid, or expired
    but in use, or of another network or identity.  Without such an entry, and without entries that
    lack the string that is looked for, the search ends and returns. *)
Theorem find_keycache_expired_use_after_free now h c :
  cache_inv h c →
  (∀ pre n post ssid, kc_queue c = pre ++ n :: post → expired_unused now c n → is_Some ssid → Forall (passed now None ssid c) pre →
     erp_cache_get now ssid c = Fault) ∧
  (∀ pre n post id, kc_queue c = pre ++ n :: post → expired_unused now c n → is_Some id → Forall (passed now id None c) pre →
     erp_cache_remove now id c = Fault) ∧
  (∀ id ssid, (∀ n, n ∈ kc_queue c → ¬ trouble now id ssid c n) → ∃ r d, find_keycache now id ssid c = Ok (r, d)).
Proof.
  intros Hc. split_and!.
  - intros pre n post ssid Hq Hn Hs Hp. apply sr_bind_fault. by eapply find_keycache_expired; [| | right | |].
  - intros pre n post id Hq Hn Hs Hp. apply sr_bind_fault. by eapply find_keycache_expired; [| | left | |].
  - intros id ssid Hno. pose proof (find_keycache_total now id ssid h c Hc) as Hw. unfold wpf in Hw.
    destruct (find_keycache now id ssid c) as [[r d]|e| |]; [by exists r, d | done | | done]. destruct Hw as (n & Hn & Ht). by destruct (Hno n Hn).
Qed.
