(* ===== verification/Fils.v ===== *)
(** * Fast initial link setup (src/fils.c)

    FILS shared key authentication: the authentication request around the EAP-Initiate message
    of src/erp.c, the response with EAP-Finish, the derivation of the keys, and the check of the
    association response after which the keys are installed.  The handshake state and the state
    of the re-authentication protocol are part of the state of the machine. *)

From stdpp Require Import base numbers list option.
From Stdlib Require Import ZArith Lia.
From S2P Require Import Prelude IeTlv IeRsn IeMisc Crypto Kdf Handshake Mpdu StRes Erp.

Open Scope Z_scope.

Definition FILS_NONCE_LEN : Z := 16.
Definition FILS_SESSION_LEN : Z := 8.
Definition IE_TYPE_FILS_KEY_CONFIRMATION : Z := 256 + 3.
Definition IE_TYPE_FILS_SESSION : Z := 256 + 4.
Definition IE_TYPE_KEY_DELIVERY : Z := 256 + 7.
Definition IE_TYPE_FILS_WRAPPED_DATA : Z := 256 + 8.
Definition IE_TYPE_FILS_NONCE : Z := 256 + 13.
Definition MMPDU_STATUS_CODE_UNSUP_AUTH_ALG : Z := 13.
Definition MMPDU_STATUS_CODE_INVALID_ELEMENT : Z := 40.

(** The frame given to [auth], the elements, the KEK and the nonces given to [assoc], and the calls
    of the handshake. *)
Inductive fils_effect : Type :=
  | FilsTxAuthenticate (data : list Z)
  | FilsTxAssociate (iov : list (list Z)) (kek data : list Z)
  | FilsKey (e : effect).

(** [struct fils_sm]; [fils_erp] is NULL when there is no cache entry. *)
Record fils_sm : Type := mk_fils {
  fils_erp : option erp_state;
  fils_hs : handshake_state;
  fils_nonce : list Z;
  fils_anonce : list Z;
  fils_session : list Z;
  fils_ick : list Z;
  fils_ick_len : Z;
  fils_kek_and_tk : list Z;
  fils_kek_len : Z;
  fils_pmk : list Z;
  fils_pmk_len : Z;
  fils_pmkid : list Z;
  fils_ft : list Z;
  fils_ft_len : Z;
  fils_out : list fils_effect;
}.

#[export] Instance fils_eta : Eta fils_sm := λ s,
  mk_fils (fils_erp s) (fils_hs s) (fils_nonce s) (fils_anonce s) (fils_session s) (fils_ick s) (fils_ick_len s)
    (fils_kek_and_tk s) (fils_kek_len s) (fils_pmk s) (fils_pmk_len s) (fils_pmkid s) (fils_ft s) (fils_ft_len s)
    (fils_out s).
#[export] Instance set_fils_erp : SetterOf fils_erp.
Proof. derive_setter. Defined.
#[export] Instance set_fils_hs : SetterOf fils_hs.
Proof. derive_setter. Defined.
#[export] Instance set_fils_nonce : SetterOf fils_nonce.
Proof. derive_setter. Defined.
#[export] Instance set_fils_anonce : SetterOf fils_anonce.
Proof. derive_setter. Defined.
#[export] Instance set_fils_session : SetterOf fils_session.
Proof. derive_setter. Defined.
#[export] Instance set_fils_ick : SetterOf fils_ick.
Proof. derive_setter. Defined.
#[export] Instance set_fils_ick_len : SetterOf fils_ick_len.
Proof. derive_setter. Defined.
#[export] Instance set_fils_kek_and_tk : SetterOf fils_kek_and_tk.
Proof. derive_setter. Defined.
#[export] Instance set_fils_kek_len : SetterOf fils_kek_len.
Proof. derive_setter. Defined.
#[export] Instance set_fils_pmk : SetterOf fils_pmk.
Proof. derive_setter. Defined.
#[export] Instance set_fils_pmk_len : SetterOf fils_pmk_len.
Proof. derive_setter. Defined.
#[export] Instance set_fils_pmkid : SetterOf fils_pmkid.
Proof. derive_setter. Defined.
#[export] Instance set_fils_ft : SetterOf fils_ft.
Proof. derive_setter. Defined.
#[export] Instance set_fils_ft_len : SetterOf fils_ft_len.
Proof. derive_setter. Defined.
#[export] Instance set_fils_out : SetterOf fils_out.
Proof. derive_setter. Defined.

(** The hooks of the handshake, the random nonce and session, and the contents of uninitialised
    memory. *)
Record fils_env : Type := mk_fils_env {
  fils_hooks : hooks;
  fils_rnd_nonce : list Z;
  fils_rnd_session : list Z;
  fils_junk : nat → Z;
  fils_junk_mdid : Z;
  fils_junk_info : ie_rsn_info;
}.

Section fils.
Context `{Ell}.
Variable E : fils_env.

Definition fils_emit (e : fils_effect) : sr fils_sm unit :=
  modify (λ s, s <| fils_out := fils_out s ++ [e] |>).

Definition fils_sha384 (akm : Z) : bool :=
  negb (has_any akm (Z.lor IE_RSN_AKM_SUITE_FILS_SHA256 IE_RSN_AKM_SUITE_FT_OVER_FILS_SHA256)).
Definition fils_hmac (sha384 : bool) := if sha384 then hmac_sha384 else hmac_sha256.

(** The checksum is not tested for NULL, which [l_checksum_update] ignores: the PMKID stays as it
    was. *)
Definition fils_derive_pmkid (erp_data : list Z) : sr fils_sm unit :=
  s ← get;
  let type := if fils_sha384 (hs_akm_suite (fils_hs s)) then L_CHECKSUM_SHA384 else L_CHECKSUM_SHA256 in
  match l_checksum_new type with
  | None => mret tt
  | Some sha => modify (λ s, s <| fils_pmkid := digest_into (sha erp_data) (fils_pmkid s) |>)
  end.

(** One element; the results are not looked at. *)
Definition add_element (b : ie_tlv_builder) (tag : Z) (data : list Z) : res ie_tlv_builder :=
  '(_, b) ← ie_tlv_builder_next b tag;
  '(_, b) ← ie_tlv_builder_set_data b data;
  Ok b.

(** [ie_build_rsne] into 256 bytes of the stack; its result is not looked at, and a failure leaves
    the length uninitialised. *)
Definition rebuild_rsne (info : ie_rsn_info) : res (list Z) :=
  r ← ie_build_rsne info (l_malloc (fils_junk E) 256);
  nonnull r.

(** ** The authentication request *)

Definition fils_erp_tx_func (eap_data : list Z) : sr fils_sm unit :=
  modify (λ s, s <| fils_nonce := fils_rnd_nonce E |> <| fils_session := fils_rnd_session E |>);;
  fils_derive_pmkid eap_data;;
  s ← get;
  let hs := fils_hs s in
  data ← run (
    ie ← nonnull (hs_supplicant_ie hs);
    l ← rd ie 1;
    r ← ok_or_none (ie_parse_rsne_from_data ie (l + 2));
    rsne ← rebuild_rsne (default (fils_junk_info E) r);
    n ← rd rsne 1;
    rsne ← rdn (rsne +! 2) n;
    let b := ie_tlv_builder_init (Some (l_malloc (fils_junk E) 252)) 252 in
    b ← add_element b IE_TYPE_RSN rsne;
    b ← add_element b IE_TYPE_FILS_NONCE (fils_nonce s);
    b ← add_element b IE_TYPE_FILS_SESSION (fils_session s);
    b ← add_element b IE_TYPE_FILS_WRAPPED_DATA eap_data;
    b ← match hs_mde hs with
        | None => Ok b
        | Some mde => n ← rd mde 1; mde ← rdn (mde +! 2) n; add_element b IE_TYPE_MOBILITY_DOMAIN mde
        end;
    '(b, n) ← ie_tlv_builder_finalize b;
    Ok (le16_bytes 1 ++ le16_bytes 0 ++ ptake (b_mem b) n));
  fils_emit (FilsTxAuthenticate data).

(** ** Keys *)

Definition label_fils_ptk : list Z :=
  [70; 73; 76; 83; 32; 80; 84; 75; 32; 68; 101; 114; 105; 118; 97; 116; 105; 111; 110].

(** The buffer [key_data], of which the first [n] bytes are written. *)
Definition fils_key_data (sha384 : bool) (pmk data : list Z) (n : Z) : res (list Z) :=
  let kdf := if sha384 then kdf_sha384 else kdf_sha256 in
  let key_data := l_malloc (fils_junk E) 176 in
  out ← rdn key_data n;
  match kdf pmk label_fils_ptk data out with
  | None => Ok key_data
  | Some out => put key_data 0 out
  end.

(** The elements for the association request with a mobility domain; the first component is
    [None] for the return of [-EBADMSG]. *)
Definition fils_mde_ies (hs : handshake_state) (mde : ptr) : res (option (list (list Z)) * handshake_state) :=
  '(hs, _) ← handshake_state_derive_ptk (fils_junk_mdid E) hs;
  mde ← memdup_ie mde;
  ie ← nonnull (hs_supplicant_ie hs);
  l ← rd ie 1;
  r ← ok_or_none (ie_parse_rsne_from_data ie (l + 2));
  match r with
  | None => Ok (None, hs)
  | Some info =>
      rsne ← rebuild_rsne (set_pmkids (Some (hs_pmk_r1_name hs)) (set_num_pmkids 1 info));
      rsne ← memdup_ie rsne;
      Ok (Some [mde; rsne], hs)
  end.

(** The keys, up to the call of [handshake_state_set_fils_ft]: the key confirmation and the FILS-Key-Data. *)
Definition fils_derive_keys : sr fils_sm (list Z * list Z) :=
  s ← get;
  erp ← run (nonnull (fils_erp s));
  rmsk ← run (erp_get_rmsk erp);
  let hs := fils_hs s in
  let akm := hs_akm_suite hs in
  let ft_len := if akm =? IE_RSN_AKM_SUITE_FT_OVER_FILS_SHA256 then 32
                else if akm =? IE_RSN_AKM_SUITE_FT_OVER_FILS_SHA384 then 48 else 0 in
  let sha384 := fils_sha384 akm in
  let hash_len := if sha384 then 48 else 32 in
  let kek_len := handshake_state_get_kek_len hs in
  let old := ptake (fils_pmk s) hash_len in
  pmk ← run (put (fils_pmk s) 0 (default old (fils_hmac sha384 (fils_nonce s ++ fils_anonce s) rmsk old)));
  key_data ← run (fils_key_data sha384 (ptake pmk hash_len) (hs_spa hs ++ hs_aa hs ++ fils_nonce s ++ fils_anonce s)
                    (hash_len + kek_len + 16 + ft_len));
  ick ← run (put (fils_ick s) 0 (ptake key_data hash_len));
  '(ft, ft_len) ← run (if ft_len =? 0 then Ok (fils_ft s, fils_ft_len s)
                       else
                         k ← rdn (key_data +! (hash_len + kek_len + 16)) ft_len;
                         ft ← put (fils_ft s) 0 k;
                         Ok (ft, ft_len));
  hs ← run (handshake_state_set_fils_ft hs ft ft_len);
  let key_auth := l_malloc (fils_junk E) hash_len in
  let key_auth := default key_auth (fils_hmac sha384 (ptake ick hash_len)
                    (fils_nonce s ++ fils_anonce s ++ hs_spa hs ++ hs_aa hs) key_auth) in
  modify (λ s, s <| fils_kek_len := kek_len |> <| fils_pmk := pmk |> <| fils_pmk_len := hash_len |>
                 <| fils_ick := ick |> <| fils_ick_len := hash_len |> <| fils_ft := ft |> <| fils_ft_len := ft_len |>
                 <| fils_hs := hs |>);;
  mret (key_auth, key_data).

Definition fils_derive_key_data : sr fils_sm Z :=
  '(key_auth, key_data) ← fils_derive_keys;
  s ← get;
  let hs := fils_hs s in
  ies ← run (
    let b := ie_tlv_builder_init None 0 in
    b ← add_element b IE_TYPE_FILS_KEY_CONFIRMATION key_auth;
    b ← add_element b IE_TYPE_FILS_SESSION (fils_session s);
    '(b, n) ← ie_tlv_builder_finalize b;
    Ok (ptake (b_mem b) n));
  own ← run (ie ← nonnull (hs_supplicant_ie hs); memdup_ie ie);
  more ← match hs_mde hs with
         | None => mret (Some [])
         | Some mde =>
             '(more, hs) ← run (fils_mde_ies hs mde);
             modify (λ s, s <| fils_hs := hs |>);;
             mret more
         end;
  match more with
  | None => mret BADMSG
  | Some more =>
      keys ← run (rdn (key_data +! fils_ick_len s) (fils_kek_len s + 16));
      kek_and_tk ← run (put (fils_kek_and_tk s) 0 keys);
      modify (λ s, s <| fils_kek_and_tk := kek_and_tk |>);;
      fils_emit (FilsTxAssociate ([ies; own] ++ more) (ptake kek_and_tk (fils_kek_len s)) (fils_nonce s ++ fils_anonce s));;
      mret 0
  end.

(** ** The authentication response *)

(** What the loop over the elements finds: the data of the FILS elements and the headers of the
    others. *)
Record fils_ies : Type := mk_fils_ies {
  fi_anonce : option ptr;
  fi_session : option ptr;
  fi_wrapped : option (ptr * Z);
  fi_fils_rsne : option ptr;
  fi_fils_mde : option ptr;
  fi_fils_fte : option ptr;
}.

#[export] Instance fils_ies_eta : Eta fils_ies := λ i,
  mk_fils_ies (fi_anonce i) (fi_session i) (fi_wrapped i) (fi_fils_rsne i) (fi_fils_mde i) (fi_fils_fte i).
#[export] Instance set_fi_anonce : SetterOf fi_anonce.
Proof. derive_setter. Defined.
#[export] Instance set_fi_session : SetterOf fi_session.
Proof. derive_setter. Defined.
#[export] Instance set_fi_wrapped : SetterOf fi_wrapped.
Proof. derive_setter. Defined.
#[export] Instance set_fi_fils_rsne : SetterOf fi_fils_rsne.
Proof. derive_setter. Defined.
#[export] Instance set_fi_fils_mde : SetterOf fi_fils_mde.
Proof. derive_setter. Defined.
#[export] Instance set_fi_fils_fte : SetterOf fi_fils_fte.
Proof. derive_setter. Defined.

Definition no_fils_ies : fils_ies := mk_fils_ies None None None None None None.

(** [Stop None] is the jump to [invalid_ies]. *)
Definition fils_auth_step (it : ie_tlv_iter) (s : option fils_ies) : res (ctl (option fils_ies)) :=
  match s with
  | None => Ok (Stop None)
  | Some i =>
      let tag := it_tag it in
      let h := iter_header it in
      Ok (if tag =? IE_TYPE_FILS_NONCE then
            if negb (it_len it =? FILS_NONCE_LEN) then Stop None else Next (Some (i <| fi_anonce := Some (it_data it) |>))
          else if tag =? IE_TYPE_FILS_SESSION then
            if negb (it_len it =? FILS_SESSION_LEN) then Stop None else Next (Some (i <| fi_session := Some (it_data it) |>))
          else if tag =? IE_TYPE_FILS_WRAPPED_DATA then Next (Some (i <| fi_wrapped := Some (it_data it, it_len it) |>))
          else if tag =? IE_TYPE_RSN then
            match fi_fils_rsne i with Some _ => Stop None | None => Next (Some (i <| fi_fils_rsne := Some h |>)) end
          else if tag =? IE_TYPE_MOBILITY_DOMAIN then
            match fi_fils_mde i with Some _ => Stop None | None => Next (Some (i <| fi_fils_mde := Some h |>)) end
          else if tag =? IE_TYPE_FAST_BSS_TRANSITION then
            match fi_fils_fte i with Some _ => Stop None | None => Next (Some (i <| fi_fils_fte := Some h |>)) end
          else Next s)
  end.

(** The FTE of the response; [Ok None] is the jump to [invalid_ies]. *)
Definition fils_set_fte (hs : handshake_state) (fte : option ptr) : res (option handshake_state) :=
  match fte with
  | None => Ok (Some hs)
  | Some fte =>
      l ← rd fte 1;
      r ← ok_or_none (ie_parse_fast_bss_transition_from_data fte (l + 2) (handshake_state_get_kck_len hs));
      match r with
      | None => Ok None
      | Some info =>
          hs ← handshake_state_set_fte hs (Some fte);
          hs ← handshake_state_set_kh_ids hs (ft_r0khid info) (ft_r0khid_len info) (ft_r1khid info);
          Ok (Some hs)
      end
  end.

Definition fils_process_auth (i : fils_ies) : sr fils_sm Z :=
  match fi_anonce i, fi_session i, fi_wrapped i with
  | Some anonce, Some _, Some (wrapped, wrapped_len) =>
      s ← get;
      hs ← run (match fi_fils_mde i with
                | Some mde => handshake_state_set_mde (fils_hs s) (Some mde)
                | None => Ok (fils_hs s)
                end);
      modify (λ s, s <| fils_hs := hs |>);;
      r ← run (fils_set_fte hs (fi_fils_fte i));
      match r with
      | None => mret MMPDU_STATUS_CODE_INVALID_ELEMENT
      | Some hs =>
          anonce ← run (rdn anonce 16);
          modify (λ s, s <| fils_hs := hs |> <| fils_anonce := anonce |>);;
          erp ← run (nonnull (fils_erp s));
          r ← run (erp_rx_packet (fils_junk E) erp wrapped wrapped_len);
          match r with
          | None => mret MMPDU_STATUS_CODE_INVALID_ELEMENT
          | Some erp => modify (λ s, s <| fils_erp := Some erp |>);; fils_derive_key_data
          end
      end
  | _, _, _ => mret MMPDU_STATUS_CODE_INVALID_ELEMENT
  end.

Definition fils_rx_authenticate (frame : ptr) (len : Z) : sr fils_sm Z :=
  mpdu ← run (mpdu_validate (Some frame) len);
  match mpdu with
  | None => mret BADMSG
  | Some mpdu =>
      body ← run (mmpdu_body mpdu);
      n ← run (mmpdu_header_len mpdu);
      status ← run (l_get_le16 (body +! 4));
      if negb (status =? 0) then mret status
      else
        alg ← run (l_get_le16 body);
        if negb (alg =? MMPDU_AUTH_ALGO_FILS_SK) && negb (alg =? MMPDU_AUTH_ALGO_FILS_SK_PFS)
        then mret MMPDU_STATUS_CODE_UNSUP_AUTH_ALG
        else
          r ← run (tlv_loop fils_auth_step (body +! 6) (u32 (len - (n + 6))) (Some no_fils_ies));
          match r with
          | None => mret MMPDU_STATUS_CODE_INVALID_ELEMENT
          | Some i => fils_process_auth i
          end
  end.

(** ** The association response *)

(** The keys found, with their indices and lengths, and the key confirmation. *)
Record fils_assoc : Type := mk_fils_assoc {
  fa_key_rsc : list Z;
  fa_gtk : option (Z * ptr * Z);
  fa_igtk : option (Z * ptr * Z);
  fa_ap_key_auth : option ptr;
}.

Definition fils_key_delivery (mfp : bool) (data : ptr) (len : Z) (a : fils_assoc) : res (ctl (option fils_assoc)) :=
  if len <? 8 then Ok (Stop None)
  else
    key_rsc ← rdn data 8;
    r ← handshake_util_find_gtk_kde (data +! 8) (len - 8);
    match r with
    | None => Ok (Stop None)
    | Some (gtk, gtk_len) =>
        b ← rd gtk 0;
        let a := mk_fils_assoc key_rsc (Some (bit_field b 0 2, gtk +! 2, gtk_len - 2)) (fa_igtk a) (fa_ap_key_auth a) in
        if negb mfp then Ok (Next (Some a))
        else
          r ← handshake_util_find_igtk_kde (data +! 8) (len - 8);
          match r with
          | None => Ok (Stop None)
          | Some (igtk, igtk_len) =>
              index ← l_get_le16 igtk;
              Ok (Next (Some (mk_fils_assoc (fa_key_rsc a) (fa_gtk a) (Some (u8 index, igtk +! 2, igtk_len - 2))
                                (fa_ap_key_auth a))))
          end
    end.

Definition fils_assoc_step (mfp sha384 : bool) (it : ie_tlv_iter) (s : option fils_assoc)
    : res (ctl (option fils_assoc)) :=
  match s with
  | None => Ok (Stop None)
  | Some a =>
      if it_tag it =? IE_TYPE_KEY_DELIVERY then fils_key_delivery mfp (it_data it) (it_len it) a
      else if it_tag it =? IE_TYPE_FILS_KEY_CONFIRMATION then
        Ok (if negb (it_len it =? (if sha384 then 48 else 32)) then Stop None
            else Next (Some (mk_fils_assoc (fa_key_rsc a) (fa_gtk a) (fa_igtk a) (Some (it_data it)))))
      else Ok (Next s)
  end.

Definition fils_key_effects (l : list effect) : sr fils_sm unit :=
  modify (λ s, s <| fils_out := fils_out s ++ (FilsKey <$> l) |>).

(** The keys are taken over and installed. *)
Definition fils_install_keys (a : fils_assoc) : sr fils_sm Z :=
  s ← get;
  hs ← run (handshake_state_set_pmk (fils_hs s) (fils_pmk s) (fils_pmk_len s));
  hs ← run (handshake_state_set_pmkid hs (fils_pmkid s));
  modify (λ s, s <| fils_hs := hs |>);;
  match fa_gtk a with
  | None => mret tt
  | Some (index, gtk, gtk_len) =>
      k ← run (rdn gtk gtk_len);
      fils_key_effects (handshake_state_install_gtk (fils_hooks E) hs index k (ptake (fa_key_rsc a) 6))
  end;;
  match fa_igtk a with
  | None => mret tt
  | Some (index, igtk, igtk_len) =>
      ipn ← run (rdn igtk 6);
      k ← run (rdn (igtk +! 6) (igtk_len - 6));
      fils_key_effects (handshake_state_install_igtk (fils_hooks E) hs index k ipn)
  end;;
  hs ← run (handshake_state_set_ptk hs (fils_kek_and_tk s) (fils_kek_len s + 16));
  let (hs, l) := handshake_state_install_ptk (fils_hooks E) hs in
  modify (λ s, s <| fils_hs := hs |>);;
  fils_key_effects l;;
  mret 0.

Definition fils_finish_assoc (a : fils_assoc) : sr fils_sm Z :=
  match fa_ap_key_auth a with
  | None => mret MMPDU_STATUS_CODE_INVALID_ELEMENT
  | Some ap_key_auth =>
      s ← get;
      let hs := fils_hs s in
      let sha384 := has_any (hs_akm_suite hs)
                      (Z.lor IE_RSN_AKM_SUITE_FILS_SHA384 IE_RSN_AKM_SUITE_FT_OVER_FILS_SHA384) in
      key ← run (rdn (fils_ick s) (fils_ick_len s));
      let expected := l_malloc (fils_junk E) (fils_ick_len s) in
      let expected := default expected (fils_hmac sha384 key
                        (fils_anonce s ++ fils_nonce s ++ hs_aa hs ++ hs_spa hs) expected) in
      same ← run (memeq ap_key_auth expected);
      if negb same then mret BADMSG else fils_install_keys a
  end.

Definition fils_rx_associate (frame : ptr) (len : Z) : sr fils_sm Z :=
  s ← get;
  let sha384 := has_any (hs_akm_suite (fils_hs s))
                  (Z.lor IE_RSN_AKM_SUITE_FILS_SHA384 IE_RSN_AKM_SUITE_FT_OVER_FILS_SHA384) in
  mpdu ← run (mpdu_validate (Some frame) len);
  match mpdu with
  | None => mret BADMSG
  | Some mpdu =>
      body ← run (mmpdu_body mpdu);
      n ← run (mmpdu_header_len mpdu);
      status ← run (l_get_le16 (body +! 2));
      if negb (status =? 0) then mret status
      else
        r ← run (tlv_loop (fils_assoc_step (hs_mfp (fils_hs s)) sha384) (body +! 6) (u32 (len - (n + 6)))
                   (Some (mk_fils_assoc (l_malloc (fils_junk E) 8) None None None)));
        match r with
        | None => mret MMPDU_STATUS_CODE_INVALID_ELEMENT
        | Some a => fils_finish_assoc a
        end
  end.

(** ** Starting *)

Definition fils_start : sr fils_sm bool :=
  s ← get;
  erp ← run (nonnull (fils_erp s));
  '(erp, pkt) ← run (erp_start (fils_junk E) erp);
  modify (λ s, s <| fils_erp := Some erp |>);;
  match pkt with
  | None => mret false
  | Some pkt => fils_erp_tx_func pkt;; mret true
  end.

Definition fils_sm_new (hs : handshake_state) (cache : option erp_cache_entry) : fils_sm :=
  mk_fils (erp_new cache) hs (zeros 16) (zeros 16) (zeros 8) (zeros 48) 0 (zeros 80) 0 (zeros 48) 0 (zeros 16)
    (zeros 48) 0 [].
End fils.
