(* ===== verification/FilsSpec.v ===== *)
(** * Fast initial link setup: what the exchange guarantees (src/fils.c)

    Keys are only installed for an association response that proves the knowledge of the keys,
    and the group keys installed are those of its Key Delivery element. *)

From stdpp Require Import base numbers list option.
From Stdlib Require Import ZArith Lia.
From S2P Require Import Prelude IeTlv IeRsn IeMisc Crypto Kdf Handshake Mpdu StRes Erp Fils.

Open Scope Z_scope.

(** ** The elements of an association response *)

(** The Key Delivery element [d] has a KDE with the selector and the payload. *)
Definition delivers (selector : Z) (d payload : list Z) : Prop :=
  ∃ es rest, elements_of (d +! 8) es rest ∧ kde_search selector es = Some payload.

(** [n] bytes at [p] are the key [k]. *)
Definition key_at (p : ptr) (n : Z) (k : list Z) : Prop := ∃ after, p = k ++ after ∧ n = zlen k.

(** The group keys that the code points to are in a Key Delivery element, after the RSC. *)
Definition gtk_from (es : list elem) (rsc : list Z) (index : Z) (k : list Z) : Prop :=
  ∃ d b b', (IE_TYPE_KEY_DELIVERY, d) ∈ es ∧ delivers HANDSHAKE_KDE_GTK d (b :: b' :: k) ∧
    index = bit_field b 0 2 ∧ rsc = ptake d 8.
Definition igtk_from (es : list elem) (index : Z) (k : list Z) : Prop :=
  ∃ d b b', (IE_TYPE_KEY_DELIVERY, d) ∈ es ∧ delivers HANDSHAKE_KDE_IGTK d (b :: b' :: k) ∧
    index = u8 (le16_of b b') ∧ 6 ≤ zlen k.
Definition confirmation_from (es : list elem) (n : Z) (p : ptr) : Prop :=
  ∃ d after, (IE_TYPE_FILS_KEY_CONFIRMATION, d) ∈ es ∧ p = d ++ after ∧ zlen d = n.

Record assoc_found (n : Z) (es : list elem) (a : fils_assoc) : Prop := {
  af_gtk : ∀ index p l, fa_gtk a = Some (index, p, l) → ∃ k, key_at p l k ∧ gtk_from es (fa_key_rsc a) index k;
  af_igtk : ∀ index p l, fa_igtk a = Some (index, p, l) → ∃ k, key_at p l k ∧ igtk_from es index k;
  af_auth : ∀ p, fa_ap_key_auth a = Some p → confirmation_from es n p;
}.

Lemma assoc_found_more n es es' a : assoc_found n es a → assoc_found n (es ++ es') a.
Proof.
  intros [Hg Hi Ha]. split.
  - intros index p l Hx. destruct (Hg index p l Hx) as (k & Hk & d & b & b' & Hin & Hd). exists k. split; [done |].
    exists d, b, b'. split; [| done]. apply elem_of_app. by left.
  - intros index p l Hx. destruct (Hi index p l Hx) as (k & Hk & d & b & b' & Hin & Hd). exists k. split; [done |].
    exists d, b, b'. split; [| done]. apply elem_of_app. by left.
  - intros p Hx. destruct (Ha p Hx) as (d & after & Hin & Hd). exists d, after. split; [| done].
    apply elem_of_app. by left.
Qed.

(** A KDE of the right size, or nothing. *)
Lemma find_kde_delivered d after selector lo hi :
  bytes_ok d → 8 ≤ zlen d < 2 ^ 31 →
  let r := find_kde ((d ++ after) +! 8) (zlen d - 8) selector in
  ∃ k, r = Ok k ∧ match kde_bounded lo hi k with
       | None => True
       | Some (p, n) => ∃ payload, key_at p n payload ∧ delivers selector d payload ∧ lo ≤ n
       end.
Proof.
  intros Hok Hl. cbv zeta. rewrite padd_app_le by lia. rewrite <- (zlen_padd d 8) by lia.
  assert (Hb : bytes_ok (d +! 8)) by auto with iwd.
  destruct (elements_total _ Hb) as (es & rest & Hes).
  pose proof (find_kde_elements _ _ _ after selector Hes Hb) as Hf.
  rewrite zlen_padd in Hf by lia. specialize (Hf ltac:(lia)). rewrite zlen_padd by lia.
  destruct (kde_search selector es) as [payload|] eqn:Hs; [| by exists None].
  destruct Hf as [tl Hf]. eexists. split; [exact Hf |]. cbn [kde_bounded].
  destruct (Z.ltb_spec (zlen payload) lo); [done |]. destruct (hi <? zlen payload); [done |]. cbn [orb].
  exists payload. split; [by exists tl |]. split; [by exists es, rest | lia].
Qed.

Lemma l_get_le16_cons b b' l : l_get_le16 (b :: b' :: l) = Ok (le16_of b b').
Proof. done. Qed.

(** A Key Delivery element: refused, or its keys are found. *)
Lemma fils_key_delivery_found mfp n es d after a :
  bytes_ok d → zlen d < 2 ^ 31 → (IE_TYPE_KEY_DELIVERY, d) ∈ es → assoc_found n es a →
  ∃ r, fils_key_delivery mfp (d ++ after) (zlen d) a = Ok r ∧
    match r with Stop None => True | Next (Some a') => assoc_found n es a' | _ => False end.
Proof.
  intros Hok Hlt Hin [Hg Hi Ha]. unfold fils_key_delivery.
  destruct (Z.ltb_spec (zlen d) 8) as [|Hl]; [by eexists |].
  rewrite (rdn_ok (d ++ after) 8) by (rewrite zlen_app; znn; lia). rewrite bind_ok, ptake_app_le by lia.
  unfold handshake_util_find_gtk_kde, handshake_util_find_igtk_kde.
  destruct (find_kde_delivered d after HANDSHAKE_KDE_GTK (CRYPTO_MIN_GTK_LEN + 2) (CRYPTO_MAX_GTK_LEN + 2) Hok)
    as (k & -> & Hk); [lia |]. rewrite !bind_ok.
  destruct (kde_bounded _ _ k) as [[gtk gtk_len]|]; [| by eexists].
  destruct Hk as (payload & (tl & -> & ->) & Hd & Hlo).
  change (CRYPTO_MIN_GTK_LEN + 2) with 18 in Hlo.
  destruct payload as [|b [|b' key]]; [done | done |].
  change (rd ((b :: b' :: key) ++ tl) 0) with (Ok b). rewrite bind_ok.
  change (((b :: b' :: key) ++ tl) +! 2) with (key ++ tl). replace (zlen (b :: b' :: key) - 2) with (zlen key) by zlia.
  assert (Hkey : ∃ key', key_at (key ++ tl) (zlen key) key' ∧ gtk_from es (ptake d 8) (bit_field b 0 2) key').
  { exists key. split; [by exists tl |]. by exists d, b, b'. }
  destruct mfp; cbn [negb].
  2:{ eexists. split; [done |]. split; cbn; [by intros ? ? ? [= <- <- <-] | done | done]. }
  destruct (find_kde_delivered d after HANDSHAKE_KDE_IGTK (CRYPTO_MIN_IGTK_LEN + 8) (CRYPTO_MAX_IGTK_LEN + 8) Hok)
    as (k' & -> & Hk'); [lia |]. rewrite !bind_ok.
  destruct (kde_bounded _ _ k') as [[igtk igtk_len]|]; [| by eexists].
  destruct Hk' as (payload & (tl' & -> & ->) & Hd' & Hlo').
  change (CRYPTO_MIN_IGTK_LEN + 8) with 24 in Hlo'.
  destruct payload as [|c [|c' ikey]]; [done | done |].
  cbn [app]. rewrite l_get_le16_cons, bind_ok. eexists. split; [done |]. split; cbn [fa_gtk fa_igtk fa_key_rsc fa_ap_key_auth];
    [by intros ? ? ? [= <- <- <-] | | done].
  intros ? ? ? [= <- <- <-]. exists ikey. split; [exists tl'; split; [done |]; rewrite !zlen_cons; lia |].
  exists d, c, c'. split_and!; try done. rewrite !zlen_cons in Hlo'. lia.
Qed.

(** The loop over the elements of the response. *)
Lemma fils_fold_elements (mfp sha384 : bool) es : ∀ seen max pos tlv after a,
  Forall elem_ok es → assoc_found (if sha384 then 48 else 32) seen a →
  ∃ r, ctl_fold (fils_assoc_step mfp sha384) (visits max pos tlv es after) (Some a) = Ok r ∧
    match r with Some a' => assoc_found (if sha384 then 48 else 32) (seen ++ es) a' | None => True end.
Proof.
  set (n := if sha384 then 48 else 32).
  induction es as [|[tag d] es IH]; intros seen max pos tlv after a Hes Ha; cbn [visits ctl_fold].
  { exists (Some a). by rewrite app_nil_r. }
  apply list.Forall_cons in Hes as [[Hd Hl] Hes].
  assert (Ha' : assoc_found n (seen ++ [(tag, d)]) a) by by apply assoc_found_more.
  assert (Hstep : ∃ r, fils_assoc_step mfp sha384 (visited max pos tlv (tag, d) (tlv_encode_all es ++ after)) (Some a) = Ok r ∧
            match r with Stop None => True | Next (Some a') => assoc_found n (seen ++ [(tag, d)]) a' | _ => False end).
  { assert (Hin : (tag, d) ∈ seen ++ [(tag, d)]) by (apply elem_of_app; right; by left).
    unfold fils_assoc_step, visited. cbn [it_tag it_len it_data fst snd].
    destruct (Z.eqb_spec tag IE_TYPE_KEY_DELIVERY) as [->|_]; [apply fils_key_delivery_found; auto; lia |].
    destruct (Z.eqb_spec tag IE_TYPE_FILS_KEY_CONFIRMATION) as [->|_]; [| by eexists].
    fold n. eexists. split; [done |]. destruct (Z.eqb_spec (zlen d) n) as [Hn|]; [| done]. cbn [negb].
    destruct Ha' as [Hg Hi _]. split; [exact Hg | exact Hi |]. cbn. intros p [= <-]. by exists d, (tlv_encode_all es ++ after). }
  destruct Hstep as (r & -> & Hr). rewrite bind_ok. destruct r as [[a'|]|[a'|]]; try done.
  - destruct (IH (seen ++ [(tag, d)]) max (pos + zlen (tlv_encode (tag, d))) tlv after a' Hes Hr) as (r & Hr' & Hk).
    exists r. by rewrite <- app_assoc in Hk.
  - by exists None.
Qed.

Lemma fils_loop_elements (mfp sha384 : bool) bs es rest a :
  elements_of bs es rest → bytes_ok bs → zlen bs < 2 ^ 31 → assoc_found (if sha384 then 48 else 32) [] a →
  ∃ r, tlv_loop (fils_assoc_step mfp sha384) bs (zlen bs) (Some a) = Ok r ∧
    match r with Some a' => assoc_found (if sha384 then 48 else 32) es a' | None => True end.
Proof.
  intros Hes Hok Hl Ha. pose proof (tlv_loop_visits (fils_assoc_step mfp sha384) bs es rest [] (Some a) Hes Hok) as Hv.
  rewrite app_nil_r in Hv. rewrite Hv by lia. apply (fils_fold_elements _ _ _ []); [by eapply elements_of_ok | done].
Qed.

(** ** The association response *)

Definition fils_hash_len (hs : handshake_state) : Z := if fils_sha384 (hs_akm_suite hs) then 48 else 32.
Definition fils_hash (hs : handshake_state) : l_checksum_type :=
  if fils_sha384 (hs_akm_suite hs) then L_CHECKSUM_SHA384 else L_CHECKSUM_SHA256.

(** The state machine after the authentication response: the sizes of the buffers and keys. *)
Record fils_keyed (s : fils_sm) : Prop := {
  fk_akm : hs_akm_suite (fils_hs s) ∈ [IE_RSN_AKM_SUITE_FILS_SHA256; IE_RSN_AKM_SUITE_FILS_SHA384;
             IE_RSN_AKM_SUITE_FT_OVER_FILS_SHA256; IE_RSN_AKM_SUITE_FT_OVER_FILS_SHA384];
  fk_ick : zlen (fils_ick s) = 48;
  fk_ick_len : fils_ick_len s = fils_hash_len (fils_hs s);
  fk_kek_and_tk : zlen (fils_kek_and_tk s) = 80;
  fk_kek_len : fils_kek_len s = handshake_state_get_kek_len (fils_hs s);
  fk_pmk : zlen (fils_pmk s) = 48;
  fk_pmk_len : fils_pmk_len s = fils_hash_len (fils_hs s);
  fk_pmkid : zlen (fils_pmkid s) = 16;
  fk_hs_pmk : zlen (hs_pmk (fils_hs s)) = 64;
  fk_hs_ptk : zlen (hs_ptk (fils_hs s)) = 136;
}.

(** What the AP signs. *)
Definition ap_key_auth_data (s : fils_sm) : list Z :=
  fils_anonce s ++ fils_nonce s ++ hs_aa (fils_hs s) ++ hs_spa (fils_hs s).

(** The keys in the handshake are those derived, and the keys given to the kernel are the temporal
    key and group keys delivered by the elements. *)
Record fils_installed (s : fils_sm) (es : list elem) (t : fils_sm) : Prop := {
  fi_ptk : let n := fils_kek_len s + 16 in ptake (hs_ptk (fils_hs t)) n = ptake (fils_kek_and_tk s) n;
  fi_pmk : ptake (hs_pmk (fils_hs t)) (fils_pmk_len s) = ptake (fils_pmk s) (fils_pmk_len s) ∧
           hs_pmk_len (fils_hs t) = fils_pmk_len s;
  fi_pmkid : hs_pmkid (fils_hs t) = fils_pmkid s ∧ hs_have_pmkid (fils_hs t) = true;
  fi_complete : hs_ptk_complete (fils_hs t) = true;
  fi_keys : ∃ l, fils_out t = fils_out s ++ (FilsKey <$> l) ∧
    (∀ index k rsc c, InstallGtk index k rsc c ∈ l → ∃ rsc8, rsc = ptake rsc8 6 ∧ gtk_from es rsc8 index k) ∧
    (∀ index k ipn c, InstallIgtk index k ipn c ∈ l → zlen ipn = 6 ∧ igtk_from es index (ipn ++ k)) ∧
    (∀ tk c, InstallTk tk c ∈ l →
       tk = Some (ptake (hs_ptk (fils_hs t) +! fils_kek_len s) (crypto_cipher_key_len c)));
}.

Lemma fils_kek_cases s : fils_keyed s →
  handshake_state_get_kek_len (fils_hs s) = (if fils_sha384 (hs_akm_suite (fils_hs s)) then 64 else 32) ∧
  has_any (hs_akm_suite (fils_hs s)) (Z.lor IE_RSN_AKM_SUITE_FILS_SHA384 IE_RSN_AKM_SUITE_FT_OVER_FILS_SHA384)
    = fils_sha384 (hs_akm_suite (fils_hs s)).
Proof.
  intros Hk. pose proof (fk_akm _ Hk) as Ha. unfold handshake_state_get_kek_len, handshake_get_key_sizes.
  repeat (apply elem_of_cons in Ha as [->|Ha]; [done |]). by apply not_elem_of_nil in Ha.
Qed.

Section fils.
Context {EC : Ell} {EL : EllLaws EC}.
Variable E : fils_env.

(** The keys of the group, as the kernel gets them. *)
Definition fils_gtk_effects (hs : handshake_state) (a : fils_assoc) : list effect :=
  match fa_gtk a with
  | Some (index, p, n) => handshake_state_install_gtk (fils_hooks E) hs index (ptake p n) (ptake (fa_key_rsc a) 6)
  | None => []
  end.
Definition fils_igtk_effects (hs : handshake_state) (a : fils_assoc) : list effect :=
  match fa_igtk a with
  | Some (index, p, n) => handshake_state_install_igtk (fils_hooks E) hs index (ptake (p +! 6) (n - 6)) (ptake p 6)
  | None => []
  end.

Lemma fils_gtk_effects_from n es hs a e : assoc_found n es a → e ∈ fils_gtk_effects hs a →
  ∃ index k c rsc8, e = InstallGtk index k (ptake rsc8 6) c ∧ gtk_from es rsc8 index k.
Proof.
  intros Ha. unfold fils_gtk_effects, handshake_state_install_gtk.
  destruct (fa_gtk a) as [[[index p] l]|] eqn:Hg; [| by intros ?%not_elem_of_nil].
  destruct (af_gtk _ _ _ Ha _ _ _ Hg) as (k & (after & -> & ->) & Hk). rewrite ptake_app by done.
  destruct (hook_install_gtk _); [| by intros ?%not_elem_of_nil].
  intros ->%list_elem_of_singleton. by eexists index, k, _, _.
Qed.

Lemma fils_igtk_effects_from n es hs a e : assoc_found n es a → e ∈ fils_igtk_effects hs a →
  ∃ index k ipn c, e = InstallIgtk index k ipn c ∧ zlen ipn = 6 ∧ igtk_from es index (ipn ++ k).
Proof.
  intros Ha. unfold fils_igtk_effects, handshake_state_install_igtk.
  destruct (fa_igtk a) as [[[index p] l]|] eqn:Hg; [| by intros ?%not_elem_of_nil].
  destruct (af_igtk _ _ _ Ha _ _ _ Hg) as (k & (after & -> & ->) & Hk).
  assert (Hl : 6 ≤ zlen k) by (destruct Hk as (? & ? & ? & ? & ? & ? & ?); done).
  destruct (hook_install_igtk _); [| by intros ?%not_elem_of_nil].
  intros ->%list_elem_of_singleton. rewrite padd_app_le, (ptake_app_le k after 6) by lia.
  rewrite ptake_app by (rewrite zlen_padd; lia).
  eexists index, (k +! 6), (ptake k 6), _. split; [done |]. split; [rewrite zlen_ptake; lia |].
  by rewrite ptake_padd_id.
Qed.

Lemma fils_install_gtk_ok n es hs a s (Q : unit → fils_sm → Prop) : assoc_found n es a →
  Q tt (s <| fils_out := fils_out s ++ (FilsKey <$> fils_gtk_effects hs a) |>) →
  wp (match fa_gtk a with
      | None => mret tt
      | Some (index, gtk, gtk_len) =>
          k ← run (rdn gtk gtk_len);
          fils_key_effects (handshake_state_install_gtk (fils_hooks E) hs index k (ptake (fa_key_rsc a) 6))
      end) Q s.
Proof.
  intros Ha HQ. unfold fils_gtk_effects in HQ. destruct (fa_gtk a) as [[[index p] l]|] eqn:Hg.
  - destruct (af_gtk _ _ _ Ha _ _ _ Hg) as (k & (after & -> & ->) & _). sr_seq.
    apply (wp_run _ _ _ k); [by apply rdn_app |]. rewrite ptake_app in HQ by done. exact HQ.
  - sr_seq. cbn [fmap list_fmap] in HQ. rewrite app_nil_r in HQ. by destruct s.
Qed.

Lemma fils_install_igtk_ok n es hs a s (Q : unit → fils_sm → Prop) : assoc_found n es a →
  Q tt (s <| fils_out := fils_out s ++ (FilsKey <$> fils_igtk_effects hs a) |>) →
  wp (match fa_igtk a with
      | None => mret tt
      | Some (index, igtk, igtk_len) =>
          ipn ← run (rdn igtk 6);
          k ← run (rdn (igtk +! 6) (igtk_len - 6));
          fils_key_effects (handshake_state_install_igtk (fils_hooks E) hs index k ipn)
      end) Q s.
Proof.
  intros Ha HQ. unfold fils_igtk_effects in HQ. destruct (fa_igtk a) as [[[index p] l]|] eqn:Hg.
  - destruct (af_igtk _ _ _ Ha _ _ _ Hg) as (k & (after & -> & ->) & Hk).
    assert (Hl : 6 ≤ zlen k) by (destruct Hk as (? & ? & ? & ? & ? & ? & ?); done). sr_seq.
    eapply wp_run; [apply rdn_ok; rewrite zlen_app; znn; lia |]. sr_seq.
    eapply wp_run; [apply rdn_ok; rewrite zlen_padd; rewrite zlen_app; znn; lia |]. exact HQ.
  - sr_seq. cbn [fmap list_fmap] in HQ. rewrite app_nil_r in HQ. by destruct s.
Qed.

Lemma set_pmk_ok hs pmk n : 0 ≤ n ≤ zlen pmk → n ≤ zlen (hs_pmk hs) →
  ∃ p, handshake_state_set_pmk hs pmk n = Ok (hs <| hs_pmk := p |> <| hs_pmk_len := n |> <| hs_have_pmk := true |>) ∧
    ptake p n = ptake pmk n.
Proof.
  intros Hn Hb. unfold handshake_state_set_pmk. rewrite rdn_ok, bind_ok by lia.
  rewrite put_first, bind_ok by (rewrite zlen_ptake; lia). eexists. split; [done |].
  apply ptake_app. rewrite zlen_ptake; lia.
Qed.

Lemma set_ptk_ok hs ptk n : 0 ≤ n ≤ zlen ptk → n ≤ zlen (hs_ptk hs) →
  ∃ p, handshake_state_set_ptk hs ptk n = Ok (hs <| hs_ptk := p |> <| hs_ptk_complete := true |>) ∧
    ptake p n = ptake ptk n.
Proof.
  intros Hn Hb. unfold handshake_state_set_ptk. rewrite rdn_ok, bind_ok by lia.
  rewrite put_first, bind_ok by (rewrite zlen_ptake; lia). eexists. split; [done |].
  apply ptake_app. rewrite zlen_ptake; lia.
Qed.

(** The installation of the temporal key. *)
Lemma install_ptk_effects hs kck kek ptk :
  handshake_get_key_sizes hs = Some (ptk, kck, kek) →
  ∃ l, handshake_state_install_ptk (fils_hooks E) hs = (hs <| hs_ptk_complete := true |>, l) ∧
    ∀ e, e ∈ l → e = Event HANDSHAKE_EVENT_SETTING_KEYS ∨
      ∃ c, e = InstallTk (Some (ptake (hs_ptk hs +! (kck + kek)) (crypto_cipher_key_len c))) c.
Proof.
  intros Hs. unfold handshake_state_install_ptk.
  destruct (hook_install_tk _); [| eexists; split; [done |]; by intros e ?%not_elem_of_nil].
  eexists. split; [done |]. unfold handshake_get_tk.
  change (handshake_get_key_sizes (hs <| hs_ptk_complete := true |>)) with (handshake_get_key_sizes hs).
  rewrite Hs. intros e [He|He]%elem_of_app.
  - left. unfold handshake_event_ in He. destruct (hook_event _); [by apply list_elem_of_singleton in He |].
    by apply not_elem_of_nil in He.
  - right. apply list_elem_of_singleton in He as ->. by eexists.
Qed.

Lemma fils_key_sizes s hs : fils_keyed s → hs_akm_suite hs = hs_akm_suite (fils_hs s) →
  ∃ ptk, handshake_get_key_sizes hs = Some (ptk, 0, fils_kek_len s) ∧ 32 ≤ fils_kek_len s ≤ 64 ∧
    0 ≤ fils_pmk_len s ≤ 48.
Proof.
  intros Hk Hhs. rewrite (fk_kek_len _ Hk), (fk_pmk_len _ Hk). pose proof (fk_akm _ Hk) as Ha.
  unfold handshake_state_get_kek_len, handshake_get_key_sizes, fils_hash_len. rewrite Hhs.
  repeat (apply elem_of_cons in Ha as [->|Ha]; [eexists; by split_and! |]). by apply not_elem_of_nil in Ha.
Qed.

Lemma fils_install_keys_ok n es s a : fils_keyed s → assoc_found n es a →
  wp (fils_install_keys E a) (λ r t, r = 0 ∧ fils_installed s es t) s.
Proof.
  intros Hk Ha. destruct (fils_key_sizes s _ Hk eq_refl) as (_ & _ & Hkl & Hpl).
  pose proof (λ hs, fils_key_sizes s hs Hk) as Hsz.
  destruct Hk as [_ _ _ Hkt _ Hpmk _ Hpid Hhp Hht].
  destruct (set_pmk_ok (fils_hs s) (fils_pmk s) (fils_pmk_len s)) as (p & Hset & Hp); [lia | lia |].
  unfold fils_install_keys. sr_seq. eapply wp_run; [exact Hset |]. clear Hset. sr_seq.
  eapply wp_run; [unfold handshake_state_set_pmkid; rewrite rdn_ok by lia; reflexivity |].
  rewrite ptake_all by lia. set (hs := _ <| hs_have_pmkid := true |>). sr_seq.
  eapply fils_install_gtk_ok; [exact Ha |]. sr_seq. eapply fils_install_igtk_ok; [exact Ha |]. sr_seq.
  destruct (set_ptk_ok hs (fils_kek_and_tk s) (fils_kek_len s + 16)) as (q & Hset & Hq); [lia | cbn; lia |].
  eapply wp_run; [exact Hset |]. clear Hset. set (hs' := hs <| hs_ptk := q |> <| hs_ptk_complete := true |>).
  destruct (Hsz hs' eq_refl) as (ptk & Hs' & _). destruct (install_ptk_effects hs' _ _ _ Hs') as (l & -> & Hl).
  sr_seq. split; [done |]. split; [exact Hq | by split | done | done |]. cbn -[fils_gtk_effects fils_igtk_effects].
  exists (fils_gtk_effects hs a ++ fils_igtk_effects hs a ++ l). split; [by rewrite !fmap_app, !app_assoc |].
  split_and!; intros *; rewrite !elem_of_app; intros [He|[He|He]];
    first [apply (fils_gtk_effects_from n es) in He as (? & ? & ? & ? & He & ?); [| done]
          |apply (fils_igtk_effects_from n es) in He as (? & ? & ? & ? & He & ?); [| done]
          |apply Hl in He as [He|[? He]]]; try done; simplify_eq; eauto.
Qed.
Lemma fils_hmac_value (b : bool) key data out mac :
  l_checksum_new_hmac (if b then L_CHECKSUM_SHA384 else L_CHECKSUM_SHA256) key = Some mac →
  zlen out = (if b then 48 else 32) → fils_hmac b key data out = Some (mac data) ∧ zlen (mac data) = zlen out.
Proof.
  intros Hm Ho. destruct (hmac_ok _ _ _ data Hm) as [Hl _].
  assert (Hz : zlen (mac data) = zlen out) by (rewrite Hl, Ho; by destruct b). split; [| done].
  unfold fils_hmac, hmac_sha384, hmac_sha256, hmac_common.
  destruct b; rewrite Hm; by rewrite digest_into_long, ptake_all by lia.
Qed.

Lemma fils_finish_assoc_ok es s a mac : fils_keyed s → assoc_found (fils_hash_len (fils_hs s)) es a →
  l_checksum_new_hmac (fils_hash (fils_hs s)) (ptake (fils_ick s) (fils_ick_len s)) = Some mac →
  wp (fils_finish_assoc E a) (λ r t, (r ≠ 0 ∧ t = s) ∨
    r = 0 ∧ (IE_TYPE_FILS_KEY_CONFIRMATION, mac (ap_key_auth_data s)) ∈ es ∧ fils_installed s es t) s.
Proof.
  intros Hk Ha Hmac. unfold fils_finish_assoc. destruct (fils_kek_cases s Hk) as [_ Hsha].
  pose proof (fk_ick_len _ Hk) as Hn. pose proof (fk_ick _ Hk) as Hi.
  destruct (fa_ap_key_auth a) as [p|] eqn:Hauth; [| sr_seq; by left].
  destruct (af_auth _ _ _ Ha _ Hauth) as (d & after & Hin & -> & Hd).
  assert (Hr : 0 ≤ fils_ick_len s ≤ 48) by (rewrite Hn; unfold fils_hash_len; destruct (fils_sha384 _); lia).
  sr_seq. cbv zeta. eapply wp_run; [apply rdn_ok; lia |]. rewrite Hsha. fold (ap_key_auth_data s).
  destruct (fils_hmac_value _ _ (ap_key_auth_data s) (l_malloc (fils_junk E) (fils_ick_len s)) _ Hmac) as [Hv Hz];
    [rewrite l_malloc_length by lia; exact Hn |].
  rewrite Hv. cbn [default from_option]. unfold id. rewrite l_malloc_length in Hz by lia.
  sr_seq. eapply wp_run; [apply memeq_ok; rewrite zlen_app; znn; lia |]. sr_seq.
  rewrite ptake_app by lia. destruct (bool_decide_reflect (d = mac (ap_key_auth_data s))) as [->|_]; cbn [negb];
    [| sr_seq; by left].
  eapply wp_mono; [by eapply fils_install_keys_ok |]. intros r t [-> Ht]. by right.
Qed.

(** C17: Keys are only installed for an AP that proves the possession of the key confirmation key:
    [fils_rx_associate] handles every received (re)association response without a fault, and either
    refuses it with an error and leaves the state machine, the handshake and the kernel untouched, or
    the status of the response is 0, it has a Key Confirmation element with the HMAC under the ICK over
    the nonces and the addresses in the order of the AP, and then the handshake has exactly the derived
    PMK, PMKID and PTK, the temporal key installed is the one that follows the KEK, and each group key
    installed is the one of the KDE in a Key Delivery element of the response, with its index, RSC and
    IPN. *)
Theorem fils_keys_authentic s f mac :
  bytes_ok f → zlen f < 2 ^ 31 → is_assoc_response f → fils_keyed s →
  l_checksum_new_hmac (fils_hash (fils_hs s)) (ptake (fils_ick s) (fils_ick_len s)) = Some mac →
  ∃ r t, fils_rx_associate E f (zlen f) s = Ok (r, t) ∧
    ((r ≠ 0 ∧ t = s) ∨
     r = 0 ∧ assoc_status f = Ok 0 ∧ ∃ es, response_elements f es ∧
       (IE_TYPE_FILS_KEY_CONFIRMATION, mac (ap_key_auth_data s)) ∈ es ∧ fils_installed s es t).
Proof.
  intros Hf Hlt Hst Hk Hmac. apply wp_inv. unfold fils_rx_associate. destruct (fils_kek_cases s Hk) as [_ Hsha].
  sr_seq. cbv zeta. rewrite Hsha.
  destruct (assoc_response_cases f Hf Hlt Hst) as [Hv|(Hv & h & status & Hlen & Hb & Hs & _ & Hpp & Hu & Hil & Hie)];
    (eapply wp_run; [exact Hv |]); cbv beta iota; [sr_seq; by left |].
  sr_seq. eapply wp_run; [exact Hb |]. sr_seq. eapply wp_run; [exact Hlen |]. sr_seq.
  eapply wp_run; [exact Hs |]. destruct (Z.eqb_spec status 0) as [->|Hne]; cbn [negb]; [| sr_seq; by left].
  sr_seq. rewrite Hpp, Hu. destruct (elements_total _ Hie) as (es & rest & Hes).
  edestruct (fils_loop_elements (hs_mfp (fils_hs s)) (fils_sha384 (hs_akm_suite (fils_hs s)))
    _ es rest (mk_fils_assoc (l_malloc (fils_junk E) 8) None None None) Hes Hie Hil) as (r & Hr & Hfound); [by split |].
  eapply wp_run; [exact Hr |]. destruct r as [a|]; [| sr_seq; by left].
  eapply wp_mono; [by eapply fils_finish_assoc_ok |]. intros r t [[Hne ->]|(-> & Hin & Ht)]; [by left | right].
  split; [done |]. split; [unfold assoc_status; by rewrite Hb, bind_ok |]. exists es. split; [by exists h, rest | done].
Qed.
End fils.
