(* ===== verification/FilsRun.v ===== *)
(** * Fast initial link setup: the messages of the exchange (src/fils.c)

    What the station sends, and the keys it has once an AP with the same re-authentication key has
    answered. *)

From stdpp Require Import base numbers list option.
From Stdlib Require Import ZArith Lia.
From S2P Require Import Prelude IeTlv IeRsn IeMisc Crypto Kdf Handshake Mpdu StRes Erp ErpSpec Fils FilsSpec.

Open Scope Z_scope.

(** ** Elements *)

Lemma add_element_ok max own es rest b tag d :
  building max own es rest b → elem_ok (tag, d) →
  zlen (tlv_encode_all es) + zlen (tlv_encode (tag, d)) ≤ max < 2 ^ 32 → zlen (tlv_encode (tag, d)) ≤ zlen rest →
  ∃ b', add_element b tag d = Ok b' ∧ building max own (es ++ [(tag, d)]) (rest +! zlen (tlv_encode (tag, d))) b'.
Proof.
  intros Hb He Hmax Hr. pose proof (elem_ok_tag _ He) as Ht. cbn in Ht.
  pose proof (tlv_encode_length (tag, d)) as Hl. cbn [fst snd] in Hl. fold (hdr_len tag) in Hl. znn.
  unfold add_element. erewrite next_ok by (done || lia). rewrite bind_ok.
  destruct (set_data_ok max own es rest (tag, d) He Hmax Hr) as (b' & Hsd & Hb'). cbn [fst snd] in Hsd.
  rewrite Hsd, bind_ok. by exists b'.
Qed.

Lemma finalize_ok max own es rest b : building max own es rest b → es ≠ [] → zlen (tlv_encode_all es) < 2 ^ 32 →
  ∃ b', ie_tlv_builder_finalize b = Ok (b', zlen (tlv_encode_all es)) ∧
    ptake (b_mem b') (zlen (tlv_encode_all es)) = tlv_encode_all es.
Proof.
  intros Hb Hne Hl. unfold ie_tlv_builder_finalize. destruct Hb as [|es e gap rest He Hgap]; [done |].
  cbn [b_this b_mem b_parents b_tag b_pos b_tlv b_max b_own b_len].
  pose proof (elem_ok_tag e He). destruct (Z.eqb_spec e.1 0xffff); [lia |].
  destruct (write_header_ok es e gap rest max own He Hgap) as [Hw Hrd].
  rewrite Hw, bind_ok. cbn [b_mem]. rewrite Hrd, bind_ok. unfold TLV_HEADER_LEN.
  replace (zlen (tlv_encode_all es) + 2 + (zlen (tlv_encode e) - 2))
    with (zlen (tlv_encode_all (es ++ [e]))) by (rewrite tlv_encode_all_snoc, zlen_app; lia).
  znn. rewrite u32_small by lia. eexists. split; [done |]. cbn [b_mem]. by apply ptake_app.
Qed.

(** ** The keys of 802.11ai *)

Lemma digests_zlen digest msg c n : (∀ m, zlen (digest m) = c) → ∀ i, zlen (digests digest msg i n) = c * Z.of_nat n.
Proof.
  intros Hd. induction n as [|n IH]; intros i; [change (0 = c * 0); lia |]. rewrite digests_cons, zlen_app, Hd, IH. lia.
Qed.

Section keys.
Context {EC : Ell} {EL : EllLaws EC}.
Variable E : fils_env.

(** The HMACs with the hash of the key management suite. *)
Variable sha384 : bool.
Definition hash_type : l_checksum_type := if sha384 then L_CHECKSUM_SHA384 else L_CHECKSUM_SHA256.
Definition hash_size : Z := if sha384 then 48 else 32.
Definition kek_size : Z := if sha384 then 64 else 32.
Definition hash_works : Prop := ∀ k, is_Some (l_checksum_new_hmac hash_type k).
Definition hmac_of (k d : list Z) : list Z := match l_checksum_new_hmac hash_type k with Some h => h d | None => [] end.

(** The key derivation function of 802.11 (12.7.1.7.2). *)
Definition kdf_of (k label data : list Z) (size : Z) : list Z :=
  ptake (digests (hmac_of k) (λ i, le16_bytes (i + 1) ++ label ++ data ++ le16_bytes (size * 8)) 0
           (Z.to_nat ((size + hash_size - 1) / hash_size))) size.

(** PMK, and ICK, KEK and TK (12.12.2.5.2 and 12.12.2.5.3). *)
Definition ieee_pmk (rmsk snonce anonce : list Z) : list Z := hmac_of (snonce ++ anonce) rmsk.
Definition ieee_keys (pmk spa aa snonce anonce : list Z) : list Z :=
  kdf_of pmk label_fils_ptk (spa ++ aa ++ snonce ++ anonce) (hash_size + kek_size + 16).
Definition ieee_key_auth (ick snonce anonce spa aa : list Z) : list Z := hmac_of ick (snonce ++ anonce ++ spa ++ aa).

Lemma hmac_of_zlen k d : hash_works → zlen (hmac_of k d) = hash_size.
Proof.
  intros Hw. unfold hmac_of, hash_size. destruct (Hw k) as [h Hh]. rewrite Hh. destruct (hmac_ok _ _ _ d Hh) as [-> _].
  unfold hash_type. by destruct sha384.
Qed.

Lemma fils_hmac_eq k d out : hash_works → zlen out = hash_size → fils_hmac sha384 k d out = Some (hmac_of k d).
Proof.
  intros Hw Ho. destruct (Hw k) as [h Hh]. destruct (fils_hmac_value _ _ d _ _ Hh Ho) as [-> _].
  unfold hmac_of. by rewrite Hh.
Qed.

Lemma kdf_of_zlen k label data size : hash_works → 0 ≤ size → zlen (kdf_of k label data size) = size.
Proof.
  intros Hw Hs. unfold kdf_of. apply zlen_ptake. rewrite (digests_zlen _ _ hash_size) by (intros; by apply hmac_of_zlen).
  assert (Hh : hash_size = 48 ∨ hash_size = 32) by (unfold hash_size; destruct sha384; auto).
  rewrite Z2Nat.id by (apply Z.div_pos; lia).
  pose proof (Z.div_mod (size + hash_size - 1) hash_size ltac:(lia)).
  pose proof (Z.mod_pos_bound (size + hash_size - 1) hash_size ltac:(lia)). lia.
Qed.

Lemma fils_key_data_ok pmk data n : hash_works → 0 ≤ n ≤ 176 →
  ∃ rest, fils_key_data E sha384 pmk data n = Ok (kdf_of pmk label_fils_ptk data n ++ rest).
Proof.
  intros Hw Hn. pose proof (kdf_of_zlen pmk label_fils_ptk data n Hw) as Hl. specialize (Hl ltac:(lia)).
  unfold fils_key_data. cbv zeta. rewrite rdn_ok, bind_ok by (rewrite l_malloc_length by lia; lia).
  set (out := ptake _ n). assert (Ho : zlen out = n) by (unfold out; apply zlen_ptake; rewrite l_malloc_length; lia).
  assert (Hk : (if sha384 then kdf_sha384 else kdf_sha256) pmk label_fils_ptk data out = Some (kdf_of pmk label_fils_ptk data n)).
  { destruct (Hw pmk) as [h Hh]. unfold hash_type, kdf_of, hash_size, hmac_of, hash_type in *.
    clearbody out. subst n. destruct sha384; [unfold kdf_sha384 | unfold kdf_sha256]; rewrite Hh; cbn [mbind option_bind]; f_equal.
    - rewrite (digest_chunks_output h _ 48); [| lia | intros; by apply (hmac_ok _ _ _ _ Hh)].
      by replace (zlen out + 48 - 1) with (zlen out + 47) by lia.
    - rewrite (digest_chunks_output h _ 32); [| lia | intros; by apply (hmac_ok _ _ _ _ Hh)].
      by replace (zlen out + 32 - 1) with (zlen out + 31) by lia. }
  rewrite Hk, put_first by (rewrite l_malloc_length by lia; lia). by eexists.
Qed.

(** A state machine that waits for the authentication response, without a mobility domain. *)
Record fils_waiting (s : fils_sm) : Prop := {
  fw_akm : hs_akm_suite (fils_hs s) = if sha384 then IE_RSN_AKM_SUITE_FILS_SHA384 else IE_RSN_AKM_SUITE_FILS_SHA256;
  fw_nonce : zlen (fils_nonce s) = 16;
  fw_session : zlen (fils_session s) = 8 ∧ bytes_ok (fils_session s);
  fw_ick : zlen (fils_ick s) = 48;
  fw_kek_and_tk : zlen (fils_kek_and_tk s) = 80;
  fw_pmk : zlen (fils_pmk s) = 48;
  fw_pmkid : zlen (fils_pmkid s) = 16;
  fw_ft_len : fils_ft_len s = 0;
  fw_hs_pmk : zlen (hs_pmk (fils_hs s)) = 64;
  fw_hs_ptk : zlen (hs_ptk (fils_hs s)) = 136;
  fw_mde : hs_mde (fils_hs s) = None;
}.

Lemma fils_akm_facts : let akm := if sha384 then IE_RSN_AKM_SUITE_FILS_SHA384 else IE_RSN_AKM_SUITE_FILS_SHA256 in
  (akm =? IE_RSN_AKM_SUITE_FT_OVER_FILS_SHA256) = false ∧ (akm =? IE_RSN_AKM_SUITE_FT_OVER_FILS_SHA384) = false ∧
  fils_sha384 akm = sha384 ∧ ∀ hs, hs_akm_suite hs = akm → handshake_state_get_kek_len hs = kek_size.
Proof.
  unfold handshake_state_get_kek_len, handshake_get_key_sizes, kek_size.
  destruct sha384; (split_and!; [done.. |]; intros hs ->; done).
Qed.

(** The keys in the state machine. *)
Record fils_has_keys (s t : fils_sm) (pmk keys : list Z) : Prop := {
  fh_pmk : ptake (fils_pmk t) hash_size = pmk ∧ zlen (fils_pmk t) = 48 ∧ fils_pmk_len t = hash_size;
  fh_ick : ptake (fils_ick t) hash_size = ptake keys hash_size ∧ zlen (fils_ick t) = 48 ∧ fils_ick_len t = hash_size;
  fh_kek_len : fils_kek_len t = kek_size;
  fh_hs : fils_hs t = (fils_hs s) <| hs_fils_ft := hs_fils_ft (fils_hs s) |> <| hs_fils_ft_len := 0 |>;
  fh_same : fils_nonce t = fils_nonce s ∧ fils_anonce t = fils_anonce s ∧ fils_session t = fils_session s ∧
            fils_pmkid t = fils_pmkid s ∧ fils_kek_and_tk t = fils_kek_and_tk s ∧ fils_out t = fils_out s;
}.

Lemma hash_size_cases : hash_size = 48 ∧ kek_size = 64 ∨ hash_size = 32 ∧ kek_size = 32.
Proof. unfold hash_size, kek_size. destruct sha384; auto. Qed.

Lemma set_fils_ft_none hs ft : handshake_state_set_fils_ft hs ft 0 =
  Ok (hs <| hs_fils_ft := hs_fils_ft hs |> <| hs_fils_ft_len := 0 |>).
Proof.
  unfold handshake_state_set_fils_ft. znn. rewrite rdn_ok, bind_ok by (split; [done | apply zlen_nonneg]).
  rewrite put_first by apply zlen_nonneg. by rewrite bind_ok.
Qed.

Lemma fils_derive_keys_ok s erp rmsk :
  hash_works → fils_waiting s → fils_erp s = Some erp → erp_get_rmsk erp = Ok rmsk →
  let hs := fils_hs s in
  let pmk := ieee_pmk rmsk (fils_nonce s) (fils_anonce s) in
  let keys := ieee_keys pmk (hs_spa hs) (hs_aa hs) (fils_nonce s) (fils_anonce s) in
  wp (fils_derive_keys E) (λ r t, 
    r.1 = ieee_key_auth (ptake keys hash_size) (fils_nonce s) (fils_anonce s) (hs_spa hs) (hs_aa hs) ∧
    (∃ rest, r.2 = keys ++ rest) ∧ fils_has_keys s t pmk keys) s.
Proof.
  intros Hw Hs Herp Hrmsk hs pmk keys. destruct fils_akm_facts as (Ha & Hb & Hc & Hkek).
  rewrite <- (fw_akm _ Hs) in Ha, Hb, Hc, Hkek. pose proof hash_size_cases as Hsz.
  assert (Hpl : zlen pmk = hash_size) by by apply hmac_of_zlen.
  assert (Hkl : zlen keys = hash_size + kek_size + 16) by (apply kdf_of_zlen; [done | lia]).
  unfold fils_derive_keys. sr_seq. rewrite Herp. apply (wp_run _ _ _ erp); [done |]. sr_seq.
  eapply wp_run; [exact Hrmsk |]. rewrite Ha, Hb, Hc, (Hkek _ eq_refl). cbv zeta. cbn [Z.eqb]. fold hash_size hs.
  sr_seq. rewrite fils_hmac_eq by (done || (rewrite zlen_ptake; [done |]; rewrite (fw_pmk _ Hs); lia)).
  cbn [default from_option]. unfold id. fold (ieee_pmk rmsk (fils_nonce s) (fils_anonce s)). fold pmk.
  eapply wp_run; [apply put_first; rewrite (fw_pmk _ Hs); lia |]. sr_seq. rewrite (ptake_app pmk) by done.
  rewrite Z.add_0_r.
  destruct (fils_key_data_ok pmk (hs_spa hs ++ hs_aa hs ++ fils_nonce s ++ fils_anonce s) (hash_size + kek_size + 16) Hw)
    as [rest Hkd]; [lia |]. eapply wp_run; [exact Hkd |]. clear Hkd. fold (ieee_keys pmk (hs_spa hs) (hs_aa hs) (fils_nonce s) (fils_anonce s)).
  fold keys. sr_seq. rewrite ptake_app_le by lia.
  assert (Hil : zlen (ptake keys hash_size) = hash_size) by (rewrite zlen_ptake; lia).
  eapply wp_run; [apply put_first; rewrite (fw_ick _ Hs); lia |]. sr_seq. apply (wp_run _ _ _ (fils_ft s, fils_ft_len s)); [done |].
  cbv beta iota. sr_seq. rewrite (fw_ft_len _ Hs). eapply wp_run; [apply set_fils_ft_none |]. cbv zeta. sr_seq.
  rewrite (ptake_app (ptake keys hash_size)) by lia. rewrite fils_hmac_eq by (done || (rewrite l_malloc_length; lia)).
  cbn [default from_option]. unfold id. split; [done |]. split; [by exists rest |].
  pose proof (fw_pmk _ Hs). pose proof (fw_ick _ Hs).
  split; cbn; [| | done | done | done].
  - split; [by apply ptake_app |]. split; [| done]. rewrite zlen_app, zlen_padd; lia.
  - split; [by apply ptake_app |]. split; [| done]. rewrite zlen_app, zlen_padd; lia.
Qed.
Lemma hmac_of_bytes k d : hash_works → bytes_ok (hmac_of k d).
Proof. intros Hw. unfold hmac_of. destruct (Hw k) as [h Hh]. rewrite Hh. by apply (hmac_ok _ _ _ d Hh). Qed.

(** The first elements of the association request. *)
Lemma fils_assoc_ies_ok key_auth session :
  bytes_ok key_auth → zlen key_auth = hash_size → bytes_ok session → zlen session = 8 →
  (let b := ie_tlv_builder_init None 0 in
   b ← add_element b IE_TYPE_FILS_KEY_CONFIRMATION key_auth;
   b ← add_element b IE_TYPE_FILS_SESSION session;
   '(b, n) ← ie_tlv_builder_finalize b;
   Ok (ptake (b_mem b) n)) =
  Ok (tlv_encode_all [(IE_TYPE_FILS_KEY_CONFIRMATION, key_auth); (IE_TYPE_FILS_SESSION, session)]).
Proof.
  intros Hk Hkl Hs Hsl. cbv zeta. pose proof hash_size_cases as Hsz. pose proof (builder_init_building None 0) as Hb.
  cbv zeta in Hb. unfold MAX_BUILDER_SIZE in Hb.
  assert (Hl1 : zlen (tlv_encode (IE_TYPE_FILS_KEY_CONFIRMATION, key_auth)) = 3 + hash_size)
    by (rewrite tlv_encode_length; cbn [fst snd]; rewrite Hkl; done).
  assert (Hl2 : zlen (tlv_encode (IE_TYPE_FILS_SESSION, session)) = 11)
    by (rewrite tlv_encode_length; cbn [fst snd]; rewrite Hsl; done).
  assert (Hr : zlen (replicate (Z.to_nat (8 * 1024)) 0) = 8192) by by rewrite zlen_replicate.
  eapply (add_element_ok _ _ _ _ _ IE_TYPE_FILS_KEY_CONFIRMATION key_auth) in Hb as (b1 & -> & Hb1);
    [| split; [done | right; rewrite Hkl; unfold IE_TYPE_FILS_KEY_CONFIRMATION; lia]
     | change (zlen (tlv_encode_all [])) with 0; lia | lia].
  rewrite bind_ok. cbn [app] in Hb1.
  assert (Hl1' : zlen (tlv_encode_all [(IE_TYPE_FILS_KEY_CONFIRMATION, key_auth)]) = 3 + hash_size)
    by (unfold tlv_encode_all; csimpl; by rewrite app_nil_r).
  eapply (add_element_ok _ _ _ _ _ IE_TYPE_FILS_SESSION session) in Hb1 as (b2 & -> & Hb2);
    [| split; [done | right; rewrite Hsl; unfold IE_TYPE_FILS_SESSION; lia] | lia | rewrite zlen_padd; lia].
  rewrite bind_ok. cbn [app] in Hb2.
  destruct (finalize_ok _ _ _ _ _ Hb2) as (b3 & -> & Hb3); [done | |].
  { change (tlv_encode_all [?a; ?b]) with (tlv_encode a ++ tlv_encode b ++ []). rewrite app_nil_r, zlen_app. lia. }
  by rewrite bind_ok, Hb3.
Qed.

(** The state after the authentication response: the keys are those of 802.11ai for the rMSK, and the
    association request with the key confirmation of the station goes out under the KEK. *)
Record fils_authenticated (s : fils_sm) (rmsk anonce own : list Z) (t : fils_sm) : Prop := {
  fa_keyed : fils_keyed t;
  fa_nonces : fils_nonce t = fils_nonce s ∧ fils_anonce t = anonce;
  fa_pmk : ptake (fils_pmk t) hash_size = ieee_pmk rmsk (fils_nonce s) anonce;
  fa_keys : ptake (fils_ick t) hash_size ++ ptake (fils_kek_and_tk t) (kek_size + 16) =
    ieee_keys (ieee_pmk rmsk (fils_nonce s) anonce) (hs_spa (fils_hs s)) (hs_aa (fils_hs s)) (fils_nonce s) anonce;
  fa_sent : fils_out t = fils_out s ++
    [FilsTxAssociate [tlv_encode_all [(IE_TYPE_FILS_KEY_CONFIRMATION,
                        ieee_key_auth (ptake (fils_ick t) hash_size) (fils_nonce s) anonce (hs_spa (fils_hs s)) (hs_aa (fils_hs s)));
                       (IE_TYPE_FILS_SESSION, fils_session s)]; own]
       (ptake (fils_kek_and_tk t) kek_size) (fils_nonce s ++ anonce)];
}.

Lemma fils_derive_key_data_ok s erp rmsk ie own :
  hash_works → fils_waiting s → fils_erp s = Some erp → erp_get_rmsk erp = Ok rmsk →
  hs_supplicant_ie (fils_hs s) = Some ie → memdup_ie ie = Ok own →
  wp (fils_derive_key_data E) (λ r t, r = 0 ∧ fils_authenticated s rmsk (fils_anonce s) own t) s.
Proof.
  intros Hw Hs Herp Hrmsk Hie Hown. pose proof hash_size_cases as Hsz. unfold fils_derive_key_data. sr_seq.
  eapply wp_mono; [by eapply fils_derive_keys_ok |]. intros [ka kd] t. cbn [fst snd].
  set (pmk := ieee_pmk _ _ _). set (keys := ieee_keys _ _ _ _ _). intros (-> & (rest & ->) & Ht).
  assert (Hkl : zlen keys = hash_size + kek_size + 16) by (apply kdf_of_zlen; [done | lia]).
  destruct Ht as [(Hp1 & Hp2 & Hp3) (Hi1 & Hi2 & Hi3) Hk Hhs (Hn & Han & Hse & Hpid & Hkt & Hout)].
  sr_seq. cbv zeta. sr_seq. rewrite Hse. destruct (fw_session _ Hs) as [Hsl Hsb].
  eapply wp_run; [apply fils_assoc_ies_ok; [by apply hmac_of_bytes | by apply hmac_of_zlen | done | done] |].
  sr_seq. rewrite Hhs. apply (wp_run _ _ _ own); [cbn; by rewrite Hie |]. sr_seq.
  change (hs_mde ((fils_hs s) <| hs_fils_ft := _ |> <| hs_fils_ft_len := 0 |>)) with (hs_mde (fils_hs s)).
  rewrite (fw_mde _ Hs). sr_seq. rewrite Hi3, Hk.
  eapply wp_run; [rewrite padd_app_le by lia; apply rdn_app; rewrite zlen_padd; lia |]. sr_seq.
  pose proof (fw_kek_and_tk _ Hs) as Hk80. rewrite Hkt.
  eapply wp_run; [apply put_first; rewrite zlen_padd; lia |]. sr_seq. split; [done |].
  set (tk := keys +! hash_size). assert (Htk : zlen tk = kek_size + 16) by (unfold tk; rewrite zlen_padd; lia).
  destruct fils_akm_facts as (_ & _ & Hc & Hkek). rewrite <- (fw_akm _ Hs) in Hc, Hkek.
  split; cbn.
  - split; cbn; rewrite ?Hhs; cbn; try done.
    + rewrite (fw_akm _ Hs). destruct sha384; [right; by left | by left].
    + rewrite Hi3. unfold fils_hash_len. cbn. by rewrite Hc.
    + rewrite zlen_app, zlen_padd; lia.
    + rewrite Hk. symmetry. by apply Hkek.
    + rewrite Hp3. unfold fils_hash_len. cbn. by rewrite Hc.
    + rewrite Hpid. apply Hs.
    + apply Hs.
    + apply Hs.
  - by rewrite Hn, Han.
  - done.
  - rewrite Hi1, ptake_app by done. unfold tk. apply ptake_padd_id.
  - rewrite Hout, Hn, Han, Hi1. done.
Qed.
(** ** The authentication response *)

(** A FILS authentication response with status 0 and the elements. *)
Definition fils_auth_frame (f : list Z) (es : list elem) : Prop :=
  mpdu_validate (Some f) (zlen f) = Ok (Some f) ∧ bytes_ok f ∧ zlen f < 2 ^ 31 ∧
  ∃ h rest, mmpdu_header_len f = Ok h ∧ 0 ≤ h ∧ h + 6 ≤ zlen f ∧
    l_get_le16 (f +! h) = Ok MMPDU_AUTH_ALGO_FILS_SK ∧ l_get_le16 (f +! h +! 4) = Ok 0 ∧
    elements_of (f +! (h + 6)) es rest.

Definition fils_auth_elems (rsne anonce session wrapped : list Z) : list elem :=
  [(IE_TYPE_RSN, rsne); (IE_TYPE_FILS_NONCE, anonce); (IE_TYPE_FILS_SESSION, session); (IE_TYPE_FILS_WRAPPED_DATA, wrapped)].

Lemma fils_auth_loop bs rest rsne anonce session wrapped :
  elements_of bs (fils_auth_elems rsne anonce session wrapped) rest → bytes_ok bs → zlen bs < 2 ^ 31 →
  zlen anonce = 16 → zlen session = 8 →
  ∃ ta ts tw h, tlv_loop fils_auth_step bs (zlen bs) (Some no_fils_ies) =
    Ok (Some (mk_fils_ies (Some (anonce ++ ta)) (Some (session ++ ts)) (Some (wrapped ++ tw, zlen wrapped)) (Some h) None None)).
Proof.
  intros Hes Hok Hl Ha Hs. pose proof (tlv_loop_visits fils_auth_step bs _ rest [] (Some no_fils_ies) Hes Hok) as Hv.
  rewrite app_nil_r in Hv. rewrite Hv by lia. unfold fils_auth_elems. cbn [visits ctl_fold].
  set (it1 := visited _ _ _ (IE_TYPE_RSN, _) _). set (it2 := visited _ _ _ (IE_TYPE_FILS_NONCE, _) _).
  set (it3 := visited _ _ _ (IE_TYPE_FILS_SESSION, _) _). set (it4 := visited _ _ _ (IE_TYPE_FILS_WRAPPED_DATA, _) _).
  change (fils_auth_step it1 (Some no_fils_ies)) with (Ok (Next (Some (no_fils_ies <| fi_fils_rsne := Some (iter_header it1) |>)))).
  rewrite bind_ok. set (i1 := no_fils_ies <| fi_fils_rsne := _ |>).
  assert (H2 : fils_auth_step it2 (Some i1) = Ok (Next (Some (i1 <| fi_anonce := Some (it_data it2) |>)))).
  { unfold fils_auth_step. change (it_len it2) with (zlen anonce). by rewrite Ha. }
  rewrite H2, bind_ok. set (i2 := i1 <| fi_anonce := _ |>).
  assert (H3 : fils_auth_step it3 (Some i2) = Ok (Next (Some (i2 <| fi_session := Some (it_data it3) |>)))).
  { unfold fils_auth_step. change (it_len it3) with (zlen session). by rewrite Hs. }
  rewrite H3, bind_ok. by eexists _, _, _, _.
Qed.

(** C18: The authentication response of an AP that got the rMSK of the server is accepted: an EAP-Finish
    message of the server in the Wrapped Data leaves the station with the PMK, ICK, KEK and TK that
    802.11ai derives from the rMSK of RFC 6696 and the two nonces, and it sends the association request
    with the key confirmation over the nonces and addresses. *)
Theorem fils_rx_authenticate_accepts s f erp nai rsne anonce session head flags ie own :
  let emsk := ec_emsk (erp_cache erp) in
  let finish := erp_tagged emsk (erp_message head flags (erp_seq erp) nai) in
  sha256_works → hash_works → fils_waiting s → fils_erp s = Some erp → erp_started erp nai →
  zlen head = 4 → Z.testbit flags 0 = false → zlen anonce = 16 → zlen session = 8 →
  hs_supplicant_ie (fils_hs s) = Some ie → memdup_ie ie = Ok own →
  fils_auth_frame f (fils_auth_elems rsne anonce session finish) →
  ∃ t, fils_rx_authenticate E f (zlen f) s = Ok (0, t) ∧
    fils_authenticated s (rfc_rmsk emsk (erp_seq erp)) anonce own t.
Proof.
  intros emsk finish Hw256 Hw Hs Herp Hst Hh Hf Han Hse Hie Hown (Hv & Hok & Hlt & h & rest & Hlen & Hh0 & Hhl & Halg & Hstat & Hes).
  enough (Hwp : wp (fils_rx_authenticate E f (zlen f))
    (λ r t, r = 0 ∧ fils_authenticated s (rfc_rmsk emsk (erp_seq erp)) anonce own t) s)
    by (apply wp_inv in Hwp as (r & t & Hr & -> & Ht); eauto).
  unfold fils_rx_authenticate. sr_seq. eapply wp_run; [exact Hv |]. cbv beta iota. sr_seq.
  apply (wp_run _ _ _ (f +! h)); [unfold mmpdu_body; by rewrite Hlen |]. sr_seq. eapply wp_run; [exact Hlen |]. sr_seq.
  eapply wp_run; [exact Hstat |]. cbn [Z.eqb negb]. sr_seq. eapply wp_run; [exact Halg |].
  cbn [Z.eqb Pos.eqb negb andb MMPDU_AUTH_ALGO_FILS_SK MMPDU_AUTH_ALGO_FILS_SK_PFS]. sr_seq.
  assert (Hl : zlen (f +! (h + 6)) = zlen f - (h + 6)) by (apply zlen_padd; lia).
  destruct (fils_auth_loop _ _ _ _ _ _ Hes) as (ta & ts & tw & hd & Hloop); [by auto with iwd | lia | done | done |].
  apply (wp_run _ _ _ (Some (mk_fils_ies (Some (anonce ++ ta)) (Some (session ++ ts)) (Some (finish ++ tw, zlen finish)) (Some hd) None None))).
  { rewrite padd_padd by lia. rewrite u32_small by lia. rewrite <- Hl. exact Hloop. }
  cbv beta iota. unfold fils_process_auth. cbn [fi_anonce fi_session fi_wrapped fi_fils_mde fi_fils_fte]. sr_seq.
  apply (wp_run _ _ _ (fils_hs s)); [done |]. sr_seq. apply (wp_run _ _ _ (Some (fils_hs s))); [done |]. cbv beta iota. sr_seq.
  apply (wp_run _ _ _ anonce); [by apply rdn_app |]. sr_seq. rewrite Herp. apply (wp_run _ _ _ erp); [done |]. sr_seq.
  eapply wp_run; [apply (erp_rx_message (fils_junk E) erp nai head flags tw Hw256 Hst Hh Hf) |]. cbv beta iota. sr_seq.
  set (u := erp <| erp_rmsk := _ |>). set (s' := s <| fils_hs := _ |> <| fils_hs := _ |> <| fils_anonce := _ |> <| fils_erp := _ |>).
  pose proof (fils_derive_key_data_ok s' u (rfc_rmsk emsk (erp_seq erp)) ie own Hw) as Hd.
  eapply wp_mono; [apply Hd; clear Hd; [by destruct Hs | done | | done | done] | by intros r t [-> []]].
  unfold erp_get_rmsk, u. cbn. pose proof (es_emsk _ _ Hst) as H64. fold emsk in H64 |- *. rewrite H64.
  assert (Hr : zlen (rfc_rmsk emsk (erp_seq erp)) = 64) by (apply expand_zlen; [done | lia]).
  rewrite rdn_ok by lia. by rewrite ptake_all by lia.
Qed.
End keys.
