(* ===== verification/FilsTest.v ===== *)
(** * Re-authentication and FILS: a concrete exchange

    The theorems on ERP and FILS at one exchange with an AP. *)

From stdpp Require Import base numbers list option gmap relations.
From Stdlib Require Import ZArith Lia.
From S2P Require Import Prelude IeTlv IeRsn IeMisc Crypto Kdf Handshake Mpdu StRes Eap Erp ErpSpec ErpCache Fils FilsSpec FilsRun.

Open Scope Z_scope.

#[local] Existing Instance toy_ell.
#[local] Existing Instance toy_ell_laws.

Local Ltac by_vm := match goal with |- _ = ?r => vm_cast_no_check (@eq_refl _ r) end.

Definition fils_test_junk : nat → Z := λ _, 0xaa.

Lemma toy_sha256 : sha256_works.
Proof. intros k. by eexists. Qed.

(** ** Re-authentication *)

(** The identity is a@bc. *)
Definition erp_test_entry : erp_cache_entry :=
  mk_entry (Some [97; 64; 98; 99]) (replicate 64 7) (replicate 10 9) (Some [115]) 1000 0 false.
Definition erp_test_state : erp_state := mk_erp erp_test_entry (zeros 64) (zeros 64) (zeros 64) (zeros 254) 0.

Lemma erp_test_fresh : erp_fresh erp_test_state.
Proof. by split. Qed.
Lemma erp_test_entry_ok : erp_entry_ok erp_test_entry [98; 99].
Proof. split; [done | by exists [97; 64; 98; 99] | by_eval | by_eval]. Qed.

Lemma erp_reauth_agrees_witness :
  let s := erp_test_state in
  let emsk := ec_emsk (erp_cache s) in
  let nai := rfc_nai (ec_session_id (erp_cache s)) [98; 99] in
  ∃ t, erp_start fils_test_junk s = Ok (t, Some (erp_tagged emsk (erp_initiate (erp_seq s) nai))) ∧
    ∀ id flags, Z.testbit flags 0 = false →
    let finish := erp_tagged emsk (erp_message ([EAP_CODE_FINISH; id] ++ be16_bytes (27 + zlen nai)) flags (erp_seq s) nai) in
    ∃ u, erp_rx_packet fils_test_junk t finish (zlen finish) = Ok (Some u) ∧ erp_get_rmsk u = Ok (rfc_rmsk emsk (erp_seq s)).
Proof. exact (erp_reauth_agrees fils_test_junk erp_test_state [98; 99] toy_sha256 erp_test_fresh erp_test_entry_ok). Defined.

Definition erp_test_nai : list Z := rfc_nai (replicate 10 9) [98; 99].
Definition after_start (r : res (erp_state * option (list Z))) : erp_state :=
  match r with Ok (t, _) => t | _ => erp_test_state end.
Definition erp_test_started : erp_state := Eval vm_compute in after_start (erp_start fils_test_junk erp_test_state).

Lemma erp_test_started_ok : erp_started erp_test_started erp_test_nai.
Proof.
  destruct (erp_start_ok fils_test_junk erp_test_state [98; 99] toy_sha256 erp_test_fresh erp_test_entry_ok)
    as (t & Ht & Hst & _).
  assert (Hrun : after_start (erp_start fils_test_junk erp_test_state) = erp_test_started) by by_vm.
  rewrite Ht in Hrun. cbn [after_start] in Hrun. rewrite <- Hrun. exact Hst.
Qed.

Lemma erp_rx_authentic_witness :
  let s := erp_test_started in
  let pkt := replicate 40 2 in
  let emsk := ec_emsk (erp_cache s) in
  let r := erp_rx_packet fils_test_junk s pkt (zlen pkt) in
  (r = Ok None ∨ tag_valid emsk pkt) ∧ ∀ t, r = Ok (Some t) → t = s <| erp_rmsk := rfc_rmsk emsk (erp_seq s) |>.
Proof. exact (erp_rx_authentic fils_test_junk erp_test_started erp_test_nai (replicate 40 2) toy_sha256 erp_test_started_ok ltac:(by_eval)). Defined.

(** ** The cache *)

(** One entry that is held, and then removed while it is held. *)
Definition erp_test_cache : key_cache := mk_cache [mk_node 1 0] {[0%nat := erp_test_entry <| ec_ref := 1 |>]} 2.
Definition erp_test_removed : key_cache := mk_cache [mk_node 1 0] {[0%nat := erp_test_entry <| ec_ref := 1 |> <| ec_invalid := true |>]} 2.

Lemma erp_test_cache_inv : cache_inv [0%nat] erp_test_cache.
Proof.
  split; cbn.
  - apply NoDup_singleton.
  - apply NoDup_singleton.
  - intros a. rewrite list_elem_of_singleton, lookup_singleton_is_Some. naive_solver.
  - intros n. rewrite list_elem_of_singleton. intros ->. cbn. lia.
  - intros a. rewrite lookup_singleton_is_Some. intros <-. lia.
  - intros a e. rewrite lookup_singleton_Some. by intros [<- <-].
  - intros a. rewrite list_elem_of_singleton. intros ->. by rewrite lookup_singleton_eq.
  - done.
Qed.

Lemma erp_cache_handles_alive_witness :
  ∃ e f d, kc_heap erp_test_cache !! 0%nat = Some e ∧ kc_heap erp_test_removed !! 0%nat = Some f ∧ same_keys e f ∧
           ec_ref f = Z.of_nat (held 0 [0%nat]) ∧ erp_cache_put 0 erp_test_removed = Ok (tt, d).
Proof.
  apply (erp_cache_handles_alive [0%nat] erp_test_cache [0%nat] erp_test_removed 0%nat); [exact erp_test_cache_inv | | by left | by left].
  apply rtc_once, (cache_step_remove (λ _, 0) (Some [97; 64; 98; 99])). reflexivity.
Defined.

(** An entry in use, and behind it one that has expired. *)
Definition erp_test_expired : key_cache :=
  mk_cache [mk_node 3 2; mk_node 1 0] {[0%nat := erp_test_entry; 2%nat := erp_test_entry <| ec_ref := 1 |>]} 4.

Lemma erp_test_expired_inv : cache_inv [2%nat] erp_test_expired.
Proof.
  split; cbn.
  - by_eval.
  - by_eval.
  - intros a. rewrite !elem_of_cons, elem_of_nil, lookup_insert_is_Some, lookup_singleton_is_Some. intuition congruence.
  - intros n. rewrite !elem_of_cons, elem_of_nil. intros [->|[->|[]]]; cbn; lia.
  - intros a. rewrite lookup_insert_is_Some, lookup_singleton_is_Some. intros [<-|[_ <-]]; lia.
  - intros a e. rewrite lookup_insert_Some, lookup_singleton_Some. by intros [[<- <-]|[_ [<- <-]]].
  - intros a. rewrite list_elem_of_singleton. intros ->. by eexists.
  - done.
Qed.

Lemma find_keycache_expired_use_after_free_witness :
  erp_cache_get (λ _, 2000) (Some [115]) erp_test_expired = Fault ∧ erp_cache_remove (λ _, 2000) (Some [97]) erp_test_expired = Fault ∧
  ∃ r d, find_keycache (λ _, 500) (Some [97]) None erp_test_expired = Ok (r, d).
Proof.
  destruct (find_keycache_expired_use_after_free (λ _, 2000) [2%nat] erp_test_expired erp_test_expired_inv) as (H1 & H2 & _).
  destruct (find_keycache_expired_use_after_free (λ _, 500) [2%nat] erp_test_expired erp_test_expired_inv) as (_ & _ & H3).
  assert (Hn : expired_unused (λ _, 2000) erp_test_expired (mk_node 1 0)) by (exists erp_test_entry; by split_and!).
  assert (Hp : ∀ id ssid, Forall (passed (λ _, 2000) id ssid erp_test_expired) [mk_node 3 2]).
  { intros id ssid. apply list.Forall_singleton. exists (erp_test_entry <| ec_ref := 1 |>). split; [reflexivity |]. right. left. by split. }
  split_and!; [by apply (H1 [mk_node 3 2] (mk_node 1 0) []) | by apply (H2 [mk_node 3 2] (mk_node 1 0) []) |].
  apply H3. intros n. cbn [kc_queue erp_test_expired]. rewrite !elem_of_cons, elem_of_nil.
  intros [->|[->|[]]] [(e & [= <-] & _ & ? & ?)|(e & [= <-] & _ & [[_ ?]|[[? [=]] _]])]; done.
Defined.

(** ** The authentication response *)

Lemma toy_hash : hash_works false.
Proof. intros k. by eexists. Qed.

Definition fils_test_rsne : list Z := [1; 0; 0; 15; 172; 4; 1; 0; 0; 15; 172; 4; 1; 0; 0; 15; 172; 14; 0; 0].

Definition fils_test_env : fils_env := {|
  fils_hooks := mk_hooks true true true true true true true;
  fils_rnd_nonce := replicate 16 3;
  fils_rnd_session := replicate 8 4;
  fils_junk := fils_test_junk;
  fils_junk_mdid := 0;
  fils_junk_info := mk_rsn_info 0 0 0 false false 0 0 false false false false false false false 0 None 0;
|}.

Definition fils_test_hs : handshake_state :=
  hs_zero <| hs_spa := replicate 6 2 |> <| hs_aa := replicate 6 4 |> <| hs_akm_suite := IE_RSN_AKM_SUITE_FILS_SHA256 |>
    <| hs_pairwise_cipher := IE_RSN_CIPHER_SUITE_CCMP |> <| hs_group_cipher := IE_RSN_CIPHER_SUITE_CCMP |>
    <| hs_supplicant_ie := Some (tlv_encode (IE_TYPE_RSN, fils_test_rsne)) |>.

Definition fils_test_s : fils_sm :=
  (fils_sm_new fils_test_hs (Some erp_test_entry)) <| fils_erp := Some erp_test_started |>
    <| fils_nonce := replicate 16 3 |> <| fils_session := replicate 8 4 |>.

Lemma fils_test_waiting : fils_waiting false fils_test_s.
Proof. split; by_eval. Qed.

(** The EAP-Finish message of the server. *)
Definition fils_test_head : list Z := [EAP_CODE_FINISH; 1; 0; 47].
Definition fils_test_finish : list Z := Eval vm_compute in
  let m := erp_message fils_test_head 0 0 (cstring (erp_keyname_nai erp_test_started)) in
  m ++ ptake (mac256 (erp_r_ik erp_test_started) m) 16.

Lemma fils_test_finish_ok : erp_tagged (ec_emsk (erp_cache erp_test_started)) (erp_message fils_test_head 0 (erp_seq erp_test_started) erp_test_nai)
  = fils_test_finish.
Proof.
  unfold erp_tagged. pose proof erp_test_started_ok as Hst. rewrite <- (es_rik _ _ Hst).
  destruct (es_nai _ _ Hst) as [rest Hn]. rewrite <- (cstring_app erp_test_nai rest), <- Hn by apply Hst. by_vm.
Qed.

Definition fils_test_auth : list Z := Eval vm_compute in
  [0xb0; 0] ++ replicate 22 4 ++ [4; 0; 2; 0; 0; 0] ++
  tlv_encode_all (fils_auth_elems fils_test_rsne (replicate 16 5) (replicate 8 4) fils_test_finish).

Lemma fils_test_auth_frame : fils_auth_frame fils_test_auth
  (fils_auth_elems fils_test_rsne (replicate 16 5) (replicate 8 4)
     (erp_tagged (ec_emsk (erp_cache erp_test_started)) (erp_message fils_test_head 0 (erp_seq erp_test_started) erp_test_nai))).
Proof.
  rewrite fils_test_finish_ok. split; [by_vm |]. split; [by_eval |]. split; [by_eval |].
  exists 24, []. split_and!; [by_vm | by_eval | by_eval | by_vm | by_vm |].
  assert (fils_test_auth +! (24 + 6) = tlv_encode_all (fils_auth_elems fils_test_rsne (replicate 16 5) (replicate 8 4) fils_test_finish) ++ [])
    as -> by by_vm.
  apply elements_of_encode; [by_eval |]. apply stops_no_elem. by left.
Qed.

Lemma fils_rx_authenticate_accepts_witness :
  ∃ t, fils_rx_authenticate fils_test_env fils_test_auth (zlen fils_test_auth) fils_test_s = Ok (0, t) ∧
    fils_authenticated false fils_test_s (rfc_rmsk (ec_emsk (erp_cache erp_test_started)) (erp_seq erp_test_started)) (replicate 16 5)
      (tlv_encode (IE_TYPE_RSN, fils_test_rsne)) t.
Proof.
  eapply (fils_rx_authenticate_accepts fils_test_env false fils_test_s fils_test_auth erp_test_started erp_test_nai fils_test_rsne
    (replicate 16 5) (replicate 8 4) fils_test_head 0 (tlv_encode (IE_TYPE_RSN, fils_test_rsne)) (tlv_encode (IE_TYPE_RSN, fils_test_rsne))
    toy_sha256 toy_hash fils_test_waiting eq_refl erp_test_started_ok eq_refl eq_refl eq_refl eq_refl eq_refl eq_refl fils_test_auth_frame).
Defined.

(** ** The association response *)

Definition fils_test_keyed : fils_sm := Eval vm_compute in
  match fils_rx_authenticate fils_test_env fils_test_auth (zlen fils_test_auth) fils_test_s with Ok (_, t) => t | _ => fils_test_s end.

Lemma fils_test_keyed_ok : fils_keyed fils_test_keyed.
Proof. split; by_eval. Qed.

Definition fils_test_mac : list Z → list Z := toy_digest (ptake (fils_ick fils_test_keyed) (fils_ick_len fils_test_keyed)) 32.

(** The GTK with index 1, after the RSC. *)
Definition fils_test_delivery : list Z :=
  replicate 8 0 ++ tlv_encode (IE_TYPE_VENDOR_SPECIFIC, [0; 15; 172; 1; 1; 0] ++ replicate 16 6).

Definition fils_test_assoc : list Z := Eval vm_compute in
  [0x10; 0] ++ replicate 22 4 ++ [1; 0; 0; 0; 1; 0] ++
  tlv_encode_all [(IE_TYPE_FILS_KEY_CONFIRMATION, fils_test_mac (ap_key_auth_data fils_test_keyed)); (IE_TYPE_KEY_DELIVERY, fils_test_delivery)].

(** The keys are installed. *)
Example fils_test_installs :
  match fils_rx_associate fils_test_env fils_test_assoc (zlen fils_test_assoc) fils_test_keyed with
  | Ok (0, t) => bool_decide (InstallGtk 1 (replicate 16 6) (replicate 6 0) 0x000fac04 ∈ omap (λ e, match e with FilsKey e => Some e | _ => None end) (fils_out t))
  | _ => false
  end = true.
Proof. by_vm. Qed.

Lemma fils_keys_authentic_witness :
  ∃ r t, fils_rx_associate fils_test_env fils_test_assoc (zlen fils_test_assoc) fils_test_keyed = Ok (r, t) ∧
    ((r ≠ 0 ∧ t = fils_test_keyed) ∨
     r = 0 ∧ assoc_status fils_test_assoc = Ok 0 ∧ ∃ es, response_elements fils_test_assoc es ∧
       (IE_TYPE_FILS_KEY_CONFIRMATION, fils_test_mac (ap_key_auth_data fils_test_keyed)) ∈ es ∧ fils_installed fils_test_keyed es t).
Proof.
  apply (fils_keys_authentic fils_test_env fils_test_keyed fils_test_assoc fils_test_mac);
    [by_eval | by_eval | by left | exact fils_test_keyed_ok | by_vm].
Defined.
