(* ===== verification/Wsc.v ===== *)
(** * Wi-Fi Simple Configuration: attributes (src/wscutil.c)

    The iterators over attributes and WFA extensions, the decoders of the attributes, the table
    driven parser [wsc_parse_attrs] and the attribute builder. *)

From stdpp Require Import base numbers list option.
From Stdlib Require Import ZArith Lia.
From S2P Require Import Prelude StRes IeTlv IeMisc Crypto Handshake Mschap.

Open Scope Z_scope.

Definition WSC_ATTR_AP_SETUP_LOCKED : Z := 0x1057.
Definition WSC_ATTR_ASSOCIATION_STATE : Z := 0x1002.
Definition WSC_ATTR_AUTHENTICATION_TYPE : Z := 0x1003.
Definition WSC_ATTR_AUTHENTICATION_TYPE_FLAGS : Z := 0x1004.
Definition WSC_ATTR_AUTHENTICATOR : Z := 0x1005.
Definition WSC_ATTR_CONFIGURATION_ERROR : Z := 0x1009.
Definition WSC_ATTR_CONFIGURATION_METHODS : Z := 0x1008.
Definition WSC_ATTR_CONNECTION_TYPE_FLAGS : Z := 0x100d.
Definition WSC_ATTR_CREDENTIAL : Z := 0x100e.
Definition WSC_ATTR_DEVICE_NAME : Z := 0x1011.
Definition WSC_ATTR_DEVICE_PASSWORD_ID : Z := 0x1012.
Definition WSC_ATTR_E_HASH1 : Z := 0x1014.
Definition WSC_ATTR_E_HASH2 : Z := 0x1015.
Definition WSC_ATTR_ENCRYPTED_SETTINGS : Z := 0x1018.
Definition WSC_ATTR_ENCRYPTION_TYPE : Z := 0x100f.
Definition WSC_ATTR_ENCRYPTION_TYPE_FLAGS : Z := 0x1010.
Definition WSC_ATTR_ENROLLEE_NONCE : Z := 0x101a.
Definition WSC_ATTR_E_SNONCE1 : Z := 0x1016.
Definition WSC_ATTR_E_SNONCE2 : Z := 0x1017.
Definition WSC_ATTR_KEY_WRAP_AUTHENTICATOR : Z := 0x101e.
Definition WSC_ATTR_MAC_ADDRESS : Z := 0x1020.
Definition WSC_ATTR_MANUFACTURER : Z := 0x1021.
Definition WSC_ATTR_MESSAGE_TYPE : Z := 0x1022.
Definition WSC_ATTR_MODEL_NAME : Z := 0x1023.
Definition WSC_ATTR_MODEL_NUMBER : Z := 0x1024.
Definition WSC_ATTR_NETWORK_INDEX : Z := 0x1026.
Definition WSC_ATTR_NETWORK_KEY : Z := 0x1027.
Definition WSC_ATTR_NETWORK_KEY_INDEX : Z := 0x1028.
Definition WSC_ATTR_NEW_PASSWORD : Z := 0x102a.
Definition WSC_ATTR_OS_VERSION : Z := 0x102d.
Definition WSC_ATTR_PRIMARY_DEVICE_TYPE : Z := 0x1054.
Definition WSC_ATTR_PUBLIC_KEY : Z := 0x1032.
Definition WSC_ATTR_REGISTRAR_NONCE : Z := 0x1039.
Definition WSC_ATTR_REQUEST_TYPE : Z := 0x103a.
Definition WSC_ATTR_REQUESTED_DEVICE_TYPE : Z := 0x106a.
Definition WSC_ATTR_RESPONSE_TYPE : Z := 0x103b.
Definition WSC_ATTR_RF_BANDS : Z := 0x103c.
Definition WSC_ATTR_R_HASH1 : Z := 0x103d.
Definition WSC_ATTR_R_HASH2 : Z := 0x103e.
Definition WSC_ATTR_R_SNONCE1 : Z := 0x103f.
Definition WSC_ATTR_R_SNONCE2 : Z := 0x1040.
Definition WSC_ATTR_SELECTED_REGISTRAR : Z := 0x1041.
Definition WSC_ATTR_SELECTED_REGISTRAR_CONFIGURATION_METHODS : Z := 0x1053.
Definition WSC_ATTR_SERIAL_NUMBER : Z := 0x1042.
Definition WSC_ATTR_SSID : Z := 0x1045.
Definition WSC_ATTR_UUID_E : Z := 0x1047.
Definition WSC_ATTR_UUID_R : Z := 0x1048.
Definition WSC_ATTR_VENDOR_EXTENSION : Z := 0x1049.
Definition WSC_ATTR_VERSION : Z := 0x104a.
Definition WSC_ATTR_WSC_STATE : Z := 0x1044.
Definition WSC_WFA_EXTENSION_VERSION2 : Z := 0x00.
Definition WSC_WFA_EXTENSION_AUTHORIZED_MACS : Z := 0x01.
Definition WSC_WFA_EXTENSION_REQUEST_TO_ENROLL : Z := 0x03.
Definition WSC_WFA_EXTENSION_REGISTRAR_CONFIGRATION_METHODS : Z := 0x05.
Definition WSC_MESSAGE_TYPE_M1 : Z := 0x04.
Definition WSC_MESSAGE_TYPE_M2 : Z := 0x05.
Definition WSC_MESSAGE_TYPE_M3 : Z := 0x07.
Definition WSC_MESSAGE_TYPE_M4 : Z := 0x08.
Definition WSC_MESSAGE_TYPE_M5 : Z := 0x09.
Definition WSC_MESSAGE_TYPE_M6 : Z := 0x0a.
Definition WSC_MESSAGE_TYPE_M7 : Z := 0x0b.
Definition WSC_MESSAGE_TYPE_M8 : Z := 0x0c.
Definition WSC_MESSAGE_TYPE_WSC_ACK : Z := 0x0d.
Definition WSC_MESSAGE_TYPE_WSC_NACK : Z := 0x0e.
Definition WSC_MESSAGE_TYPE_WSC_DONE : Z := 0x0f.
Definition WSC_ATTR_FLAG_REQUIRED : Z := 0x1.
Definition WSC_ATTR_FLAG_VERSION2 : Z := 0x2.
Definition WSC_ATTR_FLAG_REGISTRAR : Z := 0x4.

Definition wsc_wfa_oui : list Z := [0x00; 0x37; 0x2a].

(** ** Iterators *)

Record wsc_wfa_ext_iter : Type := mk_wfa_iter {
  wx_max : Z;
  wx_pos : Z;
  wx_pdu : ptr;
  wx_type : Z;
  wx_len : Z;
  wx_data : ptr;
}.

(** The length is an [unsigned short]. *)
Definition wsc_wfa_ext_iter_init (pdu : ptr) (len : Z) : wsc_wfa_ext_iter := mk_wfa_iter (u16 len) 0 pdu 0 0 [].

(** [None] is a [false] return, which leaves the iterator as it was. *)
Definition wsc_wfa_ext_iter_next (iter : wsc_wfa_ext_iter) : res (option wsc_wfa_ext_iter) :=
  let pos := wx_pos iter in
  if wx_max iter <=? pos + 2 then Ok None
  else
    type ← rd (wx_pdu iter) pos;
    len ← rd (wx_pdu iter) (pos + 1);
    if wx_max iter <? pos + 2 + len then Ok None
    else Ok (Some (mk_wfa_iter (wx_max iter) (u16 (pos + 2 + len)) (wx_pdu iter) type len (wx_pdu iter +! (pos + 2)))).

Record wsc_attr_iter : Type := mk_attr_iter {
  wa_max : Z;
  wa_pos : Z;
  wa_pdu : ptr;
  wa_type : Z;
  wa_len : Z;
  wa_data : ptr;
}.

Definition wsc_attr_iter_init (pdu : ptr) (len : Z) : wsc_attr_iter := mk_attr_iter len 0 pdu 0 0 [].

(** [None] is a [false] return, which leaves the iterator as it was. *)
Definition wsc_attr_iter_next (iter : wsc_attr_iter) : res (option wsc_attr_iter) :=
  let pos := wa_pos iter in
  if wa_max iter <=? u32 (pos + 4) then Ok None
  else
    type ← l_get_be16 (wa_pdu iter +! pos);
    len ← l_get_be16 (wa_pdu iter +! (pos + 2));
    if wa_max iter <? pos + 4 + len then Ok None
    else Ok (Some (mk_attr_iter (wa_max iter) (pos + 4 + len) (wa_pdu iter) type len (wa_pdu iter +! (pos + 4)))).

Definition wsc_attr_iter_recurse_wfa_ext (iter : wsc_attr_iter) : res (option wsc_wfa_ext_iter) :=
  if negb (wa_type iter =? WSC_ATTR_VENDOR_EXTENSION) then Ok None
  else if wa_len iter <? 3 then Ok None
  else
    same ← memeq (wa_data iter) wsc_wfa_oui;
    if negb same then Ok None
    else Ok (Some (wsc_wfa_ext_iter_init (wa_data iter +! 3) (wa_len iter - 3))).

(** ** Decoders *)

Record wsc_primary_device_type : Type := mk_pdt {
  pdt_category : Z;
  pdt_oui : list Z;
  pdt_oui_type : Z;
  pdt_subcategory : Z;
}.

#[export] Instance wsc_primary_device_type_eq_dec : EqDecision wsc_primary_device_type.
Proof. solve_decision. Defined.

(** What a decoder stores through its [void *]: an integer or enumeration, a byte array, a string
    without its NUL, a device type, or the bytes an [iovec] points to. *)
Inductive wsc_value : Type :=
  | VNum (n : Z)
  | VBytes (l : list Z)
  | VString (l : list Z)
  | VDevice (d : wsc_primary_device_type)
  | VIov (l : list Z).

#[export] Instance wsc_value_eq_dec : EqDecision wsc_value.
Proof. solve_decision. Defined.

(** [Ok None] is a [false] return. *)
Definition extract_uint8 (iter : wsc_attr_iter) : res (option Z) :=
  if negb (wa_len iter =? 1) then Ok None else v ← rd (wa_data iter) 0; Ok (Some v).

Definition extract_uint16 (iter : wsc_attr_iter) : res (option Z) :=
  if negb (wa_len iter =? 2) then Ok None else v ← l_get_be16 (wa_data iter); Ok (Some v).

(** A value below a bound, of one or two bytes. *)
Definition num_checked (ok : Z → bool) (m : res (option Z)) : res (option wsc_value) :=
  r ← m;
  Ok (match r with Some v => if ok v then Some (VNum v) else None | None => None end).
Definition extract_num := num_checked (λ _, true).

Definition extract_bool (iter : wsc_attr_iter) : res (option wsc_value) :=
  if negb (wa_len iter =? 1) then Ok None
  else v ← rd (wa_data iter) 0; Ok (Some (VNum (if v =? 0 then 0 else 1))).

(** A [memcpy] of a fixed size. *)
Definition extract_fixed (n : Z) (iter : wsc_attr_iter) : res (option wsc_value) :=
  if negb (wa_len iter =? n) then Ok None else b ← rdn (wa_data iter) n; Ok (Some (VBytes b)).
Definition extract_uuid := extract_fixed 16.
Definition extract_hash := extract_fixed 32.
Definition extract_authenticator := extract_fixed 8.
Definition extract_nonce := extract_fixed 16.
Definition extract_mac_address := extract_fixed 6.
Definition extract_public_key := extract_fixed 192.

Definition l_ascii_isprint (c : Z) : bool := (0x20 <=? c) && (c <=? 0x7e).

(** The loop over at most [n] characters: those before the first NUL, or [None] at a character
    that cannot be printed. *)
Fixpoint ascii_loop (n : nat) (p : ptr) (i : Z) : res (option Z) :=
  match n with
  | O => Ok (Some i)
  | S n =>
      c ← rd p i;
      if c =? 0 then Ok (Some i)
      else if negb (l_ascii_isprint c) then Ok None
      else ascii_loop n p (i + 1)
  end.

Definition extract_ascii_string (max_len : Z) (iter : wsc_attr_iter) : res (option wsc_value) :=
  let len := wa_len iter in
  if max_len <? len then Ok None
  else
    r ← ascii_loop (Z.to_nat len) (wa_data iter) 0;
    match r with
    | None => Ok None
    | Some i => s ← rdn (wa_data iter) i; Ok (Some (VString s))
    end.

(** The position of the first NUL in the first [n] bytes, or [n]. *)
Fixpoint nul_loop (n : nat) (p : ptr) (i : Z) : res Z :=
  match n with
  | O => Ok i
  | S n => c ← rd p i; if c =? 0 then Ok i else nul_loop n p (i + 1)
  end.

(** The loop of [l_utf8_validate]: the position it ends at. *)
Fixpoint utf8_validate_loop (fuel : nat) (str : ptr) (len pos : Z) : res Z :=
  match fuel with
  | O => Diverge
  | S fuel =>
      if negb (pos <? len) then Ok pos
      else
        c ← rd str pos;
        if c =? 0 then Ok pos
        else
          '(r, _) ← l_utf8_get_codepoint (str +! pos) (len - pos);
          if r <? 0 then Ok pos else utf8_validate_loop fuel str len (pos + r)
  end.
Definition l_utf8_validate (str : ptr) (len : Z) : res bool :=
  pos ← utf8_validate_loop (S (Z.to_nat len)) str len 0;
  Ok (pos =? len).

Definition extract_utf8_string (max_len : Z) (iter : wsc_attr_iter) : res (option wsc_value) :=
  let len := wa_len iter in
  if max_len <? len then Ok None
  else
    i ← nul_loop (Z.to_nat len) (wa_data iter) 0;
    ok ← l_utf8_validate (wa_data iter) i;
    if negb ok then Ok None else s ← rdn (wa_data iter) i; Ok (Some (VString s)).

Definition extract_association_state (iter : wsc_attr_iter) := num_checked (λ v, v <=? 4) (extract_uint16 iter).
Definition extract_configuration_error (iter : wsc_attr_iter) := num_checked (λ v, v <=? 20) (extract_uint16 iter).
Definition extract_device_name := extract_utf8_string 32.
Definition extract_device_password_id (iter : wsc_attr_iter) := num_checked (λ v, v <=? 8) (extract_uint16 iter).

Definition extract_encrypted_settings (iter : wsc_attr_iter) : res (option wsc_value) :=
  b ← rdn (wa_data iter) (wa_len iter); Ok (Some (VIov b)).

Definition extract_manufacturer := extract_ascii_string 64.
Definition extract_message_type (iter : wsc_attr_iter) :=
  num_checked (λ v, negb (v =? 0) && (v <=? 0x0f)) (extract_uint8 iter).
Definition extract_model_name := extract_ascii_string 32.
Definition extract_model_number := extract_ascii_string 32.

(** A NUL at the end of the key is not part of it. *)
Definition extract_network_key (iter : wsc_attr_iter) : res (option wsc_value) :=
  let len := wa_len iter in
  if 64 <? len then Ok None
  else
    len ← (if len =? 0 then Ok 0 else c ← rd (wa_data iter) (len - 1); Ok (if c =? 0 then len - 1 else len));
    b ← rdn (wa_data iter) len; Ok (Some (VIov b)).

Definition extract_new_password (iter : wsc_attr_iter) : res (option wsc_value) :=
  if 64 <? wa_len iter then Ok None
  else b ← rdn (wa_data iter) (wa_len iter); Ok (Some (VIov b)).

Definition extract_os_version (iter : wsc_attr_iter) : res (option wsc_value) :=
  if negb (wa_len iter =? 4) then Ok None
  else v ← l_get_be32 (wa_data iter); Ok (Some (VNum (Z.land v 0x7fffffff))).

(** [None] is the return of [-EINVAL]. *)
Definition wsc_parse_primary_device_type (pdu : ptr) (len : Z) : res (option wsc_primary_device_type) :=
  if negb (len =? 8) then Ok None
  else
    category ← l_get_be16 pdu;
    if (12 <? category) && negb (category =? 255) then Ok None
    else
      oui ← rdn (pdu +! 2) 3;
      oui_type ← rd pdu 5;
      subcategory ← l_get_be16 (pdu +! 6);
      Ok (Some (mk_pdt category oui oui_type subcategory)).

Definition extract_primary_device_type (iter : wsc_attr_iter) : res (option wsc_value) :=
  r ← wsc_parse_primary_device_type (wa_data iter) (wa_len iter);
  Ok (option_map VDevice r).

Definition extract_request_type (iter : wsc_attr_iter) := num_checked (λ v, v <=? 3) (extract_uint8 iter).
Definition extract_response_type (iter : wsc_attr_iter) := num_checked (λ v, v <=? 3) (extract_uint8 iter).
Definition extract_serial_number := extract_ascii_string 32.

Definition extract_ssid (iter : wsc_attr_iter) : res (option wsc_value) :=
  if 32 <? wa_len iter then Ok None
  else b ← rdn (wa_data iter) (wa_len iter); Ok (Some (VIov b)).

Definition extract_version (iter : wsc_attr_iter) := num_checked (λ v, v =? 0x10) (extract_uint8 iter).
Definition extract_wsc_state (iter : wsc_attr_iter) := num_checked (λ v, (1 <=? v) && (v <=? 2)) (extract_uint8 iter).

(** The decoder of an attribute; [None] is NULL. *)
Definition handler_for_type (type : Z) : option (wsc_attr_iter → res (option wsc_value)) :=
  let byte := λ iter, extract_num (extract_uint8 iter) in
  let word := λ iter, extract_num (extract_uint16 iter) in
  if type =? WSC_ATTR_AP_SETUP_LOCKED then Some extract_bool
  else if type =? WSC_ATTR_ASSOCIATION_STATE then Some extract_association_state
  else if type =? WSC_ATTR_AUTHENTICATION_TYPE then Some word
  else if type =? WSC_ATTR_AUTHENTICATION_TYPE_FLAGS then Some word
  else if type =? WSC_ATTR_AUTHENTICATOR then Some extract_authenticator
  else if type =? WSC_ATTR_CONFIGURATION_ERROR then Some extract_configuration_error
  else if type =? WSC_ATTR_CONFIGURATION_METHODS then Some word
  else if type =? WSC_ATTR_CONNECTION_TYPE_FLAGS then Some byte
  else if type =? WSC_ATTR_DEVICE_NAME then Some extract_device_name
  else if type =? WSC_ATTR_DEVICE_PASSWORD_ID then Some extract_device_password_id
  else if type =? WSC_ATTR_E_HASH1 then Some extract_hash
  else if type =? WSC_ATTR_E_HASH2 then Some extract_hash
  else if type =? WSC_ATTR_E_SNONCE1 then Some extract_nonce
  else if type =? WSC_ATTR_E_SNONCE2 then Some extract_nonce
  else if type =? WSC_ATTR_ENCRYPTED_SETTINGS then Some extract_encrypted_settings
  else if type =? WSC_ATTR_ENCRYPTION_TYPE then Some word
  else if type =? WSC_ATTR_ENCRYPTION_TYPE_FLAGS then Some word
  else if type =? WSC_ATTR_ENROLLEE_NONCE then Some extract_nonce
  else if type =? WSC_ATTR_KEY_WRAP_AUTHENTICATOR then Some extract_authenticator
  else if type =? WSC_ATTR_MAC_ADDRESS then Some extract_mac_address
  else if type =? WSC_ATTR_MANUFACTURER then Some extract_manufacturer
  else if type =? WSC_ATTR_MESSAGE_TYPE then Some extract_message_type
  else if type =? WSC_ATTR_MODEL_NAME then Some extract_model_name
  else if type =? WSC_ATTR_MODEL_NUMBER then Some extract_model_number
  else if type =? WSC_ATTR_NETWORK_INDEX then Some byte
  else if type =? WSC_ATTR_NETWORK_KEY then Some extract_network_key
  else if type =? WSC_ATTR_NEW_PASSWORD then Some extract_new_password
  else if type =? WSC_ATTR_NETWORK_KEY_INDEX then Some byte
  else if type =? WSC_ATTR_OS_VERSION then Some extract_os_version
  else if type =? WSC_ATTR_PUBLIC_KEY then Some extract_public_key
  else if type =? WSC_ATTR_PRIMARY_DEVICE_TYPE then Some extract_primary_device_type
  else if type =? WSC_ATTR_REGISTRAR_NONCE then Some extract_nonce
  else if type =? WSC_ATTR_REQUEST_TYPE then Some extract_request_type
  else if type =? WSC_ATTR_REQUESTED_DEVICE_TYPE then Some extract_primary_device_type
  else if type =? WSC_ATTR_RESPONSE_TYPE then Some extract_response_type
  else if type =? WSC_ATTR_RF_BANDS then Some byte
  else if type =? WSC_ATTR_R_HASH1 then Some extract_hash
  else if type =? WSC_ATTR_R_HASH2 then Some extract_hash
  else if type =? WSC_ATTR_R_SNONCE1 then Some extract_nonce
  else if type =? WSC_ATTR_R_SNONCE2 then Some extract_nonce
  else if type =? WSC_ATTR_SELECTED_REGISTRAR then Some extract_bool
  else if type =? WSC_ATTR_SELECTED_REGISTRAR_CONFIGURATION_METHODS then Some word
  else if type =? WSC_ATTR_SERIAL_NUMBER then Some extract_serial_number
  else if type =? WSC_ATTR_SSID then Some extract_ssid
  else if type =? WSC_ATTR_VERSION then Some extract_version
  else if type =? WSC_ATTR_WSC_STATE then Some extract_wsc_state
  else if type =? WSC_ATTR_UUID_E then Some extract_uuid
  else if type =? WSC_ATTR_UUID_R then Some extract_uuid
  else None.

(** ** The parser *)

(** [struct attr_handler_entry]; the pointer to the destination is left out: what is stored there
    is in the result, by type. *)
Record attr_handler_entry : Type := mk_entry {
  ah_type : Z;
  ah_flags : Z;
}.

Definition REQUIRED (attr : Z) : attr_handler_entry := mk_entry attr WSC_ATTR_FLAG_REQUIRED.
Definition OPTIONAL (attr : Z) : attr_handler_entry := mk_entry attr 0.
Definition REGISTRAR (attr : Z) : attr_handler_entry := mk_entry attr WSC_ATTR_FLAG_REGISTRAR.
Definition VERSION2 (attr : Z) : attr_handler_entry := mk_entry attr WSC_ATTR_FLAG_VERSION2.

Definition has_flag (flag : Z) (e : attr_handler_entry) : bool := has_any (ah_flags e) flag.

(** The extension iterator behind the Version2 subelement; [None] is a [false] return. *)
Definition verify_version2 (ext_iter : wsc_wfa_ext_iter) : res (option wsc_wfa_ext_iter) :=
  r ← wsc_wfa_ext_iter_next ext_iter;
  Ok (match r with
      | Some it => if (wx_type it =? WSC_WFA_EXTENSION_VERSION2) && (wx_len it =? 1) then Some it else None
      | None => None
      end).

(** The search for the entry of an attribute: a required one would be skipped, there is none, or
    the entries before it, the entry and those behind it. *)
Inductive found_entry : Type :=
  | EntryMissing
  | EntryNone
  | EntryFound (skipped : list attr_handler_entry) (entry : attr_handler_entry) (rest : list attr_handler_entry).

Fixpoint find_entry (type : Z) (es : list attr_handler_entry) : found_entry :=
  match es with
  | [] => EntryNone
  | e :: es =>
      if type =? ah_type e then EntryFound [] e es
      else if has_flag WSC_ATTR_FLAG_REQUIRED e then EntryMissing
      else match find_entry type es with
           | EntryFound skipped entry rest => EntryFound (e :: skipped) entry rest
           | r => r
           end
  end.

(** The variables of the loop: the iterator, the entries passed with their [present] flag, those to
    come, what was decoded, and the flags. *)
Record attrs_state : Type := mk_attrs {
  as_iter : wsc_attr_iter;
  as_passed : list (attr_handler_entry * bool);
  as_next : list attr_handler_entry;
  as_values : list (Z * wsc_value);
  as_version2 : bool;
  as_sr : bool;
  as_ext : wsc_wfa_ext_iter;
}.

(** Whether the loop goes on after the attribute it is at. *)
Definition attrs_step (ext : bool) (s : attrs_state) : res (attrs_state * bool) :=
  let it := as_iter s in
  match find_entry (wa_type it) (as_next s) with
  | EntryMissing => Err EINVAL
  | EntryNone =>
      if negb ext then Ok (s, false)
      else if negb (wa_type it =? WSC_ATTR_VENDOR_EXTENSION) then Ok (s, false)
      else
        r ← wsc_attr_iter_recurse_wfa_ext it;
        match r with
        | None => Ok (s, false)
        | Some x =>
            r ← verify_version2 x;
            match r with
            | None => Err EBADMSG
            | Some x => Ok (mk_attrs it (as_passed s) (as_next s) (as_values s) true (as_sr s) x, true)
            end
        end
  | EntryFound skipped e rest =>
      h ← nonnull (handler_for_type (ah_type e));
      r ← h it;
      match r with
      | None => Err EBADMSG
      | Some v =>
          Ok (mk_attrs it (as_passed s ++ ((λ e, (e, false)) <$> skipped) ++ [(e, true)]) rest
                (as_values s ++ [(ah_type e, v)]) (as_version2 s)
                (as_sr s || (ah_type e =? WSC_ATTR_SELECTED_REGISTRAR)) (as_ext s), true)
      end
  end.

Definition set_iter (it : wsc_attr_iter) (s : attrs_state) : attrs_state :=
  mk_attrs it (as_passed s) (as_next s) (as_values s) (as_version2 s) (as_sr s) (as_ext s).

Fixpoint attrs_loop (fuel : nat) (ext : bool) (s : attrs_state) : res attrs_state :=
  match fuel with
  | O => Diverge
  | S fuel =>
      r ← wsc_attr_iter_next (as_iter s);
      match r with
      | None => Ok s
      | Some it =>
          '(s, more) ← attrs_step ext (set_iter it s);
          if (more : bool) then attrs_loop fuel ext s else Ok s
      end
  end.

(** The iterator at the first attribute of the type, from where it is. *)
Fixpoint seek_attr (fuel : nat) (type : Z) (it : wsc_attr_iter) : res wsc_attr_iter :=
  match fuel with
  | O => Diverge
  | S fuel =>
      if wa_type it =? type then Ok it
      else
        r ← wsc_attr_iter_next it;
        match r with None => Err EINVAL | Some it => seek_attr fuel type it end
  end.

(** The authenticator has to be the last attribute. *)
Definition parse_authenticator (fuel : nat) (len type : Z) (it : wsc_attr_iter) : res (list Z) :=
  it ← seek_attr fuel type it;
  r ← extract_authenticator it;
  match r with
  | Some (VBytes a) =>
      r ← wsc_attr_iter_next it;
      match r with
      | Some _ => Err EBADMSG
      | None => if negb (wa_pos it =? len) then Err EBADMSG else Ok a
      end
  | _ => Err EBADMSG
  end.

(** Every entry with the flag was present. *)
Definition flagged_present (flag : Z) (es : list (attr_handler_entry * bool)) : bool :=
  forallb (λ '(e, present), negb (has_flag flag e) || present) es.

Record wsc_parsed : Type := mk_parsed {
  wp_version2 : bool;
  wp_ext : wsc_wfa_ext_iter;
  wp_authenticator : list Z;
  wp_values : list (Z * wsc_value);
}.

(** [ext] is whether there is an extension iterator, [authenticator] the type of the authenticator
    when one is asked for. *)
Definition wsc_parse_attrs (pdu : ptr) (len : Z) (ext : bool) (authenticator : option Z)
    (entries : list attr_handler_entry) : res wsc_parsed :=
  let fuel := S (Z.to_nat len) in
  s ← attrs_loop fuel ext
        (mk_attrs (wsc_attr_iter_init pdu len) [] entries [] false false (wsc_wfa_ext_iter_init [] 0));
  if existsb (has_flag WSC_ATTR_FLAG_REQUIRED) (as_next s) then Err EBADMSG
  else
    auth ← match authenticator with
           | None => Ok []
           | Some type => parse_authenticator (S fuel) len type (as_iter s)
           end;
    let all := as_passed s ++ ((λ e, (e, false)) <$> as_next s) in
    if as_version2 s && negb (flagged_present WSC_ATTR_FLAG_VERSION2 all) then Err EBADMSG
    else if as_sr s && negb (flagged_present WSC_ATTR_FLAG_REGISTRAR all) then Err EBADMSG
    else Ok (mk_parsed (as_version2 s) (as_ext s) auth (as_values s)).

(** *** WFA extensions *)

Definition wfa_extract_bool (iter : wsc_wfa_ext_iter) : res (option bool) :=
  if negb (wx_len iter =? 1) then Ok None else v ← rd (wx_data iter) 0; Ok (Some (negb (v =? 0))).

Definition wfa_extract_authorized_macs (iter : wsc_wfa_ext_iter) : res (option (list Z)) :=
  let len := wx_len iter in
  if (len =? 0) || (30 <? len) then Ok None
  else if negb (len mod 6 =? 0) then Ok None
  else b ← rdn (wx_data iter) len; Ok (Some b).

Definition wfa_extract_registrar_configuration_methods (iter : wsc_wfa_ext_iter) : res (option Z) :=
  if negb (wx_len iter =? 2) then Ok None else v ← l_get_be16 (wx_data iter); Ok (Some v).

(** ** The builder *)

Record wsc_attr_builder : Type := mk_wsc_builder {
  wb_capacity : Z;
  wb_buf : list Z;
  wb_offset : Z;
  wb_curlen : Z;
}.

Section builder.
(** The contents of the memory that [l_malloc] and [l_realloc] give. *)
Variable junk : nat → Z.

Definition wsc_attr_builder_grow : sr wsc_attr_builder unit :=
  modify (λ b, mk_wsc_builder (wb_capacity b * 2) (wb_buf b ++ l_malloc junk (wb_capacity b)) (wb_offset b) (wb_curlen b)).

(** [l_put_be16] and [memcpy] into the buffer. *)
Definition wb_write (pos : Z) (l : list Z) : sr wsc_attr_builder unit :=
  b ← get;
  buf ← run (put (wb_buf b) pos l);
  modify (λ b, mk_wsc_builder (wb_capacity b) buf (wb_offset b) (wb_curlen b)).

Definition wb_set (offset curlen : Z) : sr wsc_attr_builder unit :=
  modify (λ b, mk_wsc_builder (wb_capacity b) (wb_buf b) offset curlen).

(** The end of the current attribute: its length is written into its header. *)
Definition wb_close : sr wsc_attr_builder unit :=
  b ← get;
  if 0 <? wb_curlen b then
    wb_write (wb_offset b + 2) (be16_bytes (wb_curlen b - 4));;
    wb_set (wb_offset b + wb_curlen b) (wb_curlen b)
  else pass.

Definition wsc_attr_builder_start_attr (type : Z) : sr wsc_attr_builder bool :=
  b ← get;
  if (wb_curlen b =? 0) && negb (wb_offset b =? 0) then mret false
  else
    wb_close;;
    b ← get;
    wb_set (wb_offset b) 4;;
    (if wb_capacity b <=? wb_offset b + 4 then wsc_attr_builder_grow else pass);;
    wb_write (wb_offset b) (be16_bytes type);;
    mret true.

(** The room is doubled once if it is too small. *)
Definition wb_put (l : list Z) : sr wsc_attr_builder unit :=
  b ← get;
  (if wb_capacity b <=? wb_offset b + wb_curlen b + zlen l then wsc_attr_builder_grow else pass);;
  wb_write (wb_offset b + wb_curlen b) l;;
  wb_set (wb_offset b) (u16 (wb_curlen b + zlen l)).

Definition wsc_attr_builder_put_u8 (v : Z) : sr wsc_attr_builder unit := wb_put [u8 v].
Definition wsc_attr_builder_put_u16 (v : Z) : sr wsc_attr_builder unit := wb_put (be16_bytes v).
Definition wsc_attr_builder_put_u32 (v : Z) : sr wsc_attr_builder unit := wb_put (be32_bytes v).
Definition wsc_attr_builder_put_oui (oui : list Z) : sr wsc_attr_builder unit := wb_put oui.

(** The room is doubled until it is enough. *)
Fixpoint wb_reserve (fuel : nat) (size : Z) : sr wsc_attr_builder unit :=
  match fuel with
  | O => run Diverge
  | S fuel =>
      b ← get;
      if wb_capacity b <=? wb_offset b + wb_curlen b + size
      then wsc_attr_builder_grow;; wb_reserve fuel size else pass
  end.
Definition wsc_attr_builder_put_bytes (bytes : list Z) : sr wsc_attr_builder unit :=
  wb_reserve (S (S (Z.to_nat (zlen bytes)))) (zlen bytes);;
  b ← get;
  wb_write (wb_offset b + wb_curlen b) bytes;;
  wb_set (wb_offset b) (u16 (wb_curlen b + zlen bytes)).

(** An empty string is replaced by a space. *)
Definition wsc_attr_builder_put_string (string : list Z) : sr wsc_attr_builder unit :=
  wb_put (match string with [] => [32] | _ => string end).

Definition wsc_attr_builder_new (initial_capacity : Z) : wsc_attr_builder :=
  mk_wsc_builder initial_capacity (l_malloc junk initial_capacity) 0 0.

(** What [wsc_attr_builder_free] returns when the contents are kept. *)
Definition wsc_attr_builder_free : sr wsc_attr_builder (list Z) :=
  wb_close;;
  b ← get;
  run (rdn (wb_buf b) (wb_offset b)).

Definition wsc_run (capacity : Z) (m : sr wsc_attr_builder unit) : res (list Z) :=
  '(out, _) ← (m;; wsc_attr_builder_free) (wsc_attr_builder_new capacity);
  Ok out.
End builder.
