(* ===== verification/WscMsg.v ===== *)
(** * Wi-Fi Simple Configuration: messages (src/wscutil.c, src/wscutil.h)

    The structures of the messages, their parsers and their builders. *)

From stdpp Require Import base numbers list option.
From Stdlib Require Import ZArith Lia.
From S2P Require Import Prelude StRes IeTlv IeMisc Crypto Handshake Wsc.

Open Scope Z_scope.

(** ** The structures

    Arrays of bytes are lists of their size, strings are without their NUL. *)

Record wsc_credential : Type := mk_wsc_credential {
  cred_ssid : list Z;
  cred_ssid_len : Z;
  cred_auth_type : Z;
  cred_encryption_type : Z;
  cred_network_key : list Z;
  cred_network_key_len : Z;
  cred_addr : list Z;
}.

Record wsc_beacon : Type := mk_wsc_beacon {
  bcn_version2 : bool;
  bcn_state : Z;
  bcn_ap_setup_locked : bool;
  bcn_selected_registrar : bool;
  bcn_device_password_id : Z;
  bcn_selected_reg_config_methods : Z;
  bcn_uuid_e : list Z;
  bcn_rf_bands : Z;
  bcn_authorized_macs : list Z;
  bcn_reg_config_methods : Z;
}.

Record wsc_probe_response : Type := mk_wsc_probe_response {
  prs_version2 : bool;
  prs_state : Z;
  prs_ap_setup_locked : bool;
  prs_selected_registrar : bool;
  prs_device_password_id : Z;
  prs_selected_reg_config_methods : Z;
  prs_response_type : Z;
  prs_uuid_e : list Z;
  prs_manufacturer : list Z;
  prs_model_name : list Z;
  prs_model_number : list Z;
  prs_serial_number : list Z;
  prs_primary_device_type : wsc_primary_device_type;
  prs_device_name : list Z;
  prs_config_methods : Z;
  prs_rf_bands : Z;
  prs_authorized_macs : list Z;
  prs_reg_config_methods : Z;
}.

Record wsc_probe_request : Type := mk_wsc_probe_request {
  prq_version2 : bool;
  prq_request_type : Z;
  prq_config_methods : Z;
  prq_uuid_e : list Z;
  prq_primary_device_type : wsc_primary_device_type;
  prq_rf_bands : Z;
  prq_association_state : Z;
  prq_configuration_error : Z;
  prq_device_password_id : Z;
  prq_manufacturer : list Z;
  prq_model_name : list Z;
  prq_model_number : list Z;
  prq_serial_number : list Z;
  prq_device_name : list Z;
  prq_request_to_enroll : bool;
  prq_requested_device_type : wsc_primary_device_type;
}.

Record wsc_association_request : Type := mk_wsc_association_request {
  arq_version2 : bool;
  arq_request_type : Z;
}.

Record wsc_association_response : Type := mk_wsc_association_response {
  ars_version2 : bool;
  ars_response_type : Z;
}.

Record wsc_m1 : Type := mk_wsc_m1 {
  m1_version2 : bool;
  m1_uuid_e : list Z;
  m1_addr : list Z;
  m1_enrollee_nonce : list Z;
  m1_public_key : list Z;
  m1_auth_type_flags : Z;
  m1_encryption_type_flags : Z;
  m1_connection_type_flags : Z;
  m1_config_methods : Z;
  m1_state : Z;
  m1_manufacturer : list Z;
  m1_model_name : list Z;
  m1_model_number : list Z;
  m1_serial_number : list Z;
  m1_primary_device_type : wsc_primary_device_type;
  m1_device_name : list Z;
  m1_rf_bands : Z;
  m1_association_state : Z;
  m1_device_password_id : Z;
  m1_configuration_error : Z;
  m1_os_version : Z;
  m1_request_to_enroll : bool;
}.

Record wsc_m2 : Type := mk_wsc_m2 {
  m2_version2 : bool;
  m2_enrollee_nonce : list Z;
  m2_registrar_nonce : list Z;
  m2_uuid_r : list Z;
  m2_public_key : list Z;
  m2_auth_type_flags : Z;
  m2_encryption_type_flags : Z;
  m2_connection_type_flags : Z;
  m2_config_methods : Z;
  m2_manufacturer : list Z;
  m2_model_name : list Z;
  m2_model_number : list Z;
  m2_serial_number : list Z;
  m2_primary_device_type : wsc_primary_device_type;
  m2_device_name : list Z;
  m2_rf_bands : Z;
  m2_association_state : Z;
  m2_configuration_error : Z;
  m2_device_password_id : Z;
  m2_os_version : Z;
  m2_authenticator : list Z;
}.

Record wsc_m3 : Type := mk_wsc_m3 {
  m3_version2 : bool;
  m3_registrar_nonce : list Z;
  m3_e_hash1 : list Z;
  m3_e_hash2 : list Z;
  m3_authenticator : list Z;
}.

Record wsc_m4 : Type := mk_wsc_m4 {
  m4_version2 : bool;
  m4_enrollee_nonce : list Z;
  m4_r_hash1 : list Z;
  m4_r_hash2 : list Z;
  m4_authenticator : list Z;
}.

Record wsc_m4_encrypted_settings : Type := mk_wsc_m4_encrypted_settings {
  m4s_r_snonce1 : list Z;
  m4s_authenticator : list Z;
}.

Record wsc_m5 : Type := mk_wsc_m5 {
  m5_version2 : bool;
  m5_registrar_nonce : list Z;
  m5_authenticator : list Z;
}.

Record wsc_m5_encrypted_settings : Type := mk_wsc_m5_encrypted_settings {
  m5s_e_snonce1 : list Z;
  m5s_authenticator : list Z;
}.

Record wsc_m6 : Type := mk_wsc_m6 {
  m6_version2 : bool;
  m6_enrollee_nonce : list Z;
  m6_authenticator : list Z;
}.

Record wsc_m6_encrypted_settings : Type := mk_wsc_m6_encrypted_settings {
  m6s_r_snonce2 : list Z;
  m6s_authenticator : list Z;
}.

Record wsc_m7 : Type := mk_wsc_m7 {
  m7_version2 : bool;
  m7_registrar_nonce : list Z;
  m7_authenticator : list Z;
}.

Record wsc_m7_encrypted_settings : Type := mk_wsc_m7_encrypted_settings {
  m7s_e_snonce2 : list Z;
  m7s_authenticator : list Z;
}.

Record wsc_m8 : Type := mk_wsc_m8 {
  m8_version2 : bool;
  m8_enrollee_nonce : list Z;
  m8_authenticator : list Z;
}.

Record wsc_m8_encrypted_settings : Type := mk_wsc_m8_encrypted_settings {
  m8s_new_password : list Z;
  m8s_new_password_len : Z;
  m8s_device_password_id : Z;
  m8s_authenticator : list Z;
}.

Record wsc_ack : Type := mk_wsc_ack {
  ack_version2 : bool;
  ack_enrollee_nonce : list Z;
  ack_registrar_nonce : list Z;
}.

Record wsc_nack : Type := mk_wsc_nack {
  nack_version2 : bool;
  nack_enrollee_nonce : list Z;
  nack_registrar_nonce : list Z;
  nack_configuration_error : Z;
}.

Record wsc_done : Type := mk_wsc_done {
  done_version2 : bool;
  done_enrollee_nonce : list Z;
  done_registrar_nonce : list Z;
}.

Record wsc_p2p_attrs : Type := mk_wsc_p2p_attrs {
  p2pa_version : bool;
  p2pa_version2 : bool;
  p2pa_device_password_id : Z;
  p2pa_config_methods : Z;
}.

(** ** What was decoded

    The destinations were zeroed: an attribute that was absent leaves zeros. *)

Fixpoint value_of (type : Z) (l : list (Z * wsc_value)) : option wsc_value :=
  match l with
  | [] => None
  | (t, v) :: l => if t =? type then Some v else value_of type l
  end.
Definition num_of (type : Z) (l : list (Z * wsc_value)) : Z :=
  match value_of type l with Some (VNum n) => n | _ => 0 end.
Definition bool_of (type : Z) (l : list (Z * wsc_value)) : bool := negb (num_of type l =? 0).
Definition bytes_of (n : nat) (type : Z) (l : list (Z * wsc_value)) : list Z :=
  match value_of type l with Some (VBytes b) => b | _ => zeros n end.
Definition string_of (type : Z) (l : list (Z * wsc_value)) : list Z :=
  match value_of type l with Some (VString s) => s | _ => [] end.
Definition device_of (type : Z) (l : list (Z * wsc_value)) : wsc_primary_device_type :=
  match value_of type l with Some (VDevice d) => d | _ => mk_pdt 0 (zeros 3) 0 0 end.
Definition iov_of (type : Z) (l : list (Z * wsc_value)) : list Z :=
  match value_of type l with Some (VIov b) => b | _ => [] end.

(** ** The extensions of the messages

    Behind Version2: a lone Request to Enroll, or Authorized MACs and Registrar Configuration
    Methods in this order. *)

Definition wfa_request_to_enroll (ext : wsc_wfa_ext_iter) : res bool :=
  r ← wsc_wfa_ext_iter_next ext;
  match r with
  | None => Ok false
  | Some it =>
      if wx_type it =? WSC_WFA_EXTENSION_REQUEST_TO_ENROLL then
        r ← wfa_extract_bool it;
        match r with
        | None => Err EBADMSG
        | Some b => r ← wsc_wfa_ext_iter_next it; match r with None => Ok b | Some _ => Err EINVAL end
        end
      else Err EINVAL
  end.

(** The Registrar Configuration Methods, at the extension [it]. *)
Definition wfa_reg_methods (it : wsc_wfa_ext_iter) : res Z :=
  if wx_type it =? WSC_WFA_EXTENSION_REGISTRAR_CONFIGRATION_METHODS then
    r ← wfa_extract_registrar_configuration_methods it;
    match r with
    | None => Err EBADMSG
    | Some v => r ← wsc_wfa_ext_iter_next it; match r with None => Ok v | Some _ => Err EINVAL end
    end
  else Err EINVAL.

Definition wfa_registrar (ext : wsc_wfa_ext_iter) : res (list Z * Z) :=
  r ← wsc_wfa_ext_iter_next ext;
  match r with
  | None => Ok (zeros 30, 0)
  | Some it =>
      if wx_type it =? WSC_WFA_EXTENSION_AUTHORIZED_MACS then
        r ← wfa_extract_authorized_macs it;
        match r with
        | None => Err EBADMSG
        | Some macs =>
            let macs := macs ++ zeros (30 - length macs) in
            r ← wsc_wfa_ext_iter_next it;
            match r with
            | None => Ok (macs, 0)
            | Some it => v ← wfa_reg_methods it; Ok (macs, v)
            end
        end
      else v ← wfa_reg_methods it; Ok (zeros 30, v)
  end.

(** ** The parsers *)

Section parsers.
Variables (pdu : ptr) (len : Z).

(** Trailing NULs of the SSID are not part of it. *)
Fixpoint trim_ssid (n : nat) (ssid : list Z) : Z :=
  match n with
  | O => 0
  | S m => if default 0 (ssid !! m) =? 0 then trim_ssid m ssid else Z.of_nat n
  end.

Definition wsc_parse_credential : res wsc_credential :=
  p ← wsc_parse_attrs pdu len false None
        [REQUIRED WSC_ATTR_NETWORK_INDEX; REQUIRED WSC_ATTR_SSID; REQUIRED WSC_ATTR_AUTHENTICATION_TYPE;
         REQUIRED WSC_ATTR_ENCRYPTION_TYPE; OPTIONAL WSC_ATTR_NETWORK_KEY_INDEX; REQUIRED WSC_ATTR_NETWORK_KEY;
         REQUIRED WSC_ATTR_MAC_ADDRESS];
  let v := wp_values p in
  ssid ← put (zeros 32) 0 (iov_of WSC_ATTR_SSID v);
  let ssid_len := trim_ssid (length (iov_of WSC_ATTR_SSID v)) ssid in
  if ssid_len =? 0 then Err EBADMSG
  else
    network_key ← put (zeros 65) 0 (iov_of WSC_ATTR_NETWORK_KEY v);
    Ok (mk_wsc_credential ssid ssid_len (num_of WSC_ATTR_AUTHENTICATION_TYPE v) (num_of WSC_ATTR_ENCRYPTION_TYPE v)
          network_key (zlen (iov_of WSC_ATTR_NETWORK_KEY v)) (bytes_of 6 WSC_ATTR_MAC_ADDRESS v)).

Definition wsc_parse_beacon : res wsc_beacon :=
  p ← wsc_parse_attrs pdu len true None
        [REQUIRED WSC_ATTR_VERSION; REQUIRED WSC_ATTR_WSC_STATE; OPTIONAL WSC_ATTR_AP_SETUP_LOCKED;
         OPTIONAL WSC_ATTR_SELECTED_REGISTRAR; REGISTRAR WSC_ATTR_DEVICE_PASSWORD_ID;
         REGISTRAR WSC_ATTR_SELECTED_REGISTRAR_CONFIGURATION_METHODS; OPTIONAL WSC_ATTR_UUID_E;
         OPTIONAL WSC_ATTR_RF_BANDS];
  let v := wp_values p in
  '(macs, methods) ← wfa_registrar (wp_ext p);
  Ok (mk_wsc_beacon (wp_version2 p) (num_of WSC_ATTR_WSC_STATE v) (bool_of WSC_ATTR_AP_SETUP_LOCKED v)
        (bool_of WSC_ATTR_SELECTED_REGISTRAR v) (num_of WSC_ATTR_DEVICE_PASSWORD_ID v)
        (num_of WSC_ATTR_SELECTED_REGISTRAR_CONFIGURATION_METHODS v) (bytes_of 16 WSC_ATTR_UUID_E v)
        (num_of WSC_ATTR_RF_BANDS v) macs methods).

Definition wsc_parse_probe_response : res wsc_probe_response :=
  p ← wsc_parse_attrs pdu len true None
        [REQUIRED WSC_ATTR_VERSION; REQUIRED WSC_ATTR_WSC_STATE; OPTIONAL WSC_ATTR_AP_SETUP_LOCKED;
         OPTIONAL WSC_ATTR_SELECTED_REGISTRAR; REGISTRAR WSC_ATTR_DEVICE_PASSWORD_ID;
         REGISTRAR WSC_ATTR_SELECTED_REGISTRAR_CONFIGURATION_METHODS; REQUIRED WSC_ATTR_RESPONSE_TYPE;
         REQUIRED WSC_ATTR_UUID_E; REQUIRED WSC_ATTR_MANUFACTURER; REQUIRED WSC_ATTR_MODEL_NAME;
         REQUIRED WSC_ATTR_MODEL_NUMBER; REQUIRED WSC_ATTR_SERIAL_NUMBER; REQUIRED WSC_ATTR_PRIMARY_DEVICE_TYPE;
         REQUIRED WSC_ATTR_DEVICE_NAME; REQUIRED WSC_ATTR_CONFIGURATION_METHODS; OPTIONAL WSC_ATTR_RF_BANDS];
  let v := wp_values p in
  '(macs, methods) ← wfa_registrar (wp_ext p);
  Ok (mk_wsc_probe_response (wp_version2 p) (num_of WSC_ATTR_WSC_STATE v) (bool_of WSC_ATTR_AP_SETUP_LOCKED v)
        (bool_of WSC_ATTR_SELECTED_REGISTRAR v) (num_of WSC_ATTR_DEVICE_PASSWORD_ID v)
        (num_of WSC_ATTR_SELECTED_REGISTRAR_CONFIGURATION_METHODS v) (num_of WSC_ATTR_RESPONSE_TYPE v)
        (bytes_of 16 WSC_ATTR_UUID_E v) (string_of WSC_ATTR_MANUFACTURER v) (string_of WSC_ATTR_MODEL_NAME v)
        (string_of WSC_ATTR_MODEL_NUMBER v) (string_of WSC_ATTR_SERIAL_NUMBER v)
        (device_of WSC_ATTR_PRIMARY_DEVICE_TYPE v) (string_of WSC_ATTR_DEVICE_NAME v)
        (num_of WSC_ATTR_CONFIGURATION_METHODS v) (num_of WSC_ATTR_RF_BANDS v) macs methods).

Definition wsc_parse_probe_request : res wsc_probe_request :=
  p ← wsc_parse_attrs pdu len true None
        [REQUIRED WSC_ATTR_VERSION; REQUIRED WSC_ATTR_REQUEST_TYPE; REQUIRED WSC_ATTR_CONFIGURATION_METHODS;
         REQUIRED WSC_ATTR_UUID_E; REQUIRED WSC_ATTR_PRIMARY_DEVICE_TYPE; REQUIRED WSC_ATTR_RF_BANDS;
         REQUIRED WSC_ATTR_ASSOCIATION_STATE; REQUIRED WSC_ATTR_CONFIGURATION_ERROR;
         REQUIRED WSC_ATTR_DEVICE_PASSWORD_ID; VERSION2 WSC_ATTR_MANUFACTURER; VERSION2 WSC_ATTR_MODEL_NAME;
         VERSION2 WSC_ATTR_MODEL_NUMBER; VERSION2 WSC_ATTR_DEVICE_NAME; OPTIONAL WSC_ATTR_REQUESTED_DEVICE_TYPE];
  let v := wp_values p in
  enroll ← wfa_request_to_enroll (wp_ext p);
  Ok (mk_wsc_probe_request (wp_version2 p) (num_of WSC_ATTR_REQUEST_TYPE v)
        (num_of WSC_ATTR_CONFIGURATION_METHODS v) (bytes_of 16 WSC_ATTR_UUID_E v)
        (device_of WSC_ATTR_PRIMARY_DEVICE_TYPE v) (num_of WSC_ATTR_RF_BANDS v)
        (num_of WSC_ATTR_ASSOCIATION_STATE v) (num_of WSC_ATTR_CONFIGURATION_ERROR v)
        (num_of WSC_ATTR_DEVICE_PASSWORD_ID v) (string_of WSC_ATTR_MANUFACTURER v) (string_of WSC_ATTR_MODEL_NAME v)
        (string_of WSC_ATTR_MODEL_NUMBER v) [] (string_of WSC_ATTR_DEVICE_NAME v) enroll
        (device_of WSC_ATTR_REQUESTED_DEVICE_TYPE v)).

Definition wsc_parse_association_request : res wsc_association_request :=
  p ← wsc_parse_attrs pdu len true None
        [REQUIRED WSC_ATTR_VERSION; REQUIRED WSC_ATTR_REQUEST_TYPE];
  let v := wp_values p in
  Ok (mk_wsc_association_request (wp_version2 p) (num_of WSC_ATTR_REQUEST_TYPE v)).

Definition wsc_parse_association_response : res wsc_association_response :=
  p ← wsc_parse_attrs pdu len true None
        [REQUIRED WSC_ATTR_VERSION; REQUIRED WSC_ATTR_RESPONSE_TYPE];
  let v := wp_values p in
  Ok (mk_wsc_association_response (wp_version2 p) (num_of WSC_ATTR_RESPONSE_TYPE v)).

Definition wsc_parse_m1 : res wsc_m1 :=
  p ← wsc_parse_attrs pdu len true None
        [REQUIRED WSC_ATTR_VERSION; REQUIRED WSC_ATTR_MESSAGE_TYPE; REQUIRED WSC_ATTR_UUID_E;
         REQUIRED WSC_ATTR_MAC_ADDRESS; REQUIRED WSC_ATTR_ENROLLEE_NONCE; REQUIRED WSC_ATTR_PUBLIC_KEY;
         REQUIRED WSC_ATTR_AUTHENTICATION_TYPE_FLAGS; REQUIRED WSC_ATTR_ENCRYPTION_TYPE_FLAGS;
         REQUIRED WSC_ATTR_CONNECTION_TYPE_FLAGS; REQUIRED WSC_ATTR_CONFIGURATION_METHODS;
         REQUIRED WSC_ATTR_WSC_STATE; REQUIRED WSC_ATTR_MANUFACTURER; REQUIRED WSC_ATTR_MODEL_NAME;
         REQUIRED WSC_ATTR_MODEL_NUMBER; REQUIRED WSC_ATTR_SERIAL_NUMBER; REQUIRED WSC_ATTR_PRIMARY_DEVICE_TYPE;
         REQUIRED WSC_ATTR_DEVICE_NAME; REQUIRED WSC_ATTR_RF_BANDS; REQUIRED WSC_ATTR_ASSOCIATION_STATE;
         REQUIRED WSC_ATTR_DEVICE_PASSWORD_ID; REQUIRED WSC_ATTR_CONFIGURATION_ERROR; REQUIRED WSC_ATTR_OS_VERSION];
  let v := wp_values p in
  if negb (num_of WSC_ATTR_MESSAGE_TYPE v =? WSC_MESSAGE_TYPE_M1) then Err EBADMSG
  else if negb (popcount (num_of WSC_ATTR_RF_BANDS v) =? 1) then Err EBADMSG
  else
    enroll ← wfa_request_to_enroll (wp_ext p);
    Ok (mk_wsc_m1 (wp_version2 p) (bytes_of 16 WSC_ATTR_UUID_E v) (bytes_of 6 WSC_ATTR_MAC_ADDRESS v)
          (bytes_of 16 WSC_ATTR_ENROLLEE_NONCE v) (bytes_of 192 WSC_ATTR_PUBLIC_KEY v)
          (num_of WSC_ATTR_AUTHENTICATION_TYPE_FLAGS v) (num_of WSC_ATTR_ENCRYPTION_TYPE_FLAGS v)
          (num_of WSC_ATTR_CONNECTION_TYPE_FLAGS v) (num_of WSC_ATTR_CONFIGURATION_METHODS v)
          (num_of WSC_ATTR_WSC_STATE v) (string_of WSC_ATTR_MANUFACTURER v) (string_of WSC_ATTR_MODEL_NAME v)
          (string_of WSC_ATTR_MODEL_NUMBER v) (string_of WSC_ATTR_SERIAL_NUMBER v)
          (device_of WSC_ATTR_PRIMARY_DEVICE_TYPE v) (string_of WSC_ATTR_DEVICE_NAME v) (num_of WSC_ATTR_RF_BANDS v)
          (num_of WSC_ATTR_ASSOCIATION_STATE v) (num_of WSC_ATTR_DEVICE_PASSWORD_ID v)
          (num_of WSC_ATTR_CONFIGURATION_ERROR v) (num_of WSC_ATTR_OS_VERSION v) enroll).

Definition wsc_parse_m2 : res wsc_m2 :=
  p ← wsc_parse_attrs pdu len true (Some WSC_ATTR_AUTHENTICATOR)
        [REQUIRED WSC_ATTR_VERSION; REQUIRED WSC_ATTR_MESSAGE_TYPE; REQUIRED WSC_ATTR_ENROLLEE_NONCE;
         REQUIRED WSC_ATTR_REGISTRAR_NONCE; REQUIRED WSC_ATTR_UUID_R; REQUIRED WSC_ATTR_PUBLIC_KEY;
         REQUIRED WSC_ATTR_AUTHENTICATION_TYPE_FLAGS; REQUIRED WSC_ATTR_ENCRYPTION_TYPE_FLAGS;
         REQUIRED WSC_ATTR_CONNECTION_TYPE_FLAGS; REQUIRED WSC_ATTR_CONFIGURATION_METHODS;
         REQUIRED WSC_ATTR_MANUFACTURER; REQUIRED WSC_ATTR_MODEL_NAME; REQUIRED WSC_ATTR_MODEL_NUMBER;
         REQUIRED WSC_ATTR_SERIAL_NUMBER; REQUIRED WSC_ATTR_PRIMARY_DEVICE_TYPE; REQUIRED WSC_ATTR_DEVICE_NAME;
         REQUIRED WSC_ATTR_RF_BANDS; REQUIRED WSC_ATTR_ASSOCIATION_STATE; REQUIRED WSC_ATTR_CONFIGURATION_ERROR;
         REQUIRED WSC_ATTR_DEVICE_PASSWORD_ID; REQUIRED WSC_ATTR_OS_VERSION];
  let v := wp_values p in
  if negb (num_of WSC_ATTR_MESSAGE_TYPE v =? WSC_MESSAGE_TYPE_M2) then Err EBADMSG
  else if negb (popcount (num_of WSC_ATTR_RF_BANDS v) =? 1) then Err EBADMSG
  else
    Ok (mk_wsc_m2 (wp_version2 p) (bytes_of 16 WSC_ATTR_ENROLLEE_NONCE v) (bytes_of 16 WSC_ATTR_REGISTRAR_NONCE v)
          (bytes_of 16 WSC_ATTR_UUID_R v) (bytes_of 192 WSC_ATTR_PUBLIC_KEY v)
          (num_of WSC_ATTR_AUTHENTICATION_TYPE_FLAGS v) (num_of WSC_ATTR_ENCRYPTION_TYPE_FLAGS v)
          (num_of WSC_ATTR_CONNECTION_TYPE_FLAGS v) (num_of WSC_ATTR_CONFIGURATION_METHODS v)
          (string_of WSC_ATTR_MANUFACTURER v) (string_of WSC_ATTR_MODEL_NAME v) (string_of WSC_ATTR_MODEL_NUMBER v)
          (string_of WSC_ATTR_SERIAL_NUMBER v) (device_of WSC_ATTR_PRIMARY_DEVICE_TYPE v)
          (string_of WSC_ATTR_DEVICE_NAME v) (num_of WSC_ATTR_RF_BANDS v) (num_of WSC_ATTR_ASSOCIATION_STATE v)
          (num_of WSC_ATTR_CONFIGURATION_ERROR v) (num_of WSC_ATTR_DEVICE_PASSWORD_ID v)
          (num_of WSC_ATTR_OS_VERSION v) (wp_authenticator p)).

Definition wsc_parse_m3 : res wsc_m3 :=
  p ← wsc_parse_attrs pdu len true (Some WSC_ATTR_AUTHENTICATOR)
        [REQUIRED WSC_ATTR_VERSION; REQUIRED WSC_ATTR_MESSAGE_TYPE; REQUIRED WSC_ATTR_REGISTRAR_NONCE;
         REQUIRED WSC_ATTR_E_HASH1; REQUIRED WSC_ATTR_E_HASH2];
  let v := wp_values p in
  if negb (num_of WSC_ATTR_MESSAGE_TYPE v =? WSC_MESSAGE_TYPE_M3) then Err EBADMSG
  else
    Ok (mk_wsc_m3 (wp_version2 p) (bytes_of 16 WSC_ATTR_REGISTRAR_NONCE v) (bytes_of 32 WSC_ATTR_E_HASH1 v)
          (bytes_of 32 WSC_ATTR_E_HASH2 v) (wp_authenticator p)).

Definition wsc_parse_m4 : res (wsc_m4 * list Z) :=
  p ← wsc_parse_attrs pdu len true (Some WSC_ATTR_AUTHENTICATOR)
        [REQUIRED WSC_ATTR_VERSION; REQUIRED WSC_ATTR_MESSAGE_TYPE; REQUIRED WSC_ATTR_ENROLLEE_NONCE;
         REQUIRED WSC_ATTR_R_HASH1; REQUIRED WSC_ATTR_R_HASH2; REQUIRED WSC_ATTR_ENCRYPTED_SETTINGS];
  let v := wp_values p in
  if negb (num_of WSC_ATTR_MESSAGE_TYPE v =? WSC_MESSAGE_TYPE_M4) then Err EBADMSG
  else
    Ok (mk_wsc_m4 (wp_version2 p) (bytes_of 16 WSC_ATTR_ENROLLEE_NONCE v) (bytes_of 32 WSC_ATTR_R_HASH1 v)
          (bytes_of 32 WSC_ATTR_R_HASH2 v) (wp_authenticator p), iov_of WSC_ATTR_ENCRYPTED_SETTINGS v).

Definition wsc_parse_m4_encrypted_settings : res wsc_m4_encrypted_settings :=
  p ← wsc_parse_attrs pdu len false (Some WSC_ATTR_KEY_WRAP_AUTHENTICATOR)
        [REQUIRED WSC_ATTR_R_SNONCE1];
  let v := wp_values p in
  Ok (mk_wsc_m4_encrypted_settings (bytes_of 16 WSC_ATTR_R_SNONCE1 v) (wp_authenticator p)).

Definition wsc_parse_m5 : res (wsc_m5 * list Z) :=
  p ← wsc_parse_attrs pdu len true (Some WSC_ATTR_AUTHENTICATOR)
        [REQUIRED WSC_ATTR_VERSION; REQUIRED WSC_ATTR_MESSAGE_TYPE; REQUIRED WSC_ATTR_REGISTRAR_NONCE;
         REQUIRED WSC_ATTR_ENCRYPTED_SETTINGS];
  let v := wp_values p in
  if negb (num_of WSC_ATTR_MESSAGE_TYPE v =? WSC_MESSAGE_TYPE_M5) then Err EBADMSG
  else
    Ok (mk_wsc_m5 (wp_version2 p) (bytes_of 16 WSC_ATTR_REGISTRAR_NONCE v) (wp_authenticator p), iov_of WSC_ATTR_ENCRYPTED_SETTINGS v).

Definition wsc_parse_m5_encrypted_settings : res wsc_m5_encrypted_settings :=
  p ← wsc_parse_attrs pdu len false (Some WSC_ATTR_KEY_WRAP_AUTHENTICATOR)
        [REQUIRED WSC_ATTR_E_SNONCE1];
  let v := wp_values p in
  Ok (mk_wsc_m5_encrypted_settings (bytes_of 16 WSC_ATTR_E_SNONCE1 v) (wp_authenticator p)).

Definition wsc_parse_m6 : res (wsc_m6 * list Z) :=
  p ← wsc_parse_attrs pdu len true (Some WSC_ATTR_AUTHENTICATOR)
        [REQUIRED WSC_ATTR_VERSION; REQUIRED WSC_ATTR_MESSAGE_TYPE; REQUIRED WSC_ATTR_ENROLLEE_NONCE;
         REQUIRED WSC_ATTR_ENCRYPTED_SETTINGS];
  let v := wp_values p in
  if negb (num_of WSC_ATTR_MESSAGE_TYPE v =? WSC_MESSAGE_TYPE_M6) then Err EBADMSG
  else
    Ok (mk_wsc_m6 (wp_version2 p) (bytes_of 16 WSC_ATTR_ENROLLEE_NONCE v) (wp_authenticator p), iov_of WSC_ATTR_ENCRYPTED_SETTINGS v).

Definition wsc_parse_m6_encrypted_settings : res wsc_m6_encrypted_settings :=
  p ← wsc_parse_attrs pdu len false (Some WSC_ATTR_KEY_WRAP_AUTHENTICATOR)
        [REQUIRED WSC_ATTR_R_SNONCE2];
  let v := wp_values p in
  Ok (mk_wsc_m6_encrypted_settings (bytes_of 16 WSC_ATTR_R_SNONCE2 v) (wp_authenticator p)).

Definition wsc_parse_m7 : res (wsc_m7 * list Z) :=
  p ← wsc_parse_attrs pdu len true (Some WSC_ATTR_AUTHENTICATOR)
        [REQUIRED WSC_ATTR_VERSION; REQUIRED WSC_ATTR_MESSAGE_TYPE; REQUIRED WSC_ATTR_REGISTRAR_NONCE;
         REQUIRED WSC_ATTR_ENCRYPTED_SETTINGS];
  let v := wp_values p in
  if negb (num_of WSC_ATTR_MESSAGE_TYPE v =? WSC_MESSAGE_TYPE_M7) then Err EBADMSG
  else
    Ok (mk_wsc_m7 (wp_version2 p) (bytes_of 16 WSC_ATTR_REGISTRAR_NONCE v) (wp_authenticator p), iov_of WSC_ATTR_ENCRYPTED_SETTINGS v).

Definition wsc_parse_m7_encrypted_settings : res wsc_m7_encrypted_settings :=
  p ← wsc_parse_attrs pdu len false (Some WSC_ATTR_KEY_WRAP_AUTHENTICATOR)
        [REQUIRED WSC_ATTR_E_SNONCE2];
  let v := wp_values p in
  Ok (mk_wsc_m7_encrypted_settings (bytes_of 16 WSC_ATTR_E_SNONCE2 v) (wp_authenticator p)).

Definition wsc_parse_m8 : res (wsc_m8 * list Z) :=
  p ← wsc_parse_attrs pdu len true (Some WSC_ATTR_AUTHENTICATOR)
        [REQUIRED WSC_ATTR_VERSION; REQUIRED WSC_ATTR_MESSAGE_TYPE; REQUIRED WSC_ATTR_ENROLLEE_NONCE;
         REQUIRED WSC_ATTR_ENCRYPTED_SETTINGS];
  let v := wp_values p in
  if negb (num_of WSC_ATTR_MESSAGE_TYPE v =? WSC_MESSAGE_TYPE_M8) then Err EBADMSG
  else
    Ok (mk_wsc_m8 (wp_version2 p) (bytes_of 16 WSC_ATTR_ENROLLEE_NONCE v) (wp_authenticator p), iov_of WSC_ATTR_ENCRYPTED_SETTINGS v).

Definition wsc_parse_wsc_ack : res wsc_ack :=
  p ← wsc_parse_attrs pdu len true None
        [REQUIRED WSC_ATTR_VERSION; REQUIRED WSC_ATTR_MESSAGE_TYPE; REQUIRED WSC_ATTR_ENROLLEE_NONCE;
         REQUIRED WSC_ATTR_REGISTRAR_NONCE];
  let v := wp_values p in
  if negb (num_of WSC_ATTR_MESSAGE_TYPE v =? WSC_MESSAGE_TYPE_WSC_ACK) then Err EBADMSG
  else
    Ok (mk_wsc_ack (wp_version2 p) (bytes_of 16 WSC_ATTR_ENROLLEE_NONCE v) (bytes_of 16 WSC_ATTR_REGISTRAR_NONCE v)).

Definition wsc_parse_wsc_nack : res wsc_nack :=
  p ← wsc_parse_attrs pdu len true None
        [REQUIRED WSC_ATTR_VERSION; REQUIRED WSC_ATTR_MESSAGE_TYPE; REQUIRED WSC_ATTR_ENROLLEE_NONCE;
         REQUIRED WSC_ATTR_REGISTRAR_NONCE; REQUIRED WSC_ATTR_CONFIGURATION_ERROR];
  let v := wp_values p in
  if negb (num_of WSC_ATTR_MESSAGE_TYPE v =? WSC_MESSAGE_TYPE_WSC_NACK) then Err EBADMSG
  else
    Ok (mk_wsc_nack (wp_version2 p) (bytes_of 16 WSC_ATTR_ENROLLEE_NONCE v) (bytes_of 16 WSC_ATTR_REGISTRAR_NONCE v)
          (num_of WSC_ATTR_CONFIGURATION_ERROR v)).

Definition wsc_parse_wsc_done : res wsc_done :=
  p ← wsc_parse_attrs pdu len true None
        [REQUIRED WSC_ATTR_VERSION; REQUIRED WSC_ATTR_MESSAGE_TYPE; REQUIRED WSC_ATTR_ENROLLEE_NONCE;
         REQUIRED WSC_ATTR_REGISTRAR_NONCE];
  let v := wp_values p in
  if negb (num_of WSC_ATTR_MESSAGE_TYPE v =? WSC_MESSAGE_TYPE_WSC_DONE) then Err EBADMSG
  else
    Ok (mk_wsc_done (wp_version2 p) (bytes_of 16 WSC_ATTR_ENROLLEE_NONCE v) (bytes_of 16 WSC_ATTR_REGISTRAR_NONCE v)).

(** The credentials, of which at most [max] are stored, and the iterator behind them. *)
Fixpoint credentials_loop (fuel : nat) (max : nat) (creds : list (list Z)) (it : wsc_attr_iter)
    : res (list (list Z) * wsc_attr_iter) :=
  match fuel with
  | O => Diverge
  | S fuel =>
      if wa_type it =? WSC_ATTR_CREDENTIAL then
        c ← rdn (wa_data it) (wa_len it);
        let creds := if (length creds <? max)%nat then creds ++ [c] else creds in
        r ← wsc_attr_iter_next it;
        match r with None => Err EBADMSG | Some it => credentials_loop fuel max creds it end
      else Ok (creds, it)
  end.

Definition next_or_bad (it : wsc_attr_iter) : res wsc_attr_iter :=
  r ← wsc_attr_iter_next it;
  match r with None => Err EBADMSG | Some it => Ok it end.

(** The loop to the key wrap authenticator. *)
Fixpoint seek_or_bad (fuel : nat) (type : Z) (it : wsc_attr_iter) : res wsc_attr_iter :=
  match fuel with
  | O => Diverge
  | S fuel => if wa_type it =? type then Ok it else it ← next_or_bad it; seek_or_bad fuel type it
  end.

(** The new password, which its identifier has to follow: the array, the length and the iterator. *)
Definition m8_new_password (it : wsc_attr_iter) : res (list Z * Z * wsc_attr_iter) :=
  if wa_type it =? WSC_ATTR_NEW_PASSWORD then
    r ← extract_new_password it;
    match r with
    | Some (VIov b) =>
        np ← put (zeros 64) 0 b;
        it ← next_or_bad it;
        if negb (wa_type it =? WSC_ATTR_DEVICE_PASSWORD_ID) then Err EBADMSG else Ok (np, zlen b, it)
    | _ => Err EBADMSG
    end
  else Ok (zeros 64, 0, it).

(** The result of the decoder is not tested. *)
Definition m8_password_id (it : wsc_attr_iter) : res (Z * wsc_attr_iter) :=
  if wa_type it =? WSC_ATTR_DEVICE_PASSWORD_ID then
    r ← extract_device_password_id it;
    it ← next_or_bad it;
    Ok (match r with Some (VNum n) => n | _ => 0 end, it)
  else Ok (0, it).

(** The authenticator, which has to be at the end. *)
Definition m8_settings_authenticator (fuel : nat) (it : wsc_attr_iter) : res (list Z) :=
  it ← seek_or_bad fuel WSC_ATTR_KEY_WRAP_AUTHENTICATOR it;
  r ← extract_authenticator it;
  match r with
  | Some (VBytes a) => if negb (wa_pos it =? len) then Err EBADMSG else Ok a
  | _ => Err EBADMSG
  end.

(** The settings and the credentials, of which there is room for [iovcnt]. *)
Definition wsc_parse_m8_encrypted_settings (iovcnt : nat) : res (wsc_m8_encrypted_settings * list (list Z)) :=
  let fuel := S (Z.to_nat len) in
  it ← next_or_bad (wsc_attr_iter_init pdu len);
  '(creds, it) ← credentials_loop fuel iovcnt [] it;
  match creds with
  | [] => Err EBADMSG
  | _ =>
      '(np, np_len, it) ← m8_new_password it;
      '(id, it) ← m8_password_id it;
      a ← m8_settings_authenticator fuel it;
      Ok (mk_wsc_m8_encrypted_settings np np_len id a, creds)
  end.
End parsers.

(** ** The builders *)

Section builders.
Variable junk : nat → Z.

#[local] Abbreviation start_attr := (wsc_attr_builder_start_attr junk).
#[local] Abbreviation put_u8 := (wsc_attr_builder_put_u8 junk).
#[local] Abbreviation put_u16 := (wsc_attr_builder_put_u16 junk).
#[local] Abbreviation put_u32 := (wsc_attr_builder_put_u32 junk).
#[local] Abbreviation put_bytes := (wsc_attr_builder_put_bytes junk).
#[local] Abbreviation put_oui := (wsc_attr_builder_put_oui junk).
#[local] Abbreviation put_string := (wsc_attr_builder_put_string junk).

Definition build_ap_setup_locked (locked : bool) : sr wsc_attr_builder unit :=
  start_attr WSC_ATTR_AP_SETUP_LOCKED;; put_u8 (if locked then 1 else 0).
Definition build_association_state (state : Z) : sr wsc_attr_builder unit :=
  start_attr WSC_ATTR_ASSOCIATION_STATE;; put_u16 state.
Definition build_authentication_type (auth_type : Z) : sr wsc_attr_builder unit :=
  start_attr WSC_ATTR_AUTHENTICATION_TYPE;; put_u16 auth_type.
Definition build_authentication_type_flags (auth_type_flags : Z) : sr wsc_attr_builder unit :=
  start_attr WSC_ATTR_AUTHENTICATION_TYPE_FLAGS;; put_u16 auth_type_flags.
Definition build_authenticator (authenticator : list Z) : sr wsc_attr_builder unit :=
  start_attr WSC_ATTR_AUTHENTICATOR;; b ← run (rdn authenticator 8); put_bytes b.
Definition build_configuration_error (error : Z) : sr wsc_attr_builder unit :=
  start_attr WSC_ATTR_CONFIGURATION_ERROR;; put_u16 error.
Definition build_configuration_methods (config_methods : Z) : sr wsc_attr_builder unit :=
  start_attr WSC_ATTR_CONFIGURATION_METHODS;; put_u16 config_methods.
Definition build_connection_type_flags (connection_type_flags : Z) : sr wsc_attr_builder unit :=
  start_attr WSC_ATTR_CONNECTION_TYPE_FLAGS;; put_u8 connection_type_flags.
Definition build_device_name (device_name : list Z) : sr wsc_attr_builder unit :=
  start_attr WSC_ATTR_DEVICE_NAME;; put_string device_name.
Definition build_device_password_id (id : Z) : sr wsc_attr_builder unit :=
  start_attr WSC_ATTR_DEVICE_PASSWORD_ID;; put_u16 id.
Definition build_encryption_type (encryption_type : Z) : sr wsc_attr_builder unit :=
  start_attr WSC_ATTR_ENCRYPTION_TYPE;; put_u16 encryption_type.
Definition build_encryption_type_flags (encryption_type_flags : Z) : sr wsc_attr_builder unit :=
  start_attr WSC_ATTR_ENCRYPTION_TYPE_FLAGS;; put_u16 encryption_type_flags.
Definition build_e_hash1 (e_hash1 : list Z) : sr wsc_attr_builder unit :=
  start_attr WSC_ATTR_E_HASH1;; b ← run (rdn e_hash1 32); put_bytes b.
Definition build_e_hash2 (e_hash2 : list Z) : sr wsc_attr_builder unit :=
  start_attr WSC_ATTR_E_HASH2;; b ← run (rdn e_hash2 32); put_bytes b.
Definition build_e_snonce1 (nonce : list Z) : sr wsc_attr_builder unit :=
  start_attr WSC_ATTR_E_SNONCE1;; b ← run (rdn nonce 16); put_bytes b.
Definition build_e_snonce2 (nonce : list Z) : sr wsc_attr_builder unit :=
  start_attr WSC_ATTR_E_SNONCE2;; b ← run (rdn nonce 16); put_bytes b.
Definition build_enrollee_nonce (nonce : list Z) : sr wsc_attr_builder unit :=
  start_attr WSC_ATTR_ENROLLEE_NONCE;; b ← run (rdn nonce 16); put_bytes b.
Definition build_key_wrap_authenticator (authenticator : list Z) : sr wsc_attr_builder unit :=
  start_attr WSC_ATTR_KEY_WRAP_AUTHENTICATOR;; b ← run (rdn authenticator 8); put_bytes b.
Definition build_mac_address (addr : list Z) : sr wsc_attr_builder unit :=
  start_attr WSC_ATTR_MAC_ADDRESS;; b ← run (rdn addr 6); put_bytes b.
Definition build_manufacturer (manufacturer : list Z) : sr wsc_attr_builder unit :=
  start_attr WSC_ATTR_MANUFACTURER;; put_string manufacturer.
Definition build_message_type (type : Z) : sr wsc_attr_builder unit :=
  start_attr WSC_ATTR_MESSAGE_TYPE;; put_u8 type.
Definition build_model_name (model_name : list Z) : sr wsc_attr_builder unit :=
  start_attr WSC_ATTR_MODEL_NAME;; put_string model_name.
Definition build_model_number (model_number : list Z) : sr wsc_attr_builder unit :=
  start_attr WSC_ATTR_MODEL_NUMBER;; put_string model_number.
Definition build_network_index (network_index : Z) : sr wsc_attr_builder unit :=
  start_attr WSC_ATTR_NETWORK_INDEX;; put_u8 network_index.
Definition build_network_key (key : list Z) (key_len : Z) : sr wsc_attr_builder unit :=
  start_attr WSC_ATTR_NETWORK_KEY;; b ← run (rdn key key_len); put_bytes b.
Definition build_new_password (password : list Z) (password_len : Z) : sr wsc_attr_builder unit :=
  start_attr WSC_ATTR_NEW_PASSWORD;; b ← run (rdn password password_len); put_bytes b.
Definition build_os_version (os_version : Z) : sr wsc_attr_builder unit :=
  start_attr WSC_ATTR_OS_VERSION;; put_u32 (Z.lor os_version 0x80000000).
Definition build_primary_device_type (pdt : wsc_primary_device_type) : sr wsc_attr_builder unit :=
  start_attr WSC_ATTR_PRIMARY_DEVICE_TYPE;;
  put_u16 (pdt_category pdt);; put_oui (pdt_oui pdt);; put_u8 (pdt_oui_type pdt);; put_u16 (pdt_subcategory pdt).
Definition build_public_key (public_key : list Z) : sr wsc_attr_builder unit :=
  start_attr WSC_ATTR_PUBLIC_KEY;; b ← run (rdn public_key 192); put_bytes b.
Definition build_registrar_nonce (nonce : list Z) : sr wsc_attr_builder unit :=
  start_attr WSC_ATTR_REGISTRAR_NONCE;; b ← run (rdn nonce 16); put_bytes b.
Definition build_request_type (type : Z) : sr wsc_attr_builder unit :=
  start_attr WSC_ATTR_REQUEST_TYPE;; put_u8 type.
Definition build_response_type (type : Z) : sr wsc_attr_builder unit :=
  start_attr WSC_ATTR_RESPONSE_TYPE;; put_u8 type.
Definition build_rf_bands (rf_bands : Z) : sr wsc_attr_builder unit :=
  start_attr WSC_ATTR_RF_BANDS;; put_u8 rf_bands.
Definition build_r_hash1 (r_hash1 : list Z) : sr wsc_attr_builder unit :=
  start_attr WSC_ATTR_R_HASH1;; b ← run (rdn r_hash1 32); put_bytes b.
Definition build_r_hash2 (r_hash2 : list Z) : sr wsc_attr_builder unit :=
  start_attr WSC_ATTR_R_HASH2;; b ← run (rdn r_hash2 32); put_bytes b.
Definition build_r_snonce1 (nonce : list Z) : sr wsc_attr_builder unit :=
  start_attr WSC_ATTR_R_SNONCE1;; b ← run (rdn nonce 16); put_bytes b.
Definition build_r_snonce2 (nonce : list Z) : sr wsc_attr_builder unit :=
  start_attr WSC_ATTR_R_SNONCE2;; b ← run (rdn nonce 16); put_bytes b.
Definition build_selected_registrar (selected : bool) : sr wsc_attr_builder unit :=
  start_attr WSC_ATTR_SELECTED_REGISTRAR;; put_u8 (if selected then 1 else 0).
Definition build_selected_registrar_configuration_methods (config_methods : Z) : sr wsc_attr_builder unit :=
  start_attr WSC_ATTR_SELECTED_REGISTRAR_CONFIGURATION_METHODS;; put_u16 config_methods.
Definition build_ssid (ssid : list Z) (ssid_len : Z) : sr wsc_attr_builder unit :=
  start_attr WSC_ATTR_SSID;; b ← run (rdn ssid ssid_len); put_bytes b.
Definition build_serial_number (serial_number : list Z) : sr wsc_attr_builder unit :=
  start_attr WSC_ATTR_SERIAL_NUMBER;; put_string serial_number.
Definition build_uuid_e (uuid : list Z) : sr wsc_attr_builder unit :=
  start_attr WSC_ATTR_UUID_E;; b ← run (rdn uuid 16); put_bytes b.
Definition build_uuid_r (uuid : list Z) : sr wsc_attr_builder unit :=
  start_attr WSC_ATTR_UUID_R;; b ← run (rdn uuid 16); put_bytes b.
Definition build_version (version : Z) : sr wsc_attr_builder unit :=
  start_attr WSC_ATTR_VERSION;; put_u8 version.
Definition build_wsc_state (state : Z) : sr wsc_attr_builder unit :=
  start_attr WSC_ATTR_WSC_STATE;; put_u8 state.

Definition START_WFA_VENDOR_EXTENSION : sr wsc_attr_builder unit :=
  start_attr WSC_ATTR_VENDOR_EXTENSION;;
  put_oui wsc_wfa_oui;; put_u8 WSC_WFA_EXTENSION_VERSION2;; put_u8 1;; put_u8 0x20.

(** The addresses up to the first that is zero, but at least one. *)
Fixpoint count_macs (n : nat) (count : Z) (authorized_macs : list Z) : res Z :=
  match n with
  | O => Ok count
  | S n =>
      b ← rdn (authorized_macs +! (count * 6)) 6;
      if memeqzero b then Ok count else count_macs n (count + 1) authorized_macs
  end.
Definition wfa_build_authorized_macs (authorized_macs : list Z) : sr wsc_attr_builder unit :=
  count ← run (count_macs 4 1 authorized_macs);
  put_u8 WSC_WFA_EXTENSION_AUTHORIZED_MACS;;
  put_u8 (count * 6);;
  b ← run (rdn authorized_macs (count * 6));
  put_bytes b.

(** The part of a message that is there if the condition holds. *)
Definition when (c : bool) (m : sr wsc_attr_builder unit) : sr wsc_attr_builder unit := if c then m else pass.

Definition wsc_build_credential (cred : wsc_credential) : res (list Z) :=
  wsc_run junk 128 (
    build_network_index 1;;
    build_ssid (cred_ssid cred) (cred_ssid_len cred);;
    build_authentication_type (cred_auth_type cred);;
    build_encryption_type (cred_encryption_type cred);;
    build_network_key (cred_network_key cred) (cred_network_key_len cred);;
    build_mac_address (cred_addr cred)).

Definition build_credential (cred : wsc_credential) : sr wsc_attr_builder unit :=
  data ← run (wsc_build_credential cred);
  start_attr WSC_ATTR_CREDENTIAL;; put_bytes data.

Definition build_enroll (enroll : bool) : sr wsc_attr_builder unit :=
  when enroll (put_u8 WSC_WFA_EXTENSION_REQUEST_TO_ENROLL;; put_u8 1;; put_u8 1).

(** The extensions of beacons and probe responses. *)
Definition build_registrar (authorized_macs : list Z) (reg_config_methods : Z) : sr wsc_attr_builder unit :=
  first ← run (rdn authorized_macs 6);
  when (negb (memeqzero first)) (wfa_build_authorized_macs authorized_macs);;
  when (negb (reg_config_methods =? 0))
    (put_u8 WSC_WFA_EXTENSION_REGISTRAR_CONFIGRATION_METHODS;; put_u8 2;; put_u16 reg_config_methods).

Definition wsc_build_beacon (beacon : wsc_beacon) : res (list Z) :=
  wsc_run junk 512 (
    build_version 0x10;;
    build_wsc_state (bcn_state beacon);;
    when (bcn_ap_setup_locked beacon) (build_ap_setup_locked true);;
    when (bcn_selected_registrar beacon) (
      build_selected_registrar true;;
      build_device_password_id (bcn_device_password_id beacon);;
      build_selected_registrar_configuration_methods (bcn_selected_reg_config_methods beacon));;
    when (1 <? popcount (bcn_rf_bands beacon)) (
      when (bcn_selected_registrar beacon) (build_uuid_e (bcn_uuid_e beacon));;
      build_rf_bands (bcn_rf_bands beacon));;
    when (bcn_version2 beacon) (
      START_WFA_VENDOR_EXTENSION;;
      build_registrar (bcn_authorized_macs beacon) (bcn_reg_config_methods beacon))).

Definition wsc_build_probe_response (probe_response : wsc_probe_response) : res (list Z) :=
  let r := probe_response in
  wsc_run junk 512 (
    build_version 0x10;;
    build_wsc_state (prs_state r);;
    when (prs_ap_setup_locked r) (build_ap_setup_locked true);;
    when (prs_selected_registrar r) (
      build_selected_registrar true;;
      build_device_password_id (prs_device_password_id r);;
      build_selected_registrar_configuration_methods (prs_selected_reg_config_methods r));;
    build_response_type (prs_response_type r);;
    build_uuid_e (prs_uuid_e r);;
    build_manufacturer (prs_manufacturer r);;
    build_model_name (prs_model_name r);;
    build_model_number (prs_model_number r);;
    build_serial_number (prs_serial_number r);;
    build_primary_device_type (prs_primary_device_type r);;
    build_device_name (prs_device_name r);;
    build_configuration_methods (prs_config_methods r);;
    when (1 <? popcount (prs_rf_bands r)) (build_rf_bands (prs_rf_bands r));;
    when (prs_version2 r) (
      START_WFA_VENDOR_EXTENSION;;
      build_registrar (prs_authorized_macs r) (prs_reg_config_methods r))).

Definition wsc_build_probe_request (probe_request : wsc_probe_request) : res (list Z) :=
  wsc_run junk 512 (
    build_version 0x10;;
    build_request_type (prq_request_type probe_request);;
    build_configuration_methods (prq_config_methods probe_request);;
    build_uuid_e (prq_uuid_e probe_request);;
    build_primary_device_type (prq_primary_device_type probe_request);;
    build_rf_bands (prq_rf_bands probe_request);;
    build_association_state (prq_association_state probe_request);;
    build_configuration_error (prq_configuration_error probe_request);;
    build_device_password_id (prq_device_password_id probe_request);;
    when (prq_version2 probe_request) (
      build_manufacturer (prq_manufacturer probe_request);;
      build_model_name (prq_model_name probe_request);;
      build_model_number (prq_model_number probe_request);;
      build_device_name (prq_device_name probe_request);;
      START_WFA_VENDOR_EXTENSION;;
      build_enroll (prq_request_to_enroll probe_request))).

Definition wsc_build_association_request (association_request : wsc_association_request) : res (list Z) :=
  wsc_run junk 128 (
    build_version 0x10;;
    build_request_type (arq_request_type association_request);;
    when (arq_version2 association_request) START_WFA_VENDOR_EXTENSION).

Definition wsc_build_association_response (association_response : wsc_association_response) : res (list Z) :=
  wsc_run junk 128 (
    build_version 0x10;;
    build_response_type (ars_response_type association_response);;
    when (ars_version2 association_response) START_WFA_VENDOR_EXTENSION).

Definition wsc_build_m1 (m1 : wsc_m1) : res (list Z) :=
  wsc_run junk 1024 (
    build_version 0x10;;
    build_message_type WSC_MESSAGE_TYPE_M1;;
    build_uuid_e (m1_uuid_e m1);;
    build_mac_address (m1_addr m1);;
    build_enrollee_nonce (m1_enrollee_nonce m1);;
    build_public_key (m1_public_key m1);;
    build_authentication_type_flags (m1_auth_type_flags m1);;
    build_encryption_type_flags (m1_encryption_type_flags m1);;
    build_connection_type_flags (m1_connection_type_flags m1);;
    build_configuration_methods (m1_config_methods m1);;
    build_wsc_state (m1_state m1);;
    build_manufacturer (m1_manufacturer m1);;
    build_model_name (m1_model_name m1);;
    build_model_number (m1_model_number m1);;
    build_serial_number (m1_serial_number m1);;
    build_primary_device_type (m1_primary_device_type m1);;
    build_device_name (m1_device_name m1);;
    build_rf_bands (m1_rf_bands m1);;
    build_association_state (m1_association_state m1);;
    build_device_password_id (m1_device_password_id m1);;
    build_configuration_error (m1_configuration_error m1);;
    build_os_version (m1_os_version m1);;
    when (m1_version2 m1) (START_WFA_VENDOR_EXTENSION;; build_enroll (m1_request_to_enroll m1))).

Definition wsc_build_m2 (m2 : wsc_m2) : res (list Z) :=
  wsc_run junk 1024 (
    build_version 0x10;;
    build_message_type WSC_MESSAGE_TYPE_M2;;
    build_enrollee_nonce (m2_enrollee_nonce m2);;
    build_registrar_nonce (m2_registrar_nonce m2);;
    build_uuid_r (m2_uuid_r m2);;
    build_public_key (m2_public_key m2);;
    build_authentication_type_flags (m2_auth_type_flags m2);;
    build_encryption_type_flags (m2_encryption_type_flags m2);;
    build_connection_type_flags (m2_connection_type_flags m2);;
    build_configuration_methods (m2_config_methods m2);;
    build_manufacturer (m2_manufacturer m2);;
    build_model_name (m2_model_name m2);;
    build_model_number (m2_model_number m2);;
    build_serial_number (m2_serial_number m2);;
    build_primary_device_type (m2_primary_device_type m2);;
    build_device_name (m2_device_name m2);;
    build_rf_bands (m2_rf_bands m2);;
    build_association_state (m2_association_state m2);;
    build_configuration_error (m2_configuration_error m2);;
    build_device_password_id (m2_device_password_id m2);;
    build_os_version (m2_os_version m2);;
    when (m2_version2 m2) START_WFA_VENDOR_EXTENSION;;
    build_authenticator (m2_authenticator m2)).

Definition wsc_build_m3 (m3 : wsc_m3) : res (list Z) :=
  wsc_run junk 256 (
    build_version 0x10;;
    build_message_type WSC_MESSAGE_TYPE_M3;;
    build_registrar_nonce (m3_registrar_nonce m3);;
    build_e_hash1 (m3_e_hash1 m3);;
    build_e_hash2 (m3_e_hash2 m3);;
    when (m3_version2 m3) START_WFA_VENDOR_EXTENSION;;
    build_authenticator (m3_authenticator m3)).

Definition wsc_build_m4 (m4 : wsc_m4) (encrypted : list Z) : res (list Z) :=
  wsc_run junk 256 (
    build_version 0x10;;
    build_message_type WSC_MESSAGE_TYPE_M4;;
    build_enrollee_nonce (m4_enrollee_nonce m4);;
    build_r_hash1 (m4_r_hash1 m4);;
    build_r_hash2 (m4_r_hash2 m4);;
    start_attr WSC_ATTR_ENCRYPTED_SETTINGS;; put_bytes encrypted;;
    when (m4_version2 m4) START_WFA_VENDOR_EXTENSION;;
    build_authenticator (m4_authenticator m4)).

Definition wsc_build_m4_encrypted_settings (settings : wsc_m4_encrypted_settings) : res (list Z) :=
  wsc_run junk 256 (
    build_r_snonce1 (m4s_r_snonce1 settings);;
    build_key_wrap_authenticator (m4s_authenticator settings)).

Definition wsc_build_m5 (m5 : wsc_m5) (encrypted : list Z) : res (list Z) :=
  wsc_run junk 256 (
    build_version 0x10;;
    build_message_type WSC_MESSAGE_TYPE_M5;;
    build_registrar_nonce (m5_registrar_nonce m5);;
    start_attr WSC_ATTR_ENCRYPTED_SETTINGS;; put_bytes encrypted;;
    when (m5_version2 m5) START_WFA_VENDOR_EXTENSION;;
    build_authenticator (m5_authenticator m5)).

Definition wsc_build_m5_encrypted_settings (settings : wsc_m5_encrypted_settings) : res (list Z) :=
  wsc_run junk 256 (
    build_e_snonce1 (m5s_e_snonce1 settings);;
    build_key_wrap_authenticator (m5s_authenticator settings)).

Definition wsc_build_m6 (m6 : wsc_m6) (encrypted : list Z) : res (list Z) :=
  wsc_run junk 256 (
    build_version 0x10;;
    build_message_type WSC_MESSAGE_TYPE_M6;;
    build_enrollee_nonce (m6_enrollee_nonce m6);;
    start_attr WSC_ATTR_ENCRYPTED_SETTINGS;; put_bytes encrypted;;
    when (m6_version2 m6) START_WFA_VENDOR_EXTENSION;;
    build_authenticator (m6_authenticator m6)).

Definition wsc_build_m6_encrypted_settings (settings : wsc_m6_encrypted_settings) : res (list Z) :=
  wsc_run junk 256 (
    build_r_snonce2 (m6s_r_snonce2 settings);;
    build_key_wrap_authenticator (m6s_authenticator settings)).

Definition wsc_build_m7 (m7 : wsc_m7) (encrypted : list Z) : res (list Z) :=
  wsc_run junk 256 (
    build_version 0x10;;
    build_message_type WSC_MESSAGE_TYPE_M7;;
    build_registrar_nonce (m7_registrar_nonce m7);;
    start_attr WSC_ATTR_ENCRYPTED_SETTINGS;; put_bytes encrypted;;
    when (m7_version2 m7) START_WFA_VENDOR_EXTENSION;;
    build_authenticator (m7_authenticator m7)).

Definition wsc_build_m7_encrypted_settings (settings : wsc_m7_encrypted_settings) : res (list Z) :=
  wsc_run junk 256 (
    build_e_snonce2 (m7s_e_snonce2 settings);;
    build_key_wrap_authenticator (m7s_authenticator settings)).

Definition wsc_build_m8 (m8 : wsc_m8) (encrypted : list Z) : res (list Z) :=
  wsc_run junk 256 (
    build_version 0x10;;
    build_message_type WSC_MESSAGE_TYPE_M8;;
    build_enrollee_nonce (m8_enrollee_nonce m8);;
    start_attr WSC_ATTR_ENCRYPTED_SETTINGS;; put_bytes encrypted;;
    when (m8_version2 m8) START_WFA_VENDOR_EXTENSION;;
    build_authenticator (m8_authenticator m8)).

Definition wsc_build_wsc_ack (ack : wsc_ack) : res (list Z) :=
  wsc_run junk 256 (
    build_version 0x10;;
    build_message_type WSC_MESSAGE_TYPE_WSC_ACK;;
    build_enrollee_nonce (ack_enrollee_nonce ack);;
    build_registrar_nonce (ack_registrar_nonce ack);;
    when (ack_version2 ack) START_WFA_VENDOR_EXTENSION).

Definition wsc_build_wsc_nack (nack : wsc_nack) : res (list Z) :=
  wsc_run junk 256 (
    build_version 0x10;;
    build_message_type WSC_MESSAGE_TYPE_WSC_NACK;;
    build_enrollee_nonce (nack_enrollee_nonce nack);;
    build_registrar_nonce (nack_registrar_nonce nack);;
    build_configuration_error (nack_configuration_error nack);;
    when (nack_version2 nack) START_WFA_VENDOR_EXTENSION).

Definition wsc_build_wsc_done (msg : wsc_done) : res (list Z) :=
  wsc_run junk 256 (
    build_version 0x10;;
    build_message_type WSC_MESSAGE_TYPE_WSC_DONE;;
    build_enrollee_nonce (done_enrollee_nonce msg);;
    build_registrar_nonce (done_registrar_nonce msg);;
    when (done_version2 msg) START_WFA_VENDOR_EXTENSION).

Fixpoint build_credentials (creds : list wsc_credential) : sr wsc_attr_builder unit :=
  match creds with
  | [] => pass
  | c :: creds => build_credential c;; build_credentials creds
  end.
Definition wsc_build_m8_encrypted_settings (settings : wsc_m8_encrypted_settings) (creds : list wsc_credential) : res (list Z) :=
  wsc_run junk 256 (
    build_credentials creds;;
    when (negb (m8s_new_password_len settings =? 0)) (
      build_new_password (m8s_new_password settings) (m8s_new_password_len settings);;
      build_device_password_id (m8s_device_password_id settings));;
    build_key_wrap_authenticator (m8s_authenticator settings)).

(** [version] is a [bool] in the structure. *)
Definition wsc_build_p2p_attrs (attrs : wsc_p2p_attrs) : res (list Z) :=
  wsc_run junk 512 (
    when (p2pa_version attrs) (build_version 0x10);;
    when (negb (p2pa_device_password_id attrs =? 0)) (build_device_password_id (p2pa_device_password_id attrs));;
    when (negb (p2pa_config_methods attrs =? 0)) (build_configuration_methods (p2pa_config_methods attrs));;
    when (p2pa_version2 attrs) START_WFA_VENDOR_EXTENSION).
End builders.
