(* ===== verification/WscSafe.v ===== *)
(** * Wi-Fi Simple Configuration: safety of the parsers (src/wscutil.c)

    On arbitrary bytes every parser of src/wscutil.c returns, with a structure or an error: it
    reads nothing outside of the message, and its loops end.  The iterators go forward inside of
    the message ([attr_iter_ok], [wfa_iter_ok]), each decoder reads only the attribute it is
    given ([attr_decoder_safe]), and the loops of the parser have fuel for every attribute. *)

From stdpp Require Import base numbers list option.
From Stdlib Require Import ZArith Lia.
From S2P Require Import Prelude StRes IeTlv IeMisc Crypto Handshake EapolFrame Mschap Wsc WscMsg.

Open Scope Z_scope.

(** ** Decoders *)

(** The attribute an iterator is at lies in memory. *)
Definition attr_ok (it : wsc_attr_iter) : Prop :=
  bytes_ok (wa_data it) ∧ 0 ≤ wa_len it ≤ zlen (wa_data it).

Definition attr_decoder_safe {A} (h : wsc_attr_iter → res (option A)) : Prop :=
  ∀ it, attr_ok it → returns (h it).

Lemma returns_rd p i : 0 ≤ i < zlen p → returns (rd p i).
Proof. apply rd_returns. Qed.
Lemma returns_rdn p n : 0 ≤ n ≤ zlen p → returns (rdn p n).
Proof. intros H. by rewrite rdn_ok. Qed.
Lemma returns_memeq p q : zlen q ≤ zlen p → returns (memeq p q).
Proof. intros H. by rewrite memeq_ok. Qed.
Lemma returns_be16 p : bytes_ok p → 2 ≤ zlen p → returns (l_get_be16 p).
Proof. intros Hb Hl. by destruct (l_get_be16_in p Hb Hl) as (v & -> & _). Qed.

(** The next read of a sequence. *)
Ltac ret_step :=
  match goal with
  | |- returns (Ok _) => exact I
  | |- returns (Err _) => exact I
  | |- returns (rd _ _ ≫= _) => apply returns_bind; [apply returns_rd; zlia | intros ? ?]
  | |- returns (rdn _ _ ≫= _) => apply returns_bind; [apply returns_rdn; zlia | intros ? ?]
  | |- returns (memeq _ _ ≫= _) => apply returns_bind; [apply returns_memeq; zlia | intros ? ?]
  | |- returns (l_get_be16 _ ≫= _) => apply returns_bind; [apply returns_be16; [auto with iwd | zlia] | intros ? ?]
  | |- returns (if negb (?a =? ?b) then _ else _) => destruct (Z.eqb_spec a b); cbn [negb]
  | |- returns (if ?a =? ?b then _ else _) => destruct (Z.eqb_spec a b)
  | |- returns (if ?a <? ?b then _ else _) => destruct (Z.ltb_spec a b)
  | |- returns (if ?b then _ else _) => destruct b eqn:?
  end.

Lemma returns_bind_ok {A B} (m : res A) (f : A → res B) :
  returns m → (∀ a, m = Ok a → returns (f a)) → returns (m ≫= f).
Proof. destruct m; naive_solver. Qed.

Lemma extract_uint8_safe : attr_decoder_safe extract_uint8.
Proof. intros it [Hb Hl]. unfold extract_uint8. repeat ret_step. Qed.
Lemma extract_uint16_safe : attr_decoder_safe extract_uint16.
Proof. intros it [Hb Hl]. unfold extract_uint16. repeat ret_step. Qed.
Lemma num_checked_safe ok h : attr_decoder_safe h → attr_decoder_safe (λ it, num_checked ok (h it)).
Proof. intros Hh it Hit. unfold num_checked. apply returns_bind_ok; [by apply Hh | done]. Qed.
Lemma extract_bool_safe : attr_decoder_safe extract_bool.
Proof. intros it [Hb Hl]. unfold extract_bool. repeat ret_step. Qed.
Lemma extract_fixed_safe n : 0 ≤ n → attr_decoder_safe (extract_fixed n).
Proof. intros Hn it [Hb Hl]. unfold extract_fixed. repeat ret_step. Qed.

Lemma ascii_loop_safe n p i :
  0 ≤ i → i + Z.of_nat n ≤ zlen p → safe (λ r, ∀ j, r = Some j → i ≤ j ≤ i + Z.of_nat n) (ascii_loop n p i).
Proof.
  revert i. induction n as [|n IH]; intros i Hi Hl; cbn [ascii_loop].
  { apply safe_Ok. intros j [= <-]. lia. }
  destruct (rd_in p i) as (c & Hc & _); [lia |]. rewrite Hc, bind_ok.
  destruct (c =? 0). { apply safe_Ok. intros j [= <-]. lia. }
  destruct (l_ascii_isprint c); cbn [negb]; [| by apply safe_Ok].
  eapply safe_mono; [apply IH; lia |]. intros r Hr j Hj. specialize (Hr j Hj). lia.
Qed.

Lemma extract_ascii_string_safe max : attr_decoder_safe (extract_ascii_string max).
Proof.
  intros it [Hb Hl]. unfold extract_ascii_string. ret_step; [done |].
  apply returns_bind_ok; [eapply safe_returns, ascii_loop_safe; lia |]. intros [i|] Hr; [| done].
  pose proof (safe_ok_inv _ _ _ (ascii_loop_safe (Z.to_nat (wa_len it)) (wa_data it) 0 ltac:(lia) ltac:(lia)) Hr i eq_refl).
  repeat ret_step.
Qed.

Lemma nul_loop_safe n p i :
  0 ≤ i → i + Z.of_nat n ≤ zlen p → safe (λ j, i ≤ j ≤ i + Z.of_nat n) (nul_loop n p i).
Proof.
  revert i. induction n as [|n IH]; intros i Hi Hl; cbn [nul_loop]; [apply safe_Ok; lia |].
  destruct (rd_in p i) as (c & Hc & _); [lia |]. rewrite Hc, bind_ok.
  destruct (c =? 0); [apply safe_Ok; lia |]. eapply safe_mono; [apply IH; lia |]. simpl. lia.
Qed.

Lemma utf8_continue_safe n str i val : 0 ≤ i → i + Z.of_nat n ≤ zlen str → returns (utf8_continue n str i val).
Proof.
  revert i val. induction n as [|n IH]; intros i val Hi Hl; cbn [utf8_continue]; [done |].
  ret_step. destruct (Z.eqb_spec (Z.land a 0xc0) 0x80); cbn [negb]; [apply IH; lia | done].
Qed.

(** A character that is accepted is inside of the string. *)
Lemma l_utf8_get_codepoint_safe str len :
  0 < len ≤ zlen str → safe (λ '(r, _), r < 0 ∨ 1 ≤ r ≤ len) (l_utf8_get_codepoint str len).
Proof.
  intros Hl. unfold l_utf8_get_codepoint. destruct (Z.eqb_spec len 0); [lia |].
  destruct (rd_in str 0) as (b & Hb & _); [lia |]. rewrite Hb, bind_ok.
  destruct ((0 <? b) && (b <? 0x80)); [apply safe_Ok; lia |]. set (e := leading_ones b).
  destruct (Z.ltb_spec e 2), (Z.ltb_spec 4 e); cbn [orb]; try (apply safe_Ok; lia).
  destruct (Z.ltb_spec len e); [apply safe_Ok; lia |].
  eapply (safe_bind (λ _, True)).
  - pose proof (utf8_continue_safe (Z.to_nat (e - 1)) str 1 (Z.land b (Z.shiftr 0xff (e + 1))) ltac:(lia) ltac:(lia)).
    by destruct (utf8_continue _ _ _ _).
  - intros [v|] _; [case_match |]; apply safe_Ok; lia.
Qed.

Lemma utf8_validate_loop_safe fuel str len pos :
  0 ≤ pos ≤ len → len ≤ zlen str → len - pos < Z.of_nat fuel → returns (utf8_validate_loop fuel str len pos).
Proof.
  revert pos. induction fuel as [|fuel IH]; intros pos Hp Hl Hf; [cbn [utf8_validate_loop]; lia |].
  cbn [utf8_validate_loop]. destruct (Z.ltb_spec pos len); cbn [negb]; [| done].
  repeat ret_step.
  pose proof (l_utf8_get_codepoint_safe (str +! pos) (len - pos) ltac:(zlia)) as Hs.
  apply returns_bind_ok; [by eapply safe_returns |]. intros [r o] Hr. pose proof (safe_ok_inv _ _ _ Hs Hr) as Hlt.
  cbv beta iota in Hlt. destruct (Z.ltb_spec r 0); [done | apply IH; lia].
Qed.

Lemma extract_utf8_string_safe max : attr_decoder_safe (extract_utf8_string max).
Proof.
  intros it [Hb Hl]. unfold extract_utf8_string. ret_step; [done |].
  pose proof (nul_loop_safe (Z.to_nat (wa_len it)) (wa_data it) 0 ltac:(lia) ltac:(lia)) as Hs.
  apply returns_bind_ok; [by eapply safe_returns |]. intros i Hi. pose proof (safe_ok_inv _ _ _ Hs Hi) as Hr. cbv beta in Hr.
  unfold l_utf8_validate. apply returns_bind_ok.
  { apply returns_bind_ok; [apply utf8_validate_loop_safe; lia | done]. }
  intros ok _. destruct ok; cbn [negb]; repeat ret_step.
Qed.

Lemma extract_encrypted_settings_safe : attr_decoder_safe extract_encrypted_settings.
Proof. intros it [Hb Hl]. unfold extract_encrypted_settings. repeat ret_step. Qed.

Lemma extract_network_key_safe : attr_decoder_safe extract_network_key.
Proof.
  intros it [Hb Hl]. unfold extract_network_key. ret_step; [done |].
  destruct (Z.eqb_spec (wa_len it) 0) as [H0|H0]; [rewrite bind_ok; repeat ret_step |].
  destruct (rd_in (wa_data it) (wa_len it - 1)) as (c & Hc & _); [lia |]. rewrite Hc, !bind_ok.
  destruct (c =? 0); repeat ret_step.
Qed.

Lemma extract_new_password_safe : attr_decoder_safe extract_new_password.
Proof. intros it [Hb Hl]. unfold extract_new_password. repeat ret_step. Qed.
Lemma extract_ssid_safe : attr_decoder_safe extract_ssid.
Proof. intros it [Hb Hl]. unfold extract_ssid. repeat ret_step. Qed.

Lemma extract_os_version_safe : attr_decoder_safe extract_os_version.
Proof.
  intros it [Hb Hl]. unfold extract_os_version. ret_step; [| done].
  apply returns_bind_ok; [unfold l_get_be32; repeat ret_step | done].
Qed.

Lemma extract_primary_device_type_safe : attr_decoder_safe extract_primary_device_type.
Proof.
  intros it [Hb Hl]. unfold extract_primary_device_type, wsc_parse_primary_device_type.
  apply returns_bind_ok; [| done]. repeat ret_step.
Qed.

(** Every decoder the table names is safe. *)
Lemma handler_for_type_safe type h : handler_for_type type = Some h → attr_decoder_safe h.
Proof.
  unfold handler_for_type. intros Hh.
  repeat match type of Hh with (if _ then _ else _) = _ => case_match; [injection Hh as <- |] end; try done.
  all: first [ apply extract_bool_safe | apply extract_encrypted_settings_safe | apply extract_network_key_safe
    | apply extract_new_password_safe | apply extract_os_version_safe | apply extract_primary_device_type_safe
    | apply extract_ssid_safe | apply extract_ascii_string_safe | apply extract_utf8_string_safe
    | apply extract_fixed_safe; lia | apply num_checked_safe; (apply extract_uint8_safe || apply extract_uint16_safe) ].
Qed.

(** ** Iterators *)

(** The iterator is inside of the message [pdu]. *)
Record attr_iter_ok (pdu : ptr) (it : wsc_attr_iter) : Prop := {
  ai_pdu : wa_pdu it = pdu;
  ai_max : wa_max it = zlen pdu;
  ai_pos : 0 ≤ wa_pos it ≤ zlen pdu;
  ai_attr : attr_ok it;
  ai_len : wa_len it < 65536;
}.

Record wfa_iter_ok (it : wsc_wfa_ext_iter) : Prop := {
  xi_pdu : bytes_ok (wx_pdu it);
  xi_max : 0 ≤ wx_max it < 65536 ∧ wx_max it ≤ zlen (wx_pdu it);
  xi_pos : 0 ≤ wx_pos it;
  xi_data : bytes_ok (wx_data it) ∧ 0 ≤ wx_len it ≤ zlen (wx_data it);
}.

Lemma wsc_attr_iter_init_ok pdu : attr_iter_ok pdu (wsc_attr_iter_init pdu (zlen pdu)).
Proof. split; cbn; [done | done | zlia | split; [apply Forall_nil_2 | zlia] | lia]. Qed.

Lemma wsc_wfa_ext_iter_init_ok pdu len :
  bytes_ok pdu → 0 ≤ len < 65536 → len ≤ zlen pdu → wfa_iter_ok (wsc_wfa_ext_iter_init pdu len).
Proof.
  intros Hb Hl Hz. split; cbn; rewrite ?u16_small by lia; [done | lia | lia |].
  split; [apply Forall_nil_2 | zlia].
Qed.

(** A step of the iterator goes forward by at least the header. *)
Lemma wsc_attr_iter_next_safe pdu it :
  bytes_ok pdu → zlen pdu < 2 ^ 31 → attr_iter_ok pdu it →
  safe (λ r, ∀ it', r = Some it' → attr_iter_ok pdu it' ∧ wa_pos it + 4 ≤ wa_pos it') (wsc_attr_iter_next it).
Proof.
  intros Hb Hz [Hpdu Hmax Hpos [Hd Hl] _]. unfold wsc_attr_iter_next. rewrite Hpdu, Hmax, u32_small by lia.
  destruct (Z.leb_spec (zlen pdu) (wa_pos it + 4)); [by apply safe_Ok |].
  destruct (l_get_be16_in (pdu +! wa_pos it)) as (type & Ht & _); [auto with iwd | zlia |].
  destruct (l_get_be16_in (pdu +! (wa_pos it + 2))) as (len & Hlen & Hr); [auto with iwd | zlia |].
  rewrite Ht, bind_ok, Hlen, bind_ok. destruct (Z.ltb_spec (zlen pdu) (wa_pos it + 4 + len)); [by apply safe_Ok |].
  apply safe_Ok. intros it' [= <-]. split; [| cbn; lia].
  split; cbn; [done | done | lia | split; cbn; [auto with iwd | zlia] | lia].
Qed.

Lemma wsc_wfa_ext_iter_next_safe it :
  wfa_iter_ok it → safe (λ r, ∀ it', r = Some it' → wfa_iter_ok it') (wsc_wfa_ext_iter_next it).
Proof.
  intros [Hb [Hm Hz] Hpos Hd]. unfold wsc_wfa_ext_iter_next.
  destruct (Z.leb_spec (wx_max it) (wx_pos it + 2)); [by apply safe_Ok |].
  do 2 safe_step. destruct (Z.ltb_spec (wx_max it) (wx_pos it + 2 + a0)); [by apply safe_Ok |].
  apply safe_Ok. intros it' [= <-]. unfold byte_ok in *. rewrite u16_small by lia.
  split; cbn; [done | lia | lia | split; [auto with iwd | zlia]].
Qed.

Lemma wsc_attr_iter_recurse_wfa_ext_safe it :
  attr_ok it → wa_len it < 65536 →
  safe (λ r, ∀ x, r = Some x → wfa_iter_ok x) (wsc_attr_iter_recurse_wfa_ext it).
Proof.
  intros [Hb Hl] Hz. unfold wsc_attr_iter_recurse_wfa_ext. destruct (negb _); [by apply safe_Ok |].
  destruct (Z.ltb_spec (wa_len it) 3); [by apply safe_Ok |].
  eapply safe_bind; [apply safe_memeq; change (zlen wsc_wfa_oui) with 3; lia |]. intros [|] _; cbn [negb]; [| by apply safe_Ok].
  apply safe_Ok. intros x [= <-]. apply wsc_wfa_ext_iter_init_ok; [auto with iwd | lia | zlia].
Qed.

(** ** The parser *)

(** What the table may name. *)
Definition entries_ok (es : list attr_handler_entry) : Prop :=
  Forall (λ e, is_Some (handler_for_type (ah_type e))) es.

(** A decoded value comes from the decoder of its type. *)
Definition decoded (tv : Z * wsc_value) : Prop :=
  ∃ h it, handler_for_type tv.1 = Some h ∧ attr_ok it ∧ h it = Ok (Some tv.2).

Record attrs_ok (pdu : ptr) (s : attrs_state) : Prop := {
  ao_iter : attr_iter_ok pdu (as_iter s);
  ao_next : entries_ok (as_next s);
  ao_ext : wfa_iter_ok (as_ext s);
  ao_values : Forall decoded (as_values s);
}.

Lemma find_entry_found type es skipped e rest :
  find_entry type es = EntryFound skipped e rest → es = skipped ++ e :: rest ∧ ah_type e = type.
Proof.
  revert skipped. induction es as [|e0 es IH]; intros skipped; cbn [find_entry]; [done |].
  destruct (Z.eqb_spec type (ah_type e0)); [by intros [= <- <- <-] |].
  destruct (has_flag _ e0); [done |]. destruct (find_entry type es) as [| |sk e1 r1]; [done | done |].
  intros [= <- <- <-]. destruct (IH sk eq_refl) as [-> ?]. done.
Qed.

Lemma verify_version2_safe x :
  wfa_iter_ok x → safe (λ r, ∀ x', r = Some x' → wfa_iter_ok x') (verify_version2 x).
Proof.
  intros Hx. unfold verify_version2. eapply safe_bind; [by apply wsc_wfa_ext_iter_next_safe |].
  intros [it|] Hit; apply safe_Ok; [| done]. intros x' Hx'. case_match; [| done]. by apply Hit.
Qed.

Lemma attrs_step_safe pdu ext s :
  attrs_ok pdu s → safe (λ '(s', _), attrs_ok pdu s' ∧ as_iter s' = as_iter s) (attrs_step ext s).
Proof.
  intros Hs. destruct Hs as [Hi Hn Hx Hv]. unfold attrs_step.
  destruct (find_entry _ _) as [| |sk e rest] eqn:Hf; [done | |].
  - destruct ext; cbn [negb]; [| done]. destruct (negb _); [done |].
    eapply safe_bind; [apply wsc_attr_iter_recurse_wfa_ext_safe; [apply Hi | apply Hi] |]. intros [x|] Hx'; [| done].
    eapply safe_bind; [apply verify_version2_safe; by apply Hx' |]. intros [y|] Hy; [| done].
    apply safe_Ok. split; [| done]. split; cbn; [done | done | by apply Hy | done].
  - apply find_entry_found in Hf as [Hes He]. unfold entries_ok in Hn. rewrite Hes in Hn.
    apply Forall_app in Hn as [_ [[h Hh] Hrest]%list.Forall_cons]. rewrite Hh. cbn [nonnull]. rewrite bind_ok.
    eapply (safe_bind (λ r, h (as_iter s) = Ok r)).
    { pose proof (handler_for_type_safe _ _ Hh (as_iter s) ltac:(apply Hi)) as Hr. by destruct (h (as_iter s)). }
    intros [v|] Hdec; [| done]. apply safe_Ok. split; [| done]. split; cbn; [done | done | done |].
    apply Forall_app_2; [done |]. apply list.Forall_singleton. exists h, (as_iter s). split_and!; [done | apply Hi | done].
Qed.

Lemma set_iter_ok pdu it s : attrs_ok pdu s → attr_iter_ok pdu it → attrs_ok pdu (set_iter it s).
Proof. intros [] Hi. by split. Qed.

(** The fuel is enough: the position grows by the header at least. *)
Lemma attrs_loop_safe pdu fuel ext s :
  bytes_ok pdu → zlen pdu < 2 ^ 31 → attrs_ok pdu s → zlen pdu - wa_pos (as_iter s) < Z.of_nat fuel →
  safe (attrs_ok pdu) (attrs_loop fuel ext s).
Proof.
  intros Hb Hz. revert s. induction fuel as [|fuel IH]; intros s Hs Hf.
  { pose proof (ai_pos _ _ (ao_iter _ _ Hs)). lia. }
  cbn [attrs_loop]. eapply safe_bind; [apply (wsc_attr_iter_next_safe pdu); [done | done | apply Hs] |].
  intros [it|] Hit; [| by apply safe_Ok]. destruct (Hit it eq_refl) as [Hok Hpos].
  eapply safe_bind; [apply attrs_step_safe; by apply set_iter_ok |]. intros [s' more] [Hs' Hi].
  destruct more; [| by apply safe_Ok]. apply IH; [done |]. rewrite Hi. cbn. lia.
Qed.

Lemma seek_attr_safe pdu fuel type it :
  bytes_ok pdu → zlen pdu < 2 ^ 31 → attr_iter_ok pdu it → zlen pdu - wa_pos it < Z.of_nat fuel →
  safe (attr_iter_ok pdu) (seek_attr fuel type it).
Proof.
  intros Hb Hz. revert it. induction fuel as [|fuel IH]; intros it Hi Hf; [pose proof (ai_pos _ _ Hi); lia |].
  cbn [seek_attr]. destruct (wa_type it =? type); [by apply safe_Ok |].
  eapply safe_bind; [by apply (wsc_attr_iter_next_safe pdu) |]. intros [it'|] Hit; [| done].
  destruct (Hit it' eq_refl). apply IH; [done | lia].
Qed.

Lemma parse_authenticator_safe pdu fuel type it :
  bytes_ok pdu → zlen pdu < 2 ^ 31 → attr_iter_ok pdu it → zlen pdu - wa_pos it < Z.of_nat fuel →
  returns (parse_authenticator fuel (zlen pdu) type it).
Proof.
  intros Hb Hz Hi Hf. unfold parse_authenticator. eapply safe_returns with (P := λ _, True).
  eapply safe_bind; [by apply (seek_attr_safe pdu) |]. intros it' Hi'.
  eapply (safe_bind (λ _, True)).
  { pose proof (extract_fixed_safe 8 ltac:(lia) it' ltac:(apply Hi')) as Hr. unfold extract_authenticator. by destruct (extract_fixed 8 it'). }
  intros [[| a | | |]|] _; try done. eapply safe_bind; [by apply (wsc_attr_iter_next_safe pdu) |].
  intros [?|] _; [done |]. destruct (negb _); [done | by apply safe_Ok].
Qed.

Lemma wsc_parse_attrs_safe pdu ext auth entries :
  bytes_ok pdu → zlen pdu < 2 ^ 31 → entries_ok entries →
  safe (λ p, wfa_iter_ok (wp_ext p) ∧ Forall decoded (wp_values p)) (wsc_parse_attrs pdu (zlen pdu) ext auth entries).
Proof.
  intros Hb Hz He. unfold wsc_parse_attrs. eapply safe_bind.
  { apply (attrs_loop_safe pdu); [done | done | | cbn; lia]. split; cbn; [apply wsc_attr_iter_init_ok | done | | apply Forall_nil_2].
    apply wsc_wfa_ext_iter_init_ok; [apply Forall_nil_2 | lia | zlia]. }
  intros s Hs. destruct (existsb _ _); [done |]. eapply (safe_bind (λ _, True)).
  { destruct auth as [type|]; [| done].
    pose proof (parse_authenticator_safe pdu (S (S (Z.to_nat (zlen pdu)))) type (as_iter s) Hb Hz ltac:(apply Hs)) as Hr.
    pose proof (ai_pos _ _ (ao_iter _ _ Hs)). specialize (Hr ltac:(lia)). by destruct (parse_authenticator _ _ _ _). }
  intros a _. destruct (_ && _); [done |]. destruct (_ && _); [done |]. apply safe_Ok. split; apply Hs.
Qed.

(** ** The messages *)

Lemma wfa_extract_bool_safe it : wfa_iter_ok it → returns (wfa_extract_bool it).
Proof. intros [_ _ _ [Hb Hl]]. unfold wfa_extract_bool. repeat ret_step. Qed.
Lemma wfa_extract_authorized_macs_safe it :
  wfa_iter_ok it → safe (λ r, ∀ b, r = Some b → zlen b ≤ 30) (wfa_extract_authorized_macs it).
Proof.
  intros [_ _ _ [Hb Hl]]. unfold wfa_extract_authorized_macs.
  destruct (Z.eqb_spec (wx_len it) 0), (Z.ltb_spec 30 (wx_len it)); cbn [orb]; try by apply safe_Ok.
  destruct (negb _); [by apply safe_Ok |]. safe_step. apply safe_Ok. intros b [= <-]. lia.
Qed.
Lemma wfa_extract_registrar_configuration_methods_safe it :
  wfa_iter_ok it → returns (wfa_extract_registrar_configuration_methods it).
Proof. intros [_ _ _ [Hb Hl]]. unfold wfa_extract_registrar_configuration_methods. repeat ret_step. Qed.

Lemma returns_safe {A} (m : res A) : returns m → safe (λ _, True) m.
Proof. by destruct m. Qed.

Lemma wfa_request_to_enroll_safe x : wfa_iter_ok x → safe (λ _, True) (wfa_request_to_enroll x).
Proof.
  intros Hx. unfold wfa_request_to_enroll. eapply safe_bind; [by apply wsc_wfa_ext_iter_next_safe |].
  intros [it|] Hit; [| done]. specialize (Hit it eq_refl). destruct (_ =? _); [| done].
  eapply safe_bind; [by apply returns_safe, wfa_extract_bool_safe |]. intros [b|] _; [| done].
  eapply safe_bind; [by apply wsc_wfa_ext_iter_next_safe |]. by intros [?|] _.
Qed.

Lemma wfa_reg_methods_safe it : wfa_iter_ok it → safe (λ _, True) (wfa_reg_methods it).
Proof.
  intros Hx. unfold wfa_reg_methods. destruct (_ =? _); [| done].
  eapply safe_bind; [by apply returns_safe, wfa_extract_registrar_configuration_methods_safe |]. intros [b|] _; [| done].
  eapply safe_bind; [by apply wsc_wfa_ext_iter_next_safe |]. by intros [?|] _.
Qed.

Lemma wfa_registrar_safe x : wfa_iter_ok x → safe (λ _, True) (wfa_registrar x).
Proof.
  intros Hx. unfold wfa_registrar. eapply safe_bind; [by apply wsc_wfa_ext_iter_next_safe |].
  intros [it|] Hit; [| done]. specialize (Hit it eq_refl). destruct (_ =? _).
  2: { eapply safe_bind; [by apply wfa_reg_methods_safe | done]. }
  eapply safe_bind; [by apply wfa_extract_authorized_macs_safe |]. intros [macs|] _; [| done].
  eapply safe_bind; [by apply wsc_wfa_ext_iter_next_safe |]. intros [it'|] Hit'; [| done].
  eapply safe_bind; [apply wfa_reg_methods_safe; by apply Hit' | done].
Qed.

Lemma value_of_in type l v : value_of type l = Some v → (type, v) ∈ l.
Proof.
  induction l as [|[t w] l IH]; cbn [value_of]; [done |]. destruct (Z.eqb_spec t type) as [->|].
  - intros [= ->]. left.
  - intros Hv. right. by apply IH.
Qed.

(** The bytes behind an [iovec] of a type whose decoder bounds them. *)
Lemma iov_of_bound type l n :
  Forall decoded l → 0 ≤ n →
  (∀ h it b, handler_for_type type = Some h → attr_ok it → h it = Ok (Some (VIov b)) → zlen b ≤ n) → zlen (iov_of type l) ≤ n.
Proof.
  intros Hl Hn Hh. unfold iov_of. destruct (value_of type l) as [[| | | |b]|] eqn:Hv; rewrite ?zlen_nil; try lia.
  apply value_of_in in Hv. rewrite Forall_forall in Hl. destruct (Hl (type, VIov b)) as (h & it & Hty & Hok & Hdec); [by apply list_elem_of_In |].
  by eapply Hh.
Qed.

Lemma iov_of_ssid l : Forall decoded l → zlen (iov_of WSC_ATTR_SSID l) ≤ 32.
Proof.
  intros Hl. apply iov_of_bound; [done | lia |]. intros h it b [= <-] [Hb Hi]. unfold extract_ssid.
  destruct (Z.ltb_spec 32 (wa_len it)); [done |]. rewrite rdn_ok by lia. rewrite bind_ok. intros [= <-]. rewrite zlen_ptake; lia.
Qed.

Lemma iov_of_network_key l : Forall decoded l → zlen (iov_of WSC_ATTR_NETWORK_KEY l) ≤ 64.
Proof.
  intros Hl. apply iov_of_bound; [done | lia |]. intros h it b [= <-] [Hb Hi]. unfold extract_network_key.
  destruct (Z.ltb_spec 64 (wa_len it)); [done |]. intros H0. apply bind_Ok_inv in H0 as (n & Hn & H0). assert (n ≤ 64).
  { destruct (Z.eqb_spec (wa_len it) 0); [injection Hn as <-; lia |]. apply bind_Ok_inv in Hn as (c & Hc & Hn).
    injection Hn as <-. case_match; lia. }
  apply bind_Ok_inv in H0 as (k & Hk & H0). apply rdn_inv in Hk as [? ->]. injection H0 as <-. rewrite zlen_ptake; lia.
Qed.

(** The [memcpy] of an [iovec] into an array it fits in. *)
Lemma safe_put buf l : zlen l ≤ zlen buf → safe (λ b, zlen b = zlen buf) (put buf 0 l).
Proof.
  intros Hl. pose proof (zlen_nonneg l). destruct (put_returns buf 0 l) as [b Hb]; [lia | lia |]. rewrite Hb. by apply put_length in Hb.
Qed.

Lemma zlen_zeros n : zlen (zeros n) = Z.of_nat n.
Proof. unfold zeros, zlen. by rewrite length_replicate. Qed.

Section messages.
Variable pdu : ptr.
Hypotheses (Hbytes : bytes_ok pdu) (Hlen : zlen pdu < 2 ^ 31).

(** A parser whose table is followed by checks and extensions. *)
Ltac parser_safe :=
  eapply safe_returns with (P := λ _, True);
  eapply safe_bind; [apply wsc_parse_attrs_safe; [exact Hbytes | exact Hlen | repeat (apply Forall_cons_2; [by eexists |]); apply Forall_nil_2] |];
  let p := fresh "p" in let Hx := fresh "Hx" in let Hv := fresh "Hv" in
  intros p [Hx Hv]; cbv beta zeta;
  repeat match goal with |- safe _ (if ?b then _ else _) => destruct b; [exact I |] end;
  first [ exact I
        | eapply safe_bind; [first [by apply wfa_request_to_enroll_safe | by apply wfa_registrar_safe] | by intros; repeat case_match]
        | idtac ].

Lemma wsc_parse_credential_safe : returns (wsc_parse_credential pdu (zlen pdu)).
Proof.
  unfold wsc_parse_credential. parser_safe.
  eapply safe_bind; [apply safe_put; rewrite zlen_zeros; by apply iov_of_ssid |]. intros ssid Hs.
  destruct (_ =? 0); [done |]. eapply safe_bind; [| done].
  apply safe_put. rewrite zlen_zeros. pose proof (iov_of_network_key _ Hv). lia.
Qed.

Lemma credentials_loop_safe fuel max creds it :
  attr_iter_ok pdu it → zlen pdu - wa_pos it < Z.of_nat fuel →
  safe (λ '(_, it'), attr_iter_ok pdu it') (credentials_loop fuel max creds it).
Proof using Hbytes Hlen.
  revert creds it. induction fuel as [|fuel IH]; intros creds it Hi Hf; [pose proof (ai_pos _ _ Hi); lia |].
  cbn [credentials_loop]. destruct (_ =? _); [| by apply safe_Ok]. destruct (ai_attr _ _ Hi) as [Hb Hl].
  safe_step. eapply safe_bind; [by apply (wsc_attr_iter_next_safe pdu) |]. intros [it'|] Hit; [| done].
  destruct (Hit it' eq_refl). apply IH; [done | lia].
Qed.

Lemma next_or_bad_safe it :
  attr_iter_ok pdu it → safe (λ it', attr_iter_ok pdu it' ∧ wa_pos it + 4 ≤ wa_pos it') (next_or_bad it).
Proof using Hbytes Hlen.
  intros Hi. unfold next_or_bad. eapply safe_bind; [by apply (wsc_attr_iter_next_safe pdu) |].
  intros [it'|] Hit; [| done]. apply safe_Ok. by apply Hit.
Qed.

Lemma seek_or_bad_safe fuel type it :
  attr_iter_ok pdu it → zlen pdu - wa_pos it < Z.of_nat fuel → safe (attr_iter_ok pdu) (seek_or_bad fuel type it).
Proof using Hbytes Hlen.
  revert it. induction fuel as [|fuel IH]; intros it Hi Hf; [pose proof (ai_pos _ _ Hi); lia |].
  cbn [seek_or_bad]. destruct (_ =? _); [by apply safe_Ok |].
  eapply safe_bind; [by apply next_or_bad_safe |]. intros it' [Hi' Hp]. apply IH; [done | lia].
Qed.

Lemma extract_new_password_bound it b :
  extract_new_password it = Ok (Some (VIov b)) → zlen b ≤ 64.
Proof.
  unfold extract_new_password. destruct (Z.ltb_spec 64 (wa_len it)); [done |]. intros H0.
  apply bind_Ok_inv in H0 as (k & Hk & H0). apply rdn_inv in Hk as [? ->]. injection H0 as <-. rewrite zlen_ptake; lia.
Qed.

Lemma decoder_safe_eq {A} (h : wsc_attr_iter → res (option A)) it :
  attr_decoder_safe h → attr_iter_ok pdu it → safe (λ r, h it = Ok r) (h it).
Proof. intros Hh Hi. specialize (Hh it (ai_attr _ _ Hi)). by destruct (h it). Qed.

Lemma m8_new_password_safe it : attr_iter_ok pdu it → safe (λ '(_, _, it'), attr_iter_ok pdu it') (m8_new_password it).
Proof using Hbytes Hlen.
  intros Hi. unfold m8_new_password. destruct (_ =? WSC_ATTR_NEW_PASSWORD); [| done].
  eapply safe_bind; [by apply decoder_safe_eq; [apply extract_new_password_safe |] |]. intros [[| | | |b]|] Hb; try done.
  eapply safe_bind; [apply safe_put; rewrite zlen_zeros; by eapply extract_new_password_bound |]. intros np _.
  eapply safe_bind; [by apply next_or_bad_safe |]. intros it' [Hi' _]. destruct (negb _); [done | by apply safe_Ok].
Qed.

Lemma m8_password_id_safe it : attr_iter_ok pdu it → safe (λ '(_, it'), attr_iter_ok pdu it') (m8_password_id it).
Proof using Hbytes Hlen.
  intros Hi. unfold m8_password_id. destruct (_ =? WSC_ATTR_DEVICE_PASSWORD_ID); [| done].
  eapply safe_bind; [apply decoder_safe_eq; [apply num_checked_safe, extract_uint16_safe | done] |]. intros r _.
  eapply safe_bind; [by apply next_or_bad_safe |]. intros it' [Hi' _]. by apply safe_Ok.
Qed.

Lemma m8_settings_authenticator_safe fuel it :
  attr_iter_ok pdu it → zlen pdu - wa_pos it < Z.of_nat fuel → safe (λ _, True) (m8_settings_authenticator (zlen pdu) fuel it).
Proof using Hbytes Hlen.
  intros Hi Hf. unfold m8_settings_authenticator. eapply safe_bind; [by apply seek_or_bad_safe |]. intros it' Hi'.
  eapply safe_bind; [apply decoder_safe_eq; [apply extract_fixed_safe; lia | done] |].
  intros [[|a| | |]|] _; try done. destruct (negb _); [done | by apply safe_Ok].
Qed.

Lemma wsc_parse_m8_encrypted_settings_safe iovcnt : returns (wsc_parse_m8_encrypted_settings pdu (zlen pdu) iovcnt).
Proof using Hbytes Hlen.
  unfold wsc_parse_m8_encrypted_settings. eapply safe_returns with (P := λ _, True).
  eapply safe_bind; [apply next_or_bad_safe, wsc_attr_iter_init_ok |]. intros it1 [Hi1 _].
  eapply safe_bind; [apply credentials_loop_safe; [done | pose proof (ai_pos _ _ Hi1); lia] |]. intros [creds it2] Hi2.
  destruct creds as [|c creds]; [done |]. eapply safe_bind; [by apply m8_new_password_safe |]. intros [[np np_len] it3] Hi3.
  eapply safe_bind; [by apply m8_password_id_safe |]. intros [id it4] Hi4.
  eapply safe_bind; [apply m8_settings_authenticator_safe; [done | pose proof (ai_pos _ _ Hi4); lia] | done].
Qed.

Lemma wsc_parse_management_safe :
  returns (wsc_parse_beacon pdu (zlen pdu)) ∧ returns (wsc_parse_probe_response pdu (zlen pdu)) ∧
  returns (wsc_parse_probe_request pdu (zlen pdu)) ∧ returns (wsc_parse_association_request pdu (zlen pdu)) ∧
  returns (wsc_parse_association_response pdu (zlen pdu)).
Proof.
  unfold wsc_parse_beacon, wsc_parse_probe_response, wsc_parse_probe_request, wsc_parse_association_request,
    wsc_parse_association_response. split_and!; parser_safe.
Qed.

Lemma wsc_parse_registration_safe :
  returns (wsc_parse_m1 pdu (zlen pdu)) ∧ returns (wsc_parse_m2 pdu (zlen pdu)) ∧ returns (wsc_parse_m3 pdu (zlen pdu)) ∧
  returns (wsc_parse_m4 pdu (zlen pdu)) ∧ returns (wsc_parse_m5 pdu (zlen pdu)) ∧ returns (wsc_parse_m6 pdu (zlen pdu)) ∧
  returns (wsc_parse_m7 pdu (zlen pdu)) ∧ returns (wsc_parse_m8 pdu (zlen pdu)) ∧ returns (wsc_parse_wsc_ack pdu (zlen pdu)) ∧
  returns (wsc_parse_wsc_nack pdu (zlen pdu)) ∧ returns (wsc_parse_wsc_done pdu (zlen pdu)).
Proof.
  unfold wsc_parse_m1, wsc_parse_m2, wsc_parse_m3, wsc_parse_m4, wsc_parse_m5, wsc_parse_m6, wsc_parse_m7, wsc_parse_m8,
    wsc_parse_wsc_ack, wsc_parse_wsc_nack, wsc_parse_wsc_done. split_and!; parser_safe.
Qed.

Lemma wsc_parse_settings_safe :
  returns (wsc_parse_m4_encrypted_settings pdu (zlen pdu)) ∧ returns (wsc_parse_m5_encrypted_settings pdu (zlen pdu)) ∧
  returns (wsc_parse_m6_encrypted_settings pdu (zlen pdu)) ∧ returns (wsc_parse_m7_encrypted_settings pdu (zlen pdu)).
Proof.
  unfold wsc_parse_m4_encrypted_settings, wsc_parse_m5_encrypted_settings, wsc_parse_m6_encrypted_settings,
    wsc_parse_m7_encrypted_settings. split_and!; parser_safe.
Qed.

(** C26: Whatever the bytes that are received, every parser of src/wscutil.c returns a structure or
    an error: it reads no byte outside of the message or of the structures it fills, and its loops
    end. *)
Theorem wsc_parsers_safe iovcnt :
  (returns (wsc_parse_beacon pdu (zlen pdu)) ∧ returns (wsc_parse_probe_response pdu (zlen pdu)) ∧
   returns (wsc_parse_probe_request pdu (zlen pdu)) ∧ returns (wsc_parse_association_request pdu (zlen pdu)) ∧
   returns (wsc_parse_association_response pdu (zlen pdu))) ∧
  (returns (wsc_parse_m1 pdu (zlen pdu)) ∧ returns (wsc_parse_m2 pdu (zlen pdu)) ∧ returns (wsc_parse_m3 pdu (zlen pdu)) ∧
   returns (wsc_parse_m4 pdu (zlen pdu)) ∧ returns (wsc_parse_m5 pdu (zlen pdu)) ∧ returns (wsc_parse_m6 pdu (zlen pdu)) ∧
   returns (wsc_parse_m7 pdu (zlen pdu)) ∧ returns (wsc_parse_m8 pdu (zlen pdu)) ∧ returns (wsc_parse_wsc_ack pdu (zlen pdu)) ∧
   returns (wsc_parse_wsc_nack pdu (zlen pdu)) ∧ returns (wsc_parse_wsc_done pdu (zlen pdu))) ∧
  (returns (wsc_parse_m4_encrypted_settings pdu (zlen pdu)) ∧ returns (wsc_parse_m5_encrypted_settings pdu (zlen pdu)) ∧
   returns (wsc_parse_m6_encrypted_settings pdu (zlen pdu)) ∧ returns (wsc_parse_m7_encrypted_settings pdu (zlen pdu))) ∧
  returns (wsc_parse_m8_encrypted_settings pdu (zlen pdu) iovcnt) ∧ returns (wsc_parse_credential pdu (zlen pdu)).
Proof using Hbytes Hlen.
  split; [apply wsc_parse_management_safe |]. split; [apply wsc_parse_registration_safe |].
  split; [apply wsc_parse_settings_safe |]. split; [apply wsc_parse_m8_encrypted_settings_safe | apply wsc_parse_credential_safe].
Qed.
End messages.

Lemma wsc_parsers_safe_witness :
  let pdu := [0x10; 0x4a; 0; 1; 0x10; 0x10; 0x22; 0; 1; 7; 0x10; 0x39; 0xff] in
  bytes_ok pdu ∧ zlen pdu < 2 ^ 31 ∧ returns (wsc_parse_m3 pdu (zlen pdu)).
Proof.
  assert (H : bytes_ok [0x10; 0x4a; 0; 1; 0x10; 0x10; 0x22; 0; 1; 7; 0x10; 0x39; 0xff]) by by_eval.
  split; [exact H |]. split; [reflexivity |]. exact (proj1 (proj2 (proj2 (proj1 (proj2 (wsc_parsers_safe _ H eq_refl 3)))))).
Defined.
