(* ===== verification/WscSpec.v ===== *)
(** * Wi-Fi Simple Configuration: encoding of attributes

    A message is a sequence of attributes, each a type, a length and data ([attrs_bytes]).  The
    builder of src/wscutil.c writes this encoding ([builds], [wsc_run_builds]), and its parser
    reads from it the values that the table of a message asks for ([wsc_parse_attrs_match]). *)

From stdpp Require Import base numbers list option.
From Stdlib Require Import ZArith Lia.
From S2P Require Import Prelude StRes IeTlv IeMisc Crypto Handshake EapolFrame EapSpec Mschap Wsc WscMsg WscSafe.

Open Scope Z_scope.

Definition attr_bytes (a : Z * list Z) : list Z := be16_bytes a.1 ++ be16_bytes (zlen a.2) ++ a.2.
Definition attrs_bytes (l : list (Z * list Z)) : list Z := l ≫= attr_bytes.

Lemma zlen_attr_bytes a : zlen (attr_bytes a) = 4 + zlen a.2.
Proof. unfold attr_bytes. rewrite !zlen_app, !zlen_be16_bytes. lia. Qed.
Lemma attrs_bytes_app l k : attrs_bytes (l ++ k) = attrs_bytes l ++ attrs_bytes k.
Proof. apply bind_app. Qed.
Lemma attrs_bytes_cons a l : attrs_bytes (a :: l) = attr_bytes a ++ attrs_bytes l.
Proof. done. Qed.
Lemma attrs_bytes_one a : attrs_bytes [a] = attr_bytes a.
Proof. unfold attrs_bytes. cbn. by rewrite app_nil_r. Qed.

(** ** The builder *)

(** The attributes are in the buffer, the last of them without its length. *)
Definition wsc_rep (l : list (Z * list Z)) (b : wsc_attr_builder) : Prop :=
  128 ≤ wb_capacity b ∧ wb_capacity b = zlen (wb_buf b) ∧
  match l with
  | [] => wb_offset b = 0 ∧ wb_curlen b = 0
  | _ =>
      ∃ pre t d gap rest, l = pre ++ [(t, d)] ∧ zlen gap = 2 ∧ 4 + zlen d < 65536 ∧
        wb_offset b = zlen (attrs_bytes pre) ∧ wb_curlen b = 4 + zlen d ∧
        wb_buf b = attrs_bytes pre ++ be16_bytes t ++ gap ++ d ++ rest
  end.

(** The attributes are in the buffer, and the next one is to start. *)
Definition wsc_closed (l : list (Z * list Z)) (b : wsc_attr_builder) : Prop :=
  128 ≤ wb_capacity b ∧ wb_capacity b = zlen (wb_buf b) ∧ wb_offset b = zlen (attrs_bytes l) ∧
  ∃ rest, wb_buf b = attrs_bytes l ++ rest.

Lemma wsc_rep_snoc pre t d b :
  wsc_rep (pre ++ [(t, d)]) b ↔
  128 ≤ wb_capacity b ∧ wb_capacity b = zlen (wb_buf b) ∧
  ∃ gap rest, zlen gap = 2 ∧ 4 + zlen d < 65536 ∧ wb_offset b = zlen (attrs_bytes pre) ∧ wb_curlen b = 4 + zlen d ∧
    wb_buf b = attrs_bytes pre ++ be16_bytes t ++ gap ++ d ++ rest.
Proof.
  unfold wsc_rep. destruct (pre ++ [(t, d)]) as [|a l] eqn:E; [by destruct pre |].
  split; intros (Hc & Hz & H); split_and!; try done.
  - destruct H as (pre' & t' & d' & gap & rest & E' & H). rewrite <- E in E'.
    apply app_inj_tail in E' as [-> [= -> ->]]. eauto.
  - destruct H as (gap & rest & H). exists pre, t, d, gap, rest. by rewrite <- E.
Qed.

Section builder.
Variable junk : nat → Z.

Lemma wb_write_ok b pre mid post pos l :
  wb_buf b = pre ++ mid ++ post → pos = zlen pre → zlen mid = zlen l →
  wb_write pos l b = Ok (tt, mk_wsc_builder (wb_capacity b) (pre ++ l ++ post) (wb_offset b) (wb_curlen b)).
Proof.
  intros Hb Hp Hm. unfold wb_write. rewrite (sr_bind_ok get _ b b b) by done.
  by rewrite Hb, (put_mid pre mid post l pos).
Qed.

Lemma wb_close_ok l b : wsc_rep l b → wp wb_close (λ _, wsc_closed l) b.
Proof.
  intros H. unfold wb_close. sr_seq. destruct l as [|a l].
  { destruct H as (Hc & Hz & Ho & Hl). rewrite Hl. apply wp_pass.
    split_and!; [done | done | done |]. by exists (wb_buf b). }
  destruct (exists_last (l := a :: l) ltac:(done)) as (pre & [t d] & E). rewrite E in *.
  apply wsc_rep_snoc in H as (Hc & Hz & gap & rest & Hg & Hd & Ho & Hl & Hb).
  destruct (Z.ltb_spec 0 (wb_curlen b)); [| znn; lia]. sr_seq.
  eapply wp_ok; [eapply (wb_write_ok _ (attrs_bytes pre ++ be16_bytes t) gap (d ++ rest)); [by rewrite Hb, <- !app_assoc | rewrite zlen_app, zlen_be16_bytes; lia | by rewrite zlen_be16_bytes] |].
  unfold wb_set. sr_seq. unfold wsc_closed. cbn [wb_capacity wb_buf wb_offset wb_curlen].
  rewrite attrs_bytes_app, attrs_bytes_one. unfold attr_bytes. cbn [fst snd]. rewrite Hl.
  replace (4 + zlen d - 4) with (zlen d) by lia. split_and!.
  - done.
  - rewrite Hz, Hb, !zlen_app, !zlen_be16_bytes. lia.
  - rewrite !zlen_app, !zlen_be16_bytes. lia.
  - exists rest. by rewrite <- !app_assoc.
Qed.

(** Doubling the room keeps what is written. *)
Definition grown (b : wsc_attr_builder) : wsc_attr_builder :=
  mk_wsc_builder (wb_capacity b * 2) (wb_buf b ++ l_malloc junk (wb_capacity b)) (wb_offset b) (wb_curlen b).

Lemma zlen_grown b : 0 ≤ wb_capacity b → wb_capacity b = zlen (wb_buf b) → zlen (wb_buf (grown b)) = wb_capacity b * 2.
Proof. intros H1 H2. cbn. rewrite zlen_app, l_malloc_length by done. lia. Qed.

Lemma wsc_rep_grown pre t d b : wsc_rep (pre ++ [(t, d)]) b → wsc_rep (pre ++ [(t, d)]) (grown b).
Proof.
  rewrite !wsc_rep_snoc. intros (Hc & Hz & gap & rest & Hg & Hd & Ho & Hl & Hb).
  rewrite zlen_grown by lia. cbn [grown wb_capacity wb_buf wb_offset wb_curlen]. split_and!; [lia | done |].
  exists gap, (rest ++ l_malloc junk (wb_capacity b)). split_and!; try done. by rewrite Hb, <- !app_assoc.
Qed.

Lemma wsc_closed_grown l b : wsc_closed l b → wsc_closed l (grown b).
Proof.
  intros (Hc & Hz & Ho & rest & Hb). unfold wsc_closed. rewrite zlen_grown by lia.
  cbn [grown wb_capacity wb_buf wb_offset wb_curlen]. split_and!; [lia | done | done |].
  exists (rest ++ l_malloc junk (wb_capacity b)). by rewrite Hb, <- app_assoc.
Qed.

(** An attribute can be started at every point of a message. *)
Lemma start_attr_ok l t b :
  wsc_rep l b → wp (wsc_attr_builder_start_attr junk t) (λ ok b', ok = true ∧ wsc_rep (l ++ [(t, [])]) b') b.
Proof.
  intros H. unfold wsc_attr_builder_start_attr. sr_seq.
  assert (Hs : (wb_curlen b =? 0) && negb (wb_offset b =? 0) = false).
  { destruct l as [|a l]; [destruct H as (_ & _ & -> & ->); done |].
    destruct H as (_ & _ & pre & t' & d & gap & rest & _ & _ & _ & _ & -> & _).
    destruct (Z.eqb_spec (4 + zlen d) 0); [znn; lia | done]. }
  rewrite Hs. sr_seq. eapply wp_mono; [by apply wb_close_ok |]. intros u b1 Hb1; cbv beta in Hb1; clear u. sr_seq. unfold wb_set. sr_seq.
  eapply (wp_mono _ (λ _ b2, wsc_closed l b2 ∧ wb_curlen b2 = 4 ∧ wb_offset b2 + 4 ≤ wb_capacity b2 ∧ wb_offset b2 = wb_offset b1)).
  { destruct (Z.leb_spec (wb_capacity b1) (wb_offset b1 + 4)).
    - unfold wsc_attr_builder_grow. sr_seq. split_and!; [apply (wsc_closed_grown l (mk_wsc_builder _ _ _ 4)) | done | cbn | done].
      + exact Hb1.
      + destruct Hb1 as (Hc & Hz & Ho & rest & Hb). rewrite Hz, Hb, zlen_app in *. znn. lia.
    - apply wp_pass. split_and!; [exact Hb1 | done | cbn; lia | done]. }
  intros u b2 ((Hc & Hz & Ho & rest & Hb) & Hl & Hr & Hoff). rewrite <- Hoff. sr_seq.
  assert (Hrest : 4 ≤ zlen rest) by (rewrite Hz, Hb, Ho, zlen_app in Hr; lia).
  eapply wp_ok; [eapply (wb_write_ok _ (attrs_bytes l) (ptake rest 2) (rest +! 2)); [by rewrite ptake_padd_id | done | by rewrite zlen_ptake by lia] |].
  sr_seq. split; [done |]. apply wsc_rep_snoc. cbn [wb_capacity wb_buf wb_offset wb_curlen].
  split_and!; [done | |].
  - rewrite Hz, Hb, !zlen_app, zlen_be16_bytes, zlen_padd by lia. lia.
  - exists (ptake (rest +! 2) 2), (rest +! 2 +! 2). rewrite zlen_ptake by zlia. split_and!; try done.
    cbn [app]. by rewrite ptake_padd_id.
Qed.

(** The write of data into the room that is there. *)
Lemma wb_append_ok pre t d l b :
  wsc_rep (pre ++ [(t, d)]) b → 4 + zlen d + zlen l < 65536 → wb_offset b + wb_curlen b + zlen l ≤ wb_capacity b →
  wp (wb_write (wb_offset b + wb_curlen b) l;; wb_set (wb_offset b) (u16 (wb_curlen b + zlen l)))
     (λ _, wsc_rep (pre ++ [(t, d ++ l)])) b.
Proof.
  rewrite !wsc_rep_snoc. intros (Hc & Hz & gap & rest & Hg & Hd & Ho & Hl & Hb) Hsz Hroom. sr_seq.
  assert (Hrest : zlen l ≤ zlen rest) by (rewrite Hz, Hb, Ho, Hl, !zlen_app, zlen_be16_bytes in Hroom; lia).
  eapply wp_ok; [eapply (wb_write_ok _ (attrs_bytes pre ++ be16_bytes t ++ gap ++ d) (ptake rest (zlen l)) (rest +! zlen l)) |].
  { by rewrite Hb, <- !app_assoc, ptake_padd_id. }
  { rewrite !zlen_app, zlen_be16_bytes. lia. }
  { rewrite zlen_ptake; [done | znn; lia]. }
  unfold wb_set. sr_seq. apply wsc_rep_snoc. cbn [wb_capacity wb_buf wb_offset wb_curlen]. split_and!; [done | |].
  - rewrite Hz, Hb, !zlen_app, zlen_padd by (znn; lia). lia.
  - exists gap, (rest +! zlen l). rewrite zlen_app, u16_small by (znn; lia). split_and!; try done; try lia.
    by rewrite <- !app_assoc.
Qed.

Lemma wsc_rep_room pre t d b : wsc_rep (pre ++ [(t, d)]) b → wb_offset b + wb_curlen b ≤ wb_capacity b.
Proof.
  rewrite wsc_rep_snoc. intros (Hc & Hz & gap & rest & Hg & Hd & Ho & Hl & Hb).
  rewrite Hz, Hb, Ho, Hl, !zlen_app, zlen_be16_bytes. znn. lia.
Qed.

(** [m] adds data to the current attribute, or adds attributes to the message. *)
Definition appends (m : sr wsc_attr_builder unit) (l : list Z) : Prop :=
  ∀ pre t d b, wsc_rep (pre ++ [(t, d)]) b → 4 + zlen d + zlen l < 65536 →
    wp m (λ _, wsc_rep (pre ++ [(t, d ++ l)])) b.
Definition builds (m : sr wsc_attr_builder unit) (l : list (Z * list Z)) : Prop :=
  ∀ k b, wsc_rep k b → wp m (λ _, wsc_rep (k ++ l)) b.

Lemma appends_put l : zlen l ≤ 128 → appends (wb_put junk l) l.
Proof.
  intros Hl pre t d b H Hsz. pose proof (wsc_rep_room _ _ _ _ H) as Hroom. unfold wb_put. sr_seq.
  eapply (wp_mono _ (λ _ b', wsc_rep (pre ++ [(t, d)]) b' ∧ wb_offset b' = wb_offset b ∧ wb_curlen b' = wb_curlen b ∧
                               wb_offset b + wb_curlen b + zlen l ≤ wb_capacity b')).
  { destruct (Z.leb_spec (wb_capacity b) (wb_offset b + wb_curlen b + zlen l)).
    - unfold wsc_attr_builder_grow. sr_seq. split_and!; [by apply (wsc_rep_grown pre t d b) | done | done |].
      cbn. destruct H as (Hc & _). lia.
    - apply wp_pass. split_and!; [done | done | done | lia]. }
  intros u b' (H' & Ho & Hc & Hr); clear u. rewrite <- Ho, <- Hc. apply wb_append_ok; [done | done | lia].
Qed.

Lemma wb_reserve_ok fuel size pre t d b :
  wsc_rep (pre ++ [(t, d)]) b → wb_offset b + wb_curlen b + size - wb_capacity b + 1 < Z.of_nat fuel →
  (0 < fuel)%nat →
  wp (wb_reserve junk fuel size) (λ _ b', wsc_rep (pre ++ [(t, d)]) b' ∧ wb_offset b' = wb_offset b ∧ wb_curlen b' = wb_curlen b ∧
                                wb_offset b + wb_curlen b + size ≤ wb_capacity b') b.
Proof.
  revert b. induction fuel as [|fuel IH]; intros b H Hf H0; [lia |]. cbn [wb_reserve]. sr_seq.
  destruct (Z.leb_spec (wb_capacity b) (wb_offset b + wb_curlen b + size)).
  - unfold wsc_attr_builder_grow. sr_seq.
    assert (128 ≤ wb_capacity b) by apply H.
    eapply wp_mono; [apply (IH (grown b)); [by apply wsc_rep_grown | cbn; lia | lia] |].
    by intros u b'.
  - apply wp_pass. split_and!; [done | done | done | lia].
Qed.

Lemma appends_bytes l : appends (wsc_attr_builder_put_bytes junk l) l.
Proof.
  intros pre t d b H Hsz. pose proof (wsc_rep_room _ _ _ _ H) as Hroom. unfold wsc_attr_builder_put_bytes. sr_seq.
  eapply wp_mono; [apply (wb_reserve_ok _ _ pre t d); [done | znn; lia | lia] |].
  intros u b' (H' & Ho & Hc & Hr); clear u. apply wp_bind, wp_get. apply wb_append_ok; [done | done | lia].
Qed.

Lemma appends_seq m m' l l' : appends m l → appends m' l' → appends (m;; m') (l ++ l').
Proof.
  intros Hm Hm' pre t d b H Hsz. rewrite zlen_app in Hsz. sr_seq.
  eapply wp_mono; [apply Hm; [exact H | znn; lia] |]. intros u b' H'; cbv beta in *; clear u. rewrite app_assoc.
  apply Hm'; [done | rewrite zlen_app; lia].
Qed.

Lemma appends_pass : appends pass [].
Proof. intros pre t d b H _. apply wp_pass. by rewrite app_nil_r. Qed.

Lemma appends_when (c : bool) m l : appends m l → appends (when c m) (if c then l else []).
Proof. intros H. destruct c; [done | apply appends_pass]. Qed.

Lemma builds_attr t m l : appends m l → 4 + zlen l < 65536 → builds (wsc_attr_builder_start_attr junk t;; m) [(t, l)].
Proof.
  intros Hm Hsz k b H. sr_seq. eapply wp_mono; [by apply start_attr_ok |]. intros ok b' [_ H'].
  change [(t, l)] with [(t, [] ++ l)]. apply Hm; [done | by rewrite zlen_nil].
Qed.

Lemma builds_seq m m' l l' : builds m l → builds m' l' → builds (m;; m') (l ++ l').
Proof.
  intros Hm Hm' k b H. sr_seq. eapply wp_mono; [by apply Hm |]. intros u b' H'; cbv beta in *; clear u. rewrite app_assoc. by apply Hm'.
Qed.

Lemma builds_pass : builds pass [].
Proof. intros k b H. apply wp_pass. by rewrite app_nil_r. Qed.

Lemma builds_when (c : bool) m l : (c = true → builds m l) → builds (when c m) (if c then l else []).
Proof. intros H. destruct c; [by apply H | apply builds_pass]. Qed.

(** What a builder returns. *)
Lemma wsc_run_builds capacity m l : 128 ≤ capacity → builds m l → wsc_run junk capacity m = Ok (attrs_bytes l).
Proof.
  intros Hc Hm. unfold wsc_run.
  assert (H : wp (m;; wsc_attr_builder_free) (λ out _, out = attrs_bytes l) (wsc_attr_builder_new junk capacity)).
  { sr_seq. eapply wp_mono; [apply (Hm []) |].
    - split_and!; cbn; [done | by rewrite l_malloc_length by lia | done | done].
    - intros u b H; cbv beta in *; clear u. cbn [app] in H. unfold wsc_attr_builder_free. sr_seq. eapply wp_mono; [by apply wb_close_ok |].
      intros u b' (_ & _ & Ho & rest & Hb). sr_seq. rewrite Hb, Ho. eapply wp_run; [by apply rdn_app | done]. }
  apply wp_inv in H as (out & b & -> & ->). by rewrite bind_ok.
Qed.

(** *** Attributes with one value *)

Lemma builds_u8 t v : builds (wsc_attr_builder_start_attr junk t;; wsc_attr_builder_put_u8 junk v) [(t, [u8 v])].
Proof. apply builds_attr; [apply appends_put; done | done]. Qed.
Lemma builds_u16 t v : builds (wsc_attr_builder_start_attr junk t;; wsc_attr_builder_put_u16 junk v) [(t, be16_bytes v)].
Proof. apply builds_attr; [apply appends_put; done | done]. Qed.
Lemma builds_u32 t v : builds (wsc_attr_builder_start_attr junk t;; wsc_attr_builder_put_u32 junk v) [(t, be32_bytes v)].
Proof. apply builds_attr; [apply appends_put; done | done]. Qed.
Lemma builds_put_bytes t l :
  zlen l < 65532 → builds (wsc_attr_builder_start_attr junk t;; wsc_attr_builder_put_bytes junk l) [(t, l)].
Proof. intros. apply builds_attr; [apply appends_bytes | lia]. Qed.

Lemma builds_rdn t p n :
  0 ≤ n ≤ zlen p → n < 65532 →
  builds (wsc_attr_builder_start_attr junk t;; b ← run (rdn p n); wsc_attr_builder_put_bytes junk b) [(t, ptake p n)].
Proof.
  intros Hn Hs k b H. sr_seq. eapply wp_mono; [by apply start_attr_ok |]. intros ok b' [_ H']. sr_seq.
  eapply wp_run; [by apply rdn_ok |]. cbv beta. change [(t, ptake p n)] with [(t, [] ++ ptake p n)].
  apply appends_bytes; [done | rewrite zlen_nil, zlen_ptake; lia].
Qed.
Lemma builds_array t p n :
  zlen p = n → n < 65532 →
  builds (wsc_attr_builder_start_attr junk t;; b ← run (rdn p n); wsc_attr_builder_put_bytes junk b) [(t, p)].
Proof. intros Hn Hs. pose proof (builds_rdn t p n). rewrite ptake_all in H by lia. apply H; znn; lia. Qed.

(** What is sent of a string: never nothing. *)
Definition wsc_string (s : list Z) : list Z := match s with [] => [32] | _ => s end.

Lemma builds_string t s :
  zlen s ≤ 128 → builds (wsc_attr_builder_start_attr junk t;; wsc_attr_builder_put_string junk s) [(t, wsc_string s)].
Proof. intros Hs. apply builds_attr; destruct s; [apply appends_put; done | by apply appends_put | done | cbn [wsc_string]; lia]. Qed.
End builder.

(** ** The parser *)

(** The decoder of the type reads the value from the data. *)
Definition decodes (t : Z) (d : list Z) (v : wsc_value) : Prop :=
  ∃ h, handler_for_type t = Some h ∧ ∀ it rest, wa_len it = zlen d → wa_data it = d ++ rest → h it = Ok (Some v).

(** The attributes follow the table, with the values they have and the entries that are present. *)
Inductive attrs_match : list attr_handler_entry → list (Z * list Z) → list (Z * wsc_value) →
    list (attr_handler_entry * bool) → Prop :=
  | match_end es :
      existsb (has_flag WSC_ATTR_FLAG_REQUIRED) es = false → attrs_match es [] [] ((λ e, (e, false)) <$> es)
  | match_attr es skipped e rest t d v l vs ps :
      find_entry t es = EntryFound skipped e rest → decodes t d v → zlen d < 65536 →
      attrs_match rest l vs ps →
      attrs_match es ((t, d) :: l) ((t, v) :: vs) (((λ e, (e, false)) <$> skipped) ++ (e, true) :: ps).

(** An iterator in front of [rest] in [pre ++ rest]. *)
Definition attr_at (pre rest : list Z) (it : wsc_attr_iter) : Prop :=
  wa_pdu it = pre ++ rest ∧ wa_max it = zlen (pre ++ rest) ∧ wa_pos it = zlen pre.

Lemma padd_app_plus (l k : list Z) n : 0 ≤ n → (l ++ k) +! (zlen l + n) = k +! n.
Proof. intros Hn. rewrite <- padd_padd by (znn; lia). by rewrite padd_app. Qed.

Lemma wsc_attr_iter_next_attr pre t d rest it :
  attr_at pre (attr_bytes (t, d) ++ rest) it → 0 ≤ t < 65536 → zlen d < 65536 → d ++ rest ≠ [] →
  zlen (pre ++ attr_bytes (t, d) ++ rest) < 2 ^ 31 →
  ∃ it', wsc_attr_iter_next it = Ok (Some it') ∧ attr_at (pre ++ attr_bytes (t, d)) rest it' ∧
         wa_type it' = t ∧ wa_len it' = zlen d ∧ wa_data it' = d ++ rest.
Proof.
  intros (Hp & Hm & Hpos) Ht Hd Hne Hz. unfold wsc_attr_iter_next. rewrite Hp, Hm, Hpos in *.
  assert (Hr : 0 < zlen d + zlen rest).
  { rewrite <- zlen_app. pose proof (zlen_nonneg (d ++ rest)). destruct (Z.eq_dec (zlen (d ++ rest)) 0) as [E|]; [| lia].
    by apply zlen_0_inv in E. }
  rewrite !zlen_app, zlen_attr_bytes in *. cbn [snd] in *. znn. rewrite u32_small by lia.
  destruct (Z.leb_spec (zlen pre + (4 + zlen d + zlen rest)) (zlen pre + 4)); [lia |].
  unfold attr_bytes in *. cbn [fst snd] in *. rewrite <- !app_assoc.
  rewrite (padd_app pre _ (zlen pre)), l_get_be16_bytes, bind_ok by done.
  rewrite (padd_app_plus pre _ 2), (padd_app (be16_bytes t) _ 2), l_get_be16_bytes, bind_ok by (done || lia).
  destruct (Z.ltb_spec (zlen pre + (4 + zlen d + zlen rest)) (zlen pre + 4 + zlen d)); [lia |].
  eexists. split; [done |]. unfold attr_at. cbn [wa_pdu wa_max wa_pos wa_type wa_len wa_data]. split_and!; try done.
  - by rewrite <- !app_assoc.
  - rewrite !zlen_app, !zlen_be16_bytes. lia.
  - rewrite !zlen_app, !zlen_be16_bytes. lia.
  - rewrite (padd_app_plus pre _ 4) by lia. by rewrite app_assoc, padd_app.
Qed.

Lemma wsc_attr_iter_next_end pre it :
  attr_at pre [] it → zlen pre < 2 ^ 31 → wsc_attr_iter_next it = Ok None.
Proof.
  intros (_ & Hm & Hpos) Hz. unfold wsc_attr_iter_next. rewrite Hm, Hpos, app_nil_r. znn. rewrite u32_small by lia.
  destruct (Z.leb_spec (zlen pre) (zlen pre + 4)); [done | lia].
Qed.

Definition sr_present (l : list (Z * list Z)) : bool := existsb (λ a, a.1 =? WSC_ATTR_SELECTED_REGISTRAR) l.

Definition types_ok (l : list (Z * list Z)) : Prop := Forall (λ a, 0 ≤ a.1 < 65536) l.

(** The loop of the parser reads the attributes of the table, and is left in front of what follows. *)
Lemma attrs_loop_match es l vs ps :
  attrs_match es l vs ps → types_ok l → ∀ fuel ext pre post it passed values v2 sr x,
  attr_at pre (attrs_bytes l ++ post) it → zlen (pre ++ attrs_bytes l ++ post) < 2 ^ 31 →
  (∀ k d, l = k ++ [d] → d.2 ++ post ≠ []) →
  ∃ it' passed' es',
    attrs_loop (length l + fuel) ext (mk_attrs it passed es values v2 sr x) =
      attrs_loop fuel ext (mk_attrs it' passed' es' (values ++ vs) v2 (sr || sr_present l) x) ∧
    attr_at (pre ++ attrs_bytes l) post it' ∧ existsb (has_flag WSC_ATTR_FLAG_REQUIRED) es' = false ∧
    (∃ k, es = k ++ es') ∧ passed' ++ ((λ e, (e, false)) <$> es') = passed ++ ps.
Proof.
  induction 1 as [es Hes|es skipped e rest t d v l vs ps Hf (h & Hh & Hdec) Hsz Hm IH];
    intros Hty fuel ext pre post it passed values v2 sr x Hat Hz Hlast.
  { exists it, passed, es. cbn [attrs_bytes length Nat.add sr_present existsb]. rewrite app_nil_r, orb_false_r.
    split_and!; [done | by change (attrs_bytes []) with (@nil Z) in *; rewrite app_nil_r | done | by exists [] | done]. }
  apply list.Forall_cons in Hty as [Ht Hty]. cbn [fst] in Ht.
  change (attrs_bytes ((t, d) :: l)) with (attr_bytes (t, d) ++ attrs_bytes l) in *. rewrite <- app_assoc in Hat, Hz.
  destruct (wsc_attr_iter_next_attr pre t d (attrs_bytes l ++ post) it Hat) as (it1 & Hn & Hat1 & Ht1 & Hl1 & Hd1); [done | done | | done |].
  { destruct l as [|a l]; [by apply (Hlast [] (t, d)) |]. intros [_ [Ha _]%app_nil]%app_nil.
    apply (f_equal zlen) in Ha. change (attrs_bytes (a :: l)) with (attr_bytes a ++ attrs_bytes l) in Ha. rewrite zlen_app, zlen_attr_bytes, zlen_nil in Ha. znn. lia. }
  cbn [length Nat.add attrs_loop as_iter]. rewrite Hn, bind_ok. unfold attrs_step, set_iter. cbn [as_iter as_next as_passed as_values as_version2 as_sr as_ext].
  rewrite Ht1, Hf. apply find_entry_found in Hf as [Hes He]. rewrite He, Hh. cbn [nonnull]. rewrite bind_ok, (Hdec it1 _ Hl1 Hd1), !bind_ok.
  cbv beta iota.
  edestruct (IH Hty fuel ext (pre ++ attr_bytes (t, d)) post it1) as (it2 & passed2 & es2 & Hloop & Hat2 & Hreq & [k Hk] & Hps).
  { exact Hat1. } { by rewrite <- app_assoc. } { intros k d' ->. by apply (Hlast ((t, d) :: k)). }
  exists it2, passed2, es2. rewrite Hloop, <- !app_assoc. cbn [app]. split_and!.
  - unfold sr_present. cbn [existsb fst]. by rewrite orb_assoc.
  - by rewrite <- app_assoc in Hat2.
  - done.
  - exists (skipped ++ e :: k). by rewrite Hes, Hk, <- app_assoc.
  - rewrite Hps, <- !app_assoc. done.
Qed.

(** *** Extensions *)

(** An extension iterator in front of the subelements [m]. *)
Definition wfa_at (m : list Z) (x : wsc_wfa_ext_iter) : Prop :=
  ∃ pre post, wx_pdu x = pre ++ m ++ post ∧ wx_max x = zlen pre + zlen m ∧ wx_pos x = zlen pre ∧
    zlen pre + zlen m < 65536.

Lemma wfa_at_none : wfa_at [] (wsc_wfa_ext_iter_init [] 0).
Proof. by exists [], []. Qed.

Lemma wsc_wfa_ext_iter_next_end x : wfa_at [] x → wsc_wfa_ext_iter_next x = Ok None.
Proof.
  intros (pre & post & Hp & Hm & Hpos & Hz). unfold wsc_wfa_ext_iter_next. rewrite Hm, Hpos, zlen_nil.
  destruct (Z.leb_spec (zlen pre + 0) (zlen pre + 2)); [done | lia].
Qed.

Lemma wsc_wfa_ext_iter_next_sub t d m x :
  wfa_at ([t; zlen d] ++ d ++ m) x → d ++ m ≠ [] →
  ∃ x', wsc_wfa_ext_iter_next x = Ok (Some x') ∧ wfa_at m x' ∧ wx_type x' = t ∧ wx_len x' = zlen d ∧
        ∃ rest, wx_data x' = d ++ rest.
Proof.
  intros (pre & post & Hp & Hm & Hpos & Hz) Hne. unfold wsc_wfa_ext_iter_next. rewrite Hm, Hpos, Hp in *.
  assert (Hr : 0 < zlen d + zlen m).
  { rewrite <- zlen_app. pose proof (zlen_nonneg (d ++ m)). destruct (Z.eq_dec (zlen (d ++ m)) 0) as [E|]; [| lia].
    by apply zlen_0_inv in E. }
  rewrite !zlen_app in *. change (zlen [t; zlen d]) with 2 in *.
  destruct (Z.leb_spec (zlen pre + (2 + (zlen d + zlen m))) (zlen pre + 2)); [lia |].
  rewrite (rd_app_r pre _ (zlen pre)), (rd_app_r pre _ (zlen pre + 1)) by lia.
  replace (zlen pre - zlen pre) with 0 by lia. replace (zlen pre + 1 - zlen pre) with 1 by lia. cbn [app].
  change (rd (t :: zlen d :: ?k) 0) with (Ok t). change (rd (t :: zlen d :: ?k) 1) with (Ok (zlen d)). rewrite !bind_ok.
  destruct (Z.ltb_spec (zlen pre + (2 + (zlen d + zlen m))) (zlen pre + 2 + zlen d)); [znn; lia |].
  eexists. split; [done |]. cbn [wx_pdu wx_max wx_pos wx_type wx_len wx_data]. split_and!; try done.
  - exists (pre ++ [t; zlen d] ++ d), post. cbn [wx_pdu wx_max wx_pos]. rewrite !zlen_app. change (zlen [t; zlen d]) with 2.
    znn. rewrite u16_small by lia. split_and!; [| lia | lia | lia]. rewrite <- ?app_assoc. cbn [app]. by rewrite <- ?app_assoc.
  - exists (m ++ post). rewrite padd_app_plus by lia. by rewrite <- !app_assoc.
Qed.

(** The vendor extension of a Version 2 message, with the subelements [m] behind Version2. *)
Definition wfa_attr (m : list Z) : Z * list Z :=
  (WSC_ATTR_VENDOR_EXTENSION, wsc_wfa_oui ++ [WSC_WFA_EXTENSION_VERSION2; 1; 0x20] ++ m).

Lemma recurse_wfa_attr m it rest :
  wa_type it = WSC_ATTR_VENDOR_EXTENSION → wa_len it = zlen (wfa_attr m).2 → wa_data it = (wfa_attr m).2 ++ rest →
  zlen m < 60000 →
  ∃ x y, wsc_attr_iter_recurse_wfa_ext it = Ok (Some x) ∧ verify_version2 x = Ok (Some y) ∧ wfa_at m y.
Proof.
  intros Ht Hl Hd Hz. unfold wsc_attr_iter_recurse_wfa_ext. rewrite Ht, Hl, Hd. cbn [wfa_attr snd].
  rewrite <- app_assoc, memeq_app, bind_ok. rewrite !zlen_app. change (zlen wsc_wfa_oui) with 3.
  set (v := [WSC_WFA_EXTENSION_VERSION2; 1; 0x20]). change (zlen v) with 3. znn.
  destruct (Z.ltb_spec (3 + (3 + zlen m)) 3); [lia |]. rewrite Z.eqb_refl. cbn [negb].
  replace (3 + (3 + zlen m) - 3) with (3 + zlen m) by lia. rewrite (padd_app wsc_wfa_oui _ 3) by done.
  eexists. edestruct (wsc_wfa_ext_iter_next_sub 0 [0x20] m (wsc_wfa_ext_iter_init ((v ++ m) ++ rest) (3 + zlen m)))
    as (y & Hn & Hy & Ht' & Hl' & _); [| done |].
  { exists [], rest. cbn [wsc_wfa_ext_iter_init wx_pdu wx_max wx_pos]. rewrite u16_small by lia.
    assert (E : zlen ([0; zlen [0x20]] ++ [0x20] ++ m) = 3 + zlen m) by (cbn [app]; rewrite !zlen_cons; lia).
    rewrite E. change (zlen (@nil Z)) with 0. split_and!; [done | lia | done | lia]. }
  exists y. split; [done |]. unfold verify_version2. rewrite Hn, bind_ok, Ht', Hl'. done.
Qed.

Lemma find_entry_none t es :
  existsb (has_flag WSC_ATTR_FLAG_REQUIRED) es = false → Forall (λ e, ah_type e ≠ t) es → find_entry t es = EntryNone.
Proof.
  induction es as [|e es IH]; cbn [existsb find_entry]; [done |]. intros [He Hes]%orb_false_iff [Ht Hf]%list.Forall_cons.
  destruct (Z.eqb_spec t (ah_type e)); [congruence |]. rewrite He, IH by done. done.
Qed.

(** *** The end of a message *)

(** What follows the attributes of the table: an extension, and an authenticator. *)
Definition tail_attrs (sub : option (list Z)) (auth : option (Z * list Z)) : list (Z * list Z) :=
  match sub with Some m => [wfa_attr m] | None => [] end ++ match auth with Some a => [a] | None => [] end.

(** The authenticator has eight bytes and a type that nothing else has. *)
Definition auth_ok (auth : option (Z * list Z)) : Prop :=
  ∀ t a, auth = Some (t, a) → zlen a = 8 ∧ 0 ≤ t < 65536 ∧ t ≠ WSC_ATTR_VENDOR_EXTENSION.

Definition ends_with_auth (auth : option (Z * list Z)) (pre : list Z) (it : wsc_attr_iter) : Prop :=
  ∀ t a, auth = Some (t, a) → wa_type it = t ∧ wa_len it = zlen a ∧ wa_data it = a ∧ attr_at pre [] it.

(** The loop stops at the authenticator, or at the end of the message. *)
Lemma attrs_loop_auth auth fuel ext pre it passed es values v2 sr x :
  auth_ok auth → attr_at pre (attrs_bytes (tail_attrs None auth)) it → zlen pre + 12 < 2 ^ 31 → (0 < fuel)%nat →
  existsb (has_flag WSC_ATTR_FLAG_REQUIRED) es = false → (∀ t a, auth = Some (t, a) → Forall (λ e, ah_type e ≠ t) es) →
  ∃ it', attrs_loop fuel ext (mk_attrs it passed es values v2 sr x) = Ok (mk_attrs it' passed es values v2 sr x) ∧
    ends_with_auth auth (pre ++ attrs_bytes (tail_attrs None auth)) it'.
Proof.
  intros Ha Hat Hz Hf Hreq Hes. destruct fuel as [|fuel]; [lia |]. cbn [attrs_loop as_iter]. unfold tail_attrs in *. cbn [app] in *.
  destruct auth as [[t a]|].
  2: { rewrite (wsc_attr_iter_next_end pre it) by (done || lia). rewrite bind_ok. exists it. by split. }
  destruct (Ha t a eq_refl) as (Hl & Ht & Hne). rewrite attrs_bytes_one in *. rewrite <- (app_nil_r (attr_bytes (t, a))) in Hat.
  destruct (wsc_attr_iter_next_attr pre t a [] it Hat) as (it1 & Hn & Hat1 & Ht1 & Hl1 & Hd1); [done | lia | | |].
  { intros E. rewrite app_nil_r in E. by subst a. }
  { rewrite app_nil_r, zlen_app, zlen_attr_bytes. cbn [snd]. lia. }
  rewrite Hn, bind_ok. unfold attrs_step, set_iter. cbn [as_iter as_next as_passed as_values as_version2 as_sr as_ext].
  rewrite Ht1, find_entry_none by (try done; by eapply Hes). destruct (Z.eqb_spec t WSC_ATTR_VENDOR_EXTENSION); [done |]. cbn [negb].
  exists it1. split; [by destruct ext |]. intros t' a' [= <- <-]. rewrite app_nil_r in Hd1. by split_and!.
Qed.

(** The extension in front of it is kept for the caller. *)
Lemma attrs_loop_tail sub auth fuel ext pre it passed es values sr x :
  auth_ok auth → (sub ≠ None → ext = true) → (∀ m, sub = Some m → zlen m < 60000) → wfa_at [] x →
  attr_at pre (attrs_bytes (tail_attrs sub auth)) it → zlen pre + 65536 < 2 ^ 31 → (length (tail_attrs sub auth) < fuel)%nat →
  existsb (has_flag WSC_ATTR_FLAG_REQUIRED) es = false → Forall (λ e, ah_type e ≠ WSC_ATTR_VENDOR_EXTENSION) es →
  (∀ t a, auth = Some (t, a) → Forall (λ e, ah_type e ≠ t) es) →
  ∃ it' x', attrs_loop fuel ext (mk_attrs it passed es values false sr x) =
              Ok (mk_attrs it' passed es values (if sub is Some _ then true else false) sr x') ∧
    wfa_at (default [] sub) x' ∧ ends_with_auth auth (pre ++ attrs_bytes (tail_attrs sub auth)) it'.
Proof.
  intros Ha Hext Hsub Hx Hat Hz Hf Hreq Hven Hes. destruct sub as [m|].
  2: { destruct (attrs_loop_auth auth fuel ext pre it passed es values false sr x) as (it' & Hl & He); try done; [lia | lia |].
       exists it', x. by split_and!. }
  rewrite (Hext ltac:(done)). specialize (Hsub m eq_refl). destruct fuel as [|fuel]; [lia |]. cbn [attrs_loop as_iter].
  change (tail_attrs (Some m) auth) with ([wfa_attr m] ++ tail_attrs None auth) in *. rewrite attrs_bytes_app, attrs_bytes_one in *.
  assert (Hzl : zlen (wfa_attr m).2 = 6 + zlen m) by (cbn [wfa_attr snd]; rewrite !zlen_app; change (zlen wsc_wfa_oui) with 3; change (zlen [_; _; _]) with 3; lia).
  assert (Hau : zlen (attrs_bytes (tail_attrs None auth)) ≤ 12).
  { unfold tail_attrs. cbn [app]. destruct auth as [[t a]|]; [| change (zlen (attrs_bytes [])) with 0; lia].
    destruct (Ha t a eq_refl) as (? & _). rewrite attrs_bytes_one, zlen_attr_bytes. cbn [snd]. lia. }
  destruct (wsc_attr_iter_next_attr pre WSC_ATTR_VENDOR_EXTENSION (wfa_attr m).2 (attrs_bytes (tail_attrs None auth)) it)
    as (it1 & Hn & Hat1 & Ht1 & Hl1 & Hd1); [done | done | lia | done | |].
  { rewrite !zlen_app, zlen_attr_bytes. cbn [snd]. lia. }
  change (WSC_ATTR_VENDOR_EXTENSION, (wfa_attr m).2) with (wfa_attr m) in *.
  rewrite Hn, bind_ok. unfold attrs_step, set_iter. cbn [as_iter as_next as_passed as_values as_version2 as_sr as_ext].
  rewrite Ht1, find_entry_none by done. cbn [negb]. rewrite Z.eqb_refl. cbn [negb].
  destruct (recurse_wfa_attr m it1 _ Ht1 Hl1 Hd1 Hsub) as (y & z & Hr & Hv & Hz'). rewrite Hr, bind_ok, Hv, !bind_ok. cbv beta iota.
  destruct (attrs_loop_auth auth fuel true (pre ++ attr_bytes (wfa_attr m)) it1 passed es values true sr z) as (it' & Hl & He); try done.
  { rewrite zlen_app, zlen_attr_bytes. lia. } { cbn [length app] in Hf. lia. }
  exists it', z. rewrite Hl. split_and!; [done | done | by rewrite app_assoc].
Qed.

Lemma length_attrs_bytes l : 4 * Z.of_nat (length l) ≤ zlen (attrs_bytes l).
Proof.
  induction l as [|a l IH]; [done |]. change (attrs_bytes (a :: l)) with (attr_bytes a ++ attrs_bytes l).
  rewrite zlen_app, zlen_attr_bytes. cbn [length]. znn. lia.
Qed.

Lemma attrs_match_end pre t : attr_at pre [] t → wa_pos t = zlen pre.
Proof. by intros (_ & _ & ->). Qed.

(** A message that follows its table, closed by an extension and an authenticator, is parsed: the
    values are those of its attributes, the extension is the one it carries and the authenticator
    is its last attribute. *)
Lemma wsc_parse_attrs_match es l vs ps ext sub auth :
  attrs_match es l vs ps → types_ok l → auth_ok auth → (sub ≠ None → ext = true) → (∀ m, sub = Some m → zlen m < 60000) →
  zlen (attrs_bytes (l ++ tail_attrs sub auth)) + 65536 < 2 ^ 31 →
  (∀ k d, l ++ tail_attrs sub auth = k ++ [d] → d.2 ≠ []) →
  Forall (λ e, ah_type e ≠ WSC_ATTR_VENDOR_EXTENSION) es → (∀ t a, auth = Some (t, a) → Forall (λ e, ah_type e ≠ t) es) →
  (sub ≠ None → flagged_present WSC_ATTR_FLAG_VERSION2 ps = true) →
  (sr_present l = true → flagged_present WSC_ATTR_FLAG_REGISTRAR ps = true) →
  ∃ x, wsc_parse_attrs (attrs_bytes (l ++ tail_attrs sub auth)) (zlen (attrs_bytes (l ++ tail_attrs sub auth))) ext (fst <$> auth) es =
         Ok (mk_parsed (if sub is Some _ then true else false) x (from_option snd [] auth) vs) ∧
       wfa_at (default [] sub) x.
Proof.
  intros Hm Hty Ha Hext Hsub Hz Hlast Hven Hes Hv2 Hsr. set (tl := tail_attrs sub auth) in *.
  pose proof (length_attrs_bytes (l ++ tl)) as Hlen. rewrite length_app in Hlen.
  unfold wsc_parse_attrs. rewrite attrs_bytes_app in *. set (pdu := attrs_bytes l ++ attrs_bytes tl) in *.
  replace (S (Z.to_nat (zlen pdu))) with (length l + (S (Z.to_nat (zlen pdu)) - length l))%nat by lia.
  destruct (attrs_loop_match es l vs ps Hm Hty (S (Z.to_nat (zlen pdu)) - length l) ext [] (attrs_bytes tl) (wsc_attr_iter_init pdu (zlen pdu))
    [] [] false false (wsc_wfa_ext_iter_init [] 0)) as (it1 & passed & es' & Hloop & Hat & Hreq & [k Hk] & Hps).
  { done. } { cbn [app]. fold pdu. lia. }
  { intros k d -> E. apply app_nil in E as [Ed Et]. destruct tl as [|b tl'] eqn:Etl.
    - eapply Hlast; [by rewrite app_nil_r | done].
    - change (attrs_bytes (b :: tl')) with (attr_bytes b ++ attrs_bytes tl') in Et. apply app_nil in Et as [Et _].
      apply (f_equal zlen) in Et. rewrite zlen_attr_bytes, zlen_nil in Et. znn. lia. }
  rewrite Hloop. clear Hloop. cbn [app] in Hat. subst es. apply Forall_app in Hven as [_ Hven].
  destruct (attrs_loop_tail sub auth (S (Z.to_nat (zlen pdu)) - length l) ext (attrs_bytes l) it1 passed es' ([] ++ vs) (false || sr_present l)
    (wsc_wfa_ext_iter_init [] 0)) as (it2 & x & Hloop & Hx & Hend); [exact Ha | exact Hext | exact Hsub | apply wfa_at_none | exact Hat | | | exact Hreq | exact Hven | |].
  { unfold pdu in Hz. rewrite zlen_app in Hz. znn. lia. } { fold tl. lia. }
  { intros t a E. specialize (Hes t a E). by apply Forall_app in Hes as [_ Hes]. }
  rewrite Hloop, bind_ok. cbn [as_next as_passed as_values as_version2 as_sr as_iter as_ext]. rewrite Hreq.
  assert (Hauth : match fst <$> auth with Some type => parse_authenticator (S (length l + (S (Z.to_nat (zlen pdu)) - length l))) (zlen pdu) type it2 | None => Ok [] end = Ok (from_option snd [] auth)).
  { destruct auth as [[t a]|]; [| done]. destruct (Hend t a eq_refl) as (Ht & Hl & Hd & Hat2). destruct (Ha t a eq_refl) as (H8 & _ & _).
    cbn. unfold parse_authenticator. cbn [seek_attr]. rewrite Ht, Z.eqb_refl, bind_ok. unfold extract_authenticator, extract_fixed.
    rewrite Hl, H8, Hd. change (negb (8 =? 8)) with false. cbv iota. rewrite rdn_ok, ptake_all by lia.
    do 2 (rewrite bind_ok; cbv beta iota). fold tl pdu in Hat2.
    rewrite (wsc_attr_iter_next_end pdu) by (done || lia). rewrite bind_ok, (attrs_match_end _ _ Hat2), Z.eqb_refl. done. }
  rewrite Hauth, bind_ok, Hps. cbn [app]. exists x. split; [| done].
  destruct sub as [m|]; [rewrite Hv2 by done |]; cbn [andb negb]; (destruct (sr_present l) eqn:Esr; cbn [orb andb]; [rewrite Hsr by done | ]; done).
Qed.

(** ** Values *)

Lemma decodes_u8 t ok n :
  handler_for_type t = Some (λ it, num_checked ok (extract_uint8 it)) → 0 ≤ n < 256 → ok n = true → decodes t [u8 n] (VNum n).
Proof.
  intros Hh Hn Hok. eexists. split; [exact Hh |]. intros it rest Hl Hd. unfold num_checked, extract_uint8.
  rewrite Hl, Hd. cbn [app]. change (zlen [u8 n] =? 1) with true. cbn [negb].
  by rewrite rd_cons_0, u8_small, !bind_ok, Hok by done.
Qed.

Lemma decodes_u16 t ok n :
  handler_for_type t = Some (λ it, num_checked ok (extract_uint16 it)) → 0 ≤ n < 65536 → ok n = true →
  decodes t (be16_bytes n) (VNum n).
Proof.
  intros Hh Hn Hok. eexists. split; [exact Hh |]. intros it rest Hl Hd. unfold num_checked, extract_uint16.
  rewrite Hl, Hd, zlen_be16_bytes. change (negb (2 =? 2)) with false. cbv iota.
  by rewrite l_get_be16_bytes, !bind_ok, Hok by done.
Qed.

Lemma decodes_bool t (b : bool) :
  handler_for_type t = Some extract_bool → decodes t [u8 (if b then 1 else 0)] (VNum (if b then 1 else 0)).
Proof.
  intros Hh. eexists. split; [exact Hh |]. intros it rest Hl Hd. unfold extract_bool. rewrite Hl, Hd. by destruct b.
Qed.

Lemma decodes_fixed t n l :
  handler_for_type t = Some (extract_fixed n) → zlen l = n → decodes t l (VBytes l).
Proof.
  intros Hh Hl0. eexists. split; [exact Hh |]. intros it rest Hl Hd. unfold extract_fixed. rewrite Hl, Hd, Hl0, Z.eqb_refl. cbn [negb].
  by rewrite rdn_app, bind_ok by done.
Qed.

(** Printable characters. *)
Definition ascii_ok (s : list Z) : Prop := Forall (λ c, l_ascii_isprint c = true) s.

Lemma ascii_loop_printable s pre rest :
  ascii_ok s → ascii_loop (length s) (pre ++ s ++ rest) (zlen pre) = Ok (Some (zlen pre + zlen s)).
Proof.
  revert pre. induction s as [|c s IH]; intros pre Hs; cbn [length ascii_loop]; [by rewrite zlen_nil, Z.add_0_r |].
  apply list.Forall_cons in Hs as [Hc Hs]. rewrite rd_app_r by lia. replace (zlen pre - zlen pre) with 0 by lia.
  cbn [app]. rewrite rd_cons_0, bind_ok, Hc. destruct (Z.eqb_spec c 0) as [->|]; [done |]. cbn [negb].
  specialize (IH (pre ++ [c]) Hs). rewrite zlen_app, <- app_assoc in IH. change (zlen [c]) with 1 in IH. cbn [app] in IH.
  rewrite IH, zlen_cons. do 2 f_equal. lia.
Qed.

Lemma decodes_ascii t max s :
  handler_for_type t = Some (extract_ascii_string max) → ascii_ok s → zlen s ≤ max → decodes t s (VString s).
Proof.
  intros Hh Hs Hm. eexists. split; [exact Hh |]. intros it rest Hl Hd. unfold extract_ascii_string. rewrite Hl, Hd.
  destruct (Z.ltb_spec max (zlen s)); [lia |]. unfold zlen at 1. rewrite Nat2Z.id.
  pose proof (ascii_loop_printable s [] rest Hs) as E. cbn [app] in E. rewrite zlen_nil in E. rewrite E, bind_ok.
  by rewrite rdn_app, bind_ok.
Qed.

Lemma nul_loop_none s pre rest :
  Forall (λ c, c ≠ 0) s → nul_loop (length s) (pre ++ s ++ rest) (zlen pre) = Ok (zlen pre + zlen s).
Proof.
  revert pre. induction s as [|c s IH]; intros pre Hs; cbn [length nul_loop]; [by rewrite zlen_nil, Z.add_0_r |].
  apply list.Forall_cons in Hs as [Hc Hs]. rewrite rd_app_r by lia. replace (zlen pre - zlen pre) with 0 by lia.
  cbn [app]. rewrite rd_cons_0, bind_ok. destruct (Z.eqb_spec c 0) as [->|]; [done |].
  specialize (IH (pre ++ [c]) Hs). rewrite zlen_app, <- app_assoc in IH. change (zlen [c]) with 1 in IH. cbn [app] in IH.
  rewrite IH, zlen_cons. f_equal. lia.
Qed.

(** Text in UTF-8, with no NUL. *)
Definition utf8_ok (s : list Z) : Prop := Forall (λ c, c ≠ 0) s ∧ ∃ cps, Forall utf8_char cps ∧ s = cps ≫= utf8_encode.

Lemma utf8_validate_encoded cps pre rest fuel :
  Forall utf8_char cps → Forall (λ c, c ≠ 0) (cps ≫= utf8_encode) → (length cps < fuel)%nat →
  utf8_validate_loop fuel (pre ++ (cps ≫= utf8_encode) ++ rest) (zlen pre + zlen (cps ≫= utf8_encode)) (zlen pre) =
  Ok (zlen pre + zlen (cps ≫= utf8_encode)).
Proof.
  revert pre fuel. induction cps as [|c cps IH]; intros pre fuel Hc Hnz Hf; (destruct fuel as [|fuel]; [lia |]); cbn [utf8_validate_loop].
  { change (zlen ([] ≫= utf8_encode)) with 0. destruct (Z.ltb_spec (zlen pre) (zlen pre + 0)); [lia |]. cbn [negb]. by rewrite Z.add_0_r. }
  apply list.Forall_cons in Hc as [[Hpos Hval] Hc].
  change ((c :: cps) ≫= utf8_encode) with (utf8_encode c ++ (cps ≫= utf8_encode)) in *. rewrite zlen_app in *.
  pose proof (utf8_encode_length c) as He. set (k := cps ≫= utf8_encode) in *. pose proof (zlen_nonneg k).
  destruct (Z.ltb_spec (zlen pre) (zlen pre + (zlen (utf8_encode c) + zlen k))); [| lia]. cbn [negb].
  rewrite (padd_app pre _ (zlen pre)) by done.
  destruct (utf8_encode c) as [|b enc] eqn:Ec; [rewrite zlen_nil in He; lia |]. apply list.Forall_cons in Hnz as Hb. destruct Hb as [Hb _].
  rewrite rd_app_r by lia. replace (zlen pre - zlen pre) with 0 by lia. cbn [app]. rewrite rd_cons_0, bind_ok.
  destruct (Z.eqb_spec b 0); [done |]. replace (b :: (enc ++ k) ++ rest) with ((b :: enc) ++ k ++ rest) by (cbn [app]; by rewrite <- app_assoc). rewrite <- Ec in *.
  rewrite l_utf8_get_codepoint_encode by (done || lia). rewrite bind_ok. destruct (Z.ltb_spec (zlen (utf8_encode c)) 0); [lia |].
  apply Forall_app in Hnz as [_ Hnz].
  specialize (IH (pre ++ utf8_encode c) fuel Hc Hnz ltac:(cbn [length] in Hf; lia)). fold k in IH. rewrite zlen_app, <- !app_assoc, <- Z.add_assoc in IH. exact IH.
Qed.

Lemma length_utf8_encoded cps : (length cps ≤ length (cps ≫= utf8_encode))%nat.
Proof.
  induction cps as [|c cps IH]; [done |]. change ((c :: cps) ≫= utf8_encode) with (utf8_encode c ++ (cps ≫= utf8_encode)).
  rewrite length_app. pose proof (utf8_encode_length c) as He. unfold zlen in He. cbn [length]. lia.
Qed.

Lemma decodes_utf8 t max s :
  handler_for_type t = Some (extract_utf8_string max) → utf8_ok s → zlen s ≤ max → decodes t s (VString s).
Proof.
  intros Hh (Hnz & cps & Hc & ->) Hm. eexists. split; [exact Hh |]. intros it rest Hl Hd. unfold extract_utf8_string. rewrite Hl, Hd.
  destruct (Z.ltb_spec max (zlen (cps ≫= utf8_encode))); [lia |]. unfold zlen at 1. rewrite Nat2Z.id.
  pose proof (nul_loop_none _ [] rest Hnz) as E. cbn [app] in E. rewrite zlen_nil in E. rewrite E, bind_ok, Z.add_0_l.
  unfold l_utf8_validate. pose proof (length_utf8_encoded cps).
  pose proof (utf8_validate_encoded cps [] rest (S (Z.to_nat (zlen (cps ≫= utf8_encode)))) Hc Hnz ltac:(unfold zlen; lia)) as E'.
  cbn [app] in E'. rewrite zlen_nil, Z.add_0_l in E'. rewrite E', !bind_ok, Z.eqb_refl. cbn [negb]. by rewrite rdn_app, bind_ok.
Qed.

Lemma decodes_settings l : decodes WSC_ATTR_ENCRYPTED_SETTINGS l (VIov l).
Proof.
  eexists. split; [done |]. intros it rest Hl Hd. unfold extract_encrypted_settings. by rewrite Hl, Hd, rdn_app, bind_ok by done.
Qed.

Lemma decodes_ssid l : zlen l ≤ 32 → decodes WSC_ATTR_SSID l (VIov l).
Proof.
  intros Hm. eexists. split; [done |]. intros it rest Hl Hd. unfold extract_ssid. rewrite Hl, Hd.
  destruct (Z.ltb_spec 32 (zlen l)); [lia |]. by rewrite rdn_app, bind_ok by done.
Qed.

(** A key is sent as it is, unless its last byte is zero. *)
Lemma decodes_network_key l :
  zlen l ≤ 64 → (∀ k c, l = k ++ [c] → c ≠ 0) → decodes WSC_ATTR_NETWORK_KEY l (VIov l).
Proof.
  intros Hm Hlast. eexists. split; [done |]. intros it rest Hl Hd. unfold extract_network_key. rewrite Hl, Hd.
  destruct (Z.ltb_spec 64 (zlen l)); [lia |]. destruct (Z.eqb_spec (zlen l) 0) as [E|E].
  { rewrite bind_ok. apply zlen_0_inv in E as ->. by rewrite rdn_app, bind_ok. }
  destruct (exists_last (l := l)) as (k & c & ->); [by intros -> |]. rewrite zlen_app. change (zlen [c]) with 1.
  rewrite <- app_assoc, rd_app_r by lia. replace (zlen k + 1 - 1 - zlen k) with 0 by lia. cbn [app]. rewrite rd_cons_0, !bind_ok.
  destruct (Z.eqb_spec c 0) as [->|]; [by destruct (Hlast k 0 eq_refl) |].
  change (c :: rest) with ([c] ++ rest). by rewrite app_assoc, rdn_app, bind_ok by (by rewrite zlen_app).
Qed.

Lemma l_get_be32_bytes v p : 0 ≤ v < 2 ^ 32 → l_get_be32 (be32_bytes v ++ p) = Ok v.
Proof.
  intros Hv. unfold l_get_be32, be32_bytes. cbn [app].
  rewrite rd_cons_0, bind_ok. change (rd (?a :: ?b :: ?c :: ?d :: ?r) 1) with (Ok b). change (rd (?a :: ?b :: ?c :: ?d :: ?r) 2) with (Ok c).
  change (rd (?a :: ?b :: ?c :: ?d :: ?r) 3) with (Ok d). rewrite !bind_ok. f_equal. exact (be32_of_bytes v Hv).
Qed.

Lemma decodes_os_version v :
  0 ≤ v < 2 ^ 31 → decodes WSC_ATTR_OS_VERSION (be32_bytes (Z.lor v 0x80000000)) (VNum v).
Proof.
  intros Hv. eexists. split; [done |]. intros it rest Hl Hd. unfold extract_os_version. rewrite Hl, Hd, be32_bytes_length.
  change (negb (4 =? 4)) with false. cbv iota.
  assert (Hd0 : Z.land v (2 ^ 31) = 0).
  { apply Z.bits_inj'. intros i Hi. rewrite Z.land_spec, Z.bits_0, Z.pow2_bits_eqb by lia.
    destruct (Z.eqb_spec 31 i) as [<-|]; [| apply andb_false_r].
    rewrite andb_true_r. apply Z.testbit_false; [lia |]. replace (v / 2 ^ 31) with 0 by (symmetry; apply Z.div_small; lia). done. }
  change 0x80000000 with (2 ^ 31). rewrite l_get_be32_bytes.
  2: { rewrite <- Z.lxor_lor, <- Z.add_nocarry_lxor by done. lia. }
  rewrite bind_ok. do 3 f_equal. change 0x7fffffff with (Z.ones 31).
  rewrite Z.land_ones, <- Z.lxor_lor, <- Z.add_nocarry_lxor by (done || lia).
  replace (v + 2 ^ 31) with (v + 1 * 2 ^ 31) by lia. rewrite Z.mod_add by lia. by apply Z.mod_small.
Qed.

(** Device types that the parser takes. *)
Definition device_ok (d : wsc_primary_device_type) : Prop :=
  (0 ≤ pdt_category d ≤ 12 ∨ pdt_category d = 255) ∧ zlen (pdt_oui d) = 3 ∧ 0 ≤ pdt_oui_type d < 256 ∧
  0 ≤ pdt_subcategory d < 65536.
Definition device_bytes (d : wsc_primary_device_type) : list Z :=
  be16_bytes (pdt_category d) ++ pdt_oui d ++ [u8 (pdt_oui_type d)] ++ be16_bytes (pdt_subcategory d).

Lemma decodes_device t d :
  handler_for_type t = Some extract_primary_device_type → device_ok d → decodes t (device_bytes d) (VDevice d).
Proof.
  intros Hh (Hc & Ho & Ht & Hs). eexists. split; [exact Hh |]. intros it rest Hl Hd.
  unfold extract_primary_device_type, wsc_parse_primary_device_type. rewrite Hl, Hd.
  assert (E : zlen (device_bytes d) = 8) by (unfold device_bytes; rewrite !zlen_app, !zlen_be16_bytes, Ho; done).
  rewrite E. change (negb (8 =? 8)) with false. cbv iota. unfold device_bytes. rewrite <- !app_assoc, l_get_be16_bytes, bind_ok by lia.
  set (cat := be16_bytes (pdt_category d)). set (sub := be16_bytes (pdt_subcategory d)).
  assert (Hcat : (12 <? pdt_category d) && negb (pdt_category d =? 255) = false).
  { destruct (Z.ltb_spec 12 (pdt_category d)), (Z.eqb_spec (pdt_category d) 255); try done; lia. }
  rewrite Hcat, (padd_app cat _ 2), rdn_app, bind_ok by done.
  rewrite (rd_app_r cat) by done. change (5 - zlen cat) with 3. rewrite rd_app_r, Ho by lia. cbn [app]. rewrite rd_cons_0, bind_ok.
  replace (cat ++ pdt_oui d ++ u8 (pdt_oui_type d) :: sub ++ rest) with ((cat ++ pdt_oui d ++ [u8 (pdt_oui_type d)]) ++ sub ++ rest)
    by (by rewrite <- !app_assoc).
  rewrite padd_app by (rewrite !zlen_app, Ho; done). unfold sub. rewrite l_get_be16_bytes, u8_small, !bind_ok by done. by destruct d.
Qed.
