(* ===== verification/WscRun.v ===== *)
(** * Wi-Fi Simple Configuration: round trips of the messages (src/wscutil.c)

    Every message that src/wscutil.c builds is read back by its parser, for the structures whose
    fields are in the ranges of the attributes: the attributes a builder writes ([*_attrs]), that
    they follow the table of the parser, and what the parser returns. *)

From stdpp Require Import base numbers list option.
From Stdlib Require Import ZArith Lia.
From S2P Require Import Prelude StRes IeTlv IeMisc Crypto Handshake EapolFrame EapSpec Mschap Wsc WscMsg WscSafe WscSpec.

Open Scope Z_scope.

Section builders.
Variable junk : nat → Z.

Lemma builds_device t d :
  zlen (pdt_oui d) = 3 →
  builds (wsc_attr_builder_start_attr junk t;; wsc_attr_builder_put_u16 junk (pdt_category d);;
          wsc_attr_builder_put_oui junk (pdt_oui d);; wsc_attr_builder_put_u8 junk (pdt_oui_type d);;
          wsc_attr_builder_put_u16 junk (pdt_subcategory d)) [(t, device_bytes d)].
Proof.
  intros Ho. apply builds_attr.
  - unfold device_bytes. repeat apply appends_seq; apply appends_put; rewrite ?zlen_be16_bytes, ?Ho; done.
  - unfold device_bytes. rewrite !zlen_app, !zlen_be16_bytes, Ho. done.
Qed.

(** The vendor extension: Version2, and the subelements [m] appended to it. *)
Lemma builds_wfa_start : builds (START_WFA_VENDOR_EXTENSION junk) [wfa_attr []].
Proof.
  apply builds_attr; [| done].
  apply (appends_seq _ _ wsc_wfa_oui [WSC_WFA_EXTENSION_VERSION2; 1; 0x20]); [by apply appends_put |].
  apply (appends_seq _ _ [_] [1; 0x20]); [by apply appends_put |].
  apply (appends_seq _ _ [_] [_]); by apply appends_put.
Qed.

Lemma builds_wfa k m : appends k m → zlen m < 60000 → builds (START_WFA_VENDOR_EXTENSION junk;; k) [wfa_attr m].
Proof.
  intros Hk Hm kk b H. sr_seq. eapply wp_mono; [by apply builds_wfa_start |]. intros u b1 H1; cbv beta in *; clear u.
  apply (Hk kk _ _ _ H1). change (zlen _) with 6 at 1. lia.
Qed.

(** Request to Enroll. *)
Definition enroll_bytes (enroll : bool) : list Z := if enroll then [WSC_WFA_EXTENSION_REQUEST_TO_ENROLL; 1; 1] else [].
Lemma appends_enroll enroll : appends (build_enroll junk enroll) (enroll_bytes enroll).
Proof.
  apply appends_when. apply (appends_seq _ _ [_] [1; 1]); [by apply appends_put |].
  apply (appends_seq _ _ [_] [_]); by apply appends_put.
Qed.

(** The array of five addresses: some, none of them zero, and zeros behind them. *)
Definition macs_ok (macs : list Z) (addrs : list (list Z)) : Prop :=
  macs = concat addrs ++ zeros (30 - length (concat addrs)) ∧ (length addrs ≤ 5)%nat ∧
  Forall (λ a, zlen a = 6 ∧ memeqzero a = false) addrs.

Lemma zlen_concat_macs addrs : Forall (λ a, zlen a = 6 ∧ memeqzero a = false) addrs → zlen (concat addrs) = 6 * zlen addrs.
Proof.
  induction 1 as [|a l [Ha _] _ IH]; [done |]. cbn [concat]. rewrite zlen_app, zlen_cons, IH, Ha. lia.
Qed.

Lemma count_macs_ok macs addrs n pre post :
  macs_ok macs addrs → addrs = pre ++ post → (n + length pre = 5)%nat → count_macs n (zlen pre) macs = Ok (zlen addrs).
Proof.
  intros (Hm & H5 & Hf). revert pre post. induction n as [|n IH]; intros pre post Ha Hn.
  { subst addrs. rewrite length_app in H5. destruct post; [by rewrite app_nil_r | cbn in *; lia]. }
  cbn [count_macs]. pose proof (zlen_concat_macs _ Hf) as Hz.
  assert (Hpre : zlen (concat pre) = zlen pre * 6).
  { subst addrs. apply Forall_app in Hf as [Hf _]. rewrite zlen_concat_macs by done. lia. }
  assert (Hrd : macs +! (zlen pre * 6) = concat post ++ zeros (30 - length (concat addrs))).
  { by rewrite Hm, Ha, concat_app, <- app_assoc, padd_app. }
  rewrite Hrd. destruct post as [|a post].
  - rewrite app_nil_r in Ha. subst pre. cbn [concat app]. assert (E : zlen (concat addrs) ≤ 24) by (rewrite Hpre; unfold zlen; lia). unfold zlen in E.
    replace (30 - length (concat addrs))%nat with (6 + (24 - length (concat addrs)))%nat by lia.
    unfold zeros. by rewrite replicate_add, rdn_app, bind_ok.
  - assert (Ha6 : zlen a = 6 ∧ memeqzero a = false) by (subst addrs; apply Forall_app in Hf as [_ [? _]%list.Forall_cons]; done).
    destruct Ha6 as [Ha6 Hnz]. cbn [concat]. rewrite <- app_assoc, rdn_app, bind_ok, Hnz by done.
    change (a :: post) with ([a] ++ post) in Ha. rewrite app_assoc in Ha.
    rewrite <- (IH (pre ++ [a]) post Ha) by (rewrite length_app; cbn; lia). by rewrite zlen_app.
Qed.

(** The subelements of beacons and probe responses. *)
Definition macs_bytes (addrs : list (list Z)) : list Z :=
  match addrs with [] => [] | _ => [WSC_WFA_EXTENSION_AUTHORIZED_MACS; 6 * zlen addrs] ++ concat addrs end.
Definition methods_bytes (methods : Z) : list Z :=
  if methods =? 0 then [] else [WSC_WFA_EXTENSION_REGISTRAR_CONFIGRATION_METHODS; 2] ++ be16_bytes methods.

Lemma zlen_macs macs addrs : macs_ok macs addrs → zlen macs = 30 ∧ zlen (concat addrs) ≤ 30.
Proof.
  intros (-> & H5 & Hf). pose proof (zlen_concat_macs _ Hf) as E. unfold zlen in *. rewrite length_app. unfold zeros. rewrite length_replicate. lia.
Qed.

Lemma appends_macs macs addrs :
  macs_ok macs addrs → addrs ≠ [] →
  appends (wfa_build_authorized_macs junk macs) ([WSC_WFA_EXTENSION_AUTHORIZED_MACS; 6 * zlen addrs] ++ concat addrs).
Proof.
  intros Hok Hne pre t d b H Hsz. unfold wfa_build_authorized_macs. sr_seq. destruct addrs as [|a addrs]; [done |].
  eapply wp_run; [by apply (count_macs_ok macs (a :: addrs) 4 [a] addrs) |]. set (as' := a :: addrs) in *.
  pose proof (zlen_macs _ _ Hok) as [Hz Hc]. assert (Hzl : zlen (concat as') = 6 * zlen as') by (apply zlen_concat_macs; apply Hok).
  assert (Hrd : rdn macs (zlen as' * 6) = Ok (concat as')).
  { destruct Hok as (-> & _ & _). apply rdn_app. lia. }
  assert (Ha : appends (wsc_attr_builder_put_u8 junk WSC_WFA_EXTENSION_AUTHORIZED_MACS;; wsc_attr_builder_put_u8 junk (zlen as' * 6);;
     wsc_attr_builder_put_bytes junk (concat as')) ([WSC_WFA_EXTENSION_AUTHORIZED_MACS] ++ [u8 (zlen as' * 6)] ++ concat as')).
  { apply appends_seq; [by apply appends_put |]. apply appends_seq; [by apply appends_put | apply appends_bytes]. }
  rewrite u8_small in Ha by (znn; lia). replace (zlen as' * 6) with (6 * zlen as') in Ha by lia.
  specialize (Ha pre t d b H Hsz). unfold wp, mbind, sr_bind in *. cbv beta.
  replace (zlen as' * 6) with (6 * zlen as') in * by lia.
  destruct (wsc_attr_builder_put_u8 junk _ b) as [[u1 b1]| | |]; [| done..].
  destruct (wsc_attr_builder_put_u8 junk _ b1) as [[u2 b2]| | |]; [| done..]. by rewrite Hrd.
Qed.

Lemma appends_methods methods :
  appends (when (negb (methods =? 0)) (wsc_attr_builder_put_u8 junk WSC_WFA_EXTENSION_REGISTRAR_CONFIGRATION_METHODS;;
             wsc_attr_builder_put_u8 junk 2;; wsc_attr_builder_put_u16 junk methods)) (methods_bytes methods).
Proof.
  unfold methods_bytes. destruct (Z.eqb_spec methods 0); cbn [negb when]; [apply appends_pass |].
  apply (appends_seq _ _ [_] (2 :: be16_bytes methods)); [by apply appends_put |].
  apply (appends_seq _ _ [_] (be16_bytes methods)); by apply appends_put.
Qed.

Lemma appends_registrar macs addrs methods :
  macs_ok macs addrs → appends (build_registrar junk macs methods) (macs_bytes addrs ++ methods_bytes methods).
Proof.
  intros Hok pre t d b H Hsz. unfold build_registrar. sr_seq. pose proof (zlen_macs _ _ Hok) as [Hz _].
  eapply wp_run; [apply rdn_ok; lia |]. cbv beta.
  assert (Hfirst : memeqzero (ptake macs 6) = if addrs is [] then true else false).
  { destruct Hok as (-> & _ & Hf). destruct addrs as [|a addrs]; [done |]. apply list.Forall_cons in Hf as [[Ha Hnz] _].
    cbn [concat]. by rewrite <- app_assoc, ptake_app. }
  rewrite Hfirst. assert (Hm : appends (when (negb (if addrs is [] then true else false)) (wfa_build_authorized_macs junk macs)) (macs_bytes addrs)).
  { destruct addrs; cbn [negb when]; [apply appends_pass | by apply appends_macs]. }
  exact (appends_seq _ _ _ _ Hm (appends_methods methods) pre t d b H Hsz).
Qed.
End builders.

(** ** The extensions are read back *)

Lemma wfa_request_to_enroll_ok enroll x : wfa_at (enroll_bytes enroll) x → wfa_request_to_enroll x = Ok enroll.
Proof.
  intros Hx. unfold wfa_request_to_enroll. destruct enroll; cbn [enroll_bytes] in Hx.
  2: { by rewrite wsc_wfa_ext_iter_next_end, bind_ok. }
  destruct (wsc_wfa_ext_iter_next_sub WSC_WFA_EXTENSION_REQUEST_TO_ENROLL [1] [] x Hx ltac:(done)) as (y & Hn & Hy & Ht & Hl & rest & Hd).
  rewrite Hn, bind_ok, Ht. cbn [Z.eqb]. change (?a =? ?a) with true || rewrite Z.eqb_refl. unfold wfa_extract_bool. rewrite Hl, Hd.
  change (negb (zlen [1] =? 1)) with false. cbv iota. cbn [app]. rewrite rd_cons_0, !bind_ok.
  by rewrite wsc_wfa_ext_iter_next_end, bind_ok.
Qed.

Lemma wfa_reg_methods_ok methods y x rest :
  0 ≤ methods < 65536 → wx_type y = WSC_WFA_EXTENSION_REGISTRAR_CONFIGRATION_METHODS → wx_len y = 2 →
  wx_data y = be16_bytes methods ++ rest → wfa_at [] y → x = y → wfa_reg_methods x = Ok methods.
Proof.
  intros Hm Ht Hl Hd Hy ->. unfold wfa_reg_methods. rewrite Ht, Z.eqb_refl.
  unfold wfa_extract_registrar_configuration_methods. rewrite Hl, Hd. change (negb (2 =? 2)) with false. cbv iota.
  by rewrite l_get_be16_bytes, !bind_ok, wsc_wfa_ext_iter_next_end, bind_ok.
Qed.

(** The methods alone, or nothing. *)
Lemma wfa_methods_ok methods x :
  0 ≤ methods < 65536 → wfa_at (methods_bytes methods) x →
  (methods = 0 ∧ wsc_wfa_ext_iter_next x = Ok None) ∨
  ∃ y, wsc_wfa_ext_iter_next x = Ok (Some y) ∧ wx_type y = WSC_WFA_EXTENSION_REGISTRAR_CONFIGRATION_METHODS ∧
       wfa_reg_methods y = Ok methods.
Proof.
  intros Hm Hx. unfold methods_bytes in Hx. destruct (Z.eqb_spec methods 0) as [->|Hne].
  { left. split; [done | by apply wsc_wfa_ext_iter_next_end]. }
  right. rewrite <- (app_nil_r (be16_bytes methods)) in Hx.
  destruct (wsc_wfa_ext_iter_next_sub WSC_WFA_EXTENSION_REGISTRAR_CONFIGRATION_METHODS (be16_bytes methods) [] x Hx ltac:(done))
    as (y & Hn & Hy & Ht & Hl & rest & Hd).
  exists y. split_and!; [done | done |]. by eapply wfa_reg_methods_ok.
Qed.

Lemma wfa_registrar_ok macs addrs methods x :
  macs_ok macs addrs → 0 ≤ methods < 65536 → wfa_at (macs_bytes addrs ++ methods_bytes methods) x →
  wfa_registrar x = Ok (macs, methods).
Proof.
  intros Hok Hm Hx. unfold wfa_registrar. pose proof (zlen_macs _ _ Hok) as [_ Hc]. destruct Hok as (Hmacs & H5 & Hf).
  pose proof (zlen_concat_macs _ Hf) as Hz. destruct addrs as [|a addrs].
  { cbn [macs_bytes app] in Hx. change (macs = zeros 30) in Hmacs. rewrite Hmacs.
    destruct (wfa_methods_ok _ _ Hm Hx) as [[-> Hn]|(y & Hn & Ht & Hr)]; rewrite Hn, bind_ok; [done |].
    rewrite Ht. change (WSC_WFA_EXTENSION_REGISTRAR_CONFIGRATION_METHODS =? WSC_WFA_EXTENSION_AUTHORIZED_MACS) with false. cbv iota.
    by rewrite Hr, bind_ok. }
  set (as' := a :: addrs) in *. change (macs_bytes as') with ([WSC_WFA_EXTENSION_AUTHORIZED_MACS; 6 * zlen as'] ++ concat as') in Hx.
  rewrite <- Hz, <- app_assoc in Hx.
  assert (Hpos : 6 ≤ zlen (concat as')) by (rewrite Hz; unfold as'; rewrite zlen_cons; znn; lia).
  destruct (wsc_wfa_ext_iter_next_sub WSC_WFA_EXTENSION_AUTHORIZED_MACS (concat as') (methods_bytes methods) x Hx)
    as (y & Hn & Hy & Ht & Hl & rest & Hd).
  { intros [E _]%app_nil. rewrite E, zlen_nil in Hpos. lia. }
  rewrite Hn, bind_ok, Ht. change (?t =? ?t) with true || rewrite Z.eqb_refl. unfold wfa_extract_authorized_macs. rewrite Hl, Hd.
  destruct (Z.eqb_spec (zlen (concat as')) 0), (Z.ltb_spec 30 (zlen (concat as'))); try lia. cbn [orb].
  rewrite Hz at 1. rewrite Z.mul_comm, Z.mod_mul by lia. cbn [Z.eqb negb]. rewrite rdn_app, !bind_ok by done.
  destruct (wfa_methods_ok _ _ Hm Hy) as [[-> Hn2]|(z & Hn2 & Ht2 & Hr)]; rewrite Hn2, bind_ok; rewrite <- Hmacs; [done |].
  by rewrite Hr, bind_ok.
Qed.

(** ** Parsing what was built *)

Lemma attrs_match_size es l vs ps : attrs_match es l vs ps → Forall (λ a, zlen a.2 < 65536) l.
Proof. induction 1 as [|es sk e rest t d v l vs ps _ _ Hd _ IH]; [apply Forall_nil_2 | by apply Forall_cons_2]. Qed.

Lemma zlen_attrs_bytes_bound l : Forall (λ a, zlen a.2 < 65536) l → zlen (attrs_bytes l) ≤ 65540 * Z.of_nat (length l).
Proof.
  induction 1 as [|a l Ha _ IH]; [done |]. change (attrs_bytes (a :: l)) with (attr_bytes a ++ attrs_bytes l).
  rewrite zlen_app, zlen_attr_bytes. cbn [length]. lia.
Qed.

(** The conditions on a table and the types of a message, which do not depend on its contents. *)
Definition table_ok (es : list attr_handler_entry) (l : list (Z * list Z)) (ps : list (attr_handler_entry * bool))
    (v2 : bool) (auth : option Z) : bool :=
  forallb (λ a, (0 <=? a.1) && (a.1 <? 65536)) l && (length l <? 1000)%nat &&
  forallb (λ e, negb (ah_type e =? WSC_ATTR_VENDOR_EXTENSION) &&
             match auth with Some t => negb (ah_type e =? t) | None => true end) es &&
  match auth with Some t => (0 <=? t) && (t <? 65536) && negb (t =? WSC_ATTR_VENDOR_EXTENSION) | None => true end &&
  (negb v2 || flagged_present WSC_ATTR_FLAG_VERSION2 ps) && (negb (sr_present l) || flagged_present WSC_ATTR_FLAG_REGISTRAR ps).

(** The last attribute is not empty. *)
Definition last_filled (l : list (Z * list Z)) : Prop := match rev l with d :: _ => d.2 ≠ [] | [] => True end.

Definition is_sub (sub : option (list Z)) : bool := if sub is Some _ then true else false.

Lemma wsc_parse_back es l vs ps ext sub auth :
  attrs_match es l vs ps → table_ok es l ps (is_sub sub) (fst <$> auth) = true → (sub ≠ None → ext = true) →
  (∀ m, sub = Some m → zlen m < 60000) → (∀ t a, auth = Some (t, a) → zlen a = 8) → last_filled (l ++ tail_attrs sub auth) →
  ∃ x, wsc_parse_attrs (attrs_bytes (l ++ tail_attrs sub auth)) (zlen (attrs_bytes (l ++ tail_attrs sub auth))) ext (fst <$> auth) es =
         Ok (mk_parsed (is_sub sub) x (from_option snd [] auth) vs) ∧ wfa_at (default [] sub) x.
Proof.
  intros Hm Hok Hext Hsub Hauth Hlast. unfold table_ok in Hok. rewrite !andb_true_iff, !orb_true_iff, !negb_true_iff in Hok.
  destruct Hok as [[[[[Hty Hlen] Hes] Hat] Hv2] Hsr]. apply Nat.ltb_lt in Hlen.
  apply Is_true_true, forallb_True in Hty, Hes.
  assert (Hty' : types_ok l).
  { eapply list.Forall_impl; [exact Hty |]. intros a Ha. cbv beta in Ha. apply Is_true_true, andb_true_iff in Ha. lia. }
  assert (Ha : auth_ok auth).
  { intros t a ->. split; [by eapply Hauth |]. cbn in Hat. rewrite !andb_true_iff, negb_true_iff in Hat. lia. }
  apply wsc_parse_attrs_match with (ps := ps); try done.
  - rewrite attrs_bytes_app, zlen_app. pose proof (zlen_attrs_bytes_bound l (attrs_match_size _ _ _ _ Hm)).
    enough (zlen (attrs_bytes (tail_attrs sub auth)) ≤ 65540 * 2) by lia.
    etransitivity; [apply zlen_attrs_bytes_bound |].
    + unfold tail_attrs. apply Forall_app_2.
      * destruct sub as [m|]; [| apply Forall_nil_2]. apply list.Forall_singleton. specialize (Hsub m eq_refl). cbn [wfa_attr snd].
        rewrite !zlen_app. change (zlen wsc_wfa_oui) with 3. change (zlen [_; _; _]) with 3. lia.
      * destruct auth as [[t a]|]; [| apply Forall_nil_2]. apply list.Forall_singleton. cbn. by rewrite (Hauth t a).
    + destruct sub, auth; cbn; lia.
  - intros k d E. unfold last_filled in Hlast. rewrite E, rev_app_distr in Hlast. done.
  - eapply list.Forall_impl; [exact Hes |]. intros e He. cbv beta in He. apply Is_true_true, andb_true_iff in He as [He _].
    apply negb_true_iff, Z.eqb_neq in He. done.
  - intros t a ->. eapply list.Forall_impl; [exact Hes |]. intros e He. cbv beta in He. apply Is_true_true, andb_true_iff in He as [_ He].
    cbn in He. apply negb_true_iff, Z.eqb_neq in He. done.
  - intros Hs. destruct Hv2 as [Hv2|Hv2]; [destruct sub; done | done].
  - intros Hs. destruct Hsr as [Hsr|Hsr]; [congruence | done].
Qed.

Lemma builds_eq m l l' : builds m l → l = l' → builds m l'.
Proof. by intros H <-. Qed.

Lemma builds_attr_then junk t m l k l' :
  appends m l → 4 + zlen l < 65536 → builds k l' → builds (wsc_attr_builder_start_attr junk t;; (m;; k)) ([(t, l)] ++ l').
Proof.
  intros Hm Hl Hk kk b H. pose proof (builds_seq _ _ _ _ (builds_attr junk t m l Hm Hl) Hk kk b H) as Hw.
  unfold wp, mbind, sr_bind in *. by destruct (wsc_attr_builder_start_attr junk t b) as [[? ?]| | |].
Qed.

(** *** Automation *)

Lemma zlen_string s : zlen (wsc_string s) ≤ Z.max 1 (zlen s).
Proof. destruct s; [done | cbn [wsc_string]; lia]. Qed.
Lemma ascii_ok_string s : ascii_ok s → ascii_ok (wsc_string s).
Proof. destruct s; [by repeat constructor | done]. Qed.
Lemma utf8_ok_string s : utf8_ok s → utf8_ok (wsc_string s).
Proof. destruct s; [| done]. intros _. split; [by repeat constructor |]. exists [32]. split; [by repeat constructor | done]. Qed.
Lemma device_ok_oui d : device_ok d → zlen (pdt_oui d) = 3.
Proof. by intros (_ & H & _). Qed.
Lemma zlen_device_bytes d : device_ok d → zlen (device_bytes d) = 8.
Proof. intros (_ & H & _). unfold device_bytes. by rewrite !zlen_app, !zlen_be16_bytes, H. Qed.

Lemma registrar_size macs addrs methods : macs_ok macs addrs → zlen (macs_bytes addrs ++ methods_bytes methods) < 60000.
Proof.
  intros Hok. pose proof (zlen_macs _ _ Hok) as [_ Hc]. rewrite zlen_app.
  assert (zlen (macs_bytes addrs) ≤ 32).
  { destruct addrs as [|a l]; [done |]. change (macs_bytes (a :: l)) with ([WSC_WFA_EXTENSION_AUTHORIZED_MACS; 6 * zlen (a :: l)] ++ concat (a :: l)).
    rewrite zlen_app. change (zlen [_; _]) with 2. lia. }
  unfold methods_bytes. destruct (methods =? 0); [rewrite zlen_nil; lia |]. rewrite zlen_app, zlen_be16_bytes. change (zlen [_; _]) with 2. lia.
Qed.

(** A side condition on a length or a range. *)
Ltac wsc_side :=
  cbn [fst snd];
  lazymatch goal with
  | |- context [zlen (wsc_string ?s)] => pose proof (zlen_string s); lia
  | |- context [zlen (device_bytes ?d)] => rewrite (zlen_device_bytes d) by eassumption; lia
  | |- context [macs_bytes _] => eapply registrar_size; eassumption
  | |- context [enroll_bytes ?b] => destruct b; reflexivity
  | |- zlen (pdt_oui _) = _ => apply device_ok_oui; eassumption
  | |- _ => first [eassumption | reflexivity | lia | split; [discriminate | reflexivity]]
  end.

(** One attribute, by the shape of what is put into it. *)
Ltac build_attr :=
  lazymatch goal with
  | |- builds (wsc_attr_builder_start_attr _ _ ≫= λ _, wsc_attr_builder_put_u8 _ _) _ => apply builds_u8
  | |- builds (wsc_attr_builder_start_attr _ _ ≫= λ _, wsc_attr_builder_put_u16 _ _) _ => apply builds_u16
  | |- builds (wsc_attr_builder_start_attr _ _ ≫= λ _, wsc_attr_builder_put_u32 _ _) _ => apply builds_u32
  | |- builds (wsc_attr_builder_start_attr _ _ ≫= λ _, wsc_attr_builder_put_string _ _) _ => apply builds_string; wsc_side
  | |- builds (wsc_attr_builder_start_attr _ _ ≫= λ _, wsc_attr_builder_put_bytes _ _) _ => apply builds_put_bytes; wsc_side
  | |- builds (wsc_attr_builder_start_attr _ _ ≫= λ _, run (rdn _ _) ≫= _) _ => apply builds_array; wsc_side
  | |- builds (wsc_attr_builder_start_attr _ _ ≫= λ _, wsc_attr_builder_put_u16 _ _ ≫= _) _ => apply builds_device; wsc_side
  | |- builds (wsc_attr_builder_start_attr _ _ ≫= λ _, wsc_attr_builder_put_bytes _ _ ≫= _) _ =>
      apply builds_attr_then; [apply appends_bytes | wsc_side |]
  end.

(** The attributes of a builder, in order. *)
Ltac build_attrs :=
  lazymatch goal with
  | |- builds pass _ => apply builds_pass
  | |- builds (START_WFA_VENDOR_EXTENSION _) _ => apply builds_wfa_start
  | |- builds (START_WFA_VENDOR_EXTENSION _ ≫= λ _, build_enroll _ _) _ => apply builds_wfa; [apply appends_enroll | wsc_side]
  | |- builds (START_WFA_VENDOR_EXTENSION _ ≫= λ _, build_registrar _ _ _) _ =>
      apply builds_wfa; [apply appends_registrar; eassumption | wsc_side]
  | |- builds (wsc_attr_builder_start_attr _ _ ≫= _) _ => build_attr; try build_attrs
  | |- builds (_ ≫= _) _ => apply builds_seq; [build_attrs | build_attrs]
  | |- builds ?m _ => let m' := eval red in m in change m with m'; build_attrs
  end.

(** A parser whose message follows its table goes on with the values. *)
Lemma parse_bind {A} (k : wsc_parsed → res A) es l vs ps ext sub auth out :
  attrs_match es l vs ps → table_ok es l ps (is_sub sub) (fst <$> auth) = true → (sub ≠ None → ext = true) →
  (∀ m, sub = Some m → zlen m < 60000) → (∀ t a, auth = Some (t, a) → zlen a = 8) → last_filled (l ++ tail_attrs sub auth) →
  (∀ x, wfa_at (default [] sub) x → k (mk_parsed (is_sub sub) x (from_option snd [] auth) vs) = Ok out) →
  (wsc_parse_attrs (attrs_bytes (l ++ tail_attrs sub auth)) (zlen (attrs_bytes (l ++ tail_attrs sub auth))) ext (fst <$> auth) es ≫= k) = Ok out.
Proof.
  intros Hm H1 H2 H3 H4 H5 Hk. destruct (wsc_parse_back _ _ _ _ _ _ _ Hm H1 H2 H3 H4 H5) as (x & -> & Hx). by apply Hk.
Qed.

(** The decoder of an attribute, by the shape of its data. *)
Ltac decode_attr :=
  lazymatch goal with
  | |- decodes _ [u8 _] _ =>
      first [eapply (decodes_bool _ true); reflexivity | eapply decodes_u8; [reflexivity | wsc_side | cbv beta; wsc_side]]
  | |- decodes _ (be16_bytes _) _ => eapply decodes_u16; [reflexivity | wsc_side | cbv beta; wsc_side]
  | |- decodes _ (be32_bytes _) _ => eapply decodes_os_version; wsc_side
  | |- decodes _ (device_bytes _) _ => eapply decodes_device; [reflexivity | eassumption]
  | |- decodes WSC_ATTR_DEVICE_NAME _ _ => eapply decodes_utf8; [reflexivity | apply utf8_ok_string; eassumption | wsc_side]
  | |- decodes _ (wsc_string _) _ => eapply decodes_ascii; [reflexivity | apply ascii_ok_string; eassumption | wsc_side]
  | |- decodes WSC_ATTR_ENCRYPTED_SETTINGS _ _ => apply decodes_settings
  | |- decodes _ _ _ => eapply decodes_fixed; [reflexivity | eassumption]
  end.

(** That the attributes follow the table. *)
Ltac match_attrs :=
  repeat (eapply match_attr; [reflexivity | decode_attr | wsc_side |]); apply match_end; reflexivity.

(** The last attribute has a length that is not zero. *)
Ltac filled :=
  unfold last_filled; cbn;
  let E := fresh "E" in
  first [discriminate | intros E; apply (f_equal zlen) in E; rewrite ?zlen_nil in E; (lia || discriminate)].

(** The round trip of a message with the attributes [l], the extension [sub] and the authenticator
    [auth]; what is left is what the parser does with the values. *)
Ltac sends := apply wsc_run_builds; [lia |]; cbn [when]; eapply builds_eq; [build_attrs | reflexivity].
Ltac reads l sub auth :=
  eapply (parse_bind _ _ l _ _ _ sub auth);
  [match_attrs | reflexivity | done | (intros ? [= <-]; wsc_side) || done | (by intros ? ? [= <- <-]) || done | filled |].
(** The checks of M1 and M2: the type of the message and the number of bands. *)
Ltac check_values bands Hpop :=
  cbv beta zeta; cbn [wp_values wp_ext wp_version2 wp_authenticator];
  let vs := fresh "vs" in
  match goal with |- context [num_of WSC_ATTR_MESSAGE_TYPE ?l] => set (vs := l) end;
  change (num_of WSC_ATTR_RF_BANDS vs) with bands; rewrite Hpop;
  match goal with |- (if ?c then _ else _) = _ => change c with false end; cbv iota;
  match goal with |- (if ?c then _ else _) = _ => change c with false end; cbv iota.
Ltac round_trip l sub auth :=
  exists (attrs_bytes (l ++ tail_attrs sub auth)); split; [sends | reads l sub auth].

Section messages.
Variable junk : nat → Z.

Definition m1_ok (m : wsc_m1) : Prop :=
  zlen (m1_uuid_e m) = 16 ∧ zlen (m1_addr m) = 6 ∧ zlen (m1_enrollee_nonce m) = 16 ∧ zlen (m1_public_key m) = 192 ∧
  0 ≤ m1_auth_type_flags m < 65536 ∧ 0 ≤ m1_encryption_type_flags m < 65536 ∧
  0 ≤ m1_connection_type_flags m < 256 ∧ 0 ≤ m1_config_methods m < 65536 ∧ 1 ≤ m1_state m ≤ 2 ∧
  ascii_ok (m1_manufacturer m) ∧ zlen (m1_manufacturer m) ≤ 64 ∧
  ascii_ok (m1_model_name m) ∧ zlen (m1_model_name m) ≤ 32 ∧
  ascii_ok (m1_model_number m) ∧ zlen (m1_model_number m) ≤ 32 ∧
  ascii_ok (m1_serial_number m) ∧ zlen (m1_serial_number m) ≤ 32 ∧ device_ok (m1_primary_device_type m) ∧
  utf8_ok (m1_device_name m) ∧ zlen (m1_device_name m) ≤ 32 ∧
  0 ≤ m1_rf_bands m < 256 ∧ popcount (m1_rf_bands m) = 1 ∧ 0 ≤ m1_association_state m ≤ 4 ∧
  0 ≤ m1_device_password_id m ≤ 8 ∧ 0 ≤ m1_configuration_error m ≤ 20 ∧ 0 ≤ m1_os_version m < 2 ^ 31 ∧
  (m1_version2 m = false → m1_request_to_enroll m = false).
Definition m1_attrs (m : wsc_m1) : list (Z * list Z) :=
  [(WSC_ATTR_VERSION, [u8 0x10]); (WSC_ATTR_MESSAGE_TYPE, [u8 WSC_MESSAGE_TYPE_M1]);
   (WSC_ATTR_UUID_E, m1_uuid_e m); (WSC_ATTR_MAC_ADDRESS, m1_addr m);
   (WSC_ATTR_ENROLLEE_NONCE, m1_enrollee_nonce m); (WSC_ATTR_PUBLIC_KEY, m1_public_key m);
   (WSC_ATTR_AUTHENTICATION_TYPE_FLAGS, be16_bytes (m1_auth_type_flags m));
   (WSC_ATTR_ENCRYPTION_TYPE_FLAGS, be16_bytes (m1_encryption_type_flags m));
   (WSC_ATTR_CONNECTION_TYPE_FLAGS, [u8 (m1_connection_type_flags m)]);
   (WSC_ATTR_CONFIGURATION_METHODS, be16_bytes (m1_config_methods m)); (WSC_ATTR_WSC_STATE, [u8 (m1_state m)]);
   (WSC_ATTR_MANUFACTURER, wsc_string (m1_manufacturer m)); (WSC_ATTR_MODEL_NAME, wsc_string (m1_model_name m));
   (WSC_ATTR_MODEL_NUMBER, wsc_string (m1_model_number m));
   (WSC_ATTR_SERIAL_NUMBER, wsc_string (m1_serial_number m));
   (WSC_ATTR_PRIMARY_DEVICE_TYPE, device_bytes (m1_primary_device_type m));
   (WSC_ATTR_DEVICE_NAME, wsc_string (m1_device_name m)); (WSC_ATTR_RF_BANDS, [u8 (m1_rf_bands m)]);
   (WSC_ATTR_ASSOCIATION_STATE, be16_bytes (m1_association_state m));
   (WSC_ATTR_DEVICE_PASSWORD_ID, be16_bytes (m1_device_password_id m));
   (WSC_ATTR_CONFIGURATION_ERROR, be16_bytes (m1_configuration_error m));
   (WSC_ATTR_OS_VERSION, be32_bytes (Z.lor (m1_os_version m) 0x80000000))].

(** Empty strings are sent as a space. *)
Definition m1_sent (m : wsc_m1) : wsc_m1 :=
  mk_wsc_m1
    (m1_version2 m) (m1_uuid_e m) (m1_addr m) (m1_enrollee_nonce m) (m1_public_key m) (m1_auth_type_flags m)
    (m1_encryption_type_flags m) (m1_connection_type_flags m) (m1_config_methods m) (m1_state m)
    (wsc_string (m1_manufacturer m)) (wsc_string (m1_model_name m)) (wsc_string (m1_model_number m))
    (wsc_string (m1_serial_number m)) (m1_primary_device_type m) (wsc_string (m1_device_name m)) (m1_rf_bands m)
    (m1_association_state m) (m1_device_password_id m) (m1_configuration_error m) (m1_os_version m)
    (m1_request_to_enroll m).

Lemma wsc_m1_roundtrip m :
  m1_ok m → ∃ pdu, wsc_build_m1 junk m = Ok pdu ∧ wsc_parse_m1 pdu (zlen pdu) = Ok (m1_sent m).
Proof.
  unfold m1_ok. intros Hm. destruct_and? Hm. rename select (popcount _ = 1) into Hpop. rename select (_ = false → _) into Hen. unfold wsc_build_m1, wsc_parse_m1.
  destruct (m1_version2 m) eqn:Hv.
  - round_trip (m1_attrs m) (Some (enroll_bytes (m1_request_to_enroll m))) (@None (Z * list Z)).
    intros x Hx. check_values (m1_rf_bands m) Hpop. rewrite (wfa_request_to_enroll_ok (m1_request_to_enroll m)) by done.
    unfold m1_sent. rewrite Hv. reflexivity.
  - round_trip (m1_attrs m) (@None (list Z)) (@None (Z * list Z)).
    intros x Hx. check_values (m1_rf_bands m) Hpop. rewrite (wfa_request_to_enroll_ok false) by done.
    unfold m1_sent. rewrite Hv, Hen by done. reflexivity.
Qed.

Definition m2_ok (m : wsc_m2) : Prop :=
  zlen (m2_enrollee_nonce m) = 16 ∧ zlen (m2_registrar_nonce m) = 16 ∧ zlen (m2_uuid_r m) = 16 ∧
  zlen (m2_public_key m) = 192 ∧ 0 ≤ m2_auth_type_flags m < 65536 ∧ 0 ≤ m2_encryption_type_flags m < 65536 ∧
  0 ≤ m2_connection_type_flags m < 256 ∧ 0 ≤ m2_config_methods m < 65536 ∧
  ascii_ok (m2_manufacturer m) ∧ zlen (m2_manufacturer m) ≤ 64 ∧
  ascii_ok (m2_model_name m) ∧ zlen (m2_model_name m) ≤ 32 ∧
  ascii_ok (m2_model_number m) ∧ zlen (m2_model_number m) ≤ 32 ∧
  ascii_ok (m2_serial_number m) ∧ zlen (m2_serial_number m) ≤ 32 ∧ device_ok (m2_primary_device_type m) ∧
  utf8_ok (m2_device_name m) ∧ zlen (m2_device_name m) ≤ 32 ∧
  0 ≤ m2_rf_bands m < 256 ∧ popcount (m2_rf_bands m) = 1 ∧ 0 ≤ m2_association_state m ≤ 4 ∧
  0 ≤ m2_configuration_error m ≤ 20 ∧ 0 ≤ m2_device_password_id m ≤ 8 ∧ 0 ≤ m2_os_version m < 2 ^ 31 ∧
  zlen (m2_authenticator m) = 8.
Definition m2_attrs (m : wsc_m2) : list (Z * list Z) :=
  [(WSC_ATTR_VERSION, [u8 0x10]); (WSC_ATTR_MESSAGE_TYPE, [u8 WSC_MESSAGE_TYPE_M2]);
   (WSC_ATTR_ENROLLEE_NONCE, m2_enrollee_nonce m); (WSC_ATTR_REGISTRAR_NONCE, m2_registrar_nonce m);
   (WSC_ATTR_UUID_R, m2_uuid_r m); (WSC_ATTR_PUBLIC_KEY, m2_public_key m);
   (WSC_ATTR_AUTHENTICATION_TYPE_FLAGS, be16_bytes (m2_auth_type_flags m));
   (WSC_ATTR_ENCRYPTION_TYPE_FLAGS, be16_bytes (m2_encryption_type_flags m));
   (WSC_ATTR_CONNECTION_TYPE_FLAGS, [u8 (m2_connection_type_flags m)]);
   (WSC_ATTR_CONFIGURATION_METHODS, be16_bytes (m2_config_methods m));
   (WSC_ATTR_MANUFACTURER, wsc_string (m2_manufacturer m)); (WSC_ATTR_MODEL_NAME, wsc_string (m2_model_name m));
   (WSC_ATTR_MODEL_NUMBER, wsc_string (m2_model_number m));
   (WSC_ATTR_SERIAL_NUMBER, wsc_string (m2_serial_number m));
   (WSC_ATTR_PRIMARY_DEVICE_TYPE, device_bytes (m2_primary_device_type m));
   (WSC_ATTR_DEVICE_NAME, wsc_string (m2_device_name m)); (WSC_ATTR_RF_BANDS, [u8 (m2_rf_bands m)]);
   (WSC_ATTR_ASSOCIATION_STATE, be16_bytes (m2_association_state m));
   (WSC_ATTR_CONFIGURATION_ERROR, be16_bytes (m2_configuration_error m));
   (WSC_ATTR_DEVICE_PASSWORD_ID, be16_bytes (m2_device_password_id m));
   (WSC_ATTR_OS_VERSION, be32_bytes (Z.lor (m2_os_version m) 0x80000000))].

(** Empty strings are sent as a space. *)
Definition m2_sent (m : wsc_m2) : wsc_m2 :=
  mk_wsc_m2
    (m2_version2 m) (m2_enrollee_nonce m) (m2_registrar_nonce m) (m2_uuid_r m) (m2_public_key m)
    (m2_auth_type_flags m) (m2_encryption_type_flags m) (m2_connection_type_flags m) (m2_config_methods m)
    (wsc_string (m2_manufacturer m)) (wsc_string (m2_model_name m)) (wsc_string (m2_model_number m))
    (wsc_string (m2_serial_number m)) (m2_primary_device_type m) (wsc_string (m2_device_name m)) (m2_rf_bands m)
    (m2_association_state m) (m2_configuration_error m) (m2_device_password_id m) (m2_os_version m)
    (m2_authenticator m).

Lemma wsc_m2_roundtrip m :
  m2_ok m → ∃ pdu, wsc_build_m2 junk m = Ok pdu ∧ wsc_parse_m2 pdu (zlen pdu) = Ok (m2_sent m).
Proof.
  unfold m2_ok. intros Hm. destruct_and? Hm. rename select (popcount _ = 1) into Hpop. unfold wsc_build_m2, wsc_parse_m2.
  destruct (m2_version2 m) eqn:Hv.
  - round_trip (m2_attrs m) (Some (@nil Z)) (Some (WSC_ATTR_AUTHENTICATOR, m2_authenticator m)). intros x Hx. check_values (m2_rf_bands m) Hpop. unfold m2_sent. rewrite Hv. reflexivity.
  - round_trip (m2_attrs m) (@None (list Z)) (Some (WSC_ATTR_AUTHENTICATOR, m2_authenticator m)). intros x Hx. check_values (m2_rf_bands m) Hpop. unfold m2_sent. rewrite Hv. reflexivity.
Qed.

Definition m3_ok (m : wsc_m3) : Prop :=
  zlen (m3_registrar_nonce m) = 16 ∧ zlen (m3_e_hash1 m) = 32 ∧ zlen (m3_e_hash2 m) = 32 ∧
  zlen (m3_authenticator m) = 8.
Definition m3_attrs (m : wsc_m3) : list (Z * list Z) :=
  [(WSC_ATTR_VERSION, [u8 0x10]); (WSC_ATTR_MESSAGE_TYPE, [u8 WSC_MESSAGE_TYPE_M3]);
   (WSC_ATTR_REGISTRAR_NONCE, m3_registrar_nonce m); (WSC_ATTR_E_HASH1, m3_e_hash1 m);
   (WSC_ATTR_E_HASH2, m3_e_hash2 m)].

Lemma wsc_m3_roundtrip m :
  m3_ok m → ∃ pdu, wsc_build_m3 junk m = Ok pdu ∧ wsc_parse_m3 pdu (zlen pdu) = Ok m.
Proof.
  unfold m3_ok. intros Hm. destruct_and? Hm. unfold wsc_build_m3, wsc_parse_m3.
  destruct (m3_version2 m) eqn:Hv.
  - round_trip (m3_attrs m) (Some (@nil Z)) (Some (WSC_ATTR_AUTHENTICATOR, m3_authenticator m)). intros x _. destruct m; cbn in *; by subst.
  - round_trip (m3_attrs m) (@None (list Z)) (Some (WSC_ATTR_AUTHENTICATOR, m3_authenticator m)). intros x _. destruct m; cbn in *; by subst.
Qed.

Definition m4_ok (m : wsc_m4) : Prop :=
  zlen (m4_enrollee_nonce m) = 16 ∧ zlen (m4_r_hash1 m) = 32 ∧ zlen (m4_r_hash2 m) = 32 ∧
  zlen (m4_authenticator m) = 8.
Definition m4_attrs (m : wsc_m4) (encrypted : list Z) : list (Z * list Z) :=
  [(WSC_ATTR_VERSION, [u8 0x10]); (WSC_ATTR_MESSAGE_TYPE, [u8 WSC_MESSAGE_TYPE_M4]);
   (WSC_ATTR_ENROLLEE_NONCE, m4_enrollee_nonce m); (WSC_ATTR_R_HASH1, m4_r_hash1 m);
   (WSC_ATTR_R_HASH2, m4_r_hash2 m); (WSC_ATTR_ENCRYPTED_SETTINGS, encrypted)].

Lemma wsc_m4_roundtrip m encrypted :
  m4_ok m → zlen encrypted < 65000 → ∃ pdu, wsc_build_m4 junk m encrypted = Ok pdu ∧ wsc_parse_m4 pdu (zlen pdu) = Ok (m, encrypted).
Proof.
  unfold m4_ok. intros Hm He. destruct_and? Hm. unfold wsc_build_m4, wsc_parse_m4.
  destruct (m4_version2 m) eqn:Hv.
  - round_trip (m4_attrs m encrypted) (Some (@nil Z)) (Some (WSC_ATTR_AUTHENTICATOR, m4_authenticator m)). intros x _. destruct m; cbn in *; by subst.
  - round_trip (m4_attrs m encrypted) (@None (list Z)) (Some (WSC_ATTR_AUTHENTICATOR, m4_authenticator m)). intros x _. destruct m; cbn in *; by subst.
Qed.

Definition m5_ok (m : wsc_m5) : Prop :=
  zlen (m5_registrar_nonce m) = 16 ∧ zlen (m5_authenticator m) = 8.
Definition m5_attrs (m : wsc_m5) (encrypted : list Z) : list (Z * list Z) :=
  [(WSC_ATTR_VERSION, [u8 0x10]); (WSC_ATTR_MESSAGE_TYPE, [u8 WSC_MESSAGE_TYPE_M5]);
   (WSC_ATTR_REGISTRAR_NONCE, m5_registrar_nonce m); (WSC_ATTR_ENCRYPTED_SETTINGS, encrypted)].

Lemma wsc_m5_roundtrip m encrypted :
  m5_ok m → zlen encrypted < 65000 → ∃ pdu, wsc_build_m5 junk m encrypted = Ok pdu ∧ wsc_parse_m5 pdu (zlen pdu) = Ok (m, encrypted).
Proof.
  unfold m5_ok. intros Hm He. destruct_and? Hm. unfold wsc_build_m5, wsc_parse_m5.
  destruct (m5_version2 m) eqn:Hv.
  - round_trip (m5_attrs m encrypted) (Some (@nil Z)) (Some (WSC_ATTR_AUTHENTICATOR, m5_authenticator m)). intros x _. destruct m; cbn in *; by subst.
  - round_trip (m5_attrs m encrypted) (@None (list Z)) (Some (WSC_ATTR_AUTHENTICATOR, m5_authenticator m)). intros x _. destruct m; cbn in *; by subst.
Qed.

Definition m6_ok (m : wsc_m6) : Prop :=
  zlen (m6_enrollee_nonce m) = 16 ∧ zlen (m6_authenticator m) = 8.
Definition m6_attrs (m : wsc_m6) (encrypted : list Z) : list (Z * list Z) :=
  [(WSC_ATTR_VERSION, [u8 0x10]); (WSC_ATTR_MESSAGE_TYPE, [u8 WSC_MESSAGE_TYPE_M6]);
   (WSC_ATTR_ENROLLEE_NONCE, m6_enrollee_nonce m); (WSC_ATTR_ENCRYPTED_SETTINGS, encrypted)].

Lemma wsc_m6_roundtrip m encrypted :
  m6_ok m → zlen encrypted < 65000 → ∃ pdu, wsc_build_m6 junk m encrypted = Ok pdu ∧ wsc_parse_m6 pdu (zlen pdu) = Ok (m, encrypted).
Proof.
  unfold m6_ok. intros Hm He. destruct_and? Hm. unfold wsc_build_m6, wsc_parse_m6.
  destruct (m6_version2 m) eqn:Hv.
  - round_trip (m6_attrs m encrypted) (Some (@nil Z)) (Some (WSC_ATTR_AUTHENTICATOR, m6_authenticator m)). intros x _. destruct m; cbn in *; by subst.
  - round_trip (m6_attrs m encrypted) (@None (list Z)) (Some (WSC_ATTR_AUTHENTICATOR, m6_authenticator m)). intros x _. destruct m; cbn in *; by subst.
Qed.

Definition m7_ok (m : wsc_m7) : Prop :=
  zlen (m7_registrar_nonce m) = 16 ∧ zlen (m7_authenticator m) = 8.
Definition m7_attrs (m : wsc_m7) (encrypted : list Z) : list (Z * list Z) :=
  [(WSC_ATTR_VERSION, [u8 0x10]); (WSC_ATTR_MESSAGE_TYPE, [u8 WSC_MESSAGE_TYPE_M7]);
   (WSC_ATTR_REGISTRAR_NONCE, m7_registrar_nonce m); (WSC_ATTR_ENCRYPTED_SETTINGS, encrypted)].

Lemma wsc_m7_roundtrip m encrypted :
  m7_ok m → zlen encrypted < 65000 → ∃ pdu, wsc_build_m7 junk m encrypted = Ok pdu ∧ wsc_parse_m7 pdu (zlen pdu) = Ok (m, encrypted).
Proof.
  unfold m7_ok. intros Hm He. destruct_and? Hm. unfold wsc_build_m7, wsc_parse_m7.
  destruct (m7_version2 m) eqn:Hv.
  - round_trip (m7_attrs m encrypted) (Some (@nil Z)) (Some (WSC_ATTR_AUTHENTICATOR, m7_authenticator m)). intros x _. destruct m; cbn in *; by subst.
  - round_trip (m7_attrs m encrypted) (@None (list Z)) (Some (WSC_ATTR_AUTHENTICATOR, m7_authenticator m)). intros x _. destruct m; cbn in *; by subst.
Qed.

Definition m8_ok (m : wsc_m8) : Prop :=
  zlen (m8_enrollee_nonce m) = 16 ∧ zlen (m8_authenticator m) = 8.
Definition m8_attrs (m : wsc_m8) (encrypted : list Z) : list (Z * list Z) :=
  [(WSC_ATTR_VERSION, [u8 0x10]); (WSC_ATTR_MESSAGE_TYPE, [u8 WSC_MESSAGE_TYPE_M8]);
   (WSC_ATTR_ENROLLEE_NONCE, m8_enrollee_nonce m); (WSC_ATTR_ENCRYPTED_SETTINGS, encrypted)].

Lemma wsc_m8_roundtrip m encrypted :
  m8_ok m → zlen encrypted < 65000 → ∃ pdu, wsc_build_m8 junk m encrypted = Ok pdu ∧ wsc_parse_m8 pdu (zlen pdu) = Ok (m, encrypted).
Proof.
  unfold m8_ok. intros Hm He. destruct_and? Hm. unfold wsc_build_m8, wsc_parse_m8.
  destruct (m8_version2 m) eqn:Hv.
  - round_trip (m8_attrs m encrypted) (Some (@nil Z)) (Some (WSC_ATTR_AUTHENTICATOR, m8_authenticator m)). intros x _. destruct m; cbn in *; by subst.
  - round_trip (m8_attrs m encrypted) (@None (list Z)) (Some (WSC_ATTR_AUTHENTICATOR, m8_authenticator m)). intros x _. destruct m; cbn in *; by subst.
Qed.

Definition ack_ok (m : wsc_ack) : Prop :=
  zlen (ack_enrollee_nonce m) = 16 ∧ zlen (ack_registrar_nonce m) = 16.
Definition ack_attrs (m : wsc_ack) : list (Z * list Z) :=
  [(WSC_ATTR_VERSION, [u8 0x10]); (WSC_ATTR_MESSAGE_TYPE, [u8 WSC_MESSAGE_TYPE_WSC_ACK]);
   (WSC_ATTR_ENROLLEE_NONCE, ack_enrollee_nonce m); (WSC_ATTR_REGISTRAR_NONCE, ack_registrar_nonce m)].

Lemma wsc_wsc_ack_roundtrip m :
  ack_ok m → ∃ pdu, wsc_build_wsc_ack junk m = Ok pdu ∧ wsc_parse_wsc_ack pdu (zlen pdu) = Ok m.
Proof.
  unfold ack_ok. intros Hm. destruct_and? Hm. unfold wsc_build_wsc_ack, wsc_parse_wsc_ack.
  destruct (ack_version2 m) eqn:Hv.
  - round_trip (ack_attrs m) (Some (@nil Z)) (@None (Z * list Z)). intros x _. destruct m; cbn in *; by subst.
  - round_trip (ack_attrs m) (@None (list Z)) (@None (Z * list Z)). intros x _. destruct m; cbn in *; by subst.
Qed.

Definition nack_ok (m : wsc_nack) : Prop :=
  zlen (nack_enrollee_nonce m) = 16 ∧ zlen (nack_registrar_nonce m) = 16 ∧ 0 ≤ nack_configuration_error m ≤ 20.
Definition nack_attrs (m : wsc_nack) : list (Z * list Z) :=
  [(WSC_ATTR_VERSION, [u8 0x10]); (WSC_ATTR_MESSAGE_TYPE, [u8 WSC_MESSAGE_TYPE_WSC_NACK]);
   (WSC_ATTR_ENROLLEE_NONCE, nack_enrollee_nonce m); (WSC_ATTR_REGISTRAR_NONCE, nack_registrar_nonce m);
   (WSC_ATTR_CONFIGURATION_ERROR, be16_bytes (nack_configuration_error m))].

Lemma wsc_wsc_nack_roundtrip m :
  nack_ok m → ∃ pdu, wsc_build_wsc_nack junk m = Ok pdu ∧ wsc_parse_wsc_nack pdu (zlen pdu) = Ok m.
Proof.
  unfold nack_ok. intros Hm. destruct_and? Hm. unfold wsc_build_wsc_nack, wsc_parse_wsc_nack.
  destruct (nack_version2 m) eqn:Hv.
  - round_trip (nack_attrs m) (Some (@nil Z)) (@None (Z * list Z)). intros x _. destruct m; cbn in *; by subst.
  - round_trip (nack_attrs m) (@None (list Z)) (@None (Z * list Z)). intros x _. destruct m; cbn in *; by subst.
Qed.

Definition done_ok (m : wsc_done) : Prop :=
  zlen (done_enrollee_nonce m) = 16 ∧ zlen (done_registrar_nonce m) = 16.
Definition done_attrs (m : wsc_done) : list (Z * list Z) :=
  [(WSC_ATTR_VERSION, [u8 0x10]); (WSC_ATTR_MESSAGE_TYPE, [u8 WSC_MESSAGE_TYPE_WSC_DONE]);
   (WSC_ATTR_ENROLLEE_NONCE, done_enrollee_nonce m); (WSC_ATTR_REGISTRAR_NONCE, done_registrar_nonce m)].

Lemma wsc_wsc_done_roundtrip m :
  done_ok m → ∃ pdu, wsc_build_wsc_done junk m = Ok pdu ∧ wsc_parse_wsc_done pdu (zlen pdu) = Ok m.
Proof.
  unfold done_ok. intros Hm. destruct_and? Hm. unfold wsc_build_wsc_done, wsc_parse_wsc_done.
  destruct (done_version2 m) eqn:Hv.
  - round_trip (done_attrs m) (Some (@nil Z)) (@None (Z * list Z)). intros x _. destruct m; cbn in *; by subst.
  - round_trip (done_attrs m) (@None (list Z)) (@None (Z * list Z)). intros x _. destruct m; cbn in *; by subst.
Qed.

Definition m4s_ok (m : wsc_m4_encrypted_settings) : Prop :=
  zlen (m4s_r_snonce1 m) = 16 ∧ zlen (m4s_authenticator m) = 8.
Definition m4s_attrs (m : wsc_m4_encrypted_settings) : list (Z * list Z) :=
  [(WSC_ATTR_R_SNONCE1, m4s_r_snonce1 m)].

Lemma wsc_m4_encrypted_settings_roundtrip m :
  m4s_ok m → ∃ pdu, wsc_build_m4_encrypted_settings junk m = Ok pdu ∧ wsc_parse_m4_encrypted_settings pdu (zlen pdu) = Ok m.
Proof.
  unfold m4s_ok. intros Hm. destruct_and? Hm. unfold wsc_build_m4_encrypted_settings, wsc_parse_m4_encrypted_settings.
  round_trip (m4s_attrs m) (@None (list Z)) (Some (WSC_ATTR_KEY_WRAP_AUTHENTICATOR, m4s_authenticator m)). intros x _. by destruct m.
Qed.

Definition m5s_ok (m : wsc_m5_encrypted_settings) : Prop :=
  zlen (m5s_e_snonce1 m) = 16 ∧ zlen (m5s_authenticator m) = 8.
Definition m5s_attrs (m : wsc_m5_encrypted_settings) : list (Z * list Z) :=
  [(WSC_ATTR_E_SNONCE1, m5s_e_snonce1 m)].

Lemma wsc_m5_encrypted_settings_roundtrip m :
  m5s_ok m → ∃ pdu, wsc_build_m5_encrypted_settings junk m = Ok pdu ∧ wsc_parse_m5_encrypted_settings pdu (zlen pdu) = Ok m.
Proof.
  unfold m5s_ok. intros Hm. destruct_and? Hm. unfold wsc_build_m5_encrypted_settings, wsc_parse_m5_encrypted_settings.
  round_trip (m5s_attrs m) (@None (list Z)) (Some (WSC_ATTR_KEY_WRAP_AUTHENTICATOR, m5s_authenticator m)). intros x _. by destruct m.
Qed.

Definition m6s_ok (m : wsc_m6_encrypted_settings) : Prop :=
  zlen (m6s_r_snonce2 m) = 16 ∧ zlen (m6s_authenticator m) = 8.
Definition m6s_attrs (m : wsc_m6_encrypted_settings) : list (Z * list Z) :=
  [(WSC_ATTR_R_SNONCE2, m6s_r_snonce2 m)].

Lemma wsc_m6_encrypted_settings_roundtrip m :
  m6s_ok m → ∃ pdu, wsc_build_m6_encrypted_settings junk m = Ok pdu ∧ wsc_parse_m6_encrypted_settings pdu (zlen pdu) = Ok m.
Proof.
  unfold m6s_ok. intros Hm. destruct_and? Hm. unfold wsc_build_m6_encrypted_settings, wsc_parse_m6_encrypted_settings.
  round_trip (m6s_attrs m) (@None (list Z)) (Some (WSC_ATTR_KEY_WRAP_AUTHENTICATOR, m6s_authenticator m)). intros x _. by destruct m.
Qed.

Definition m7s_ok (m : wsc_m7_encrypted_settings) : Prop :=
  zlen (m7s_e_snonce2 m) = 16 ∧ zlen (m7s_authenticator m) = 8.
Definition m7s_attrs (m : wsc_m7_encrypted_settings) : list (Z * list Z) :=
  [(WSC_ATTR_E_SNONCE2, m7s_e_snonce2 m)].

Lemma wsc_m7_encrypted_settings_roundtrip m :
  m7s_ok m → ∃ pdu, wsc_build_m7_encrypted_settings junk m = Ok pdu ∧ wsc_parse_m7_encrypted_settings pdu (zlen pdu) = Ok m.
Proof.
  unfold m7s_ok. intros Hm. destruct_and? Hm. unfold wsc_build_m7_encrypted_settings, wsc_parse_m7_encrypted_settings.
  round_trip (m7s_attrs m) (@None (list Z)) (Some (WSC_ATTR_KEY_WRAP_AUTHENTICATOR, m7s_authenticator m)). intros x _. by destruct m.
Qed.

End messages.

(** C25: Every message of the registration protocol that is built is parsed into the structure it was
    built from, the fields being in their ranges; an empty string comes back as a space. *)
Theorem wsc_messages_roundtrip junk encrypted :
  zlen encrypted < 65000 →
  (∀ m, m1_ok m → ∃ pdu, wsc_build_m1 junk m = Ok pdu ∧ wsc_parse_m1 pdu (zlen pdu) = Ok (m1_sent m)) ∧
  (∀ m, m2_ok m → ∃ pdu, wsc_build_m2 junk m = Ok pdu ∧ wsc_parse_m2 pdu (zlen pdu) = Ok (m2_sent m)) ∧
  (∀ m, m3_ok m → ∃ pdu, wsc_build_m3 junk m = Ok pdu ∧ wsc_parse_m3 pdu (zlen pdu) = Ok m) ∧
  (∀ m, m4_ok m → ∃ pdu, wsc_build_m4 junk m encrypted = Ok pdu ∧ wsc_parse_m4 pdu (zlen pdu) = Ok (m, encrypted)) ∧
  (∀ m, m5_ok m → ∃ pdu, wsc_build_m5 junk m encrypted = Ok pdu ∧ wsc_parse_m5 pdu (zlen pdu) = Ok (m, encrypted)) ∧
  (∀ m, m6_ok m → ∃ pdu, wsc_build_m6 junk m encrypted = Ok pdu ∧ wsc_parse_m6 pdu (zlen pdu) = Ok (m, encrypted)) ∧
  (∀ m, m7_ok m → ∃ pdu, wsc_build_m7 junk m encrypted = Ok pdu ∧ wsc_parse_m7 pdu (zlen pdu) = Ok (m, encrypted)) ∧
  (∀ m, m8_ok m → ∃ pdu, wsc_build_m8 junk m encrypted = Ok pdu ∧ wsc_parse_m8 pdu (zlen pdu) = Ok (m, encrypted)) ∧
  (∀ m, ack_ok m → ∃ pdu, wsc_build_wsc_ack junk m = Ok pdu ∧ wsc_parse_wsc_ack pdu (zlen pdu) = Ok m) ∧
  (∀ m, nack_ok m → ∃ pdu, wsc_build_wsc_nack junk m = Ok pdu ∧ wsc_parse_wsc_nack pdu (zlen pdu) = Ok m) ∧
  (∀ m, done_ok m → ∃ pdu, wsc_build_wsc_done junk m = Ok pdu ∧ wsc_parse_wsc_done pdu (zlen pdu) = Ok m).
Proof.
  intros He. split_and!; intros m Hm;
    [by apply wsc_m1_roundtrip | by apply wsc_m2_roundtrip | by apply wsc_m3_roundtrip | by apply wsc_m4_roundtrip
    | by apply wsc_m5_roundtrip | by apply wsc_m6_roundtrip | by apply wsc_m7_roundtrip | by apply wsc_m8_roundtrip
    | by apply wsc_wsc_ack_roundtrip | by apply wsc_wsc_nack_roundtrip | by apply wsc_wsc_done_roundtrip].
Qed.

Lemma wsc_messages_roundtrip_witness :
  let m := mk_wsc_m5 true (replicate 16 7) (replicate 8 9) in
  zlen [1; 2; 3] < 65000 ∧ m5_ok m ∧
  ∃ pdu, wsc_build_m5 (λ _, 0) m [1; 2; 3] = Ok pdu ∧ wsc_parse_m5 pdu (zlen pdu) = Ok (m, [1; 2; 3]).
Proof.
  split; [reflexivity |]. split; [by_eval |].
  apply (proj1 (proj2 (proj2 (proj2 (proj2 (wsc_messages_roundtrip (λ _, 0) [1; 2; 3] eq_refl)))))). by_eval.
Defined.
