(* ===== verification/WscFrames.v ===== *)
(** * Wi-Fi Simple Configuration: management frames, credentials and settings (src/wscutil.c)

    The round trips of the information elements of beacons, probes and associations, of the
    credentials, and of the encrypted settings of M8 that carry them. *)

From stdpp Require Import base numbers list option.
From Stdlib Require Import ZArith Lia.
From S2P Require Import Prelude StRes IeTlv IeMisc Crypto Handshake EapolFrame EapSpec Mschap Wsc WscMsg WscSafe WscSpec WscRun.

Open Scope Z_scope.

Section frames.
Variable junk : nat → Z.

(** ** Associations *)

Lemma wsc_association_request_roundtrip m :
  0 ≤ arq_request_type m ≤ 3 →
  ∃ pdu, wsc_build_association_request junk m = Ok pdu ∧ wsc_parse_association_request pdu (zlen pdu) = Ok m.
Proof.
  intros H. unfold wsc_build_association_request, wsc_parse_association_request.
  set (l := [(WSC_ATTR_VERSION, [u8 0x10]); (WSC_ATTR_REQUEST_TYPE, [u8 (arq_request_type m)])]).
  destruct (arq_version2 m) eqn:Hv.
  - round_trip l (Some (@nil Z)) (@None (Z * list Z)). intros x _. destruct m; cbn in *; by subst.
  - round_trip l (@None (list Z)) (@None (Z * list Z)). intros x _. destruct m; cbn in *; by subst.
Qed.

Lemma wsc_association_response_roundtrip m :
  0 ≤ ars_response_type m ≤ 3 →
  ∃ pdu, wsc_build_association_response junk m = Ok pdu ∧ wsc_parse_association_response pdu (zlen pdu) = Ok m.
Proof.
  intros H. unfold wsc_build_association_response, wsc_parse_association_response.
  set (l := [(WSC_ATTR_VERSION, [u8 0x10]); (WSC_ATTR_RESPONSE_TYPE, [u8 (ars_response_type m)])]).
  destruct (ars_version2 m) eqn:Hv.
  - round_trip l (Some (@nil Z)) (@None (Z * list Z)). intros x _. destruct m; cbn in *; by subst.
  - round_trip l (@None (list Z)) (@None (Z * list Z)). intros x _. destruct m; cbn in *; by subst.
Qed.

(** ** Beacons *)

(** More than one band: only then are the bands sent. *)
Definition multi_band (rf_bands : Z) : bool := 1 <? popcount rf_bands.

Definition beacon_ok (m : wsc_beacon) : Prop :=
  1 ≤ bcn_state m ≤ 2 ∧ 0 ≤ bcn_device_password_id m ≤ 8 ∧ 0 ≤ bcn_selected_reg_config_methods m < 65536 ∧
  zlen (bcn_uuid_e m) = 16 ∧ 0 ≤ bcn_rf_bands m < 256 ∧ 0 ≤ bcn_reg_config_methods m < 65536 ∧
  ∃ addrs, macs_ok (bcn_authorized_macs m) addrs.

(** What a beacon carries: the attributes of a selected registrar only when there is one, the
    bands and the UUID only when there are several bands, the extensions in Version 2. *)
Definition beacon_sent (m : wsc_beacon) : wsc_beacon :=
  mk_wsc_beacon (bcn_version2 m) (bcn_state m) (bcn_ap_setup_locked m) (bcn_selected_registrar m)
    (if bcn_selected_registrar m then bcn_device_password_id m else 0)
    (if bcn_selected_registrar m then bcn_selected_reg_config_methods m else 0)
    (if multi_band (bcn_rf_bands m) && bcn_selected_registrar m then bcn_uuid_e m else zeros 16)
    (if multi_band (bcn_rf_bands m) then bcn_rf_bands m else 0)
    (if bcn_version2 m then bcn_authorized_macs m else zeros 30) (if bcn_version2 m then bcn_reg_config_methods m else 0).

Definition registrar_attrs (selected : bool) (id methods : Z) : list (Z * list Z) :=
  if selected then [(WSC_ATTR_SELECTED_REGISTRAR, [u8 1]); (WSC_ATTR_DEVICE_PASSWORD_ID, be16_bytes id);
    (WSC_ATTR_SELECTED_REGISTRAR_CONFIGURATION_METHODS, be16_bytes methods)] else [].

Definition beacon_attrs (m : wsc_beacon) : list (Z * list Z) :=
  [(WSC_ATTR_VERSION, [u8 0x10]); (WSC_ATTR_WSC_STATE, [u8 (bcn_state m)])] ++
  (if bcn_ap_setup_locked m then [(WSC_ATTR_AP_SETUP_LOCKED, [u8 1])] else []) ++
  registrar_attrs (bcn_selected_registrar m) (bcn_device_password_id m) (bcn_selected_reg_config_methods m) ++
  (if multi_band (bcn_rf_bands m) then
     (if bcn_selected_registrar m then [(WSC_ATTR_UUID_E, bcn_uuid_e m)] else []) ++ [(WSC_ATTR_RF_BANDS, [u8 (bcn_rf_bands m)])]
   else []).

(** The extensions of the registrar, behind the values [m] has. *)
Lemma registrar_none x : wfa_at [] x → wfa_registrar x = Ok (zeros 30, 0).
Proof. intros Hx. unfold wfa_registrar. by rewrite wsc_wfa_ext_iter_next_end, bind_ok. Qed.

Lemma wsc_beacon_roundtrip m :
  beacon_ok m → ∃ pdu, wsc_build_beacon junk m = Ok pdu ∧ wsc_parse_beacon pdu (zlen pdu) = Ok (beacon_sent m).
Proof.
  intros (H1 & H2 & H3 & H4 & H5 & H6 & addrs & H7). unfold wsc_build_beacon, wsc_parse_beacon.
  unfold beacon_sent. pose (l := beacon_attrs m). unfold beacon_attrs, registrar_attrs in l. unfold multi_band in *.
  destruct (bcn_version2 m); destruct (bcn_selected_registrar m), (bcn_ap_setup_locked m), (1 <? popcount (bcn_rf_bands m)); cbn [app] in l.
  1-8: round_trip l (Some (macs_bytes addrs ++ methods_bytes (bcn_reg_config_methods m))) (@None (Z * list Z)); intros x Hx;
    cbv beta zeta; cbn [wp_ext]; by rewrite (wfa_registrar_ok (bcn_authorized_macs m) addrs (bcn_reg_config_methods m)).
  all: round_trip l (@None (list Z)) (@None (Z * list Z)); intros x Hx; cbv beta zeta; cbn [wp_ext]; by rewrite registrar_none.
Qed.

(** ** Probe responses *)

Definition probe_response_ok (m : wsc_probe_response) : Prop :=
  1 ≤ prs_state m ≤ 2 ∧ 0 ≤ prs_device_password_id m ≤ 8 ∧ 0 ≤ prs_selected_reg_config_methods m < 65536 ∧
  0 ≤ prs_response_type m ≤ 3 ∧ zlen (prs_uuid_e m) = 16 ∧ ascii_ok (prs_manufacturer m) ∧ zlen (prs_manufacturer m) ≤ 64 ∧
  ascii_ok (prs_model_name m) ∧ zlen (prs_model_name m) ≤ 32 ∧ ascii_ok (prs_model_number m) ∧ zlen (prs_model_number m) ≤ 32 ∧
  ascii_ok (prs_serial_number m) ∧ zlen (prs_serial_number m) ≤ 32 ∧ device_ok (prs_primary_device_type m) ∧
  utf8_ok (prs_device_name m) ∧ zlen (prs_device_name m) ≤ 32 ∧ 0 ≤ prs_config_methods m < 65536 ∧ 0 ≤ prs_rf_bands m < 256 ∧
  0 ≤ prs_reg_config_methods m < 65536 ∧ ∃ addrs, macs_ok (prs_authorized_macs m) addrs.

Definition probe_response_sent (m : wsc_probe_response) : wsc_probe_response :=
  mk_wsc_probe_response (prs_version2 m) (prs_state m) (prs_ap_setup_locked m) (prs_selected_registrar m)
    (if prs_selected_registrar m then prs_device_password_id m else 0)
    (if prs_selected_registrar m then prs_selected_reg_config_methods m else 0)
    (prs_response_type m) (prs_uuid_e m) (wsc_string (prs_manufacturer m)) (wsc_string (prs_model_name m))
    (wsc_string (prs_model_number m)) (wsc_string (prs_serial_number m)) (prs_primary_device_type m)
    (wsc_string (prs_device_name m)) (prs_config_methods m) (if multi_band (prs_rf_bands m) then prs_rf_bands m else 0)
    (if prs_version2 m then prs_authorized_macs m else zeros 30) (if prs_version2 m then prs_reg_config_methods m else 0).

Definition probe_response_attrs (m : wsc_probe_response) : list (Z * list Z) :=
  [(WSC_ATTR_VERSION, [u8 0x10]); (WSC_ATTR_WSC_STATE, [u8 (prs_state m)])] ++
  (if prs_ap_setup_locked m then [(WSC_ATTR_AP_SETUP_LOCKED, [u8 1])] else []) ++
  registrar_attrs (prs_selected_registrar m) (prs_device_password_id m) (prs_selected_reg_config_methods m) ++
  [(WSC_ATTR_RESPONSE_TYPE, [u8 (prs_response_type m)]); (WSC_ATTR_UUID_E, prs_uuid_e m);
   (WSC_ATTR_MANUFACTURER, wsc_string (prs_manufacturer m)); (WSC_ATTR_MODEL_NAME, wsc_string (prs_model_name m));
   (WSC_ATTR_MODEL_NUMBER, wsc_string (prs_model_number m)); (WSC_ATTR_SERIAL_NUMBER, wsc_string (prs_serial_number m));
   (WSC_ATTR_PRIMARY_DEVICE_TYPE, device_bytes (prs_primary_device_type m)); (WSC_ATTR_DEVICE_NAME, wsc_string (prs_device_name m));
   (WSC_ATTR_CONFIGURATION_METHODS, be16_bytes (prs_config_methods m))] ++
  (if multi_band (prs_rf_bands m) then [(WSC_ATTR_RF_BANDS, [u8 (prs_rf_bands m)])] else []).

Lemma wsc_probe_response_roundtrip m :
  probe_response_ok m →
  ∃ pdu, wsc_build_probe_response junk m = Ok pdu ∧ wsc_parse_probe_response pdu (zlen pdu) = Ok (probe_response_sent m).
Proof.
  intros Hm. unfold probe_response_ok in Hm. destruct_and? Hm. rename select (∃ _, _) into Hmacs. destruct Hmacs as [addrs Hmacs].
  unfold wsc_build_probe_response, wsc_parse_probe_response. cbv zeta.
  unfold probe_response_sent. pose (l := probe_response_attrs m). unfold probe_response_attrs, registrar_attrs in l. unfold multi_band in *.
  destruct (prs_version2 m); destruct (prs_selected_registrar m), (prs_ap_setup_locked m), (1 <? popcount (prs_rf_bands m)); cbn [app] in l.
  1-8: round_trip l (Some (macs_bytes addrs ++ methods_bytes (prs_reg_config_methods m))) (@None (Z * list Z)); intros x Hx;
    cbv beta zeta; cbn [wp_ext]; by rewrite (wfa_registrar_ok (prs_authorized_macs m) addrs (prs_reg_config_methods m)).
  all: round_trip l (@None (list Z)) (@None (Z * list Z)); intros x Hx; cbv beta zeta; cbn [wp_ext]; by rewrite registrar_none.
Qed.

(** ** Probe requests *)

Definition probe_request_ok (m : wsc_probe_request) : Prop :=
  0 ≤ prq_request_type m ≤ 3 ∧ 0 ≤ prq_config_methods m < 65536 ∧ zlen (prq_uuid_e m) = 16 ∧
  device_ok (prq_primary_device_type m) ∧ 0 ≤ prq_rf_bands m < 256 ∧ 0 ≤ prq_association_state m ≤ 4 ∧
  0 ≤ prq_configuration_error m ≤ 20 ∧ 0 ≤ prq_device_password_id m ≤ 8 ∧ ascii_ok (prq_manufacturer m) ∧
  zlen (prq_manufacturer m) ≤ 64 ∧ ascii_ok (prq_model_name m) ∧ zlen (prq_model_name m) ≤ 32 ∧ ascii_ok (prq_model_number m) ∧
  zlen (prq_model_number m) ≤ 32 ∧ utf8_ok (prq_device_name m) ∧ zlen (prq_device_name m) ≤ 32.

(** The serial number and the requested device type are not sent. *)
Definition probe_request_sent (m : wsc_probe_request) : wsc_probe_request :=
  let text := λ s, if prq_version2 m then wsc_string s else [] in
  mk_wsc_probe_request (prq_version2 m) (prq_request_type m) (prq_config_methods m) (prq_uuid_e m) (prq_primary_device_type m)
    (prq_rf_bands m) (prq_association_state m) (prq_configuration_error m) (prq_device_password_id m)
    (text (prq_manufacturer m)) (text (prq_model_name m)) (text (prq_model_number m)) [] (text (prq_device_name m))
    (prq_version2 m && prq_request_to_enroll m) (mk_pdt 0 (zeros 3) 0 0).

Definition probe_request_attrs (m : wsc_probe_request) : list (Z * list Z) :=
  [(WSC_ATTR_VERSION, [u8 0x10]); (WSC_ATTR_REQUEST_TYPE, [u8 (prq_request_type m)]);
   (WSC_ATTR_CONFIGURATION_METHODS, be16_bytes (prq_config_methods m)); (WSC_ATTR_UUID_E, prq_uuid_e m);
   (WSC_ATTR_PRIMARY_DEVICE_TYPE, device_bytes (prq_primary_device_type m)); (WSC_ATTR_RF_BANDS, [u8 (prq_rf_bands m)]);
   (WSC_ATTR_ASSOCIATION_STATE, be16_bytes (prq_association_state m));
   (WSC_ATTR_CONFIGURATION_ERROR, be16_bytes (prq_configuration_error m));
   (WSC_ATTR_DEVICE_PASSWORD_ID, be16_bytes (prq_device_password_id m))] ++
  (if prq_version2 m then
     [(WSC_ATTR_MANUFACTURER, wsc_string (prq_manufacturer m)); (WSC_ATTR_MODEL_NAME, wsc_string (prq_model_name m));
      (WSC_ATTR_MODEL_NUMBER, wsc_string (prq_model_number m)); (WSC_ATTR_DEVICE_NAME, wsc_string (prq_device_name m))] else []).

Lemma wsc_probe_request_roundtrip m :
  probe_request_ok m →
  ∃ pdu, wsc_build_probe_request junk m = Ok pdu ∧ wsc_parse_probe_request pdu (zlen pdu) = Ok (probe_request_sent m).
Proof.
  intros Hm. unfold probe_request_ok in Hm. destruct_and? Hm. unfold wsc_build_probe_request, wsc_parse_probe_request.
  unfold probe_request_sent. pose (l := probe_request_attrs m). unfold probe_request_attrs in l.
  destruct (prq_version2 m); cbn [app] in l.
  - round_trip l (Some (enroll_bytes (prq_request_to_enroll m))) (@None (Z * list Z)). intros x Hx.
    cbv beta zeta. cbn [wp_ext]. by rewrite (wfa_request_to_enroll_ok (prq_request_to_enroll m)).
  - round_trip l (@None (list Z)) (@None (Z * list Z)). intros x Hx.
    cbv beta zeta. cbn [wp_ext]. by rewrite (wfa_request_to_enroll_ok false).
Qed.

(** ** Credentials *)

Lemma builds_prefix t p s rest n :
  p = s ++ rest → n = zlen s → n < 65532 →
  builds (wsc_attr_builder_start_attr junk t;; b ← run (rdn p n); wsc_attr_builder_put_bytes junk b) [(t, s)].
Proof.
  intros -> -> Hn. pose proof (builds_rdn junk t (s ++ rest) (zlen s)) as H. rewrite ptake_app in H by done.
  apply H; [rewrite zlen_app; znn; lia | done].
Qed.

(** The array of [n] bytes with [s] in front, and zeros behind. *)
Definition padded (n : nat) (s : list Z) : list Z := s ++ zeros (n - length s).

Lemma put_zeros n s : zlen s ≤ Z.of_nat n → put (zeros n) 0 s = Ok (padded n s).
Proof.
  intros Hs. rewrite put_first by (by rewrite zlen_zeros). unfold padded. do 2 f_equal.
  unfold padd, zeros, zlen. rewrite Nat2Z.id. apply drop_replicate.
Qed.

Lemma trim_ssid_padded s n : (∀ k c, s = k ++ [c] → c ≠ 0) → trim_ssid (length s) (padded n s) = zlen s.
Proof.
  intros Hlast. destruct (decide (s = [])) as [->|Hne]; [done |]. destruct (exists_last Hne) as (k & c & ->).
  rewrite length_app, Nat.add_comm. cbn [length Nat.add trim_ssid]. unfold padded. rewrite <- app_assoc, lookup_app_r by lia.
  rewrite Nat.sub_diag. cbn. destruct (Z.eqb_spec c 0) as [->|]; [by destruct (Hlast k 0 eq_refl) |].
  rewrite zlen_app. unfold zlen. cbn [length]. lia.
Qed.

(** The arrays hold an SSID and a key that do not end with a zero. *)
Definition credential_ok (c : wsc_credential) (ssid key : list Z) : Prop :=
  (cred_ssid c = padded 32 ssid ∧ cred_ssid_len c = zlen ssid ∧ 1 ≤ zlen ssid ≤ 32 ∧ (∀ k b, ssid = k ++ [b] → b ≠ 0)) ∧
  (cred_network_key c = padded 65 key ∧ cred_network_key_len c = zlen key ∧ zlen key ≤ 64 ∧ (∀ k b, key = k ++ [b] → b ≠ 0)) ∧
  0 ≤ cred_auth_type c < 65536 ∧ 0 ≤ cred_encryption_type c < 65536 ∧ zlen (cred_addr c) = 6.

Definition credential_attrs (c : wsc_credential) (ssid key : list Z) : list (Z * list Z) :=
  [(WSC_ATTR_NETWORK_INDEX, [u8 1]); (WSC_ATTR_SSID, ssid); (WSC_ATTR_AUTHENTICATION_TYPE, be16_bytes (cred_auth_type c));
   (WSC_ATTR_ENCRYPTION_TYPE, be16_bytes (cred_encryption_type c)); (WSC_ATTR_NETWORK_KEY, key); (WSC_ATTR_MAC_ADDRESS, cred_addr c)].

Lemma wsc_build_credential_bytes c ssid key :
  credential_ok c ssid key → wsc_build_credential junk c = Ok (attrs_bytes (credential_attrs c ssid key)).
Proof.
  intros ((Hs & Hsl & Hsz & _) & (Hk & Hkl & Hkz & _) & _ & _ & Ha). unfold wsc_build_credential.
  apply wsc_run_builds; [lia |]. eapply builds_eq.
  - apply builds_seq; [build_attrs |]. apply builds_seq; [eapply builds_prefix; [exact Hs | done | lia] |].
    do 2 (apply builds_seq; [build_attrs |]). apply builds_seq; [eapply builds_prefix; [exact Hk | done | lia] | build_attrs].
  - reflexivity.
Qed.

Lemma wsc_parse_credential_back c ssid key :
  credential_ok c ssid key →
  let pdu := attrs_bytes (credential_attrs c ssid key) in wsc_parse_credential pdu (zlen pdu) = Ok c.
Proof.
  intros ((Hs & Hsl & Hsz & Hsn) & (Hk & Hkl & Hkz & Hkn) & Hat & Het & Ha) pdu. unfold wsc_parse_credential.
  pose proof (parse_bind (A := wsc_credential)) as Hp. specialize (Hp) with (l := credential_attrs c ssid key) (sub := None) (auth := None).
  unfold tail_attrs in Hp. rewrite app_nil_r in Hp. eapply (Hp _ _ _ _ false).
  - repeat (eapply match_attr; [reflexivity | first [apply decodes_ssid; lia | apply decodes_network_key; [lia | done] | decode_attr] | wsc_side |]).
    apply match_end. reflexivity.
  - reflexivity.
  - done.
  - done.
  - done.
  - filled.
  - intros x _. cbv beta zeta. cbn [wp_values].
    match goal with |- context [iov_of WSC_ATTR_SSID ?l] => set (vs := l) end.
    change (iov_of WSC_ATTR_SSID vs) with ssid. change (iov_of WSC_ATTR_NETWORK_KEY vs) with key.
    rewrite (put_zeros 32 ssid), bind_ok, trim_ssid_padded by (done || lia). destruct (Z.eqb_spec (zlen ssid) 0); [lia |].
    rewrite (put_zeros 65 key), bind_ok by lia. destruct c. cbn in *. by subst.
Qed.

(** ** The settings of M8 *)

(** An iterator on the attribute [a], with [rest] behind it. *)
Definition attr_on (pre : list Z) (a : Z * list Z) (rest : list Z) (it : wsc_attr_iter) : Prop :=
  attr_at (pre ++ attr_bytes a) rest it ∧ wa_type it = a.1 ∧ wa_len it = zlen a.2 ∧ wa_data it = a.2 ++ rest.

Lemma next_or_bad_on pre t d rest it :
  attr_at pre (attr_bytes (t, d) ++ rest) it → 0 ≤ t < 65536 → zlen d < 65536 → d ++ rest ≠ [] →
  zlen (pre ++ attr_bytes (t, d) ++ rest) < 2 ^ 31 →
  ∃ it', next_or_bad it = Ok it' ∧ attr_on pre (t, d) rest it'.
Proof.
  intros Hat Ht Hd Hne Hz. destruct (wsc_attr_iter_next_attr _ _ _ _ _ Hat Ht Hd Hne Hz) as (it' & Hn & H).
  exists it'. unfold next_or_bad. rewrite Hn, bind_ok. by split.
Qed.

Definition cred_attr (d : list Z) : Z * list Z := (WSC_ATTR_CREDENTIAL, d).

Lemma attr_bytes_ne a l : attr_bytes a ++ l ≠ [].
Proof. done. Qed.

(** The loop collects the credentials and stops at the first attribute of another type. *)
Lemma credentials_loop_ok ds : ∀ fuel max acc pre d t e post it,
  attr_on pre (cred_attr d) (attrs_bytes (cred_attr <$> ds) ++ attr_bytes (t, e) ++ post) it →
  t ≠ WSC_ATTR_CREDENTIAL → 0 ≤ t < 65536 → zlen e < 65536 → e ++ post ≠ [] → Forall (λ d, zlen d < 65536) ds →
  zlen (pre ++ attr_bytes (cred_attr d) ++ attrs_bytes (cred_attr <$> ds) ++ attr_bytes (t, e) ++ post) < 2 ^ 31 →
  (length acc + length ds < max)%nat → (S (length ds) < fuel)%nat →
  ∃ it', credentials_loop fuel max acc it = Ok (acc ++ d :: ds, it') ∧
         attr_on (pre ++ attr_bytes (cred_attr d) ++ attrs_bytes (cred_attr <$> ds)) (t, e) post it'.
Proof.
  induction ds as [|d' ds IH]; intros fuel max acc pre d t e post it (Hat & Ht & Hl & Hd) Hne Htr He Hep Hds Hz Hmax Hf;
    (destruct fuel as [|fuel]; [lia |]); cbn [credentials_loop cred_attr fst snd] in *;
    rewrite Ht, Hl, Hd, Z.eqb_refl, rdn_app, bind_ok by done; cbv zeta;
    (assert (Hlt : (length acc <? max)%nat = true) by (apply Nat.ltb_lt; cbn in *; lia)); rewrite Hlt.
  - change (attrs_bytes (cred_attr <$> [])) with (@nil Z) in *. cbn [app] in *. rewrite app_nil_r.
    edestruct (wsc_attr_iter_next_attr _ _ _ _ _ Hat) as (it' & Hn & Hon); [done | done | done | by rewrite <- app_assoc |].
    rewrite Hn, bind_ok. destruct fuel as [|fuel]; [cbn in *; lia |]. cbn [credentials_loop]. destruct Hon as (Hat' & Ht' & Hl' & Hd').
    rewrite Ht'. destruct (Z.eqb_spec t WSC_ATTR_CREDENTIAL); [done |]. exists it'. by split_and!.
  - change (attrs_bytes (cred_attr <$> d' :: ds)) with (attr_bytes (cred_attr d') ++ attrs_bytes (cred_attr <$> ds)) in *.
    rewrite <- !app_assoc in *. apply list.Forall_cons in Hds as [Hd' Hds].
    edestruct (wsc_attr_iter_next_attr _ WSC_ATTR_CREDENTIAL d' _ _ Hat) as (it' & Hn & Hon);
      [done | done | by intros [_ [_ [=]]%app_nil]%app_nil | by rewrite <- app_assoc |].
    rewrite Hn, bind_ok. edestruct (IH fuel max (acc ++ [d]) (pre ++ attr_bytes (cred_attr d)) d' t e post it') as (it'' & Hloop & Hon');
      [exact Hon | done | done | done | done | done | by rewrite <- !app_assoc | rewrite length_app; cbn in *; lia | cbn in *; lia |].
    exists it''. rewrite Hloop, <- !app_assoc in *. by split.
Qed.

(** The password fits its array, and the identifier goes with it. *)
Definition m8s_ok (s : wsc_m8_encrypted_settings) (np : list Z) : Prop :=
  m8s_new_password s = padded 64 np ∧ m8s_new_password_len s = zlen np ∧ zlen np ≤ 64 ∧ 0 ≤ m8s_device_password_id s ≤ 8 ∧
  (np = [] → m8s_device_password_id s = 0) ∧ zlen (m8s_authenticator s) = 8.

Definition password_attrs (s : wsc_m8_encrypted_settings) (np : list Z) : list (Z * list Z) :=
  match np with
  | [] => []
  | _ => [(WSC_ATTR_NEW_PASSWORD, np); (WSC_ATTR_DEVICE_PASSWORD_ID, be16_bytes (m8s_device_password_id s))]
  end ++ [(WSC_ATTR_KEY_WRAP_AUTHENTICATOR, m8s_authenticator s)].

Lemma builds_credentials creds datas :
  Forall2 (λ c d, wsc_build_credential junk c = Ok d ∧ zlen d < 65000) creds datas →
  builds (build_credentials junk creds) (cred_attr <$> datas).
Proof.
  induction 1 as [|c d creds datas [Hc Hd] _ IH]; [apply builds_pass |]. cbn [build_credentials fmap list_fmap].
  apply (builds_seq _ _ [cred_attr d]); [| done]. unfold build_credential. intros k b H. sr_seq.
  eapply wp_run; [exact Hc |]. apply builds_put_bytes; [lia | done].
Qed.

Lemma wsc_build_m8_settings_bytes s np creds datas :
  m8s_ok s np → Forall2 (λ c d, wsc_build_credential junk c = Ok d ∧ zlen d < 65000) creds datas →
  wsc_build_m8_encrypted_settings junk s creds = Ok (attrs_bytes ((cred_attr <$> datas) ++ password_attrs s np)).
Proof.
  intros (Hp & Hl & Hn & Hi & _ & Ha) Hc. unfold wsc_build_m8_encrypted_settings. apply wsc_run_builds; [lia |].
  apply builds_seq; [by apply builds_credentials |]. rewrite Hl. unfold password_attrs.
  destruct np as [|b np]; cbn [negb when].
  - apply (builds_seq _ _ []); [apply builds_pass |]. build_attrs.
  - destruct (Z.eqb_spec (zlen (b :: np)) 0) as [E|E]; [rewrite zlen_cons in E; znn; lia |]. cbn [negb when].
    apply (builds_seq _ _ [_; _] [_]); [| build_attrs]. apply (builds_seq _ _ [_] [_]); [| build_attrs].
    eapply builds_prefix; [exact Hp | done | lia].
Qed.

(** The authenticator at the end. *)
Lemma settings_end pre a it fuel len :
  attr_on pre (WSC_ATTR_KEY_WRAP_AUTHENTICATOR, a) [] it → zlen a = 8 →
  len = zlen (pre ++ attr_bytes (WSC_ATTR_KEY_WRAP_AUTHENTICATOR, a)) → m8_settings_authenticator len (S fuel) it = Ok a.
Proof.
  intros ((_ & _ & Hpos) & Ht & Hl & Hd) Ha ->. cbn [fst snd] in *. unfold m8_settings_authenticator. cbn [seek_or_bad].
  rewrite Ht, Z.eqb_refl, bind_ok. unfold extract_authenticator, extract_fixed. rewrite Hl, Hd, Ha.
  change (negb (8 =? 8)) with false. cbv iota. rewrite rdn_app, !bind_ok by done. by rewrite Hpos, Z.eqb_refl.
Qed.

(** The password, in front of its identifier. *)
Lemma m8_new_password_on pre np id rest it :
  attr_on pre (WSC_ATTR_NEW_PASSWORD, np) (attr_bytes (WSC_ATTR_DEVICE_PASSWORD_ID, be16_bytes id) ++ rest) it → zlen np ≤ 64 →
  zlen (pre ++ attr_bytes (WSC_ATTR_NEW_PASSWORD, np) ++ attr_bytes (WSC_ATTR_DEVICE_PASSWORD_ID, be16_bytes id) ++ rest) < 2 ^ 31 →
  ∃ it', m8_new_password it = Ok (padded 64 np, zlen np, it') ∧
         attr_on (pre ++ attr_bytes (WSC_ATTR_NEW_PASSWORD, np)) (WSC_ATTR_DEVICE_PASSWORD_ID, be16_bytes id) rest it'.
Proof.
  intros (Hat & Ht & Hl & Hd) Hn Hz. cbn [fst snd] in *. unfold m8_new_password. rewrite Ht, Z.eqb_refl.
  unfold extract_new_password. rewrite Hl, Hd. destruct (Z.ltb_spec 64 (zlen np)); [lia |].
  rewrite rdn_app, !bind_ok, put_zeros, bind_ok by (done || lia).
  destruct (next_or_bad_on _ _ _ _ _ Hat) as (it' & Hn' & Hon'); [done | done | done | by rewrite <- app_assoc |].
  rewrite Hn', bind_ok. pose proof Hon' as (_ & Ht' & _). cbn [fst] in Ht'. rewrite Ht', Z.eqb_refl. by exists it'.
Qed.

(** The identifier of the password, in front of another attribute. *)
Lemma m8_password_id_on pre id t e rest it :
  attr_on pre (WSC_ATTR_DEVICE_PASSWORD_ID, be16_bytes id) (attr_bytes (t, e) ++ rest) it → 0 ≤ id ≤ 8 →
  0 ≤ t < 65536 → zlen e < 65536 → e ++ rest ≠ [] →
  zlen (pre ++ attr_bytes (WSC_ATTR_DEVICE_PASSWORD_ID, be16_bytes id) ++ attr_bytes (t, e) ++ rest) < 2 ^ 31 →
  ∃ it', m8_password_id it = Ok (id, it') ∧
         attr_on (pre ++ attr_bytes (WSC_ATTR_DEVICE_PASSWORD_ID, be16_bytes id)) (t, e) rest it'.
Proof.
  intros (Hat & Ht & Hl & Hd) Hi Htr He Hne Hz. cbn [fst snd] in *. unfold m8_password_id. rewrite Ht, Z.eqb_refl.
  unfold extract_device_password_id, num_checked, extract_uint16. rewrite Hl, Hd, zlen_be16_bytes. change (negb (2 =? 2)) with false. cbv iota.
  rewrite l_get_be16_bytes, !bind_ok by lia. destruct (Z.leb_spec id 8); [| lia].
  destruct (next_or_bad_on _ _ _ _ _ Hat) as (it' & Hn' & Hon'); [done | done | done | by rewrite <- app_assoc |].
  rewrite Hn', bind_ok. by exists it'.
Qed.

(** Neither is there. *)
Lemma m8_password_none it t : wa_type it = t → t ≠ WSC_ATTR_NEW_PASSWORD → m8_new_password it = Ok (zeros 64, 0, it).
Proof. intros E Ht. unfold m8_new_password. rewrite E. by destruct (Z.eqb_spec t WSC_ATTR_NEW_PASSWORD). Qed.
Lemma m8_password_id_none it t : wa_type it = t → t ≠ WSC_ATTR_DEVICE_PASSWORD_ID → m8_password_id it = Ok (0, it).
Proof. intros E Ht. unfold m8_password_id. rewrite E. by destruct (Z.eqb_spec t WSC_ATTR_DEVICE_PASSWORD_ID). Qed.

(** The size of the settings. *)
Lemma settings_size s np datas :
  m8s_ok s np → Forall (λ d, zlen d < 65000) datas → (length datas ≤ 1000)%nat →
  zlen (attrs_bytes ((cred_attr <$> datas) ++ password_attrs s np)) < 2 ^ 31 ∧ Z.of_nat (length datas) + 4 < zlen (attrs_bytes ((cred_attr <$> datas) ++ password_attrs s np)).
Proof.
  intros (_ & _ & Hn & _ & _ & Ha) Hd Hl. split.
  - eapply Z.le_lt_trans; [apply zlen_attrs_bytes_bound |].
    + apply Forall_app_2; [by apply Forall_fmap; eapply list.Forall_impl; [exact Hd |]; intros d H; cbn in *; lia |].
      unfold password_attrs. destruct np as [|b np].
      * apply list.Forall_singleton. cbn [snd]. lia.
      * repeat (apply Forall_cons_2; [cbn [snd]; rewrite ?zlen_be16_bytes; lia |]). apply Forall_nil_2.
    + rewrite length_app, length_fmap. unfold password_attrs. destruct np; cbn [length app]; lia.
  - rewrite attrs_bytes_app, zlen_app. pose proof (length_attrs_bytes (cred_attr <$> datas)) as H1. rewrite length_fmap in H1.
    enough (12 ≤ zlen (attrs_bytes (password_attrs s np))) by lia. unfold password_attrs. rewrite attrs_bytes_app, zlen_app, attrs_bytes_one, zlen_attr_bytes.
    cbn [snd]. znn. lia.
Qed.

(** Behind the credentials: the password with its identifier, and the authenticator. *)
Lemma wsc_parse_m8_settings_back s np d ds iovcnt :
  m8s_ok s np → Forall (λ d, zlen d < 65000) (d :: ds) → (length (d :: ds) ≤ iovcnt)%nat → (length (d :: ds) ≤ 1000)%nat →
  let pdu := attrs_bytes ((cred_attr <$> d :: ds) ++ password_attrs s np) in
  wsc_parse_m8_encrypted_settings pdu (zlen pdu) iovcnt = Ok (s, d :: ds).
Proof.
  intros Hs Hds Hcnt H1000 pdu. destruct (settings_size s np (d :: ds) Hs Hds H1000) as [Hz Hfuel]. fold pdu in Hz, Hfuel.
  destruct Hs as (Hp & Hl & Hn & Hi & Hid & Ha). apply list.Forall_cons in Hds as [Hd Hds].
  assert (Hds' : Forall (λ d, zlen d < 65536) ds) by (eapply list.Forall_impl; [exact Hds |]; intros; cbn in *; lia).
  assert (Epdu : pdu = attr_bytes (cred_attr d) ++ attrs_bytes (cred_attr <$> ds) ++ attrs_bytes (password_attrs s np)).
  { unfold pdu. by rewrite attrs_bytes_app, app_assoc. }
  unfold wsc_parse_m8_encrypted_settings. destruct (next_or_bad_on [] WSC_ATTR_CREDENTIAL d (attrs_bytes (cred_attr <$> ds) ++ attrs_bytes (password_attrs s np)) (wsc_attr_iter_init pdu (zlen pdu)))
    as (it1 & Hn1 & Hon1); [by unfold attr_at; rewrite Epdu | done | lia | | by change (zlen pdu < 2 ^ 31 : Prop) in Hz; rewrite Epdu in Hz |].
  { by intros [_ [_ E]%app_nil]%app_nil; unfold password_attrs in E; rewrite attrs_bytes_app, attrs_bytes_one in E; apply app_nil in E as [_ E]. }
  rewrite Hn1, bind_ok. clear Hn1.
  assert (Hf : (S (length ds) < S (Z.to_nat (zlen pdu)))%nat) by (cbn [length] in Hfuel; lia). cbn [length] in Hcnt.
  set (kwa := m8s_authenticator s) in *. assert (Hkwa : kwa ++ [] ≠ []) by (intros E; rewrite app_nil_r in E; by rewrite E in Ha).
  destruct np as [|b np].
  - change (attrs_bytes (password_attrs s [])) with (attr_bytes (WSC_ATTR_KEY_WRAP_AUTHENTICATOR, kwa) ++ []) in *.
    destruct (credentials_loop_ok ds (S (Z.to_nat (zlen pdu))) iovcnt [] [] d _ _ [] it1 Hon1) as (it2 & Hloop & Hon2);
      [done | done | lia | done | done | by cbn [app]; rewrite Epdu in Hz | cbn [length]; lia | done |].
    rewrite Hloop, bind_ok. pose proof Hon2 as (_ & Ht2 & _). cbn [app fst] in *.
    rewrite (m8_password_none _ _ Ht2), bind_ok, (m8_password_id_none _ _ Ht2), bind_ok by done.
    erewrite settings_end, bind_ok; [| exact Hon2 | done | by rewrite Epdu; cbn [app]; rewrite app_nil_r, <- app_assoc].
    destruct s. cbn in *. by rewrite Hp, Hl, Hid.
  - set (w := b :: np) in *. set (id := m8s_device_password_id s) in *.
    change (attrs_bytes (password_attrs s w)) with (attr_bytes (WSC_ATTR_NEW_PASSWORD, w) ++
      attr_bytes (WSC_ATTR_DEVICE_PASSWORD_ID, be16_bytes id) ++ attr_bytes (WSC_ATTR_KEY_WRAP_AUTHENTICATOR, kwa) ++ []) in *.
    destruct (credentials_loop_ok ds (S (Z.to_nat (zlen pdu))) iovcnt [] [] d _ _ _ it1 Hon1) as (it2 & Hloop & Hon2);
      [done | done | lia | done | done | by cbn [app]; rewrite Epdu in Hz | cbn [length]; lia | done |].
    rewrite Hloop, bind_ok. cbn [app] in *. rewrite app_assoc in Epdu. rewrite Epdu in Hz.
    destruct (m8_new_password_on _ _ _ _ _ Hon2 Hn Hz) as (it3 & -> & Hon3). rewrite bind_ok.
    destruct (m8_password_id_on _ _ _ _ _ _ Hon3) as (it4 & -> & Hon4); [done | done | lia | done | by rewrite <- !app_assoc in *; exact Hz |].
    rewrite bind_ok. erewrite settings_end, bind_ok; [| exact Hon4 | done | by rewrite Epdu, app_nil_r, <- !app_assoc].
    destruct s. cbn in *. by rewrite Hp, Hl.
Qed.

Lemma credential_data c ssid key :
  credential_ok c ssid key → ∃ d, wsc_build_credential junk c = Ok d ∧ zlen d < 65000 ∧ wsc_parse_credential d (zlen d) = Ok c.
Proof.
  intros Hc. exists (attrs_bytes (credential_attrs c ssid key)). split_and!; [by apply wsc_build_credential_bytes | | by apply wsc_parse_credential_back].
  destruct Hc as ((_ & _ & Hs & _) & (_ & _ & Hk & _) & _ & _ & Ha).
  unfold credential_attrs. repeat (rewrite (attrs_bytes_cons (_, _)), zlen_app, zlen_attr_bytes; cbn [snd]).
  change (zlen (attrs_bytes [])) with 0. rewrite !zlen_be16_bytes. change (zlen [u8 1]) with 1. lia.
Qed.

Lemma credentials_data creds :
  Forall (λ c, ∃ ssid key, credential_ok c ssid key) creds →
  ∃ datas, Forall2 (λ c d, wsc_build_credential junk c = Ok d ∧ zlen d < 65000) creds datas ∧
           Forall (λ d, zlen d < 65000) datas ∧ Forall2 (λ d c, wsc_parse_credential d (zlen d) = Ok c) datas creds.
Proof.
  induction 1 as [|c creds (ssid & key & Hc) _ (datas & H1 & H2 & H3)]; [by exists [] |].
  destruct (credential_data c ssid key Hc) as (d & Hd & Hz & Hp). exists (d :: datas). split_and!; by constructor.
Qed.

(** The encrypted settings of M8 that are built from credentials and a new password are parsed
    into the same settings, and each credential into the one it was built from. *)
Theorem wsc_m8_settings_roundtrip s np creds iovcnt :
  m8s_ok s np → Forall (λ c, ∃ ssid key, credential_ok c ssid key) creds → creds ≠ [] → (length creds ≤ iovcnt)%nat →
  (length creds ≤ 1000)%nat →
  ∃ pdu datas, wsc_build_m8_encrypted_settings junk s creds = Ok pdu ∧
    wsc_parse_m8_encrypted_settings pdu (zlen pdu) iovcnt = Ok (s, datas) ∧
    Forall2 (λ d c, wsc_parse_credential d (zlen d) = Ok c) datas creds.
Proof.
  intros Hs Hc Hne Hcnt H1000. destruct (credentials_data creds Hc) as (datas & H1 & H2 & H3).
  exists (attrs_bytes ((cred_attr <$> datas) ++ password_attrs s np)), datas. split_and!; [by apply wsc_build_m8_settings_bytes | | done].
  apply Forall2_length in H3. destruct datas as [|d ds]; [by destruct creds |].
  apply wsc_parse_m8_settings_back; [done | done | lia | lia].
Qed.
End frames.

(** The information elements of beacons, probes and associations that are built are parsed into
    what they carry. *)
Theorem wsc_frames_roundtrip junk :
  (∀ m, beacon_ok m → ∃ pdu, wsc_build_beacon junk m = Ok pdu ∧ wsc_parse_beacon pdu (zlen pdu) = Ok (beacon_sent m)) ∧
  (∀ m, probe_response_ok m →
     ∃ pdu, wsc_build_probe_response junk m = Ok pdu ∧ wsc_parse_probe_response pdu (zlen pdu) = Ok (probe_response_sent m)) ∧
  (∀ m, probe_request_ok m →
     ∃ pdu, wsc_build_probe_request junk m = Ok pdu ∧ wsc_parse_probe_request pdu (zlen pdu) = Ok (probe_request_sent m)) ∧
  (∀ m, 0 ≤ arq_request_type m ≤ 3 →
     ∃ pdu, wsc_build_association_request junk m = Ok pdu ∧ wsc_parse_association_request pdu (zlen pdu) = Ok m) ∧
  (∀ m, 0 ≤ ars_response_type m ≤ 3 →
     ∃ pdu, wsc_build_association_response junk m = Ok pdu ∧ wsc_parse_association_response pdu (zlen pdu) = Ok m).
Proof.
  split_and!; intros m Hm;
    [by apply wsc_beacon_roundtrip | by apply wsc_probe_response_roundtrip | by apply wsc_probe_request_roundtrip
    | by apply wsc_association_request_roundtrip | by apply wsc_association_response_roundtrip].
Qed.

Lemma wsc_frames_roundtrip_witness :
  let m := mk_wsc_beacon true 2 false true 4 0x80 (replicate 16 7) 3 (replicate 6 255 ++ zeros 24) 0x2008 in
  ∃ pdu, wsc_build_beacon (λ _, 0) m = Ok pdu ∧ wsc_parse_beacon pdu (zlen pdu) = Ok m.
Proof.
  apply (proj1 (wsc_frames_roundtrip (λ _, 0)) (mk_wsc_beacon true 2 false true 4 0x80 (replicate 16 7) 3 (replicate 6 255 ++ zeros 24) 0x2008)).
  split_and!; cbn; try lia; try done. exists [replicate 6 255]. split_and!; [reflexivity | cbn; lia | by repeat constructor].
Defined.

Lemma wsc_m8_settings_roundtrip_witness :
  let s := mk_wsc_m8_encrypted_settings (padded 64 []) 0 0 (replicate 8 9) in
  let c := mk_wsc_credential (padded 32 [97; 98]) 2 0x20 8 (padded 65 [1; 2; 3]) 3 (replicate 6 5) in
  ∃ pdu datas, wsc_build_m8_encrypted_settings (λ _, 0) s [c] = Ok pdu ∧
    wsc_parse_m8_encrypted_settings pdu (zlen pdu) 3 = Ok (s, datas) ∧
    Forall2 (λ d c, wsc_parse_credential d (zlen d) = Ok c) datas [c].
Proof.
  intros s c. apply (wsc_m8_settings_roundtrip (λ _, 0) s [] [c] 3).
  - split_and!; cbn; (done || lia).
  - apply list.Forall_singleton. exists [97; 98], [1; 2; 3]. split_and!; cbn; try done; try lia.
    + intros k b E. apply (f_equal (@rev Z)) in E. rewrite rev_app_distr in E. by injection E as <-.
    + intros k b E. apply (f_equal (@rev Z)) in E. rewrite rev_app_distr in E. by injection E as <-.
  - discriminate.
  - cbn. lia.
  - cbn. lia.
Defined.
