(* ===== verification/WscPin.v ===== *)
(** * Wi-Fi Simple Configuration: keys, PINs, device types and UUIDs (src/wscutil.c, ell/uuid.c)

    The key derivation function, the PINs with their check digit, the names of the device types
    and the strings of the configuration, and the UUID made from an address.  The theorems: a
    generated PIN is valid and has its check digit, the check digit shows a change of any digit,
    and what becomes of the device types of a configuration. *)

From stdpp Require Import base numbers list option.
From Stdlib Require Import ZArith Lia Ascii String.
From S2P Require Import Prelude IeTlv Crypto Eap Wsc.

Open Scope Z_scope.

(** The characters of a string, without its NUL. *)
Definition cstr (s : string) : list Z := (λ c, Z.of_N (N_of_ascii c)) <$> list_ascii_of_string s.

(** ** Keys *)

Section crypto.
Context `{Ell}.

(** The bytes left in [output]; [None] is a [false] return. *)
Definition wsc_kdf (key output : list Z) : option (list Z) :=
  let personalization := cstr "Wi-Fi Easy and Secure Key Derivation" in
  hmac ← l_checksum_new_hmac L_CHECKSUM_SHA256 (ptake key 32);
  let size := zlen output in
  Some (digest_chunks hmac (λ i, be32_bytes (i + 1) ++ personalization ++ be32_bytes (size * 8)) 32
          (Z.to_nat ((size + 31) / 32)) 0 0 size output).

(** ** UUIDs *)

(** The bits of the version and of the variant. *)
Definition uuid_stamp (version : Z) (uuid : list Z) : list Z :=
  ptake uuid 6 ++ [Z.lor (Z.land (nth 6 uuid 0) 0x0f) (Z.shiftl version 4)] ++ [nth 7 uuid 0] ++
  [Z.lor (Z.land (nth 8 uuid 0) 0x3f) 0x80] ++ (uuid +! 9).

Definition name_from_namespace (version : Z) (nsid name : list Z) : option (list Z) :=
  type ← (if version =? 3 then Some L_CHECKSUM_MD5 else if version =? 5 then Some L_CHECKSUM_SHA1 else None);
  hash ← l_checksum_new type;
  Some (uuid_stamp version (digest_into (hash (nsid ++ name)) (replicate 16 0))).

Definition l_uuid_v3 := name_from_namespace 3.
Definition l_uuid_v5 := name_from_namespace 5.

(** The sixteen bytes of [l_getrandom], or its failure. *)
Definition l_uuid_v4 (random : option (list Z)) : option (list Z) :=
  r ← random; Some (uuid_stamp 4 r).

Definition l_uuid_is_valid (uuid : list Z) : bool :=
  if negb (Z.shiftr (nth 8 uuid 0) 6 =? 2) then false
  else
    let version := Z.shiftr (nth 6 uuid 0) 4 in
    if (version <? 1) || (5 <? version) then false else true.

Definition l_uuid_get_version (uuid : list Z) : Z := Z.shiftr (nth 6 uuid 0) 4.

Definition wsc_uuid_from_addr (addr : list Z) : option (list Z) :=
  let nsid := [0x52; 0x64; 0x80; 0xf8; 0xc9; 0x9b; 0x4b; 0xe5; 0xa6; 0x55; 0x58; 0xed; 0x5f; 0x5d; 0x60; 0x84] in
  l_uuid_v5 nsid (ptake addr 6).
End crypto.

(** ** PINs

    A PIN is a string in memory, with its NUL. *)

Definition is_digit (c : Z) : bool := (48 <=? c) && (c <=? 57).

(** The loop over the digits: the position of the first character that is not one. *)
Fixpoint pin_loop (n : nat) (pin : ptr) (i : Z) : res Z :=
  match n with
  | O => Diverge
  | S n => c ← rd pin i; if is_digit c then pin_loop n pin (i + 1) else Ok i
  end.

Definition wsc_pin_is_valid (pin : ptr) : res bool :=
  i ← pin_loop (S (Datatypes.length pin)) pin 0;
  c ← rd pin i;
  if negb (c =? 0) then Ok false
  else Ok ((i =? 8) || (i =? 4)).

(** A [char] is signed. *)
Definition schar (c : Z) : Z := if c <? 128 then c else c - 256.

Definition compute_check_digit (pin : ptr) : res Z :=
  let term := λ k c, k * Z.rem (schar c - 48) 10 in
  c0 ← rd pin 0; c1 ← rd pin 1; c2 ← rd pin 2; c3 ← rd pin 3; c4 ← rd pin 4; c5 ← rd pin 5; c6 ← rd pin 6;
  let accum := u32 (term 3 c0 + term 1 c1 + term 3 c2 + term 1 c3 + term 3 c4 + term 1 c5 + term 3 c6) in
  Ok (48 + (10 - accum mod 10) mod 10).

Definition wsc_pin_is_checksum_valid (pin : ptr) : res bool :=
  digit ← compute_check_digit pin;
  c ← rd pin 7;
  Ok (c =? digit).

(** [%u]: the decimal digits of a number of 32 bits, of which there are at most ten. *)
Fixpoint decimal_loop (fuel : nat) (n : Z) (acc : list Z) : list Z :=
  match fuel with
  | O => acc
  | S fuel =>
      let acc := 48 + n mod 10 :: acc in
      if n <? 10 then acc else decimal_loop fuel (n / 10) acc
  end.
Definition decimal (n : Z) : list Z := decimal_loop 10 n [].

(** The PIN with its NUL; [None] when there are no random bytes.  [snprintf] writes at most seven
    characters of at least seven. *)
Definition wsc_pin_generate (random : option Z) : res (option (list Z)) :=
  match random with
  | None => Ok None
  | Some random =>
      let text := decimal random in
      let text := replicate (7 - Datatypes.length text) 48 ++ text in
      let pin := take 7 text in
      digit ← compute_check_digit pin;
      Ok (Some (pin ++ [digit; 0]))
  end.

(** ** Device types *)

Record device_type_category_info : Type := mk_category {
  category_str : string;
  subcategory_str : list string;
}.

(** The categories from 1 on, and the subcategories from 1 on. *)
Open Scope string_scope.
Definition device_type_categories : list device_type_category_info :=
  [
   mk_category "computer"
     ["pc"; "server"; "media-center"; "ultra-mobile-pc"; "notebook"; "desktop"; "mobile-internet-device";
      "netbook"; "tablet"; "ultrabook"];
   mk_category "input-device"
     ["keyboard"; "mouse"; "joystick"; "trackball"; "gaming-controller"; "remote"; "touchscreen";
      "biometric-reader"; "barcode-reader"];
   mk_category "printer-scanner"
     ["printer-print-server"; "scanner"; "fax"; "copier"; "printer-scanner-fax-copier"];
   mk_category "camera"
     ["digital-still-camera"; "video-camera"; "web-camera"; "security-camera"];
   mk_category "storage"
     ["nas"];
   mk_category "network-infrastructure"
     ["ap"; "router"; "switch"; "gateway"; "bridge"];
   mk_category "display"
     ["television"; "electronic-picture-frame"; "projector"; "monitor"];
   mk_category "multimedia-device"
     ["dar"; "pvr"; "mcx"; "set-top-box"; "media-server-adapter-extender"; "portable-video-player"];
   mk_category "gaming-device"
     ["xbox"; "xbox360"; "playstation"; "game-console-adapter"; "portable-gaming-device"];
   mk_category "telephone"
     ["windows-mobile"; "single-mode-phone"; "dual-mode-phone"; "single-mode-smartphone";
      "dual-mode-smartphone"];
   mk_category "audio-device"
     ["audio-tuner-receiver"; "speakers"; "portable-music-player"; "headset"; "headphones"; "microphone";
      "home-theater-system"];
   mk_category "docking-device"
     ["computer-docking-station"; "media-kiosk"]].
Close Scope string_scope.

(** The names of the category and of the subcategory, NULL when it has none; [None] is a [false]
    return. *)
Definition wsc_device_type_to_dbus_str (val : wsc_primary_device_type) : option (string * option string) :=
  if (pdt_category val =? 0) then None
  else
    cat ← device_type_categories !! Z.to_nat (pdt_category val - 1);
    Some (category_str cat,
          if negb (bool_decide (pdt_oui val = microsoft_oui)) || negb (pdt_oui_type val =? 4) then None
          else if pdt_subcategory val =? 0 then None
          else subcategory_str cat !! Z.to_nat (pdt_subcategory val - 1)).

(** The position of the first name that is equal but for the case. *)
Fixpoint find_name (name : string) (names : list string) (j : Z) : option Z :=
  match names with
  | [] => None
  | n :: names => if strcasecmp_eq name n then Some j else find_name name names (j + 1)
  end.
Fixpoint find_subcategory (name : string) (cats : list device_type_category_info) (i : Z) : option (Z * Z) :=
  match cats with
  | [] => None
  | cat :: cats =>
      match find_name name (subcategory_str cat) 1 with
      | Some j => Some (i, j)
      | None => find_subcategory name cats (i + 1)
      end
  end.
Definition wsc_device_type_from_subcategory_str (name : string) : option wsc_primary_device_type :=
  '(i, j) ← find_subcategory name device_type_categories 1;
  Some (mk_pdt i microsoft_oui 4 j).

(** *** The string of the configuration *)

(** The digits of [strtoull] and [sscanf]: a letter is a digit of base 16. *)
Definition digit_value (c : Z) : option Z :=
  if is_digit c then Some (c - 48)
  else if (97 <=? c) && (c <=? 102) then Some (c - 87)
  else if (65 <=? c) && (c <=? 70) then Some (c - 55)
  else None.

Definition is_space (c : Z) : bool := (c =? 32) || ((9 <=? c) && (c <=? 13)).
Fixpoint skip_spaces (s : list Z) : list Z :=
  match s with c :: s' => if is_space c then skip_spaces s' else s | [] => [] end.

(** The digits of the base in front of the string: their value and the rest. *)
Fixpoint read_digits (base acc : Z) (s : list Z) : Z * list Z :=
  match s with
  | c :: s' =>
      match digit_value c with
      | Some d => if d <? base then read_digits base (acc * base + d) s' else (acc, s)
      | None => (acc, s)
      end
  | [] => (acc, [])
  end.

(** A number that is too large is [ULLONG_MAX]; a sign negates. *)
Definition ull (neg : bool) (v : Z) : Z :=
  if 2 ^ 64 <=? v then 2 ^ 64 - 1 else if neg then u64 (- v) else v.

Definition read_sign (s : list Z) : bool * list Z :=
  match s with
  | c :: s' => if c =? 45 then (true, s') else if c =? 43 then (false, s') else (false, s)
  | [] => (false, [])
  end.

Definition starts_digit (base : Z) (s : list Z) : bool :=
  match s with c :: _ => match digit_value c with Some d => d <? base | None => false end | [] => false end.

(** [strtoull(value, &endp, 0)]: the value and the string at [endp], which is the whole string
    when there is no number. *)
Definition strtoull (value : list Z) : Z * list Z :=
  let '(neg, s) := read_sign (skip_spaces value) in
  match s with
  | 48 :: x :: s' =>
      if (x =? 120) || (x =? 88) then
        if starts_digit 16 s' then let '(v, rest) := read_digits 16 0 s' in (ull neg v, rest)
        else (0, x :: s')
      else let '(v, rest) := read_digits 8 0 s in (ull neg v, rest)
  | _ =>
      if starts_digit 10 s
      then let '(v, rest) := read_digits 10 0 s in (ull neg v, rest)
      else (0, value)
  end.

(** [%x] of [sscanf] with a width: after the spaces at most [width] characters, a sign and 0x
    among them; 0x alone is 0. *)
Definition scan_hex (width : nat) (s : list Z) : option (Z * list Z) :=
  let s := skip_spaces s in
  let field := take width s in
  let '(neg, f) := read_sign field in
  let '(zero, f) := match f with
                    | 48 :: x :: f' => if (x =? 120) || (x =? 88) then (true, f') else (false, f)
                    | _ => (false, f)
                    end in
  let '(v, rest) := read_digits 16 0 f in
  if (zero : bool) || starts_digit 16 f then Some (ull neg v, drop (Datatypes.length field - Datatypes.length rest) s) else None.

(** A character of the format. *)
Definition scan_char (c : Z) (s : list Z) : option (list Z) :=
  match s with d :: s' => if d =? c then Some s' else None | [] => None end.

(** [sscanf(value, "%hx-%2hhx%2hhx%2hhx%2hhx-%2hx", ...) == 6], with what is stored up to the first
    field that does not match. *)
Definition sscanf_device_type (value : list Z) (out : wsc_primary_device_type) : bool * wsc_primary_device_type :=
  let '(mk_pdt category oui oui_type subcategory) := out in
  let o := λ k, nth k oui 0 in
  match scan_hex (Datatypes.length value) value with
  | None => (false, out)
  | Some (v, s) =>
      let category := u16 v in
      match (s ← scan_char 45 s; scan_hex 2 s) with
      | None => (false, mk_pdt category oui oui_type subcategory)
      | Some (v0, s) =>
          match scan_hex 2 s with
          | None => (false, mk_pdt category [u8 v0; o 1%nat; o 2%nat] oui_type subcategory)
          | Some (v1, s) =>
              match scan_hex 2 s with
              | None => (false, mk_pdt category [u8 v0; u8 v1; o 2%nat] oui_type subcategory)
              | Some (v2, s) =>
                  let oui := [u8 v0; u8 v1; u8 v2] in
                  match scan_hex 2 s with
                  | None => (false, mk_pdt category oui oui_type subcategory)
                  | Some (v3, s) =>
                      match (s ← scan_char 45 s; scan_hex 2 s) with
                      | None => (false, mk_pdt category oui (u8 v3) subcategory)
                      | Some (v4, _) => (true, mk_pdt category oui (u8 v3) (u16 v4))
                      end
                  end
              end
          end
      end
  end.

(** The result of [wsc_device_type_from_subcategory_str] is not used, but what it stored is there. *)
Definition wsc_device_type_from_setting_str (value : option string) (out : wsc_primary_device_type)
    : bool * wsc_primary_device_type :=
  match value with
  | None => (false, out)
  | Some value =>
      let out := default out (wsc_device_type_from_subcategory_str value) in
      let '(u, endp) := strtoull (cstr value) in
      if bool_decide (endp = []) && negb (Z.land u 0xffff000000000000 =? 0) then
        (true, mk_pdt (u16 (Z.shiftr u 48)) [u8 (Z.shiftr u 40); u8 (Z.shiftr u 32); u8 (Z.shiftr u 24)]
                 (u8 (Z.shiftr u 16)) (u16 u))
      else sscanf_device_type (cstr value) out
  end.

Example setting_hex :
  wsc_device_type_from_setting_str (Some "0x00010050f2040001"%string) (mk_pdt 0 [0; 0; 0] 0 0) = (true, mk_pdt 1 microsoft_oui 4 1).
Proof. vm_compute. reflexivity. Qed.
Example setting_dashes :
  wsc_device_type_from_setting_str (Some "1-0050f204-1"%string) (mk_pdt 0 [0; 0; 0] 0 0) = (true, mk_pdt 1 microsoft_oui 4 1).
Proof. vm_compute. reflexivity. Qed.

(** ** Keys *)

(** The key derivation function returns the first bytes of the concatenated HMACs of the counter
    from 1 on, the label and the length in bits, for every size. *)
Lemma wsc_kdf_digests `{EllLaws} key out hmac :
  l_checksum_new_hmac L_CHECKSUM_SHA256 (ptake key 32) = Some hmac →
  wsc_kdf key out =
    Some (ptake (digests hmac (λ i, be32_bytes (i + 1) ++ cstr "Wi-Fi Easy and Secure Key Derivation" ++ be32_bytes (zlen out * 8)) 0
                   (Z.to_nat ((zlen out + 31) / 32))) (zlen out)).
Proof.
  intros Hk. unfold wsc_kdf. cbv zeta. rewrite Hk. cbn [mbind option_bind]. f_equal.
  apply (digest_chunks_output hmac _ 32); [lia |]. intros m. by apply (hmac_ok _ _ _ _ Hk).
Qed.

(** ** UUIDs *)

Lemma stamp_version x v : 0 ≤ v → Z.shiftr (Z.lor (Z.land x 0x0f) (Z.shiftl v 4)) 4 = v.
Proof.
  intros Hv. rewrite Z.shiftr_lor, Z.shiftr_land. change (Z.shiftr 0x0f 4) with 0. rewrite Z.land_0_r, Z.lor_0_l.
  by rewrite Z.shiftr_shiftl_l, Z.sub_diag, Z.shiftl_0_r by lia.
Qed.

Lemma uuid_stamp_nth version uuid :
  zlen uuid = 16 →
  zlen (uuid_stamp version uuid) = 16 ∧
  nth 6 (uuid_stamp version uuid) 0 = Z.lor (Z.land (nth 6 uuid 0) 0x0f) (Z.shiftl version 4) ∧
  nth 8 (uuid_stamp version uuid) 0 = Z.lor (Z.land (nth 8 uuid 0) 0x3f) 0x80.
Proof.
  intros Hl. do 16 (destruct uuid as [|? uuid]; [discriminate |]). destruct uuid; [| unfold zlen in Hl; cbn in Hl; lia]. done.
Qed.

(** A UUID made from a version that RFC 4122 knows is valid and has this version. *)
Lemma uuid_stamp_valid version uuid :
  zlen uuid = 16 → 1 ≤ version ≤ 5 →
  l_uuid_is_valid (uuid_stamp version uuid) = true ∧ l_uuid_get_version (uuid_stamp version uuid) = version.
Proof.
  intros Hl Hv. destruct (uuid_stamp_nth version uuid Hl) as (_ & H6 & H8). unfold l_uuid_is_valid, l_uuid_get_version.
  rewrite H6, H8, stamp_version by lia. split; [| done].
  rewrite Z.shiftr_lor, Z.shiftr_land. change (Z.shiftr 0x3f 6) with 0. rewrite Z.land_0_r, Z.lor_0_l.
  change (negb (Z.shiftr 0x80 6 =? 2)) with false. cbv iota.
  destruct (Z.ltb_spec version 1), (Z.ltb_spec 5 version); (done || lia).
Qed.

Lemma wsc_uuid_from_addr_valid `{EllLaws} addr u :
  wsc_uuid_from_addr addr = Some u → zlen u = 16 ∧ l_uuid_is_valid u = true ∧ l_uuid_get_version u = 5.
Proof.
  unfold wsc_uuid_from_addr, l_uuid_v5, name_from_namespace. cbn [Z.eqb Pos.eqb mbind option_bind].
  destruct (l_checksum_new L_CHECKSUM_SHA1) as [hash|] eqn:Hh; [| done]. cbn [mbind option_bind]. intros [= <-].
  match goal with |- context [hash ?m] => destruct (checksum_ok _ _ m Hh) as [Hz _]; set (d := hash m) in * end.
  change (l_checksum_digest_length L_CHECKSUM_SHA1) with 20 in Hz.
  assert (Hd : zlen (digest_into d (replicate 16 0)) = 16).
  { rewrite digest_into_long by (rewrite Hz; done). change (zlen (replicate 16 0)) with 16. apply zlen_ptake. lia. }
  destruct (uuid_stamp_nth 5 _ Hd) as (Hs & _). by split; [| apply uuid_stamp_valid].
Qed.

(** ** PINs *)

(** The digits of a PIN, as numbers. *)
Definition digits_ok (l : list Z) : Prop := Forall (λ d, 0 ≤ d ≤ 9) l.
Definition pin_of (l : list Z) : ptr := ((λ d, 48 + d) <$> l) ++ [0].

Definition pin_sum (l : list Z) : Z :=
  match l with
  | [d0; d1; d2; d3; d4; d5; d6; d7] => 3 * d0 + d1 + 3 * d2 + d3 + 3 * d4 + d5 + 3 * d6 + d7
  | _ => 0
  end.

Lemma is_digit_digit d : 0 ≤ d ≤ 9 → is_digit (48 + d) = true.
Proof. intros Hd. unfold is_digit. lia. Qed.

Lemma schar_digit d : 0 ≤ d ≤ 9 → Z.rem (schar (48 + d) - 48) 10 = d.
Proof.
  intros Hd. unfold schar. destruct (Z.ltb_spec (48 + d) 128); [| lia]. replace (48 + d - 48) with d by lia.
  apply Z.rem_small. lia.
Qed.

Lemma compute_check_digit_digits d0 d1 d2 d3 d4 d5 d6 rest :
  digits_ok [d0; d1; d2; d3; d4; d5; d6] →
  compute_check_digit (((λ d, 48 + d) <$> [d0; d1; d2; d3; d4; d5; d6]) ++ rest) =
  Ok (48 + (10 - (3 * d0 + d1 + 3 * d2 + d3 + 3 * d4 + d5 + 3 * d6) mod 10) mod 10).
Proof.
  intros Hd. unfold digits_ok in Hd. rewrite !list.Forall_cons in Hd. destruct Hd as (H0 & H1 & H2 & H3 & H4 & H5 & H6 & _).
  unfold compute_check_digit. cbn [fmap list_fmap app].
  change (rd (?a :: ?b :: ?c :: ?d :: ?e :: ?f :: ?g :: rest) 0) with (Ok a).
  change (rd (?a :: ?b :: ?c :: ?d :: ?e :: ?f :: ?g :: rest) 1) with (Ok b).
  change (rd (?a :: ?b :: ?c :: ?d :: ?e :: ?f :: ?g :: rest) 2) with (Ok c).
  change (rd (?a :: ?b :: ?c :: ?d :: ?e :: ?f :: ?g :: rest) 3) with (Ok d).
  change (rd (?a :: ?b :: ?c :: ?d :: ?e :: ?f :: ?g :: rest) 4) with (Ok e).
  change (rd (?a :: ?b :: ?c :: ?d :: ?e :: ?f :: ?g :: rest) 5) with (Ok f).
  change (rd (?a :: ?b :: ?c :: ?d :: ?e :: ?f :: ?g :: rest) 6) with (Ok g). rewrite !bind_ok.
  rewrite !schar_digit, u32_small by lia. rewrite !Z.mul_1_l. done.
Qed.

(** The check digit makes the weighted sum a multiple of ten. *)
Lemma checksum_valid_iff l :
  digits_ok l → zlen l = 8 → wsc_pin_is_checksum_valid (pin_of l) = Ok (pin_sum l mod 10 =? 0).
Proof.
  intros Hd Hl. do 8 (destruct l as [|? l]; [discriminate |]). destruct l; [| unfold zlen in Hl; cbn in Hl; lia].
  unfold wsc_pin_is_checksum_valid, pin_of. change ([?a; ?b; ?c; ?d; ?e; ?f; ?g; ?h]) with ([a; b; c; d; e; f; g] ++ [h]).
  rewrite fmap_app, <- app_assoc. unfold digits_ok in Hd. rewrite !list.Forall_cons in Hd. destruct Hd as (H0 & H1 & H2 & H3 & H4 & H5 & H6 & H7 & _).
  rewrite compute_check_digit_digits by (repeat (apply Forall_cons_2; [done |]); apply Forall_nil_2). rewrite bind_ok.
  change (rd _ 7) with (Ok (48 + z6)). rewrite bind_ok. f_equal. cbn [pin_sum app].
  match goal with |- (?a =? ?b) = (?c =? ?d) => destruct (Z.eqb_spec a b), (Z.eqb_spec c d) end; [done | exfalso | exfalso | done];
    Z.to_euclidean_division_equations; lia.
Qed.

Lemma zlen_fmap {A B} (f : A → B) l : zlen (f <$> l) = zlen l.
Proof. unfold zlen. by rewrite length_fmap. Qed.

Lemma pin_loop_digits l pre post n :
  digits_ok l → (Datatypes.length l < n)%nat →
  pin_loop n (pre ++ ((λ d, 48 + d) <$> l) ++ 0 :: post) (zlen pre) = Ok (zlen pre + zlen l).
Proof.
  revert pre n. induction l as [|d l IH]; intros pre n Hl Hn; (destruct n as [|n]; [lia |]); cbn [pin_loop fmap list_fmap app].
  - rewrite rd_app_r by lia. rewrite Z.sub_diag, rd_cons_0, bind_ok. change (zlen (@nil Z)) with 0. by rewrite Z.add_0_r.
  - apply list.Forall_cons in Hl as [Hd Hl]. rewrite rd_app_r by lia. rewrite Z.sub_diag, rd_cons_0, bind_ok, is_digit_digit by done.
    specialize (IH (pre ++ [48 + d]) n Hl ltac:(cbn in Hn; lia)). rewrite zlen_app, <- app_assoc in IH. cbn [app] in IH.
    change (zlen [48 + d]) with 1 in IH. rewrite IH, zlen_cons. f_equal. lia.
Qed.

(** A string of digits is a valid PIN if there are four or eight of them. *)
Lemma pin_is_valid_digits l : digits_ok l → wsc_pin_is_valid (pin_of l) = Ok ((zlen l =? 8) || (zlen l =? 4)).
Proof.
  intros Hl. unfold wsc_pin_is_valid, pin_of. pose proof (pin_loop_digits l [] [] (S (Datatypes.length (((λ d, 48 + d) <$> l) ++ [0]))) Hl) as E.
  cbn [app] in E. change (zlen (@nil Z)) with 0 in E. rewrite Z.add_0_l in E. rewrite E by (rewrite length_app, length_fmap; lia). rewrite bind_ok.
  rewrite rd_app_r; [| rewrite zlen_fmap; lia]. rewrite zlen_fmap, Z.sub_diag, rd_cons_0, bind_ok. done.
Qed.

(** A change of one digit is seen: the PIN was valid and is not. *)
Theorem wsc_pin_checksum_detects l i d :
  digits_ok l → zlen l = 8 → (i < 8)%nat → 0 ≤ d ≤ 9 → l !! i ≠ Some d →
  wsc_pin_is_checksum_valid (pin_of l) = Ok true → wsc_pin_is_checksum_valid (pin_of (<[i := d]> l)) = Ok false.
Proof.
  intros Hl Hz Hi Hd Hne. assert (Hl' : digits_ok (<[i := d]> l)) by (by apply Forall_insert).
  rewrite !checksum_valid_iff by (done || (unfold zlen in *; rewrite length_insert; done)). intros [= Hs]. f_equal.
  do 8 (destruct l as [|? l]; [discriminate |]). destruct l; [| unfold zlen in Hz; cbn in Hz; lia].
  apply Z.eqb_eq in Hs. apply Z.eqb_neq. unfold digits_ok in Hl. rewrite !list.Forall_cons in Hl.
  destruct Hl as (H0 & H1 & H2 & H3 & H4 & H5 & H6 & H7 & _).
  do 8 (destruct i as [|i]; [cbn in *; assert (Hx : ∀ x : Z, Some x ≠ Some d → x ≠ d) by congruence; apply Hx in Hne; clear Hx;
    Z.to_euclidean_division_equations; lia |]). lia.
Qed.

Lemma decimal_loop_digits fuel n a :
  0 ≤ n → digits_ok a →
  ∃ ds, decimal_loop fuel n ((λ d, 48 + d) <$> a) = (λ d, 48 + d) <$> ds ∧ digits_ok ds.
Proof.
  revert n a. induction fuel as [|fuel IH]; intros n a Hn Ha; cbn [decimal_loop]; [by exists a |].
  assert (Hd : digits_ok (n mod 10 :: a)) by (apply Forall_cons_2; [pose proof (Z.mod_pos_bound n 10); lia | done]).
  change (48 + n mod 10 :: ((λ d, 48 + d) <$> a)) with ((λ d, 48 + d) <$> n mod 10 :: a).
  destruct (n <? 10); [by eexists |]. apply IH; [by apply Z.div_pos | done].
Qed.

(** The seven characters that are printed. *)
Lemma pin_text random :
  0 ≤ random →
  let text := decimal random in
  ∃ ds, take 7 (replicate (7 - Datatypes.length text) 48 ++ text) = (λ d, 48 + d) <$> ds ∧ digits_ok ds ∧ zlen ds = 7.
Proof.
  intros Hr text. destruct (decimal_loop_digits 10 random [] Hr ltac:(apply Forall_nil_2)) as (ds & Hds & Hok).
  unfold text, decimal. cbn [fmap list_fmap] in Hds. rewrite Hds, length_fmap. set (k := (7 - Datatypes.length ds)%nat).
  exists (take 7 (replicate k 0 ++ ds)). rewrite fmap_take, fmap_app, fmap_replicate. split_and!; [done | |].
  - apply Forall_take, Forall_app_2; [by apply Forall_replicate | done].
  - unfold zlen. rewrite length_take, length_app, length_replicate. unfold k. lia.
Qed.

(** Every PIN that is generated has eight digits and its check digit. *)
Theorem wsc_pin_generate_valid random :
  0 ≤ random < 2 ^ 32 →
  ∃ pin, wsc_pin_generate (Some random) = Ok (Some pin) ∧ zlen pin = 9 ∧
         wsc_pin_is_valid pin = Ok true ∧ wsc_pin_is_checksum_valid pin = Ok true.
Proof.
  intros Hr. destruct (pin_text random ltac:(lia)) as (ds & Htext & Hok & Hlen). unfold wsc_pin_generate. rewrite Htext.
  do 7 (destruct ds as [|? ds]; [discriminate |]). destruct ds; [| unfold zlen in Hlen; cbn in Hlen; lia].
  pose proof (compute_check_digit_digits z z0 z1 z2 z3 z4 z5 [] Hok) as E. rewrite app_nil_r in E. rewrite E, bind_ok. clear E.
  set (s := 3 * z + z0 + 3 * z1 + z2 + 3 * z3 + z4 + 3 * z5). set (c := (10 - s mod 10) mod 10).
  assert (Hc : 0 ≤ c ≤ 9) by (pose proof (Z.mod_pos_bound (10 - s mod 10) 10 ltac:(lia)); unfold c; lia).
  assert (Hl : digits_ok [z; z0; z1; z2; z3; z4; z5; c]) by (apply (Forall_app_2 _ [z; z0; z1; z2; z3; z4; z5] [c]); [done | by apply list.Forall_singleton]).
  exists (pin_of [z; z0; z1; z2; z3; z4; z5; c]). split_and!; [done | done | by rewrite pin_is_valid_digits |].
  rewrite checksum_valid_iff by done. f_equal. apply Z.eqb_eq. cbn [pin_sum]. fold s. unfold c. Z.to_euclidean_division_equations. lia.
Qed.

(** The first digit of a number of [k + 1] digits. *)
Lemma decimal_loop_head fuel n a k :
  (k < fuel)%nat → 10 ^ Z.of_nat k ≤ n < 10 ^ Z.of_nat (S k) →
  ∃ l, decimal_loop fuel n a = 48 + n / 10 ^ Z.of_nat k :: l ∧ Datatypes.length l = (k + Datatypes.length a)%nat.
Proof.
  revert n a k. induction fuel as [|fuel IH]; intros n a k Hk Hn; [lia |]. cbn [decimal_loop]. destruct k as [|k].
  { change (10 ^ Z.of_nat 1) with 10 in Hn. change (10 ^ Z.of_nat 0) with 1 in *. destruct (Z.ltb_spec n 10); [| lia].
    rewrite Z.mod_small, Z.div_1_r by lia. by exists a. }
  rewrite !(Nat2Z.inj_succ (S k)), (Nat2Z.inj_succ k), !Z.pow_succ_r in * by lia.
  assert (0 < 10 ^ Z.of_nat k) by (apply Z.pow_pos_nonneg; lia). destruct (Z.ltb_spec n 10); [nia |].
  destruct (IH (n / 10) (48 + n mod 10 :: a) k ltac:(lia)) as (l & Hl & Hll).
  { rewrite Nat2Z.inj_succ, Z.pow_succ_r by lia. split; [apply Z.div_le_lower_bound; lia | apply Z.div_lt_upper_bound; lia]. }
  exists l. rewrite Hl. split; [| cbn in *; lia]. do 2 f_equal. rewrite Z.div_div by lia. done.
Qed.

(** The PIN is made of the first digits of the random number, not of the last: when it has ten
    digits, which three of four numbers of 32 bits have, the first digit of the PIN is 1, 2, 3 or
    4. *)
Theorem wsc_pin_first_digit random :
  10 ^ 9 ≤ random < 2 ^ 32 →
  ∃ pin d, wsc_pin_generate (Some random) = Ok (Some pin) ∧ rd pin 0 = Ok (48 + d) ∧ 1 ≤ d ≤ 4.
Proof.
  intros Hr. destruct (decimal_loop_head 10 random [] 9 ltac:(lia) ltac:(lia)) as (l & Hl & Hll).
  destruct (pin_text random ltac:(lia)) as (ds & Htext & Hok & Hlen). unfold wsc_pin_generate. rewrite Htext.
  unfold decimal in Htext. rewrite Hl in Htext. cbn [Datatypes.length] in Htext. rewrite Hll in Htext.
  do 7 (destruct ds as [|? ds]; [discriminate |]). destruct ds; [| unfold zlen in Hlen; cbn in Hlen; lia].
  pose proof (compute_check_digit_digits z z0 z1 z2 z3 z4 z5 [] Hok) as E. rewrite app_nil_r in E. rewrite E, bind_ok.
  eexists _, z. split_and!; [done | done | |]; cbn in Htext; injection Htext as Hz _;
    (assert (z = random / 10 ^ 9) as -> by (cbn; lia)); Z.to_euclidean_division_equations; lia.
Qed.

(** ** Device types *)

#[local] Instance string_eq_dec : EqDecision string := string_dec.

(** The names of the table, with their numbers. *)
Definition names_of (cats : list device_type_category_info) : list (Z * Z * string * string) :=
  List.concat (imap (λ i cat, imap (λ j name, (Z.of_nat i + 1, Z.of_nat j + 1, category_str cat, name)) (subcategory_str cat)) cats).

Definition device_names := names_of device_type_categories.

(** What is checked of each of them. *)
Definition name_ok (row : Z * Z * string * string) : bool :=
  let '(i, j, cat, name) := row in
  bool_decide (wsc_device_type_from_subcategory_str name = Some (mk_pdt i microsoft_oui 4 j)) &&
  bool_decide (wsc_device_type_to_dbus_str (mk_pdt i microsoft_oui 4 j) = Some (cat, Some name)) &&
  negb (wsc_device_type_from_setting_str (Some name) (mk_pdt 0 [0; 0; 0] 0 0)).1.

Lemma device_names_ok : forallb name_ok device_names = true.
Proof. vm_compute. reflexivity. Qed.

Lemma device_name_ok row : row ∈ device_names → name_ok row = true.
Proof.
  intros Hr. pose proof device_names_ok as H. rewrite forallb_forall in H. apply H. by apply list_elem_of_In.
Qed.

(** The names of the subcategories are unique: each is found again from its numbers, and its numbers
    from it. *)
Theorem device_type_names_roundtrip i j cat name :
  (i, j, cat, name) ∈ device_names →
  wsc_device_type_from_subcategory_str name = Some (mk_pdt i microsoft_oui 4 j) ∧
  wsc_device_type_to_dbus_str (mk_pdt i microsoft_oui 4 j) = Some (cat, Some name).
Proof.
  intros Hr%device_name_ok. unfold name_ok in Hr. rewrite !andb_true_iff, !bool_decide_eq_true in Hr. tauto.
Qed.

(** The names are documented as values of the setting, but none of them is accepted: the result of
    the search for the name is dropped. *)
Theorem device_type_setting_name_refused i j cat name out :
  (i, j, cat, name) ∈ device_names →
  wsc_device_type_from_subcategory_str name = Some (mk_pdt i microsoft_oui 4 j) ∧
  (wsc_device_type_from_setting_str (Some name) out).1 = false.
Proof.
  intros Hr%device_name_ok. unfold name_ok in Hr. rewrite !andb_true_iff, !bool_decide_eq_true, negb_true_iff in Hr.
  destruct Hr as [[Hn _] Hs]. split; [done |]. unfold wsc_device_type_from_setting_str in *. rewrite Hn in *. exact Hs.
Qed.

(** Of the subcategory only two digits are read. *)
Example setting_subcategory_cut :
  wsc_device_type_from_setting_str (Some "1-0050f204-0100"%string) (mk_pdt 0 [0; 0; 0] 0 0) = (true, mk_pdt 1 microsoft_oui 4 1).
Proof. vm_compute. reflexivity. Qed.

(** ** Witnesses *)

Lemma wsc_pin_generate_valid_witness :
  0 ≤ 1234 < 2 ^ 32 ∧ ∃ pin, wsc_pin_generate (Some 1234) = Ok (Some pin) ∧ zlen pin = 9 ∧
    wsc_pin_is_valid pin = Ok true ∧ wsc_pin_is_checksum_valid pin = Ok true.
Proof. split; [lia |]. apply (wsc_pin_generate_valid 1234). lia. Defined.

Lemma wsc_pin_first_digit_witness :
  10 ^ 9 ≤ 4000000000 < 2 ^ 32 ∧ ∃ pin d, wsc_pin_generate (Some 4000000000) = Ok (Some pin) ∧ rd pin 0 = Ok (48 + d) ∧ 1 ≤ d ≤ 4.
Proof. split; [lia |]. apply (wsc_pin_first_digit 4000000000). lia. Defined.

Lemma wsc_pin_checksum_detects_witness :
  let l := [1; 2; 3; 4; 5; 6; 7; 0] in
  wsc_pin_is_checksum_valid (pin_of l) = Ok true ∧ wsc_pin_is_checksum_valid (pin_of (<[2%nat := 8]> l)) = Ok false.
Proof.
  split; [vm_compute; reflexivity |].
  apply (wsc_pin_checksum_detects [1; 2; 3; 4; 5; 6; 7; 0] 2 8); [by_eval | reflexivity | lia | lia | discriminate | vm_compute; reflexivity].
Defined.

Lemma device_type_names_roundtrip_witness :
  let d := mk_pdt 1 microsoft_oui 4 1 in
  (1, 1, "computer"%string, "pc"%string) ∈ device_names ∧ wsc_device_type_from_subcategory_str "pc" = Some d ∧
  wsc_device_type_to_dbus_str d = Some ("computer"%string, Some "pc"%string).
Proof.
  assert (H : (1, 1, "computer"%string, "pc"%string) ∈ device_names) by (apply (bool_decide_unpack _); vm_compute; exact I).
  split; [exact H |]. exact (device_type_names_roundtrip 1 1 _ _ H).
Defined.

Lemma device_type_setting_name_refused_witness :
  let out := mk_pdt 0 [0; 0; 0] 0 0 in
  (1, 1, "computer"%string, "pc"%string) ∈ device_names ∧ (wsc_device_type_from_setting_str (Some "pc"%string) out).1 = false.
Proof.
  assert (H : (1, 1, "computer"%string, "pc"%string) ∈ device_names) by (apply (bool_decide_unpack _); vm_compute; exact I).
  split; [exact H |]. exact (proj2 (device_type_setting_name_refused 1 1 _ _ (mk_pdt 0 [0; 0; 0] 0 0) H)).
Defined.
