(* ===== verification/P2p.v ===== *)
(** * Wi-Fi Direct: attributes (src/p2putil.c, src/p2putil.h)

    The iterators over P2P attributes and WFD subelements, the decoders of the attributes, the
    parser [p2p_parse_attrs] and the attribute builder. *)

From stdpp Require Import base numbers list option.
From Stdlib Require Import ZArith Lia.
From S2P Require Import Prelude StRes IeTlv IeMisc Crypto Handshake Wsc.

Open Scope Z_scope.

Definition P2P_ATTR_STATUS : Z := 0.
Definition P2P_ATTR_MINOR_REASON_CODE : Z := 1.
Definition P2P_ATTR_P2P_CAPABILITY : Z := 2.
Definition P2P_ATTR_P2P_DEVICE_ID : Z := 3.
Definition P2P_ATTR_GO_INTENT : Z := 4.
Definition P2P_ATTR_CONFIGURATION_TIMEOUT : Z := 5.
Definition P2P_ATTR_LISTEN_CHANNEL : Z := 6.
Definition P2P_ATTR_P2P_GROUP_BSSID : Z := 7.
Definition P2P_ATTR_EXTENDED_LISTEN_TIMING : Z := 8.
Definition P2P_ATTR_INTENDED_P2P_INTERFACE_ADDR : Z := 9.
Definition P2P_ATTR_CHANNEL_LIST : Z := 11.
Definition P2P_ATTR_NOTICE_OF_ABSENCE : Z := 12.
Definition P2P_ATTR_P2P_DEVICE_INFO : Z := 13.
Definition P2P_ATTR_P2P_GROUP_INFO : Z := 14.
Definition P2P_ATTR_P2P_GROUP_ID : Z := 15.
Definition P2P_ATTR_P2P_INTERFACE : Z := 16.
Definition P2P_ATTR_OPERATING_CHANNEL : Z := 17.
Definition P2P_ATTR_INVITATION_FLAGS : Z := 18.
Definition P2P_ATTR_SVC_HASH : Z := 21.
Definition P2P_ATTR_SESSION_INFO_DATA_INFO : Z := 22.
Definition P2P_ATTR_CONNECTION_CAPABILITY_INFO : Z := 23.
Definition P2P_ATTR_ADVERTISEMENT_ID_INFO : Z := 24.
Definition P2P_ATTR_ADVERTISED_SVC_INFO : Z := 25.
Definition P2P_ATTR_SESSION_ID_INFO : Z := 26.
Definition P2P_ATTR_FEATURE_CAPABILITY : Z := 27.
Definition P2P_ATTR_PERSISTENT_GROUP_INFO : Z := 28.

Definition P2P_STATUS_SUCCESS : Z := 0.
Definition P2P_STATUS_SUCCESS_ACCEPTED_BY_USER : Z := 12.

Definition P2P_ACTION_GO_NEGOTIATION_REQ : Z := 0.
Definition P2P_ACTION_GO_NEGOTIATION_RESP : Z := 1.
Definition P2P_ACTION_GO_NEGOTIATION_CONFIRM : Z := 2.
Definition P2P_ACTION_INVITATION_REQ : Z := 3.
Definition P2P_ACTION_INVITATION_RESP : Z := 4.
Definition P2P_ACTION_DEVICE_DISCOVERABILITY_REQ : Z := 5.
Definition P2P_ACTION_DEVICE_DISCOVERABILITY_RESP : Z := 6.
Definition P2P_ACTION_PROVISION_DISCOVERY_REQ : Z := 7.
Definition P2P_ACTION_PROVISION_DISCOVERY_RESP : Z := 8.

Definition P2P_ACTION_NOTICE_OF_ABSENCE : Z := 0.
Definition P2P_ACTION_PRESENCE_REQ : Z := 1.
Definition P2P_ACTION_PRESENCE_RESP : Z := 2.
Definition P2P_ACTION_GO_DISCOVERABILITY_REQ : Z := 3.

(** Integers in the byte order of the attributes. *)
Definition l_get_le32 (p : ptr) : res Z :=
  a ← rd p 0; b ← rd p 1; c ← rd p 2; d ← rd p 3;
  Ok (a + b * 2 ^ 8 + c * 2 ^ 16 + d * 2 ^ 24).
Definition le32_bytes (v : Z) : list Z := [u8 v; u8 (v / 2 ^ 8); u8 (v / 2 ^ 16); u8 (v / 2 ^ 24)].

(** ** Iterators

    [pos] and [end] are offsets into the payload; a type of [None] is -1, before the first
    attribute.  The result of a step is the iterator and what the function returns. *)

Record p2p_attr_iter : Type := mk_p2p_iter {
  pi_pdu : ptr;
  pi_pos : Z;
  pi_end : Z;
  pi_type : option Z;
  pi_len : Z;
}.

Definition p2p_attr_iter_init (pdu : ptr) (len : Z) : p2p_attr_iter := mk_p2p_iter pdu 0 len None 0.

Definition p2p_attr_iter_next (iter : p2p_attr_iter) : res (p2p_attr_iter * bool) :=
  let pdu := pi_pdu iter in
  let pos := match pi_type iter with None => pi_pos iter | Some _ => pi_pos iter + (3 + pi_len iter) end in
  let stop := (mk_p2p_iter pdu pos (pi_end iter) (pi_type iter) (pi_len iter), false) in
  if pi_end iter <? pos + 3 then Ok stop
  else
    len ← l_get_le16 (pdu +! (pos + 1));
    if pi_end iter <? pos + 3 + len then Ok stop
    else type ← rd pdu pos; Ok (mk_p2p_iter pdu pos (pi_end iter) (Some type) len, true).

Definition p2p_attr_iter_get_data (iter : p2p_attr_iter) : ptr := pi_pdu iter +! (pi_pos iter + 3).

Definition wfd_subelem_iter_init (pdu : ptr) (len : Z) : p2p_attr_iter := mk_p2p_iter pdu 0 len None 0.

(** The length of a WFD subelement is big-endian. *)
Definition wfd_subelem_iter_next (iter : p2p_attr_iter) : res (p2p_attr_iter * bool) :=
  let pdu := pi_pdu iter in
  let pos := match pi_type iter with None => pi_pos iter | Some _ => pi_pos iter + (3 + pi_len iter) end in
  let stop := (mk_p2p_iter pdu pos (pi_end iter) (pi_type iter) (pi_len iter), false) in
  if pi_end iter <? pos + 3 then Ok stop
  else
    len ← l_get_be16 (pdu +! (pos + 1));
    if pi_end iter <? pos + 3 + len then Ok stop
    else type ← rd pdu pos; Ok (mk_p2p_iter pdu pos (pi_end iter) (Some type) len, true).

(** ** Attributes

    A queue is NULL, live with its entries, or freed with the pointer still set.  The [char]
    arrays hold the bytes that were copied into them, with zeros behind. *)

Inductive l_queue (A : Type) : Type :=
  | QNull
  | Queue (entries : list A)
  | QFreed.
Arguments QNull {A}.
Arguments Queue {A} entries.
Arguments QFreed {A}.

#[export] Instance l_queue_eq_dec {A} `{!EqDecision A} : EqDecision (l_queue A).
Proof. solve_decision. Defined.

(** [l_queue_destroy] and the reset of the pointer; freeing a queue twice is undefined. *)
Definition queue_destroy {A} (q : l_queue A) : res (l_queue A) :=
  match q with QFreed => Fault | _ => Ok QNull end.

Definition l_queue_get_entries {A} (q : l_queue A) : res (list A) :=
  match q with QNull => Ok [] | Queue l => Ok l | QFreed => Fault end.

(** [if (!*out) *out = l_queue_new()] and [l_queue_push_tail]. *)
Definition push_tail {A} (q : l_queue A) (a : A) : l_queue A :=
  match q with Queue l => Queue (l ++ [a]) | _ => Queue [a] end.

Record p2p_capability_attr : Type := mk_capability {
  device_caps : Z;
  group_caps : Z;
}.

Record p2p_go_intent_attr : Type := mk_go_intent {
  intent : Z;
  tie_breaker : bool;
}.

Record p2p_config_timeout_attr : Type := mk_config_timeout {
  go_config_timeout : Z;
  client_config_timeout : Z;
}.

Record p2p_channel_attr : Type := mk_channel {
  ch_country : list Z;
  ch_oper_class : Z;
  ch_channel_num : Z;
}.

Record p2p_extended_listen_timing_attr : Type := mk_listen_timing {
  avail_period_ms : Z;
  avail_interval_ms : Z;
}.

Record p2p_channel_entries : Type := mk_channel_entries {
  ce_oper_class : Z;
  ce_n_channels : Z;
  ce_channels : list Z;
}.

#[export] Instance p2p_channel_entries_eq_dec : EqDecision p2p_channel_entries.
Proof. solve_decision. Defined.

Record p2p_channel_list_attr : Type := mk_channel_list {
  cl_country : list Z;
  cl_channel_entries : l_queue p2p_channel_entries;
}.

Record p2p_notice_of_absence_desc : Type := mk_absence_desc {
  nd_count_type : Z;
  nd_duration : Z;
  nd_interval : Z;
  nd_start_time : Z;
}.

#[export] Instance p2p_notice_of_absence_desc_eq_dec : EqDecision p2p_notice_of_absence_desc.
Proof. solve_decision. Defined.

Record p2p_notice_of_absence_attr : Type := mk_absence {
  na_index : Z;
  na_opp_ps : bool;
  na_ct_window : Z;
  na_descriptors : l_queue p2p_notice_of_absence_desc;
}.

Record p2p_device_info_attr : Type := mk_device_info {
  di_device_addr : list Z;
  di_wsc_config_methods : Z;
  di_primary_device_type : wsc_primary_device_type;
  di_secondary_device_types : l_queue wsc_primary_device_type;
  di_device_name : list Z;
}.

Record p2p_client_info_descriptor : Type := mk_client_info {
  ci_device_addr : list Z;
  ci_interface_addr : list Z;
  ci_device_caps : Z;
  ci_wsc_config_methods : Z;
  ci_primary_device_type : wsc_primary_device_type;
  ci_secondary_device_types : l_queue wsc_primary_device_type;
  ci_device_name : list Z;
}.

#[export] Instance p2p_client_info_descriptor_eq_dec : EqDecision p2p_client_info_descriptor.
Proof. solve_decision. Defined.

Record p2p_group_id_attr : Type := mk_group_id {
  gi_device_addr : list Z;
  gi_ssid : list Z;
}.

Record p2p_interface_attr : Type := mk_interface {
  if_device_addr : list Z;
  if_interface_addrs : l_queue (list Z);
}.

Record p2p_session_info_data_attr : Type := mk_session_info {
  sd_data_len : Z;
  sd_data : list Z;
}.

Record p2p_advertisement_id_info_attr : Type := mk_advertisement_id {
  ai_advertisement_id : Z;
  ai_service_mac_addr : list Z;
}.

Record p2p_advertised_service_descriptor : Type := mk_service {
  sv_advertisement_id : Z;
  sv_wsc_config_methods : Z;
  sv_service_name : list Z;
}.

#[export] Instance p2p_advertised_service_descriptor_eq_dec : EqDecision p2p_advertised_service_descriptor.
Proof. solve_decision. Defined.

Record p2p_session_id_info_attr : Type := mk_session_id {
  si_session_id : Z;
  si_session_mac_addr : list Z;
}.

Inductive p2p_asp_coordination_transport_protocol : Type :=
  | P2P_ASP_TRANSPORT_UNKNOWN
  | P2P_ASP_TRANSPORT_UDP.

(** What a decoder stores through its [void *]. *)
Inductive p2p_value : Type :=
  | PByte (v : Z)
  | PFlag (b : bool)
  | PAddr (a : list Z)
  | PCapability (c : p2p_capability_attr)
  | PIntent (i : p2p_go_intent_attr)
  | PTimeout (t : p2p_config_timeout_attr)
  | PChannel (c : p2p_channel_attr)
  | PListen (t : p2p_extended_listen_timing_attr)
  | PChannels (c : p2p_channel_list_attr)
  | PAbsence (a : p2p_notice_of_absence_attr)
  | PDevice (d : p2p_device_info_attr)
  | PClients (q : l_queue p2p_client_info_descriptor)
  | PGroupId (g : p2p_group_id_attr)
  | PInterface (i : p2p_interface_attr)
  | PHashes (q : l_queue (list Z))
  | PSession (s : p2p_session_info_data_attr)
  | PAdvertisement (a : p2p_advertisement_id_info_attr)
  | PServices (q : l_queue p2p_advertised_service_descriptor)
  | PSessionId (s : p2p_session_id_info_attr)
  | PTransport (t : p2p_asp_coordination_transport_protocol).

(** ** Decoders

    The result is the value returned and what is left at the destination; what a decoder that
    returns [false] has stored in fields that own no memory is left out. *)

Definition handled : Type := bool * option p2p_value.
Definition refuse : res handled := Ok (false, None).
Definition store (v : p2p_value) : res handled := Ok (true, Some v).

Definition extract_p2p_byte (attr : ptr) (len : Z) : res handled :=
  if negb (len =? 1) then refuse else v ← rd attr 0; store (PByte v).

Definition extract_p2p_status (attr : ptr) (len : Z) : res handled :=
  if negb (len =? 1) then refuse else v ← rd attr 0; store (PByte v).

Definition extract_p2p_capability (attr : ptr) (len : Z) : res handled :=
  if negb (len =? 2) then refuse
  else d ← rd attr 0; g ← rd attr 1; store (PCapability (mk_capability d g)).

Definition extract_p2p_addr (attr : ptr) (len : Z) : res handled :=
  if negb (len =? 6) then refuse else a ← rdn attr 6; store (PAddr a).

Definition extract_p2p_go_intent (attr : ptr) (len : Z) : res handled :=
  if negb (len =? 1) then refuse
  else
    v ← rd attr 0;
    let intent := Z.shiftr v 1 in
    if negb (Z.land intent (Z.lnot 15) =? 0) then refuse
    else store (PIntent (mk_go_intent intent (Z.odd v))).

Definition extract_p2p_config_timeout (attr : ptr) (len : Z) : res handled :=
  if negb (len =? 2) then refuse
  else g ← rd attr 0; c ← rd attr 1; store (PTimeout (mk_config_timeout g c)).

Definition extract_p2p_channel (attr : ptr) (len : Z) : res handled :=
  if negb (len =? 5) then refuse
  else
    country ← rdn attr 3; oper_class ← rd attr 3; channel_num ← rd attr 4;
    store (PChannel (mk_channel country oper_class channel_num)).

Definition extract_p2p_listen_timing (attr : ptr) (len : Z) : res handled :=
  if negb (len =? 4) then refuse
  else
    period ← l_get_le16 attr; interval ← l_get_le16 (attr +! 2);
    store (PListen (mk_listen_timing period interval)).

(** [None]: an entry that is cut off. *)
Fixpoint channel_entries_loop (fuel : nat) (attr : ptr) (len : Z) (acc : list p2p_channel_entries)
    : res (option (list p2p_channel_entries)) :=
  if len =? 0 then Ok (Some acc)
  else match fuel with
  | O => Diverge
  | S fuel =>
      if len <? 2 then Ok None
      else
        n ← rd attr 1;
        if len <? 2 + n then Ok None
        else
          oper_class ← rd attr 0;
          channels ← rdn (attr +! 2) n;
          channel_entries_loop fuel (attr +! 2 +! n) (len - (2 + n)) (acc ++ [mk_channel_entries oper_class n channels])
  end.
Definition extract_p2p_channel_list (attr : ptr) (len : Z) : res handled :=
  if len <? 3 then refuse
  else
    country ← rdn attr 3;
    r ← channel_entries_loop (Z.to_nat len) (attr +! 3) (len - 3) [];
    match r with
    | None => refuse
    | Some entries => store (PChannels (mk_channel_list country (Queue entries)))
    end.

Fixpoint absence_loop (fuel : nat) (attr : ptr) (len : Z) (acc : list p2p_notice_of_absence_desc)
    : res (list p2p_notice_of_absence_desc) :=
  if len =? 0 then Ok acc
  else match fuel with
  | O => Diverge
  | S fuel =>
      count_type ← rd attr 0;
      duration ← l_get_le32 (attr +! 1);
      interval ← l_get_le32 (attr +! 5);
      start_time ← l_get_le32 (attr +! 9);
      absence_loop fuel (attr +! 13) (len - 13) (acc ++ [mk_absence_desc count_type duration interval start_time])
  end.
Definition extract_p2p_notice_of_absence (attr : ptr) (len : Z) : res handled :=
  if negb (len mod 13 =? 2) then refuse
  else
    index ← rd attr 0;
    v ← rd attr 1;
    let ct_window := Z.land v 127 in
    let opp_ps := negb (Z.shiftr v 7 =? 0) in
    if opp_ps && (ct_window =? 0) then refuse
    else
      descs ← absence_loop (Z.to_nat len) (attr +! 2) (len - 2) [];
      store (PAbsence (mk_absence index opp_ps ct_window (Queue descs))).

(** The device types at [attr + i * 8]; [None] at one that is refused. *)
Fixpoint device_types_loop (n : nat) (attr : ptr) (acc : list wsc_primary_device_type)
    : res (option (list wsc_primary_device_type)) :=
  match n with
  | O => Ok (Some acc)
  | S n =>
      r ← wsc_parse_primary_device_type attr 8;
      match r with
      | None => Ok None
      | Some t => device_types_loop n (attr +! 8) (acc ++ [t])
      end
  end.
Definition extract_p2p_device_info (attr : ptr) (len : Z) : res handled :=
  if len <? 21 then refuse
  else
    addr ← rdn attr 6;
    methods ← l_get_be16 (attr +! 6);
    r ← wsc_parse_primary_device_type (attr +! 8) 8;
    match r with
    | None => refuse
    | Some primary =>
        types_num ← rd attr 16;
        if len <? 17 + types_num * 8 + 4 then refuse
        else
          t ← l_get_be16 (attr +! (17 + types_num * 8));
          if negb (t =? WSC_ATTR_DEVICE_NAME) then refuse
          else
            name_len ← l_get_be16 (attr +! (17 + types_num * 8 + 2));
            if (len <? 17 + types_num * 8 + 4 + name_len) || (32 <? name_len) then refuse
            else
              r ← device_types_loop (Z.to_nat types_num) (attr +! 17) [];
              match r with
              | None => refuse
              | Some types =>
                  name ← rdn (attr +! (17 + types_num * 8 + 4)) name_len;
                  store (PDevice (mk_device_info addr methods primary (Queue types) name))
              end
    end.

(** One descriptor behind its length, with the bytes it takes; [None] is the jump to [error]. *)
Definition client_info (attr : ptr) (desc_len : Z) : res (option (p2p_client_info_descriptor * Z)) :=
  device_addr ← rdn attr 6;
  interface_addr ← rdn (attr +! 6) 6;
  caps ← rd attr 12;
  methods ← l_get_be16 (attr +! 13);
  r ← wsc_parse_primary_device_type (attr +! 15) 8;
  match r with
  | None => Ok None
  | Some primary =>
      types_num ← rd attr 23;
      if desc_len <? 24 + types_num * 8 + 4 then Ok None
      else
        t ← l_get_be16 (attr +! (24 + types_num * 8));
        if negb (t =? WSC_ATTR_DEVICE_NAME) then Ok None
        else
          name_len ← l_get_be16 (attr +! (24 + types_num * 8 + 2));
          if (desc_len <? 24 + types_num * 8 + 4 + name_len) || (32 <? name_len) then Ok None
          else
            r ← device_types_loop (Z.to_nat types_num) (attr +! 24) [];
            match r with
            | None => Ok None
            | Some types =>
                name ← rdn (attr +! (24 + types_num * 8 + 4)) name_len;
                Ok (Some (mk_client_info device_addr interface_addr caps methods primary (Queue types) name,
                          24 + types_num * 8 + 4 + name_len))
            end
  end.

(** [attr] goes on behind the bytes the descriptor takes, [len] by its length. *)
Fixpoint group_info_loop (fuel : nat) (attr : ptr) (len : Z) (out : l_queue p2p_client_info_descriptor)
    : res (option (l_queue p2p_client_info_descriptor)) :=
  if len =? 0 then Ok (Some out)
  else match fuel with
  | O => Diverge
  | S fuel =>
      desc_len ← rd attr 0;
      if len <? 1 + desc_len then Ok None
      else
        r ← client_info (attr +! 1) desc_len;
        match r with
        | None => Ok None
        | Some (desc, size) => group_info_loop fuel (attr +! 1 +! size) (len - (1 + desc_len)) (push_tail out desc)
        end
  end.
Definition extract_p2p_group_info (attr : ptr) (len : Z) : res handled :=
  r ← group_info_loop (Z.to_nat len) attr len QNull;
  match r with None => refuse | Some q => store (PClients q) end.

Definition extract_p2p_group_id (attr : ptr) (len : Z) : res handled :=
  if (len <? 6) || (38 <? len) then refuse
  else addr ← rdn attr 6; ssid ← rdn (attr +! 6) (len - 6); store (PGroupId (mk_group_id addr ssid)).

(** [n] blocks of six bytes. *)
Fixpoint six_bytes_loop (n : nat) (attr : ptr) (acc : list (list Z)) : res (list (list Z)) :=
  match n with
  | O => Ok acc
  | S n => a ← rdn attr 6; six_bytes_loop n (attr +! 6) (acc ++ [a])
  end.
Definition extract_p2p_interface (attr : ptr) (len : Z) : res handled :=
  if len <? 7 then refuse
  else
    addr_count ← rd attr 6;
    if len <? 7 + addr_count * 6 then refuse
    else
      addr ← rdn attr 6;
      addrs ← six_bytes_loop (Z.to_nat addr_count) (attr +! 7) [];
      store (PInterface (mk_interface addr (Queue addrs))).

Definition extract_p2p_invitation_flags (attr : ptr) (len : Z) : res handled :=
  if negb (len =? 1) then refuse else v ← rd attr 0; store (PFlag (Z.odd v)).

Definition extract_p2p_service_hashes (attr : ptr) (len : Z) : res handled :=
  if negb (len mod 6 =? 0) then refuse
  else hashes ← six_bytes_loop (Z.to_nat (len / 6)) attr []; store (PHashes (Queue hashes)).

(** [memcpy] of [n] bytes within one object, from the offset [src] to the offset [dst]: the two
    regions must not overlap, and must be inside. *)
Definition memcpy_within (obj : list Z) (dst src n : Z) : res (list Z) :=
  if Z.abs (dst - src) <? n then Fault
  else bytes ← rdn (obj +! src) n; put obj dst bytes.

(** The structure as the bytes of [data_len] (a [size_t] of eight bytes, the low byte first) and of
    the array of 144 bytes behind it: [out] and [data] are both its start, and the copy is from
    [data] and not from [attr]. *)
Definition session_object (len : Z) : list Z := le32_bytes len ++ le32_bytes (len / 2 ^ 32) ++ zeros 144.
Definition extract_p2p_session_info (attr : ptr) (len : Z) : res handled :=
  out ← memcpy_within (session_object len) 8 0 len;
  data ← rdn (out +! 8) len;
  store (PSession (mk_session_info len data)).

Definition extract_p2p_advertisement_id (attr : ptr) (len : Z) : res handled :=
  if negb (len =? 10) then refuse
  else id ← l_get_le32 attr; addr ← rdn (attr +! 4) 6; store (PAdvertisement (mk_advertisement_id id addr)).

(** The queue at the destination, and whether the loop came to the end of the attribute. *)
Fixpoint services_loop (fuel : nat) (attr : ptr) (len : Z) (out : l_queue p2p_advertised_service_descriptor)
    : res (bool * l_queue p2p_advertised_service_descriptor) :=
  if len =? 0 then Ok (true, out)
  else match fuel with
  | O => Diverge
  | S fuel =>
      if len <? 7 then Ok (false, out)
      else
        name_len ← rd attr 6;
        if len <? 7 + name_len then Ok (false, out)
        else
          valid ← l_utf8_validate (attr +! 7) name_len;
          if negb valid then Ok (false, out)
          else
            id ← l_get_le32 attr;
            methods ← l_get_be16 (attr +! 4);
            name ← rdn (attr +! 7) name_len;
            services_loop fuel (attr +! (7 + name_len)) (len - (7 + name_len)) (push_tail out (mk_service id methods name))
  end.

(** On an error the queue is freed, and the pointer to it is left as it is. *)
Definition extract_p2p_advertised_service_info (attr : ptr) (len : Z) : res handled :=
  '(ok, q) ← services_loop (Z.to_nat len) attr len QNull;
  if (ok : bool) then store (PServices q)
  else Ok (false, Some (PServices (match q with Queue _ => QFreed | q => q end))).

Definition extract_p2p_session_id (attr : ptr) (len : Z) : res handled :=
  if negb (len =? 10) then refuse
  else id ← l_get_le32 attr; addr ← rdn (attr +! 4) 6; store (PSessionId (mk_session_id id addr)).

Definition extract_p2p_feature_capability (attr : ptr) (len : Z) : res handled :=
  if negb (len =? 2) then refuse
  else
    v ← rd attr 0;
    store (PTransport (if v =? 1 then P2P_ASP_TRANSPORT_UDP else P2P_ASP_TRANSPORT_UNKNOWN)).

(** The decoder of an attribute; [None] is NULL. *)
Definition p2p_handler_for_type (type : Z) : option (ptr → Z → res handled) :=
  if type =? P2P_ATTR_STATUS then Some extract_p2p_status
  else if type =? P2P_ATTR_MINOR_REASON_CODE then Some extract_p2p_byte
  else if type =? P2P_ATTR_P2P_CAPABILITY then Some extract_p2p_capability
  else if type =? P2P_ATTR_P2P_DEVICE_ID then Some extract_p2p_addr
  else if type =? P2P_ATTR_P2P_GROUP_BSSID then Some extract_p2p_addr
  else if type =? P2P_ATTR_INTENDED_P2P_INTERFACE_ADDR then Some extract_p2p_addr
  else if type =? P2P_ATTR_GO_INTENT then Some extract_p2p_go_intent
  else if type =? P2P_ATTR_CONFIGURATION_TIMEOUT then Some extract_p2p_config_timeout
  else if type =? P2P_ATTR_LISTEN_CHANNEL then Some extract_p2p_channel
  else if type =? P2P_ATTR_OPERATING_CHANNEL then Some extract_p2p_channel
  else if type =? P2P_ATTR_EXTENDED_LISTEN_TIMING then Some extract_p2p_listen_timing
  else if type =? P2P_ATTR_CHANNEL_LIST then Some extract_p2p_channel_list
  else if type =? P2P_ATTR_NOTICE_OF_ABSENCE then Some extract_p2p_notice_of_absence
  else if type =? P2P_ATTR_P2P_DEVICE_INFO then Some extract_p2p_device_info
  else if type =? P2P_ATTR_P2P_GROUP_INFO then Some extract_p2p_group_info
  else if type =? P2P_ATTR_P2P_GROUP_ID then Some extract_p2p_group_id
  else if type =? P2P_ATTR_PERSISTENT_GROUP_INFO then Some extract_p2p_group_id
  else if type =? P2P_ATTR_P2P_INTERFACE then Some extract_p2p_interface
  else if type =? P2P_ATTR_INVITATION_FLAGS then Some extract_p2p_invitation_flags
  else if type =? P2P_ATTR_SVC_HASH then Some extract_p2p_service_hashes
  else if type =? P2P_ATTR_SESSION_INFO_DATA_INFO then Some extract_p2p_session_info
  else if type =? P2P_ATTR_CONNECTION_CAPABILITY_INFO then Some extract_p2p_byte
  else if type =? P2P_ATTR_ADVERTISEMENT_ID_INFO then Some extract_p2p_advertisement_id
  else if type =? P2P_ATTR_ADVERTISED_SVC_INFO then Some extract_p2p_advertised_service_info
  else if type =? P2P_ATTR_SESSION_ID_INFO then Some extract_p2p_session_id
  else if type =? P2P_ATTR_FEATURE_CAPABILITY then Some extract_p2p_feature_capability
  else None.

(** ** The parser *)

(** [struct attr_handler_entry]; what is stored at the destination is in the result, by type. *)
Record p2p_attr_entry : Type := mk_p2p_entry {
  pe_type : Z;
  pe_required : bool;
  pe_present : bool;
}.

Definition P2P_REQUIRED (attr : Z) : p2p_attr_entry := mk_p2p_entry attr true false.
Definition P2P_OPTIONAL (attr : Z) : p2p_attr_entry := mk_p2p_entry attr false false.

(** The first entry of the type, made present; [None] if there is none or it was present. *)
Fixpoint mark_present (type : Z) (es : list p2p_attr_entry) : option (list p2p_attr_entry) :=
  match es with
  | [] => None
  | e :: es =>
      if type =? pe_type e then if pe_present e then None else Some (mk_p2p_entry (pe_type e) (pe_required e) true :: es)
      else option_map (cons e) (mark_present type es)
  end.

Definition p2p_values : Type := list (Z * p2p_value).
Definition left_behind (type : Z) (v : option p2p_value) : p2p_values :=
  match v with Some v => [(type, v)] | None => [] end.

(** The loop over the attributes: whether it ended without an error, the entries, and what was
    stored. *)
Fixpoint p2p_attrs_loop (fuel : nat) (iter : p2p_attr_iter) (es : list p2p_attr_entry) (vs : p2p_values)
    : res (bool * list p2p_attr_entry * p2p_values) :=
  match fuel with
  | O => Diverge
  | S fuel =>
      '(iter, more) ← p2p_attr_iter_next iter;
      match pi_type iter, (more : bool) with
      | Some type, true =>
          match mark_present type es with
          | None => Ok (false, es, vs)
          | Some es =>
              h ← nonnull (p2p_handler_for_type type);
              '(ok, v) ← h (p2p_attr_iter_get_data iter) (pi_len iter);
              let vs := vs ++ left_behind type v in
              if (ok : bool) then p2p_attrs_loop fuel iter es vs else Ok (false, es, vs)
          end
      | _, _ => Ok (true, es, vs)
      end
  end.

(** The value returned ([None] is 0), and what was stored, also on an error.  [fresh] gives the
    contents of fresh memory. *)
Definition p2p_parse_attrs (fresh : nat → Z) (pdu : ptr) (len : Z) (entries : list p2p_attr_entry)
    : res (option errno * p2p_values) :=
  '(p2p_data, p2p_len) ← ie_tlv_extract_p2p_payload fresh pdu len;
  match p2p_data, p2p_len with
  | None, inl e => Ok (Some e, [])
  | None, inr _ => Ok (None, [])
  | Some _, inl _ => Fault
  | Some p2p_data, inr p2p_len =>
      '(ok, es, vs) ← p2p_attrs_loop (S (Z.to_nat p2p_len)) (p2p_attr_iter_init p2p_data p2p_len) entries [];
      if negb ok then Ok (Some EBADMSG, vs)
      else if negb (forallb (λ e, pe_present e || negb (pe_required e)) es) then Ok (Some EINVAL, vs)
      else Ok (None, vs)
  end.

(** ** The builder *)

Record p2p_attr_builder : Type := mk_p2p_builder {
  pb_capacity : Z;
  pb_buf : list Z;
  pb_offset : Z;
  pb_curlen : Z;
}.

Section builder.
(** The contents of the memory that [l_malloc] and [l_realloc] give. *)
Variable junk : nat → Z.

Definition p2p_attr_builder_grow : sr p2p_attr_builder unit :=
  modify (λ b, mk_p2p_builder (pb_capacity b * 2) (pb_buf b ++ l_malloc junk (pb_capacity b)) (pb_offset b) (pb_curlen b)).

(** A write into the buffer, and the new offset and length. *)
Definition pb_write (pos : Z) (l : list Z) : sr p2p_attr_builder unit :=
  b ← get;
  buf ← run (put (pb_buf b) pos l);
  modify (λ b, mk_p2p_builder (pb_capacity b) buf (pb_offset b) (pb_curlen b)).

Definition pb_set (offset curlen : Z) : sr p2p_attr_builder unit :=
  modify (λ b, mk_p2p_builder (pb_capacity b) (pb_buf b) (u16 offset) (u16 curlen)).

(** The length of the attribute before is recorded. *)
Definition pb_close : sr p2p_attr_builder unit :=
  b ← get;
  if negb (pb_curlen b =? 0) || negb (pb_offset b =? 0) then
    pb_write (pb_offset b + 1) (le16_bytes (pb_curlen b));;
    pb_set (pb_offset b + (3 + pb_curlen b)) 0
  else pass.

Definition p2p_attr_builder_start_attr (type : Z) : sr p2p_attr_builder unit :=
  pb_close;;
  b ← get;
  (if pb_capacity b <=? pb_offset b + 3 then p2p_attr_builder_grow else pass);;
  pb_write (pb_offset b) [u8 type].

(** The room is doubled once if it is too small. *)
Definition pb_put (l : list Z) : sr p2p_attr_builder unit :=
  b ← get;
  (if pb_capacity b <=? pb_offset b + 3 + pb_curlen b + zlen l then p2p_attr_builder_grow else pass);;
  pb_write (pb_offset b + 3 + pb_curlen b) l;;
  pb_set (pb_offset b) (pb_curlen b + zlen l).

Definition p2p_attr_builder_put_u8 (v : Z) : sr p2p_attr_builder unit := pb_put [u8 v].
Definition p2p_attr_builder_put_u16 (v : Z) : sr p2p_attr_builder unit := pb_put (le16_bytes v).
Definition p2p_attr_builder_put_be16 (v : Z) : sr p2p_attr_builder unit := pb_put (be16_bytes v).
Definition p2p_attr_builder_put_u32 (v : Z) : sr p2p_attr_builder unit := pb_put (le32_bytes v).
Definition p2p_attr_builder_put_oui (oui : list Z) : sr p2p_attr_builder unit :=
  l ← run (rdn oui 3); pb_put l.

(** The room is doubled until it is enough. *)
Fixpoint pb_reserve (fuel : nat) (size : Z) : sr p2p_attr_builder unit :=
  match fuel with
  | O => run Diverge
  | S fuel =>
      b ← get;
      if pb_capacity b <=? pb_offset b + 3 + pb_curlen b + size
      then p2p_attr_builder_grow;; pb_reserve fuel size else pass
  end.
Definition p2p_attr_builder_put_bytes (bytes : ptr) (size : Z) : sr p2p_attr_builder unit :=
  pb_reserve (S (S (Z.to_nat size))) size;;
  b ← get;
  l ← run (rdn bytes size);
  pb_write (pb_offset b + 3 + pb_curlen b) l;;
  pb_set (pb_offset b) (pb_curlen b + size).

Definition p2p_attr_builder_new (initial_capacity : Z) : p2p_attr_builder :=
  mk_p2p_builder initial_capacity (l_malloc junk initial_capacity) 0 0.

(** What [p2p_attr_builder_free] returns when the contents are kept. *)
Definition p2p_attr_builder_free : sr p2p_attr_builder (list Z) :=
  pb_close;;
  b ← get;
  run (rdn (pb_buf b) (pb_offset b)).

(** *** Attributes *)

(** [strlen]: the bytes before the first zero. *)
Fixpoint c_string (l : list Z) : list Z :=
  match l with [] => [] | c :: l => if c =? 0 then [] else c :: c_string l end.

Fixpoint for_each {A} (f : A → sr p2p_attr_builder unit) (l : list A) : sr p2p_attr_builder unit :=
  match l with [] => pass | a :: l => f a;; for_each f l end.

Definition p2p_build_u8_attr (type value : Z) : sr p2p_attr_builder unit :=
  p2p_attr_builder_start_attr type;; p2p_attr_builder_put_u8 value.

Definition p2p_build_capability (attr : p2p_capability_attr) : sr p2p_attr_builder unit :=
  p2p_attr_builder_start_attr P2P_ATTR_P2P_CAPABILITY;;
  p2p_attr_builder_put_u8 (device_caps attr);;
  p2p_attr_builder_put_u8 (group_caps attr).

(** [optional && !memcmp(addr, zero_addr, 6)]. *)
Definition zero_addr (addr : list Z) : bool := bool_decide (ptake addr 6 = zeros 6).

Definition p2p_build_addr (optional : bool) (type : Z) (addr : list Z) : sr p2p_attr_builder unit :=
  if optional && zero_addr addr then pass
  else p2p_attr_builder_start_attr type;; p2p_attr_builder_put_bytes addr 6.

Definition p2p_build_go_intent (intent : Z) (tie_breaker : bool) : sr p2p_attr_builder unit :=
  p2p_attr_builder_start_attr P2P_ATTR_GO_INTENT;;
  p2p_attr_builder_put_u8 (Z.lor (if tie_breaker then 1 else 0) (Z.shiftl intent 1)).

Definition p2p_build_config_timeout (optional : bool) (attr : p2p_config_timeout_attr) : sr p2p_attr_builder unit :=
  if optional && (go_config_timeout attr =? 0) && (client_config_timeout attr =? 0) then pass
  else
    p2p_attr_builder_start_attr P2P_ATTR_CONFIGURATION_TIMEOUT;;
    p2p_attr_builder_put_u8 (go_config_timeout attr);;
    p2p_attr_builder_put_u8 (client_config_timeout attr).

Definition p2p_build_channel (optional : bool) (type : Z) (attr : p2p_channel_attr) : sr p2p_attr_builder unit :=
  c ← run (rd (ch_country attr) 0);
  if optional && (c =? 0) then pass
  else
    p2p_attr_builder_start_attr type;;
    p2p_attr_builder_put_bytes (ch_country attr) 3;;
    p2p_attr_builder_put_u8 (ch_oper_class attr);;
    p2p_attr_builder_put_u8 (ch_channel_num attr).

Definition p2p_build_extended_listen_timing (attr : p2p_extended_listen_timing_attr) : sr p2p_attr_builder unit :=
  if (avail_period_ms attr =? 0) && (avail_interval_ms attr =? 0) then pass
  else
    p2p_attr_builder_start_attr P2P_ATTR_EXTENDED_LISTEN_TIMING;;
    p2p_attr_builder_put_u16 (avail_period_ms attr);;
    p2p_attr_builder_put_u16 (avail_interval_ms attr).

Definition is_null {A} (q : l_queue A) : bool := match q with QNull => true | _ => false end.

Definition build_channel_entry (e : p2p_channel_entries) : sr p2p_attr_builder unit :=
  p2p_attr_builder_put_u8 (ce_oper_class e);;
  p2p_attr_builder_put_u8 (ce_n_channels e);;
  p2p_attr_builder_put_bytes (ce_channels e) (ce_n_channels e).
Definition p2p_build_channel_list (optional : bool) (attr : p2p_channel_list_attr) : sr p2p_attr_builder unit :=
  if optional && is_null (cl_channel_entries attr) then pass
  else
    p2p_attr_builder_start_attr P2P_ATTR_CHANNEL_LIST;;
    p2p_attr_builder_put_bytes (cl_country attr) 3;;
    entries ← run (l_queue_get_entries (cl_channel_entries attr));
    for_each build_channel_entry entries.

Definition build_absence_desc (d : p2p_notice_of_absence_desc) : sr p2p_attr_builder unit :=
  p2p_attr_builder_put_u8 (nd_count_type d);;
  p2p_attr_builder_put_u32 (nd_duration d);;
  p2p_attr_builder_put_u32 (nd_interval d);;
  p2p_attr_builder_put_u32 (nd_start_time d).
Definition p2p_build_notice_of_absence_attr (optional : bool) (attr : p2p_notice_of_absence_attr)
    : sr p2p_attr_builder unit :=
  if optional && (na_ct_window attr =? 0) && is_null (na_descriptors attr) then pass
  else
    p2p_attr_builder_start_attr P2P_ATTR_NOTICE_OF_ABSENCE;;
    p2p_attr_builder_put_u8 (na_index attr);;
    p2p_attr_builder_put_u8 (Z.lor (na_ct_window attr) (if na_opp_ps attr then 0x80 else 0));;
    descs ← run (l_queue_get_entries (na_descriptors attr));
    for_each build_absence_desc descs.

Definition p2p_build_wsc_device_type (pdt : wsc_primary_device_type) : sr p2p_attr_builder unit :=
  p2p_attr_builder_put_be16 (pdt_category pdt);;
  p2p_attr_builder_put_oui (pdt_oui pdt);;
  p2p_attr_builder_put_u8 (pdt_oui_type pdt);;
  p2p_attr_builder_put_be16 (pdt_subcategory pdt).

Definition build_device_name (name : list Z) : sr p2p_attr_builder unit :=
  p2p_attr_builder_put_be16 WSC_ATTR_DEVICE_NAME;;
  p2p_attr_builder_put_be16 (zlen (c_string name));;
  p2p_attr_builder_put_bytes name (zlen (c_string name)).
Definition p2p_build_device_info (optional : bool) (attr : p2p_device_info_attr) : sr p2p_attr_builder unit :=
  if optional && zero_addr (di_device_addr attr) then pass
  else
    p2p_attr_builder_start_attr P2P_ATTR_P2P_DEVICE_INFO;;
    p2p_attr_builder_put_bytes (di_device_addr attr) 6;;
    p2p_attr_builder_put_be16 (di_wsc_config_methods attr);;
    p2p_build_wsc_device_type (di_primary_device_type attr);;
    types ← run (l_queue_get_entries (di_secondary_device_types attr));
    p2p_attr_builder_put_u8 (zlen types);;
    for_each p2p_build_wsc_device_type types;;
    build_device_name (di_device_name attr).

(** A client descriptor read as if it were a device type: its first eight bytes. *)
Definition client_as_type (c : p2p_client_info_descriptor) : res wsc_primary_device_type :=
  let p := ci_device_addr c ++ ci_interface_addr c in
  category ← l_get_le16 p;
  oui ← rdn (p +! 2) 3;
  oui_type ← rd p 5;
  subcategory ← l_get_le16 (p +! 6);
  Ok (mk_pdt category oui oui_type subcategory).

(** The inner loop goes on with the entry behind the one of the outer loop, [next], as long as
    there is one. *)
Fixpoint group_info_types (fuel : nat) (t : wsc_primary_device_type) (next : list p2p_client_info_descriptor)
    : sr p2p_attr_builder unit :=
  match fuel with
  | O => run Diverge
  | S fuel =>
      p2p_build_wsc_device_type t;;
      match next with
      | [] => pass
      | c :: _ => t ← run (client_as_type c); group_info_types fuel t next
      end
  end.
Fixpoint build_clients (fuel : nat) (clients : list p2p_client_info_descriptor) : sr p2p_attr_builder unit :=
  match clients with
  | [] => pass
  | c :: next =>
      p2p_attr_builder_put_bytes (ci_device_addr c) 6;;
      p2p_attr_builder_put_bytes (ci_interface_addr c) 6;;
      p2p_attr_builder_put_u8 (ci_device_caps c);;
      p2p_attr_builder_put_be16 (ci_wsc_config_methods c);;
      p2p_build_wsc_device_type (ci_primary_device_type c);;
      types ← run (l_queue_get_entries (ci_secondary_device_types c));
      p2p_attr_builder_put_u8 (zlen types);;
      match types with [] => pass | t :: _ => group_info_types fuel t next end;;
      build_device_name (ci_device_name c);;
      build_clients fuel next
  end.
Definition p2p_build_group_info (fuel : nat) (clients : l_queue p2p_client_info_descriptor) : sr p2p_attr_builder unit :=
  if is_null clients then pass
  else
    p2p_attr_builder_start_attr P2P_ATTR_P2P_GROUP_INFO;;
    l ← run (l_queue_get_entries clients);
    build_clients fuel l.

Definition p2p_build_group_id (optional : bool) (type : Z) (attr : p2p_group_id_attr) : sr p2p_attr_builder unit :=
  if optional && zero_addr (gi_device_addr attr) then pass
  else
    p2p_attr_builder_start_attr type;;
    p2p_attr_builder_put_bytes (gi_device_addr attr) 6;;
    p2p_attr_builder_put_bytes (gi_ssid attr) (zlen (c_string (gi_ssid attr))).

Definition build_six_bytes (a : list Z) : sr p2p_attr_builder unit := p2p_attr_builder_put_bytes a 6.
Definition p2p_build_interface (attr : p2p_interface_attr) : sr p2p_attr_builder unit :=
  if zero_addr (if_device_addr attr) then pass
  else
    p2p_attr_builder_start_attr P2P_ATTR_P2P_INTERFACE;;
    p2p_attr_builder_put_bytes (if_device_addr attr) 6;;
    addrs ← run (l_queue_get_entries (if_interface_addrs attr));
    p2p_attr_builder_put_u8 (zlen addrs);;
    for_each build_six_bytes addrs.

Definition p2p_build_svc_hash (service_hashes : l_queue (list Z)) : sr p2p_attr_builder unit :=
  if is_null service_hashes then pass
  else
    p2p_attr_builder_start_attr P2P_ATTR_SVC_HASH;;
    hashes ← run (l_queue_get_entries service_hashes);
    for_each build_six_bytes hashes.

Definition p2p_build_session_data (attr : p2p_session_info_data_attr) : sr p2p_attr_builder unit :=
  if sd_data_len attr =? 0 then pass
  else
    p2p_attr_builder_start_attr P2P_ATTR_SESSION_INFO_DATA_INFO;;
    p2p_attr_builder_put_bytes (sd_data attr) (sd_data_len attr).

Definition p2p_build_advertisement_id (optional : bool) (attr : p2p_advertisement_id_info_attr) : sr p2p_attr_builder unit :=
  if optional && zero_addr (ai_service_mac_addr attr) then pass
  else
    p2p_attr_builder_start_attr P2P_ATTR_ADVERTISEMENT_ID_INFO;;
    p2p_attr_builder_put_u32 (ai_advertisement_id attr);;
    p2p_attr_builder_put_bytes (ai_service_mac_addr attr) 6.

Definition build_service (s : p2p_advertised_service_descriptor) : sr p2p_attr_builder unit :=
  p2p_attr_builder_put_u32 (sv_advertisement_id s);;
  p2p_attr_builder_put_be16 (sv_wsc_config_methods s);;
  p2p_attr_builder_put_u8 (zlen (c_string (sv_service_name s)));;
  p2p_attr_builder_put_bytes (sv_service_name s) (zlen (c_string (sv_service_name s))).
Definition p2p_build_advertised_service_info (services : l_queue p2p_advertised_service_descriptor)
    : sr p2p_attr_builder unit :=
  if is_null services then pass
  else
    p2p_attr_builder_start_attr P2P_ATTR_ADVERTISED_SVC_INFO;;
    l ← run (l_queue_get_entries services);
    for_each build_service l.

Definition p2p_build_session_id (optional : bool) (attr : p2p_session_id_info_attr) : sr p2p_attr_builder unit :=
  if optional && zero_addr (si_session_mac_addr attr) then pass
  else
    p2p_attr_builder_start_attr P2P_ATTR_SESSION_ID_INFO;;
    p2p_attr_builder_put_u32 (si_session_id attr);;
    p2p_attr_builder_put_bytes (si_session_mac_addr attr) 6.

Definition p2p_build_feature_capability (optional : bool) (attr : p2p_asp_coordination_transport_protocol)
    : sr p2p_attr_builder unit :=
  if optional && (match attr with P2P_ASP_TRANSPORT_UNKNOWN => true | _ => false end) then pass
  else
    p2p_attr_builder_start_attr P2P_ATTR_FEATURE_CAPABILITY;;
    p2p_attr_builder_put_u8 0x01;;
    p2p_attr_builder_put_u8 0x00.
End builder.
