(* ===== verification/P2pMsg.v ===== *)
(** * Wi-Fi Direct: messages (src/p2putil.c, src/p2putil.h)

    The structures of the messages, their parsers, the functions that free them and their
    builders. *)

From stdpp Require Import base numbers list option.
From Stdlib Require Import ZArith Lia.
From S2P Require Import Prelude StRes IeTlv IeMisc Crypto Handshake Wsc WscMsg P2p.

Open Scope Z_scope.

(** ** The structures

    A status of [None] is -1.  [wfd_ie] is the pair of members [wfd] and [wfd_size]. *)

Record wfd_ie : Type := mk_wfd {
  wfd_data : option (list Z);
  wfd_size : errno + Z;
}.
Definition no_wfd : wfd_ie := mk_wfd None (inr 0).

Record p2p_beacon : Type := mk_p2p_beacon {
  pbc_capability : p2p_capability_attr;
  pbc_device_addr : list Z;
  pbc_notice_of_absence : p2p_notice_of_absence_attr;
}.

Record p2p_probe_req : Type := mk_p2p_probe_req {
  ppq_capability : p2p_capability_attr;
  ppq_device_addr : list Z;
  ppq_listen_channel : p2p_channel_attr;
  ppq_listen_availability : p2p_extended_listen_timing_attr;
  ppq_device_info : p2p_device_info_attr;
  ppq_operating_channel : p2p_channel_attr;
  ppq_service_hashes : l_queue (list Z);
}.

Record p2p_probe_resp : Type := mk_p2p_probe_resp {
  ppr_capability : p2p_capability_attr;
  ppr_listen_availability : p2p_extended_listen_timing_attr;
  ppr_notice_of_absence : p2p_notice_of_absence_attr;
  ppr_device_info : p2p_device_info_attr;
  ppr_group_clients : l_queue p2p_client_info_descriptor;
  ppr_advertised_svcs : l_queue p2p_advertised_service_descriptor;
}.

Record p2p_association_req : Type := mk_p2p_association_req {
  paq_capability : p2p_capability_attr;
  paq_listen_availability : p2p_extended_listen_timing_attr;
  paq_device_info : p2p_device_info_attr;
  paq_interface : p2p_interface_attr;
}.

Record p2p_association_resp : Type := mk_p2p_association_resp {
  par_status : Z;
  par_listen_availability : p2p_extended_listen_timing_attr;
}.

Record p2p_deauthentication : Type := mk_p2p_deauthentication {
  pda_minor_reason_code : Z;
}.

Record p2p_disassociation : Type := mk_p2p_disassociation {
  pds_minor_reason_code : Z;
}.

Record p2p_go_negotiation_req : Type := mk_p2p_go_negotiation_req {
  gnq_dialog_token : Z;
  gnq_capability : p2p_capability_attr;
  gnq_go_intent : Z;
  gnq_go_tie_breaker : bool;
  gnq_config_timeout : p2p_config_timeout_attr;
  gnq_listen_channel : p2p_channel_attr;
  gnq_listen_availability : p2p_extended_listen_timing_attr;
  gnq_intended_interface_addr : list Z;
  gnq_channel_list : p2p_channel_list_attr;
  gnq_device_info : p2p_device_info_attr;
  gnq_operating_channel : p2p_channel_attr;
  gnq_device_password_id : Z;
  gnq_wfd : wfd_ie;
}.

Record p2p_go_negotiation_resp : Type := mk_p2p_go_negotiation_resp {
  gnr_dialog_token : Z;
  gnr_status : Z;
  gnr_capability : p2p_capability_attr;
  gnr_go_intent : Z;
  gnr_go_tie_breaker : bool;
  gnr_config_timeout : p2p_config_timeout_attr;
  gnr_operating_channel : p2p_channel_attr;
  gnr_intended_interface_addr : list Z;
  gnr_channel_list : p2p_channel_list_attr;
  gnr_device_info : p2p_device_info_attr;
  gnr_group_id : p2p_group_id_attr;
  gnr_device_password_id : Z;
  gnr_wfd : wfd_ie;
}.

Record p2p_go_negotiation_confirmation : Type := mk_p2p_go_negotiation_confirmation {
  gnc_dialog_token : Z;
  gnc_status : Z;
  gnc_capability : p2p_capability_attr;
  gnc_operating_channel : p2p_channel_attr;
  gnc_channel_list : p2p_channel_list_attr;
  gnc_group_id : p2p_group_id_attr;
  gnc_wfd : wfd_ie;
}.

Record p2p_invitation_req : Type := mk_p2p_invitation_req {
  inq_dialog_token : Z;
  inq_config_timeout : p2p_config_timeout_attr;
  inq_reinvoke_persistent_group : bool;
  inq_operating_channel : p2p_channel_attr;
  inq_group_bssid : list Z;
  inq_channel_list : p2p_channel_list_attr;
  inq_group_id : p2p_group_id_attr;
  inq_device_info : p2p_device_info_attr;
  inq_device_password_id : Z;
  inq_wfd : wfd_ie;
}.

Record p2p_invitation_resp : Type := mk_p2p_invitation_resp {
  inr_dialog_token : Z;
  inr_status : Z;
  inr_config_timeout : p2p_config_timeout_attr;
  inr_operating_channel : p2p_channel_attr;
  inr_group_bssid : list Z;
  inr_channel_list : p2p_channel_list_attr;
  inr_wfd : wfd_ie;
}.

Record p2p_device_discoverability_req : Type := mk_p2p_device_discoverability_req {
  ddq_dialog_token : Z;
  ddq_device_addr : list Z;
  ddq_group_id : p2p_group_id_attr;
}.

Record p2p_device_discoverability_resp : Type := mk_p2p_device_discoverability_resp {
  ddr_dialog_token : Z;
  ddr_status : Z;
}.

Record p2p_provision_discovery_req : Type := mk_p2p_provision_discovery_req {
  pdq_dialog_token : Z;
  pdq_capability : p2p_capability_attr;
  pdq_device_info : p2p_device_info_attr;
  pdq_group_id : p2p_group_id_attr;
  pdq_intended_interface_addr : list Z;
  pdq_status : option Z;
  pdq_operating_channel : p2p_channel_attr;
  pdq_channel_list : p2p_channel_list_attr;
  pdq_session_info : p2p_session_info_data_attr;
  pdq_connection_capability : Z;
  pdq_advertisement_id : p2p_advertisement_id_info_attr;
  pdq_config_timeout : p2p_config_timeout_attr;
  pdq_listen_channel : p2p_channel_attr;
  pdq_session_id : p2p_session_id_info_attr;
  pdq_transport_protocol : p2p_asp_coordination_transport_protocol;
  pdq_persistent_group_info : p2p_group_id_attr;
  pdq_wsc_config_method : Z;
  pdq_wfd : wfd_ie;
}.

Record p2p_provision_discovery_resp : Type := mk_p2p_provision_discovery_resp {
  pdr_dialog_token : Z;
  pdr_status : option Z;
  pdr_capability : p2p_capability_attr;
  pdr_device_info : p2p_device_info_attr;
  pdr_group_id : p2p_group_id_attr;
  pdr_intended_interface_addr : list Z;
  pdr_operating_channel : p2p_channel_attr;
  pdr_channel_list : p2p_channel_list_attr;
  pdr_connection_capability : Z;
  pdr_advertisement_id : p2p_advertisement_id_info_attr;
  pdr_config_timeout : p2p_config_timeout_attr;
  pdr_session_id : p2p_session_id_info_attr;
  pdr_transport_protocol : p2p_asp_coordination_transport_protocol;
  pdr_persistent_group_info : p2p_group_id_attr;
  pdr_session_info : p2p_session_info_data_attr;
  pdr_wsc_config_method : Z;
  pdr_wfd : wfd_ie;
}.

Record p2p_notice_of_absence : Type := mk_p2p_notice_of_absence {
  noa_notice_of_absence : p2p_notice_of_absence_attr;
}.

Record p2p_presence_req : Type := mk_p2p_presence_req {
  psq_dialog_token : Z;
  psq_notice_of_absence : p2p_notice_of_absence_attr;
}.

Record p2p_presence_resp : Type := mk_p2p_presence_resp {
  psr_dialog_token : Z;
  psr_status : Z;
  psr_notice_of_absence : p2p_notice_of_absence_attr;
}.

(** ** What was decoded

    The destinations were zeroed: an attribute that was absent leaves zeros. *)

Fixpoint p2p_value_of (type : Z) (l : p2p_values) : option p2p_value :=
  match l with
  | [] => None
  | (t, v) :: l => if t =? type then Some v else p2p_value_of type l
  end.

Definition byte_of (type : Z) (v : p2p_values) : Z :=
  match p2p_value_of type v with Some (PByte b) => b | _ => 0 end.
Definition addr_of (type : Z) (v : p2p_values) : list Z :=
  match p2p_value_of type v with Some (PAddr a) => a | _ => zeros 6 end.
Definition zero_channel : p2p_channel_attr := mk_channel (zeros 3) 0 0.
Definition channel_of (type : Z) (v : p2p_values) : p2p_channel_attr :=
  match p2p_value_of type v with Some (PChannel c) => c | _ => zero_channel end.
Definition zero_group_id : p2p_group_id_attr := mk_group_id (zeros 6) [].
Definition group_id_of (type : Z) (v : p2p_values) : p2p_group_id_attr :=
  match p2p_value_of type v with Some (PGroupId g) => g | _ => zero_group_id end.
Definition status_of (v : p2p_values) : option Z :=
  match p2p_value_of P2P_ATTR_STATUS v with Some (PByte b) => Some b | _ => None end.
Definition flag_of (v : p2p_values) : bool :=
  match p2p_value_of P2P_ATTR_INVITATION_FLAGS v with Some (PFlag b) => b | _ => false end.
Definition capability_of (v : p2p_values) : p2p_capability_attr :=
  match p2p_value_of P2P_ATTR_P2P_CAPABILITY v with Some (PCapability c) => c | _ => mk_capability 0 0 end.
Definition zero_timeout : p2p_config_timeout_attr := mk_config_timeout 0 0.
Definition timeout_of (v : p2p_values) : p2p_config_timeout_attr :=
  match p2p_value_of P2P_ATTR_CONFIGURATION_TIMEOUT v with Some (PTimeout t) => t | _ => zero_timeout end.
Definition zero_listen : p2p_extended_listen_timing_attr := mk_listen_timing 0 0.
Definition listen_of (v : p2p_values) : p2p_extended_listen_timing_attr :=
  match p2p_value_of P2P_ATTR_EXTENDED_LISTEN_TIMING v with Some (PListen t) => t | _ => zero_listen end.
Definition zero_channels : p2p_channel_list_attr := mk_channel_list (zeros 3) QNull.
Definition channels_of (v : p2p_values) : p2p_channel_list_attr :=
  match p2p_value_of P2P_ATTR_CHANNEL_LIST v with Some (PChannels c) => c | _ => zero_channels end.
Definition zero_absence : p2p_notice_of_absence_attr := mk_absence 0 false 0 QNull.
Definition absence_of (v : p2p_values) : p2p_notice_of_absence_attr :=
  match p2p_value_of P2P_ATTR_NOTICE_OF_ABSENCE v with Some (PAbsence a) => a | _ => zero_absence end.
Definition zero_device_info : p2p_device_info_attr := mk_device_info (zeros 6) 0 (mk_pdt 0 (zeros 3) 0 0) QNull [].
Definition device_info_of (v : p2p_values) : p2p_device_info_attr :=
  match p2p_value_of P2P_ATTR_P2P_DEVICE_INFO v with Some (PDevice d) => d | _ => zero_device_info end.
Definition clients_of (v : p2p_values) : l_queue p2p_client_info_descriptor :=
  match p2p_value_of P2P_ATTR_P2P_GROUP_INFO v with Some (PClients q) => q | _ => QNull end.
Definition zero_interface : p2p_interface_attr := mk_interface (zeros 6) QNull.
Definition interface_of (v : p2p_values) : p2p_interface_attr :=
  match p2p_value_of P2P_ATTR_P2P_INTERFACE v with Some (PInterface i) => i | _ => zero_interface end.
Definition hashes_of (v : p2p_values) : l_queue (list Z) :=
  match p2p_value_of P2P_ATTR_SVC_HASH v with Some (PHashes q) => q | _ => QNull end.
Definition zero_session : p2p_session_info_data_attr := mk_session_info 0 [].
Definition session_of (v : p2p_values) : p2p_session_info_data_attr :=
  match p2p_value_of P2P_ATTR_SESSION_INFO_DATA_INFO v with Some (PSession s) => s | _ => zero_session end.
Definition zero_advertisement : p2p_advertisement_id_info_attr := mk_advertisement_id 0 (zeros 6).
Definition advertisement_of (v : p2p_values) : p2p_advertisement_id_info_attr :=
  match p2p_value_of P2P_ATTR_ADVERTISEMENT_ID_INFO v with Some (PAdvertisement a) => a | _ => zero_advertisement end.
Definition services_of (v : p2p_values) : l_queue p2p_advertised_service_descriptor :=
  match p2p_value_of P2P_ATTR_ADVERTISED_SVC_INFO v with Some (PServices q) => q | _ => QNull end.
Definition zero_session_id : p2p_session_id_info_attr := mk_session_id 0 (zeros 6).
Definition session_id_of (v : p2p_values) : p2p_session_id_info_attr :=
  match p2p_value_of P2P_ATTR_SESSION_ID_INFO v with Some (PSessionId s) => s | _ => zero_session_id end.
Definition transport_of (v : p2p_values) : p2p_asp_coordination_transport_protocol :=
  match p2p_value_of P2P_ATTR_FEATURE_CAPABILITY v with Some (PTransport t) => t | _ => P2P_ASP_TRANSPORT_UNKNOWN end.

(** [go_intent] is a local variable that is not initialised. *)
Definition intent_of (v : p2p_values) : option p2p_go_intent_attr :=
  match p2p_value_of P2P_ATTR_GO_INTENT v with Some (PIntent i) => Some i | _ => None end.

(** The structure [d] of each parser, with what was stored through its table. *)
Definition d_beacon (v : p2p_values) : p2p_beacon :=
  mk_p2p_beacon (capability_of v) (addr_of P2P_ATTR_P2P_DEVICE_ID v) (absence_of v).

Definition d_probe_req (v : p2p_values) : p2p_probe_req :=
  mk_p2p_probe_req (capability_of v) (addr_of P2P_ATTR_P2P_DEVICE_ID v) (channel_of P2P_ATTR_LISTEN_CHANNEL v)
    (listen_of v) (device_info_of v) (channel_of P2P_ATTR_OPERATING_CHANNEL v) (hashes_of v).

Definition d_probe_resp (v : p2p_values) : p2p_probe_resp :=
  mk_p2p_probe_resp (capability_of v) (listen_of v) (absence_of v) (device_info_of v) (clients_of v)
    (services_of v).

Definition d_association_req (v : p2p_values) : p2p_association_req :=
  mk_p2p_association_req (capability_of v) (listen_of v) (device_info_of v) (interface_of v).

Definition d_association_resp (v : p2p_values) : p2p_association_resp :=
  mk_p2p_association_resp (byte_of P2P_ATTR_STATUS v) (listen_of v).

Definition d_go_negotiation_req (token : Z) (v : p2p_values) (gi : p2p_go_intent_attr) (password_id : Z)
    (w : wfd_ie) : p2p_go_negotiation_req :=
  mk_p2p_go_negotiation_req token (capability_of v) (intent gi) (tie_breaker gi) (timeout_of v)
    (channel_of P2P_ATTR_LISTEN_CHANNEL v) (listen_of v) (addr_of P2P_ATTR_INTENDED_P2P_INTERFACE_ADDR v)
    (channels_of v) (device_info_of v) (channel_of P2P_ATTR_OPERATING_CHANNEL v) password_id w.

Definition d_go_negotiation_resp (token : Z) (v : p2p_values) (gi : p2p_go_intent_attr) (password_id : Z)
    (w : wfd_ie) : p2p_go_negotiation_resp :=
  mk_p2p_go_negotiation_resp token (byte_of P2P_ATTR_STATUS v) (capability_of v) (intent gi) (tie_breaker gi)
    (timeout_of v) (channel_of P2P_ATTR_OPERATING_CHANNEL v) (addr_of P2P_ATTR_INTENDED_P2P_INTERFACE_ADDR v)
    (channels_of v) (device_info_of v) (group_id_of P2P_ATTR_P2P_GROUP_ID v) password_id w.

Definition d_go_negotiation_confirmation (token : Z) (v : p2p_values) (w : wfd_ie)
    : p2p_go_negotiation_confirmation :=
  mk_p2p_go_negotiation_confirmation token (byte_of P2P_ATTR_STATUS v) (capability_of v)
    (channel_of P2P_ATTR_OPERATING_CHANNEL v) (channels_of v) (group_id_of P2P_ATTR_P2P_GROUP_ID v) w.

Definition d_invitation_req (token : Z) (v : p2p_values) (password_id : Z) (w : wfd_ie) : p2p_invitation_req :=
  mk_p2p_invitation_req token (timeout_of v) (flag_of v) (channel_of P2P_ATTR_OPERATING_CHANNEL v)
    (addr_of P2P_ATTR_P2P_GROUP_BSSID v) (channels_of v) (group_id_of P2P_ATTR_P2P_GROUP_ID v)
    (device_info_of v) password_id w.

Definition d_invitation_resp (token : Z) (v : p2p_values) (w : wfd_ie) : p2p_invitation_resp :=
  mk_p2p_invitation_resp token (byte_of P2P_ATTR_STATUS v) (timeout_of v)
    (channel_of P2P_ATTR_OPERATING_CHANNEL v) (addr_of P2P_ATTR_P2P_GROUP_BSSID v) (channels_of v) w.

Definition d_device_discoverability_req (token : Z) (v : p2p_values) : p2p_device_discoverability_req :=
  mk_p2p_device_discoverability_req token (addr_of P2P_ATTR_P2P_DEVICE_ID v)
    (group_id_of P2P_ATTR_P2P_GROUP_ID v).

Definition d_device_discoverability_resp (token : Z) (v : p2p_values) : p2p_device_discoverability_resp :=
  mk_p2p_device_discoverability_resp token (byte_of P2P_ATTR_STATUS v).

Definition d_provision_discovery_req (token : Z) (v : p2p_values) (method : Z) (w : wfd_ie)
    : p2p_provision_discovery_req :=
  mk_p2p_provision_discovery_req token (capability_of v) (device_info_of v)
    (group_id_of P2P_ATTR_P2P_GROUP_ID v) (addr_of P2P_ATTR_INTENDED_P2P_INTERFACE_ADDR v) (status_of v)
    (channel_of P2P_ATTR_OPERATING_CHANNEL v) (channels_of v) (session_of v)
    (byte_of P2P_ATTR_CONNECTION_CAPABILITY_INFO v) (advertisement_of v) (timeout_of v)
    (channel_of P2P_ATTR_LISTEN_CHANNEL v) (session_id_of v) (transport_of v)
    (group_id_of P2P_ATTR_PERSISTENT_GROUP_INFO v) method w.

Definition d_provision_discovery_resp (token : Z) (v : p2p_values) (method : Z) (w : wfd_ie)
    : p2p_provision_discovery_resp :=
  mk_p2p_provision_discovery_resp token (status_of v) (capability_of v) (device_info_of v)
    (group_id_of P2P_ATTR_P2P_GROUP_ID v) (addr_of P2P_ATTR_INTENDED_P2P_INTERFACE_ADDR v)
    (channel_of P2P_ATTR_OPERATING_CHANNEL v) (channels_of v) (byte_of P2P_ATTR_CONNECTION_CAPABILITY_INFO v)
    (advertisement_of v) (timeout_of v) (session_id_of v) (transport_of v)
    (group_id_of P2P_ATTR_PERSISTENT_GROUP_INFO v) (session_of v) method w.

Definition d_notice_of_absence (v : p2p_values) : p2p_notice_of_absence :=
  mk_p2p_notice_of_absence (absence_of v).

Definition d_presence_req (token : Z) (v : p2p_values) : p2p_presence_req :=
  mk_p2p_presence_req token (absence_of v).

Definition d_presence_resp (token : Z) (v : p2p_values) : p2p_presence_resp :=
  mk_p2p_presence_resp token (byte_of P2P_ATTR_STATUS v) (absence_of v).

(** ** The functions that free the attributes and the messages *)

Definition p2p_clear_client_info_descriptor (desc : p2p_client_info_descriptor) : res unit :=
  _ ← queue_destroy (ci_secondary_device_types desc); Ok tt.

Fixpoint destroy_all {A} (destroy : A → res unit) (l : list A) : res unit :=
  match l with [] => Ok tt | a :: l => _ ← destroy a; destroy_all destroy l end.

Definition p2p_clear_channel_list_attr (attr : p2p_channel_list_attr) : res p2p_channel_list_attr :=
  q ← queue_destroy (cl_channel_entries attr); Ok (mk_channel_list (cl_country attr) q).

Definition p2p_clear_notice_of_absence_attr (attr : p2p_notice_of_absence_attr) : res p2p_notice_of_absence_attr :=
  q ← queue_destroy (na_descriptors attr); Ok (mk_absence (na_index attr) (na_opp_ps attr) (na_ct_window attr) q).

Definition p2p_clear_device_info_attr (attr : p2p_device_info_attr) : res p2p_device_info_attr :=
  q ← queue_destroy (di_secondary_device_types attr);
  Ok (mk_device_info (di_device_addr attr) (di_wsc_config_methods attr) (di_primary_device_type attr) q (di_device_name attr)).

Definition p2p_clear_group_info_attr (group_clients : l_queue p2p_client_info_descriptor)
    : res (l_queue p2p_client_info_descriptor) :=
  l ← l_queue_get_entries group_clients;
  _ ← destroy_all p2p_clear_client_info_descriptor l;
  queue_destroy group_clients.

Definition p2p_clear_interface_attr (attr : p2p_interface_attr) : res p2p_interface_attr :=
  q ← queue_destroy (if_interface_addrs attr); Ok (mk_interface (if_device_addr attr) q).

Definition p2p_clear_svc_hash_attr (hashes : l_queue (list Z)) : res (l_queue (list Z)) := queue_destroy hashes.

Definition p2p_clear_advertised_service_info_attr (descriptors : l_queue p2p_advertised_service_descriptor)
    : res (l_queue p2p_advertised_service_descriptor) := queue_destroy descriptors.

Definition clear_wfd (w : wfd_ie) : wfd_ie := mk_wfd None (wfd_size w).

Definition p2p_clear_beacon (data : p2p_beacon) : res p2p_beacon :=
  notice_of_absence ← p2p_clear_notice_of_absence_attr (pbc_notice_of_absence data);
  Ok (mk_p2p_beacon (pbc_capability data) (pbc_device_addr data) notice_of_absence).

Definition p2p_clear_probe_req (data : p2p_probe_req) : res p2p_probe_req :=
  device_info ← p2p_clear_device_info_attr (ppq_device_info data);
  service_hashes ← p2p_clear_svc_hash_attr (ppq_service_hashes data);
  Ok (mk_p2p_probe_req (ppq_capability data) (ppq_device_addr data) (ppq_listen_channel data)
    (ppq_listen_availability data) device_info (ppq_operating_channel data) service_hashes).

Definition p2p_clear_probe_resp (data : p2p_probe_resp) : res p2p_probe_resp :=
  notice_of_absence ← p2p_clear_notice_of_absence_attr (ppr_notice_of_absence data);
  device_info ← p2p_clear_device_info_attr (ppr_device_info data);
  group_clients ← p2p_clear_group_info_attr (ppr_group_clients data);
  advertised_svcs ← p2p_clear_advertised_service_info_attr (ppr_advertised_svcs data);
  Ok (mk_p2p_probe_resp (ppr_capability data) (ppr_listen_availability data) notice_of_absence device_info
    group_clients advertised_svcs).

Definition p2p_clear_association_req (data : p2p_association_req) : res p2p_association_req :=
  device_info ← p2p_clear_device_info_attr (paq_device_info data);
  interface ← p2p_clear_interface_attr (paq_interface data);
  Ok (mk_p2p_association_req (paq_capability data) (paq_listen_availability data) device_info interface).

Definition p2p_clear_go_negotiation_req (data : p2p_go_negotiation_req) : res p2p_go_negotiation_req :=
  channel_list ← p2p_clear_channel_list_attr (gnq_channel_list data);
  device_info ← p2p_clear_device_info_attr (gnq_device_info data);
  Ok (mk_p2p_go_negotiation_req (gnq_dialog_token data) (gnq_capability data) (gnq_go_intent data)
    (gnq_go_tie_breaker data) (gnq_config_timeout data) (gnq_listen_channel data) (gnq_listen_availability data)
    (gnq_intended_interface_addr data) channel_list device_info (gnq_operating_channel data)
    (gnq_device_password_id data) (clear_wfd (gnq_wfd data))).

Definition p2p_clear_go_negotiation_resp (data : p2p_go_negotiation_resp) : res p2p_go_negotiation_resp :=
  channel_list ← p2p_clear_channel_list_attr (gnr_channel_list data);
  device_info ← p2p_clear_device_info_attr (gnr_device_info data);
  Ok (mk_p2p_go_negotiation_resp (gnr_dialog_token data) (gnr_status data) (gnr_capability data) (gnr_go_intent data)
    (gnr_go_tie_breaker data) (gnr_config_timeout data) (gnr_operating_channel data)
    (gnr_intended_interface_addr data) channel_list device_info (gnr_group_id data)
    (gnr_device_password_id data) (clear_wfd (gnr_wfd data))).

Definition p2p_clear_go_negotiation_confirmation (data : p2p_go_negotiation_confirmation) : res p2p_go_negotiation_confirmation :=
  channel_list ← p2p_clear_channel_list_attr (gnc_channel_list data);
  Ok (mk_p2p_go_negotiation_confirmation (gnc_dialog_token data) (gnc_status data) (gnc_capability data)
    (gnc_operating_channel data) channel_list (gnc_group_id data) (clear_wfd (gnc_wfd data))).

Definition p2p_clear_invitation_req (data : p2p_invitation_req) : res p2p_invitation_req :=
  channel_list ← p2p_clear_channel_list_attr (inq_channel_list data);
  device_info ← p2p_clear_device_info_attr (inq_device_info data);
  Ok (mk_p2p_invitation_req (inq_dialog_token data) (inq_config_timeout data) (inq_reinvoke_persistent_group data)
    (inq_operating_channel data) (inq_group_bssid data) channel_list (inq_group_id data) device_info
    (inq_device_password_id data) (clear_wfd (inq_wfd data))).

Definition p2p_clear_invitation_resp (data : p2p_invitation_resp) : res p2p_invitation_resp :=
  channel_list ← p2p_clear_channel_list_attr (inr_channel_list data);
  Ok (mk_p2p_invitation_resp (inr_dialog_token data) (inr_status data) (inr_config_timeout data)
    (inr_operating_channel data) (inr_group_bssid data) channel_list (clear_wfd (inr_wfd data))).

Definition p2p_clear_provision_disc_req (data : p2p_provision_discovery_req) : res p2p_provision_discovery_req :=
  channel_list ← p2p_clear_channel_list_attr (pdq_channel_list data);
  device_info ← p2p_clear_device_info_attr (pdq_device_info data);
  Ok (mk_p2p_provision_discovery_req (pdq_dialog_token data) (pdq_capability data) device_info (pdq_group_id data)
    (pdq_intended_interface_addr data) (pdq_status data) (pdq_operating_channel data) channel_list
    (pdq_session_info data) (pdq_connection_capability data) (pdq_advertisement_id data)
    (pdq_config_timeout data) (pdq_listen_channel data) (pdq_session_id data) (pdq_transport_protocol data)
    (pdq_persistent_group_info data) (pdq_wsc_config_method data) (clear_wfd (pdq_wfd data))).

Definition p2p_clear_provision_disc_resp (data : p2p_provision_discovery_resp) : res p2p_provision_discovery_resp :=
  channel_list ← p2p_clear_channel_list_attr (pdr_channel_list data);
  device_info ← p2p_clear_device_info_attr (pdr_device_info data);
  Ok (mk_p2p_provision_discovery_resp (pdr_dialog_token data) (pdr_status data) (pdr_capability data) device_info
    (pdr_group_id data) (pdr_intended_interface_addr data) (pdr_operating_channel data) channel_list
    (pdr_connection_capability data) (pdr_advertisement_id data) (pdr_config_timeout data) (pdr_session_id data)
    (pdr_transport_protocol data) (pdr_persistent_group_info data) (pdr_session_info data)
    (pdr_wsc_config_method data) (clear_wfd (pdr_wfd data))).

Definition p2p_clear_notice_of_absence (data : p2p_notice_of_absence) : res p2p_notice_of_absence :=
  notice_of_absence ← p2p_clear_notice_of_absence_attr (noa_notice_of_absence data);
  Ok (mk_p2p_notice_of_absence notice_of_absence).

Definition p2p_clear_presence_req (data : p2p_presence_req) : res p2p_presence_req :=
  notice_of_absence ← p2p_clear_notice_of_absence_attr (psq_notice_of_absence data);
  Ok (mk_p2p_presence_req (psq_dialog_token data) notice_of_absence).

Definition p2p_clear_presence_resp (data : p2p_presence_resp) : res p2p_presence_resp :=
  notice_of_absence ← p2p_clear_notice_of_absence_attr (psr_notice_of_absence data);
  Ok (mk_p2p_presence_resp (psr_dialog_token data) (psr_status data) notice_of_absence).

(** ** The parsers *)

(** An error as a value. *)
Definition try_call {A} (m : res A) : res (errno + A) :=
  match m with Ok a => Ok (inr a) | Err e => Ok (inl e) | Fault => Fault | Diverge => Diverge end.

(** The jump to [error]: the queues of [d] are freed with the function that clears it, and the error
    is returned.  What is not freed is not tracked. *)
Definition p2p_error {A} (clear : A → res A) (d : A) (e : errno) : res A := _ ← clear d; Err e.

Section parsers.
(** The contents of fresh memory. *)
Variable fresh : nat → Z.
Variables (pdu : ptr) (len : Z).

(** The attributes of a message that has no other part. *)
Definition p2p_parse_whole {A} (pdu : ptr) (len : Z) (entries : list p2p_attr_entry) (d : p2p_values → A)
    (clear : A → res A) : res A :=
  '(r, v) ← p2p_parse_attrs fresh pdu len entries;
  match r with None => Ok (d v) | Some e => p2p_error clear (d v) e end.

Definition p2p_parse_beacon : res p2p_beacon :=
  p2p_parse_whole pdu len
    [P2P_REQUIRED P2P_ATTR_P2P_CAPABILITY; P2P_REQUIRED P2P_ATTR_P2P_DEVICE_ID; P2P_OPTIONAL P2P_ATTR_NOTICE_OF_ABSENCE]
    d_beacon p2p_clear_beacon.

Definition p2p_parse_probe_req : res p2p_probe_req :=
  p2p_parse_whole pdu len
    [P2P_REQUIRED P2P_ATTR_P2P_CAPABILITY; P2P_OPTIONAL P2P_ATTR_P2P_DEVICE_ID; P2P_OPTIONAL P2P_ATTR_LISTEN_CHANNEL;
     P2P_OPTIONAL P2P_ATTR_EXTENDED_LISTEN_TIMING; P2P_OPTIONAL P2P_ATTR_P2P_DEVICE_INFO;
     P2P_OPTIONAL P2P_ATTR_OPERATING_CHANNEL; P2P_OPTIONAL P2P_ATTR_SVC_HASH]
    d_probe_req p2p_clear_probe_req.

Definition p2p_parse_probe_resp : res p2p_probe_resp :=
  p2p_parse_whole pdu len
    [P2P_REQUIRED P2P_ATTR_P2P_CAPABILITY; P2P_OPTIONAL P2P_ATTR_EXTENDED_LISTEN_TIMING;
     P2P_OPTIONAL P2P_ATTR_NOTICE_OF_ABSENCE; P2P_REQUIRED P2P_ATTR_P2P_DEVICE_INFO;
     P2P_OPTIONAL P2P_ATTR_P2P_GROUP_INFO; P2P_OPTIONAL P2P_ATTR_ADVERTISED_SVC_INFO]
    d_probe_resp p2p_clear_probe_resp.

Definition p2p_parse_association_req : res p2p_association_req :=
  p2p_parse_whole pdu len
    [P2P_REQUIRED P2P_ATTR_P2P_CAPABILITY; P2P_OPTIONAL P2P_ATTR_EXTENDED_LISTEN_TIMING;
     P2P_OPTIONAL P2P_ATTR_P2P_DEVICE_INFO; P2P_OPTIONAL P2P_ATTR_P2P_INTERFACE]
    d_association_req p2p_clear_association_req.

(** Nothing is allocated, and nothing freed. *)
Definition p2p_parse_association_resp : res p2p_association_resp :=
  p2p_parse_whole pdu len [P2P_OPTIONAL P2P_ATTR_STATUS; P2P_OPTIONAL P2P_ATTR_EXTENDED_LISTEN_TIMING]
    d_association_resp Ok.

(** The P2P IE is optional. *)
Definition p2p_parse_deauthentication : res p2p_deauthentication :=
  '(r, v) ← p2p_parse_attrs fresh pdu len [P2P_REQUIRED P2P_ATTR_MINOR_REASON_CODE];
  match r with
  | None | Some ENOENT => Ok (mk_p2p_deauthentication (byte_of P2P_ATTR_MINOR_REASON_CODE v))
  | Some e => Err e
  end.

Definition p2p_parse_disassociation : res p2p_disassociation :=
  '(r, v) ← p2p_parse_attrs fresh pdu len [P2P_REQUIRED P2P_ATTR_MINOR_REASON_CODE];
  match r with
  | None | Some ENOENT => Ok (mk_p2p_disassociation (byte_of P2P_ATTR_MINOR_REASON_CODE v))
  | Some e => Err e
  end.

(** The dialog token in front of the elements of an action frame. *)
Definition dialog_token {A} (k : Z → res A) : res A :=
  if len <? 1 then Err EINVAL
  else token ← rd pdu 0; if token =? 0 then Err EINVAL else k token.

(** The elements behind it. *)
Let ies : ptr := pdu +! 1.
Let ies_len : Z := len - 1.

Definition parse_wfd : res wfd_ie :=
  '(data, size) ← ie_tlv_extract_wfd_payload fresh ies ies_len; Ok (mk_wfd data size).

(** The WSC IE and its attributes: an error, or what they hold. *)
Definition parse_wsc (entries : list attr_handler_entry) : res (errno + wsc_parsed) :=
  '(wsc_data, wsc_len) ← ie_tlv_extract_wsc_payload fresh ies ies_len;
  match wsc_data, wsc_len with
  | None, inl e => Ok (inl e)
  | Some wsc_data, inr wsc_len => try_call (wsc_parse_attrs wsc_data wsc_len false None entries)
  | _, _ => Fault
  end.

Definition p2p_parse_go_negotiation_req : res p2p_go_negotiation_req :=
  dialog_token (λ token,
    '(r, v) ← p2p_parse_attrs fresh ies ies_len
      [P2P_REQUIRED P2P_ATTR_P2P_CAPABILITY; P2P_REQUIRED P2P_ATTR_GO_INTENT; P2P_REQUIRED P2P_ATTR_CONFIGURATION_TIMEOUT;
       P2P_REQUIRED P2P_ATTR_LISTEN_CHANNEL; P2P_OPTIONAL P2P_ATTR_EXTENDED_LISTEN_TIMING;
       P2P_REQUIRED P2P_ATTR_INTENDED_P2P_INTERFACE_ADDR; P2P_REQUIRED P2P_ATTR_CHANNEL_LIST;
       P2P_REQUIRED P2P_ATTR_P2P_DEVICE_INFO; P2P_REQUIRED P2P_ATTR_OPERATING_CHANNEL];
    let error := p2p_error p2p_clear_go_negotiation_req (d_go_negotiation_req token v (mk_go_intent 0 false) 0 no_wfd) in
    match r with
    | Some e => error e
    | None =>
        r ← parse_wsc [REQUIRED WSC_ATTR_VERSION; REQUIRED WSC_ATTR_DEVICE_PASSWORD_ID];
        match r with
        | inl e => error e
        | inr p =>
            go_intent ← nonnull (intent_of v);
            w ← parse_wfd;
            Ok (d_go_negotiation_req token v go_intent (num_of WSC_ATTR_DEVICE_PASSWORD_ID (wp_values p)) w)
        end
    end).

Definition p2p_parse_go_negotiation_resp : res p2p_go_negotiation_resp :=
  dialog_token (λ token,
    '(r, v) ← p2p_parse_attrs fresh ies ies_len
      [P2P_REQUIRED P2P_ATTR_STATUS; P2P_REQUIRED P2P_ATTR_P2P_CAPABILITY; P2P_REQUIRED P2P_ATTR_GO_INTENT;
       P2P_REQUIRED P2P_ATTR_CONFIGURATION_TIMEOUT; P2P_OPTIONAL P2P_ATTR_OPERATING_CHANNEL;
       P2P_REQUIRED P2P_ATTR_INTENDED_P2P_INTERFACE_ADDR; P2P_REQUIRED P2P_ATTR_CHANNEL_LIST;
       P2P_REQUIRED P2P_ATTR_P2P_DEVICE_INFO; P2P_OPTIONAL P2P_ATTR_P2P_GROUP_ID];
    let error := p2p_error p2p_clear_go_negotiation_resp (d_go_negotiation_resp token v (mk_go_intent 0 false) 0 no_wfd) in
    match r with
    | Some e => error e
    | None =>
        r ← parse_wsc [REQUIRED WSC_ATTR_VERSION; REQUIRED WSC_ATTR_DEVICE_PASSWORD_ID];
        match r with
        | inl e => error e
        | inr p =>
            go_intent ← nonnull (intent_of v);
            w ← parse_wfd;
            Ok (d_go_negotiation_resp token v go_intent (num_of WSC_ATTR_DEVICE_PASSWORD_ID (wp_values p)) w)
        end
    end).

Definition p2p_parse_go_negotiation_confirmation : res p2p_go_negotiation_confirmation :=
  dialog_token (λ token,
    '(r, v) ← p2p_parse_attrs fresh ies ies_len
      [P2P_REQUIRED P2P_ATTR_STATUS; P2P_REQUIRED P2P_ATTR_P2P_CAPABILITY; P2P_REQUIRED P2P_ATTR_OPERATING_CHANNEL;
       P2P_REQUIRED P2P_ATTR_CHANNEL_LIST; P2P_OPTIONAL P2P_ATTR_P2P_GROUP_ID];
    match r with
    | Some e => p2p_error p2p_clear_go_negotiation_confirmation (d_go_negotiation_confirmation token v no_wfd) e
    | None => w ← parse_wfd; Ok (d_go_negotiation_confirmation token v w)
    end).

(** A WSC IE is optional; an error in it is not looked at. *)
Definition p2p_parse_invitation_req : res p2p_invitation_req :=
  dialog_token (λ token,
    '(r, v) ← p2p_parse_attrs fresh ies ies_len
      [P2P_REQUIRED P2P_ATTR_CONFIGURATION_TIMEOUT; P2P_REQUIRED P2P_ATTR_INVITATION_FLAGS;
       P2P_OPTIONAL P2P_ATTR_OPERATING_CHANNEL; P2P_OPTIONAL P2P_ATTR_P2P_GROUP_BSSID; P2P_REQUIRED P2P_ATTR_CHANNEL_LIST;
       P2P_REQUIRED P2P_ATTR_P2P_GROUP_ID; P2P_REQUIRED P2P_ATTR_P2P_DEVICE_INFO];
    match r with
    | Some e => p2p_error p2p_clear_invitation_req (d_invitation_req token v 0 no_wfd) e
    | None =>
        r ← parse_wsc [REQUIRED WSC_ATTR_DEVICE_PASSWORD_ID];
        match r with
        | inr p =>
            let id := num_of WSC_ATTR_DEVICE_PASSWORD_ID (wp_values p) in
            if negb (wp_version2 p) then p2p_error p2p_clear_invitation_req (d_invitation_req token v id no_wfd) EINVAL
            else w ← parse_wfd; Ok (d_invitation_req token v id w)
        | inl _ => w ← parse_wfd; Ok (d_invitation_req token v 0 w)
        end
    end).

Definition p2p_parse_invitation_resp : res p2p_invitation_resp :=
  dialog_token (λ token,
    '(r, v) ← p2p_parse_attrs fresh ies ies_len
      [P2P_REQUIRED P2P_ATTR_STATUS; P2P_REQUIRED P2P_ATTR_CONFIGURATION_TIMEOUT; P2P_OPTIONAL P2P_ATTR_OPERATING_CHANNEL;
       P2P_OPTIONAL P2P_ATTR_P2P_GROUP_BSSID; P2P_OPTIONAL P2P_ATTR_CHANNEL_LIST];
    match r with
    | Some e => p2p_error p2p_clear_invitation_resp (d_invitation_resp token v no_wfd) e
    | None => w ← parse_wfd; Ok (d_invitation_resp token v w)
    end).

Definition p2p_parse_device_disc_req : res p2p_device_discoverability_req :=
  dialog_token (λ token,
    p2p_parse_whole ies ies_len [P2P_REQUIRED P2P_ATTR_P2P_DEVICE_ID; P2P_REQUIRED P2P_ATTR_P2P_GROUP_ID]
      (d_device_discoverability_req token) Ok).

Definition p2p_parse_device_disc_resp : res p2p_device_discoverability_resp :=
  dialog_token (λ token,
    p2p_parse_whole ies ies_len [P2P_REQUIRED P2P_ATTR_STATUS] (d_device_discoverability_resp token) Ok).

(** A single method is to be set. *)
Definition p2p_parse_provision_disc_req : res p2p_provision_discovery_req :=
  dialog_token (λ token,
    '(r, v) ← p2p_parse_attrs fresh ies ies_len
      [P2P_REQUIRED P2P_ATTR_P2P_CAPABILITY; P2P_REQUIRED P2P_ATTR_P2P_DEVICE_INFO; P2P_OPTIONAL P2P_ATTR_P2P_GROUP_ID;
       P2P_OPTIONAL P2P_ATTR_INTENDED_P2P_INTERFACE_ADDR; P2P_OPTIONAL P2P_ATTR_STATUS;
       P2P_OPTIONAL P2P_ATTR_OPERATING_CHANNEL; P2P_OPTIONAL P2P_ATTR_CHANNEL_LIST;
       P2P_OPTIONAL P2P_ATTR_SESSION_INFO_DATA_INFO; P2P_OPTIONAL P2P_ATTR_CONNECTION_CAPABILITY_INFO;
       P2P_OPTIONAL P2P_ATTR_ADVERTISEMENT_ID_INFO; P2P_OPTIONAL P2P_ATTR_CONFIGURATION_TIMEOUT;
       P2P_OPTIONAL P2P_ATTR_LISTEN_CHANNEL; P2P_OPTIONAL P2P_ATTR_SESSION_ID_INFO;
       P2P_OPTIONAL P2P_ATTR_FEATURE_CAPABILITY; P2P_OPTIONAL P2P_ATTR_PERSISTENT_GROUP_INFO];
    let error method := p2p_error p2p_clear_provision_disc_req (d_provision_discovery_req token v method no_wfd) in
    match r with
    | Some e => error 0 e
    | None =>
        r ← parse_wsc [REQUIRED WSC_ATTR_CONFIGURATION_METHODS];
        match r with
        | inl e => error 0 e
        | inr p =>
            let method := num_of WSC_ATTR_CONFIGURATION_METHODS (wp_values p) in
            if negb (popcount method =? 1) then error method EINVAL
            else w ← parse_wfd; Ok (d_provision_discovery_req token v method w)
        end
    end).

(** The P2P IE is optional, but if it is present some attributes are required; the method is
    that of the request, or zero. *)
Definition p2p_parse_provision_disc_resp : res p2p_provision_discovery_resp :=
  dialog_token (λ token,
    '(r, v) ← p2p_parse_attrs fresh ies ies_len
      [P2P_REQUIRED P2P_ATTR_STATUS; P2P_REQUIRED P2P_ATTR_P2P_CAPABILITY; P2P_REQUIRED P2P_ATTR_P2P_DEVICE_INFO;
       P2P_OPTIONAL P2P_ATTR_P2P_GROUP_ID; P2P_OPTIONAL P2P_ATTR_INTENDED_P2P_INTERFACE_ADDR;
       P2P_OPTIONAL P2P_ATTR_OPERATING_CHANNEL; P2P_OPTIONAL P2P_ATTR_CHANNEL_LIST;
       P2P_OPTIONAL P2P_ATTR_CONNECTION_CAPABILITY_INFO; P2P_REQUIRED P2P_ATTR_ADVERTISEMENT_ID_INFO;
       P2P_OPTIONAL P2P_ATTR_CONFIGURATION_TIMEOUT; P2P_REQUIRED P2P_ATTR_SESSION_ID_INFO;
       P2P_REQUIRED P2P_ATTR_FEATURE_CAPABILITY; P2P_OPTIONAL P2P_ATTR_PERSISTENT_GROUP_INFO;
       P2P_REQUIRED P2P_ATTR_SESSION_INFO_DATA_INFO];
    let error method := p2p_error p2p_clear_provision_disc_resp (d_provision_discovery_resp token v method no_wfd) in
    match r with
    | None | Some ENOENT =>
        r ← parse_wsc [REQUIRED WSC_ATTR_CONFIGURATION_METHODS];
        match r with
        | inl e => error 0 e
        | inr p =>
            let method := num_of WSC_ATTR_CONFIGURATION_METHODS (wp_values p) in
            if 1 <? popcount method then error method EINVAL
            else w ← parse_wfd; Ok (d_provision_discovery_resp token v method w)
        end
    | Some e => error 0 e
    end).

(** The dialog token is not looked at. *)
Definition p2p_parse_notice_of_absence : res p2p_notice_of_absence :=
  if len <? 1 then Err EINVAL
  else p2p_parse_whole ies ies_len [P2P_REQUIRED P2P_ATTR_NOTICE_OF_ABSENCE] d_notice_of_absence p2p_clear_notice_of_absence.

Definition p2p_parse_presence_req : res p2p_presence_req :=
  dialog_token (λ token,
    p2p_parse_whole ies ies_len [P2P_REQUIRED P2P_ATTR_NOTICE_OF_ABSENCE] (d_presence_req token) p2p_clear_presence_req).

Definition p2p_parse_presence_resp : res p2p_presence_resp :=
  dialog_token (λ token,
    p2p_parse_whole ies ies_len [P2P_REQUIRED P2P_ATTR_STATUS; P2P_REQUIRED P2P_ATTR_NOTICE_OF_ABSENCE]
      (d_presence_resp token) p2p_clear_presence_resp).

Definition p2p_parse_go_disc_req : res unit :=
  if negb (len =? 1) then Err EINVAL
  else token ← rd pdu 0; if negb (token =? 0) then Err EINVAL else Ok tt.
End parsers.

(** ** The builders *)

Section builders.
(** The contents of fresh memory. *)
Variable junk : nat → Z.
(** Rounds of the loop of [p2p_build_group_info] that has no bound in the code. *)
Variable fuel : nat.

Local Abbreviation u8_attr := (p2p_build_u8_attr junk).
Local Abbreviation capability := (p2p_build_capability junk).
Local Abbreviation addr := (p2p_build_addr junk).
Local Abbreviation channel := (p2p_build_channel junk).
Local Abbreviation listen_timing := (p2p_build_extended_listen_timing junk).
Local Abbreviation channel_list := (p2p_build_channel_list junk).
Local Abbreviation absence := (p2p_build_notice_of_absence_attr junk).
Local Abbreviation device_info := (p2p_build_device_info junk).
Local Abbreviation group_id := (p2p_build_group_id junk).
Local Abbreviation config_timeout := (p2p_build_config_timeout junk).

Definition unless (c : bool) (m : sr p2p_attr_builder unit) : sr p2p_attr_builder unit := if c then pass else m.

(** What a builder with a given initial capacity writes. *)
Definition p2p_run (capacity : Z) (m : sr p2p_attr_builder unit) : res (list Z) :=
  '(tlv, _) ← (m;; p2p_attr_builder_free) (p2p_attr_builder_new junk capacity);
  Ok tlv.

Definition p2p_encapsulate (capacity : Z) (m : sr p2p_attr_builder unit) : res (list Z) :=
  tlv ← p2p_run capacity m;
  ie_tlv_encapsulate_p2p_payload junk tlv (zlen tlv).

Definition p2p_build_beacon (data : p2p_beacon) : res (list Z) :=
  p2p_encapsulate 512 (
    capability (pbc_capability data);;
    addr false P2P_ATTR_P2P_DEVICE_ID (pbc_device_addr data);;
    absence true (pbc_notice_of_absence data)).

Definition p2p_build_probe_req (data : p2p_probe_req) : res (list Z) :=
  p2p_encapsulate 512 (
    capability (ppq_capability data);;
    addr true P2P_ATTR_P2P_DEVICE_ID (ppq_device_addr data);;
    channel true P2P_ATTR_LISTEN_CHANNEL (ppq_listen_channel data);;
    listen_timing (ppq_listen_availability data);;
    device_info true (ppq_device_info data);;
    channel true P2P_ATTR_OPERATING_CHANNEL (ppq_operating_channel data);;
    p2p_build_svc_hash junk (ppq_service_hashes data)).

Definition p2p_build_probe_resp (data : p2p_probe_resp) : res (list Z) :=
  p2p_encapsulate 512 (
    capability (ppr_capability data);;
    listen_timing (ppr_listen_availability data);;
    absence true (ppr_notice_of_absence data);;
    device_info false (ppr_device_info data);;
    p2p_build_group_info junk fuel (ppr_group_clients data);;
    p2p_build_advertised_service_info junk (ppr_advertised_svcs data)).

Definition p2p_build_association_req (data : p2p_association_req) : res (list Z) :=
  p2p_encapsulate 512 (
    capability (paq_capability data);;
    listen_timing (paq_listen_availability data);;
    device_info true (paq_device_info data);;
    p2p_build_interface junk (paq_interface data)).

Definition status_success (status : Z) : bool :=
  (status =? P2P_STATUS_SUCCESS) || (status =? P2P_STATUS_SUCCESS_ACCEPTED_BY_USER).

Definition p2p_build_association_resp (data : p2p_association_resp) : res (list Z) :=
  p2p_encapsulate 32 (
    unless (status_success (par_status data)) (u8_attr P2P_ATTR_STATUS (par_status data));;
    listen_timing (par_listen_availability data)).

(** Without a reason there is no element. *)
Definition p2p_build_deauthentication (data : p2p_deauthentication) : res (list Z) :=
  if pda_minor_reason_code data =? 0 then Ok []
  else p2p_encapsulate 512 (u8_attr P2P_ATTR_MINOR_REASON_CODE (pda_minor_reason_code data)).

Definition p2p_build_disassociation (data : p2p_disassociation) : res (list Z) :=
  if pds_minor_reason_code data =? 0 then Ok []
  else p2p_encapsulate 512 (u8_attr P2P_ATTR_MINOR_REASON_CODE (pds_minor_reason_code data)).

(** [p2p_attrs] is a builder with its initial capacity; the frame is written into memory of its
    size. *)
Definition p2p_build_action_frame (public : bool) (frame_subtype token : Z)
    (p2p_attrs : option (Z * sr p2p_attr_builder unit)) (wsc_attrs : option wsc_p2p_attrs) (wfd : wfd_ie) : res (list Z) :=
  p2p_ie ← match p2p_attrs with Some (capacity, m) => p2p_encapsulate capacity m | None => Ok [] end;
  wsc_ie ← match wsc_attrs with
           | Some attrs =>
               payload ← wsc_build_p2p_attrs junk attrs;
               ie_tlv_encapsulate_wsc_payload junk payload (zlen payload)
           | None => Ok []
           end;
  wfd_ie ← match wfd_data wfd, wfd_size wfd with
           | Some data, inr size => rdn data size
           | Some _, inl _ => Fault
           | None, _ => Ok []
           end;
  let header := (if public then [0x04; 0x09] else [0x7f]) ++ wifi_alliance_oui ++ [0x09; u8 frame_subtype; u8 token] in
  let pos := if public then 8 else 7 in
  let ret := l_malloc junk (pos + zlen p2p_ie + zlen wsc_ie + zlen wfd_ie) in
  ret ← put ret 0 header;
  ret ← put ret pos p2p_ie;
  ret ← put ret (pos + zlen p2p_ie) wsc_ie;
  put ret (pos + zlen p2p_ie + zlen wsc_ie) wfd_ie.

Definition p2p_build_go_negotiation_req (data : p2p_go_negotiation_req) : res (list Z) :=
  p2p_build_action_frame true P2P_ACTION_GO_NEGOTIATION_REQ (gnq_dialog_token data)
    (Some (512,
      capability (gnq_capability data);;
      p2p_build_go_intent junk (gnq_go_intent data) (gnq_go_tie_breaker data);;
      config_timeout false (gnq_config_timeout data);;
      channel true P2P_ATTR_LISTEN_CHANNEL (gnq_listen_channel data);;
      listen_timing (gnq_listen_availability data);;
      addr false P2P_ATTR_INTENDED_P2P_INTERFACE_ADDR (gnq_intended_interface_addr data);;
      channel_list false (gnq_channel_list data);;
      device_info false (gnq_device_info data);;
      channel true P2P_ATTR_OPERATING_CHANNEL (gnq_operating_channel data)))
    (Some (mk_wsc_p2p_attrs true false (gnq_device_password_id data) 0)) (gnq_wfd data).

Definition p2p_build_go_negotiation_resp (data : p2p_go_negotiation_resp) : res (list Z) :=
  p2p_build_action_frame true P2P_ACTION_GO_NEGOTIATION_RESP (gnr_dialog_token data)
    (Some (512,
      u8_attr P2P_ATTR_STATUS (gnr_status data);;
      capability (gnr_capability data);;
      p2p_build_go_intent junk (gnr_go_intent data) (gnr_go_tie_breaker data);;
      config_timeout false (gnr_config_timeout data);;
      channel true P2P_ATTR_OPERATING_CHANNEL (gnr_operating_channel data);;
      addr false P2P_ATTR_INTENDED_P2P_INTERFACE_ADDR (gnr_intended_interface_addr data);;
      channel_list false (gnr_channel_list data);;
      device_info false (gnr_device_info data);;
      group_id true P2P_ATTR_P2P_GROUP_ID (gnr_group_id data)))
    (Some (mk_wsc_p2p_attrs true false (gnr_device_password_id data) 0)) (gnr_wfd data).

Definition p2p_build_go_negotiation_confirmation (data : p2p_go_negotiation_confirmation) : res (list Z) :=
  p2p_build_action_frame true P2P_ACTION_GO_NEGOTIATION_CONFIRM (gnc_dialog_token data)
    (Some (512,
      u8_attr P2P_ATTR_STATUS (gnc_status data);;
      capability (gnc_capability data);;
      channel false P2P_ATTR_OPERATING_CHANNEL (gnc_operating_channel data);;
      channel_list false (gnc_channel_list data);;
      group_id true P2P_ATTR_P2P_GROUP_ID (gnc_group_id data)))
    None (gnc_wfd data).

Definition p2p_build_invitation_req (data : p2p_invitation_req) : res (list Z) :=
  p2p_build_action_frame true P2P_ACTION_INVITATION_REQ (inq_dialog_token data)
    (Some (512,
      config_timeout false (inq_config_timeout data);;
      u8_attr P2P_ATTR_INVITATION_FLAGS (if inq_reinvoke_persistent_group data then 1 else 0);;
      channel true P2P_ATTR_OPERATING_CHANNEL (inq_operating_channel data);;
      addr true P2P_ATTR_P2P_GROUP_BSSID (inq_group_bssid data);;
      channel_list false (inq_channel_list data);;
      group_id false P2P_ATTR_P2P_GROUP_ID (inq_group_id data);;
      device_info false (inq_device_info data)))
    (if inq_device_password_id data =? 0 then None else Some (mk_wsc_p2p_attrs false true (inq_device_password_id data) 0))
    (inq_wfd data).

Definition p2p_build_invitation_resp (data : p2p_invitation_resp) : res (list Z) :=
  p2p_build_action_frame true P2P_ACTION_INVITATION_RESP (inr_dialog_token data)
    (Some (512,
      u8_attr P2P_ATTR_STATUS (inr_status data);;
      config_timeout false (inr_config_timeout data);;
      unless (negb (status_success (inr_status data))) (
        channel false P2P_ATTR_OPERATING_CHANNEL (inr_operating_channel data);;
        addr false P2P_ATTR_P2P_GROUP_BSSID (inr_group_bssid data);;
        channel_list false (inr_channel_list data))))
    None (inr_wfd data).

Definition p2p_build_device_disc_req (data : p2p_device_discoverability_req) : res (list Z) :=
  p2p_build_action_frame true P2P_ACTION_DEVICE_DISCOVERABILITY_REQ (ddq_dialog_token data)
    (Some (64,
      addr false P2P_ATTR_P2P_DEVICE_ID (ddq_device_addr data);;
      group_id false P2P_ATTR_P2P_GROUP_ID (ddq_group_id data)))
    None no_wfd.

Definition p2p_build_device_disc_resp (data : p2p_device_discoverability_resp) : res (list Z) :=
  p2p_build_action_frame true P2P_ACTION_DEVICE_DISCOVERABILITY_RESP (ddr_dialog_token data)
    (Some (16, u8_attr P2P_ATTR_STATUS (ddr_status data)))
    None no_wfd.

(** An attribute that is left out when its value is zero. *)
Definition nonzero_attr (type value : Z) : sr p2p_attr_builder unit := unless (value =? 0) (u8_attr type value).

Definition p2p_build_provision_disc_req (data : p2p_provision_discovery_req) : res (list Z) :=
  p2p_build_action_frame true P2P_ACTION_PROVISION_DISCOVERY_REQ (pdq_dialog_token data)
    (Some (512,
      capability (pdq_capability data);;
      device_info false (pdq_device_info data);;
      group_id true P2P_ATTR_P2P_GROUP_ID (pdq_group_id data);;
      addr true P2P_ATTR_INTENDED_P2P_INTERFACE_ADDR (pdq_intended_interface_addr data);;
      match pdq_status data with Some status => u8_attr P2P_ATTR_STATUS status | None => pass end;;
      channel true P2P_ATTR_OPERATING_CHANNEL (pdq_operating_channel data);;
      channel_list true (pdq_channel_list data);;
      p2p_build_session_data junk (pdq_session_info data);;
      nonzero_attr P2P_ATTR_CONNECTION_CAPABILITY_INFO (pdq_connection_capability data);;
      p2p_build_advertisement_id junk true (pdq_advertisement_id data);;
      config_timeout true (pdq_config_timeout data);;
      channel true P2P_ATTR_LISTEN_CHANNEL (pdq_listen_channel data);;
      p2p_build_session_id junk true (pdq_session_id data);;
      p2p_build_feature_capability junk true (pdq_transport_protocol data);;
      group_id true P2P_ATTR_PERSISTENT_GROUP_INFO (pdq_persistent_group_info data)))
    (Some (mk_wsc_p2p_attrs false false 0 (pdq_wsc_config_method data))) (pdq_wfd data).

Definition p2p_build_provision_disc_resp (data : p2p_provision_discovery_resp) : res (list Z) :=
  p2p_build_action_frame true P2P_ACTION_PROVISION_DISCOVERY_RESP (pdr_dialog_token data)
    (match pdr_status data with
     | None => None
     | Some status => Some (512,
         u8_attr P2P_ATTR_STATUS status;;
         capability (pdr_capability data);;
         device_info false (pdr_device_info data);;
         group_id true P2P_ATTR_P2P_GROUP_ID (pdr_group_id data);;
         addr true P2P_ATTR_INTENDED_P2P_INTERFACE_ADDR (pdr_intended_interface_addr data);;
         channel true P2P_ATTR_OPERATING_CHANNEL (pdr_operating_channel data);;
         channel_list true (pdr_channel_list data);;
         nonzero_attr P2P_ATTR_CONNECTION_CAPABILITY_INFO (pdr_connection_capability data);;
         p2p_build_advertisement_id junk false (pdr_advertisement_id data);;
         config_timeout true (pdr_config_timeout data);;
         p2p_build_session_id junk false (pdr_session_id data);;
         p2p_build_feature_capability junk false (pdr_transport_protocol data);;
         group_id true P2P_ATTR_PERSISTENT_GROUP_INFO (pdr_persistent_group_info data);;
         p2p_build_session_data junk (pdr_session_info data))
     end)
    (Some (mk_wsc_p2p_attrs false false 0 (pdr_wsc_config_method data))) (pdr_wfd data).

Definition p2p_build_notice_of_absence (data : p2p_notice_of_absence) : res (list Z) :=
  p2p_build_action_frame false P2P_ACTION_NOTICE_OF_ABSENCE 0
    (Some (128, absence false (noa_notice_of_absence data))) None no_wfd.

(** The dialog tokens of the structures are not used. *)
Definition p2p_build_presence_req (data : p2p_presence_req) : res (list Z) :=
  p2p_build_action_frame false P2P_ACTION_PRESENCE_REQ 0
    (Some (128, absence false (psq_notice_of_absence data))) None no_wfd.

Definition p2p_build_presence_resp (data : p2p_presence_resp) : res (list Z) :=
  p2p_build_action_frame false P2P_ACTION_PRESENCE_RESP 0
    (Some (128, u8_attr P2P_ATTR_STATUS (psr_status data);; absence false (psr_notice_of_absence data))) None no_wfd.

Definition p2p_build_go_disc_req : res (list Z) :=
  p2p_build_action_frame false P2P_ACTION_GO_DISCOVERABILITY_REQ 0 None None no_wfd.
End builders.

(** ** Random strings *)

(** Upper case letters, lower case letters and digits. *)
Definition CHARSET : list Z := seqZ 65 26 ++ seqZ 97 26 ++ seqZ 48 10.

(** The random bytes as [char]s, which are signed or not, as the platform has it; the remainder
    has the sign of the dividend. *)
Definition random_char (char_signed : bool) (b : Z) : res Z :=
  let c := if char_signed && (128 <=? b) then b - 256 else b in
  rd CHARSET (Z.rem c (zlen CHARSET)).
Fixpoint p2p_get_random_string (char_signed : bool) (random : list Z) : res (list Z) :=
  match random with
  | [] => Ok []
  | b :: random => c ← random_char char_signed b; s ← p2p_get_random_string char_signed random; Ok (c :: s)
  end.
