(* ===== verification/P2pSafe.v ===== *)
(** * Wi-Fi Direct: safety of the parsers (src/p2putil.c)

    What the parsers of src/p2putil.c do on arbitrary bytes: the decoders, the iterator and the
    parser read only the message, their loops end, and no queue is used or freed after it has been
    freed, with the exceptions that are stated.  Leaks are not represented. *)

From stdpp Require Import base numbers list option.
From Stdlib Require Import ZArith Lia.
From S2P Require Import Prelude StRes IeTlv IeMisc Crypto Handshake EapolFrame Mschap Wsc WscMsg WscSafe P2p P2pMsg.

Open Scope Z_scope.

(** ** Decoders *)

Definition live {A} (q : l_queue A) : Prop := match q with QFreed => False | _ => True end.

(** The queues of a value can be freed. *)
Definition live_value (v : p2p_value) : Prop :=
  match v with
  | PChannels c => live (cl_channel_entries c)
  | PAbsence a => live (na_descriptors a)
  | PDevice d => live (di_secondary_device_types d)
  | PClients q =>
      match q with
      | QNull => True
      | Queue l => Forall (λ c, live (ci_secondary_device_types c)) l
      | QFreed => False
      end
  | PInterface i => live (if_interface_addrs i)
  | PHashes q => live q
  | PServices q => live q
  | _ => True
  end.

Definition live_result (r : handled) : Prop := match r.2 with Some v => live_value v | None => True end.

(** The decoder reads only the attribute, and leaves nothing that is freed. *)
Definition p2p_decoder_safe (h : ptr → Z → res handled) : Prop :=
  ∀ attr len, bytes_ok attr → 0 ≤ len ≤ zlen attr → safe live_result (h attr len).

Lemma safe_be16 p : bytes_ok p → 2 ≤ zlen p → safe (λ v, 0 ≤ v < 65536) (l_get_be16 p).
Proof. intros Hb Hl. destruct (l_get_be16_in p Hb Hl) as (v & -> & Hv). exact Hv. Qed.

Lemma safe_le32 p : bytes_ok p → 4 ≤ zlen p → safe (λ _, True) (l_get_le32 p).
Proof. intros Hb Hl. unfold l_get_le32. by repeat safe_step. Qed.

Lemma safe_refuse : safe live_result refuse.
Proof. done. Qed.
Lemma safe_store v : live_value v → safe live_result (store v).
Proof. done. Qed.

Ltac p2p_step :=
  match goal with
  | |- safe live_result refuse => exact safe_refuse
  | |- safe live_result (store _) => apply safe_store; exact I
  | |- safe _ (l_get_be16 _ ≫= _) =>
      eapply safe_bind; [apply safe_be16; [auto with iwd | zlia] | let H := fresh "Hv" in intros ? H; cbv beta in H]
  | |- safe _ (l_get_le32 _ ≫= _) => eapply safe_bind; [apply safe_le32; [auto with iwd | zlia] | intros ? _]
  | |- safe _ (if negb (?a =? ?b) then _ else _) => destruct (Z.eqb_spec a b); cbn [negb]
  | |- safe _ (if ?a <? ?b then _ else _) => destruct (Z.ltb_spec a b)
  | |- safe _ (if ?b then _ else _) => destruct b eqn:?
  | |- _ => safe_step
  end.

Lemma small_decoders_safe :
  Forall p2p_decoder_safe
    [extract_p2p_byte; extract_p2p_status; extract_p2p_capability; extract_p2p_addr; extract_p2p_go_intent;
     extract_p2p_config_timeout; extract_p2p_channel; extract_p2p_listen_timing; extract_p2p_group_id;
     extract_p2p_invitation_flags; extract_p2p_advertisement_id; extract_p2p_session_id; extract_p2p_feature_capability].
Proof.
  repeat apply Forall_cons_2; [..| apply Forall_nil_2]; intros attr len Hb Hl.
  all: lazymatch goal with |- safe _ (?h _ _) => unfold h end.
  all: cbv zeta; repeat p2p_step.
Qed.

Lemma channel_entries_loop_safe fuel attr len acc :
  bytes_ok attr → 0 ≤ len ≤ zlen attr → len ≤ Z.of_nat fuel → safe (λ _, True) (channel_entries_loop fuel attr len acc).
Proof.
  revert attr len acc. induction fuel as [|fuel IH]; intros attr len acc Hb Hl Hf; cbn [channel_entries_loop].
  { destruct (Z.eqb_spec len 0); [done | lia]. }
  destruct (Z.eqb_spec len 0); [done |]. destruct (Z.ltb_spec len 2); [done |]. safe_step. unfold byte_ok in Hv.
  destruct (Z.ltb_spec len (2 + a)); [done |]. do 2 safe_step.
  apply IH; [auto with iwd | zlia | lia].
Qed.

Lemma extract_p2p_channel_list_safe : p2p_decoder_safe extract_p2p_channel_list.
Proof.
  intros attr len Hb Hl. unfold extract_p2p_channel_list. p2p_step; [apply safe_refuse |]. safe_step.
  eapply safe_bind; [apply channel_entries_loop_safe; [auto with iwd | zlia | lia] |]. by intros [l|] _.
Qed.

Lemma absence_loop_safe fuel attr len acc :
  bytes_ok attr → 0 ≤ len ≤ zlen attr → len mod 13 = 0 → len ≤ Z.of_nat fuel →
  safe (λ _, True) (absence_loop fuel attr len acc).
Proof.
  revert attr len acc. induction fuel as [|fuel IH]; intros attr len acc Hb Hl Hm Hf; cbn [absence_loop].
  { destruct (Z.eqb_spec len 0); [done | lia]. }
  destruct (Z.eqb_spec len 0); [done |]. assert (13 ≤ len) by (Z.to_euclidean_division_equations; lia).
  repeat p2p_step. apply IH; [auto with iwd | zlia | | lia].
  rewrite <- Hm. replace len with (len - 13 + 1 * 13) at 2 by lia. by rewrite Z.mod_add by lia.
Qed.

Lemma extract_p2p_notice_of_absence_safe : p2p_decoder_safe extract_p2p_notice_of_absence.
Proof.
  intros attr len Hb Hl. unfold extract_p2p_notice_of_absence. p2p_step; [| apply safe_refuse].
  assert (2 ≤ len) by (Z.to_euclidean_division_equations; lia). do 2 safe_step. cbv zeta. p2p_step; [apply safe_refuse |].
  eapply safe_bind; [apply absence_loop_safe; [auto with iwd | zlia | | lia] | done].
  Z.to_euclidean_division_equations; lia.
Qed.

Lemma wsc_parse_primary_device_type_safe p :
  bytes_ok p → 8 ≤ zlen p → safe (λ _, True) (wsc_parse_primary_device_type p 8).
Proof.
  intros Hb Hl. unfold wsc_parse_primary_device_type. change (negb (8 =? 8)) with false. cbv iota.
  p2p_step. case_match; [done |]. repeat p2p_step. done.
Qed.

Lemma device_types_loop_safe n attr acc :
  bytes_ok attr → 8 * Z.of_nat n ≤ zlen attr → safe (λ _, True) (device_types_loop n attr acc).
Proof.
  revert attr acc. induction n as [|n IH]; intros attr acc Hb Hl; cbn [device_types_loop]; [done |].
  eapply safe_bind; [apply wsc_parse_primary_device_type_safe; [done | lia] |]. intros [t|] _; [| done].
  apply IH; [auto with iwd | zlia].
Qed.

Lemma extract_p2p_device_info_safe : p2p_decoder_safe extract_p2p_device_info.
Proof.
  intros attr len Hb Hl. unfold extract_p2p_device_info. p2p_step; [apply safe_refuse |]. do 2 p2p_step.
  eapply safe_bind; [apply wsc_parse_primary_device_type_safe; [auto with iwd | zlia] |]. intros [t|] _; [| apply safe_refuse].
  safe_step. unfold byte_ok in *. p2p_step; [apply safe_refuse |]. p2p_step. p2p_step; [| apply safe_refuse]. p2p_step.
  destruct (Z.ltb_spec len (17 + a1 * 8 + 4 + a3)), (Z.ltb_spec 32 a3); cbn [orb]; try apply safe_refuse.
  eapply safe_bind; [apply device_types_loop_safe; [auto with iwd | zlia] |]. intros [ts|] _; [| apply safe_refuse].
  repeat p2p_step.
Qed.

Lemma six_bytes_loop_safe n attr acc :
  bytes_ok attr → 6 * Z.of_nat n ≤ zlen attr → safe (λ _, True) (six_bytes_loop n attr acc).
Proof.
  revert attr acc. induction n as [|n IH]; intros attr acc Hb Hl; cbn [six_bytes_loop]; [done |].
  safe_step. apply IH; [auto with iwd | zlia].
Qed.

Lemma extract_p2p_interface_safe : p2p_decoder_safe extract_p2p_interface.
Proof.
  intros attr len Hb Hl. unfold extract_p2p_interface. p2p_step; [apply safe_refuse |]. safe_step. unfold byte_ok in *.
  p2p_step; [apply safe_refuse |]. safe_step.
  eapply safe_bind; [apply six_bytes_loop_safe; [auto with iwd | zlia] | done].
Qed.

Lemma extract_p2p_service_hashes_safe : p2p_decoder_safe extract_p2p_service_hashes.
Proof.
  intros attr len Hb Hl. unfold extract_p2p_service_hashes. p2p_step; [| apply safe_refuse].
  eapply safe_bind; [apply six_bytes_loop_safe; [done | Z.to_euclidean_division_equations; lia] | done].
Qed.

Lemma l_utf8_validate_safe str len : 0 ≤ len ≤ zlen str → safe (λ _, True) (l_utf8_validate str len).
Proof.
  intros Hl. unfold l_utf8_validate. eapply safe_bind; [| done].
  apply returns_safe, utf8_validate_loop_safe; lia.
Qed.

(** The decoder of services reads only the attribute. *)
Lemma services_loop_safe fuel attr len out :
  bytes_ok attr → 0 ≤ len ≤ zlen attr → len ≤ Z.of_nat fuel → live out →
  safe (λ r, live r.2) (services_loop fuel attr len out).
Proof.
  revert attr len out. induction fuel as [|fuel IH]; intros attr len out Hb Hl Hf Ho; cbn [services_loop].
  { destruct (Z.eqb_spec len 0); [done | lia]. }
  destruct (Z.eqb_spec len 0); [done |]. destruct (Z.ltb_spec len 7); [done |]. safe_step. unfold byte_ok in Hv.
  destruct (Z.ltb_spec len (7 + a)); [done |].
  eapply safe_bind; [apply l_utf8_validate_safe; zlia |]. intros [|] _; cbn [negb]; [| done].
  repeat p2p_step. apply IH; [auto with iwd | zlia | lia | by destruct out].
Qed.

Lemma extract_p2p_advertised_service_info_returns attr len :
  bytes_ok attr → 0 ≤ len ≤ zlen attr → returns (extract_p2p_advertised_service_info attr len).
Proof.
  intros Hb Hl. unfold extract_p2p_advertised_service_info. eapply safe_returns with (P := λ _, True).
  eapply safe_bind; [apply services_loop_safe; [done | done | lia | done] |]. by intros [[|] q] _.
Qed.

(** The attributes whose decoder reads only them and leaves nothing freed: all but the group
    info, the session information and the advertised services. *)
Definition safe_attr (type : Z) : bool :=
  negb (type =? P2P_ATTR_P2P_GROUP_INFO) && negb (type =? P2P_ATTR_SESSION_INFO_DATA_INFO) &&
  negb (type =? P2P_ATTR_ADVERTISED_SVC_INFO).

Lemma p2p_handler_for_type_safe type h :
  p2p_handler_for_type type = Some h → safe_attr type = true → p2p_decoder_safe h.
Proof.
  pose proof small_decoders_safe as Hs. repeat (apply list.Forall_cons in Hs as [? Hs]).
  unfold p2p_handler_for_type, safe_attr. intros Hh Hok.
  repeat match type of Hh with (if ?b then _ else _) = _ => destruct b eqn:?; [injection Hh as <-; try assumption |] end; try done.
  all: first [apply extract_p2p_channel_list_safe | apply extract_p2p_notice_of_absence_safe | apply extract_p2p_device_info_safe
    | apply extract_p2p_interface_safe | apply extract_p2p_service_hashes_safe | idtac].
  all: exfalso; lia.
Qed.

(** ** The iterator *)

(** Where the next attribute starts. *)
Definition next_pos (it : p2p_attr_iter) : Z :=
  match pi_type it with None => pi_pos it | Some _ => pi_pos it + (3 + pi_len it) end.

(** The iterator, and the attribute it is at, are inside of the payload. *)
Record p2p_iter_ok (pdu : ptr) (it : p2p_attr_iter) : Prop := {
  po_pdu : pi_pdu it = pdu;
  po_end : pi_end it = zlen pdu;
  po_pos : 0 ≤ pi_pos it;
  po_len : 0 ≤ pi_len it;
  po_next : next_pos it ≤ zlen pdu;
}.

Lemma p2p_attr_iter_init_ok pdu : p2p_iter_ok pdu (p2p_attr_iter_init pdu (zlen pdu)).
Proof. split; cbn; try done; apply zlen_nonneg. Qed.

Lemma p2p_attr_iter_next_safe pdu it :
  bytes_ok pdu → p2p_iter_ok pdu it →
  safe (λ r, r.2 = true → p2p_iter_ok pdu r.1 ∧ pi_pos r.1 = next_pos it ∧ is_Some (pi_type r.1)) (p2p_attr_iter_next it).
Proof.
  intros Hb [Hp He Hpos Hl Hn]. unfold p2p_attr_iter_next. fold (next_pos it). rewrite Hp, He.
  assert (0 ≤ next_pos it) by (unfold next_pos; case_match; lia).
  destruct (Z.ltb_spec (zlen pdu) (next_pos it + 3)); [by apply safe_Ok |].
  safe_step. destruct (Z.ltb_spec (zlen pdu) (next_pos it + 3 + a)); [by apply safe_Ok |].
  safe_step. apply safe_Ok. intros _. cbn. split; [| done]. split; cbn; try done; unfold next_pos in *; cbn; lia.
Qed.

(** An attribute of the type is visited by a loop over the iterator. *)
Inductive p2p_visits (t : Z) : p2p_attr_iter → Prop :=
  | visits_here it it' : p2p_attr_iter_next it = Ok (it', true) → pi_type it' = Some t → p2p_visits t it
  | visits_later it it' : p2p_attr_iter_next it = Ok (it', true) → p2p_visits t it' → p2p_visits t it.

(** ** The parser *)

Lemma mark_present_Some t es es' : mark_present t es = Some es' → ∃ e, e ∈ es ∧ pe_type e = t.
Proof.
  revert es'. induction es as [|e es IH]; intros es'; cbn [mark_present]; [done |].
  destruct (Z.eqb_spec t (pe_type e)) as [->|].
  - intros _. exists e. split; [left | done].
  - destruct (mark_present t es) as [es1|]; [| done]. intros _. destruct (IH es1 eq_refl) as (e' & He & Ht).
    exists e'. split; [by right | done].
Qed.

Lemma mark_present_types t es es' : mark_present t es = Some es' → pe_type <$> es' = pe_type <$> es.
Proof.
  revert es'. induction es as [|e es IH]; intros es'; cbn [mark_present]; [done |].
  destruct (Z.eqb_spec t (pe_type e)).
  - destruct (pe_present e); [done |]. by intros [= <-].
  - destruct (mark_present t es) as [es1|]; [| done]. intros [= <-]. cbn. by rewrite (IH es1).
Qed.

Definition live_values (vs : p2p_values) : Prop := Forall (λ tv, live_value tv.2) vs.

(** Every type of a table has a decoder. *)
Definition table_handled (ts : list Z) : Prop := Forall (λ t, is_Some (p2p_handler_for_type t)) ts.

Lemma p2p_attrs_loop_safe pdu fuel it es vs :
  bytes_ok pdu → p2p_iter_ok pdu it → zlen pdu - next_pos it < Z.of_nat fuel →
  table_handled (pe_type <$> es) → (∀ t, p2p_visits t it → t ∈ pe_type <$> es → safe_attr t = true) → live_values vs →
  safe (λ r, live_values r.2) (p2p_attrs_loop fuel it es vs).
Proof.
  intros Hb. revert it es vs. induction fuel as [|fuel IH]; intros it es vs Hit Hf Hes Hv Hvs.
  { pose proof (po_next _ _ Hit). lia. }
  cbn [p2p_attrs_loop]. pose proof (p2p_attr_iter_next_safe pdu it Hb Hit) as Hs.
  destruct (p2p_attr_iter_next it) as [[it' more]| | |] eqn:En; try done. rewrite bind_ok. cbn in Hs. cbv beta iota.
  destruct (pi_type it') as [t|] eqn:Et; [| done]. destruct more; [| done]. destruct (Hs eq_refl) as (Hok & Hpos & _).
  destruct (mark_present t es) as [es'|] eqn:Em; [| done].
  destruct (mark_present_Some _ _ _ Em) as (e & He & Hte).
  assert (Hin : t ∈ pe_type <$> es) by (apply list_elem_of_fmap; eauto).
  pose proof (proj1 (Forall_forall _ _) Hes t (proj1 (list_elem_of_In _ _) Hin)) as [h Hh]. rewrite Hh. cbn [nonnull]. rewrite bind_ok.
  assert (Hnp : next_pos it' = pi_pos it' + (3 + pi_len it')) by (unfold next_pos; by rewrite Et).
  pose proof (po_next _ _ Hok) as Hnx. pose proof (po_len _ _ Hok). pose proof (po_pos _ _ Hok).
  eapply safe_bind.
  { apply (p2p_handler_for_type_safe t h Hh); [apply Hv; [by econstructor | done] | |].
    - unfold p2p_attr_iter_get_data. rewrite (po_pdu _ _ Hok). auto with iwd.
    - unfold p2p_attr_iter_get_data. rewrite (po_pdu _ _ Hok). zlia. }
  intros [ok v] Hl. assert (Hvs' : live_values (vs ++ left_behind t v)).
  { apply Forall_app_2; [done |]. destruct v as [v|]; [| apply Forall_nil_2]. by apply list.Forall_singleton. }
  cbv zeta. destruct ok; [| done]. apply IH; [done | lia | by rewrite (mark_present_types _ _ _ Em) | | done].
  intros t' Hvis. rewrite (mark_present_types _ _ _ Em). apply Hv. by econstructor 2.
Qed.

(** The payload of the P2P elements of a frame, and the attributes in it. *)
Lemma vendor_concat_bytes_ok oui type es : Forall elem_ok es → bytes_ok (vendor_concat oui type es).
Proof.
  induction 1 as [|e es He _ IH]; [apply Forall_nil_2 |]. rewrite vendor_concat_cons. apply Forall_app_2; [| done].
  case_decide; [| apply Forall_nil_2]. destruct e as [t d], He as [Hd _]. auto with iwd.
Qed.

Definition extracted (bs : list Z) (empty_ok : bool) (r : option (list Z) * (errno + Z)) : Prop :=
  match r with
  | (Some d, inr n) => n = zlen d ∧ bytes_ok d ∧ zlen d ≤ zlen bs
  | (None, inr n) => n = 0 ∧ empty_ok = true
  | (None, inl e) => e = ENOENT
  | (Some _, inl _) => False
  end.

Lemma vendor_ie_concat_safe fresh oui type bs empty_ok :
  zlen oui = 3 → bytes_ok bs → zlen bs < 2 ^ 31 →
  ∃ r, ie_tlv_vendor_ie_concat fresh oui type bs (zlen bs) empty_ok = Ok r ∧ extracted bs empty_ok r.
Proof.
  intros Ho Hb Hz. destruct (elements_total bs Hb) as (es & rest & Hes).
  pose proof (vendor_ie_concat_elements fresh oui type bs es rest [] empty_ok Ho Hes Hb ltac:(lia)) as E.
  rewrite app_nil_r in E. eexists. split; [exact E |]. unfold vendor_concat_result. case_decide; cbn.
  - by destruct (bool_decide _), empty_ok.
  - split_and!; [done | eapply vendor_concat_bytes_ok, elements_of_ok; eassumption |].
    pose proof (vendor_concat_length oui type es). rewrite (elements_concat _ _ _ Hes), zlen_app.
    znn. lia.
Qed.

Definition frame_attr (fresh : nat → Z) (ies : ptr) (t : Z) : Prop :=
  ∃ data n, ie_tlv_extract_p2p_payload fresh ies (zlen ies) = Ok (Some data, inr n) ∧ p2p_visits t (p2p_attr_iter_init data n).

(** The table and the frame have no attribute in common whose decoder is not safe. *)
Definition frame_safe (fresh : nat → Z) (ies : ptr) (entries : list p2p_attr_entry) : Prop :=
  ∀ t, frame_attr fresh ies t → t ∈ pe_type <$> entries → safe_attr t = true.

Lemma p2p_parse_attrs_safe fresh ies entries :
  bytes_ok ies → zlen ies < 2 ^ 31 → table_handled (pe_type <$> entries) → frame_safe fresh ies entries →
  safe (λ r, live_values r.2) (p2p_parse_attrs fresh ies (zlen ies) entries).
Proof.
  intros Hb Hz Ht Hs. unfold p2p_parse_attrs.
  destruct (vendor_ie_concat_safe fresh wifi_alliance_oui 9 ies true eq_refl Hb Hz) as (r & E & Hr).
  fold (ie_tlv_extract_p2p_payload fresh ies (zlen ies)) in E. rewrite E, bind_ok.
  destruct r as [[d|] [e|n]]; cbn in Hr; try done; try (apply safe_Ok; apply Forall_nil_2).
  destruct Hr as (-> & Hd & Hl). eapply safe_bind.
  { apply (p2p_attrs_loop_safe d); [done | apply p2p_attr_iter_init_ok | cbn; lia | done | | apply Forall_nil_2].
    intros t Hv. apply Hs. by exists d, (zlen d). }
  intros [[ok es] vs] Hvs. cbn in Hvs. destruct ok, (forallb _ es); exact Hvs.
Qed.

(** *** The values that are present *)

Lemma p2p_value_of_app t v w :
  p2p_value_of t (v ++ w) = match p2p_value_of t v with Some x => Some x | None => p2p_value_of t w end.
Proof. induction v as [|[t' x] v IH]; cbn [p2p_value_of app]; [done |]. by destruct (t' =? t). Qed.

Definition typed_intent (vs : p2p_values) : Prop := Forall (λ tv, tv.1 = P2P_ATTR_GO_INTENT → ∃ i, tv.2 = PIntent i) vs.

Lemma intent_of_app vs v i : typed_intent vs → v = Some (PIntent i) → is_Some (intent_of (vs ++ left_behind P2P_ATTR_GO_INTENT v)).
Proof.
  intros Hvs ->. unfold intent_of. rewrite p2p_value_of_app. induction Hvs as [|[t x] vs Hx _ IH]; cbn [p2p_value_of].
  - by eexists.
  - destruct (Z.eqb_spec t P2P_ATTR_GO_INTENT) as [->|]; [| exact IH]. destruct (Hx eq_refl) as [j Hj]. cbn in Hj. rewrite Hj. by eexists.
Qed.

Lemma intent_of_keep vs w : is_Some (intent_of vs) → is_Some (intent_of (vs ++ w)).
Proof.
  unfold intent_of. rewrite p2p_value_of_app. destruct (p2p_value_of _ vs) as [x|]; [done | by intros [? ?]].
Qed.

(** The GO intent was stored when its entry is present. *)
Definition intent_stored (es : list p2p_attr_entry) (vs : p2p_values) : Prop :=
  typed_intent vs ∧
  (Exists (λ e, pe_type e = P2P_ATTR_GO_INTENT ∧ pe_present e = true) es → is_Some (intent_of vs)).

Lemma extract_p2p_go_intent_true attr len v :
  extract_p2p_go_intent attr len = Ok (true, v) → ∃ i, v = Some (PIntent i).
Proof.
  unfold extract_p2p_go_intent. destruct (negb _); [done |]. intros H. inv_bind H. cbv zeta in H. destruct (negb _); [done |].
  injection H as <-. eauto.
Qed.

Lemma extract_p2p_go_intent_typed attr len ok v :
  extract_p2p_go_intent attr len = Ok (ok, v) → typed_intent (left_behind P2P_ATTR_GO_INTENT v).
Proof.
  unfold extract_p2p_go_intent. destruct (negb _); [intros [= <- <-]; apply Forall_nil_2 |]. intros H. inv_bind H. cbv zeta in H.
  destruct (negb _); [injection H as <- <-; apply Forall_nil_2 |]. injection H as <- <-. apply list.Forall_singleton. intros _. eauto.
Qed.

Lemma mark_present_exists t es es' (P : Z → Prop) :
  mark_present t es = Some es' → Exists (λ e, P (pe_type e) ∧ pe_present e = true) es' →
  P t ∨ Exists (λ e, P (pe_type e) ∧ pe_present e = true) es.
Proof.
  revert es'. induction es as [|e es IH]; intros es'; cbn [mark_present]; [done |].
  destruct (Z.eqb_spec t (pe_type e)) as [->|].
  - destruct (pe_present e); [done |]. intros [= <-] [[Hp _]|H]%Exists_cons; [by left | right; by apply Exists_cons_tl].
  - destruct (mark_present t es) as [es1|] eqn:E; [| done]. intros [= <-] [H|H]%Exists_cons.
    + right. by apply Exists_cons_hd.
    + destruct (IH es1 eq_refl H); [by left | right; by apply Exists_cons_tl].
Qed.

Lemma p2p_attrs_loop_intent fuel it es vs es' vs' :
  p2p_attrs_loop fuel it es vs = Ok (true, es', vs') → intent_stored es vs → intent_stored es' vs'.
Proof.
  revert it es vs. induction fuel as [|fuel IH]; intros it es vs; cbn [p2p_attrs_loop]; [done |]. intros H Hs.
  apply bind_Ok_inv in H as ([it' more] & _ & H). cbv beta iota in H.
  destruct (pi_type it') as [t|]; [| by injection H as <- <-]. destruct more; [| by injection H as <- <-].
  destruct (mark_present t es) as [es1|] eqn:Em; [| done]. apply bind_Ok_inv in H as (h & Hh & H).
  destruct (p2p_handler_for_type t) as [h'|] eqn:Eh; [| done]. injection Hh as <-.
  apply bind_Ok_inv in H as ([ok v] & Hv & H). cbv beta iota zeta in H. destruct ok; [| done].
  apply (IH _ _ _ H). destruct Hs as [Hty Hst]. destruct (Z.eq_dec t P2P_ATTR_GO_INTENT) as [->|Hne].
  - injection Eh as <-. split.
    + apply Forall_app_2; [done |]. by eapply extract_p2p_go_intent_typed.
    + intros _. destruct (extract_p2p_go_intent_true _ _ _ Hv) as [i Hi]. by eapply intent_of_app.
  - split.
    + apply Forall_app_2; [done |]. destruct v; [| apply Forall_nil_2]. apply list.Forall_singleton. by cbn.
    + intros Hex. apply intent_of_keep, Hst.
      destruct (mark_present_exists t es es1 (λ x, x = P2P_ATTR_GO_INTENT) Em Hex); [done | done].
Qed.

Lemma mark_present_required t es es' :
  mark_present t es = Some es' → (λ e, (pe_type e, pe_required e)) <$> es' = (λ e, (pe_type e, pe_required e)) <$> es.
Proof.
  revert es'. induction es as [|e es IH]; intros es'; cbn [mark_present]; [done |].
  destruct (Z.eqb_spec t (pe_type e)).
  - destruct (pe_present e); [done |]. by intros [= <-].
  - destruct (mark_present t es) as [es1|]; [| done]. intros [= <-]. cbn. by rewrite (IH es1).
Qed.

Lemma p2p_attrs_loop_required fuel it es vs ok es' vs' :
  p2p_attrs_loop fuel it es vs = Ok (ok, es', vs') →
  (λ e, (pe_type e, pe_required e)) <$> es' = (λ e, (pe_type e, pe_required e)) <$> es.
Proof.
  revert it es vs. induction fuel as [|fuel IH]; intros it es vs; cbn [p2p_attrs_loop]; [done |]. intros H.
  apply bind_Ok_inv in H as ([it' more] & _ & H). cbv beta iota in H.
  destruct (pi_type it') as [t|]; [| by injection H as <- <- <-]. destruct more; [| by injection H as <- <- <-].
  destruct (mark_present t es) as [es1|] eqn:Em; [| by injection H as <- <- <-]. apply bind_Ok_inv in H as (h & Hh & H).
  apply bind_Ok_inv in H as ([ok' v] & Hv & H). cbv beta iota zeta in H. rewrite <- (mark_present_required _ _ _ Em).
  destruct ok'; [by apply (IH _ _ _ H) | by injection H as <- <- <-].
Qed.

(** The GO intent is known when a table that requires it was satisfied by a payload. *)
Lemma p2p_parse_attrs_intent fresh ies entries vs :
  p2p_parse_attrs fresh ies (zlen ies) entries = Ok (None, vs) →
  ie_tlv_extract_p2p_payload fresh ies (zlen ies) ≠ Ok (None, inr 0) →
  bytes_ok ies → zlen ies < 2 ^ 31 → In (P2P_ATTR_GO_INTENT, true) ((λ e, (pe_type e, pe_required e)) <$> entries) →
  Forall (λ e, pe_present e = false) entries → is_Some (intent_of vs).
Proof.
  intros H Hne Hb Hz Hin Hnp. unfold p2p_parse_attrs in H.
  destruct (vendor_ie_concat_safe fresh wifi_alliance_oui 9 ies true eq_refl Hb Hz) as (r & E & Hr).
  fold (ie_tlv_extract_p2p_payload fresh ies (zlen ies)) in E. rewrite E in *. rewrite bind_ok in H.
  destruct r as [[d|] [e|n]]; cbn in Hr; try done; [| by destruct Hr as [-> _]].
  apply bind_Ok_inv in H as ([[ok es] vs1] & Hl & H). destruct ok; cbn [negb] in H; [| done].
  destruct (forallb _ es) eqn:Hf; cbn [negb] in H; [| done]. injection H as <-.
  pose proof (p2p_attrs_loop_required _ _ _ _ _ _ _ Hl) as Hreq. rewrite <- Hreq in Hin.
  apply in_map_iff in Hin as (e & [= Hty Hrq] & Hin). rewrite forallb_forall in Hf. specialize (Hf e Hin). rewrite Hrq, orb_false_r in Hf.
  assert (Hst : intent_stored entries []).
  { split; [apply Forall_nil_2 |]. intros Hex. apply Exists_exists in Hex as (e0 & He0 & _ & Hp).
    rewrite Forall_forall in Hnp. specialize (Hnp e0 He0). by rewrite Hnp in Hp. }
  apply (p2p_attrs_loop_intent _ _ _ _ _ _ Hl Hst). apply Exists_exists. by exists e.
Qed.

(** ** Freeing *)

Lemma p2p_value_of_live t v x : live_values v → p2p_value_of t v = Some x → live_value x.
Proof.
  induction 1 as [|[t' y] v Hy _ IH]; cbn [p2p_value_of]; [done |]. destruct (t' =? t); [| exact IH]. by intros [= <-].
Qed.

Lemma destroy_live {A} (q : l_queue A) : live q → queue_destroy q = Ok QNull.
Proof. by destruct q. Qed.

Section live.
Variable v : p2p_values.
Hypothesis Hv : live_values v.

Ltac live_of t := destruct (p2p_value_of t v) as [[]|] eqn:E; try done; exact (p2p_value_of_live _ _ _ Hv E).

Lemma live_channels : live (cl_channel_entries (channels_of v)).
Proof. unfold channels_of. live_of P2P_ATTR_CHANNEL_LIST. Qed.
Lemma live_absence : live (na_descriptors (absence_of v)).
Proof. unfold absence_of. live_of P2P_ATTR_NOTICE_OF_ABSENCE. Qed.
Lemma live_device : live (di_secondary_device_types (device_info_of v)).
Proof. unfold device_info_of. live_of P2P_ATTR_P2P_DEVICE_INFO. Qed.
Lemma live_interface : live (if_interface_addrs (interface_of v)).
Proof. unfold interface_of. live_of P2P_ATTR_P2P_INTERFACE. Qed.
Lemma live_hashes : live (hashes_of v).
Proof. unfold hashes_of. live_of P2P_ATTR_SVC_HASH. Qed.
Lemma live_services : live (services_of v).
Proof. unfold services_of. live_of P2P_ATTR_ADVERTISED_SVC_INFO. Qed.

Lemma clear_clients_ok : p2p_clear_group_info_attr (clients_of v) = Ok QNull.
Proof.
  unfold clients_of. destruct (p2p_value_of _ v) as [[| | | | | | | | | | |q| | | | | | | |]|] eqn:E; try done.
  pose proof (p2p_value_of_live _ _ _ Hv E) as Hq. destruct q as [|l|]; [done | | done]. cbn in Hq.
  unfold p2p_clear_group_info_attr. cbn [l_queue_get_entries]. rewrite bind_ok.
  assert (Hd : destroy_all p2p_clear_client_info_descriptor l = Ok tt); [| by rewrite Hd].
  clear E. induction Hq as [|c l Hc _ IH]; cbn [destroy_all]; [done |].
  assert (E : p2p_clear_client_info_descriptor c = Ok tt) by (unfold p2p_clear_client_info_descriptor; by rewrite destroy_live).
  by rewrite E, bind_ok.
Qed.

Ltac clear_ok :=
  repeat first
    [ rewrite (destroy_live (cl_channel_entries _)) by apply live_channels
    | rewrite (destroy_live (na_descriptors _)) by apply live_absence
    | rewrite (destroy_live (di_secondary_device_types _)) by apply live_device
    | rewrite (destroy_live (if_interface_addrs _)) by apply live_interface
    | rewrite (destroy_live (hashes_of v)) by apply live_hashes
    | rewrite (destroy_live (services_of v)) by apply live_services
    | rewrite clear_clients_ok | rewrite bind_ok ]; exact I.

(** Every structure can be freed after its attributes were parsed. *)
Lemma p2p_clear_ok token w :
  returns (p2p_clear_beacon (d_beacon v)) ∧ returns (p2p_clear_probe_req (d_probe_req v)) ∧
  returns (p2p_clear_probe_resp (d_probe_resp v)) ∧ returns (p2p_clear_association_req (d_association_req v)) ∧
  returns (p2p_clear_go_negotiation_confirmation (d_go_negotiation_confirmation token v w)) ∧
  returns (p2p_clear_invitation_resp (d_invitation_resp token v w)) ∧
  returns (p2p_clear_notice_of_absence (d_notice_of_absence v)) ∧ returns (p2p_clear_presence_req (d_presence_req token v)) ∧
  returns (p2p_clear_presence_resp (d_presence_resp token v)).
Proof using Hv.
  split_and!; cbv [p2p_clear_beacon p2p_clear_probe_req p2p_clear_probe_resp p2p_clear_association_req
    p2p_clear_go_negotiation_confirmation p2p_clear_invitation_resp p2p_clear_notice_of_absence p2p_clear_presence_req
    p2p_clear_presence_resp p2p_clear_channel_list_attr p2p_clear_notice_of_absence_attr p2p_clear_device_info_attr
    p2p_clear_interface_attr p2p_clear_svc_hash_attr p2p_clear_advertised_service_info_attr];
  cbn [d_beacon d_probe_req d_probe_resp d_association_req d_go_negotiation_confirmation d_invitation_resp d_notice_of_absence
    d_presence_req d_presence_resp pbc_notice_of_absence ppq_device_info ppq_service_hashes ppr_notice_of_absence ppr_device_info
    ppr_group_clients ppr_advertised_svcs paq_device_info paq_interface gnc_channel_list inr_channel_list noa_notice_of_absence
    psq_notice_of_absence psr_notice_of_absence]; clear_ok.
Qed.

Lemma p2p_clear_discovery_ok token gi n w :
  returns (p2p_clear_go_negotiation_req (d_go_negotiation_req token v gi n w)) ∧
  returns (p2p_clear_go_negotiation_resp (d_go_negotiation_resp token v gi n w)) ∧
  returns (p2p_clear_invitation_req (d_invitation_req token v n w)) ∧
  returns (p2p_clear_provision_disc_req (d_provision_discovery_req token v n w)) ∧
  returns (p2p_clear_provision_disc_resp (d_provision_discovery_resp token v n w)).
Proof using Hv.
  split_and!; cbv [p2p_clear_go_negotiation_req p2p_clear_go_negotiation_resp p2p_clear_invitation_req
    p2p_clear_provision_disc_req p2p_clear_provision_disc_resp p2p_clear_channel_list_attr p2p_clear_device_info_attr];
  cbn [d_go_negotiation_req d_go_negotiation_resp d_invitation_req d_provision_discovery_req d_provision_discovery_resp
    gnq_channel_list gnq_device_info gnr_channel_list gnr_device_info inq_channel_list inq_device_info pdq_channel_list
    pdq_device_info pdr_channel_list pdr_device_info]; clear_ok.
Qed.
End live.

(** ** The messages *)

Lemma p2p_error_safe {A} (clear : A → res A) d e : returns (clear d) → safe (λ _, True) (p2p_error clear d e).
Proof. unfold p2p_error. by destruct (clear d). Qed.

Lemma p2p_parse_whole_safe {A} fresh ies entries (d : p2p_values → A) clear :
  bytes_ok ies → zlen ies < 2 ^ 31 → table_handled (pe_type <$> entries) → frame_safe fresh ies entries →
  (∀ v, live_values v → returns (clear (d v))) →
  safe (λ _, True) (p2p_parse_whole fresh ies (zlen ies) entries d clear).
Proof.
  intros Hb Hz Ht Hs Hc. unfold p2p_parse_whole. eapply safe_bind; [by apply p2p_parse_attrs_safe |].
  intros [[e|] v] Hv; [apply p2p_error_safe; by apply Hc | done].
Qed.

(** A table all of whose attributes are safe. *)
Lemma frame_safe_table fresh ies entries :
  forallb (λ e, safe_attr (pe_type e)) entries = true → frame_safe fresh ies entries.
Proof.
  intros Hf t _ Ht. apply list_elem_of_fmap in Ht as (e & -> & He). rewrite forallb_forall in Hf.
  apply Hf. by apply list_elem_of_In.
Qed.

(** A table whose other attributes are not in the frame. *)
Lemma frame_safe_absent fresh ies entries :
  Forall (λ e, safe_attr (pe_type e) = true ∨ ¬ frame_attr fresh ies (pe_type e)) entries → frame_safe fresh ies entries.
Proof.
  intros Hf t Hfr Ht. apply list_elem_of_fmap in Ht as (e & -> & He). rewrite Forall_forall in Hf.
  by destruct (Hf e (proj1 (list_elem_of_In _ _) He)).
Qed.

Ltac absent := apply frame_safe_absent; repeat (apply Forall_cons_2; [first [by left | by right] |]); apply Forall_nil_2.
Ltac table := repeat (apply Forall_cons_2; [by eexists |]); apply Forall_nil_2.

Section messages.
Variables (fresh : nat → Z) (pdu : ptr).
Hypotheses (Hbytes : bytes_ok pdu) (Hlen : zlen pdu < 2 ^ 31).

Lemma dialog_token_safe {A} (k : Z → res A) :
  (∀ t, 1 ≤ zlen pdu → safe (λ _, True) (k t)) → safe (λ _, True) (dialog_token pdu (zlen pdu) k).
Proof using Hbytes.
  intros Hk. unfold dialog_token. destruct (Z.ltb_spec (zlen pdu) 1); [done |]. safe_step. destruct (_ =? 0); [done | by apply Hk].
Qed.

Lemma ies_len : 1 ≤ zlen pdu → zlen pdu - 1 = zlen (pdu +! 1).
Proof. intros. by rewrite zlen_padd by lia. Qed.

Lemma parse_wfd_safe : 1 ≤ zlen pdu → safe (λ _, True) (parse_wfd fresh pdu (zlen pdu)).
Proof using Hbytes Hlen.
  intros H1. unfold parse_wfd, ie_tlv_extract_wfd_payload. rewrite ies_len by done.
  destruct (vendor_ie_concat_safe fresh wifi_alliance_oui 0x0a (pdu +! 1) true) as ([d n] & -> & _);
    [done | auto with iwd | zlia | done].
Qed.

Lemma parse_wsc_safe entries : 1 ≤ zlen pdu → entries_ok entries → safe (λ _, True) (parse_wsc fresh pdu (zlen pdu) entries).
Proof using Hbytes Hlen.
  intros H1 He. unfold parse_wsc, ie_tlv_extract_wsc_payload. rewrite ies_len by done.
  destruct (vendor_ie_concat_safe fresh microsoft_oui 0x04 (pdu +! 1) false) as (r & -> & Hr); [done | auto with iwd | zlia |].
  rewrite bind_ok. destruct r as [[d|] [e|n]]; cbn in Hr; try done; [| by destruct Hr]. destruct Hr as (-> & Hd & Hl).
  assert (zlen d < 2 ^ 31) by zlia. pose proof (wsc_parse_attrs_safe d false None entries Hd ltac:(done) He) as Hs.
  unfold try_call. by destruct (wsc_parse_attrs d (zlen d) false None entries).
Qed.

Lemma p2p_parse_elements_safe :
  returns (p2p_parse_beacon fresh pdu (zlen pdu)) ∧ returns (p2p_parse_probe_req fresh pdu (zlen pdu)) ∧
  returns (p2p_parse_association_req fresh pdu (zlen pdu)) ∧ returns (p2p_parse_association_resp fresh pdu (zlen pdu)) ∧
  returns (p2p_parse_deauthentication fresh pdu (zlen pdu)) ∧ returns (p2p_parse_disassociation fresh pdu (zlen pdu)).
Proof using Hbytes Hlen.
  split_and!; (eapply safe_returns with (P := λ _, True)).
  1-4: apply p2p_parse_whole_safe; [done | done | table | by apply frame_safe_table |]; intros v Hv; try exact I;
    pose proof (p2p_clear_ok v Hv 0 no_wfd); tauto.
  all: eapply safe_bind; [apply p2p_parse_attrs_safe; [done | done | table | by apply frame_safe_table] |];
    intros [[[]|] v] _; exact I.
Qed.

Lemma p2p_parse_probe_resp_safe :
  ¬ frame_attr fresh pdu P2P_ATTR_P2P_GROUP_INFO → ¬ frame_attr fresh pdu P2P_ATTR_ADVERTISED_SVC_INFO →
  returns (p2p_parse_probe_resp fresh pdu (zlen pdu)).
Proof using Hbytes Hlen.
  intros Hg Hs. eapply safe_returns with (P := λ _, True). apply p2p_parse_whole_safe; [done | done | table | absent |].
  intros v Hv. pose proof (p2p_clear_ok v Hv 0 no_wfd). tauto.
Qed.

(** The attributes of an action frame, and what follows. *)
Lemma action_attrs_safe {A} entries (k : option errno * p2p_values → res A) :
  1 ≤ zlen pdu → table_handled (pe_type <$> entries) → frame_safe fresh (pdu +! 1) entries →
  (∀ e v, live_values v → safe (λ _, True) (k (e, v))) →
  safe (λ _, True) (p2p_parse_attrs fresh (pdu +! 1) (zlen pdu - 1) entries ≫= k).
Proof using Hbytes Hlen.
  intros H1 Ht Hs Hk. rewrite ies_len by done. eapply safe_bind; [apply p2p_parse_attrs_safe; [auto with iwd | zlia | done | done] |].
  intros [e v] Hv. by apply Hk.
Qed.

Lemma action_whole_safe {A} entries (d : p2p_values → A) clear :
  1 ≤ zlen pdu → table_handled (pe_type <$> entries) → frame_safe fresh (pdu +! 1) entries →
  (∀ v, live_values v → returns (clear (d v))) →
  safe (λ _, True) (p2p_parse_whole fresh (pdu +! 1) (zlen pdu - 1) entries d clear).
Proof using Hbytes Hlen.
  intros H1 Ht Hs Hc. rewrite ies_len by done. apply p2p_parse_whole_safe; [auto with iwd | zlia | done | done | done].
Qed.

Lemma p2p_parse_group_safe :
  returns (p2p_parse_go_negotiation_confirmation fresh pdu (zlen pdu)) ∧ returns (p2p_parse_invitation_req fresh pdu (zlen pdu)) ∧
  returns (p2p_parse_invitation_resp fresh pdu (zlen pdu)).
Proof using Hbytes Hlen.
  split_and!; eapply safe_returns with (P := λ _, True); apply dialog_token_safe; intros token H1;
    (apply action_attrs_safe; [done | table | by apply frame_safe_table |]); intros [e|] v Hv; cbv beta iota.
  - apply p2p_error_safe. pose proof (p2p_clear_ok v Hv token no_wfd). tauto.
  - eapply safe_bind; [by apply parse_wfd_safe | done].
  - apply p2p_error_safe. pose proof (p2p_clear_discovery_ok v Hv token (mk_go_intent 0 false) 0 no_wfd). tauto.
  - eapply safe_bind; [apply parse_wsc_safe; [done | table] |]. intros [e|p] _.
    + eapply safe_bind; [by apply parse_wfd_safe | done].
    + destruct (negb _); [| eapply safe_bind; [by apply parse_wfd_safe | done]].
      apply p2p_error_safe. set (n := num_of _ _). pose proof (p2p_clear_discovery_ok v Hv token (mk_go_intent 0 false) n no_wfd). tauto.
  - apply p2p_error_safe. pose proof (p2p_clear_ok v Hv token no_wfd). tauto.
  - eapply safe_bind; [by apply parse_wfd_safe | done].
Qed.

Lemma p2p_parse_presence_safe :
  returns (p2p_parse_device_disc_req fresh pdu (zlen pdu)) ∧ returns (p2p_parse_device_disc_resp fresh pdu (zlen pdu)) ∧
  returns (p2p_parse_notice_of_absence fresh pdu (zlen pdu)) ∧ returns (p2p_parse_presence_req fresh pdu (zlen pdu)) ∧
  returns (p2p_parse_presence_resp fresh pdu (zlen pdu)) ∧ returns (p2p_parse_go_disc_req pdu (zlen pdu)).
Proof using Hbytes Hlen.
  split_and!; eapply safe_returns with (P := λ _, True).
  3: unfold p2p_parse_notice_of_absence; destruct (Z.ltb_spec (zlen pdu) 1); [done |].
  6: unfold p2p_parse_go_disc_req; repeat p2p_step; done.
  1, 2, 4, 5: apply dialog_token_safe; intros token H1.
  all: apply action_whole_safe; [done | table | by apply frame_safe_table |]; intros v Hv; try exact I.
  all: first [pose proof (p2p_clear_ok v Hv token no_wfd) | pose proof (p2p_clear_ok v Hv 0 no_wfd)]; tauto.
Qed.

Lemma p2p_parse_provision_safe :
  ¬ frame_attr fresh (pdu +! 1) P2P_ATTR_SESSION_INFO_DATA_INFO →
  returns (p2p_parse_provision_disc_req fresh pdu (zlen pdu)) ∧ returns (p2p_parse_provision_disc_resp fresh pdu (zlen pdu)).
Proof using Hbytes Hlen.
  intros Hs. split; eapply safe_returns with (P := λ _, True); apply dialog_token_safe; intros token H1;
    (apply action_attrs_safe; [done | table | absent |]); intros e v Hv; cbv beta iota zeta;
    assert (Hc := λ n, p2p_clear_discovery_ok v Hv token (mk_go_intent 0 false) n no_wfd).
  - destruct e as [e|]; [apply p2p_error_safe; specialize (Hc 0); tauto |].
    eapply safe_bind; [apply parse_wsc_safe; [done | table] |]. intros [e|p] _; [apply p2p_error_safe; specialize (Hc 0); tauto |].
    destruct (negb _); [apply p2p_error_safe; apply Hc |]. eapply safe_bind; [by apply parse_wfd_safe | done].
  - assert (Hk : safe (λ _, True)
      (r ← parse_wsc fresh pdu (zlen pdu) [REQUIRED WSC_ATTR_CONFIGURATION_METHODS];
       match r with
       | inl e => p2p_error p2p_clear_provision_disc_resp (d_provision_discovery_resp token v 0 no_wfd) e
       | inr p =>
           if 1 <? popcount (num_of WSC_ATTR_CONFIGURATION_METHODS (wp_values p))
           then p2p_error p2p_clear_provision_disc_resp
                  (d_provision_discovery_resp token v (num_of WSC_ATTR_CONFIGURATION_METHODS (wp_values p)) no_wfd) EINVAL
           else w ← parse_wfd fresh pdu (zlen pdu);
                Ok (d_provision_discovery_resp token v (num_of WSC_ATTR_CONFIGURATION_METHODS (wp_values p)) w)
       end)).
    { eapply safe_bind; [apply parse_wsc_safe; [done | table] |]. intros [e'|p] _; [apply p2p_error_safe; specialize (Hc 0); tauto |].
      destruct (1 <? _); [apply p2p_error_safe; apply Hc |]. eapply safe_bind; [by apply parse_wfd_safe | done]. }
    destruct e as [[]|]; try exact Hk; apply p2p_error_safe; specialize (Hc 0); tauto.
Qed.

(** The same for a table that requires the GO intent. *)
Lemma negotiation_attrs_safe {A} entries (k : option errno * p2p_values → res A) :
  1 ≤ zlen pdu → table_handled (pe_type <$> entries) → frame_safe fresh (pdu +! 1) entries →
  Forall (λ e, pe_present e = false) entries → In (P2P_ATTR_GO_INTENT, true) ((λ e, (pe_type e, pe_required e)) <$> entries) →
  ie_tlv_extract_p2p_payload fresh (pdu +! 1) (zlen (pdu +! 1)) ≠ Ok (None, inr 0) →
  (∀ e v, live_values v → safe (λ _, True) (k (Some e, v))) →
  (∀ v gi, live_values v → intent_of v = Some gi → safe (λ _, True) (k (None, v))) →
  safe (λ _, True) (p2p_parse_attrs fresh (pdu +! 1) (zlen pdu - 1) entries ≫= k).
Proof using Hbytes Hlen.
  intros H1 Ht Hs Hp Hin Hne He Hk. rewrite ies_len by done.
  assert (Hb : bytes_ok (pdu +! 1)) by auto with iwd. assert (Hz : zlen (pdu +! 1) < 2 ^ 31) by zlia.
  pose proof (p2p_parse_attrs_safe fresh (pdu +! 1) entries Hb Hz Ht Hs) as Hsafe.
  destruct (p2p_parse_attrs _ _ _ _) as [[[e|] v]| | |] eqn:E; try done; rewrite bind_ok; [by apply He |].
  destruct (p2p_parse_attrs_intent _ _ _ _ E Hne Hb Hz Hin Hp) as [gi Hgi]. by eapply Hk.
Qed.

Lemma p2p_parse_negotiation_safe :
  ie_tlv_extract_p2p_payload fresh (pdu +! 1) (zlen (pdu +! 1)) ≠ Ok (None, inr 0) →
  returns (p2p_parse_go_negotiation_req fresh pdu (zlen pdu)) ∧ returns (p2p_parse_go_negotiation_resp fresh pdu (zlen pdu)).
Proof using Hbytes Hlen.
  intros Hne. split; eapply safe_returns with (P := λ _, True); apply dialog_token_safe; intros token H1;
    (apply negotiation_attrs_safe; [done | table | by apply frame_safe_table | by repeat constructor | cbn; tauto | done | |]);
    [intros e v Hv | intros v gi Hv Hgi | intros e v Hv | intros v gi Hv Hgi]; cbv beta iota zeta;
    pose proof (p2p_clear_discovery_ok v Hv token (mk_go_intent 0 false) 0 no_wfd) as Hc.
  1, 3: apply p2p_error_safe; tauto.
  all: eapply safe_bind; [apply parse_wsc_safe; [done | table] |]; intros [e|p] _; [apply p2p_error_safe; tauto |].
  all: rewrite Hgi; cbn [nonnull]; rewrite bind_ok; eapply safe_bind; [by apply parse_wfd_safe | done].
Qed.

(** C29: whatever the bytes that are received (less than 2^31 of them), the parsers of
    src/p2putil.c return a structure or an error: they read nothing outside of the message, their
    loops end, and no queue is used or freed again after it has been freed.  Memory that is not
    freed at all is not represented.  The exceptions are a probe response with group information or
    advertised services, provision discovery with session information, and GO negotiation with
    an empty P2P element. *)
Theorem p2p_parsers_safe :
  (returns (p2p_parse_beacon fresh pdu (zlen pdu)) ∧ returns (p2p_parse_probe_req fresh pdu (zlen pdu)) ∧
   returns (p2p_parse_association_req fresh pdu (zlen pdu)) ∧ returns (p2p_parse_association_resp fresh pdu (zlen pdu)) ∧
   returns (p2p_parse_deauthentication fresh pdu (zlen pdu)) ∧ returns (p2p_parse_disassociation fresh pdu (zlen pdu))) ∧
  (returns (p2p_parse_go_negotiation_confirmation fresh pdu (zlen pdu)) ∧ returns (p2p_parse_invitation_req fresh pdu (zlen pdu)) ∧
   returns (p2p_parse_invitation_resp fresh pdu (zlen pdu))) ∧
  (returns (p2p_parse_device_disc_req fresh pdu (zlen pdu)) ∧ returns (p2p_parse_device_disc_resp fresh pdu (zlen pdu)) ∧
   returns (p2p_parse_notice_of_absence fresh pdu (zlen pdu)) ∧ returns (p2p_parse_presence_req fresh pdu (zlen pdu)) ∧
   returns (p2p_parse_presence_resp fresh pdu (zlen pdu)) ∧ returns (p2p_parse_go_disc_req pdu (zlen pdu))) ∧
  (¬ frame_attr fresh pdu P2P_ATTR_P2P_GROUP_INFO → ¬ frame_attr fresh pdu P2P_ATTR_ADVERTISED_SVC_INFO →
   returns (p2p_parse_probe_resp fresh pdu (zlen pdu))) ∧
  (¬ frame_attr fresh (pdu +! 1) P2P_ATTR_SESSION_INFO_DATA_INFO →
   returns (p2p_parse_provision_disc_req fresh pdu (zlen pdu)) ∧ returns (p2p_parse_provision_disc_resp fresh pdu (zlen pdu))) ∧
  (ie_tlv_extract_p2p_payload fresh (pdu +! 1) (zlen (pdu +! 1)) ≠ Ok (None, inr 0) →
   returns (p2p_parse_go_negotiation_req fresh pdu (zlen pdu)) ∧ returns (p2p_parse_go_negotiation_resp fresh pdu (zlen pdu))).
Proof using Hbytes Hlen.
  split; [apply p2p_parse_elements_safe |]. split; [apply p2p_parse_group_safe |]. split; [apply p2p_parse_presence_safe |].
  split; [apply p2p_parse_probe_resp_safe |]. split; [apply p2p_parse_provision_safe | apply p2p_parse_negotiation_safe].
Qed.
End messages.

Lemma p2p_parsers_safe_witness :
  let pdu := [7; 221; 9; 0x50; 0x6f; 0x9a; 9; 2; 2; 0; 1; 255] in
  bytes_ok pdu ∧ zlen pdu < 2 ^ 31 ∧ returns (p2p_parse_go_negotiation_req (λ _, 0) pdu (zlen pdu)).
Proof.
  assert (H : bytes_ok [7; 221; 9; 0x50; 0x6f; 0x9a; 9; 2; 2; 0; 1; 255]) by by_eval.
  split; [exact H |]. split; [reflexivity |].
  refine (proj1 (proj2 (proj2 (proj2 (proj2 (proj2 (p2p_parsers_safe (λ _, 0) _ H eq_refl))))) _)).
  vm_compute. discriminate.
Defined.
