(* ===== verification/P2pSpec.v ===== *)
(** * Wi-Fi Direct: encoding of attributes

    A P2P payload is a sequence of attributes, each a type, a length and data
    ([p2p_attrs_bytes]).  The builder of src/p2putil.c writes this encoding ([p2p_builds],
    [p2p_run_builds]), and its parser reads from it the values of the attributes, in any order
    ([p2p_parse_attrs_fields]). *)

From stdpp Require Import base numbers list option.
From Stdlib Require Import ZArith Lia.
From S2P Require Import Prelude StRes IeTlv IeMisc Crypto Handshake EapolFrame EapSpec Mschap Wsc WscMsg WscSafe WscSpec.
From S2P Require Import P2p P2pMsg P2pSafe.

Open Scope Z_scope.

Definition p2p_attr_bytes (a : Z * list Z) : list Z := u8 a.1 :: le16_bytes (zlen a.2) ++ a.2.
Definition p2p_attrs_bytes (l : list (Z * list Z)) : list Z := l ≫= p2p_attr_bytes.

Lemma zlen_le16 v : zlen (le16_bytes v) = 2.
Proof. done. Qed.
Lemma zlen_one {A} (x : A) : zlen [x] = 1.
Proof. done. Qed.
Lemma zlen_p2p_attr_bytes a : zlen (p2p_attr_bytes a) = 3 + zlen a.2.
Proof. unfold p2p_attr_bytes. rewrite zlen_cons, zlen_app, zlen_le16. lia. Qed.
Lemma p2p_attrs_bytes_app l k : p2p_attrs_bytes (l ++ k) = p2p_attrs_bytes l ++ p2p_attrs_bytes k.
Proof. apply bind_app. Qed.
Lemma p2p_attrs_bytes_one a : p2p_attrs_bytes [a] = p2p_attr_bytes a.
Proof. unfold p2p_attrs_bytes. cbn. by rewrite app_nil_r. Qed.
Lemma zlen_p2p_attrs_snoc pre t d : zlen (p2p_attrs_bytes (pre ++ [(t, d)])) = zlen (p2p_attrs_bytes pre) + 3 + zlen d.
Proof. rewrite p2p_attrs_bytes_app, p2p_attrs_bytes_one, zlen_app, zlen_p2p_attr_bytes. cbn [snd]. lia. Qed.

(** ** The builder *)

(** The attributes [pre] are in the buffer, and behind them one of type [t] whose data so far is
    [d] and whose length is still to be written. *)
Definition p2p_open (pre : list (Z * list Z)) (t : Z) (d : list Z) (b : p2p_attr_builder) : Prop :=
  16 ≤ pb_capacity b ∧ pb_capacity b = zlen (pb_buf b) ∧
  ∃ gap rest, zlen gap = 2 ∧ pb_offset b = zlen (p2p_attrs_bytes pre) ∧ pb_curlen b = zlen d ∧
    pb_buf b = p2p_attrs_bytes pre ++ [u8 t] ++ gap ++ d ++ rest.

(** An attribute without data is not the first one: the builder would not know of it. *)
Definition filled (l : list (Z * list Z)) : Prop := match l with (_, []) :: _ => False | _ => True end.

Definition p2p_rep (l : list (Z * list Z)) (b : p2p_attr_builder) : Prop :=
  (l = [] ∧ 16 ≤ pb_capacity b ∧ pb_capacity b = zlen (pb_buf b) ∧ pb_offset b = 0 ∧ pb_curlen b = 0) ∨
  (∃ pre t d, l = pre ++ [(t, d)] ∧ p2p_open pre t d b).

(** The attributes are in the buffer, and the next one is to start. *)
Definition p2p_closed (l : list (Z * list Z)) (b : p2p_attr_builder) : Prop :=
  16 ≤ pb_capacity b ∧ pb_capacity b = zlen (pb_buf b) ∧ pb_offset b = zlen (p2p_attrs_bytes l) ∧ pb_curlen b = 0 ∧
  ∃ rest, pb_buf b = p2p_attrs_bytes l ++ rest.

Lemma filled_app l k : filled (l ++ k) → filled l.
Proof. by destruct l as [|[t d] l]. Qed.

Section builder.
Variable junk : nat → Z.

Lemma pb_write_ok b pre mid post pos l :
  pb_buf b = pre ++ mid ++ post → pos = zlen pre → zlen mid = zlen l →
  pb_write pos l b = Ok (tt, mk_p2p_builder (pb_capacity b) (pre ++ l ++ post) (pb_offset b) (pb_curlen b)).
Proof.
  intros Hb Hp Hm. unfold pb_write. rewrite (sr_bind_ok get _ b b b) by done. by rewrite Hb, (put_mid pre mid post l pos).
Qed.

Lemma pb_close_ok l b :
  p2p_rep l b → filled l → zlen (p2p_attrs_bytes l) < 65536 → wp pb_close (λ _, p2p_closed l) b.
Proof.
  intros [(-> & Hc & Hz & Ho & Hl)|(pre & t & d & -> & Hc & Hz & gap & rest & Hg & Ho & Hl & Hb)] Hf Hs; unfold pb_close; sr_seq.
  { rewrite Ho, Hl. apply wp_pass. split_and!; [done | done | done | done |]. by exists (pb_buf b). }
  rewrite zlen_p2p_attrs_snoc in Hs.
  assert (Hcond : negb (pb_curlen b =? 0) || negb (pb_offset b =? 0) = true).
  { rewrite Ho, Hl. destruct (Z.eqb_spec (zlen d) 0) as [E|]; [| done]. apply zlen_0_inv in E as ->.
    destruct pre as [|a pre]; [done |]. cbn [orb negb].
    change (a :: pre) with ([a] ++ pre). rewrite p2p_attrs_bytes_app, p2p_attrs_bytes_one, zlen_app, zlen_p2p_attr_bytes.
    destruct (Z.eqb_spec (3 + zlen a.2 + zlen (p2p_attrs_bytes pre)) 0); [znn; lia | done]. }
  rewrite Hcond. sr_seq.
  eapply wp_ok; [eapply (pb_write_ok _ (p2p_attrs_bytes pre ++ [u8 t]) gap (d ++ rest)); [by rewrite Hb, <- !app_assoc | rewrite zlen_app, zlen_one; lia | by rewrite Hg] |].
  unfold pb_set. sr_seq. unfold p2p_closed. cbn [pb_capacity pb_buf pb_offset pb_curlen]. rewrite Ho, Hl. znn.
  rewrite u16_small by lia. split_and!.
  - done.
  - rewrite Hz, Hb, !zlen_app, zlen_le16. lia.
  - rewrite zlen_p2p_attrs_snoc. lia.
  - done.
  - exists rest. rewrite p2p_attrs_bytes_app, p2p_attrs_bytes_one. unfold p2p_attr_bytes. cbn [fst snd]. rewrite <- !app_assoc.
    by cbn [app]; rewrite <- !app_assoc.
Qed.

(** Doubling the room keeps what is written. *)
Definition pgrown (b : p2p_attr_builder) : p2p_attr_builder :=
  mk_p2p_builder (pb_capacity b * 2) (pb_buf b ++ l_malloc junk (pb_capacity b)) (pb_offset b) (pb_curlen b).

Lemma zlen_pgrown b : 0 ≤ pb_capacity b → pb_capacity b = zlen (pb_buf b) → zlen (pb_buf (pgrown b)) = pb_capacity b * 2.
Proof. intros H1 H2. cbn. rewrite zlen_app, l_malloc_length by done. lia. Qed.

Lemma p2p_open_grown pre t d b : p2p_open pre t d b → p2p_open pre t d (pgrown b).
Proof.
  intros (Hc & Hz & gap & rest & Hg & Ho & Hl & Hb). unfold p2p_open.
  rewrite zlen_pgrown by lia. cbn [pgrown pb_capacity pb_buf pb_offset pb_curlen]. split_and!; [lia | done |].
  exists gap, (rest ++ l_malloc junk (pb_capacity b)). split_and!; try done. by rewrite Hb, <- !app_assoc.
Qed.

Lemma p2p_closed_grown l b : p2p_closed l b → p2p_closed l (pgrown b).
Proof.
  intros (Hc & Hz & Ho & Hl & rest & Hb). unfold p2p_closed. rewrite zlen_pgrown by lia.
  cbn [pgrown pb_capacity pb_buf pb_offset pb_curlen]. split_and!; [lia | done | done | done |].
  exists (rest ++ l_malloc junk (pb_capacity b)). by rewrite Hb, <- app_assoc.
Qed.

Lemma p2p_start_attr_ok l t b :
  p2p_rep l b → filled l → zlen (p2p_attrs_bytes l) < 65536 →
  wp (p2p_attr_builder_start_attr junk t) (λ _, p2p_open l t []) b.
Proof.
  intros H Hf Hs. unfold p2p_attr_builder_start_attr. sr_seq. eapply wp_mono; [by apply pb_close_ok |].
  intros u b1 Hb1; cbv beta in Hb1; clear u. sr_seq.
  eapply (wp_mono _ (λ _ b2, p2p_closed l b2 ∧ pb_offset b2 + 3 ≤ pb_capacity b2 ∧ pb_offset b2 = pb_offset b1)).
  { destruct (Z.leb_spec (pb_capacity b1) (pb_offset b1 + 3)).
    - unfold p2p_attr_builder_grow. sr_seq. split_and!; [by apply (p2p_closed_grown l b1) | | done].
      cbn. destruct Hb1 as (Hc & Hz & Ho & Hl & rest & Hb). rewrite Hz, Hb, zlen_app in *. znn. lia.
    - apply wp_pass. split_and!; [done | lia | done]. }
  intros u b2 ((Hc & Hz & Ho & Hl & rest & Hb) & Hr & Hoff). rewrite <- Hoff.
  assert (Hrest : 3 ≤ zlen rest) by (rewrite Hz, Hb, Ho, zlen_app in Hr; lia).
  eapply wp_ok; [eapply (pb_write_ok _ (p2p_attrs_bytes l) (ptake rest 1) (rest +! 1)); [by rewrite ptake_padd_id | done | by rewrite zlen_ptake by lia] |].
  unfold p2p_open. cbn [pb_capacity pb_buf pb_offset pb_curlen]. split_and!; [done | |].
  - rewrite Hz, Hb, !zlen_app, zlen_one, zlen_padd by lia. lia.
  - exists (ptake (rest +! 1) 2), (rest +! 1 +! 2). rewrite zlen_ptake by zlia. split_and!; try done.
    cbn [app]. by rewrite ptake_padd_id.
Qed.

Lemma p2p_open_room pre t d b : p2p_open pre t d b → pb_offset b + 3 + pb_curlen b ≤ pb_capacity b.
Proof.
  intros (Hc & Hz & gap & rest & Hg & Ho & Hl & Hb). rewrite Hz, Hb, Ho, Hl, !zlen_app, Hg, zlen_one. znn. lia.
Qed.

(** The write of data into the room that is there. *)
Lemma pb_append_ok pre t d l b :
  p2p_open pre t d b → zlen (p2p_attrs_bytes (pre ++ [(t, d ++ l)])) < 65536 →
  pb_offset b + 3 + pb_curlen b + zlen l ≤ pb_capacity b →
  wp (pb_write (pb_offset b + 3 + pb_curlen b) l;; pb_set (pb_offset b) (pb_curlen b + zlen l))
     (λ _, p2p_open pre t (d ++ l)) b.
Proof.
  intros (Hc & Hz & gap & rest & Hg & Ho & Hl & Hb) Hsz Hroom. rewrite zlen_p2p_attrs_snoc, zlen_app in Hsz. sr_seq.
  assert (Hrest : zlen l ≤ zlen rest) by (rewrite Hz, Hb, Ho, Hl, !zlen_app, zlen_one in Hroom; lia).
  eapply wp_ok; [eapply (pb_write_ok _ (p2p_attrs_bytes pre ++ [u8 t] ++ gap ++ d) (ptake rest (zlen l)) (rest +! zlen l)) |].
  { by rewrite Hb, <- !app_assoc, ptake_padd_id. }
  { rewrite !zlen_app, Hg, zlen_one. lia. }
  { rewrite zlen_ptake; [done | znn; lia]. }
  unfold pb_set. sr_seq. unfold p2p_open. cbn [pb_capacity pb_buf pb_offset pb_curlen]. znn. split_and!; [done | |].
  - rewrite Hz, Hb, !zlen_app, zlen_padd by lia. lia.
  - exists gap, (rest +! zlen l). rewrite zlen_app, !u16_small by lia. split_and!; try done; try lia. by rewrite <- !app_assoc.
Qed.

(** [m] adds data to the current attribute, or adds attributes to the message. *)
Definition p2p_appends (m : sr p2p_attr_builder unit) (l : list Z) : Prop :=
  ∀ pre t d b, p2p_open pre t d b → zlen (p2p_attrs_bytes (pre ++ [(t, d ++ l)])) < 65536 →
    wp m (λ _, p2p_open pre t (d ++ l)) b.
Definition p2p_builds (m : sr p2p_attr_builder unit) (l : list (Z * list Z)) : Prop :=
  ∀ k b, p2p_rep k b → filled (k ++ l) → zlen (p2p_attrs_bytes (k ++ l)) < 65536 → wp m (λ _, p2p_rep (k ++ l)) b.

Lemma p2p_appends_put l : zlen l ≤ 16 → p2p_appends (pb_put junk l) l.
Proof.
  intros Hl pre t d b H Hsz. pose proof (p2p_open_room _ _ _ _ H) as Hroom. unfold pb_put. sr_seq.
  eapply (wp_mono _ (λ _ b', p2p_open pre t d b' ∧ pb_offset b' = pb_offset b ∧ pb_curlen b' = pb_curlen b ∧
                               pb_offset b + 3 + pb_curlen b + zlen l ≤ pb_capacity b')).
  { destruct (Z.leb_spec (pb_capacity b) (pb_offset b + 3 + pb_curlen b + zlen l)).
    - unfold p2p_attr_builder_grow. sr_seq. split_and!; [by apply (p2p_open_grown pre t d b) | done | done |].
      cbn. destruct H as (Hc & _). lia.
    - apply wp_pass. split_and!; [done | done | done | lia]. }
  intros u b' (H' & Ho & Hc & Hr); clear u. rewrite <- Ho, <- Hc. apply pb_append_ok; [done | done | lia].
Qed.

Lemma pb_reserve_ok fuel size pre t d b :
  p2p_open pre t d b → pb_offset b + 3 + pb_curlen b + size - pb_capacity b + 1 < Z.of_nat fuel → (0 < fuel)%nat →
  wp (pb_reserve junk fuel size) (λ _ b', p2p_open pre t d b' ∧ pb_offset b' = pb_offset b ∧ pb_curlen b' = pb_curlen b ∧
                                pb_offset b + 3 + pb_curlen b + size ≤ pb_capacity b') b.
Proof.
  revert b. induction fuel as [|fuel IH]; intros b H Hf H0; [lia |]. cbn [pb_reserve]. sr_seq.
  destruct (Z.leb_spec (pb_capacity b) (pb_offset b + 3 + pb_curlen b + size)).
  - unfold p2p_attr_builder_grow. sr_seq. assert (16 ≤ pb_capacity b) by apply H.
    eapply wp_mono; [apply (IH (pgrown b)); [by apply p2p_open_grown | cbn; lia | lia] |]. by intros u b'.
  - apply wp_pass. split_and!; [done | done | done | lia].
Qed.

Lemma p2p_appends_bytes p n : 0 ≤ n ≤ zlen p → p2p_appends (p2p_attr_builder_put_bytes junk p n) (ptake p n).
Proof.
  intros Hn pre t d b H Hsz. pose proof (p2p_open_room _ _ _ _ H) as Hroom. unfold p2p_attr_builder_put_bytes. sr_seq.
  eapply wp_mono; [apply (pb_reserve_ok _ _ pre t d); [done | lia | lia] |].
  intros u b' (H' & Ho & Hc & Hr); clear u. apply wp_bind, wp_get. apply wp_bind. eapply wp_run; [by apply rdn_ok |]. cbv beta.
  pose proof (pb_append_ok pre t d (ptake p n) b' H' Hsz) as Ha. rewrite zlen_ptake in Ha by done. apply Ha. lia.
Qed.

Lemma p2p_appends_array p n : zlen p = n → p2p_appends (p2p_attr_builder_put_bytes junk p n) p.
Proof. intros Hn. pose proof (p2p_appends_bytes p n). rewrite ptake_all in H by lia. apply H. znn. lia. Qed.

Lemma p2p_appends_seq m m' l l' : p2p_appends m l → p2p_appends m' l' → p2p_appends (m;; m') (l ++ l').
Proof.
  intros Hm Hm' pre t d b H Hsz. sr_seq.
  eapply wp_mono; [apply Hm; [exact H | rewrite zlen_p2p_attrs_snoc, !zlen_app in *; znn; lia] |].
  intros u b' H'; cbv beta in *; clear u. rewrite app_assoc in *. by apply Hm'.
Qed.

Lemma p2p_appends_pass : p2p_appends pass [].
Proof. intros pre t d b H _. apply wp_pass. by rewrite app_nil_r. Qed.

Lemma p2p_appends_each {A} (f : A → sr p2p_attr_builder unit) (enc : A → list Z) l :
  Forall (λ a, p2p_appends (f a) (enc a)) l → p2p_appends (for_each f l) (l ≫= enc).
Proof.
  induction 1 as [|a l Ha _ IH]; cbn [for_each]; [apply p2p_appends_pass |].
  change ((a :: l) ≫= enc) with (enc a ++ (l ≫= enc)). by apply p2p_appends_seq.
Qed.

Lemma p2p_appends_run {A} (m : res A) (f : A → sr p2p_attr_builder unit) a l :
  m = Ok a → p2p_appends (f a) l → p2p_appends (x ← run m; f x) l.
Proof. intros -> Hf pre t d b H Hsz. sr_seq. eapply wp_run; [done |]. by apply Hf. Qed.

Lemma p2p_builds_attr t m l : p2p_appends m l → p2p_builds (p2p_attr_builder_start_attr junk t;; m) [(t, l)].
Proof.
  intros Hm k b H Hf Hsz. sr_seq. eapply wp_mono; [apply p2p_start_attr_ok; [exact H | by eapply filled_app |] |].
  { rewrite p2p_attrs_bytes_app, zlen_app in Hsz. znn. lia. }
  intros u b' H'; cbv beta in H'; clear u. eapply wp_mono; [by apply Hm |]. intros u b2 H2; cbv beta in H2; clear u.
  right. by exists k, t, l.
Qed.

Lemma p2p_builds_seq m m' l l' : p2p_builds m l → p2p_builds m' l' → p2p_builds (m;; m') (l ++ l').
Proof.
  intros Hm Hm' k b H Hf Hsz. rewrite app_assoc in *. sr_seq. eapply wp_mono; [apply Hm; [done | by eapply filled_app |] |].
  { rewrite p2p_attrs_bytes_app, zlen_app in Hsz. znn. lia. }
  intros u b' H'; cbv beta in *; clear u. by apply Hm'.
Qed.

Lemma p2p_builds_pass : p2p_builds pass [].
Proof. intros k b H _ _. apply wp_pass. by rewrite app_nil_r. Qed.

Lemma p2p_builds_run {A} (m : res A) (f : A → sr p2p_attr_builder unit) a l :
  m = Ok a → p2p_builds (f a) l → p2p_builds (x ← run m; f x) l.
Proof. intros -> Hf k b H Hfl Hsz. sr_seq. eapply wp_run; [done |]. by apply Hf. Qed.

(** What a builder returns. *)
Lemma p2p_run_builds capacity m l :
  16 ≤ capacity → p2p_builds m l → filled l → zlen (p2p_attrs_bytes l) < 65536 →
  p2p_run junk capacity m = Ok (p2p_attrs_bytes l).
Proof.
  intros Hc Hm Hf Hsz. unfold p2p_run.
  assert (H : wp (m;; p2p_attr_builder_free) (λ out _, out = p2p_attrs_bytes l) (p2p_attr_builder_new junk capacity)).
  { sr_seq. eapply wp_mono; [apply (Hm []); [left | done | done] |].
    - split_and!; cbn; [done | done | by rewrite l_malloc_length by lia | done | done].
    - intros u b H; cbv beta in *; clear u. cbn [app] in H. unfold p2p_attr_builder_free. sr_seq.
      eapply wp_mono; [by apply pb_close_ok |].
      intros u b' (_ & _ & Ho & _ & rest & Hb). sr_seq. rewrite Hb, Ho. eapply wp_run; [by apply rdn_app | done]. }
  apply wp_inv in H as (out & b & -> & ->). by rewrite bind_ok.
Qed.
End builder.

(** ** The parser *)

(** The decoder of the type reads the value from the data. *)
Definition p2p_decodes (t : Z) (d : list Z) (v : p2p_value) : Prop :=
  ∃ h, p2p_handler_for_type t = Some h ∧ ∀ rest, h (d ++ rest) (zlen d) = Ok (true, Some v).

(** A field of a message: the type of its attribute, and if it is sent, the data and the value. *)
Definition field : Type := Z * option (list Z * p2p_value).

Definition attrs_of (fs : list field) : list (Z * list Z) :=
  fs ≫= λ f, match f.2 with Some (d, _) => [(f.1, d)] | None => [] end.
Definition vals_of (fs : list field) : p2p_values :=
  fs ≫= λ f, match f.2 with Some (_, v) => [(f.1, v)] | None => [] end.
Definition sent (fs : list field) : list Z := fs ≫= λ f, match f.2 with Some _ => [f.1] | None => [] end.

Definition field_ok (f : field) : Prop :=
  match f.2 with Some (d, v) => 0 ≤ f.1 < 256 ∧ bytes_ok d ∧ p2p_decodes f.1 d v | None => True end.

Fixpoint field_value (t : Z) (fs : list field) : option p2p_value :=
  match fs with
  | [] => None
  | f :: fs => if f.1 =? t then option_map snd f.2 else field_value t fs
  end.

Lemma sent_types t fs : t ∈ sent fs → t ∈ fst <$> fs.
Proof.
  induction fs as [|[t' [[d v]|]] fs IH]; [done | |].
  - change (sent ((t', Some (d, v)) :: fs)) with (t' :: sent fs). intros [->|Ht]%elem_of_cons; [by left | right; by apply IH].
  - change (sent ((t', None) :: fs)) with (sent fs). intros Ht. right. by apply IH.
Qed.

Lemma vals_of_absent t fs : t ∉ fst <$> fs → p2p_value_of t (vals_of fs) = None.
Proof.
  induction fs as [|[t' [[d v]|]] fs IH]; cbn [fmap list_fmap]; [done | |]; rewrite not_elem_of_cons; intros [Hne Ht].
  - change (vals_of ((t', Some (d, v)) :: fs)) with ((t', v) :: vals_of fs). cbn [p2p_value_of].
    destruct (Z.eqb_spec t' t) as [->|]; [by destruct Hne | by apply IH].
  - change (vals_of ((t', None) :: fs)) with (vals_of fs). by apply IH.
Qed.

Lemma vals_of_value t fs : NoDup (fst <$> fs) → p2p_value_of t (vals_of fs) = field_value t fs.
Proof.
  induction fs as [|[t' o] fs IH]; [done |]. cbn [fmap list_fmap fst]. intros [Hn Hnd]%list.NoDup_cons. cbn [field_value fst snd].
  destruct o as [[d v]|].
  - change (vals_of ((t', Some (d, v)) :: fs)) with ((t', v) :: vals_of fs). cbn [p2p_value_of option_map snd]. destruct (t' =? t); [done | by apply IH].
  - change (vals_of ((t', None) :: fs)) with (vals_of fs). destruct (Z.eqb_spec t' t) as [<-|]; [by apply vals_of_absent | by apply IH].
Qed.

(** The entries of a table, those of the types [seen] being present. *)
Definition marked (seen : list Z) (es : list p2p_attr_entry) : list p2p_attr_entry :=
  (λ e, mk_p2p_entry (pe_type e) (pe_required e) (bool_decide (pe_type e ∈ seen))) <$> es.

Lemma marked_skip t seen es : t ∉ pe_type <$> es → marked (t :: seen) es = marked seen es.
Proof.
  induction es as [|e es IH]; [done |]. cbn [fmap list_fmap]. rewrite not_elem_of_cons. intros [Hne Ht].
  unfold marked in *. cbn [fmap list_fmap]. rewrite IH by done. f_equal. f_equal. apply bool_decide_ext. rewrite elem_of_cons. intuition congruence.
Qed.

Lemma mark_present_marked t seen es :
  NoDup (pe_type <$> es) → t ∈ pe_type <$> es → t ∉ seen → mark_present t (marked seen es) = Some (marked (t :: seen) es).
Proof.
  induction es as [|e es IH]; cbn [fmap list_fmap]; intros Hnd Hin Hs; [by apply not_elem_of_nil in Hin |].
  apply list.NoDup_cons in Hnd as [Hn Hnd]. unfold marked. cbn [fmap list_fmap mark_present pe_type pe_present pe_required].
  destruct (Z.eqb_spec t (pe_type e)) as [->|Hne].
  - rewrite bool_decide_false by done. do 2 f_equal.
    + f_equal. symmetry. apply bool_decide_eq_true. left.
    + symmetry. by apply marked_skip.
  - apply elem_of_cons in Hin as [->|Hin]; [done |]. unfold marked in IH. rewrite (IH Hnd Hin Hs). cbn [option_map]. do 3 f_equal.
    apply bool_decide_ext. rewrite elem_of_cons. intuition congruence.
Qed.

(** An iterator in front of [rest] in [pre ++ rest]. *)
Definition p2p_at (pre rest : list Z) (it : p2p_attr_iter) : Prop :=
  pi_pdu it = pre ++ rest ∧ pi_end it = zlen (pre ++ rest) ∧ next_pos it = zlen pre.

Lemma p2p_attr_iter_next_attr pre t d rest it :
  p2p_at pre (p2p_attr_bytes (t, d) ++ rest) it → 0 ≤ t < 256 → zlen d < 65536 →
  ∃ it', p2p_attr_iter_next it = Ok (it', true) ∧ p2p_at (pre ++ p2p_attr_bytes (t, d)) rest it' ∧
         pi_type it' = Some t ∧ pi_len it' = zlen d ∧ p2p_attr_iter_get_data it' = d ++ rest.
Proof.
  intros (Hp & He & Hn) Ht Hd. unfold p2p_attr_iter_next. fold (next_pos it). rewrite Hp, He, Hn.
  rewrite !zlen_app, zlen_p2p_attr_bytes. cbn [snd]. znn.
  destruct (Z.ltb_spec (zlen pre + (3 + zlen d + zlen rest)) (zlen pre + 3)); [lia |].
  unfold p2p_attr_bytes. cbn [fst snd]. rewrite u8_small by done. cbn [app]. rewrite <- !app_assoc.
  rewrite (padd_app_plus pre _ 1) by lia. change ((t :: le16_bytes (zlen d) ++ d ++ rest) +! 1) with (le16_bytes (zlen d) ++ d ++ rest).
  rewrite l_get_le16_bytes, bind_ok by lia.
  destruct (Z.ltb_spec (zlen pre + (3 + zlen d + zlen rest)) (zlen pre + 3 + zlen d)); [lia |].
  rewrite rd_app_r by lia. replace (zlen pre - zlen pre) with 0 by lia. rewrite rd_cons_0, bind_ok.
  eexists. split; [done |]. unfold p2p_at, next_pos, p2p_attr_iter_get_data. cbn [pi_pdu pi_pos pi_end pi_type pi_len]. split_and!; try done.
  - rewrite <- !app_assoc. cbn [app]. by rewrite <- !app_assoc.
  - rewrite !zlen_app, zlen_cons, zlen_app, zlen_le16. lia.
  - rewrite !zlen_app, zlen_cons, zlen_app, zlen_le16. lia.
  - rewrite (padd_app_plus pre _ 3) by lia. done.
Qed.

Lemma p2p_attr_iter_next_end pre it : p2p_at pre [] it → ∃ it', p2p_attr_iter_next it = Ok (it', false).
Proof.
  intros (Hp & He & Hn). unfold p2p_attr_iter_next. fold (next_pos it). rewrite He, Hn, app_nil_r.
  destruct (Z.ltb_spec (zlen pre) (zlen pre + 3)); [eauto | lia].
Qed.

(** The loop of the parser stores the values of the attributes. *)
Lemma p2p_attrs_loop_fields es fs :
  NoDup (pe_type <$> es) → Forall field_ok fs → NoDup (fst <$> fs) → (∀ t, t ∈ fst <$> fs → t ∈ pe_type <$> es) →
  ∀ fuel pre it seen vs,
  (length (attrs_of fs) < fuel)%nat → p2p_at pre (p2p_attrs_bytes (attrs_of fs)) it → zlen (p2p_attrs_bytes (attrs_of fs)) < 65536 →
  (∀ t, t ∈ fst <$> fs → t ∉ seen) →
  ∃ seen', p2p_attrs_loop fuel it (marked seen es) vs = Ok (true, marked seen' es, vs ++ vals_of fs) ∧
           (∀ t, t ∈ sent fs → t ∈ seen') ∧ (∀ t, t ∈ seen → t ∈ seen').
Proof.
  intros Hes Hok. induction Hok as [|f fs Hf Hok IH]; intros Hnd Hsub fuel pre it seen vs Hfuel Hat Hsz Hseen.
  { destruct fuel as [|fuel]; [lia |]. cbn [p2p_attrs_loop]. destruct (p2p_attr_iter_next_end pre it Hat) as (it' & ->).
    rewrite bind_ok. exists seen. split_and!; [| by intros t ?%not_elem_of_nil | done].
    change (vals_of []) with (@nil (Z * p2p_value)). rewrite app_nil_r. by destruct (pi_type it'). }
  destruct f as [t [[d v]|]].
  2: { apply (IH ltac:(by apply list.NoDup_cons in Hnd as [_ ?]) ltac:(intros; apply Hsub; by right) fuel pre it seen vs); [done | done | done |].
       intros t' Ht'. apply Hseen. by right. }
  cbn [fmap list_fmap fst] in *. apply list.NoDup_cons in Hnd as [Hnt Hnd]. destruct Hf as (Ht & Hb & h & Hh & Hdec). cbn [fst] in *.
  change (attrs_of ((t, Some (d, v)) :: fs)) with ([(t, d)] ++ attrs_of fs) in *. rewrite p2p_attrs_bytes_app, p2p_attrs_bytes_one in *.
  rewrite zlen_app, zlen_p2p_attr_bytes in Hsz. cbn [snd] in Hsz. znn.
  destruct (p2p_attr_iter_next_attr pre t d _ it Hat Ht ltac:(lia)) as (it' & Hn & Hat' & Hty & Hl & Hd).
  destruct fuel as [|fuel]; [cbn in Hfuel; lia |]. cbn [p2p_attrs_loop]. rewrite Hn, bind_ok. cbv beta iota. rewrite Hty.
  rewrite mark_present_marked; [| done | apply Hsub; left | apply Hseen; left]. rewrite Hh. cbn [nonnull]. rewrite bind_ok, Hl, Hd, Hdec, bind_ok.
  cbv beta iota zeta. cbn [left_behind].
  destruct (IH Hnd ltac:(intros; apply Hsub; by right) fuel (pre ++ p2p_attr_bytes (t, d)) it' (t :: seen) (vs ++ [(t, v)])) as (seen' & Hloop & Hs1 & Hs2).
  { cbn in Hfuel. lia. } { done. } { lia. }
  { intros t' Ht'. rewrite not_elem_of_cons. split; [by intros -> | apply Hseen; by right]. }
  exists seen'. rewrite Hloop, <- app_assoc. split_and!; [done | |].
  - intros t' [->|Ht']%elem_of_cons; [apply Hs2; left | by apply Hs1].
  - intros t' Ht'. apply Hs2. by right.
Qed.

(** The table of a parser takes the fields of a message: no type is there twice, every field has an
    entry, and every required entry a field that is sent. *)
Definition is_sent (f : field) : bool := match f.2 with Some _ => true | None => false end.
Definition fields_fit (es : list p2p_attr_entry) (fs : list field) : bool :=
  bool_decide (NoDup (pe_type <$> es)) && bool_decide (NoDup (fst <$> fs)) &&
  forallb (λ e, negb (pe_present e)) es && forallb (λ f, bool_decide (f.1 ∈ pe_type <$> es)) fs &&
  forallb (λ e, negb (pe_required e) || existsb (λ f, (f.1 =? pe_type e) && is_sent f) fs) es.

Lemma marked_nil es : forallb (λ e, negb (pe_present e)) es = true → marked [] es = es.
Proof.
  induction es as [|[t r p] es IH]; [done |]. cbn [forallb pe_present]. intros [Hp Hes]%andb_true_iff.
  unfold marked. cbn [fmap list_fmap]. rewrite bool_decide_false by (apply not_elem_of_nil). destruct p; [done |].
  unfold marked in IH. by rewrite IH.
Qed.

Lemma sent_in f fs : In f fs → is_sent f = true → f.1 ∈ sent fs.
Proof.
  intros Hin Hs. unfold sent. apply list_elem_of_bind. exists f. split; [| by apply list_elem_of_In].
  destruct f as [t [?|]]; [by apply list_elem_of_singleton | done].
Qed.

(** What is extracted from the elements of a frame with this payload. *)
Definition payload_result (payload : list Z) : option (list Z) * (errno + Z) :=
  if decide (payload = []) then (None, inr 0) else (Some payload, inr (zlen payload)).

Lemma length_p2p_attrs_bytes l : (length l ≤ length (p2p_attrs_bytes l))%nat.
Proof.
  induction l as [|a l IH]; [done |]. change (p2p_attrs_bytes (a :: l)) with (p2p_attr_bytes a ++ p2p_attrs_bytes l).
  rewrite length_app. pose proof (zlen_p2p_attr_bytes a) as E. unfold zlen in E. cbn [length]. lia.
Qed.

Lemma attrs_of_nil fs : attrs_of fs = [] → vals_of fs = [].
Proof. induction fs as [|[t [[d v]|]] fs IH]; [done | done |]. exact IH. Qed.

Lemma p2p_parse_attrs_fields fresh ies len es fs :
  ie_tlv_extract_p2p_payload fresh ies len = Ok (payload_result (p2p_attrs_bytes (attrs_of fs))) →
  Forall field_ok fs → fields_fit es fs = true → zlen (p2p_attrs_bytes (attrs_of fs)) < 65536 →
  p2p_parse_attrs fresh ies len es = Ok (None, vals_of fs).
Proof.
  intros He Hok Hfit Hsz. unfold p2p_parse_attrs. rewrite He, bind_ok. unfold payload_result.
  destruct (attrs_of fs) as [|a l] eqn:Ea.
  { rewrite decide_True by done. by rewrite (attrs_of_nil fs Ea). }
  rewrite <- Ea in *. set (P := p2p_attrs_bytes (attrs_of fs)) in *.
  pose proof (length_p2p_attrs_bytes (attrs_of fs)) as Hlen. fold P in Hlen.
  rewrite decide_False by (intros E; rewrite E, Ea in Hlen; cbn in Hlen; lia). cbv beta iota.
  unfold fields_fit in Hfit. rewrite !andb_true_iff in Hfit. destruct Hfit as [[[[H1 H2] H3] H4] H5].
  apply bool_decide_eq_true in H1, H2.
  destruct (p2p_attrs_loop_fields es fs H1 Hok H2) with (fuel := S (Z.to_nat (zlen P))) (pre := @nil Z)
    (it := p2p_attr_iter_init P (zlen P)) (seen := @nil Z) (vs := @nil (Z * p2p_value)) as (seen & Hl & Hs & _).
  { intros t (f & -> & Hf)%list_elem_of_fmap. rewrite forallb_forall in H4. apply list_elem_of_In in Hf.
    by apply H4, bool_decide_eq_true in Hf. }
  { unfold zlen. lia. } { done. } { done. } { intros t _. apply not_elem_of_nil. }
  rewrite (marked_nil es H3) in Hl. rewrite Hl, bind_ok. cbn [negb]. cbv iota.
  assert (Hreq : forallb (λ e, pe_present e || negb (pe_required e)) (marked seen es) = true).
  { apply forallb_forall. intros e' He'. apply in_map_iff in He' as (e & <- & Hin). cbn [pe_present pe_required].
    rewrite forallb_forall in H5. specialize (H5 e Hin). destruct (pe_required e); [| by rewrite orb_true_r]. cbn [negb orb] in H5.
    apply existsb_exists in H5 as (f & Hf & [Ht Hse]%andb_true_iff). apply Z.eqb_eq in Ht. rewrite <- Ht.
    rewrite bool_decide_true; [done | by apply Hs, sent_in]. }
  by rewrite Hreq.
Qed.
