(* ===== verification/P2pFields.v ===== *)
(** * Wi-Fi Direct: the fields of the messages

    For each kind of attribute of src/p2putil.c the data it is sent with, that the builder writes
    it ([sends]), that the decoder reads it ([field_ok]) and what a structure holds afterwards. *)

From stdpp Require Import base numbers list option.
From Stdlib Require Import ZArith Lia.
From S2P Require Import Prelude StRes IeTlv IeMisc Crypto Handshake EapolFrame EapSpec Mschap Wsc WscMsg WscSafe WscSpec WscRun.
From S2P Require Import P2p P2pMsg P2pSafe P2pSpec.

Open Scope Z_scope.

Definition sends (m : sr p2p_attr_builder unit) (f : field) : Prop := p2p_builds m (attrs_of [f]).

Lemma builds_last m f : sends m f → p2p_builds m (attrs_of [f]).
Proof. done. Qed.
Lemma builds_field m f m' fs : sends m f → p2p_builds m' (attrs_of fs) → p2p_builds (m;; m') (attrs_of (f :: fs)).
Proof.
  intros Hm Hm'. change (f :: fs) with ([f] ++ fs). unfold attrs_of. rewrite bind_app. by apply p2p_builds_seq.
Qed.

(** ** Integers *)

Lemma l_get_le32_bytes v p : 0 ≤ v < 2 ^ 32 → l_get_le32 (le32_bytes v ++ p) = Ok v.
Proof.
  intros Hv. unfold l_get_le32, le32_bytes. cbn [app]. rd_eval. f_equal. unfold u8.
  Z.to_euclidean_division_equations. lia.
Qed.
Lemma zlen_le32_bytes v : zlen (le32_bytes v) = 4.
Proof. done. Qed.
Lemma bytes_ok_one v : bytes_ok [u8 v].
Proof. apply list.Forall_singleton, u8_range. Qed.
Lemma le32_bytes_ok v : bytes_ok (le32_bytes v).
Proof. unfold le32_bytes. repeat (apply Forall_cons_2; [apply u8_range |]). apply Forall_nil_2. Qed.
Lemma be16_bytes_ok v : bytes_ok (be16_bytes v).
Proof. unfold be16_bytes. repeat (apply Forall_cons_2; [apply u8_range |]). apply Forall_nil_2. Qed.
#[local] Hint Resolve bytes_ok_one le32_bytes_ok be16_bytes_ok : iwd.

Lemma zlen_two {A} (x y : A) : zlen [x; y] = 2.
Proof. done. Qed.

(** Reads behind a known part. *)
Lemma rdn_skip (l k : list Z) n m : n = zlen l → rdn ((l ++ k) +! n) m = rdn k m.
Proof. intros ->. by rewrite padd_app. Qed.
Lemma rd_app_at (l k : list Z) n : n = zlen l → rd (l ++ k) n = rd k 0.
Proof. intros ->. rewrite rd_app_r by lia. f_equal. lia. Qed.

(** ** Attributes of one or a few bytes *)

Definition byte_field (t v : Z) : field := (t, Some ([u8 v], PByte v)).

Lemma sends_byte junk t v : sends (p2p_build_u8_attr junk t v) (byte_field t v).
Proof. apply p2p_builds_attr. by apply p2p_appends_put. Qed.

Lemma byte_field_ok t v :
  t ∈ [P2P_ATTR_STATUS; P2P_ATTR_MINOR_REASON_CODE; P2P_ATTR_CONNECTION_CAPABILITY_INFO] → byte_ok v → field_ok (byte_field t v).
Proof.
  intros Ht Hv. rewrite !elem_of_cons, elem_of_nil in Ht. unfold field_ok. cbn [byte_field fst snd].
  split_and!; [(destruct Ht as [->|[->|[->|[]]]]; done).. | apply bytes_ok_one |].
  destruct Ht as [->|[->|[->|[]]]]; eexists; (split; [done |]); intros rest; unfold extract_p2p_status, extract_p2p_byte;
    rewrite zlen_one; cbn [Z.eqb negb app]; by rewrite rd_cons_0, bind_ok, u8_small.
Qed.

Lemma byte_field_read t v vs : p2p_value_of t vs = option_map snd (byte_field t v).2 → byte_of t vs = v.
Proof. unfold byte_of. by intros ->. Qed.

(** A status that may be absent, and a byte that is absent when it is zero. *)
Definition status_field (s : option Z) : field :=
  (P2P_ATTR_STATUS, match s with Some v => Some ([u8 v], PByte v) | None => None end).

Lemma sends_status junk s :
  sends (match s with Some status => p2p_build_u8_attr junk P2P_ATTR_STATUS status | None => pass end) (status_field s).
Proof. destruct s; [apply sends_byte | apply p2p_builds_pass]. Qed.
Lemma status_field_ok s : (∀ v, s = Some v → byte_ok v) → field_ok (status_field s).
Proof. destruct s as [v|]; [| done]. intros Hv. apply byte_field_ok; [left | by apply Hv]. Qed.
Lemma status_field_read s vs : p2p_value_of P2P_ATTR_STATUS vs = option_map snd (status_field s).2 → status_of vs = s.
Proof. unfold status_of. intros ->. by destruct s. Qed.

Definition unless_field (c : bool) (t v : Z) : field := (t, if c then None else Some ([u8 v], PByte v)).

Lemma sends_unless junk c t v : sends (unless c (p2p_build_u8_attr junk t v)) (unless_field c t v).
Proof. destruct c; [apply p2p_builds_pass | apply sends_byte]. Qed.
Lemma unless_field_ok c t v :
  t ∈ [P2P_ATTR_STATUS; P2P_ATTR_MINOR_REASON_CODE; P2P_ATTR_CONNECTION_CAPABILITY_INFO] → byte_ok v → field_ok (unless_field c t v).
Proof. intros Ht Hv. destruct c; [done |]. by apply byte_field_ok. Qed.
Lemma unless_field_read c t v vs :
  p2p_value_of t vs = option_map snd (unless_field c t v).2 → (c = true → v = 0) → byte_of t vs = v.
Proof. unfold byte_of. intros -> Hc. destruct c; [by rewrite Hc | done]. Qed.

Definition flag_field (b : bool) : field := (P2P_ATTR_INVITATION_FLAGS, Some ([u8 (if b then 1 else 0)], PFlag b)).

Lemma sends_flag junk (b : bool) : sends (p2p_build_u8_attr junk P2P_ATTR_INVITATION_FLAGS (if b then 1 else 0)) (flag_field b).
Proof. apply p2p_builds_attr. by apply p2p_appends_put. Qed.
Lemma flag_field_ok b : field_ok (flag_field b).
Proof.
  unfold field_ok. cbn [flag_field fst snd]. split_and!; [done | done | apply bytes_ok_one |].
  eexists. split; [done |]. intros rest. by destruct b.
Qed.
Lemma flag_field_read b vs : p2p_value_of P2P_ATTR_INVITATION_FLAGS vs = option_map snd (flag_field b).2 → flag_of vs = b.
Proof. unfold flag_of. by intros ->. Qed.

Definition cap_ok (c : p2p_capability_attr) : Prop := byte_ok (device_caps c) ∧ byte_ok (group_caps c).
Definition cap_field (c : p2p_capability_attr) : field :=
  (P2P_ATTR_P2P_CAPABILITY, Some ([u8 (device_caps c)] ++ [u8 (group_caps c)], PCapability c)).

Lemma sends_cap junk c : sends (p2p_build_capability junk c) (cap_field c).
Proof. apply p2p_builds_attr. apply p2p_appends_seq; by apply p2p_appends_put. Qed.
Lemma cap_field_ok c : cap_ok c → field_ok (cap_field c).
Proof.
  intros [Hd Hg]. unfold field_ok. cbn [cap_field fst snd]. split_and!; [done | done | auto with iwd |].
  eexists. split; [done |]. intros rest. cbn [app]. unfold extract_p2p_capability. rewrite zlen_two. cbn [Z.eqb negb]. cbv iota.
  rd_eval. rewrite !u8_small by done. by destruct c.
Qed.
Lemma cap_field_read c vs : p2p_value_of P2P_ATTR_P2P_CAPABILITY vs = option_map snd (cap_field c).2 → capability_of vs = c.
Proof. unfold capability_of. by intros ->. Qed.

Definition intent_field (i : Z) (tb : bool) : field :=
  (P2P_ATTR_GO_INTENT, Some ([u8 (Z.lor (if tb then 1 else 0) (Z.shiftl i 1))], PIntent (mk_go_intent i tb))).

Lemma sends_intent junk i tb : sends (p2p_build_go_intent junk i tb) (intent_field i tb).
Proof. apply p2p_builds_attr. by apply p2p_appends_put. Qed.

(** The sixteen values of the intent, with and without the tie breaker. *)
Lemma intent_bits i (tb : bool) :
  0 ≤ i ≤ 15 →
  let v := u8 (Z.lor (if tb then 1 else 0) (Z.shiftl i 1)) in
  Z.shiftr v 1 = i ∧ Z.land i (Z.lnot 15) = 0 ∧ Z.odd v = tb.
Proof.
  intros Hi. assert (Hin : In i (seqZ 0 16)) by (apply list_elem_of_In, elem_of_seqZ; lia).
  assert (Hall : forallb (λ i, forallb (λ b : bool,
    let v := u8 (Z.lor (if b then 1 else 0) (Z.shiftl i 1)) in
    (Z.shiftr v 1 =? i) && (Z.land i (Z.lnot 15) =? 0) && Bool.eqb (Z.odd v) b) [true; false]) (seqZ 0 16) = true) by (vm_compute; reflexivity).
  rewrite forallb_forall in Hall. specialize (Hall i Hin). rewrite forallb_forall in Hall. specialize (Hall tb).
  assert (Hb : In tb [true; false]) by (destruct tb; cbn; tauto). specialize (Hall Hb). cbv zeta in *.
  rewrite !andb_true_iff, !Z.eqb_eq, Bool.eqb_true_iff in Hall. tauto.
Qed.

Lemma intent_field_ok i tb : 0 ≤ i ≤ 15 → field_ok (intent_field i tb).
Proof.
  intros Hi. unfold field_ok. cbn [intent_field fst snd]. split_and!; [done | done | apply bytes_ok_one |].
  eexists. split; [done |]. intros rest. unfold extract_p2p_go_intent. rewrite zlen_one. cbn [Z.eqb negb app]. rewrite rd_cons_0, bind_ok.
  destruct (intent_bits i tb Hi) as (H1 & H2 & H3). cbv zeta in *. by rewrite H1, H2, H3.
Qed.
Lemma intent_field_read i tb vs :
  p2p_value_of P2P_ATTR_GO_INTENT vs = option_map snd (intent_field i tb).2 → intent_of vs = Some (mk_go_intent i tb).
Proof. unfold intent_of. by intros ->. Qed.

Definition timeout_ok (x : p2p_config_timeout_attr) : Prop := byte_ok (go_config_timeout x) ∧ byte_ok (client_config_timeout x).
Definition timeout_field (opt : bool) (x : p2p_config_timeout_attr) : field :=
  (P2P_ATTR_CONFIGURATION_TIMEOUT,
   if opt && (go_config_timeout x =? 0) && (client_config_timeout x =? 0) then None
   else Some ([u8 (go_config_timeout x)] ++ [u8 (client_config_timeout x)], PTimeout x)).

Lemma sends_timeout junk opt x : sends (p2p_build_config_timeout junk opt x) (timeout_field opt x).
Proof.
  unfold p2p_build_config_timeout, timeout_field, sends. destruct (_ && _); [apply p2p_builds_pass |].
  apply p2p_builds_attr. apply p2p_appends_seq; by apply p2p_appends_put.
Qed.
Lemma timeout_field_ok opt x : timeout_ok x → field_ok (timeout_field opt x).
Proof.
  intros [Hd Hg]. unfold field_ok. cbn [timeout_field fst snd]. destruct (_ && _); [done |]. split_and!; [done | done | auto with iwd |].
  eexists. split; [done |]. intros rest. cbn [app]. unfold extract_p2p_config_timeout. rewrite zlen_two. cbn [Z.eqb negb]. cbv iota.
  rd_eval. rewrite !u8_small by done. by destruct x.
Qed.
Lemma timeout_field_read opt x vs :
  p2p_value_of P2P_ATTR_CONFIGURATION_TIMEOUT vs = option_map snd (timeout_field opt x).2 → timeout_of vs = x.
Proof.
  unfold timeout_of. intros ->. cbn [timeout_field snd]. destruct (_ && _) eqn:E; [| done].
  rewrite !andb_true_iff, !Z.eqb_eq in E. destruct x; cbn in *. destruct E as [[_ ->] ->]. done.
Qed.

Definition listen_ok (x : p2p_extended_listen_timing_attr) : Prop :=
  0 ≤ avail_period_ms x < 65536 ∧ 0 ≤ avail_interval_ms x < 65536.
Definition listen_field (x : p2p_extended_listen_timing_attr) : field :=
  (P2P_ATTR_EXTENDED_LISTEN_TIMING,
   if (avail_period_ms x =? 0) && (avail_interval_ms x =? 0) then None
   else Some (le16_bytes (avail_period_ms x) ++ le16_bytes (avail_interval_ms x), PListen x)).

Lemma sends_listen junk x : sends (p2p_build_extended_listen_timing junk x) (listen_field x).
Proof.
  unfold p2p_build_extended_listen_timing, listen_field, sends. destruct (_ && _); [apply p2p_builds_pass |].
  apply p2p_builds_attr. apply p2p_appends_seq; by apply p2p_appends_put.
Qed.
Lemma listen_field_ok x : listen_ok x → field_ok (listen_field x).
Proof.
  intros [Hp Hi]. unfold field_ok. cbn [listen_field fst snd]. destruct (_ && _); [done |]. split_and!; [done | done | auto with iwd |].
  eexists. split; [done |]. intros rest. rewrite <- app_assoc. unfold extract_p2p_listen_timing.
  change (negb (zlen (le16_bytes (avail_period_ms x) ++ le16_bytes (avail_interval_ms x)) =? 4)) with false. cbv iota.
  rewrite l_get_le16_bytes, bind_ok by done. rewrite padd_app by done. rewrite l_get_le16_bytes, bind_ok by done. by destruct x.
Qed.
Lemma listen_field_read x vs :
  p2p_value_of P2P_ATTR_EXTENDED_LISTEN_TIMING vs = option_map snd (listen_field x).2 → listen_of vs = x.
Proof.
  unfold listen_of. intros ->. cbn [listen_field snd]. destruct (_ && _) eqn:E; [| done].
  rewrite !andb_true_iff, !Z.eqb_eq in E. destruct x; cbn in *. destruct E as [-> ->]. done.
Qed.

Definition transport_field (opt : bool) (x : p2p_asp_coordination_transport_protocol) : field :=
  (P2P_ATTR_FEATURE_CAPABILITY,
   if opt && (match x with P2P_ASP_TRANSPORT_UNKNOWN => true | _ => false end) then None
   else Some ([u8 1] ++ [u8 0], PTransport P2P_ASP_TRANSPORT_UDP)).

Lemma sends_transport junk opt x : sends (p2p_build_feature_capability junk opt x) (transport_field opt x).
Proof.
  unfold p2p_build_feature_capability, transport_field, sends. destruct (_ && _); [apply p2p_builds_pass |].
  apply p2p_builds_attr. apply p2p_appends_seq; by apply p2p_appends_put.
Qed.
Lemma transport_field_ok opt x : field_ok (transport_field opt x).
Proof.
  unfold field_ok. cbn [transport_field fst snd]. destruct (_ && _); [done |]. split_and!; [done | done | auto with iwd |].
  by eexists.
Qed.
(** An unknown protocol is read back when it may be left out. *)
Lemma transport_field_read x vs :
  p2p_value_of P2P_ATTR_FEATURE_CAPABILITY vs = option_map snd (transport_field true x).2 → transport_of vs = x.
Proof. unfold transport_of. intros ->. by destruct x. Qed.

(** ** Addresses and channels *)

Definition addr_ok (a : list Z) : Prop := zlen a = 6 ∧ bytes_ok a.
Definition addr_field (opt : bool) (t : Z) (a : list Z) : field := (t, if opt && zero_addr a then None else Some (a, PAddr a)).

Lemma zero_addr_eq a : zlen a = 6 → zero_addr a = true → a = zeros 6.
Proof. intros Ha Hz. unfold zero_addr in Hz. apply bool_decide_eq_true in Hz. by rewrite ptake_all in Hz by lia. Qed.

Lemma sends_addr junk opt t a : zlen a = 6 → sends (p2p_build_addr junk opt t a) (addr_field opt t a).
Proof.
  intros Ha. unfold p2p_build_addr, addr_field, sends. destruct (_ && _); [apply p2p_builds_pass |].
  apply p2p_builds_attr. by apply p2p_appends_array.
Qed.
Lemma addr_field_ok opt t a :
  t ∈ [P2P_ATTR_P2P_DEVICE_ID; P2P_ATTR_P2P_GROUP_BSSID; P2P_ATTR_INTENDED_P2P_INTERFACE_ADDR] → addr_ok a →
  field_ok (addr_field opt t a).
Proof.
  intros Ht [Ha Hb]. rewrite !elem_of_cons, elem_of_nil in Ht. unfold field_ok. cbn [addr_field fst snd]. destruct (_ && _); [done |].
  split_and!; [(destruct Ht as [->|[->|[->|[]]]]; done).. | done |].
  exists extract_p2p_addr. split; [destruct Ht as [->|[->|[->|[]]]]; done |]. intros rest. unfold extract_p2p_addr. rewrite Ha. cbn [Z.eqb negb].
  change (6 =? 6) with true. cbn [negb]. by rewrite rdn_app.
Qed.
Lemma addr_field_read opt t a vs :
  p2p_value_of t vs = option_map snd (addr_field opt t a).2 → zlen a = 6 → addr_of t vs = a.
Proof.
  unfold addr_of. intros -> Ha. cbn [addr_field snd]. destruct (_ && _) eqn:E; [| done].
  apply andb_true_iff in E as [_ E]. symmetry. by apply zero_addr_eq.
Qed.

(** A channel that is left out is all zeros. *)
Definition channel_ok (opt : bool) (c : p2p_channel_attr) : Prop :=
  zlen (ch_country c) = 3 ∧ bytes_ok (ch_country c) ∧ byte_ok (ch_oper_class c) ∧ byte_ok (ch_channel_num c) ∧
  (opt = true → rd (ch_country c) 0 = Ok 0 → c = zero_channel).
Definition channel_left_out (opt : bool) (c : p2p_channel_attr) : bool := opt && (match ch_country c with x :: _ => x =? 0 | [] => false end).
Definition channel_field (opt : bool) (t : Z) (c : p2p_channel_attr) : field :=
  (t, if channel_left_out opt c then None
      else Some (ch_country c ++ [u8 (ch_oper_class c)] ++ [u8 (ch_channel_num c)], PChannel c)).

Lemma rd_head c : zlen (ch_country c) = 3 → ∃ x l, ch_country c = x :: l ∧ rd (ch_country c) 0 = Ok x.
Proof. destruct (ch_country c) as [|x l]; [done |]. intros _. exists x, l. by rewrite rd_cons_0. Qed.

Lemma sends_channel junk opt t c : zlen (ch_country c) = 3 → sends (p2p_build_channel junk opt t c) (channel_field opt t c).
Proof.
  intros Hc. destruct (rd_head c Hc) as (x & l & El & Er). unfold p2p_build_channel, channel_field, channel_left_out, sends. rewrite El.
  eapply p2p_builds_run; [by rewrite <- El |]. rewrite El in Er. cbv beta. destruct (_ && _); [apply p2p_builds_pass |].
  apply p2p_builds_attr. rewrite <- El. apply p2p_appends_seq; [by apply p2p_appends_array |].
  apply p2p_appends_seq; by apply p2p_appends_put.
Qed.
Lemma channel_field_ok opt t c :
  t ∈ [P2P_ATTR_LISTEN_CHANNEL; P2P_ATTR_OPERATING_CHANNEL] → channel_ok opt c → field_ok (channel_field opt t c).
Proof.
  intros Ht (Hc & Hb & Ho & Hn & _). rewrite !elem_of_cons, elem_of_nil in Ht. unfold field_ok. cbn [channel_field fst snd].
  destruct (channel_left_out opt c); [done |].
  split_and!; [(destruct Ht as [->|[->|[]]]; done).. | auto with iwd |].
  exists extract_p2p_channel. split; [destruct Ht as [->|[->|[]]]; done |]. intros rest. unfold extract_p2p_channel.
  rewrite !zlen_app, Hc, !zlen_one. change (negb (3 + (1 + 1) =? 5)) with false. cbv iota. rewrite <- !app_assoc.
  rewrite rdn_app, bind_ok by done. rewrite (rd_app_at _ _ 3) by done. cbn [app]. rewrite rd_cons_0, bind_ok.
  rewrite rd_app_r, Hc by lia. change (4 - 3) with 1. change (rd (?a :: ?b :: ?l) 1) with (Ok b). rewrite bind_ok, !u8_small by done. by destruct c.
Qed.
Lemma channel_field_read opt t c vs :
  p2p_value_of t vs = option_map snd (channel_field opt t c).2 → channel_ok opt c → channel_of t vs = c.
Proof.
  unfold channel_of. intros -> (Hc & _ & _ & _ & Hz). cbn [channel_field snd]. unfold channel_left_out.
  destruct (rd_head c Hc) as (x & l & El & Er). rewrite El. destruct (opt && (x =? 0)) eqn:E; [| done].
  apply andb_true_iff in E as [-> ->%Z.eqb_eq]. symmetry. by apply Hz.
Qed.

(** The channel list: the country and the entries, each a class, a number and channels. *)
Definition entry_bytes (e : p2p_channel_entries) : list Z := [u8 (ce_oper_class e)] ++ [u8 (ce_n_channels e)] ++ ce_channels e.
Definition entry_ok (e : p2p_channel_entries) : Prop :=
  byte_ok (ce_oper_class e) ∧ ce_n_channels e = zlen (ce_channels e) ∧ zlen (ce_channels e) < 256 ∧ bytes_ok (ce_channels e).
Definition channels_ok (opt : bool) (c : p2p_channel_list_attr) : Prop :=
  zlen (cl_country c) = 3 ∧ bytes_ok (cl_country c) ∧
  ((∃ l, cl_channel_entries c = Queue l ∧ Forall entry_ok l) ∨ (opt = true ∧ c = zero_channels)).
Definition queue_list {A} (q : l_queue A) : list A := match q with Queue l => l | _ => [] end.
Definition channels_field (opt : bool) (c : p2p_channel_list_attr) : field :=
  (P2P_ATTR_CHANNEL_LIST,
   if opt && is_null (cl_channel_entries c) then None
   else Some (cl_country c ++ (queue_list (cl_channel_entries c) ≫= entry_bytes), PChannels c)).

Lemma appends_entry junk e : entry_ok e → p2p_appends (build_channel_entry junk e) (entry_bytes e).
Proof.
  intros (Ho & Hn & _ & _). unfold build_channel_entry, entry_bytes. apply p2p_appends_seq; [by apply p2p_appends_put |].
  apply p2p_appends_seq; [by apply p2p_appends_put | by apply p2p_appends_array].
Qed.

Lemma sends_channels junk opt c : channels_ok opt c → sends (p2p_build_channel_list junk opt c) (channels_field opt c).
Proof.
  intros (Hc & Hb & Hq). unfold p2p_build_channel_list, channels_field, sends.
  destruct Hq as [(l & Eq & Hl)|[-> ->]]; [| apply p2p_builds_pass]. rewrite Eq. cbn [is_null queue_list]. rewrite andb_false_r.
  apply p2p_builds_attr. apply p2p_appends_seq; [by apply p2p_appends_array |]. eapply p2p_appends_run; [done |].
  apply p2p_appends_each. eapply list.Forall_impl; [exact Hl |]. intros e. by apply appends_entry.
Qed.

Lemma channel_entries_loop_ok l rest acc fuel :
  Forall entry_ok l → zlen (l ≫= entry_bytes) ≤ Z.of_nat fuel →
  channel_entries_loop fuel ((l ≫= entry_bytes) ++ rest) (zlen (l ≫= entry_bytes)) acc = Ok (Some (acc ++ l)).
Proof.
  intros Hl. revert acc fuel. induction Hl as [|e l (Ho & Hn & Hs & Hb) _ IH]; intros acc fuel Hf.
  { destruct fuel; by rewrite app_nil_r. }
  change ((e :: l) ≫= entry_bytes) with (entry_bytes e ++ (l ≫= entry_bytes)) in *. rewrite zlen_app in *.
  assert (He : zlen (entry_bytes e) = 2 + zlen (ce_channels e)) by (unfold entry_bytes; rewrite !zlen_app, !zlen_one; lia).
  rewrite He in *. set (r := l ≫= entry_bytes) in *. znn. destruct fuel as [|fuel]; [lia |]. cbn [channel_entries_loop].
  destruct (Z.eqb_spec (2 + zlen (ce_channels e) + zlen r) 0); [lia |].
  destruct (Z.ltb_spec (2 + zlen (ce_channels e) + zlen r) 2); [lia |].
  unfold entry_bytes. cbn [app]. rewrite <- !app_assoc. rd_eval. rewrite Hn, (u8_small (zlen _)) by lia.
  destruct (Z.ltb_spec (2 + zlen (ce_channels e) + zlen r) (2 + zlen (ce_channels e))); [lia |].
  rewrite u8_small by done. change ((?a :: ?b :: ?k) +! 2) with k. rewrite rdn_app, bind_ok, padd_app by done.
  replace (2 + zlen (ce_channels e) + zlen r - (2 + zlen (ce_channels e))) with (zlen r) by lia.
  rewrite IH by lia. rewrite <- app_assoc. do 3 f_equal. cbn [app]. f_equal. destruct e; cbn in *. by rewrite Hn.
Qed.

Lemma bytes_ok_bind {A} (enc : A → list Z) l : Forall (λ a, bytes_ok (enc a)) l → bytes_ok (l ≫= enc).
Proof. induction 1; [apply Forall_nil_2 |]. by apply Forall_app_2. Qed.

Lemma entry_bytes_ok e : entry_ok e → bytes_ok (entry_bytes e).
Proof. intros (Ho & Hn & Hs & Hb). unfold entry_bytes. auto with iwd. Qed.

Lemma channels_field_ok opt c : channels_ok opt c → field_ok (channels_field opt c).
Proof.
  intros (Hc & Hb & Hq). unfold field_ok. cbn [channels_field fst snd].
  destruct Hq as [(l & Eq & Hl)|[-> ->]]; [| done]. rewrite Eq. cbn [is_null queue_list]. rewrite andb_false_r.
  split_and!; [done | done | |].
  { apply Forall_app_2; [done |]. apply bytes_ok_bind. eapply list.Forall_impl; [exact Hl | apply entry_bytes_ok]. }
  eexists. split; [done |]. intros rest. rewrite <- app_assoc. unfold extract_p2p_channel_list. rewrite zlen_app, Hc. znn.
  destruct (Z.ltb_spec (3 + zlen (l ≫= entry_bytes)) 3); [lia |]. rewrite rdn_app, bind_ok, padd_app by done.
  replace (3 + zlen (l ≫= entry_bytes) - 3) with (zlen (l ≫= entry_bytes)) by lia.
  rewrite channel_entries_loop_ok by (done || lia). rewrite bind_ok. cbn [app]. unfold store. destruct c; cbn in *. by rewrite Eq.
Qed.
Lemma channels_field_read opt c vs :
  p2p_value_of P2P_ATTR_CHANNEL_LIST vs = option_map snd (channels_field opt c).2 → channels_ok opt c → channels_of vs = c.
Proof.
  unfold channels_of. intros -> (Hc & _ & Hq). cbn [channels_field snd]. destruct Hq as [(l & Eq & Hl)|[-> ->]]; [| done].
  rewrite Eq. cbn [is_null]. by rewrite andb_false_r.
Qed.

(** A channel that is not left out, although it could be. *)
Lemma sends_channel_present junk t c :
  zlen (ch_country c) = 3 → channel_left_out true c = false → sends (p2p_build_channel junk true t c) (channel_field false t c).
Proof.
  intros Hc Hl. pose proof (sends_channel junk true t c Hc) as H. unfold channel_field in *. by rewrite Hl in H.
Qed.

(** ** Notice of absence *)

Definition desc_bytes (d : p2p_notice_of_absence_desc) : list Z :=
  [u8 (nd_count_type d)] ++ le32_bytes (nd_duration d) ++ le32_bytes (nd_interval d) ++ le32_bytes (nd_start_time d).
Definition desc_ok (d : p2p_notice_of_absence_desc) : Prop :=
  byte_ok (nd_count_type d) ∧ 0 ≤ nd_duration d < 2 ^ 32 ∧ 0 ≤ nd_interval d < 2 ^ 32 ∧ 0 ≤ nd_start_time d < 2 ^ 32.
Definition absence_ok (opt : bool) (a : p2p_notice_of_absence_attr) : Prop :=
  byte_ok (na_index a) ∧ 0 ≤ na_ct_window a < 128 ∧ (na_opp_ps a = true → na_ct_window a ≠ 0) ∧
  ((∃ l, na_descriptors a = Queue l ∧ Forall desc_ok l) ∨ (opt = true ∧ a = zero_absence)).
Definition absence_field (opt : bool) (a : p2p_notice_of_absence_attr) : field :=
  (P2P_ATTR_NOTICE_OF_ABSENCE,
   if opt && (na_ct_window a =? 0) && is_null (na_descriptors a) then None
   else Some ([u8 (na_index a)] ++ [u8 (Z.lor (na_ct_window a) (if na_opp_ps a then 0x80 else 0))] ++
              (queue_list (na_descriptors a) ≫= desc_bytes), PAbsence a)).

Lemma appends_desc junk d : p2p_appends (build_absence_desc junk d) (desc_bytes d).
Proof.
  unfold build_absence_desc, desc_bytes. repeat (apply p2p_appends_seq; [by apply p2p_appends_put |]). by apply p2p_appends_put.
Qed.
Lemma sends_absence junk opt a : absence_ok opt a → sends (p2p_build_notice_of_absence_attr junk opt a) (absence_field opt a).
Proof.
  intros (_ & _ & _ & Hq). unfold p2p_build_notice_of_absence_attr, absence_field, sends.
  destruct Hq as [(l & Eq & Hl)|[-> ->]]; [| apply p2p_builds_pass]. rewrite Eq. cbn [is_null queue_list]. rewrite andb_false_r.
  apply p2p_builds_attr. do 2 (apply p2p_appends_seq; [by apply p2p_appends_put |]). eapply p2p_appends_run; [done |].
  apply p2p_appends_each. eapply list.Forall_impl; [exact Hl |]. intros d _. apply appends_desc.
Qed.

Lemma absence_loop_ok l rest acc fuel :
  Forall desc_ok l → zlen (l ≫= desc_bytes) ≤ Z.of_nat fuel →
  absence_loop fuel ((l ≫= desc_bytes) ++ rest) (zlen (l ≫= desc_bytes)) acc = Ok (acc ++ l).
Proof.
  intros Hl. revert acc fuel. induction Hl as [|d l (Hc & Hd & Hi & Hs) _ IH]; intros acc fuel Hf.
  { destruct fuel; by rewrite app_nil_r. }
  change ((d :: l) ≫= desc_bytes) with (desc_bytes d ++ (l ≫= desc_bytes)) in *. rewrite zlen_app in *.
  change (zlen (desc_bytes d)) with 13 in *. set (r := l ≫= desc_bytes) in *. znn. destruct fuel as [|fuel]; [lia |]. cbn [absence_loop].
  destruct (Z.eqb_spec (13 + zlen r) 0); [lia |]. unfold desc_bytes. rewrite <- !app_assoc. cbn [app]. rewrite rd_cons_0, bind_ok.
  change ((?a :: ?k) +! 1) with k. rewrite l_get_le32_bytes, bind_ok by done.
  change ((?a :: le32_bytes ?x ++ ?k) +! 5) with k. rewrite l_get_le32_bytes, bind_ok by done.
  change ((?a :: le32_bytes ?x ++ le32_bytes ?y ++ ?k) +! 9) with k. rewrite l_get_le32_bytes, bind_ok by done.
  change ((?a :: le32_bytes ?x ++ le32_bytes ?y ++ le32_bytes ?z ++ ?k) +! 13) with k.
  replace (13 + zlen r - 13) with (zlen r) by lia. rewrite IH by lia. rewrite <- app_assoc, u8_small by done. cbn [app]. by destruct d.
Qed.

(** The window and the flag in one byte. *)
Lemma window_bits w (b : bool) :
  0 ≤ w < 128 → let v := u8 (Z.lor w (if b then 0x80 else 0)) in Z.land v 127 = w ∧ negb (Z.shiftr v 7 =? 0) = b.
Proof.
  intros Hw. assert (Hin : In w (seqZ 0 128)) by (apply list_elem_of_In, elem_of_seqZ; lia).
  assert (Hall : forallb (λ w, forallb (λ b : bool,
    let v := u8 (Z.lor w (if b then 0x80 else 0)) in (Z.land v 127 =? w) && Bool.eqb (negb (Z.shiftr v 7 =? 0)) b) [true; false])
    (seqZ 0 128) = true) by (vm_compute; reflexivity).
  rewrite forallb_forall in Hall. specialize (Hall w Hin). rewrite forallb_forall in Hall. specialize (Hall b).
  assert (Hb : In b [true; false]) by (destruct b; cbn; tauto). specialize (Hall Hb). cbv zeta in *.
  by rewrite !andb_true_iff, Z.eqb_eq, Bool.eqb_true_iff in Hall.
Qed.

Lemma zlen_descs l : zlen (l ≫= desc_bytes) = 13 * zlen l.
Proof. induction l as [|d l IH]; [done |]. change ((d :: l) ≫= desc_bytes) with (desc_bytes d ++ (l ≫= desc_bytes)). rewrite zlen_app, IH, zlen_cons. change (zlen (desc_bytes d)) with 13. lia. Qed.

Lemma desc_bytes_ok d : bytes_ok (desc_bytes d).
Proof. unfold desc_bytes. auto with iwd. Qed.

Lemma absence_field_ok opt a : absence_ok opt a → field_ok (absence_field opt a).
Proof.
  intros (Hi & Hw & Hopp & Hq). unfold field_ok. cbn [absence_field fst snd].
  destruct Hq as [(l & Eq & Hl)|[-> ->]]; [| done]. rewrite Eq. cbn [is_null queue_list]. rewrite andb_false_r.
  split_and!; [done | done | |].
  { repeat apply Forall_app_2; [auto with iwd | auto with iwd |]. apply bytes_ok_bind. eapply list.Forall_impl; [exact Hl |]. intros d _. apply desc_bytes_ok. }
  eexists. split; [done |]. intros rest. rewrite <- !app_assoc. unfold extract_p2p_notice_of_absence. rewrite !zlen_app, !zlen_one, zlen_descs.
  assert (Hm : (1 + (1 + 13 * zlen l)) mod 13 = 2) by (replace (1 + (1 + 13 * zlen l)) with (2 + zlen l * 13) by lia; by rewrite Z.mod_add).
  rewrite Hm. change (negb (2 =? 2)) with false. cbv iota. cbn [app]. rd_eval. destruct (window_bits (na_ct_window a) (na_opp_ps a) Hw) as [H1 H2].
  cbv zeta in *. rewrite H1, H2, (u8_small (na_index a)) by done.
  assert (Hc : na_opp_ps a && (na_ct_window a =? 0) = false).
  { destruct (na_opp_ps a); [| done]. destruct (Z.eqb_spec (na_ct_window a) 0); [by destruct Hopp | done]. }
  rewrite Hc. change ((?x :: ?y :: ?k) +! 2) with k. replace (1 + (1 + 13 * zlen l) - 2) with (zlen (l ≫= desc_bytes)) by (rewrite zlen_descs; lia).
  rewrite absence_loop_ok; [| done | rewrite zlen_descs; znn; lia]. rewrite bind_ok. cbn [app]. unfold store. destruct a; cbn in *. by rewrite Eq.
Qed.
Lemma absence_field_read opt a vs :
  p2p_value_of P2P_ATTR_NOTICE_OF_ABSENCE vs = option_map snd (absence_field opt a).2 → absence_ok opt a → absence_of vs = a.
Proof.
  unfold absence_of. intros -> (_ & _ & _ & Hq). cbn [absence_field snd]. destruct Hq as [(l & Eq & Hl)|[-> ->]]; [| done].
  rewrite Eq. cbn [is_null]. by rewrite andb_false_r.
Qed.

(** ** Names, groups and addresses *)

(** A C string with its bytes. *)
Definition cstring_ok (max : Z) (s : list Z) : Prop := Forall (λ c, c ≠ 0) s ∧ bytes_ok s ∧ zlen s ≤ max.

Lemma c_string_id s : Forall (λ c, c ≠ 0) s → c_string s = s.
Proof. induction 1 as [|c s Hc _ IH]; cbn [c_string]; [done |]. destruct (Z.eqb_spec c 0); [done | by rewrite IH]. Qed.

Definition group_id_ok (opt : bool) (g : p2p_group_id_attr) : Prop :=
  addr_ok (gi_device_addr g) ∧ cstring_ok 32 (gi_ssid g) ∧ (opt = true → zero_addr (gi_device_addr g) = true → g = zero_group_id).
Definition group_id_field (opt : bool) (t : Z) (g : p2p_group_id_attr) : field :=
  (t, if opt && zero_addr (gi_device_addr g) then None else Some (gi_device_addr g ++ gi_ssid g, PGroupId g)).

Lemma sends_group_id junk opt t g : group_id_ok opt g → sends (p2p_build_group_id junk opt t g) (group_id_field opt t g).
Proof.
  intros ([Ha _] & (Hs & _) & _). unfold p2p_build_group_id, group_id_field, sends. destruct (_ && _); [apply p2p_builds_pass |].
  rewrite c_string_id by done. apply p2p_builds_attr. apply p2p_appends_seq; by apply p2p_appends_array.
Qed.
Lemma group_id_field_ok opt t g :
  t ∈ [P2P_ATTR_P2P_GROUP_ID; P2P_ATTR_PERSISTENT_GROUP_INFO] → group_id_ok opt g → field_ok (group_id_field opt t g).
Proof.
  intros Ht ([Ha Hab] & (_ & Hsb & Hs) & _). rewrite !elem_of_cons, elem_of_nil in Ht. unfold field_ok. cbn [group_id_field fst snd].
  destruct (_ && _); [done |]. split_and!; [(destruct Ht as [->|[->|[]]]; done).. | auto with iwd |].
  exists extract_p2p_group_id. split; [destruct Ht as [->|[->|[]]]; done |]. intros rest. rewrite <- app_assoc. unfold extract_p2p_group_id.
  rewrite zlen_app, Ha. znn. destruct (Z.ltb_spec (6 + zlen (gi_ssid g)) 6); [lia |]. destruct (Z.ltb_spec 38 (6 + zlen (gi_ssid g))); [lia |].
  cbn [orb]. rewrite rdn_app, bind_ok, rdn_skip by done. rewrite rdn_app, bind_ok by lia. by destruct g.
Qed.
Lemma group_id_field_read opt t g vs :
  p2p_value_of t vs = option_map snd (group_id_field opt t g).2 → group_id_ok opt g → group_id_of t vs = g.
Proof.
  unfold group_id_of. intros -> (_ & _ & Hz). cbn [group_id_field snd]. destruct (_ && _) eqn:E; [| done].
  apply andb_true_iff in E as [-> E]. symmetry. by apply Hz.
Qed.

Lemma six_bytes_loop_ok l rest acc :
  Forall addr_ok l → six_bytes_loop (length l) (concat l ++ rest) acc = Ok (acc ++ l).
Proof.
  intros Hl. revert acc. induction Hl as [|a l [Ha _] _ IH]; intros acc; cbn [length six_bytes_loop concat]; [by rewrite app_nil_r |].
  rewrite <- app_assoc, rdn_app, bind_ok, padd_app by done. rewrite IH, <- app_assoc. done.
Qed.
Lemma zlen_concat_addrs l : Forall addr_ok l → zlen (concat l) = 6 * zlen l.
Proof. induction 1 as [|a l [Ha _] _ IH]; [done |]. cbn [concat]. rewrite zlen_app, zlen_cons, IH, Ha. lia. Qed.
Lemma bytes_ok_concat l : Forall addr_ok l → bytes_ok (concat l).
Proof. induction 1 as [|a l [_ Hb] _ IH]; [apply Forall_nil_2 |]. cbn [concat]. by apply Forall_app_2. Qed.
Lemma concat_bind (l : list (list Z)) : concat l = l ≫= λ a, a.
Proof. induction l as [|a l IH]; [done |]. cbn [concat]. by rewrite IH. Qed.
Lemma appends_addrs junk l : Forall addr_ok l → p2p_appends (for_each (build_six_bytes junk) l) (concat l).
Proof.
  intros Hl. rewrite concat_bind. apply p2p_appends_each. eapply list.Forall_impl; [exact Hl |]. intros a [Ha _]. by apply p2p_appends_array.
Qed.

Definition interface_ok (i : p2p_interface_attr) : Prop :=
  addr_ok (if_device_addr i) ∧
  ((∃ l, if_interface_addrs i = Queue l ∧ Forall addr_ok l ∧ zlen l < 256 ∧ zero_addr (if_device_addr i) = false) ∨ i = zero_interface).
Definition interface_field (i : p2p_interface_attr) : field :=
  (P2P_ATTR_P2P_INTERFACE,
   if zero_addr (if_device_addr i) then None
   else Some (if_device_addr i ++ [u8 (zlen (queue_list (if_interface_addrs i)))] ++ concat (queue_list (if_interface_addrs i)), PInterface i)).

Lemma sends_interface junk i : interface_ok i → sends (p2p_build_interface junk i) (interface_field i).
Proof.
  intros [[Ha _] [(l & Eq & Hl & _ & Hz)| ->]]; [| apply p2p_builds_pass]. unfold p2p_build_interface, interface_field, sends. rewrite Hz, Eq.
  apply p2p_builds_attr. apply p2p_appends_seq; [by apply p2p_appends_array |]. eapply p2p_appends_run; [done |].
  apply p2p_appends_seq; [by apply p2p_appends_put | by apply appends_addrs].
Qed.
Lemma interface_field_ok i : interface_ok i → field_ok (interface_field i).
Proof.
  intros [[Ha Hab] [(l & Eq & Hl & Hn & Hz)| ->]]; [| done]. unfold field_ok. cbn [interface_field fst snd]. rewrite Hz, Eq. cbn [queue_list].
  split_and!; [done | done | repeat apply Forall_app_2; [done | auto with iwd | by apply bytes_ok_concat] |].
  eexists. split; [done |]. intros rest. rewrite <- !app_assoc. unfold extract_p2p_interface.
  rewrite !zlen_app, Ha, zlen_one, zlen_concat_addrs by done. znn. destruct (Z.ltb_spec (6 + (1 + 6 * zlen l)) 7); [lia |].
  rewrite rd_app_at by done. cbn [app]. rewrite rd_cons_0, bind_ok, u8_small by lia.
  destruct (Z.ltb_spec (6 + (1 + 6 * zlen l)) (7 + zlen l * 6)); [lia |]. rewrite rdn_app, bind_ok by done.
  change (if_device_addr i ++ zlen l :: concat l ++ rest) with (if_device_addr i ++ [zlen l] ++ concat l ++ rest).
  rewrite app_assoc, padd_app by (by rewrite zlen_app, Ha). unfold zlen at 1. rewrite Nat2Z.id, six_bytes_loop_ok, bind_ok by done.
  cbn [app]. unfold store. destruct i; cbn in *. by rewrite Eq.
Qed.
Lemma interface_field_read i vs :
  p2p_value_of P2P_ATTR_P2P_INTERFACE vs = option_map snd (interface_field i).2 → interface_ok i → interface_of vs = i.
Proof.
  unfold interface_of. intros -> [_ [(l & Eq & Hl & _ & Hz)| ->]]; [| done]. cbn [interface_field snd]. by rewrite Hz.
Qed.

Definition hashes_ok (q : l_queue (list Z)) : Prop := match q with QNull => True | Queue l => Forall addr_ok l | QFreed => False end.
Definition hashes_field (q : l_queue (list Z)) : field :=
  (P2P_ATTR_SVC_HASH, if is_null q then None else Some (concat (queue_list q), PHashes q)).

Lemma sends_hashes junk q : hashes_ok q → sends (p2p_build_svc_hash junk q) (hashes_field q).
Proof.
  intros Hq. unfold p2p_build_svc_hash, hashes_field, sends. destruct q as [|l|]; [apply p2p_builds_pass | | done]. cbn [is_null queue_list].
  apply p2p_builds_attr. eapply p2p_appends_run; [done |]. by apply appends_addrs.
Qed.
Lemma hashes_field_ok q : hashes_ok q → field_ok (hashes_field q).
Proof.
  intros Hq. unfold field_ok. cbn [hashes_field fst snd]. destruct q as [|l|]; [done | | done]. cbn [is_null queue_list].
  split_and!; [done | done | by apply bytes_ok_concat |]. eexists. split; [done |]. intros rest. unfold extract_p2p_service_hashes.
  rewrite zlen_concat_addrs by done. rewrite Z.mul_comm, Z.mod_mul, Z.div_mul by lia. cbn [Z.eqb negb].
  unfold zlen. by rewrite Nat2Z.id, six_bytes_loop_ok, bind_ok by done.
Qed.
Lemma hashes_field_read q vs : p2p_value_of P2P_ATTR_SVC_HASH vs = option_map snd (hashes_field q).2 → hashes_ok q → hashes_of vs = q.
Proof. unfold hashes_of. intros -> Hq. by destruct q. Qed.

(** ** Device information *)

Definition type_ok (d : wsc_primary_device_type) : Prop := device_ok d ∧ bytes_ok (pdt_oui d).

Lemma device_bytes_ok d : type_ok d → bytes_ok (device_bytes d).
Proof. intros [_ Hb]. unfold device_bytes. auto with iwd. Qed.

Lemma appends_type junk d : type_ok d → p2p_appends (p2p_build_wsc_device_type junk d) (device_bytes d).
Proof.
  intros [(_ & Ho & _) _]. unfold p2p_build_wsc_device_type, device_bytes.
  apply p2p_appends_seq; [by apply p2p_appends_put |].
  apply p2p_appends_seq; [| apply p2p_appends_seq; by apply p2p_appends_put].
  unfold p2p_attr_builder_put_oui. eapply p2p_appends_run; [rewrite rdn_ok, ptake_all by lia; done |].
  apply p2p_appends_put. lia.
Qed.

Lemma parse_device_bytes d rest : device_ok d → wsc_parse_primary_device_type (device_bytes d ++ rest) 8 = Ok (Some d).
Proof.
  intros Hd. destruct (decodes_device WSC_ATTR_PRIMARY_DEVICE_TYPE d eq_refl Hd) as (h & Hh & Hdec). injection Hh as <-.
  specialize (Hdec (mk_attr_iter 0 0 [] 0 8 (device_bytes d ++ rest)) rest ltac:(by rewrite zlen_device_bytes) eq_refl).
  unfold extract_primary_device_type in Hdec. cbn [wa_data wa_len] in Hdec.
  destruct (wsc_parse_primary_device_type (device_bytes d ++ rest) 8) as [[x|]| | |]; try done. cbn in Hdec. by simplify_eq.
Qed.

Lemma device_types_loop_ok l rest acc :
  Forall type_ok l → device_types_loop (length l) ((l ≫= device_bytes) ++ rest) acc = Ok (Some (acc ++ l)).
Proof.
  intros Hl. revert acc. induction Hl as [|d l [Hd _] _ IH]; intros acc; cbn [length device_types_loop]; [by rewrite app_nil_r |].
  change ((d :: l) ≫= device_bytes) with (device_bytes d ++ (l ≫= device_bytes)). rewrite <- app_assoc, parse_device_bytes, bind_ok by done.
  rewrite padd_app by (by rewrite zlen_device_bytes). by rewrite IH, <- app_assoc.
Qed.

Lemma zlen_types l : Forall type_ok l → zlen (l ≫= device_bytes) = 8 * zlen l.
Proof.
  induction 1 as [|d l [Hd _] _ IH]; [done |]. change ((d :: l) ≫= device_bytes) with (device_bytes d ++ (l ≫= device_bytes)).
  rewrite zlen_app, IH, zlen_cons, zlen_device_bytes by done. lia.
Qed.

Definition device_info_ok (opt : bool) (d : p2p_device_info_attr) : Prop :=
  (addr_ok (di_device_addr d) ∧ 0 ≤ di_wsc_config_methods d < 65536 ∧ type_ok (di_primary_device_type d) ∧
   (∃ l, di_secondary_device_types d = Queue l ∧ Forall type_ok l ∧ zlen l < 256) ∧ cstring_ok 32 (di_device_name d) ∧
   (opt = true → zero_addr (di_device_addr d) = false)) ∨
  (opt = true ∧ d = zero_device_info).
Definition device_info_bytes (d : p2p_device_info_attr) : list Z :=
  let types := queue_list (di_secondary_device_types d) in
  di_device_addr d ++ be16_bytes (di_wsc_config_methods d) ++ device_bytes (di_primary_device_type d) ++
  [u8 (zlen types)] ++ (types ≫= device_bytes) ++ be16_bytes WSC_ATTR_DEVICE_NAME ++ be16_bytes (zlen (di_device_name d)) ++
  di_device_name d.
Definition device_info_field (opt : bool) (d : p2p_device_info_attr) : field :=
  (P2P_ATTR_P2P_DEVICE_INFO, if opt && zero_addr (di_device_addr d) then None else Some (device_info_bytes d, PDevice d)).

Lemma appends_name junk s :
  cstring_ok 32 s → p2p_appends (build_device_name junk s) (be16_bytes WSC_ATTR_DEVICE_NAME ++ be16_bytes (zlen s) ++ s).
Proof.
  intros (Hs & _ & _). unfold build_device_name. rewrite c_string_id by done.
  do 2 (apply p2p_appends_seq; [by apply p2p_appends_put |]). by apply p2p_appends_array.
Qed.

Lemma device_info_sent opt d : device_info_ok opt d → opt && zero_addr (di_device_addr d) = false → device_info_ok false d.
Proof.
  intros [(H1 & H2 & H3 & H4 & H5 & _)|[-> ->]] E; [| done]. left. by refine (conj H1 (conj H2 (conj H3 (conj H4 (conj H5 _))))).
Qed.

Lemma sends_device_info junk opt d : device_info_ok opt d → sends (p2p_build_device_info junk opt d) (device_info_field opt d).
Proof.
  intros Hok. unfold p2p_build_device_info, device_info_field, sends. destruct (_ && _) eqn:E; [apply p2p_builds_pass |].
  destruct (device_info_sent opt d Hok E) as [([Ha _] & _ & Hp & (l & Eq & Hl & Hn) & Hs & _)|[? _]]; [| done].
  apply p2p_builds_attr. unfold device_info_bytes. rewrite Eq. cbn [queue_list].
  apply p2p_appends_seq; [by apply p2p_appends_array |]. apply p2p_appends_seq; [by apply p2p_appends_put |].
  apply p2p_appends_seq; [by apply appends_type |]. eapply p2p_appends_run; [done |].
  apply p2p_appends_seq; [by apply p2p_appends_put |]. apply p2p_appends_seq; [| by apply appends_name].
  apply p2p_appends_each. eapply list.Forall_impl; [exact Hl |]. intros t. by apply appends_type.
Qed.

Lemma extract_device_info_ok d rest :
  device_info_ok false d →
  extract_p2p_device_info (device_info_bytes d ++ rest) (zlen (device_info_bytes d)) = Ok (true, Some (PDevice d)).
Proof.
  intros [([Ha Hab] & Hm & [Hp Hpb] & (l & Eq & Hl & Hn) & (Hs & Hsb & Hs32) & _)|[? _]]; [| done].
  unfold device_info_bytes. rewrite Eq. cbn [queue_list]. set (T := l ≫= device_bytes). set (name := di_device_name d) in *.
  assert (HT : zlen T = 8 * zlen l) by (by apply zlen_types). znn.
  set (A := di_device_addr d) in *. set (M := be16_bytes (di_wsc_config_methods d)). set (P := device_bytes (di_primary_device_type d)).
  assert (HP : zlen P = 8) by (by apply zlen_device_bytes).
  set (N := be16_bytes WSC_ATTR_DEVICE_NAME). set (L := be16_bytes (zlen name)).
  assert (Hlen : zlen (A ++ M ++ P ++ [u8 (zlen l)] ++ T ++ N ++ L ++ name) = 17 + zlen l * 8 + 4 + zlen name).
  { rewrite !zlen_app, Ha, HP, HT, zlen_one. change (zlen M) with 2. change (zlen N) with 2. change (zlen L) with 2. lia. }
  assert (HMr : ∀ k, l_get_be16 (M ++ k) = Ok (di_wsc_config_methods d)) by (intros; by apply l_get_be16_bytes).
  assert (HPr : ∀ k, wsc_parse_primary_device_type (P ++ k) 8 = Ok (Some (di_primary_device_type d))) by (intros; by apply parse_device_bytes).
  assert (HNr : ∀ k, l_get_be16 (N ++ k) = Ok WSC_ATTR_DEVICE_NAME) by (intros; by apply l_get_be16_bytes).
  assert (HLr : ∀ k, l_get_be16 (L ++ k) = Ok (zlen name)) by (intros; apply l_get_be16_bytes; lia).
  assert (HTr : ∀ k, device_types_loop (Z.to_nat (zlen l)) (T ++ k) [] = Ok (Some l)) by (intros; unfold zlen; rewrite Nat2Z.id; by apply device_types_loop_ok).
  rewrite Hlen. rewrite <- !app_assoc. unfold extract_p2p_device_info.
  destruct (Z.ltb_spec (17 + zlen l * 8 + 4 + zlen name) 21); [lia |]. rewrite rdn_app, bind_ok, (padd_app A _ 6) by done.
  rewrite HMr, bind_ok.
  rewrite (app_assoc A M), (padd_app (A ++ M) _ 8) by (rewrite zlen_app, Ha; done). rewrite HPr, bind_ok.
  rewrite (app_assoc (A ++ M) P), rd_app_at by (rewrite !zlen_app, Ha, HP; done). cbn [app]. rewrite rd_cons_0, bind_ok, u8_small by lia.
  destruct (Z.ltb_spec (17 + zlen l * 8 + 4 + zlen name) (17 + zlen l * 8 + 4)); [lia |].
  change (zlen l :: T ++ N ++ L ++ name ++ rest) with ([zlen l] ++ T ++ N ++ L ++ name ++ rest). rewrite (app_assoc _ [zlen l]).
  set (H17 := ((A ++ M) ++ P) ++ [zlen l]). assert (E17 : zlen H17 = 17) by (unfold H17; rewrite !zlen_app, Ha, HP; done).
  rewrite (app_assoc H17 T), (padd_app (H17 ++ T) _ (17 + zlen l * 8)) by (rewrite zlen_app, E17, HT; lia).
  rewrite HNr, bind_ok. cbn [Z.eqb negb]. change (negb (WSC_ATTR_DEVICE_NAME =? WSC_ATTR_DEVICE_NAME)) with false. cbv iota.
  rewrite (app_assoc (H17 ++ T) N), (padd_app ((H17 ++ T) ++ N) _ (17 + zlen l * 8 + 2)) by (rewrite !zlen_app, E17, HT; change (zlen N) with 2; lia).
  rewrite HLr, bind_ok.
  destruct (Z.ltb_spec (17 + zlen l * 8 + 4 + zlen name) (17 + zlen l * 8 + 4 + zlen name)); [lia |].
  destruct (Z.ltb_spec 32 (zlen name)); [lia |]. cbn [orb]. rewrite <- !app_assoc, (padd_app H17 _ 17), <- ?app_assoc by done.
  rewrite HTr, bind_ok.
  rewrite !app_assoc, <- (app_assoc _ name rest), padd_app by (rewrite !zlen_app, E17, HT; change (zlen N) with 2; change (zlen L) with 2; lia).
  rewrite rdn_app, bind_ok by done. cbn [app]. unfold store, A, name. destruct d; cbn in *. by rewrite Eq.
Qed.

Lemma device_info_field_ok opt d : device_info_ok opt d → field_ok (device_info_field opt d).
Proof.
  intros Hok. unfold field_ok. cbn [device_info_field fst snd]. destruct (_ && _) eqn:E; [done |].
  pose proof (device_info_sent opt d Hok E) as Hd. split_and!; [done | done | | eexists; split; [done |]; intros rest; by apply extract_device_info_ok].
  destruct Hd as [([Ha Hab] & _ & Hp & (l & Eq & Hl & Hn) & (_ & Hsb & _) & _)|[? _]]; [| done]. unfold device_info_bytes. rewrite Eq. cbn [queue_list].
  apply Forall_app_2; [done |]. apply Forall_app_2; [apply be16_bytes_ok |]. apply Forall_app_2; [by apply device_bytes_ok |].
  apply Forall_app_2; [apply bytes_ok_one |]. apply Forall_app_2; [| auto with iwd]. apply bytes_ok_bind. eapply list.Forall_impl; [exact Hl | apply device_bytes_ok].
Qed.
Lemma device_info_field_read opt d vs :
  p2p_value_of P2P_ATTR_P2P_DEVICE_INFO vs = option_map snd (device_info_field opt d).2 → device_info_ok opt d → device_info_of vs = d.
Proof.
  unfold device_info_of. intros -> Hok. cbn [device_info_field snd]. destruct (_ && _) eqn:E; [| done]. apply andb_true_iff in E as [-> E].
  destruct Hok as [(_ & _ & _ & _ & _ & Hz)|[_ ->]]; [| done]. by rewrite Hz in E.
Qed.

(** ** Advertisements, sessions and services *)

Definition advertisement_ok (a : p2p_advertisement_id_info_attr) : Prop :=
  0 ≤ ai_advertisement_id a < 2 ^ 32 ∧ addr_ok (ai_service_mac_addr a) ∧
  (zero_addr (ai_service_mac_addr a) = true → ai_advertisement_id a = 0).
Definition advertisement_field (a : p2p_advertisement_id_info_attr) : field :=
  (P2P_ATTR_ADVERTISEMENT_ID_INFO,
   if zero_addr (ai_service_mac_addr a) then None else Some (le32_bytes (ai_advertisement_id a) ++ ai_service_mac_addr a, PAdvertisement a)).

Lemma sends_advertisement junk a : advertisement_ok a → sends (p2p_build_advertisement_id junk true a) (advertisement_field a).
Proof.
  intros (_ & [Ha _] & _). unfold p2p_build_advertisement_id, advertisement_field, sends. cbn [andb]. destruct (zero_addr _); [apply p2p_builds_pass |].
  apply p2p_builds_attr. apply p2p_appends_seq; [by apply p2p_appends_put | by apply p2p_appends_array].
Qed.
Lemma advertisement_field_ok a : advertisement_ok a → field_ok (advertisement_field a).
Proof.
  intros (Hi & [Ha Hb] & _). unfold field_ok. cbn [advertisement_field fst snd]. destruct (zero_addr _); [done |].
  split_and!; [done | done | auto with iwd |]. eexists. split; [done |]. intros rest. rewrite <- app_assoc. unfold extract_p2p_advertisement_id.
  rewrite zlen_app, zlen_le32_bytes, Ha. change (negb (4 + 6 =? 10)) with false. cbv iota. rewrite l_get_le32_bytes, bind_ok by done.
  rewrite rdn_skip, rdn_app, bind_ok by done. by destruct a.
Qed.
Lemma advertisement_field_read a vs :
  p2p_value_of P2P_ATTR_ADVERTISEMENT_ID_INFO vs = option_map snd (advertisement_field a).2 → advertisement_ok a → advertisement_of vs = a.
Proof.
  unfold advertisement_of. intros -> (_ & [Ha _] & Hz). cbn [advertisement_field snd]. destruct (zero_addr _) eqn:E; [| done].
  specialize (Hz eq_refl). apply zero_addr_eq in E; [| done]. destruct a; cbn in *. by subst.
Qed.

Definition session_id_ok (a : p2p_session_id_info_attr) : Prop :=
  0 ≤ si_session_id a < 2 ^ 32 ∧ addr_ok (si_session_mac_addr a) ∧ (zero_addr (si_session_mac_addr a) = true → si_session_id a = 0).
Definition session_id_field (a : p2p_session_id_info_attr) : field :=
  (P2P_ATTR_SESSION_ID_INFO,
   if zero_addr (si_session_mac_addr a) then None else Some (le32_bytes (si_session_id a) ++ si_session_mac_addr a, PSessionId a)).

Lemma sends_session_id junk a : session_id_ok a → sends (p2p_build_session_id junk true a) (session_id_field a).
Proof.
  intros (_ & [Ha _] & _). unfold p2p_build_session_id, session_id_field, sends. cbn [andb]. destruct (zero_addr _); [apply p2p_builds_pass |].
  apply p2p_builds_attr. apply p2p_appends_seq; [by apply p2p_appends_put | by apply p2p_appends_array].
Qed.
Lemma session_id_field_ok a : session_id_ok a → field_ok (session_id_field a).
Proof.
  intros (Hi & [Ha Hb] & _). unfold field_ok. cbn [session_id_field fst snd]. destruct (zero_addr _); [done |].
  split_and!; [done | done | auto with iwd |]. eexists. split; [done |]. intros rest. rewrite <- app_assoc. unfold extract_p2p_session_id.
  rewrite zlen_app, zlen_le32_bytes, Ha. change (negb (4 + 6 =? 10)) with false. cbv iota. rewrite l_get_le32_bytes, bind_ok by done.
  rewrite rdn_skip, rdn_app, bind_ok by done. by destruct a.
Qed.
Lemma session_id_field_read a vs :
  p2p_value_of P2P_ATTR_SESSION_ID_INFO vs = option_map snd (session_id_field a).2 → session_id_ok a → session_id_of vs = a.
Proof.
  unfold session_id_of. intros -> (_ & [Ha _] & Hz). cbn [session_id_field snd]. destruct (zero_addr _) eqn:E; [| done].
  specialize (Hz eq_refl). apply zero_addr_eq in E; [| done]. destruct a; cbn in *. by subst.
Qed.

Definition service_ok (s : p2p_advertised_service_descriptor) : Prop :=
  0 ≤ sv_advertisement_id s < 2 ^ 32 ∧ 0 ≤ sv_wsc_config_methods s < 65536 ∧ utf8_ok (sv_service_name s) ∧
  bytes_ok (sv_service_name s) ∧ zlen (sv_service_name s) < 256.
Definition service_bytes (s : p2p_advertised_service_descriptor) : list Z :=
  le32_bytes (sv_advertisement_id s) ++ be16_bytes (sv_wsc_config_methods s) ++ [u8 (zlen (sv_service_name s))] ++ sv_service_name s.
Definition services_ok (q : l_queue p2p_advertised_service_descriptor) : Prop :=
  match q with QNull => True | Queue l => l ≠ [] ∧ Forall service_ok l | QFreed => False end.
Definition services_field (q : l_queue p2p_advertised_service_descriptor) : field :=
  (P2P_ATTR_ADVERTISED_SVC_INFO, if is_null q then None else Some (queue_list q ≫= service_bytes, PServices q)).

Lemma appends_service junk s : service_ok s → p2p_appends (build_service junk s) (service_bytes s).
Proof.
  intros (_ & _ & (Hz & _) & _ & _). unfold build_service, service_bytes. rewrite c_string_id by done.
  do 3 (apply p2p_appends_seq; [by apply p2p_appends_put |]). by apply p2p_appends_array.
Qed.
Lemma sends_services junk q : services_ok q → sends (p2p_build_advertised_service_info junk q) (services_field q).
Proof.
  intros Hq. unfold p2p_build_advertised_service_info, services_field, sends. destruct q as [|l|]; [apply p2p_builds_pass | | done].
  cbn [is_null queue_list]. destruct Hq as [_ Hl]. apply p2p_builds_attr. eapply p2p_appends_run; [done |].
  apply p2p_appends_each. eapply list.Forall_impl; [exact Hl |]. intros s. by apply appends_service.
Qed.

Lemma utf8_ok_valid s rest : utf8_ok s → l_utf8_validate (s ++ rest) (zlen s) = Ok true.
Proof.
  intros (Hnz & cps & Hc & ->). unfold l_utf8_validate. pose proof (length_utf8_encoded cps).
  pose proof (utf8_validate_encoded cps [] rest (S (Z.to_nat (zlen (cps ≫= utf8_encode)))) Hc Hnz ltac:(unfold zlen; lia)) as E.
  cbn [app] in E. rewrite zlen_nil, Z.add_0_l in E. by rewrite E, bind_ok, Z.eqb_refl.
Qed.

(** The queue after more descriptors. *)
Definition extend {A} (q : l_queue A) (l : list A) : l_queue A := fold_left push_tail l q.
Lemma extend_queue {A} (k l : list A) : extend (Queue k) l = Queue (k ++ l).
Proof. revert k. induction l as [|a l IH]; intros k; [cbn; by rewrite app_nil_r |].
  change (extend (Queue k) (a :: l)) with (extend (Queue (k ++ [a])) l). rewrite IH, <- app_assoc. done.
Qed.
Lemma extend_null {A} (l : list A) : l ≠ [] → extend QNull l = Queue l.
Proof. destruct l as [|a l]; [done |]. intros _. exact (extend_queue [a] l). Qed.

(** The loop goes on behind descriptors that are in order, with [m] bytes left. *)
Lemma services_loop_past l rest m q fuel :
  Forall service_ok l → 0 ≤ m → zlen (l ≫= service_bytes) + m ≤ Z.of_nat fuel →
  ∃ fuel', m ≤ Z.of_nat fuel' ∧
    services_loop fuel ((l ≫= service_bytes) ++ rest) (zlen (l ≫= service_bytes) + m) q = services_loop fuel' rest m (extend q l).
Proof.
  intros Hl Hm0. revert q fuel. induction Hl as [|s l (Hi & Hm & Hu & Hb & Hn) _ IH]; intros q fuel Hf; [by exists fuel |].
  change ((s :: l) ≫= service_bytes) with (service_bytes s ++ (l ≫= service_bytes)) in *. rewrite zlen_app in *. set (r := l ≫= service_bytes) in *.
  set (name := sv_service_name s) in *.
  assert (Hs : zlen (service_bytes s) = 7 + zlen name) by (unfold service_bytes; rewrite !zlen_app, zlen_one, zlen_le32_bytes, zlen_be16_bytes; fold name; lia).
  rewrite Hs in *. znn. destruct fuel as [|fuel]; [lia |]. cbn [services_loop].
  destruct (Z.eqb_spec (7 + zlen name + zlen r + m) 0); [lia |]. destruct (Z.ltb_spec (7 + zlen name + zlen r + m) 7); [lia |].
  unfold service_bytes. rewrite <- !app_assoc. fold name.
  set (I := le32_bytes (sv_advertisement_id s)). set (M := be16_bytes (sv_wsc_config_methods s)).
  assert (HIr : ∀ k, l_get_le32 (I ++ k) = Ok (sv_advertisement_id s)) by (intros; by apply l_get_le32_bytes).
  assert (HMr : ∀ k, l_get_be16 (M ++ k) = Ok (sv_wsc_config_methods s)) by (intros; by apply l_get_be16_bytes).
  rewrite (app_assoc I M), rd_app_at by done. cbn [app]. rewrite rd_cons_0, bind_ok, u8_small by lia.
  destruct (Z.ltb_spec (7 + zlen name + zlen r + m) (7 + zlen name)); [lia |].
  change (zlen name :: name ++ r ++ rest) with ([zlen name] ++ name ++ r ++ rest). rewrite (app_assoc (I ++ M)), (padd_app ((I ++ M) ++ [zlen name]) _ 7) by done.
  rewrite utf8_ok_valid, bind_ok by done. cbn [negb]. cbv iota. rewrite <- !app_assoc. rewrite HIr, bind_ok.
  rewrite (padd_app I _ 4) by done. rewrite HMr, bind_ok.
  rewrite rdn_app, bind_ok by done. rewrite (app_assoc [zlen name]), (app_assoc M), (app_assoc I), padd_app.
  2: { rewrite !zlen_app, zlen_one. change (zlen I) with 4. change (zlen M) with 2. lia. }
  replace (7 + zlen name + zlen r + m - (7 + zlen name)) with (zlen r + m) by lia.
  destruct (IH (push_tail q (mk_service (sv_advertisement_id s) (sv_wsc_config_methods s) name)) fuel ltac:(lia)) as (fuel' & Hf' & E).
  exists fuel'. split; [exact Hf' |]. rewrite E. unfold name. by destruct s.
Qed.
Lemma services_loop_ok l rest q fuel :
  Forall service_ok l → zlen (l ≫= service_bytes) ≤ Z.of_nat fuel →
  services_loop fuel ((l ≫= service_bytes) ++ rest) (zlen (l ≫= service_bytes)) q = Ok (true, extend q l).
Proof.
  intros Hl Hf. destruct (services_loop_past l rest 0 q fuel Hl ltac:(lia) ltac:(lia)) as (fuel' & _ & E).
  rewrite Z.add_0_r in E. rewrite E. by destruct fuel'.
Qed.

Lemma services_field_ok q : services_ok q → field_ok (services_field q).
Proof.
  intros Hq. unfold field_ok. cbn [services_field fst snd]. destruct q as [|l|]; [done | | done]. cbn [is_null queue_list]. destruct Hq as [Hne Hl].
  split_and!; [done | done | |].
  { apply bytes_ok_bind. eapply list.Forall_impl; [exact Hl |]. intros s (_ & _ & _ & Hb & _). unfold service_bytes. auto with iwd. }
  eexists. split; [done |]. intros rest. unfold extract_p2p_advertised_service_info. rewrite services_loop_ok by (done || (znn; lia)).
  rewrite bind_ok. by rewrite extend_null.
Qed.
Lemma services_field_read q vs :
  p2p_value_of P2P_ATTR_ADVERTISED_SVC_INFO vs = option_map snd (services_field q).2 → services_ok q → services_of vs = q.
Proof. unfold services_of. intros -> Hq. by destruct q. Qed.
