(* ===== verification/P2pRun.v ===== *)
(** * Wi-Fi Direct: frames (src/p2putil.c)

    The elements of a frame, what is extracted from them, and the frames that
    [p2p_build_action_frame] builds. *)

From stdpp Require Import base numbers list option.
From Stdlib Require Import ZArith Lia.
From S2P Require Import Prelude StRes IeTlv IeMisc Crypto Handshake EapolFrame EapSpec Mschap Wsc WscMsg WscSafe WscSpec WscRun.
From S2P Require Import P2p P2pMsg P2pSafe P2pSpec P2pFields.

Open Scope Z_scope.

#[export] Instance eta_p2p_go_negotiation_req : Eta p2p_go_negotiation_req := λ r,
  mk_p2p_go_negotiation_req (gnq_dialog_token r) (gnq_capability r) (gnq_go_intent r) (gnq_go_tie_breaker r)
    (gnq_config_timeout r) (gnq_listen_channel r) (gnq_listen_availability r) (gnq_intended_interface_addr r)
    (gnq_channel_list r) (gnq_device_info r) (gnq_operating_channel r) (gnq_device_password_id r) (gnq_wfd r).
#[export] Instance set_gnq_wfd : SetterOf gnq_wfd.
Proof. derive_setter. Defined.

#[export] Instance eta_p2p_go_negotiation_resp : Eta p2p_go_negotiation_resp := λ r,
  mk_p2p_go_negotiation_resp (gnr_dialog_token r) (gnr_status r) (gnr_capability r) (gnr_go_intent r)
    (gnr_go_tie_breaker r) (gnr_config_timeout r) (gnr_operating_channel r) (gnr_intended_interface_addr r)
    (gnr_channel_list r) (gnr_device_info r) (gnr_group_id r) (gnr_device_password_id r) (gnr_wfd r).
#[export] Instance set_gnr_wfd : SetterOf gnr_wfd.
Proof. derive_setter. Defined.

#[export] Instance eta_p2p_go_negotiation_confirmation : Eta p2p_go_negotiation_confirmation := λ r,
  mk_p2p_go_negotiation_confirmation (gnc_dialog_token r) (gnc_status r) (gnc_capability r)
    (gnc_operating_channel r) (gnc_channel_list r) (gnc_group_id r) (gnc_wfd r).
#[export] Instance set_gnc_wfd : SetterOf gnc_wfd.
Proof. derive_setter. Defined.

#[export] Instance eta_p2p_invitation_req : Eta p2p_invitation_req := λ r,
  mk_p2p_invitation_req (inq_dialog_token r) (inq_config_timeout r) (inq_reinvoke_persistent_group r)
    (inq_operating_channel r) (inq_group_bssid r) (inq_channel_list r) (inq_group_id r) (inq_device_info r)
    (inq_device_password_id r) (inq_wfd r).
#[export] Instance set_inq_wfd : SetterOf inq_wfd.
Proof. derive_setter. Defined.

#[export] Instance eta_p2p_invitation_resp : Eta p2p_invitation_resp := λ r,
  mk_p2p_invitation_resp (inr_dialog_token r) (inr_status r) (inr_config_timeout r) (inr_operating_channel r)
    (inr_group_bssid r) (inr_channel_list r) (inr_wfd r).
#[export] Instance set_inr_wfd : SetterOf inr_wfd.
Proof. derive_setter. Defined.

#[export] Instance eta_p2p_provision_discovery_req : Eta p2p_provision_discovery_req := λ r,
  mk_p2p_provision_discovery_req (pdq_dialog_token r) (pdq_capability r) (pdq_device_info r) (pdq_group_id r)
    (pdq_intended_interface_addr r) (pdq_status r) (pdq_operating_channel r) (pdq_channel_list r)
    (pdq_session_info r) (pdq_connection_capability r) (pdq_advertisement_id r) (pdq_config_timeout r)
    (pdq_listen_channel r) (pdq_session_id r) (pdq_transport_protocol r) (pdq_persistent_group_info r)
    (pdq_wsc_config_method r) (pdq_wfd r).
#[export] Instance set_pdq_wfd : SetterOf pdq_wfd.
Proof. derive_setter. Defined.

#[export] Instance eta_p2p_provision_discovery_resp : Eta p2p_provision_discovery_resp := λ r,
  mk_p2p_provision_discovery_resp (pdr_dialog_token r) (pdr_status r) (pdr_capability r) (pdr_device_info r)
    (pdr_group_id r) (pdr_intended_interface_addr r) (pdr_operating_channel r) (pdr_channel_list r)
    (pdr_connection_capability r) (pdr_advertisement_id r) (pdr_config_timeout r) (pdr_session_id r)
    (pdr_transport_protocol r) (pdr_persistent_group_info r) (pdr_session_info r) (pdr_wsc_config_method r)
    (pdr_wfd r).
#[export] Instance set_pdr_wfd : SetterOf pdr_wfd.
Proof. derive_setter. Defined.

(** ** Elements *)

Definition vendor_ie (oui : list Z) (type : Z) (payload : list Z) : elem := (IE_TYPE_VENDOR_SPECIFIC, oui ++ type :: payload).
Definition vendor_opt (oui : list Z) (type : Z) (payload : option (list Z)) : list elem :=
  match payload with Some p => [vendor_ie oui type p] | None => [] end.

(** The P2P, the WSC and the WFD element of a frame, as far as they are there. *)
Definition frame_elems (p2p wsc wfd : option (list Z)) : list elem :=
  vendor_opt wifi_alliance_oui 0x09 p2p ++ vendor_opt microsoft_oui 0x04 wsc ++ vendor_opt wifi_alliance_oui 0x0a wfd.

(** A payload that fits in one element. *)
Definition payload_ok (payload : option (list Z)) : Prop := ∀ p, payload = Some p → bytes_ok p ∧ zlen p ≤ 251.

Lemma vendor_ie_ok oui type p :
  zlen oui = 3 → bytes_ok oui → byte_ok type → bytes_ok p → zlen p ≤ 251 → elem_ok (vendor_ie oui type p).
Proof.
  intros Ho Hob Ht Hb Hp. unfold vendor_ie, elem_ok. split; [apply Forall_app_2; [done | by apply Forall_cons_2] |].
  left. split; [done |]. rewrite zlen_app, zlen_cons, Ho. lia.
Qed.

Lemma vendor_elem_ie oui type oui' type' p :
  zlen oui = 3 → zlen oui' = 3 → vendor_elem oui type (vendor_ie oui' type' p) ↔ oui' = oui ∧ type' = type.
Proof.
  intros Ho Ho'. unfold vendor_elem, vendor_ie. cbn [fst snd]. rewrite ptake_app by lia.
  assert (Hl : (oui' ++ type' :: p) !! 3%nat = Some type').
  { rewrite lookup_app_r by (unfold zlen in Ho'; lia). replace (3 - length oui')%nat with 0%nat by (unfold zlen in Ho'; lia). done. }
  rewrite Hl, zlen_app, zlen_cons. znn. split.
  - intros (_ & _ & -> & [= ->]). done.
  - intros [-> ->]. split_and!; [done | lia | done | done].
Qed.

Lemma vendor_concat_app oui type l k : vendor_concat oui type (l ++ k) = vendor_concat oui type l ++ vendor_concat oui type k.
Proof. unfold vendor_concat. by rewrite (list.filter_app (vendor_elem oui type)), fmap_app, concat_app. Qed.

Lemma vendor_concat_opt oui type oui' type' p :
  zlen oui = 3 → zlen oui' = 3 →
  vendor_concat oui type (vendor_opt oui' type' p) = if decide (oui' = oui ∧ type' = type) then default [] p else [].
Proof.
  intros Ho Ho'. destruct p as [p|]; [| by case_decide]. cbn [vendor_opt default]. rewrite vendor_concat_cons.
  change (vendor_concat oui type []) with (@nil Z). rewrite app_nil_r. change ((vendor_ie oui' type' p).2) with (oui' ++ [type'] ++ p).
  destruct (decide (oui' = oui ∧ type' = type)) as [H|H].
  - rewrite decide_True by (by apply vendor_elem_ie). rewrite app_assoc, padd_app; [done |].
    rewrite zlen_app, zlen_one. lia.
  - rewrite decide_False; [done |]. by rewrite vendor_elem_ie.
Qed.

Lemma exists_vendor_opt oui type oui' type' p :
  zlen oui = 3 → zlen oui' = 3 →
  Exists (vendor_elem oui type) (vendor_opt oui' type' p) ↔ (oui' = oui ∧ type' = type) ∧ p ≠ None.
Proof.
  intros Ho Ho'. destruct p as [p|]; cbn [vendor_opt].
  - rewrite Exists_cons, Exists_nil, vendor_elem_ie by done. split; [| tauto]. intros [H|[]]. by split.
  - rewrite Exists_nil. split; [done | by intros [_ []]].
Qed.

Section frame.
Variables (fresh : nat → Z) (p2p wsc wfd : option (list Z)).
Hypotheses (Hp2p : payload_ok p2p) (Hwsc : payload_ok wsc) (Hwfd : payload_ok wfd).
Let es := frame_elems p2p wsc wfd.

Lemma frame_elems_ok : Forall elem_ok es.
Proof using Hp2p Hwsc Hwfd.
  unfold es, frame_elems. repeat apply Forall_app_2.
  - destruct p2p as [p|]; [| apply Forall_nil_2]. destruct (Hp2p p eq_refl). apply list.Forall_singleton, vendor_ie_ok; try done; by_eval.
  - destruct wsc as [p|]; [| apply Forall_nil_2]. destruct (Hwsc p eq_refl). apply list.Forall_singleton, vendor_ie_ok; try done; by_eval.
  - destruct wfd as [p|]; [| apply Forall_nil_2]. destruct (Hwfd p eq_refl). apply list.Forall_singleton, vendor_ie_ok; try done; by_eval.
Qed.

Lemma zlen_vendor_opt oui type p : zlen oui = 3 → payload_ok p → zlen (tlv_encode_all (vendor_opt oui type p)) ≤ 257.
Proof.
  intros Ho Hp. destruct p as [p|]; [| done]. destruct (Hp p eq_refl) as [_ Hl]. unfold tlv_encode_all. cbn [vendor_opt fmap list_fmap concat].
  rewrite app_nil_r, tlv_encode_length. unfold vendor_ie. cbn [fst snd]. rewrite zlen_app, zlen_cons. change (IE_TYPE_VENDOR_SPECIFIC <? 256) with true. cbv iota. lia.
Qed.

Lemma tlv_encode_all_app l k : tlv_encode_all (l ++ k) = tlv_encode_all l ++ tlv_encode_all k.
Proof. unfold tlv_encode_all. by rewrite fmap_app, concat_app. Qed.

Lemma zlen_frame : zlen (tlv_encode_all es) ≤ 771.
Proof using Hp2p Hwsc Hwfd.
  unfold es, frame_elems. rewrite !tlv_encode_all_app, !zlen_app.
  pose proof (zlen_vendor_opt wifi_alliance_oui 0x09 p2p eq_refl Hp2p). pose proof (zlen_vendor_opt microsoft_oui 0x04 wsc eq_refl Hwsc).
  pose proof (zlen_vendor_opt wifi_alliance_oui 0x0a wfd eq_refl Hwfd). lia.
Qed.

Lemma frame_bytes_ok : bytes_ok (tlv_encode_all es).
Proof using Hp2p Hwsc Hwfd.
  unfold tlv_encode_all. pose proof frame_elems_ok as H. induction H as [|e l He _ IH]; [apply Forall_nil_2 |].
  cbn [fmap list_fmap concat]. apply Forall_app_2; [by apply tlv_encode_bytes_ok | exact IH].
Qed.

Lemma extract_frame oui type empty_ok :
  zlen oui = 3 →
  ie_tlv_vendor_ie_concat fresh oui type (tlv_encode_all es) (zlen (tlv_encode_all es)) empty_ok =
  Ok (vendor_concat_result oui type empty_ok es).
Proof using Hp2p Hwsc Hwfd.
  intros Ho. rewrite <- (app_nil_r (tlv_encode_all es)) at 1. apply vendor_ie_concat_elements with (rest := []); [done | | apply frame_bytes_ok | pose proof zlen_frame; lia].
  rewrite <- (app_nil_r (tlv_encode_all es)). apply elements_of_encode; [apply frame_elems_ok |]. apply stops_no_elem. by left.
Qed.

Let result (empty_ok : bool) (payload : option (list Z)) : option (list Z) * (errno + Z) :=
  match payload with
  | Some (x :: p) => (Some (x :: p), inr (zlen (x :: p)))
  | Some [] => if empty_ok then (None, inr 0) else (None, inl ENOENT)
  | None => (None, inl ENOENT)
  end.

(** What is found of one of the elements among the others. *)
Lemma concat_result_frame oui type empty_ok payload :
  vendor_concat oui type es = default [] payload → (Exists (vendor_elem oui type) es ↔ payload ≠ None) →
  vendor_concat_result oui type empty_ok es = result empty_ok payload.
Proof.
  intros Hc He. unfold vendor_concat_result, result. rewrite Hc. destruct payload as [[|x p]|]; cbn [default]; [| done |].
  - rewrite decide_True by done. rewrite bool_decide_true by (by apply He). cbn [andb]. by destruct empty_ok.
  - rewrite decide_True by done. rewrite bool_decide_false by (rewrite He; tauto). done.
Qed.

Lemma concat_frame oui type :
  zlen oui = 3 →
  vendor_concat oui type es =
    (if decide (wifi_alliance_oui = oui ∧ 0x09 = type) then default [] p2p else []) ++
    (if decide (microsoft_oui = oui ∧ 0x04 = type) then default [] wsc else []) ++
    (if decide (wifi_alliance_oui = oui ∧ 0x0a = type) then default [] wfd else []).
Proof. intros Ho. unfold es, frame_elems. by rewrite !vendor_concat_app, !vendor_concat_opt. Qed.

Lemma exists_frame oui type :
  zlen oui = 3 →
  Exists (vendor_elem oui type) es ↔
    ((wifi_alliance_oui = oui ∧ 0x09 = type) ∧ p2p ≠ None) ∨ ((microsoft_oui = oui ∧ 0x04 = type) ∧ wsc ≠ None) ∨
    ((wifi_alliance_oui = oui ∧ 0x0a = type) ∧ wfd ≠ None).
Proof. intros Ho. unfold es, frame_elems. by rewrite !Exists_app, !exists_vendor_opt. Qed.

Lemma frame_p2p :
  ie_tlv_extract_p2p_payload fresh (tlv_encode_all es) (zlen (tlv_encode_all es)) =
  Ok (match p2p with Some p => payload_result p | None => (None, inl ENOENT) end).
Proof using Hp2p Hwsc Hwfd.
  unfold ie_tlv_extract_p2p_payload. rewrite extract_frame by done. f_equal. rewrite (concat_result_frame _ _ _ p2p).
  - by destruct p2p as [[|x p]|].
  - rewrite concat_frame by done. rewrite decide_True by done. rewrite !decide_False by (intros [E1 E2]; discriminate). by rewrite !app_nil_r.
  - rewrite exists_frame by done. split; [| by left]. intros [[_ H]|[[[E1 E2] _]|[[E1 E2] _]]]; [exact H | discriminate | discriminate].
Qed.

Lemma frame_wfd :
  ie_tlv_extract_wfd_payload fresh (tlv_encode_all es) (zlen (tlv_encode_all es)) =
  Ok (match wfd with Some p => payload_result p | None => (None, inl ENOENT) end).
Proof using Hp2p Hwsc Hwfd.
  unfold ie_tlv_extract_wfd_payload. rewrite extract_frame by done. f_equal. rewrite (concat_result_frame _ _ _ wfd).
  - by destruct wfd as [[|x p]|].
  - rewrite concat_frame by done. rewrite (decide_True (P := wifi_alliance_oui = wifi_alliance_oui ∧ 10 = 10)) by done.
    by rewrite !decide_False by (intros [E1 E2]; discriminate).
  - rewrite exists_frame by done. split; [| by right; right]. intros [[[E1 E2] _]|[[[E1 E2] _]|[_ H]]]; [discriminate | discriminate | exact H].
Qed.

Lemma frame_wsc :
  ie_tlv_extract_wsc_payload fresh (tlv_encode_all es) (zlen (tlv_encode_all es)) =
  Ok (match wsc with Some (x :: p) => (Some (x :: p), inr (zlen (x :: p))) | _ => (None, inl ENOENT) end).
Proof using Hp2p Hwsc Hwfd.
  unfold ie_tlv_extract_wsc_payload. rewrite extract_frame by done. f_equal. rewrite (concat_result_frame _ _ _ wsc).
  - by destruct wsc as [[|x p]|].
  - rewrite concat_frame by done. rewrite (decide_True (P := microsoft_oui = microsoft_oui ∧ 4 = 4)) by done.
    rewrite !decide_False by (intros [E1 E2]; discriminate). by rewrite app_nil_r.
  - rewrite exists_frame by done. split; [| by right; left]. intros [[[E1 E2] _]|[[_ H]|[[E1 E2] _]]]; [discriminate | exact H | discriminate].
Qed.
End frame.

(** ** What is built and read back *)

Lemma encode_vendor_opt oui type p : tlv_encode_all (vendor_opt oui type (Some p)) = tlv_encode (vendor_ie oui type p).
Proof. unfold tlv_encode_all. cbn. by rewrite app_nil_r. Qed.

Lemma attrs_bytes_ok fs : Forall field_ok fs → bytes_ok (p2p_attrs_bytes (attrs_of fs)).
Proof.
  induction 1 as [|[t [[d v]|]] fs Hf _ IH]; [apply Forall_nil_2 | | exact IH]. destruct Hf as (_ & Hb & _).
  change (attrs_of ((t, Some (d, v)) :: fs)) with ([(t, d)] ++ attrs_of fs). rewrite p2p_attrs_bytes_app, p2p_attrs_bytes_one.
  apply Forall_app_2; [| exact IH]. apply Forall_cons_2; [apply u8_range |]. apply Forall_app_2; [apply le16_bytes_ok | exact Hb].
Qed.

Lemma vals_in f fs : NoDup (fst <$> fs) → f ∈ fs → p2p_value_of f.1 (vals_of fs) = option_map snd f.2.
Proof.
  intros Hnd Hin. rewrite vals_of_value by done. induction fs as [|g fs IH]; [by apply not_elem_of_nil in Hin |].
  cbn [fmap list_fmap] in Hnd. apply list.NoDup_cons in Hnd as [Hn Hnd]. cbn [field_value]. apply elem_of_cons in Hin as [->|Hin].
  - by rewrite Z.eqb_refl.
  - destruct (Z.eqb_spec g.1 f.1) as [E|]; [| by apply IH]. destruct Hn. rewrite E. apply list_elem_of_fmap. by exists f.
Qed.

(** A message with the fields [fs] that the table [es] of its parser takes. *)
Record message (es : list p2p_attr_entry) (m : sr p2p_attr_builder unit) (fs : list field) : Prop := {
  message_sends : p2p_builds m (attrs_of fs);
  message_ok : Forall field_ok fs;
  message_fit : fields_fit es fs = true;
  message_filled : filled (attrs_of fs);
  message_size : zlen (p2p_attrs_bytes (attrs_of fs)) ≤ 251;
}.

Lemma message_nodup es m fs : message es m fs → NoDup (fst <$> fs).
Proof. intros [_ _ Hf _ _]. unfold fields_fit in Hf. rewrite !andb_true_iff in Hf. destruct Hf as [[[[_ H] _] _] _]. by apply bool_decide_eq_true in H. Qed.

Definition payload (fs : list field) : list Z := p2p_attrs_bytes (attrs_of fs).

Lemma message_payload es m fs : message es m fs → payload_ok (Some (payload fs)).
Proof. intros [_ Hok _ _ Hs] p [= <-]. split; [by apply attrs_bytes_ok | exact Hs]. Qed.

Lemma no_payload : payload_ok None.
Proof. done. Qed.

Section built.
Variables (junk fresh : nat → Z) (es : list p2p_attr_entry) (m : sr p2p_attr_builder unit) (fs : list field) (capacity : Z).
Hypotheses (Hm : message es m fs) (Hc : 16 ≤ capacity).

Lemma p2p_encapsulate_message : p2p_encapsulate junk capacity m = Ok (tlv_encode_all (vendor_opt wifi_alliance_oui 0x09 (Some (payload fs)))).
Proof using Hm Hc.
  destruct Hm as [Hb Hok _ Hf Hs]. unfold p2p_encapsulate. rewrite (p2p_run_builds junk capacity m (attrs_of fs)), bind_ok by (done || lia).
  fold (payload fs). rewrite encode_vendor_opt. unfold ie_tlv_encapsulate_p2p_payload. rewrite <- (app_nil_r (payload fs)) at 1.
  apply encapsulate_one; [done | done | exact Hs | by right].
Qed.

(** The attributes are read from a frame with any other elements. *)
Lemma p2p_parse_message wsc wfd :
  payload_ok wsc → payload_ok wfd →
  let ies := tlv_encode_all (frame_elems (Some (payload fs)) wsc wfd) in
  p2p_parse_attrs fresh ies (zlen ies) es = Ok (None, vals_of fs).
Proof using Hm.
  intros Hw Hd ies. pose proof (message_payload _ _ _ Hm) as Hp. destruct Hm as [Hb Hok Hfit _ Hs].
  apply p2p_parse_attrs_fields; [| done | done | lia]. unfold ies. by rewrite frame_p2p.
Qed.

(** A frame with the P2P element only. *)
Lemma whole_roundtrip {A} (d : p2p_values → A) (clear : A → res A) data :
  (NoDup (fst <$> fs) → d (vals_of fs) = data) →
  ∃ ies, p2p_encapsulate junk capacity m = Ok ies ∧ p2p_parse_whole fresh ies (zlen ies) es d clear = Ok data.
Proof using Hm Hc.
  intros Hd. rewrite <- (Hd (message_nodup _ _ _ Hm)). eexists. split; [apply p2p_encapsulate_message |]. unfold p2p_parse_whole.
  pose proof (p2p_parse_message None None no_payload no_payload) as H. unfold frame_elems in H. cbn [vendor_opt app] in *.
  cbv zeta in H. by rewrite H, bind_ok.
Qed.
End built.

(** The descriptors of the clients of a group and the information on a session are left out: what is
    built of the ones is not what the decoder reads, and the other is not copied from the frame. *)
Definition clients_field : field := (P2P_ATTR_P2P_GROUP_INFO, None).
Definition session_field : field := (P2P_ATTR_SESSION_INFO_DATA_INFO, None).
Definition absent_field (t : Z) : field := (t, None).
Lemma sends_absent t : sends pass (absent_field t).
Proof. apply p2p_builds_pass. Qed.
Lemma sends_session junk : sends (p2p_build_session_data junk zero_session) session_field.
Proof. apply p2p_builds_pass. Qed.
Lemma sends_clients junk fuel : sends (p2p_build_group_info junk fuel QNull) clients_field.
Proof. apply p2p_builds_pass. Qed.

(** *** Automation *)

Ltac in_list := first [by left | right; in_list].

(** What a field builds. *)
Ltac send_field :=
  lazymatch goal with
  | |- sends (p2p_build_capability _ _) _ => apply sends_cap
  | |- sends (p2p_build_addr _ _ _ _) _ => apply sends_addr
  | |- sends (p2p_build_notice_of_absence_attr _ _ _) _ => apply sends_absence
  | |- sends (p2p_build_extended_listen_timing _ _) _ => apply sends_listen
  | |- sends (p2p_build_device_info _ _ _) _ => apply sends_device_info
  | |- sends (p2p_build_channel _ _ _ _) (channel_field false _ _) => first [apply sends_channel_present | apply sends_channel]
  | |- sends (p2p_build_channel _ _ _ _) _ => apply sends_channel
  | |- sends (p2p_build_channel_list _ _ _) _ => apply sends_channels
  | |- sends (p2p_build_svc_hash _ _) _ => apply sends_hashes
  | |- sends (p2p_build_interface _ _) _ => apply sends_interface
  | |- sends (p2p_build_advertised_service_info _ _) _ => apply sends_services
  | |- sends (p2p_build_group_info _ _ _) _ => apply sends_clients
  | |- sends (p2p_build_group_id _ _ _ _) _ => apply sends_group_id
  | |- sends (p2p_build_config_timeout _ _ _) _ => apply sends_timeout
  | |- sends (p2p_build_go_intent _ _ _) _ => apply sends_intent
  | |- sends (p2p_build_advertisement_id _ _ _) _ => apply sends_advertisement
  | |- sends (p2p_build_session_id _ _ _) _ => apply sends_session_id
  | |- sends (p2p_build_feature_capability _ _ _) _ => apply sends_transport
  | |- sends (unless _ _) _ => apply sends_unless
  | |- sends (p2p_build_u8_attr _ P2P_ATTR_INVITATION_FLAGS _) _ => apply sends_flag
  | |- sends (p2p_build_u8_attr _ _ _) _ => apply sends_byte
  | |- sends (p2p_build_session_data _ _) _ => apply sends_session
  | |- sends pass _ => apply sends_absent
  | |- sends (match _ with _ => _ end) _ => apply sends_status
  end.

(** A side condition of a field: an assumption, or the length in one. *)
Ltac field_side :=
  first [eassumption | reflexivity | lia | in_list
        | match goal with
          | H : addr_ok ?a |- zlen ?a = 6 => exact (proj1 H)
          | H : channel_ok _ ?c |- zlen (ch_country ?c) = 3 => exact (proj1 H)
          end].
Ltac send_fields := repeat (apply builds_field; [send_field; field_side |]); apply builds_last; send_field; field_side.

(** That the decoders read the fields. *)
Ltac field_decodes :=
  first [eapply byte_field_ok | eapply status_field_ok | eapply unless_field_ok | eapply flag_field_ok | eapply cap_field_ok
        | eapply intent_field_ok | eapply timeout_field_ok | eapply listen_field_ok | eapply transport_field_ok | eapply addr_field_ok
        | eapply channel_field_ok | eapply channels_field_ok | eapply absence_field_ok | eapply group_id_field_ok | eapply interface_field_ok
        | eapply hashes_field_ok | eapply device_info_field_ok | eapply advertisement_field_ok | eapply session_id_field_ok
        | eapply services_field_ok | exact I]; field_side.
Ltac fields_decode := repeat (apply Forall_cons_2; [field_decodes |]); apply Forall_nil_2.

Ltac is_message := constructor; [send_fields | fields_decode | reflexivity | first [exact I | assumption] | assumption].

(** What a structure holds, from the fields of the message. *)
Ltac value_of f := apply (vals_in f); [assumption | in_list].
Ltac reads_as e v tac := replace e with v by (symmetry; tac).
Ltac read_field :=
  match goal with
  | |- context [capability_of (vals_of ?fs)] => lazymatch fs with context [cap_field ?c] =>
      reads_as (capability_of (vals_of fs)) c ltac:(apply cap_field_read; value_of (cap_field c)) end
  | |- context [flag_of (vals_of ?fs)] => lazymatch fs with context [flag_field ?b] =>
      reads_as (flag_of (vals_of fs)) b ltac:(apply flag_field_read; value_of (flag_field b)) end
  | |- context [status_of (vals_of ?fs)] => lazymatch fs with context [status_field ?x] =>
      reads_as (status_of (vals_of fs)) x ltac:(apply status_field_read; value_of (status_field x)) end
  | |- context [listen_of (vals_of ?fs)] => lazymatch fs with context [listen_field ?x] =>
      reads_as (listen_of (vals_of fs)) x ltac:(apply listen_field_read; value_of (listen_field x)) end
  | |- context [intent_of (vals_of ?fs)] => lazymatch fs with context [intent_field ?i ?b] =>
      reads_as (intent_of (vals_of fs)) (Some (mk_go_intent i b)) ltac:(apply intent_field_read; value_of (intent_field i b)) end
  | |- context [transport_of (vals_of ?fs)] => lazymatch fs with context [transport_field true ?x] =>
      reads_as (transport_of (vals_of fs)) x ltac:(apply transport_field_read; value_of (transport_field true x)) end
  | |- context [hashes_of (vals_of ?fs)] => lazymatch fs with context [hashes_field ?x] =>
      reads_as (hashes_of (vals_of fs)) x ltac:(apply hashes_field_read; [value_of (hashes_field x) | field_side]) end
  | |- context [interface_of (vals_of ?fs)] => lazymatch fs with context [interface_field ?x] =>
      reads_as (interface_of (vals_of fs)) x ltac:(apply interface_field_read; [value_of (interface_field x) | field_side]) end
  | |- context [services_of (vals_of ?fs)] => lazymatch fs with context [services_field ?x] =>
      reads_as (services_of (vals_of fs)) x ltac:(apply services_field_read; [value_of (services_field x) | field_side]) end
  | |- context [advertisement_of (vals_of ?fs)] => lazymatch fs with context [advertisement_field ?x] =>
      reads_as (advertisement_of (vals_of fs)) x ltac:(apply advertisement_field_read; [value_of (advertisement_field x) | field_side]) end
  | |- context [session_id_of (vals_of ?fs)] => lazymatch fs with context [session_id_field ?x] =>
      reads_as (session_id_of (vals_of fs)) x ltac:(apply session_id_field_read; [value_of (session_id_field x) | field_side]) end
  | |- context [byte_of ?t (vals_of ?fs)] => lazymatch fs with
      | context [unless_field ?c t ?v] =>
          reads_as (byte_of t (vals_of fs)) v ltac:(apply (unless_field_read c); [value_of (unless_field c t v) | field_side])
      | context [byte_field t ?v] => reads_as (byte_of t (vals_of fs)) v ltac:(apply byte_field_read; value_of (byte_field t v))
      end
  | |- context [timeout_of (vals_of ?fs)] => lazymatch fs with context [timeout_field ?o ?x] =>
      reads_as (timeout_of (vals_of fs)) x ltac:(apply (timeout_field_read o); value_of (timeout_field o x)) end
  | |- context [addr_of ?t (vals_of ?fs)] => lazymatch fs with context [addr_field ?o t ?x] =>
      reads_as (addr_of t (vals_of fs)) x ltac:(apply (addr_field_read o); [value_of (addr_field o t x) | field_side]) end
  | |- context [channel_of ?t (vals_of ?fs)] => lazymatch fs with context [channel_field ?o t ?x] =>
      reads_as (channel_of t (vals_of fs)) x ltac:(apply (channel_field_read o); [value_of (channel_field o t x) | field_side]) end
  | |- context [channels_of (vals_of ?fs)] => lazymatch fs with context [channels_field ?o ?x] =>
      reads_as (channels_of (vals_of fs)) x ltac:(apply (channels_field_read o); [value_of (channels_field o x) | field_side]) end
  | |- context [absence_of (vals_of ?fs)] => lazymatch fs with context [absence_field ?o ?x] =>
      reads_as (absence_of (vals_of fs)) x ltac:(apply (absence_field_read o); [value_of (absence_field o x) | field_side]) end
  | |- context [group_id_of ?t (vals_of ?fs)] => lazymatch fs with context [group_id_field ?o t ?x] =>
      reads_as (group_id_of t (vals_of fs)) x ltac:(apply (group_id_field_read o); [value_of (group_id_field o t x) | field_side]) end
  | |- context [device_info_of (vals_of ?fs)] => lazymatch fs with context [device_info_field ?o ?x] =>
      reads_as (device_info_of (vals_of fs)) x ltac:(apply (device_info_field_read o); [value_of (device_info_field o x) | field_side]) end
  | |- context [session_of (vals_of ?fs)] =>
      reads_as (session_of (vals_of fs)) zero_session ltac:(unfold session_of; rewrite (vals_in session_field); [reflexivity | assumption | in_list])
  | |- context [clients_of (vals_of ?fs)] =>
      reads_as (clients_of (vals_of fs)) (@QNull p2p_client_info_descriptor) ltac:(unfold clients_of; rewrite (vals_in clients_field); [reflexivity | assumption | in_list])
  end.

(** The round trip of a message with the fields [fs]. *)
Ltac whole_message fs data :=
  let l := eval hnf in fs in
  apply (whole_roundtrip _ _ _ _ l); [is_message | lia |];
  intros; repeat match goal with |- ?d (vals_of _) = _ => unfold d end; repeat read_field; destruct data; (reflexivity || by cbn in *; subst).

Section messages.
Variables (junk fresh : nat → Z) (fuel : nat).

(** *** Messages that are an element of a management frame *)

Definition beacon_ok (b : p2p_beacon) : Prop :=
  cap_ok (pbc_capability b) ∧ addr_ok (pbc_device_addr b) ∧ absence_ok true (pbc_notice_of_absence b).
Definition beacon_fields (b : p2p_beacon) : list field :=
  [cap_field (pbc_capability b); addr_field false P2P_ATTR_P2P_DEVICE_ID (pbc_device_addr b);
   absence_field true (pbc_notice_of_absence b)].

Lemma beacon_roundtrip b :
  beacon_ok b → zlen (payload (beacon_fields b)) ≤ 251 →
  ∃ ies, p2p_build_beacon junk b = Ok ies ∧ p2p_parse_beacon fresh ies (zlen ies) = Ok b.
Proof.
  intros (Hc & Ha & Hn) Hs. unfold p2p_build_beacon, p2p_parse_beacon. whole_message (beacon_fields b) b.
Qed.

Definition probe_req_ok (p : p2p_probe_req) : Prop :=
  cap_ok (ppq_capability p) ∧ addr_ok (ppq_device_addr p) ∧ channel_ok true (ppq_listen_channel p) ∧ listen_ok (ppq_listen_availability p) ∧
  device_info_ok true (ppq_device_info p) ∧ channel_ok true (ppq_operating_channel p) ∧ hashes_ok (ppq_service_hashes p).
Definition probe_req_fields (p : p2p_probe_req) : list field :=
  [cap_field (ppq_capability p); addr_field true P2P_ATTR_P2P_DEVICE_ID (ppq_device_addr p);
   channel_field true P2P_ATTR_LISTEN_CHANNEL (ppq_listen_channel p); listen_field (ppq_listen_availability p);
   device_info_field true (ppq_device_info p); channel_field true P2P_ATTR_OPERATING_CHANNEL (ppq_operating_channel p);
   hashes_field (ppq_service_hashes p)].

Lemma probe_req_roundtrip p :
  probe_req_ok p → zlen (payload (probe_req_fields p)) ≤ 251 →
  ∃ ies, p2p_build_probe_req junk p = Ok ies ∧ p2p_parse_probe_req fresh ies (zlen ies) = Ok p.
Proof. intros (H1 & H2 & H3 & H4 & H5 & H6 & H7) Hs. unfold p2p_build_probe_req, p2p_parse_probe_req. whole_message (probe_req_fields p) p. Qed.

Definition probe_resp_ok (p : p2p_probe_resp) : Prop :=
  cap_ok (ppr_capability p) ∧ listen_ok (ppr_listen_availability p) ∧ absence_ok true (ppr_notice_of_absence p) ∧
  device_info_ok false (ppr_device_info p) ∧ ppr_group_clients p = QNull ∧ services_ok (ppr_advertised_svcs p).
Definition probe_resp_fields (p : p2p_probe_resp) : list field :=
  [cap_field (ppr_capability p); listen_field (ppr_listen_availability p); absence_field true (ppr_notice_of_absence p);
   device_info_field false (ppr_device_info p); clients_field; services_field (ppr_advertised_svcs p)].

Lemma probe_resp_roundtrip p :
  probe_resp_ok p → zlen (payload (probe_resp_fields p)) ≤ 251 →
  ∃ ies, p2p_build_probe_resp junk fuel p = Ok ies ∧ p2p_parse_probe_resp fresh ies (zlen ies) = Ok p.
Proof. intros (H1 & H2 & H3 & H4 & H5 & H6) Hs. unfold p2p_build_probe_resp. rewrite H5. unfold p2p_parse_probe_resp. whole_message (probe_resp_fields p) p. Qed.

Definition association_req_ok (p : p2p_association_req) : Prop :=
  cap_ok (paq_capability p) ∧ listen_ok (paq_listen_availability p) ∧ device_info_ok true (paq_device_info p) ∧ interface_ok (paq_interface p).
Definition association_req_fields (p : p2p_association_req) : list field :=
  [cap_field (paq_capability p); listen_field (paq_listen_availability p); device_info_field true (paq_device_info p);
   interface_field (paq_interface p)].

Lemma association_req_roundtrip p :
  association_req_ok p → zlen (payload (association_req_fields p)) ≤ 251 →
  ∃ ies, p2p_build_association_req junk p = Ok ies ∧ p2p_parse_association_req fresh ies (zlen ies) = Ok p.
Proof. intros (H1 & H2 & H3 & H4) Hs. unfold p2p_build_association_req, p2p_parse_association_req. whole_message (association_req_fields p) p. Qed.

Definition association_resp_ok (p : p2p_association_resp) : Prop :=
  byte_ok (par_status p) ∧ listen_ok (par_listen_availability p).
(** Both statuses of success are left out, which is read as 0. *)
Definition status_read (status : Z) : Z := if status_success status then 0 else status.
Definition association_resp_fields (p : p2p_association_resp) : list field :=
  [unless_field (status_success (par_status p)) P2P_ATTR_STATUS (par_status p); listen_field (par_listen_availability p)].

Lemma association_resp_filled p : filled (attrs_of (association_resp_fields p)).
Proof. unfold association_resp_fields, unless_field, listen_field. destruct (status_success _), (_ && _); exact I. Qed.

Lemma association_resp_same p :
  association_resp_ok p → par_status p ≠ P2P_STATUS_SUCCESS_ACCEPTED_BY_USER →
  ∃ ies, p2p_build_association_resp junk p = Ok ies ∧ p2p_parse_association_resp fresh ies (zlen ies) = Ok p.
Proof.
  intros (H1 & H3) H2. unfold p2p_build_association_resp, p2p_parse_association_resp. pose proof (association_resp_filled p) as Hf.
  assert (Hs : status_success (par_status p) = true → par_status p = 0).
  { unfold status_success. intros [E|E]%orb_true_iff; apply Z.eqb_eq in E; [done | by destruct H2]. }
  apply (whole_roundtrip _ _ _ _ (association_resp_fields p)); [constructor | lia |].
  - send_fields.
  - fields_decode.
  - reflexivity.
  - exact Hf.
  - unfold association_resp_fields, unless_field, listen_field. destruct (status_success _), (_ && _); by vm_compute.
  - intros. unfold d_association_resp, association_resp_fields in *. repeat read_field. by destruct p.
Qed.

Lemma association_resp_roundtrip p :
  association_resp_ok p →
  ∃ ies, p2p_build_association_resp junk p = Ok ies ∧
         p2p_parse_association_resp fresh ies (zlen ies) = Ok (mk_p2p_association_resp (status_read (par_status p)) (par_listen_availability p)).
Proof.
  intros [H1 H2]. destruct (Z.eq_dec (par_status p) P2P_STATUS_SUCCESS_ACCEPTED_BY_USER) as [He|Hne].
  - destruct (association_resp_same (mk_p2p_association_resp 0 (par_listen_availability p))) as (ies & Hb & Hp); [by split | done |].
    exists ies. unfold p2p_build_association_resp in *. rewrite He. by split.
  - destruct (association_resp_same p) as (ies & Hb & Hp); [by split | done |]. exists ies. split; [done |].
    rewrite Hp. destruct p as [status listen]. cbn in Hne |- *. unfold status_read, status_success.
    destruct (Z.eqb_spec status P2P_STATUS_SUCCESS) as [->|]; [done |].
    by destruct (Z.eqb_spec status P2P_STATUS_SUCCESS_ACCEPTED_BY_USER).
Qed.

(** The reason of a deauthentication and of a disassociation. *)
Definition reason_fields (reason : Z) : list field := [byte_field P2P_ATTR_MINOR_REASON_CODE reason].

Lemma reason_roundtrip reason :
  byte_ok reason →
  ∃ ies, (if reason =? 0 then Ok [] else p2p_encapsulate junk 512 (p2p_build_u8_attr junk P2P_ATTR_MINOR_REASON_CODE reason)) = Ok ies ∧
    ∃ r v, p2p_parse_attrs fresh ies (zlen ies) [P2P_REQUIRED P2P_ATTR_MINOR_REASON_CODE] = Ok (r, v) ∧ (r = None ∨ r = Some ENOENT) ∧
           byte_of P2P_ATTR_MINOR_REASON_CODE v = reason.
Proof.
  intros Hr. destruct (Z.eqb_spec reason 0) as [->|Hne].
  - exists []. split; [done |]. exists (Some ENOENT), []. split_and!; [| by right | done]. unfold p2p_parse_attrs.
    pose proof (frame_p2p fresh None None None no_payload no_payload no_payload) as H.
    change (tlv_encode_all (frame_elems None None None)) with (@nil Z) in H. by rewrite H, bind_ok.
  - assert (Hm : message [P2P_REQUIRED P2P_ATTR_MINOR_REASON_CODE] (p2p_build_u8_attr junk P2P_ATTR_MINOR_REASON_CODE reason) (reason_fields reason)).
    { constructor; [send_fields | fields_decode | reflexivity | exact I | by vm_compute]. }
    eexists. split; [by apply (p2p_encapsulate_message _ _ _ _ _ Hm) |]. exists None, (vals_of (reason_fields reason)). split_and!; [| by left |].
    + pose proof (p2p_parse_message fresh _ _ _ Hm None None no_payload no_payload) as H. exact H.
    + pose proof (message_nodup _ _ _ Hm). unfold reason_fields in *. by read_field.
Qed.

Lemma deauthentication_roundtrip p :
  byte_ok (pda_minor_reason_code p) →
  ∃ ies, p2p_build_deauthentication junk p = Ok ies ∧ p2p_parse_deauthentication fresh ies (zlen ies) = Ok p.
Proof.
  intros (ies & Hb & r & v & Hp & Hr & Hv)%reason_roundtrip. exists ies. split; [exact Hb |]. unfold p2p_parse_deauthentication.
  rewrite Hp, bind_ok, Hv. destruct p; by destruct Hr as [->| ->].
Qed.
Lemma disassociation_roundtrip p :
  byte_ok (pds_minor_reason_code p) →
  ∃ ies, p2p_build_disassociation junk p = Ok ies ∧ p2p_parse_disassociation fresh ies (zlen ies) = Ok p.
Proof.
  intros (ies & Hb & r & v & Hp & Hr & Hv)%reason_roundtrip. exists ies. split; [exact Hb |]. unfold p2p_parse_disassociation.
  rewrite Hp, bind_ok, Hv. destruct p; by destruct Hr as [->| ->].
Qed.
End messages.

(** *** Action frames *)

(** The element of Wi-Fi Display that is sent, if there is one, and what is read of it: the sender
    gives the whole element, the receiver gets its payload. *)
Definition wfd_sent (payload : option (list Z)) (w : wfd_ie) : Prop :=
  match payload with
  | Some p => let ie := tlv_encode_all (vendor_opt wifi_alliance_oui 0x0a (Some p)) in
              w = mk_wfd (Some ie) (inr (zlen ie)) ∧ bytes_ok p ∧ zlen p ≤ 251
  | None => wfd_data w = None
  end.
Definition wfd_read (payload : option (list Z)) : wfd_ie :=
  match payload with
  | Some p => mk_wfd (payload_result p).1 (payload_result p).2
  | None => mk_wfd None (inl ENOENT)
  end.

Lemma wfd_sent_ok o w : wfd_sent o w → payload_ok o.
Proof. destruct o as [p|]; [| done]. intros (_ & Hb & Hz) q [= <-]. done. Qed.

Definition action_header (public : bool) (subtype token : Z) : list Z :=
  (if public then [0x04; 0x09] else [0x7f]) ++ wifi_alliance_oui ++ [0x09; u8 subtype; u8 token].

Lemma zlen_action_header (public : bool) subtype token : zlen (action_header public subtype token) = if public then 8 else 7.
Proof. by destruct public. Qed.

Lemma action_frame_bytes junk public subtype token attrs wsc w P W D :
  match attrs with Some (capacity, m) => p2p_encapsulate junk capacity m | None => Ok [] end = Ok (tlv_encode_all (vendor_opt wifi_alliance_oui 0x09 P)) →
  match wsc with
  | Some a => payload ← wsc_build_p2p_attrs junk a; ie_tlv_encapsulate_wsc_payload junk payload (zlen payload)
  | None => Ok []
  end = Ok (tlv_encode_all (vendor_opt microsoft_oui 0x04 W)) →
  wfd_sent D w →
  p2p_build_action_frame junk public subtype token attrs wsc w = Ok (action_header public subtype token ++ tlv_encode_all (frame_elems P W D)).
Proof.
  intros HP HW HD. unfold p2p_build_action_frame. rewrite HP, bind_ok, HW, bind_ok.
  assert (Hw : match wfd_data w, wfd_size w with Some data, inr size => rdn data size | Some _, inl _ => Fault | None, _ => Ok [] end =
               Ok (tlv_encode_all (vendor_opt wifi_alliance_oui 0x0a D))).
  { destruct D as [p|]; [destruct HD as (-> & _ & _) | by rewrite HD]. cbn [wfd_data wfd_size]. rewrite rdn_ok by (znn; lia). by rewrite ptake_all by lia. }
  rewrite Hw, bind_ok. fold (action_header public subtype token). unfold frame_elems. rewrite !tlv_encode_all_app.
  set (H := action_header public subtype token). set (p := tlv_encode_all (vendor_opt wifi_alliance_oui 9 P)).
  set (q := tlv_encode_all (vendor_opt microsoft_oui 4 W)). set (d := tlv_encode_all (vendor_opt wifi_alliance_oui 10 D)).
  cbv zeta. pose proof (zlen_action_header public subtype token) as Hh. fold H in Hh. rewrite <- Hh. znn.
  set (buf := l_malloc _ _). assert (Hbuf : zlen buf = zlen H + zlen p + zlen q + zlen d) by (apply l_malloc_length; lia). clearbody buf.
  pose proof (put_next [] buf H 0 eq_refl ltac:(lia)) as E0. cbn [app] in E0. rewrite E0, bind_ok. rewrite put_next, bind_ok by (done || (rewrite zlen_padd; lia)).
  rewrite put_next, bind_ok by (rewrite ?zlen_app, ?zlen_padd; rewrite ?zlen_padd; lia).
  rewrite put_next by (rewrite ?zlen_app, ?zlen_padd; rewrite ?zlen_padd; rewrite ?zlen_padd; lia).
  rewrite (padd_all _ (zlen d)) by (rewrite ?zlen_padd; rewrite ?zlen_padd; rewrite ?zlen_padd; lia). by rewrite app_nil_r, <- !app_assoc.
Qed.

(** The parser is called on the dialog token and what is behind it. *)
Definition token_offset (public : bool) : Z := if public then 7 else 6.

Lemma frame_roundtrip {A} (build : res (list Z)) (parse : ptr → Z → res A) (public : bool) subtype token ies result :
  build = Ok (action_header public subtype token ++ ies) → parse (u8 token :: ies) (1 + zlen ies) = result →
  ∃ frame, build = Ok frame ∧ parse (frame +! token_offset public) (zlen frame - token_offset public) = result.
Proof.
  intros Hb Hp. eexists. split; [exact Hb |]. rewrite zlen_app, zlen_action_header. destruct public.
  - change ((action_header true subtype token ++ ies) +! token_offset true) with (u8 token :: ies).
    replace (8 + zlen ies - token_offset true) with (1 + zlen ies) by (unfold token_offset; lia). exact Hp.
  - change ((action_header false subtype token ++ ies) +! token_offset false) with (u8 token :: ies).
    replace (7 + zlen ies - token_offset false) with (1 + zlen ies) by (unfold token_offset; lia). exact Hp.
Qed.

Definition token_ok (token : Z) : Prop := 0 < token < 256.

Lemma dialog_token_ok {A} token ies (k : Z → res A) : token_ok token → dialog_token (u8 token :: ies) (1 + zlen ies) k = k token.
Proof.
  intros Ht. unfold token_ok in Ht. unfold dialog_token. znn. destruct (Z.ltb_spec (1 + zlen ies) 1); [lia |].
  rewrite rd_cons_0, bind_ok, u8_small by lia. destruct (Z.eqb_spec token 0); [lia | done].
Qed.

Section received.
Variables (fresh : nat → Z) (token : Z) (P W D : option (list Z)) (w : wfd_ie).
Hypotheses (HP : payload_ok P) (HW : payload_ok W) (HD : wfd_sent D w).
Let ies := tlv_encode_all (frame_elems P W D).

Lemma behind_token : (token :: ies) +! 1 = ies ∧ 1 + zlen ies - 1 = zlen ies.
Proof. split; [done | lia]. Qed.

Lemma parse_wfd_frame : parse_wfd fresh (token :: ies) (1 + zlen ies) = Ok (wfd_read D).
Proof using HP HW HD.
  unfold parse_wfd. destruct behind_token as [-> ->]. unfold ies. rewrite frame_wfd by (done || by eapply wfd_sent_ok). rewrite bind_ok.
  destruct D as [p|]; [| done]. cbn [wfd_read]. by destruct (payload_result p).
Qed.

Lemma parse_wsc_frame entries p :
  W = Some p → p ≠ [] → parse_wsc fresh (token :: ies) (1 + zlen ies) entries = try_call (wsc_parse_attrs p (zlen p) false None entries).
Proof using HP HW HD.
  intros E Hne. unfold parse_wsc. destruct behind_token as [-> ->]. unfold ies. rewrite frame_wsc by (done || by eapply wfd_sent_ok).
  rewrite bind_ok, E. by destruct p.
Qed.

Lemma parse_wsc_none entries : W = None → parse_wsc fresh (token :: ies) (1 + zlen ies) entries = Ok (inl ENOENT).
Proof using HP HW HD.
  intros E. unfold parse_wsc. destruct behind_token as [-> ->]. unfold ies. rewrite frame_wsc by (done || by eapply wfd_sent_ok).
  by rewrite bind_ok, E.
Qed.
End received.

Lemma parse_message_frame fresh token es m fs W D w :
  message es m fs → payload_ok W → wfd_sent D w →
  let ies := tlv_encode_all (frame_elems (Some (payload fs)) W D) in
  p2p_parse_attrs fresh ((token :: ies) +! 1) (1 + zlen ies - 1) es = Ok (None, vals_of fs).
Proof.
  intros Hm HW HD ies. destruct (behind_token token (Some (payload fs)) W D) as [H1 H2]. fold ies in H1, H2. rewrite H1, H2.
  apply (p2p_parse_message _ _ _ _ Hm); [done | by eapply wfd_sent_ok].
Qed.

(** *** The WSC attributes of the frames *)

Definition wsc_attr_list (version : bool) (id methods : Z) : list (Z * list Z) :=
  (if version then [(WSC_ATTR_VERSION, [u8 0x10])] else []) ++
  (if id =? 0 then [] else [(WSC_ATTR_DEVICE_PASSWORD_ID, be16_bytes id)]) ++
  (if methods =? 0 then [] else [(WSC_ATTR_CONFIGURATION_METHODS, be16_bytes methods)]).

Lemma wsc_p2p_attrs_bytes junk version id methods :
  wsc_build_p2p_attrs junk (mk_wsc_p2p_attrs version false id methods) = Ok (attrs_bytes (wsc_attr_list version id methods)).
Proof.
  unfold wsc_build_p2p_attrs. cbn [p2pa_version p2pa_device_password_id p2pa_config_methods p2pa_version2].
  apply wsc_run_builds; [lia |]. unfold wsc_attr_list. destruct version, (id =? 0), (methods =? 0); cbn [negb when]; (eapply builds_eq; [build_attrs | reflexivity]).
Qed.

(** The attributes as the element of a frame. *)
Lemma wsc_frame_ie junk version id methods :
  let l := wsc_attr_list version id methods in
  (payload ← wsc_build_p2p_attrs junk (mk_wsc_p2p_attrs version false id methods); ie_tlv_encapsulate_wsc_payload junk payload (zlen payload)) =
  Ok (tlv_encode_all (vendor_opt microsoft_oui 0x04 (if decide (l = []) then None else Some (attrs_bytes l)))).
Proof.
  intros l. rewrite wsc_p2p_attrs_bytes, bind_ok. fold l. unfold ie_tlv_encapsulate_wsc_payload.
  assert (Hl : l = [] ∨ (attrs_bytes l ≠ [] ∧ zlen (attrs_bytes l) ≤ 251)).
  { unfold l, wsc_attr_list. destruct version, (id =? 0), (methods =? 0); first [by left | right; by split]. }
  case_decide as E; [by rewrite E |]. destruct Hl as [? | [Hne Hz]]; [done |]. rewrite encode_vendor_opt.
  rewrite <- (app_nil_r (attrs_bytes l)) at 1. apply encapsulate_one; [done | done | exact Hz | by left].
Qed.
