(* ===== verification/P2pFrames.v ===== *)
(** * Wi-Fi Direct: round trips of the messages (src/p2putil.c)

    What the builders of the messages write is read back by their parsers; where it is not, an
    example of it. *)

From stdpp Require Import base numbers list option.
From Stdlib Require Import ZArith Lia.
From S2P Require Import Prelude StRes IeTlv IeMisc Crypto Handshake EapolFrame EapSpec Mschap Wsc WscMsg WscSafe WscSpec WscRun.
From S2P Require Import P2p P2pMsg P2pSafe P2pSpec P2pFields P2pRun.

Open Scope Z_scope.

(** ** The WSC attributes are read back *)

Lemma wsc_attrs_parsed es k vs ps t v :
  attrs_match es k vs ps → table_ok es k ps false None = true → last_filled (k ++ []) → num_of t vs = v →
  ∃ p, wsc_parse_attrs (attrs_bytes k) (zlen (attrs_bytes k)) false None es = Ok p ∧ num_of t (wp_values p) = v.
Proof.
  intros Hm Ht Hl <-. destruct (wsc_parse_back es k vs ps false None None Hm Ht) as (x & Hx & _); [done | done | done | exact Hl |].
  unfold tail_attrs in Hx. rewrite !app_nil_r in Hx. eexists. split; [exact Hx | done].
Qed.

Lemma password_id_parsed id :
  1 ≤ id ≤ 8 →
  let l := attrs_bytes (wsc_attr_list true id 0) in
  ∃ p, wsc_parse_attrs l (zlen l) false None [REQUIRED WSC_ATTR_VERSION; REQUIRED WSC_ATTR_DEVICE_PASSWORD_ID] = Ok p ∧
       num_of WSC_ATTR_DEVICE_PASSWORD_ID (wp_values p) = id.
Proof.
  intros Hid l. unfold l, wsc_attr_list. destruct (Z.eqb_spec id 0); [lia |]. cbn [app Z.eqb].
  eapply wsc_attrs_parsed; [match_attrs | reflexivity | filled | reflexivity].
Qed.

Lemma methods_parsed methods :
  0 < methods < 65536 →
  let l := attrs_bytes (wsc_attr_list false 0 methods) in
  ∃ p, wsc_parse_attrs l (zlen l) false None [REQUIRED WSC_ATTR_CONFIGURATION_METHODS] = Ok p ∧
       num_of WSC_ATTR_CONFIGURATION_METHODS (wp_values p) = methods.
Proof.
  intros Hid l. unfold l, wsc_attr_list. destruct (Z.eqb_spec methods 0); [lia |]. cbn [app Z.eqb].
  eapply wsc_attrs_parsed; [match_attrs | reflexivity | filled | reflexivity].
Qed.

(** The element of the WSC attributes, if there are any. *)
Definition wsc_payload (version : bool) (id methods : Z) : option (list Z) :=
  let l := wsc_attr_list version id methods in if decide (l = []) then None else Some (attrs_bytes l).

Lemma be16_ok v : bytes_ok (be16_bytes v).
Proof. apply be16_bytes_ok. Qed.

Lemma wsc_payload_ok version id methods : payload_ok (wsc_payload version id methods).
Proof.
  unfold wsc_payload. case_decide; [done |]. intros p [= <-]. split.
  - unfold wsc_attr_list, attrs_bytes. apply bytes_ok_bind. repeat apply Forall_app_2;
      [destruct version | destruct (id =? 0) | destruct (methods =? 0)]; try apply Forall_nil_2; apply list.Forall_singleton; unfold attr_bytes; cbn [fst snd];
      repeat apply Forall_app_2; first [apply be16_bytes_ok | apply bytes_ok_one].
  - unfold wsc_attr_list. by destruct version, (id =? 0), (methods =? 0).
Qed.

Lemma wsc_payload_password id : 1 ≤ id ≤ 8 → wsc_payload true id 0 = Some (attrs_bytes (wsc_attr_list true id 0)).
Proof. intros Hid. unfold wsc_payload. by rewrite decide_False. Qed.
Lemma wsc_payload_methods methods : 0 < methods → wsc_payload false 0 methods = Some (attrs_bytes (wsc_attr_list false 0 methods)).
Proof. intros Hm. unfold wsc_payload. rewrite decide_False; [done |]. unfold wsc_attr_list. by destruct (Z.eqb_spec methods 0); [lia |]. Qed.

Lemma wsc_payload_none : wsc_payload false 0 0 = None.
Proof. done. Qed.

Lemma attrs_bytes_ne version id methods : wsc_payload version id methods = Some (attrs_bytes (wsc_attr_list version id methods)) →
  attrs_bytes (wsc_attr_list version id methods) ≠ [].
Proof. unfold wsc_payload. case_decide as E; [done |]. intros _ Hn. destruct (wsc_attr_list version id methods) as [|a l]; [done |]. discriminate Hn. Qed.

Lemma parse_wsc_password fresh token P D w id :
  payload_ok P → wfd_sent D w → 1 ≤ id ≤ 8 →
  let ies := tlv_encode_all (frame_elems P (wsc_payload true id 0) D) in
  ∃ p, parse_wsc fresh (token :: ies) (1 + zlen ies) [REQUIRED WSC_ATTR_VERSION; REQUIRED WSC_ATTR_DEVICE_PASSWORD_ID] = Ok (inr p) ∧
       num_of WSC_ATTR_DEVICE_PASSWORD_ID (wp_values p) = id.
Proof.
  intros HP HD Hid ies. pose proof (wsc_payload_password id Hid) as E. destruct (password_id_parsed id Hid) as (p & Hp & Hn).
  exists p. split; [| exact Hn]. unfold ies. rewrite (parse_wsc_frame fresh token P _ D w) with (p := attrs_bytes (wsc_attr_list true id 0));
    [by rewrite Hp | exact HP | apply wsc_payload_ok | exact HD | exact E | by apply attrs_bytes_ne].
Qed.

Lemma parse_wsc_methods fresh token P D w methods :
  payload_ok P → wfd_sent D w → 0 < methods < 65536 →
  let ies := tlv_encode_all (frame_elems P (wsc_payload false 0 methods) D) in
  ∃ p, parse_wsc fresh (token :: ies) (1 + zlen ies) [REQUIRED WSC_ATTR_CONFIGURATION_METHODS] = Ok (inr p) ∧
       num_of WSC_ATTR_CONFIGURATION_METHODS (wp_values p) = methods.
Proof.
  intros HP HD Hid ies. pose proof (wsc_payload_methods methods ltac:(lia)) as E. destruct (methods_parsed methods Hid) as (p & Hp & Hn).
  exists p. split; [| exact Hn]. unfold ies. rewrite (parse_wsc_frame fresh token P _ D w) with (p := attrs_bytes (wsc_attr_list false 0 methods));
    [by rewrite Hp | exact HP | apply wsc_payload_ok | exact HD | exact E | by apply attrs_bytes_ne].
Qed.

(** A frame with a P2P element. *)
Lemma built_frame junk public subtype token capacity es m fs wsc W D w :
  message es m fs → 16 ≤ capacity →
  match wsc with
  | Some a => payload ← wsc_build_p2p_attrs junk a; ie_tlv_encapsulate_wsc_payload junk payload (zlen payload)
  | None => Ok []
  end = Ok (tlv_encode_all (vendor_opt microsoft_oui 0x04 W)) →
  wfd_sent D w →
  p2p_build_action_frame junk public subtype token (Some (capacity, m)) wsc w =
  Ok (action_header public subtype token ++ tlv_encode_all (frame_elems (Some (payload fs)) W D)).
Proof. intros Hm Hc HW HD. apply action_frame_bytes; [by apply (p2p_encapsulate_message junk es m fs) | exact HW | exact HD]. Qed.

(** ** Automation *)

(** The fields [fs] as a message for the parser [parse]. *)
Ltac frame_message parse fs Hm Hnd :=
  let l := eval hnf in fs in
  let p := eval red in (parse (@nil Z) 0) in
  lazymatch goal with |- context [p2p_build_action_frame _ _ _ _ (Some (_, ?m)) _ _] =>
    lazymatch p with
    | context [p2p_parse_attrs _ _ _ ?es] => assert (Hm : message es m l) by is_message
    | context [p2p_parse_whole _ _ _ ?es _ _] => assert (Hm : message es m l) by is_message
    end
  end;
  pose proof (message_nodup _ _ _ Hm) as Hnd; change fs with l in *.

(** The frame with these fields, the WSC element [W] and the WFD element [D], and the parser up to
    what it does with the values. *)
Ltac frame_fields parse public Hm W D :=
  eapply (frame_roundtrip _ parse public);
  [apply (built_frame _ _ _ _ _ _ _ _ _ W D _ Hm); [lia | first [reflexivity | apply wsc_frame_ie] | assumption] |].
Ltac parsed_fields Hm W D :=
  rewrite dialog_token_ok by assumption;
  erewrite (parse_message_frame _ _ _ _ _ W D _ Hm) by (eassumption || apply wsc_payload_ok || apply no_payload); rewrite bind_ok; cbv beta iota zeta.
Ltac wfd_parsed Hm W D :=
  erewrite (parse_wfd_frame _ _ _ W D) by (eassumption || apply wsc_payload_ok || apply no_payload || exact (message_payload _ _ _ Hm));
  rewrite bind_ok.
(** The structure is the one that was sent. *)
Ltac same_message data := repeat read_field; destruct data; reflexivity.

Section frames.
Variables (junk fresh : nat → Z).

(** All but the password identifier. *)
Definition go_negotiation_req_body (q : p2p_go_negotiation_req) : Prop :=
  token_ok (gnq_dialog_token q) ∧ cap_ok (gnq_capability q) ∧ 0 ≤ gnq_go_intent q ≤ 15 ∧ timeout_ok (gnq_config_timeout q) ∧
  (channel_ok false (gnq_listen_channel q) ∧ channel_left_out true (gnq_listen_channel q) = false) ∧
  listen_ok (gnq_listen_availability q) ∧ addr_ok (gnq_intended_interface_addr q) ∧ channels_ok false (gnq_channel_list q) ∧
  device_info_ok false (gnq_device_info q) ∧
  (channel_ok false (gnq_operating_channel q) ∧ channel_left_out true (gnq_operating_channel q) = false).
Definition go_negotiation_req_ok (q : p2p_go_negotiation_req) : Prop := go_negotiation_req_body q ∧ 1 ≤ gnq_device_password_id q ≤ 8.
Definition go_negotiation_req_fields (q : p2p_go_negotiation_req) : list field :=
  [cap_field (gnq_capability q); intent_field (gnq_go_intent q) (gnq_go_tie_breaker q); timeout_field false (gnq_config_timeout q);
   channel_field false P2P_ATTR_LISTEN_CHANNEL (gnq_listen_channel q); listen_field (gnq_listen_availability q);
   addr_field false P2P_ATTR_INTENDED_P2P_INTERFACE_ADDR (gnq_intended_interface_addr q); channels_field false (gnq_channel_list q);
   device_info_field false (gnq_device_info q); channel_field false P2P_ATTR_OPERATING_CHANNEL (gnq_operating_channel q)].

Lemma go_negotiation_req_roundtrip q o :
  go_negotiation_req_ok q → wfd_sent o (gnq_wfd q) → zlen (payload (go_negotiation_req_fields q)) ≤ 251 →
  ∃ frame, p2p_build_go_negotiation_req junk q = Ok frame ∧
           p2p_parse_go_negotiation_req fresh (frame +! 7) (zlen frame - 7) = Ok (q <| gnq_wfd := wfd_read o |>).
Proof.
  intros [(Ht & H1 & H2 & H3 & [H4 H4'] & H5 & H6 & H7 & H8 & [H9 H9']) Hid] Hw Hs.
  unfold p2p_build_go_negotiation_req.
  frame_message (p2p_parse_go_negotiation_req fresh) (go_negotiation_req_fields q) Hm Hnd.
  frame_fields (p2p_parse_go_negotiation_req fresh) true Hm (wsc_payload true (gnq_device_password_id q) 0) o.
  unfold p2p_parse_go_negotiation_req. parsed_fields Hm (wsc_payload true (gnq_device_password_id q) 0) o.
  destruct (parse_wsc_password fresh (u8 (gnq_dialog_token q)) _ _ _ _ (message_payload _ _ _ Hm) Hw Hid) as (p & Hp & Hn).
  rewrite Hp, bind_ok, Hn. read_field. cbn [nonnull]. rewrite bind_ok. wfd_parsed Hm (wsc_payload true (gnq_device_password_id q) 0) o. f_equal. unfold d_go_negotiation_req.
  same_message q.
Qed.

Definition go_negotiation_resp_ok (q : p2p_go_negotiation_resp) : Prop :=
  token_ok (gnr_dialog_token q) ∧ byte_ok (gnr_status q) ∧ cap_ok (gnr_capability q) ∧ 0 ≤ gnr_go_intent q ≤ 15 ∧ timeout_ok (gnr_config_timeout q) ∧
  channel_ok true (gnr_operating_channel q) ∧ addr_ok (gnr_intended_interface_addr q) ∧ channels_ok false (gnr_channel_list q) ∧
  device_info_ok false (gnr_device_info q) ∧ group_id_ok true (gnr_group_id q) ∧ 1 ≤ gnr_device_password_id q ≤ 8.
Definition go_negotiation_resp_fields (q : p2p_go_negotiation_resp) : list field :=
  [byte_field P2P_ATTR_STATUS (gnr_status q); cap_field (gnr_capability q); intent_field (gnr_go_intent q) (gnr_go_tie_breaker q);
   timeout_field false (gnr_config_timeout q); channel_field true P2P_ATTR_OPERATING_CHANNEL (gnr_operating_channel q);
   addr_field false P2P_ATTR_INTENDED_P2P_INTERFACE_ADDR (gnr_intended_interface_addr q); channels_field false (gnr_channel_list q);
   device_info_field false (gnr_device_info q); group_id_field true P2P_ATTR_P2P_GROUP_ID (gnr_group_id q)].

Lemma go_negotiation_resp_roundtrip q o :
  go_negotiation_resp_ok q → wfd_sent o (gnr_wfd q) → zlen (payload (go_negotiation_resp_fields q)) ≤ 251 →
  ∃ frame, p2p_build_go_negotiation_resp junk q = Ok frame ∧
           p2p_parse_go_negotiation_resp fresh (frame +! 7) (zlen frame - 7) = Ok (q <| gnr_wfd := wfd_read o |>).
Proof.
  intros (Ht & H1 & H2 & H3 & H4 & H5 & H6 & H7 & H8 & H9 & Hid) Hw Hs. unfold p2p_build_go_negotiation_resp.
  frame_message (p2p_parse_go_negotiation_resp fresh) (go_negotiation_resp_fields q) Hm Hnd.
  frame_fields (p2p_parse_go_negotiation_resp fresh) true Hm (wsc_payload true (gnr_device_password_id q) 0) o.
  unfold p2p_parse_go_negotiation_resp. parsed_fields Hm (wsc_payload true (gnr_device_password_id q) 0) o.
  destruct (parse_wsc_password fresh (u8 (gnr_dialog_token q)) _ _ _ _ (message_payload _ _ _ Hm) Hw Hid) as (p & Hp & Hn).
  rewrite Hp, bind_ok, Hn. read_field. cbn [nonnull]. rewrite bind_ok. wfd_parsed Hm (wsc_payload true (gnr_device_password_id q) 0) o.
  f_equal. unfold d_go_negotiation_resp. same_message q.
Qed.

Definition go_negotiation_confirmation_ok (q : p2p_go_negotiation_confirmation) : Prop :=
  token_ok (gnc_dialog_token q) ∧ byte_ok (gnc_status q) ∧ cap_ok (gnc_capability q) ∧ channel_ok false (gnc_operating_channel q) ∧
  channels_ok false (gnc_channel_list q) ∧ group_id_ok true (gnc_group_id q).
Definition go_negotiation_confirmation_fields (q : p2p_go_negotiation_confirmation) : list field :=
  [byte_field P2P_ATTR_STATUS (gnc_status q); cap_field (gnc_capability q);
   channel_field false P2P_ATTR_OPERATING_CHANNEL (gnc_operating_channel q); channels_field false (gnc_channel_list q);
   group_id_field true P2P_ATTR_P2P_GROUP_ID (gnc_group_id q)].

Lemma go_negotiation_confirmation_roundtrip q o :
  go_negotiation_confirmation_ok q → wfd_sent o (gnc_wfd q) → zlen (payload (go_negotiation_confirmation_fields q)) ≤ 251 →
  ∃ frame, p2p_build_go_negotiation_confirmation junk q = Ok frame ∧
           p2p_parse_go_negotiation_confirmation fresh (frame +! 7) (zlen frame - 7) = Ok (q <| gnc_wfd := wfd_read o |>).
Proof.
  intros (Ht & H1 & H2 & H3 & H4 & H5) Hw Hs. unfold p2p_build_go_negotiation_confirmation.
  frame_message (p2p_parse_go_negotiation_confirmation fresh) (go_negotiation_confirmation_fields q) Hm Hnd.
  frame_fields (p2p_parse_go_negotiation_confirmation fresh) true Hm (@None (list Z)) o.
  unfold p2p_parse_go_negotiation_confirmation. parsed_fields Hm (@None (list Z)) o. wfd_parsed Hm (@None (list Z)) o.
  f_equal. unfold d_go_negotiation_confirmation. same_message q.
Qed.

Definition invitation_req_ok (q : p2p_invitation_req) : Prop :=
  token_ok (inq_dialog_token q) ∧ timeout_ok (inq_config_timeout q) ∧ channel_ok true (inq_operating_channel q) ∧ addr_ok (inq_group_bssid q) ∧
  channels_ok false (inq_channel_list q) ∧ group_id_ok false (inq_group_id q) ∧ device_info_ok false (inq_device_info q).
Definition invitation_req_fields (q : p2p_invitation_req) : list field :=
  [timeout_field false (inq_config_timeout q); flag_field (inq_reinvoke_persistent_group q);
   channel_field true P2P_ATTR_OPERATING_CHANNEL (inq_operating_channel q); addr_field true P2P_ATTR_P2P_GROUP_BSSID (inq_group_bssid q);
   channels_field false (inq_channel_list q); group_id_field false P2P_ATTR_P2P_GROUP_ID (inq_group_id q); device_info_field false (inq_device_info q)].

(** Without a password identifier there is no WSC element. *)
Lemma invitation_req_roundtrip q o :
  invitation_req_ok q → inq_device_password_id q = 0 → wfd_sent o (inq_wfd q) → zlen (payload (invitation_req_fields q)) ≤ 251 →
  ∃ frame, p2p_build_invitation_req junk q = Ok frame ∧
           p2p_parse_invitation_req fresh (frame +! 7) (zlen frame - 7) = Ok (q <| inq_wfd := wfd_read o |>).
Proof.
  intros (Ht & H1 & H2 & H3 & H4 & H5 & H6) Hid Hw Hs. unfold p2p_build_invitation_req. rewrite Hid. cbn [Z.eqb].
  frame_message (p2p_parse_invitation_req fresh) (invitation_req_fields q) Hm Hnd.
  frame_fields (p2p_parse_invitation_req fresh) true Hm (@None (list Z)) o.
  unfold p2p_parse_invitation_req. parsed_fields Hm (@None (list Z)) o.
  erewrite parse_wsc_none by (eassumption || apply no_payload || exact (message_payload _ _ _ Hm) || reflexivity). rewrite bind_ok.
  wfd_parsed Hm (@None (list Z)) o. f_equal. unfold d_invitation_req. repeat read_field. rewrite <- Hid. by destruct q.
Qed.

(** The members that are sent only with success are zero otherwise. *)
Definition invitation_resp_ok (q : p2p_invitation_resp) : Prop :=
  token_ok (inr_dialog_token q) ∧ byte_ok (inr_status q) ∧ timeout_ok (inr_config_timeout q) ∧
  if status_success (inr_status q) then
    channel_ok false (inr_operating_channel q) ∧ addr_ok (inr_group_bssid q) ∧ channels_ok false (inr_channel_list q)
  else inr_operating_channel q = zero_channel ∧ inr_group_bssid q = zeros 6 ∧ inr_channel_list q = zero_channels.
Definition invitation_resp_fields (q : p2p_invitation_resp) : list field :=
  [byte_field P2P_ATTR_STATUS (inr_status q); timeout_field false (inr_config_timeout q)] ++
  if status_success (inr_status q) then
    [channel_field false P2P_ATTR_OPERATING_CHANNEL (inr_operating_channel q); addr_field false P2P_ATTR_P2P_GROUP_BSSID (inr_group_bssid q);
     channels_field false (inr_channel_list q)]
  else [].

Lemma invitation_resp_roundtrip q o :
  invitation_resp_ok q → wfd_sent o (inr_wfd q) → zlen (payload (invitation_resp_fields q)) ≤ 251 →
  ∃ frame, p2p_build_invitation_resp junk q = Ok frame ∧
           p2p_parse_invitation_resp fresh (frame +! 7) (zlen frame - 7) = Ok (q <| inr_wfd := wfd_read o |>).
Proof.
  intros (Ht & H1 & H2 & H3) Hw Hs. unfold p2p_build_invitation_resp, invitation_resp_fields in *.
  destruct (status_success (inr_status q)); cbn [negb unless app] in *; destruct H3 as (H3 & H4 & H5).
  - lazymatch type of Hs with zlen (payload ?l) ≤ _ => frame_message (p2p_parse_invitation_resp fresh) l Hm Hnd end.
    frame_fields (p2p_parse_invitation_resp fresh) true Hm (@None (list Z)) o.
    unfold p2p_parse_invitation_resp. parsed_fields Hm (@None (list Z)) o. wfd_parsed Hm (@None (list Z)) o.
    reflexivity.
  - set (l := [byte_field P2P_ATTR_STATUS (inr_status q); timeout_field false (inr_config_timeout q); absent_field P2P_ATTR_OPERATING_CHANNEL]).
    change (zlen (payload l) ≤ 251) in Hs. frame_message (p2p_parse_invitation_resp fresh) l Hm Hnd.
    frame_fields (p2p_parse_invitation_resp fresh) true Hm (@None (list Z)) o.
    unfold p2p_parse_invitation_resp. parsed_fields Hm (@None (list Z)) o. wfd_parsed Hm (@None (list Z)) o.
    f_equal. clear - H3 H4 H5. destruct q; cbn in H3, H4, H5; subst. reflexivity.
Qed.

Definition device_disc_req_ok (q : p2p_device_discoverability_req) : Prop :=
  token_ok (ddq_dialog_token q) ∧ addr_ok (ddq_device_addr q) ∧ group_id_ok false (ddq_group_id q).
Definition device_disc_req_fields (q : p2p_device_discoverability_req) : list field :=
  [addr_field false P2P_ATTR_P2P_DEVICE_ID (ddq_device_addr q); group_id_field false P2P_ATTR_P2P_GROUP_ID (ddq_group_id q)].

Lemma no_wfd_sent : wfd_sent None no_wfd.
Proof. done. Qed.

(** The size of the attributes, from the sizes of their data. *)
Lemma zlen_payload_cons f fs : zlen (payload (f :: fs)) = match f.2 with Some (d, _) => 3 + zlen d | None => 0 end + zlen (payload fs).
Proof.
  unfold payload. destruct f as [t [[d v]|]]; cbn [snd]; [| done].
  change (attrs_of ((t, Some (d, v)) :: fs)) with ([(t, d)] ++ attrs_of fs). rewrite p2p_attrs_bytes_app, p2p_attrs_bytes_one, zlen_app, zlen_p2p_attr_bytes. done.
Qed.

Lemma device_disc_req_roundtrip q :
  device_disc_req_ok q →
  ∃ frame, p2p_build_device_disc_req junk q = Ok frame ∧ p2p_parse_device_disc_req fresh (frame +! 7) (zlen frame - 7) = Ok q.
Proof.
  intros (Ht & H1 & H2). unfold p2p_build_device_disc_req. pose proof no_wfd_sent as Hw.
  assert (Hs : zlen (payload (device_disc_req_fields q)) ≤ 251).
  { unfold device_disc_req_fields. rewrite !zlen_payload_cons. cbn [addr_field group_id_field snd andb]. rewrite zlen_app.
    destruct H1 as [-> _], H2 as ([-> _] & (_ & _ & H) & _). change (zlen (payload [])) with 0. lia. }
  assert (Hf : filled (attrs_of (device_disc_req_fields q))).
  { destruct H1 as [H1 _]. cbn. by destruct (ddq_device_addr q). }
  frame_message (p2p_parse_device_disc_req fresh) (device_disc_req_fields q) Hm Hnd.
  frame_fields (p2p_parse_device_disc_req fresh) true Hm (@None (list Z)) (@None (list Z)).
  unfold p2p_parse_device_disc_req, p2p_parse_whole. parsed_fields Hm (@None (list Z)) (@None (list Z)). by destruct q as [? ? []].
Qed.

Lemma device_disc_resp_roundtrip q :
  token_ok (ddr_dialog_token q) → byte_ok (ddr_status q) →
  ∃ frame, p2p_build_device_disc_resp junk q = Ok frame ∧ p2p_parse_device_disc_resp fresh (frame +! 7) (zlen frame - 7) = Ok q.
Proof.
  intros Ht H1. unfold p2p_build_device_disc_resp. pose proof no_wfd_sent as Hw.
  assert (Hs : zlen (payload [byte_field P2P_ATTR_STATUS (ddr_status q)]) ≤ 251) by done.
  frame_message (p2p_parse_device_disc_resp fresh) [byte_field P2P_ATTR_STATUS (ddr_status q)] Hm Hnd.
  frame_fields (p2p_parse_device_disc_resp fresh) true Hm (@None (list Z)) (@None (list Z)).
  unfold p2p_parse_device_disc_resp, p2p_parse_whole. parsed_fields Hm (@None (list Z)) (@None (list Z)). by destruct q.
Qed.

Definition provision_disc_req_ok (q : p2p_provision_discovery_req) : Prop :=
  token_ok (pdq_dialog_token q) ∧ cap_ok (pdq_capability q) ∧ device_info_ok false (pdq_device_info q) ∧ group_id_ok true (pdq_group_id q) ∧
  addr_ok (pdq_intended_interface_addr q) ∧ (∀ v, pdq_status q = Some v → byte_ok v) ∧ channel_ok true (pdq_operating_channel q) ∧
  channels_ok true (pdq_channel_list q) ∧ byte_ok (pdq_connection_capability q) ∧
  advertisement_ok (pdq_advertisement_id q) ∧ timeout_ok (pdq_config_timeout q) ∧ channel_ok true (pdq_listen_channel q) ∧
  session_id_ok (pdq_session_id q) ∧ group_id_ok true (pdq_persistent_group_info q) ∧
  (0 < pdq_wsc_config_method q < 65536 ∧ popcount (pdq_wsc_config_method q) = 1).
Definition provision_disc_req_fields (q : p2p_provision_discovery_req) : list field :=
  [cap_field (pdq_capability q); device_info_field false (pdq_device_info q); group_id_field true P2P_ATTR_P2P_GROUP_ID (pdq_group_id q);
   addr_field true P2P_ATTR_INTENDED_P2P_INTERFACE_ADDR (pdq_intended_interface_addr q); status_field (pdq_status q);
   channel_field true P2P_ATTR_OPERATING_CHANNEL (pdq_operating_channel q); channels_field true (pdq_channel_list q); session_field;
   unless_field (pdq_connection_capability q =? 0) P2P_ATTR_CONNECTION_CAPABILITY_INFO (pdq_connection_capability q);
   advertisement_field (pdq_advertisement_id q); timeout_field true (pdq_config_timeout q);
   channel_field true P2P_ATTR_LISTEN_CHANNEL (pdq_listen_channel q); session_id_field (pdq_session_id q);
   transport_field true (pdq_transport_protocol q); group_id_field true P2P_ATTR_PERSISTENT_GROUP_INFO (pdq_persistent_group_info q)].

Lemma provision_disc_req_roundtrip q o :
  provision_disc_req_ok q → pdq_session_info q = zero_session → wfd_sent o (pdq_wfd q) → zlen (payload (provision_disc_req_fields q)) ≤ 251 →
  ∃ frame, p2p_build_provision_disc_req junk q = Ok frame ∧
           p2p_parse_provision_disc_req fresh (frame +! 7) (zlen frame - 7) = Ok (q <| pdq_wfd := wfd_read o |>).
Proof.
  intros (Ht & H1 & H2 & H3 & H4 & H5 & H6 & H7 & H8 & H9 & H10 & H11 & H12 & H13 & Hmeth & Hpop) Hz Hw Hs.
  unfold p2p_build_provision_disc_req, nonzero_attr. rewrite Hz.
  assert (H8' : (pdq_connection_capability q =? 0) = true → pdq_connection_capability q = 0) by (apply Z.eqb_eq).
  frame_message (p2p_parse_provision_disc_req fresh) (provision_disc_req_fields q) Hm Hnd.
  frame_fields (p2p_parse_provision_disc_req fresh) true Hm (wsc_payload false 0 (pdq_wsc_config_method q)) o.
  unfold p2p_parse_provision_disc_req. parsed_fields Hm (wsc_payload false 0 (pdq_wsc_config_method q)) o.
  destruct (parse_wsc_methods fresh (u8 (pdq_dialog_token q)) _ _ _ _ (message_payload _ _ _ Hm) Hw Hmeth) as (p & Hp & Hn).
  rewrite Hp, bind_ok, Hn, Hpop. change (negb (1 =? 1)) with false. cbv iota. wfd_parsed Hm (wsc_payload false 0 (pdq_wsc_config_method q)) o.
  f_equal. unfold d_provision_discovery_req. repeat read_field. rewrite <- Hz. by destruct q.
Qed.

(** A response to a request that is not of a service: a method, or none. *)
Definition provision_disc_answer (token method : Z) (w : wfd_ie) : p2p_provision_discovery_resp :=
  d_provision_discovery_resp token [] method w.

Lemma provision_disc_resp_roundtrip token method w o :
  token_ok token → 0 < method < 65536 → popcount method = 1 → wfd_sent o w →
  ∃ frame, p2p_build_provision_disc_resp junk (provision_disc_answer token method w) = Ok frame ∧
           p2p_parse_provision_disc_resp fresh (frame +! 7) (zlen frame - 7) = Ok (provision_disc_answer token method (wfd_read o)).
Proof.
  intros Ht Hmeth Hpop Hw. unfold p2p_build_provision_disc_resp. change (pdr_status (provision_disc_answer token method w)) with (@None Z). cbv iota.
  eapply (frame_roundtrip _ (p2p_parse_provision_disc_resp fresh) true).
  { apply (action_frame_bytes _ _ _ _ _ _ _ None (wsc_payload false 0 method) o); [done | apply wsc_frame_ie | done]. }
  unfold p2p_parse_provision_disc_resp. change (pdr_dialog_token (provision_disc_answer token method w)) with token.
  rewrite dialog_token_ok by done. set (ies := tlv_encode_all (frame_elems None (wsc_payload false 0 method) o)).
  destruct (behind_token (u8 token) None (wsc_payload false 0 method) o) as [E1 E2]. fold ies in E1, E2. rewrite E1, E2.
  assert (Hp0 : ∀ es, p2p_parse_attrs fresh ies (zlen ies) es = Ok (Some ENOENT, [])).
  { intros es. unfold p2p_parse_attrs, ies. rewrite frame_p2p by (apply no_payload || apply wsc_payload_ok || by eapply wfd_sent_ok). done. }
  rewrite Hp0, bind_ok. cbv beta iota zeta.
  destruct (parse_wsc_methods fresh (u8 token) _ _ _ _ no_payload Hw Hmeth) as (p & Hp & Hn). fold ies in Hp.
  rewrite Hp, bind_ok, Hn, Hpop. change (1 <? 1) with false. cbv iota.
  unfold ies. erewrite parse_wfd_frame by (eassumption || apply wsc_payload_ok || apply no_payload). by rewrite bind_ok.
Qed.

Lemma notice_of_absence_roundtrip q :
  absence_ok false (noa_notice_of_absence q) → zlen (payload [absence_field false (noa_notice_of_absence q)]) ≤ 251 →
  ∃ frame, p2p_build_notice_of_absence junk q = Ok frame ∧ p2p_parse_notice_of_absence fresh (frame +! 6) (zlen frame - 6) = Ok q.
Proof.
  intros H1 Hs. unfold p2p_build_notice_of_absence. pose proof no_wfd_sent as Hw.
  frame_message (p2p_parse_notice_of_absence fresh) [absence_field false (noa_notice_of_absence q)] Hm Hnd.
  frame_fields (p2p_parse_notice_of_absence fresh) false Hm (@None (list Z)) (@None (list Z)).
  unfold p2p_parse_notice_of_absence, p2p_parse_whole. znn. set (ies := tlv_encode_all _) in *. destruct (Z.ltb_spec (1 + zlen ies) 1); [lia |].
  unfold ies. erewrite (parse_message_frame _ _ _ _ _ None None _ Hm) by (eassumption || apply no_payload). rewrite bind_ok. by destruct q.
Qed.

Lemma go_disc_req_roundtrip :
  ∃ frame, p2p_build_go_disc_req junk = Ok frame ∧ p2p_parse_go_disc_req (frame +! 6) (zlen frame - 6) = Ok tt.
Proof.
  unfold p2p_build_go_disc_req. apply (frame_roundtrip _ p2p_parse_go_disc_req false P2P_ACTION_GO_DISCOVERABILITY_REQ 0 []); [| done].
  by apply (action_frame_bytes _ _ _ _ _ _ _ None None None).
Qed.
End frames.


(** C27: the action frames are read back from the dialog token on, when the P2P attributes fit one
    element of 251 bytes (the builder of longer ones does not write what it should, see
    [vendor_ie_encapsulate_long_broken]) and the members satisfy the conditions of
    [go_negotiation_req_ok] to [provision_disc_req_ok], which are those of the elements of the
    management frames with a dialog token other than 0: GO negotiation with a password
    identifier from 1 to 8, invitation requests without one, invitation responses, device
    discoverability, a provision discovery request without session information, notices of absence
    and GO discoverability.  Of the provision discovery responses only the answer with a method and
    no P2P attribute is covered.  A WFD element is given as it is sent, and read as its payload. *)
Theorem p2p_frames_roundtrip junk fresh :
  (∀ q o, go_negotiation_req_ok q → wfd_sent o (gnq_wfd q) → zlen (payload (go_negotiation_req_fields q)) ≤ 251 →
     ∃ frame, p2p_build_go_negotiation_req junk q = Ok frame ∧
              p2p_parse_go_negotiation_req fresh (frame +! 7) (zlen frame - 7) = Ok (q <| gnq_wfd := wfd_read o |>)) ∧
  (∀ q o, go_negotiation_resp_ok q → wfd_sent o (gnr_wfd q) → zlen (payload (go_negotiation_resp_fields q)) ≤ 251 →
     ∃ frame, p2p_build_go_negotiation_resp junk q = Ok frame ∧
              p2p_parse_go_negotiation_resp fresh (frame +! 7) (zlen frame - 7) = Ok (q <| gnr_wfd := wfd_read o |>)) ∧
  (∀ q o, go_negotiation_confirmation_ok q → wfd_sent o (gnc_wfd q) → zlen (payload (go_negotiation_confirmation_fields q)) ≤ 251 →
     ∃ frame, p2p_build_go_negotiation_confirmation junk q = Ok frame ∧
              p2p_parse_go_negotiation_confirmation fresh (frame +! 7) (zlen frame - 7) = Ok (q <| gnc_wfd := wfd_read o |>)) ∧
  (∀ q o, invitation_req_ok q → inq_device_password_id q = 0 → wfd_sent o (inq_wfd q) → zlen (payload (invitation_req_fields q)) ≤ 251 →
     ∃ frame, p2p_build_invitation_req junk q = Ok frame ∧
              p2p_parse_invitation_req fresh (frame +! 7) (zlen frame - 7) = Ok (q <| inq_wfd := wfd_read o |>)) ∧
  (∀ q o, invitation_resp_ok q → wfd_sent o (inr_wfd q) → zlen (payload (invitation_resp_fields q)) ≤ 251 →
     ∃ frame, p2p_build_invitation_resp junk q = Ok frame ∧
              p2p_parse_invitation_resp fresh (frame +! 7) (zlen frame - 7) = Ok (q <| inr_wfd := wfd_read o |>)) ∧
  (∀ q, device_disc_req_ok q →
     ∃ frame, p2p_build_device_disc_req junk q = Ok frame ∧ p2p_parse_device_disc_req fresh (frame +! 7) (zlen frame - 7) = Ok q) ∧
  (∀ q, token_ok (ddr_dialog_token q) → byte_ok (ddr_status q) →
     ∃ frame, p2p_build_device_disc_resp junk q = Ok frame ∧ p2p_parse_device_disc_resp fresh (frame +! 7) (zlen frame - 7) = Ok q) ∧
  (∀ q o, provision_disc_req_ok q → pdq_session_info q = zero_session → wfd_sent o (pdq_wfd q) →
     zlen (payload (provision_disc_req_fields q)) ≤ 251 →
     ∃ frame, p2p_build_provision_disc_req junk q = Ok frame ∧
              p2p_parse_provision_disc_req fresh (frame +! 7) (zlen frame - 7) = Ok (q <| pdq_wfd := wfd_read o |>)) ∧
  (∀ token method w o, token_ok token → 0 < method < 65536 → popcount method = 1 → wfd_sent o w →
     ∃ frame, p2p_build_provision_disc_resp junk (provision_disc_answer token method w) = Ok frame ∧
              p2p_parse_provision_disc_resp fresh (frame +! 7) (zlen frame - 7) = Ok (provision_disc_answer token method (wfd_read o))) ∧
  (∀ q, absence_ok false (noa_notice_of_absence q) → zlen (payload [absence_field false (noa_notice_of_absence q)]) ≤ 251 →
     ∃ frame, p2p_build_notice_of_absence junk q = Ok frame ∧ p2p_parse_notice_of_absence fresh (frame +! 6) (zlen frame - 6) = Ok q) ∧
  (∃ frame, p2p_build_go_disc_req junk = Ok frame ∧ p2p_parse_go_disc_req (frame +! 6) (zlen frame - 6) = Ok tt).
Proof.
  split_and!; intros;
    [by apply go_negotiation_req_roundtrip | by apply go_negotiation_resp_roundtrip | by apply go_negotiation_confirmation_roundtrip
    | by apply invitation_req_roundtrip | by apply invitation_resp_roundtrip | by apply device_disc_req_roundtrip
    | by apply device_disc_resp_roundtrip | by apply provision_disc_req_roundtrip | by apply provision_disc_resp_roundtrip
    | by apply notice_of_absence_roundtrip | apply go_disc_req_roundtrip].
Qed.

(** ** Examples *)

Definition a_device_type : wsc_primary_device_type := mk_pdt 1 [0; 0x50; 0xf2] 4 1.
Definition a_device : p2p_device_info_attr :=
  mk_device_info [2; 0; 0; 0; 0; 1] 0x188 a_device_type (Queue [a_device_type]) [84; 86].
Definition a_channel : p2p_channel_attr := mk_channel [85; 83; 4] 81 6.
Definition a_channel_list : p2p_channel_list_attr := mk_channel_list [85; 83; 4] (Queue [mk_channel_entries 81 3 [1; 6; 11]]).

Lemma a_device_ok opt : device_info_ok opt a_device.
Proof.
  left. refine (conj _ (conj _ (conj _ (conj _ (conj _ _))))); [by_eval | by_eval | split; by_eval | | by_eval | done].
  exists [a_device_type]. refine (conj eq_refl (conj _ eq_refl)). apply list.Forall_singleton. split; by_eval.
Qed.
Lemma a_channel_list_ok opt : channels_ok opt a_channel_list.
Proof. refine (conj eq_refl (conj _ _)); [by_eval |]. left. exists [mk_channel_entries 81 3 [1; 6; 11]]. split; [done |]. by_eval. Qed.
Lemma a_channel_ok opt : channel_ok opt a_channel.
Proof. refine (conj eq_refl (conj _ (conj _ (conj _ _)))); [by_eval | by_eval | by_eval | intros _; discriminate]. Qed.



(** A GO negotiation request with a WFD element. *)
Definition a_go_negotiation_req : p2p_go_negotiation_req :=
  mk_p2p_go_negotiation_req 3 (mk_capability 0x25 0x08) 7 true (mk_config_timeout 50 10) a_channel zero_listen [2; 0; 0; 0; 0; 2]
    a_channel_list a_device a_channel 4
    (let ie := tlv_encode_all (vendor_opt wifi_alliance_oui 0x0a (Some [0; 0; 6; 0; 0x10; 0x1c; 0x44; 0; 36])) in mk_wfd (Some ie) (inr (zlen ie))).

Lemma p2p_frames_roundtrip_witness :
  go_negotiation_req_ok a_go_negotiation_req ∧ zlen (payload (go_negotiation_req_fields a_go_negotiation_req)) ≤ 251 ∧
  ∃ frame, p2p_build_go_negotiation_req (λ _, 0) a_go_negotiation_req = Ok frame ∧
           p2p_parse_go_negotiation_req (λ _, 0) (frame +! 7) (zlen frame - 7) =
           Ok (a_go_negotiation_req <| gnq_wfd := wfd_read (Some [0; 0; 6; 0; 0x10; 0x1c; 0x44; 0; 36]) |>).
Proof.
  assert (Hok : go_negotiation_req_ok a_go_negotiation_req).
  { split; [| by_eval]. refine (conj _ (conj _ (conj _ (conj _ (conj (conj (a_channel_ok false) _) (conj _ (conj _
      (conj (a_channel_list_ok false) (conj (a_device_ok false) (conj (a_channel_ok false) _)))))))))); by_eval. }
  split; [exact Hok |]. assert (Hs : zlen (payload (go_negotiation_req_fields a_go_negotiation_req)) ≤ 251) by (vm_compute; discriminate). split; [exact Hs |].
  refine (proj1 (p2p_frames_roundtrip (λ _, 0) (λ _, 0)) a_go_negotiation_req _ Hok _ Hs). refine (conj eq_refl (conj _ _)); by_eval.
Defined.
