(* ===== verification/P2pFaults.v ===== *)
(** * Wi-Fi Direct: messages that go wrong (src/p2putil.c)

    Messages that a parser reads out of bounds or frees twice for, messages that are built and
    then refused by the parser of the same file, and a builder that does not end. *)

From stdpp Require Import base numbers list option.
From Stdlib Require Import ZArith Lia.
From S2P Require Import Prelude StRes IeTlv IeMisc Crypto Handshake EapolFrame EapSpec Mschap Wsc WscMsg WscSafe WscSpec WscRun.
From S2P Require Import P2p P2pMsg P2pSafe P2pSpec P2pFields P2pRun P2pFrames.

Open Scope Z_scope.

(** ** Received messages *)

(** The elements of a frame whose P2P attributes start with [d] of the type [t], with the bytes
    [rest] behind it, and with any WSC and WFD attributes. *)
Definition first_attr (t : Z) (d rest : list Z) (wsc wfd : option (list Z)) : list Z :=
  tlv_encode_all (frame_elems (Some (p2p_attr_bytes (t, d) ++ rest)) wsc wfd).
Definition first_attr_ok (t : Z) (d rest : list Z) (wsc wfd : option (list Z)) : Prop :=
  payload_ok (Some (p2p_attr_bytes (t, d) ++ rest)) ∧ payload_ok wsc ∧ payload_ok wfd.

(** A descriptor of a service that its attribute ends within: before the length of the name, or
    before the end of the name. *)
Definition cut_service (tail : list Z) : Prop := tail ≠ [] ∧ ∀ n, tail !! 6%nat = Some n → zlen tail < 7 + n.

Section faults.
Variables (junk fresh : nat → Z).

(** ** Parsers that go wrong at the first attribute *)

Lemma first_attr_step t d rest wsc wfd es es' h :
  first_attr_ok t d rest wsc wfd → 0 ≤ t < 256 → mark_present t es = Some es' → p2p_handler_for_type t = Some h →
  ∃ fuel it, (r ← p2p_parse_attrs fresh (first_attr t d rest wsc wfd) (zlen (first_attr t d rest wsc wfd)) es; Ok r) =
    ('(ok, es, vs) ←
       ('(ok, v) ← h (d ++ rest) (zlen d);
        if (ok : bool) then p2p_attrs_loop fuel it es' (left_behind t v) else Ok (false, es', left_behind t v));
     if negb ok then Ok (Some EBADMSG, vs)
     else if negb (forallb (λ e, pe_present e || negb (pe_required e)) es) then Ok (Some EINVAL, vs)
     else Ok (None, vs)).
Proof.
  intros (Hp & Hw & Hd) Ht Hm Hh. unfold p2p_parse_attrs, first_attr. rewrite frame_p2p by done. rewrite bind_ok.
  set (P := p2p_attr_bytes (t, d) ++ rest) in *. assert (Hl : zlen P = 3 + zlen d + zlen rest) by (unfold P; rewrite zlen_app, zlen_p2p_attr_bytes; cbn; lia).
  destruct (Hp P eq_refl) as [_ Hs]. znn. unfold payload_result. rewrite decide_False by (intros E; rewrite E in Hl; change (zlen (@nil Z)) with 0 in Hl; lia).
  destruct (p2p_attr_iter_next_attr [] t d rest (p2p_attr_iter_init P (zlen P))) as (it & Hn & _ & Hty & Hit & Hg); [done | done | lia |].
  exists (Z.to_nat (zlen P)), it. cbn [p2p_attrs_loop]. rewrite Hn, bind_ok. cbv beta iota. rewrite Hty, Hm, Hh. cbn [nonnull].
  rewrite bind_ok, Hg, Hit. cbn [app]. destruct (h (d ++ rest) (zlen d)) as [[ok v]|e| |]; [| done..]. rewrite !bind_ok.
  cbv beta iota zeta. destruct ok; [| done]. destruct (p2p_attrs_loop _ it es' _) as [[[ok' ?] ?]|? | |]; [| done..]. rewrite !bind_ok.
  by destruct ok', (forallb _ _).
Qed.

Lemma bind_ret_res {A} (m : res A) : (r ← m; Ok r) = m.
Proof. by destruct m. Qed.

(** The parser of the attributes faults where the decoder of the first one does. *)
Lemma first_attr_faults t d rest wsc wfd es es' h :
  first_attr_ok t d rest wsc wfd → 0 ≤ t < 256 → mark_present t es = Some es' → p2p_handler_for_type t = Some h →
  h (d ++ rest) (zlen d) = Fault →
  p2p_parse_attrs fresh (first_attr t d rest wsc wfd) (zlen (first_attr t d rest wsc wfd)) es = Fault.
Proof.
  intros Hok Ht Hm Hh Hf. destruct (first_attr_step t d rest wsc wfd es es' h Hok Ht Hm Hh) as (fuel & it & E).
  rewrite bind_ret_res in E. rewrite E, Hf. done.
Qed.

(** A first attribute that is refused ends the parser, with what its decoder left behind. *)
Lemma first_attr_refused t d rest wsc wfd es es' h v :
  first_attr_ok t d rest wsc wfd → 0 ≤ t < 256 → mark_present t es = Some es' → p2p_handler_for_type t = Some h →
  h (d ++ rest) (zlen d) = Ok (false, v) →
  p2p_parse_attrs fresh (first_attr t d rest wsc wfd) (zlen (first_attr t d rest wsc wfd)) es = Ok (Some EBADMSG, left_behind t v).
Proof.
  intros Hok Ht Hm Hh Hf. destruct (first_attr_step t d rest wsc wfd es es' h Hok Ht Hm Hh) as (fuel & it & E).
  rewrite bind_ret_res in E. rewrite E, Hf. done.
Qed.

(** The members of a client of a group are read although the frame ends before them. *)
Lemma client_info_short body n : zlen body < 15 → client_info body n = Fault.
Proof. unfold zlen. intros Hl. do 15 (destruct body as [|? body]; [reflexivity |]). cbn [length] in Hl. lia. Qed.

Lemma group_info_short n body : 0 ≤ n ≤ zlen body → zlen body < 15 → extract_p2p_group_info (n :: body) (zlen (n :: body)) = Fault.
Proof.
  intros Hn Hb. unfold extract_p2p_group_info. rewrite zlen_cons. destruct (Z.to_nat (1 + zlen body)) as [|fuel] eqn:Ef; [lia |].
  cbn [group_info_loop]. destruct (Z.eqb_spec (1 + zlen body) 0); [lia |]. rewrite rd_cons_0, bind_ok.
  destruct (Z.ltb_spec (1 + zlen body) (1 + n)); [lia |]. change ((n :: body) +! 1) with body. by rewrite client_info_short.
Qed.

(** The queue of the services before the cut is freed, and left behind. *)
Lemma services_cut l tail rest :
  l ≠ [] → Forall service_ok l → cut_service tail →
  let d := (l ≫= service_bytes) ++ tail in
  extract_p2p_advertised_service_info (d ++ rest) (zlen d) = Ok (false, Some (PServices QFreed)).
Proof.
  intros Hne Hl [Ht Hn] d. unfold extract_p2p_advertised_service_info, d. rewrite <- app_assoc, zlen_app. znn.
  assert (Hpos : 0 < zlen tail) by (destruct tail; [done | rewrite zlen_cons; znn; lia]).
  destruct (services_loop_past l (tail ++ rest) (zlen tail) QNull (Z.to_nat (zlen (l ≫= service_bytes) + zlen tail)) Hl) as (fuel & Hf & ->); [lia | lia |].
  rewrite extend_null by done. destruct fuel as [|fuel]; [lia |]. cbn [services_loop].
  destruct (Z.eqb_spec (zlen tail) 0); [lia |]. destruct (Z.ltb_spec (zlen tail) 7) as [|H7]; [done |].
  destruct (rd_in tail 6 ltac:(lia)) as (m & Hr & Hlk). rewrite rd_app_l, Hr, bind_ok by lia.
  specialize (Hn m Hlk). by destruct (Z.ltb_spec (zlen tail) (7 + m)); [| lia].
Qed.

(** Session information of more than eight bytes: the copy overlaps itself.  With eight or less the
    bytes of the length are stored, whatever the attribute holds. *)
Lemma session_info_long attr len : 8 < len → extract_p2p_session_info attr len = Fault.
Proof. intros Hl. unfold extract_p2p_session_info, memcpy_within. by destruct (Z.ltb_spec (Z.abs (8 - 0)) len); [| lia]. Qed.
Lemma session_info_short attr len :
  0 ≤ len ≤ 8 → extract_p2p_session_info attr len = Ok (true, Some (PSession (mk_session_info len (ptake (len :: zeros 7) len)))).
Proof.
  intros Hl. assert (H : len = 0 ∨ len = 1 ∨ len = 2 ∨ len = 3 ∨ len = 4 ∨ len = 5 ∨ len = 6 ∨ len = 7 ∨ len = 8) by lia.
  destruct_or! H; subst len; vm_compute; reflexivity.
Qed.

Lemma group_info_faults n body wsc wfd :
  0 ≤ n ≤ zlen body → zlen body < 15 → first_attr_ok P2P_ATTR_P2P_GROUP_INFO (n :: body) [] wsc wfd →
  let ies := first_attr P2P_ATTR_P2P_GROUP_INFO (n :: body) [] wsc wfd in p2p_parse_probe_resp fresh ies (zlen ies) = Fault.
Proof.
  intros Hn Hb Hok ies. unfold p2p_parse_probe_resp, p2p_parse_whole, ies. erewrite first_attr_faults; [done | done | done | reflexivity | reflexivity |].
  rewrite app_nil_r. by apply group_info_short.
Qed.

Lemma services_fault l tail rest wsc wfd :
  l ≠ [] → Forall service_ok l → cut_service tail →
  let d := (l ≫= service_bytes) ++ tail in
  first_attr_ok P2P_ATTR_ADVERTISED_SVC_INFO d rest wsc wfd →
  let ies := first_attr P2P_ATTR_ADVERTISED_SVC_INFO d rest wsc wfd in p2p_parse_probe_resp fresh ies (zlen ies) = Fault.
Proof.
  intros Hne Hl Ht d Hok ies. unfold p2p_parse_probe_resp, p2p_parse_whole, ies.
  erewrite first_attr_refused; [| done | done | reflexivity | reflexivity | by apply services_cut]. done.
Qed.

Lemma session_faults token d rest wsc wfd :
  token_ok token → 8 < zlen d → first_attr_ok P2P_ATTR_SESSION_INFO_DATA_INFO d rest wsc wfd →
  let ies := first_attr P2P_ATTR_SESSION_INFO_DATA_INFO d rest wsc wfd in
  p2p_parse_provision_disc_req fresh (u8 token :: ies) (1 + zlen ies) = Fault.
Proof.
  intros Ht Hd Hok ies. unfold p2p_parse_provision_disc_req. rewrite dialog_token_ok by done.
  change ((u8 token :: ies) +! 1) with ies. replace (1 + zlen ies - 1) with (zlen ies) by lia. unfold ies.
  erewrite first_attr_faults; [done | done | done | reflexivity | reflexivity |]. by apply session_info_long.
Qed.

Lemma empty_negotiation_faults token id wfd w :
  token_ok token → 1 ≤ id ≤ 8 → wfd_sent wfd w →
  let ies := tlv_encode_all (frame_elems (Some []) (wsc_payload true id 0) wfd) in
  p2p_parse_go_negotiation_req fresh (u8 token :: ies) (1 + zlen ies) = Fault.
Proof.
  intros Ht Hid Hw ies. unfold p2p_parse_go_negotiation_req. rewrite dialog_token_ok by done.
  assert (Hp : payload_ok (Some [])) by (intros p [= <-]; by split).
  destruct (parse_wsc_password fresh (u8 token) (Some []) wfd w id Hp Hw Hid) as (p & Hpw & _). cbv zeta in Hpw. fold ies in Hpw.
  change ((u8 token :: ies) +! 1) with ies. replace (1 + zlen ies - 1) with (zlen ies) by lia.
  assert (Ha : ∀ es, p2p_parse_attrs fresh ies (zlen ies) es = Ok (None, [])).
  { intros es. unfold p2p_parse_attrs, ies. by rewrite frame_p2p by (done || apply wsc_payload_ok || by eapply wfd_sent_ok). }
  rewrite Ha, bind_ok. cbv beta iota zeta. by rewrite Hpw, bind_ok.
Qed.

(** ** Invitations *)

(** Without a place for the extensions their version is not found. *)
Lemma attrs_loop_version fuel s s' : attrs_loop fuel false s = Ok s' → as_version2 s' = as_version2 s.
Proof.
  revert s. induction fuel as [|fuel IH]; intros s; cbn [attrs_loop]; [done |].
  intros ([it|] & _ & H)%bind_Ok_inv; [| by injection H as <-]. apply bind_Ok_inv in H as ([t more] & Hs & H).
  assert (Ht : as_version2 t = as_version2 s).
  { unfold attrs_step in Hs. destruct (find_entry _ _) as [| |skipped e rest]; cbn [negb] in Hs; [done | by injection Hs as <- _ |].
    apply bind_Ok_inv in Hs as (h & _ & Hs). apply bind_Ok_inv in Hs as ([v|] & _ & Hs); [by injection Hs as <- _ | done]. }
  destruct more; [rewrite (IH t H); exact Ht | injection H as <-; exact Ht].
Qed.
Lemma wsc_parse_attrs_version pdu len a es p : wsc_parse_attrs pdu len false a es = Ok p → wp_version2 p = false.
Proof.
  unfold wsc_parse_attrs. intros (s & Hs%attrs_loop_version & H)%bind_Ok_inv. destruct (existsb _ _); [done |].
  apply bind_Ok_inv in H as (auth & _ & H). destruct (_ && _); [done |]. destruct (_ && _); [done |]. injection H as <-. exact Hs.
Qed.

(** No invitation is taken with a password identifier. *)
Lemma invitation_no_password pdu len q : p2p_parse_invitation_req fresh pdu len = Ok q → inq_device_password_id q = 0.
Proof.
  unfold p2p_parse_invitation_req, dialog_token. destruct (len <? 1); [done |]. intros (token & _ & H)%bind_Ok_inv.
  destruct (token =? 0); [done |]. apply bind_Ok_inv in H as ([r v] & _ & H). destruct r as [e|].
  { unfold p2p_error in H. by apply bind_Ok_inv in H as (? & _ & H). }
  apply bind_Ok_inv in H as ([e|p] & Hp & H).
  { apply bind_Ok_inv in H as (w & _ & H). by injection H as <-. }
  assert (Hv : wp_version2 p = false).
  { unfold parse_wsc in Hp. apply bind_Ok_inv in Hp as ([[d|] [e|n]] & _ & Hp); try done. unfold try_call in Hp.
    destruct (wsc_parse_attrs _ _ _ _ _) eqn:E; [| done..]. injection Hp as <-. by eapply wsc_parse_attrs_version. }
  rewrite Hv in H. cbn [negb] in H. unfold p2p_error in H. by apply bind_Ok_inv in H as (? & _ & H).
Qed.

(** ** Messages that are refused *)

Lemma dialog_token_zero {A} ies (k : Z → res A) : dialog_token (u8 0 :: ies) (1 + zlen ies) k = Err EINVAL.
Proof. unfold dialog_token. znn. by destruct (Z.ltb_spec (1 + zlen ies) 1). Qed.

Lemma presence_req_refused q :
  absence_ok false (psq_notice_of_absence q) → zlen (payload [absence_field false (psq_notice_of_absence q)]) ≤ 251 →
  ∃ frame, p2p_build_presence_req junk q = Ok frame ∧ p2p_parse_presence_req fresh (frame +! 6) (zlen frame - 6) = Err EINVAL.
Proof.
  intros H1 Hs. unfold p2p_build_presence_req. pose proof no_wfd_sent as Hw.
  frame_message (p2p_parse_presence_req fresh) [absence_field false (psq_notice_of_absence q)] Hm Hnd.
  frame_fields (p2p_parse_presence_req fresh) false Hm (@None (list Z)) (@None (list Z)). apply dialog_token_zero.
Qed.

Definition presence_resp_fields (q : p2p_presence_resp) : list field :=
  [byte_field P2P_ATTR_STATUS (psr_status q); absence_field false (psr_notice_of_absence q)].
Lemma presence_resp_refused q :
  byte_ok (psr_status q) → absence_ok false (psr_notice_of_absence q) → zlen (payload (presence_resp_fields q)) ≤ 251 →
  ∃ frame, p2p_build_presence_resp junk q = Ok frame ∧ p2p_parse_presence_resp fresh (frame +! 6) (zlen frame - 6) = Err EINVAL.
Proof.
  intros H1 H2 Hs. unfold p2p_build_presence_resp. pose proof no_wfd_sent as Hw.
  frame_message (p2p_parse_presence_resp fresh) (presence_resp_fields q) Hm Hnd.
  frame_fields (p2p_parse_presence_resp fresh) false Hm (@None (list Z)) (@None (list Z)). apply dialog_token_zero.
Qed.

(** A provision discovery response that refuses the method has no WSC element. *)
Lemma provision_failure_refused token w o :
  token_ok token → wfd_sent o w →
  ∃ frame, p2p_build_provision_disc_resp junk (provision_disc_answer token 0 w) = Ok frame ∧
           p2p_parse_provision_disc_resp fresh (frame +! 7) (zlen frame - 7) = Err ENOENT.
Proof.
  intros Ht Hw. unfold p2p_build_provision_disc_resp. change (pdr_status (provision_disc_answer token 0 w)) with (@None Z). cbv iota.
  eapply (frame_roundtrip _ (p2p_parse_provision_disc_resp fresh) true).
  { apply (action_frame_bytes _ _ _ _ _ _ _ None None o); [done | apply (wsc_frame_ie junk false 0 0) | done]. }
  unfold p2p_parse_provision_disc_resp. change (pdr_dialog_token (provision_disc_answer token 0 w)) with token.
  rewrite dialog_token_ok by done. set (ies := tlv_encode_all (frame_elems None None o)).
  destruct (behind_token (u8 token) None None o) as [E1 E2]. fold ies in E1, E2. rewrite E1, E2.
  assert (Hp0 : ∀ es, p2p_parse_attrs fresh ies (zlen ies) es = Ok (Some ENOENT, [])).
  { intros es. unfold p2p_parse_attrs, ies. rewrite frame_p2p by (apply no_payload || by eapply wfd_sent_ok). done. }
  rewrite Hp0, bind_ok. cbv beta iota zeta.
  unfold ies. erewrite parse_wsc_none by (eassumption || apply no_payload || reflexivity). done.
Qed.

(** ** A builder that does not end *)

(** Room for the header of an attribute and the data so far; the counters may have wrapped. *)
Definition room (b : p2p_attr_builder) : Prop :=
  16 ≤ pb_capacity b ∧ pb_capacity b = zlen (pb_buf b) ∧ 0 ≤ pb_offset b ∧ 0 ≤ pb_curlen b ∧ pb_offset b + 3 + pb_curlen b ≤ pb_capacity b.

Definition keeps_room (m : sr p2p_attr_builder unit) : Prop := ∀ b, room b → wp m (λ _, room) b.

Lemma keeps_seq m m' : keeps_room m → keeps_room m' → keeps_room (m;; m').
Proof. intros Hm Hm' b Hb. sr_seq. eapply wp_mono; [by apply Hm |]. intros u b' H'. by apply Hm'. Qed.

Lemma room_append pos l b :
  room b → pos = pb_offset b + 3 + pb_curlen b → pos + zlen l ≤ pb_capacity b →
  wp (pb_write pos l;; pb_set (pb_offset b) (pb_curlen b + zlen l)) (λ _, room) b.
Proof.
  intros (Hc & Hz & Ho & Hl & Hr) Hp Hfit. sr_seq. znn.
  assert (Hput : put (pb_buf b) pos l = Ok (ptake (pb_buf b) pos ++ l ++ (pb_buf b +! (pos + zlen l)))).
  { pose proof (put_mid (ptake (pb_buf b) pos) (ptake (pb_buf b +! pos) (zlen l)) (pb_buf b +! pos +! zlen l) l pos) as Hpm.
    rewrite !ptake_padd_id in Hpm. rewrite padd_padd in Hpm by lia. apply Hpm; rewrite zlen_ptake; rewrite ?zlen_padd; lia. }
  unfold pb_write. sr_seq. eapply wp_run; [exact Hput |]. sr_seq. unfold pb_set. sr_seq. unfold room. cbn [pb_capacity pb_buf pb_offset pb_curlen].
  rewrite !zlen_app, zlen_ptake, zlen_padd by lia.
  assert (u16 (pb_offset b) ≤ pb_offset b ∧ u16 (pb_curlen b + zlen l) ≤ pb_curlen b + zlen l ∧ 0 ≤ u16 (pb_offset b) ∧ 0 ≤ u16 (pb_curlen b + zlen l)).
  { unfold u16. split_and!; try (apply Z.mod_le; lia); apply Z.mod_pos_bound; lia. }
  split_and!; lia.
Qed.

Lemma keeps_put l : zlen l ≤ 16 → keeps_room (pb_put junk l).
Proof.
  intros Hl b Hb. unfold pb_put. sr_seq. pose proof Hb as (Hc & Hz & Ho & Hcl & Hr). znn.
  eapply (wp_mono _ (λ _ b', room b' ∧ pb_offset b' = pb_offset b ∧ pb_curlen b' = pb_curlen b ∧ pb_offset b + 3 + pb_curlen b + zlen l ≤ pb_capacity b')).
  { destruct (Z.leb_spec (pb_capacity b) (pb_offset b + 3 + pb_curlen b + zlen l)).
    - unfold p2p_attr_builder_grow. sr_seq. unfold room. cbn [pb_capacity pb_buf pb_offset pb_curlen]. rewrite zlen_app, l_malloc_length by lia. split_and!; lia.
    - apply wp_pass. split_and!; [done | done | done | lia]. }
  intros u b' (H' & E1 & E2 & Hfit); clear u. rewrite <- E1, <- E2. apply room_append; [done | done | lia].
Qed.

Lemma keeps_type t : zlen (pdt_oui t) = 3 → keeps_room (p2p_build_wsc_device_type junk t).
Proof.
  intros Ho. unfold p2p_build_wsc_device_type. apply keeps_seq; [by apply keeps_put |].
  apply keeps_seq; [| apply keeps_seq; by apply keeps_put]. intros b Hb. unfold p2p_attr_builder_put_oui. sr_seq.
  eapply wp_run; [apply rdn_ok; lia |]. apply keeps_put; [| exact Hb]. rewrite zlen_ptake; lia.
Qed.

Lemma diverges_after m (k : unit → sr p2p_attr_builder unit) Q b :
  wp m (λ _, Q) b → (∀ b', Q b' → k tt b' = Diverge) → (m ≫= k) b = Diverge.
Proof. intros (u & b' & E & H)%wp_inv Hk. destruct u. unfold mbind, sr_bind. rewrite E. by apply Hk. Qed.

Lemma six_bytes (l : list Z) : zlen l = 6 → ∃ a b c d e f, l = [a; b; c; d; e; f].
Proof.
  unfold zlen. intros Hl. do 6 (destruct l as [|? l]; [cbn in Hl; lia |]). destruct l; [by do 6 eexists | cbn in Hl; lia].
Qed.

(** With another client behind the first, its types are written for ever. *)
Lemma group_info_types_diverges fuel t c next b :
  zlen (ci_device_addr c) = 6 → zlen (ci_interface_addr c) = 6 → zlen (pdt_oui t) = 3 → room b → group_info_types junk fuel t (c :: next) b = Diverge.
Proof.
  intros Ha Hi. revert t b. induction fuel as [|fuel IH]; intros t b Ht Hb; [done |]. cbn [group_info_types].
  eapply diverges_after; [by apply keeps_type |]. intros b' Hb'. cbv beta.
  assert (Hc : ∃ t', client_as_type c = Ok t' ∧ zlen (pdt_oui t') = 3).
  { destruct (six_bytes _ Ha) as (a0 & a1 & a2 & a3 & a4 & a5 & Ea), (six_bytes _ Hi) as (i0 & i1 & i2 & i3 & i4 & i5 & Ei).
    unfold client_as_type. rewrite Ea, Ei. eexists. by split. }
  destruct Hc as (t' & Hc & Ht'). unfold run at 1, mbind, sr_bind. rewrite Hc. by apply IH.
Qed.

Lemma open_room pre t d b : p2p_open pre t d b → room b.
Proof.
  intros H. pose proof (p2p_open_room _ _ _ _ H). destruct H as (Hc & Hz & gap & rest & Hg & Ho & Hl & Hb).
  unfold room. rewrite Ho, Hl in *. znn. split_and!; try done; lia.
Qed.

(** The first client has a secondary type, and there is another client. *)
Definition endless_clients (q : l_queue p2p_client_info_descriptor) : Prop :=
  ∃ c c' l t ts, q = Queue (c :: c' :: l) ∧ ci_secondary_device_types c = Queue (t :: ts) ∧ zlen (pdt_oui t) = 3 ∧
    zlen (ci_device_addr c) = 6 ∧ zlen (ci_interface_addr c) = 6 ∧ type_ok (ci_primary_device_type c) ∧
    zlen (ci_device_addr c') = 6 ∧ zlen (ci_interface_addr c') = 6.

Lemma build_group_info_diverges fuel q k b :
  endless_clients q → p2p_rep k b → filled k → zlen (p2p_attrs_bytes k) < 65000 → p2p_build_group_info junk fuel q b = Diverge.
Proof.
  intros (c & c' & l & t & ts & -> & Eq & Ht & Ha & Hi & Hp & Ha' & Hi') Hb Hf Hs. unfold p2p_build_group_info. cbn [is_null].
  eapply diverges_after; [apply p2p_start_attr_ok; [done | done | lia] |]. clear b Hb. intros b Hb. cbv beta.
  unfold run at 1, mbind at 1, sr_bind at 1. cbn [l_queue_get_entries build_clients].
  assert (Hz : ∀ d, zlen d ≤ 40 → zlen (p2p_attrs_bytes (k ++ [(P2P_ATTR_P2P_GROUP_INFO, d)])) < 65536).
  { intros d Hd. rewrite zlen_p2p_attrs_snoc. lia. }
  eapply diverges_after; [apply (p2p_appends_array junk (ci_device_addr c) 6 Ha k _ [] b Hb); apply Hz; cbn [app]; lia |]. clear b Hb. intros b Hb. cbv beta.
  eapply diverges_after; [apply (p2p_appends_array junk (ci_interface_addr c) 6 Hi _ _ _ b Hb); apply Hz; rewrite !zlen_app, zlen_nil; lia |].
  clear b Hb. intros b Hb%open_room. cbv beta.
  eapply diverges_after; [by apply keeps_put |]. clear b Hb. intros b Hb. cbv beta.
  eapply diverges_after; [by apply keeps_put |]. clear b Hb. intros b Hb. cbv beta.
  eapply diverges_after; [apply keeps_type; [apply Hp | exact Hb] |]. clear b Hb. intros b Hb. cbv beta.
  rewrite Eq. unfold run at 1, mbind at 1, sr_bind at 1. cbn [l_queue_get_entries].
  eapply diverges_after; [by apply keeps_put |]. clear b Hb. intros b Hb. cbv beta.
  unfold mbind at 1, sr_bind at 1. by rewrite group_info_types_diverges.
Qed.

Lemma diverges_field m f pre (k : unit → sr p2p_attr_builder unit) b :
  sends m f → p2p_rep (attrs_of pre) b → filled (attrs_of (pre ++ [f])) → zlen (payload (pre ++ [f])) < 65536 →
  (∀ b', p2p_rep (attrs_of (pre ++ [f])) b' → k tt b' = Diverge) → (m ≫= k) b = Diverge.
Proof.
  intros Hm Hb Hf Hs Hk. unfold payload in Hs. unfold attrs_of in Hf, Hs, Hk. rewrite bind_app in Hf, Hs, Hk.
  eapply diverges_after; [by apply (Hm _ b Hb) | exact Hk].
Qed.

Lemma zlen_payload_app fs gs : zlen (payload (fs ++ gs)) = zlen (payload fs) + zlen (payload gs).
Proof. unfold payload, attrs_of. by rewrite bind_app, p2p_attrs_bytes_app, zlen_app. Qed.

Definition endless_fields (q : p2p_probe_resp) : list field :=
  [cap_field (ppr_capability q); listen_field (ppr_listen_availability q); absence_field true (ppr_notice_of_absence q);
   device_info_field false (ppr_device_info q)].

Lemma probe_resp_endless fuel q :
  absence_ok true (ppr_notice_of_absence q) → device_info_ok false (ppr_device_info q) → endless_clients (ppr_group_clients q) →
  zlen (payload (endless_fields q)) < 65000 → p2p_build_probe_resp junk fuel q = Diverge.
Proof.
  intros Hn Hd Hc Hs. unfold p2p_build_probe_resp, p2p_encapsulate, p2p_run.
  set (fs := endless_fields q) in *. unfold payload in Hs.
  match goal with |- ((((?m ≫= _) _) ≫= _) ≫= _) = _ => assert (Hm : m (p2p_attr_builder_new junk 512) = Diverge) end; [| unfold mbind at 3, sr_bind at 1; by rewrite Hm].
  assert (H0 : p2p_rep (attrs_of []) (p2p_attr_builder_new junk 512)) by (left; by split_and!).
  assert (Hsz : ∀ pre post, fs = pre ++ post → zlen (payload pre) < 65536).
  { intros pre post E. pose proof (zlen_payload_app pre post) as Ez. rewrite <- E in Ez. pose proof (zlen_nonneg (payload post)). unfold payload in *. lia. }
  eapply diverges_field; [apply sends_cap | exact H0 | exact I | by eapply Hsz |]. intros b1 H1. cbv beta.
  eapply diverges_field; [apply sends_listen | exact H1 | exact I | by eapply Hsz |]. intros b2 H2. cbv beta.
  eapply diverges_field; [by apply sends_absence | exact H2 | exact I | by eapply Hsz |]. intros b3 H3. cbv beta.
  eapply diverges_field; [by apply sends_device_info | exact H3 | exact I | by eapply Hsz |]. intros b4 H4. cbv beta.
  unfold mbind at 1, sr_bind at 1. by rewrite (build_group_info_diverges fuel _ _ b4 Hc H4).
Qed.

(** ** Random strings *)

(** With unsigned characters the string is as long as the buffer, and of the letters and digits. *)
Lemma random_char_unsigned b : byte_ok b → ∃ c, random_char false b = Ok c ∧ c ∈ CHARSET.
Proof.
  intros Hb. unfold byte_ok in Hb. unfold random_char. cbn [andb]. change (zlen CHARSET) with 62. rewrite Z.rem_mod_nonneg by lia.
  assert (Hr : 0 ≤ b mod 62 < zlen CHARSET) by (change (zlen CHARSET) with 62; apply Z.mod_pos_bound; lia).
  destruct (rd_in CHARSET (b mod 62) Hr) as (c & Hc & Hl). exists c. split; [exact Hc |]. by eapply list_elem_of_lookup_2.
Qed.
Lemma random_string_unsigned random :
  bytes_ok random → ∃ s, p2p_get_random_string false random = Ok s ∧ length s = length random ∧ Forall (λ c, c ∈ CHARSET) s.
Proof.
  induction 1 as [|b random Hb _ (s & Hs & Hl & Hf)]; [by exists [] |]. destruct (random_char_unsigned b Hb) as (c & Hc & Hin).
  exists (c :: s). cbn [p2p_get_random_string]. rewrite Hc, bind_ok, Hs, bind_ok. split_and!; [done | cbn; by rewrite Hl | by apply Forall_cons_2].
Qed.

(** With signed characters half of the bytes index the array before its start. *)
Lemma random_char_signed b : 128 ≤ b < 256 → b ≠ 132 → b ≠ 194 → random_char true b = Fault.
Proof.
  intros Hb H1 H2. assert (Hin : In b (seqZ 128 128)) by (apply list_elem_of_In, elem_of_seqZ; lia).
  assert (Hall : forallb (λ b, (b =? 132) || (b =? 194) || match random_char true b with Fault => true | _ => false end) (seqZ 128 128) = true) by (vm_compute; reflexivity).
  rewrite forallb_forall in Hall. specialize (Hall b Hin). rewrite !orb_true_iff, !Z.eqb_eq in Hall.
  destruct Hall as [[?|?]|Hall]; [done | done |]. by destruct (random_char true b).
Qed.

(** ** GO negotiation with the default password identifier *)

(** The identifier zero is left out of the WSC attributes, where the parser requires it. *)
Lemma go_negotiation_default_refused q o :
  go_negotiation_req_body q → gnq_device_password_id q = 0 → wfd_sent o (gnq_wfd q) → zlen (payload (go_negotiation_req_fields q)) ≤ 251 →
  ∃ frame, p2p_build_go_negotiation_req junk q = Ok frame ∧ p2p_parse_go_negotiation_req fresh (frame +! 7) (zlen frame - 7) = Err EBADMSG.
Proof.
  intros (Ht & H1 & H2 & H3 & [H4 H4'] & H5 & H6 & H7 & H8 & [H9 H9']) Hid Hw Hs.
  unfold p2p_build_go_negotiation_req. rewrite Hid.
  frame_message (p2p_parse_go_negotiation_req fresh) (go_negotiation_req_fields q) Hm Hnd.
  frame_fields (p2p_parse_go_negotiation_req fresh) true Hm (wsc_payload true 0 0) o.
  unfold p2p_parse_go_negotiation_req. parsed_fields Hm (wsc_payload true 0 0) o.
  erewrite parse_wsc_frame by (eassumption || apply wsc_payload_ok || exact (message_payload _ _ _ Hm) || reflexivity || done).
  change (try_call (wsc_parse_attrs _ _ _ _ _)) with (Ok (A := errno + wsc_parsed) (inl EBADMSG)). rewrite bind_ok.
  unfold d_go_negotiation_req. repeat read_field. unfold p2p_error, p2p_clear_go_negotiation_req. cbn [gnq_channel_list gnq_device_info].
  destruct H7 as (_ & _ & [(l & El & _)|[? _]]); [| done]. destruct H8 as [(_ & _ & _ & (l' & El' & _) & _)|[? _]]; [| done].
  unfold p2p_clear_channel_list_attr, p2p_clear_device_info_attr. by rewrite El, El'.
Qed.
End faults.

(** What the parsers of the file do not take although its builders write it: presence requests and
    responses, whose dialog token is not sent; a provision discovery response that refuses, which
    has no WSC element; and a GO negotiation request with the default password identifier, which
    is left out. *)
Theorem p2p_unreadable_frames junk fresh :
  (∀ q, absence_ok false (psq_notice_of_absence q) → zlen (payload [absence_field false (psq_notice_of_absence q)]) ≤ 251 →
     ∃ frame, p2p_build_presence_req junk q = Ok frame ∧ p2p_parse_presence_req fresh (frame +! 6) (zlen frame - 6) = Err EINVAL) ∧
  (∀ q, byte_ok (psr_status q) → absence_ok false (psr_notice_of_absence q) → zlen (payload (presence_resp_fields q)) ≤ 251 →
     ∃ frame, p2p_build_presence_resp junk q = Ok frame ∧ p2p_parse_presence_resp fresh (frame +! 6) (zlen frame - 6) = Err EINVAL) ∧
  (∀ token w o, token_ok token → wfd_sent o w →
     ∃ frame, p2p_build_provision_disc_resp junk (provision_disc_answer token 0 w) = Ok frame ∧
              p2p_parse_provision_disc_resp fresh (frame +! 7) (zlen frame - 7) = Err ENOENT) ∧
  (∀ q o, go_negotiation_req_body q → gnq_device_password_id q = 0 → wfd_sent o (gnq_wfd q) →
     zlen (payload (go_negotiation_req_fields q)) ≤ 251 →
     ∃ frame, p2p_build_go_negotiation_req junk q = Ok frame ∧ p2p_parse_go_negotiation_req fresh (frame +! 7) (zlen frame - 7) = Err EBADMSG).
Proof.
  split_and!; intros;
    [by apply presence_req_refused | by apply presence_resp_refused | by eapply provision_failure_refused | by eapply go_negotiation_default_refused].
Qed.

Lemma p2p_unreadable_frames_witness :
  let q := mk_p2p_presence_req 5 (mk_absence 1 true 10 (Queue [mk_absence_desc 1 2 3 4])) in
  ∃ frame, p2p_build_presence_req (λ _, 0) q = Ok frame ∧ p2p_parse_presence_req (λ _, 0) (frame +! 6) (zlen frame - 6) = Err EINVAL.
Proof.
  intros q. apply (proj1 (p2p_unreadable_frames (λ _, 0) (λ _, 0)) q); [| vm_compute; discriminate].
  refine (conj _ (conj _ (conj _ _))); [by_eval | by_eval | discriminate |]. left. exists [mk_absence_desc 1 2 3 4]. split; [done |]. by_eval.
Defined.

(** C30: Received frames for which the parsers go wrong.  Each starts its P2P attributes (of 251 bytes
    in all at the most, and with any WSC and WFD attributes of as many) with the one that is named:
    - group information that ends the P2P attributes and in which the first descriptor has the
      length it says, but the attribute fewer than 15 bytes behind it (the decoder reads 24 before
      it looks at the length, the first 15 of them whatever they hold): the probe response is read
      out of bounds;
    - one or more well-formed advertised services and another that is cut: the queue of the probe
      response is freed twice;
    - session information of more than eight bytes: the copy in the provision discovery request is
      from the structure and overlaps itself; with eight bytes or less what is stored are the bytes
      of the length, whatever the attribute holds;
    - and if there is a P2P element without any attribute, and the WSC attributes of a GO
      negotiation request, the GO intent is read although nothing was stored there.
    Besides, no invitation whatsoever is taken with a password identifier. *)
Theorem p2p_parser_faults fresh :
  (∀ n body wsc wfd, 0 ≤ n ≤ zlen body → zlen body < 15 → first_attr_ok P2P_ATTR_P2P_GROUP_INFO (n :: body) [] wsc wfd →
     let ies := first_attr P2P_ATTR_P2P_GROUP_INFO (n :: body) [] wsc wfd in p2p_parse_probe_resp fresh ies (zlen ies) = Fault) ∧
  (∀ l tail rest wsc wfd, l ≠ [] → Forall service_ok l → cut_service tail →
     let d := (l ≫= service_bytes) ++ tail in
     first_attr_ok P2P_ATTR_ADVERTISED_SVC_INFO d rest wsc wfd →
     let ies := first_attr P2P_ATTR_ADVERTISED_SVC_INFO d rest wsc wfd in p2p_parse_probe_resp fresh ies (zlen ies) = Fault) ∧
  (∀ token d rest wsc wfd, token_ok token → 8 < zlen d → first_attr_ok P2P_ATTR_SESSION_INFO_DATA_INFO d rest wsc wfd →
     let ies := first_attr P2P_ATTR_SESSION_INFO_DATA_INFO d rest wsc wfd in
     p2p_parse_provision_disc_req fresh (u8 token :: ies) (1 + zlen ies) = Fault) ∧
  (∀ attr len, 0 ≤ len ≤ 8 →
     extract_p2p_session_info attr len = Ok (true, Some (PSession (mk_session_info len (ptake (len :: zeros 7) len))))) ∧
  (∀ token id wfd w, token_ok token → 1 ≤ id ≤ 8 → wfd_sent wfd w →
     let ies := tlv_encode_all (frame_elems (Some []) (wsc_payload true id 0) wfd) in
     p2p_parse_go_negotiation_req fresh (u8 token :: ies) (1 + zlen ies) = Fault) ∧
  (∀ pdu len q, p2p_parse_invitation_req fresh pdu len = Ok q → inq_device_password_id q = 0).
Proof.
  split_and!; [apply group_info_faults | apply services_fault | apply session_faults | apply session_info_short | apply empty_negotiation_faults
    | apply invitation_no_password].
Qed.

(** An empty descriptor; a service that is followed by one byte; nine bytes of session information;
    and four, of which the length is stored. *)
Lemma p2p_parser_faults_witness :
  let fresh := λ _ : nat, 0 in
  let group := first_attr P2P_ATTR_P2P_GROUP_INFO [0] [] None None in
  let service := mk_service 1 0x100 [65] in
  let services := first_attr P2P_ATTR_ADVERTISED_SVC_INFO (service_bytes service ++ [2]) [] None None in
  let session := first_attr P2P_ATTR_SESSION_INFO_DATA_INFO [1; 2; 3; 4; 5; 6; 7; 8; 9] [] None None in
  let negotiation := tlv_encode_all (frame_elems (Some []) (wsc_payload true 4 0) None) in
  p2p_parse_probe_resp fresh group (zlen group) = Fault ∧
  p2p_parse_probe_resp fresh services (zlen services) = Fault ∧
  p2p_parse_provision_disc_req fresh (1 :: session) (1 + zlen session) = Fault ∧
  extract_p2p_session_info [9; 8; 7; 6] 4 = Ok (true, Some (PSession (mk_session_info 4 [4; 0; 0; 0]))) ∧
  p2p_parse_go_negotiation_req fresh (1 :: negotiation) (1 + zlen negotiation) = Fault.
Proof.
  intros fresh group service services session negotiation.
  assert (Hok : ∀ t d, bytes_ok (p2p_attr_bytes (t, d) ++ []) → zlen (p2p_attr_bytes (t, d) ++ []) ≤ 251 → first_attr_ok t d [] None None)
    by (intros t d Hb Hl; split; [| by split]; intros p [= <-]; by split).
  destruct (p2p_parser_faults fresh) as (H1 & H2 & H3 & H4 & H5 & _). split_and!.
  - apply (H1 0 [] None None); [by split | done |]. apply Hok; by_eval.
  - apply (H2 [service] [2] [] None None); [done | | by split; [| intros n Hn; discriminate Hn] |].
    + apply list.Forall_cons. split; [| apply Forall_nil_2].
      refine (conj _ (conj _ (conj (conj _ (ex_intro _ [65] (conj _ _))) (conj _ _)))); by_eval.
    + apply Hok; by_eval.
  - apply (H3 1 [1; 2; 3; 4; 5; 6; 7; 8; 9] [] None None); [by split | done |]. apply Hok; by_eval.
  - exact (H4 [9; 8; 7; 6] 4 ltac:(lia)).
  - apply (H5 1 4 None no_wfd); [by split | lia | apply no_wfd_sent].
Defined.

(** A probe response of a group with two clients, the first of which has a secondary device type, is
    never finished: the inner loop of the builder follows the clients instead of the types. *)
Theorem p2p_group_info_endless junk q :
  absence_ok true (ppr_notice_of_absence q) → device_info_ok false (ppr_device_info q) → endless_clients (ppr_group_clients q) →
  zlen (payload (endless_fields q)) < 65000 → ∀ fuel, p2p_build_probe_resp junk fuel q = Diverge.
Proof. intros Hn Hd Hc Hs fuel. by apply probe_resp_endless. Qed.

Lemma p2p_group_info_endless_witness :
  let c := mk_client_info [2; 0; 0; 0; 0; 1] [2; 0; 0; 0; 0; 2] 0 0x80 a_device_type (Queue [a_device_type]) [65] in
  let q := mk_p2p_probe_resp (mk_capability 0 1) zero_listen zero_absence a_device (Queue [c; c]) QNull in
  ∀ fuel, p2p_build_probe_resp (λ _, 0) fuel q = Diverge.
Proof.
  intros c q. apply (p2p_group_info_endless (λ _, 0) q).
  - refine (conj _ (conj _ (conj _ _))); [by_eval | by_eval | discriminate | by right].
  - apply a_device_ok.
  - exists c, c, [], a_device_type, []. refine (conj eq_refl (conj eq_refl (conj eq_refl (conj eq_refl (conj eq_refl (conj _ (conj eq_refl eq_refl))))))). split; by_eval.
  - reflexivity.
Defined.

(** Random strings: with unsigned characters every byte is replaced by a letter or a digit; with signed
    ones most of the bytes from 128 on select an element before the array. *)
Theorem p2p_random_strings :
  (∀ random, bytes_ok random →
     ∃ s, p2p_get_random_string false random = Ok s ∧ length s = length random ∧ Forall (λ c, c ∈ CHARSET) s) ∧
  (∀ b, 128 ≤ b < 256 → b ≠ 132 → b ≠ 194 → p2p_get_random_string true [b] = Fault).
Proof.
  split; [apply random_string_unsigned |]. intros b H1 H2 H3. cbn [p2p_get_random_string]. by rewrite random_char_signed.
Qed.

Lemma p2p_random_strings_witness :
  p2p_get_random_string true [200] = Fault ∧
  ∃ s, p2p_get_random_string false [0; 200; 255] = Ok s ∧ length s = 3%nat ∧ Forall (λ c, c ∈ CHARSET) s.
Proof.
  split; [apply (proj2 p2p_random_strings); [lia | done | done] |]. apply (proj1 p2p_random_strings [0; 200; 255]). by_eval.
Defined.
